(* ===== verification/_CoqProject ===== *)
-Q . S2P
Prelude.v
Stream.v
StreamLogic.v
Transmission.v
Per.v
Ber.v
Framing.v
Arrays.v
BitStream.v
Mppc.v
MppcCorrect.v
Zgfx.v
ZgfxCorrect.v
ZgfxFormat.v
ZgfxMessages.v
Region.v
RegionBands.v
RegionCorrect.v
Rle.v
RleSafe.v
RleFormat.v
BitmapCompress.v
BitmapCompressCorrect.v
Interleaved.v
InterleavedCorrect.v
Gcc.v
Mcs.v
Rc4.v
Security.v
SecurityCorrect.v
RdpPdu.v
RdpPduCorrect.v
RdpPduSafe.v
RdpSession.v
RdpLimits.v
Bulk.v
FastPath.v
FastPathCorrect.v
FastPathSession.v
FastPathSafe.v
Input.v
InputCorrect.v
InputSafe.v
Activation.v
Peer.v
PeerCorrect.v
PeerSession.v
ActivationCorrect.v
ActivationSession.v
Nego.v
NegoCorrect.v
NegoMessages.v
EncodedTypes.v
Ring.v
Queue.v
RingBuffer.v
HashTable.v
HashTableCorrect.v
HashTableMap.v
