(* ===== verification/Prelude.v ===== *)
(** Verification of the protocol core of FreeRDP: the layers that take the bytes
    of an RDP connection apart and put them together, the bulk codecs, bitmaps and
    regions of the screen, and the WinPR containers these are built on.

    ** The program

    FreeRDP (src/libfreerdp) implements the Remote Desktop Protocol on top of its
    portable runtime WinPR (src/winpr).  A connection is a tower of formats:
    TPKT frames (core/tpkt.c) carry X.224 TPDUs (core/tpdu.c), which carry T.125
    MCS PDUs (core/mcs.c); these are encoded in BER or PER (crypto/ber.c,
    crypto/der.c, crypto/per.c), and the connect PDUs carry T.124 GCC conference
    data (core/gcc.c).  Before all this, the two sides agree on the protocol that
    secures the connection, in the X.224 connection PDUs (core/nego.c).  With standard
    RDP security both sides derive their keys from two random numbers, sign and
    encrypt each data unit with RC4 or, for FIPS, with a block cipher, and renew the
    RC4 keys (core/security.c, winpr crypto/rc4.c); core/rdp.c writes and reads the
    headers of the data units and dispatches what they carry.  Updates of the screen take
    the fast path (core/fastpath.c) instead: short headers, fragments, bulk compression
    (codec/bulk.c) and the same protection; what the user does takes the fast path
    or the slow path in the other direction (core/input.c).  Before that, the last PDUs of the
    connection sequence (core/activation.c, core/connection.c) take the state machine of the
    server (core/peer.c) to its active state.  Every layer
    reads from and writes to one kind of object, the [wStream] of winpr/stream.h.
    Data on an established connection may be packed by a bulk codec that keeps a history on both sides: MPPC
    (codec/mppc.c), on the bit streams of winpr/bitstream.h, and the RDP8 codec
    of the graphics pipeline (codec/zgfx.c).  Bitmaps are sent as run-length
    orders that refer to the line before (codec/interleaved.c, codec/bitmap.c),
    and the parts of the screen that changed are collected as a region, a list of
    rectangles in bands (codec/region.c).  Messages, output bytes and
    channel objects wait in the queue and the hash table of WinPR's collections and in
    the ring buffer of utils/ringbuffer.c.

    ** The files

    - [Prelude]: outcomes of C code ([Ret], or [Abort] for a failed assertion, an
      access outside its object or undefined behaviour), the allocator, machine
      integers as [Z] with the wrap-around written out, lists indexed by [Z].
    - [Stream], [StreamLogic]: winpr/libwinpr/utils/stream.c and the accessors of
      winpr/endian.h, in the state monad [SM]; the invariant of a stream, and the
      judgements [reads], [writes] and [safe] with which all parsers and
      serializers are verified.
    - [Transmission]: from what is written to a new stream to its reader.
    - [Per], [Ber]: crypto/per.c, crypto/ber.c and crypto/der.c.
    - [Framing]: core/tpkt.c and core/tpdu.c.
    - [Gcc], [Mcs]: core/gcc.c and core/mcs.c.  The readers of the individual
      GCC data blocks, which fill the settings, are arguments of the model, and
      a [mcs_send_*] function gives the stream it passes to the transport.
    - [Rc4], [Security], [SecurityCorrect]: winpr crypto/rc4.c and core/security.c.
      Digests and the block cipher are those of the crypto library: classes
      ([Digests], [Cipher]) with the laws that are used of them.
    - [RdpPdu], [RdpPduCorrect], [RdpPduSafe], [RdpSession], [RdpLimits]: the slow path of
      core/rdp.c, from [rdp_send] and its variants to [rdp_recv_tpkt_pdu]; the
      functions that get the contents of a packet are a record of arguments
      ([receivers]), so what they do with it is not part of the model.
    - [Bulk]: codec/bulk.c and core/metrics.c; the compressors above level 1 are
      arguments ([Codec]).
    - [FastPath], [FastPathCorrect], [FastPathSession], [FastPathSafe]: core/fastpath.c, from
      [fastpath_send_update_pdu] of the server to [rdp_recv_fastpath_pdu] of the client;
      the functions that handle an update are a record of arguments ([updates]).
    - [Input], [InputCorrect], [InputSafe]: core/input.c and the input half of
      core/fastpath.c, from the functions a client calls ([registered]) to the callbacks of
      the server ([rdpInput]).
    - [Activation], [ActivationCorrect], [ActivationSession]: core/activation.c and the
      state changes of core/connection.c and core/rdp.c; one end of a connection is the record
      [endpoint], and whom its changes are told is a record of arguments ([watchers]).
    - [Peer], [PeerCorrect], [PeerSession]: core/peer.c, from [peer_recv_callback], the
      state machine from the confirmed capabilities on, to the PDUs of an active client;
      the application and the parts left out are a record of arguments ([peer_calls]).
    - [Nego], [NegoCorrect], [NegoMessages]: core/nego.c, client and server.  The
      transport is the class [Transport]; the client runs in the monad [NM] over
      the negotiation, the settings and the transport, and [TransportLaws] is all
      that is assumed of a peer: it sends bytes.
    - [EncodedTypes]: utils/encoded_types.c.
    - [Arrays]: buffers inside a structure.
    - [BitStream]: winpr/bitstream.h.
    - [Mppc], [MppcCorrect]: codec/mppc.c.
    - [Zgfx], [ZgfxCorrect], [ZgfxFormat], [ZgfxMessages]: codec/zgfx.c.
    - [Region], [RegionBands], [RegionCorrect]: codec/region.c.
    - [Rle], [RleSafe], [RleFormat]: the run-length decoder of codec/interleaved.c
      and codec/include/bitmap.h, one definition over the pixel formats
      ([PixelFormat]); what the orders mean.
    - [BitmapCompress], [BitmapCompressCorrect]: the encoder, codec/bitmap.c, one
      definition over its two depths ([Depth]).
    - [Interleaved], [InterleavedCorrect]: the codec around them, with its buffer
      (winpr crt/alignment.c).  The copy between that buffer and the image of the
      caller, which converts pixel formats, is an argument.
    - [Ring], [Queue], [RingBuffer]: circular arrays, winpr collections/Queue.c
      and utils/ringbuffer.c.
    - [HashTable], [HashTableCorrect], [HashTableMap]: winpr
      collections/HashTable.c.

    The first file of a component has its data and one definition per
    function of the code, under the name it has there; a loop is a [Fixpoint]
    named after what it does.

    ** The theorems

    - Round trips: what a writer produces its reader accepts and returns, for
      integers, strings and lengths ([Per], [Ber], [EncodedTypes]), UTF-16 strings
      ([StreamLogic]), frames ([Framing]), conference data ([Gcc]), connect PDUs
      through all layers ([Mcs]), requests and responses of the negotiation
      ([NegoMessages]), encrypted data units and share data PDUs ([RdpSession]), updates
      in fragments ([FastPathSession]), the events of the user ([InputSafe] on the fast
      path, [PeerSession] on the slow path), code words on a bit stream ([BitStream]) and
      whole sessions of packets ([MppcCorrect], [ZgfxMessages]), and bitmaps of 15
      and 16 bits per pixel ([InterleavedCorrect]), together with the values for which it does not hold.
    - Safety: a reader neither aborts nor looks outside its data on any
      bytes, and its loops end ([Per], [Ber], [Framing], [Gcc], [Mcs],
      [NegoMessages], [RdpPduSafe], [FastPathSafe], [InputSafe], [MppcCorrect], [ZgfxMessages], [InterleavedCorrect]).
    - Refinement: a region implements a set of pixels, whatever operations it comes
      from as long as no empty rectangle is added ([RegionCorrect]); the queue, the ring buffer and the hash table implement a
      bounded list, a sequence of bytes and a finite map; a compressed RDP8 segment is decoded to
      what its tokens mean, and a run-length encoded bitmap to the picture its orders
      describe.
    - Protocol runs: client and server go through the MCS channel connection and
      agree; negotiated parameters respect the limits of both.  The negotiation of
      the security protocol ends against any server, if the token or cookie fits its
      request, and a client that has not enabled plain RDP security is not downgraded
      to it ([NegoCorrect]).  A client and a server that establish keys from
      the same random numbers deliver each other any sequence of encrypted messages of less
      than 0x8000 bytes ([RdpSession]; what happens to longer ones is in [RdpLimits]), and the PDUs of the finalization make the server active, on the first
      connection and after a reactivation ([ActivationSession]).
    - Errors: allocation failure, overflow, and the inputs on which the code
      does not do what it means to: theorems of their own that state what it does.

    ** Bounds and fuel

    A loop that is not structural takes fuel, and running out of it is [Abort],
    so that a theorem that gives [Ret] also shows that the loop ends.  The fuel is
    the length of the data for the parsers (each round consumes some) and for the
    sender of fragments,
    the number of bits of the input and the room in the output for the
    RDP8 tokens, the length of the packet for MPPC, of the source for the run-length
    orders and the number of lines for their encoder, and 2^60 rounds for the search of a
    prime, which passes a number that is 1 modulo all divisors it tries before.
    [peer_recv_callback] has the number of states it may run for one packet as an argument;
    for every packet of the finalization three are enough, in the active state one.
    [nego_connect] has fuel for six attempts; each falls back to a weaker protocol.
    [HashTable_Clear] has its fuel as an argument: the number of pairs is enough
    outside an iteration, and no fuel is enough inside one.

    The regions of a theorem have at most as many rectangles as an [int] can count
    when they are taken apart; bitmaps are compressed in tiles of at most 64 by 64
    pixels, as the code asks for.

    Sizes are those of a 64-bit platform.  The code is modelled for one
    thread: locks are left out.

    ** Not modelled

    Sockets, TLS and SSPI (core/transport.c, crypto/tls.c, core/nla.c; an interface
    of the negotiation), the gateway, the virtual channels, the clients and servers, rendering
    and the other image codecs: they are built around services of the operating system or
    other libraries, or on vectorised arithmetic.  The settings, capabilities,
    orders and updates of core/ are read field by field into structures and callbacks;
    the exchange of the random numbers (RSA) and the crypto library are outside.  Of the
    components above: the
    conversions of pixel formats and between UTF-8 and UTF-16, stream pools, the last division of the
    encoded fractions, the functions that install callbacks in a hash table or set
    one field of the configuration of the negotiation, and freeing where it has no
    other effect. *)

From stdpp Require Import prelude list numbers.
From Stdlib Require Import ZArith Lia.

#[local] Open Scope Z_scope.

(** * Results of C code: a value, or an abort *)

(** A failing [WINPR_ASSERT] and a memory access outside the object it
    is made to both end the run of the program: [Abort]. *)
Inductive outcome (A : Type) : Type :=
| Ret (a : A)
| Abort.
Arguments Ret {A} a.
Arguments Abort {A}.

#[export] Instance outcome_ret : MRet outcome := λ A a, Ret a.
#[export] Instance outcome_bind : MBind outcome := λ A B f m,
  match m with Ret a => f a | Abort => Abort end.

(** The value of a successful read satisfies [P]. *)
Definition on_some {A} (P : A → Prop) (o : option A) : Prop :=
  match o with Some a => P a | None => True end.

(** * Allocation *)

(** Whether [malloc], [calloc] or [realloc] of a number of bytes succeeds.
    Every theorem holds for each such behaviour of the allocator, except
    where it says that allocation does not fail. *)
Class Malloc := malloc_ok : Z → bool.

(** * Machine integers *)

Definition UINT8_MAX : Z := 255.
Definition UINT16_MAX : Z := 65535.
Definition UINT32_MAX : Z := 4294967295.
Definition SIZE_MAX : Z := 18446744073709551615.

(** Conversion to the unsigned types of width 8, 16, 32 and 64. *)
Definition u8 (z : Z) : Z := z mod 256.
Definition u16 (z : Z) : Z := z mod 65536.
Definition u32 (z : Z) : Z := z mod 4294967296.
Definition u64 (z : Z) : Z := z mod 18446744073709551616.

Definition is_byte (z : Z) : Prop := 0 <= z < 256.
Definition bytes (l : list Z) : Prop := Forall is_byte l.

#[export] Instance is_byte_dec z : Decision (is_byte z).
Proof. unfold is_byte. apply _. Defined.
Lemma u8_byte v : is_byte (u8 v).
Proof. apply (Z.mod_pos_bound v 256). lia. Qed.

(** * Lists indexed by [Z] *)

(** Sizes and offsets are [size_t] values, so the buffers of the models
    are read and written at [Z] offsets. *)
Definition zlen {A} (l : list A) : Z := Z.of_nat (length l).
Definition ztake {A} (n : Z) (l : list A) : list A := take (Z.to_nat n) l.
Definition zdrop {A} (n : Z) (l : list A) : list A := drop (Z.to_nat n) l.
(** [memcpy] out of and into a buffer. *)
Definition zslice {A} (p n : Z) (l : list A) : list A := ztake n (zdrop p l).
Definition zblit {A} (p : Z) (src l : list A) : list A :=
  ztake p l ++ src ++ zdrop (p + zlen src) l.
Definition zeros (n : Z) : list Z := replicate (Z.to_nat n) 0.
(** Indexing; [0] outside the list. *)
Definition zget (l : list Z) (i : Z) : Z := nth (Z.to_nat i) l 0.

Create HintDb winpr.

Section zlists.
Context {A : Type}.
Implicit Types (l src : list A) (n p : Z).

Lemma zlen_nonneg l : 0 <= zlen l.
Proof. unfold zlen. lia. Qed.
Lemma zlen_nil : zlen (@nil A) = 0.
Proof. done. Qed.
Lemma zlen_cons x l : zlen (x :: l) = 1 + zlen l.
Proof. unfold zlen. simpl. lia. Qed.
Lemma zlen_app l1 l2 : zlen (l1 ++ l2) = zlen l1 + zlen l2.
Proof. unfold zlen. rewrite length_app. lia. Qed.
Lemma zlen_ztake n l : zlen (ztake n l) = Z.min (Z.max 0 n) (zlen l).
Proof. unfold zlen, ztake. rewrite length_take. lia. Qed.
Lemma zlen_zdrop n l : zlen (zdrop n l) = Z.max 0 (zlen l - Z.max 0 n).
Proof. unfold zlen, zdrop. rewrite length_drop. lia. Qed.
Lemma zlen_replicate (m : nat) (x : A) : zlen (replicate m x) = Z.of_nat m.
Proof. unfold zlen. by rewrite length_replicate. Qed.
Lemma zlen_nil_inv l : zlen l = 0 → l = [].
Proof. destruct l; [done|]. unfold zlen. simpl. lia. Qed.

Lemma zlen_zslice p n l :
  0 <= p → 0 <= n → p + n <= zlen l → zlen (zslice p n l) = n.
Proof. intros. unfold zslice. rewrite zlen_ztake, zlen_zdrop. lia. Qed.
Lemma zlen_zblit p src l :
  0 <= p → p + zlen src <= zlen l → zlen (zblit p src l) = zlen l.
Proof.
  intros. unfold zblit. rewrite !zlen_app, zlen_ztake, zlen_zdrop.
  pose proof (zlen_nonneg src). lia.
Qed.

Lemma ztake_app_le n l1 l2 : n <= zlen l1 → ztake n (l1 ++ l2) = ztake n l1.
Proof. unfold ztake, zlen. intros. rewrite take_app_le; [done|lia]. Qed.
Lemma ztake_app_ge n l1 l2 :
  zlen l1 <= n → ztake n (l1 ++ l2) = l1 ++ ztake (n - zlen l1) l2.
Proof.
  unfold ztake, zlen. intros. rewrite take_app_ge by lia. do 2 f_equal. lia.
Qed.
Lemma zdrop_app_le n l1 l2 : n <= zlen l1 → zdrop n (l1 ++ l2) = zdrop n l1 ++ l2.
Proof. unfold zdrop, zlen. intros. rewrite drop_app_le; [done|lia]. Qed.
Lemma zdrop_app_ge n l1 l2 :
  zlen l1 <= n → zdrop n (l1 ++ l2) = zdrop (n - zlen l1) l2.
Proof.
  unfold zdrop, zlen. intros. rewrite drop_app_ge by lia. f_equal. lia.
Qed.
Lemma ztake_all n l : zlen l <= n → ztake n l = l.
Proof. unfold ztake, zlen. intros. apply take_ge. lia. Qed.
Lemma zdrop_all n l : zlen l <= n → zdrop n l = [].
Proof. unfold zdrop, zlen. intros. apply drop_ge. lia. Qed.
Lemma ztake_nonpos n l : n <= 0 → ztake n l = [].
Proof. unfold ztake. intros. by replace (Z.to_nat n) with 0%nat by lia. Qed.
Lemma zdrop_nonpos n l : n <= 0 → zdrop n l = l.
Proof. unfold zdrop. intros. by replace (Z.to_nat n) with 0%nat by lia. Qed.
Lemma ztake_zdrop n l : ztake n l ++ zdrop n l = l.
Proof. apply take_drop. Qed.
Lemma ztake_ztake n m l : 0 <= n <= m → ztake n (ztake m l) = ztake n l.
Proof. unfold ztake. intros. rewrite take_take. f_equal. lia. Qed.
Lemma zdrop_zdrop n m l :
  0 <= n → 0 <= m → zdrop n (zdrop m l) = zdrop (m + n) l.
Proof. unfold zdrop. intros. rewrite drop_drop. f_equal. lia. Qed.
Lemma zdrop_ztake n m l :
  0 <= n → n <= m → zdrop n (ztake m l) = ztake (m - n) (zdrop n l).
Proof.
  unfold zdrop, ztake. intros. rewrite skipn_firstn_comm. f_equal. lia.
Qed.
Lemma ztake_ztake_zdrop p n l :
  0 <= p → 0 <= n → ztake (p + n) l = ztake p l ++ zslice p n l.
Proof.
  intros. unfold zslice, ztake, zdrop.
  rewrite Z2Nat.inj_add by lia. symmetry. apply take_take_drop.
Qed.
Lemma zslice_app p n l1 l2 :
  p = zlen l1 → zslice p n (l1 ++ l2) = ztake n l2.
Proof.
  intros ->. unfold zslice. rewrite zdrop_app_ge by lia.
  rewrite zdrop_nonpos by lia. done.
Qed.

(** A blit leaves the bytes before its offset alone, and puts its source
    at the offset. *)
Lemma ztake_zblit_before q p src l :
  0 <= q <= p → p <= zlen l → ztake q (zblit p src l) = ztake q l.
Proof.
  intros. unfold zblit. rewrite ztake_app_le by (rewrite zlen_ztake; lia).
  by apply ztake_ztake.
Qed.
Lemma ztake_zblit p src l :
  0 <= p → p <= zlen l → ztake (p + zlen src) (zblit p src l) = ztake p l ++ src.
Proof.
  intros. unfold zblit. pose proof (zlen_nonneg src).
  assert (zlen (ztake p l) = p) as Hp by (rewrite zlen_ztake; lia).
  rewrite ztake_app_ge, Hp by lia. f_equal.
  rewrite ztake_app_le by lia. apply ztake_all. lia.
Qed.
Lemma zdrop_zblit q p src l :
  0 <= p → p <= zlen l → q = p + zlen src →
  zdrop q (zblit p src l) = zdrop q l.
Proof.
  intros ?? ->. unfold zblit. pose proof (zlen_nonneg src).
  assert (zlen (ztake p l) = p) as Hp by (rewrite zlen_ztake; lia).
  rewrite zdrop_app_ge, Hp by lia.
  rewrite zdrop_app_ge, zdrop_nonpos by lia. done.
Qed.

Lemma Forall_ztake (P : A → Prop) n l : Forall P l → Forall P (ztake n l).
Proof. apply Forall_take. Qed.
Lemma Forall_zdrop (P : A → Prop) n l : Forall P l → Forall P (zdrop n l).
Proof. apply Forall_drop. Qed.
Lemma Forall_zslice (P : A → Prop) p n l : Forall P l → Forall P (zslice p n l).
Proof. intros. by apply Forall_ztake, Forall_zdrop. Qed.
Lemma Forall_zblit (P : A → Prop) p src l :
  Forall P l → Forall P src → Forall P (zblit p src l).
Proof.
  intros. unfold zblit. rewrite !Forall_app.
  eauto using Forall_ztake, Forall_zdrop.
Qed.
End zlists.

#[export] Hint Resolve Forall_ztake Forall_zdrop Forall_zslice Forall_zblit : winpr.

Lemma zget_insert (l : list Z) i k v :
  0 <= i < zlen l → 0 <= k → zget (<[Z.to_nat i := v]> l) k = if k =? i then v else zget l k.
Proof.
  unfold zget, zlen. intros Hi Hk. rewrite !nth_lookup.
  destruct (Z.eqb_spec k i) as [->|].
  - by rewrite list_lookup_insert_eq by lia.
  - by rewrite list_lookup_insert_ne by lia.
Qed.
Lemma bytes_zeros n : bytes (zeros n).
Proof. apply Forall_replicate. unfold is_byte. lia. Qed.
Lemma zlen_zeros n : 0 <= n → zlen (zeros n) = n.
Proof. intros. unfold zeros. rewrite zlen_replicate. lia. Qed.
#[export] Hint Resolve bytes_zeros : winpr.

(** ** Indexing *)

Lemma zget_byte l i : bytes l → is_byte (zget l i).
Proof.
  intros Hl. unfold zget. destruct (nth_in_or_default (Z.to_nat i) l 0) as [H| ->].
  - unfold bytes in Hl. rewrite List.Forall_forall in Hl. auto.
  - done.
Qed.
Lemma zget_app l1 l2 i :
  0 <= i → zget (l1 ++ l2) i = if i <? zlen l1 then zget l1 i else zget l2 (i - zlen l1).
Proof.
  intros. unfold zget, zlen. destruct (Z.ltb_spec i (Z.of_nat (length l1))).
  - apply app_nth1. lia.
  - rewrite app_nth2 by lia. f_equal. lia.
Qed.
Lemma zget_zdrop n l i : 0 <= n → 0 <= i → zget (zdrop n l) i = zget l (n + i).
Proof. intros. unfold zget, zdrop. rewrite nth_skipn. f_equal. lia. Qed.
Lemma zget_ztake n l k : 0 <= k < n → zget (ztake n l) k = zget l k.
Proof.
  intros. unfold zget, ztake. rewrite !nth_lookup, lookup_take_lt by lia. done.
Qed.

(** Arithmetic on list lengths. *)
Ltac zlen_simpl :=
  repeat match goal with
  | |- context [zlen (?x :: ?l)] => rewrite (zlen_cons x l)
  | |- context [zlen (?a ++ ?b)] => rewrite (zlen_app a b)
  | |- context [zlen (@nil ?A)] => rewrite (@zlen_nil A)
  | H : context [zlen (?x :: ?l)] |- _ => rewrite (zlen_cons x l) in H
  | H : context [zlen (?a ++ ?b)] |- _ => rewrite (zlen_app a b) in H
  | H : context [zlen (@nil ?A)] |- _ => rewrite (@zlen_nil A) in H
  end.
Ltac zlia :=
  zlen_simpl;
  repeat match goal with
  | |- context [zlen ?l] =>
      lazymatch goal with
      | _ : 0 <= zlen l |- _ => fail
      | _ => pose proof (zlen_nonneg l)
      end
  | _ : context [zlen ?l] |- _ =>
      lazymatch goal with
      | _ : 0 <= zlen l |- _ => fail
      | _ => pose proof (zlen_nonneg l)
      end
  end;
  lia.

(** * Bit operations as arithmetic *)

Lemma land_mask x n : 0 <= n → Z.land x (2 ^ n - 1) = x mod 2 ^ n.
Proof.
  intros. replace (2 ^ n - 1) with (Z.ones n) by (rewrite Z.ones_equiv; lia).
  by apply Z.land_ones.
Qed.

(** A contiguous mask of [n] ones above [k] zeros. *)
Lemma land_field x n k :
  0 <= n → 0 <= k → Z.land x ((2 ^ n - 1) * 2 ^ k) = (x / 2 ^ k) mod 2 ^ n * 2 ^ k.
Proof.
  intros. rewrite <- (Z.shiftl_mul_pow2 (2 ^ n - 1)) by lia.
  rewrite <- (Z.shiftl_mul_pow2 (_ mod _)) by lia.
  rewrite <- Z.shiftr_div_pow2, <- land_mask by lia.
  apply Z.bits_inj'. intros i Hi.
  rewrite Z.land_spec, !Z.shiftl_spec, Z.land_spec by lia.
  destruct (Z.lt_ge_cases i k).
  - rewrite !(Z.testbit_neg_r _ (i - k)) by lia. by rewrite andb_false_r.
  - rewrite Z.shiftr_spec by lia. by replace (i - k + k) with i by lia.
Qed.

Lemma lor_shiftl a b k : 0 <= k → 0 <= b < 2 ^ k → Z.lor (Z.shiftl a k) b = a * 2 ^ k + b.
Proof.
  intros Hk Hb. rewrite <- Z.shiftl_mul_pow2 by lia. symmetry.
  apply Z.add_nocarry_lor. apply Z.bits_inj'. intros i Hi.
  rewrite Z.land_spec, Z.shiftl_spec, Z.bits_0 by lia.
  destruct (Z.lt_ge_cases i k).
  - by rewrite Z.testbit_neg_r by lia.
  - rewrite <- (Z.mod_small b (2 ^ k)) by lia.
    rewrite Z.mod_pow2_bits_high by lia. by rewrite andb_false_r.
Qed.

(** Disjoint [or] is addition, with the low part bounded. *)
Lemma lor_disjoint a b k :
  0 <= k → a mod 2 ^ k = 0 → 0 <= b < 2 ^ k → Z.lor a b = a + b.
Proof.
  intros Hk Ha Hb.
  assert (a = Z.shiftl (a / 2 ^ k) k) as Hs.
  { rewrite Z.shiftl_mul_pow2 by lia.
    pose proof (Z.pow_pos_nonneg 2 k ltac:(lia) Hk).
    pose proof (Z.div_mod a (2 ^ k) ltac:(lia)). lia. }
  rewrite Hs, lor_shiftl by lia. rewrite Z.shiftl_mul_pow2 by lia. done.
Qed.

(** Every statement on a byte is decided by its 256 cases. *)
Lemma byte_cases (P : Z → bool) :
  forallb P (map Z.of_nat (List.seq 0 256)) = true → ∀ b, is_byte b → P b = true.
Proof.
  rewrite forallb_forall. intros H b Hb. apply H. apply in_map_iff.
  exists (Z.to_nat b). unfold is_byte in Hb. split; [lia|].
  apply in_seq. lia.
Qed.

Ltac div_mod_lia := Z.div_mod_to_equations; lia.

Lemma lxor_below n a b : 0 <= n → 0 <= a < 2 ^ n → 0 <= b < 2 ^ n → 0 <= Z.lxor a b < 2 ^ n.
Proof.
  intros Hn Ha Hb. assert (0 <= Z.lxor a b) as H0 by (apply Z.lxor_nonneg; lia). split; [done|].
  destruct (Z.eq_dec (Z.lxor a b) 0) as [->|Hne]; [lia|].
  apply Z.log2_lt_pow2; [lia|].
  assert (∀ x, 0 <= x < 2 ^ n → x = 0 ∨ Z.log2 x < n) as Hl.
  { intros x Hx. destruct (Z.eq_dec x 0); [by left|]. right. apply Z.log2_lt_pow2; lia. }
  pose proof (Z.log2_lxor a b ltac:(lia) ltac:(lia)).
  destruct (Hl a Ha) as [->|?], (Hl b Hb) as [->|?].
  - done.
  - rewrite Z.lxor_0_l in *. lia.
  - rewrite Z.lxor_0_r in *. lia.
  - lia.
Qed.

(** * Pieces of a list *)

Section pieces.
Context {A : Type}.
Implicit Types (l x y z d : list A).
Lemma split_at p l : 0 <= p <= zlen l → ∃ x y, l = x ++ y ∧ zlen x = p ∧ zlen y = zlen l - p.
Proof.
  intros. exists (ztake p l), (zdrop p l). split; [by rewrite ztake_zdrop|].
  rewrite zlen_ztake, zlen_zdrop. lia.
Qed.
Lemma zblit_mid x y z d p : p = zlen x → zlen d = zlen y → zblit p d (x ++ y ++ z) = x ++ d ++ z.
Proof.
  intros -> Hd. unfold zblit. rewrite ztake_app_le, ztake_all by lia. f_equal. f_equal.
  rewrite zdrop_app_ge by zlia. rewrite zdrop_app_ge by lia.
  apply zdrop_nonpos. lia.
Qed.
Lemma zblit_end x y d p : p = zlen x → zlen d = zlen y → zblit p d (x ++ y) = x ++ d.
Proof.
  intros. rewrite <- (app_nil_r y), <- (app_nil_r (x ++ d)), <- app_assoc. by apply zblit_mid.
Qed.
Lemma zblit_front y z d : zlen d = zlen y → zblit 0 d (y ++ z) = d ++ z.
Proof. intros. by apply (zblit_mid []). Qed.
Lemma zslice_mid x y z p n : p = zlen x → n = zlen y → zslice p n (x ++ y ++ z) = y.
Proof.
  intros -> ->. rewrite zslice_app by done. rewrite ztake_app_le by lia. apply ztake_all. lia.
Qed.
Lemma zslice_end x y p n : p = zlen x → n = zlen y → zslice p n (x ++ y) = y.
Proof. intros. rewrite <- (app_nil_r y). rewrite app_nil_r at 2. by apply zslice_mid. Qed.
Lemma zslice_front y z n : n = zlen y → zslice 0 n (y ++ z) = y.
Proof. by apply (zslice_mid []). Qed.
End pieces.

Lemma u32_max z : 0 <= u32 z <= UINT32_MAX.
Proof. unfold u32, UINT32_MAX. pose proof (Z.mod_pos_bound z 4294967296). lia. Qed.
