(* ===== verification/Stream.v ===== *)
(** The byte stream of WinPR: [wStream] (winpr/include/winpr/stream.h,
    winpr/libwinpr/utils/stream.c) and the integer accessors of
    winpr/include/winpr/endian.h it is built on.  Every parser and
    serializer of the development runs in the state monad [SM] defined
    here. *)

From S2P Require Import Prelude.
From stdpp Require Import prelude list numbers.
From Stdlib Require Import ZArith Lia.

#[local] Open Scope Z_scope.

(** * Integers in memory (endian.h) *)

(** [v <<= 8; v |= ptr[x]] over the bytes of the object. *)
Definition winpr_Data_Get_BE (d : list Z) : Z :=
  fold_left (λ v b, Z.lor (Z.shiftl v 8) b) d 0.
(** The little-endian loop reads [ptr[typesize - x - 1]]. *)
Definition winpr_Data_Get_LE (d : list Z) : Z := winpr_Data_Get_BE (rev d).

Definition winpr_Data_Write_UINT8 (v : Z) : list Z := [v].
Definition winpr_Data_Write_UINT16 (v : Z) : list Z :=
  [Z.land v 255; Z.land (Z.shiftr v 8) 255].
Definition winpr_Data_Write_UINT16_BE (v : Z) : list Z :=
  [Z.land (Z.shiftr v 8) 255; Z.land v 255].
Definition winpr_Data_Write_UINT32 (v : Z) : list Z :=
  winpr_Data_Write_UINT16 (Z.land v 65535) ++
  winpr_Data_Write_UINT16 (Z.land (Z.shiftr v 16) 65535).
Definition winpr_Data_Write_UINT32_BE (v : Z) : list Z :=
  winpr_Data_Write_UINT16_BE (Z.land (Z.shiftr v 16) 65535) ++
  winpr_Data_Write_UINT16_BE (Z.land v 65535).
Definition winpr_Data_Write_UINT64 (v : Z) : list Z :=
  winpr_Data_Write_UINT32 (Z.land v 4294967295) ++
  winpr_Data_Write_UINT32 (Z.land (Z.shiftr v 32) 4294967295).
Definition winpr_Data_Write_UINT64_BE (v : Z) : list Z :=
  winpr_Data_Write_UINT32_BE (Z.land (Z.shiftr v 32) 4294967295) ++
  winpr_Data_Write_UINT32_BE (Z.land v 4294967295).

(** * The stream *)

(** [buffer] is the memory the stream manages and [pointer] is kept as its
    offset into it; [length] and [capacity] carry the prefix [st_] because
    [length] is the length of a list. *)
Record wStream := mkStream {
  st_buffer : list Z;
  st_pointer : Z;
  st_length : Z;
  st_capacity : Z;
  st_isAllocatedStream : bool;
  st_isOwner : bool;
}.

Definition set_pointer (p : Z) (s : wStream) : wStream :=
  mkStream (st_buffer s) p (st_length s) (st_capacity s)
    (st_isAllocatedStream s) (st_isOwner s).
Definition set_length (l : Z) (s : wStream) : wStream :=
  mkStream (st_buffer s) (st_pointer s) l (st_capacity s)
    (st_isAllocatedStream s) (st_isOwner s).
Definition set_buffer (b : list Z) (s : wStream) : wStream :=
  mkStream b (st_pointer s) (st_length s) (st_capacity s)
    (st_isAllocatedStream s) (st_isOwner s).

(** ** Code on a stream *)

Definition SM (A : Type) : Type := wStream → outcome (A * wStream).

#[export] Instance SM_ret : MRet SM := λ A a s, Ret (a, s).
#[export] Instance SM_bind : MBind SM := λ A B k m s,
  match m s with Ret (a, s') => k a s' | Abort => Abort end.

(** A C function that returns [BOOL] and its result through a pointer is an
    [SM (option A)]: [None] is the return of [FALSE], with the stream as the
    function leaves it. *)
Declare Scope winpr_scope.
Notation "x ← m ; k" := (@mbind SM _ _ _ (λ x, k) m)
  (at level 20, m at level 100, k at level 200, only parsing) : winpr_scope.
Notation "m ;; k" := (@mbind SM _ _ _ (λ _, k) m)
  (at level 100, k at level 200, right associativity, only parsing) : winpr_scope.
Notation "x ←? m ; k" :=
  (@mbind SM _ _ _ (λ r, match r with Some x => k | None => mret None end) m)
  (at level 20, m at level 100, k at level 200, only parsing) : winpr_scope.
Notation "' x ←? m ; k" :=
  (@mbind SM _ _ _ (λ r, match r with Some x => k | None => mret None end) m)
  (at level 20, x pattern, m at level 100, k at level 200, only parsing) : winpr_scope.
(** [if (!f(...)) return FALSE;] *)
Notation "'TRY' m ; k" :=
  (@mbind SM _ _ _ (λ r, match r with Some _ => k | None => mret None end) m)
  (at level 20, m at level 100, k at level 200, only parsing) : winpr_scope.
#[global] Open Scope winpr_scope.

(** Code that does not touch the stream at hand. *)
Definition lift {A} (o : outcome A) : SM A := λ s,
  match o with Ret a => Ret (a, s) | Abort => Abort end.

Definition FALSE {A} : SM (option A) := mret None.
Definition TRUE : SM (option unit) := mret (Some tt).

Definition WINPR_ASSERT (b : bool) : SM unit := λ s,
  if b then Ret (tt, s) else Abort.

(** [WINPR_ASSERTING_INT_CAST] to an unsigned type of maximum [m]. *)
Definition WINPR_ASSERTING_INT_CAST (m v : Z) : SM Z :=
  WINPR_ASSERT ((0 <=? v) && (v <=? m));; mret v.

(** ** Positions and sizes *)

Definition Stream_GetPosition : SM Z := λ s,
  if 0 <=? st_pointer s then Ret (st_pointer s, s) else Abort.
Definition Stream_Capacity : SM Z := λ s, Ret (st_capacity s, s).
Definition Stream_Length : SM Z := λ s, Ret (st_length s, s).

Definition Stream_GetRemainingCapacity : SM Z := λ s,
  let cur := st_pointer s in
  if (0 <=? cur) && (cur <=? st_capacity s)
  then Ret (st_capacity s - cur, s) else Abort.

Definition Stream_GetRemainingLength : SM Z := λ s,
  let cur := st_pointer s in
  if (0 <=? cur) && (st_length s <=? st_capacity s) && (cur <=? st_length s)
  then Ret (st_length s - cur, s) else Abort.

Definition Stream_SetLength (l : Z) : SM (option unit) := λ s,
  if l >? st_capacity s then Ret (None, set_length 0 s)
  else Ret (Some tt, set_length l s).

Definition Stream_SetPosition (p : Z) : SM (option unit) := λ s,
  if p >? st_capacity s then Ret (None, set_pointer 0 s)
  else Ret (Some tt, set_pointer p s).

Definition Stream_SealLength : SM unit := λ s,
  let cur := st_pointer s in
  if (0 <=? cur) && (cur <=? st_capacity s)
  then Ret (tt, set_length cur s) else Abort.

Definition Stream_ResetPosition : SM unit := λ s, Ret (tt, set_pointer 0 s).

Definition Stream_Seek (n : Z) : SM unit :=
  rem ← Stream_GetRemainingCapacity;
  WINPR_ASSERT (rem >=? n);;
  λ s, Ret (tt, set_pointer (st_pointer s + n) s).

Definition Stream_Rewind (n : Z) : SM unit := λ s,
  let cur := st_pointer s in
  if (0 <=? cur) && (cur >=? n) then Ret (tt, set_pointer (cur - n) s) else Abort.

(** ** Checks *)

(** All the [Stream_CheckAndLogRequired...] functions compute this; the rest
    of them is logging.  [size] is positive. *)
Definition Stream_CheckAndLogRequiredLengthEx (nmemb size : Z) : SM (option unit) :=
  WINPR_ASSERT (size >? 0);;
  rem ← Stream_GetRemainingLength;
  let actual := rem / size in
  if actual <? nmemb then FALSE else TRUE.

Definition Stream_CheckAndLogRequiredLength (len : Z) : SM (option unit) :=
  Stream_CheckAndLogRequiredLengthEx len 1.

Definition Stream_CheckAndLogRequiredCapacityEx (nmemb size : Z) : SM (option unit) :=
  WINPR_ASSERT (negb (size =? 0));;
  rem ← Stream_GetRemainingCapacity;
  let actual := rem / size in
  if actual <? nmemb then FALSE else TRUE.

Definition Stream_CheckAndLogRequiredCapacity (len : Z) : SM (option unit) :=
  Stream_CheckAndLogRequiredCapacityEx len 1.

Definition Stream_SafeSeekEx (size : Z) : SM (option unit) :=
  TRY Stream_CheckAndLogRequiredLengthEx size 1;
  Stream_Seek size;;
  TRUE.

(** ** Reading *)

(** The [stream_read_*] functions: the assertion on the remaining length,
    the access and the optional seek.  [get] is the accessor of endian.h. *)
Definition stream_read (get : list Z → Z) (typesize : Z) (seek : bool) : SM Z :=
  rem ← Stream_GetRemainingLength;
  WINPR_ASSERT (rem >=? typesize);;
  v ← (λ s, Ret (get (zslice (st_pointer s) typesize (st_buffer s)), s));
  (if seek then Stream_Seek typesize else mret tt);;
  mret v.

Definition Stream_Read_UINT8 : SM Z := stream_read winpr_Data_Get_BE 1 true.
Definition Stream_Peek_UINT8 : SM Z := stream_read winpr_Data_Get_BE 1 false.
Definition Stream_Read_UINT16 : SM Z := stream_read winpr_Data_Get_LE 2 true.
Definition Stream_Read_UINT16_BE : SM Z := stream_read winpr_Data_Get_BE 2 true.
Definition Stream_Peek_UINT16 : SM Z := stream_read winpr_Data_Get_LE 2 false.
Definition Stream_Read_UINT32 : SM Z := stream_read winpr_Data_Get_LE 4 true.
Definition Stream_Read_UINT32_BE : SM Z := stream_read winpr_Data_Get_BE 4 true.
Definition Stream_Read_UINT64 : SM Z := stream_read winpr_Data_Get_LE 8 true.
Definition Stream_Read_UINT64_BE : SM Z := stream_read winpr_Data_Get_BE 8 true.

(** [memcpy] of [n] bytes at the pointer; the stream asserts on the capacity. *)
Definition Stream_Peek (n : Z) : SM (list Z) :=
  rem ← Stream_GetRemainingCapacity;
  WINPR_ASSERT (rem >=? n);;
  λ s, Ret (zslice (st_pointer s) n (st_buffer s), s).

Definition Stream_Read (n : Z) : SM (list Z) :=
  b ← Stream_Peek n;
  Stream_Seek n;;
  mret b.

(** ** Writing *)

(** [memcpy] into the buffer at the pointer, which then moves past it. *)
Definition stream_put (b : list Z) : SM unit :=
  rem ← Stream_GetRemainingCapacity;
  WINPR_ASSERT (rem >=? zlen b);;
  λ s, Ret (tt, set_pointer (st_pointer s + zlen b)
                  (set_buffer (zblit (st_pointer s) b (st_buffer s)) s)).

Definition Stream_Write_UINT8 (v : Z) : SM unit :=
  WINPR_ASSERT ((v <=? UINT8_MAX) && (0 <=? v));; stream_put (winpr_Data_Write_UINT8 v).
Definition Stream_Write_UINT16 (v : Z) : SM unit :=
  WINPR_ASSERT ((v <=? UINT16_MAX) && (0 <=? v));; stream_put (winpr_Data_Write_UINT16 v).
Definition Stream_Write_UINT16_BE (v : Z) : SM unit :=
  WINPR_ASSERT ((v <=? UINT16_MAX) && (0 <=? v));; stream_put (winpr_Data_Write_UINT16_BE v).
Definition Stream_Write_UINT32 (v : Z) : SM unit :=
  WINPR_ASSERT ((v <=? UINT32_MAX) && (0 <=? v));; stream_put (winpr_Data_Write_UINT32 v).
Definition Stream_Write_UINT32_BE (v : Z) : SM unit :=
  WINPR_ASSERT ((v <=? UINT32_MAX) && (0 <=? v));; stream_put (winpr_Data_Write_UINT32_BE v).
Definition Stream_Write_UINT64 (v : Z) : SM unit := stream_put (winpr_Data_Write_UINT64 v).
Definition Stream_Write_UINT64_BE (v : Z) : SM unit := stream_put (winpr_Data_Write_UINT64_BE v).

Definition Stream_Write (b : list Z) : SM unit :=
  if zlen b >? 0 then stream_put b else mret tt.

Definition Stream_Fill (v n : Z) : SM unit :=
  stream_put (replicate (Z.to_nat n) (u8 v)).
Definition Stream_Zero (n : Z) : SM unit := Stream_Fill 0 n.

Definition Stream_SafeZeroEx (size : Z) : SM (option unit) :=
  TRY Stream_CheckAndLogRequiredCapacityEx size 1;
  Stream_Zero size;;
  TRUE.

(** ** Construction and growth *)

Definition Stream_StaticInit (buffer : list Z) (size : Z) : wStream :=
  mkStream buffer 0 size size false false.

Section alloc.
Context {HM : Malloc}.

(** [None] is [nullptr]; [buffer = None] asks for a zeroed buffer. *)
Definition Stream_New (buffer : option (list Z)) (size : Z) : option wStream :=
  if (match buffer with None => true | Some _ => false end) && (size =? 0) then None
  else if negb (malloc_ok 56) then None
  else
    let buf := match buffer with
               | Some b => Some b
               | None => if malloc_ok size then Some (zeros size) else None
               end in
    match buf with
    | None => None
    | Some b => Some (mkStream b 0 size size true true)
    end.

Definition Stream_EnsureCapacity (size : Z) : SM (option unit) := λ s,
  if st_capacity s >=? size then Ret (Some tt, s)
  else
    let increment := 128 in
    if size >? SIZE_MAX - increment then Ret (None, s)
    else
      let old_capacity := st_capacity s in
      let new_capacity := size + increment - size mod increment in
      let position := st_pointer s in
      if negb (malloc_ok new_capacity) then Ret (None, s)
      else
        (* a stream that does not own its buffer copies it, the other one
           is reallocated: the first [capacity] bytes are the old ones *)
        let new_buf := ztake (st_capacity s) (st_buffer s)
                         ++ zeros (new_capacity - old_capacity) in
        Stream_SetPosition position
          (mkStream new_buf 0 new_capacity new_capacity
             (st_isAllocatedStream s) true).

Definition Stream_EnsureRemainingCapacity (size : Z) : SM (option unit) :=
  pos ← Stream_GetPosition;
  cap ← Stream_Capacity;
  if pos >? SIZE_MAX - size then FALSE
  else if pos + size >? cap then Stream_EnsureCapacity (u64 (cap + size))
  else TRUE.

(** A new stream and what [m] makes of it. *)
Definition on_new_stream (size : Z) (m : SM (option unit)) : outcome (option wStream) :=
  match Stream_New None size with
  | None => Ret None
  | Some s =>
      match m s with
      | Ret (Some _, s) => Ret (Some s)
      | Ret (None, _) => Ret None
      | Abort => Abort
      end
  end.
End alloc.

(** ** UTF-16 strings *)

Fixpoint write_wchars (src : list Z) : SM unit :=
  match src with
  | [] => mret tt
  | c :: src => Stream_Write_UINT16 c;; write_wchars src
  end.
Definition Stream_Write_UTF16_String (src : list Z) : SM (option unit) :=
  TRY Stream_CheckAndLogRequiredCapacityEx (zlen src) 2;
  write_wchars src;;
  TRUE.

Fixpoint read_wchars (n : nat) : SM (list Z) :=
  match n with
  | O => mret []
  | S n => c ← Stream_Read_UINT16; l ← read_wchars n; mret (c :: l)
  end.
Definition Stream_Read_UTF16_String (len : Z) : SM (option (list Z)) :=
  TRY Stream_CheckAndLogRequiredLengthEx len 2;
  l ← read_wchars (Z.to_nat len);
  mret (Some l).
