(* ===== verification/StreamLogic.v ===== *)
(** The program logic of [Stream]: the stream invariant, what a stream holds
    for its reader ([remaining]) and what its writer has produced
    ([written]), and the three judgements the parsers and serializers of the
    other files are verified with: [reads], [writes] and [safe]. *)

From S2P Require Import Prelude Stream.
From stdpp Require Import prelude list numbers.
From Stdlib Require Import ZArith Lia.

#[local] Open Scope Z_scope.

(** * Integer accessors *)

Lemma get_be_step v b : is_byte b → Z.lor (Z.shiftl v 8) b = v * 256 + b.
Proof. unfold is_byte. intros. rewrite lor_shiftl; lia. Qed.

Lemma get_be_1 a : winpr_Data_Get_BE [a] = a.
Proof. unfold winpr_Data_Get_BE. simpl. apply Z.lor_0_l. Qed.
Lemma get_be_2 a b :
  is_byte a → is_byte b → winpr_Data_Get_BE [a; b] = a * 256 + b.
Proof. intros. unfold winpr_Data_Get_BE. simpl. by rewrite get_be_step. Qed.
Lemma get_be_4 a b c d :
  is_byte a → is_byte b → is_byte c → is_byte d →
  winpr_Data_Get_BE [a; b; c; d] = ((a * 256 + b) * 256 + c) * 256 + d.
Proof. intros. unfold winpr_Data_Get_BE. simpl. by rewrite !get_be_step by done. Qed.

Lemma get_be_range l :
  bytes l → 0 <= winpr_Data_Get_BE l < 256 ^ zlen l.
Proof.
  intros Hl. unfold winpr_Data_Get_BE.
  assert (∀ acc n, 0 <= acc < 256 ^ n → 0 <= n →
    0 <= fold_left (λ v b, Z.lor (Z.shiftl v 8) b) l acc < 256 ^ (n + zlen l)) as H.
  { induction Hl as [|b l Hb Hl IH]; intros acc n Hacc Hn; simpl.
    - unfold zlen. simpl. by rewrite Z.add_0_r.
    - rewrite get_be_step by done. rewrite zlen_cons, Z.add_assoc.
      apply IH; [|lia]. unfold is_byte in Hb.
      rewrite Z.pow_add_r by lia. change (256 ^ 1) with 256. lia. }
  apply (H 0 0); [simpl|]; lia.
Qed.

Lemma get_le_range l :
  bytes l → 0 <= winpr_Data_Get_LE l < 256 ^ zlen l.
Proof.
  intros Hl. unfold winpr_Data_Get_LE.
  replace (zlen l) with (zlen (rev l)) by (unfold zlen; by rewrite length_rev).
  apply get_be_range. by apply Forall_rev.
Qed.

(** The masks and shifts of the writers as arithmetic. *)
Lemma land_255 v : Z.land v 255 = v mod 256.
Proof. apply (land_mask v 8). lia. Qed.
Lemma land_65535 v : Z.land v 65535 = v mod 65536.
Proof. apply (land_mask v 16). lia. Qed.
Lemma land_4294967295 v : Z.land v 4294967295 = v mod 4294967296.
Proof. apply (land_mask v 32). lia. Qed.
Lemma shiftr_8 v : Z.shiftr v 8 = v / 256.
Proof. by rewrite Z.shiftr_div_pow2. Qed.
Lemma shiftr_16 v : Z.shiftr v 16 = v / 65536.
Proof. by rewrite Z.shiftr_div_pow2. Qed.
Lemma shiftr_32 v : Z.shiftr v 32 = v / 4294967296.
Proof. by rewrite Z.shiftr_div_pow2. Qed.
Create Rewrite HintDb bits.
#[export] Hint Rewrite land_255 land_65535 land_4294967295 shiftr_8 shiftr_16
  shiftr_32 : bits.

Lemma write16_be_bytes v : bytes (winpr_Data_Write_UINT16_BE v).
Proof.
  unfold winpr_Data_Write_UINT16_BE. autorewrite with bits.
  repeat constructor; unfold is_byte; div_mod_lia.
Qed.
Lemma write16_le_bytes v : bytes (winpr_Data_Write_UINT16 v).
Proof.
  unfold winpr_Data_Write_UINT16. autorewrite with bits.
  repeat constructor; unfold is_byte; div_mod_lia.
Qed.
Lemma write32_be_bytes v : bytes (winpr_Data_Write_UINT32_BE v).
Proof. apply Forall_app. split; apply write16_be_bytes. Qed.
Lemma write32_le_bytes v : bytes (winpr_Data_Write_UINT32 v).
Proof. apply Forall_app. split; apply write16_le_bytes. Qed.

Lemma get_be_write16 v :
  0 <= v <= UINT16_MAX → winpr_Data_Get_BE (winpr_Data_Write_UINT16_BE v) = v.
Proof.
  unfold UINT16_MAX, winpr_Data_Write_UINT16_BE. intros. autorewrite with bits.
  rewrite get_be_2 by (unfold is_byte; div_mod_lia). div_mod_lia.
Qed.
Lemma get_le_write16 v :
  0 <= v <= UINT16_MAX → winpr_Data_Get_LE (winpr_Data_Write_UINT16 v) = v.
Proof.
  unfold UINT16_MAX, winpr_Data_Get_LE, winpr_Data_Write_UINT16. intros. simpl.
  autorewrite with bits.
  rewrite get_be_2 by (unfold is_byte; div_mod_lia). div_mod_lia.
Qed.
Lemma get_be_write32 v :
  0 <= v <= UINT32_MAX → winpr_Data_Get_BE (winpr_Data_Write_UINT32_BE v) = v.
Proof.
  unfold UINT32_MAX, winpr_Data_Write_UINT32_BE, winpr_Data_Write_UINT16_BE.
  intros. simpl. autorewrite with bits.
  rewrite get_be_4 by (unfold is_byte; div_mod_lia). div_mod_lia.
Qed.
Lemma get_le_write32 v :
  0 <= v <= UINT32_MAX → winpr_Data_Get_LE (winpr_Data_Write_UINT32 v) = v.
Proof.
  unfold UINT32_MAX, winpr_Data_Get_LE, winpr_Data_Write_UINT32, winpr_Data_Write_UINT16.
  intros. simpl. autorewrite with bits.
  rewrite get_be_4 by (unfold is_byte; div_mod_lia). div_mod_lia.
Qed.
#[export] Hint Resolve write16_be_bytes write16_le_bytes write32_be_bytes
  write32_le_bytes : winpr.

Lemma land_lnot_128 b : is_byte b → Z.land b (Z.lnot 128) = b mod 128.
Proof.
  intros Hb. apply Z.eqb_eq.
  by apply (byte_cases (λ b, Z.land b (Z.lnot 128) =? b mod 128)).
Qed.

(** * The stream invariant *)

(** What [Stream_EnsureValidity] asserts, and that the buffer is an object of
    [capacity] bytes. *)
Record wf (s : wStream) : Prop := {
  wf_object : zlen (st_buffer s) = st_capacity s;
  wf_pointer : 0 <= st_pointer s <= st_capacity s;
  wf_length : 0 <= st_length s <= st_capacity s;
  wf_capacity : st_capacity s <= SIZE_MAX;
  wf_bytes : bytes (st_buffer s);
}.

(** A stream a parser may be run on: its position is in the data. *)
Definition readable (s : wStream) : Prop := wf s ∧ st_pointer s <= st_length s.

Definition rem (s : wStream) : Z := st_length s - st_pointer s.
Definition remaining (s : wStream) : list Z :=
  zslice (st_pointer s) (rem s) (st_buffer s).
Definition written (s : wStream) : list Z := ztake (st_pointer s) (st_buffer s).

Definition adv (n : Z) (s : wStream) : wStream := set_pointer (st_pointer s + n) s.

Lemma adv_adv n m s : adv n (adv m s) = adv (m + n) s.
Proof. unfold adv, set_pointer. simpl. f_equal. lia. Qed.
Lemma adv_0 s : adv 0 s = s.
Proof. unfold adv, set_pointer. destruct s; simpl. f_equal. lia. Qed.
Lemma rem_adv n s : rem (adv n s) = rem s - n.
Proof. unfold rem. simpl. lia. Qed.

Lemma readable_adv n s : readable s → 0 <= n <= rem s → readable (adv n s).
Proof.
  intros [[] Hr] Hn. unfold rem in Hn. split; [split|]; simpl in *; try done; lia.
Qed.

Lemma readable_rem s : readable s → 0 <= rem s.
Proof. intros [[] ?]. unfold rem. lia. Qed.

Lemma zlen_remaining s : readable s → zlen (remaining s) = rem s.
Proof.
  intros [[] ?]. unfold remaining, rem. rewrite zlen_zslice; lia.
Qed.

Lemma remaining_adv n s :
  readable s → 0 <= n <= rem s → remaining (adv n s) = zdrop n (remaining s).
Proof.
  intros [[] ?] Hn. unfold remaining, zslice. rewrite rem_adv.
  rewrite zdrop_ztake by lia. simpl. rewrite zdrop_zdrop by lia. done.
Qed.

Lemma remaining_bytes s : wf s → bytes (remaining s).
Proof. intros []. unfold remaining. by apply Forall_zslice. Qed.

(** * What the operations do on such streams *)

Lemma bind_Ret {A B} (m : SM A) (k : A → SM B) s a s' :
  m s = Ret (a, s') → (x ← m; k x) s = k a s'.
Proof. unfold mbind, SM_bind. by intros ->. Qed.

Lemma bind_Abort {A B} (m : SM A) (k : A → SM B) s :
  m s = Abort → (x ← m; k x) s = Abort.
Proof. unfold mbind, SM_bind. by intros ->. Qed.
Lemma run_cast m v s :
  WINPR_ASSERTING_INT_CAST m v s =
    if (0 <=? v) && (v <=? m) then Ret (v, s) else Abort.
Proof.
  unfold WINPR_ASSERTING_INT_CAST, WINPR_ASSERT, mbind, SM_bind.
  by destruct ((0 <=? v) && (v <=? m)).
Qed.

Lemma run_GetRemainingLength s :
  readable s → Stream_GetRemainingLength s = Ret (rem s, s).
Proof.
  intros [[] ?]. unfold Stream_GetRemainingLength, rem.
  replace (0 <=? st_pointer s) with true by lia.
  replace (st_length s <=? st_capacity s) with true by lia.
  by replace (st_pointer s <=? st_length s) with true by lia.
Qed.
Lemma run_GetRemainingCapacity s :
  wf s → Stream_GetRemainingCapacity s = Ret (st_capacity s - st_pointer s, s).
Proof.
  intros []. unfold Stream_GetRemainingCapacity.
  replace (0 <=? st_pointer s) with true by lia.
  by replace (st_pointer s <=? st_capacity s) with true by lia.
Qed.
Lemma run_CheckLength n s :
  readable s →
  Stream_CheckAndLogRequiredLength n s =
    Ret (if rem s <? n then None else Some tt, s).
Proof.
  intros. unfold Stream_CheckAndLogRequiredLength, Stream_CheckAndLogRequiredLengthEx.
  erewrite bind_Ret by done. erewrite bind_Ret by by apply run_GetRemainingLength.
  simpl. rewrite Z.div_1_r. by destruct (rem s <? n).
Qed.
Lemma run_CheckCapacity n s :
  wf s →
  Stream_CheckAndLogRequiredCapacity n s =
    Ret (if st_capacity s - st_pointer s <? n then None else Some tt, s).
Proof.
  intros. unfold Stream_CheckAndLogRequiredCapacity, Stream_CheckAndLogRequiredCapacityEx.
  erewrite bind_Ret by done. erewrite bind_Ret by by apply run_GetRemainingCapacity.
  simpl. rewrite Z.div_1_r. by destruct (_ <? n).
Qed.
Lemma run_Seek n s :
  wf s → st_pointer s + n <= st_capacity s → Stream_Seek n s = Ret (tt, adv n s).
Proof.
  intros. unfold Stream_Seek.
  erewrite bind_Ret by by apply run_GetRemainingCapacity. simpl.
  unfold WINPR_ASSERT, mbind, SM_bind.
  by replace (st_capacity s - st_pointer s >=? n) with true by lia.
Qed.
Lemma run_stream_read get n seek s :
  readable s → n <= rem s →
  stream_read get n seek s =
    Ret (get (zslice (st_pointer s) n (st_buffer s)), if seek then adv n s else s).
Proof.
  intros Hs Hn. unfold stream_read.
  erewrite bind_Ret by by apply run_GetRemainingLength. simpl.
  unfold WINPR_ASSERT. unfold mbind at 1, SM_bind at 1.
  replace (rem s >=? n) with true by lia.
  erewrite bind_Ret by done. destruct seek; [|done].
  erewrite bind_Ret; [done|]. destruct Hs as [[] ?]. apply run_Seek; [done|].
  unfold rem in Hn. lia.
Qed.
Lemma slice_bytes n s : wf s → bytes (zslice (st_pointer s) n (st_buffer s)).
Proof. intros []. by apply Forall_zslice. Qed.

(** * Readers *)

(** [reads m bs a]: from a stream that holds [bs] next, [m] returns [a] and
    leaves the stream behind [bs]. *)
Definition reads {A} (m : SM A) (bs : list Z) (a : A) : Prop :=
  ∀ s tl, readable s → remaining s = bs ++ tl → m s = Ret (a, adv (zlen bs) s).

Lemma remaining_app s bs tl :
  readable s → remaining s = bs ++ tl →
  0 <= zlen bs <= rem s ∧ readable (adv (zlen bs) s) ∧
  remaining (adv (zlen bs) s) = tl.
Proof.
  intros Hs Hr. assert (0 <= zlen bs <= rem s) as Hb.
  { rewrite <- zlen_remaining, Hr by done. zlia. }
  split; [done|]. split; [by apply readable_adv|].
  rewrite remaining_adv, Hr, zdrop_app_ge, zdrop_nonpos by (done || lia). done.
Qed.

Lemma reads_ret {A} (a : A) : reads (mret a) [] a.
Proof. intros s tl Hs Hr. rewrite adv_0. done. Qed.

Lemma reads_bind {A B} (m : SM A) (k : A → SM B) bs1 bs2 a b :
  reads m bs1 a → reads (k a) bs2 b → reads (x ← m; k x) (bs1 ++ bs2) b.
Proof.
  intros Hm Hk s tl Hs Hr. rewrite <- app_assoc in Hr.
  unfold mbind, SM_bind. rewrite (Hm s (bs2 ++ tl)) by done.
  destruct (remaining_app s bs1 (bs2 ++ tl)) as (_ & Hs' & Hr'); [done..|].
  rewrite (Hk _ tl) by done. rewrite adv_adv, zlen_app. done.
Qed.

Lemma reads_nil_r {A} (m : SM A) bs a : reads m (bs ++ []) a → reads m bs a.
Proof. by rewrite app_nil_r. Qed.

(** A step that reads nothing. *)
Lemma reads_bind_nil {A B} (m : SM A) (k : A → SM B) bs a b :
  reads m [] a → reads (k a) bs b → reads (x ← m; k x) bs b.
Proof. apply (reads_bind _ _ []). Qed.

(** A check for bytes that are there. *)
Lemma reads_check {B} n (k : option unit → SM B) bs b :
  n <= zlen bs → reads (k (Some tt)) bs b →
  reads (x ← Stream_CheckAndLogRequiredLength n; k x) bs b.
Proof.
  intros Hn Hk s tl Hs Hr.
  destruct (remaining_app s bs tl) as (Hb & _ & _); [done..|].
  erewrite bind_Ret by by apply run_CheckLength.
  replace (rem s <? n) with false by lia. eauto.
Qed.

Lemma slice_app s bs tl :
  readable s → remaining s = bs ++ tl →
  zslice (st_pointer s) (zlen bs) (st_buffer s) = bs.
Proof.
  intros Hs Hr. destruct (remaining_app s bs tl) as (Hb & _ & _); [done..|].
  unfold remaining, zslice in *.
  rewrite <- (ztake_ztake (zlen bs) (rem s)), Hr by lia.
  rewrite ztake_app_le by lia. apply ztake_all. lia.
Qed.

Lemma reads_stream_read get n bs :
  n = zlen bs → reads (stream_read get n true) bs (get bs).
Proof.
  intros -> s tl Hs Hr. destruct (remaining_app s bs tl) as (Hb & _ & _); [done..|].
  rewrite run_stream_read by (done || lia). by erewrite slice_app by done.
Qed.

Lemma reads_UINT8 v : reads Stream_Read_UINT8 [v] v.
Proof. rewrite <- (get_be_1 v) at 2. by apply reads_stream_read. Qed.
Lemma reads_UINT16_BE v :
  0 <= v <= UINT16_MAX → reads Stream_Read_UINT16_BE (winpr_Data_Write_UINT16_BE v) v.
Proof. intros. rewrite <- (get_be_write16 v) at 2 by done. by apply reads_stream_read. Qed.
Lemma reads_UINT16 v :
  0 <= v <= UINT16_MAX → reads Stream_Read_UINT16 (winpr_Data_Write_UINT16 v) v.
Proof. intros. rewrite <- (get_le_write16 v) at 2 by done. by apply reads_stream_read. Qed.
Lemma reads_UINT32_BE v :
  0 <= v <= UINT32_MAX → reads Stream_Read_UINT32_BE (winpr_Data_Write_UINT32_BE v) v.
Proof. intros. rewrite <- (get_be_write32 v) at 2 by done. by apply reads_stream_read. Qed.
Lemma reads_UINT32 v :
  0 <= v <= UINT32_MAX → reads Stream_Read_UINT32 (winpr_Data_Write_UINT32 v) v.
Proof. intros. rewrite <- (get_le_write32 v) at 2 by done. by apply reads_stream_read. Qed.

Lemma reads_Seek bs : reads (Stream_Seek (zlen bs)) bs tt.
Proof.
  intros s tl Hs Hr. destruct (remaining_app s bs tl) as (Hb & _ & _); [done..|].
  destruct Hs as [[] ?]. apply run_Seek; [done|]. unfold rem in Hb. lia.
Qed.

Lemma reads_Read bs : reads (Stream_Read (zlen bs)) bs bs.
Proof.
  intros s tl Hs Hr. destruct (remaining_app s bs tl) as (Hb & _ & _); [done..|].
  unfold rem in Hb. pose proof Hs as [Hw ?]. destruct Hw.
  unfold Stream_Read, Stream_Peek. unfold mbind at 1, SM_bind at 1.
  erewrite bind_Ret by by apply run_GetRemainingCapacity. simpl.
  unfold WINPR_ASSERT, mbind at 1, SM_bind at 1.
  replace (st_capacity s - st_pointer s >=? zlen bs) with true by lia.
  erewrite bind_Ret by (apply run_Seek; [done|lia]).
  by erewrite slice_app by done.
Qed.

Lemma reads_assert (b : bool) : b = true → reads (WINPR_ASSERT b) [] tt.
Proof. intros -> s tl Hs Hr. by rewrite adv_0. Qed.
Lemma reads_lift {A} (a : A) : reads (lift (Ret a)) [] a.
Proof. intros s tl Hs Hr. by rewrite adv_0. Qed.
Lemma reads_cast m v : 0 <= v <= m → reads (WINPR_ASSERTING_INT_CAST m v) [] v.
Proof.
  intros. apply (reads_bind_nil _ _ _ tt); [apply reads_assert; lia|apply reads_ret].
Qed.

(** One step of a parser on the encoding it expects. *)
Lemma reads_step_UINT8 {B} v (k : Z → SM B) bs b :
  reads (k v) bs b → reads (x ← Stream_Read_UINT8; k x) (v :: bs) b.
Proof. apply (reads_bind _ _ [v]), reads_UINT8. Qed.
Lemma reads_step_UINT16 {B} v (k : Z → SM B) bs b :
  0 <= v <= UINT16_MAX → reads (k v) bs b →
  reads (x ← Stream_Read_UINT16; k x) (winpr_Data_Write_UINT16 v ++ bs) b.
Proof. intros. by eapply reads_bind; [apply reads_UINT16|]. Qed.
Lemma reads_step_UINT16_BE {B} v (k : Z → SM B) bs b :
  0 <= v <= UINT16_MAX → reads (k v) bs b →
  reads (x ← Stream_Read_UINT16_BE; k x) (winpr_Data_Write_UINT16_BE v ++ bs) b.
Proof. intros. by eapply reads_bind; [apply reads_UINT16_BE|]. Qed.
Lemma reads_step_UINT32 {B} v (k : Z → SM B) bs b :
  0 <= v <= UINT32_MAX → reads (k v) bs b →
  reads (x ← Stream_Read_UINT32; k x) (winpr_Data_Write_UINT32 v ++ bs) b.
Proof. intros. by eapply reads_bind; [apply reads_UINT32|]. Qed.
Lemma reads_step_UINT32_BE {B} v (k : Z → SM B) bs b :
  0 <= v <= UINT32_MAX → reads (k v) bs b →
  reads (x ← Stream_Read_UINT32_BE; k x) (winpr_Data_Write_UINT32_BE v ++ bs) b.
Proof. intros. by eapply reads_bind; [apply reads_UINT32_BE|]. Qed.
Lemma reads_Peek_UINT8 {B} v (k : Z → SM B) bs b :
  reads (k v) (v :: bs) b → reads (x ← Stream_Peek_UINT8; k x) (v :: bs) b.
Proof.
  intros Hk s tl Hs Hr. assert (zslice (st_pointer s) 1 (st_buffer s) = [v]) as Hv.
  { apply (slice_app s [v] (bs ++ tl)); done. }
  destruct (remaining_app s (v :: bs) tl) as (Hb & _ & _); [done..|].
  rewrite zlen_cons in Hb. pose proof (zlen_nonneg bs).
  erewrite bind_Ret by (apply run_stream_read; [done|lia]).
  rewrite Hv, get_be_1. eauto.
Qed.
Lemma reads_step_Seek {B} n bs1 (k : unit → SM B) bs b :
  n = zlen bs1 → reads (k tt) bs b → reads (x ← Stream_Seek n; k x) (bs1 ++ bs) b.
Proof. intros ->. eapply reads_bind. apply reads_Seek. Qed.
Lemma reads_step_Read {B} n bs1 (k : list Z → SM B) bs b :
  n = zlen bs1 → reads (k bs1) bs b → reads (x ← Stream_Read n; k x) (bs1 ++ bs) b.
Proof. intros ->. eapply reads_bind. apply reads_Read. Qed.
Lemma reads_step_Peek {B} n bs1 (k : list Z → SM B) bs b :
  n = zlen bs1 → reads (k bs1) (bs1 ++ bs) b →
  reads (x ← Stream_Peek n; k x) (bs1 ++ bs) b.
Proof.
  intros -> Hk s tl Hs Hr. rewrite <- app_assoc in Hr.
  destruct (remaining_app s bs1 (bs ++ tl)) as (Hb & _ & _); [done..|].
  pose proof (slice_app s bs1 (bs ++ tl) Hs Hr) as Hsl.
  unfold rem in Hb. pose proof Hs as [Hw ?]. destruct Hw.
  rewrite (bind_Ret _ _ s bs1 s); [apply (Hk s tl); [done|by rewrite <- app_assoc]|].
  unfold Stream_Peek. erewrite bind_Ret by by apply run_GetRemainingCapacity.
  simpl. unfold WINPR_ASSERT, mbind, SM_bind.
  replace (st_capacity s - st_pointer s >=? zlen bs1) with true by lia. by rewrite Hsl.
Qed.
Lemma reads_step_cast {B} m v (k : Z → SM B) bs b :
  0 <= v <= m → reads (k v) bs b →
  reads (x ← WINPR_ASSERTING_INT_CAST m v; k x) bs b.
Proof. intros. by eapply reads_bind_nil; [apply reads_cast|]. Qed.

(** * Safety of readers *)

(** The data of the stream is untouched and its position is in the data. *)
Record same_data (s s' : wStream) : Prop := {
  sd_buffer : st_buffer s' = st_buffer s;
  sd_length : st_length s' = st_length s;
  sd_capacity : st_capacity s' = st_capacity s;
  sd_readable : readable s';
}.

(** [safe n m P]: on any readable stream with [n] more bytes, whatever they
    are, [m] does not abort, returns a value in [P] and leaves a readable
    stream on the same data. *)
Definition safe {A} (n : Z) (m : SM A) (P : A → Prop) : Prop :=
  ∀ s, readable s → n <= rem s →
  ∃ a s', m s = Ret (a, s') ∧ same_data s s' ∧ P a.

Lemma same_data_refl s : readable s → same_data s s.
Proof. by split. Qed.
Lemma same_data_trans s1 s2 s3 :
  same_data s1 s2 → same_data s2 s3 → same_data s1 s3.
Proof. intros [] []. split; congruence || done. Qed.
Lemma same_data_adv n s : readable s → 0 <= n <= rem s → same_data s (adv n s).
Proof. intros. split; [done..|]. by apply readable_adv. Qed.

Section safe.
Context {A B : Type}.
Implicit Types (n w : Z) (P : B → Prop).

Lemma safe_weaken n n' (m : SM B) P : n' <= n → safe n' m P → safe n m P.
Proof. intros ? Hm s ??. apply Hm; [done|lia]. Qed.
Lemma safe_mono n (m : SM B) (P Q : B → Prop) :
  (∀ a, P a → Q a) → safe n m P → safe n m Q.
Proof.
  intros HPQ Hm s ??. destruct (Hm s) as (a & s' & ? & ? & ?); [done..|].
  exists a, s'. auto.
Qed.
Lemma safe_ret n (b : B) P : P b → safe n (mret b) P.
Proof. intros HP s ??. eexists _, _. split; [done|]. split; [by apply same_data_refl|done]. Qed.
Lemma safe_bind n (m : SM A) (k : A → SM B) (Q : A → Prop) P :
  safe n m Q → (∀ a, Q a → safe 0 (k a) P) → safe n (x ← m; k x) P.
Proof.
  intros Hm Hk s Hs Hn. destruct (Hm s Hs Hn) as (a & s1 & H1 & D1 & Ha).
  destruct (Hk a Ha s1) as (b & s2 & H2 & D2 & Hb).
  { by destruct D1. } { apply readable_rem. by destruct D1. }
  eexists _, _. split; [by erewrite bind_Ret|]. split; [by eapply same_data_trans|done].
Qed.
(** The rest of the run starts on an advanced stream. *)
Lemma safe_run_adv n w (k : SM B) P s :
  readable s → n <= rem s → 0 <= w <= n → safe (n - w) k P →
  ∃ b s', k (adv w s) = Ret (b, s') ∧ same_data s s' ∧ P b.
Proof.
  intros Hs Hn Hw Hk. destruct (Hk (adv w s)) as (b & s2 & H2 & D2 & Hb).
  { apply readable_adv; [done|lia]. } { rewrite rem_adv. lia. }
  eexists _, _. split; [done|]. split; [|done]. eapply same_data_trans; [|done].
  apply same_data_adv; [done|lia].
Qed.
Lemma safe_check n c (k : option unit → SM B) P :
  safe n (k None) P → safe (Z.max n c) (k (Some tt)) P →
  safe n (x ← Stream_CheckAndLogRequiredLength c; k x) P.
Proof.
  intros HN HS s Hs Hn. erewrite bind_Ret by by apply run_CheckLength.
  destruct (Z.ltb_spec (rem s) c); [by apply HN|]. apply HS; [done|lia].
Qed.
Lemma safe_stream_read get w n (k : Z → SM B) P :
  0 <= w <= n → (∀ l, bytes l → zlen l = w → safe (n - w) (k (get l)) P) →
  safe n (x ← stream_read get w true; k x) P.
Proof.
  intros Hw Hk s Hs Hn. erewrite bind_Ret by (apply run_stream_read; [done|lia]).
  pose proof Hs as [Hwf ?]. eapply safe_run_adv; [done..|]. apply Hk.
  - by apply slice_bytes.
  - unfold rem in Hn. destruct Hwf. apply zlen_zslice; lia.
Qed.
Lemma safe_peek get w n (k : Z → SM B) P :
  0 <= w <= n → (∀ l, bytes l → zlen l = w → safe n (k (get l)) P) →
  safe n (x ← stream_read get w false; k x) P.
Proof.
  intros Hw Hk s Hs Hn. erewrite bind_Ret by (apply run_stream_read; [done|lia]).
  pose proof Hs as [Hwf ?]. apply Hk; [by apply slice_bytes| |done..].
  unfold rem in Hn. destruct Hwf. apply zlen_zslice; lia.
Qed.

Lemma safe_UINT8 n (k : Z → SM B) P :
  1 <= n → (∀ v, is_byte v → safe (n - 1) (k v) P) →
  safe n (x ← Stream_Read_UINT8; k x) P.
Proof.
  intros ? Hk. apply safe_stream_read; [lia|]. intros l Hb Hl. apply Hk.
  pose proof (get_be_range l Hb) as Hg. by rewrite Hl in Hg.
Qed.
Lemma safe_Peek_UINT8 n (k : Z → SM B) P :
  1 <= n → (∀ v, is_byte v → safe n (k v) P) →
  safe n (x ← Stream_Peek_UINT8; k x) P.
Proof.
  intros ? Hk. apply safe_peek; [lia|]. intros l Hb Hl. apply Hk.
  pose proof (get_be_range l Hb) as Hg. by rewrite Hl in Hg.
Qed.
Lemma safe_UINT16_BE n (k : Z → SM B) P :
  2 <= n → (∀ v, 0 <= v < 65536 → safe (n - 2) (k v) P) →
  safe n (x ← Stream_Read_UINT16_BE; k x) P.
Proof.
  intros ? Hk. apply safe_stream_read; [lia|]. intros l Hb Hl. apply Hk.
  pose proof (get_be_range l Hb) as Hg. by rewrite Hl in Hg.
Qed.
Lemma safe_UINT16 n (k : Z → SM B) P :
  2 <= n → (∀ v, 0 <= v < 65536 → safe (n - 2) (k v) P) →
  safe n (x ← Stream_Read_UINT16; k x) P.
Proof.
  intros ? Hk. apply safe_stream_read; [lia|]. intros l Hb Hl. apply Hk.
  pose proof (get_le_range l Hb) as Hg. by rewrite Hl in Hg.
Qed.
Lemma safe_UINT32_BE n (k : Z → SM B) P :
  4 <= n → (∀ v, 0 <= v < 4294967296 → safe (n - 4) (k v) P) →
  safe n (x ← Stream_Read_UINT32_BE; k x) P.
Proof.
  intros ? Hk. apply safe_stream_read; [lia|]. intros l Hb Hl. apply Hk.
  pose proof (get_be_range l Hb) as Hg. by rewrite Hl in Hg.
Qed.
Lemma safe_UINT32 n (k : Z → SM B) P :
  4 <= n → (∀ v, 0 <= v < 4294967296 → safe (n - 4) (k v) P) →
  safe n (x ← Stream_Read_UINT32; k x) P.
Proof.
  intros ? Hk. apply safe_stream_read; [lia|]. intros l Hb Hl. apply Hk.
  pose proof (get_le_range l Hb) as Hg. by rewrite Hl in Hg.
Qed.
Lemma safe_Seek n w (k : unit → SM B) P :
  0 <= w <= n → safe (n - w) (k tt) P → safe n (x ← Stream_Seek w; k x) P.
Proof.
  intros Hw Hk s Hs Hn. pose proof Hs as [Hwf ?].
  erewrite bind_Ret; [by eapply safe_run_adv|].
  apply run_Seek; [done|]. destruct Hwf. unfold rem in Hn. lia.
Qed.
Lemma safe_Peek_bytes n w (k : list Z → SM B) P :
  0 <= w <= n → (∀ l, bytes l → zlen l = w → safe n (k l) P) →
  safe n (x ← Stream_Peek w; k x) P.
Proof.
  intros Hw Hk s Hs Hn. pose proof Hs as [Hwf ?]. pose proof Hwf as [].
  unfold rem in Hn.
  erewrite bind_Ret; cycle 1.
  { unfold Stream_Peek. erewrite bind_Ret by by apply run_GetRemainingCapacity.
    simpl. unfold WINPR_ASSERT, mbind, SM_bind.
    by replace (st_capacity s - st_pointer s >=? w) with true by lia. }
  apply Hk; [by apply slice_bytes|apply zlen_zslice; lia|done|unfold rem; lia].
Qed.
Lemma safe_Read_bytes n w (k : list Z → SM B) P :
  0 <= w <= n → (∀ l, bytes l → zlen l = w → safe (n - w) (k l) P) →
  safe n (x ← Stream_Read w; k x) P.
Proof.
  intros Hw Hk s Hs Hn. pose proof Hs as [Hwf ?]. pose proof Hwf as [].
  unfold rem in Hn. erewrite bind_Ret; cycle 1.
  { unfold Stream_Read, Stream_Peek. unfold mbind at 1, SM_bind at 1.
    erewrite bind_Ret by by apply run_GetRemainingCapacity.
    simpl. unfold WINPR_ASSERT, mbind at 1, SM_bind at 1.
    replace (st_capacity s - st_pointer s >=? w) with true by lia.
    by erewrite bind_Ret by (apply run_Seek; [done|lia]). }
  eapply (safe_run_adv n); [done|unfold rem; lia|done|].
  apply Hk; [by apply slice_bytes|apply zlen_zslice; lia].
Qed.
Lemma safe_assert n (c : bool) (k : unit → SM B) P :
  c = true → safe n (k tt) P → safe n (x ← WINPR_ASSERT c; k x) P.
Proof. by intros ->. Qed.
Lemma safe_cast n m v (k : Z → SM B) P :
  0 <= v <= m → safe n (k v) P → safe n (x ← WINPR_ASSERTING_INT_CAST m v; k x) P.
Proof.
  intros ? Hk s ??. erewrite bind_Ret; [by apply Hk|].
  unfold WINPR_ASSERTING_INT_CAST, WINPR_ASSERT, mbind, SM_bind.
  by replace ((0 <=? v) && (v <=? m)) with true by lia.
Qed.
Lemma safe_GetPosition n (k : Z → SM B) P :
  (∀ p, 0 <= p → safe n (k p) P) → safe n (x ← Stream_GetPosition; k x) P.
Proof.
  intros Hk s Hs Hn. pose proof Hs as [[] ?].
  rewrite (bind_Ret _ _ s (st_pointer s) s); [apply Hk; [lia|done..]|].
  unfold Stream_GetPosition. by replace (0 <=? st_pointer s) with true by lia.
Qed.
Lemma safe_GetRemainingLength n (k : Z → SM B) P :
  (∀ r, n <= r → safe r (k r) P) → safe n (x ← Stream_GetRemainingLength; k x) P.
Proof.
  intros Hk s Hs Hn. rewrite (bind_Ret _ _ s (rem s) s); [by apply Hk|].
  by apply run_GetRemainingLength.
Qed.
Lemma safe_SafeSeek n w (k : option unit → SM B) P :
  0 <= w → safe 0 (k None) P → safe (n - w) (k (Some tt)) P →
  safe n (x ← Stream_SafeSeekEx w; k x) P.
Proof.
  intros Hw HN HS s Hs Hn. unfold Stream_SafeSeekEx.
  unfold mbind at 1, SM_bind at 1.
  erewrite bind_Ret by by apply (run_CheckLength w).
  destruct (Z.ltb_spec (rem s) w).
  { apply HN; [done|by apply readable_rem]. }
  erewrite bind_Ret; cycle 1.
  { pose proof Hs as [[] ?]. apply run_Seek; [by destruct Hs|]. unfold rem in *. lia. }
  simpl. apply (safe_run_adv (Z.max n w)); [done|lia|lia|].
  eapply safe_weaken; [|done]. lia.
Qed.
End safe.

(** One step of the safety proof of a parser. *)
Ltac safe_step :=
  lazymatch goal with
  | |- safe _ (mret _) _ => apply safe_ret
  | |- safe _ FALSE _ => apply safe_ret
  | |- safe _ TRUE _ => apply safe_ret
  | |- safe _ (mbind _ (Stream_CheckAndLogRequiredLength _)) _ => apply safe_check
  | |- safe _ (mbind _ Stream_Read_UINT8) _ => apply safe_UINT8; [lia|intros ??]
  | |- safe _ (mbind _ Stream_Peek_UINT8) _ => apply safe_Peek_UINT8; [lia|intros ??]
  | |- safe _ (mbind _ Stream_Read_UINT16_BE) _ => apply safe_UINT16_BE; [lia|intros ??]
  | |- safe _ (mbind _ Stream_Read_UINT16) _ => apply safe_UINT16; [lia|intros ??]
  | |- safe _ (mbind _ Stream_Read_UINT32_BE) _ => apply safe_UINT32_BE; [lia|intros ??]
  | |- safe _ (mbind _ Stream_Read_UINT32) _ => apply safe_UINT32; [lia|intros ??]
  | |- safe _ (mbind _ (Stream_Seek _)) _ => apply safe_Seek; [lia|]
  | |- safe _ (mbind _ (Stream_Peek _)) _ => apply safe_Peek_bytes; [lia|intros ???]
  | |- safe _ (mbind _ (Stream_Read _)) _ => apply safe_Read_bytes; [lia|intros ???]
  | |- safe _ (mbind _ (Stream_SafeSeekEx _)) _ => apply safe_SafeSeek; [lia| |]
  | |- safe _ (mbind _ Stream_GetPosition) _ => apply safe_GetPosition; intros ??
  | |- safe _ (mbind _ Stream_GetRemainingLength) _ =>
      apply safe_GetRemainingLength; intros ??
  | |- safe _ (mbind _ (WINPR_ASSERT _)) _ => apply safe_assert
  | |- safe _ (if ?c then _ else _) _ => destruct c eqn:?
  end.

(** A call of a parser that is safe itself. *)
Ltac safe_sub lem :=
  eapply safe_bind; [apply lem|]; intros [?|] ?; [|by apply safe_ret]; cbv beta iota.

(** * Writers *)

(** [s'] is [s] with [bs] appended at its position, in a buffer that grew by
    at most [c] bytes. *)
Record wstep (s s' : wStream) (bs : list Z) (c : Z) : Prop := {
  ws_wf : wf s';
  ws_written : written s' = written s ++ bs;
  ws_pointer : st_pointer s' = st_pointer s + zlen bs;
  ws_capacity : st_capacity s <= st_capacity s' <= st_capacity s + c;
  ws_after : ∃ z, zdrop (st_pointer s') (st_buffer s') = zdrop (st_pointer s') (st_buffer s) ++ z;
}.

(** Room for [n] more bytes. *)
Definition fits (s : wStream) (n : Z) : Prop := st_pointer s + n <= st_capacity s.

Lemma wstep_refl s : wf s → wstep s s [] 0.
Proof.
  intros. split; [done|by rewrite app_nil_r|unfold zlen; simpl; lia|lia|].
  exists []. by rewrite app_nil_r.
Qed.
Lemma zdrop_more {A} p n (l z : list A) :
  0 <= p → 0 <= n → ∃ z', zdrop n (zdrop p l ++ z) = zdrop (p + n) l ++ z'.
Proof.
  intros. exists (zdrop (n - zlen (zdrop p l)) z).
  destruct (Z.le_ge_cases n (zlen (zdrop p l))).
  - rewrite zdrop_app_le, zdrop_zdrop, (zdrop_nonpos _ z) by lia. done.
  - rewrite zdrop_app_ge by lia. rewrite <- zdrop_zdrop, (zdrop_all n) by lia. done.
Qed.
Lemma wstep_trans s1 s2 s3 bs1 bs2 c1 c2 :
  wstep s1 s2 bs1 c1 → wstep s2 s3 bs2 c2 → wstep s1 s3 (bs1 ++ bs2) (c1 + c2).
Proof.
  intros [] []. split; [done| |rewrite zlen_app; lia|lia|].
  - rewrite ws_written1, ws_written0. by rewrite app_assoc.
  - destruct ws_after0 as [z0 H0], ws_after1 as [z1 H1]. pose proof (zlen_nonneg bs2).
    destruct ws_wf0. rewrite H1, ws_pointer1.
    replace (zdrop (st_pointer s2 + zlen bs2) (st_buffer s2))
      with (zdrop (zlen bs2) (zdrop (st_pointer s2) (st_buffer s2)))
      by (apply zdrop_zdrop; lia).
    rewrite H0. destruct (zdrop_more (st_pointer s2) (zlen bs2) (st_buffer s1) z0) as [z' ->];
      [lia..|]. rewrite <- app_assoc. eauto.
Qed.
Lemma wstep_weaken s s' bs c c' : c <= c' → wstep s s' bs c → wstep s s' bs c'.
Proof. intros ? []. split; [done..|lia|done]. Qed.

Lemma run_stream_put bs s :
  wf s → fits s (zlen bs) → bytes bs →
  ∃ s', stream_put bs s = Ret (tt, s') ∧ wstep s s' bs 0.
Proof.
  intros Hwf Hf Hb. unfold fits in Hf. pose proof Hwf as [].
  unfold stream_put. erewrite bind_Ret by by apply run_GetRemainingCapacity.
  simpl. unfold WINPR_ASSERT, mbind, SM_bind.
  replace (st_capacity s - st_pointer s >=? zlen bs) with true by lia.
  eexists. split; [done|]. pose proof (zlen_nonneg bs).
  split; [split| | | |]; simpl; try done; try lia.
  - by rewrite zlen_zblit by lia.
  - by apply Forall_zblit.
  - unfold written. simpl. apply ztake_zblit; lia.
  - exists []. rewrite app_nil_r. apply zdrop_zblit; lia.
Qed.

(** The same for each [Stream_Write_*]. *)
Lemma assert_bind {A} (b : bool) (m : SM A) s :
  b = true → (WINPR_ASSERT b;; m) s = m s.
Proof. by intros ->. Qed.

Ltac solve_write := intros;
  unfold Stream_Write_UINT8, Stream_Write_UINT16, Stream_Write_UINT16_BE,
    Stream_Write_UINT32, Stream_Write_UINT32_BE;
  rewrite assert_bind by (unfold is_byte, UINT8_MAX, UINT16_MAX, UINT32_MAX in *; lia);
  apply run_stream_put; [done|done|auto with winpr].

Lemma run_Write_UINT8 v s :
  wf s → fits s 1 → is_byte v →
  ∃ s', Stream_Write_UINT8 v s = Ret (tt, s') ∧ wstep s s' [v] 0.
Proof. solve_write. by constructor. Qed.
Lemma run_Write_UINT16 v s :
  wf s → fits s 2 → 0 <= v <= UINT16_MAX →
  ∃ s', Stream_Write_UINT16 v s = Ret (tt, s') ∧
    wstep s s' (winpr_Data_Write_UINT16 v) 0.
Proof. solve_write. Qed.
Lemma run_Write_UINT16_BE v s :
  wf s → fits s 2 → 0 <= v <= UINT16_MAX →
  ∃ s', Stream_Write_UINT16_BE v s = Ret (tt, s') ∧
    wstep s s' (winpr_Data_Write_UINT16_BE v) 0.
Proof. solve_write. Qed.
Lemma run_Write_UINT32 v s :
  wf s → fits s 4 → 0 <= v <= UINT32_MAX →
  ∃ s', Stream_Write_UINT32 v s = Ret (tt, s') ∧
    wstep s s' (winpr_Data_Write_UINT32 v) 0.
Proof. solve_write. Qed.
Lemma run_Write_UINT32_BE v s :
  wf s → fits s 4 → 0 <= v <= UINT32_MAX →
  ∃ s', Stream_Write_UINT32_BE v s = Ret (tt, s') ∧
    wstep s s' (winpr_Data_Write_UINT32_BE v) 0.
Proof. solve_write. Qed.
Lemma run_Write b s :
  wf s → fits s (zlen b) → bytes b →
  ∃ s', Stream_Write b s = Ret (tt, s') ∧ wstep s s' b 0.
Proof.
  intros. unfold Stream_Write. destruct (Z.gtb_spec (zlen b) 0).
  - by apply run_stream_put.
  - rewrite (zlen_nil_inv b) in * by zlia. eexists. split; [done|]. by apply wstep_refl.
Qed.

(** Growing the buffer keeps what was written and makes room. *)
Lemma grow_step `{HM : Malloc} n s :
  wf s → 0 <= n → (∀ k, malloc_ok k = true) → st_capacity s + n + 128 <= SIZE_MAX →
  ∃ s', Stream_EnsureRemainingCapacity n s = Ret (Some tt, s') ∧
    wstep s s' [] (n + 128) ∧ fits s' n.
Proof.
  intros Hwf Hn Hm Hmax. pose proof Hwf as [].
  unfold Stream_EnsureRemainingCapacity.
  erewrite bind_Ret; cycle 1.
  { unfold Stream_GetPosition. by replace (0 <=? st_pointer s) with true by lia. }
  erewrite bind_Ret by done.
  replace (st_pointer s >? SIZE_MAX - n) with false by lia.
  destruct (Z.gtb_spec (st_pointer s + n) (st_capacity s)) as [Hg|Hg]; cycle 1.
  { exists s. split; [done|]. split; [|unfold fits; lia].
    eapply wstep_weaken; [|by apply wstep_refl]. lia. }
  unfold u64. rewrite Z.mod_small by (unfold SIZE_MAX in *; lia).
  unfold Stream_EnsureCapacity.
  replace (st_capacity s >=? st_capacity s + n) with false by lia.
  replace (st_capacity s + n >? SIZE_MAX - 128) with false by lia.
  rewrite Hm. simpl. unfold Stream_SetPosition. simpl.
  pose proof (Z.mod_pos_bound (st_capacity s + n) 128 ltac:(lia)).
  set (nc := st_capacity s + n + 128 - (st_capacity s + n) mod 128) in *.
  replace (st_pointer s >? nc) with false by lia.
  eexists. split; [done|]. rewrite (ztake_all (st_capacity s)) by lia.
  split; [split; [split| | | |]|]; simpl; try done; try lia.
  - rewrite zlen_app, zlen_zeros by lia. lia.
  - apply Forall_app. split; [done|apply bytes_zeros].
  - unfold written. simpl. rewrite ztake_app_le, app_nil_r by lia. done.
  - unfold zlen. simpl. lia.
  - rewrite zdrop_app_le by lia. eauto.
  - unfold fits. simpl. lia.
Qed.

(** Growing by more than is missing. *)
Lemma grow_capacity `{HM : Malloc} n s s' : wf s → st_capacity s + n + 128 <= SIZE_MAX → Stream_EnsureRemainingCapacity n s = Ret (Some tt, s') →
  s' = s ∧ fits s n ∨ st_capacity s + n <= st_capacity s'.
Proof.
  intros Hwf Hmax E. pose proof Hwf as []. unfold Stream_EnsureRemainingCapacity in E. erewrite bind_Ret in E by (unfold Stream_GetPosition; by replace (0 <=? st_pointer s) with true by lia).
  erewrite bind_Ret in E by done. destruct (_ >? SIZE_MAX - n); [done|]. destruct (Z.gtb_spec (st_pointer s + n) (st_capacity s)).
  2:{ injection E as ->. left. split; [done|]. unfold fits. lia. }
  right. unfold u64 in E. rewrite Z.mod_small in E by (unfold SIZE_MAX in *; lia). unfold Stream_EnsureCapacity in E.
  destruct (Z.geb_spec (st_capacity s) (st_capacity s + n)); [injection E as <-; lia|]. destruct (_ >? SIZE_MAX - 128); [done|].
  pose proof (Z.mod_pos_bound (st_capacity s + n) 128 ltac:(lia)). destruct (malloc_ok _); cbn [negb] in E; [|done].
  unfold Stream_SetPosition in E. cbn [st_capacity] in E. destruct (_ >? _) in E; [done|]. injection E as <-. cbn. lia.
Qed.
Lemma ensure_fits `{HM : Malloc} n s : wf s → 0 <= n → fits s n → Stream_EnsureRemainingCapacity n s = Ret (Some tt, s).
Proof.
  intros Hwf Hn Hf. unfold fits in Hf. pose proof Hwf as []. unfold Stream_EnsureRemainingCapacity.
  erewrite bind_Ret by (unfold Stream_GetPosition; by replace (0 <=? st_pointer s) with true by lia). erewrite bind_Ret by done.
  replace (st_pointer s >? SIZE_MAX - n) with false by lia. by replace (st_pointer s + n >? st_capacity s) with false by lia.
Qed.

(** ** Serializers into a buffer of fixed size *)

(** [puts n m bs a]: on a stream with room for [n] bytes, [m] appends [bs]
    and returns [a]. *)
Definition puts {A} (n : Z) (m : SM A) (bs : list Z) (a : A) : Prop :=
  ∀ s, wf s → fits s n → ∃ s', m s = Ret (a, s') ∧ wstep s s' bs 0.

Lemma puts_ret {A} n (a : A) : puts n (mret a) [] a.
Proof. intros s ??. eexists. split; [done|]. by apply wstep_refl. Qed.
Lemma puts_nil_r {A} n (m : SM A) bs a : puts n m (bs ++ []) a → puts n m bs a.
Proof. by rewrite app_nil_r. Qed.
Lemma puts_bind {A B} n n1 (m : SM A) (k : A → SM B) bs1 bs2 a b :
  n1 <= n → puts n1 m bs1 a → puts (n - zlen bs1) (k a) bs2 b →
  puts n (x ← m; k x) (bs1 ++ bs2) b.
Proof.
  intros Hn Hm Hk s Hwf Hf. unfold fits in Hf.
  destruct (Hm s) as (s1 & H1 & W1); [done|unfold fits; lia|].
  destruct (Hk s1) as (s2 & H2 & W2).
  { by destruct W1. } { destruct W1. unfold fits. lia. }
  eexists. split; [by erewrite bind_Ret|].
  eapply (wstep_weaken _ _ _ (0 + 0)); [lia|]. by eapply wstep_trans.
Qed.
Lemma puts_weaken {A} n n' (m : SM A) bs a : n' <= n → puts n' m bs a → puts n m bs a.
Proof. intros ? Hm s ??. apply Hm; [done|]. unfold fits in *. lia. Qed.
Lemma puts_UINT8 {B} n v (k : unit → SM B) bs b :
  1 <= n → is_byte v → puts (n - 1) (k tt) bs b →
  puts n (x ← Stream_Write_UINT8 v; k x) (v :: bs) b.
Proof.
  intros ?? Hk. eapply (puts_bind n 1 _ _ [v]); [done| |done].
  intros s ??. by apply run_Write_UINT8.
Qed.
Lemma puts_UINT16 {B} n v (k : unit → SM B) bs b :
  2 <= n → 0 <= v <= UINT16_MAX → puts (n - 2) (k tt) bs b →
  puts n (x ← Stream_Write_UINT16 v; k x) (winpr_Data_Write_UINT16 v ++ bs) b.
Proof.
  intros ?? Hk. eapply (puts_bind n 2); [done| |done].
  intros s ??. by apply run_Write_UINT16.
Qed.
Lemma puts_UINT16_BE {B} n v (k : unit → SM B) bs b :
  2 <= n → 0 <= v <= UINT16_MAX → puts (n - 2) (k tt) bs b →
  puts n (x ← Stream_Write_UINT16_BE v; k x) (winpr_Data_Write_UINT16_BE v ++ bs) b.
Proof.
  intros ?? Hk. eapply (puts_bind n 2); [done| |done].
  intros s ??. by apply run_Write_UINT16_BE.
Qed.
Lemma puts_UINT32 {B} n v (k : unit → SM B) bs b :
  4 <= n → 0 <= v <= UINT32_MAX → puts (n - 4) (k tt) bs b →
  puts n (x ← Stream_Write_UINT32 v; k x) (winpr_Data_Write_UINT32 v ++ bs) b.
Proof.
  intros ?? Hk. eapply (puts_bind n 4); [done| |done].
  intros s ??. by apply run_Write_UINT32.
Qed.
Lemma puts_UINT32_BE {B} n v (k : unit → SM B) bs b :
  4 <= n → 0 <= v <= UINT32_MAX → puts (n - 4) (k tt) bs b →
  puts n (x ← Stream_Write_UINT32_BE v; k x) (winpr_Data_Write_UINT32_BE v ++ bs) b.
Proof.
  intros ?? Hk. eapply (puts_bind n 4); [done| |done].
  intros s ??. by apply run_Write_UINT32_BE.
Qed.
Lemma puts_Write {B} n l (k : unit → SM B) bs b :
  zlen l <= n → bytes l → puts (n - zlen l) (k tt) bs b →
  puts n (x ← Stream_Write l; k x) (l ++ bs) b.
Proof.
  intros ?? Hk. eapply (puts_bind n (zlen l)); [done| |done].
  intros s ??. by apply run_Write.
Qed.
Lemma puts_Zero {B} n w (k : unit → SM B) bs b :
  0 <= w <= n → puts (n - w) (k tt) bs b →
  puts n (x ← Stream_Zero w; k x) (zeros w ++ bs) b.
Proof.
  intros ? Hk. eapply (puts_bind n w); [lia| |by rewrite zlen_zeros by lia].
  intros s ??. apply run_stream_put; [done|by rewrite zlen_zeros by lia|apply bytes_zeros].
Qed.
Lemma puts_cast {B} n m v (k : Z → SM B) bs b :
  0 <= v <= m → puts n (k v) bs b →
  puts n (x ← WINPR_ASSERTING_INT_CAST m v; k x) bs b.
Proof.
  intros ? Hk s ??. erewrite bind_Ret; [by apply Hk|].
  unfold WINPR_ASSERTING_INT_CAST, WINPR_ASSERT, mbind, SM_bind.
  by replace ((0 <=? v) && (v <=? m)) with true by lia.
Qed.
Lemma puts_assert {B} n (c : bool) (k : unit → SM B) bs b :
  c = true → puts n (k tt) bs b → puts n (x ← WINPR_ASSERT c; k x) bs b.
Proof. by intros ->. Qed.
Lemma puts_check {B} n c (k : option unit → SM B) bs b :
  c <= n → puts n (k (Some tt)) bs b →
  puts n (x ← Stream_CheckAndLogRequiredCapacity c; k x) bs b.
Proof.
  intros Hc Hk s Hwf Hf. erewrite bind_Ret by by apply run_CheckCapacity.
  unfold fits in Hf. replace (_ <? c) with false by lia. by apply Hk.
Qed.
(** [WINPR_ASSERT(Stream_GetRemainingCapacity(s) >= c)] *)
Lemma puts_assert_capacity {B} n c (k : unit → SM B) bs b :
  c <= n → puts n (k tt) bs b →
  puts n (r ← Stream_GetRemainingCapacity; x ← WINPR_ASSERT (r >=? c); k x) bs b.
Proof.
  intros Hc Hk s Hwf Hf. erewrite bind_Ret by by apply run_GetRemainingCapacity.
  unfold fits in Hf. unfold WINPR_ASSERT, mbind, SM_bind.
  replace (_ >=? c) with true by lia. by apply Hk.
Qed.

(** ** Serializers that grow the buffer *)

(** [writes m bs c a]: on a stream whose capacity is [c] bytes below the
    largest, [m] appends [bs] and returns [a]. *)
Definition writes {A} (m : SM A) (bs : list Z) (c : Z) (a : A) : Prop :=
  ∀ s, wf s → st_capacity s + c <= SIZE_MAX →
  ∃ s', m s = Ret (a, s') ∧ wstep s s' bs c.

Lemma writes_ret {A} (a : A) : writes (mret a) [] 0 a.
Proof. intros s ??. eexists. split; [done|]. by apply wstep_refl. Qed.
Lemma writes_bind {A B} (m : SM A) (k : A → SM B) bs1 bs2 c1 c2 a b :
  0 <= c2 → writes m bs1 c1 a → writes (k a) bs2 c2 b →
  writes (x ← m; k x) (bs1 ++ bs2) (c1 + c2) b.
Proof.
  intros Hc Hm Hk s Hwf Hf. destruct (Hm s) as (s1 & H1 & W1); [done|lia|].
  destruct (Hk s1) as (s2 & H2 & W2). { by destruct W1. } { destruct W1. lia. }
  eexists. split; [by erewrite bind_Ret|]. by eapply wstep_trans.
Qed.
Lemma writes_weaken {A} c c' (m : SM A) bs a :
  c' <= c → writes m bs c' a → writes m bs c a.
Proof.
  intros ? Hm s ??. destruct (Hm s) as (s' & ? & ?); [done|lia|].
  eexists. split; [done|]. by eapply wstep_weaken.
Qed.
Lemma writes_ensure `{HM : Malloc} {B} n (k : option unit → SM B) bs b :
  (∀ z, malloc_ok z = true) → 0 <= n → puts n (k (Some tt)) bs b →
  writes (x ← Stream_EnsureRemainingCapacity n; k x) bs (n + 128) b.
Proof.
  intros Hm Hn Hk s Hwf Hmax.
  destruct (grow_step n s) as (s1 & H1 & W1 & F1); [done..|lia|].
  destruct (Hk s1) as (s2 & H2 & W2). { by destruct W1. } { done. }
  eexists. split; [by erewrite bind_Ret|].
  eapply (wstep_weaken _ _ _ (n + 128 + 0)); [lia|]. by eapply (wstep_trans _ _ _ []).
Qed.

(** * From a writer to a reader *)

(** The stream as the peer gets it: the data ends where the writer stopped
    and is read from where it started. *)
Definition reopen (p : Z) (s : wStream) : wStream :=
  set_pointer p (set_length (st_pointer s) s).

Lemma reopen_readable s s' bs c :
  wf s → wstep s s' bs c →
  readable (reopen (st_pointer s) s') ∧ remaining (reopen (st_pointer s) s') = bs.
Proof.
  intros [] [[] Hw Hp Hc _]. pose proof (zlen_nonneg bs). split.
  - split; [split|]; simpl; try done; lia.
  - unfold remaining, rem. simpl. rewrite Hp.
    replace (st_pointer s + zlen bs - st_pointer s) with (zlen bs) by lia.
    unfold written in Hw. rewrite Hp, ztake_ztake_zdrop in Hw by lia.
    apply app_inj_1 in Hw as [_ Hw]; [done|].
    apply Nat2Z.inj. change (zlen (ztake (st_pointer s) (st_buffer s'))
      = zlen (ztake (st_pointer s) (st_buffer s))).
    rewrite !zlen_ztake. lia.
Qed.

(** What was written is what is read. *)
Lemma write_then_read {A} s s' bs c (r : SM A) a :
  wf s → wstep s s' bs c → reads r bs a →
  ∃ s'', r (reopen (st_pointer s) s') = Ret (a, s'') ∧ st_pointer s'' = st_pointer s'.
Proof.
  intros Hs Hw Hr. destruct (reopen_readable s s' bs c) as [Hrd Hrm]; [done..|].
  eexists. split; [apply (Hr _ []); [done|by rewrite app_nil_r]|].
  destruct Hw. simpl. lia.
Qed.

(** [roundtrip c w r a]: on a stream that can grow by [c] bytes the serializer
    [w] succeeds, and the parser [r], run over what it wrote, returns [a] and
    consumes all of it. *)
Definition roundtrip {A} (c : Z) (w : SM (option unit)) (r : SM (option A)) (a : A) : Prop :=
  ∀ s, wf s → st_capacity s + c <= SIZE_MAX →
  ∃ s' s'', w s = Ret (Some tt, s') ∧
    r (reopen (st_pointer s) s') = Ret (Some a, s'') ∧
    st_pointer s'' = st_pointer s'.

Lemma roundtrip_intro {A} c w (r : SM (option A)) bs a :
  writes w bs c (Some tt) → reads r bs (Some a) → roundtrip c w r a.
Proof.
  intros Hw Hr s Hwf Hc. destruct (Hw s Hwf Hc) as (s' & H1 & W).
  destruct (write_then_read s s' bs c r (Some a)) as (s'' & H2 & H3); [done..|].
  by exists s', s''.
Qed.

(** An empty stream, to evaluate serializers and parsers on. *)
Definition new_stream (n : Z) : wStream := Stream_StaticInit (zeros n) n.
Definition stream_of (bs : list Z) : wStream := Stream_StaticInit bs (zlen bs).

Lemma new_stream_wf n : 0 <= n <= SIZE_MAX → wf (new_stream n).
Proof.
  intros. split; simpl; [by apply zlen_zeros; lia|lia..|apply bytes_zeros].
Qed.
Lemma stream_of_readable bs :
  zlen bs <= SIZE_MAX → bytes bs → readable (stream_of bs).
Proof. intros. pose proof (zlen_nonneg bs). split; [split|]; simpl; done || lia. Qed.

(** The same for a serializer that returns the size of what it appends to a
    stream with room for [n] bytes. *)
Definition roundtrip_fixed {A} (n : Z) (w : SM Z) (r : SM (option A)) (a : A) : Prop :=
  ∀ s, wf s → fits s n →
  ∃ size s' s'', w s = Ret (size, s') ∧ st_pointer s' = st_pointer s + size ∧
    r (reopen (st_pointer s) s') = Ret (Some a, s'') ∧
    st_pointer s'' = st_pointer s'.

Lemma roundtrip_fixed_intro {A} n w (r : SM (option A)) bs a :
  puts n w bs (zlen bs) → reads r bs (Some a) → roundtrip_fixed n w r a.
Proof.
  intros Hw Hr s Hwf Hc. destruct (Hw s Hwf Hc) as (s' & H1 & W).
  destruct (write_then_read s s' bs 0 r (Some a)) as (s'' & H2 & H3); [done..|].
  exists (zlen bs), s', s''. split_and!; try done. by destruct W.
Qed.

(** And for one that returns [BOOL]. *)
Definition roundtrip_room {A} (n : Z) (w : SM (option unit)) (r : SM (option A)) (a : A) : Prop :=
  ∀ s, wf s → fits s n →
  ∃ s' s'', w s = Ret (Some tt, s') ∧
    r (reopen (st_pointer s) s') = Ret (Some a, s'') ∧
    st_pointer s'' = st_pointer s'.

Lemma roundtrip_room_intro {A} n w (r : SM (option A)) bs a :
  puts n w bs (Some tt) → reads r bs (Some a) → roundtrip_room n w r a.
Proof.
  intros Hw Hr s Hwf Hc. destruct (Hw s Hwf Hc) as (s' & H1 & W).
  destruct (write_then_read s s' bs 0 r (Some a)) as (s'' & H2 & H3); [done..|].
  by exists s', s''.
Qed.

(** One step of a serializer that grows the buffer, out of a budget of [c]. *)
Lemma writes_step {A B} c c1 (m : SM A) (k : A → SM B) bs1 bs2 a b :
  c1 <= c → writes m bs1 c1 a → writes (k a) bs2 (c - c1) b →
  writes (x ← m; k x) (bs1 ++ bs2) c b.
Proof.
  intros Hc Hm Hk. replace c with (c1 + (c - c1)) by lia.
  apply (writes_bind _ _ _ _ _ _ a); [lia|done..].
Qed.
Lemma writes_assert {B} c (b : bool) (k : unit → SM B) bs r :
  b = true → writes (k tt) bs c r → writes (x ← WINPR_ASSERT b; k x) bs c r.
Proof. by intros ->. Qed.

(** A serializer that needs room for [n] bytes and grows the buffer behind
    them. *)
Definition emits {A} (n : Z) (m : SM A) (bs : list Z) (c : Z) (a : A) : Prop :=
  ∀ s, wf s → fits s n → st_capacity s + c <= SIZE_MAX →
  ∃ s', m s = Ret (a, s') ∧ wstep s s' bs c.

Lemma emits_writes {A} n (m : SM A) bs c a : writes m bs c a → emits n m bs c a.
Proof. intros Hm s Hwf _. by apply Hm. Qed.
Lemma emits_puts {A} n c (m : SM A) bs a : 0 <= c → puts n m bs a → emits n m bs c a.
Proof.
  intros Hc Hm s Hwf Hf _. destruct (Hm s Hwf Hf) as (s' & ? & ?).
  exists s'. split; [done|]. by eapply wstep_weaken.
Qed.
Lemma emits_step {A B} n n1 c (m : SM A) (k : A → SM B) bs1 bs2 a b :
  n1 <= n → puts n1 m bs1 a → emits (n - zlen bs1) (k a) bs2 c b →
  emits n (x ← m; k x) (bs1 ++ bs2) c b.
Proof.
  intros Hn Hm Hk s Hwf Hf Hc. unfold fits in *.
  destruct (Hm s Hwf) as (s1 & H1 & W1); [unfold fits; lia|].
  destruct (Hk s1) as (s2 & H2 & W2); destruct W1 as [? ? ? ? ?]; [done|unfold fits; lia|lia|].
  exists s2. split; [by erewrite bind_Ret|].
  eapply (wstep_weaken _ _ _ (0 + c)); [lia|]. by eapply wstep_trans; [split|].
Qed.
Lemma emits_assert {B} n c (b : bool) (k : unit → SM B) bs r :
  b = true → emits n (k tt) bs c r → emits n (x ← WINPR_ASSERT b; k x) bs c r.
Proof. by intros ->. Qed.

Lemma reads_SafeSeek {B} bs1 n (k : option unit → SM B) bs b :
  n = zlen bs1 → reads (k (Some tt)) bs b →
  reads (x ← Stream_SafeSeekEx n; k x) (bs1 ++ bs) b.
Proof.
  intros -> Hk. apply (reads_bind _ _ _ _ (Some tt)); [|done].
  apply reads_nil_r, (reads_check (zlen bs1)); [zlia|].
  apply reads_step_Seek; [done|]. apply reads_ret.
Qed.

Lemma run_GetPosition s : wf s → Stream_GetPosition s = Ret (st_pointer s, s).
Proof.
  intros []. unfold Stream_GetPosition. by replace (0 <=? st_pointer s) with true by lia.
Qed.

Lemma run_Peek n s :
  readable s → 0 <= n <= rem s →
  Stream_Peek n s = Ret (zslice (st_pointer s) n (st_buffer s), s).
Proof.
  intros Hs Hn. pose proof Hs as [Hwf ?]. pose proof Hwf as []. unfold rem in Hn.
  unfold Stream_Peek. erewrite bind_Ret by by apply run_GetRemainingCapacity.
  simpl. unfold WINPR_ASSERT, mbind, SM_bind.
  by replace (st_capacity s - st_pointer s >=? n) with true by lia.
Qed.

(** ** Runs on any input *)

(** [m] does not abort on this stream, and leaves its data alone. *)
Definition ends {A} (m : SM A) (s : wStream) : Prop :=
  ∃ a s', m s = Ret (a, s') ∧ same_data s s'.

Lemma ends_ret {A} (a : A) s : readable s → ends (mret a) s.
Proof. intros. eexists _, _. split; [done|]. by apply same_data_refl. Qed.
Lemma ends_bind {A B} (m : SM A) (k : A → SM B) s a s' :
  m s = Ret (a, s') → same_data s s' → ends (k a) s' → ends (x ← m; k x) s.
Proof.
  intros Hm Hd (b & s2 & H2 & D2). exists b, s2. split; [by erewrite bind_Ret|].
  by eapply same_data_trans.
Qed.


(** ** A whole packet *)

(** [parses m bs a]: on a stream that holds just [bs], [m] returns [a] and
    leaves nothing. *)
Definition parses {A} (m : SM A) (bs : list Z) (a : A) : Prop :=
  ∀ s, readable s → remaining s = bs → m s = Ret (a, adv (zlen bs) s).

Lemma reads_parses {A} (m : SM A) bs a : reads m bs a → parses m bs a.
Proof. intros Hm s Hs Hr. apply (Hm s []); [done|by rewrite app_nil_r]. Qed.
Lemma parses_bind {A B} (m : SM A) (k : A → SM B) bs1 bs2 a b :
  reads m bs1 a → parses (k a) bs2 b → parses (x ← m; k x) (bs1 ++ bs2) b.
Proof.
  intros Hm Hk s Hs Hr. erewrite bind_Ret by by apply (Hm s bs2).
  destruct (remaining_app s bs1 bs2) as (_ & Hs' & Hr'); [done..|].
  rewrite (Hk _ Hs' Hr'), adv_adv, zlen_app. done.
Qed.
Lemma parses_check {B} n (k : option unit → SM B) bs b :
  n <= zlen bs → parses (k (Some tt)) bs b →
  parses (x ← Stream_CheckAndLogRequiredLength n; k x) bs b.
Proof.
  intros Hn Hk s Hs Hr. erewrite bind_Ret by by apply run_CheckLength.
  rewrite <- zlen_remaining, Hr by done. replace (zlen bs <? n) with false by lia.
  by apply Hk.
Qed.

(** A step that may grow the buffer, out of a room of [n] and a budget of [c]. *)
Lemma emits_bind {A B} n n1 c c1 (m : SM A) (k : A → SM B) bs1 bs2 a b :
  n1 <= n → c1 <= c → emits n1 m bs1 c1 a → emits (n - zlen bs1) (k a) bs2 (c - c1) b →
  emits n (x ← m; k x) (bs1 ++ bs2) c b.
Proof.
  intros Hn Hc Hm Hk s Hwf Hf Hmax. unfold fits in *.
  destruct (Hm s Hwf) as (s1 & H1 & W1); [unfold fits; lia|lia|].
  pose proof W1 as [? ? ? ? ?].
  destruct (Hk s1) as (s2 & H2 & W2); [done|unfold fits; lia|lia|].
  exists s2. split; [by erewrite bind_Ret|].
  replace c with (c1 + (c - c1)) by lia. by eapply wstep_trans.
Qed.
Lemma emits_ret {A} n c (a : A) : 0 <= c → emits n (mret a) [] c a.
Proof. intros. by apply emits_puts, puts_ret. Qed.
Lemma emits_seal n c : 0 <= c → emits n (Stream_SealLength;; TRUE) [] c (Some tt).
Proof.
  intros Hc s Hwf _ _. pose proof Hwf as []. eexists. split.
  { erewrite bind_Ret; [done|]. unfold Stream_SealLength.
    by replace (_ && _) with true by lia. }
  split; [split| | | |]; simpl; try done; try lia.
  - by rewrite app_nil_r.
  - change (zlen []) with 0. lia.
  - exists []. by rewrite app_nil_r.
Qed.

Lemma written_bytes s : wf s → bytes (written s).
Proof. intros []. by apply Forall_take. Qed.
Lemma zlen_written s : wf s → zlen (written s) = st_pointer s.
Proof. intros []. unfold written. rewrite zlen_ztake. lia. Qed.
Lemma wf_set_pointer p s : wf s → 0 <= p <= st_capacity s → wf (set_pointer p s).
Proof. intros [] ?. by split. Qed.

Lemma run_SetPosition p s :
  p <= st_capacity s → Stream_SetPosition p s = Ret (Some tt, set_pointer p s).
Proof. intros. unfold Stream_SetPosition. by replace (p >? _) with false by lia. Qed.

(** Bytes written over earlier ones, and back to the position. *)
Lemma backfilled p w s s1 :
  wf s → 0 <= p → p + zlen w <= st_pointer s → wstep (set_pointer p s) s1 w 0 →
  st_capacity s1 = st_capacity s ∧
  let s' := set_pointer (st_pointer s) s1 in wf s' ∧ written s' = zblit p w (written s).
Proof.
  intros Hwf Hp Hw [W1 W2 W3 W4 [z W5]]. pose proof Hwf as []. pose proof (zlen_nonneg w).
  cbn [set_pointer st_pointer st_buffer st_capacity] in *.
  cbn zeta. split_and!; [lia|apply wf_set_pointer; [done|lia]|].
  unfold written in *. cbn [set_pointer st_pointer st_buffer] in *.
  replace (st_pointer s) with (st_pointer s1 + (st_pointer s - st_pointer s1)) at 1 by lia.
  rewrite ztake_ztake_zdrop, W2 by lia. unfold zslice, zblit. rewrite W5, W3.
  rewrite ztake_app_le by (rewrite zlen_zdrop; lia). rewrite <- app_assoc, ztake_ztake by lia.
  f_equal. f_equal. rewrite zdrop_ztake by lia. done.
Qed.
Lemma run_backfill p w put s :
  wf s → 0 <= p → p + zlen w <= st_pointer s → puts (zlen w) put w tt →
  ∃ s', put (set_pointer p s) = Ret (tt, s') ∧ st_capacity s' = st_capacity s ∧
    let s'' := set_pointer (st_pointer s) s' in wf s'' ∧ written s'' = zblit p w (written s).
Proof.
  intros Hwf Hp Hw Hput. pose proof Hwf as []. pose proof (zlen_nonneg w).
  destruct (Hput (set_pointer p s)) as (s1 & E & W);
    [apply wf_set_pointer; [done|lia]|unfold fits; cbn; lia|].
  exists s1. split; [done|]. by apply backfilled.
Qed.

(** There is room already. *)
Lemma puts_ensure `{HM : Malloc} {B} n c (k : option unit → SM B) bs b :
  0 <= c <= n → puts n (k (Some tt)) bs b →
  puts n (x ← Stream_EnsureRemainingCapacity c; k x) bs b.
Proof.
  intros Hc Hk s Hwf Hf. unfold fits in Hf. pose proof Hwf as [].
  rewrite (bind_Ret _ _ s (Some tt) s); [by apply Hk|].
  unfold Stream_EnsureRemainingCapacity. erewrite bind_Ret by by apply run_GetPosition.
  erewrite bind_Ret by done. replace (st_pointer s >? SIZE_MAX - c) with false by lia.
  by replace (st_pointer s + c >? st_capacity s) with false by lia.
Qed.

(** Code that returns, as a reader. *)
Lemma safe_lift {A} n (o : outcome A) (P : A → Prop) : (∃ a, o = Ret a ∧ P a) → safe n (lift o) P.
Proof.
  intros (a & -> & Ha) s Hs _. exists a, s. split_and!; [done|by apply same_data_refl|done].
Qed.

(** * Properties of the streams *)

(** [Stream_EnsureCapacity], when it grows the buffer and when it gives up. *)
Lemma ensure_capacity_cases `{HM : Malloc} size s :
  wf s → ∃ r s', Stream_EnsureCapacity size s = Ret (r, s') ∧ wf s' ∧
    st_pointer s' = st_pointer s ∧ ztake (st_capacity s) (st_buffer s') = st_buffer s ∧
    (r = None → s' = s) ∧ (r = Some tt → size <= st_capacity s') ∧
    (size <= st_capacity s → r = Some tt ∧ s' = s).
Proof.
  intros Hwf. pose proof Hwf as [].
  assert (ztake (st_capacity s) (st_buffer s) = st_buffer s) as Ht by (apply ztake_all; lia).
  unfold Stream_EnsureCapacity. destruct (Z.geb_spec (st_capacity s) size).
  { exists (Some tt), s. by split_and!. }
  destruct (Z.gtb_spec size (SIZE_MAX - 128)).
  { exists None, s. split_and!; try done. lia. }
  destruct (malloc_ok _); simpl; cycle 1.
  { exists None, s. split_and!; try done. lia. }
  pose proof (Z.mod_pos_bound size 128 ltac:(lia)).
  rewrite Ht. unfold Stream_SetPosition. simpl.
  replace (st_pointer s >? _) with false by lia.
  eexists (Some tt), _. split; [done|]. split_and!; try done; simpl; try lia.
  - split; simpl; try done; try lia.
    + rewrite zlen_app, zlen_zeros by lia. lia.
    + apply Forall_app. split; [done|apply bytes_zeros].
  - rewrite ztake_app_le by lia. done.
Qed.

Lemma puts_wchars n l :
  Forall (λ c, 0 <= c <= UINT16_MAX) l → 2 * zlen l <= n →
  puts n (write_wchars l) (concat (map winpr_Data_Write_UINT16 l)) tt.
Proof.
  intros Hl. revert n. induction Hl as [|c l Hc Hl IH]; intros n Hn; [apply puts_ret|].
  rewrite zlen_cons in Hn. pose proof (zlen_nonneg l). cbn [write_wchars map concat].
  apply puts_UINT16; [lia|done|]. apply IH. lia.
Qed.
Lemma zlen_wchars l : zlen (concat (map winpr_Data_Write_UINT16 l)) = 2 * zlen l.
Proof.
  induction l as [|c l IH]; [done|]. cbn [map concat].
  rewrite zlen_app, zlen_cons, IH. change (zlen (winpr_Data_Write_UINT16 c)) with 2. lia.
Qed.
Lemma reads_wchars l :
  Forall (λ c, 0 <= c <= UINT16_MAX) l →
  reads (read_wchars (length l)) (concat (map winpr_Data_Write_UINT16 l)) l.
Proof.
  induction 1 as [|c l Hc Hl IH]; [apply reads_ret|]. cbn [length read_wchars map concat].
  apply reads_step_UINT16; [done|]. apply reads_nil_r. eapply reads_bind; [done|]. apply reads_ret.
Qed.
Lemma run_CheckLengthEx n w s :
  0 < w → readable s →
  Stream_CheckAndLogRequiredLengthEx n w s = Ret (if rem s / w <? n then None else Some tt, s).
Proof.
  intros Hw Hs. unfold Stream_CheckAndLogRequiredLengthEx. rewrite assert_bind by lia.
  erewrite bind_Ret by by apply run_GetRemainingLength. cbv zeta. by destruct (_ <? n).
Qed.
Lemma run_CheckCapacityEx n w s :
  0 < w → wf s →
  Stream_CheckAndLogRequiredCapacityEx n w s =
    Ret (if (st_capacity s - st_pointer s) / w <? n then None else Some tt, s).
Proof.
  intros Hw Hs. unfold Stream_CheckAndLogRequiredCapacityEx. rewrite assert_bind by lia.
  erewrite bind_Ret by by apply run_GetRemainingCapacity. cbv zeta. by destruct (_ <? n).
Qed.

(** Growing a stream: [Stream_EnsureRemainingCapacity] never aborts, keeps
    the position and every byte of the buffer, and leaves the stream as it was
    when it fails (an allocation, or a size beyond [SIZE_MAX]).  When it
    succeeds there is room for the bytes asked for, provided capacity and
    request add up in a [size_t]: if the sum wraps around, it reports success
    without growing the stream. *)
Theorem stream_ensure_remaining_capacity `{HM : Malloc} n s :
  wf s → 0 <= n <= SIZE_MAX →
  ∃ r s', Stream_EnsureRemainingCapacity n s = Ret (r, s') ∧ wf s' ∧
    st_pointer s' = st_pointer s ∧ ztake (st_capacity s) (st_buffer s') = st_buffer s ∧
    (r = None → s' = s) ∧
    (st_capacity s + n <= SIZE_MAX → r = Some tt → fits s' n) ∧
    (SIZE_MAX < st_capacity s + n → st_pointer s + n <= SIZE_MAX → r = Some tt ∧ s' = s).
Proof.
  intros Hwf Hn. pose proof Hwf as []. unfold Stream_EnsureRemainingCapacity.
  erewrite bind_Ret by by apply run_GetPosition. erewrite bind_Ret by done.
  assert (ztake (st_capacity s) (st_buffer s) = st_buffer s) as Ht by (apply ztake_all; lia).
  destruct (Z.gtb_spec (st_pointer s) (SIZE_MAX - n)).
  { exists None, s. split_and!; try done. lia. }
  destruct (Z.gtb_spec (st_pointer s + n) (st_capacity s)); cycle 1.
  { exists (Some tt), s. by split_and!. }
  destruct (ensure_capacity_cases (u64 (st_capacity s + n)) s Hwf)
    as (r & s' & -> & Hwf' & Hp & Hb & HN & HS & Hle).
  exists r, s'. unfold u64, SIZE_MAX in *. split_and!; try done.
  - intros Hs Hr. specialize (HS Hr). rewrite Z.mod_small in HS by lia. unfold fits. lia.
  - intros Hs _. apply Hle. rewrite <- (Z.mod_unique (st_capacity s + n) 18446744073709551616 1
      (st_capacity s + n - 18446744073709551616)); lia.
Qed.

(** UTF-16 strings: any code units written with [Stream_Write_UTF16_String]
    are read back by [Stream_Read_UTF16_String] of their number. *)
Theorem stream_utf16_roundtrip l :
  Forall (λ c, 0 <= c <= UINT16_MAX) l →
  roundtrip_room (2 * zlen l) (Stream_Write_UTF16_String l)
    (Stream_Read_UTF16_String (zlen l)) l.
Proof.
  intros Hl. apply (roundtrip_room_intro _ _ _ (concat (map winpr_Data_Write_UINT16 l))).
  - intros s Hwf Hf. unfold fits in Hf. unfold Stream_Write_UTF16_String.
    erewrite bind_Ret by by apply run_CheckCapacityEx.
    replace (_ <? zlen l) with false by div_mod_lia.
    apply (puts_nil_r (2 * zlen l)); [|done|done].
    eapply (puts_bind _ (2 * zlen l)); [lia|by apply puts_wchars|]. apply puts_ret.
  - intros s tl Hs Hr. unfold Stream_Read_UTF16_String.
    destruct (remaining_app _ _ _ Hs Hr) as (Hz & _ & _). rewrite zlen_wchars in Hz.
    erewrite bind_Ret by by apply run_CheckLengthEx.
    replace (_ <? zlen l) with false by div_mod_lia.
    unfold zlen at 1. rewrite Nat2Z.id. by erewrite bind_Ret by (eapply reads_wchars; done).
Qed.

Lemma stream_ensure_remaining_capacity_witness :
  let HM : Malloc := λ _, true in
  let s := new_stream 100 in
  ∃ r s', Stream_EnsureRemainingCapacity (SIZE_MAX - 10) s = Ret (r, s') ∧ wf s' ∧
    r = Some tt ∧ s' = s ∧ st_capacity s' = 100.
Proof.
  intros HM s.
  destruct (stream_ensure_remaining_capacity (SIZE_MAX - 10) s)
    as (r & s' & H1 & H2 & _ & _ & _ & _ & H3); [by apply new_stream_wf|done|].
  exists r, s'. destruct H3 as [-> ->]; [done..|]. by split_and!.
Defined.
Lemma stream_utf16_roundtrip_witness :
  roundtrip_room 6 (Stream_Write_UTF16_String [72; 105; 8364])
    (Stream_Read_UTF16_String 3) [72; 105; 8364].
Proof. apply (stream_utf16_roundtrip [72; 105; 8364]). by repeat constructor. Defined.
