(* ===== verification/Transmission.v ===== *)
(** From the sender to the receiver: a packet is what was written to a new stream,
    and its reader gets a stream of just these bytes. *)

From S2P Require Import Prelude Stream StreamLogic.
From stdpp Require Import prelude list numbers.
From Stdlib Require Import ZArith Lia.

#[local] Open Scope Z_scope.

(** [transport_write] sends what is before the position of the stream; the
    peer is given just that. *)
Definition transmit {A} (sent : outcome (option wStream)) (recv : SM (option A)) : outcome (option A) :=
  match sent with
  | Ret (Some s) =>
      match recv (stream_of (written s)) with Ret (a, _) => Ret a | Abort => Abort end
  | Ret None => Ret None
  | Abort => Abort
  end.
(** The receiver's answer is [a]. *)
Definition delivers {A} (sent : outcome (option wStream)) (recv : SM (option A)) (a : A) : Prop :=
  transmit sent recv = Ret (Some a).

Lemma remaining_stream_of bs : remaining (stream_of bs) = bs.
Proof.
  unfold remaining, rem, zslice. simpl. rewrite zdrop_nonpos by lia. apply ztake_all. lia.
Qed.

Lemma parsed_by s bs {A} (r : SM (option A)) a :
  wf s → written s = bs → parses r bs (Some a) →
  ∃ s', r (stream_of (written s)) = Ret (Some a, s').
Proof.
  intros Hwf Hw Hr. eexists. rewrite Hw. apply Hr; [|apply remaining_stream_of].
  rewrite <- Hw. apply stream_of_readable; [|by apply written_bytes].
  rewrite zlen_written by done. destruct Hwf. lia.
Qed.

Section sending.
Context {HM : Malloc} (Hmalloc : ∀ z, malloc_ok z = true).

Lemma new_stream_spec size :
  0 < size <= SIZE_MAX →
  ∃ s, Stream_New None size = Some s ∧ wf s ∧ st_pointer s = 0 ∧ st_capacity s = size.
Proof.
  intros Hs. unfold Stream_New. rewrite !Hmalloc. replace (size =? 0) with false by lia.
  eexists. split; [done|]. split; [split|]; simpl; try done; try lia.
  - apply zlen_zeros. lia.
  - apply bytes_zeros.
Qed.

Lemma on_new_stream_spec size n c w bs :
  0 < size → size + c <= SIZE_MAX → 0 <= c → n <= size → emits n w bs c (Some tt) →
  ∃ s, on_new_stream size w = Ret (Some s) ∧ wf s ∧ written s = bs.
Proof.
  intros Hs Hc Hc0 Hn Hw. destruct (new_stream_spec size) as (s & Hnew & Hwf & Hp & Hcap); [lia|].
  destruct (Hw s Hwf) as (s' & Hrun & W); [unfold fits; lia|lia|].
  exists s'. unfold on_new_stream. rewrite Hnew, Hrun. split; [done|].
  destruct W. split; [done|]. rewrite ws_written. unfold written. by rewrite Hp.
Qed.

Lemma delivers_intro {A} size n c w bs (r : SM (option A)) a :
  0 < size → size + c <= SIZE_MAX → 0 <= c → n <= size →
  emits n w bs c (Some tt) → parses r bs (Some a) → delivers (on_new_stream size w) r a.
Proof.
  intros ???? Hw Hr. destruct (on_new_stream_spec size n c w bs) as (s & Hs & Hwf & Hbs); [done..|].
  destruct (parsed_by s bs r a) as (s' & Hs'); [done..|].
  unfold delivers, transmit. by rewrite Hs, Hs'.
Qed.
End sending.
