(* ===== verification/Per.v ===== *)
(** Packed encoding rules: libfreerdp/crypto/per.c, the aligned PER subset
    that T.125 MCS and T.124 GCC are serialized with. *)

From S2P Require Import Prelude Stream StreamLogic.
From stdpp Require Import prelude list numbers.
From Stdlib Require Import ZArith Lia.

#[local] Open Scope Z_scope.

(** * The code *)

Definition per_read_length : SM (option Z) :=
  TRY Stream_CheckAndLogRequiredLength 1;
  byte ← Stream_Read_UINT8;
  if negb (Z.land byte 128 =? 0) then
    TRY Stream_CheckAndLogRequiredLength 1;
    let byte := Z.land byte (Z.lnot 128) in
    length ← WINPR_ASSERTING_INT_CAST UINT16_MAX (Z.shiftl byte 8);
    byte ← Stream_Read_UINT8;
    mret (Some (u16 (length + byte)))
  else mret (Some byte).

Definition per_read_choice : SM (option Z) :=
  TRY Stream_CheckAndLogRequiredLength 1;
  choice ← Stream_Read_UINT8;
  mret (Some choice).

Definition per_read_selection : SM (option Z) :=
  TRY Stream_CheckAndLogRequiredLength 1;
  selection ← Stream_Read_UINT8;
  mret (Some selection).

Definition per_read_number_of_sets : SM (option Z) :=
  TRY Stream_CheckAndLogRequiredLength 1;
  number ← Stream_Read_UINT8;
  mret (Some number).

Definition per_read_padding (length : Z) : SM (option unit) :=
  TRY Stream_CheckAndLogRequiredLength length;
  Stream_Seek length;;
  TRUE.

Definition per_read_integer : SM (option Z) :=
  length ←? per_read_length;
  TRY Stream_CheckAndLogRequiredLength length;
  if length =? 0 then mret (Some 0)
  else if length =? 1 then integer ← Stream_Read_UINT8; mret (Some integer)
  else if length =? 2 then integer ← Stream_Read_UINT16_BE; mret (Some integer)
  else FALSE.

Definition per_read_integer16 (min : Z) : SM (option Z) :=
  TRY Stream_CheckAndLogRequiredLength 2;
  integer ← Stream_Read_UINT16_BE;
  if integer >? UINT16_MAX - min then FALSE
  else mret (Some (u16 (integer + min))).

Definition per_read_enumerated (count : Z) : SM (option Z) :=
  TRY Stream_CheckAndLogRequiredLength 1;
  enumerated ← Stream_Read_UINT8;
  if enumerated + 1 >? count then FALSE else mret (Some enumerated).

(** [memcmp]; the rest of the function builds the log message. *)
Definition per_check_oid_and_log_mismatch (got expect : list Z) : bool :=
  bool_decide (got = expect).

Definition per_read_object_identifier (oid : list Z) : SM (option unit) :=
  length ←? per_read_length;
  if negb (length =? 5) then FALSE
  else
    TRY Stream_CheckAndLogRequiredLength length;
    t12 ← Stream_Read_UINT8;
    a2 ← Stream_Read_UINT8;
    a3 ← Stream_Read_UINT8;
    a4 ← Stream_Read_UINT8;
    a5 ← Stream_Read_UINT8;
    if per_check_oid_and_log_mismatch [t12 / 40; t12 mod 40; a2; a3; a4; a5] oid
    then TRUE else FALSE.

Definition per_read_octet_string (oct_str : list Z) (length min : Z) : SM (option unit) :=
  mlength ←? per_read_length;
  if negb (mlength + min =? length) then FALSE
  else
    TRY Stream_CheckAndLogRequiredLength length;
    a_oct_str ← Stream_Peek length;
    Stream_Seek length;;
    if per_check_oid_and_log_mismatch a_oct_str (ztake length oct_str)
    then TRUE else FALSE.

Definition per_read_numeric_string (min : Z) : SM (option unit) :=
  mlength ←? per_read_length;
  let length := (mlength + min + 1) / 2 in
  TRY Stream_CheckAndLogRequiredLength length;
  Stream_Seek length;;
  TRUE.

Section writers.
Context {HM : Malloc}.

Definition per_write_length (length : Z) : SM (option unit) :=
  if length >? 127 then
    TRY Stream_EnsureRemainingCapacity 2;
    Stream_Write_UINT16_BE (Z.lor length 32768);;
    TRUE
  else
    TRY Stream_EnsureRemainingCapacity 1;
    Stream_Write_UINT8 (u8 length);;
    TRUE.

Definition per_write_choice (choice : Z) : SM (option unit) :=
  TRY Stream_EnsureRemainingCapacity 1;
  Stream_Write_UINT8 choice;;
  TRUE.

Definition per_write_selection (selection : Z) : SM (option unit) :=
  TRY Stream_EnsureRemainingCapacity 1;
  Stream_Write_UINT8 selection;;
  TRUE.

Definition per_write_number_of_sets (number : Z) : SM (option unit) :=
  TRY Stream_EnsureRemainingCapacity 1;
  Stream_Write_UINT8 number;;
  TRUE.

Definition per_write_padding (length : Z) : SM (option unit) :=
  TRY Stream_EnsureRemainingCapacity length;
  Stream_Zero length;;
  TRUE.

Definition per_write_integer (integer : Z) : SM (option unit) :=
  if integer <=? UINT8_MAX then
    TRY per_write_length 1;
    TRY Stream_EnsureRemainingCapacity 1;
    v ← WINPR_ASSERTING_INT_CAST UINT8_MAX integer;
    Stream_Write_UINT8 v;;
    TRUE
  else if integer <=? UINT16_MAX then
    TRY per_write_length 2;
    TRY Stream_EnsureRemainingCapacity 2;
    v ← WINPR_ASSERTING_INT_CAST UINT16_MAX integer;
    Stream_Write_UINT16_BE v;;
    TRUE
  else if integer <=? UINT32_MAX then
    TRY per_write_length 4;
    TRY Stream_EnsureRemainingCapacity 4;
    Stream_Write_UINT32_BE integer;;
    TRUE
  else TRUE.

Definition per_write_integer16 (integer min : Z) : SM (option unit) :=
  if min >? integer then FALSE
  else
    TRY Stream_EnsureRemainingCapacity 2;
    Stream_Write_UINT16_BE (integer - min);;
    TRUE.

Definition per_write_enumerated (enumerated count : Z) : SM (option unit) :=
  TRY Stream_EnsureRemainingCapacity 1;
  Stream_Write_UINT8 enumerated;;
  TRUE.

Definition per_write_object_identifier (oid : list Z) : SM (option unit) :=
  let t12 := u8 (zget oid 0 * 40 + zget oid 1) in
  TRY Stream_EnsureRemainingCapacity 6;
  Stream_Write_UINT8 5;;
  Stream_Write_UINT8 t12;;
  Stream_Write_UINT8 (zget oid 2);;
  Stream_Write_UINT8 (zget oid 3);;
  Stream_Write_UINT8 (zget oid 4);;
  Stream_Write_UINT8 (zget oid 5);;
  TRUE.

(** The loops over the [length] bytes of the string. *)
Fixpoint write_octets (oct_str : list Z) : SM unit :=
  match oct_str with
  | [] => mret tt
  | o :: oct_str => Stream_Write_UINT8 o;; write_octets oct_str
  end.

Definition per_write_octet_string (oct_str : list Z) (length min : Z) : SM (option unit) :=
  let mlength := u16 (if length >=? min then length - min else min) in
  TRY per_write_length mlength;
  TRY Stream_EnsureRemainingCapacity length;
  write_octets (ztake length oct_str);;
  TRUE.

Fixpoint write_digits (num_str : list Z) : SM (option unit) :=
  match num_str with
  | [] => TRUE
  | c1 :: rest =>
      let c2 := match rest with c2 :: _ => c2 | [] => 48 end in
      if (c1 <? 48) || (c2 <? 48) then FALSE
      else
        let c1 := (c1 - 48) mod 10 in
        let c2 := (c2 - 48) mod 10 in
        num ← WINPR_ASSERTING_INT_CAST UINT8_MAX (Z.lor (Z.shiftl c1 4) c2);
        Stream_Write_UINT8 num;;
        match rest with
        | _ :: rest => write_digits rest
        | [] => TRUE
        end
  end.

Definition per_write_numeric_string (num_str : list Z) (length min : Z) : SM (option unit) :=
  let mlength := u16 (if length >=? min then length - min else min) in
  TRY per_write_length mlength;
  TRY Stream_EnsureRemainingCapacity length;
  write_digits (ztake length num_str).
End writers.

(** * Encodings *)

(** The encoding of a length: one byte below 128, else two with the top bit
    set. *)
Definition per_length_bytes (len : Z) : list Z :=
  if len >? 127 then winpr_Data_Write_UINT16_BE (len + 32768) else [len].

Lemma per_length_bytes_len len : 1 <= zlen (per_length_bytes len) <= 2.
Proof. unfold per_length_bytes. case_match; unfold zlen; simpl; lia. Qed.

(** Two bytes are read as such even where one would do. *)
Lemma reads_long_length len :
  0 <= len < 32768 → reads per_read_length (winpr_Data_Write_UINT16_BE (len + 32768)) (Some len).
Proof.
  intros Hl. unfold per_read_length, winpr_Data_Write_UINT16_BE. autorewrite with bits.
  apply reads_check; [zlia|]. apply reads_step_UINT8.
  assert (Z.land ((len + 32768) / 256 mod 256) 128 = 128) as ->.
  { rewrite (land_field _ 1 7) by lia. simpl. div_mod_lia. }
  simpl. apply reads_check; [zlia|].
  assert (Z.land ((len + 32768) / 256 mod 256) (Z.lnot 128) = len / 256) as ->.
  { rewrite land_lnot_128 by (unfold is_byte; div_mod_lia). div_mod_lia. }
  apply reads_step_cast.
  { rewrite Z.shiftl_mul_pow2 by lia. unfold UINT16_MAX. div_mod_lia. }
  apply reads_step_UINT8. rewrite Z.shiftl_mul_pow2 by lia.
  unfold u16. replace ((len / 256 * 2 ^ 8 + (len + 32768) mod 256) mod 65536)
    with len by div_mod_lia. apply reads_ret.
Qed.
Lemma reads_per_length len :
  0 <= len < 32768 → reads per_read_length (per_length_bytes len) (Some len).
Proof.
  intros Hl. unfold per_length_bytes. destruct (Z.gtb_spec len 127) as [Hg|Hg]; [by apply reads_long_length|].
  apply reads_check; [zlia|]. apply reads_step_UINT8.
  assert (Z.land len 128 = 0) as ->.
  { rewrite (land_field _ 1 7) by lia. simpl. div_mod_lia. }
  apply reads_ret.
Qed.

Definition per_integer_bytes (v : Z) : list Z :=
  if v <=? UINT8_MAX then 1 :: [v]
  else if v <=? UINT16_MAX then 2 :: winpr_Data_Write_UINT16_BE v
  else 4 :: winpr_Data_Write_UINT32_BE v.

Lemma reads_per_integer v :
  0 <= v <= UINT16_MAX → reads per_read_integer (per_integer_bytes v) (Some v).
Proof.
  intros Hv. unfold per_read_integer, per_integer_bytes.
  destruct (Z.leb_spec v UINT8_MAX).
  - eapply (reads_bind _ _ [1] [v]); [by apply (reads_per_length 1)|].
    apply reads_check; [zlia|]. apply reads_step_UINT8, reads_ret.
  - replace (v <=? UINT16_MAX) with true by lia.
    eapply (reads_bind _ _ [2] (winpr_Data_Write_UINT16_BE v));
      [by apply (reads_per_length 2)|].
    apply reads_check; [done|]. simpl.
    apply reads_nil_r, reads_step_UINT16_BE; [done|]. apply reads_ret.
Qed.

(** The reader has no case for the four-byte integers the writer produces. *)
Lemma reads_per_integer_32 v s tl :
  UINT16_MAX < v → readable s → remaining s = per_integer_bytes v ++ tl →
  per_read_integer s = Ret (None, adv 1 s).
Proof.
  intros Hv Hs Hr. unfold per_integer_bytes in Hr.
  replace (v <=? UINT8_MAX) with false in Hr
    by (unfold UINT8_MAX, UINT16_MAX in *; lia).
  replace (v <=? UINT16_MAX) with false in Hr by lia.
  unfold per_read_integer.
  rewrite (bind_Ret _ _ _ _ _
    (reads_per_length 4 ltac:(lia) s (winpr_Data_Write_UINT32_BE v ++ tl) Hs Hr)).
  destruct (remaining_app s [4] (winpr_Data_Write_UINT32_BE v ++ tl)) as (? & Ha & Hra);
    [done..|].
  erewrite bind_Ret by by apply run_CheckLength.
  replace (rem (adv (zlen (per_length_bytes 4)) s) <? 4) with false; [done|].
  symmetry. apply Z.ltb_ge.
  change (zlen (per_length_bytes 4)) with (zlen [4]).
  rewrite <- zlen_remaining, Hra by done. rewrite zlen_app.
  pose proof (zlen_nonneg tl). unfold zlen at 1. simpl. lia.
Qed.

Lemma reads_per_octet_string l min :
  bytes l → 0 <= min <= zlen l → zlen l - min < 32768 →
  reads (per_read_octet_string l (zlen l) min) (per_length_bytes (zlen l - min) ++ l) (Some tt).
Proof.
  intros Hb Hm Hl. unfold per_read_octet_string.
  eapply reads_bind; [apply reads_per_length; lia|].
  cbv beta iota. replace (zlen l - min + min =? zlen l) with true by lia. cbn [negb].
  apply reads_check; [lia|]. apply reads_nil_r.
  apply reads_step_Peek; [done|]. apply reads_step_Seek; [done|].
  rewrite ztake_all by lia. unfold per_check_oid_and_log_mismatch.
  rewrite bool_decide_eq_true_2 by done. apply reads_ret.
Qed.

Definition per_oid_bytes (oid : list Z) : list Z :=
  [5; zget oid 0 * 40 + zget oid 1; zget oid 2; zget oid 3; zget oid 4; zget oid 5].

Lemma reads_per_oid a b c d e f :
  0 <= b < 40 → 0 <= a →
  reads (per_read_object_identifier [a; b; c; d; e; f])
    (per_oid_bytes [a; b; c; d; e; f]) (Some tt).
Proof.
  intros Hb Ha. unfold per_read_object_identifier, per_oid_bytes, zget. simpl.
  eapply (reads_bind _ _ [5]); [by apply (reads_per_length 5)|]. simpl.
  apply reads_check; [zlia|]. do 5 apply reads_step_UINT8.
  unfold per_check_oid_and_log_mismatch.
  replace ((a * 40 + b) / 40) with a by div_mod_lia.
  replace ((a * 40 + b) mod 40) with b by div_mod_lia.
  rewrite bool_decide_eq_true_2 by done. apply reads_ret.
Qed.

(** ** Safety of the readers *)

Lemma safe_per_length : safe 0 per_read_length (on_some (λ v, 0 <= v < 32768)).
Proof.
  unfold per_read_length. repeat safe_step; try done.
  - apply safe_cast.
    { unfold is_byte in *. rewrite land_lnot_128 by done.
      rewrite Z.shiftl_mul_pow2 by lia. unfold UINT16_MAX. div_mod_lia. }
    repeat safe_step. simpl. unfold u16. rewrite land_lnot_128 by done.
    unfold is_byte in *. rewrite Z.shiftl_mul_pow2 by lia. div_mod_lia.
  - simpl. unfold is_byte in *. lia.
Qed.
(** ** What the writers append *)

Section growing.
Context {HM : Malloc}.
Hypothesis Hm : ∀ z, malloc_ok z = true.

Lemma lor_32768 v : 0 <= v < 32768 → Z.lor v 32768 = v + 32768.
Proof.
  intros. rewrite Z.lor_comm, (lor_disjoint 32768 v 15) by (done || lia). lia.
Qed.

Lemma writes_per_length len :
  0 <= len < 32768 → writes (per_write_length len) (per_length_bytes len) 130 (Some tt).
Proof.
  intros Hl. unfold per_write_length, per_length_bytes.
  destruct (Z.gtb_spec len 127).
  - rewrite lor_32768 by done. apply (writes_weaken _ 130); [lia|].
    apply (writes_ensure 2); [done..|].
    apply puts_nil_r, puts_UINT16_BE; [lia|unfold UINT16_MAX; lia|]. apply puts_ret.
  - unfold u8. rewrite Z.mod_small by lia. apply (writes_weaken _ 129); [lia|].
    apply (writes_ensure 1); [done..|].
    apply puts_UINT8; [lia|unfold is_byte; lia|]. apply puts_ret.
Qed.

Lemma writes_per_byte v :
  is_byte v →
  writes (TRY Stream_EnsureRemainingCapacity 1; Stream_Write_UINT8 v;; TRUE)
    [v] 129 (Some tt).
Proof.
  intros. apply (writes_ensure 1); [done..|].
  apply puts_UINT8; [lia|done|]. apply puts_ret.
Qed.

Lemma writes_per_integer v :
  0 <= v <= UINT32_MAX →
  writes (per_write_integer v) (per_integer_bytes v) 262 (Some tt).
Proof.
  intros Hv. unfold per_write_integer, per_integer_bytes.
  destruct (Z.leb_spec v UINT8_MAX); [|destruct (Z.leb_spec v UINT16_MAX)].
  - eapply (writes_weaken _ (130 + 129)); [lia|].
    eapply (writes_bind _ _ [1]); [lia|by apply (writes_per_length 1)|].
    apply (writes_ensure 1); [done..|]. apply puts_cast; [lia|].
    apply puts_UINT8; [lia|unfold is_byte, UINT8_MAX in *; lia|]. apply puts_ret.
  - eapply (writes_weaken _ (130 + 130)); [lia|].
    eapply (writes_bind _ _ [2]); [lia|by apply (writes_per_length 2)|].
    apply (writes_ensure 2); [done..|]. apply puts_cast; [lia|].
    apply puts_nil_r, puts_UINT16_BE; [lia|lia|]. apply puts_ret.
  - replace (v <=? UINT32_MAX) with true by lia.
    eapply (writes_weaken _ (130 + 132)); [lia|].
    eapply (writes_bind _ _ [4]); [lia|by apply (writes_per_length 4)|].
    apply (writes_ensure 4); [done..|].
    apply puts_nil_r, puts_UINT32_BE; [lia|lia|]. apply puts_ret.
Qed.

Lemma writes_per_integer16 v min :
  0 <= min <= v → v <= UINT16_MAX →
  writes (per_write_integer16 v min) (winpr_Data_Write_UINT16_BE (v - min)) 130 (Some tt).
Proof.
  intros. unfold per_write_integer16. replace (min >? v) with false by lia.
  apply (writes_ensure 2); [done..|].
  apply puts_nil_r, puts_UINT16_BE; [lia|lia|]. apply puts_ret.
Qed.

Lemma puts_octets n l : zlen l <= n → bytes l → puts n (write_octets l) l tt.
Proof.
  revert n. induction l as [|o l IH]; intros n Hn Hb; [apply puts_ret|].
  inversion Hb; subst. rewrite zlen_cons in Hn. pose proof (zlen_nonneg l).
  apply puts_UINT8; [lia|done|]. apply IH; [lia|done].
Qed.

Lemma writes_per_octet_string l min :
  bytes l → 0 <= min <= zlen l → zlen l - min < 32768 → zlen l <= UINT16_MAX →
  writes (per_write_octet_string l (zlen l) min)
    (per_length_bytes (zlen l - min) ++ l) (258 + zlen l) (Some tt).
Proof.
  intros Hb Hmin Hl Hmax. unfold per_write_octet_string.
  replace (zlen l >=? min) with true by lia.
  unfold u16. rewrite Z.mod_small by (unfold UINT16_MAX in *; lia).
  replace (258 + zlen l) with (130 + (zlen l + 128)) by lia.
  eapply writes_bind; [lia|apply writes_per_length; lia|].
  apply (writes_ensure (zlen l)); [done|lia|].
  rewrite ztake_all by lia. apply puts_nil_r.
  eapply (puts_bind _ (zlen l)); [lia|by apply puts_octets|apply puts_ret].
Qed.

Lemma writes_per_oid a b c d e f :
  bytes [a; b; c; d; e; f] → a * 40 + b < 256 →
  writes (per_write_object_identifier [a; b; c; d; e; f])
    (per_oid_bytes [a; b; c; d; e; f]) 134 (Some tt).
Proof.
  intros Hb Hab. unfold per_write_object_identifier, per_oid_bytes, zget. simpl.
  unfold bytes, is_byte in Hb. decompose_Forall_hyps.
  unfold u8. rewrite Z.mod_small by lia. apply (writes_ensure 6); [done..|].
  repeat (apply puts_UINT8; [lia|unfold is_byte; lia|]). apply puts_ret.
Qed.
End growing.

Lemma safe_per_integer : safe 0 per_read_integer (on_some (λ v, 0 <= v <= UINT16_MAX)).
Proof.
  unfold per_read_integer. eapply safe_bind; [apply safe_per_length|].
  intros [len|] Hl; [|by apply safe_ret]. simpl in Hl.
  repeat safe_step; simpl; unfold is_byte, UINT16_MAX in *; done || lia.
Qed.
Lemma safe_per_integer16 min :
  0 <= min <= UINT16_MAX →
  safe 0 (per_read_integer16 min) (on_some (λ v, min <= v <= UINT16_MAX)).
Proof.
  intros. unfold per_read_integer16. repeat safe_step; try done. simpl.
  unfold u16, UINT16_MAX in *. rewrite Z.mod_small; lia.
Qed.
Lemma safe_per_enumerated count :
  safe 0 (per_read_enumerated count) (on_some (λ v, 0 <= v < count)).
Proof.
  unfold per_read_enumerated. repeat safe_step; try done. simpl.
  unfold is_byte in *. lia.
Qed.
Lemma safe_per_byte : safe 0 per_read_choice (on_some is_byte).
Proof. unfold per_read_choice. by repeat safe_step. Qed.
Lemma safe_per_padding n : 0 <= n → safe 0 (per_read_padding n) (λ _, True).
Proof. intros. unfold per_read_padding. by repeat safe_step. Qed.
Lemma safe_per_oid oid : safe 0 (per_read_object_identifier oid) (λ _, True).
Proof.
  unfold per_read_object_identifier. eapply safe_bind; [apply safe_per_length|].
  intros [len|] Hl; [|by apply safe_ret]. simpl in Hl. by repeat safe_step.
Qed.
Lemma safe_per_octet_string l len min :
  0 <= len → safe 0 (per_read_octet_string l len min) (λ _, True).
Proof.
  intros. unfold per_read_octet_string. eapply safe_bind; [apply safe_per_length|].
  intros [ml|] Hl; [|by apply safe_ret]. simpl in Hl. by repeat safe_step.
Qed.
Lemma safe_per_numeric_string min :
  0 <= min → safe 0 (per_read_numeric_string min) (λ _, True).
Proof.
  intros. unfold per_read_numeric_string. eapply safe_bind; [apply safe_per_length|].
  intros [ml|] Hl; [|by apply safe_ret]. simpl in Hl. cbv beta iota zeta.
  assert (0 <= (ml + min + 1) / 2) by (apply Z.div_pos; lia).
  by repeat safe_step.
Qed.

(** * Properties *)

(** A length below 0x8000 that [per_write_length] appends to a stream is
    read back by [per_read_length], which consumes exactly what was written. *)
Theorem per_length_roundtrip `{HM : Malloc} len :
  (∀ z, malloc_ok z = true) → 0 <= len < 32768 →
  roundtrip 130 (per_write_length len) per_read_length len.
Proof. intros. eapply roundtrip_intro; [by apply writes_per_length|by apply reads_per_length]. Qed.

(** [per_read_integer] inverts [per_write_integer] on the integers up to
    0xFFFF.  The integers above are written with four bytes, which the reader
    answers with [FALSE] (it only knows the lengths 0, 1 and 2). *)
Theorem per_integer_roundtrip `{HM : Malloc} v :
  (∀ z, malloc_ok z = true) → 0 <= v <= UINT32_MAX →
  if v <=? UINT16_MAX then roundtrip 262 (per_write_integer v) per_read_integer v
  else ∀ s, wf s → st_capacity s + 262 <= SIZE_MAX →
    ∃ s' s'', per_write_integer v s = Ret (Some tt, s') ∧
      per_read_integer (reopen (st_pointer s) s') = Ret (None, s'').
Proof.
  intros Hm Hv. destruct (Z.leb_spec v UINT16_MAX).
  - eapply roundtrip_intro; [apply writes_per_integer; done || lia|].
    apply reads_per_integer. lia.
  - intros s Hwf Hc. destruct (writes_per_integer Hm v Hv s Hwf Hc) as (s' & H1 & W).
    destruct (reopen_readable s s' _ _ Hwf W) as [Hr Hb]. eexists _, _. split; [done|].
    apply (reads_per_integer_32 v _ []); [done..|]. by rewrite app_nil_r.
Qed.

(** [per_read_integer16] inverts [per_write_integer16] for every 16-bit
    value not below the minimum; below it the writer returns [FALSE] and
    leaves the stream alone. *)
Theorem per_integer16_roundtrip `{HM : Malloc} v min :
  (∀ z, malloc_ok z = true) → 0 <= min <= UINT16_MAX → 0 <= v <= UINT16_MAX →
  if min <=? v then roundtrip 130 (per_write_integer16 v min) (per_read_integer16 min) v
  else ∀ s, per_write_integer16 v min s = Ret (None, s).
Proof.
  intros Hm Hmin Hv. destruct (Z.leb_spec min v).
  - eapply roundtrip_intro; [apply writes_per_integer16; done || lia|].
    unfold per_read_integer16. apply reads_check; [done|].
    apply reads_nil_r, reads_step_UINT16_BE; [lia|].
    replace (v - min >? UINT16_MAX - min) with false by lia.
    unfold u16, UINT16_MAX in *. rewrite Z.mod_small by lia.
    replace (v - min + min) with v by lia. apply reads_ret.
  - intros s. unfold per_write_integer16. by replace (min >? v) with true by lia.
Qed.

(** Octet strings and object identifiers: what the writers produce is
    accepted by the readers that expect the same value. *)
Theorem per_strings_roundtrip `{HM : Malloc} l min a b c d e f :
  (∀ z, malloc_ok z = true) →
  bytes l → 0 <= min <= zlen l → zlen l - min < 32768 → zlen l <= UINT16_MAX →
  bytes [a; b; c; d; e; f] → b < 40 → a * 40 + b < 256 →
  roundtrip (258 + zlen l) (per_write_octet_string l (zlen l) min)
    (per_read_octet_string l (zlen l) min) tt ∧
  roundtrip 134 (per_write_object_identifier [a; b; c; d; e; f])
    (per_read_object_identifier [a; b; c; d; e; f]) tt.
Proof.
  intros Hm Hl Hmin Hlen Hmax Ho Hb Hab. split.
  - eapply roundtrip_intro; [by apply writes_per_octet_string|].
    by apply reads_per_octet_string.
  - eapply roundtrip_intro; [by apply writes_per_oid|].
    unfold bytes, is_byte in Ho. decompose_Forall_hyps. apply reads_per_oid; lia.
Qed.

(** No PER reader aborts or reads outside its stream, on any bytes: each
    returns, leaves the data of the stream as it was and its position inside
    it, and the numbers returned are in the range of their type. *)
Theorem per_readers_safe min count oid oct len :
  0 <= min <= UINT16_MAX → 0 <= len <= UINT16_MAX →
  safe 0 per_read_length (on_some (λ v, 0 <= v < 32768)) ∧
  safe 0 per_read_integer (on_some (λ v, 0 <= v <= UINT16_MAX)) ∧
  safe 0 (per_read_integer16 min) (on_some (λ v, min <= v <= UINT16_MAX)) ∧
  safe 0 (per_read_enumerated count) (on_some (λ v, 0 <= v < count)) ∧
  safe 0 per_read_choice (on_some is_byte) ∧
  safe 0 (per_read_padding len) (λ _, True) ∧
  safe 0 (per_read_object_identifier oid) (λ _, True) ∧
  safe 0 (per_read_octet_string oct len min) (λ _, True) ∧
  safe 0 (per_read_numeric_string min) (λ _, True).
Proof.
  intros. split_and!.
  - apply safe_per_length.
  - apply safe_per_integer.
  - by apply safe_per_integer16.
  - apply safe_per_enumerated.
  - apply safe_per_byte.
  - apply safe_per_padding. lia.
  - apply safe_per_oid.
  - apply safe_per_octet_string. lia.
  - apply safe_per_numeric_string. lia.
Qed.

(** * Witnesses *)

Definition malloc_never_fails : Malloc := λ _, true.

Lemma per_length_roundtrip_witness :
  roundtrip 130 (@per_write_length malloc_never_fails 300) per_read_length 300.
Proof. apply (per_length_roundtrip (HM := malloc_never_fails)); [done|lia]. Defined.

Lemma per_integer_roundtrip_witness :
  roundtrip 262 (@per_write_integer malloc_never_fails 1001) per_read_integer 1001.
Proof.
  apply (per_integer_roundtrip (HM := malloc_never_fails) 1001); [done|].
  unfold UINT32_MAX. lia.
Defined.

Lemma per_integer16_roundtrip_witness :
  roundtrip 130 (@per_write_integer16 malloc_never_fails 1003 1001)
    (per_read_integer16 1001) 1003.
Proof.
  apply (per_integer16_roundtrip (HM := malloc_never_fails) 1003 1001);
    unfold UINT16_MAX; done || lia.
Defined.

Lemma per_strings_roundtrip_witness :
  roundtrip 262 (@per_write_octet_string malloc_never_fails [68; 117; 99; 97] 4 4)
    (per_read_octet_string [68; 117; 99; 97] 4 4) tt.
Proof.
  apply (per_strings_roundtrip (HM := malloc_never_fails)
           [68; 117; 99; 97] 4 0 0 20 124 0 1); try done; try lia;
    repeat constructor; unfold is_byte, zlen; simpl; lia.
Defined.

Lemma per_readers_safe_witness :
  safe 0 (per_read_integer16 1001) (on_some (λ v, 1001 <= v <= UINT16_MAX)).
Proof.
  apply (per_readers_safe 1001 16 [0; 0; 20; 124; 0; 1] [68; 117; 99; 97] 4);
    unfold UINT16_MAX; lia.
Defined.
