(* ===== verification/Ber.v ===== *)
(** Basic and distinguished encoding rules: libfreerdp/crypto/ber.c, which the
    T.125 connect PDUs are serialized with, and libfreerdp/crypto/der.c. *)

From S2P Require Import Prelude Stream StreamLogic.
From stdpp Require Import prelude list numbers.
From Stdlib Require Import ZArith Lia.

#[local] Open Scope Z_scope.

(** * The code *)

Definition BER_CLASS_UNIV : Z := 0.
Definition BER_CLASS_APPL : Z := 64.
Definition BER_CLASS_CTXT : Z := 128.
Definition BER_PRIMITIVE : Z := 0.
Definition BER_CONSTRUCT : Z := 32.
Definition BER_TAG_MASK : Z := 31.
Definition BER_TAG_BOOLEAN : Z := 1.
Definition BER_TAG_INTEGER : Z := 2.
Definition BER_TAG_BIT_STRING : Z := 3.
Definition BER_TAG_OCTET_STRING : Z := 4.
Definition BER_TAG_ENUMERATED : Z := 10.
Definition BER_TAG_SEQUENCE : Z := 16.
Definition BER_TAG_SEQUENCE_OF : Z := 16.
Definition BER_PC (pc : bool) : Z := if pc then BER_CONSTRUCT else BER_PRIMITIVE.

(** [WINPR_ASSERT(Stream_GetRemainingCapacity(s) >= n)] *)
Definition assert_capacity (n : Z) : SM unit :=
  r ← Stream_GetRemainingCapacity; WINPR_ASSERT (r >=? n).

(** ** Lengths *)

Definition ber_read_length : SM (option Z) :=
  TRY Stream_CheckAndLogRequiredLength 1;
  byte ← Stream_Read_UINT8;
  if negb (Z.land byte 128 =? 0) then
    let byte := Z.land byte (Z.lnot 128) in
    TRY Stream_CheckAndLogRequiredLength byte;
    if byte =? 1 then length ← Stream_Read_UINT8; mret (Some length)
    else if byte =? 2 then length ← Stream_Read_UINT16_BE; mret (Some length)
    else FALSE
  else mret (Some byte).

Definition ber_write_length (length : Z) : SM Z :=
  if length >? 255 then
    WINPR_ASSERT (length <=? UINT16_MAX);;
    assert_capacity 3;;
    Stream_Write_UINT8 (Z.lxor 128 2);;
    Stream_Write_UINT16_BE (u16 length);;
    mret 3
  else
    WINPR_ASSERT (length <=? UINT8_MAX);;
    if length >? 127 then
      assert_capacity 2;;
      Stream_Write_UINT8 (Z.lxor 128 1);;
      Stream_Write_UINT8 (u8 length);;
      mret 2
    else
      assert_capacity 1;;
      Stream_Write_UINT8 (u8 length);;
      mret 1.

Definition _ber_sizeof_length (length : Z) : Z :=
  if length >? 255 then 3 else if length >? 127 then 2 else 1.

(** ** Tags *)

Definition ber_read_universal_tag (tag : Z) (pc : bool) : SM (option unit) :=
  let expect := Z.lor (Z.lor BER_CLASS_UNIV (BER_PC pc)) (Z.land BER_TAG_MASK tag) in
  TRY Stream_CheckAndLogRequiredLength 1;
  byte ← Stream_Read_UINT8;
  if negb (byte =? expect) then FALSE else TRUE.

Definition ber_write_universal_tag (tag : Z) (pc : bool) : SM Z :=
  Stream_Write_UINT8 (Z.lor (Z.lor BER_CLASS_UNIV (BER_PC pc)) (Z.land BER_TAG_MASK tag));;
  mret 1.

Definition ber_read_application_tag (tag : Z) : SM (option Z) :=
  if tag >? 30 then
    let expect := Z.lor (Z.lor BER_CLASS_APPL BER_CONSTRUCT) BER_TAG_MASK in
    TRY Stream_CheckAndLogRequiredLength 2;
    byte ← Stream_Read_UINT8;
    if negb (byte =? expect) then FALSE
    else
      byte ← Stream_Read_UINT8;
      if negb (byte =? tag) then FALSE else ber_read_length
  else
    let expect := Z.lor (Z.lor BER_CLASS_APPL BER_CONSTRUCT) (Z.land BER_TAG_MASK tag) in
    TRY Stream_CheckAndLogRequiredLength 1;
    byte ← Stream_Read_UINT8;
    if negb (byte =? expect) then FALSE else ber_read_length.

Definition ber_write_application_tag (tag length : Z) : SM unit :=
  if tag >? 30 then
    assert_capacity 2;;
    Stream_Write_UINT8 (Z.lor (Z.lor BER_CLASS_APPL BER_CONSTRUCT) BER_TAG_MASK);;
    Stream_Write_UINT8 tag;;
    ber_write_length length;;
    mret tt
  else
    assert_capacity 1;;
    Stream_Write_UINT8 (Z.lor (Z.lor BER_CLASS_APPL BER_CONSTRUCT) (Z.land BER_TAG_MASK tag));;
    ber_write_length length;;
    mret tt.

Definition ber_read_contextual_tag (tag : Z) (pc : bool) : SM (option Z) :=
  let expect := Z.lor (Z.lor BER_CLASS_CTXT (BER_PC pc)) (Z.land BER_TAG_MASK tag) in
  rem ← Stream_GetRemainingLength;
  if rem <? 1 then FALSE
  else
    byte ← Stream_Read_UINT8;
    if negb (byte =? expect) then Stream_Rewind 1;; FALSE
    else ber_read_length.

Definition ber_write_contextual_tag (tag length : Z) (pc : bool) : SM Z :=
  assert_capacity 1;;
  Stream_Write_UINT8 (Z.lor (Z.lor BER_CLASS_CTXT (BER_PC pc)) (Z.land BER_TAG_MASK tag));;
  n ← ber_write_length length;
  mret (1 + n).

Definition ber_sizeof_contextual_tag (length : Z) : Z := 1 + _ber_sizeof_length length.

Definition ber_read_sequence_tag : SM (option Z) :=
  let expect := Z.lor (Z.lor BER_CLASS_UNIV BER_CONSTRUCT) BER_TAG_SEQUENCE_OF in
  TRY Stream_CheckAndLogRequiredLength 1;
  byte ← Stream_Read_UINT8;
  if negb (byte =? expect) then FALSE else ber_read_length.

Definition ber_write_sequence_tag (length : Z) : SM Z :=
  Stream_Write_UINT8 (Z.lor (Z.lor BER_CLASS_UNIV BER_CONSTRUCT)
                        (Z.land BER_TAG_MASK BER_TAG_SEQUENCE));;
  n ← ber_write_length length;
  mret (1 + n).

Definition ber_sizeof_sequence (length : Z) : Z := 1 + _ber_sizeof_length length + length.
Definition ber_sizeof_sequence_tag (length : Z) : Z := 1 + _ber_sizeof_length length.

(** ** Values *)

Definition ber_read_enumerated (count : Z) : SM (option Z) :=
  TRY ber_read_universal_tag BER_TAG_ENUMERATED false;
  length ←? ber_read_length;
  if negb (length =? 1) then FALSE
  else
    TRY Stream_CheckAndLogRequiredLength 1;
    enumerated ← Stream_Read_UINT8;
    if enumerated + 1 >? count then FALSE else mret (Some enumerated).

Definition ber_write_enumerated (enumerated count : Z) : SM unit :=
  ber_write_universal_tag BER_TAG_ENUMERATED false;;
  ber_write_length 1;;
  Stream_Write_UINT8 enumerated.

Definition ber_read_bit_string : SM (option (Z * Z)) :=
  TRY ber_read_universal_tag BER_TAG_BIT_STRING false;
  length ←? ber_read_length;
  TRY Stream_CheckAndLogRequiredLength 1;
  padding ← Stream_Read_UINT8;
  mret (Some (length, padding)).

Definition ber_sizeof_octet_string (length : Z) : Z := 1 + _ber_sizeof_length length + length.

Definition ber_write_octet_string (oct_str : list Z) : SM Z :=
  size1 ← ber_write_universal_tag BER_TAG_OCTET_STRING false;
  size2 ← ber_write_length (zlen oct_str);
  Stream_Write oct_str;;
  mret (size1 + size2 + zlen oct_str).

Definition ber_write_contextual_octet_string (tag : Z) (oct_str : list Z) : SM Z :=
  let inner := ber_sizeof_octet_string (zlen oct_str) in
  ret ← ber_write_contextual_tag tag inner true;
  if ret =? 0 then mret 0
  else
    r ← ber_write_octet_string oct_str;
    if r =? 0 then mret 0 else mret (ret + r).

Definition ber_sizeof_contextual_octet_string (length : Z) : Z :=
  let ret := ber_sizeof_octet_string length in
  ber_sizeof_contextual_tag ret + ret.

Definition ber_read_octet_string_tag : SM (option Z) :=
  TRY ber_read_universal_tag BER_TAG_OCTET_STRING false;
  ber_read_length.

Definition ber_write_octet_string_tag (length : Z) : SM Z :=
  n ← ber_write_universal_tag BER_TAG_OCTET_STRING false;
  if n =? 0 then mret 0
  else
    m ← ber_write_length length;
    if m =? 0 then mret 0 else mret (1 + _ber_sizeof_length length).

Definition ber_read_octet_string `{HM : Malloc} : SM (option (list Z)) :=
  length ←? ber_read_octet_string_tag;
  TRY Stream_CheckAndLogRequiredLength length;
  if negb (malloc_ok length) then FALSE
  else
    content ← Stream_Read length;
    mret (Some content).

Definition ber_read_BOOL : SM (option bool) :=
  TRY ber_read_universal_tag BER_TAG_BOOLEAN false;
  length ←? ber_read_length;
  if negb (length =? 1) then FALSE
  else
    TRY Stream_CheckAndLogRequiredLength 1;
    v ← Stream_Read_UINT8;
    mret (Some (negb (v =? 0))).

Definition ber_write_BOOL (value : bool) : SM unit :=
  ber_write_universal_tag BER_TAG_BOOLEAN false;;
  ber_write_length 1;;
  Stream_Write_UINT8 (if value then 255 else 0).

(** With a result pointer; the callers of this development pass one. *)
Definition ber_read_integer : SM (option Z) :=
  TRY ber_read_universal_tag BER_TAG_INTEGER false;
  length ←? ber_read_length;
  TRY Stream_CheckAndLogRequiredLength length;
  if length =? 1 then value ← Stream_Read_UINT8; mret (Some value)
  else if length =? 2 then value ← Stream_Read_UINT16_BE; mret (Some value)
  else if length =? 3 then
    byte ← Stream_Read_UINT8;
    value ← Stream_Read_UINT16_BE;
    mret (Some (u32 (value + Z.land (Z.shiftl byte 16) 16711680)))
  else if length =? 4 then value ← Stream_Read_UINT32_BE; mret (Some value)
  else FALSE.

Definition ber_write_integer (value : Z) : SM Z :=
  let head (n : Z) (k : SM Z) : SM Z :=
    t ← ber_write_universal_tag BER_TAG_INTEGER false;
    if t =? 0 then mret 0
    else
      l ← ber_write_length n;
      if l =? 0 then mret 0 else k in
  if value <? 128 then
    head 1 (v ← WINPR_ASSERTING_INT_CAST UINT8_MAX value;
            Stream_Write_UINT8 v;; mret 3)
  else if value <? 32768 then
    head 2 (v ← WINPR_ASSERTING_INT_CAST UINT16_MAX value;
            Stream_Write_UINT16_BE v;; mret 4)
  else if value <? 8388608 then
    head 3 (v ← WINPR_ASSERTING_INT_CAST UINT8_MAX (Z.shiftr value 16);
            Stream_Write_UINT8 v;;
            v ← WINPR_ASSERTING_INT_CAST UINT16_MAX value;
            Stream_Write_UINT16_BE v;; mret 5)
  else if value <? 2147483648 then
    head 4 (Stream_Write_UINT32_BE value;; mret 6)
  else
    head 4 (Stream_Write_UINT32_BE value;; mret 6).

Definition ber_sizeof_integer (value : Z) : Z :=
  if value <? 128 then 3
  else if value <? 32768 then 4
  else if value <? 8388608 then 5
  else if value <? 2147483648 then 6
  else 6.

Definition ber_sizeof_contextual_integer (value : Z) : Z :=
  let intSize := ber_sizeof_integer value in
  ber_sizeof_contextual_tag intSize + intSize.

Definition ber_write_contextual_integer `{HM : Malloc} (tag value : Z) : SM Z :=
  let len := ber_sizeof_integer value in
  ok ← Stream_EnsureRemainingCapacity (len + 5);
  WINPR_ASSERT (match ok with Some _ => true | None => false end);;
  t ← ber_write_contextual_tag tag len true;
  let len := len + t in
  n ← ber_write_integer value;
  if n =? 0 then mret 0 else mret len.

Definition ber_read_integer_length : SM (option Z) :=
  TRY ber_read_universal_tag BER_TAG_INTEGER false;
  ber_read_length.

(** ** DER sizes and headers (der.c) *)

Definition _der_skip_length (length : Z) : Z :=
  if (length >? 127) && (length <=? 255) then 2
  else if length >? 255 then 3 else 1.

Definition der_write_length (length : Z) : SM Z :=
  if (length >? 127) && (length <=? 255) then
    Stream_Write_UINT8 129;;
    v ← WINPR_ASSERTING_INT_CAST UINT8_MAX length;
    Stream_Write_UINT8 v;;
    mret 2
  else if length >? 255 then
    Stream_Write_UINT8 130;;
    v ← WINPR_ASSERTING_INT_CAST UINT16_MAX length;
    Stream_Write_UINT16_BE v;;
    mret 3
  else
    v ← WINPR_ASSERTING_INT_CAST UINT8_MAX length;
    Stream_Write_UINT8 v;;
    mret 1.

Definition der_get_content_length (length : Z) : Z :=
  if (length >? 129) && (length <=? 258) then length - 3
  else if length >? 258 then length - 4
  else length - 2.

Definition der_skip_contextual_tag (length : Z) : Z := _der_skip_length length + 1.

Definition der_write_contextual_tag (tag length : Z) (pc : bool) : SM Z :=
  Stream_Write_UINT8 (Z.lor (Z.lor BER_CLASS_CTXT (BER_PC pc)) (Z.land BER_TAG_MASK tag));;
  n ← der_write_length length;
  mret (n + 1).

Definition der_write_universal_tag (tag : Z) (pc : bool) : SM unit :=
  Stream_Write_UINT8 (Z.lor (Z.lor BER_CLASS_UNIV (BER_PC pc)) (Z.land BER_TAG_MASK tag)).

Definition der_skip_octet_string (length : Z) : Z := 1 + _der_skip_length length + length.

Definition der_write_octet_string (oct_str : list Z) : SM unit :=
  der_write_universal_tag BER_TAG_OCTET_STRING false;;
  der_write_length (zlen oct_str);;
  Stream_Write oct_str.

Definition der_skip_sequence_tag (length : Z) : Z := 1 + _der_skip_length length.

Definition der_write_sequence_tag (length : Z) : SM Z :=
  Stream_Write_UINT8 (Z.lor (Z.lor BER_CLASS_UNIV BER_CONSTRUCT)
                        (Z.land BER_TAG_MASK BER_TAG_SEQUENCE));;
  n ← der_write_length length;
  mret (n + 1).

(** * Encodings *)

Definition ber_length_bytes (n : Z) : list Z :=
  if n >? 255 then 130 :: winpr_Data_Write_UINT16_BE n
  else if n >? 127 then [129; n] else [n].

Lemma ber_length_bytes_size n : zlen (ber_length_bytes n) = _ber_sizeof_length n.
Proof. unfold ber_length_bytes, _ber_sizeof_length. by repeat case_match. Qed.

Lemma sizeof_length_range n : 1 <= _ber_sizeof_length n <= 3.
Proof. unfold _ber_sizeof_length. repeat case_match; lia. Qed.

Lemma puts_assert_cap {B} n c (k : unit → SM B) bs b :
  c <= n → puts n (k tt) bs b → puts n (x ← assert_capacity c; k x) bs b.
Proof.
  intros Hc Hk s Hwf Hf. rewrite (bind_Ret _ _ s tt s); [by apply Hk|].
  unfold assert_capacity. erewrite bind_Ret by by apply run_GetRemainingCapacity.
  unfold fits in Hf. unfold WINPR_ASSERT. by replace (_ >=? c) with true by lia.
Qed.

Lemma puts_ber_length n len :
  0 <= len <= UINT16_MAX → _ber_sizeof_length len <= n →
  puts n (ber_write_length len) (ber_length_bytes len) (_ber_sizeof_length len).
Proof.
  unfold UINT16_MAX. intros Hl Hn.
  unfold ber_write_length, ber_length_bytes, _ber_sizeof_length in *.
  destruct (Z.gtb_spec len 255); [|destruct (Z.gtb_spec len 127)].
  - apply puts_assert; [unfold UINT16_MAX; lia|]. apply puts_assert_cap; [lia|].
    apply puts_UINT8; [lia|by unfold is_byte|].
    unfold u16. rewrite Z.mod_small by lia.
    apply puts_nil_r, puts_UINT16_BE; [lia|unfold UINT16_MAX; lia|]. apply puts_ret.
  - apply puts_assert; [unfold UINT8_MAX; lia|]. apply puts_assert_cap; [lia|].
    apply puts_UINT8; [lia|by unfold is_byte|].
    unfold u8. rewrite Z.mod_small by lia.
    apply puts_UINT8; [lia|unfold is_byte; lia|]. apply puts_ret.
  - apply puts_assert; [unfold UINT8_MAX; lia|]. apply puts_assert_cap; [lia|].
    unfold u8. rewrite Z.mod_small by lia.
    apply puts_UINT8; [lia|unfold is_byte; lia|]. apply puts_ret.
Qed.

Lemma puts_step_ber_length {B} n len (k : Z → SM B) bs b :
  0 <= len <= UINT16_MAX → _ber_sizeof_length len <= n →
  puts (n - _ber_sizeof_length len) (k (_ber_sizeof_length len)) bs b →
  puts n (x ← ber_write_length len; k x) (ber_length_bytes len ++ bs) b.
Proof.
  intros. eapply (puts_bind n (_ber_sizeof_length len)); [done| |].
  - by apply puts_ber_length.
  - by rewrite ber_length_bytes_size.
Qed.

Lemma reads_ber_length len :
  0 <= len <= UINT16_MAX → reads ber_read_length (ber_length_bytes len) (Some len).
Proof.
  intros Hl. unfold ber_read_length, ber_length_bytes.
  destruct (Z.gtb_spec len 255); [|destruct (Z.gtb_spec len 127)].
  - apply reads_check; [zlia|]. apply reads_step_UINT8. simpl.
    apply reads_check; [done|]. apply reads_nil_r, reads_step_UINT16_BE; [done|].
    apply reads_ret.
  - apply reads_check; [zlia|]. apply reads_step_UINT8. simpl.
    apply reads_check; [done|]. apply reads_step_UINT8, reads_ret.
  - apply reads_check; [zlia|]. apply reads_step_UINT8.
    assert (Z.land len 128 = 0) as ->; [|apply reads_ret].
    rewrite (land_field _ 1 7) by lia. simpl. div_mod_lia.
Qed.

(** The identifier octet of a universal tag. *)
Definition tag_byte (tag : Z) (pc : bool) : Z :=
  Z.lor (Z.lor BER_CLASS_UNIV (BER_PC pc)) (Z.land BER_TAG_MASK tag).

Lemma reads_universal_tag {B} tag pc (k : option unit → SM B) bs b :
  reads (k (Some tt)) bs b →
  reads (x ← ber_read_universal_tag tag pc; k x) (tag_byte tag pc :: bs) b.
Proof.
  intros Hk. apply (reads_bind _ _ [tag_byte tag pc] bs (Some tt)); [|done].
  unfold ber_read_universal_tag. apply reads_check; [done|]. apply reads_step_UINT8.
  unfold tag_byte. rewrite Z.eqb_refl. apply reads_ret.
Qed.

Lemma puts_universal_tag {B} n tag pc (k : Z → SM B) bs b :
  1 <= n → is_byte (tag_byte tag pc) → puts (n - 1) (k 1) bs b →
  puts n (x ← ber_write_universal_tag tag pc; k x) (tag_byte tag pc :: bs) b.
Proof.
  intros ?? Hk. eapply (puts_bind n 1 _ _ [tag_byte tag pc]); [done| |done].
  apply puts_UINT8; [lia|done|]. apply puts_ret.
Qed.

Lemma is_byte_tag tag pc : is_byte (tag_byte tag pc).
Proof.
  unfold tag_byte, BER_CLASS_UNIV, BER_TAG_MASK, is_byte. rewrite Z.lor_0_l, Z.land_comm.
  change 31 with (2 ^ 5 - 1). rewrite land_mask by lia.
  pose proof (Z.mod_pos_bound tag (2 ^ 5) ltac:(lia)).
  destruct pc; simpl BER_PC; unfold BER_CONSTRUCT, BER_PRIMITIVE.
  - rewrite (lor_disjoint _ _ 5) by (done || lia). lia.
  - rewrite Z.lor_0_l. lia.
Qed.
#[local] Hint Resolve is_byte_tag : winpr.

(** ** Integers *)

Definition ber_integer_body (v : Z) : list Z :=
  if v <? 128 then [v]
  else if v <? 32768 then winpr_Data_Write_UINT16_BE v
  else if v <? 8388608 then v / 65536 :: winpr_Data_Write_UINT16_BE (v mod 65536)
  else winpr_Data_Write_UINT32_BE v.

Definition ber_integer_bytes (v : Z) : list Z :=
  tag_byte BER_TAG_INTEGER false ::
  ber_length_bytes (zlen (ber_integer_body v)) ++ ber_integer_body v.

Lemma ber_integer_bytes_size v : zlen (ber_integer_bytes v) = ber_sizeof_integer v.
Proof.
  unfold ber_integer_bytes, ber_integer_body, ber_sizeof_integer.
  by repeat case_match.
Qed.

Lemma reads_ber_integer v :
  0 <= v <= UINT32_MAX → reads ber_read_integer (ber_integer_bytes v) (Some v).
Proof.
  intros Hv. unfold ber_read_integer, ber_integer_bytes. apply reads_universal_tag.
  eapply reads_bind.
  { apply reads_ber_length. unfold ber_integer_body, UINT16_MAX.
    repeat case_match; unfold zlen; simpl; lia. }
  apply reads_check; [lia|]. unfold ber_integer_body.
  destruct (Z.ltb_spec v 128); [|destruct (Z.ltb_spec v 32768);
    [|destruct (Z.ltb_spec v 8388608)]]; simpl.
  - apply reads_step_UINT8, reads_ret.
  - apply reads_nil_r, reads_step_UINT16_BE; [unfold UINT16_MAX; lia|]. apply reads_ret.
  - apply reads_step_UINT8, reads_nil_r, reads_step_UINT16_BE.
    { unfold UINT16_MAX. div_mod_lia. }
    assert (Z.land (Z.shiftl (v / 65536) 16) 16711680 = v / 65536 * 65536) as ->.
    { rewrite (land_field _ 8 16) by lia. rewrite Z.shiftl_mul_pow2 by lia.
      rewrite Z.div_mul by lia. simpl. rewrite Z.mod_small; [done|]. div_mod_lia. }
    unfold u32. replace ((v mod 65536 + v / 65536 * 65536) mod 4294967296) with v
      by (unfold UINT32_MAX in *; div_mod_lia).
    apply reads_ret.
  - apply reads_nil_r, reads_step_UINT32_BE; [done|]. apply reads_ret.
Qed.

(** The tag and length of an integer of [n] bytes. *)
Lemma puts_integer_head m n (k : SM Z) bs b :
  0 <= n <= 127 → 2 <= m → puts (m - 2) k bs b →
  puts m (t ← ber_write_universal_tag BER_TAG_INTEGER false;
          if t =? 0 then mret 0
          else l ← ber_write_length n; if l =? 0 then mret 0 else k)
    (tag_byte BER_TAG_INTEGER false :: ber_length_bytes n ++ bs) b.
Proof.
  intros Hn Hm Hk. apply puts_universal_tag; [lia|auto with winpr|]. simpl.
  assert (_ber_sizeof_length n = 1) as Hs.
  { unfold _ber_sizeof_length. repeat case_match; lia. }
  apply puts_step_ber_length; [unfold UINT16_MAX; lia|lia|]. rewrite Hs. simpl.
  by replace (m - 1 - 1) with (m - 2) by lia.
Qed.

Lemma puts_ber_integer v n :
  0 <= v < 65536 ∨ 8388608 <= v <= UINT32_MAX → ber_sizeof_integer v <= n →
  puts n (ber_write_integer v) (ber_integer_bytes v) (ber_sizeof_integer v).
Proof.
  intros Hv Hn. unfold ber_write_integer, ber_integer_bytes, ber_integer_body,
    ber_sizeof_integer in *.
  destruct (Z.ltb_spec v 128); [|destruct (Z.ltb_spec v 32768);
    [|destruct (Z.ltb_spec v 8388608); [|destruct (Z.ltb_spec v 2147483648)]]].
  - apply puts_integer_head; [done|lia|]. apply puts_cast; [unfold UINT8_MAX; lia|].
    apply puts_UINT8; [lia|unfold is_byte; lia|]. apply puts_ret.
  - apply puts_integer_head; [done|lia|]. apply puts_cast; [unfold UINT16_MAX; lia|].
    apply puts_nil_r, puts_UINT16_BE; [lia|unfold UINT16_MAX; lia|]. apply puts_ret.
  - apply puts_integer_head; [done|lia|]. rewrite shiftr_16.
    apply puts_cast; [unfold UINT8_MAX; div_mod_lia|].
    apply puts_UINT8; [lia|unfold is_byte; div_mod_lia|].
    apply puts_cast; [unfold UINT16_MAX; lia|]. rewrite Z.mod_small by lia.
    apply puts_nil_r, puts_UINT16_BE; [lia|unfold UINT16_MAX; lia|]. apply puts_ret.
  - apply puts_integer_head; [done|lia|].
    apply puts_nil_r, puts_UINT32_BE; [lia|unfold UINT32_MAX in *; lia|]. apply puts_ret.
  - apply puts_integer_head; [done|lia|].
    apply puts_nil_r, puts_UINT32_BE; [lia|unfold UINT32_MAX in *; lia|]. apply puts_ret.
Qed.

(** The three-byte branch casts the whole value to [UINT16]. *)
Lemma ber_write_integer_aborts v s :
  65536 <= v < 8388608 → wf s → fits s 5 → ber_write_integer v s = Abort.
Proof.
  intros Hv Hwf Hf. unfold ber_write_integer.
  replace (v <? 128) with false by lia. replace (v <? 32768) with false by lia.
  replace (v <? 8388608) with true by lia. cbv zeta beta.
  assert (puts 5 (ber_write_universal_tag BER_TAG_INTEGER false) [2] 1) as Ht.
  { apply puts_UINT8; [lia|by unfold is_byte|]. apply puts_ret. }
  destruct (Ht s Hwf Hf) as (s1 & H1 & W1). erewrite bind_Ret by done. simpl.
  destruct (puts_ber_length 4 3 ltac:(unfold UINT16_MAX; lia) ltac:(done) s1)
    as (s2 & H2 & W2).
  { by destruct W1. } { destruct W1. unfold fits, zlen in *. simpl in *. lia. }
  erewrite bind_Ret by done. simpl.
  rewrite shiftr_16. rewrite (bind_Ret _ _ s2 (v / 65536) s2); cycle 1.
  { rewrite run_cast. unfold UINT8_MAX.
    by replace ((0 <=? v / 65536) && (v / 65536 <=? 255)) with true by div_mod_lia. }
  destruct (run_Write_UINT8 (v / 65536) s2) as (s3 & H3 & W3).
  { by destruct W2. } { destruct W1, W2. unfold fits, zlen in *. simpl in *. lia. }
  { unfold is_byte. div_mod_lia. }
  erewrite bind_Ret by done. apply bind_Abort. rewrite run_cast.
  by replace ((0 <=? v) && (v <=? UINT16_MAX)) with false by (unfold UINT16_MAX; lia).
Qed.

(** ** Octet strings, booleans, enumerations *)

Definition ber_octet_string_bytes (l : list Z) : list Z :=
  tag_byte BER_TAG_OCTET_STRING false :: ber_length_bytes (zlen l) ++ l.

Lemma ber_octet_string_bytes_size l :
  zlen (ber_octet_string_bytes l) = ber_sizeof_octet_string (zlen l).
Proof.
  unfold ber_octet_string_bytes, ber_sizeof_octet_string.
  rewrite zlen_cons, zlen_app, ber_length_bytes_size. lia.
Qed.

Lemma puts_ber_octet_string l n :
  bytes l → zlen l <= UINT16_MAX → ber_sizeof_octet_string (zlen l) <= n →
  puts n (ber_write_octet_string l) (ber_octet_string_bytes l)
    (ber_sizeof_octet_string (zlen l)).
Proof.
  intros Hb Hl Hn. unfold ber_write_octet_string, ber_octet_string_bytes.
  unfold ber_sizeof_octet_string in *. pose proof (sizeof_length_range (zlen l)).
  pose proof (zlen_nonneg l).
  apply puts_universal_tag; [lia|auto with winpr|].
  apply puts_step_ber_length; [done|lia|].
  apply puts_nil_r, puts_Write; [lia|done|]. apply puts_ret.
Qed.

Lemma reads_ber_octet_string `{HM : Malloc} l :
  zlen l <= UINT16_MAX → malloc_ok (zlen l) = true →
  reads ber_read_octet_string (ber_octet_string_bytes l) (Some l).
Proof.
  intros Hl Hm. unfold ber_read_octet_string, ber_octet_string_bytes.
  rewrite app_comm_cons. eapply reads_bind.
  { unfold ber_read_octet_string_tag. apply reads_universal_tag.
    apply reads_ber_length. split; [apply zlen_nonneg|done]. }
  apply reads_check; [lia|]. rewrite Hm. simpl.
  apply reads_nil_r, reads_step_Read; [done|]. apply reads_ret.
Qed.

Lemma puts_ber_BOOL b n :
  3 <= n → puts n (ber_write_BOOL b) [1; 1; if b then 255 else 0] tt.
Proof.
  intros. unfold ber_write_BOOL. apply (puts_universal_tag n BER_TAG_BOOLEAN false);
    [lia|auto with winpr|].
  apply (puts_step_ber_length _ 1); [unfold UINT16_MAX; lia|change (1 <= n - 1); lia|].
  intros s Hwf Hf. apply run_Write_UINT8; [done| |destruct b; by unfold is_byte].
  unfold fits in *. change (_ber_sizeof_length 1) with 1 in Hf. lia.
Qed.
Lemma reads_ber_BOOL (b : bool) : reads ber_read_BOOL [1; 1; if b then 255 else 0] (Some b).
Proof.
  unfold ber_read_BOOL. apply (reads_universal_tag BER_TAG_BOOLEAN false).
  eapply (reads_bind _ _ [1]); [by apply (reads_ber_length 1)|]. simpl.
  apply reads_check; [done|]. apply reads_step_UINT8. destruct b; apply reads_ret.
Qed.

Lemma puts_ber_enumerated e c n :
  3 <= n → is_byte e → puts n (ber_write_enumerated e c) [10; 1; e] tt.
Proof.
  intros. unfold ber_write_enumerated.
  apply (puts_universal_tag n BER_TAG_ENUMERATED false); [lia|auto with winpr|].
  apply (puts_step_ber_length _ 1); [unfold UINT16_MAX; lia|change (1 <= n - 1); lia|].
  intros s Hwf Hf. apply run_Write_UINT8; [done| |done].
  unfold fits in *. change (_ber_sizeof_length 1) with 1 in Hf. lia.
Qed.
Lemma reads_ber_enumerated e c :
  e < c → reads (ber_read_enumerated c) [10; 1; e] (Some e).
Proof.
  intros. unfold ber_read_enumerated. apply (reads_universal_tag BER_TAG_ENUMERATED false).
  eapply (reads_bind _ _ [1]); [by apply (reads_ber_length 1)|]. simpl.
  apply reads_check; [done|]. apply reads_step_UINT8.
  replace (e + 1 >? c) with false by lia. apply reads_ret.
Qed.

Lemma land_tag_byte t : Z.land BER_TAG_MASK t = t mod 32.
Proof. rewrite Z.land_comm. apply (land_mask t 5). lia. Qed.

(** The identifier octets of an application tag. *)
Definition application_tag_bytes (tag : Z) : list Z :=
  if tag >? 30 then [127; tag]
  else [Z.lor (Z.lor BER_CLASS_APPL BER_CONSTRUCT) (Z.land BER_TAG_MASK tag)].

Lemma puts_application_tag n tag len :
  is_byte tag → 0 <= len <= UINT16_MAX → 2 + _ber_sizeof_length len <= n →
  puts n (ber_write_application_tag tag len)
    (application_tag_bytes tag ++ ber_length_bytes len) tt.
Proof.
  intros Ht Hl Hn. unfold ber_write_application_tag, application_tag_bytes.
  pose proof (sizeof_length_range len). destruct (Z.gtb_spec tag 30); simpl.
  - apply puts_assert_cap; [lia|]. apply puts_UINT8; [lia|by unfold is_byte|].
    apply puts_UINT8; [lia|done|].
    apply puts_nil_r, puts_step_ber_length; [done|lia|]. apply puts_ret.
  - apply puts_assert_cap; [lia|]. apply puts_UINT8; [lia| |].
    + rewrite land_tag_byte. unfold is_byte, BER_CLASS_APPL, BER_CONSTRUCT in *.
      simpl Z.lor at 2. rewrite (lor_disjoint 96 _ 5) by (done || div_mod_lia).
      div_mod_lia.
    + apply puts_nil_r, puts_step_ber_length; [done|lia|]. apply puts_ret.
Qed.
Lemma reads_application_tag tag len :
  0 <= len <= UINT16_MAX →
  reads (ber_read_application_tag tag)
    (application_tag_bytes tag ++ ber_length_bytes len) (Some len).
Proof.
  intros Hl. unfold ber_read_application_tag, application_tag_bytes.
  pose proof (sizeof_length_range len) as Hs. rewrite <- ber_length_bytes_size in Hs.
  destruct (Z.gtb_spec tag 30); simpl.
  - apply reads_check; [zlia|]. apply reads_step_UINT8. simpl. apply reads_step_UINT8.
    rewrite Z.eqb_refl. by apply reads_ber_length.
  - apply reads_check; [zlia|]. apply reads_step_UINT8. rewrite Z.eqb_refl.
    by apply reads_ber_length.
Qed.

Lemma puts_sequence_tag n len :
  0 <= len <= UINT16_MAX → 1 + _ber_sizeof_length len <= n →
  puts n (ber_write_sequence_tag len) (48 :: ber_length_bytes len)
    (ber_sizeof_sequence_tag len).
Proof.
  intros Hl Hn. unfold ber_write_sequence_tag. pose proof (sizeof_length_range len).
  apply puts_UINT8; [lia|by unfold is_byte|].
  apply puts_nil_r, puts_step_ber_length; [done|lia|]. apply puts_ret.
Qed.
Lemma reads_sequence_tag len :
  0 <= len <= UINT16_MAX →
  reads ber_read_sequence_tag (48 :: ber_length_bytes len) (Some len).
Proof.
  intros Hl. unfold ber_read_sequence_tag.
  pose proof (sizeof_length_range len) as Hs. rewrite <- ber_length_bytes_size in Hs.
  apply reads_check; [zlia|]. apply reads_step_UINT8. simpl. by apply reads_ber_length.
Qed.

(** ** Safety of the readers *)

Lemma safe_ber_length : safe 0 ber_read_length (on_some (λ v, 0 <= v <= UINT16_MAX)).
Proof.
  unfold ber_read_length. repeat safe_step; try done;
    unfold UINT16_MAX, is_byte in *; simpl; lia.
Qed.
Lemma safe_ber_universal_tag tag pc :
  safe 0 (ber_read_universal_tag tag pc) (λ _, True).
Proof. unfold ber_read_universal_tag. by repeat safe_step. Qed.

(** Reading a universal tag and a length: the start of every value. *)
Lemma safe_ber_head {B} tag pc (k : Z → SM (option B)) P :
  P None → (∀ len, 0 <= len <= UINT16_MAX → safe 0 (k len) P) →
  safe 0 (TRY ber_read_universal_tag tag pc; len ←? ber_read_length; k len) P.
Proof.
  intros HN Hk. eapply safe_bind; [apply safe_ber_universal_tag|].
  intros [[]|] _; [|by apply safe_ret]. eapply safe_bind; [apply safe_ber_length|].
  intros [len|] Hl; [|by apply safe_ret]. by apply Hk.
Qed.

Lemma safe_ber_octet_string_tag :
  safe 0 ber_read_octet_string_tag (on_some (λ v, 0 <= v <= UINT16_MAX)).
Proof.
  unfold ber_read_octet_string_tag. eapply safe_bind; [apply safe_ber_universal_tag|].
  intros [[]|] _; [apply safe_ber_length|by apply safe_ret].
Qed.
Lemma safe_ber_octet_string `{HM : Malloc} :
  safe 0 ber_read_octet_string (on_some bytes).
Proof.
  unfold ber_read_octet_string. eapply safe_bind; [apply safe_ber_octet_string_tag|].
  intros [len|] Hl; [|by apply safe_ret]. simpl in Hl. by repeat safe_step.
Qed.
Lemma safe_ber_application_tag tag :
  safe 0 (ber_read_application_tag tag) (on_some (λ v, 0 <= v <= UINT16_MAX)).
Proof.
  unfold ber_read_application_tag.
  repeat safe_step; try done; (eapply safe_weaken; [|apply safe_ber_length]; lia).
Qed.
Lemma safe_ber_sequence_tag :
  safe 0 ber_read_sequence_tag (on_some (λ v, 0 <= v <= UINT16_MAX)).
Proof.
  unfold ber_read_sequence_tag.
  repeat safe_step; try done; (eapply safe_weaken; [|apply safe_ber_length]; lia).
Qed.
Lemma safe_ber_enumerated count :
  safe 0 (ber_read_enumerated count) (on_some (λ v, 0 <= v < count)).
Proof.
  unfold ber_read_enumerated. apply safe_ber_head; [done|]. intros len Hl.
  repeat safe_step; try done. simpl. unfold is_byte in *. lia.
Qed.
Lemma safe_ber_BOOL : safe 0 ber_read_BOOL (λ _, True).
Proof.
  unfold ber_read_BOOL. apply safe_ber_head; [done|]. intros len Hl. by repeat safe_step.
Qed.
Lemma safe_ber_bit_string : safe 0 ber_read_bit_string (λ _, True).
Proof.
  unfold ber_read_bit_string. apply safe_ber_head; [done|]. intros len Hl. by repeat safe_step.
Qed.
Lemma safe_ber_integer : safe 0 ber_read_integer (on_some (λ v, 0 <= v <= UINT32_MAX)).
Proof.
  unfold ber_read_integer. apply safe_ber_head; [done|]. intros len Hl.
  repeat safe_step; try done; simpl; unfold is_byte, UINT32_MAX in *; try lia.
  unfold u32. div_mod_lia.
Qed.

(** The contextual tag is the optional one: on another tag the reader goes
    back, so that the caller can try the next. *)
Lemma ber_contextual_tag_other tag pc s :
  readable s → 1 <= rem s →
  zget (remaining s) 0 ≠ Z.lor (Z.lor BER_CLASS_CTXT (BER_PC pc)) (Z.land BER_TAG_MASK tag) →
  ber_read_contextual_tag tag pc s = Ret (None, s).
Proof.
  intros Hs Hr Hne. unfold ber_read_contextual_tag.
  rewrite (bind_Ret _ _ s (rem s) s) by by apply run_GetRemainingLength.
  replace (rem s <? 1) with false by lia.
  destruct (remaining s) as [|v tl] eqn:E.
  { rewrite <- zlen_remaining, E in Hr by done. unfold zlen in Hr. simpl in Hr. lia. }
  rewrite (bind_Ret _ _ _ _ _ (reads_UINT8 v s tl Hs E)).
  change (zget (v :: tl) 0) with v in Hne.
  destruct (Z.eqb_spec v (Z.lor (Z.lor BER_CLASS_CTXT (BER_PC pc)) (Z.land BER_TAG_MASK tag)));
    [done|]. cbn [negb].
  destruct Hs as [[] ?]. rewrite (bind_Ret _ _ _ tt s); [done|].
  unfold Stream_Rewind. simpl. change (zlen [v]) with 1.
  replace (0 <=? st_pointer s + 1) with true by lia.
  replace (st_pointer s + 1 >=? 1) with true by lia. simpl.
  unfold set_pointer. destruct s; simpl. do 3 f_equal. lia.
Qed.
Lemma safe_ber_contextual_tag tag pc :
  safe 0 (ber_read_contextual_tag tag pc) (on_some (λ v, 0 <= v <= UINT16_MAX)).
Proof.
  intros s Hs Hr.
  destruct (decide (1 <= rem s ∧ zget (remaining s) 0 ≠
    Z.lor (Z.lor BER_CLASS_CTXT (BER_PC pc)) (Z.land BER_TAG_MASK tag))) as [[H1 Hne]|Hn].
  { rewrite ber_contextual_tag_other by done. eexists _, _.
    split; [done|]. split; [by apply same_data_refl|done]. }
  unfold ber_read_contextual_tag.
  rewrite (bind_Ret _ _ s (rem s) s) by by apply run_GetRemainingLength.
  destruct (Z.ltb_spec (rem s) 1).
  { eexists _, _. split; [done|]. split; [by apply same_data_refl|done]. }
  destruct (remaining s) as [|v tl] eqn:E.
  { rewrite <- zlen_remaining, E in Hr by done.
    pose proof (zlen_remaining s Hs) as Hz. rewrite E in Hz. unfold zlen in Hz. simpl in Hz. lia. }
  rewrite (bind_Ret _ _ _ _ _ (reads_UINT8 v s tl Hs E)).
  change (zget (v :: tl) 0) with v in Hn.
  destruct (Z.eqb_spec v (Z.lor (Z.lor BER_CLASS_CTXT (BER_PC pc)) (Z.land BER_TAG_MASK tag)))
    as [Heq|]; [|tauto].
  cbn [negb]. apply (safe_run_adv 1); [done|lia|done|]. apply safe_ber_length.
Qed.

Lemma puts_der_length n len :
  0 <= len <= UINT16_MAX → _der_skip_length len <= n →
  puts n (der_write_length len) (ber_length_bytes len) (_der_skip_length len).
Proof.
  unfold UINT16_MAX, der_write_length, _der_skip_length, ber_length_bytes. intros Hl Hn.
  destruct (Z.gtb_spec len 127), (Z.leb_spec len 255), (Z.gtb_spec len 255);
    simpl in *; try lia.
  - apply puts_UINT8; [lia|by unfold is_byte|]. apply puts_cast; [unfold UINT8_MAX; lia|].
    apply puts_UINT8; [lia|unfold is_byte; lia|]. apply puts_ret.
  - apply puts_UINT8; [lia|by unfold is_byte|]. apply puts_cast; [unfold UINT16_MAX; lia|].
    apply puts_nil_r, puts_UINT16_BE; [lia|unfold UINT16_MAX; lia|]. apply puts_ret.
  - apply puts_cast; [unfold UINT8_MAX; lia|].
    apply puts_UINT8; [lia|unfold is_byte; lia|]. apply puts_ret.
Qed.

(** * Properties *)

(** On a stream with room for three bytes [ber_write_length] writes a length
    of up to 16 bits and returns the size of its encoding, which is
    [_ber_sizeof_length]; [ber_read_length] reads the length back. *)
Theorem ber_length_roundtrip len :
  0 <= len <= UINT16_MAX →
  roundtrip_fixed (_ber_sizeof_length len) (ber_write_length len) ber_read_length len.
Proof.
  intros. eapply roundtrip_fixed_intro; [|by apply reads_ber_length].
  rewrite ber_length_bytes_size. by apply puts_ber_length.
Qed.

(** [ber_write_integer] returns [ber_sizeof_integer] and [ber_read_integer]
    reads the value back, for every 32-bit value but those from 0x10000 to
    0x7FFFFF: their three-byte encoding casts the whole value to [UINT16] and
    the assertion of the cast aborts the program. *)
Theorem ber_integer_roundtrip v :
  0 <= v <= UINT32_MAX →
  if (65536 <=? v) && (v <? 8388608)
  then ∀ s, wf s → fits s 5 → ber_write_integer v s = Abort
  else roundtrip_fixed (ber_sizeof_integer v) (ber_write_integer v) ber_read_integer v.
Proof.
  intros Hv. destruct ((65536 <=? v) && (v <? 8388608)) eqn:E.
  - intros. apply ber_write_integer_aborts; [lia|done..].
  - eapply roundtrip_fixed_intro; [|by apply reads_ber_integer].
    rewrite ber_integer_bytes_size. apply puts_ber_integer; lia.
Qed.

(** Octet strings of up to 16-bit length come back byte for byte, in the
    [ber_sizeof_octet_string] bytes the writer reports. *)
Theorem ber_octet_string_roundtrip `{HM : Malloc} l :
  bytes l → zlen l <= UINT16_MAX → malloc_ok (zlen l) = true →
  roundtrip_fixed (ber_sizeof_octet_string (zlen l)) (ber_write_octet_string l)
    ber_read_octet_string l.
Proof.
  intros. eapply roundtrip_fixed_intro; [|by apply reads_ber_octet_string].
  rewrite ber_octet_string_bytes_size. by apply puts_ber_octet_string.
Qed.

(** The BER readers neither abort nor leave the data, on any input. *)
Theorem ber_readers_safe `{HM : Malloc} tag count pc :
  safe 0 ber_read_length (on_some (λ v, 0 <= v <= UINT16_MAX)) ∧
  safe 0 (ber_read_application_tag tag) (on_some (λ v, 0 <= v <= UINT16_MAX)) ∧
  safe 0 (ber_read_contextual_tag tag pc) (on_some (λ v, 0 <= v <= UINT16_MAX)) ∧
  safe 0 ber_read_sequence_tag (on_some (λ v, 0 <= v <= UINT16_MAX)) ∧
  safe 0 (ber_read_enumerated count) (on_some (λ v, 0 <= v < count)) ∧
  safe 0 ber_read_bit_string (λ _, True) ∧
  safe 0 ber_read_octet_string (on_some bytes) ∧
  safe 0 ber_read_BOOL (λ _, True) ∧
  safe 0 ber_read_integer (on_some (λ v, 0 <= v <= UINT32_MAX)).
Proof.
  split_and!.
  - apply safe_ber_length.
  - apply safe_ber_application_tag.
  - apply safe_ber_contextual_tag.
  - apply safe_ber_sequence_tag.
  - apply safe_ber_enumerated.
  - apply safe_ber_bit_string.
  - apply safe_ber_octet_string.
  - apply safe_ber_BOOL.
  - apply safe_ber_integer.
Qed.

(** The DER sizes: the length octets [der_write_length] emits are the
    [_der_skip_length] ones [ber_read_length] accepts, and
    [der_get_content_length] recovers the length of a string from the size
    [der_skip_octet_string] gives for the whole element. *)
Theorem der_lengths_agree len :
  0 <= len <= UINT16_MAX →
  roundtrip_fixed (_der_skip_length len) (der_write_length len) ber_read_length len ∧
  der_get_content_length (der_skip_octet_string len) = len.
Proof.
  intros Hl. split.
  - eapply roundtrip_fixed_intro; [|by apply reads_ber_length].
    rewrite ber_length_bytes_size.
    replace (_ber_sizeof_length len) with (_der_skip_length len); [by apply puts_der_length|].
    unfold _der_skip_length, _ber_sizeof_length. repeat case_match; lia.
  - unfold der_get_content_length, der_skip_octet_string, _der_skip_length.
    repeat case_match; lia.
Qed.

(** * Witnesses *)

Lemma ber_length_roundtrip_witness :
  ∃ s' s'', ber_write_length 300 (new_stream 3) = Ret (3, s') ∧
    ber_read_length (reopen 0 s') = Ret (Some 300, s'').
Proof.
  destruct (ber_length_roundtrip 300 ltac:(unfold UINT16_MAX; lia) (new_stream 3))
    as (n & s' & s'' & H1 & H2 & H3 & _).
  - apply new_stream_wf. unfold SIZE_MAX. lia.
  - by vm_compute.
  - exists s', s''. split; [|exact H3]. vm_compute in H1. vm_compute.
    injection H1 as <- <-. reflexivity.
Defined.

Lemma ber_integer_roundtrip_witness :
  roundtrip_fixed 5 (ber_write_integer 65535) ber_read_integer 65535 ∧
  ber_write_integer 65536 (new_stream 5) = Abort.
Proof.
  split.
  - apply (ber_integer_roundtrip 65535). unfold UINT32_MAX. lia.
  - apply (ber_integer_roundtrip 65536).
    + unfold UINT32_MAX. lia.
    + apply new_stream_wf. unfold SIZE_MAX. lia.
    + by vm_compute.
Defined.

Definition malloc_below_1000 : Malloc := λ n, n <? 1000.

Lemma ber_octet_string_roundtrip_witness :
  roundtrip_fixed 5 (ber_write_octet_string [1; 2; 3])
    (@ber_read_octet_string malloc_below_1000) [1; 2; 3].
Proof.
  apply (ber_octet_string_roundtrip (HM := malloc_below_1000) [1; 2; 3]).
  - repeat constructor; unfold is_byte; lia.
  - by vm_compute.
  - by vm_compute.
Defined.

Lemma der_lengths_agree_witness :
  roundtrip_fixed 3 (der_write_length 1024) ber_read_length 1024 ∧
  der_get_content_length (der_skip_octet_string 1024) = 1024.
Proof. apply (der_lengths_agree 1024). unfold UINT16_MAX. lia. Defined.
