(* ===== verification/Framing.v ===== *)
(** The transport framing of RDP: TPKT headers (libfreerdp/core/tpkt.c) and
    the class 0 TPDUs of X.224 (libfreerdp/core/tpdu.c). *)

From S2P Require Import Prelude Stream StreamLogic.
From stdpp Require Import prelude list numbers.
From Stdlib Require Import ZArith Lia.

#[local] Open Scope Z_scope.

(** * TPKT *)

Definition tpkt_verify_header : SM Z :=
  ok ← Stream_CheckAndLogRequiredLength 1;
  match ok with
  | None => mret (-1)
  | Some _ =>
      version ← Stream_Peek_UINT8;
      if version =? 3 then mret 1 else mret 0
  end.

Definition tpkt_read_header : SM (option Z) :=
  TRY Stream_CheckAndLogRequiredLength 1;
  version ← Stream_Peek_UINT8;
  if version =? 3 then
    TRY Stream_CheckAndLogRequiredLength 4;
    Stream_Seek 2;;
    len ← Stream_Read_UINT16_BE;
    if len <? 7 then FALSE
    else
      TRY Stream_CheckAndLogRequiredLength (len - 4);
      mret (Some len)
  else mret (Some 0).

Definition tpkt_ensure_stream_consumed (length : Z) : SM (option unit) :=
  if length >? UINT16_MAX then FALSE
  else
    rem ← Stream_GetRemainingLength;
    if rem >? 0 then FALSE else TRUE.

Definition tpkt_write_header (length : Z) : SM (option unit) :=
  TRY Stream_CheckAndLogRequiredCapacity 4;
  Stream_Write_UINT8 3;;
  Stream_Write_UINT8 0;;
  WINPR_ASSERT (length <=? UINT16_MAX);;
  Stream_Write_UINT16_BE (u16 length);;
  TRUE.

(** * TPDU *)

Definition X224_TPDU_CONNECTION_REQUEST : Z := 224.
Definition X224_TPDU_CONNECTION_CONFIRM : Z := 208.
Definition X224_TPDU_DISCONNECT_REQUEST : Z := 128.
Definition X224_TPDU_DATA : Z := 240.
Definition X224_TPDU_ERROR : Z := 112.

(** Returns the code and the length indicator. *)
Definition tpdu_read_header (tpktlength : Z) : SM (option (Z * Z)) :=
  TRY Stream_CheckAndLogRequiredLength 3;
  li ← Stream_Read_UINT8;
  code ← Stream_Read_UINT8;
  if li + 4 >? tpktlength then FALSE
  else if code =? X224_TPDU_DATA then
    Stream_Seek 1;;
    mret (Some (code, li))
  else
    TRY Stream_SafeSeekEx 5;
    mret (Some (code, li)).

Definition tpdu_write_header (length code : Z) : SM (option unit) :=
  TRY Stream_CheckAndLogRequiredCapacity 3;
  WINPR_ASSERT (length <=? UINT8_MAX);;
  Stream_Write_UINT8 (u8 length);;
  Stream_Write_UINT8 code;;
  if code =? X224_TPDU_DATA then
    Stream_Write_UINT8 128;;
    TRUE
  else
    TRY Stream_CheckAndLogRequiredCapacity 5;
    Stream_Write_UINT16 0;;
    Stream_Write_UINT16 0;;
    Stream_Write_UINT8 0;;
    TRUE.

Definition tpdu_read_connection_request (tpktlength : Z) : SM (option Z) :=
  '(code, li) ←? tpdu_read_header tpktlength;
  if negb (code =? X224_TPDU_CONNECTION_REQUEST) then FALSE
  else mret (Some li).

Definition tpdu_write_connection_request (length : Z) : SM (option unit) :=
  tpdu_write_header length X224_TPDU_CONNECTION_REQUEST.

Definition tpdu_read_connection_confirm (tpktlength : Z) : SM (option Z) :=
  position ← Stream_GetPosition;
  '(code, li) ←? tpdu_read_header tpktlength;
  if negb (code =? X224_TPDU_CONNECTION_CONFIRM) then FALSE
  else
    pos ← Stream_GetPosition;
    let bytes_read := u64 (u64 (pos - position) - 1) in
    TRY Stream_CheckAndLogRequiredLength (u64 (li - bytes_read));
    mret (Some li).

Definition tpdu_write_connection_confirm (length : Z) : SM (option unit) :=
  tpdu_write_header length X224_TPDU_CONNECTION_CONFIRM.

Definition tpdu_write_disconnect_request (length : Z) : SM (option unit) :=
  tpdu_write_header length X224_TPDU_DISCONNECT_REQUEST.

Definition tpdu_write_data : SM (option unit) := tpdu_write_header 2 X224_TPDU_DATA.

Definition tpdu_read_data (tpktlength : Z) : SM (option Z) :=
  '(code, li) ←? tpdu_read_header tpktlength;
  if negb (code =? X224_TPDU_DATA) then FALSE
  else mret (Some li).

(** * Lemmas *)

(** What [tpkt_read_header] is to do with the bytes it is given: the result
    and how far it moves. *)
Definition tpkt_spec (l : list Z) : option Z * Z :=
  match l with
  | [] => (None, 0)
  | version :: l =>
      if negb (version =? 3) then (Some 0, 0)
      else
        match l with
        | _ :: hi :: lo :: body =>
            let len := hi * 256 + lo in
            if (len <? 7) || (zlen body <? len - 4) then (None, 4)
            else (Some len, 4)
        | _ => (None, 0)
        end
  end.

Lemma run_check_remaining n s :
  readable s →
  Stream_CheckAndLogRequiredLength n s =
    Ret (if zlen (remaining s) <? n then None else Some tt, s).
Proof. intros. rewrite run_CheckLength, zlen_remaining by done. done. Qed.

Lemma read_uint16_be_at s a b tl :
  readable s → remaining s = a :: b :: tl → Stream_Read_UINT16_BE s = Ret (a * 256 + b, adv 2 s).
Proof.
  intros Hs Hr. pose proof (remaining_bytes s (proj1 Hs)) as Hb. rewrite Hr in Hb. unfold bytes in Hb.
  rewrite <- (get_be_2 a b) by (by decompose_Forall_hyps).
  by apply (reads_stream_read _ 2 [a; b] eq_refl s tl).
Qed.

Lemma peek_uint8_at s a tl :
  readable s → remaining s = a :: tl → Stream_Peek_UINT8 s = Ret (a, s).
Proof.
  intros Hs Hr. rewrite <- (get_be_1 a). rewrite <- (slice_app s [a] tl) by done.
  apply run_stream_read; [done|]. rewrite <- zlen_remaining, Hr by done. zlia.
Qed.

Lemma tpkt_read_header_is_spec s :
  readable s →
  tpkt_read_header s =
    Ret (fst (tpkt_spec (remaining s)), adv (snd (tpkt_spec (remaining s))) s).
Proof.
  intros Hs. unfold tpkt_read_header.
  erewrite bind_Ret by by apply run_check_remaining.
  destruct (remaining s) as [|v l] eqn:Hr; simpl; [by rewrite adv_0|].
  rewrite zlen_cons. replace (1 + zlen l <? 1) with false by zlia. simpl.
  erewrite bind_Ret by by eapply peek_uint8_at.
  destruct (v =? 3); simpl; [|by rewrite adv_0].
  erewrite bind_Ret by by apply run_check_remaining. rewrite Hr.
  destruct l as [|a [|b [|c l]]]; simpl; try by rewrite adv_0.
  replace (zlen (v :: a :: b :: c :: l) <? 4) with false by zlia. simpl.
  destruct (remaining_app s [v; a] (b :: c :: l)) as (_ & Hs2 & Hr2); [done..|].
  erewrite bind_Ret by by apply (reads_Seek [v; a] s (b :: c :: l)).
  erewrite bind_Ret by by eapply read_uint16_be_at.
  destruct (remaining_app _ [b; c] l Hs2 Hr2) as (_ & Hs4 & Hr4).
  rewrite adv_adv in *. change (zlen [v; a] + zlen [b; c]) with 4 in *.
  change (zlen [v; a] + 2) with 4. destruct (b * 256 + c <? 7); [done|]. simpl.
  erewrite bind_Ret by by apply run_check_remaining. rewrite Hr4.
  by destruct (zlen l <? b * 256 + c - 4).
Qed.

(** A data TPDU in a TPKT, as the senders of the protocol layers put it in
    front of their payload. *)
Definition frame (payload : list Z) : list Z :=
  [3; 0] ++ winpr_Data_Write_UINT16_BE (zlen payload + 7) ++ [2; 240; 128] ++ payload.

Lemma puts_tpkt_header n length :
  4 <= n → 0 <= length <= UINT16_MAX →
  puts n (tpkt_write_header length) ([3; 0] ++ winpr_Data_Write_UINT16_BE length) (Some tt).
Proof.
  intros Hn Hl. apply puts_check; [done|]. apply puts_UINT8; [lia|done|].
  apply puts_UINT8; [lia|done|]. apply puts_assert; [lia|].
  unfold u16. rewrite Z.mod_small by (unfold UINT16_MAX in *; lia).
  apply puts_nil_r, puts_UINT16_BE; [lia|done|]. apply puts_ret.
Qed.

Lemma tpkt_spec_frame len body :
  7 <= len <= UINT16_MAX → len - 4 <= zlen body →
  tpkt_spec ([3; 0] ++ winpr_Data_Write_UINT16_BE len ++ body) = (Some len, 4).
Proof.
  intros Hl Hb. pose proof (get_be_write16 len ltac:(lia)) as Hg. revert Hg.
  unfold winpr_Data_Write_UINT16_BE, UINT16_MAX in *. autorewrite with bits. simpl.
  rewrite get_be_2 by (unfold is_byte; div_mod_lia). intros ->.
  replace (len <? 7) with false by lia. by replace (zlen body <? len - 4) with false by lia.
Qed.

Lemma reads_tpkt_header {B} len (k : option Z → SM B) body b :
  7 <= len <= UINT16_MAX → len - 4 <= zlen body → reads (k (Some len)) body b →
  reads (x ← tpkt_read_header; k x) ([3; 0] ++ winpr_Data_Write_UINT16_BE len ++ body) b.
Proof.
  intros Hl Hb Hk s tl Hs Hr. rewrite <- !app_assoc in Hr.
  erewrite bind_Ret by by apply tpkt_read_header_is_spec.
  rewrite Hr, tpkt_spec_frame by (done || rewrite zlen_app; zlia). cbn [fst snd].
  rewrite app_assoc in Hr. destruct (remaining_app _ _ _ Hs Hr) as (_ & Hs' & Hr').
  change (zlen ([3; 0] ++ winpr_Data_Write_UINT16_BE len)) with 4 in *.
  rewrite (Hk _ tl Hs' Hr'), adv_adv, app_assoc, (zlen_app _ body). done.
Qed.

(** ** TPDU *)

Definition tpdu_tail (code : Z) : list Z :=
  if code =? X224_TPDU_DATA then [128] else zeros 5.

Lemma puts_tpdu_header n li code :
  2 + zlen (tpdu_tail code) <= n → is_byte li → is_byte code →
  puts n (tpdu_write_header li code) ([li; code] ++ tpdu_tail code) (Some tt).
Proof.
  intros Hn Hl Hc. unfold tpdu_write_header, tpdu_tail in *.
  assert (3 <= n ∧ ((code =? X224_TPDU_DATA) = false → 7 <= n)) as [? Hn'].
  { pose proof (zlen_zeros 5). destruct (code =? _); zlia. }
  apply puts_check; [lia|]. unfold is_byte in Hl.
  apply puts_assert; [unfold UINT8_MAX; lia|]. unfold u8. rewrite Z.mod_small by lia.
  apply puts_UINT8; [lia|done|]. apply puts_UINT8; [lia|done|].
  destruct (code =? X224_TPDU_DATA).
  - apply puts_UINT8; [lia|done|]. apply puts_ret.
  - specialize (Hn' eq_refl). apply puts_check; [lia|].
    apply (puts_UINT16 _ 0 _ (zeros 3)); [lia|done|].
    apply (puts_UINT16 _ 0 _ (zeros 1)); [lia|done|].
    apply (puts_UINT8 _ 0); [lia|done|]. apply puts_ret.
Qed.

Lemma reads_tpdu_header tpktlength li code :
  li + 4 <= tpktlength →
  reads (tpdu_read_header tpktlength) ([li; code] ++ tpdu_tail code) (Some (code, li)).
Proof.
  intros Hl. unfold tpdu_read_header, tpdu_tail.
  apply reads_check; [by destruct (code =? _)|].
  apply reads_step_UINT8, reads_step_UINT8.
  replace (li + 4 >? tpktlength) with false by lia.
  destruct (code =? X224_TPDU_DATA).
  - by apply (reads_step_Seek 1 [128] _ []), reads_ret.
  - by apply (reads_SafeSeek (zeros 5) 5 _ []), reads_ret.
Qed.

Lemma safe_tpdu_header tpktlength :
  safe 0 (tpdu_read_header tpktlength)
    (on_some (λ '(code, li), is_byte code ∧ is_byte li ∧ li + 4 <= tpktlength)).
Proof.
  unfold tpdu_read_header. repeat safe_step; simpl; split_and?; done || lia.
Qed.

Lemma safe_tpdu_code tpktlength code :
  safe 0 ('(c, li) ←? tpdu_read_header tpktlength;
          if negb (c =? code) then FALSE else mret (Some li))
    (on_some (λ li, is_byte li ∧ li + 4 <= tpktlength)).
Proof.
  eapply safe_bind; [apply safe_tpdu_header|]. intros [[c li]|]; [|by intros; safe_step].
  intros (? & ? & ?). by repeat safe_step.
Qed.

Lemma reads_tpdu_code tpktlength li code :
  li + 4 <= tpktlength →
  reads ('(c, li) ←? tpdu_read_header tpktlength;
         if negb (c =? code) then FALSE else mret (Some li))
    ([li; code] ++ tpdu_tail code) (Some li).
Proof.
  intros. apply reads_nil_r.
  eapply reads_bind; [by apply reads_tpdu_header|]. cbv beta iota.
  rewrite Z.eqb_refl. apply reads_ret.
Qed.

(** [tpdu_read_connection_confirm] is the code above and a check that the
    bytes the length indicator announces are there. *)
Lemma safe_tpdu_confirm tpktlength :
  safe 0 (tpdu_read_connection_confirm tpktlength)
    (on_some (λ li, is_byte li ∧ li + 4 <= tpktlength)).
Proof.
  apply safe_GetPosition. intros p Hp.
  eapply safe_bind; [apply safe_tpdu_header|]. intros [[c li]|]; [|by intros; safe_step].
  intros (? & ? & ?). safe_step; [by safe_step|]. by repeat safe_step.
Qed.

Lemma run_tpdu_confirm tpktlength li body tl s :
  is_byte li → 6 <= li → li + 4 <= tpktlength → zlen body = li - 6 →
  readable s → remaining s = ([li; X224_TPDU_CONNECTION_CONFIRM] ++ zeros 5) ++ body ++ tl →
  tpdu_read_connection_confirm tpktlength s = Ret (Some li, adv 7 s).
Proof.
  unfold is_byte. intros Hb Hli Hl Hbody Hs Hr. destruct (remaining_app _ _ _ Hs Hr) as (Hz & Hs' & Hr').
  change (zlen ([li; X224_TPDU_CONNECTION_CONFIRM] ++ zeros 5)) with 7 in *.
  assert (7 + zlen body <= rem s) as Hrem.
  { rewrite <- zlen_remaining, Hr, zlen_app, (zlen_app body) by done.
    change (zlen ([li; X224_TPDU_CONNECTION_CONFIRM] ++ zeros 5)) with 7. zlia. }
  unfold tpdu_read_connection_confirm.
  erewrite bind_Ret by (apply run_GetPosition; apply Hs).
  erewrite bind_Ret by by apply (reads_tpdu_header tpktlength li
    X224_TPDU_CONNECTION_CONFIRM Hl s (body ++ tl)).
  simpl. erewrite bind_Ret by (apply run_GetPosition; apply Hs').
  erewrite bind_Ret by by apply run_CheckLength. simpl.
  change (zlen (li :: _)) with 7.
  unfold u64. replace (st_pointer s + 7 - st_pointer s) with 7 by lia.
  change ((7 mod 18446744073709551616 - 1) mod 18446744073709551616) with 6.
  rewrite (Z.mod_small (li - 6)) by lia. rewrite rem_adv.
  by replace (rem s - 7 <? li - 6) with false by lia.
Qed.

Lemma reads_tpdu_confirm tpktlength li body :
  is_byte li → 6 <= li → li + 4 <= tpktlength → zlen body = li - 6 →
  reads (li ←? tpdu_read_connection_confirm tpktlength;
         b ← Stream_Read (li - 6); mret (Some b))
    ([li; X224_TPDU_CONNECTION_CONFIRM] ++ zeros 5 ++ body) (Some body).
Proof.
  intros Hb Hli Hl Hbody s tl Hs Hr. rewrite <- !app_assoc in Hr. rewrite app_assoc in Hr.
  destruct (remaining_app _ _ _ Hs Hr) as (_ & Hs' & Hr').
  erewrite bind_Ret by by apply (run_tpdu_confirm tpktlength li body tl).
  cbv beta iota. rewrite <- Hbody.
  erewrite bind_Ret by by eapply reads_Read. unfold mret, SM_ret.
  rewrite adv_adv, app_assoc, (zlen_app _ body). done.
Qed.

(** * Properties *)

(** TPKT header parsing: on any input [tpkt_read_header] does what the
    format says.  It reports a non-TPKT packet (length 0) without moving, and
    accepts a TPKT exactly when the header is complete, announces at least a
    TPDU (7 bytes) and the whole packet is in the stream; every other input is
    an error, and it never aborts. *)
Theorem tpkt_read_header_correct s :
  readable s →
  tpkt_read_header s =
    Ret (fst (tpkt_spec (remaining s)), adv (snd (tpkt_spec (remaining s))) s).
Proof. apply tpkt_read_header_is_spec. Qed.

(** Framing round trip: a payload written as a data TPDU in a TPKT is what
    the receiver gets from [tpkt_read_header] and [tpdu_read_data], for every
    payload the 16-bit length admits. *)
Theorem frame_roundtrip payload :
  bytes payload → zlen payload + 7 <= UINT16_MAX →
  roundtrip_room (zlen payload + 7)
    (TRY tpkt_write_header (zlen payload + 7);
     TRY tpdu_write_data;
     Stream_Write payload;; TRUE)
    (len ←? tpkt_read_header;
     _ ←? tpdu_read_data len;
     b ← Stream_Read (len - 7); mret (Some b))
    payload.
Proof.
  intros Hb Hl. apply (roundtrip_room_intro _ _ _ (frame payload)).
  - unfold frame. rewrite app_assoc.
    eapply (puts_bind _ 4); [zlia|by apply puts_tpkt_header; zlia|].
    change (zlen ([3; 0] ++ _)) with 4.
    eapply (puts_bind _ 3 _ _ [2; 240; 128]); [zlia|by apply (puts_tpdu_header 3 2 240)|].
    change (zlen [2; 240; 128]) with 3.
    apply puts_nil_r, puts_Write; [lia|done|]. apply puts_ret.
  - unfold frame. apply reads_tpkt_header; [zlia|zlia|].
    eapply (reads_bind _ _ _ _ (Some 2)).
    { apply (reads_tpdu_code (zlen payload + 7) 2 240). zlia. }
    apply reads_nil_r, reads_step_Read; [lia|]. apply reads_ret.
Qed.

(** The connection request and confirm TPDUs: what
    [tpdu_write_connection_request] and [tpdu_write_connection_confirm] emit,
    their readers accept with the same length indicator, and the confirm reader
    has checked that the variable part the indicator announces is present. *)
Theorem tpdu_connection_roundtrip tpktlength li body :
  is_byte li → bytes body → li + 4 <= tpktlength → zlen body = li - 6 →
  roundtrip_room 8 (tpdu_write_connection_request li)
    (tpdu_read_connection_request tpktlength) li ∧
  roundtrip_room (8 + zlen body)
    (TRY tpdu_write_connection_confirm li; Stream_Write body;; TRUE)
    (li ←? tpdu_read_connection_confirm tpktlength;
     b ← Stream_Read (li - 6); mret (Some b)) body.
Proof.
  intros Hli Hb Hl Hbody. split.
  - eapply roundtrip_room_intro; [by apply puts_tpdu_header|].
    by apply (reads_tpdu_code tpktlength li X224_TPDU_CONNECTION_REQUEST).
  - eapply roundtrip_room_intro; [|apply (reads_tpdu_confirm tpktlength li); try done; zlia].
    rewrite app_assoc. eapply (puts_bind _ 8); [zlia|by apply puts_tpdu_header|].
    change (zlen ([li; _] ++ _)) with 7.
    apply puts_nil_r, puts_Write; [zlia|done|]. apply puts_ret.
Qed.

(** The framing readers neither abort nor leave the data, on any input.  A
    length indicator they return fits the TPKT length they are given, so that
    no TPDU header is accepted after a non-TPKT packet (length 0). *)
Theorem framing_readers_safe tpktlength :
  safe 0 tpkt_verify_header (λ r, r = -1 ∨ r = 0 ∨ r = 1) ∧
  safe 0 tpkt_read_header (on_some (λ len, len = 0 ∨ 7 <= len <= UINT16_MAX)) ∧
  safe 0 (tpkt_ensure_stream_consumed tpktlength) (λ _, True) ∧
  safe 0 (tpdu_read_connection_request tpktlength)
    (on_some (λ li, is_byte li ∧ li + 4 <= tpktlength)) ∧
  safe 0 (tpdu_read_connection_confirm tpktlength)
    (on_some (λ li, is_byte li ∧ li + 4 <= tpktlength)) ∧
  safe 0 (tpdu_read_data tpktlength) (on_some (λ li, is_byte li ∧ li + 4 <= tpktlength)).
Proof.
  split_and!.
  - unfold tpkt_verify_header. repeat safe_step; auto.
  - unfold tpkt_read_header. repeat safe_step; simpl; unfold UINT16_MAX; done || lia.
  - unfold tpkt_ensure_stream_consumed. by repeat safe_step.
  - apply safe_tpdu_code.
  - apply safe_tpdu_confirm.
  - apply safe_tpdu_code.
Qed.

(** * Witnesses *)

Lemma tpkt_read_header_correct_witness :
  readable (stream_of [3; 0; 0; 8; 2; 240; 128; 7]) ∧
  tpkt_read_header (stream_of [3; 0; 0; 8; 2; 240; 128; 7]) =
    Ret (Some 8, adv 4 (stream_of [3; 0; 0; 8; 2; 240; 128; 7])).
Proof.
  assert (readable (stream_of [3; 0; 0; 8; 2; 240; 128; 7])) as H
    by (apply stream_of_readable; [done|by repeat constructor]).
  split; [done|]. exact (tpkt_read_header_correct _ H).
Defined.

Lemma frame_roundtrip_witness :
  ∃ s' s'',
    (TRY tpkt_write_header 9; TRY tpdu_write_data; Stream_Write [1; 2];; TRUE)
      (new_stream 9) = Ret (Some tt, s') ∧
    (len ←? tpkt_read_header; _ ←? tpdu_read_data len;
     b ← Stream_Read (len - 7); mret (Some b)) (reopen 0 s') = Ret (Some [1; 2], s'') ∧
    st_pointer s'' = st_pointer s'.
Proof.
  apply (frame_roundtrip [1; 2]); [by repeat constructor|done| |done].
  by apply new_stream_wf.
Defined.

Lemma tpdu_connection_roundtrip_witness :
  roundtrip_room 8 (tpdu_write_connection_request 8) (tpdu_read_connection_request 13) 8 ∧
  roundtrip_room 10 (TRY tpdu_write_connection_confirm 8; Stream_Write [5; 6];; TRUE)
    (li ←? tpdu_read_connection_confirm 13;
     b ← Stream_Read (li - 6); mret (Some b)) [5; 6].
Proof. apply (tpdu_connection_roundtrip 13 8 [5; 6]); [done|by repeat constructor|done..]. Defined.
