(* ===== verification/Arrays.v ===== *)
(** Arrays of a fixed size inside a structure, such as the history buffers of
    the bulk compressors: sparse, indexed by [Z], with checked access and
    [memcpy] from and to lists. *)

From S2P Require Import Prelude.
From stdpp Require Import prelude list numbers gmap.
From Stdlib Require Import ZArith Lia.

#[local] Open Scope Z_scope.

(** An array by index; a fresh one is zero. *)
Abbreviation array := (gmap Z Z).
Definition aget (a : array) (i : Z) : Z := default 0 (a !! i).

(** An access outside the [n] elements of the array is an [Abort]. *)
Definition array_read (n : Z) (a : array) (i : Z) : outcome Z :=
  if (0 <=? i) && (i <? n) then Ret (aget a i) else Abort.
Definition array_write (n : Z) (i v : Z) (a : array) : outcome array :=
  if (0 <=? i) && (i <? n) then Ret (<[i := v]> a) else Abort.

(** [ZeroMemory] of the first [n] elements. *)
Definition ZeroMemory (n : Z) (a : array) : array :=
  filter (λ p : Z * Z, ¬ (0 <= p.1 < n)) a.

Lemma array_write_in n i v a : 0 <= i < n → array_write n i v a = Ret (<[i := v]> a).
Proof. intros. unfold array_write. by replace ((0 <=? i) && (i <? n)) with true by lia. Qed.
Lemma array_read_in n i a : 0 <= i < n → array_read n a i = Ret (aget a i).
Proof. intros. unfold array_read. by replace ((0 <=? i) && (i <? n)) with true by lia. Qed.

Lemma aget_insert i v (H : array) j : aget (<[i := v]> H) j = if j =? i then v else aget H j.
Proof.
  unfold aget. destruct (Z.eqb_spec j i) as [->|].
  - by rewrite lookup_insert_eq.
  - by rewrite lookup_insert_ne.
Qed.
Lemma aget_zero n a i : aget (ZeroMemory n a) i = if (0 <=? i) && (i <? n) then 0 else aget a i.
Proof.
  unfold aget, ZeroMemory. destruct (_ && _) eqn:Hi.
  - rewrite map_lookup_filter_None_2; [done|]. right. simpl. intros. lia.
  - destruct (a !! i) as [v|] eqn:Ha.
    + rewrite (map_lookup_filter_Some_2 _ _ _ v); [done..|]. simpl. lia.
    + rewrite map_lookup_filter_None_2; auto.
Qed.


(** * [memcpy] *)

Fixpoint insert_list (p : Z) (src : list Z) (a : array) : array :=
  match src with [] => a | b :: src => insert_list (p + 1) src (<[p := b]> a) end.
Definition array_put (n p : Z) (src : list Z) (a : array) : outcome array :=
  if (0 <=? p) && (p + zlen src <=? n) then Ret (insert_list p src a) else Abort.
Definition array_list (a : array) (p k : Z) : list Z :=
  map (λ i, aget a (p + Z.of_nat i)) (seq 0 (Z.to_nat k)).
Definition array_get (n p k : Z) (a : array) : outcome (list Z) :=
  if (0 <=? p) && (0 <=? k) && (p + k <=? n) then Ret (array_list a p k) else Abort.

Lemma array_put_in n p src a :
  0 <= p → p + zlen src <= n → array_put n p src a = Ret (insert_list p src a).
Proof. intros. unfold array_put. by replace (_ && _) with true by lia. Qed.
Lemma array_get_in n p k a :
  0 <= p → 0 <= k → p + k <= n → array_get n p k a = Ret (array_list a p k).
Proof. intros. unfold array_get. by replace (_ && _) with true by lia. Qed.
Lemma aget_insert_list p src a i :
  aget (insert_list p src a) i =
    if (p <=? i) && (i <? p + zlen src) then zget src (i - p) else aget a i.
Proof.
  revert p a. induction src as [|b src IH]; intros p a; cbn [insert_list].
  { change (zlen []) with 0. by replace (_ && _) with false by lia. }
  rewrite IH, aget_insert, zlen_cons. pose proof (zlen_nonneg src).
  destruct (Z.eqb_spec i p) as [->|].
  - replace (p + 1 <=? p) with false by lia. cbn [andb]. replace (_ && _) with true by lia.
    by rewrite Z.sub_diag.
  - destruct (Z.leb_spec (p + 1) i); cbn [andb].
    + replace (p <=? i) with true by lia. cbn [andb].
      replace (p + (1 + zlen src)) with (p + 1 + zlen src) by lia.
      destruct (_ <? _); [|done]. unfold zget.
      by replace (Z.to_nat (i - p)) with (S (Z.to_nat (i - (p + 1)))) by lia.
    + by replace (p <=? i) with false by lia.
Qed.
Lemma zlen_array_list a p k : 0 <= k → zlen (array_list a p k) = k.
Proof. intros. unfold array_list, zlen. rewrite length_map, length_seq. lia. Qed.
Lemma zget_array_list a p k i : 0 <= i < k → zget (array_list a p k) i = aget a (p + i).
Proof.
  intros. unfold zget, array_list.
  rewrite nth_indep with (d' := aget a (p + Z.of_nat 0)) by (rewrite length_map, length_seq; lia).
  rewrite (map_nth (λ i, aget a (p + Z.of_nat i))), seq_nth by lia. f_equal. lia.
Qed.
