(* ===== verification/BitStream.v ===== *)
(** The bit stream of WinPR (winpr/include/winpr/bitstream.h and
    winpr/libwinpr/utils/collections/BitStream.c): a 32-bit accumulator and a
    32-bit prefetch word over a byte buffer, read and written from the most
    significant bit of each byte.  The theorems relate both directions to the
    sequence of bits the buffer stands for. *)

From S2P Require Import Prelude.
From stdpp Require Import prelude list numbers.
From Stdlib Require Import ZArith Lia.

#[local] Open Scope Z_scope.

(** * The structure and its operations *)

(** [pointer] is kept as its distance from [buffer]; the buffer has
    [capacity] bytes. *)
Record wBitStream : Type := mkBitStream {
  bs_buffer : list Z;
  bs_pointer : Z;
  bs_position : Z;
  bs_length : Z;
  bs_capacity : Z;
  bs_mask : Z;
  bs_offset : Z;
  bs_prefetch : Z;
  bs_accumulator : Z;
}.

Definition set_prefetch (v : Z) (bs : wBitStream) : wBitStream :=
  mkBitStream (bs_buffer bs) (bs_pointer bs) (bs_position bs) (bs_length bs)
    (bs_capacity bs) (bs_mask bs) (bs_offset bs) v (bs_accumulator bs).
Definition set_accumulator (v : Z) (bs : wBitStream) : wBitStream :=
  mkBitStream (bs_buffer bs) (bs_pointer bs) (bs_position bs) (bs_length bs)
    (bs_capacity bs) (bs_mask bs) (bs_offset bs) (bs_prefetch bs) v.
Definition set_mask (v : Z) (bs : wBitStream) : wBitStream :=
  mkBitStream (bs_buffer bs) (bs_pointer bs) (bs_position bs) (bs_length bs)
    (bs_capacity bs) v (bs_offset bs) (bs_prefetch bs) (bs_accumulator bs).
Definition set_offset (v : Z) (bs : wBitStream) : wBitStream :=
  mkBitStream (bs_buffer bs) (bs_pointer bs) (bs_position bs) (bs_length bs)
    (bs_capacity bs) (bs_mask bs) v (bs_prefetch bs) (bs_accumulator bs).
Definition set_position (v : Z) (bs : wBitStream) : wBitStream :=
  mkBitStream (bs_buffer bs) (bs_pointer bs) v (bs_length bs)
    (bs_capacity bs) (bs_mask bs) (bs_offset bs) (bs_prefetch bs) (bs_accumulator bs).
Definition set_bs_pointer (v : Z) (bs : wBitStream) : wBitStream :=
  mkBitStream (bs_buffer bs) v (bs_position bs) (bs_length bs)
    (bs_capacity bs) (bs_mask bs) (bs_offset bs) (bs_prefetch bs) (bs_accumulator bs).
Definition set_bs_buffer (v : list Z) (bs : wBitStream) : wBitStream :=
  mkBitStream v (bs_pointer bs) (bs_position bs) (bs_length bs)
    (bs_capacity bs) (bs_mask bs) (bs_offset bs) (bs_prefetch bs) (bs_accumulator bs).

(** [if ((diff + i) < capacity) word |= ((UINT32)pointer[i] << sh);] *)
Definition fetch_byte (bs : wBitStream) (i sh word : Z) : Z :=
  let diff := bs_pointer bs in
  if diff + i <? bs_capacity bs
  then Z.lor word (u32 (Z.shiftl (zget (bs_buffer bs) (diff + i)) sh))
  else word.

Definition BitStream_Prefetch (bs : wBitStream) : wBitStream :=
  set_prefetch
    (fetch_byte bs 7 0 (fetch_byte bs 6 8 (fetch_byte bs 5 16 (fetch_byte bs 4 24 0)))) bs.

Definition BitStream_Fetch (bs : wBitStream) : wBitStream :=
  BitStream_Prefetch
    (set_accumulator
      (fetch_byte bs 3 0 (fetch_byte bs 2 8 (fetch_byte bs 1 16 (fetch_byte bs 0 24 0)))) bs).

(** [if ((diff + i) < capacity) pointer[i] = (accumulator >> sh) & 0xFF;] *)
Definition flush_byte (i sh : Z) (bs : wBitStream) : wBitStream :=
  let diff := bs_pointer bs in
  if diff + i <? bs_capacity bs
  then set_bs_buffer (<[Z.to_nat (diff + i) := Z.land (Z.shiftr (bs_accumulator bs) sh) 255]>
                        (bs_buffer bs)) bs
  else bs.

Definition BitStream_Flush (bs : wBitStream) : wBitStream :=
  flush_byte 3 0 (flush_byte 2 8 (flush_byte 1 16 (flush_byte 0 24 bs))).

(** [(UINT32)((1UL << n) - 1UL)] *)
Definition mask_of (n : Z) : Z := u32 (Z.shiftl 1 n - 1).

(** [accumulator |= ((prefetch >> (32 - n)) & mask); prefetch <<= n;] after
    the mask is set for [n]. *)
Definition pull_prefetch (n : Z) (bs : wBitStream) : wBitStream :=
  let bs := set_mask (mask_of n) bs in
  let bs := set_accumulator
    (Z.lor (bs_accumulator bs) (Z.land (Z.shiftr (bs_prefetch bs) (32 - n)) (bs_mask bs))) bs in
  set_prefetch (u32 (Z.shiftl (bs_prefetch bs) n)) bs.

Definition BitStream_Shift (nbits : Z) (bs : wBitStream) : wBitStream :=
  if nbits =? 0 then bs
  else if (nbits >? 0) && (nbits <? 32) then
    let bs := set_accumulator (u32 (Z.shiftl (bs_accumulator bs) nbits)) bs in
    let bs := set_position (u32 (bs_position bs + nbits)) bs in
    let bs := set_offset (u32 (bs_offset bs + nbits)) bs in
    if bs_offset bs <? 32 then pull_prefetch nbits bs
    else
      let bs := pull_prefetch nbits bs in
      let bs := set_offset (bs_offset bs - 32) bs in
      let bs := set_bs_pointer (bs_pointer bs + 4) bs in
      let bs := BitStream_Prefetch bs in
      if negb (bs_offset bs =? 0) then pull_prefetch (bs_offset bs) bs else bs
  else bs.

Definition BitStream_Shift32 (bs : wBitStream) : wBitStream :=
  BitStream_Shift 16 (BitStream_Shift 16 bs).

(** The code word overflows the accumulator: complete it ... *)
Definition fill_accumulator (bits nbits : Z) (bs : wBitStream) : wBitStream :=
  let bs := set_offset (bs_offset bs - 32) bs in
  let bs := set_mask (u32 (u32 (Z.shiftl 1 (nbits - bs_offset bs)) - 1)) bs in
  set_accumulator
    (Z.lor (bs_accumulator bs) (Z.land (Z.shiftr bits (bs_offset bs)) (bs_mask bs))) bs.

(** ... and start the next one, after the flush. *)
Definition next_accumulator (bits : Z) (bs : wBitStream) : wBitStream :=
  let bs := set_bs_pointer (bs_pointer bs + 4) (set_accumulator 0 bs) in
  if negb (bs_offset bs =? 0) then
    let bs := set_mask (mask_of (bs_offset bs)) bs in
    set_accumulator
      (Z.lor (bs_accumulator bs)
         (u32 (Z.shiftl (Z.land bits (bs_mask bs)) (32 - bs_offset bs)))) bs
  else bs.

Definition BitStream_Write_Bits (bits nbits : Z) (bs : wBitStream) : wBitStream :=
  let bs := set_offset (u32 (bs_offset bs + nbits))
              (set_position (u32 (bs_position bs + nbits)) bs) in
  if bs_offset bs <? 32 then
    set_accumulator (Z.lor (bs_accumulator bs) (u32 (Z.shiftl bits (32 - bs_offset bs)))) bs
  else next_accumulator bits (BitStream_Flush (fill_accumulator bits nbits bs)).

Definition BitStream_GetRemainingLength (bs : wBitStream) : Z :=
  u32 (bs_length bs - bs_position bs).

Definition BitStream_Attach (buffer : list Z) (capacity : Z) (bs : wBitStream) : wBitStream :=
  mkBitStream buffer 0 0 (u32 (capacity * 8)) capacity (bs_mask bs) 0 (bs_prefetch bs) 0.

(** The zeroed structure [calloc] gives. *)
Definition BitStream_New : wBitStream := mkBitStream [] 0 0 0 0 0 0 0 0.

(** * The bits of a buffer *)

(** Bit [i] of the first [cap] bytes, most significant bit first; what lies
    behind them reads as zero. *)
Definition bit (buf : list Z) (cap i : Z) : bool :=
  (i / 8 <? cap) && Z.testbit (zget buf (i / 8)) (7 - i mod 8).

(** The low [n] bits of [v], most significant first. *)
Definition bits_of (n v : Z) : list bool :=
  map (λ j, Z.testbit v (n - 1 - Z.of_nat j)) (seq 0 (Z.to_nat n)).
Definition getb (B : list bool) (i : Z) : bool := nth (Z.to_nat i) B false.

Lemma zlen_bits_of n v : 0 <= n → zlen (bits_of n v) = n.
Proof. intros. unfold zlen, bits_of. rewrite length_map, length_seq. lia. Qed.
Lemma getb_bits_of n v i : 0 <= i < n → getb (bits_of n v) i = Z.testbit v (n - 1 - i).
Proof.
  intros. unfold getb, bits_of.
  rewrite nth_indep with (d' := Z.testbit v (n - 1 - Z.of_nat 0))
    by (rewrite length_map, length_seq; lia).
  rewrite (map_nth (λ j, Z.testbit v (n - 1 - Z.of_nat j))), seq_nth by lia.
  f_equal. lia.
Qed.
Lemma getb_app B1 B2 i :
  0 <= i → getb (B1 ++ B2) i = if i <? zlen B1 then getb B1 i else getb B2 (i - zlen B1).
Proof.
  intros. unfold getb, zlen. destruct (Z.ltb_spec i (Z.of_nat (length B1))).
  - apply app_nth1. lia.
  - rewrite app_nth2 by lia. f_equal. lia.
Qed.

Lemma testbit_u32 v k : 0 <= k → Z.testbit (u32 v) k = (k <? 32) && Z.testbit v k.
Proof.
  intros. unfold u32. change 4294967296 with (2 ^ 32).
  destruct (Z.ltb_spec k 32).
  - by rewrite Z.mod_pow2_bits_low by lia.
  - by rewrite Z.mod_pow2_bits_high by lia.
Qed.
Lemma u32_range v : 0 <= u32 v < 2 ^ 32.
Proof. apply Z.mod_pos_bound. lia. Qed.
Lemma u32_small v : 0 <= v < 2 ^ 32 → u32 v = v.
Proof. apply Z.mod_small. Qed.
Lemma testbit_mask_of n k :
  0 <= n <= 32 → 0 <= k → Z.testbit (mask_of n) k = (k <? n).
Proof.
  intros. unfold mask_of. rewrite testbit_u32 by done.
  replace (Z.shiftl 1 n - 1) with (Z.ones n) by (unfold Z.ones; lia).
  rewrite Z.testbit_ones_nonneg by lia. lia.
Qed.
Lemma testbit_high v n k : 0 <= v < 2 ^ n → 0 <= n <= k → Z.testbit v k = false.
Proof.
  intros. rewrite <- (Z.mod_small v (2 ^ n)) by lia. apply Z.mod_pow2_bits_high. lia.
Qed.
(** A number whose bits from [n] on are zero is below [2 ^ n]. *)
Lemma range_of_bits v n :
  0 <= n → 0 <= v → (∀ k, n <= k → Z.testbit v k = false) → v < 2 ^ n.
Proof.
  intros Hn Hv Hk. assert (v = v mod 2 ^ n) as ->; [|apply Z.mod_pos_bound; lia].
  apply Z.bits_inj'. intros k ?. destruct (Z.lt_ge_cases k n).
  - by rewrite Z.mod_pow2_bits_low by lia.
  - rewrite Hk, Z.mod_pow2_bits_high by lia. done.
Qed.

(** * Reading *)

Lemma byte_testbit b k : is_byte b → (k < 0 ∨ 8 <= k) → Z.testbit b k = false.
Proof.
  intros ? [?|?]; [by apply Z.testbit_neg_r|]. by apply (testbit_high b 8).
Qed.

Definition fetch_word (bs : wBitStream) (k : Z) : Z :=
  fetch_byte bs (k + 3) 0 (fetch_byte bs (k + 2) 8
    (fetch_byte bs (k + 1) 16 (fetch_byte bs k 24 0))).

Lemma testbit_fetch_byte bs i sh w m :
  0 <= m < 32 →
  Z.testbit (fetch_byte bs i sh w) m =
    Z.testbit w m || ((bs_pointer bs + i <? bs_capacity bs)
      && Z.testbit (zget (bs_buffer bs) (bs_pointer bs + i)) (m - sh)).
Proof.
  intros. unfold fetch_byte. destruct (_ <? _); [|by rewrite orb_false_r].
  rewrite Z.lor_spec, testbit_u32, Z.shiftl_spec by lia.
  by replace (m <? 32) with true by lia.
Qed.
Lemma fetch_byte_range bs i sh w :
  0 <= w < 2 ^ 32 → 0 <= fetch_byte bs i sh w < 2 ^ 32.
Proof.
  intros. unfold fetch_byte. destruct (_ <? _); [|done].
  pose proof (u32_range (Z.shiftl (zget (bs_buffer bs) (bs_pointer bs + i)) sh)).
  split; [apply Z.lor_nonneg; lia|]. apply range_of_bits; [lia|apply Z.lor_nonneg; lia|].
  intros k Hk. by rewrite Z.lor_spec, !(testbit_high _ 32).
Qed.

Lemma fetch_word_range bs k : 0 <= fetch_word bs k < 2 ^ 32.
Proof. by repeat apply fetch_byte_range. Qed.

Lemma testbit_fetch_word bs k j :
  bytes (bs_buffer bs) → 0 <= bs_pointer bs → 0 <= k → 0 <= j < 32 →
  Z.testbit (fetch_word bs k) (31 - j) =
    bit (bs_buffer bs) (bs_capacity bs) (8 * (bs_pointer bs + k) + j).
Proof.
  intros Hb Hp Hk Hj. unfold fetch_word. rewrite !testbit_fetch_byte, Z.testbit_0_l by lia.
  unfold bit. set (p := bs_pointer bs) in *. set (cap := bs_capacity bs).
  assert (∃ q r, 0 <= q < 4 ∧ 0 <= r < 8 ∧ j = 8 * q + r) as (q & r & Hq & Hr & ->)
    by (exists (j / 8), (j mod 8); div_mod_lia).
  replace ((8 * (p + k) + (8 * q + r)) / 8) with (p + k + q) by div_mod_lia.
  replace ((8 * (p + k) + (8 * q + r)) mod 8) with r by div_mod_lia.
  assert (∀ i m, m < 0 ∨ 8 <= m → Z.testbit (zget (bs_buffer bs) i) m = false) as Hz.
  { intros i m Hm. apply byte_testbit; [by apply zget_byte|done]. }
  assert (q = 0 ∨ q = 1 ∨ q = 2 ∨ q = 3) as [-> | [-> | [-> | ->]]] by lia;
    rewrite ?(Hz _ (31 - (8 * _ + r) - 0)), ?(Hz _ (31 - (8 * _ + r) - 8)),
      ?(Hz _ (31 - (8 * _ + r) - 16)), ?(Hz _ (31 - (8 * _ + r) - 24)) by lia;
    rewrite ?andb_false_r, ?orb_false_r, ?orb_false_l;
    (f_equal; [lia|f_equal; [f_equal; lia|lia]]).
Qed.

(** The invariant of a stream that is read: the accumulator holds the 32 bits
    at the position, the prefetch word those behind them up to the end of the
    next 32-bit word. *)
Record reading (bs : wBitStream) : Prop := {
  rd_bytes : bytes (bs_buffer bs);
  rd_pointer : 0 <= bs_pointer bs;
  rd_offset : 0 <= bs_offset bs < 32;
  rd_position : bs_position bs = 8 * bs_pointer bs + bs_offset bs;
  rd_acc_range : 0 <= bs_accumulator bs < 2 ^ 32;
  rd_acc : ∀ j, 0 <= j < 32 →
    Z.testbit (bs_accumulator bs) (31 - j) =
      bit (bs_buffer bs) (bs_capacity bs) (bs_position bs + j);
  rd_pre_range : 0 <= bs_prefetch bs < 2 ^ 32;
  rd_pre : ∀ j, 0 <= j < 32 →
    Z.testbit (bs_prefetch bs) (31 - j) =
      (j <? 32 - bs_offset bs)
        && bit (bs_buffer bs) (bs_capacity bs) (bs_position bs + 32 + j);
}.

Lemma reading_attach buf cap bs :
  bytes buf → reading (BitStream_Fetch (BitStream_Attach buf cap bs)).
Proof.
  intros Hb. set (bs0 := BitStream_Attach buf cap bs).
  split; try done.
  - apply (fetch_word_range bs0 0).
  - intros j Hj. by apply (testbit_fetch_word bs0 0 j).
  - apply (fetch_word_range bs0 4).
  - intros j Hj. etransitivity; [by apply (testbit_fetch_word bs0 4 j)|]. simpl.
    by replace (j <? 32 - 0) with true by lia.
Qed.

(** What [pull_prefetch] does to the bits of the two words. *)
Lemma pull_acc n bs j :
  0 < n < 32 → 0 <= j < 32 → 0 <= bs_prefetch bs < 2 ^ 32 →
  Z.testbit (bs_accumulator (pull_prefetch n bs)) (31 - j) =
    Z.testbit (bs_accumulator bs) (31 - j)
    || ((32 - n <=? j) && Z.testbit (bs_prefetch bs) (31 - (j + n - 32))).
Proof.
  intros. simpl. rewrite Z.lor_spec, Z.land_spec, Z.shiftr_spec, testbit_mask_of by lia.
  f_equal. rewrite andb_comm. destruct (Z.leb_spec (32 - n) j).
  - replace (31 - j <? n) with true by lia. simpl. f_equal. lia.
  - by replace (31 - j <? n) with false by lia.
Qed.
Lemma pull_acc_range n bs :
  0 < n < 32 → 0 <= bs_prefetch bs < 2 ^ 32 → 0 <= bs_accumulator bs < 2 ^ 32 →
  0 <= bs_accumulator (pull_prefetch n bs) < 2 ^ 32.
Proof.
  intros Hn Hp Ha. simpl.
  assert (0 <= Z.land (Z.shiftr (bs_prefetch bs) (32 - n)) (mask_of n))
    by (apply Z.land_nonneg; right; apply u32_range).
  assert (0 <= Z.lor (bs_accumulator bs)
    (Z.land (Z.shiftr (bs_prefetch bs) (32 - n)) (mask_of n))) as Hl
    by (apply Z.lor_nonneg; lia).
  split; [done|]. apply range_of_bits; [lia|done|]. intros k Hk.
  rewrite Z.lor_spec, Z.land_spec, testbit_mask_of, (testbit_high _ 32 k) by lia.
  replace (k <? n) with false by lia. by rewrite andb_false_r.
Qed.
Lemma pull_pre n bs j :
  0 < n < 32 → 0 <= j < 32 →
  Z.testbit (bs_prefetch (pull_prefetch n bs)) (31 - j) =
    (j + n <? 32) && Z.testbit (bs_prefetch bs) (31 - (j + n)).
Proof.
  intros. simpl. rewrite testbit_u32, Z.shiftl_spec by lia.
  replace (31 - j <? 32) with true by lia.
  replace (31 - j - n) with (31 - (j + n)) by lia.
  destruct (Z.ltb_spec (j + n) 32); [done|]. by rewrite Z.testbit_neg_r by lia.
Qed.

(** The state of [BitStream_Shift] after the first use of the prefetch word. *)
Definition shift_words (n : Z) (bs : wBitStream) : wBitStream :=
  pull_prefetch n
    (set_offset (u32 (bs_offset bs + n))
      (set_position (u32 (bs_position bs + n))
        (set_accumulator (u32 (Z.shiftl (bs_accumulator bs) n)) bs))).

Lemma shift_words_range n bs :
  reading bs → 0 < n < 32 → 0 <= bs_accumulator (shift_words n bs) < 2 ^ 32.
Proof. intros [] Hn. apply pull_acc_range; [done..|]. apply u32_range. Qed.

Lemma shift_words_acc n bs j :
  reading bs → 0 < n < 32 → 0 <= j < 32 →
  Z.testbit (bs_accumulator (shift_words n bs)) (31 - j) =
    (j <? 64 - bs_offset bs - n)
      && bit (bs_buffer bs) (bs_capacity bs) (bs_position bs + n + j).
Proof.
  intros [] Hn Hj. unfold shift_words. rewrite pull_acc by done. simpl.
  rewrite testbit_u32, Z.shiftl_spec by lia.
  replace (31 - j <? 32) with true by lia. simpl.
  destruct (Z.leb_spec (32 - n) j).
  - rewrite Z.testbit_neg_r by lia. simpl. rewrite rd_pre0 by lia.
    f_equal; [lia|]. f_equal. lia.
  - replace (31 - j - n) with (31 - (j + n)) by lia. rewrite rd_acc0 by lia.
    replace (j <? 64 - bs_offset bs - n) with true by lia.
    simpl. rewrite orb_false_r. f_equal. lia.
Qed.

Lemma shift_words_pre n bs j :
  reading bs → 0 < n < 32 → 0 <= j < 32 →
  Z.testbit (bs_prefetch (shift_words n bs)) (31 - j) =
    (j <? 32 - bs_offset bs - n)
      && bit (bs_buffer bs) (bs_capacity bs) (bs_position bs + n + 32 + j).
Proof.
  intros [] Hn Hj. unfold shift_words. rewrite pull_pre by done. simpl.
  destruct (Z.ltb_spec (j + n) 32); [|by replace (j <? _) with false by lia].
  rewrite rd_pre0 by lia. simpl. f_equal; [lia|]. f_equal. lia.
Qed.

(** The words of the stream whose position passes a multiple of 32: the
    prefetch word is refilled and the accumulator completed from it. *)
Definition shift_refill (n : Z) (bs : wBitStream) : wBitStream :=
  BitStream_Prefetch
    (set_bs_pointer (bs_pointer bs + 4) (set_offset (bs_offset bs + n - 32) (shift_words n bs))).

Lemma shift_refill_pre n bs j :
  reading bs → 0 <= j < 32 →
  Z.testbit (bs_prefetch (shift_refill n bs)) (31 - j) =
    bit (bs_buffer bs) (bs_capacity bs) (8 * bs_pointer bs + 64 + j).
Proof.
  intros [] Hj. unfold shift_refill, BitStream_Prefetch. cbn [bs_prefetch set_prefetch].
  set (b := set_bs_pointer _ _). change (fetch_byte b 7 0 _) with (fetch_word b 4).
  rewrite testbit_fetch_word by (done || simpl; lia). simpl. f_equal. lia.
Qed.

Lemma reading_refill n bs :
  reading bs → 0 < n < 32 → bs_offset bs + n = 32 → bs_position bs + 32 < 2 ^ 32 →
  reading (shift_refill n bs).
Proof.
  intros Hrd Hn Ho Hpos. pose proof Hrd as []. split; try done.
  - simpl. lia.
  - simpl. lia.
  - simpl. rewrite u32_small by lia. lia.
  - apply (shift_words_range n bs); done.
  - intros j Hj. etransitivity; [by apply shift_words_acc|].
    replace (j <? 64 - bs_offset bs - n) with true by lia. simpl.
    by rewrite u32_small by lia.
  - apply (fetch_word_range _ 4).
  - intros j Hj. rewrite shift_refill_pre by done. simpl. rewrite u32_small by lia.
    replace (j <? 32 - (bs_offset bs + n - 32)) with true by lia. simpl. f_equal. lia.
Qed.

Lemma reading_refill_pull n bs :
  reading bs → 0 < n < 32 → 32 < bs_offset bs + n → bs_position bs + 32 < 2 ^ 32 →
  reading (pull_prefetch (bs_offset bs + n - 32) (shift_refill n bs)).
Proof.
  intros Hrd Hn Ho Hpos. pose proof Hrd as [].
  assert (0 <= bs_prefetch (shift_refill n bs) < 2 ^ 32) as Hpr
    by apply (fetch_word_range _ 4).
  split; try done.
  - simpl. lia.
  - simpl. lia.
  - simpl. rewrite u32_small by lia. lia.
  - apply pull_acc_range; [lia|done|]. apply (shift_words_range n bs); done.
  - intros j Hj. rewrite pull_acc by (done || lia).
    etransitivity; [apply (f_equal (λ b, b || _)); by apply shift_words_acc|].
    simpl. rewrite u32_small by lia. destruct (Z.ltb_spec j (64 - bs_offset bs - n)).
    + replace (32 - _ <=? j) with false by lia. by rewrite orb_false_r.
    + replace (32 - _ <=? j) with true by lia. simpl.
      etransitivity; [apply (shift_refill_pre n bs); [done|lia]|]. f_equal. lia.
  - apply u32_range.
  - intros j Hj. rewrite pull_pre by lia. simpl. rewrite u32_small by lia.
    destruct (Z.ltb_spec (j + (bs_offset bs + n - 32)) 32).
    + replace (j <? _) with true by lia. simpl.
      etransitivity; [apply (shift_refill_pre n bs); [done|lia]|]. f_equal. lia.
    + by replace (j <? _) with false by lia.
Qed.

(** [BitStream_Shift] by [n] bits moves the position by [n] bits. *)
Lemma reading_shift n bs :
  reading bs → 0 < n < 32 → bs_position bs + 32 < 2 ^ 32 →
  reading (BitStream_Shift n bs) ∧
  bs_position (BitStream_Shift n bs) = bs_position bs + n ∧
  bs_buffer (BitStream_Shift n bs) = bs_buffer bs ∧
  bs_capacity (BitStream_Shift n bs) = bs_capacity bs ∧
  bs_length (BitStream_Shift n bs) = bs_length bs.
Proof.
  intros Hrd Hn Hpos. pose proof Hrd as [].
  assert (u32 (bs_offset bs + n) = bs_offset bs + n) as Ho by (apply u32_small; lia).
  assert (u32 (bs_position bs + n) = bs_position bs + n) as Hp by (apply u32_small; lia).
  assert (BitStream_Shift n bs =
    if bs_offset bs + n <? 32 then shift_words n bs
    else if negb (bs_offset bs + n - 32 =? 0)
      then pull_prefetch (bs_offset bs + n - 32) (shift_refill n bs)
      else shift_refill n bs) as ->.
  { unfold BitStream_Shift. replace (n =? 0) with false by lia.
    replace ((n >? 0) && (n <? 32)) with true by lia. cbv zeta.
    unfold shift_refill, shift_words. cbn [bs_offset set_offset pull_prefetch set_prefetch set_accumulator set_mask set_position set_bs_pointer BitStream_Prefetch].
    rewrite Ho. reflexivity. }
  destruct (Z.ltb_spec (bs_offset bs + n) 32).
  - split; [|done]. split; try done; simpl; rewrite ?Ho, ?Hp; try lia.
    + by apply (shift_words_range n bs).
    + intros j Hj. etransitivity; [by apply shift_words_acc|].
      by replace (j <? _) with true by lia.
    + apply u32_range.
    + intros j Hj. etransitivity; [by apply shift_words_pre|]. f_equal. lia.
  - destruct (Z.eqb_spec (bs_offset bs + n - 32) 0); (split; [|done]).
    + apply reading_refill; done || lia.
    + apply reading_refill_pull; done || lia.
Qed.

(** A code word of [n] bits [v] at the position is in the top of the
    accumulator. *)
Definition holds (bs : wBitStream) (B : list bool) : Prop :=
  ∀ i, 0 <= i < zlen B →
  bit (bs_buffer bs) (bs_capacity bs) (bs_position bs + i) = getb B i.

Lemma acc_top bs n v B :
  reading bs → holds bs (bits_of n v ++ B) → 0 <= n <= 32 → 0 <= v < 2 ^ n →
  bs_accumulator bs / 2 ^ (32 - n) = v.
Proof.
  intros [] Hh Hn Hv. rewrite <- Z.shiftr_div_pow2 by lia.
  apply Z.bits_inj'. intros k Hk. rewrite Z.shiftr_spec by done.
  destruct (Z.lt_ge_cases k n).
  - replace (k + (32 - n)) with (31 - (n - 1 - k)) by lia. rewrite rd_acc0 by lia.
    rewrite Hh by (rewrite zlen_app, zlen_bits_of by lia; zlia).
    rewrite getb_app, zlen_bits_of by lia.
    replace (n - 1 - k <? n) with true by lia.
    rewrite getb_bits_of by lia. f_equal. lia.
  - rewrite (testbit_high _ 32), (testbit_high v n) by lia. done.
Qed.

Lemma holds_shift bs n v B :
  reading bs → holds bs (bits_of n v ++ B) → 0 < n < 32 → bs_position bs + 32 < 2 ^ 32 →
  holds (BitStream_Shift n bs) B.
Proof.
  intros Hrd Hh Hn Hpos i Hi. destruct (reading_shift n bs) as (_ & -> & -> & -> & _); [done..|].
  rewrite <- Z.add_assoc, Hh by (rewrite zlen_app, zlen_bits_of by lia; lia).
  rewrite getb_app, zlen_bits_of by lia. replace (n + i <? n) with false by lia.
  f_equal. lia.
Qed.

(** * Writing *)

(** The invariant of a stream into which the bits [B] were written: the bits
    before the pointer are in the buffer, as far as it has room, the others
    in the accumulator. *)
Record writing (bs : wBitStream) (B : list bool) : Prop := {
  wr_pointer : 0 <= bs_pointer bs;
  wr_offset : 0 <= bs_offset bs < 32;
  wr_position : bs_position bs = 8 * bs_pointer bs + bs_offset bs;
  wr_len : bs_position bs = zlen B;
  wr_size : bs_capacity bs <= zlen (bs_buffer bs);
  wr_bytes : bytes (bs_buffer bs);
  wr_done : ∀ i, 0 <= i < 8 * bs_pointer bs → i < 8 * bs_capacity bs →
    bit (bs_buffer bs) (bs_capacity bs) i = getb B i;
  wr_acc_range : 0 <= bs_accumulator bs < 2 ^ 32;
  wr_acc : ∀ j, 0 <= j < 32 →
    Z.testbit (bs_accumulator bs) (31 - j) = getb B (8 * bs_pointer bs + j);
}.

Lemma getb_out B i : zlen B <= i → getb B i = false.
Proof. unfold zlen, getb. intros. apply nth_overflow. lia. Qed.

Lemma writing_attach buf cap bs :
  cap <= zlen buf → bytes buf → writing (BitStream_Attach buf cap bs) [].
Proof.
  intros ? Hb. split; simpl; try done; try lia.
  intros j Hj. rewrite Z.testbit_0_l. symmetry. apply getb_out. zlia.
Qed.

(** ** Flushing the accumulator *)

Lemma byte_of_acc_is_byte a k : is_byte (Z.land (Z.shiftr a k) 255).
Proof. rewrite (land_mask _ 8) by lia. apply Z.mod_pos_bound. lia. Qed.

Lemma flush_byte_frame i sh bs :
  bs_pointer (flush_byte i sh bs) = bs_pointer bs ∧
  bs_capacity (flush_byte i sh bs) = bs_capacity bs ∧
  bs_accumulator (flush_byte i sh bs) = bs_accumulator bs ∧
  bs_position (flush_byte i sh bs) = bs_position bs ∧
  bs_offset (flush_byte i sh bs) = bs_offset bs ∧
  zlen (bs_buffer (flush_byte i sh bs)) = zlen (bs_buffer bs) ∧
  (bytes (bs_buffer bs) → bytes (bs_buffer (flush_byte i sh bs))).
Proof.
  unfold flush_byte. destruct (_ <? _); [|done]. simpl. split_and!; try done.
  - unfold zlen. by rewrite length_insert.
  - intros. apply Forall_insert; [done|]. apply byte_of_acc_is_byte.
Qed.
Lemma flush_byte_get i sh bs k :
  0 <= bs_pointer bs + i → bs_capacity bs <= zlen (bs_buffer bs) → 0 <= k →
  zget (bs_buffer (flush_byte i sh bs)) k =
    if (k =? bs_pointer bs + i) && (k <? bs_capacity bs)
    then Z.land (Z.shiftr (bs_accumulator bs) sh) 255 else zget (bs_buffer bs) k.
Proof.
  intros Hi Hz Hk. unfold flush_byte. destruct (Z.ltb_spec (bs_pointer bs + i) (bs_capacity bs)).
  - simpl. rewrite zget_insert by lia.
    destruct (Z.eqb_spec k (bs_pointer bs + i)) as [->|]; [|done].
    by replace (bs_pointer bs + i <? bs_capacity bs) with true by lia.
  - by replace ((k =? bs_pointer bs + i) && (k <? bs_capacity bs)) with false by lia.
Qed.

Lemma flush_frame bs :
  bs_pointer (BitStream_Flush bs) = bs_pointer bs ∧
  bs_capacity (BitStream_Flush bs) = bs_capacity bs ∧
  bs_accumulator (BitStream_Flush bs) = bs_accumulator bs ∧
  bs_position (BitStream_Flush bs) = bs_position bs ∧
  bs_offset (BitStream_Flush bs) = bs_offset bs ∧
  zlen (bs_buffer (BitStream_Flush bs)) = zlen (bs_buffer bs) ∧
  (bytes (bs_buffer bs) → bytes (bs_buffer (BitStream_Flush bs))).
Proof.
  unfold BitStream_Flush.
  destruct (flush_byte_frame 3 0 (flush_byte 2 8 (flush_byte 1 16 (flush_byte 0 24 bs))))
    as (-> & -> & -> & -> & -> & -> & ?).
  destruct (flush_byte_frame 2 8 (flush_byte 1 16 (flush_byte 0 24 bs)))
    as (-> & -> & -> & -> & -> & -> & ?).
  destruct (flush_byte_frame 1 16 (flush_byte 0 24 bs)) as (-> & -> & -> & -> & -> & -> & ?).
  destruct (flush_byte_frame 0 24 bs) as (-> & -> & -> & -> & -> & -> & ?). tauto.
Qed.

Lemma flush_get bs k :
  0 <= bs_pointer bs → bs_capacity bs <= zlen (bs_buffer bs) → 0 <= k < bs_capacity bs →
  zget (bs_buffer (BitStream_Flush bs)) k =
    if (bs_pointer bs <=? k) && (k <? bs_pointer bs + 4)
    then Z.land (Z.shiftr (bs_accumulator bs) (24 - 8 * (k - bs_pointer bs))) 255
    else zget (bs_buffer bs) k.
Proof.
  intros Hp Hz Hk. unfold BitStream_Flush.
  set (b1 := flush_byte 0 24 bs). set (b2 := flush_byte 1 16 b1).
  set (b3 := flush_byte 2 8 b2).
  destruct (flush_byte_frame 0 24 bs) as (P1 & C1 & A1 & _ & _ & Z1 & _).
  destruct (flush_byte_frame 1 16 b1) as (P2 & C2 & A2 & _ & _ & Z2 & _).
  destruct (flush_byte_frame 2 8 b2) as (P3 & C3 & A3 & _ & _ & Z3 & _).
  fold b1 in P1, C1, A1, Z1. fold b2 in P2, C2, A2, Z2. fold b3 in P3, C3, A3, Z3.
  assert ((k <? bs_capacity bs) = true) as Hc by lia.
  rewrite (flush_byte_get 3 0 b3), P3, C3, A3, P2, C2, A2, P1, C1, A1, Hc by lia.
  unfold b3. rewrite (flush_byte_get 2 8 b2), P2, C2, A2, P1, C1, A1, Hc by lia.
  unfold b2. rewrite (flush_byte_get 1 16 b1), P1, C1, A1, Hc by lia.
  unfold b1. rewrite (flush_byte_get 0 24 bs), Hc by lia. rewrite !andb_true_r.
  destruct (Z.leb_spec (bs_pointer bs) k), (Z.ltb_spec k (bs_pointer bs + 4)); simpl;
    repeat case_match; try lia; do 2 f_equal; lia.
Qed.

Lemma testbit_low_byte a k m :
  0 <= k → 0 <= m < 8 → Z.testbit (Z.land (Z.shiftr a k) 255) m = Z.testbit a (m + k).
Proof.
  intros. rewrite (land_mask _ 8), Z.mod_pow2_bits_low, Z.shiftr_spec by lia. done.
Qed.

Lemma flush_bit bs i :
  0 <= bs_pointer bs → bs_capacity bs <= zlen (bs_buffer bs) →
  0 <= i < 8 * bs_pointer bs + 32 → i < 8 * bs_capacity bs →
  bit (bs_buffer (BitStream_Flush bs)) (bs_capacity bs) i =
    if i <? 8 * bs_pointer bs then bit (bs_buffer bs) (bs_capacity bs) i
    else Z.testbit (bs_accumulator bs) (31 - (i - 8 * bs_pointer bs)).
Proof.
  intros Hp Hz Hi Hc. unfold bit. rewrite flush_get by div_mod_lia.
  replace (i / 8 <? bs_capacity bs) with true by div_mod_lia.
  replace ((bs_pointer bs <=? i / 8) && (i / 8 <? bs_pointer bs + 4))
    with (negb (i <? 8 * bs_pointer bs)) by div_mod_lia.
  destruct (Z.ltb_spec i (8 * bs_pointer bs)); [done|]. simpl.
  rewrite testbit_low_byte by div_mod_lia. f_equal. div_mod_lia.
Qed.

(** After the final flush the buffer holds the bits it has room for. *)
Lemma writing_flush bs B i :
  writing bs B → 0 <= i < zlen B → i < 8 * bs_capacity bs →
  bit (bs_buffer (BitStream_Flush bs)) (bs_capacity bs) i = getb B i.
Proof.
  intros [] Hi Hc. rewrite flush_bit by lia. destruct (Z.ltb_spec i (8 * bs_pointer bs)).
  - apply wr_done0; lia.
  - rewrite wr_acc0 by lia. f_equal. lia.
Qed.

(** ** Writing bits *)

(** The bits after a write, at distance [j] from a 32-bit boundary. *)
Lemma getb_write B n v p o j :
  zlen B = 8 * p + o → 0 <= n → 0 <= v < 2 ^ n → 0 <= j → 0 <= p → 0 <= o →
  getb (B ++ bits_of n v) (8 * p + j) =
    if j <? o then getb B (8 * p + j) else Z.testbit v (n - 1 - (j - o)).
Proof.
  intros HB Hn Hv Hj Hp Ho. rewrite getb_app, HB by lia.
  replace (8 * p + j <? 8 * p + o) with (j <? o) by lia.
  destruct (Z.ltb_spec j o); [done|].
  replace (8 * p + j - (8 * p + o)) with (j - o) by lia.
  destruct (Z.lt_ge_cases (j - o) n).
  - by rewrite getb_bits_of by lia.
  - rewrite getb_out, Z.testbit_neg_r by (rewrite ?zlen_bits_of; lia). done.
Qed.

Lemma lor_range32 a b : 0 <= a < 2 ^ 32 → 0 <= b < 2 ^ 32 → 0 <= Z.lor a b < 2 ^ 32.
Proof.
  intros. assert (0 <= Z.lor a b) by (apply Z.lor_nonneg; lia).
  split; [done|]. apply range_of_bits; [lia|done|].
  intros k ?. by rewrite Z.lor_spec, !(testbit_high _ 32) by lia.
Qed.

(** The bits that fit into the accumulator ... *)
Lemma write_acc_low a v n o j :
  0 <= v < 2 ^ n → 0 <= n → 0 <= o → o + n < 32 → 0 <= j < 32 →
  Z.testbit (Z.lor a (u32 (Z.shiftl v (32 - (o + n))))) (31 - j) =
    Z.testbit a (31 - j) || ((o <=? j) && Z.testbit v (n - 1 - (j - o))).
Proof.
  intros Hv Hn Ho Hon Hj. rewrite Z.lor_spec, testbit_u32, Z.shiftl_spec by lia.
  replace (31 - j <? 32) with true by lia. f_equal. simpl.
  replace (31 - j - (32 - (o + n))) with (n - 1 - (j - o)) by lia.
  destruct (Z.leb_spec o j); [done|]. apply (testbit_high v n); lia.
Qed.
(** ... and those that complete it. *)
Lemma write_acc_full a v n o j :
  0 < o → 32 <= o + n → n < 32 → o < 32 → 0 <= j < 32 →
  Z.testbit (Z.lor a (Z.land (Z.shiftr v (o + n - 32))
               (u32 (u32 (Z.shiftl 1 (n - (o + n - 32))) - 1)))) (31 - j) =
    Z.testbit a (31 - j) || ((o <=? j) && Z.testbit v (n - 1 - (j - o))).
Proof.
  intros Ho Hon Hn Ho' Hj. rewrite Z.lor_spec, Z.land_spec, Z.shiftr_spec by lia.
  replace (n - (o + n - 32)) with (32 - o) by lia.
  rewrite (u32_small (Z.shiftl 1 _)); cycle 1.
  { rewrite Z.shiftl_1_l. split; [lia|]. apply Z.pow_lt_mono_r; lia. }
  change (u32 (Z.shiftl 1 (32 - o) - 1)) with (mask_of (32 - o)).
  rewrite testbit_mask_of by lia. rewrite andb_comm. f_equal.
  replace (31 - j + (o + n - 32)) with (n - 1 - (j - o)) by lia. f_equal. lia.
Qed.
(** The rest starts the next accumulator. *)
Lemma write_acc_rest v o' j :
  0 < o' < 32 → 0 <= j < 32 →
  Z.testbit (Z.lor 0 (u32 (Z.shiftl (Z.land v (mask_of o')) (32 - o')))) (31 - j) =
    Z.testbit v (o' - 1 - j).
Proof.
  intros Ho Hj. rewrite Z.lor_0_l, testbit_u32, Z.shiftl_spec by lia.
  replace (31 - j <? 32) with true by lia. simpl.
  replace (31 - j - (32 - o')) with (o' - 1 - j) by lia.
  destruct (Z.lt_ge_cases j o'); [|by rewrite !Z.testbit_neg_r by lia].
  rewrite Z.land_spec, testbit_mask_of by lia. replace (_ <? o') with true by lia.
  apply andb_true_r.
Qed.

Lemma writing_low bits n bs B :
  writing bs B → 0 <= bits < 2 ^ n → 0 < n → bs_offset bs + n < 32 →
  bs_position bs + 32 < 2 ^ 32 →
  writing (BitStream_Write_Bits bits n bs) (B ++ bits_of n bits).
Proof.
  intros [] Hb Hn Ho Hpos. unfold BitStream_Write_Bits.
  cbn [bs_offset set_offset]. rewrite !u32_small by lia.
  replace (_ <? 32) with true by lia. split; simpl; try done; try lia.
  - rewrite zlen_app, zlen_bits_of; lia.
  - intros i Hi Hc. rewrite wr_done0, getb_app by lia.
    by replace (i <? zlen B) with true by lia.
  - apply lor_range32; [done|apply u32_range].
  - intros j Hj. rewrite write_acc_low by lia.
    rewrite (getb_write _ _ _ _ (bs_offset bs)) by lia. rewrite wr_acc0 by lia.
    destruct (Z.ltb_spec j (bs_offset bs)).
    + replace (bs_offset bs <=? j) with false by lia. apply orb_false_r.
    + replace (bs_offset bs <=? j) with true by lia. by rewrite getb_out by lia.
Qed.

(** The accumulator that is flushed holds the next 32 bits. *)
Lemma fill_accumulator_bits bits n bs B j :
  writing bs B → 0 <= bits < 2 ^ n → 0 < n < 32 → 32 <= bs_offset bs + n → 0 <= j < 32 →
  Z.testbit (bs_accumulator (fill_accumulator bits n
    (set_offset (bs_offset bs + n) (set_position (bs_position bs + n) bs)))) (31 - j) =
  getb (B ++ bits_of n bits) (8 * bs_pointer bs + j).
Proof.
  intros [] Hb Hn Ho Hj. simpl. rewrite write_acc_full by lia.
  rewrite (getb_write _ _ _ _ (bs_offset bs)) by lia. rewrite wr_acc0 by lia.
  destruct (Z.ltb_spec j (bs_offset bs)).
  - replace (bs_offset bs <=? j) with false by lia. apply orb_false_r.
  - replace (bs_offset bs <=? j) with true by lia. by rewrite getb_out by lia.
Qed.

Lemma next_accumulator_frame bits bs :
  bs_pointer (next_accumulator bits bs) = bs_pointer bs + 4 ∧
  bs_capacity (next_accumulator bits bs) = bs_capacity bs ∧
  bs_position (next_accumulator bits bs) = bs_position bs ∧
  bs_offset (next_accumulator bits bs) = bs_offset bs ∧
  bs_buffer (next_accumulator bits bs) = bs_buffer bs ∧
  0 <= bs_accumulator (next_accumulator bits bs) < 2 ^ 32.
Proof.
  unfold next_accumulator. cbn [bs_offset set_bs_pointer set_accumulator].
  destruct (bs_offset bs =? 0); simpl; split_and!; try done; apply u32_range.
Qed.

Lemma next_accumulator_bits bits bs j :
  0 <= bs_offset bs < 32 → 0 <= j < 32 →
  Z.testbit (bs_accumulator (next_accumulator bits bs)) (31 - j) =
    Z.testbit bits (bs_offset bs - 1 - j).
Proof.
  intros Ho Hj. unfold next_accumulator. cbn [bs_offset set_bs_pointer set_accumulator].
  destruct (Z.eqb_spec (bs_offset bs) 0) as [He|]; cbn [negb].
  - simpl. rewrite Z.testbit_0_l, Z.testbit_neg_r by lia. done.
  - cbn [bs_accumulator set_accumulator bs_mask set_mask bs_offset set_bs_pointer].
    apply write_acc_rest; lia.
Qed.

Lemma writing_high bits n bs B :
  writing bs B → 0 <= bits < 2 ^ n → 0 < n < 32 → 32 <= bs_offset bs + n →
  bs_position bs + 32 < 2 ^ 32 →
  writing (BitStream_Write_Bits bits n bs) (B ++ bits_of n bits).
Proof.
  intros Hw Hb Hn Ho Hpos. pose proof Hw as []. unfold BitStream_Write_Bits.
  cbn [bs_offset set_offset]. rewrite !u32_small by lia.
  replace (_ <? 32) with false by lia.
  set (b0 := set_offset _ _). set (b1 := fill_accumulator bits n b0).
  set (b2 := BitStream_Flush b1).
  destruct (next_accumulator_frame bits b2) as (P3 & C3 & N3 & O3 & U3 & R3).
  destruct (flush_frame b1) as (P2 & C2 & A2 & N2 & O2 & Z2 & B2). fold b2 in P2, C2, N2, O2, Z2, B2.
  change (bs_pointer b1) with (bs_pointer bs) in *.
  change (bs_capacity b1) with (bs_capacity bs) in *.
  change (bs_position b1) with (bs_position bs + n) in *.
  change (bs_offset b1) with (bs_offset bs + n - 32) in *.
  change (bs_buffer b1) with (bs_buffer bs) in *.
  split; rewrite ?P3, ?C3, ?N3, ?O3, ?U3, ?P2, ?C2, ?N2, ?O2, ?Z2; try done; try lia.
  - rewrite zlen_app, zlen_bits_of; lia.
  - by apply B2.
  - intros i Hi Hc. etransitivity; [apply (flush_bit b1); done || (simpl; lia)|].
    change (bs_pointer b1) with (bs_pointer bs). destruct (Z.ltb_spec i (8 * bs_pointer bs)).
    + etransitivity; [apply wr_done0; lia|].
      rewrite getb_app by lia. by replace (i <? zlen B) with true by lia.
    + etransitivity; [apply (fill_accumulator_bits bits n bs B); done || lia|]. f_equal. lia.
  - intros j Hj. rewrite next_accumulator_bits, O2 by lia.
    replace (8 * (bs_pointer bs + 4) + j) with (8 * bs_pointer bs + (32 + j)) by lia.
    rewrite (getb_write _ _ _ _ (bs_offset bs)) by lia.
    replace (32 + j <? bs_offset bs) with false by lia. f_equal. lia.
Qed.

(** [BitStream_Write_Bits] appends the code word. *)
Lemma writing_bits bits n bs B :
  writing bs B → 0 <= bits < 2 ^ n → 0 < n < 32 → bs_position bs + 32 < 2 ^ 32 →
  writing (BitStream_Write_Bits bits n bs) (B ++ bits_of n bits) ∧
  bs_capacity (BitStream_Write_Bits bits n bs) = bs_capacity bs ∧
  zlen (bs_buffer (BitStream_Write_Bits bits n bs)) = zlen (bs_buffer bs).
Proof.
  intros Hw Hb Hn Hpos. pose proof Hw as []. split.
  - destruct (Z.lt_ge_cases (bs_offset bs + n) 32);
      [apply writing_low|apply writing_high]; done || lia.
  - unfold BitStream_Write_Bits. cbv zeta. destruct (_ <? 32); [done|].
    set (b := fill_accumulator _ _ _).
    by destruct (next_accumulator_frame bits (BitStream_Flush b)) as (_ & -> & _ & _ & -> & _),
      (flush_frame b) as (_ & -> & _ & _ & _ & -> & _).
Qed.

(** * Sequences of code words *)

(** The code words [(bits, nbits)], written and read one after the other. *)
Definition write_words (l : list (Z * Z)) (bs : wBitStream) : wBitStream :=
  fold_left (λ bs '(v, n), BitStream_Write_Bits v n bs) l bs.
Fixpoint read_words (ns : list Z) (bs : wBitStream) : list Z :=
  match ns with
  | [] => []
  | n :: ns => Z.shiftr (bs_accumulator bs) (32 - n) :: read_words ns (BitStream_Shift n bs)
  end.
Definition is_word (w : Z * Z) : Prop := 0 < snd w < 32 ∧ 0 <= fst w < 2 ^ snd w.
Definition word_bits (l : list (Z * Z)) : list bool := concat (map (λ '(v, n), bits_of n v) l).

Lemma writing_words l bs B :
  writing bs B → Forall is_word l → zlen B + zlen (word_bits l) + 32 < 2 ^ 32 →
  writing (write_words l bs) (B ++ word_bits l) ∧
  bs_capacity (write_words l bs) = bs_capacity bs ∧
  zlen (bs_buffer (write_words l bs)) = zlen (bs_buffer bs).
Proof.
  revert bs B. induction l as [|[v n] l IH]; intros bs B Hw Hl Hb.
  { unfold word_bits. simpl. by rewrite app_nil_r. }
  apply Forall_cons_1 in Hl as [[Hn Hv] Hl]. unfold word_bits in Hb. simpl in *.
  rewrite zlen_app, zlen_bits_of in Hb by lia. fold (word_bits l) in Hb.
  assert (bs_position bs = zlen B) by by destruct Hw.
  destruct (writing_bits v n bs B) as (Hw' & Hc & Hz); [done..|zlia|].
  destruct (IH _ _ Hw') as (Hw'' & Hc' & Hz'); [done|rewrite zlen_app, zlen_bits_of; lia|].
  unfold word_bits. simpl. rewrite app_assoc. split_and!; [done|congruence..].
Qed.

Lemma reading_words l bs :
  reading bs → holds bs (word_bits l) → Forall is_word l →
  bs_position bs + zlen (word_bits l) + 32 < 2 ^ 32 →
  read_words (map snd l) bs = map fst l.
Proof.
  revert bs. induction l as [|[v n] l IH]; intros bs Hr Hh Hl Hb; [done|].
  apply Forall_cons_1 in Hl as [[Hn Hv] Hl]. unfold word_bits in Hb, Hh. simpl in *.
  rewrite zlen_app, zlen_bits_of in Hb by lia. fold (word_bits l) in Hb, Hh.
  assert (bs_position bs + 32 < 2 ^ 32) by zlia.
  destruct (reading_shift n bs) as (Hr' & Hp & _); [done..|]. f_equal.
  - rewrite Z.shiftr_div_pow2 by lia. apply (acc_top bs n v _ Hr Hh); lia.
  - apply IH; [done|by apply (holds_shift bs n v)|done|lia].
Qed.

(** The code words a writer flushes are what a reader that attaches to its
    buffer finds. *)
Lemma holds_attach bs B cap bs' :
  writing bs B → zlen B <= 8 * cap → cap <= bs_capacity bs →
  holds (BitStream_Fetch (BitStream_Attach (bs_buffer (BitStream_Flush bs)) cap bs')) B.
Proof.
  intros Hw Hb Hcap i Hi. rewrite <- (writing_flush bs B i) by (done || lia).
  unfold bit. cbn [bs_buffer bs_capacity bs_position BitStream_Fetch BitStream_Prefetch
    BitStream_Attach set_prefetch set_accumulator]. rewrite Z.add_0_l.
  replace (i / 8 <? cap) with true by div_mod_lia.
  by replace (i / 8 <? bs_capacity bs) with true by div_mod_lia.
Qed.

(** * Properties *)

(** The bit stream round trip: code words of 1 to 31 bits, written with
    [BitStream_Write_Bits] and flushed, are read back in order from the top of
    the accumulator, [BitStream_Shift] moving from each to the next, whatever
    the buffer held before and however the words straddle its 32-bit words. *)
Theorem bitstream_roundtrip l buf bs bs' :
  Forall is_word l → bytes buf → zlen (word_bits l) <= 8 * zlen buf →
  zlen (word_bits l) + 32 < 2 ^ 32 →
  let w := BitStream_Flush (write_words l (BitStream_Attach buf (zlen buf) bs)) in
  read_words (map snd l)
    (BitStream_Fetch (BitStream_Attach (bs_buffer w) (zlen buf) bs')) = map fst l.
Proof.
  intros Hl Hb Hz Hmax w.
  destruct (writing_words l (BitStream_Attach buf (zlen buf) bs) []) as (Hw & Hc & _);
    [by apply writing_attach|done|zlia|].
  apply reading_words; [|by apply holds_attach; rewrite ?Hc|done|simpl; lia].
  apply reading_attach. apply flush_frame. by destruct Hw.
Qed.

(** [BitStream_Write_Bits] and [BitStream_Flush] stay within the buffer of
    [capacity] bytes: its size never changes, and the position counts the bits
    even when there is no room for them. *)
Theorem bitstream_write_bounded l buf bs :
  Forall is_word l → bytes buf → zlen (word_bits l) + 32 < 2 ^ 32 →
  let w := BitStream_Flush (write_words l (BitStream_Attach buf (zlen buf) bs)) in
  zlen (bs_buffer w) = zlen buf ∧ bs_position w = zlen (word_bits l) ∧
  0 <= bs_offset w < 32 ∧ bs_position w = 8 * bs_pointer w + bs_offset w.
Proof.
  intros Hl Hb Hmax w.
  destruct (writing_words l (BitStream_Attach buf (zlen buf) bs) []) as ([] & Hc & Hsz);
    [by apply writing_attach|done|zlia|].
  destruct (flush_frame (write_words l (BitStream_Attach buf (zlen buf) bs)))
    as (HP & _ & _ & HN & HO & HZ & _). fold w in HP, HN, HO, HZ.
  rewrite HP, HN, HO, HZ. split_and!; done || lia.
Qed.

(** * Witnesses *)

Lemma bitstream_roundtrip_witness :
  let w := BitStream_Flush (write_words [(5, 3); (1000, 19); (77, 30); (1, 1)]
             (BitStream_Attach (zeros 8) 8 BitStream_New)) in
  bs_position w = 53 ∧
  read_words [3; 19; 30; 1]
    (BitStream_Fetch (BitStream_Attach (bs_buffer w) 8 BitStream_New)) = [5; 1000; 77; 1].
Proof.
  split; [done|].
  apply (bitstream_roundtrip [(5, 3); (1000, 19); (77, 30); (1, 1)] (zeros 8));
    [|apply bytes_zeros|by vm_compute..].
  repeat constructor; by vm_compute.
Defined.

Lemma bitstream_write_bounded_witness :
  let w := BitStream_Flush (write_words [(5, 3); (77, 30)]
             (BitStream_Attach (zeros 2) 2 BitStream_New)) in
  zlen (bs_buffer w) = 2 ∧ bs_position w = 33 ∧ 0 <= bs_offset w < 32 ∧
  bs_position w = 8 * bs_pointer w + bs_offset w.
Proof.
  apply (bitstream_write_bounded [(5, 3); (77, 30)] (zeros 2));
    [|apply bytes_zeros|by vm_compute].
  repeat constructor; by vm_compute.
Defined.
