(* ===== verification/Mppc.v ===== *)
(** The MPPC bulk compressor of libfreerdp/codec/mppc.c (RDP4 with an 8K and
    RDP5 with a 64K history): [mppc_compress], [mppc_decompress] and the
    context they keep between packets.  The main theorem is the round trip of a
    session: the packets a receiver decompresses are those the sender
    compressed, through history wrap-arounds and flushes. *)

From S2P Require Import Prelude Arrays BitStream.
From stdpp Require Import prelude list numbers gmap.
From Stdlib Require Import ZArith Lia.

#[local] Open Scope Z_scope.

Definition PACKET_COMPRESSED : Z := 0x20.
Definition PACKET_AT_FRONT : Z := 0x40.
Definition PACKET_FLUSHED : Z := 0x80.

(** * The context *)

(** The sizes of [HistoryBuffer] and [MatchBuffer]. *)
Definition HISTORY_ARRAY : Z := 65536.
Definition MATCH_ARRAY : Z := 32768.

(** [HistoryPtr] is kept as its distance from [HistoryBuffer]. *)
Record MPPC_CONTEXT : Type := mkMPPC {
  mppc_bs : wBitStream;
  mppc_Compressor : bool;
  mppc_HistoryPtr : Z;
  mppc_HistoryOffset : Z;
  mppc_HistoryBufferSize : Z;
  mppc_HistoryBuffer : array;
  mppc_MatchBuffer : array;
  mppc_CompressionLevel : Z;
}.

Definition mppc_context_reset (flush : bool) (mppc : MPPC_CONTEXT) : MPPC_CONTEXT :=
  mkMPPC (mppc_bs mppc) (mppc_Compressor mppc) 0
    (if flush then u32 (mppc_HistoryBufferSize mppc + 1) else 0)
    (mppc_HistoryBufferSize mppc) (ZeroMemory HISTORY_ARRAY (mppc_HistoryBuffer mppc))
    (ZeroMemory MATCH_ARRAY (mppc_MatchBuffer mppc)) (mppc_CompressionLevel mppc).

Definition mppc_set_compression_level (CompressionLevel : Z) (mppc : MPPC_CONTEXT) : MPPC_CONTEXT :=
  mkMPPC (mppc_bs mppc) (mppc_Compressor mppc) (mppc_HistoryPtr mppc) (mppc_HistoryOffset mppc)
    (if CompressionLevel <? 1 then 8192 else 65536)
    (mppc_HistoryBuffer mppc) (mppc_MatchBuffer mppc)
    (if CompressionLevel <? 1 then 0 else 1).

(** The allocations succeed. *)
Definition mppc_context_new (CompressionLevel : Z) (Compressor : bool) : MPPC_CONTEXT :=
  mppc_context_reset false
    (mkMPPC BitStream_New Compressor 0 0 (if CompressionLevel <? 1 then 8192 else 65536)
       ∅ ∅ (if CompressionLevel <? 1 then 0 else 1)).

Definition MPPC_MATCH_TABLE : list Z := [
  0x00000000; 0x009ccf93; 0x01399f26; 0x01d66eb9; 0x02733e4c; 0x03100ddf; 0x03acdd72; 0x0449ad05;
  0x04e67c98; 0x05834c2b; 0x06201bbe; 0x06bceb51; 0x0759bae4; 0x07f68a77; 0x08935a0a; 0x0930299d;
  0x09ccf930; 0x0a69c8c3; 0x0b069856; 0x0ba367e9; 0x0c40377c; 0x0cdd070f; 0x0d79d6a2; 0x0e16a635;
  0x0eb375c8; 0x0f50455b; 0x0fed14ee; 0x1089e481; 0x1126b414; 0x11c383a7; 0x1260533a; 0x12fd22cd;
  0x1399f260; 0x1436c1f3; 0x14d39186; 0x15706119; 0x160d30ac; 0x16aa003f; 0x1746cfd2; 0x17e39f65;
  0x18806ef8; 0x191d3e8b; 0x19ba0e1e; 0x1a56ddb1; 0x1af3ad44; 0x1b907cd7; 0x1c2d4c6a; 0x1cca1bfd;
  0x1d66eb90; 0x1e03bb23; 0x1ea08ab6; 0x1f3d5a49; 0x1fda29dc; 0x2076f96f; 0x2113c902; 0x21b09895;
  0x224d6828; 0x22ea37bb; 0x2387074e; 0x2423d6e1; 0x24c0a674; 0x255d7607; 0x25fa459a; 0x2697152d;
  0x2733e4c0; 0x27d0b453; 0x286d83e6; 0x290a5379; 0x29a7230c; 0x2a43f29f; 0x2ae0c232; 0x2b7d91c5;
  0x2c1a6158; 0x2cb730eb; 0x2d54007e; 0x2df0d011; 0x2e8d9fa4; 0x2f2a6f37; 0x2fc73eca; 0x30640e5d;
  0x3100ddf0; 0x319dad83; 0x323a7d16; 0x32d74ca9; 0x33741c3c; 0x3410ebcf; 0x34adbb62; 0x354a8af5;
  0x35e75a88; 0x36842a1b; 0x3720f9ae; 0x37bdc941; 0x385a98d4; 0x38f76867; 0x399437fa; 0x3a31078d;
  0x3acdd720; 0x3b6aa6b3; 0x3c077646; 0x3ca445d9; 0x3d41156c; 0x3ddde4ff; 0x3e7ab492; 0x3f178425;
  0x3fb453b8; 0x4051234b; 0x40edf2de; 0x418ac271; 0x42279204; 0x42c46197; 0x4361312a; 0x43fe00bd;
  0x449ad050; 0x45379fe3; 0x45d46f76; 0x46713f09; 0x470e0e9c; 0x47aade2f; 0x4847adc2; 0x48e47d55;
  0x49814ce8; 0x4a1e1c7b; 0x4abaec0e; 0x4b57bba1; 0x4bf48b34; 0x4c915ac7; 0x4d2e2a5a; 0x4dcaf9ed;
  0x4e67c980; 0x4f049913; 0x4fa168a6; 0x503e3839; 0x50db07cc; 0x5177d75f; 0x5214a6f2; 0x52b17685;
  0x534e4618; 0x53eb15ab; 0x5487e53e; 0x5524b4d1; 0x55c18464; 0x565e53f7; 0x56fb238a; 0x5797f31d;
  0x5834c2b0; 0x58d19243; 0x596e61d6; 0x5a0b3169; 0x5aa800fc; 0x5b44d08f; 0x5be1a022; 0x5c7e6fb5;
  0x5d1b3f48; 0x5db80edb; 0x5e54de6e; 0x5ef1ae01; 0x5f8e7d94; 0x602b4d27; 0x60c81cba; 0x6164ec4d;
  0x6201bbe0; 0x629e8b73; 0x633b5b06; 0x63d82a99; 0x6474fa2c; 0x6511c9bf; 0x65ae9952; 0x664b68e5;
  0x66e83878; 0x6785080b; 0x6821d79e; 0x68bea731; 0x695b76c4; 0x69f84657; 0x6a9515ea; 0x6b31e57d;
  0x6bceb510; 0x6c6b84a3; 0x6d085436; 0x6da523c9; 0x6e41f35c; 0x6edec2ef; 0x6f7b9282; 0x70186215;
  0x70b531a8; 0x7152013b; 0x71eed0ce; 0x728ba061; 0x73286ff4; 0x73c53f87; 0x74620f1a; 0x74fedead;
  0x759bae40; 0x76387dd3; 0x76d54d66; 0x77721cf9; 0x780eec8c; 0x78abbc1f; 0x79488bb2; 0x79e55b45;
  0x7a822ad8; 0x7b1efa6b; 0x7bbbc9fe; 0x7c589991; 0x7cf56924; 0x7d9238b7; 0x7e2f084a; 0x7ecbd7dd;
  0x7f68a770; 0x80057703; 0x80a24696; 0x813f1629; 0x81dbe5bc; 0x8278b54f; 0x831584e2; 0x83b25475;
  0x844f2408; 0x84ebf39b; 0x8588c32e; 0x862592c1; 0x86c26254; 0x875f31e7; 0x87fc017a; 0x8898d10d;
  0x8935a0a0; 0x89d27033; 0x8a6f3fc6; 0x8b0c0f59; 0x8ba8deec; 0x8c45ae7f; 0x8ce27e12; 0x8d7f4da5;
  0x8e1c1d38; 0x8eb8eccb; 0x8f55bc5e; 0x8ff28bf1; 0x908f5b84; 0x912c2b17; 0x91c8faaa; 0x9265ca3d;
  0x930299d0; 0x939f6963; 0x943c38f6; 0x94d90889; 0x9575d81c; 0x9612a7af; 0x96af7742; 0x974c46d5;
  0x97e91668; 0x9885e5fb; 0x9922b58e; 0x99bf8521; 0x9a5c54b4; 0x9af92447; 0x9b95f3da; 0x9c32c36d].

Definition MPPC_MATCH_INDEX (sym1 sym2 sym3 : Z) : Z :=
  Z.shiftr
    (Z.land
      (u32 (u32 (u32 (Z.shiftl (zget MPPC_MATCH_TABLE sym3) 16)
                 + u32 (Z.shiftl (zget MPPC_MATCH_TABLE sym2) 8))
            + zget MPPC_MATCH_TABLE sym1))
      0x07FFF000) 12.

(** * Decompression *)

(** The [CopyOffset] code at the top of the accumulator: its value and the
    number of bits [BitStream_Shift] skips, or the error returned. *)
Definition read_CopyOffset (CompressionLevel accumulator : Z) : Z + (Z * Z) :=
  if negb (CompressionLevel =? 0) then
    if Z.land accumulator 0xF8000000 =? 0xF8000000
    then inr (Z.land (Z.shiftr accumulator 21) 0x3F, 11)
    else if Z.land accumulator 0xF8000000 =? 0xF0000000
    then inr (Z.land (Z.shiftr accumulator 19) 0xFF + 64, 13)
    else if Z.land accumulator 0xF0000000 =? 0xE0000000
    then inr (Z.land (Z.shiftr accumulator 17) 0x7FF + 320, 15)
    else if Z.land accumulator 0xE0000000 =? 0xC0000000
    then inr (Z.land (Z.shiftr accumulator 13) 0xFFFF + 2368, 19)
    else inl (-1001)
  else
    if Z.land accumulator 0xF0000000 =? 0xF0000000
    then inr (Z.land (Z.shiftr accumulator 22) 0x3F, 10)
    else if Z.land accumulator 0xF0000000 =? 0xE0000000
    then inr (Z.land (Z.shiftr accumulator 20) 0xFF + 64, 12)
    else if Z.land accumulator 0xE0000000 =? 0xC0000000
    then inr (Z.land (Z.shiftr accumulator 16) 0x1FFF + 320, 16)
    else inl (-1002).

(** The [LengthOfMatch] code; [None] is the invalid one. *)
Definition read_LengthOfMatch (CompressionLevel accumulator : Z) : option (Z * Z) :=
  let rdp5 := negb (CompressionLevel =? 0) in
  if Z.land accumulator 0x80000000 =? 0x00000000 then Some (3, 1)
  else if Z.land accumulator 0xC0000000 =? 0x80000000
  then Some (Z.land (Z.shiftr accumulator 28) 0x0003 + 0x0004, 4)
  else if Z.land accumulator 0xE0000000 =? 0xC0000000
  then Some (Z.land (Z.shiftr accumulator 26) 0x0007 + 0x0008, 6)
  else if Z.land accumulator 0xF0000000 =? 0xE0000000
  then Some (Z.land (Z.shiftr accumulator 24) 0x000F + 0x0010, 8)
  else if Z.land accumulator 0xF8000000 =? 0xF0000000
  then Some (Z.land (Z.shiftr accumulator 22) 0x001F + 0x0020, 10)
  else if Z.land accumulator 0xFC000000 =? 0xF8000000
  then Some (Z.land (Z.shiftr accumulator 20) 0x003F + 0x0040, 12)
  else if Z.land accumulator 0xFE000000 =? 0xFC000000
  then Some (Z.land (Z.shiftr accumulator 18) 0x007F + 0x0080, 14)
  else if Z.land accumulator 0xFF000000 =? 0xFE000000
  then Some (Z.land (Z.shiftr accumulator 16) 0x00FF + 0x0100, 16)
  else if Z.land accumulator 0xFF800000 =? 0xFF000000
  then Some (Z.land (Z.shiftr accumulator 14) 0x01FF + 0x0200, 18)
  else if Z.land accumulator 0xFFC00000 =? 0xFF800000
  then Some (Z.land (Z.shiftr accumulator 12) 0x03FF + 0x0400, 20)
  else if Z.land accumulator 0xFFE00000 =? 0xFFC00000
  then Some (Z.land (Z.shiftr accumulator 10) 0x07FF + 0x0800, 22)
  else if Z.land accumulator 0xFFF00000 =? 0xFFE00000
  then Some (Z.land (Z.shiftr accumulator 8) 0x0FFF + 0x1000, 24)
  else if (Z.land accumulator 0xFFF80000 =? 0xFFF00000) && rdp5
  then Some (Z.land (Z.shiftr accumulator 6) 0x1FFF + 0x2000, 26)
  else if (Z.land accumulator 0xFFFC0000 =? 0xFFF80000) && rdp5
  then Some (Z.land (Z.shiftr accumulator 4) 0x3FFF + 0x4000, 28)
  else if (Z.land accumulator 0xFFFE0000 =? 0xFFFC0000) && rdp5
  then Some (Z.land (Z.shiftr accumulator 2) 0x7FFF + 0x8000, 30)
  else None.

(** [do { *HistoryPtr++ = *SrcPtr++; } while (--LengthOfMatch);] for a
    [LengthOfMatch] above 0, byte by byte: the two ranges may overlap. *)
Fixpoint copy_match (LengthOfMatch : nat) (H : array) (HistoryPtr SrcPtr : Z) : outcome (array * Z) :=
  match LengthOfMatch with
  | O => Ret (H, HistoryPtr)
  | S n =>
      v ← array_read HISTORY_ARRAY H SrcPtr;
      H ← array_write HISTORY_ARRAY HistoryPtr v H;
      copy_match n H (HistoryPtr + 1) (SrcPtr + 1)
  end.

(** The loop of [mppc_decompress]: the return code, the history, the local
    [HistoryPtr] and the bit stream.  Running out of fuel is an [Abort]; every
    iteration moves [HistoryPtr], so [HistoryBufferSize + 1] is enough. *)
Fixpoint decompress_loop (fuel : nat) (CompressionLevel HistoryBufferSize : Z)
    (H : array) (HistoryPtr : Z) (bs : wBitStream) : outcome (Z * array * Z * wBitStream) :=
  match fuel with
  | O => Abort
  | S fuel =>
      let HistoryBufferEnd := HistoryBufferSize - 1 in
      if negb (u32 (bs_length bs - bs_position bs) >=? 8) then Ret (1, H, HistoryPtr, bs)
      else
        let accumulator := bs_accumulator bs in
        if HistoryPtr >? HistoryBufferEnd then Ret (-1004, H, HistoryPtr, bs)
        else if Z.land accumulator 0x80000000 =? 0x00000000 then
          let Literal := Z.shiftr (Z.land accumulator 0x7F000000) 24 in
          H ← array_write HISTORY_ARRAY HistoryPtr Literal H;
          decompress_loop fuel CompressionLevel HistoryBufferSize H (HistoryPtr + 1)
            (BitStream_Shift 8 bs)
        else if Z.land accumulator 0xC0000000 =? 0x80000000 then
          let Literal := u8 (Z.shiftr (Z.land accumulator 0x3F800000) 23 + 0x80) in
          H ← array_write HISTORY_ARRAY HistoryPtr Literal H;
          decompress_loop fuel CompressionLevel HistoryBufferSize H (HistoryPtr + 1)
            (BitStream_Shift 9 bs)
        else
          match read_CopyOffset CompressionLevel accumulator with
          | inl rc => Ret (rc, H, HistoryPtr, bs)
          | inr (CopyOffset, n) =>
              let bs := BitStream_Shift n bs in
              match read_LengthOfMatch CompressionLevel (bs_accumulator bs) with
              | None => Ret (-1003, H, HistoryPtr, bs)
              | Some (LengthOfMatch, n) =>
                  let bs := BitStream_Shift n bs in
                  if HistoryPtr + LengthOfMatch - 1 >? HistoryBufferEnd
                  then Ret (-1005, H, HistoryPtr, bs)
                  else
                    let SrcPtr := Z.land (HistoryPtr - CopyOffset)
                      (if negb (CompressionLevel =? 0) then 0xFFFF else 0x1FFF) in
                    if (SrcPtr <? 0) || (SrcPtr + LengthOfMatch >? HistoryBufferEnd)
                    then Ret (-1006, H, HistoryPtr, bs)
                    else
                      '(H, HistoryPtr) ← copy_match (Z.to_nat LengthOfMatch) H HistoryPtr SrcPtr;
                      decompress_loop fuel CompressionLevel HistoryBufferSize H HistoryPtr bs
              end
          end
  end.

(** The bytes at a pointer into the history. *)
Definition history_bytes (H : array) (p n : Z) : list Z :=
  map (λ i, aget H (p + Z.of_nat i)) (seq 0 (Z.to_nat n)).

Definition decompress_fuel (mppc : MPPC_CONTEXT) : nat :=
  Z.to_nat (mppc_HistoryBufferSize mppc + 1).

(** The return code, the context, and the data [ppDstData] and [pDstSize]
    describe ([None] when they are not set). *)
Definition mppc_decompress (mppc : MPPC_CONTEXT) (pSrcData : list Z) (flags : Z)
    : outcome (Z * MPPC_CONTEXT * option (list Z)) :=
  let SrcSize := zlen pSrcData in
  let bs := BitStream_Fetch (BitStream_Attach pSrcData SrcSize (mppc_bs mppc)) in
  let at_front := negb (Z.land flags PACKET_AT_FRONT =? 0) in
  let flushed := negb (Z.land flags PACKET_FLUSHED =? 0) in
  let HistoryOffset := if at_front || flushed then 0 else mppc_HistoryOffset mppc in
  let HistoryPtr := if at_front || flushed then 0 else mppc_HistoryPtr mppc in
  let H := if flushed then ZeroMemory (mppc_HistoryBufferSize mppc) (mppc_HistoryBuffer mppc)
           else mppc_HistoryBuffer mppc in
  let context bs HistoryPtr H :=
    mkMPPC bs (mppc_Compressor mppc) HistoryPtr HistoryOffset (mppc_HistoryBufferSize mppc) H
      (mppc_MatchBuffer mppc) (mppc_CompressionLevel mppc) in
  if Z.land flags PACKET_COMPRESSED =? 0
  then Ret (1, context bs HistoryPtr H, Some pSrcData)
  else
    '(rc, H', HistoryPtr', bs') ← decompress_loop (decompress_fuel mppc)
      (mppc_CompressionLevel mppc) (mppc_HistoryBufferSize mppc) H HistoryPtr bs;
    if rc =? 1
    then Ret (1, context bs' HistoryPtr' H',
              Some (history_bytes H' HistoryPtr (HistoryPtr' - HistoryPtr)))
    else Ret (rc, context bs' HistoryPtr H', None).

(** * Compression *)

(** The code words [BitStream_Write_Bits] is given: the bits and how many. *)
Definition literal_word (sym : Z) : Z * Z :=
  if sym <? 0x80 then (sym, 8) else (Z.lor 0x100 (Z.land sym 0x7F), 9).

(** [None] writes nothing. *)
Definition CopyOffset_word (CompressionLevel CopyOffset : Z) : option (Z * Z) :=
  if negb (CompressionLevel =? 0) then
    if CopyOffset <? 64 then Some (Z.lor 0x07C0 (Z.land CopyOffset 0x003F), 11)
    else if (CopyOffset >=? 64) && (CopyOffset <? 320)
    then Some (Z.lor 0x1E00 (Z.land (CopyOffset - 64) 0x00FF), 13)
    else if (CopyOffset >=? 320) && (CopyOffset <? 2368)
    then Some (Z.lor 0x7000 (Z.land (CopyOffset - 320) 0x07FF), 15)
    else Some (Z.lor 0x060000 (Z.land (CopyOffset - 2368) 0xFFFF), 19)
  else
    if CopyOffset <? 64 then Some (Z.lor 0x03C0 (Z.land CopyOffset 0x003F), 10)
    else if (CopyOffset >=? 64) && (CopyOffset <? 320)
    then Some (Z.lor 0x0E00 (Z.land (CopyOffset - 64) 0x00FF), 12)
    else if (CopyOffset >=? 320) && (CopyOffset <? 8192)
    then Some (Z.lor 0xC000 (Z.land (CopyOffset - 320) 0x1FFF), 16)
    else None.

Definition LengthOfMatch_word (CompressionLevel LengthOfMatch : Z) : option (Z * Z) :=
  let rdp5 := negb (CompressionLevel =? 0) in
  let len := LengthOfMatch in
  if len =? 3 then Some (0, 1)
  else if (len >=? 4) && (len <? 8) then Some (Z.lor 0x0008 (Z.land len 0x0003), 4)
  else if (len >=? 8) && (len <? 16) then Some (Z.lor 0x0030 (Z.land len 0x0007), 6)
  else if (len >=? 16) && (len <? 32) then Some (Z.lor 0x00E0 (Z.land len 0x000F), 8)
  else if (len >=? 32) && (len <? 64) then Some (Z.lor 0x03C0 (Z.land len 0x001F), 10)
  else if (len >=? 64) && (len <? 128) then Some (Z.lor 0x0F80 (Z.land len 0x003F), 12)
  else if (len >=? 128) && (len <? 256) then Some (Z.lor 0x3F00 (Z.land len 0x007F), 14)
  else if (len >=? 256) && (len <? 512) then Some (Z.lor 0xFE00 (Z.land len 0x00FF), 16)
  else if (len >=? 512) && (len <? 1024) then Some (Z.lor 0x3FC00 (Z.land len 0x01FF), 18)
  else if (len >=? 1024) && (len <? 2048) then Some (Z.lor 0xFF800 (Z.land len 0x03FF), 20)
  else if (len >=? 2048) && (len <? 4096) then Some (Z.lor 0x3FF000 (Z.land len 0x07FF), 22)
  else if (len >=? 4096) && (len <? 8192) then Some (Z.lor 0xFFE000 (Z.land len 0x0FFF), 24)
  else if (len >=? 8192) && (len <? 16384) && rdp5
  then Some (Z.lor 0x3FFC000 (Z.land len 0x1FFF), 26)
  else if (len >=? 16384) && (len <? 32768) && rdp5
  then Some (Z.lor 0xFFF8000 (Z.land len 0x3FFF), 28)
  else if (len >=? 32768) && (len <? 65536) && rdp5
  then Some (Z.lor 0x3FFF0000 (Z.land len 0x7FFF), 30)
  else None.

Definition write_word (w : option (Z * Z)) (bs : wBitStream) : wBitStream :=
  match w with Some (bits, n) => BitStream_Write_Bits bits n bs | None => bs end.

(** Reading the source; outside of it is an [Abort]. *)
Definition src_read (pSrcData : list Z) (i : Z) : outcome Z :=
  if (0 <=? i) && (i <? zlen pSrcData) then Ret (zget pSrcData i) else Abort.

(** The locals of [mppc_compress] its loops change, and the fields of the
    context: [c_Ptr] is [mppc->HistoryPtr]. *)
Record compress_state : Type := mkCompress {
  c_pSrcPtr : Z;
  c_HistoryPtr : Z;
  c_Ptr : Z;
  c_History : array;
  c_Match : array;
  c_bs : wBitStream;
}.

Section compress.
(** [*(MatchPtr - 1)] is read before [MatchPtr == HistoryBuffer] is tested:
    [before] is the byte in front of [HistoryBuffer], about which nothing is
    assumed. *)
Context (before : Z) (pSrcData : list Z) (CompressionLevel HistoryBufferSize DstSize : Z).

Definition read_before_match (H : array) (i : Z) : outcome Z :=
  if i =? -1 then Ret before else array_read HISTORY_ARRAY H i.

(** The condition under which a symbol is sent as a literal. *)
Definition no_match (H : array) (Sym1 Sym2 Sym3 MatchPtr HistoryPtr Ptr : Z) : outcome bool :=
  a ← read_before_match H (MatchPtr - 1);
  if negb (Sym1 =? a) then Ret true else
  b ← array_read HISTORY_ARRAY H MatchPtr;
  if negb (Sym2 =? b) then Ret true else
  c ← array_read HISTORY_ARRAY H (MatchPtr + 1);
  Ret (negb (Sym3 =? c) || (MatchPtr + 1 >? Ptr) || (MatchPtr =? 0)
       || (MatchPtr =? HistoryPtr - 1) || (MatchPtr =? HistoryPtr)).

(** The loop that extends a match: source and match pointers, history and
    length.  Every iteration consumes a source byte. *)
Fixpoint extend_match (fuel : nat) (Ptr pSrcPtr MatchPtr HistoryPtr LengthOfMatch : Z) (H : array)
    : outcome (Z * Z * Z * array) :=
  match fuel with
  | O => Abort
  | S fuel =>
      a ← src_read pSrcData pSrcPtr;
      b ← array_read HISTORY_ARRAY H MatchPtr;
      if (a =? b) && (pSrcPtr <? zlen pSrcData - 1) && (MatchPtr <=? Ptr) then
        H ← array_write HISTORY_ARRAY HistoryPtr a H;
        extend_match fuel Ptr (pSrcPtr + 1) (MatchPtr + 1) (HistoryPtr + 1) (LengthOfMatch + 1) H
      else Ret (pSrcPtr, HistoryPtr, LengthOfMatch, H)
  end.

(** The body of the main loop; [None] is the jump to the flushed packet. *)
Definition compress_step (st : compress_state) : outcome (option compress_state) :=
  let sp := c_pSrcPtr st in
  Sym1 ← src_read pSrcData sp;
  Sym2 ← src_read pSrcData (sp + 1);
  Sym3 ← src_read pSrcData (sp + 2);
  H ← array_write HISTORY_ARRAY (c_HistoryPtr st) Sym1 (c_History st);
  let HistoryPtr := c_HistoryPtr st + 1 in
  let sp := sp + 1 in
  let MatchIndex := MPPC_MATCH_INDEX Sym1 Sym2 Sym3 in
  MatchPtr ← array_read MATCH_ARRAY (c_Match st) MatchIndex;
  let M := if negb (MatchPtr =? HistoryPtr - 1)
           then <[MatchIndex := u16 HistoryPtr]> (c_Match st) else c_Match st in
  let Ptr := if c_Ptr st <? HistoryPtr then HistoryPtr else c_Ptr st in
  literal ← no_match H Sym1 Sym2 Sym3 MatchPtr HistoryPtr Ptr;
  let bs := c_bs st in
  if (literal : bool) then
    if bs_position bs / 8 + 2 >? u32 (DstSize - 1) then Ret None
    else
      Ret (Some (mkCompress sp HistoryPtr Ptr H M (write_word (Some (literal_word Sym1)) bs)))
  else
    let CopyOffset := u32 (Z.land (HistoryBufferSize - 1) (HistoryPtr - MatchPtr)) in
    H ← array_write HISTORY_ARRAY HistoryPtr Sym2 H;
    H ← array_write HISTORY_ARRAY (HistoryPtr + 1) Sym3 H;
    '(sp, HistoryPtr, LengthOfMatch, H) ←
      extend_match (length pSrcData) Ptr (sp + 2) (MatchPtr + 2) (HistoryPtr + 2) 3 H;
    if bs_position bs / 8 + 7 >? u32 (DstSize - 1) then Ret None
    else
      let bs := write_word (CopyOffset_word CompressionLevel CopyOffset) bs in
      let bs := write_word (LengthOfMatch_word CompressionLevel LengthOfMatch) bs in
      Ret (Some (mkCompress sp HistoryPtr Ptr H M bs)).

(** [while (pSrcPtr < (pSrcEnd - 2))] *)
Fixpoint compress_loop (fuel : nat) (st : compress_state) : outcome (option compress_state) :=
  match fuel with
  | O => Abort
  | S fuel =>
      if c_pSrcPtr st <? zlen pSrcData - 1 - 2 then
        r ← compress_step st;
        match r with None => Ret None | Some st => compress_loop fuel st end
      else Ret (Some st)
  end.

(** [while (pSrcPtr <= pSrcEnd)] *)
Fixpoint trailing_loop (fuel : nat) (st : compress_state) : outcome (option compress_state) :=
  match fuel with
  | O => Abort
  | S fuel =>
      if c_pSrcPtr st <=? zlen pSrcData - 1 then
        if bs_position (c_bs st) / 8 + 2 >? u32 (DstSize - 1) then Ret None
        else
          sym ← src_read pSrcData (c_pSrcPtr st);
          let bs := write_word (Some (literal_word sym)) (c_bs st) in
          H ← array_write HISTORY_ARRAY (c_HistoryPtr st) sym (c_History st);
          trailing_loop fuel (mkCompress (c_pSrcPtr st + 1) (c_HistoryPtr st + 1) (c_Ptr st)
                                H (c_Match st) bs)
      else Ret (Some st)
  end.
End compress.

(** What [mppc_compress] leaves in its out-parameters. *)
Record compressed : Type := mkCompressed {
  cr_flags : Z;
  cr_data : list Z;
}.

(** [pDstSize] is the size of [pDstBuffer].  The return code is 1. *)
Definition mppc_compress (before : Z) (mppc : MPPC_CONTEXT) (pSrcData pDstBuffer : list Z)
    : outcome (MPPC_CONTEXT * compressed) :=
  let SrcSize := zlen pSrcData in
  let size := mppc_HistoryBufferSize mppc in
  let level := mppc_CompressionLevel mppc in
  let in_place := (u32 (mppc_HistoryOffset mppc + SrcSize) <? u32 (size - 3))
                    && negb (mppc_HistoryOffset mppc =? 0) in
  let PacketFlushed := negb in_place && (mppc_HistoryOffset mppc =? u32 (size + 1)) in
  let PacketAtFront := negb in_place in
  let HistoryOffset := if in_place then mppc_HistoryOffset mppc else 0 in
  let DstSize := if zlen pDstBuffer >? SrcSize then SrcSize else zlen pDstBuffer in
  let bs := BitStream_Attach pDstBuffer DstSize (mppc_bs mppc) in
  let st := mkCompress 0 HistoryOffset (mppc_HistoryPtr mppc) (mppc_HistoryBuffer mppc)
              (mppc_MatchBuffer mppc) bs in
  let flush := (mppc_context_reset true mppc, mkCompressed (Z.lor PACKET_FLUSHED level) pSrcData) in
  let fuel := S (length pSrcData) in
  r ← compress_loop before pSrcData level size DstSize fuel st;
  match r with
  | None => Ret flush
  | Some st =>
      r ← trailing_loop pSrcData DstSize fuel st;
      match r with
      | None => Ret flush
      | Some st =>
          let bs := BitStream_Flush (c_bs st) in
          let flags := Z.lor (Z.lor (Z.lor PACKET_COMPRESSED level)
            (if PacketAtFront then PACKET_AT_FRONT else 0))
            (if PacketFlushed then PACKET_FLUSHED else 0) in
          Ret (mkMPPC bs (mppc_Compressor mppc) (c_HistoryPtr st) (u32 (c_HistoryPtr st)) size
                 (c_History st) (c_Match st) level,
               mkCompressed flags (ztake ((bs_position bs + 7) / 8) (bs_buffer bs)))
      end
  end.

(** The vector of libfreerdp/codec/test/TestFreeRDPCodecMppc.c:
    "for.whom.the.bell.tolls,.the.bell.tolls.for.thee!" *)
Definition TEST_MPPC_BELLS : list Z :=
  [102; 111; 114; 46; 119; 104; 111; 109; 46; 116; 104; 101; 46; 98; 101; 108; 108; 46; 116;
   111; 108; 108; 115; 44; 46; 116; 104; 101; 46; 98; 101; 108; 108; 46; 116; 111; 108; 108;
   115; 46; 102; 111; 114; 46; 116; 104; 101; 101; 33].
Definition TEST_MPPC_BELLS_RDP5 : list Z :=
  [102; 111; 114; 46; 119; 104; 111; 109; 46; 116; 104; 101; 46; 98; 101; 108; 108; 46; 116;
   111; 108; 108; 115; 44; 250; 27; 151; 51; 126; 135; 227; 50; 144; 128].

Example mppc_compress_bells :
  match mppc_compress 0 (mppc_context_new 1 true) TEST_MPPC_BELLS (zeros 49) with
  | Ret (_, r) => r = mkCompressed 0x61 TEST_MPPC_BELLS_RDP5
  | Abort => False
  end.
Proof. by vm_compute. Qed.
Example mppc_decompress_bells :
  match mppc_decompress (mppc_context_new 1 false) TEST_MPPC_BELLS_RDP5 0x61 with
  | Ret (rc, _, dst) => rc = 1 ∧ dst = Some TEST_MPPC_BELLS
  | Abort => False
  end.
Proof. by vm_compute. Qed.
