(* ===== verification/MppcCorrect.v ===== *)
(** Correctness of the MPPC compressor of [Mppc]: the code words, the tokens
    a packet is made of, the decoder on any input, and the round trip of
    packets and sessions. *)

From S2P Require Import Prelude Arrays BitStream Mppc.
From stdpp Require Import prelude list numbers gmap.
From Stdlib Require Import ZArith Lia.

#[local] Open Scope Z_scope.

(** * Code words *)

(** A mask of the high bits. *)
Lemma land_top a k :
  0 <= a < 2 ^ 32 → 0 <= k <= 32 → Z.land a (2 ^ 32 - 2 ^ k) = a / 2 ^ k * 2 ^ k.
Proof.
  intros Ha Hk. replace (2 ^ 32 - 2 ^ k) with ((2 ^ (32 - k) - 1) * 2 ^ k); cycle 1.
  { rewrite Z.mul_sub_distr_r, <- Z.pow_add_r by lia. f_equal; [f_equal|]; lia. }
  rewrite land_field by lia. rewrite Z.mod_small; [done|].
  split; [apply Z.div_pos; lia|]. apply Z.div_lt_upper_bound; [lia|].
  rewrite <- Z.pow_add_r by lia. replace (k + (32 - k)) with 32 by lia. lia.
Qed.

(** A prefix of ones and the low bits of a value. *)
Lemma lor_prefix c v n :
  0 <= n → c mod 2 ^ n = 0 → Z.lor c (Z.land v (2 ^ n - 1)) = c + v mod 2 ^ n.
Proof.
  intros Hn Hc. rewrite land_mask by lia. apply (lor_disjoint _ _ n); [done..|].
  apply Z.mod_pos_bound. lia.
Qed.

Lemma lor_prefix_range c v m n mask :
  mask = 2 ^ m - 1 → 0 <= m → 0 <= c → c mod 2 ^ m = 0 → c + 2 ^ m <= 2 ^ n →
  0 <= Z.lor c (Z.land v mask) < 2 ^ n.
Proof.
  intros -> Hm Hc Hc' Hn. rewrite lor_prefix by done.
  pose proof (Z.mod_pos_bound v (2 ^ m) ltac:(lia)). lia.
Qed.

(** A code of [n] bits at the top of the accumulator: the prefix [c] and [m]
    bits of [y].  The masks that only cover the prefix see the prefix. *)
Lemma code_mask a n m c y mask k top :
  0 <= a < 2 ^ 32 → mask = 2 ^ m - 1 → top = 2 ^ 32 - 2 ^ k →
  a / 2 ^ (32 - n) = Z.lor c (Z.land y mask) →
  0 <= m <= n → n <= 32 → c mod 2 ^ m = 0 → 32 - n + m <= k <= 32 →
  Z.land a top = c / 2 ^ (k - (32 - n)) * 2 ^ k.
Proof.
  intros Ha -> -> Hv Hm Hn Hc Hk. rewrite lor_prefix in Hv by lia.
  rewrite land_top by lia. f_equal.
  replace (2 ^ k) with (2 ^ (32 - n) * 2 ^ (k - (32 - n)))
    by (rewrite <- Z.pow_add_r by lia; f_equal; lia).
  rewrite <- Z.div_div, Hv by lia.
  replace (2 ^ (k - (32 - n))) with (2 ^ m * 2 ^ (k - (32 - n) - m))
    by (rewrite <- Z.pow_add_r by lia; f_equal; lia).
  rewrite <- !Z.div_div by lia. f_equal.
  pose proof (Z.mod_pos_bound y (2 ^ m) ltac:(lia)).
  apply Z.div_exact in Hc; [|lia]. rewrite Hc at 1.
  rewrite Z.mul_comm, Z.div_add_l, (Z.div_small (y mod _)) by lia. lia.
Qed.

Lemma code_payload a n m c y mask sh :
  sh = 32 - n → mask = 2 ^ m - 1 → a / 2 ^ (32 - n) = Z.lor c (Z.land y mask) →
  0 <= m <= n → n <= 32 → c mod 2 ^ m = 0 →
  Z.land (Z.shiftr a sh) mask = y mod (mask + 1).
Proof.
  intros -> -> Hv Hm Hn Hc. rewrite Z.sub_add. rewrite lor_prefix in Hv by lia.
  rewrite land_mask, Z.shiftr_div_pow2, Hv by lia.
  rewrite <- Z.add_mod_idemp_l, Hc by lia. rewrite Z.add_0_l. apply Z.mod_mod. lia.
Qed.

(** A longer mask does not match a pattern with another prefix. *)
Lemma code_mask_ne a n m c y mask k top t :
  0 <= a < 2 ^ 32 → mask = 2 ^ m - 1 → top = 2 ^ 32 - 2 ^ k →
  a / 2 ^ (32 - n) = Z.lor c (Z.land y mask) →
  0 <= m <= n → n <= 32 → c mod 2 ^ m = 0 → 0 <= k <= 32 - n + m →
  (t / 2 ^ (32 - n + m) =? c / 2 ^ m) = false →
  (Z.land a top =? t) = false.
Proof.
  intros Ha Hmask -> Hv Hm Hn Hc Hk Ht. apply Z.eqb_neq in Ht. apply Z.eqb_neq.
  intros <-. apply Ht. clear Ht. rewrite land_top by lia.
  replace (2 ^ (32 - n + m)) with (2 ^ k * 2 ^ (32 - n + m - k))
    by (rewrite <- Z.pow_add_r by lia; f_equal; lia).
  rewrite <- Z.div_div, Z.div_mul, Z.div_div, <- Z.pow_add_r by lia.
  replace (k + (32 - n + m - k)) with (32 - n + m) by lia.
  rewrite Z.pow_add_r, <- Z.div_div, Hv by lia. subst mask. rewrite lor_prefix by lia.
  pose proof (Z.mod_pos_bound y (2 ^ m) ltac:(lia)).
  apply Z.div_exact in Hc; [|lia]. rewrite Hc at 1.
  rewrite Z.mul_comm, Z.div_add_l, (Z.div_small (y mod _)) by lia. lia.
Qed.

(** Decides the tests of a decoder on such a code, one after the other. *)
Lemma if_test {A} (b b' : bool) (x y z : A) :
  b = b' → (if b' then x else y) = z → (if b then x else y) = z.
Proof. by intros ->. Qed.

Ltac decode_test Ha Hv n m c y mask :=
  match goal with
  | |- (if ?b then _ else _) = _ =>
    lazymatch b with context [Z.land ?a ?top =? ?t] =>
      let k := eval vm_compute in (Z.log2 (0x100000000 - top)) in
      let ne := eval vm_compute in
        ((k <=? 32 - n + m) && negb (t / 2 ^ (32 - n + m) =? c / 2 ^ m)) in
      lazymatch ne with
      | true => apply (if_test _ false);
          [by rewrite (code_mask_ne a n m c y mask k top t Ha ltac:(by vm_compute)
             ltac:(by vm_compute) Hv ltac:(lia) ltac:(lia) ltac:(by vm_compute) ltac:(lia)
             ltac:(by vm_compute))|]
      | false =>
          let b' := eval vm_compute in (c / 2 ^ (k - (32 - n)) * 2 ^ k =? t) in
          apply (if_test _ b');
          [by rewrite (code_mask a n m c y mask k top Ha ltac:(by vm_compute)
             ltac:(by vm_compute) Hv ltac:(lia) ltac:(lia) ltac:(by vm_compute) ltac:(lia))|]
      end
    end
  end; cbv iota.
Ltac decode_code Ha Hv n m c y mask :=
  repeat decode_test Ha Hv n m c y mask;
  let sh := eval vm_compute in (32 - n) in
  try rewrite (code_payload _ n m c y mask sh eq_refl eq_refl Hv ltac:(lia) ltac:(lia) eq_refl).

Ltac split_word Hw :=
  repeat match type of Hw with
  | context [if ?b then _ else _] => destruct b eqn:?
  end;
  try discriminate Hw; injection Hw as <- <-.

Lemma read_CopyOffset_word level off v n a :
  0 <= off < 65536 → CopyOffset_word level off = Some (v, n) →
  0 <= a < 2 ^ 32 → a / 2 ^ (32 - n) = v →
  read_CopyOffset level a = inr (off, n).
Proof.
  intros Hoff Hw Ha Hv. unfold CopyOffset_word in Hw. unfold read_CopyOffset.
  destruct (level =? 0); cbn [negb] in *; split_word Hw.
  - decode_code Ha Hv 10 6 0x03C0 off 0x3F. do 2 f_equal. div_mod_lia.
  - decode_code Ha Hv 12 8 0x0E00 (off - 64) 0xFF. do 2 f_equal. div_mod_lia.
  - decode_code Ha Hv 16 13 0xC000 (off - 320) 0x1FFF. do 2 f_equal. div_mod_lia.
  - decode_code Ha Hv 11 6 0x07C0 off 0x3F. do 2 f_equal. div_mod_lia.
  - decode_code Ha Hv 13 8 0x1E00 (off - 64) 0xFF. do 2 f_equal. div_mod_lia.
  - decode_code Ha Hv 15 11 0x7000 (off - 320) 0x7FF. do 2 f_equal. div_mod_lia.
  - decode_code Ha Hv 19 16 0x060000 (off - 2368) 0xFFFF. do 2 f_equal. div_mod_lia.
Qed.

Lemma CopyOffset_word_range level off v n :
  CopyOffset_word level off = Some (v, n) → is_word (v, n) ∧ n <= 19.
Proof.
  intros Hw. unfold CopyOffset_word in Hw. unfold is_word.
  split_word Hw; cbn [fst snd]; (split; [split; [lia|]|lia]);
    match goal with
    | |- 0 <= Z.lor _ (Z.land _ ?mask) < _ =>
        let m := eval vm_compute in (Z.log2 (mask + 1)) in
        by apply (lor_prefix_range _ _ m)
    end.
Qed.

Lemma read_LengthOfMatch_word level len v n a :
  LengthOfMatch_word level len = Some (v, n) →
  0 <= a < 2 ^ 32 → a / 2 ^ (32 - n) = v →
  read_LengthOfMatch level a = Some (len, n).
Proof.
  intros Hw Ha Hv. unfold LengthOfMatch_word in Hw. unfold read_LengthOfMatch.
  destruct (level =? 0); cbn [negb] in *; split_word Hw.
  all: match type of Hv with
  | _ = 0 => apply Z.eqb_eq in Heqb as ->; by decode_code Ha Hv 1 0 0 0 0
  | _ / 2 ^ (32 - ?n) = Z.lor ?c (Z.land ?y ?mask) =>
      let m := eval vm_compute in (Z.log2 (mask + 1)) in
      try (exfalso; lia); decode_code Ha Hv n m c y mask; do 2 f_equal; div_mod_lia
  end.
Qed.

Lemma LengthOfMatch_word_range level len v n :
  LengthOfMatch_word level len = Some (v, n) → is_word (v, n) ∧ n <= 30.
Proof.
  intros Hw. unfold LengthOfMatch_word in Hw. unfold is_word.
  split_word Hw; cbn [fst snd]; (split; [split; [lia|]|lia]); [lia|..];
    match goal with
    | |- 0 <= Z.lor _ (Z.land _ ?mask) < _ =>
        let m := eval vm_compute in (Z.log2 (mask + 1)) in
        by apply (lor_prefix_range _ _ m)
    end.
Qed.

(** A copy starts with two ones, which no literal does. *)
Lemma CopyOffset_word_top level off v n a :
  CopyOffset_word level off = Some (v, n) → 0 <= a < 2 ^ 32 → a / 2 ^ (32 - n) = v →
  Z.land a 0x80000000 = 0x80000000 ∧ Z.land a 0xC0000000 = 0xC0000000.
Proof.
  intros Hw Ha Hv. unfold CopyOffset_word in Hw.
  split_word Hw; match type of Hv with
  | _ / 2 ^ (32 - ?n) = Z.lor ?c (Z.land ?y ?mask) =>
      let m := eval vm_compute in (Z.log2 (mask + 1)) in
      split;
      [ rewrite (code_mask a n m c y mask 31 0x80000000 Ha ltac:(by vm_compute)
          ltac:(by vm_compute) Hv ltac:(lia) ltac:(lia) ltac:(by vm_compute) ltac:(lia))
      | rewrite (code_mask a n m c y mask 30 0xC0000000 Ha ltac:(by vm_compute)
          ltac:(by vm_compute) Hv ltac:(lia) ltac:(lia) ltac:(by vm_compute) ltac:(lia)) ];
      by vm_compute
  end.
Qed.

Lemma literal_word_range b : is_byte b → is_word (literal_word b) ∧ 8 <= snd (literal_word b) <= 9.
Proof.
  unfold is_byte, is_word, literal_word. intros Hb. destruct (Z.ltb_spec b 0x80); simpl.
  - split; [split|]; lia.
  - split; [split; [lia|]|lia]. by apply (lor_prefix_range _ _ 7).
Qed.

Lemma literal_low b a :
  0 <= b < 128 → 0 <= a < 2 ^ 32 → a / 2 ^ 24 = b →
  Z.land a 0x80000000 = 0 ∧ Z.shiftr (Z.land a 0x7F000000) 24 = b.
Proof.
  intros Hb Ha Hv. split.
  - change 0x80000000 with (2 ^ 32 - 2 ^ 31). rewrite land_top by lia. div_mod_lia.
  - change 0x7F000000 with ((2 ^ 7 - 1) * 2 ^ 24). rewrite land_field, Hv by lia.
    rewrite Z.shiftr_div_pow2, Z.div_mul by lia. apply Z.mod_small. lia.
Qed.
Lemma literal_high b a :
  128 <= b < 256 → 0 <= a < 2 ^ 32 → a / 2 ^ 23 = Z.lor 0x100 (Z.land b 0x7F) →
  Z.land a 0x80000000 = 0x80000000 ∧ Z.land a 0xC0000000 = 0x80000000 ∧
  u8 (Z.shiftr (Z.land a 0x3F800000) 23 + 0x80) = b.
Proof.
  intros Hb Ha Hv. change 0x7F with (2 ^ 7 - 1) in Hv.
  rewrite (lor_prefix 0x100 b 7) in Hv by done. split_and!.
  - change 0x80000000 with (2 ^ 32 - 2 ^ 31). rewrite land_top by lia. div_mod_lia.
  - change 0xC0000000 with (2 ^ 32 - 2 ^ 30). rewrite land_top by lia. div_mod_lia.
  - change 0x3F800000 with ((2 ^ 7 - 1) * 2 ^ 23). rewrite land_field, Hv by lia.
    rewrite Z.shiftr_div_pow2, Z.div_mul by lia. unfold u8. div_mod_lia.
Qed.

(** * Tokens *)

(** What a compressed packet says: literals and copies from the history. *)
Inductive token : Type :=
| Lit (b : Z)
| Copy (off len : Z).

Definition token_words (level : Z) (t : token) : option (list (Z * Z)) :=
  match t with
  | Lit b => Some [literal_word b]
  | Copy off len =>
      w1 ← CopyOffset_word level off; w2 ← LengthOfMatch_word level len; Some [w1; w2]
  end.
Fixpoint tokens_words (level : Z) (ts : list token) : option (list (Z * Z)) :=
  match ts with
  | [] => Some []
  | t :: ts => w ← token_words level t; ws ← tokens_words level ts; Some (w ++ ws)
  end.

Definition src_ptr (level hp off : Z) : Z :=
  Z.land (hp - off) (if negb (level =? 0) then 0xFFFF else 0x1FFF).

(** The effect of a token on the history and the pointer into it; [None] where
    the decoder reports an error. *)
Definition run_token (level size : Z) (t : token) (s : array * Z) : option (array * Z) :=
  let '(H, hp) := s in
  match t with
  | Lit b => if hp <=? size - 1 then Some (<[hp := b]> H, hp + 1) else None
  | Copy off len =>
      let sp := src_ptr level hp off in
      if (3 <=? len) && (hp + len <=? size) && (0 <=? sp) && (sp + len <=? size - 1) then
        match copy_match (Z.to_nat len) H hp sp with Ret r => Some r | Abort => None end
      else None
  end.
Fixpoint run_tokens (level size : Z) (ts : list token) (s : array * Z) : option (array * Z) :=
  match ts with
  | [] => Some s
  | t :: ts => s ← run_token level size t s; run_tokens level size ts s
  end.
Definition token_ok (t : token) : Prop :=
  match t with Lit b => is_byte b | Copy off len => 0 <= off < 65536 end.

Lemma word_bits_app l1 l2 : word_bits (l1 ++ l2) = word_bits l1 ++ word_bits l2.
Proof. unfold word_bits. by rewrite map_app, concat_app. Qed.
Lemma word_bits_cons v n l : word_bits ((v, n) :: l) = bits_of n v ++ word_bits l.
Proof. done. Qed.

Lemma tokens_words_snoc level ts ws t w :
  tokens_words level ts = Some ws → token_words level t = Some w →
  tokens_words level (ts ++ [t]) = Some (ws ++ w).
Proof.
  revert ws. induction ts as [|t' ts IH]; intros ws Hts Ht; simpl in *.
  - simplify_eq. rewrite Ht. simpl. by rewrite app_nil_r.
  - destruct (token_words level t') as [w'|]; [|done]. simpl in *.
    destruct (tokens_words level ts) as [ws'|]; [|done]. simplify_eq/=.
    rewrite (IH ws') by done. simpl. by rewrite app_assoc.
Qed.
Lemma run_tokens_snoc level size ts t s s' :
  run_tokens level size ts s = Some s' →
  run_tokens level size (ts ++ [t]) s = run_token level size t s'.
Proof.
  revert s. induction ts as [|t' ts IH]; intros s Hts; simpl in *.
  - simplify_eq. by destruct (run_token level size t s').
  - destruct (run_token level size t' s) as [s1|]; [|done]. simpl in *. auto.
Qed.

Lemma copy_match_ptr n H hp sp H' hp' :
  copy_match n H hp sp = Ret (H', hp') → hp' = hp + Z.of_nat n.
Proof.
  revert H hp sp. induction n as [|n IH]; intros H hp sp Hc; simpl in *.
  { simplify_eq. lia. }
  destruct (array_read _ H sp); [|done]. simpl in Hc.
  destruct (array_write _ hp _ H); [|done]. apply IH in Hc. lia.
Qed.
Lemma run_token_ptr level size t H hp H' hp' :
  run_token level size t (H, hp) = Some (H', hp') → hp < hp' <= size.
Proof.
  destruct t as [b|off len]; simpl.
  - destruct (Z.leb_spec hp (size - 1)); [|done]. intros ?. simplify_eq. lia.
  - destruct (_ && _ && _ && _) eqn:Hc; [|done].
    destruct (copy_match _ _ _ _) as [[? ?]|] eqn:Hm; [|done].
    intros ?. simplify_eq. apply copy_match_ptr in Hm. lia.
Qed.

(** ** The decoder on the encoding of a token *)

(** The stream behind [n] bits, with [B] next. *)
Record behind (bs bs' : wBitStream) (n : Z) (B : list bool) : Prop := {
  bh_reading : reading bs';
  bh_holds : holds bs' B;
  bh_position : bs_position bs' = bs_position bs + n;
  bh_length : bs_length bs' = bs_length bs;
}.

Lemma behind_shift bs v n B :
  reading bs → holds bs (bits_of n v ++ B) → 0 < n < 32 → bs_position bs + 32 < 2 ^ 32 →
  behind bs (BitStream_Shift n bs) n B.
Proof.
  intros Hr Hh Hn Hp. destruct (reading_shift n bs) as (? & ? & _ & _ & ?); [done..|].
  split; [done| |done..]. by apply (holds_shift bs n v).
Qed.

Section decode.
Context (level size : Z) (Hsize : size <= HISTORY_ARRAY).

Lemma more_bits bs n :
  8 <= n → 0 <= bs_position bs → bs_position bs + n <= bs_length bs < 2 ^ 32 →
  (u32 (bs_length bs - bs_position bs) >=? 8) = true.
Proof. intros. rewrite u32_small; lia. Qed.

Lemma decode_literal fuel b v n H hp bs B :
  reading bs → holds bs (bits_of n v ++ B) → literal_word b = (v, n) → is_byte b →
  0 <= hp <= size - 1 → bs_position bs + 32 < 2 ^ 32 →
  bs_position bs + n <= bs_length bs < 2 ^ 32 →
  behind bs (BitStream_Shift n bs) n B ∧
  decompress_loop (S fuel) level size H hp bs =
    decompress_loop fuel level size (<[hp := b]> H) (hp + 1) (BitStream_Shift n bs).
Proof.
  intros Hr Hh Hw Hb Hhp Hpos Hlen.
  destruct (literal_word_range b Hb) as [[Hn Hv] Hn8]. rewrite Hw in Hn, Hv, Hn8. simpl in *.
  pose proof (rd_acc_range _ Hr) as Ha.
  pose proof (acc_top bs n v B Hr Hh ltac:(lia) Hv) as Hacc.
  split; [apply (behind_shift bs v n B); done|].
  rewrite (more_bits bs n) by (done || destruct Hr; lia). simpl.
  replace (hp >? size - 1) with false by lia.
  unfold literal_word in Hw. unfold is_byte in Hb. destruct (Z.ltb_spec b 0x80) as [Hlo|Hhi].
  - simplify_eq. destruct (literal_low (bs_accumulator bs / 2 ^ (32 - 8)) (bs_accumulator bs))
      as [-> ->]; [lia|done..|]. simpl. by rewrite array_write_in by lia.
  - simplify_eq. destruct (literal_high b (bs_accumulator bs)) as (-> & -> & ->); [lia|done..|].
    simpl. by rewrite array_write_in by lia.
Qed.

Lemma decode_copy fuel off len v1 n1 v2 n2 H hp H' hp' bs B :
  reading bs → holds bs (bits_of n1 v1 ++ bits_of n2 v2 ++ B) →
  CopyOffset_word level off = Some (v1, n1) → LengthOfMatch_word level len = Some (v2, n2) →
  0 <= off < 65536 → run_token level size (Copy off len) (H, hp) = Some (H', hp') →
  0 <= hp → bs_position bs + 64 < 2 ^ 32 →
  bs_position bs + (n1 + n2) <= bs_length bs < 2 ^ 32 →
  behind bs (BitStream_Shift n2 (BitStream_Shift n1 bs)) (n1 + n2) B ∧
  decompress_loop (S fuel) level size H hp bs =
    decompress_loop fuel level size H' hp' (BitStream_Shift n2 (BitStream_Shift n1 bs)).
Proof.
  intros Hr Hh Hw1 Hw2 Hoff Hrun Hhp Hpos Hlen.
  destruct (CopyOffset_word_range _ _ _ _ Hw1) as [[Hn1 Hv1] Hn1'].
  destruct (LengthOfMatch_word_range _ _ _ _ Hw2) as [[Hn2 Hv2] Hn2']. simpl in *.
  pose proof (rd_acc_range _ Hr) as Ha.
  pose proof (acc_top bs n1 v1 _ Hr Hh ltac:(lia) Hv1) as Hacc.
  destruct (behind_shift bs v1 n1 _ Hr Hh) as [Hr1 Hh1 Hp1 Hl1]; [lia..|].
  set (bs1 := BitStream_Shift n1 bs) in *.
  pose proof (rd_acc_range _ Hr1) as Ha1.
  pose proof (acc_top bs1 n2 v2 _ Hr1 Hh1 ltac:(lia) Hv2) as Hacc1.
  destruct (behind_shift bs1 v2 n2 _ Hr1 Hh1) as [Hr2 Hh2 Hp2 Hl2]; [lia..|].
  split; [split; [done..|lia|congruence]|].
  assert (10 <= n1) as H10.
  { unfold CopyOffset_word in Hw1. clear -Hw1. by split_word Hw1. }
  rewrite (more_bits bs n1) by (done || destruct Hr; lia). simpl.
  destruct (CopyOffset_word_top _ _ _ _ _ Hw1 Ha Hacc) as [-> ->]. simpl.
  rewrite (read_CopyOffset_word _ _ _ _ _ Hoff Hw1 Ha Hacc). fold bs1.
  rewrite (read_LengthOfMatch_word _ _ _ _ _ Hw2 Ha1 Hacc1).
  destruct ((3 <=? len) && _ && _ && _) eqn:Hc in Hrun; [|done].
  unfold src_ptr in *. replace (hp >? size - 1) with false by lia.
  replace (hp + len - 1 >? size - 1) with false by lia.
  replace ((_ <? 0) || _) with false by lia.
  destruct (copy_match _ _ _ _) as [[? ?]|]; [|done]. by simplify_eq/=.
Qed.

Lemma decode_token fuel t ws H hp H' hp' bs B :
  reading bs → holds bs (word_bits ws ++ B) → token_ok t →
  token_words level t = Some ws → run_token level size t (H, hp) = Some (H', hp') →
  0 <= hp → bs_position bs + 64 < 2 ^ 32 →
  bs_position bs + zlen (word_bits ws) <= bs_length bs < 2 ^ 32 →
  ∃ bs', behind bs bs' (zlen (word_bits ws)) B ∧
    decompress_loop (S fuel) level size H hp bs = decompress_loop fuel level size H' hp' bs'.
Proof.
  intros Hr Hh Hok Hw Hrun Hhp Hpos Hlen. destruct t as [b|off len]; simpl in Hw, Hok.
  - destruct (literal_word b) as [v n] eqn:Hl. simplify_eq/=.
    destruct (literal_word_range b Hok) as [[Hn _] _]. rewrite Hl in Hn. simpl in Hn.
    rewrite word_bits_cons, zlen_app, zlen_bits_of in * by lia.
    change (word_bits []) with (@nil bool) in *. change (zlen (@nil bool)) with 0 in *.
    rewrite app_nil_r in Hh. rewrite Z.add_0_r in *.
    destruct (Z.leb_spec hp (size - 1)); [|done]. simplify_eq.
    exists (BitStream_Shift n bs). apply decode_literal with (v := v); done || lia.
  - destruct (CopyOffset_word level off) as [[v1 n1]|] eqn:Hw1; [|done]. simpl in Hw.
    destruct (LengthOfMatch_word level len) as [[v2 n2]|] eqn:Hw2; [|done]. simplify_eq/=.
    destruct (CopyOffset_word_range _ _ _ _ Hw1) as [[Hn1 _] _].
    destruct (LengthOfMatch_word_range _ _ _ _ Hw2) as [[Hn2 _] _]. simpl in Hn1, Hn2.
    rewrite !word_bits_cons, !zlen_app, !zlen_bits_of in * by lia.
    change (word_bits []) with (@nil bool) in *. change (zlen (@nil bool)) with 0 in *.
    rewrite app_nil_r, <- app_assoc in Hh. rewrite Z.add_0_r in *.
    exists (BitStream_Shift n2 (BitStream_Shift n1 bs)).
    by apply decode_copy with (off := off) (len := len) (v1 := v1) (v2 := v2).
Qed.

(** The decoder runs the tokens it is sent, and stops behind them. *)
Lemma decode_tokens fuel ts ws H hp H' hp' bs :
  reading bs → holds bs (word_bits ws) → Forall token_ok ts →
  tokens_words level ts = Some ws → run_tokens level size ts (H, hp) = Some (H', hp') →
  0 <= hp → bs_length bs + 64 < 2 ^ 32 → (length ts < fuel)%nat →
  0 <= bs_length bs - (bs_position bs + zlen (word_bits ws)) < 8 →
  ∃ bs', decompress_loop fuel level size H hp bs = Ret (1, H', hp', bs').
Proof.
  revert fuel ws H hp bs. induction ts as [|t ts IH];
    intros fuel ws H hp bs Hr Hh Hok Hw Hrun Hhp Hlen Hf Hpad; cbn [tokens_words run_tokens] in Hw, Hrun.
  - simplify_eq. destruct fuel as [|fuel]; [simpl in Hf; lia|]. exists bs. simpl.
    change (zlen (word_bits [])) with 0 in Hpad. destruct Hr.
    rewrite u32_small by lia. by replace (_ >=? 8) with false by lia.
  - destruct (token_words level t) as [w|] eqn:Hwt; [|done]. simpl in Hw.
    destruct (run_token level size t (H, hp)) as [[H1 hp1]|] eqn:Hrt; [|done]. simpl in Hrun.
    destruct (tokens_words level ts) as [ws'|] eqn:Hws; [|done]. simplify_eq/=.
    apply Forall_cons_1 in Hok as [Hokt Hok]. rewrite word_bits_app, zlen_app in *.
    pose proof (run_token_ptr _ _ _ _ _ _ _ Hrt).
    destruct fuel as [|fuel]; [simpl in Hf; lia|].
    destruct (decode_token fuel t w H hp H1 hp1 bs (word_bits ws'))
      as (bs1 & [Hr1 Hh1 Hp1 Hl1] & ->); [done..|zlia|destruct Hr; zlia|].
    apply (IH fuel ws'); done || lia.
Qed.
End decode.

(** ** Histories that agree *)

Definition agree (size : Z) (H1 H2 : array) : Prop :=
  ∀ i, 0 <= i < size → aget H1 i = aget H2 i.

Lemma agree_insert size H1 H2 i v :
  agree size H1 H2 → agree size (<[i := v]> H1) (<[i := v]> H2).
Proof. intros Ha j Hj. rewrite !aget_insert. destruct (_ =? _); [done|auto]. Qed.

Lemma copy_match_agree size n H1 H2 hp sp H1' hp' :
  agree size H1 H2 → size <= HISTORY_ARRAY → 0 <= hp → hp + Z.of_nat n <= size →
  0 <= sp → sp + Z.of_nat n <= size → copy_match n H1 hp sp = Ret (H1', hp') →
  ∃ H2', copy_match n H2 hp sp = Ret (H2', hp') ∧ agree size H1' H2'.
Proof.
  revert H1 H2 hp sp. induction n as [|n IH]; intros H1 H2 hp sp Ha Hs Hhp Hn Hsp Hns Hc.
  { simpl in *. simplify_eq. eauto. }
  simpl in *. rewrite array_read_in in * by lia. simpl in *.
  rewrite array_write_in in * by lia. simpl in *.
  eapply (IH (<[hp := aget H1 sp]> H1)); [|lia..|done].
  rewrite (Ha sp) by lia. by apply agree_insert.
Qed.

Lemma run_token_agree level size t H1 H2 hp H1' hp' :
  agree size H1 H2 → size <= HISTORY_ARRAY → 0 <= hp →
  run_token level size t (H1, hp) = Some (H1', hp') →
  ∃ H2', run_token level size t (H2, hp) = Some (H2', hp') ∧ agree size H1' H2'.
Proof.
  intros Ha Hs Hhp. destruct t as [b|off len]; cbn.
  - destruct (hp <=? size - 1); [|done]. intros ?. simplify_eq.
    eexists. split; [done|]. by apply agree_insert.
  - destruct (_ && _ && _ && _) eqn:Hc; [|done].
    destruct (copy_match _ H1 _ _) as [[? ?]|] eqn:Hm; [|done]. intros ?. simplify_eq.
    eapply copy_match_agree in Hm as (H2' & -> & ?); eauto; lia.
Qed.

Lemma run_tokens_agree level size ts H1 H2 hp H1' hp' :
  agree size H1 H2 → size <= HISTORY_ARRAY → 0 <= hp →
  run_tokens level size ts (H1, hp) = Some (H1', hp') →
  ∃ H2', run_tokens level size ts (H2, hp) = Some (H2', hp') ∧ agree size H1' H2'.
Proof.
  revert H1 H2 hp. induction ts as [|t ts IH]; intros H1 H2 hp Ha Hs Hhp; cbn [run_tokens].
  { intros ?. simplify_eq. eauto. }
  destruct (run_token level size t (H1, hp)) as [[H1a hpa]|] eqn:Ht; [|done]. cbn [mbind option_bind]. intros Hr.
  pose proof (run_token_ptr _ _ _ _ _ _ _ Ht).
  destruct (run_token_agree _ _ _ _ _ _ _ _ Ha Hs Hhp Ht) as (H2a & -> & Ha').
  cbn [mbind option_bind].
  eapply IH; eauto; lia.
Qed.

(** ** Building a copy one byte at a time *)

Lemma copy_match_snoc n H hp sp H1 hp1 :
  copy_match n H hp sp = Ret (H1, hp1) → 0 <= hp → hp + Z.of_nat n < HISTORY_ARRAY →
  0 <= sp → sp + Z.of_nat n < HISTORY_ARRAY →
  copy_match (S n) H hp sp = Ret (<[hp1 := aget H1 (sp + Z.of_nat n)]> H1, hp1 + 1).
Proof.
  revert H hp sp. induction n as [|n IH]; intros H hp sp Hc Hhp Hn Hsp Hns.
  - simpl in *. simplify_eq. rewrite array_read_in by lia. simpl.
    rewrite array_write_in by lia. simpl. by rewrite Z.add_0_r.
  - cbn [copy_match] in Hc. rewrite array_read_in in Hc by lia. cbn in Hc.
    rewrite array_write_in in Hc by lia. cbn in Hc.
    change (copy_match (S (S n)) H hp sp) with
      (v ← array_read HISTORY_ARRAY H sp; H ← array_write HISTORY_ARRAY hp v H;
       copy_match (S n) H (hp + 1) (sp + 1)).
    rewrite array_read_in by lia. cbn [mbind outcome_bind].
    rewrite array_write_in by lia. cbn [mbind outcome_bind].
    rewrite (IH _ _ _ Hc) by lia. do 4 f_equal. lia.
Qed.

(** The first three bytes, as the compressor has checked and written them. *)
Lemma copy_match_three H h m s1 s2 s3 :
  let H1 := <[h := s1]> H in
  0 <= h → h + 3 <= HISTORY_ARRAY → 1 <= m → m + 2 <= HISTORY_ARRAY → m ≠ h → m ≠ h + 1 →
  aget H1 (m - 1) = s1 → aget H1 m = s2 → aget H1 (m + 1) = s3 →
  copy_match 3 H h (m - 1) = Ret (<[h + 2 := s3]> (<[h + 1 := s2]> H1), h + 3).
Proof.
  intros H1 Hh Hh3 Hm Hm2 Hn1 Hn2 E1 E2 E3. unfold H1 in *.
  rewrite aget_insert in E1. replace (m - 1 =? h) with false in E1 by lia.
  rewrite aget_insert in E3.
  cbn [copy_match]. rewrite array_read_in, E1 by lia. cbn [mbind outcome_bind].
  rewrite array_write_in by lia. cbn [mbind outcome_bind].
  replace (m - 1 + 1) with m by lia.
  rewrite array_read_in, E2 by lia. cbn [mbind outcome_bind].
  rewrite array_write_in by lia. cbn [mbind outcome_bind].
  rewrite array_read_in by lia. cbn [mbind outcome_bind].
  rewrite aget_insert. replace (m + 1 =? h + 1) with false by lia.
  rewrite aget_insert, E3. rewrite array_write_in by lia. cbn [mbind outcome_bind].
  replace (h + 1 + 1) with (h + 2) by lia. by replace (h + 2 + 1) with (h + 3) by lia.
Qed.

(** * The compressor *)

Definition level_size (level size : Z) : Prop :=
  (level = 0 ∧ size = 8192) ∨ (level = 1 ∧ size = 65536).

Lemma level_size_bounds level size : level_size level size → 8192 <= size <= HISTORY_ARRAY.
Proof. unfold HISTORY_ARRAY. intros [[_ ->]|[_ ->]]; lia. Qed.

Lemma MATCH_INDEX_range s1 s2 s3 : 0 <= MPPC_MATCH_INDEX s1 s2 s3 < MATCH_ARRAY.
Proof.
  unfold MPPC_MATCH_INDEX, MATCH_ARRAY. change 0x07FFF000 with ((2 ^ 15 - 1) * 2 ^ 12).
  rewrite land_field, Z.shiftr_div_pow2, Z.div_mul by lia. apply Z.mod_pos_bound. lia.
Qed.

Lemma CopyOffset_word_some level size off :
  level_size level size → 0 <= off < size → ∃ v n, CopyOffset_word level off = Some (v, n).
Proof.
  intros [[-> ->]|[-> ->]] Hoff; unfold CopyOffset_word; simpl.
  - destruct (Z.ltb_spec off 64), (Z.geb_spec off 64), (Z.ltb_spec off 320),
      (Z.geb_spec off 320), (Z.ltb_spec off 8192); try lia; simpl; eauto.
  - repeat case_match; eauto.
Qed.
Lemma LengthOfMatch_word_some level size len :
  level_size level size → 3 <= len < size → ∃ v n, LengthOfMatch_word level len = Some (v, n).
Proof.
  intros Hl Hlen. unfold LengthOfMatch_word.
  destruct Hl as [[-> ->]|[-> ->]]; simpl; repeat case_match; eauto; exfalso; lia.
Qed.

(** [CopyOffset] leads the decoder back to the match. *)
Lemma src_ptr_match level size h m :
  level_size level size → 1 <= m < size →
  let off := u32 (Z.land (size - 1) (h + 1 - m)) in
  0 <= off < size ∧ src_ptr level h off = m - 1.
Proof.
  intros Hl Hm off.
  assert (0 <= (h + 1 - m) mod size < size) as Hr by (apply Z.mod_pos_bound; lia).
  assert (off = (h + 1 - m) mod size) as ->.
  { unfold off. rewrite Z.land_comm.
    destruct Hl as [[-> ->]|[-> ->]];
      [rewrite (land_mask _ 13) by lia|rewrite (land_mask _ 16) by lia];
      apply u32_small; simpl; lia. }
  split; [done|]. unfold src_ptr.
  assert ((h - (h + 1 - m) mod size) mod size = m - 1) as Hs.
  { rewrite Zminus_mod_idemp_r. replace (h - (h + 1 - m)) with (m - 1) by lia.
    apply Z.mod_small. lia. }
  destruct Hl as [[-> ->]|[-> ->]]; simpl;
    [rewrite (land_mask _ 13) by lia|rewrite (land_mask _ 16) by lia]; done.
Qed.

Section encode.
Context (before level size DstSize : Z) (src : list Z).
Context (H0 : array) (hp0 : Z).
Context (Hlevel : level_size level size) (Hsrc : bytes src).
Context (Hfit : 0 <= hp0 ∧ hp0 + zlen src <= size - 2).
Context (Hdst : zlen src > 0 → 0 < DstSize <= 65536).

(** What the loops of [mppc_compress] keep: the tokens written so far produce
    the history, and the history from [hp0] on is the source consumed. *)
Record encoding (st : compress_state) (ts : list token) (ws : list (Z * Z)) : Prop := {
  en_words : tokens_words level ts = Some ws;
  en_ok : Forall token_ok ts;
  en_writing : writing (c_bs st) (word_bits ws);
  en_capacity : bs_capacity (c_bs st) = DstSize;
  en_room : zlen (word_bits ws) <= 8 * DstSize;
  en_run : run_tokens level size ts (H0, hp0) = Some (c_History st, c_HistoryPtr st);
  en_count : Z.of_nat (length ts) <= c_pSrcPtr st;
  en_src : 0 <= c_pSrcPtr st <= zlen src;
  en_ptr : c_HistoryPtr st = hp0 + c_pSrcPtr st;
  en_data : ∀ i, 0 <= i < c_pSrcPtr st → aget (c_History st) (hp0 + i) = zget src i;
  en_Ptr : c_Ptr st <= size - 2;
  en_Match : ∀ i, 0 <= aget (c_Match st) i <= size - 2;
}.

Lemma src_read_in i : 0 <= i < zlen src → src_read src i = Ret (zget src i).
Proof. intros. unfold src_read. by replace ((0 <=? i) && (i <? zlen src)) with true by lia. Qed.

Lemma size_bounds : 8192 <= size <= HISTORY_ARRAY.
Proof. by eapply level_size_bounds. Qed.

(** Appending the code words of one token. *)
Lemma writing_token st ts ws t w n :
  encoding st ts ws → token_words level t = Some w → Forall is_word w →
  zlen (word_bits w) <= n → bs_position (c_bs st) / 8 * 8 + 7 + n <= 8 * DstSize →
  DstSize <= 65536 →
  writing (write_words w (c_bs st)) (word_bits (ws ++ w)) ∧
  bs_capacity (write_words w (c_bs st)) = DstSize ∧
  zlen (word_bits (ws ++ w)) <= 8 * DstSize.
Proof.
  intros [] Hw Hfw Hn Hroom Hd. pose proof en_writing0 as Hwr. destruct Hwr.
  assert (bs_position (c_bs st) <= bs_position (c_bs st) / 8 * 8 + 7) by div_mod_lia.
  rewrite word_bits_app, zlen_app.
  destruct (writing_words w (c_bs st) (word_bits ws)) as (Hw1 & Hw2 & _); [done..|lia|].
  split_and!; [done|congruence|lia].
Qed.

(** ** Literals *)

Lemma encoding_literal st ts ws sym bs P M :
  encoding st ts ws → sym = zget src (c_pSrcPtr st) → c_pSrcPtr st < zlen src →
  bs = write_word (Some (literal_word sym)) (c_bs st) →
  bs_position (c_bs st) / 8 + 2 <= DstSize - 1 →
  P <= size - 2 → (∀ i, 0 <= aget M i <= size - 2) →
  encoding (mkCompress (c_pSrcPtr st + 1) (c_HistoryPtr st + 1) P
    (<[c_HistoryPtr st := sym]> (c_History st)) M bs) (ts ++ [Lit sym]) (ws ++ [literal_word sym]).
Proof.
  intros He Hsym Hsp -> Hroom HP HM. pose proof He as [].
  assert (is_byte sym) as Hb by (rewrite Hsym; by apply zget_byte).
  destruct (literal_word_range sym Hb) as [Hw Hn].
  destruct (literal_word sym) as [v n] eqn:Hl. simpl in Hn.
  destruct (writing_token st ts ws (Lit sym) [(v, n)] 9) as (W1 & W2 & W3);
    [done|by cbn; rewrite Hl|by constructor| |lia|lia|].
  { rewrite word_bits_cons, app_nil_r, zlen_bits_of by lia. lia. }
  split; simpl; try done; try lia.
  - eapply tokens_words_snoc; [done|]. simpl. by rewrite Hl.
  - apply Forall_app. split; [done|]. by constructor.
  - erewrite run_tokens_snoc by done. simpl. by replace (_ <=? size - 1) with true by lia.
  - rewrite length_app. simpl. lia.
  - intros i Hi. rewrite aget_insert. destruct (Z.eqb_spec (hp0 + i) (c_HistoryPtr st)).
    + rewrite Hsym. f_equal. lia.
    + apply en_data0. lia.
Qed.

(** ** Matches *)

Lemma extend_match_spec fuel P sp mp hp len H HA hs ms :
  copy_match (Z.to_nat len) HA hs ms = Ret (H, hp) →
  hp0 <= hs → 0 <= ms → 3 <= len → hp = hs + len → mp = ms + len → sp = hp - hp0 →
  sp <= zlen src - 1 → mp <= P + 1 → P <= size - 2 → zlen src - sp < Z.of_nat fuel →
  (∀ i, 0 <= i < sp → aget H (hp0 + i) = zget src i) →
  ∃ sp' hp' len' H',
    extend_match src fuel P sp mp hp len H = Ret (sp', hp', len', H') ∧
    len <= len' ∧ hp' = hs + len' ∧ sp' = hp' - hp0 ∧ sp' <= zlen src - 1 ∧
    ms + len' <= P + 1 ∧ copy_match (Z.to_nat len') HA hs ms = Ret (H', hp') ∧
    (∀ i, 0 <= i < sp' → aget H' (hp0 + i) = zget src i).
Proof.
  pose proof size_bounds. revert sp mp hp len H.
  induction fuel as [|fuel IH]; intros sp mp hp len H Hc Hhs Hms Hl -> -> -> Hsp Hmp HP Hf Hd.
  { lia. }
  cbn [extend_match]. rewrite src_read_in by lia. cbn [mbind outcome_bind].
  rewrite array_read_in by lia. cbn [mbind outcome_bind].
  destruct ((zget src (hs + len - hp0) =? aget H (ms + len)) && _ && _) eqn:Hb; cycle 1.
  { exists (hs + len - hp0), (hs + len), len, H. split_and!; done || lia. }
  rewrite array_write_in by lia. cbn [mbind outcome_bind].
  apply andb_prop in Hb as [[Hb Hb2]%andb_prop Hb3]. apply Z.eqb_eq in Hb.
  edestruct (IH (hs + len - hp0 + 1) (ms + len + 1) (hs + len + 1) (len + 1)
    (<[hs + len := zget src (hs + len - hp0)]> H)) as (sp' & hp' & len' & H' & He & ?);
    try done; try lia.
  - rewrite Hb. replace (Z.to_nat (len + 1)) with (S (Z.to_nat len)) by lia.
    erewrite copy_match_snoc by (done || lia). do 4 f_equal. lia.
  - intros i Hi. rewrite aget_insert. destruct (Z.eqb_spec (hp0 + i) (hs + len)).
    + f_equal. lia.
    + apply Hd. lia.
  - exists sp', hp', len', H'. split; [done|]. intuition lia.
Qed.

(** A match that was sent. *)
Lemma encoding_match st ts ws m len H' P M bs :
  let h := c_HistoryPtr st in
  let off := u32 (Z.land (size - 1) (h + 1 - m)) in
  encoding st ts ws → 1 <= m < size → 3 <= len →
  c_pSrcPtr st + len <= zlen src → m - 1 + len <= size - 1 →
  copy_match (Z.to_nat len) (c_History st) h (m - 1) = Ret (H', h + len) →
  (∀ i, 0 <= i < c_pSrcPtr st + len → aget H' (hp0 + i) = zget src i) →
  bs_position (c_bs st) / 8 + 7 <= DstSize - 1 →
  bs = write_word (LengthOfMatch_word level len)
         (write_word (CopyOffset_word level off) (c_bs st)) →
  P <= size - 2 → (∀ i, 0 <= aget M i <= size - 2) →
  ∃ w, encoding (mkCompress (c_pSrcPtr st + len) (h + len) P H' M bs)
    (ts ++ [Copy off len]) (ws ++ w).
Proof.
  intros h off He Hm Hlen Hsrcn Hend Hc Hd Hroom -> HP HM. pose proof He as [].
  pose proof size_bounds.
  destruct (src_ptr_match level size h m Hlevel Hm) as [Hoff Hsp]. fold off in Hoff, Hsp.
  destruct (CopyOffset_word_some level size off Hlevel Hoff) as (v1 & n1 & Hw1).
  destruct (LengthOfMatch_word_some level size len Hlevel) as (v2 & n2 & Hw2); [lia|].
  destruct (CopyOffset_word_range _ _ _ _ Hw1) as [Hr1 ?].
  destruct (LengthOfMatch_word_range _ _ _ _ Hw2) as [Hr2 ?].
  destruct (writing_token st ts ws (Copy off len) [(v1, n1); (v2, n2)] 49)
    as (W1 & W2 & W3); [done|cbn; by rewrite Hw1, Hw2|by repeat apply Forall_cons_2| |lia|lia|].
  { destruct Hr1, Hr2. simpl in *.
    rewrite !word_bits_cons, app_nil_r, zlen_app, !zlen_bits_of by lia. lia. }
  assert (0 <= h) by (unfold h; lia).
  exists [(v1, n1); (v2, n2)]. rewrite Hw1, Hw2. split; simpl; try done; try lia.
  - eapply tokens_words_snoc; [done|]. simpl. by rewrite Hw1, Hw2.
  - apply Forall_app. split; [done|]. constructor; [|done]. unfold HISTORY_ARRAY in *. simpl. lia.
  - erewrite run_tokens_snoc by done. cbn [run_token]. fold h. rewrite Hsp.
    replace (_ && _ && _ && _) with true by (unfold h; lia). by rewrite Hc.
  - rewrite length_app. simpl. lia.
Qed.

(** ** The loops *)

Lemma no_match_ok H s1 s2 s3 m hp P :
  0 <= m <= size - 2 →
  ∃ b, no_match before H s1 s2 s3 m hp P = Ret b ∧
    (b = false → 1 <= m ∧ aget H (m - 1) = s1 ∧ aget H m = s2 ∧ aget H (m + 1) = s3 ∧
      m + 1 <= P ∧ m ≠ hp - 1 ∧ m ≠ hp).
Proof.
  intros Hm. pose proof size_bounds. unfold no_match, read_before_match.
  assert (∃ a, (if m - 1 =? -1 then Ret before else array_read HISTORY_ARRAY H (m - 1)) = Ret a ∧
    (m ≠ 0 → a = aget H (m - 1))) as (a & -> & Ha).
  { destruct (Z.eqb_spec (m - 1) (-1)).
    - exists before. split; [done|lia].
    - rewrite array_read_in by lia. eauto. }
  cbn [mbind outcome_bind].
  destruct (Z.eqb_spec s1 a) as [->|]; cbn [negb]; [|by exists true].
  rewrite !array_read_in by lia. cbn [mbind outcome_bind].
  destruct (Z.eqb_spec s2 (aget H m)); cbn [negb]; [|by exists true].
  eexists. split; [done|]. intros Hb. split_and!; try lia.
Qed.

Lemma match_insert M i h :
  (∀ i, 0 <= aget M i <= size - 2) → 0 <= h <= size - 2 →
  ∀ j, 0 <= aget (<[i := u16 h]> M) j <= size - 2.
Proof.
  intros HM Hh j. pose proof size_bounds. unfold HISTORY_ARRAY in *. rewrite aget_insert.
  destruct (_ =? _); [|done]. unfold u16. rewrite Z.mod_small by lia. lia.
Qed.

Lemma data_three H sp i :
  (∀ i, 0 <= i < sp → aget H (hp0 + i) = zget src i) → 0 <= i < sp + 3 →
  aget (<[hp0 + sp + 2 := zget src (sp + 2)]> (<[hp0 + sp + 1 := zget src (sp + 1)]>
    (<[hp0 + sp := zget src sp]> H))) (hp0 + i) = zget src i.
Proof.
  intros Hd Hi. rewrite !aget_insert.
  destruct (Z.eqb_spec (hp0 + i) (hp0 + sp + 2)); [f_equal; lia|].
  destruct (Z.eqb_spec (hp0 + i) (hp0 + sp + 1)); [f_equal; lia|].
  destruct (Z.eqb_spec (hp0 + i) (hp0 + sp)); [f_equal; lia|]. apply Hd. lia.
Qed.

Definition result_ok (sp : Z) (r : outcome (option compress_state)) : Prop :=
  r = Ret None ∨
  ∃ st ts ws, r = Ret (Some st) ∧ encoding st ts ws ∧ sp < c_pSrcPtr st.

(** The branch of [compress_step] that sends a match at [m]. *)
Lemma compress_match_ok st ts ws m P M :
  let sp := c_pSrcPtr st in
  let h := c_HistoryPtr st in
  let H1 := <[h := zget src sp]> (c_History st) in
  encoding st ts ws → sp < zlen src - 3 →
  1 <= m <= size - 2 → aget H1 (m - 1) = zget src sp → aget H1 m = zget src (sp + 1) →
  aget H1 (m + 1) = zget src (sp + 2) → m + 1 <= P → m ≠ h → m ≠ h + 1 → P <= size - 2 →
  (∀ i, 0 <= aget M i <= size - 2) →
  result_ok sp
    ('(sp', hp', len, H') ← extend_match src (length src) P (sp + 1 + 2) (m + 2) (h + 1 + 2) 3
       (<[h + 1 + 1 := zget src (sp + 2)]> (<[h + 1 := zget src (sp + 1)]> H1));
     if bs_position (c_bs st) / 8 + 7 >? DstSize - 1 then Ret None
     else
       let bs := write_word (CopyOffset_word level (u32 (Z.land (size - 1) (h + 1 - m)))) (c_bs st) in
       let bs := write_word (LengthOfMatch_word level len) bs in
       Ret (Some (mkCompress sp' hp' P H' M bs))).
Proof.
  intros sp h H1 He Hsp Hm E1 E2 E3 EP Hn1 Hn2 HP HM. pose proof He as [].
  pose proof size_bounds as Hs. unfold sp, h in *.
  set (H3 := <[c_HistoryPtr st + 1 + 1 := _]> (<[c_HistoryPtr st + 1 := _]> H1)).
  destruct (extend_match_spec (length src) P (c_pSrcPtr st + 1 + 2) (m + 2)
    (c_HistoryPtr st + 1 + 2) 3 H3 (c_History st) (c_HistoryPtr st) (m - 1))
    as (sp' & hp' & len & H' & -> & Hle & -> & Hsp' & Hspe & Hme & Hc' & Hd);
    [|lia..|unfold zlen in *; lia| |].
  { unfold H3. replace (c_HistoryPtr st + 1 + 2) with (c_HistoryPtr st + 3) by lia.
    replace (c_HistoryPtr st + 1 + 1) with (c_HistoryPtr st + 2) by lia.
    apply (copy_match_three (c_History st)); done || lia. }
  { intros i Hi. unfold H3. replace (c_HistoryPtr st + 1 + 1) with (c_HistoryPtr st + 2) by lia.
    unfold H1. rewrite en_ptr0. apply data_three; [done|lia]. }
  cbn [mbind outcome_bind]. destruct (Z.gtb_spec (bs_position (c_bs st) / 8 + 7) (DstSize - 1)).
  { by left. }
  right. replace sp' with (c_pSrcPtr st + len) in * by lia.
  edestruct (encoding_match st ts ws m len H' P M) as (w & Hw); try done; try lia.
  eexists _, _, _. split; [done|]. split; [exact Hw|]. simpl. lia.
Qed.

Lemma compress_step_ok st ts ws :
  encoding st ts ws → c_pSrcPtr st < zlen src - 3 →
  result_ok (c_pSrcPtr st) (compress_step before src level size DstSize st).
Proof.
  intros He Hsp. pose proof He as []. pose proof size_bounds as Hs.
  unfold compress_step. rewrite !src_read_in by lia. cbn [mbind outcome_bind].
  rewrite array_write_in by lia. cbn [mbind outcome_bind].
  rewrite array_read_in by apply MATCH_INDEX_range. cbn [mbind outcome_bind].
  set (m := aget (c_Match st) _). assert (0 <= m <= size - 2) as Hm by apply en_Match0.
  set (M := if negb (m =? c_HistoryPtr st + 1 - 1) then _ else _).
  assert (∀ i, 0 <= aget M i <= size - 2) as HM.
  { unfold M. destruct (negb _); [apply match_insert; [done|lia]|done]. }
  set (P := if c_Ptr st <? c_HistoryPtr st + 1 then _ else _).
  assert (P <= size - 2) as HP by (unfold P; case_match; lia).
  destruct (no_match_ok (<[c_HistoryPtr st := zget src (c_pSrcPtr st)]> (c_History st))
    (zget src (c_pSrcPtr st)) (zget src (c_pSrcPtr st + 1)) (zget src (c_pSrcPtr st + 2)) m
    (c_HistoryPtr st + 1) P Hm) as (lit & -> & Hlit).
  cbn [mbind outcome_bind]. assert (u32 (DstSize - 1) = DstSize - 1) as ->
    by (apply u32_small; lia).
  destruct lit.
  - destruct (Z.gtb_spec (bs_position (c_bs st) / 8 + 2) (DstSize - 1)); [by left|].
    right. eexists _, _, _. split; [done|]. split; [|simpl; lia].
    apply (encoding_literal st ts ws); done || lia.
  - destruct Hlit as (Hm1 & E1 & E2 & E3 & EP & Hn1 & Hn2); [done|].
    do 2 (rewrite array_write_in by lia; cbn [mbind outcome_bind]).
    apply (compress_match_ok st ts ws m P M); done || lia.
Qed.

Lemma compress_loop_ok fuel st ts ws :
  encoding st ts ws → zlen src - c_pSrcPtr st < Z.of_nat fuel →
  compress_loop before src level size DstSize fuel st = Ret None ∨
  ∃ st' ts' ws', compress_loop before src level size DstSize fuel st = Ret (Some st') ∧
    encoding st' ts' ws'.
Proof.
  revert st ts ws. induction fuel as [|fuel IH]; intros st ts ws He Hf.
  { destruct He. lia. }
  cbn [compress_loop]. destruct (Z.ltb_spec (c_pSrcPtr st) (zlen src - 1 - 2)); cycle 1.
  { right. eauto. }
  destruct (compress_step_ok st ts ws He) as [->|(st' & ts' & ws' & -> & He' & Hlt)];
    [lia|by left|]. cbn [mbind outcome_bind]. apply (IH st' ts' ws'); [done|lia].
Qed.

Lemma trailing_loop_ok fuel st ts ws :
  encoding st ts ws → zlen src - c_pSrcPtr st < Z.of_nat fuel →
  trailing_loop src DstSize fuel st = Ret None ∨
  ∃ st' ts' ws', trailing_loop src DstSize fuel st = Ret (Some st') ∧
    encoding st' ts' ws' ∧ c_pSrcPtr st' = zlen src.
Proof.
  revert st ts ws. induction fuel as [|fuel IH]; intros st ts ws He Hf.
  { destruct He. lia. }
  cbn [trailing_loop]. pose proof He as []. pose proof size_bounds.
  destruct (Z.leb_spec (c_pSrcPtr st) (zlen src - 1)); cycle 1.
  { right. eexists _, _, _. split; [done|]. split; [done|lia]. }
  assert (u32 (DstSize - 1) = DstSize - 1) as -> by (apply u32_small; lia).
  destruct (Z.gtb_spec (bs_position (c_bs st) / 8 + 2) (DstSize - 1)); [by left|].
  rewrite src_read_in by lia. cbn [mbind outcome_bind].
  rewrite array_write_in by lia. cbn [mbind outcome_bind].
  eapply IH; [|simpl; lia]. by apply (encoding_literal st ts ws); try lia.
Qed.
End encode.

(** * The decoder on any input *)

Lemma read_LengthOfMatch_min level a len n :
  0 <= a → read_LengthOfMatch level a = Some (len, n) → 3 <= len.
Proof.
  intros Ha Hr. unfold read_LengthOfMatch in Hr.
  assert (∀ k m, 0 <= Z.land (Z.shiftr a k) m) as Hn.
  { intros. apply Z.land_nonneg. left. by apply Z.shiftr_nonneg. }
  repeat case_match; simplify_eq; try lia;
    match goal with |- 3 <= Z.land (Z.shiftr a ?k) ?m + _ => specialize (Hn k m); lia end.
Qed.
Lemma read_CopyOffset_error level a rc :
  read_CopyOffset level a = inl rc → rc = -1001 ∨ rc = -1002.
Proof. unfold read_CopyOffset. intros. repeat case_match; simplify_eq; auto. Qed.

(** The accumulator is never negative, whatever the position. *)
Lemma pull_nonneg n bs :
  0 <= bs_accumulator bs → 0 <= bs_accumulator (pull_prefetch n bs).
Proof.
  intros. simpl. apply Z.lor_nonneg. split; [done|].
  apply Z.land_nonneg. right. apply u32_range.
Qed.
Lemma shift_nonneg n bs :
  0 <= bs_accumulator bs → 0 <= bs_accumulator (BitStream_Shift n bs).
Proof.
  intros Ha. unfold BitStream_Shift. destruct (n =? 0); [done|].
  destruct (_ && _); [|done]. cbv zeta. destruct (_ <? 32).
  { apply pull_nonneg. apply u32_range. }
  destruct (negb _); [apply pull_nonneg|]; apply (pull_nonneg n); apply u32_range.
Qed.
Lemma fetch_nonneg bs : 0 <= bs_accumulator (BitStream_Fetch bs).
Proof. apply (fetch_word_range bs 0). Qed.

Lemma copy_match_ok n H hp sp :
  0 <= hp → hp + Z.of_nat n <= HISTORY_ARRAY → 0 <= sp → sp + Z.of_nat n <= HISTORY_ARRAY →
  ∃ H', copy_match n H hp sp = Ret (H', hp + Z.of_nat n).
Proof.
  revert H hp sp. induction n as [|n IH]; intros H hp sp ????.
  { exists H. simpl. by rewrite Z.add_0_r. }
  cbn [copy_match]. rewrite array_read_in by lia. cbn [mbind outcome_bind].
  rewrite array_write_in by lia. cbn [mbind outcome_bind].
  destruct (IH (<[hp := aget H sp]> H) (hp + 1) (sp + 1)) as [H' ->]; [lia..|].
  exists H'. do 2 f_equal. lia.
Qed.

(** A history of bytes. *)
Definition history_ok (H : array) : Prop := ∀ i, is_byte (aget H i).
Lemma history_ok_insert H i v : history_ok H → is_byte v → history_ok (<[i := v]> H).
Proof.
  intros HH Hv j. rewrite aget_insert. destruct (_ =? _); [done|apply HH].
Qed.
Lemma history_ok_zero n H : history_ok H → history_ok (ZeroMemory n H).
Proof. intros HH i. rewrite aget_zero. destruct (_ && _); [unfold is_byte; lia|apply HH]. Qed.
Lemma copy_match_bytes n H hp sp H' hp' : history_ok H → copy_match n H hp sp = Ret (H', hp') → history_ok H'.
Proof.
  revert H hp sp. induction n as [|n IH]; intros H hp sp HH; [by intros [= <- _]|]. cbn [copy_match].
  destruct (array_read HISTORY_ARRAY H sp) as [v|] eqn:Er; [|done]. cbn [mbind outcome_bind].
  destruct (array_write HISTORY_ARRAY hp v H) as [H1|] eqn:Ew; [|done]. cbn [mbind outcome_bind]. apply IH.
  revert Er Ew. unfold array_read, array_write. destruct (_ && _); [|done]. destruct (_ && _); [|done].
  intros [= <-] [= <-]. apply history_ok_insert; [done|apply HH].
Qed.
Lemma literal_low_byte a : is_byte (Z.shiftr (Z.land a 0x7F000000) 24).
Proof.
  rewrite Z.shiftr_land. change (Z.shiftr 0x7F000000 24) with (Z.ones 7). rewrite Z.land_ones by lia.
  unfold is_byte. pose proof (Z.mod_pos_bound (Z.shiftr a 24) (2 ^ 7) ltac:(lia)). lia.
Qed.

(** Every run of the loop ends, with a success or one of the errors of the
    source, and without an access outside the history; also when the history was longer before. *)
Lemma decompress_loop_total level size fuel H hp bs :
  size <= HISTORY_ARRAY → 0 <= hp → Z.max 0 (size - hp) < Z.of_nat fuel →
  0 <= bs_accumulator bs →
  ∃ rc H' hp' bs', decompress_loop fuel level size H hp bs = Ret (rc, H', hp', bs') ∧
    hp <= hp' <= Z.max hp size ∧ (rc = 1 ∨ -1006 <= rc <= -1001) ∧ (history_ok H → history_ok H').
Proof.
  intros Hs. revert H hp bs. induction fuel as [|fuel IH]; intros H hp bs Hhp Hf Ha; [lia|].
  assert (∀ (rc : Z) (bs : wBitStream), rc = 1 ∨ -1006 <= rc <= -1001 → ∃ rc' H' hp' bs', Ret (rc, H, hp, bs) = Ret (rc', H', hp', bs') ∧
    hp <= hp' <= Z.max hp size ∧ (rc' = 1 ∨ -1006 <= rc' <= -1001) ∧ (history_ok H → history_ok H')) as Hend.
  { intros rc bs0 Hrc. eexists _, _, _, _. split; [done|]. split; [lia|]. done. }
  cbn [decompress_loop]. destruct (negb _); [apply Hend; lia|].
  destruct (Z.gtb_spec hp (size - 1)); [apply Hend; lia|].
  assert (∀ v n, is_byte v → ∃ rc H' hp' bs',
    (H ← array_write HISTORY_ARRAY hp v H;
     decompress_loop fuel level size H (hp + 1) (BitStream_Shift n bs)) = Ret (rc, H', hp', bs') ∧
    hp <= hp' <= Z.max hp size ∧ (rc = 1 ∨ -1006 <= rc <= -1001) ∧ (history_ok H → history_ok H')) as Hlit.
  { intros v n Hv. rewrite array_write_in by lia. cbn [mbind outcome_bind].
    destruct (IH (<[hp := v]> H) (hp + 1) (BitStream_Shift n bs))
      as (rc & H' & hp' & bs' & He & ? & ? & Hok); [lia..|by apply shift_nonneg|]. eexists _, _, _, _.
    split; [done|]. split; [lia|]. split; [done|]. intros HH. by apply Hok, history_ok_insert. }
  destruct (_ =? 0); [apply Hlit, literal_low_byte|]. destruct (_ =? 0x80000000); [apply Hlit, u8_byte|].
  destruct (read_CopyOffset level _) as [rc|[off n1]] eqn:Hoff.
  { apply read_CopyOffset_error in Hoff. apply Hend; lia. }
  cbv zeta. destruct (read_LengthOfMatch level _) as [[len n2]|] eqn:Hlen; [|apply Hend; lia].
  apply read_LengthOfMatch_min in Hlen; [|by apply shift_nonneg].
  destruct (Z.gtb_spec (hp + len - 1) (size - 1)); [apply Hend; lia|].
  set (sp := Z.land _ _). destruct (_ || _) eqn:Hb; [apply Hend; lia|].
  destruct (copy_match_ok (Z.to_nat len) H hp sp) as [Hc Ec]; [lia..|]. rewrite Ec.
  cbn [mbind outcome_bind].
  destruct (IH Hc (hp + Z.of_nat (Z.to_nat len)) (BitStream_Shift n2 (BitStream_Shift n1 bs)))
    as (rc & H' & hp' & bs' & He & ? & ? & Hok); [lia..|by do 2 apply shift_nonneg|].
  eexists _, _, _, _. split; [done|]. split; [lia|]. split; [done|]. intros HH. by eapply Hok, copy_match_bytes.
Qed.

(** * Packets *)

(** The contexts of a sender and its receiver between packets. *)
Record in_sync (enc dec : MPPC_CONTEXT) : Prop := {
  sy_level : level_size (mppc_CompressionLevel enc) (mppc_HistoryBufferSize enc);
  sy_level' : mppc_CompressionLevel dec = mppc_CompressionLevel enc;
  sy_size' : mppc_HistoryBufferSize dec = mppc_HistoryBufferSize enc;
  sy_history :
    agree (mppc_HistoryBufferSize enc) (mppc_HistoryBuffer enc) (mppc_HistoryBuffer dec);
  sy_offset :
    mppc_HistoryOffset enc = 0 ∨
    (mppc_HistoryOffset enc = mppc_HistoryBufferSize enc + 1 ∧
     ∀ i, 0 <= i < mppc_HistoryBufferSize enc → aget (mppc_HistoryBuffer enc) i = 0) ∨
    (0 < mppc_HistoryOffset enc <= mppc_HistoryBufferSize enc - 2 ∧
     mppc_HistoryPtr dec = mppc_HistoryOffset enc);
  sy_Ptr : mppc_HistoryPtr enc <= mppc_HistoryBufferSize enc - 2;
  sy_Match : ∀ i, 0 <= aget (mppc_MatchBuffer enc) i <= mppc_HistoryBufferSize enc - 2;
}.

Lemma in_sync_new level : in_sync (mppc_context_new level true) (mppc_context_new level false).
Proof.
  unfold mppc_context_new. split; cbn -[ZeroMemory].
  - unfold level_size. destruct (level <? 1); auto.
  - done.
  - done.
  - done.
  - auto.
  - destruct (level <? 1); lia.
  - intros i. rewrite aget_zero. unfold aget. rewrite lookup_empty.
    destruct (level <? 1), (_ && _); simpl; lia.
Qed.

Lemma history_bytes_src H p src :
  (∀ i, 0 <= i < zlen src → aget H (p + i) = zget src i) → history_bytes H p (zlen src) = src.
Proof.
  intros Hd. unfold history_bytes, zlen. rewrite Nat2Z.id.
  apply list_eq. intros i. rewrite list_lookup_fmap.
  destruct (decide (i < length src)%nat).
  - rewrite lookup_seq_lt by done. simpl. rewrite Hd by (unfold zlen; lia).
    unfold zget. rewrite Nat2Z.id.
    destruct (lookup_lt_is_Some_2 src i) as [x Hx]; [done|].
    rewrite Hx. f_equal. by apply nth_lookup_Some.
  - rewrite lookup_seq_ge by lia. simpl. symmetry. apply lookup_ge_None. lia.
Qed.

Definition packet_flags (level : Z) (front flushed : bool) : Z :=
  Z.lor (Z.lor (Z.lor PACKET_COMPRESSED level) (if front then PACKET_AT_FRONT else 0))
    (if flushed then PACKET_FLUSHED else 0).

Lemma packet_flags_bits level size front flushed :
  level_size level size →
  (Z.land (packet_flags level front flushed) PACKET_COMPRESSED =? 0) = false ∧
  (Z.land (packet_flags level front flushed) PACKET_AT_FRONT =? 0) = negb front ∧
  (Z.land (packet_flags level front flushed) PACKET_FLUSHED =? 0) = negb flushed.
Proof. intros [[-> _]|[-> _]]; by destruct front, flushed. Qed.

(** Where [mppc_compress] puts a packet. *)
Definition in_place (enc : MPPC_CONTEXT) (n : Z) : bool :=
  (u32 (mppc_HistoryOffset enc + n) <? u32 (mppc_HistoryBufferSize enc - 3))
    && negb (mppc_HistoryOffset enc =? 0).
Definition packet_start (enc : MPPC_CONTEXT) (n : Z) : Z :=
  if in_place enc n then mppc_HistoryOffset enc else 0.
Definition packet_flushed (enc : MPPC_CONTEXT) (n : Z) : bool :=
  negb (in_place enc n) && (mppc_HistoryOffset enc =? u32 (mppc_HistoryBufferSize enc + 1)).
Definition dst_size (src buf : list Z) : Z :=
  if zlen buf >? zlen src then zlen src else zlen buf.

(** A packet the sender may be given: at most the history less two bytes, and
    some room for the result. *)
Definition packet_ok (enc : MPPC_CONTEXT) (src buf : list Z) : Prop :=
  bytes src ∧ bytes buf ∧ zlen src <= mppc_HistoryBufferSize enc - 2 ∧
  (zlen src > 0 → zlen buf > 0).

Lemma packet_start_fits enc dec src buf :
  in_sync enc dec → packet_ok enc src buf →
  0 <= packet_start enc (zlen src) ∧
  packet_start enc (zlen src) + zlen src <= mppc_HistoryBufferSize enc - 2.
Proof.
  intros [] (_ & _ & Hn & _). pose proof (zlen_nonneg src).
  pose proof (level_size_bounds _ _ sy_level0) as Hsz. unfold HISTORY_ARRAY in Hsz.
  unfold packet_start, in_place. rewrite !u32_small by lia.
  destruct (_ && _) eqn:Hb; lia.
Qed.

Definition flushed_result (enc : MPPC_CONTEXT) (src : list Z) : MPPC_CONTEXT * compressed :=
  (mppc_context_reset true enc,
   mkCompressed (Z.lor PACKET_FLUSHED (mppc_CompressionLevel enc)) src).
Definition packet_result (enc : MPPC_CONTEXT) (n : Z) (st : compress_state) : MPPC_CONTEXT * compressed :=
  let bs := BitStream_Flush (c_bs st) in
  (mkMPPC bs (mppc_Compressor enc) (c_HistoryPtr st) (u32 (c_HistoryPtr st))
     (mppc_HistoryBufferSize enc) (c_History st) (c_Match st) (mppc_CompressionLevel enc),
   mkCompressed
     (packet_flags (mppc_CompressionLevel enc) (negb (in_place enc n)) (packet_flushed enc n))
     (ztake ((bs_position bs + 7) / 8) (bs_buffer bs))).

Abbreviation packet_encoding enc src buf :=
  (encoding (mppc_CompressionLevel enc) (mppc_HistoryBufferSize enc) (dst_size src buf) src
     (mppc_HistoryBuffer enc) (packet_start enc (zlen src))).

(** The sender's side of a packet: given up, or a sequence of tokens. *)
Lemma compress_packet before enc dec src buf :
  in_sync enc dec → packet_ok enc src buf →
  mppc_compress before enc src buf = Ret (flushed_result enc src) ∨
  ∃ st ts ws, mppc_compress before enc src buf = Ret (packet_result enc (zlen src) st) ∧
    packet_encoding enc src buf st ts ws ∧ c_pSrcPtr st = zlen src.
Proof.
  intros Hsync Hpkt. pose proof Hsync as []. pose proof Hpkt as (Hsrc & Hbuf & Hn & Hd).
  pose proof (packet_start_fits _ _ _ _ Hsync Hpkt) as Hfit.
  pose proof (level_size_bounds _ _ sy_level0) as Hsz. unfold HISTORY_ARRAY in Hsz.
  pose proof (zlen_nonneg src). pose proof (zlen_nonneg buf).
  assert (zlen src > 0 → 0 < dst_size src buf <= 65536) as Hdst
    by (unfold dst_size; destruct (Z.gtb_spec (zlen buf) (zlen src)); lia).
  assert (0 <= dst_size src buf <= zlen buf) as Hcap
    by (unfold dst_size; destruct (Z.gtb_spec (zlen buf) (zlen src)); lia).
  set (st0 := mkCompress 0 (packet_start enc (zlen src)) (mppc_HistoryPtr enc)
    (mppc_HistoryBuffer enc) (mppc_MatchBuffer enc)
    (BitStream_Attach buf (dst_size src buf) (mppc_bs enc))).
  assert (packet_encoding enc src buf st0 [] []) as He0.
  { split; cbn; try done; try zlia. apply writing_attach; [lia|done]. }
  unfold mppc_compress. cbv zeta. fold (in_place enc (zlen src)) (packet_start enc (zlen src))
    (packet_flushed enc (zlen src)) (dst_size src buf) st0.
  edestruct (compress_loop_ok before) as [->|(st1 & ts1 & ws1 & -> & He1)];
    [done..|exact He0|unfold st0, zlen; simpl; lia|by left|].
  cbn [mbind outcome_bind].
  edestruct trailing_loop_ok as [->|(st2 & ts2 & ws2 & -> & He2 & Hend)];
    [done..|exact He1|destruct He1; unfold zlen; lia|by left|].
  right. by exists st2, ts2, ws2.
Qed.

(** The receiver reads the bytes of the buffer that carry bits. *)
Lemma holds_truncated bs B n bs' :
  writing bs B → zlen B <= 8 * n → n <= bs_capacity bs →
  holds (BitStream_Fetch (BitStream_Attach (ztake n (bs_buffer (BitStream_Flush bs))) n bs')) B.
Proof.
  intros Hw Hn Hc i Hi. etransitivity; [|by apply (holds_attach bs B n bs' Hw Hn Hc i Hi)].
  unfold bit. cbn [bs_buffer bs_capacity bs_position BitStream_Fetch BitStream_Prefetch
    BitStream_Attach set_prefetch set_accumulator]. rewrite Z.add_0_l.
  rewrite zget_ztake by div_mod_lia. done.
Qed.

(** Where the receiver starts, and on which history. *)
Lemma packet_start_dec enc dec n :
  in_sync enc dec → 0 <= n <= 65536 →
  (if negb (in_place enc n) || packet_flushed enc n then 0 else mppc_HistoryPtr dec)
    = packet_start enc n ∧
  agree (mppc_HistoryBufferSize enc) (mppc_HistoryBuffer enc)
    (if packet_flushed enc n then ZeroMemory (mppc_HistoryBufferSize dec) (mppc_HistoryBuffer dec)
     else mppc_HistoryBuffer dec).
Proof.
  intros [] Hn. unfold packet_flushed, packet_start, in_place.
  pose proof (level_size_bounds _ _ sy_level0) as Hsz. unfold HISTORY_ARRAY in Hsz.
  assert (mppc_HistoryOffset enc <= mppc_HistoryBufferSize enc + 1 ∧ 0 <= mppc_HistoryOffset enc)
    by lia.
  rewrite !u32_small by lia.
  destruct ((_ <? _) && negb _) eqn:Hb; simpl.
  - split; [lia|done].
  - split; [done|]. destruct (Z.eqb_spec (mppc_HistoryOffset enc) (mppc_HistoryBufferSize enc + 1));
      [|done]. intros i Hi. rewrite aget_zero, sy_size'0.
    replace ((0 <=? i) && (i <? mppc_HistoryBufferSize enc)) with true by lia.
    destruct sy_offset0 as [?|[[_ Hz]|?]]; [lia|auto|lia].
Qed.

(** The receiver's side of a packet of tokens. *)
Lemma decompress_packet enc dec src buf st ts ws :
  in_sync enc dec → packet_ok enc src buf → packet_encoding enc src buf st ts ws →
  c_pSrcPtr st = zlen src →
  let '(enc', r) := packet_result enc (zlen src) st in
  zlen (cr_data r) <= dst_size src buf ∧
  ∃ dec', mppc_decompress dec (cr_data r) (cr_flags r) = Ret (1, dec', Some src) ∧
    in_sync enc' dec'.
Proof.
  intros Hsync Hpkt [] Hend. pose proof Hsync as []. pose proof Hpkt as (Hsrc & Hbuf & Hn & _).
  destruct (packet_start_fits _ _ _ _ Hsync Hpkt) as [Hp0 Hp1]. pose proof (zlen_nonneg src).
  pose proof (level_size_bounds _ _ sy_level0) as Hsz. unfold HISTORY_ARRAY in Hsz.
  destruct (packet_start_dec enc dec (zlen src) Hsync) as [Hst Hag]; [lia|].
  assert (dst_size src buf <= 65536) as Hd
    by (unfold dst_size; destruct (Z.gtb_spec (zlen buf) (zlen src)); lia).
  destruct (run_tokens_agree _ _ _ _ _ _ _ _ Hag ltac:(unfold HISTORY_ARRAY; lia) Hp0 en_run0)
    as (Hdec & Hrun & Hag').
  destruct (flush_frame (c_bs st)) as (_ & _ & _ & HN & _ & HZ & HB).
  unfold packet_result. set (data := ztake _ _). set (fl := packet_flags _ _ _).
  pose proof en_writing0 as [_ _ _ Hlen Hsize Hbytes _ _ _].
  set (n := (bs_position (BitStream_Flush (c_bs st)) + 7) / 8) in *.
  assert (zlen (word_bits ws) <= 8 * n < zlen (word_bits ws) + 8) as Hn8
    by (unfold n; rewrite HN, Hlen; div_mod_lia).
  assert (zlen data = n) as Hdata by (unfold data; rewrite zlen_ztake, HZ; zlia).
  split; [simpl; lia|].
  set (bs0 := BitStream_Fetch (BitStream_Attach data n (mppc_bs dec))).
  assert (bs_length bs0 = 8 * n) as Hl0 by (unfold bs0; simpl; rewrite u32_small; zlia).
  destruct (decode_tokens (mppc_CompressionLevel enc) (mppc_HistoryBufferSize enc)
    ltac:(unfold HISTORY_ARRAY; lia) (decompress_fuel dec) ts ws _ _ _ _ bs0
    ltac:(by apply reading_attach, Forall_ztake, HB)
    ltac:(apply holds_truncated; [done|lia|lia]) en_ok0 en_words0 Hrun Hp0
    ltac:(lia) ltac:(unfold decompress_fuel; lia) ltac:(simpl; rewrite u32_small; zlia))
    as (bs' & Hloop).
  destruct (packet_flags_bits _ _ (negb (in_place enc (zlen src)))
    (packet_flushed enc (zlen src)) sy_level0) as (F1 & F2 & F3). fold fl in F1, F2, F3.
  unfold mppc_decompress. cbn [cr_data cr_flags]. rewrite F1, F2, F3, Hdata. cbv zeta.
  rewrite !negb_involutive, Hst, sy_level'0. fold bs0. rewrite sy_size'0 in *. rewrite Hloop.
  cbn [mbind outcome_bind].
  assert (c_HistoryPtr st - packet_start enc (zlen src) = zlen src) as -> by lia.
  rewrite history_bytes_src; cycle 1.
  { intros i Hi. rewrite <- Hag' by lia. apply en_data0. lia. }
  eexists. split; [done|].
  split; cbn; try done; try lia. rewrite u32_small by lia. lia.
Qed.

(** A packet given up: both sides start over with an empty history. *)
Lemma flushed_packet enc dec src :
  in_sync enc dec →
  let '(enc', r) := flushed_result enc src in
  cr_data r = src ∧
  ∃ dec', mppc_decompress dec (cr_data r) (cr_flags r) = Ret (1, dec', Some src) ∧
    in_sync enc' dec'.
Proof.
  intros []. unfold flushed_result, mppc_decompress. cbn [cr_data cr_flags].
  assert ((Z.land (Z.lor PACKET_FLUSHED (mppc_CompressionLevel enc)) PACKET_COMPRESSED =? 0) = true
    ∧ (Z.land (Z.lor PACKET_FLUSHED (mppc_CompressionLevel enc)) PACKET_FLUSHED =? 0) = false)
    as [-> ->] by (by destruct sy_level0 as [[-> _]|[-> _]]).
  split; [done|]. eexists. split; [done|].
  pose proof (level_size_bounds _ _ sy_level0) as Hsz.
  assert (∀ i n a, 0 <= i < n → aget (ZeroMemory n a) i = 0) as Hz.
  { intros i n a Hi. rewrite aget_zero. by replace ((0 <=? i) && (i <? n)) with true by lia. }
  unfold mppc_context_reset. split; cbn; try done; try lia.
  - intros i Hi. rewrite sy_size'0, !Hz by lia. done.
  - unfold HISTORY_ARRAY in Hsz. rewrite u32_small by lia. right. left. split; [done|].
    intros i Hi. apply Hz. unfold HISTORY_ARRAY. lia.
  - intros i. rewrite aget_zero. destruct (_ && _); [lia|apply sy_Match0].
Qed.

Lemma packet_roundtrip before enc dec src buf :
  in_sync enc dec → packet_ok enc src buf →
  ∃ enc' r dec', mppc_compress before enc src buf = Ret (enc', r) ∧
    zlen (cr_data r) <= zlen src ∧
    mppc_decompress dec (cr_data r) (cr_flags r) = Ret (1, dec', Some src) ∧
    in_sync enc' dec' ∧ mppc_HistoryBufferSize enc' = mppc_HistoryBufferSize enc.
Proof.
  intros Hs Hp.
  destruct (compress_packet before enc dec src buf Hs Hp)
    as [->|(st & ts & ws & -> & He & Hend)].
  - destruct (flushed_packet enc dec src Hs) as (Hd & dec' & Hdec & Hs').
    eexists _, _, _. split_and!; [done|by rewrite Hd|done..].
  - destruct (decompress_packet enc dec src buf st ts ws Hs Hp He Hend)
      as (Hz & dec' & Hdec & Hs').
    eexists _, _, _. split_and!; try done. etransitivity; [done|].
    unfold dst_size. destruct (Z.gtb_spec (zlen buf) (zlen src)); lia.
Qed.

(** * Sessions *)



(** * Properties *)


(** One packet: between contexts in step, the packet is recovered, its
    encoding is not larger than the packet, and the contexts stay in step. *)
Theorem mppc_packet_roundtrip before enc dec src buf :
  in_sync enc dec → packet_ok enc src buf →
  ∃ enc' r dec', mppc_compress before enc src buf = Ret (enc', r) ∧
    zlen (cr_data r) <= zlen src ∧
    mppc_decompress dec (cr_data r) (cr_flags r) = Ret (1, dec', Some src) ∧
    in_sync enc' dec'.
Proof.
  intros Hs Hp.
  destruct (packet_roundtrip before enc dec src buf Hs Hp) as (enc' & r & dec' & ?).
  exists enc', r, dec'. tauto.
Qed.

(** One packet, whatever it is, and whatever the level was before. *)
Lemma mppc_decompress_total dec data flags :
  0 <= mppc_HistoryBufferSize dec <= HISTORY_ARRAY → 0 <= mppc_HistoryPtr dec →
  ∃ rc dec' dst, mppc_decompress dec data flags = Ret (rc, dec', dst) ∧
    0 <= mppc_HistoryPtr dec' <= Z.max (mppc_HistoryPtr dec) (mppc_HistoryBufferSize dec) ∧
    mppc_HistoryBufferSize dec' = mppc_HistoryBufferSize dec ∧
    (history_ok (mppc_HistoryBuffer dec) → history_ok (mppc_HistoryBuffer dec')) ∧
    (rc = 1 ∧ (∃ d, dst = Some d ∧ (d = data ∨ zlen d <= mppc_HistoryBufferSize dec) ∧
                 (history_ok (mppc_HistoryBuffer dec) → bytes data → bytes d)) ∨
     -1006 <= rc <= -1001 ∧ dst = None).
Proof.
  intros Hs Hp. unfold mppc_decompress. cbv zeta.
  set (bs := BitStream_Fetch _). set (hp := if _ || _ then 0 else mppc_HistoryPtr dec).
  assert (0 <= hp <= mppc_HistoryPtr dec) as Hhp by (unfold hp; case_match; lia).
  set (H := if negb _ then ZeroMemory _ _ else _).
  assert (history_ok (mppc_HistoryBuffer dec) → history_ok H) as HH by (unfold H; case_match; [apply history_ok_zero|done]).
  destruct (Z.land flags PACKET_COMPRESSED =? 0).
  { eexists _, _, _. split; [done|]. cbn. split; [lia|]. split; [done|]. split; [done|]. left. split; [done|]. exists data. auto. }
  destruct (decompress_loop_total (mppc_CompressionLevel dec) (mppc_HistoryBufferSize dec)
    (decompress_fuel dec) H hp bs) as (rc & H' & hp' & bs' & -> & Hhp' & Hrc & HH');
    [lia..|unfold decompress_fuel; lia|apply fetch_nonneg|].
  cbn [mbind outcome_bind]. destruct (Z.eqb_spec rc 1).
  - eexists _, _, _. split; [done|]. cbn. split; [lia|]. split; [done|]. split; [auto|]. left. split; [done|].
    eexists. split; [done|]. split.
    + right. unfold zlen, history_bytes. rewrite length_map, length_seq. destruct (Z.max_spec hp (mppc_HistoryBufferSize dec)); lia.
    + intros Hok _. apply Forall_forall. intros x Hx. unfold history_bytes in Hx. apply list_elem_of_fmap in Hx as (i & -> & _).
      by apply HH', HH.
  - eexists _, _, _. split; [done|]. cbn. split; [lia|]. split; [done|]. split; [auto|]. right. split; [lia|done].
Qed.

(** C10. The MPPC decoder on hostile input: for any bytes and any flags,
    [mppc_decompress] ends, makes no access outside the history buffer, returns
    1 or one of its error codes, and leaves a context it can be called with
    again; on success the data is no longer than the history. *)
Theorem mppc_decompress_safe dec data flags :
  level_size (mppc_CompressionLevel dec) (mppc_HistoryBufferSize dec) →
  0 <= mppc_HistoryPtr dec <= mppc_HistoryBufferSize dec →
  ∃ rc dec' dst, mppc_decompress dec data flags = Ret (rc, dec', dst) ∧
    0 <= mppc_HistoryPtr dec' <= mppc_HistoryBufferSize dec' ∧
    mppc_HistoryBufferSize dec' = mppc_HistoryBufferSize dec ∧
    (rc = 1 ∧ (∃ d, dst = Some d ∧ (d = data ∨ zlen d <= mppc_HistoryBufferSize dec)) ∨
     -1006 <= rc <= -1001 ∧ dst = None).
Proof.
  intros Hl Hp. pose proof (level_size_bounds _ _ Hl) as Hs.
  destruct (mppc_decompress_total dec data flags) as (rc & dec' & dst & E & Hp' & Hsz & _ & Hrc); [lia..|].
  exists rc, dec', dst. split; [done|]. split; [lia|]. split; [done|].
  destruct Hrc as [[-> (d & -> & Hd & _)]|Hrc]; [left|by right]. split; [done|]. eauto.
Qed.

(** The code words of a match: [mppc_decompress] reads back every
    [CopyOffset] and [LengthOfMatch] that [mppc_compress] can write, from an
    accumulator that holds any bits behind them, and skips exactly the bits
    written. *)
Theorem mppc_codes_roundtrip level size off len v n v' n' a :
  level_size level size → 0 <= off < size → 3 <= len < size → 0 <= a < 2 ^ 32 →
  (∃ v n, CopyOffset_word level off = Some (v, n)) ∧
  (∃ v n, LengthOfMatch_word level len = Some (v, n)) ∧
  (CopyOffset_word level off = Some (v, n) → a / 2 ^ (32 - n) = v →
   read_CopyOffset level a = inr (off, n)) ∧
  (LengthOfMatch_word level len = Some (v', n') → a / 2 ^ (32 - n') = v' →
   read_LengthOfMatch level a = Some (len, n')).
Proof.
  intros Hl Hoff Hlen Ha. split_and!.
  - by eapply CopyOffset_word_some.
  - by eapply LengthOfMatch_word_some.
  - intros Hw Hv. eapply read_CopyOffset_word; try done.
    destruct Hl as [[_ ->]|[_ ->]]; lia.
  - intros Hw Hv. by eapply read_LengthOfMatch_word.
Qed.

(** * Witnesses *)


Lemma mppc_packet_roundtrip_witness :
  ∃ enc' r dec',
    mppc_compress 0 (mppc_context_new 0 true) TEST_MPPC_BELLS (zeros 49) = Ret (enc', r) ∧
    zlen (cr_data r) <= 49 ∧
    mppc_decompress (mppc_context_new 0 false) (cr_data r) (cr_flags r) =
      Ret (1, dec', Some TEST_MPPC_BELLS) ∧
    in_sync enc' dec'.
Proof.
  apply (mppc_packet_roundtrip 0 _ _ TEST_MPPC_BELLS (zeros 49)); [apply in_sync_new|].
  split_and!; [by repeat constructor|apply bytes_zeros|by vm_compute|done].
Defined.

(** A copy that reaches outside the history. *)
Lemma mppc_decompress_safe_witness :
  ∃ rc dec' dst,
    mppc_decompress (mppc_context_new 1 false) [192; 0; 1; 255] 0x20 = Ret (rc, dec', dst) ∧
    0 <= mppc_HistoryPtr dec' <= mppc_HistoryBufferSize dec' ∧
    mppc_HistoryBufferSize dec' = 65536 ∧
    (rc = 1 ∧ (∃ d, dst = Some d ∧ (d = [192; 0; 1; 255] ∨ zlen d <= 65536)) ∨
     -1006 <= rc <= -1001 ∧ dst = None).
Proof.
  apply (mppc_decompress_safe (mppc_context_new 1 false) [192; 0; 1; 255] 0x20); [by right|].
  by vm_compute.
Defined.

Lemma mppc_codes_roundtrip_witness :
  level_size 1 65536 ∧ read_CopyOffset 1 (0x60000 * 2 ^ 13 + 5) = inr (2368, 19) ∧
  read_LengthOfMatch 1 (0x8 * 2 ^ 28 + 77) = Some (4, 4).
Proof.
  split; [by right|]. split.
  - by apply (mppc_codes_roundtrip 1 65536 2368 4 0x60000 19 0 0); [right|..].
  - by apply (mppc_codes_roundtrip 1 65536 2368 4 0 0 8 4); [right|..].
Defined.
