(* ===== verification/Zgfx.v ===== *)
(** The RDP8 bulk codec of the graphics pipeline (libfreerdp/codec/zgfx.c): the
    decoder of compressed segments with its 2.5 MB history ring, the container of
    single and multipart segments, and the encoder, which stores segments without
    compressing them. *)

From S2P Require Import Prelude Arrays Stream.
From stdpp Require Import prelude list numbers gmap.
From Stdlib Require Import ZArith Lia.

#[local] Open Scope Z_scope.

Definition ZGFX_SEGMENTED_SINGLE : Z := 0xE0.
Definition ZGFX_SEGMENTED_MULTIPART : Z := 0xE1.
Definition ZGFX_PACKET_COMPR_TYPE_RDP8 : Z := 0x04.
Definition ZGFX_SEGMENTED_MAXSIZE : Z := 65535.
Definition ZGFX_PACKET_COMPRESSED : Z := 0x20.

Record ZGFX_TOKEN : Type := mkToken {
  prefixLength : Z;
  prefixCode : Z;
  valueBits : Z;
  tokenType : Z;
  valueBase : Z;
}.

(** Without the terminating entry. *)
Definition ZGFX_TOKEN_TABLE : list ZGFX_TOKEN := [
  mkToken 1 0 8 0 0;
  mkToken 5 17 5 1 0;
  mkToken 5 18 7 1 32;
  mkToken 5 19 9 1 160;
  mkToken 5 20 10 1 672;
  mkToken 5 21 12 1 1696;
  mkToken 5 24 0 0 0x00;
  mkToken 5 25 0 0 0x01;
  mkToken 6 44 14 1 5792;
  mkToken 6 45 15 1 22176;
  mkToken 6 52 0 0 0x02;
  mkToken 6 53 0 0 0x03;
  mkToken 6 54 0 0 0xFF;
  mkToken 7 92 18 1 54944;
  mkToken 7 93 20 1 317088;
  mkToken 7 110 0 0 0x04;
  mkToken 7 111 0 0 0x05;
  mkToken 7 112 0 0 0x06;
  mkToken 7 113 0 0 0x07;
  mkToken 7 114 0 0 0x08;
  mkToken 7 115 0 0 0x09;
  mkToken 7 116 0 0 0x0A;
  mkToken 7 117 0 0 0x0B;
  mkToken 7 118 0 0 0x3A;
  mkToken 7 119 0 0 0x3B;
  mkToken 7 120 0 0 0x3C;
  mkToken 7 121 0 0 0x3D;
  mkToken 7 122 0 0 0x3E;
  mkToken 7 123 0 0 0x3F;
  mkToken 7 124 0 0 0x40;
  mkToken 7 125 0 0 0x80;
  mkToken 8 188 20 1 1365664;
  mkToken 8 189 21 1 2414240;
  mkToken 8 252 0 0 0x0C;
  mkToken 8 253 0 0 0x38;
  mkToken 8 254 0 0 0x39;
  mkToken 8 255 0 0 0x66;
  mkToken 9 380 22 1 4511392;
  mkToken 9 381 23 1 8705696;
  mkToken 9 382 24 1 17094304].

(** [pbInput] holds the bytes from [pbInputCurrent] to [pbInputEnd], and
    [Output] the first [OutputCount] bytes of [OutputBuffer]: no other byte of
    it is ever read. *)
Record ZGFX_CONTEXT : Type := mkZgfx {
  zgfx_pbInput : list Z;
  zgfx_bits : Z;
  zgfx_cBitsRemaining : Z;
  zgfx_BitsCurrent : Z;
  zgfx_cBitsCurrent : Z;
  zgfx_Output : list Z;
  zgfx_HistoryBuffer : array;
  zgfx_HistoryIndex : Z;
  zgfx_HistoryBufferSize : Z;
}.

Definition OUTPUT_SIZE : Z := 65536.
Definition HISTORY_SIZE : Z := 2500000.

Definition zgfx_OutputCount (zgfx : ZGFX_CONTEXT) : Z := zlen (zgfx_Output zgfx).

Definition set_input (input : list Z) (bits remaining current count : Z) (zgfx : ZGFX_CONTEXT)
    : ZGFX_CONTEXT :=
  mkZgfx input bits remaining current count (zgfx_Output zgfx) (zgfx_HistoryBuffer zgfx)
    (zgfx_HistoryIndex zgfx) (zgfx_HistoryBufferSize zgfx).
Definition set_output (output : list Z) (zgfx : ZGFX_CONTEXT) : ZGFX_CONTEXT :=
  mkZgfx (zgfx_pbInput zgfx) (zgfx_bits zgfx) (zgfx_cBitsRemaining zgfx) (zgfx_BitsCurrent zgfx)
    (zgfx_cBitsCurrent zgfx) output (zgfx_HistoryBuffer zgfx)
    (zgfx_HistoryIndex zgfx) (zgfx_HistoryBufferSize zgfx).
Definition set_history (history : array) (index : Z) (zgfx : ZGFX_CONTEXT) : ZGFX_CONTEXT :=
  mkZgfx (zgfx_pbInput zgfx) (zgfx_bits zgfx) (zgfx_cBitsRemaining zgfx) (zgfx_BitsCurrent zgfx)
    (zgfx_cBitsCurrent zgfx) (zgfx_Output zgfx) history index (zgfx_HistoryBufferSize zgfx).

(** The bytes [src] stored behind the output; the buffer has [OUTPUT_SIZE]
    bytes. *)
Definition put_output (src : list Z) (zgfx : ZGFX_CONTEXT) : outcome ZGFX_CONTEXT :=
  if zgfx_OutputCount zgfx + zlen src <=? OUTPUT_SIZE
  then Ret (set_output (zgfx_Output zgfx ++ src) zgfx) else Abort.

(** * Bits *)

Fixpoint fill_bits (fuel : nat) (nbits : Z) (zgfx : ZGFX_CONTEXT) : outcome ZGFX_CONTEXT :=
  if zgfx_cBitsCurrent zgfx <? nbits then
    match fuel with
    | O => Abort
    | S fuel =>
        let current := u32 (Z.shiftl (zgfx_BitsCurrent zgfx) 8) in
        let '(current, input) :=
          match zgfx_pbInput zgfx with
          | [] => (current, [])
          | b :: input => (u32 (current + b), input)
          end in
        fill_bits fuel nbits
          (set_input input (zgfx_bits zgfx) (zgfx_cBitsRemaining zgfx) current
             (zgfx_cBitsCurrent zgfx + 8) zgfx)
    end
  else Ret zgfx.

(** Shifting a [UINT32] by 32 or more is undefined. *)
Definition zgfx_GetBits (nbits : Z) (zgfx : ZGFX_CONTEXT) : outcome ZGFX_CONTEXT :=
  zgfx ← fill_bits (Z.to_nat nbits) nbits zgfx;
  let count := zgfx_cBitsCurrent zgfx - nbits in
  if 32 <=? count then Abort
  else
    Ret (set_input (zgfx_pbInput zgfx) (Z.shiftr (zgfx_BitsCurrent zgfx) count)
           (u32 (zgfx_cBitsRemaining zgfx - nbits))
           (Z.land (zgfx_BitsCurrent zgfx) (Z.shiftl 1 count - 1)) count zgfx).

(** * The history ring *)

Definition zgfx_history_buffer_ring_write (src : list Z) (zgfx : ZGFX_CONTEXT)
    : outcome ZGFX_CONTEXT :=
  let size := zgfx_HistoryBufferSize zgfx in
  let H := zgfx_HistoryBuffer zgfx in
  if zlen src <=? 0 then Ret zgfx
  else
    let residue := zlen src - size in
    let '(src, index) :=
      if zlen src >? size
      then (zdrop residue src, (zgfx_HistoryIndex zgfx + residue) mod size)
      else (src, zgfx_HistoryIndex zgfx) in
    if index + zlen src <=? size then
      H ← array_put HISTORY_SIZE index src H;
      let index := index + zlen src in
      Ret (set_history H (if index =? size then 0 else index) zgfx)
    else
      let front := size - index in
      H ← array_put HISTORY_SIZE index (ztake front src) H;
      H ← array_put HISTORY_SIZE 0 (zdrop front src) H;
      Ret (set_history H (zlen src - front) zgfx).

(** The [do] loop: [dst] is what was written so far, of which the first
    [valid] bytes are copied behind it. *)
Fixpoint copy_again (fuel : nat) (bytesLeft valid : Z) (dst : list Z) : outcome (list Z) :=
  match fuel with
  | O => Abort
  | S fuel =>
      let bytes := if valid >? bytesLeft then bytesLeft else valid in
      src ← (if bytes <=? zlen dst then Ret (ztake bytes dst) else Abort);
      let dst := dst ++ src in
      if bytesLeft - bytes >? 0
      then copy_again fuel (bytesLeft - bytes) (u32 (Z.shiftl valid 1)) dst else Ret dst
  end.

(** The bytes written to [dst]. *)
Definition zgfx_history_buffer_ring_read (offset count : Z) (zgfx : ZGFX_CONTEXT)
    : outcome (list Z) :=
  let size := zgfx_HistoryBufferSize zgfx in
  let H := zgfx_HistoryBuffer zgfx in
  if (count <=? 0) || (count >? 2147483647) then Ret []
  else
    let index := u32 (zgfx_HistoryIndex zgfx + size - offset) mod size in
    let bytes := Z.min count offset in
    dst ←
      (if index + bytes <=? size then array_get HISTORY_SIZE index bytes H
       else
         let front := size - index in
         first ← array_get HISTORY_SIZE index front H;
         second ← array_get HISTORY_SIZE 0 (bytes - front) H;
         Ret (first ++ second));
    if count - bytes =? 0 then Ret dst
    else copy_again (Z.to_nat count) (count - bytes) bytes dst.

(** * Tokens *)

(** Read bits until the prefix has [n] of them: [inPrefix], [haveBits]. *)
Fixpoint read_prefix (fuel : nat) (n haveBits inPrefix : Z) (zgfx : ZGFX_CONTEXT)
    : outcome (Z * Z * ZGFX_CONTEXT) :=
  if haveBits <? n then
    match fuel with
    | O => Abort
    | S fuel =>
        zgfx ← zgfx_GetBits 1 zgfx;
        read_prefix fuel n (haveBits + 1) (u32 (u32 (Z.shiftl inPrefix 1) + zgfx_bits zgfx)) zgfx
    end
  else Ret (haveBits, inPrefix, zgfx).

(** The first entry whose prefix is in the input; [None] when there is none,
    after the bits of the longest prefix. *)
Fixpoint find_token (table : list ZGFX_TOKEN) (haveBits inPrefix : Z) (zgfx : ZGFX_CONTEXT)
    : outcome (option ZGFX_TOKEN * ZGFX_CONTEXT) :=
  match table with
  | [] => Ret (None, zgfx)
  | op :: table =>
      '(haveBits, inPrefix, zgfx) ← read_prefix 9 (prefixLength op) haveBits inPrefix zgfx;
      if inPrefix =? prefixCode op then Ret (Some op, zgfx)
      else find_token table haveBits inPrefix zgfx
  end.

Definition decode_literal (op : ZGFX_TOKEN) (zgfx : ZGFX_CONTEXT)
    : outcome (bool * ZGFX_CONTEXT) :=
  zgfx ← zgfx_GetBits (valueBits op) zgfx;
  let c := u8 (valueBase op + zgfx_bits zgfx) in
  H ← array_write HISTORY_SIZE (zgfx_HistoryIndex zgfx) c (zgfx_HistoryBuffer zgfx);
  let index := zgfx_HistoryIndex zgfx + 1 in
  let zgfx := set_history H (if index =? zgfx_HistoryBufferSize zgfx then 0 else index) zgfx in
  if zgfx_OutputCount zgfx >=? OUTPUT_SIZE then Ret (false, zgfx)
  else zgfx ← put_output [c] zgfx; Ret (true, zgfx).

(** [while (zgfx->bits == 1)]: [count], [extra]. *)
Fixpoint read_count (fuel : nat) (count extra : Z) (zgfx : ZGFX_CONTEXT)
    : outcome (Z * Z * ZGFX_CONTEXT) :=
  if zgfx_bits zgfx =? 1 then
    match fuel with
    | O => Abort
    | S fuel =>
        zgfx ← zgfx_GetBits 1 zgfx;
        read_count fuel (u32 (count * 2)) (u32 (extra + 1)) zgfx
    end
  else Ret (count, extra, zgfx).

(** Bits that are left in the input, the padding included. *)
Definition input_bits (zgfx : ZGFX_CONTEXT) : nat :=
  Z.to_nat (8 * zlen (zgfx_pbInput zgfx) + zgfx_cBitsCurrent zgfx).

Definition match_count (zgfx : ZGFX_CONTEXT) : outcome (Z * ZGFX_CONTEXT) :=
  zgfx ← zgfx_GetBits 1 zgfx;
  if zgfx_bits zgfx =? 0 then Ret (3, zgfx)
  else
    zgfx ← zgfx_GetBits 1 zgfx;
    '(count, extra, zgfx) ← read_count (S (input_bits zgfx)) 4 2 zgfx;
    zgfx ← zgfx_GetBits extra zgfx;
    Ret (u32 (count + zgfx_bits zgfx), zgfx).

Definition decode_match (distance : Z) (zgfx : ZGFX_CONTEXT) : outcome (bool * ZGFX_CONTEXT) :=
  '(count, zgfx) ← match_count zgfx;
  if count >? OUTPUT_SIZE - zgfx_OutputCount zgfx then Ret (false, zgfx)
  else if 2147483647 <? distance then Abort
  else
    dst ← zgfx_history_buffer_ring_read distance count zgfx;
    zgfx ← put_output dst zgfx;
    zgfx ← zgfx_history_buffer_ring_write dst zgfx;
    Ret (true, zgfx).

Definition decode_unencoded (zgfx : ZGFX_CONTEXT) : outcome (bool * ZGFX_CONTEXT) :=
  zgfx ← zgfx_GetBits 15 zgfx;
  let count := zgfx_bits zgfx in
  let zgfx := set_input (zgfx_pbInput zgfx) (zgfx_bits zgfx)
                (u32 (zgfx_cBitsRemaining zgfx - zgfx_cBitsCurrent zgfx)) 0 0 zgfx in
  if count >? OUTPUT_SIZE - zgfx_OutputCount zgfx then Ret (false, zgfx)
  else if count >? zgfx_cBitsRemaining zgfx / 8 then Ret (false, zgfx)
  else if count >? zlen (zgfx_pbInput zgfx) then Ret (false, zgfx)
  else
    let src := ztake count (zgfx_pbInput zgfx) in
    zgfx ← put_output src zgfx;
    zgfx ← zgfx_history_buffer_ring_write src zgfx;
    Ret (true, set_input (zdrop count (zgfx_pbInput zgfx)) (zgfx_bits zgfx)
                 (u32 (zgfx_cBitsRemaining zgfx - 8 * count)) (zgfx_BitsCurrent zgfx)
                 (zgfx_cBitsCurrent zgfx) zgfx).

Definition decode_token (op : ZGFX_TOKEN) (zgfx : ZGFX_CONTEXT) : outcome (bool * ZGFX_CONTEXT) :=
  if tokenType op =? 0 then decode_literal op zgfx
  else
    zgfx ← zgfx_GetBits (valueBits op) zgfx;
    let distance := valueBase op + zgfx_bits zgfx in
    if negb (distance =? 0) then decode_match distance zgfx else decode_unencoded zgfx.

(** [while (zgfx->cBitsRemaining)].  Every round consumes a bit of the input or
    adds a byte to the output, or fails: the fuel covers both. *)
Fixpoint decompress_tokens (fuel : nat) (zgfx : ZGFX_CONTEXT) : outcome (bool * ZGFX_CONTEXT) :=
  if zgfx_cBitsRemaining zgfx =? 0 then Ret (true, zgfx)
  else
    match fuel with
    | O => Abort
    | S fuel =>
        '(op, zgfx) ← find_token ZGFX_TOKEN_TABLE 0 0 zgfx;
        match op with
        | None => decompress_tokens fuel zgfx
        | Some op =>
            '(ok, zgfx) ← decode_token op zgfx;
            if negb ok then Ret (false, zgfx) else decompress_tokens fuel zgfx
        end
    end.
Definition segment_fuel (n : Z) : nat := Z.to_nat (8 * n + OUTPUT_SIZE + 2).

(** * Segments *)

(** A segment of [flags] and the bytes behind them. *)
Definition decompress_payload (flags : Z) (pbSegment : list Z) (zgfx : ZGFX_CONTEXT)
    : outcome (bool * ZGFX_CONTEXT) :=
  let cbSegment := zlen pbSegment in
  let zgfx := set_output [] zgfx in
  if Z.land flags ZGFX_PACKET_COMPRESSED =? 0 then
    zgfx ← zgfx_history_buffer_ring_write pbSegment zgfx;
    if cbSegment >? OUTPUT_SIZE then Ret (false, zgfx)
    else zgfx ← put_output pbSegment zgfx; Ret (true, zgfx)
  else
    let last := zget pbSegment (cbSegment - 1) in
    let bits := 8 * (cbSegment - 1) in
    if bits >? UINT32_MAX then Ret (false, zgfx)
    else if bits <? last then Ret (false, zgfx)
    else
      decompress_tokens (segment_fuel cbSegment)
        (set_input (ztake (cbSegment - 1) pbSegment) (zgfx_bits zgfx) (bits - last) 0 0 zgfx).

Definition zgfx_decompress_segment (segmentSize : Z) (zgfx : ZGFX_CONTEXT)
    : SM (bool * ZGFX_CONTEXT) :=
  if segmentSize <? 2 then mret (false, zgfx)
  else
    check ← Stream_CheckAndLogRequiredLength segmentSize;
    match check with
    | None => mret (false, zgfx)
    | Some _ =>
        if segmentSize >? UINT32_MAX then mret (false, zgfx)
        else
          flags ← Stream_Read_UINT8;
          pbSegment ← Stream_Peek (segmentSize - 1);
          seek ← Stream_SafeSeekEx (segmentSize - 1);
          match seek with
          | None => mret (false, set_output [] zgfx)
          | Some _ => lift (decompress_payload flags pbSegment zgfx)
          end
    end.

Section codec.
Context {HM : Malloc}.

(** The bytes concatenated so far. *)
Definition zgfx_append (uncompressedSize : Z) (concatenated : list Z) (zgfx : ZGFX_CONTEXT)
    : option (list Z) :=
  let used := zlen concatenated in
  if zgfx_OutputCount zgfx >? u64 (UINT32_MAX - used) then None
  else if used + zgfx_OutputCount zgfx >? uncompressedSize then None
  else if negb (malloc_ok (used + zgfx_OutputCount zgfx + 64)) then None
  else Some (concatenated ++ zgfx_Output zgfx).

(** The segments of a multipart message. *)
Fixpoint segments_loop (segments : nat) (uncompressedSize : Z) (concatenated : list Z)
    (zgfx : ZGFX_CONTEXT) : SM (option (list Z) * ZGFX_CONTEXT) :=
  match segments with
  | O => mret (Some concatenated, zgfx)
  | S segments =>
      check ← Stream_CheckAndLogRequiredLength 4;
      match check with
      | None => mret (None, zgfx)
      | Some _ =>
          segmentSize ← Stream_Read_UINT32;
          r ← zgfx_decompress_segment segmentSize zgfx;
          let '(ok, zgfx) := r in
          if negb ok then mret (None, zgfx)
          else
            match zgfx_append uncompressedSize concatenated zgfx with
            | None => mret (None, zgfx)
            | Some concatenated => segments_loop segments uncompressedSize concatenated zgfx
            end
      end
  end.

(** The data, [None] for a status of -1. *)
Definition zgfx_decompress_stream (zgfx : ZGFX_CONTEXT) : SM (option (list Z) * ZGFX_CONTEXT) :=
  check ← Stream_CheckAndLogRequiredLength 1;
  match check with
  | None => mret (None, zgfx)
  | Some _ =>
      descriptor ← Stream_Read_UINT8;
      if descriptor =? ZGFX_SEGMENTED_SINGLE then
        segmentSize ← Stream_GetRemainingLength;
        r ← zgfx_decompress_segment segmentSize zgfx;
        let '(ok, zgfx) := r in
        if negb ok then mret (None, zgfx)
        else if zgfx_OutputCount zgfx >? 0 then
          match zgfx_append (zgfx_OutputCount zgfx) [] zgfx with
          | None => mret (None, zgfx)
          | Some concatenated =>
              if negb (zlen concatenated =? zgfx_OutputCount zgfx) then mret (None, zgfx)
              else mret (Some concatenated, zgfx)
          end
        else mret (Some [], zgfx)
      else if descriptor =? ZGFX_SEGMENTED_MULTIPART then
        check ← Stream_CheckAndLogRequiredLength 6;
        match check with
        | None => mret (None, zgfx)
        | Some _ =>
            segmentCount ← Stream_Read_UINT16;
            uncompressedSize ← Stream_Read_UINT32;
            r ← segments_loop (Z.to_nat segmentCount) uncompressedSize [] zgfx;
            let '(concatenated, zgfx) := r in
            match concatenated with
            | None => mret (None, zgfx)
            | Some concatenated =>
                if negb (zlen concatenated =? uncompressedSize) then mret (None, zgfx)
                else mret (Some concatenated, zgfx)
            end
        end
      else mret (None, zgfx)
  end.
Definition zgfx_decompress (zgfx : ZGFX_CONTEXT) (pSrcData : list Z)
    : outcome (option (list Z) * ZGFX_CONTEXT) :=
  match zgfx_decompress_stream zgfx (Stream_StaticInit pSrcData (zlen pSrcData)) with
  | Ret (r, _) => Ret r
  | Abort => Abort
  end.

(** * Compression *)

(** The flags, [None] for [FALSE]. *)
Definition zgfx_compress_segment (pSrcData : list Z) (flags : Z) : SM (option Z) :=
  TRY Stream_EnsureRemainingCapacity (u32 (zlen pSrcData + 1));
  let flags := Z.lor flags ZGFX_PACKET_COMPR_TYPE_RDP8 in
  header ← WINPR_ASSERTING_INT_CAST UINT8_MAX flags;
  Stream_Write_UINT8 header;;
  Stream_Write pSrcData;;
  mret (Some flags).

(** The size of a segment, written in front of it. *)
Definition fill_size (posDstSize posDataStart : Z) : SM (option unit) :=
  pos ← Stream_GetPosition;
  let DstSize := pos - posDataStart in
  if DstSize >? UINT32_MAX then FALSE
  else
    TRY Stream_SetPosition posDstSize;
    Stream_Write_UINT32 DstSize;;
    TRY Stream_SetPosition (posDataStart + DstSize);
    TRUE.

(** The descriptor of the first fragment: [posSegmentCount]. *)
Definition first_fragment (totalLength uncompressedSize : Z) : SM Z :=
  Stream_Write_UINT8 (if totalLength =? 0 then ZGFX_SEGMENTED_SINGLE else ZGFX_SEGMENTED_MULTIPART);;
  if totalLength >? 0 then
    posSegmentCount ← Stream_GetPosition;
    Stream_Seek 2;;
    Stream_Write_UINT32 uncompressedSize;;
    mret posSegmentCount
  else mret 0.

(** The [for] loop: the number of fragments, [posSegmentCount] and the flags. *)
Fixpoint fragments_loop (fuel : nat) (fragment posSegmentCount uncompressedSize flags : Z)
    (pSrcData : list Z) : SM (option (Z * Z * Z)) :=
  if (zlen pSrcData >? 0) || (fragment =? 0) then
    match fuel with
    | O => λ _, Abort
    | S fuel =>
        let SrcSize := if zlen pSrcData >? ZGFX_SEGMENTED_MAXSIZE then ZGFX_SEGMENTED_MAXSIZE
                       else zlen pSrcData in
        let totalLength := zlen pSrcData - SrcSize in
        TRY Stream_EnsureRemainingCapacity 12;
        posSegmentCount ← (if fragment =? 0 then first_fragment totalLength uncompressedSize
                           else mret posSegmentCount);
        posDstSize ← (if (fragment >? 0) || (totalLength >? 0) then
                        pos ← Stream_GetPosition; Stream_Seek 4;; mret pos
                      else mret 0);
        posDataStart ← Stream_GetPosition;
        flags ←? zgfx_compress_segment (ztake SrcSize pSrcData) flags;
        TRY (if negb (posDstSize =? 0) then fill_size posDstSize posDataStart else TRUE);
        fragments_loop fuel (fragment + 1) posSegmentCount uncompressedSize flags
          (zdrop SrcSize pSrcData)
    end
  else mret (Some (fragment, posSegmentCount, flags)).

(** The flags, [None] for a status of -1. *)
Definition zgfx_compress_to_stream (pUncompressed : list Z) (flags : Z) : SM (option Z) :=
  let uncompressedSize := zlen pUncompressed in
  '(fragment, posSegmentCount, flags) ←?
    fragments_loop (S (Z.to_nat uncompressedSize)) 0 0 uncompressedSize flags pUncompressed;
  Stream_SealLength;;
  if negb (posSegmentCount =? 0) then
    TRY Stream_SetPosition posSegmentCount;
    count ← WINPR_ASSERTING_INT_CAST UINT16_MAX fragment;
    Stream_Write_UINT16 count;;
    len ← Stream_Length;
    TRY Stream_SetPosition len;
    mret (Some flags)
  else mret (Some flags).

(** The data and the flags.  A stream of no bytes cannot be made, and writing to
    the null stream aborts. *)
Definition zgfx_compress (pSrcData : list Z) (flags : Z) : outcome (option (list Z * Z)) :=
  match Stream_New None (zlen pSrcData) with
  | None => Abort
  | Some s =>
      match zgfx_compress_to_stream pSrcData flags s with
      | Abort => Abort
      | Ret (r, s) =>
          if st_pointer s >? UINT32_MAX then Ret None
          else
            match r with
            | None => Ret None
            | Some flags => Ret (Some (ztake (st_pointer s) (st_buffer s), flags))
            end
      end
  end.
End codec.

Definition zgfx_context_reset (zgfx : ZGFX_CONTEXT) : ZGFX_CONTEXT :=
  set_history (zgfx_HistoryBuffer zgfx) 0 zgfx.
(** The zeroed context of [calloc]. *)
Definition zgfx_context_new : ZGFX_CONTEXT :=
  zgfx_context_reset (mkZgfx [] 0 0 0 0 [] ∅ 0 HISTORY_SIZE).
