(* ===== verification/ZgfxFormat.v ===== *)
(** What a compressed RDP8 segment means: its tokens and their code words, the
    bytes they stand for, and that the decoder of zgfx.c gives these bytes. *)

From S2P Require Import Prelude Arrays Stream StreamLogic BitStream Zgfx ZgfxCorrect.
From stdpp Require Import prelude list numbers gmap.
From Stdlib Require Import ZArith Lia.

#[local] Open Scope Z_scope.

(** * Tokens *)

Inductive token : Type :=
| Literal (op : ZGFX_TOKEN) (v : Z)
| Match (op : ZGFX_TOKEN) (v count : Z)
| Unencoded (l : list Z).

Definition op_unencoded : ZGFX_TOKEN := mkToken 5 17 5 1 0.

Definition token_ok (t : token) : Prop :=
  match t with
  | Literal op v => op ∈ ZGFX_TOKEN_TABLE ∧ tokenType op = 0 ∧ 0 <= v < 2 ^ valueBits op
  | Match op v count => op ∈ ZGFX_TOKEN_TABLE ∧ tokenType op ≠ 0 ∧ 0 <= v < 2 ^ valueBits op ∧
      1 <= valueBase op + v <= HISTORY_SIZE ∧ 3 <= count <= OUTPUT_SIZE
  | Unencoded l => bytes l ∧ zlen l < 32768
  end.

(** The bytes of a token after the history [h]. *)
Definition token_bytes (h : list Z) (t : token) : list Z :=
  match t with
  | Literal op v => [u8 (valueBase op + v)]
  | Match op v count => lz_copy (Z.to_nat count) (valueBase op + v) h
  | Unencoded l => l
  end.
Fixpoint tokens_bytes (h : list Z) (l : list token) : list Z :=
  match l with
  | [] => []
  | t :: l => token_bytes h t ++ tokens_bytes (h ++ token_bytes h t) l
  end.

(** * Code words *)

Definition prefix_bits (op : ZGFX_TOKEN) : list bool := bits_of (prefixLength op) (prefixCode op).
(** Three is a zero bit; from four on, the number of value bits in unary. *)
Definition count_bits (count : Z) : list bool :=
  if count =? 3 then [false]
  else
    let k := Z.log2 count in
    true :: replicate (Z.to_nat (k - 2)) true ++ [false] ++ bits_of k (count - 2 ^ k).
Definition byte_bits (l : list Z) : list bool := concat (map (bits_of 8) l).
(** The zeros up to the next byte. *)
Definition align (pos : Z) : list bool := replicate (Z.to_nat (- pos mod 8)) false.

(** The code word of a token that starts at bit [pos] of the segment. *)
Definition token_bits (pos : Z) (t : token) : list bool :=
  match t with
  | Literal op v => prefix_bits op ++ bits_of (valueBits op) v
  | Match op v count => prefix_bits op ++ bits_of (valueBits op) v ++ count_bits count
  | Unencoded l =>
      prefix_bits op_unencoded ++ bits_of 5 0 ++ bits_of 15 (zlen l) ++ align (pos + 25) ++ byte_bits l
  end.
Fixpoint tokens_bits (pos : Z) (l : list token) : list bool :=
  match l with
  | [] => []
  | t :: l => token_bits pos t ++ tokens_bits (pos + zlen (token_bits pos t)) l
  end.

(** * Lists of bits *)

Lemma bits_of_0 v : bits_of 0 v = [].
Proof. done. Qed.
Lemma getb_ext B1 B2 :
  zlen B1 = zlen B2 → (∀ i, 0 <= i < zlen B1 → getb B1 i = getb B2 i) → B1 = B2.
Proof.
  intros Hl He. apply (nth_ext _ _ false false); [unfold zlen in Hl; lia|].
  intros n Hn. specialize (He (Z.of_nat n)). unfold getb in He. rewrite Nat2Z.id in He.
  apply He. unfold zlen. lia.
Qed.
Lemma bits_of_split a b v :
  0 <= a → 0 <= b → bits_of (a + b) v = bits_of a (v / 2 ^ b) ++ bits_of b (v mod 2 ^ b).
Proof.
  intros Ha Hb. apply getb_ext; [rewrite zlen_app, !zlen_bits_of by lia; lia|].
  rewrite zlen_bits_of by lia. intros i Hi. rewrite getb_app, zlen_bits_of, getb_bits_of by lia.
  destruct (Z.ltb_spec i a).
  - rewrite getb_bits_of, Z.div_pow2_bits by lia. f_equal. lia.
  - rewrite getb_bits_of, Z.mod_pow2_bits_low by lia. f_equal. lia.
Qed.
Lemma bits_of_inj n v w :
  0 <= v < 2 ^ n → 0 <= w < 2 ^ n → 0 <= n → bits_of n v = bits_of n w → v = w.
Proof.
  intros Hv Hw Hn He. apply Z.bits_inj'. intros i Hi. destruct (Z.lt_ge_cases i n).
  - assert (getb (bits_of n v) (n - 1 - i) = getb (bits_of n w) (n - 1 - i)) as Hg by by rewrite He.
    rewrite !getb_bits_of in Hg by lia. by replace (n - 1 - (n - 1 - i)) with i in Hg by lia.
  - rewrite !(testbit_high _ n) by lia. done.
Qed.
Lemma app_bits_inj (B1 B2 C1 C2 : list bool) :
  zlen B1 = zlen B2 → B1 ++ C1 = B2 ++ C2 → B1 = B2 ∧ C1 = C2.
Proof. intros Hl He. apply app_inj_1 in He; [done|unfold zlen in Hl; lia]. Qed.
Lemma zlen_byte_bits l : zlen (byte_bits l) = 8 * zlen l.
Proof.
  unfold byte_bits. induction l as [|b l IH]; [done|]. cbn [map concat].
  rewrite zlen_app, IH, zlen_bits_of, zlen_cons by lia. lia.
Qed.
Lemma byte_bits_app_inv l input B :
  bytes l → bytes input → byte_bits input = byte_bits l ++ B →
  ∃ tl, input = l ++ tl ∧ byte_bits tl = B.
Proof.
  intros Hl. revert input. induction Hl as [|b l Hb Hl IH]; intros input Hi He; [by exists input|].
  destruct input as [|c input].
  { apply (f_equal zlen) in He. rewrite zlen_app, !zlen_byte_bits in He. change (zlen []) with 0 in He. zlia. }
  apply Forall_cons_1 in Hi as [Hc Hi]. cbn [byte_bits map concat] in He. rewrite <- app_assoc in He.
  apply app_bits_inj in He as [Hbc He]; [|by rewrite !zlen_bits_of].
  apply bits_of_inj in Hbc as ->; [|unfold is_byte in *; lia..].
  destruct (IH input Hi He) as (tl & -> & Ht). by exists tl.
Qed.

(** * Reading them *)

(** The bits the decoder has not used. *)
Definition pending (z : ZGFX_CONTEXT) : list bool :=
  bits_of (zgfx_cBitsCurrent z) (zgfx_BitsCurrent z) ++ byte_bits (zgfx_pbInput z).

Lemma fill_bits_pending fuel n z :
  0 <= zgfx_cBitsCurrent z → 0 <= zgfx_BitsCurrent z < 2 ^ zgfx_cBitsCurrent z →
  bytes (zgfx_pbInput z) → n <= 24 → n - zgfx_cBitsCurrent z <= Z.of_nat fuel →
  n <= zlen (pending z) →
  ∃ z', fill_bits fuel n z = Ret z' ∧ frame z z' ∧ pending z' = pending z ∧
    n <= zgfx_cBitsCurrent z' ∧ 0 <= zgfx_BitsCurrent z' < 2 ^ zgfx_cBitsCurrent z' ∧
    bytes (zgfx_pbInput z') ∧ zgfx_cBitsRemaining z' = zgfx_cBitsRemaining z ∧
    (zgfx_cBitsCurrent z' < n + 8 ∨ z' = z).
Proof.
  revert z. induction fuel as [|fuel IH]; intros z Hc Hv Hin Hn Hf Hp; cbn [fill_bits];
    destruct (Z.ltb_spec (zgfx_cBitsCurrent z) n) as [Hlt|Hge]; try lia.
  1, 3: exists z; split_and!; done || lia || (by right) || apply frame_refl.
  unfold pending in Hp. rewrite zlen_app, zlen_bits_of, zlen_byte_bits in Hp by lia.
  destruct (zgfx_pbInput z) as [|b input] eqn:Hi; [change (zlen []) with 0 in Hp; lia|].
  apply Forall_cons_1 in Hin as [Hb Hin]. unfold is_byte in Hb.
  assert (2 ^ zgfx_cBitsCurrent z <= 2 ^ 24) by (apply Z.pow_le_mono_r; lia).
  rewrite Z.shiftl_mul_pow2, (u32_small (_ * _)), u32_small by lia. change (2 ^ 8) with 256.
  cbv beta iota zeta. set (z1 := set_input input _ _ _ _ z).
  assert (pending z1 = pending z) as Hpend.
  { unfold pending, z1. cbn. rewrite Hi. cbn [byte_bits map concat]. rewrite app_assoc. f_equal.
    rewrite bits_of_split by lia. change (2 ^ 8) with 256.
    rewrite Z.div_add_l, (Z.div_small b), Z.add_0_r, Z.add_comm, Z_mod_plus_full, Z.mod_small by lia. done. }
  destruct (IH z1) as (z' & E & F & P & H1 & H2 & H3 & H4 & H5); unfold z1; cbn;
    [lia|rewrite Z.pow_add_r by lia; lia|done|done|lia| |].
  { fold z1. rewrite Hpend. unfold pending. rewrite Hi, zlen_app, zlen_bits_of, zlen_byte_bits by lia. lia. }
  fold z1. rewrite E. exists z'. split_and!; try done; try apply H2.
  - eapply frame_trans; [|done]. by split.
  - congruence.
  - left. destruct H5 as [| ->]; [done|]. unfold z1. cbn. lia.
Qed.

(** The next [n] bits hold [v]. *)
Record reads_bits (z : ZGFX_CONTEXT) (n v : Z) (B : list bool) (z' : ZGFX_CONTEXT) : Prop := {
  rd_frame : frame z z';
  rd_ok : bits_ok z';
  rd_pending : pending z' = B;
  rd_bits : zgfx_bits z' = v;
  rd_remaining : zgfx_cBitsRemaining z' = u32 (zgfx_cBitsRemaining z - n);
}.

Lemma GetBits_reads n v z B :
  bits_ok z → 0 <= n <= 24 → 0 <= v < 2 ^ n → pending z = bits_of n v ++ B →
  ∃ z', zgfx_GetBits n z = Ret z' ∧ reads_bits z n v B z'.
Proof.
  intros [Hc Hcur Hin] Hn Hv Hp. unfold zgfx_GetBits.
  destruct (fill_bits_pending (Z.to_nat n) n z) as (z1 & -> & F & P & H1 & H2 & H3 & H4 & H5);
    [lia|done|done|lia|lia| |].
  { rewrite Hp, zlen_app, zlen_bits_of by lia. zlia. }
  cbn [mbind outcome_bind]. set (c := zgfx_cBitsCurrent z1 - n).
  assert (0 <= c < 8) as Hc8 by (unfold c; destruct H5 as [| ->]; lia).
  replace (32 <=? c) with false by lia. eexists. split; [done|].
  pose proof (Z.pow_pos_nonneg 2 c ltac:(lia) ltac:(lia)).
  assert (zgfx_BitsCurrent z1 / 2 ^ c < 2 ^ n) as Hlt.
  { apply Z.div_lt_upper_bound; [lia|]. rewrite <- Z.pow_add_r by lia.
    replace (c + n) with (zgfx_cBitsCurrent z1) by (unfold c; lia). apply H2. }
  assert (0 <= zgfx_BitsCurrent z1 / 2 ^ c) by (apply Z.div_pos; lia).
  rewrite Hp in P. unfold pending in P.
  replace (zgfx_cBitsCurrent z1) with (n + c) in P by (unfold c; lia).
  rewrite bits_of_split, <- app_assoc in P by lia.
  apply app_bits_inj in P as [P1 P2]; [|rewrite !zlen_bits_of; lia].
  apply bits_of_inj in P1; [|lia..].
  split; cbn; rewrite ?mask_mod by lia.
  - eapply frame_trans; [done|]. by split.
  - split; cbn; rewrite ?mask_mod by lia; [done|by apply Z.mod_pos_bound|done].
  - done.
  - by rewrite Z.shiftr_div_pow2 by lia.
  - by rewrite H4.
Qed.

(** Some bits were read. *)
Record after_bits (z : ZGFX_CONTEXT) (n : Z) (B : list bool) (z' : ZGFX_CONTEXT) : Prop := {
  ab_frame : frame z z';
  ab_ok : bits_ok z';
  ab_pending : pending z' = B;
  ab_remaining : zgfx_cBitsRemaining z' = u32 (zgfx_cBitsRemaining z - n);
}.
Lemma reads_after z n v B z' : reads_bits z n v B z' → after_bits z n B z'.
Proof. by intros []. Qed.
Lemma u32_sub a b c : u32 (u32 (a - b) - c) = u32 (a - (b + c)).
Proof. unfold u32. rewrite Zminus_mod_idemp_l. f_equal. lia. Qed.
Lemma after_trans z n B z1 m C z2 :
  after_bits z n B z1 → after_bits z1 m C z2 → after_bits z (n + m) C z2.
Proof.
  intros [] []. split; [by eapply frame_trans|done..|].
  rewrite ab_remaining1, ab_remaining0. apply u32_sub.
Qed.

Lemma read_prefix_reads fuel n have prefix w z B :
  bits_ok z → 0 <= have <= n → n <= 9 → n - have <= Z.of_nat fuel → 0 <= prefix < 2 ^ have →
  0 <= w < 2 ^ (n - have) →
  pending z = bits_of (n - have) w ++ B → zgfx_cBitsRemaining z = u32 (zgfx_cBitsRemaining z) →
  ∃ z', read_prefix fuel n have prefix z = Ret (n, prefix * 2 ^ (n - have) + w, z') ∧
    after_bits z (n - have) B z'.
Proof.
  revert have prefix w z. induction fuel as [|fuel IH]; intros have prefix w z Hz Hh Hn Hf Hp Hw Hpend Hr;
    cbn [read_prefix]; destruct (Z.ltb_spec have n) as [Hlt|]; try lia.
  1, 3: replace (n - have) with 0 in * by lia; replace have with n by lia;
    change (2 ^ 0) with 1 in *; replace w with 0 by lia; exists z;
    replace (prefix * 1 + 0) with prefix by lia; split; [done|];
    split; rewrite ?Z.sub_0_r; done || apply frame_refl.
  set (m := n - (have + 1)). replace (n - have) with (1 + m) in * by (unfold m; lia).
  pose proof (Z.pow_pos_nonneg 2 m ltac:(lia) ltac:(unfold m; lia)).
  assert (2 ^ (1 + m) = 2 * 2 ^ m) as Hpow by (rewrite Z.pow_add_r by (unfold m; lia); done).
  assert (0 <= w / 2 ^ m < 2) as Hbit.
  { split; [apply Z.div_pos; lia|apply Z.div_lt_upper_bound; lia]. }
  rewrite bits_of_split, <- app_assoc in Hpend by (unfold m; lia).
  destruct (GetBits_reads 1 (w / 2 ^ m) z _ Hz ltac:(lia) Hbit Hpend) as (z1 & -> & [F1 K1 P1 B1 R1]).
  cbn [mbind outcome_bind]. rewrite B1.
  assert (2 ^ have <= 2 ^ 8) by (apply Z.pow_le_mono_r; lia).
  rewrite Z.shiftl_mul_pow2, (u32_small (_ * _)), u32_small by lia. change (2 ^ 1) with 2.
  destruct (IH (have + 1) (prefix * 2 + w / 2 ^ m) (w mod 2 ^ m) z1) as (z2 & E & A).
  - done.
  - lia.
  - done.
  - lia.
  - rewrite Z.pow_add_r by lia. lia.
  - fold m. by apply Z.mod_pos_bound.
  - by fold m.
  - rewrite R1. unfold u32. by rewrite Z.mod_mod.
  - exists z2. fold m in E, A. rewrite E. split.
    + do 2 f_equal. rewrite Hpow. f_equal. pose proof (Z.div_mod w (2 ^ m) ltac:(lia)). lia.
    + apply (after_trans _ 1 (bits_of m (w mod 2 ^ m) ++ B) z1); [by split|done].
Qed.

(** ** Prefixes *)

#[local] Instance token_eq_dec : EqDecision ZGFX_TOKEN.
Proof. solve_decision. Defined.

(** No entry in front of [op] has a prefix of its code. *)
Fixpoint finds (table : list ZGFX_TOKEN) (have : Z) (op : ZGFX_TOKEN) : bool :=
  match table with
  | [] => false
  | o :: table =>
      (have <=? prefixLength o) && (prefixLength o <=? prefixLength op) &&
      (if prefixCode op / 2 ^ (prefixLength op - prefixLength o) =? prefixCode o
       then bool_decide (o = op) else finds table (prefixLength o) op)
  end.
Lemma prefix_free : Forall (λ op, finds ZGFX_TOKEN_TABLE 0 op = true) ZGFX_TOKEN_TABLE.
Proof. apply (bool_decide_unpack _). vm_compute. done. Qed.

Lemma find_token_reads table have op z B :
  entry_ok op → finds table have op = true → bits_ok z → 0 <= have <= prefixLength op →
  let rest := prefixLength op - have in
  pending z = bits_of rest (prefixCode op mod 2 ^ rest) ++ B →
  zgfx_cBitsRemaining z = u32 (zgfx_cBitsRemaining z) →
  ∃ z', find_token table have (prefixCode op / 2 ^ rest) z = Ret (Some op, z') ∧
    after_bits z rest B z'.
Proof.
  intros [HL Hcode _ _]. set (L := prefixLength op) in *. set (code := prefixCode op) in *.
  revert have z. induction table as [|o table IH]; intros have z Hf Hz Hh rest Hp Hr; [done|].
  cbn [finds] in Hf. fold L code in Hf. set (lo := prefixLength o) in *.
  apply andb_prop in Hf as [Hl Hf]. apply andb_prop in Hl as [Hl1 Hl2].
  set (m := L - lo). assert (0 <= m) by (unfold m; lia).
  assert (rest = (lo - have) + m) as Hrest by (unfold rest, m; lia).
  set (w := code mod 2 ^ rest) in *.
  pose proof (Z.pow_pos_nonneg 2 m ltac:(lia) ltac:(lia)).
  pose proof (Z.pow_pos_nonneg 2 rest ltac:(lia) ltac:(lia)).
  assert (2 ^ rest = 2 ^ (lo - have) * 2 ^ m) as Hpow by (rewrite Hrest, Z.pow_add_r; lia).
  pose proof (Z.mod_pos_bound code (2 ^ rest) ltac:(lia)) as Hw. fold w in Hw.
  pose proof (Z.div_mod code (2 ^ rest) ltac:(lia)) as Hdm. fold w in Hdm.
  rewrite Hrest in Hp. rewrite bits_of_split, <- app_assoc in Hp by lia.
  set (q := code / 2 ^ rest) in *.
  assert (code = q * 2 ^ (lo - have) * 2 ^ m + w) as Hsum by (rewrite Hpow in Hdm; lia).
  assert (code / 2 ^ m = q * 2 ^ (lo - have) + w / 2 ^ m) as Hq
    by (rewrite Hsum; apply Z.div_add_l; lia).
  assert (w mod 2 ^ m = code mod 2 ^ m) as Hm
    by (rewrite Hsum, (Z.add_comm _ w); by rewrite Z_mod_plus_full).
  rewrite Hm in Hp. cbn [find_token]. fold lo.
  destruct (read_prefix_reads 9 lo have q (w / 2 ^ m) z (bits_of m (code mod 2 ^ m) ++ B) Hz) as (z1 & -> & A);
    [lia|lia|lia| | |exact Hp|done|].
  { unfold q. split; [apply Z.div_pos; lia|]. apply Z.div_lt_upper_bound; [lia|].
    rewrite <- Z.pow_add_r by lia. replace (rest + have) with L by (unfold rest; lia). apply Hcode. }
  { split; [apply Z.div_pos; lia|]. apply Z.div_lt_upper_bound; [lia|]. lia. }
  cbn [mbind outcome_bind]. rewrite <- Hq. fold m in Hf.
  destruct (Z.eqb_spec (code / 2 ^ m) (prefixCode o)) as [He|He].
  - apply bool_decide_eq_true in Hf as ->. unfold L, lo in *.
    exists z1. split; [done|]. replace m with 0 in A by (unfold m; lia).
    replace rest with (prefixLength op - have) by done. exact A.
  - destruct A as [A1 A2 A3 A4].
    destruct (IH lo z1) as (z2 & E & A'); [done|done|lia|done| |].
    { rewrite A4. unfold u32. by rewrite Z.mod_mod. }
    exists z2. split; [done|]. rewrite Hrest. by eapply after_trans; [by split|].
Qed.

Lemma find_token_op op z B :
  op ∈ ZGFX_TOKEN_TABLE → bits_ok z → pending z = prefix_bits op ++ B →
  zgfx_cBitsRemaining z = u32 (zgfx_cBitsRemaining z) →
  ∃ z', find_token ZGFX_TOKEN_TABLE 0 0 z = Ret (Some op, z') ∧ after_bits z (prefixLength op) B z'.
Proof.
  intros Hop Hz Hp Hr. pose proof table_ok as Ht. rewrite Forall_forall in Ht. specialize (Ht _ Hop).
  pose proof prefix_free as Hpf. rewrite Forall_forall in Hpf. specialize (Hpf _ Hop). cbn beta in Hpf.
  pose proof Ht as [HL Hcode _ _].
  destruct (find_token_reads ZGFX_TOKEN_TABLE 0 op z B Ht Hpf Hz) as (z' & E & A); rewrite ?Z.sub_0_r.
  - lia.
  - rewrite Z.mod_small by lia. done.
  - done.
  - rewrite Z.sub_0_r, Z.div_small in E by lia. rewrite Z.sub_0_r in A. by exists z'.
Qed.

(** ** Match lengths *)

Lemma GetBit_reads (b : bool) z B :
  bits_ok z → pending z = b :: B →
  ∃ z', zgfx_GetBits 1 z = Ret z' ∧ reads_bits z 1 (Z.b2z b) B z'.
Proof. intros Hz Hp. apply GetBits_reads; [done|lia|by destruct b|]. rewrite Hp. by destruct b. Qed.

(** [j] more ones, the first of which was just read. *)
Lemma read_count_reads j fuel count extra z B :
  bits_ok z → (j < fuel)%nat → zgfx_bits z = (if (j =? 0)%nat then 0 else 1) →
  pending z = match j with O => B | S j => replicate j true ++ false :: B end →
  0 <= count → count * 2 ^ Z.of_nat j < 2 ^ 32 → 0 <= extra → extra + Z.of_nat j < 2 ^ 32 →
  zgfx_cBitsRemaining z = u32 (zgfx_cBitsRemaining z) →
  ∃ z', read_count fuel count extra z = Ret (count * 2 ^ Z.of_nat j, extra + Z.of_nat j, z') ∧
    after_bits z (Z.of_nat j) B z'.
Proof.
  revert fuel count extra z. induction j as [|j IH]; intros fuel count extra z Hz Hf Hb Hp Hc0 Hc He0 He Hr.
  { exists z. split; [|split; [apply frame_refl|done..|by rewrite Z.sub_0_r]].
    destruct fuel; cbn [read_count]; rewrite Hb; cbn; do 2 f_equal; lia || (f_equal; lia). }
  destruct fuel as [|fuel]; [lia|]. cbn [read_count]. rewrite Hb. cbn [Nat.eqb Z.eqb].
  set (b := negb (j =? 0)%nat).
  set (C := match j with O => B | S j => replicate j true ++ false :: B end).
  assert (replicate j true ++ false :: B = b :: C) as HC by (unfold b, C; by destruct j).
  rewrite HC in Hp. destruct (GetBit_reads b z C Hz Hp) as (z1 & -> & [F1 K1 P1 B1 R1]).
  cbn [mbind outcome_bind].
  assert (2 ^ Z.of_nat (S j) = 2 * 2 ^ Z.of_nat j) as Hpow by (rewrite Nat2Z.inj_succ, Z.pow_succ_r; lia).
  pose proof (Z.pow_pos_nonneg 2 (Z.of_nat j) ltac:(lia) ltac:(lia)).
  rewrite !u32_small by nia.
  destruct (IH fuel (count * 2) (extra + 1) z1) as (z2 & -> & A); try done; try lia.
  { rewrite B1. unfold b. by destruct j. }
  { rewrite R1. unfold u32. by rewrite Z.mod_mod. }
  exists z2. split.
  - do 3 f_equal; lia.
  - replace (Z.of_nat (S j)) with (1 + Z.of_nat j) by lia. by eapply after_trans; [by split|].
Qed.

Lemma zlen_pending z : bits_ok z → zlen (pending z) = Z.of_nat (input_bits z).
Proof.
  intros []. unfold pending, input_bits. rewrite zlen_app, zlen_bits_of, zlen_byte_bits by lia. zlia.
Qed.
Lemma log2_bounds n : 4 <= n <= OUTPUT_SIZE →
  2 <= Z.log2 n <= 16 ∧ 0 <= n - 2 ^ Z.log2 n < 2 ^ Z.log2 n.
Proof.
  intros Hn. pose proof (Z.log2_spec n ltac:(lia)) as Hs. rewrite Z.pow_succ_r in Hs by apply Z.log2_nonneg.
  pose proof (Z.log2_le_mono 4 n ltac:(lia)). pose proof (Z.log2_le_mono n 65536 ltac:(unfold OUTPUT_SIZE in *; lia)).
  change (Z.log2 4) with 2 in *. change (Z.log2 65536) with 16 in *. lia.
Qed.

Lemma match_count_reads count z B :
  bits_ok z → 3 <= count <= OUTPUT_SIZE → pending z = count_bits count ++ B →
  zgfx_cBitsRemaining z = u32 (zgfx_cBitsRemaining z) →
  ∃ z', match_count z = Ret (count, z') ∧ after_bits z (zlen (count_bits count)) B z'.
Proof.
  intros Hz Hc Hp Hr. unfold match_count, count_bits in *. destruct (Z.eqb_spec count 3) as [->|].
  { destruct (GetBit_reads false z B Hz Hp) as (z1 & -> & R). cbn [mbind outcome_bind].
    exists z1. rewrite (rd_bits _ _ _ _ _ R). split; [done|by eapply reads_after]. }
  destruct (log2_bounds count) as [Hk Hv]; [lia|]. set (k := Z.log2 count) in *.
  set (j := Z.to_nat (k - 2)) in *. cbn [app] in Hp. rewrite <- app_assoc in Hp. cbn [app] in Hp.
  set (D := bits_of k (count - 2 ^ k) ++ B) in *.
  destruct (GetBit_reads true z _ Hz Hp) as (z1 & -> & R1). cbn [mbind outcome_bind].
  rewrite (rd_bits _ _ _ _ _ R1). cbn [Z.b2z Z.eqb].
  set (b := negb (j =? 0)%nat).
  set (C := match j with O => D | S j => replicate j true ++ false :: D end).
  assert (pending z1 = b :: C) as Hp1 by (rewrite (rd_pending _ _ _ _ _ R1); unfold b, C; by destruct j).
  destruct (GetBit_reads b z1 C (rd_ok _ _ _ _ _ R1) Hp1) as (z2 & -> & R2). cbn [mbind outcome_bind].
  assert (4 * 2 ^ Z.of_nat j = 2 ^ k) as Hpow.
  { change 4 with (2 ^ 2). rewrite <- Z.pow_add_r by lia. f_equal. lia. }
  pose proof (Z.pow_le_mono_r 2 k 16 ltac:(lia) ltac:(lia)).
  destruct (read_count_reads j (S (input_bits z2)) 4 2 z2 D) as (z3 & -> & A3); try apply R2; try lia.
  { assert (zlen C = Z.of_nat (input_bits z2)) as Hlen.
    { rewrite <- zlen_pending by apply R2. by rewrite (rd_pending _ _ _ _ _ R2). }
    unfold C in Hlen. destruct j; [lia|]. rewrite zlen_app, zlen_replicate in Hlen. zlia. }
  { rewrite (rd_bits _ _ _ _ _ R2). unfold b. by destruct j. }
  { rewrite (rd_remaining _ _ _ _ _ R2). unfold u32. by rewrite Z.mod_mod. }
  cbn [mbind outcome_bind]. replace (2 + Z.of_nat j) with k by lia. rewrite Hpow.
  destruct (GetBits_reads k (count - 2 ^ k) z3 B) as (z4 & -> & R4);
    [apply A3|lia|lia|by rewrite (ab_pending _ _ _ _ A3)|]. cbn [mbind outcome_bind].
  exists z4. rewrite (rd_bits _ _ _ _ _ R4). split.
  - do 2 f_equal. replace (2 ^ k + (count - 2 ^ k)) with count by lia.
    apply u32_small. unfold OUTPUT_SIZE in *. lia.
  - replace (zlen _) with (1 + (1 + (Z.of_nat j + k))).
    + eapply after_trans; [by eapply reads_after|]. eapply after_trans; [by eapply reads_after|].
      eapply after_trans; [done|by eapply reads_after].
    + rewrite zlen_cons, !zlen_app, zlen_replicate, zlen_bits_of by lia. change (zlen [false]) with 1. lia.
Qed.

(** * Decoding a token *)

(** The decoder consumed [n] bits and added [bs]. *)
Record yields (z : ZGFX_CONTEXT) (h : list Z) (n : Z) (bs : list Z) (B : list bool)
    (z' : ZGFX_CONTEXT) : Prop := {
  yi_ok : ctx_ok z';
  yi_output : zgfx_Output z' = zgfx_Output z ++ bs;
  yi_history : represents z' (h ++ bs);
  yi_pending : pending z' = B;
  yi_remaining : zgfx_cBitsRemaining z' = u32 (zgfx_cBitsRemaining z - n);
}.

Lemma frame_represents z z' h : frame z z' → represents z h → represents z' h.
Proof. intros [_ H2 H3 _] Hr d Hd. rewrite H2, H3. by apply Hr. Qed.
Lemma yields_after z n C z1 h m bs B z' :
  after_bits z n C z1 → yields z1 h m bs B z' → yields z h (n + m) bs B z'.
Proof.
  intros [[F _ _ _] _ _ R] []. split; [done|by rewrite <- F|done..|].
  rewrite yi_remaining0, R. apply u32_sub.
Qed.
Lemma after_ok z n B z' : after_bits z n B z' → ctx_ok z → ctx_ok z'.
Proof. intros [F ? ? ?] []. split; [done|by eapply frame_history|by eapply frame_output]. Qed.

(** Bytes added with the bits left alone. *)
Lemma add_bytes_yields z h bs :
  ctx_ok z → bytes bs → zgfx_OutputCount z + zlen bs <= OUTPUT_SIZE → represents z h →
  zgfx_cBitsRemaining z = u32 (zgfx_cBitsRemaining z) →
  ∃ z', (z1 ← put_output bs z; zgfx_history_buffer_ring_write bs z1) = Ret z' ∧
    yields z h 0 bs (pending z) z' ∧ zgfx_pbInput z' = zgfx_pbInput z ∧ zgfx_bits z' = zgfx_bits z.
Proof.
  intros Hz Hb Hlen Hh Hr.
  destruct (add_bytes_spec z bs Hz Hb Hlen) as (z' & E & [D _ _] & Ho & [H1 H2 H3 H4 H5 _] & Hrep).
  cbn in H1, H2, H3, H4, H5. exists z'. split_and!; [done| |done..].
  split; [done..|by apply Hrep| |by rewrite H3, Z.sub_0_r].
  unfold pending. by rewrite H1, H4, H5.
Qed.

Lemma literal_write z h c :
  history_ok z → is_byte c → represents z h →
  let index := zgfx_HistoryIndex z + 1 in
  represents (set_history (<[zgfx_HistoryIndex z := c]> (zgfx_HistoryBuffer z))
    (if index =? zgfx_HistoryBufferSize z then 0 else index) z) (h ++ [c]).
Proof.
  intros [Hi Hs _] Hc Hr. cbn zeta. rewrite Hs.
  replace (if _ =? _ then 0 else _) with ((zgfx_HistoryIndex z + zlen [c]) mod HISTORY_SIZE).
  - apply (put_ring_represents z _ [c]); [|done..]. apply (put_ring_linear _ _ [c]); [done|].
    change (zlen [c]) with 1. lia.
  - change (zlen [c]) with 1. rewrite mod_wrap by lia.
    destruct (Z.eqb_spec (zgfx_HistoryIndex z + 1) HISTORY_SIZE), (Z.ltb_spec (zgfx_HistoryIndex z + 1) HISTORY_SIZE); lia.
Qed.

Lemma decode_literal_yields op v z h B :
  entry_ok op → 0 <= v < 2 ^ valueBits op → ctx_ok z → represents z h →
  pending z = bits_of (valueBits op) v ++ B → zgfx_OutputCount z < OUTPUT_SIZE →
  ∃ z', decode_literal op z = Ret (true, z') ∧
    yields z h (valueBits op) [u8 (valueBase op + v)] B z'.
Proof.
  intros Hop Hv Hz Hh Hp Ho.
  destruct (decode_literal_ok op z Hop Hz) as (ok & z' & E & [D _ _] & _).
  unfold decode_literal in E |- *. pose proof Hop as [_ _ Hb _].
  destruct (GetBits_reads (valueBits op) v z B) as (z1 & E1 & R); [apply Hz|lia|done|done|].
  rewrite E1 in E |- *. cbn [mbind outcome_bind] in E |- *. rewrite (rd_bits _ _ _ _ _ R) in E |- *.
  set (c := u8 _) in *. assert (is_byte c) as Hc by (apply Z.mod_pos_bound; lia).
  pose proof (after_ok _ _ _ _ (reads_after _ _ _ _ _ R) Hz) as Hz1. pose proof Hz1 as [_ Hh1 _].
  pose proof Hh1 as [Hi1 _ _]. rewrite array_write_in in E |- * by lia. cbn [mbind outcome_bind] in E |- *.
  set (z2 := set_history _ _ _) in *.
  assert (zgfx_OutputCount z2 = zgfx_OutputCount z) as Ho2.
  { destruct R as [[F _ _ _] _ _ _ _]. unfold zgfx_OutputCount. cbn. by rewrite F. }
  rewrite Z.geb_leb in E |- *. replace (OUTPUT_SIZE <=? _) with false in E |- * by lia.
  unfold put_output in E |- *. change (zlen [c]) with 1 in E |- *.
  replace (_ <=? _) with true in E |- * by lia. cbn [mbind outcome_bind] in E |- *. simplify_eq.
  eexists. split; [done|]. destruct R as [F1 K1 P1 B1 R1]. split; [done|cbn|..].
  - destruct F1 as [F _ _ _]. by rewrite F.
  - apply (literal_write z1 h c) in Hc; [exact Hc|done|by eapply frame_represents].
  - exact P1.
  - exact R1.
Qed.

Lemma decode_match_yields distance count z h B :
  ctx_ok z → represents z h → 1 <= distance <= HISTORY_SIZE → 3 <= count <= OUTPUT_SIZE →
  pending z = count_bits count ++ B → zgfx_OutputCount z + count <= OUTPUT_SIZE →
  zgfx_cBitsRemaining z = u32 (zgfx_cBitsRemaining z) →
  ∃ z', decode_match distance z = Ret (true, z') ∧
    yields z h (zlen (count_bits count)) (lz_copy (Z.to_nat count) distance h) B z'.
Proof.
  intros Hz Hh Hd Hc Hp Ho Hr. unfold decode_match.
  destruct (match_count_reads count z B) as (z1 & -> & A); [apply Hz|done..|]. cbn [mbind outcome_bind].
  pose proof (after_ok _ _ _ _ A Hz) as Hz1.
  assert (zgfx_OutputCount z1 = zgfx_OutputCount z) as Ho1.
  { destruct A as [[F _ _ _] _ _ _]. unfold zgfx_OutputCount. by rewrite F. }
  replace (count >? _) with false by lia. unfold HISTORY_SIZE in Hd.
  replace (2147483647 <? distance) with false by lia.
  destruct (ring_read_spec distance count z1) as (dst & -> & Hlen & Hb & Hlz); [apply Hz1|lia|lia|].
  assert (represents z1 h) as Hh1 by (eapply frame_represents; [apply A|done]).
  specialize (Hlz h Hh1 ltac:(unfold HISTORY_SIZE; lia)). cbn [mbind outcome_bind].
  destruct (add_bytes_yields z1 h dst Hz1 Hb) as (z2 & E & Y & _ & _); [lia|done| |].
  { rewrite (ab_remaining _ _ _ _ A). unfold u32. by rewrite Z.mod_mod. }
  destruct (put_output dst z1) as [z1'|]; [|done]. cbn [mbind outcome_bind] in *. rewrite E.
  cbn [mbind outcome_bind]. exists z2. split; [done|]. rewrite <- Hlz, (ab_pending _ _ _ _ A) in *.
  rewrite <- (Z.add_0_r (zlen (count_bits count))). by eapply yields_after.
Qed.

Lemma pending_aligned z pad l R :
  bits_ok z → pending z = pad ++ byte_bits l ++ R → zlen pad < 8 → zlen R mod 8 = 0 → bytes l →
  zgfx_cBitsCurrent z = zlen pad ∧ ∃ tl, zgfx_pbInput z = l ++ tl ∧ byte_bits tl = R.
Proof.
  intros [Hc Hcur Hin] Hp Hpad HR Hl. pose proof (zlen_nonneg pad).
  assert (zgfx_cBitsCurrent z = zlen pad) as Hn.
  { apply (f_equal zlen) in Hp. unfold pending in Hp.
    rewrite !zlen_app, !zlen_byte_bits, zlen_bits_of in Hp by lia. div_mod_lia. }
  split; [done|]. unfold pending in Hp.
  apply app_bits_inj in Hp as [_ Hp]; [|rewrite zlen_bits_of; lia]. by apply byte_bits_app_inv.
Qed.

Lemma decode_unencoded_yields l pad z h R :
  ctx_ok z → represents z h → bytes l → zlen l < 32768 →
  pending z = bits_of 15 (zlen l) ++ pad ++ byte_bits l ++ R → zlen pad < 8 → zlen R mod 8 = 0 →
  zgfx_OutputCount z + zlen l <= OUTPUT_SIZE →
  15 + zlen pad + 8 * zlen l <= zgfx_cBitsRemaining z < 2 ^ 32 →
  ∃ z', decode_unencoded z = Ret (true, z') ∧
    yields z h (15 + zlen pad + 8 * zlen l) l R z'.
Proof.
  intros Hz Hh Hl Hlen Hp Hpad HR Ho Hr. unfold decode_unencoded. pose proof (zlen_nonneg l).
  destruct (GetBits_reads 15 (zlen l) z _ (co_bits _ Hz) ltac:(lia) ltac:(lia) Hp) as (z1 & -> & Rd).
  cbn [mbind outcome_bind]. pose proof Rd as [F1 K1 P1 B1 R1].
  pose proof (after_ok _ _ _ _ (reads_after _ _ _ _ _ Rd) Hz) as Hz1.
  destruct (pending_aligned z1 pad l R K1 P1 Hpad HR Hl) as (Hcount & tl & Hin & Htl).
  pose proof (zlen_nonneg pad). rewrite u32_small in R1 by lia.
  rewrite B1, R1, Hcount, u32_small by lia. set (z2 := set_input _ _ _ 0 0 z1).
  assert (ctx_ok z2) as Hz2.
  { destruct Hz1 as [[] [] []]. split; [|by split|by split]. split; cbn; done || lia. }
  assert (zgfx_OutputCount z2 = zgfx_OutputCount z) as Ho2.
  { destruct F1 as [F _ _ _]. unfold zgfx_OutputCount. cbn. by rewrite F. }
  assert (zgfx_pbInput z2 = l ++ tl) as Hin2 by exact Hin.
  assert (zgfx_cBitsRemaining z2 = zgfx_cBitsRemaining z - 15 - zlen pad) as Hr2 by done.
  rewrite !Z.gtb_ltb, Hin2, Hr2. replace (OUTPUT_SIZE - _ <? zlen l) with false by lia.
  replace (_ / 8 <? zlen l) with false by div_mod_lia.
  replace (zlen (l ++ tl) <? zlen l) with false by zlia.
  rewrite ztake_app_le, ztake_all by lia.
  assert (represents z2 h) as Hh2.
  { apply (frame_represents z1); [by split|]. by eapply frame_represents. }
  destruct (add_bytes_spec z2 l Hz2 Hl) as (z3 & E & [D _ _] & Ho3 & [H1 H2 H3 H4 H5 _] & Hrep); [lia|].
  destruct (put_output l z2) as [z2'|]; [|done]. cbn [mbind outcome_bind] in *. rewrite E.
  cbn [mbind outcome_bind]. cbn in H1, H2, H3, H4, H5.
  rewrite H1, Hin, H3, zdrop_app_ge, zdrop_nonpos by lia.
  eexists. split; [done|]. split; cbn.
  - destruct D as [[] [] []]. split; [|by split|by split]. split; cbn; [done..|].
    rewrite H1, Hin in bo_input. by apply Forall_app in bo_input as [_ ?].
  - rewrite Ho3. destruct F1 as [F _ _ _]. cbn. by rewrite F.
  - by apply Hrep.
  - unfold pending. cbn. by rewrite H5, bits_of_0.
  - unfold u32. f_equal. lia.
Qed.

Lemma op_in_table_ok op : op ∈ ZGFX_TOKEN_TABLE → entry_ok op.
Proof. intros Hop. pose proof table_ok as Ht. rewrite Forall_forall in Ht. by apply Ht. Qed.
Lemma zlen_prefix_bits op : entry_ok op → zlen (prefix_bits op) = prefixLength op.
Proof. intros []. unfold prefix_bits. rewrite zlen_bits_of; lia. Qed.
Lemma zlen_align pos : 0 <= zlen (align pos) < 8 ∧ (pos + zlen (align pos)) mod 8 = 0.
Proof. unfold align. rewrite zlen_replicate. div_mod_lia. Qed.

(** One round of the loop. *)
Lemma token_yields t pos z h R :
  token_ok t → ctx_ok z → represents z h → pending z = token_bits pos t ++ R →
  0 <= pos → (pos + zlen (token_bits pos t) + zlen R) mod 8 = 0 →
  zgfx_OutputCount z + zlen (token_bytes h t) <= OUTPUT_SIZE →
  zlen (token_bits pos t) <= zgfx_cBitsRemaining z < 2 ^ 32 →
  ∃ op z1 z', find_token ZGFX_TOKEN_TABLE 0 0 z = Ret (Some op, z1) ∧
    decode_token op z1 = Ret (true, z') ∧
    yields z h (zlen (token_bits pos t)) (token_bytes h t) R z'.
Proof.
  intros Ht Hz Hh Hp Hpos Hal Ho Hr.
  assert (zgfx_cBitsRemaining z = u32 (zgfx_cBitsRemaining z)) as Hu by (rewrite u32_small; zlia).
  assert (∀ op B, op ∈ ZGFX_TOKEN_TABLE → pending z = prefix_bits op ++ B →
    ∃ z1, find_token ZGFX_TOKEN_TABLE 0 0 z = Ret (Some op, z1) ∧ after_bits z (prefixLength op) B z1 ∧
      ctx_ok z1 ∧ represents z1 h ∧ zgfx_OutputCount z1 = zgfx_OutputCount z ∧
      zgfx_cBitsRemaining z1 = u32 (zgfx_cBitsRemaining z1)) as Hfind.
  { intros op B Hop HB. destruct (find_token_op op z B Hop (co_bits _ Hz) HB Hu) as (z1 & E & A).
    exists z1. split_and!; [done..|by eapply after_ok|eapply frame_represents; [apply A|done]| |].
    - destruct A as [[F _ _ _] _ _ _]. unfold zgfx_OutputCount. by rewrite F.
    - rewrite (ab_remaining _ _ _ _ A). unfold u32. by rewrite Z.mod_mod. }
  destruct t as [op v|op v count|l]; cbn [token_ok token_bits token_bytes] in *;
    rewrite <- ?app_assoc in Hp.
  - destruct Ht as (Hop & Ht & Hv). pose proof (op_in_table_ok op Hop) as Hok.
    destruct (Hfind op _ Hop Hp) as (z1 & E & A & Hz1 & Hh1 & Ho1 & _).
    change (zlen [u8 (valueBase op + v)]) with 1 in Ho.
    destruct (decode_literal_yields op v z1 h R Hok Hv Hz1 Hh1) as (z' & E' & Y);
      [apply A|lia|]. exists op, z1, z'. split_and!; [done| |].
    + unfold decode_token. by rewrite Ht.
    + rewrite zlen_app, zlen_prefix_bits, zlen_bits_of by (done || apply Hok).
      by eapply yields_after.
  - destruct Ht as (Hop & Ht & Hv & Hd & Hc). pose proof (op_in_table_ok op Hop) as Hok.
    destruct (Hfind op _ Hop Hp) as (z1 & E & A & Hz1 & Hh1 & Ho1 & Hu1). rewrite zlen_lz_copy in Ho.
    destruct (GetBits_reads (valueBits op) v z1 (count_bits count ++ R)) as (z2 & E2 & Rd);
      [apply Hz1|apply Hok|done|apply A|]. pose proof (reads_after _ _ _ _ _ Rd) as A2.
    destruct (decode_match_yields (valueBase op + v) count z2 h R) as (z' & E' & Y);
      [by eapply after_ok|eapply frame_represents; [apply A2|done]|lia|done|apply A2| | |].
    { destruct A2 as [[F _ _ _] _ _ _]. unfold zgfx_OutputCount in *. rewrite F. lia. }
    { rewrite (ab_remaining _ _ _ _ A2). unfold u32. by rewrite Z.mod_mod. }
    exists op, z1, z'. split_and!; [done| |].
    + unfold decode_token. replace (tokenType op =? 0) with false by lia. rewrite E2.
      cbn [mbind outcome_bind]. rewrite (rd_bits _ _ _ _ _ Rd).
      by replace (valueBase op + v =? 0) with false by lia.
    + rewrite !zlen_app, zlen_prefix_bits, zlen_bits_of by (done || apply Hok).
      eapply yields_after; [done|]. by eapply yields_after.
  - destruct Ht as (Hb & Hlen). destruct (zlen_align (pos + 25)) as [Ha1 Ha2].
    assert (op_unencoded ∈ ZGFX_TOKEN_TABLE) as Hop by (right; left).
    rewrite !zlen_app, zlen_byte_bits, !zlen_bits_of in * by (lia || apply zlen_nonneg).
    change (zlen (prefix_bits op_unencoded)) with 5 in *.
    destruct (Hfind _ _ Hop Hp) as (z1 & E & A & Hz1 & Hh1 & Ho1 & Hu1).
    destruct (GetBits_reads 5 0 z1 (bits_of 15 (zlen l) ++ align (pos + 25) ++ byte_bits l ++ R))
      as (z2 & E2 & Rd); [apply Hz1|lia|lia|apply A|]. pose proof (reads_after _ _ _ _ _ Rd) as A2.
    assert (zgfx_cBitsRemaining z2 = zgfx_cBitsRemaining z - 10) as Hr2.
    { rewrite (ab_remaining _ _ _ _ A2), (ab_remaining _ _ _ _ A), u32_sub, u32_small; cbn; zlia. }
    destruct (decode_unencoded_yields l (align (pos + 25)) z2 h R) as (z' & E' & Y);
      [by eapply after_ok|eapply frame_represents; [apply A2|done]|done|done|apply A2|lia| | |zlia|].
    { div_mod_lia. }
    { destruct A2 as [[F _ _ _] _ _ _]. unfold zgfx_OutputCount in *. rewrite F. lia. }
    exists op_unencoded, z1, z'. split_and!; [done| |].
    + unfold decode_token. cbn [tokenType op_unencoded Z.eqb valueBits valueBase]. rewrite E2.
      cbn [mbind outcome_bind]. by rewrite (rd_bits _ _ _ _ _ Rd).
    + replace (5 + (5 + (15 + (zlen (align (pos + 25)) + 8 * zlen l))))
        with (5 + (5 + (15 + zlen (align (pos + 25)) + 8 * zlen l))) by lia.
      eapply yields_after; [exact A|]. by eapply yields_after.
Qed.

(** * Segments *)

Lemma token_bits_pos pos t : token_ok t → 0 < zlen (token_bits pos t).
Proof.
  destruct t as [op v|op v count|l]; cbn [token_ok token_bits]; intros Ht; rewrite zlen_app.
  1, 2: destruct Ht as [Hop _]; pose proof (op_in_table_ok op Hop) as Hok;
    rewrite zlen_prefix_bits by done; destruct Hok; zlia.
  change (zlen (prefix_bits op_unencoded)) with 5. zlia.
Qed.

Lemma decompress_tokens_yields l fuel pos z h pad :
  Forall token_ok l → ctx_ok z → represents z h → pending z = tokens_bits pos l ++ pad →
  0 <= pos → (pos + zlen (tokens_bits pos l) + zlen pad) mod 8 = 0 →
  zgfx_OutputCount z + zlen (tokens_bytes h l) <= OUTPUT_SIZE →
  zgfx_cBitsRemaining z = zlen (tokens_bits pos l) → zlen (tokens_bits pos l) < 2 ^ 32 →
  zlen (tokens_bits pos l) < Z.of_nat fuel →
  ∃ z', decompress_tokens fuel z = Ret (true, z') ∧ ctx_ok z' ∧
    zgfx_Output z' = zgfx_Output z ++ tokens_bytes h l ∧ represents z' (h ++ tokens_bytes h l).
Proof.
  intros Hl. revert fuel pos z h. induction Hl as [|t l Ht Hl IH];
    intros fuel pos z h Hz Hh Hp Hpos Hal Ho Hr Hmax Hf; cbn [tokens_bits tokens_bytes] in *.
  { exists z. destruct fuel; cbn [decompress_tokens]; rewrite Hr, !app_nil_r; done. }
  set (n := zlen (token_bits pos t)) in *. set (bs := token_bytes h t) in *.
  rewrite !zlen_app in *. fold n in Hr, Hal, Hf, Hmax. rewrite <- app_assoc in Hp.
  pose proof (token_bits_pos pos t Ht) as Hn. fold n in Hn.
  pose proof (zlen_nonneg (tokens_bits (pos + n) l)). pose proof (zlen_nonneg (tokens_bytes (h ++ bs) l)).
  destruct (token_yields t pos z h _ Ht Hz Hh Hp Hpos) as (op & z1 & z2 & E1 & E2 & [Y1 Y2 Y3 Y4 Y5]).
  { fold n. rewrite zlen_app, <- Hal. f_equal. lia. }
  { fold bs. lia. }
  { fold n. lia. }
  fold n bs in Y2, Y3, Y5. rewrite u32_small in Y5 by lia.
  destruct fuel as [|fuel]; [lia|]. cbn [decompress_tokens].
  replace (zgfx_cBitsRemaining z =? 0) with false by lia.
  rewrite E1. cbn [mbind outcome_bind]. rewrite E2. cbn [mbind outcome_bind negb].
  destruct (IH fuel (pos + n) z2 (h ++ bs)) as (z' & E' & H1 & H2 & H3); try done; try lia.
  { rewrite <- Hal. f_equal. lia. }
  { unfold zgfx_OutputCount in *. rewrite Y2, zlen_app. lia. }
  exists z'. split_and!; [done|done|by rewrite H2, Y2, app_assoc|by rewrite app_assoc].
Qed.

(** The bytes of a compressed segment behind its header: the code words, filled
    up to whole bytes with [pad], and the number of the bits of [pad]. *)
Definition segment_of (l : list token) (seg : list Z) : Prop :=
  ∃ data pad, seg = data ++ [zlen pad] ∧ bytes data ∧ zlen pad < 256 ∧
    byte_bits data = tokens_bits 0 l ++ pad.

Lemma payload_yields flags l seg z h :
  zgfx_ok z → represents z h → Z.land flags ZGFX_PACKET_COMPRESSED ≠ 0 →
  Forall token_ok l → segment_of l seg → zlen (tokens_bytes h l) <= OUTPUT_SIZE →
  zlen seg < 536870912 →
  ∃ z', decompress_payload flags seg z = Ret (true, z') ∧ zgfx_ok z' ∧
    zgfx_Output z' = tokens_bytes h l ∧ represents z' (h ++ tokens_bytes h l).
Proof.
  intros Hz Hh Hf Hl (data & pad & -> & Hb & Hpad & Hbits) Ho Hmax. unfold decompress_payload.
  replace (Z.land flags ZGFX_PACKET_COMPRESSED =? 0) with false by lia.
  change (zlen [zlen pad]) with 1 in *. rewrite zlen_app in *. change (zlen [zlen pad]) with 1 in *.
  pose proof (zlen_nonneg pad). pose proof (zlen_nonneg data).
  replace (zlen data + 1 - 1) with (zlen data) by lia.
  rewrite zget_app, Z.ltb_irrefl, Z.sub_diag by lia. change (zget [zlen pad] 0) with (zlen pad).
  rewrite ztake_app_le, ztake_all by lia.
  pose proof (f_equal zlen Hbits) as Hlen. rewrite zlen_byte_bits, zlen_app in Hlen.
  pose proof (zlen_nonneg (tokens_bits 0 l)).
  replace (8 * zlen data >? UINT32_MAX) with false by (unfold UINT32_MAX; lia).
  replace (8 * zlen data <? zlen pad) with false by lia.
  pose proof (zgfx_ok_reset z Hz) as Hz0. set (z1 := set_input data _ _ 0 0 _).
  assert (ctx_ok z1) as Hz1.
  { destruct Hz0 as [[] []]. split; [|by split|by split]. split; cbn; done || lia. }
  destruct (decompress_tokens_yields l (segment_fuel (zlen data + 1)) 0 z1 h pad)
    as (z' & -> & Hz' & Ho' & Hr'); try done; try (cbn; lia).
  - by rewrite Z.add_0_l, <- Hlen, Z.mul_comm, Z_mod_mult.
  - unfold segment_fuel, OUTPUT_SIZE. lia.
  - exists z'. split_and!; [done|by apply ctx_zgfx|by rewrite Ho'|done].
Qed.
