(* ===== verification/ZgfxMessages.v ===== *)
(** RDP8 messages: single and multipart messages of raw and compressed segments,
    what they mean, that [zgfx_decompress] gives that, and that the messages of
    [zgfx_compress] mean the data they were made from. *)

From S2P Require Import Prelude Arrays Stream StreamLogic BitStream Zgfx ZgfxCorrect ZgfxFormat.
From stdpp Require Import prelude list numbers gmap.
From Stdlib Require Import ZArith Lia.

#[local] Open Scope Z_scope.

(** * Messages *)

(** A segment, and the bytes it stands for after the history [h]. *)
Inductive segment (h : list Z) : list Z → list Z → Prop :=
| segment_raw flags bs :
    is_byte flags → Z.land flags ZGFX_PACKET_COMPRESSED = 0 → bytes bs → 0 < zlen bs <= OUTPUT_SIZE →
    segment h (flags :: bs) bs
| segment_packed flags l seg :
    is_byte flags → Z.land flags ZGFX_PACKET_COMPRESSED ≠ 0 → Forall token_ok l → segment_of l seg →
    zlen (tokens_bytes h l) <= OUTPUT_SIZE → zlen seg < 536870912 →
    segment h (flags :: seg) (tokens_bytes h l).
(** Segments one after the other. *)
Inductive segments : list Z → list (list Z) → list Z → Prop :=
| segments_nil h : segments h [] []
| segments_cons h s bs l cs :
    segment h s bs → segments (h ++ bs) l cs → segments h (s :: l) (bs ++ cs).

Definition sized (s : list Z) : list Z := winpr_Data_Write_UINT32 (zlen s) ++ s.
Definition multipart (l : list (list Z)) (size : Z) : list Z :=
  ZGFX_SEGMENTED_MULTIPART :: winpr_Data_Write_UINT16 (zlen l) ++ winpr_Data_Write_UINT32 size ++
  concat (map sized l).
Inductive message (h : list Z) : list Z → list Z → Prop :=
| message_single s bs :
    segment h s bs → message h (ZGFX_SEGMENTED_SINGLE :: s) bs
| message_multipart l bs :
    segments h l bs → zlen l <= UINT16_MAX → message h (multipart l (zlen bs)) bs.

(** * Decoding them *)

Lemma payload_raw flags bs z h :
  zgfx_ok z → represents z h → Z.land flags ZGFX_PACKET_COMPRESSED = 0 → bytes bs →
  zlen bs <= OUTPUT_SIZE →
  ∃ z', decompress_payload flags bs z = Ret (true, z') ∧ zgfx_ok z' ∧
    zgfx_Output z' = bs ∧ represents z' (h ++ bs).
Proof.
  intros Hz Hh Hf Hb Hlen. unfold decompress_payload. rewrite Hf. cbn [Z.eqb].
  pose proof (zgfx_ok_reset z Hz) as Hz0. set (z0 := set_output [] z) in *.
  destruct (ring_write_spec bs z0) as (z1 & -> & Hh1 & HO & Hr); [apply Hz0|done|].
  cbn [mbind outcome_bind]. assert (zgfx_Output z1 = []) as Hnil by by destruct HO.
  rewrite Z.gtb_ltb. replace (OUTPUT_SIZE <? zlen bs) with false by lia.
  unfold put_output, zgfx_OutputCount. rewrite Hnil. change (zlen []) with 0.
  replace (0 + zlen bs <=? OUTPUT_SIZE) with true by lia. cbn [mbind outcome_bind app].
  eexists. split_and!; [done| |done|].
  - split; [by destruct Hh1; split|by split].
  - intros d Hd. cbn. by apply (Hr h).
Qed.

Lemma reads_segment s bs z h :
  zgfx_ok z → represents z h → segment h s bs → zlen s <= UINT32_MAX →
  ∃ z', reads (zgfx_decompress_segment (zlen s) z) s (true, z') ∧ zgfx_ok z' ∧
    zgfx_Output z' = bs ∧ represents z' (h ++ bs).
Proof.
  intros Hz Hh Hs Hmax.
  assert (∃ flags seg z', s = flags :: seg ∧ 0 < zlen seg ∧
    decompress_payload flags seg z = Ret (true, z') ∧ zgfx_ok z' ∧
    zgfx_Output z' = bs ∧ represents z' (h ++ bs)) as (flags & seg & z' & -> & Hpos & E & H).
  { destruct Hs as [flags bs Hb Hf Hby Hlen|flags l seg Hb Hf Hl Hseg Ho Hm].
    - destruct (payload_raw flags bs z h) as (z' & ?); [done..|lia|]. exists flags, bs, z'. split_and!; [done|lia|tauto..].
    - destruct (payload_yields flags l seg z h) as (z' & ?); [done..|].
      exists flags, seg, z'. split_and!; [done| |tauto..].
      destruct Hseg as (data & pad & -> & _).
      rewrite zlen_app. change (zlen [zlen pad]) with 1. zlia. }
  exists z'. split; [|done]. rewrite zlen_cons in *. unfold zgfx_decompress_segment.
  replace (1 + zlen seg <? 2) with false by lia.
  apply reads_check; [zlia|]. cbv beta iota. rewrite Z.gtb_ltb. replace (UINT32_MAX <? _) with false by lia.
  apply reads_step_UINT8. replace (1 + zlen seg - 1) with (zlen seg) by lia.
  apply reads_nil_r, reads_step_Peek; [done|]. apply reads_SafeSeek; [done|]. cbv beta iota.
  rewrite E. apply reads_lift.
Qed.

Section decoder.
Context {HM : Malloc} (Hmalloc : ∀ z, malloc_ok z = true).

Lemma append_ok size l z :
  zlen l + zgfx_OutputCount z <= size → size <= UINT32_MAX →
  zgfx_append size l z = Some (l ++ zgfx_Output z).
Proof.
  intros Hs Hm. unfold zgfx_append. pose proof (zlen_nonneg l).
  assert (0 <= zgfx_OutputCount z) by apply zlen_nonneg.
  unfold u64. rewrite Z.mod_small by (unfold UINT32_MAX in *; lia). rewrite !Z.gtb_ltb.
  replace (_ <? zgfx_OutputCount z) with false by lia. replace (size <? _) with false by lia.
  by rewrite Hmalloc.
Qed.

Lemma reads_segments l bs size acc z h :
  zgfx_ok z → represents z h → segments h l bs → Forall (λ s, zlen s <= UINT32_MAX) l →
  zlen acc + zlen bs <= size → size <= UINT32_MAX →
  ∃ z', reads (segments_loop (length l) size acc z) (concat (map sized l)) (Some (acc ++ bs), z') ∧
    zgfx_ok z' ∧ represents z' (h ++ bs).
Proof.
  intros Hz Hh Hs. revert acc z Hz Hh. induction Hs as [h|h s bs l cs Hseg Hs IH]; intros acc z Hz Hh Hmax Hlen Hsize.
  { exists z. rewrite !app_nil_r. split_and!; [apply reads_ret|done..]. }
  apply Forall_cons_1 in Hmax as [Hms Hml]. rewrite zlen_app in Hlen. pose proof (zlen_nonneg cs).
  destruct (reads_segment s bs z h Hz Hh Hseg Hms) as (z1 & R1 & Hz1 & Ho1 & Hh1).
  destruct (IH (acc ++ bs) z1 Hz1 Hh1 Hml) as (z2 & R2 & Hz2 & Hh2); [rewrite zlen_app; lia|done|].
  exists z2. rewrite !app_assoc in *. split_and!; [|done..].
  cbn [segments_loop length map concat]. unfold sized at 1. rewrite <- app_assoc.
  apply reads_check; [rewrite zlen_app; change (zlen (winpr_Data_Write_UINT32 _)) with 4; zlia|].
  cbv beta iota. apply reads_step_UINT32; [zlia|].
  eapply reads_bind; [exact R1|]. cbv beta iota. cbn [negb].
  rewrite append_ok, Ho1 by (unfold zgfx_OutputCount; rewrite ?Ho1; lia). exact R2.
Qed.

(** A message gives what it means. *)
Lemma decompress_message z h msg bs :
  zgfx_ok z → represents z h → message h msg bs → bytes msg → zlen msg <= UINT32_MAX →
  zlen bs <= UINT32_MAX →
  ∃ z', zgfx_decompress z msg = Ret (Some bs, z') ∧ zgfx_ok z' ∧ represents z' (h ++ bs).
Proof.
  intros Hz Hh Hm Hb Hmsg Hbs.
  assert (∃ z', parses (zgfx_decompress_stream z) msg (Some bs, z') ∧ zgfx_ok z' ∧
    represents z' (h ++ bs)) as (z' & P & H).
  2:{ exists z'. split; [|done]. unfold zgfx_decompress. change (Stream_StaticInit msg (zlen msg)) with (stream_of msg).
      rewrite P; [done|apply stream_of_readable; [unfold UINT32_MAX, SIZE_MAX in *; lia|done]|].
      unfold remaining, rem, zslice. cbn. rewrite zdrop_nonpos by lia. apply ztake_all. lia. }
  destruct Hm as [s bs Hs|l bs Hs Hl].
  - rewrite zlen_cons in Hmsg.
    destruct (reads_segment s bs z h Hz Hh Hs) as (z1 & R1 & Hz1 & Ho1 & Hh1); [lia|].
    exists z1. split; [|done]. unfold zgfx_decompress_stream.
    apply parses_check; [zlia|]. cbv beta iota. apply (parses_bind _ _ [_] _ ZGFX_SEGMENTED_SINGLE); [apply reads_UINT8|].
    cbn [Z.eqb Pos.eqb ZGFX_SEGMENTED_SINGLE]. intros st Hst Hrem.
    erewrite bind_Ret by by apply run_GetRemainingLength. rewrite <- zlen_remaining, Hrem by done.
    erewrite bind_Ret by by apply (R1 st []); [|rewrite app_nil_r]. cbv beta iota. cbn [negb].
    unfold zgfx_OutputCount. rewrite Ho1, Z.gtb_ltb.
    destruct (Z.ltb_spec 0 (zlen bs)) as [|Hnil].
    + rewrite append_ok by (unfold zgfx_OutputCount; rewrite ?Ho1; change (zlen []) with 0; lia).
      rewrite Ho1, Z.eqb_refl. done.
    + rewrite (zlen_nil_inv bs) by (pose proof (zlen_nonneg bs); lia). done.
  - unfold multipart in *. destruct (reads_segments l bs (zlen bs) [] z h) as (z1 & R1 & Hz1 & Hh1);
      [done..| |change (zlen []) with 0; lia|done|].
    { rewrite zlen_cons, !zlen_app in Hmsg. apply Forall_forall. intros s Hin.
      assert (zlen s <= zlen (concat (map sized l))); [|zlia].
      clear -Hin. induction l as [|t l IH]; [by apply not_elem_of_nil in Hin|].
      cbn [map concat]. rewrite zlen_app. unfold sized at 1. rewrite zlen_app.
      apply elem_of_cons in Hin as [->|Hin]; [zlia|specialize (IH Hin); zlia]. }
    exists z1. split; [|done]. apply reads_parses. unfold zgfx_decompress_stream.
    apply reads_check; [zlia|]. cbv beta iota. apply reads_step_UINT8.
    cbn [Z.eqb Pos.eqb ZGFX_SEGMENTED_SINGLE ZGFX_SEGMENTED_MULTIPART].
    apply reads_check.
    { rewrite !zlen_app. change (zlen (winpr_Data_Write_UINT16 _)) with 2.
      change (zlen (winpr_Data_Write_UINT32 _)) with 4. zlia. }
    cbv beta iota. apply reads_step_UINT16; [zlia|]. apply reads_step_UINT32; [zlia|].
    replace (Z.to_nat (zlen l)) with (length l) by (unfold zlen; lia).
    rewrite <- (app_nil_r (concat _)). eapply reads_bind; [exact R1|]. cbv beta iota.
    cbn [app]. rewrite Z.eqb_refl. apply reads_ret.
Qed.
End decoder.

(** * The encoder *)

(** [bs] was appended, and the buffer grew by at most [c] bytes. *)
Record wrote (s s' : wStream) (bs : list Z) (c : Z) : Prop := {
  wr_wf : wf s';
  wr_written : written s' = written s ++ bs;
  wr_capacity : st_capacity s' <= st_capacity s + c;
}.
Lemma wrote_trans s1 s2 s3 bs1 bs2 c1 c2 :
  wrote s1 s2 bs1 c1 → wrote s2 s3 bs2 c2 → wrote s1 s3 (bs1 ++ bs2) (c1 + c2).
Proof. intros [] []. split; [done|by rewrite wr_written1, wr_written0, app_assoc|lia]. Qed.
Lemma wstep_wrote s s' bs c : wstep s s' bs c → wrote s s' bs c.
Proof. intros []. split; [done..|lia]. Qed.
Lemma wrote_pointer s s' bs c : wf s → wrote s s' bs c → st_pointer s' = st_pointer s + zlen bs.
Proof.
  intros Hs [Hw He _]. apply (f_equal zlen) in He. by rewrite zlen_app, !zlen_written in He.
Qed.

Lemma lor_flags flags : is_byte flags → is_byte (Z.lor flags ZGFX_PACKET_COMPR_TYPE_RDP8).
Proof.
  intros Hf. cut ((0 <=? Z.lor flags 4) && (Z.lor flags 4 <? 256) = true); [unfold is_byte, ZGFX_PACKET_COMPR_TYPE_RDP8; lia|].
  by apply (byte_cases (λ f, (0 <=? Z.lor f 4) && (Z.lor f 4 <? 256))).
Qed.
Lemma lor_flags_twice flags :
  Z.lor (Z.lor flags ZGFX_PACKET_COMPR_TYPE_RDP8) ZGFX_PACKET_COMPR_TYPE_RDP8 =
  Z.lor flags ZGFX_PACKET_COMPR_TYPE_RDP8.
Proof. by rewrite <- Z.lor_assoc, Z.lor_diag. Qed.

Section encoder.
Context {HM : Malloc} (Hmalloc : ∀ z, malloc_ok z = true).

Lemma writes_compress_segment chunk flags :
  is_byte flags → bytes chunk → zlen chunk < UINT32_MAX →
  writes (zgfx_compress_segment chunk flags)
    (Z.lor flags ZGFX_PACKET_COMPR_TYPE_RDP8 :: chunk) (zlen chunk + 129)
    (Some (Z.lor flags ZGFX_PACKET_COMPR_TYPE_RDP8)).
Proof.
  intros Hf Hc Hlen. unfold zgfx_compress_segment. pose proof (zlen_nonneg chunk).
  pose proof (lor_flags flags Hf) as Hb.
  rewrite u32_small by (unfold UINT32_MAX in *; lia).
  replace (zlen chunk + 129) with (zlen chunk + 1 + 128) by lia.
  apply writes_ensure; [done|lia|]. cbv beta iota zeta.
  apply puts_cast; [unfold is_byte, UINT8_MAX in *; lia|].
  apply puts_UINT8; [lia|done|]. apply puts_nil_r, puts_Write; [lia|done|]. apply puts_ret.
Qed.

(** Four bytes for the size, the segment, the size filled in. *)
Lemma multipart_segment {A} chunk flags (k : Z → SM (option A)) s :
  let flags' := Z.lor flags ZGFX_PACKET_COMPR_TYPE_RDP8 in
  wf s → fits s 4 → 0 < st_pointer s → is_byte flags → bytes chunk → zlen chunk < UINT32_MAX →
  st_capacity s + zlen chunk + 129 <= SIZE_MAX →
  ∃ s', wrote s s' (sized (flags' :: chunk)) (zlen chunk + 129) ∧
    (posDstSize ← (pos ← Stream_GetPosition; Stream_Seek 4;; mret pos);
     posDataStart ← Stream_GetPosition;
     flags ←? zgfx_compress_segment chunk flags;
     TRY (if negb (posDstSize =? 0) then fill_size posDstSize posDataStart else TRUE);
     k flags) s = k flags' s'.
Proof.
  intros flags' Hs Hf4 Hpos Hf Hc Hlen Hmax. unfold fits in Hf4. pose proof Hs as [].
  pose proof (zlen_nonneg chunk).
  set (p := st_pointer s) in *. set (s1 := adv 4 s).
  assert (wf s1) as Hs1 by (apply wf_set_pointer; [done|fold p; lia]).
  destruct (writes_compress_segment chunk flags Hf Hc Hlen s1 Hs1) as (s2 & E2 & W2); [cbn; lia|].
  pose proof W2 as [Hw2 Hwr2 Hp2 Hc2 _]. cbn [s1 adv set_pointer st_pointer st_capacity] in Hp2, Hc2. fold p in Hp2.
  rewrite zlen_cons in Hp2.
  assert (puts (zlen (winpr_Data_Write_UINT32 (1 + zlen chunk))) (Stream_Write_UINT32 (1 + zlen chunk))
    (winpr_Data_Write_UINT32 (1 + zlen chunk)) tt) as Hput.
  { intros s0 Hs0 Hf0. apply run_Write_UINT32; [done|done|unfold UINT32_MAX in *; lia]. }
  destruct (run_backfill p (winpr_Data_Write_UINT32 (1 + zlen chunk)) (Stream_Write_UINT32 (1 + zlen chunk)) s2 Hw2) as (s3 & E3 & Hcap3 & Hw3 & Hwr3);
    [lia|change (zlen (winpr_Data_Write_UINT32 _)) with 4; lia|exact Hput|].
  exists (set_pointer (st_pointer s2) s3). split.
  - split; [done| |cbn [st_capacity set_pointer] in *; lia].
    rewrite Hwr3, Hwr2. unfold sized. rewrite zlen_cons.
    assert (written s1 = written s ++ ztake 4 (zdrop p (st_buffer s))) as Hw1.
    { unfold written, s1. cbn. fold p. rewrite ztake_ztake_zdrop by lia. done. }
    rewrite Hw1, <- app_assoc. unfold zblit. assert (zlen (written s) = p) as Hlp by by apply zlen_written.
    rewrite ztake_app_le, ztake_all by lia. do 2 f_equal.
    change (zlen (winpr_Data_Write_UINT32 _)) with 4. rewrite zdrop_app_ge by lia.
    assert (zlen (ztake 4 (zdrop p (st_buffer s))) = 4) as H4 by (rewrite zlen_ztake, zlen_zdrop; lia).
    rewrite zdrop_app_ge, zdrop_nonpos by lia. done.
  - assert ((pos ← Stream_GetPosition; Stream_Seek 4;; mret pos) s = Ret (p, s1)) as E1.
    { erewrite bind_Ret by by apply run_GetPosition. erewrite bind_Ret; [done|]. apply run_Seek; [done|fold p; lia]. }
    erewrite bind_Ret by exact E1. erewrite bind_Ret by by apply run_GetPosition.
    erewrite bind_Ret by exact E2. cbv beta iota. replace (p =? 0) with false by lia. cbn [negb].
    rewrite (bind_Ret _ _ s2 (Some tt) (set_pointer (st_pointer s2) s3)); [done|]. unfold fill_size.
    erewrite bind_Ret by by apply run_GetPosition. cbv beta zeta.
    cbn [s1 adv set_pointer st_pointer]. fold p. replace (st_pointer s2 - (p + 4)) with (1 + zlen chunk) by lia.
    rewrite Z.gtb_ltb. replace (UINT32_MAX <? _) with false by lia.
    erewrite bind_Ret by (apply run_SetPosition; destruct Hw2; lia). cbv beta iota.
    erewrite bind_Ret by exact E3.
    rewrite (bind_Ret _ _ s3 (Some tt) (set_pointer (st_pointer s2) s3)); [done|].
    replace (p + 4 + (1 + zlen chunk)) with (st_pointer s2) by lia.
    apply run_SetPosition. destruct Hw2. lia.
Qed.

(** The pieces the data is cut into. *)
Definition piece (l : list Z) : Z :=
  if zlen l >? ZGFX_SEGMENTED_MAXSIZE then ZGFX_SEGMENTED_MAXSIZE else zlen l.
Fixpoint pieces (fuel : nat) (l : list Z) : list (list Z) :=
  match fuel with
  | O => []
  | S fuel => if zlen l >? 0 then ztake (piece l) l :: pieces fuel (zdrop (piece l) l) else []
  end.
Lemma piece_range l : 0 <= piece l <= zlen l ∧ piece l <= 65535 ∧ (0 < zlen l → 0 < piece l).
Proof.
  unfold piece, ZGFX_SEGMENTED_MAXSIZE. pose proof (zlen_nonneg l). rewrite Z.gtb_ltb.
  destruct (Z.ltb_spec 65535 (zlen l)); lia.
Qed.
Lemma zlen_piece l : zlen (ztake (piece l) l) = piece l.
Proof. rewrite zlen_ztake. pose proof (piece_range l). lia. Qed.

Lemma fragments_rest fuel fragment pos size flags l s :
  wf s → 0 < st_pointer s → 1 <= fragment → bytes l → zlen l < Z.of_nat fuel → zlen l <= UINT32_MAX →
  is_byte flags → Z.lor flags ZGFX_PACKET_COMPR_TYPE_RDP8 = flags →
  st_capacity s + 400 * zlen l <= SIZE_MAX →
  ∃ s', fragments_loop fuel fragment pos size flags l s =
      Ret (Some (fragment + zlen (pieces fuel l), pos, flags), s') ∧
    wrote s s' (concat (map sized (map (cons flags) (pieces fuel l)))) (400 * zlen l).
Proof.
  revert fragment l s. induction fuel as [|fuel IH]; intros fragment l s Hs Hpos Hfr Hb Hf Hlen Hfl Hlor Hcap;
    [zlia|]. pose proof (zlen_nonneg l). cbn [fragments_loop pieces].
  replace (fragment =? 0) with false by lia. rewrite !Z.gtb_ltb, orb_false_r.
  destruct (Z.ltb_spec 0 (zlen l)) as [Hpl|].
  2:{ exists s. change (zlen []) with 0. rewrite Z.add_0_r. split; [done|].
      split; [done|by rewrite app_nil_r|lia]. }
  pose proof (piece_range l) as (Hp1 & Hp2 & Hp3). specialize (Hp3 Hpl).
  assert ((if ZGFX_SEGMENTED_MAXSIZE <? zlen l then ZGFX_SEGMENTED_MAXSIZE else zlen l) = piece l) as ->
    by (unfold piece; by rewrite Z.gtb_ltb).
  destruct (grow_step 12 s Hs ltac:(lia) Hmalloc ltac:(lia)) as (s1 & E1 & W1 & F1).
  pose proof W1 as [Hw1 Hwr1 Hp1' Hc1 _]. change (zlen []) with 0 in Hp1'. unfold fits in F1.
  set (k := λ flags, fragments_loop fuel (fragment + 1) pos size flags (zdrop (piece l) l)).
  destruct (multipart_segment (ztake (piece l) l) flags k s1) as (s2 & W2 & E2);
    [done|unfold fits; lia|lia|done|by apply Forall_ztake|rewrite zlen_piece; unfold UINT32_MAX; lia|
     rewrite zlen_piece; lia|]. rewrite Hlor, zlen_piece in *.
  pose proof (wrote_pointer _ _ _ _ Hw1 W2) as Hp2'. pose proof W2 as [Hw2 _ Hc2].
  destruct (IH (fragment + 1) (zdrop (piece l) l) s2) as (s3 & E3 & W3);
    [done|zlia|lia|by apply Forall_zdrop|rewrite zlen_zdrop; lia|rewrite zlen_zdrop; lia|done|done|
     rewrite zlen_zdrop; lia|].
  exists s3. split.
  - erewrite bind_Ret by exact E1. cbv beta iota. erewrite bind_Ret by done.
    replace (0 <? fragment) with true by lia. cbn [orb].
    etransitivity; [exact E2|]. unfold k. rewrite E3, zlen_cons. do 4 f_equal. f_equal. lia.
  - cbn [map concat]. replace (400 * zlen l) with (140 + (400 * zlen l - 140)) by lia.
    apply (wrote_trans s s1 s3 []); [by apply wstep_wrote|].
    pose proof (wrote_trans _ _ _ _ _ _ _ W2 W3) as [H1 H2 H3]. split; [done..|].
    rewrite zlen_zdrop in H3. lia.
Qed.

(** The messages of the encoder. *)
Definition encoded (flags : Z) (l : list Z) : list Z :=
  let segs := map (cons flags) (pieces (S (Z.to_nat (zlen l))) l) in
  if zlen l <=? ZGFX_SEGMENTED_MAXSIZE then ZGFX_SEGMENTED_SINGLE :: flags :: l
  else multipart segs (zlen l).

Lemma first_multipart s size :
  wf s → fits s 12 → 0 <= size <= UINT32_MAX →
  ∃ s' gap, first_fragment 1 size s = Ret (st_pointer s + 1, s') ∧ zlen gap = 2 ∧
    wrote s s' (ZGFX_SEGMENTED_MULTIPART :: gap ++ winpr_Data_Write_UINT32 size) 0 ∧ fits s' 4.
Proof.
  intros Hs Hf Hsize. unfold fits in Hf. pose proof Hs as [].
  destruct (run_Write_UINT8 ZGFX_SEGMENTED_MULTIPART s Hs) as (s1 & E1 & W1); [unfold fits; lia|done|].
  pose proof W1 as [Hw1 Hwr1 Hp1 Hc1 _]. change (zlen [_]) with 1 in Hp1.
  assert (wf (adv 2 s1)) as Hw2 by (apply wf_set_pointer; [done|lia]).
  destruct (run_Write_UINT32 size (adv 2 s1) Hw2) as (s3 & E3 & W3); [unfold fits; cbn; lia|done|].
  pose proof W3 as [Hw3 Hwr3 Hp3 Hc3 _]. change (zlen (winpr_Data_Write_UINT32 _)) with 4 in Hp3.
  cbn [adv set_pointer st_pointer st_capacity] in Hp3, Hc3.
  exists s3, (zslice (st_pointer s1) 2 (st_buffer s1)). split_and!.
  - unfold first_fragment. cbn [Z.eqb Z.gtb Z.compare]. erewrite bind_Ret by exact E1.
    erewrite bind_Ret by by apply run_GetPosition.
    erewrite bind_Ret by (apply run_Seek; [done|lia]). erewrite bind_Ret by exact E3. by rewrite Hp1.
  - destruct Hw1. apply zlen_zslice; lia.
  - split; [done| |lia]. rewrite Hwr3. unfold written in *. cbn [adv set_pointer st_pointer st_buffer].
    rewrite ztake_ztake_zdrop, Hwr1 by lia. by rewrite <- !app_assoc.
  - unfold fits. lia.
Qed.

Lemma loop_single flags l s :
  let flags' := Z.lor flags ZGFX_PACKET_COMPR_TYPE_RDP8 in
  wf s → bytes l → zlen l <= ZGFX_SEGMENTED_MAXSIZE → is_byte flags →
  st_capacity s + zlen l + 400 <= SIZE_MAX →
  ∃ s', fragments_loop (S (Z.to_nat (zlen l))) 0 0 (zlen l) flags l s = Ret (Some (1, 0, flags'), s') ∧
    wrote s s' (encoded flags' l) (zlen l + 400).
Proof.
  intros flags' Hs Hb Hlen Hf Hcap. pose proof (zlen_nonneg l). unfold ZGFX_SEGMENTED_MAXSIZE in Hlen.
  destruct (grow_step 12 s Hs ltac:(lia) Hmalloc ltac:(lia)) as (s1 & E1 & W1 & F1).
  pose proof W1 as [Hw1 Hwr1 Hp1 Hc1 _]. unfold fits in F1.
  destruct (run_Write_UINT8 ZGFX_SEGMENTED_SINGLE s1 Hw1) as (s2 & E2 & W2); [unfold fits; lia|done|].
  pose proof W2 as [Hw2 Hwr2 Hp2 Hc2 _].
  destruct (writes_compress_segment l flags Hf Hb ltac:(unfold UINT32_MAX; lia) s2 Hw2) as (s3 & E3 & W3); [lia|].
  exists s3. split.
  - cbn [fragments_loop]. rewrite orb_true_r, !Z.gtb_ltb. cbn [Z.eqb].
    unfold ZGFX_SEGMENTED_MAXSIZE. replace (65535 <? zlen l) with false by lia. rewrite Z.sub_diag.
    erewrite bind_Ret by exact E1. cbv beta iota.
    rewrite (bind_Ret _ _ s1 0 s2).
    2:{ unfold first_fragment. cbn [Z.eqb Z.gtb Z.compare]. by erewrite bind_Ret by exact E2. }
    cbn [Z.ltb Z.compare orb]. erewrite bind_Ret by done.
    erewrite bind_Ret by by apply run_GetPosition.
    rewrite ztake_all, zdrop_all by lia. erewrite bind_Ret by exact E3. cbv beta iota. cbn [Z.eqb negb].
    erewrite bind_Ret by done. cbv beta iota. by destruct (Z.to_nat (zlen l)).
  - unfold encoded, ZGFX_SEGMENTED_MAXSIZE. replace (zlen l <=? 65535) with true by lia.
    replace (zlen l + 400) with (140 + (0 + (zlen l + 260))) by lia.
    apply (wrote_trans s s1 s3 []); [by apply wstep_wrote|].
    apply (wrote_trans s1 s2 s3 [_]); [by apply wstep_wrote|].
    apply wstep_wrote in W3 as [H1 H2 H3]. split; [done..|lia].
Qed.

Lemma encoded_multipart flags l :
  ZGFX_SEGMENTED_MAXSIZE < zlen l →
  encoded flags l = multipart (map (cons flags)
    (ztake (piece l) l :: pieces (Z.to_nat (zlen l)) (zdrop (piece l) l))) (zlen l).
Proof.
  intros Hl. unfold encoded, ZGFX_SEGMENTED_MAXSIZE in *. replace (zlen l <=? 65535) with false by lia.
  cbn [pieces]. by replace (zlen l >? 0) with true by lia.
Qed.
Lemma pieces_count fuel l : 65535 * zlen (pieces fuel l) <= zlen l + 65534.
Proof.
  revert l. induction fuel as [|fuel IH]; intros l; cbn [pieces]; [zlia|].
  rewrite Z.gtb_ltb. destruct (Z.ltb_spec 0 (zlen l)); [|zlia].
  rewrite zlen_cons. specialize (IH (zdrop (piece l) l)). rewrite zlen_zdrop in IH.
  pose proof (piece_range l). unfold piece, ZGFX_SEGMENTED_MAXSIZE in *. rewrite Z.gtb_ltb in *.
  destruct (Z.ltb_spec 65535 (zlen l)); [lia|].
  assert (zdrop (zlen l) l = []) as He by (apply zdrop_all; lia). rewrite He.
  destruct fuel; cbn [pieces]; change (zlen []) with 0; [lia|]. cbn. change (zlen []) with 0. lia.
Qed.

Lemma loop_multipart flags l s :
  let flags' := Z.lor flags ZGFX_PACKET_COMPR_TYPE_RDP8 in
  let segs := ztake (piece l) l :: pieces (Z.to_nat (zlen l)) (zdrop (piece l) l) in
  wf s → bytes l → ZGFX_SEGMENTED_MAXSIZE < zlen l <= UINT32_MAX → is_byte flags →
  st_capacity s + 400 * zlen l + 400 <= SIZE_MAX →
  ∃ s' gap, fragments_loop (S (Z.to_nat (zlen l))) 0 0 (zlen l) flags l s =
      Ret (Some (zlen segs, st_pointer s + 1, flags'), s') ∧ zlen gap = 2 ∧
    wrote s s' (ZGFX_SEGMENTED_MULTIPART :: gap ++ winpr_Data_Write_UINT32 (zlen l) ++
                concat (map sized (map (cons flags') segs))) (400 * zlen l + 400).
Proof.
  intros flags' segs Hs Hb Hlen Hf Hcap. unfold ZGFX_SEGMENTED_MAXSIZE in Hlen.
  pose proof (piece_range l) as (Hp1 & Hp2 & Hp3). specialize (Hp3 ltac:(lia)).
  assert (piece l = 65535) as Hpiece.
  { unfold piece, ZGFX_SEGMENTED_MAXSIZE. by replace (zlen l >? 65535) with true by lia. }
  pose proof Hs as [Hs0 Hs1 _ _ _].
  destruct (grow_step 12 s Hs ltac:(lia) Hmalloc ltac:(lia)) as (s1 & E1 & W1 & F1).
  pose proof W1 as [Hw1 Hwr1 Hq1 Hc1 _]. change (zlen []) with 0 in Hq1.
  destruct (first_multipart s1 (zlen l) Hw1 F1) as (s2 & gap & E2 & Hgap & W2 & F2); [lia|].
  pose proof (wrote_pointer _ _ _ _ Hw1 W2) as Hq2. rewrite zlen_cons in Hq2. pose proof W2 as [Hw2 _ Hc2].
  set (k := λ flags, fragments_loop (Z.to_nat (zlen l)) (0 + 1) (st_pointer s1 + 1) (zlen l) flags
              (zdrop (piece l) l)).
  destruct (multipart_segment (ztake (piece l) l) flags k s2) as (s3 & W3 & E3);
    [done|done|zlia|done|by apply Forall_ztake|rewrite zlen_piece; unfold UINT32_MAX; lia|
     rewrite zlen_piece; lia|]. rewrite zlen_piece in *. fold flags' in W3, E3.
  pose proof (wrote_pointer _ _ _ _ Hw2 W3) as Hq3. pose proof W3 as [Hw3 _ Hc3].
  destruct (fragments_rest (Z.to_nat (zlen l)) (0 + 1) (st_pointer s1 + 1) (zlen l) flags'
    (zdrop (piece l) l) s3) as (s4 & E4 & W4);
    [done|zlia|lia|by apply Forall_zdrop|rewrite zlen_zdrop; lia|rewrite zlen_zdrop; lia|
     by apply lor_flags|apply lor_flags_twice|rewrite zlen_zdrop; lia|].
  exists s4, gap. split_and!; [|done|].
  - cbn [fragments_loop]. rewrite orb_true_r. cbn [Z.eqb Z.gtb Z.compare orb].
    change (if zlen l >? ZGFX_SEGMENTED_MAXSIZE then ZGFX_SEGMENTED_MAXSIZE else zlen l) with (piece l).
    replace (zlen l - piece l >? 0) with true by lia.
    erewrite bind_Ret by exact E1. cbv beta iota. rewrite (bind_Ret _ _ s1 (st_pointer s1 + 1) s2).
    2:{ rewrite <- E2. unfold first_fragment. replace (zlen l - piece l =? 0) with false by lia.
        by replace (zlen l - piece l >? 0) with true by lia. }
    etransitivity; [exact E3|]. unfold k. rewrite E4. unfold segs. rewrite zlen_cons, Hq1.
    by rewrite !Z.add_0_r.
  - pose proof (wrote_trans _ _ _ _ _ _ _ (wstep_wrote _ _ _ _ W1)
      (wrote_trans _ _ _ _ _ _ _ W2 (wrote_trans _ _ _ _ _ _ _ W3 W4))) as [H1 H2 H3].
    split; [done| |rewrite zlen_zdrop in H3; lia]. rewrite H2. unfold segs. cbn [app map concat].
    by rewrite <- !app_assoc.
Qed.

(** The number of the segments, filled in at the end. *)
Lemma fill_count s p n (flags : Z) :
  wf s → st_length s = st_pointer s → 0 <= p → p + 2 <= st_pointer s → 0 <= n <= UINT16_MAX →
  ∃ s', (TRY Stream_SetPosition p;
         count ← WINPR_ASSERTING_INT_CAST UINT16_MAX n;
         Stream_Write_UINT16 count;;
         len ← Stream_Length;
         TRY Stream_SetPosition len;
         mret (Some flags)) s = Ret (Some flags, s') ∧ wf s' ∧
    written s' = zblit p (winpr_Data_Write_UINT16 n) (written s).
Proof.
  intros Hs Hlen Hp Hr Hn. pose proof Hs as [].
  assert (puts (zlen (winpr_Data_Write_UINT16 n)) (Stream_Write_UINT16 n) (winpr_Data_Write_UINT16 n) tt) as Hput.
  { intros s0 Hs0 Hf0. by apply run_Write_UINT16. }
  destruct (run_backfill p (winpr_Data_Write_UINT16 n) (Stream_Write_UINT16 n) s Hs Hp)
    as (s1 & E1 & Hcap & Hw & Hwr); [|exact Hput|]; [change (zlen (winpr_Data_Write_UINT16 _)) with 2; lia|].
  assert (st_length s1 = st_pointer s) as Hl1.
  { revert E1. unfold Stream_Write_UINT16. rewrite assert_bind by lia.
    unfold stream_put. unfold mbind, SM_bind.
    destruct (Stream_GetRemainingCapacity _) as [[r s2]|] eqn:Hg; [|done].
    unfold Stream_GetRemainingCapacity in Hg. destruct (_ && _); [|done]. simplify_eq.
    unfold WINPR_ASSERT. destruct (_ >=? _); [|done]. intros [= <-]. done. }
  exists (set_pointer (st_pointer s) s1). split_and!; [|done..].
  erewrite bind_Ret by (apply run_SetPosition; lia). cbv beta iota.
  rewrite (bind_Ret _ _ _ n (set_pointer p s)) by (rewrite run_cast; by replace (_ && _) with true by lia).
  erewrite bind_Ret by exact E1. rewrite (bind_Ret _ _ s1 (st_length s1) s1) by done. rewrite Hl1.
  rewrite (bind_Ret _ _ s1 (Some tt) (set_pointer (st_pointer s) s1)); [done|]. apply run_SetPosition. lia.
Qed.
Lemma fill_gap (w : list Z) a gap c rest :
  zlen gap = zlen c → zblit (zlen w + 1) c (w ++ a :: gap ++ rest) = w ++ a :: c ++ rest.
Proof.
  intros Hg. change (a :: gap ++ rest) with ([a] ++ gap ++ rest). rewrite app_assoc. unfold zblit.
  assert (zlen (w ++ [a]) = zlen w + 1) as Hl by (rewrite zlen_app; done). rewrite <- Hl.
  rewrite ztake_app_le, ztake_all by lia. rewrite zdrop_app_ge by zlia.
  replace (zlen (w ++ [a]) + zlen c - zlen (w ++ [a])) with (zlen gap) by lia.
  rewrite zdrop_app_ge, zdrop_nonpos by lia. by rewrite <- app_assoc.
Qed.

Lemma compress_to_stream_spec flags l s :
  let flags' := Z.lor flags ZGFX_PACKET_COMPR_TYPE_RDP8 in
  wf s → bytes l → zlen l <= 4294836225 → is_byte flags →
  st_capacity s + 400 * zlen l + 400 <= SIZE_MAX →
  ∃ s', zgfx_compress_to_stream l flags s = Ret (Some flags', s') ∧ wf s' ∧
    written s' = written s ++ encoded flags' l.
Proof.
  intros flags' Hs Hb Hlen Hf Hcap. pose proof (zlen_nonneg l). unfold zgfx_compress_to_stream.
  assert (∀ s, wf s → Stream_SealLength s = Ret (tt, set_length (st_pointer s) s) ∧
    wf (set_length (st_pointer s) s)) as Hseal.
  { intros s0 Hs0. pose proof Hs0 as []. unfold Stream_SealLength. replace (_ && _) with true by lia.
    split; [done|by split]. }
  destruct (Z.le_gt_cases (zlen l) ZGFX_SEGMENTED_MAXSIZE) as [Hle|Hgt].
  - destruct (loop_single flags l s Hs Hb Hle Hf) as (s1 & E1 & [Hw1 Hwr1 _]); [lia|].
    destruct (Hseal s1 Hw1) as [E2 Hw2]. exists (set_length (st_pointer s1) s1).
    split_and!; [|done|exact Hwr1].
    erewrite bind_Ret by exact E1. cbv beta iota. by erewrite bind_Ret by exact E2.
  - destruct (loop_multipart flags l s Hs Hb) as (s1 & gap & E1 & Hgap & W1); [unfold UINT32_MAX; lia|done|lia|].
    set (segs := _ :: _) in *. pose proof W1 as [Hw1 Hwr1 _].
    destruct (Hseal s1 Hw1) as [E2 Hw2]. set (s2 := set_length (st_pointer s1) s1) in *.
    assert (0 <= zlen segs <= UINT16_MAX) as Hsegs.
    { unfold segs. rewrite zlen_cons. pose proof (pieces_count (Z.to_nat (zlen l)) (zdrop (piece l) l)) as Hc.
      rewrite zlen_zdrop in Hc. unfold piece, ZGFX_SEGMENTED_MAXSIZE in *.
      replace (zlen l >? 65535) with true in * by lia. unfold UINT16_MAX. zlia. }
    pose proof (wrote_pointer _ _ _ _ Hs W1) as Hp1. rewrite zlen_cons, zlen_app in Hp1. pose proof Hs as [].
    destruct (fill_count s2 (st_pointer s + 1) (zlen segs) flags' Hw2 eq_refl) as (s3 & E3 & Hw3 & Hwr3);
      [lia|cbn; zlia|done|]. exists s3. split_and!; [|done|].
    + erewrite bind_Ret by exact E1. cbv beta iota. erewrite bind_Ret by exact E2.
      replace (st_pointer s + 1 =? 0) with false by lia. exact E3.
    + rewrite Hwr3, encoded_multipart by done. change (written s2) with (written s1).
      rewrite Hwr1, <- (zlen_written s), fill_gap by done. unfold multipart. fold segs.
      by replace (zlen (map (cons flags') segs)) with (zlen segs) by (unfold zlen; by rewrite length_map).
Qed.
End encoder.

(** * The messages of the encoder mean their data *)

Lemma segments_pieces fuel l flags h :
  zlen l < Z.of_nat fuel → bytes l → is_byte flags → Z.land flags ZGFX_PACKET_COMPRESSED = 0 →
  segments h (map (cons flags) (pieces fuel l)) l.
Proof.
  revert l h. induction fuel as [|fuel IH]; intros l h Hf Hb Hfl H0; [zlia|]. cbn [pieces].
  rewrite Z.gtb_ltb. destruct (Z.ltb_spec 0 (zlen l)) as [Hpos|].
  2:{ rewrite (zlen_nil_inv l) by (pose proof (zlen_nonneg l); lia). constructor. }
  pose proof (piece_range l) as (H1 & H2 & H3). specialize (H3 Hpos).
  pose proof (segments_cons h (flags :: ztake (piece l) l) (ztake (piece l) l)
    (map (cons flags) (pieces fuel (zdrop (piece l) l))) (zdrop (piece l) l)) as Hc.
  rewrite ztake_zdrop in Hc. apply Hc.
  - constructor; [done..|by apply Forall_ztake|]. rewrite zlen_piece. unfold OUTPUT_SIZE. lia.
  - apply IH; [rewrite zlen_zdrop; lia|by apply Forall_zdrop|done..].
Qed.
Lemma encoded_message flags l h :
  0 < zlen l <= 4294836225 → bytes l → is_byte flags → Z.land flags ZGFX_PACKET_COMPRESSED = 0 →
  message h (encoded flags l) l.
Proof.
  intros Hl Hb Hf H0. unfold encoded. destruct (Z.leb_spec (zlen l) ZGFX_SEGMENTED_MAXSIZE) as [Hle|].
  - constructor. constructor; [done..|]. unfold OUTPUT_SIZE, ZGFX_SEGMENTED_MAXSIZE in *. lia.
  - constructor; [apply segments_pieces; [lia|done..]|].
    pose proof (pieces_count (S (Z.to_nat (zlen l))) l). unfold zlen at 1 in H1. unfold zlen at 1.
    rewrite length_map. unfold UINT16_MAX. lia.
Qed.

Lemma bytes_sized l : Forall (λ s, bytes s) l → bytes (concat (map sized l)).
Proof.
  induction 1 as [|s l Hs Hl IH]; [constructor|]. cbn [map concat]. apply Forall_app. split; [|done].
  apply Forall_app. split; [apply write32_le_bytes|done].
Qed.
Lemma bytes_pieces fuel l : bytes l → Forall (λ s, bytes s) (pieces fuel l).
Proof.
  revert l. induction fuel as [|fuel IH]; intros l Hl; cbn [pieces]; [constructor|].
  destruct (_ >? 0); constructor; [by apply Forall_ztake|]. by apply IH, Forall_zdrop.
Qed.
Lemma encoded_bytes flags l : is_byte flags → bytes l → bytes (encoded flags l).
Proof.
  intros Hf Hl. unfold encoded. destruct (_ <=? _); [by repeat (apply Forall_cons_2; [done|])|].
  apply Forall_cons_2; [done|]. apply Forall_app. split; [apply write16_le_bytes|].
  apply Forall_app. split; [apply write32_le_bytes|]. apply bytes_sized.
  apply Forall_map. eapply Forall_impl; [by apply bytes_pieces|]. intros s Hs. by apply Forall_cons_2.
Qed.
Lemma encoded_size flags l : zlen l <= 4294000000 → zlen (encoded flags l) <= UINT32_MAX.
Proof.
  intros Hl. unfold encoded. destruct (_ <=? _); [unfold UINT32_MAX; zlia|].
  set (fuel := S _). clearbody fuel. pose proof (pieces_count fuel l) as Hc.
  assert (zlen (concat (map sized (map (cons flags) (pieces fuel l)))) <= zlen l + 5 * zlen (pieces fuel l)) as Hs.
  { clear. revert l. induction fuel as [|fuel IH]; intros l; cbn [pieces]; [cbn; zlia|].
    destruct (Z.gtb_spec (zlen l) 0); [|cbn; zlia]. cbn [map concat]. rewrite zlen_app.
    unfold sized at 1. rewrite zlen_app, !zlen_cons, zlen_piece.
    change (zlen (winpr_Data_Write_UINT32 _)) with 4. specialize (IH (zdrop (piece l) l)).
    rewrite zlen_zdrop in IH. pose proof (piece_range l). lia. }
  unfold multipart. rewrite zlen_cons, !zlen_app.
  change (zlen (winpr_Data_Write_UINT16 _)) with 2. change (zlen (winpr_Data_Write_UINT32 _)) with 4.
  unfold UINT32_MAX. lia.
Qed.

(** Any ring holds some history. *)
Lemma ring_represents z : history_ok z → ∃ h, represents z h.
Proof.
  intros [Hi Hs Hb].
  set (h := map (λ i, aget (zgfx_HistoryBuffer z) ((zgfx_HistoryIndex z + Z.of_nat i) mod HISTORY_SIZE))
              (seq 0 (Z.to_nat HISTORY_SIZE))). exists h.
  assert (zlen h = HISTORY_SIZE) as Hl.
  { unfold h, zlen. rewrite length_map, length_seq. unfold HISTORY_SIZE. lia. }
  intros d Hd. unfold back. rewrite Hl. replace (d <=? HISTORY_SIZE) with true by lia.
  unfold zget, h.
  rewrite nth_indep with (d' := (λ i, aget (zgfx_HistoryBuffer z) ((zgfx_HistoryIndex z + Z.of_nat i) mod HISTORY_SIZE)) 0%nat)
    by (rewrite length_map, length_seq; lia).
  rewrite (map_nth (λ i, aget (zgfx_HistoryBuffer z) ((zgfx_HistoryIndex z + Z.of_nat i) mod HISTORY_SIZE))), seq_nth by lia.
  f_equal. rewrite <- (Z_mod_plus_full (zgfx_HistoryIndex z - d) 1). f_equal. lia.
Qed.

Lemma compress_spec `{HM : Malloc} flags l :
  (∀ z, malloc_ok z = true) → is_byte flags → bytes l → 0 < zlen l <= 4294000000 →
  let flags' := Z.lor flags ZGFX_PACKET_COMPR_TYPE_RDP8 in
  zgfx_compress l flags = Ret (Some (encoded flags' l, flags')).
Proof.
  intros Hm Hf Hb Hl flags'. unfold zgfx_compress, Stream_New.
  replace (zlen l =? 0) with false by lia. cbn [andb]. rewrite !Hm. cbn [negb].
  set (s := mkStream _ _ _ _ _ _).
  assert (wf s) as Hs.
  { split; cbn; [apply zlen_zeros; lia|lia|lia|unfold SIZE_MAX; lia|apply bytes_zeros]. }
  destruct (compress_to_stream_spec Hm flags l s Hs Hb) as (s' & -> & Hw & Hwr); [lia|done|cbn; unfold SIZE_MAX; lia|].
  fold flags' in Hwr. pose proof (encoded_size flags' l ltac:(lia)) as Hsz.
  assert (written s = []) as Hnil by (apply ztake_nonpos; cbn; lia). rewrite Hnil in Hwr. cbn [app] in Hwr.
  assert (st_pointer s' = zlen (encoded flags' l)) as Hp by (rewrite <- Hwr; symmetry; by apply zlen_written).
  rewrite Z.gtb_ltb. replace (UINT32_MAX <? st_pointer s') with false by lia.
  change (ztake (st_pointer s') (st_buffer s')) with (written s'). by rewrite Hwr.
Qed.

(** * Sessions *)

Section session.
Context {HM : Malloc}.

Fixpoint zgfx_send (flags : Z) (l : list (list Z)) : outcome (option (list (list Z))) :=
  match l with
  | [] => Ret (Some [])
  | p :: l =>
      r ← zgfx_compress p flags;
      rs ← zgfx_send flags l;
      Ret (match r, rs with Some (m, _), Some ms => Some (m :: ms) | _, _ => None end)
  end.
Fixpoint zgfx_receive (zgfx : ZGFX_CONTEXT) (l : list (list Z)) : outcome (list (option (list Z))) :=
  match l with
  | [] => Ret []
  | m :: l =>
      '(r, zgfx) ← zgfx_decompress zgfx m;
      rs ← zgfx_receive zgfx l;
      Ret (r :: rs)
  end.
End session.

Lemma land_lor_flags flags :
  Z.land flags ZGFX_PACKET_COMPRESSED = 0 →
  Z.land (Z.lor flags ZGFX_PACKET_COMPR_TYPE_RDP8) ZGFX_PACKET_COMPRESSED = 0.
Proof. intros Hf. by rewrite Z.land_lor_distr_l, Hf. Qed.

Lemma session_step `{HM : Malloc} flags p z :
  (∀ n, malloc_ok n = true) → is_byte flags → Z.land flags ZGFX_PACKET_COMPRESSED = 0 →
  bytes p → 0 < zlen p <= 4294000000 → zgfx_ok z →
  let flags' := Z.lor flags ZGFX_PACKET_COMPR_TYPE_RDP8 in
  ∃ z', zgfx_decompress z (encoded flags' p) = Ret (Some p, z') ∧ zgfx_ok z'.
Proof.
  intros Hm Hf H0 Hb Hl Hz flags'. destruct (ring_represents z) as [h Hh]; [apply Hz|].
  destruct (decompress_message Hm z h (encoded flags' p) p Hz Hh) as (z' & E & Hz' & _).
  - apply encoded_message; [lia|done|by apply lor_flags|by apply land_lor_flags].
  - apply encoded_bytes; [by apply lor_flags|done].
  - apply encoded_size. lia.
  - unfold UINT32_MAX. lia.
  - by exists z'.
Qed.
Lemma session_delivers `{HM : Malloc} flags l z :
  (∀ n, malloc_ok n = true) → is_byte flags → Z.land flags ZGFX_PACKET_COMPRESSED = 0 →
  Forall (λ p, bytes p ∧ 0 < zlen p <= 4294000000) l → zgfx_ok z →
  ∃ msgs, zgfx_send flags l = Ret (Some msgs) ∧ zgfx_receive z msgs = Ret (map Some l).
Proof.
  intros Hm Hf H0 Hl. revert z. induction Hl as [|p l [Hb Hp] Hl IH]; intros z Hz; [by exists []|].
  destruct (session_step flags p z Hm Hf H0 Hb Hp Hz) as (z1 & E1 & Hz1).
  destruct (IH z1 Hz1) as (msgs & E2 & E3). eexists. split.
  - cbn [zgfx_send]. rewrite compress_spec by done. cbn [mbind outcome_bind]. rewrite E2. done.
  - cbn [zgfx_receive]. rewrite E1. cbn [mbind outcome_bind]. rewrite E3. done.
Qed.

(** * Properties *)

(** C26. The RDP8 decoder on hostile input: from any consistent context
    [zgfx_decompress] ends on any bytes without an access outside the input, the
    output buffer or the history ring, without a failing assertion and without an
    undefined shift; the context stays consistent and the data are bytes. *)
Theorem zgfx_decompress_safe `{HM : Malloc} z data :
  zgfx_ok z → bytes data → zlen data <= UINT32_MAX →
  ∃ r z', zgfx_decompress z data = Ret (r, z') ∧ zgfx_ok z' ∧ on_some bytes r.
Proof.
  intros Hz Hb Hl. destruct (decompress_ok z data Hz Hb) as ([r z'] & E & Hr & Hz');
    [unfold UINT32_MAX, SIZE_MAX in *; lia|]. by exists r, z'.
Qed.

(** C25. The RDP8 decoder decodes the format: a single or multipart message of raw
    segments and of segments of code words gives the bytes its tokens mean, after
    any history the ring holds the end of: literals, copies of earlier bytes
    (byte after byte, so that a copy may overlap itself) and unencoded runs,
    aligned to bytes.  The new history is the old one followed by the data. *)
Theorem zgfx_message_decoded `{HM : Malloc} z h msg bs :
  (∀ n, malloc_ok n = true) → zgfx_ok z → represents z h → message h msg bs → bytes msg →
  zlen msg <= UINT32_MAX → zlen bs <= UINT32_MAX →
  ∃ z', zgfx_decompress z msg = Ret (Some bs, z') ∧ zgfx_ok z' ∧ represents z' (h ++ bs).
Proof. intros. by apply decompress_message. Qed.

(** C24. The RDP8 session round trip: the packets a sender passes to
    [zgfx_compress], each of up to 4 GB, come out of [zgfx_decompress] in order
    and unchanged, from any consistent context; packets of more than 65535 bytes
    travel as multipart messages. *)
Theorem zgfx_session_roundtrip `{HM : Malloc} flags l z :
  (∀ n, malloc_ok n = true) → is_byte flags → Z.land flags ZGFX_PACKET_COMPRESSED = 0 →
  Forall (λ p, bytes p ∧ 0 < zlen p <= 4294000000) l → zgfx_ok z →
  ∃ msgs, zgfx_send flags l = Ret (Some msgs) ∧ zgfx_receive z msgs = Ret (map Some l).
Proof. apply session_delivers. Qed.

(** Overlapping copies: the doubling copy out of the history ring gives what
    copying one byte at a time gives, for every distance the history reaches and
    every length the output buffer takes. *)
Theorem zgfx_ring_copy_equiv z h offset count :
  history_ok z → represents z h → 1 <= offset <= HISTORY_SIZE → 0 <= count <= OUTPUT_SIZE →
  zgfx_history_buffer_ring_read offset count z = Ret (lz_copy (Z.to_nat count) offset h).
Proof.
  intros Hz Hr Ho Hc. destruct (ring_read_spec offset count z Hz) as (dst & -> & _ & _ & Hd); [lia|done|].
  f_equal. apply Hd; [done|lia].
Qed.

(** No data: [zgfx_compress] of an empty packet aborts the program, and the
    message [zgfx_compress_to_stream] makes of it is refused by every decoder. *)
Theorem zgfx_empty_refused `{HM : Malloc} z :
  (∀ n, malloc_ok n = true) →
  zgfx_compress [] 0 = Abort ∧
  (∃ s, zgfx_compress_to_stream [] 0 (new_stream 16) = Ret (Some 4, s) ∧ written s = [0xE0; 4]) ∧
  zgfx_decompress z [0xE0; 4] = Ret (None, z).
Proof.
  intros Hm. split_and!; [done| |done].
  destruct (compress_to_stream_spec Hm 0 [] (new_stream 16)) as (s & E & _ & Hw); [by apply new_stream_wf|constructor|done..|].
  exists s. split; [exact E|]. rewrite Hw. done.
Qed.

(** * Witnesses *)

(** Two bytes, then four copied from one back, as code words: 'A' and 'B' as
    plain literals, distance 1 as 10001 00001, length 4 as 1 0 00, a byte of
    padding. *)
Definition sample_tokens : list token :=
  [Literal (mkToken 1 0 8 0 0) 65; Literal (mkToken 1 0 8 0 0) 66; Match op_unencoded 1 4].
Definition sample_segment : list Z := [0x20; 0x90; 0xA2; 0x18; 0x00; 8].

Lemma context_new_ok : zgfx_ok zgfx_context_new.
Proof. split; split; cbn; [done..|by intros|done|constructor]. Qed.
Lemma context_new_represents : represents zgfx_context_new [].
Proof.
  intros d Hd. unfold back. change (zlen []) with 0. replace (d <=? 0) with false by lia. done.
Qed.
Lemma sample_message : message [] (ZGFX_SEGMENTED_SINGLE :: 0x24 :: sample_segment) [65; 66; 66; 66; 66; 66].
Proof.
  constructor. apply (segment_packed [] 0x24 sample_tokens sample_segment); [done..| | |done|done].
  - repeat apply Forall_cons_2; [..|apply Forall_nil_2]; cbn; (split; [by (left || right; left)|]); done.
  - exists [0x20; 0x90; 0xA2; 0x18; 0x00], (replicate 8 false). split_and!; [done| |done|by vm_compute].
    by repeat constructor.
Qed.

Lemma zgfx_decompress_safe_witness :
  let HM : Malloc := λ _, true in
  ∃ r z', zgfx_decompress zgfx_context_new [0xE0; 0x20; 0xFF; 0xFF; 0] = Ret (r, z') ∧ zgfx_ok z' ∧
    on_some bytes r.
Proof. apply zgfx_decompress_safe; [apply context_new_ok|by repeat constructor|done]. Defined.

Lemma zgfx_message_decoded_witness :
  let HM : Malloc := λ _, true in
  ∃ z', zgfx_decompress zgfx_context_new (ZGFX_SEGMENTED_SINGLE :: 0x24 :: sample_segment) =
      Ret (Some [65; 66; 66; 66; 66; 66], z') ∧ zgfx_ok z' ∧
    represents z' ([] ++ [65; 66; 66; 66; 66; 66]).
Proof.
  apply zgfx_message_decoded; [done|apply context_new_ok|apply context_new_represents|
    apply sample_message|by repeat constructor|done..].
Defined.

Lemma zgfx_session_roundtrip_witness :
  let HM : Malloc := λ _, true in
  ∃ msgs, zgfx_send 0 [[1; 2; 3]; [255]] = Ret (Some msgs) ∧
    zgfx_receive zgfx_context_new msgs = Ret (map Some [[1; 2; 3]; [255]]).
Proof.
  apply zgfx_session_roundtrip; [done..| |apply context_new_ok].
  by repeat constructor.
Defined.

Lemma zgfx_ring_copy_equiv_witness :
  let z := set_history (<[1 := 8]> (<[0 := 7]> ∅)) 2 zgfx_context_new in
  zgfx_history_buffer_ring_read 2 5 z = Ret (lz_copy (Z.to_nat 5) 2 [7; 8]).
Proof.
  cbn zeta. apply zgfx_ring_copy_equiv; [| |done..].
  - split; cbn; [done..|]. intros i _. rewrite !aget_insert. by repeat destruct (_ =? _).
  - apply (put_ring_represents zgfx_context_new _ [7; 8] []); [|done|apply context_new_represents].
    by apply (put_ring_linear ∅ 0 [7; 8]).
Defined.

Lemma zgfx_empty_refused_witness :
  let HM : Malloc := λ _, true in
  zgfx_compress [] 0 = Abort ∧
  (∃ s, zgfx_compress_to_stream [] 0 (new_stream 16) = Ret (Some 4, s) ∧ written s = [0xE0; 4]) ∧
  zgfx_decompress zgfx_context_new [0xE0; 4] = Ret (None, zgfx_context_new).
Proof. by apply zgfx_empty_refused. Defined.
