(* ===== verification/Region.v ===== *)
(** Regions of the screen (libfreerdp/codec/region.c): sets of rectangles in
    bands, with union and intersection by a rectangle. *)

From S2P Require Import Prelude.
From stdpp Require Import prelude list numbers.
From Stdlib Require Import ZArith Lia.

#[local] Open Scope Z_scope.

Definition INT_MAX : Z := 2147483647.

(** * Data *)

Record RECTANGLE_16 : Type := mkRect { r_left : Z; r_top : Z; r_right : Z; r_bottom : Z }.
#[export] Instance RECTANGLE_16_eq_dec : EqDecision RECTANGLE_16.
Proof. solve_decision. Defined.
Definition no_rect : RECTANGLE_16 := mkRect 0 0 0 0.

(** [data] is null or an array of [nbRects] rectangles. *)
Record REGION16 : Type := mkRegion { extents : RECTANGLE_16; data : option (list RECTANGLE_16) }.

Definition region16_init : REGION16 := mkRegion no_rect None.
Definition region16_clear (region : REGION16) : REGION16 := mkRegion no_rect None.
Definition region16_uninit (region : REGION16) : REGION16 := mkRegion (extents region) None.

(** The number is checked to be an [int]. *)
Definition region16_n_rects (region : REGION16) : outcome Z :=
  match data region with
  | None => Ret 0
  | Some rects => if zlen rects <=? INT_MAX then Ret (zlen rects) else Abort
  end.
(** The number is checked to be a [UINT32]. *)
Definition region16_rects (region : REGION16) : outcome (list RECTANGLE_16) :=
  match data region with
  | None => Ret []
  | Some rects => if zlen rects <=? UINT32_MAX then Ret rects else Abort
  end.
Definition region16_extents (region : REGION16) : RECTANGLE_16 := extents region.

Definition region16_is_empty (region : REGION16) : bool :=
  match data region with None => true | Some rects => zlen rects =? 0 end.

(** * Rectangles *)

Definition rectangle_is_empty (rect : RECTANGLE_16) : bool :=
  (r_left rect >=? r_right rect) || (r_top rect >=? r_bottom rect).
Definition rectangles_equal (r1 r2 : RECTANGLE_16) : bool :=
  (r_left r1 =? r_left r2) && (r_top r1 =? r_top r2) && (r_right r1 =? r_right r2) && (r_bottom r1 =? r_bottom r2).
Definition rectangles_intersection (r1 r2 : RECTANGLE_16) : bool * RECTANGLE_16 :=
  let dst := mkRect (Z.max (r_left r1) (r_left r2)) (Z.max (r_top r1) (r_top r2))
                    (Z.min (r_right r1) (r_right r2)) (Z.min (r_bottom r1) (r_bottom r2)) in
  ((r_left dst <? r_right dst) && (r_top dst <? r_bottom dst), dst).
Definition rectangles_intersects (r1 r2 : RECTANGLE_16) : bool := (rectangles_intersection r1 r2).1.

(** * Arrays of rectangles *)

Section malloc.
Context {HM : Malloc}.

(** A rectangle takes eight bytes, the structure with the array sixteen. *)
Definition allocateRegion (nbItems : Z) : option (list RECTANGLE_16) :=
  if negb (malloc_ok 16) then None
  else if nbItems >? 0 then
    if malloc_ok (nbItems * 8) then Some (replicate (Z.to_nat nbItems) no_rect) else None
  else Some [].

(** The array with an element at [index], [None] if it cannot grow.  Elements
    between the old end and [index] would be indeterminate. *)
Definition nextRect (rects : list RECTANGLE_16) (index : Z) : outcome (option (list RECTANGLE_16)) :=
  if index + 1 >? zlen rects then
    if index >? zlen rects then Abort
    else if malloc_ok ((index + 1) * 8) then Ret (Some (rects ++ [no_rect])) else Ret None
  else Ret (Some rects).

Definition resizeRegion (region : REGION16) (nbItems : Z) : bool * REGION16 :=
  if nbItems =? 0 then (true, mkRegion (extents region) None)
  else
    match data region with
    | None =>
        let rects := allocateRegion nbItems in
        (match rects with Some _ => true | None => false end, mkRegion (extents region) rects)
    | Some rects =>
        if malloc_ok (nbItems * 8)
        then (true, mkRegion (extents region)
                (Some (ztake nbItems rects ++ replicate (Z.to_nat (nbItems - zlen rects)) no_rect)))
        else (false, mkRegion (extents region) (Some []))
    end.

Definition region16_copy_data (dst src : REGION16) : bool * REGION16 :=
  match data src with
  | Some rects =>
      if zlen rects >? 0 then
        match allocateRegion (zlen rects) with
        | None => (false, mkRegion (extents dst) None)
        | Some _ => (true, mkRegion (extents dst) (Some rects))
        end
      else (true, mkRegion (extents dst) None)
  | None => (true, mkRegion (extents dst) None)
  end.
(** [dst] and [src] are different objects. *)
Definition region16_copy (dst src : REGION16) : bool * REGION16 :=
  region16_copy_data (mkRegion (extents src) (data dst)) src.

(** * Filling a new array *)

(** The array and the counter of the rectangles in use; [None] is a return of
    [FALSE], with the array freed. *)
Definition RM (A : Type) : Type :=
  list RECTANGLE_16 * Z → outcome (option (A * (list RECTANGLE_16 * Z))).
#[global] Instance RM_ret : MRet RM := λ A a st, Ret (Some (a, st)).
#[global] Instance RM_bind : MBind RM := λ A B k m st,
  match m st with
  | Ret (Some (a, st')) => k a st'
  | Ret None => Ret None
  | Abort => Abort
  end.

(** [dst = nextRect(region, ( *dstCounter)++)] and its four fields. *)
Definition put_rect (rect : RECTANGLE_16) : RM unit := λ '(rects, counter),
  match nextRect rects counter with
  | Ret (Some rects) => Ret (Some (tt, (<[Z.to_nat counter := rect]> rects, u32 (counter + 1))))
  | Ret None => Ret None
  | Abort => Abort
  end.

(** The source is what is left of the array from a pointer on. *)
Fixpoint copy_while (p : RECTANGLE_16 → bool) (newTop newBottom : Z) (src : list RECTANGLE_16)
    : RM (list RECTANGLE_16) :=
  match src with
  | [] => mret []
  | r :: src' =>
      if p r then
        put_rect (mkRect (r_left r) newTop (r_right r) newBottom);;
        copy_while p newTop newBottom src'
      else mret src
  end.
Fixpoint skip_while (p : RECTANGLE_16 → bool) (src : list RECTANGLE_16) : list RECTANGLE_16 :=
  match src with
  | [] => []
  | r :: src' => if p r then skip_while p src' else src
  end.

(** The items that overlap [unionRect] become one: what is left of the source. *)
Definition merge_overlap (refY newTop newBottom : Z) (unionRect : RECTANGLE_16) (src : list RECTANGLE_16)
    : RM (list RECTANGLE_16) :=
  let startOverlap :=
    match src with
    | r :: _ => if (r_top r =? refY) && (r_left r <? r_left unionRect) then r else unionRect
    | [] => unionRect
    end in
  let src := skip_while (λ r, (r_top r =? refY) && (r_right r <? r_right unionRect)) src in
  let '(endOverlap, src) :=
    match src with
    | r :: src' => if (r_top r =? refY) && (r_left r <? r_right unionRect) then (r, src') else (unionRect, src)
    | [] => (unionRect, [])
    end in
  put_rect (mkRect (r_left startOverlap) newTop (r_right endOverlap) newBottom);;
  mret src.

Definition region16_copy_band_with_union (src : list RECTANGLE_16) (newTop newBottom : Z)
    (unionRect : option RECTANGLE_16) : RM (list RECTANGLE_16) :=
  match src with
  | [] => λ _, Abort
  | first :: _ =>
      let refY := r_top first in
      src ← match unionRect with
            | Some u =>
                src ← copy_while (λ r, (r_top r =? refY) && (r_right r <? r_left u)) newTop newBottom src;
                merge_overlap refY newTop newBottom u src
            | None => mret src
            end;
      copy_while (λ r, r_top r =? refY) newTop newBottom src
  end.

(** * Bands *)

(** The items of the band, and the next one. *)
Fixpoint band_items (refY : Z) (rects : list RECTANGLE_16) : list RECTANGLE_16 * list RECTANGLE_16 :=
  match rects with
  | [] => ([], [])
  | r :: rects' =>
      if r_top r =? refY then let '(items, rest) := band_items refY rects' in (r :: items, rest)
      else ([], rects)
  end.
Definition next_band (rects : list RECTANGLE_16) : list RECTANGLE_16 * list RECTANGLE_16 :=
  match rects with [] => ([], []) | r :: _ => band_items (r_top r) rects end.

(** [band1] is the items of a band, [band2] what is left of the array from
    the next one on. *)
Fixpoint match_items (refBand2 : Z) (band1 band2 : list RECTANGLE_16) : bool :=
  match band1, band2 with
  | r1 :: band1, r2 :: band2 =>
      if r_top r2 =? refBand2 then
        if negb (r_left r1 =? r_left r2) || negb (r_right r1 =? r_right r2) then false
        else match_items refBand2 band1 band2
      else false
  | _ :: _, [] => false
  | [], r2 :: _ => negb (r_top r2 =? refBand2)
  | [], [] => true
  end.
Definition band_match (band1 band2 : list RECTANGLE_16) : bool :=
  match band2 with [] => false | r :: _ => match_items (r_top r) band1 band2 end.

Fixpoint contained_loop (refY : Z) (rect : RECTANGLE_16) (band : list RECTANGLE_16) : bool :=
  match band with
  | [] => false
  | r :: band =>
      if (r_top r =? refY) && (r_left r <=? r_left rect) then
        if r_right rect <=? r_right r then true else contained_loop refY rect band
      else false
  end.
Definition rectangle_contained_in_band (band : list RECTANGLE_16) (rect : RECTANGLE_16) : bool :=
  match band with
  | [] => false
  | first :: _ =>
      if (r_top first >? r_top rect) || (r_bottom rect >? r_bottom first) then false
      else contained_loop (r_top first) rect band
  end.

Definition set_bottom (b : Z) (r : RECTANGLE_16) : RECTANGLE_16 := mkRect (r_left r) (r_top r) (r_right r) b.

(** The array from [band1] to [endPtr]; what is behind [endPtr] is cut off in
    the end. *)
Fixpoint simplify_loop (fuel : nat) (rects : list RECTANGLE_16) : outcome (list RECTANGLE_16) :=
  match fuel with
  | O => Abort
  | S fuel =>
      let '(band1, rest) := next_band rects in
      match band1, rest with
      | r1 :: _, r2 :: _ =>
          if (r_bottom r1 =? r_top r2) && band_match band1 rest
          then simplify_loop fuel (map (set_bottom (r_bottom r2)) band1 ++ drop (length band1) rest)
          else rest' ← simplify_loop fuel rest; Ret (band1 ++ rest')
      | _, _ => Ret rects
      end
  end.

Definition region16_simplify_bands (region : REGION16) : outcome (bool * REGION16) :=
  nbRects ← region16_n_rects region;
  if nbRects <? 2 then Ret (true, region)
  else
    let rects := default [] (data region) in
    rects' ← simplify_loop (S (length rects)) rects;
    if negb (zlen rects' =? nbRects)
    then Ret (resizeRegion (mkRegion (extents region) (Some rects')) (zlen rects'))
    else Ret (true, mkRegion (extents region) (Some rects')).

(** * Union *)

(** The current band of the source. *)
Definition union_band (rect : RECTANGLE_16) (band : list RECTANGLE_16) : RM (Z * list RECTANGLE_16) :=
  match band with
  | [] => λ _, Abort
  | first :: _ =>
      if (r_bottom first <=? r_top rect) || (r_bottom rect <=? r_top first)
         || rectangle_contained_in_band band rect
      then
        nextBand ← region16_copy_band_with_union band (r_top first) (r_bottom first) None;
        mret (r_top rect, nextBand)
      else
        mergeTop ←
          (if r_top rect >? r_top first then
             region16_copy_band_with_union band (r_top first) (r_top rect) None;;
             mret (r_top rect)
           else mret (r_top first));
        let mergeBottom := if r_bottom rect <? r_bottom first then r_bottom rect else r_bottom first in
        nextBand ← region16_copy_band_with_union band mergeTop mergeBottom (Some rect);
        nextBand ←
          (if r_bottom rect <? r_bottom first
           then region16_copy_band_with_union band mergeBottom (r_bottom first) None
           else mret nextBand);
        mret (r_bottom first, nextBand)
  end.

(** The [while] over the bands, with the pieces of [rect] between them. *)
Fixpoint union_loop (fuel : nat) (rect : RECTANGLE_16) (currentBand : list RECTANGLE_16) : RM unit :=
  match currentBand with
  | [] => mret tt
  | first :: _ =>
      match fuel with
      | O => λ _, Abort
      | S fuel =>
          '(topInterBand, nextBand) ← union_band rect currentBand;
          match nextBand with
          | next :: _ =>
              if negb (r_top next =? r_bottom first) && (r_bottom rect >? r_bottom first)
                 && (r_top rect <? r_top next)
              then put_rect (mkRect (r_left rect) topInterBand (r_right rect)
                               (Z.min (r_top next) (r_bottom rect)))
              else mret tt
          | [] => mret tt
          end;;
          union_loop fuel rect nextBand
      end
  end.

Definition union_items (srcExtents rect : RECTANGLE_16) (src : list RECTANGLE_16) : RM unit :=
  (if r_top rect <? r_top srcExtents
   then put_rect (mkRect (r_left rect) (r_top rect) (r_right rect) (Z.min (r_top srcExtents) (r_bottom rect)))
   else mret tt);;
  union_loop (length src) rect src;;
  (if r_bottom srcExtents <? r_bottom rect
   then put_rect (mkRect (r_left rect) (Z.max (r_bottom srcExtents) (r_top rect)) (r_right rect) (r_bottom rect))
   else mret tt).

Definition join_extents (rect e : RECTANGLE_16) : RECTANGLE_16 :=
  mkRect (Z.min (r_left rect) (r_left e)) (Z.min (r_top rect) (r_top e))
         (Z.max (r_right rect) (r_right e)) (Z.max (r_bottom rect) (r_bottom e)).

(** [dst] and [src] may be the same object: the source is not read after
    [dst] is written. *)
Definition region16_union_rect (dst src : REGION16) (rect : RECTANGLE_16) : outcome (bool * REGION16) :=
  nrSrcRects ← region16_n_rects src;
  if nrSrcRects =? 0 then
    let '(ok, dst) := resizeRegion (mkRegion rect (data dst)) 1 in
    if negb ok then Ret (false, dst) else Ret (true, mkRegion rect (Some [rect]))
  else if nrSrcRects + 1 >? INT_MAX then Abort
  else
    match allocateRegion (nrSrcRects + 1) with
    | None => Ret (false, dst)
    | Some newItems =>
        rects ← region16_rects src;
        r ← union_items (extents src) rect rects (newItems, 0);
        match r with
        | None => Ret (false, dst)
        | Some (_, (newItems, usedRects)) =>
            region16_simplify_bands
              (mkRegion (join_extents rect (extents src)) (Some (ztake usedRects newItems)))
        end
    end.

(** * Intersection *)

Fixpoint intersects_loop (rects : list RECTANGLE_16) (arg2 : RECTANGLE_16) : bool :=
  match rects with
  | [] => false
  | r :: rects =>
      if r_bottom arg2 >? r_top r then
        if rectangles_intersects r arg2 then true else intersects_loop rects arg2
      else false
  end.
Definition region16_intersects_rect (src : REGION16) (arg2 : RECTANGLE_16) : outcome bool :=
  rects ← region16_rects src;
  if zlen rects =? 0 then Ret false
  else if zlen rects =? 1 then Ret (rectangles_intersects (extents src) arg2)
  else if negb (rectangles_intersects (extents src) arg2) then Ret false
  else Ret (intersects_loop rects arg2).

Definition grow_extents (common e : RECTANGLE_16) : RECTANGLE_16 :=
  if rectangle_is_empty e then common else join_extents common e.

(** [nbRects] elements were allocated; [None] is a return of [FALSE]. *)
Fixpoint intersect_loop (nbRects : Z) (rect : RECTANGLE_16) (src newItems : list RECTANGLE_16) (usedRects : Z)
    (newExtents : RECTANGLE_16) : outcome (option (list RECTANGLE_16 * Z * RECTANGLE_16)) :=
  match src with
  | [] => Ret (Some (newItems, usedRects, newExtents))
  | r :: src =>
      if r_bottom rect >? r_top r then
        if usedRects >? nbRects then Ret None
        else
          let '(intersects, common) := rectangles_intersection r rect in
          if intersects then
            if usedRects <? zlen newItems then
              intersect_loop nbRects rect src (<[Z.to_nat usedRects := common]> newItems) (u32 (usedRects + 1))
                (grow_extents common newExtents)
            else Abort
          else intersect_loop nbRects rect src newItems usedRects newExtents
      else Ret (Some (newItems, usedRects, newExtents))
  end.

Definition region16_intersect_rect (dst src : REGION16) (rect : RECTANGLE_16) : outcome (bool * REGION16) :=
  rects ← region16_rects src;
  let nbRects := zlen rects in
  if nbRects =? 0 then Ret (true, region16_clear dst)
  else if nbRects =? 1 then
    let '(intersects, common) := rectangles_intersection (extents src) rect in
    let dst := region16_clear dst in
    if intersects then region16_union_rect dst dst common else Ret (true, dst)
  else
    match allocateRegion nbRects with
    | None => Ret (false, dst)
    | Some newItems =>
        r ← intersect_loop nbRects rect rects newItems 0 no_rect;
        match r with
        | None => Ret (false, dst)
        | Some (newItems, usedRects, newExtents) =>
            region16_simplify_bands (mkRegion newExtents (Some (ztake usedRects newItems)))
        end
    end.
End malloc.
