(* ===== verification/RegionBands.v ===== *)
(** Rectangles and sets of pixels: bands of rectangles, rows of items, and a
    rectangle merged into a row. *)

From S2P Require Import Prelude Region.
From stdpp Require Import prelude list numbers sorting.
From Stdlib Require Import ZArith Lia.

#[local] Open Scope Z_scope.

(** * Sets of pixels *)

Definition pixels : Type := Z → Z → Prop.

Definition inside (r : RECTANGLE_16) (x y : Z) : Prop :=
  r_left r <= x < r_right r ∧ r_top r <= y < r_bottom r.
Definition covers (l : list RECTANGLE_16) (x y : Z) : Prop := Exists (λ r, inside r x y) l.

(** The coordinates fit their type and there is something inside. *)
Record valid (r : RECTANGLE_16) : Prop := {
  va_x : 0 <= r_left r < r_right r;
  va_right : r_right r <= UINT16_MAX;
  va_y : 0 <= r_top r < r_bottom r;
  va_bottom : r_bottom r <= UINT16_MAX;
}.

(** The order in the array: further right in the same band, or in a lower one. *)
Definition precedes (r1 r2 : RECTANGLE_16) : Prop :=
  (r_top r1 = r_top r2 ∧ r_bottom r1 = r_bottom r2 ∧ r_right r1 <= r_left r2) ∨ r_bottom r1 <= r_top r2.
Definition banded (l : list RECTANGLE_16) : Prop := StronglySorted precedes l.

Lemma covers_app l1 l2 x y : covers (l1 ++ l2) x y ↔ covers l1 x y ∨ covers l2 x y.
Proof. apply Exists_app. Qed.
Lemma covers_nil x y : ¬ covers [] x y.
Proof. by intros ?%Exists_nil. Qed.
Lemma covers_cons r l x y : covers (r :: l) x y ↔ inside r x y ∨ covers l x y.
Proof. apply Exists_cons. Qed.
Lemma covers_rows l x y Y0 Y1 :
  Forall (λ r, Y0 <= r_top r ∧ r_bottom r <= Y1) l → covers l x y → Y0 <= y < Y1.
Proof.
  intros Hl Hc. apply Exists_exists in Hc as (r & Hr & [_ Hy]). rewrite Forall_forall in Hl.
  specialize (Hl r Hr). lia.
Qed.

Lemma sorted_app {A} (R : A → A → Prop) l1 l2 :
  StronglySorted R (l1 ++ l2) ↔
  StronglySorted R l1 ∧ StronglySorted R l2 ∧ Forall (λ x, Forall (R x) l2) l1.
Proof.
  induction l1 as [|x l1 IH]; cbn.
  - split; [|by intros (_ & ? & _)]. intros. split_and!; [constructor|done|constructor].
  - split.
    + intros H. apply StronglySorted_inv in H as [H Hx]. apply IH in H as (? & ? & ?).
      apply Forall_app in Hx as [? ?]. split_and!; [by constructor|done|by constructor].
    + intros (H1 & H2 & H3). apply StronglySorted_inv in H1 as [H1 Hx]. apply Forall_cons in H3 as [? ?].
      constructor; [by apply IH|]. by apply Forall_app.
Qed.
Lemma sorted_map {A B} (f : A → B) (R : B → B → Prop) l :
  StronglySorted (λ x y, R (f x) (f y)) l → StronglySorted R (map f l).
Proof. induction 1; cbn; constructor; [done|]. by apply Forall_map. Qed.
Lemma sorted_mono {A} (P : A → Prop) (R Q : A → A → Prop) l :
  Forall P l → (∀ x y, P x → P y → R x y → Q x y) → StronglySorted R l → StronglySorted Q l.
Proof.
  intros HP HQ. induction 1 as [|x l Hl IH Hx]; constructor; apply Forall_cons in HP as [Hpx HP]; [by apply IH|].
  rewrite Forall_forall in *. eauto.
Qed.

(** ** Slabs *)

(** [E] covers just what [P] has in the rows from [Y0] to [Y1]. *)
Record slab (Y0 Y1 : Z) (P : pixels) (E : list RECTANGLE_16) : Prop := {
  sl_valid : Forall valid E;
  sl_banded : banded E;
  sl_rows : Forall (λ r, Y0 <= r_top r ∧ r_bottom r <= Y1) E;
  sl_covers x y : covers E x y ↔ Y0 <= y < Y1 ∧ P x y;
}.

Lemma slab_app Y0 Y1 Y2 P E1 E2 :
  Y0 <= Y1 → Y1 <= Y2 → slab Y0 Y1 P E1 → slab Y1 Y2 P E2 → slab Y0 Y2 P (E1 ++ E2).
Proof.
  intros H01 H12 [V1 B1 R1 C1] [V2 B2 R2 C2]. split.
  - by apply Forall_app.
  - apply sorted_app. split_and!; [done..|]. eapply Forall_impl; [exact R1|]. intros r1 [_ Hr1]. cbn in Hr1.
    eapply Forall_impl; [exact R2|]. intros r2 [Hr2 _]. right. cbn in *. lia.
  - apply Forall_app. split; (eapply Forall_impl; [done|]); cbn; intros r ?; lia.
  - intros x y. rewrite covers_app, C1, C2. destruct (decide (y < Y1)); intuition lia.
Qed.
Lemma slab_ext Y0 Y1 P Q E :
  (∀ x y, Y0 <= y < Y1 → (P x y ↔ Q x y)) → slab Y0 Y1 P E → slab Y0 Y1 Q E.
Proof. intros HPQ [V B R C]. split; [done..|]. intros x y. rewrite C. split; intros [? ?]; split; try done; by apply HPQ. Qed.
Lemma slab_nil Y0 Y1 P : (∀ x y, Y0 <= y < Y1 → ¬ P x y) → slab Y0 Y1 P [].
Proof.
  intros HP. split; [constructor..|]. intros x y. split; [by intros ?%covers_nil|]. intros [Hy Hp]. by destruct (HP x y Hy).
Qed.
Lemma slab_single Y0 Y1 P r :
  valid r → Y0 <= r_top r → r_bottom r <= Y1 → (∀ x y, Y0 <= y < Y1 → (P x y ↔ inside r x y)) → slab Y0 Y1 P [r].
Proof.
  intros Hv H0 H1 HP. split; [by apply Forall_singleton|by constructor; constructor|by apply Forall_singleton|].
  intros x y. rewrite covers_cons. split.
  - intros [Hi|[]%covers_nil]. assert (Y0 <= y < Y1) as Hy by (destruct Hi; lia). split; [done|]. by apply HP.
  - intros [Hy Hp]. left. by apply HP.
Qed.

(** ** Rows of items *)

Definition spans (items : list RECTANGLE_16) (x : Z) : Prop := Exists (λ r, r_left r <= x < r_right r) items.
Record row (items : list RECTANGLE_16) : Prop := {
  ro_valid : Forall (λ r, 0 <= r_left r < r_right r ∧ r_right r <= UINT16_MAX) items;
  ro_sorted : StronglySorted (λ r1 r2, r_right r1 <= r_left r2) items;
}.
Definition at_y (t b : Z) (r : RECTANGLE_16) : RECTANGLE_16 := mkRect (r_left r) t (r_right r) b.

Lemma row_app l1 l2 : row (l1 ++ l2) ↔ row l1 ∧ row l2 ∧ Forall (λ r1, Forall (λ r2, r_right r1 <= r_left r2) l2) l1.
Proof.
  split.
  - intros [Hv Hs]. apply Forall_app in Hv as [? ?]. apply sorted_app in Hs as (? & ? & ?).
    split_and!; [by split..|done].
  - intros ([] & [] & ?). split; [by apply Forall_app|by apply sorted_app].
Qed.
Lemma row_cons r l :
  row (r :: l) ↔ (0 <= r_left r < r_right r ∧ r_right r <= UINT16_MAX) ∧ row l ∧ Forall (λ r2, r_right r <= r_left r2) l.
Proof.
  split.
  - intros [Hv Hs]. apply Forall_cons in Hv as [? ?]. apply StronglySorted_inv in Hs as [? ?].
    split; [done|]. split; [by split|done].
  - intros (? & [] & ?). split; by constructor.
Qed.

Lemma row_slab t b items :
  row items → 0 <= t < b → b <= UINT16_MAX → slab t b (λ x _, spans items x) (map (at_y t b) items).
Proof.
  intros [Hv Hs] Ht Hb. split.
  - apply Forall_map. eapply Forall_impl; [exact Hv|]. intros r [? ?]. by split.
  - apply sorted_map. eapply sorted_mono; [exact Hv| |exact Hs]. intros r1 r2 _ _ ?. by left.
  - apply Forall_map. apply Forall_true. cbn. lia.
  - intros x y. unfold covers, spans. rewrite Exists_map, !Exists_exists. unfold inside. cbn.
    split; [intros (r & ? & ? & ?)|intros (? & r & ? & ?)]; eauto.
Qed.

(** ** Merging a rectangle into a row *)

(** What the two loops and the two tests of the merge leave: [A] is in front of the
    rectangle, [O] ends before it does, [c] is the last that overlaps. *)
Definition stops {A} (p : A → bool) (l : list A) : Prop := match l with r :: _ => p r = false | [] => True end.
Lemma split_while {A} (p : A → bool) l : ∃ l1 l2, l = l1 ++ l2 ∧ Forall (λ r, p r = true) l1 ∧ stops p l2.
Proof.
  induction l as [|r l (l1 & l2 & -> & Hp & Hs)]; [by exists [], []|].
  destruct (p r) eqn:Hr; [exists (r :: l1), l2|exists [], (r :: l1 ++ l2)]; split_and!; auto.
Qed.

Definition starts (u : RECTANGLE_16) (l : list RECTANGLE_16) : Z :=
  match l with r :: _ => if r_left r <? r_left u then r_left r else r_left u | [] => r_left u end.
Definition ends_at (u : RECTANGLE_16) (l : list RECTANGLE_16) : Z * list RECTANGLE_16 :=
  match l with
  | r :: l' => if r_left r <? r_right u then (r_right r, l') else (r_right u, l)
  | [] => (r_right u, [])
  end.

Lemma spans_app l1 l2 x : spans (l1 ++ l2) x ↔ spans l1 x ∨ spans l2 x.
Proof. apply Exists_app. Qed.
Lemma spans_cons r l x : spans (r :: l) x ↔ r_left r <= x < r_right r ∨ spans l x.
Proof. apply Exists_cons. Qed.
Lemma spans_nil x : ¬ spans [] x.
Proof. by intros ?%Exists_nil. Qed.
Lemma spans_after z l x : Forall (λ r, z <= r_left r) l → spans l x → z <= x.
Proof. intros Hl. induction Hl as [|r l Hr _ IH]; [by intros ?%spans_nil|]. rewrite spans_cons. intros [?|?]; [lia|auto]. Qed.
Lemma spans_before z l x : Forall (λ r, r_right r <= z) l → spans l x → x < z.
Proof. intros Hl. induction Hl as [|r l Hr _ IH]; [by intros ?%spans_nil|]. rewrite spans_cons. intros [?|?]; [lia|auto]. Qed.

Lemma starts_spec u l :
  row l → stops (λ r, r_right r <? r_left u) l →
  let s := starts u l in
  s <= r_left u ∧ Forall (λ r, s <= r_left r) l ∧ (∀ z, Forall (λ r, z <= r_left r) l → z <= r_left u → z <= s) ∧
  ∀ x, s <= x < r_left u → spans l x.
Proof.
  intros Hrow Hs. unfold starts. destruct l as [|r l].
  { split_and!; [lia|constructor|lia|intros; lia]. }
  cbn in Hs. apply row_cons in Hrow as (Hr & Hl & Hrl).
  assert (∀ z, z <= r_left r → Forall (λ r', z <= r_left r') (r :: l)) as Hall.
  { intros z Hz. constructor; [done|]. eapply Forall_impl; [exact Hrl|]. cbn. intros. lia. }
  destruct (Z.ltb_spec (r_left r) (r_left u)); split_and!; try lia; try (apply Hall; lia).
  - intros z Hz _. by apply Forall_cons in Hz as [? _].
  - intros x Hx. apply spans_cons. left. lia.
Qed.

Lemma ends_at_spec u l e l' :
  row l → r_right u <= UINT16_MAX → stops (λ r, r_right r <? r_right u) l → ends_at u l = (e, l') →
  r_right u <= e <= UINT16_MAX ∧ row l' ∧ Forall (λ r, e <= r_left r) l' ∧
  (∀ x, spans l x → x < e ∨ spans l' x) ∧ (∀ x, spans l' x → spans l x) ∧ ∀ x, r_right u <= x < e → spans l x.
Proof.
  intros Hrow Hu Hs He. destruct l as [|r l]; cbn in He.
  { injection He as <- <-. split_and!; try lia; try done.
    by intros x ?%spans_nil. }
  cbn in Hs. pose proof Hrow as (Hr & Hl & Hrl)%row_cons.
  destruct (Z.ltb_spec (r_left r) (r_right u)); injection He as <- <-; (split; [lia|]); (split; [done|]).
  - split; [done|]. setoid_rewrite spans_cons. split_and!; intros x; [|tauto|left; lia].
    intros [?|?]; [left; lia|by right].
  - split; [|split_and!; intros x; [by right|done|lia]].
    constructor; [lia|]. eapply Forall_impl; [exact Hrl|]. cbn. intros. lia.
Qed.

Lemma row_merge u A O C e C' :
  row (A ++ O ++ C) → 0 <= r_left u < r_right u → r_right u <= UINT16_MAX →
  Forall (λ r, r_right r < r_left u) A → stops (λ r, r_right r <? r_left u) (O ++ C) →
  Forall (λ r, r_right r < r_right u) O → stops (λ r, r_right r <? r_right u) C → ends_at u C = (e, C') →
  let items := A ++ mkRect (starts u (O ++ C)) 0 e 0 :: C' in
  row items ∧ ∀ x, spans items x ↔ spans (A ++ O ++ C) x ∨ r_left u <= x < r_right u.
Proof.
  intros Hrow Hu Hmax HA HsO HO HsC He items.
  apply row_app in Hrow as (HrA & Hrow & HAX). pose proof Hrow as (HrO & HrC & HOC)%row_app.
  destruct (starts_spec u (O ++ C) Hrow HsO) as (Hs1 & Hs2 & Hs3 & Hs4). set (s := starts u (O ++ C)) in *.
  destruct (ends_at_spec u C e C' HrC Hmax HsC He) as (He1 & HrC' & He2 & He3 & He4 & He5).
  assert (Forall (λ r, r_right r <= s) A) as HAs.
  { rewrite Forall_forall in *. intros r Hr. apply Hs3; [by apply HAX|]. specialize (HA r Hr). lia. }
  assert (0 <= s) as Hs0.
  { apply Hs3; [|lia]. destruct Hrow as [Hv _]. eapply Forall_impl; [exact Hv|]. cbn. intros; lia. }
  split.
  - apply row_app. split; [done|]. split.
    + apply row_cons. cbn. split; [lia|]. by split.
    + rewrite Forall_forall in HAs |- *. intros r Hr. specialize (HAs r Hr). constructor; [done|].
      eapply Forall_impl; [exact He2|]. cbn. intros. lia.
  - intros x. unfold items. rewrite !spans_app, spans_cons. cbn [r_left r_right]. split.
    + intros [?|[Hx|?]]; [tauto| |left; right; right; auto].
      destruct (decide (x < r_left u)); [left; right; apply spans_app, Hs4; lia|].
      destruct (decide (x < r_right u)); [right; lia|]. left. right. right. apply He5. lia.
    + intros [[?|[HxO|HxC]]|?]; [tauto| | |right; left; lia].
      * right. left. apply Forall_app in Hs2 as [Hs2 _]. pose proof (spans_after _ _ _ Hs2 HxO).
        enough (x < r_right u) by lia. apply (spans_before _ O); [|done]. eapply Forall_impl; [exact HO|]. cbn. lia.
      * apply Forall_app in Hs2 as [_ Hs2]. pose proof (spans_after _ _ _ Hs2 HxC).
        destruct (He3 x HxC); [|auto]. right. left. lia.
Qed.
