(* ===== verification/RegionCorrect.v ===== *)
(** Correctness of the regions: an array of rectangles in bands stands for a set of
    pixels, and the operations for the operations on such sets. *)

From S2P Require Import Prelude Region RegionBands.
From stdpp Require Import prelude list numbers sorting.
From Stdlib Require Import ZArith Lia.

#[local] Open Scope Z_scope.

(** * The new array *)

Section arrays.
Context {HM : Malloc}.
Implicit Types (l : list RECTANGLE_16) (r u : RECTANGLE_16).

Definition plenty : Prop := ∀ z, malloc_ok z = true.

(** The rectangles in use are [l]. *)
Definition holds (st : list RECTANGLE_16 * Z) l : Prop := st.2 = zlen l ∧ ∃ tl, st.1 = l ++ tl.

(** [m] adds the rectangles [l] and returns [a], or memory ran out. *)
Definition yields {A} (m : RM A) l (a : A) : Prop :=
  ∀ st l0, holds st l0 → zlen l0 + zlen l <= INT_MAX →
  (m st = Ret None ∧ ¬ plenty) ∨ ∃ st', m st = Ret (Some (a, st')) ∧ holds st' (l0 ++ l).

Lemma yields_ret {A} (a : A) : yields (mret a) [] a.
Proof. intros st l0 Hst _. right. exists st. by rewrite app_nil_r. Qed.
Lemma yields_bind {A B} (m : RM A) (k : A → RM B) l1 l2 a b :
  yields m l1 a → yields (k a) l2 b → yields (x ← m; k x) (l1 ++ l2) b.
Proof.
  intros Hm Hk st l0 Hst Hl. rewrite zlen_app in Hl. pose proof (zlen_nonneg l2). unfold mbind, RM_bind.
  destruct (Hm st l0 Hst ltac:(lia)) as [[-> ?]|(st1 & -> & Hst1)]; [by left|].
  rewrite app_assoc. apply Hk; [done|]. rewrite zlen_app. lia.
Qed.
Lemma yields_bind_nil {A B} (m : RM A) (k : A → RM B) l a b :
  yields m l a → yields (k a) [] b → yields (x ← m; k x) l b.
Proof. intros. rewrite <- (app_nil_r l). by eapply yields_bind. Qed.
Lemma yields_put r : yields (put_rect r) [r] tt.
Proof.
  intros [rects n] l0 [Hn (tl & Htl)] Hl. cbn in Hn, Htl. subst rects n. pose proof (zlen_nonneg l0).
  unfold put_rect, nextRect, INT_MAX in *. change (zlen [r]) with 1 in Hl. rewrite zlen_app.
  assert (∀ tl', u32 (zlen l0 + 1) = zlen (l0 ++ [r]) ∧
    <[Z.to_nat (zlen l0) := r]> (l0 ++ no_rect :: tl') = (l0 ++ [r]) ++ tl') as Hins.
  { intros tl'. split.
    - unfold u32. rewrite zlen_app, Z.mod_small by lia. done.
    - unfold zlen. rewrite Nat2Z.id, insert_app_r_alt, Nat.sub_diag by done. by rewrite <- app_assoc. }
  destruct tl as [|r0 tl].
  - change (zlen []) with 0. replace (_ >? _) with true by lia. replace (_ >? _) with false by lia.
    destruct (malloc_ok _) eqn:Hm; [right|left; split; [done|]; intros Hp; by rewrite Hp in Hm].
    destruct (Hins []) as [H1 H2]. eexists. split; [done|]. split; cbn; [done|].
    rewrite app_nil_r. eexists. by rewrite H2.
  - rewrite zlen_cons. pose proof (zlen_nonneg tl). replace (_ >? _) with false by lia. right.
    destruct (Hins tl) as [H1 H2]. eexists. split; [done|]. split; cbn; [done|]. exists tl. rewrite <- H2.
    unfold zlen. by rewrite Nat2Z.id, !insert_app_r_alt, Nat.sub_diag by done.
Qed.

(** ** Copying a band *)

Lemma yields_copy_while p t b l1 l2 :
  Forall (λ r, p r = true) l1 → stops p l2 → yields (copy_while p t b (l1 ++ l2)) (map (at_y t b) l1) l2.
Proof.
  intros Hp Hs. induction Hp as [|r l1 Hr _ IH]; cbn.
  - destruct l2 as [|r l2]; cbn; [apply yields_ret|]. cbn in Hs. rewrite Hs. apply yields_ret.
  - rewrite Hr. by apply (yields_bind _ _ [_] _ tt); [apply yields_put|].
Qed.
Lemma skip_while_app p l1 l2 : Forall (λ r, p r = true) l1 → stops p l2 → skip_while p (l1 ++ l2) = l2.
Proof.
  intros Hp Hs. induction Hp as [|r l1 Hr _ IH]; cbn.
  - destruct l2 as [|r l2]; cbn; [done|]. cbn in Hs. by rewrite Hs.
  - by rewrite Hr.
Qed.

(** The items of a band at the front of an array. *)
Record front (t b : Z) (items rest : list RECTANGLE_16) : Prop := {
  fr_items : Forall (λ r, r_top r = t ∧ r_bottom r = b) items;
  fr_some : items ≠ [];
  fr_row : row items;
  fr_y : 0 <= t < b;
  fr_max : b <= UINT16_MAX;
  fr_rest : stops (λ r, r_top r =? t) rest;
}.

Lemma yields_copy_band t b T B items rest :
  front t b items rest → yields (region16_copy_band_with_union (items ++ rest) T B None) (map (at_y T B) items) rest.
Proof.
  intros [Hi Hne _ _ _ Hr]. destruct items as [|r items]; [done|]. cbn [app region16_copy_band_with_union].
  assert (r_top r = t) as -> by (by apply Forall_cons in Hi as [[? _] _]).
  apply (yields_bind _ _ [] _ (r :: items ++ rest)); [apply yields_ret|].
  apply (yields_copy_while _ T B (r :: items)); [|done].
  eapply Forall_impl; [exact Hi|]. cbn. intros r' [? _]. by apply Z.eqb_eq.
Qed.

Lemma yields_merge_overlap t T B u O C rest e C' :
  Forall (λ r, r_top r = t) (O ++ C) → stops (λ r, r_top r =? t) rest →
  Forall (λ r, r_right r < r_right u) O → stops (λ r, r_right r <? r_right u) C → ends_at u C = (e, C') →
  yields (merge_overlap t T B u ((O ++ C) ++ rest)) [mkRect (starts u (O ++ C)) T e B] (C' ++ rest).
Proof.
  intros Ht Hrest HO HC He. unfold merge_overlap.
  assert (r_left (match (O ++ C) ++ rest with
    | r :: _ => if (r_top r =? t) && (r_left r <? r_left u) then r else u | [] => u end) = starts u (O ++ C)) as ->.
  { destruct (O ++ C) as [|r l]; cbn.
    - destruct rest as [|r rest]; [done|]. cbn in Hrest. by rewrite Hrest.
    - apply Forall_cons in Ht as [-> _]. rewrite Z.eqb_refl. cbn. by destruct (_ <? _). }
  apply Forall_app in Ht as [HtO HtC]. rewrite <- app_assoc, skip_while_app.
  - assert (match C ++ rest with
      | r :: src' => if (r_top r =? t) && (r_left r <? r_right u) then (r_right r, src') else (r_right u, C ++ rest)
      | [] => (r_right u, []) end = (e, C' ++ rest)) as Hend.
    { destruct C as [|r C]; cbn in He |- *.
      - injection He as <- <-. destruct rest as [|r rest]; [done|]. cbn in Hrest. by rewrite Hrest.
      - apply Forall_cons in HtC as [-> _]. rewrite Z.eqb_refl. cbn.
        destruct (_ <? _); by injection He as <- <-. }
    destruct (C ++ rest) as [|r l].
    + injection Hend as <- <-. eapply yields_bind_nil; [apply yields_put|apply yields_ret].
    + destruct (_ && _); injection Hend as <- <-; (eapply yields_bind_nil; [apply yields_put|apply yields_ret]).
  - rewrite Forall_forall in *. intros r Hr. rewrite (HtO r Hr), Z.eqb_refl. cbn. apply Z.ltb_lt. by apply HO.
  - destruct C as [|r C]; cbn in *.
    + destruct rest as [|r rest]; [done|]. cbn in *. by rewrite Hrest.
    + rewrite HC. by rewrite andb_false_r.
Qed.

(** The band with a rectangle merged into it. *)
Lemma yields_merge t b T B u items rest :
  front t b items rest → 0 <= r_left u < r_right u → r_right u <= UINT16_MAX →
  ∃ merged, yields (region16_copy_band_with_union (items ++ rest) T B (Some u)) (map (at_y T B) merged) rest ∧
    row merged ∧ zlen merged <= zlen items + 1 ∧
    ∀ x, spans merged x ↔ spans items x ∨ r_left u <= x < r_right u.
Proof.
  intros [Hi Hne Hrow _ _ Hr] Hu Hmax.
  assert (Forall (λ r, r_top r = t) items) as Ht by (eapply Forall_impl; [exact Hi|]; by intros ? []).
  destruct (split_while (λ r, r_right r <? r_left u) items) as (A & X & HAX & HA & HX).
  destruct (split_while (λ r, r_right r <? r_right u) X) as (O & C & -> & HO & HC).
  destruct (ends_at u C) as [e C'] eqn:He.
  assert (Forall (λ r, r_right r < r_left u) A) as HA' by (eapply Forall_impl; [exact HA|]; cbn; intros; lia).
  assert (Forall (λ r, r_right r < r_right u) O) as HO' by (eapply Forall_impl; [exact HO|]; cbn; intros; lia).
  rewrite HAX in Hrow, Ht. destruct (row_merge u A O C e C' Hrow Hu Hmax HA' HX HO' HC He) as [Hm Hsp].
  assert (Forall (λ r, r_top r = t) C' ∧ zlen C' <= zlen C) as [HtC' Hlen].
  { apply Forall_app in Ht as [_ Ht]. apply Forall_app in Ht as [_ Ht]. destruct C as [|r C]; cbn in He.
    - by injection He as <- <-.
    - rewrite zlen_cons. destruct (_ <? _); injection He as <- <-; [apply Forall_cons in Ht as [? ?]|];
        rewrite ?zlen_cons; split; done || lia. }
  exists (A ++ mkRect (starts u (O ++ C)) 0 e 0 :: C'). split; [|split; [done|split; [|by rewrite HAX]]].
  - destruct items as [|r items]; [done|]. cbn [app region16_copy_band_with_union].
    assert (r_top r = t) as -> by (by apply Forall_cons in Hi as [[? _] _]).
    rewrite map_app. cbn [map]. change (r :: items ++ rest) with ((r :: items) ++ rest).
    rewrite HAX, <- app_assoc, (cons_middle (at_y T B _)), (app_assoc (map _ A)).
    eapply yields_bind; [eapply yields_bind|].
    + apply yields_copy_while; [|].
      * apply Forall_app in Ht as [Ht _]. rewrite Forall_forall in *. intros r' Hr'.
        by rewrite (HA r' Hr'), (Ht r' Hr'), Z.eqb_refl.
      * destruct (O ++ C) as [|r' l]; cbn in *; [|rewrite HX; by rewrite andb_false_r].
        destruct rest; [done|]. cbn in *. by rewrite Hr.
    + apply Forall_app in Ht as [_ Ht]. by apply yields_merge_overlap.
    + apply yields_copy_while; [|done]. eapply Forall_impl; [exact HtC'|]. cbn. intros r' ->. apply Z.eqb_refl.
  - rewrite HAX, !zlen_app, zlen_cons. pose proof (zlen_nonneg O). lia.
Qed.

(** ** One band of the union *)

Lemma contained_loop_spec t rect items rest :
  Forall (λ r, r_top r = t) items → stops (λ r, r_top r =? t) rest →
  contained_loop t rect (items ++ rest) = true →
  Exists (λ r, r_left r <= r_left rect ∧ r_right rect <= r_right r) items.
Proof.
  intros Ht Hr. induction Ht as [|r items Hrt _ IH]; cbn.
  - destruct rest as [|r rest]; [done|]. cbn in Hr |- *. by rewrite Hr.
  - rewrite Hrt, Z.eqb_refl. cbn. destruct (Z.leb_spec (r_left r) (r_left rect)); [|done].
    destruct (Z.leb_spec (r_right rect) (r_right r)); [by left|]. right. auto.
Qed.

Lemma contained_spec t b rect items rest :
  front t b items rest → rectangle_contained_in_band (items ++ rest) rect = true →
  t <= r_top rect ∧ r_bottom rect <= b ∧ ∀ x, r_left rect <= x < r_right rect → spans items x.
Proof.
  intros [Hi Hne _ _ _ Hr] H. destruct items as [|first items]; [done|]. cbn [app rectangle_contained_in_band] in H.
  pose proof Hi as [[Hft Hfb] _]%Forall_cons. rewrite Hft, Hfb in H. destruct (_ || _) eqn:Hout; [done|].
  apply (contained_loop_spec t rect (first :: items)) in H; [|eapply Forall_impl; [exact Hi|]; by intros ? []|done].
  split_and!; [lia|lia|]. intros x Hx. eapply Exists_impl; [exact H|]. cbn. intros; lia.
Qed.

Definition with_rect (rect : RECTANGLE_16) (P : pixels) : pixels := λ x y, P x y ∨ inside rect x y.

Lemma copy_slab t b T B rect items rest :
  front t b items rest → t <= T < B → B <= b → (r_bottom rect <= T ∨ B <= r_top rect) →
  slab T B (with_rect rect (λ x _, spans items x)) (map (at_y T B) items).
Proof.
  intros [_ _ Hrow Ht Hb _] HT HB Hout. eapply slab_ext; [|apply row_slab; [done|lia|lia]].
  intros x y Hy. unfold with_rect, inside. cbn. intuition lia.
Qed.

Lemma yields_union_band t b rect items rest :
  front t b items rest → valid rect →
  ∃ E top, yields (union_band rect (items ++ rest)) E (top, rest) ∧
    slab t b (with_rect rect (λ x _, spans items x)) E ∧ zlen E <= 3 * zlen items + 1 ∧
    (b < r_bottom rect → top = Z.max b (r_top rect)).
Proof.
  intros Hf [Hx Hxm Hy Hym]. pose proof Hf as [Hi Hne Hrow Ht Hb Hr].
  assert (∃ first items', items = first :: items' ∧ r_top first = t ∧ r_bottom first = b)
    as (first & items' & Hitems & Hft & Hfb).
  { destruct items as [|first items']; [done|]. apply Forall_cons in Hi as [[? ?] _]. by exists first, items'. }
  assert (∀ T B, zlen (map (at_y T B) items) = zlen items) as Hml by (intros; unfold zlen; by rewrite length_map).
  unfold union_band. rewrite Hitems. cbn [app]. rewrite <- Hitems in *.
  change (first :: items' ++ rest) with ((first :: items') ++ rest). rewrite <- Hitems, Hft, Hfb.
  pose proof (zlen_nonneg items). destruct (_ || _) eqn:Hcase.
  - exists (map (at_y t b) items), (r_top rect). split_and!; [| |rewrite Hml; lia|].
    + eapply yields_bind_nil; [by eapply yields_copy_band|apply yields_ret].
    + eapply slab_ext; [|apply row_slab; [done|lia|lia]]. intros x y Hyb. unfold with_rect. cbn.
      split; [by left|]. intros [?|[Hix Hiy]]; [done|].
      apply orb_true_iff in Hcase as [Hcase|Hcase]; [lia|].
      destruct (contained_spec t b rect items rest Hf Hcase) as (_ & _ & Hsp). by apply Hsp.
    + intros Hbr. apply orb_true_iff in Hcase as [Hcase|Hcase]; [lia|].
      destruct (contained_spec t b rect items rest Hf Hcase) as (_ & ? & _). lia.
  - apply orb_false_iff in Hcase as [Hcase _]. set (mt := Z.max t (r_top rect)). set (mb := Z.min b (r_bottom rect)).
    destruct (yields_merge t b mt mb rect items rest Hf Hx Hxm) as (merged & Hym' & Hrm & Hlm & Hsm).
    assert (∃ E1, yields (if r_top rect >? t then
        region16_copy_band_with_union (items ++ rest) t (r_top rect) None;; mret (r_top rect) else mret t) E1 mt ∧
      slab t mt (with_rect rect (λ x _, spans items x)) E1 ∧ zlen E1 <= zlen items) as (E1 & HE1 & HS1 & HL1).
    { destruct (Z.gtb_spec (r_top rect) t).
      - exists (map (at_y t (r_top rect)) items). replace mt with (r_top rect) by lia. split_and!; [| |rewrite Hml; lia].
        + eapply yields_bind_nil; [by eapply yields_copy_band|apply yields_ret].
        + eapply copy_slab; [done|lia|lia|lia].
      - exists []. replace mt with t by lia. split_and!; [apply yields_ret|apply slab_nil; intros; lia|done]. }
    assert (∃ E3, yields (if r_bottom rect <? b then
        region16_copy_band_with_union (items ++ rest) mb b None else mret rest) E3 rest ∧
      slab mb b (with_rect rect (λ x _, spans items x)) E3 ∧ zlen E3 <= zlen items) as (E3 & HE3 & HS3 & HL3).
    { destruct (Z.ltb_spec (r_bottom rect) b).
      - exists (map (at_y mb b) items). split_and!; [by eapply yields_copy_band| |rewrite Hml; lia].
        eapply copy_slab; [done|lia|lia|lia].
      - exists []. replace mb with b by lia. split_and!; [apply yields_ret|apply slab_nil; intros; lia|done]. }
    exists (E1 ++ map (at_y mt mb) merged ++ E3), b. split_and!.
    + eapply yields_bind; [exact HE1|]. cbv zeta.
      replace (if r_bottom rect <? b then r_bottom rect else b) with mb by (unfold mb; destruct (Z.ltb_spec (r_bottom rect) b); lia).
      eapply yields_bind; [exact Hym'|]. eapply yields_bind_nil; [exact HE3|apply yields_ret].
    + apply (slab_app _ mt); [lia|lia|done|]. apply (slab_app _ mb); [lia|lia| |done].
      eapply slab_ext; [|apply row_slab; [done|lia|lia]]. intros x y Hyb. unfold with_rect, inside. cbn. rewrite Hsm.
      intuition lia.
    + rewrite !zlen_app. unfold zlen at 2. rewrite length_map. fold (zlen merged). lia.
    + intros. lia.
Qed.

(** ** All bands *)

(** The first band of an array, and the others below it. *)
Lemma first_band l :
  Forall valid l → banded l → l ≠ [] →
  ∃ t b items rest, l = items ++ rest ∧ front t b items rest ∧ Forall (λ r, b <= r_top r) rest.
Proof.
  intros Hv Hb Hne. destruct l as [|r l]; [done|]. set (t := r_top r).
  destruct (split_while (λ r', r_top r' =? t) (r :: l)) as (items & rest & Hl & Hit & Hs).
  exists t, (r_bottom r), items, rest. rewrite Hl in Hb, Hv. apply Forall_app in Hv as [Hvi Hvr].
  apply sorted_app in Hb as (Hbi & Hbr & Hbir).
  destruct items as [|r0 items].
  { cbn in Hl. subst rest. cbn in Hs. unfold t in Hs. by rewrite Z.eqb_refl in Hs. }
  injection Hl as <- Hl. pose proof Hvi as [[Hx Hxm Hy Hym] Hvi']%Forall_cons.
  assert (Forall (λ r', r_top r' = t ∧ r_bottom r' = r_bottom r) (r :: items)) as Hitems.
  { constructor; [done|]. apply StronglySorted_inv in Hbi as [_ Hbi]. apply Forall_cons in Hit as [_ Hit].
    rewrite Forall_forall in *. intros r' Hr'. specialize (Hbi r' Hr'). specialize (Hit r' Hr').
    apply Z.eqb_eq in Hit. destruct Hbi as [[? [? ?]]|?]; [auto|]. unfold t in *. lia. }
  split; [cbn; by rewrite Hl|]. split.
  - split; try done; try lia. split.
    + eapply Forall_impl; [exact Hvi|]. by intros ? [].
    + eapply (sorted_mono (λ r', r_top r' = t ∧ r_bottom r' = r_bottom r)); [exact Hitems| |exact Hbi].
      intros r1 r2 [? ?] [? ?] [[_ [_ ?]]|?]; [done|]. lia.
  - apply Forall_cons in Hbir as [Hbir _]. destruct rest as [|r1 rest]; [constructor|]. cbn in Hs.
    apply Forall_cons in Hbir as [Hr1 _].
    assert (r_bottom r <= r_top r1) as Hlow by (destruct Hr1 as [[? _]|?]; [unfold t in Hs; lia|done]).
    constructor; [done|]. apply StronglySorted_inv in Hbr as [_ Hbr]. apply Forall_cons in Hvr as [[_ _ ? _] _].
    eapply Forall_impl; [exact Hbr|]. intros r2 [[? _]|?]; lia.
Qed.

Lemma covers_front t b items rest x y :
  front t b items rest → covers items x y ↔ t <= y < b ∧ spans items x.
Proof.
  intros [Hi _ _ _ _ _]. unfold covers, spans. rewrite !Exists_exists. rewrite Forall_forall in Hi. unfold inside.
  split.
  - intros (r & Hr & Hx & Hy). destruct (Hi r Hr) as [Ht Hb]. rewrite Ht, Hb in Hy. eauto.
  - intros (Hy & r & Hr & Hx). destruct (Hi r Hr) as [Ht Hb]. exists r. rewrite Ht, Hb. auto.
Qed.
Lemma covers_below b l x y : Forall (λ r, b <= r_top r) l → covers l x y → b <= y.
Proof.
  intros Hl Hc. apply Exists_exists in Hc as (r & Hr & [_ Hy]). rewrite Forall_forall in Hl. specialize (Hl r Hr). lia.
Qed.

(** A piece of the rectangle, or nothing. *)
Lemma yields_piece (c : bool) r Y0 Y1 P :
  (c = true → valid r ∧ Y0 <= r_top r ∧ r_bottom r <= Y1 ∧ ∀ x y, Y0 <= y < Y1 → (P x y ↔ inside r x y)) →
  (c = false → ∀ x y, Y0 <= y < Y1 → ¬ P x y) →
  ∃ E, yields (if c then put_rect r else mret tt) E tt ∧ slab Y0 Y1 P E ∧ zlen E <= 1.
Proof.
  intros Ht Hf. destruct c.
  - destruct (Ht eq_refl) as (? & ? & ? & ?). exists [r]. split_and!; [apply yields_put|by apply slab_single|done].
  - exists []. split_and!; [apply yields_ret|by apply slab_nil, Hf|done].
Qed.

(** The piece between two bands. *)
Lemma yields_gap b t' top rect P :
  valid rect → 0 <= b <= t' → t' <= UINT16_MAX → (∀ x y, b <= y < t' → ¬ P x y) →
  (b < r_bottom rect → top = Z.max b (r_top rect)) →
  ∃ E, yields (if negb (t' =? b) && (r_bottom rect >? b) && (r_top rect <? t')
      then put_rect (mkRect (r_left rect) top (r_right rect) (Z.min t' (r_bottom rect))) else mret tt) E tt ∧
    slab b t' (with_rect rect P) E ∧ zlen E <= 1.
Proof.
  intros [Hx Hxm Hy Hym] Hb Ht' HP Htop. apply yields_piece; intros Hc.
  - rewrite Htop by lia. cbn. split_and!; [split; cbn; lia|lia|lia|]. intros x y Hyb. specialize (HP x y Hyb).
    unfold with_rect, inside. cbn. intuition lia.
  - intros x y Hyb [Hp|[_ Hi]]; [by apply (HP x y)|lia].
Qed.

Lemma slab_front t b rect items rest E :
  front t b items rest → Forall (λ r, b <= r_top r) rest →
  slab t b (with_rect rect (λ x _, spans items x)) E → slab t b (with_rect rect (covers (items ++ rest))) E.
Proof.
  intros Hf Hlow. apply slab_ext. intros x y Hy. unfold with_rect. rewrite covers_app, (covers_front _ _ _ _ _ _ Hf).
  split; [tauto|]. intros [[[_ ?]|Hc]|?]; [by left| |by right]. apply (covers_below b) in Hc; [lia|done].
Qed.

Lemma yields_union_loop fuel rect l Y first :
  Forall valid l → banded l → valid rect → (length l <= fuel)%nat → head l = Some first →
  Forall (λ r, r_bottom r <= Y) l → Exists (λ r, r_bottom r = Y) l →
  ∃ E, yields (union_loop fuel rect l) E tt ∧
    slab (r_top first) Y (with_rect rect (covers l)) E ∧ zlen E <= 5 * zlen l ∧ r_top first < Y.
Proof.
  intros Hv Hb Hrect. revert l first Hv Hb. induction fuel as [|fuel IH]; intros l first Hv Hb Hf Hhd HY HYex.
  { destruct l; [done|cbn in Hf; lia]. }
  assert (l ≠ []) as Hne by (by intros ->).
  destruct (first_band l Hv Hb Hne) as (t & b & items & rest & Hl & Hfr & Hlow).
  destruct (yields_union_band t b rect items rest Hfr Hrect) as (E1 & top & HE1 & HS1 & HL1 & Htop).
  pose proof Hfr as [Hi Hin Hrow Ht Hbm Hr].
  assert (r_top first = t ∧ r_bottom first = b ∧ first ∈ items) as (Hft & Hfb & Hfin).
  { destruct items as [|first' items']; [done|]. rewrite Hl in Hhd. injection Hhd as ->.
    apply Forall_cons in Hi as [[? ?] _]. split_and!; [done..|left]. }
  assert (1 <= zlen items) as H1 by (destruct items; [done|rewrite zlen_cons; pose proof (zlen_nonneg items); lia]).
  apply (slab_front _ _ _ _ _ _ Hfr Hlow) in HS1. rewrite <- Hl in HE1, HS1.
  assert (∀ E k, yields (match rest with
      | next :: _ =>
          if negb (r_top next =? r_bottom first) && (r_bottom rect >? r_bottom first) && (r_top rect <? r_top next)
          then put_rect (mkRect (r_left rect) top (r_right rect) (Z.min (r_top next) (r_bottom rect)))
          else mret tt
      | [] => mret tt end) E tt → yields (union_loop fuel rect rest) k tt →
      yields (union_loop (S fuel) rect l) (E1 ++ E ++ k) tt) as Hstep.
  { intros E k HE Hk. destruct l as [|first' l']; [done|]. injection Hhd as ->. cbn [union_loop].
    eapply yields_bind; [exact HE1|]. eapply yields_bind; [exact HE|exact Hk]. }
  rewrite Hft. destruct rest as [|next rest].
  - assert (b = Y) as <-.
    { rewrite Hl, app_nil_r in HYex. apply Exists_exists in HYex as (r & Hr' & <-). rewrite Forall_forall in Hi.
      by destruct (Hi r Hr'). }
    exists (E1 ++ [] ++ []). split_and!; [|by rewrite app_nil_r|rewrite app_nil_r, Hl, app_nil_r; lia|lia].
    apply Hstep; [apply yields_ret|]. destruct fuel; apply yields_ret.
  - rewrite Hl in Hv, Hb, HY, HYex, Hf. rewrite length_app in Hf. apply Forall_app in Hv as [Hvi Hvr].
    apply sorted_app in Hb as (_ & Hbr & _). apply Forall_app in HY as [HYi HYr].
    pose proof Hlow as [Hnext _]%Forall_cons. pose proof Hvr as [[_ _ Hny Hnym] _]%Forall_cons.
    destruct (IH (next :: rest) next) as (E3 & HE3 & HS3 & HL3 & HT3); [done|done| |done|done| |].
    { unfold zlen in H1. cbn in Hf |- *. lia. }
    { apply Exists_app in HYex as [HYex|HYex]; [|done]. exfalso. apply Exists_exists in HYex as (r & Hr' & HrY).
      rewrite Forall_forall in Hi. destruct (Hi r Hr') as [_ Hrb]. apply Forall_cons in HYr as [? _]. lia. }
    destruct (yields_gap b (r_top next) top rect (covers l)) as (E2 & HE2 & HS2 & HL2); [done|lia|lia| |done|].
    { intros x y Hy. rewrite Hl, covers_app, (covers_front _ _ _ _ _ _ Hfr). intros [[? _]|Hc]; [lia|].
      apply (covers_below (r_top next)) in Hc; [lia|]. constructor; [done|].
      apply StronglySorted_inv in Hbr as [_ Hbr]. eapply Forall_impl; [exact Hbr|]. intros r2 [[? _]|?]; lia. }
    exists (E1 ++ E2 ++ E3). split_and!; [by apply Hstep; [rewrite Hfb|]| | |lia].
    + apply (slab_app _ b); [lia|lia|done|]. apply (slab_app _ (r_top next)); [lia|lia|done|].
      eapply slab_ext; [|exact HS3]. intros x y Hy. unfold with_rect. rewrite Hl, covers_app, (covers_front _ _ _ _ _ _ Hfr).
      intuition lia.
    + rewrite Hl, !zlen_app. lia.
Qed.

(** ** The extents *)

(** The smallest rectangle with these pixels. *)
Record bounds (e : RECTANGLE_16) (P : pixels) : Prop := {
  bo_inside x y : P x y → inside e x y;
  bo_left : ∃ y, P (r_left e) y;
  bo_right : ∃ y, P (r_right e - 1) y;
  bo_top : ∃ x, P x (r_top e);
  bo_bottom : ∃ x, P x (r_bottom e - 1);
}.

Lemma bounds_ext e P Q : (∀ x y, P x y ↔ Q x y) → bounds e P → bounds e Q.
Proof. intros HPQ [H1 H2 H3 H4 H5]. split; [intros x y; rewrite <- HPQ; apply H1|..]; setoid_rewrite <- HPQ; done. Qed.
Lemma bounds_rect r : valid r → bounds r (inside r).
Proof.
  intros []. unfold inside. split; [done|exists (r_top r)|exists (r_top r)|exists (r_left r)|exists (r_left r)]; lia.
Qed.
Lemma bounds_join r e P : valid r → bounds e P → bounds (join_extents r e) (with_rect r P).
Proof.
  intros Hr [H1 (ly & H2) (ry & H3) (tx & H4) (bx & H5)]. pose proof Hr as []. unfold with_rect. split.
  - intros x y [Hp|Hi]; [apply H1 in Hp as [? ?]|destruct Hi as [? ?]]; unfold inside; cbn; lia.
  - cbn. destruct (Z.min_spec (r_left r) (r_left e)) as [[_ ->]|[_ ->]]; [exists (r_top r)|by eauto]. right. unfold inside. lia.
  - cbn. destruct (Z.max_spec (r_right r) (r_right e)) as [[_ ->]|[_ ->]]; [by eauto|exists (r_top r)]. right. unfold inside. lia.
  - cbn. destruct (Z.min_spec (r_top r) (r_top e)) as [[_ ->]|[_ ->]]; [exists (r_left r)|by eauto]. right. unfold inside. lia.
  - cbn. destruct (Z.max_spec (r_bottom r) (r_bottom e)) as [[_ ->]|[_ ->]]; [by eauto|exists (r_left r)]. right. unfold inside. lia.
Qed.
Lemma bounds_unique e1 e2 P : bounds e1 P → bounds e2 P → e1 = e2.
Proof.
  intros [A1 (? & A2) (? & A3) (? & A4) (? & A5)] [B1 (? & B2) (? & B3) (? & B4) (? & B5)].
  apply A1 in B2 as [? _], B3 as [? _], B4 as [_ ?], B5 as [_ ?].
  apply B1 in A2 as [? _], A3 as [? _], A4 as [_ ?], A5 as [_ ?].
  destruct e1, e2. cbn in *. f_equal; lia.
Qed.

(** The first row and the last. *)
Lemma bounds_rows e l first :
  Forall valid l → banded l → head l = Some first → bounds e (covers l) →
  r_top first = r_top e ∧ Forall (λ r, r_bottom r <= r_bottom e) l ∧ Exists (λ r, r_bottom r = r_bottom e) l.
Proof.
  intros Hv Hb Hhd [H1 _ _ (tx & H4) (bx & H5)]. destruct l as [|r l]; [done|]. injection Hhd as ->.
  assert (∀ r, r ∈ first :: l → inside r (r_left r) (r_top r) ∧ inside r (r_left r) (r_bottom r - 1)) as Hin.
  { intros r Hr. rewrite Forall_forall in Hv. destruct (Hv r Hr). unfold inside. lia. }
  assert (Forall (λ r, r_bottom r <= r_bottom e) (first :: l)) as Hle.
  { apply Forall_forall. intros r Hr. destruct (Hin r Hr) as [_ Hi].
    destruct (H1 (r_left r) (r_bottom r - 1)); [apply Exists_exists; by exists r|]. lia. }
  split_and!; [|done|].
  - apply Z.le_antisymm.
    + apply (covers_below _ (first :: l) tx); [|done]. constructor; [lia|].
      apply StronglySorted_inv in Hb as [_ Hb]. apply Forall_cons in Hv as [[_ _ ? _] _].
      eapply Forall_impl; [exact Hb|]. intros r [[? _]|?]; lia.
    + destruct (Hin first) as [Hi _]; [left|]. destruct (H1 (r_left first) (r_top first)) as [_ ?]; [by left|]. lia.
  - apply Exists_exists in H5 as (r & Hr & [_ Hy]). apply Exists_exists. exists r. split; [done|].
    rewrite Forall_forall in Hle. specialize (Hle r Hr). lia.
Qed.

(** ** The union *)

Lemma yields_union_items e rect l :
  Forall valid l → banded l → l ≠ [] → bounds e (covers l) → valid rect →
  ∃ E, yields (union_items e rect l) E tt ∧ zlen E <= 5 * zlen l + 2 ∧
    slab (Z.min (r_top rect) (r_top e)) (Z.max (r_bottom rect) (r_bottom e)) (with_rect rect (covers l)) E.
Proof.
  intros Hv Hb Hne He Hrect. pose proof Hrect as [Hx Hxm Hy Hym].
  destruct (head l) as [first|] eqn:Hhd; [|by destruct l].
  destruct (bounds_rows e l first Hv Hb Hhd He) as (Htop & Hbot & Hex). destruct He as [Hin _ _ _ _].
  destruct (yields_union_loop (length l) rect l (r_bottom e) first) as (E2 & HE2 & HS2 & HL2 & HT); [done..|].
  rewrite Htop in HS2, HT. set (P := with_rect rect (covers l)) in *.
  assert (∀ x y, y < r_top e ∨ r_bottom e <= y → P x y ↔ inside rect x y) as HP.
  { intros x y Hyb. split; [|by right]. intros [Hc|?]; [apply Hin in Hc as [_ ?]; lia|done]. }
  edestruct (yields_piece (r_top rect <? r_top e)
    (mkRect (r_left rect) (r_top rect) (r_right rect) (Z.min (r_top e) (r_bottom rect)))
    (Z.min (r_top rect) (r_top e)) (r_top e) P) as (E1 & HE1 & HS1 & HL1).
  { intros Hc. cbn. split_and!; [split; cbn; lia|lia|lia|]. intros x y Hyb. rewrite HP by lia. unfold inside. cbn. lia. }
  { intros Hc x y Hyb. lia. }
  edestruct (yields_piece (r_bottom e <? r_bottom rect)
    (mkRect (r_left rect) (Z.max (r_bottom e) (r_top rect)) (r_right rect) (r_bottom rect))
    (r_bottom e) (Z.max (r_bottom rect) (r_bottom e)) P) as (E3 & HE3 & HS3 & HL3).
  { intros Hc. cbn. split_and!; [split; cbn; lia|lia|lia|]. intros x y Hyb. rewrite HP by lia. unfold inside. cbn. lia. }
  { intros Hc x y Hyb. lia. }
  exists (E1 ++ E2 ++ E3). split_and!.
  - eapply yields_bind; [exact HE1|]. eapply yields_bind; [exact HE2|exact HE3].
  - rewrite !zlen_app. lia.
  - apply (slab_app _ (r_top e)); [lia|lia|done|]. apply (slab_app _ (r_bottom e)); [lia|lia|done|done].
Qed.

(** * Joining bands *)

Definition columns (items : list RECTANGLE_16) : list (Z * Z) := map (λ r, (r_left r, r_right r)) items.

(** No band could be joined with the next. *)
Inductive coalesced : list RECTANGLE_16 → Prop :=
| coalesced_nil : coalesced []
| coalesced_band t b items rest :
    front t b items rest →
    (∀ b' items' rest', rest = items' ++ rest' → front b b' items' rest' → columns items ≠ columns items') →
    coalesced rest → coalesced (items ++ rest).

Lemma same_top t items : Forall (λ r, r_top r = t) items → Forall (λ r, (r_top r =? t) = true) items.
Proof. intros H. eapply Forall_impl; [exact H|]. cbn. intros r ->. apply Z.eqb_refl. Qed.
Lemma front_top t b items rest : front t b items rest → Forall (λ r, r_top r = t) items.
Proof. intros [Hi _ _ _ _ _]. eapply Forall_impl; [exact Hi|]. by intros ? []. Qed.

Lemma band_items_app t items rest :
  Forall (λ r, r_top r = t) items → stops (λ r, r_top r =? t) rest → band_items t (items ++ rest) = (items, rest).
Proof.
  intros Hi Hr. induction Hi as [|r items Hrt _ IH]; cbn.
  - destruct rest as [|r rest]; [done|]. cbn in Hr |- *. by rewrite Hr.
  - rewrite Hrt, Z.eqb_refl, IH. done.
Qed.
Lemma next_band_front t b items rest : front t b items rest → next_band (items ++ rest) = (items, rest).
Proof.
  intros Hf. pose proof (front_top _ _ _ _ Hf) as Ht. destruct Hf as [_ Hne _ _ _ Hr].
  destruct items as [|r items]; [done|]. cbn [app next_band].
  change (r :: items ++ rest) with ((r :: items) ++ rest). pose proof Ht as [-> _]%Forall_cons. by apply band_items_app.
Qed.
Lemma front_unique t b items rest t' b' items' rest' :
  items ++ rest = items' ++ rest' → front t b items rest → front t' b' items' rest' →
  t = t' ∧ b = b' ∧ items = items' ∧ rest = rest'.
Proof.
  intros E H H'. pose proof (next_band_front _ _ _ _ H) as N. rewrite E, (next_band_front _ _ _ _ H') in N.
  injection N as <- <-. destruct H as [Hi Hne _ _ _ _], H' as [Hi' _ _ _ _ _]. destruct items'; [done|].
  apply Forall_cons in Hi as [[? ?] _], Hi' as [[? ?] _]. split_and!; congruence.
Qed.

Lemma match_items_spec t items items' rest :
  Forall (λ r, r_top r = t) items' → stops (λ r, r_top r =? t) rest →
  match_items t items (items' ++ rest) = bool_decide (columns items = columns items').
Proof.
  intros Hi' Hr. revert items. induction Hi' as [|r' items' Ht _ IH]; intros [|r items]; cbn.
  - destruct rest; [done|]. cbn in Hr |- *. by rewrite Hr.
  - destruct rest; [done|]. cbn in Hr |- *. by rewrite Hr.
  - by rewrite Ht, Z.eqb_refl.
  - rewrite Ht, Z.eqb_refl. destruct (Z.eqb_spec (r_left r) (r_left r')), (Z.eqb_spec (r_right r) (r_right r')); cbn;
      try (symmetry; apply bool_decide_eq_false; intros E; congruence).
    rewrite IH. apply bool_decide_ext. unfold columns. split; intros E; [cbn; congruence|by injection E].
Qed.
Lemma band_match_spec t b items items' rest :
  front t b items' rest → band_match items (items' ++ rest) = bool_decide (columns items = columns items').
Proof.
  intros Hf. pose proof (front_top _ _ _ _ Hf) as Ht. destruct Hf as [_ Hne _ _ _ Hr].
  destruct items' as [|r items']; [done|]. cbn [app band_match].
  change (r :: items' ++ rest) with ((r :: items') ++ rest). pose proof Ht as [-> _]%Forall_cons.
  by apply match_items_spec.
Qed.

Lemma spans_columns items items' x : columns items = columns items' → spans items x ↔ spans items' x.
Proof.
  revert items'. induction items as [|r items IH]; intros [|r' items'] E; try done. injection E as ?? E.
  rewrite !spans_cons, (IH items') by done. intuition lia.
Qed.
Lemma row_columns items items' : columns items = columns items' → row items → row items'.
Proof.
  revert items'. induction items as [|r items IH]; intros [|r' items'] E; try done. injection E as ?? E.
  rewrite !row_cons. intros (? & Hr & Hl). split_and!; [lia|lia|lia|by apply IH|].
  replace (r_right r') with (r_right r) by lia. clear - E Hl. revert items' E.
  induction Hl as [|r2 items ? _ IH]; intros [|r2' items'] E; try done. injection E as ?? E. constructor; [lia|auto].
Qed.

Lemma front_banded t b items rest :
  front t b items rest → Forall (λ r, b <= r_top r) rest → Forall valid rest → banded rest →
  Forall valid (items ++ rest) ∧ banded (items ++ rest).
Proof.
  intros [Hi _ [Hrv Hrs] Ht Hb _] Hlow Hv Hr. split.
  - apply Forall_app. split; [|done]. rewrite Forall_forall in *. intros r Hin. destruct (Hi r Hin), (Hrv r Hin).
    split; lia.
  - apply sorted_app. split_and!; [|done|].
    + eapply sorted_mono; [exact Hi| |exact Hrs]. intros r1 r2 [? ?] [? ?] ?. left. split_and!; congruence || done.
    + eapply Forall_impl; [exact Hi|]. intros r1 [_ <-]. eapply Forall_impl; [exact Hlow|]. intros r2 ?. by right.
Qed.
(** The rows of an array are those of its pixels. *)
Lemma rows_covered l l' Y :
  Forall valid l' → (∀ x y, covers l' x y → covers l x y) → Forall (λ r, Y <= r_top r) l → Forall (λ r, Y <= r_top r) l'.
Proof.
  intros Hv Hc HY. rewrite Forall_forall in Hv |- *. intros r Hr. destruct (Hv r Hr).
  apply (covers_below _ l (r_left r)); [done|]. apply Hc, Exists_exists. exists r. split; [done|]. unfold inside. lia.
Qed.
Lemma low_stops t b l : t < b → Forall (λ r, b <= r_top r) l → stops (λ r, r_top r =? t) l.
Proof. intros Htb Hl. destruct Hl as [|r l ? _]; cbn; [done|]. lia. Qed.

(** [l'] has the same pixels, and its first band the same columns. *)
Record simplified l l' : Prop := {
  si_valid : Forall valid l';
  si_banded : banded l';
  si_covers x y : covers l' x y ↔ covers l x y;
  si_length : zlen l' <= zlen l;
  si_coalesced : coalesced l';
  si_first t b items rest : l = items ++ rest → front t b items rest →
    ∃ b' items' rest', l' = items' ++ rest' ∧ front t b' items' rest' ∧ columns items' = columns items;
}.

(** Two bands become one. *)
Lemma join_bands t b b' items items' rest :
  front t b items (items' ++ rest) → front b b' items' rest → Forall (λ r, b' <= r_top r) rest →
  columns items = columns items' →
  let joined := map (set_bottom b') items in
  front t b' joined rest ∧ columns joined = columns items ∧
  ∀ x y, covers (joined ++ rest) x y ↔ covers (items ++ items' ++ rest) x y.
Proof.
  intros Hf Hf' Hlow Hcol joined. assert (columns joined = columns items) as Hcj by (unfold columns, joined; by rewrite map_map).
  pose proof Hf as [Hi Hne Hrow Ht Hb _]. pose proof Hf' as [_ _ _ Hy Hb' _].
  assert (front t b' joined rest) as Hfj.
  { split; [| |by eapply row_columns; [symmetry; exact Hcj|]|lia|lia|by eapply low_stops; [|done]; lia].
    - apply Forall_map. eapply Forall_impl; [exact Hi|]. cbn. by intros ? [].
    - unfold joined. by destruct items. }
  split_and!; [done..|]. intros x y.
  rewrite !covers_app, (covers_front _ _ _ _ _ _ Hfj), (covers_front _ _ _ _ _ _ Hf), (covers_front _ _ _ _ _ _ Hf').
  rewrite (spans_columns joined items x) by done. rewrite (spans_columns items items' x) by done.
  destruct (decide (y < b)); intuition lia.
Qed.

Lemma simplified_single t b items : front t b items [] → simplified (items ++ []) (items ++ []).
Proof.
  intros Hf. destruct (front_banded _ _ _ _ Hf) as [? ?]; [constructor..|]. split; try done.
  - econstructor; [done| |constructor]. intros b' [|? ?] rest' E []; done.
  - intros t' b' items' rest' E Hf'. exists b', items', rest'. auto.
Qed.
Lemma simplified_join t b b' items items' rest l' :
  front t b items (items' ++ rest) → front b b' items' rest → Forall (λ r, b' <= r_top r) rest →
  columns items = columns items' → simplified (map (set_bottom b') items ++ rest) l' →
  simplified (items ++ items' ++ rest) l'.
Proof.
  intros Hf Hf' Hlow Hcol [Hv Hb Hc Hl Hco Hfi].
  destruct (join_bands t b b' items items' rest Hf Hf' Hlow Hcol) as (Hfj & Hcj & Hcov). split; [done|done| | |done|].
  - intros x y. by rewrite Hc, Hcov.
  - rewrite !zlen_app in *. unfold zlen at 2 in Hl. rewrite length_map in Hl. fold (zlen items) in Hl.
    pose proof (zlen_nonneg items'). lia.
  - intros t1 b1 items1 rest1 E Hf1. destruct (front_unique _ _ _ _ _ _ _ _ E Hf Hf1) as (<- & <- & <- & <-).
    destruct (Hfi t b' _ rest eq_refl Hfj) as (b2 & items2 & rest2 & ? & ? & ?). exists b2, items2, rest2. split_and!; [done..|].
    congruence.
Qed.
Lemma simplified_keep t b items rest l' :
  front t b items rest → Forall (λ r, b <= r_top r) rest →
  (∀ b' items' rest', rest = items' ++ rest' → front b b' items' rest' → columns items ≠ columns items') →
  Forall valid rest → banded rest → rest ≠ [] → simplified rest l' → simplified (items ++ rest) (items ++ l').
Proof.
  intros Hf Hlow Hno Hvr Hbr Hner [Hv Hb Hc Hl Hco Hfi].
  assert (Forall (λ r, b <= r_top r) l') as Hlow' by (eapply rows_covered; [done|apply Hc|done]).
  assert (front t b items l') as Hf'.
  { destruct Hf as [? ? ? ? ? _]. split; try done. eapply low_stops; [|done]. lia. }
  destruct (front_banded _ _ _ _ Hf' Hlow' Hv Hb). split; [done|done| | | |].
  - intros x y. by rewrite !covers_app, Hc.
  - rewrite !zlen_app. lia.
  - econstructor; [done| |done]. intros b1 items1 rest1 E Hf1.
    destruct (first_band rest Hvr Hbr Hner) as (t2 & b2 & items2 & rest2 & -> & Hf2 & _).
    destruct (Hfi t2 b2 items2 rest2 eq_refl Hf2) as (b3 & items3 & rest3 & E3 & Hf3 & Hcol3).
    rewrite E in E3. destruct (front_unique _ _ _ _ _ _ _ _ E3 Hf1 Hf3) as (<- & <- & <- & <-).
    rewrite Hcol3. by eapply Hno.
  - intros t1 b1 items1 rest1 E Hf1. destruct (front_unique _ _ _ _ _ _ _ _ E Hf Hf1) as (<- & <- & <- & <-).
    by exists b, items, l'.
Qed.

Lemma simplify_step fuel t b items rest :
  front t b items rest →
  simplify_loop (S fuel) (items ++ rest) =
    match rest with
    | [] => Ret (items ++ rest)
    | r2 :: _ =>
        if (b =? r_top r2) && band_match items rest
        then simplify_loop fuel (map (set_bottom (r_bottom r2)) items ++ drop (length items) rest)
        else rest' ← simplify_loop fuel rest; Ret (items ++ rest')
    end.
Proof.
  intros Hf. cbn [simplify_loop]. rewrite (next_band_front _ _ _ _ Hf). destruct Hf as [Hi Hne _ _ _ _].
  destruct items as [|r1 items]; [done|]. apply Forall_cons in Hi as [[_ ->] _]. by destruct rest.
Qed.

Lemma simplify_step_two fuel t b items t2 b2 items2 rest :
  front t b items (items2 ++ rest) → front t2 b2 items2 rest →
  simplify_loop (S fuel) (items ++ items2 ++ rest) =
    if (b =? t2) && bool_decide (columns items = columns items2)
    then simplify_loop fuel (map (set_bottom b2) items ++ drop (length items) (items2 ++ rest))
    else rest' ← simplify_loop fuel (items2 ++ rest); Ret (items ++ rest').
Proof.
  intros Hf Hf2. rewrite (simplify_step _ _ _ _ _ Hf), (band_match_spec _ _ _ _ _ Hf2).
  destruct Hf2 as [Hi2 Hne2 _ _ _ _]. destruct items2 as [|r2 items2]; [done|].
  apply Forall_cons in Hi2 as [[H1 H2] _]. cbn [app]. by rewrite H1, H2.
Qed.

Lemma simplify_loop_spec fuel l :
  Forall valid l → banded l → (length l < fuel)%nat → ∃ l', simplify_loop fuel l = Ret l' ∧ simplified l l'.
Proof.
  revert l. induction fuel as [|fuel IH]; intros l Hv Hb Hf; [lia|].
  destruct (decide (l = [])) as [->|Hne].
  { exists []. split; [done|]. split; try done; [constructor|]. intros t b [|? ?] rest ? []; done. }
  destruct (first_band l Hv Hb Hne) as (t & b & items & rest & -> & Hfr & Hlow).
  apply Forall_app in Hv as [_ Hvr].
  apply sorted_app in Hb as (_ & Hbr & _). rewrite length_app in Hf.
  assert (0 < length items)%nat by (destruct Hfr; destruct items; [done|cbn; lia]).
  destruct (decide (rest = [])) as [->|Hner].
  { rewrite (simplify_step _ _ _ _ _ Hfr). eexists. split; [done|]. by eapply simplified_single. }
  destruct (first_band rest Hvr Hbr Hner) as (t2 & b2 & items2 & rest2 & -> & Hfr2 & Hlow2).
  rewrite (simplify_step_two _ _ _ _ _ _ _ _ Hfr Hfr2).
  destruct ((b =? t2) && bool_decide (columns items = columns items2)) eqn:Hc.
  - apply andb_true_iff in Hc as [Hbt Hcol]. apply Z.eqb_eq in Hbt as <-. apply bool_decide_eq_true in Hcol.
    assert (length items = length items2) as Hlen by (apply (f_equal length) in Hcol; unfold columns in Hcol; by rewrite !length_map in Hcol).
    rewrite Hlen, drop_app_length. destruct (join_bands _ _ _ _ _ _ Hfr Hfr2 Hlow2 Hcol) as (Hfj & _ & _).
    apply Forall_app in Hvr as [_ Hvr]. apply sorted_app in Hbr as (_ & Hbr & _).
    destruct (front_banded _ _ _ _ Hfj Hlow2 Hvr Hbr) as [? ?].
    destruct (IH (map (set_bottom b2) items ++ rest2)) as (l' & E & Hs); [done|done| |].
    { rewrite !length_app, length_map in *. lia. }
    exists l'. split; [done|]. by eapply simplified_join.
  - destruct (IH (items2 ++ rest2)) as (l' & E & Hs); [done|done|lia|]. rewrite E. eexists. split; [done|].
    eapply simplified_keep; try done. intros b' items' rest1 E1 Hf1 Hcol.
    destruct (front_unique _ _ _ _ _ _ _ _ E1 Hfr2 Hf1) as (-> & -> & -> & ->).
    rewrite Z.eqb_refl, bool_decide_eq_true_2 in Hc by done. done.
Qed.

(** * Regions *)

Definition rects_of (region : REGION16) : list RECTANGLE_16 := default [] (data region).
(** The pixels of a region. *)
Definition shows (region : REGION16) : pixels := covers (rects_of region).

(** The invariant: the rectangles are not empty, in bands, no band could be joined
    with the next, and the extents are the smallest rectangle around them.  Within a
    band the rectangles are disjoint and go from left to right; the head of region.c
    also says that they do not touch, but the code does not keep that
    ([touching_union]). *)
Record region_ok (region : REGION16) : Prop := {
  rk_valid : Forall valid (rects_of region);
  rk_banded : banded (rects_of region);
  rk_coalesced : coalesced (rects_of region);
  rk_extents : rects_of region ≠ [] → bounds (extents region) (shows region);
}.

Lemma coalesced_short l : Forall valid l → banded l → zlen l < 2 → coalesced l.
Proof.
  intros Hv Hb Hl. destruct (decide (l = [])) as [->|Hne]; [constructor|].
  destruct (first_band l Hv Hb Hne) as (t & b & items & rest & -> & Hf & _).
  destruct rest as [|r rest].
  - by eapply simplified_single.
  - exfalso. destruct Hf as [_ Hi _ _ _ _]. rewrite zlen_app, zlen_cons in Hl. destruct items; [done|].
    rewrite zlen_cons in Hl. pose proof (zlen_nonneg items). pose proof (zlen_nonneg rest). lia.
Qed.

(** How an operation ends: in [P], unless memory ran out. *)
Definition finishes (m : outcome (bool * REGION16)) (P : REGION16 → Prop) : Prop :=
  ∃ ok region, m = Ret (ok, region) ∧ (plenty → ok = true) ∧ (ok = true → P region).

Lemma simplify_bands_spec e l (P : pixels) :
  Forall valid l → banded l → zlen l <= INT_MAX → (∀ x y, covers l x y ↔ P x y) → (l ≠ [] → bounds e P) →
  finishes (region16_simplify_bands (mkRegion e (Some l))) (λ region, region_ok region ∧ ∀ x y, shows region x y ↔ P x y).
Proof.
  intros Hv Hb Hl HP He. unfold region16_simplify_bands, region16_n_rects. cbn [data].
  replace (zlen l <=? INT_MAX) with true by lia. cbn [mbind outcome_bind].
  destruct (Z.ltb_spec (zlen l) 2).
  { exists true, (mkRegion e (Some l)). split_and!; [done..|]. intros _. split; [|done]. split; cbn; try done.
    - by apply coalesced_short.
    - intros Hne. eapply bounds_ext; [|by apply He]. intros x y. symmetry. apply HP. }
  destruct (simplify_loop_spec (S (length l)) l Hv Hb ltac:(lia)) as (l' & E & [Hv' Hb' Hc' Hl' Hco' _]).
  change (default [] (Some l)) with l. rewrite E. cbn [mbind outcome_bind]. 
  assert (∀ x y, shows (mkRegion e (Some l')) x y ↔ P x y) as Hsh by (intros x y; unfold shows; cbn; by rewrite Hc').
  assert (l ≠ []) as Hne by (by intros ->).
  assert (region_ok (mkRegion e (Some l'))) as Hok.
  { split; cbn; try done. intros _. eapply bounds_ext; [|by apply He]. intros x y. by rewrite Hsh. }
  assert (0 < zlen l') as Hpos.
  { destruct l' as [|r l']; [|rewrite zlen_cons; pose proof (zlen_nonneg l'); lia]. exfalso.
    destruct l as [|r l]; [done|]. apply Forall_cons in Hv as [[] _]. apply (covers_nil (r_left r) (r_top r)), Hc'.
    left. unfold inside. lia. }
  destruct (Z.eqb_spec (zlen l') (zlen l)); cbn [negb].
  - exists true, (mkRegion e (Some l')). by split_and!.
  - unfold resizeRegion. replace (zlen l' =? 0) with false by lia. cbn [data extents].
    rewrite Z.sub_diag, app_nil_r, ztake_all by lia. destruct (malloc_ok _) eqn:Hm.
    + exists true, (mkRegion e (Some l')). by split_and!.
    + exists false, (mkRegion e (Some [])). split_and!; [done| |done]. intros Hp. by rewrite Hp in Hm.
Qed.

Lemma region_single rect : valid rect → region_ok (mkRegion rect (Some [rect])) ∧ ∀ x y, shows (mkRegion rect (Some [rect])) x y ↔ inside rect x y.
Proof.
  intros Hv. assert (∀ x y, covers [rect] x y ↔ inside rect x y) as Hc.
  { intros x y. rewrite covers_cons. split; [|by left]. by intros [?|?%covers_nil]. }
  assert (banded [rect]) as Hb by (constructor; constructor). assert (Forall valid [rect]) as Hvs by (by apply Forall_singleton).
  split; [|done]. split; cbn; try done.
  - by apply coalesced_short.
  - intros _. eapply bounds_ext; [|by apply bounds_rect]. intros x y. symmetry. apply Hc.
Qed.

Lemma allocate_holds n : 0 <= n → match allocateRegion n with Some rects => zlen rects = n | None => ¬ plenty end.
Proof.
  intros Hn. unfold allocateRegion.
  destruct (malloc_ok 16) eqn:H1; cbn [negb]; [|intros Hp; by rewrite Hp in H1].
  destruct (Z.gtb_spec n 0).
  - destruct (malloc_ok (n * 8)) eqn:H2; [|intros Hp; by rewrite Hp in H2]. unfold zlen. rewrite length_replicate. lia.
  - change (zlen []) with 0. lia.
Qed.

Lemma n_rects_spec region : zlen (rects_of region) <= INT_MAX → region16_n_rects region = Ret (zlen (rects_of region)).
Proof.
  unfold region16_n_rects, rects_of. destruct (data region) as [l|]; [|done]. cbn. intros. by replace (_ <=? _) with true by lia.
Qed.
Lemma rects_spec region : zlen (rects_of region) <= UINT32_MAX → region16_rects region = Ret (rects_of region).
Proof.
  unfold region16_rects, rects_of. destruct (data region) as [l|]; [|done]. cbn. intros. by replace (_ <=? _) with true by lia.
Qed.

(** The only rectangle. *)
Lemma resize_single dst rect :
  valid rect →
  finishes (let '(ok, dst) := resizeRegion (mkRegion rect (data dst)) 1 in
            if negb ok then Ret (false, dst) else Ret (true, mkRegion rect (Some [rect])))
    (λ region, region_ok region ∧ ∀ x y, shows region x y ↔ inside rect x y).
Proof.
  intros Hv. destruct (resizeRegion _ 1) as [ok dst'] eqn:E.
  assert (plenty → ok = true) as Hp.
  { intros Hp. unfold resizeRegion in E. cbn [Z.eqb data extents] in E. destruct (data dst).
    - rewrite Hp in E. by injection E as <- <-.
    - pose proof (allocate_holds 1 ltac:(lia)) as Ha. destruct (allocateRegion 1); [by injection E as <- <-|done]. }
  destruct ok; cbn [negb].
  - exists true, (mkRegion rect (Some [rect])). split_and!; [done..|]. intros _. by apply region_single.
  - exists false, dst'. by split_and!.
Qed.

Lemma union_rect_spec dst src rect :
  region_ok src → valid rect → 5 * zlen (rects_of src) + 2 <= INT_MAX →
  finishes (region16_union_rect dst src rect)
    (λ region, region_ok region ∧ ∀ x y, shows region x y ↔ with_rect rect (shows src) x y).
Proof.
  intros [Hv Hb _ He] Hrect Hn. pose proof (zlen_nonneg (rects_of src)). unfold INT_MAX in *.
  unfold region16_union_rect. rewrite n_rects_spec by (unfold INT_MAX; lia). cbn [mbind outcome_bind].
  set (l := rects_of src) in *. destruct (Z.eqb_spec (zlen l) 0) as [Hz|Hz].
  { destruct (resize_single dst rect Hrect) as (ok & region & E & Hp & Hok). exists ok, region. split_and!; [done..|].
    intros Htrue. destruct (Hok Htrue) as [Hro Hsh]. split; [done|]. intros x y. rewrite Hsh. unfold with_rect, shows. fold l.
    rewrite (zlen_nil_inv l) by lia. split; [by right|]. by intros [?%covers_nil|?]. }
  assert (l ≠ []) as Hne by (by intros E; rewrite E in Hz).
  unfold INT_MAX. replace (_ >? _) with false by lia. pose proof (allocate_holds (zlen l + 1) ltac:(lia)) as Ha.
  destruct (allocateRegion _) as [newItems|]; [|by exists false, dst]. rewrite rects_spec by (unfold UINT32_MAX; fold l; lia).
  cbn [mbind outcome_bind]. fold l.
  destruct (yields_union_items (extents src) rect l Hv Hb Hne (He Hne) Hrect) as (E & HE & HL & [Ev Eb _ Ec]).
  destruct (HE (newItems, 0) []) as [[-> Hp]|([newItems' used] & -> & Hused & tl & Htl)].
  { by split; [|exists newItems]. } { change (zlen []) with 0. unfold INT_MAX. lia. }
  { by exists false, dst. }
  cbn in Hused, Htl. cbn [mbind outcome_bind]. subst used newItems'. rewrite ztake_app_le, ztake_all by lia.
  apply simplify_bands_spec; [done|done|unfold INT_MAX; lia| |].
  - intros x y. rewrite Ec. split; [by intros [_ ?]|]. intros Hw. split; [|done].
    destruct (bounds_join rect (extents src) (shows src) Hrect (He Hne)) as [Hin _ _ _ _].
    destruct (Hin x y Hw) as [_ Hy]. exact Hy.
  - intros _. by apply bounds_join; [|apply He].
Qed.

(** ** Intersection *)

Definition meet (rect : RECTANGLE_16) (P : pixels) : pixels := λ x y, P x y ∧ inside rect x y.

Lemma intersection_spec r1 r2 :
  let '(ok, common) := rectangles_intersection r1 r2 in
  (∀ x y, inside r1 x y ∧ inside r2 x y ↔ inside common x y) ∧
  (ok = true ↔ ∃ x y, inside common x y) ∧ (ok = true → valid r1 → valid common).
Proof.
  unfold rectangles_intersection. cbn. split_and!.
  - intros x y. unfold inside. cbn. lia.
  - split.
    + intros Hok. eexists (Z.max (r_left r1) (r_left r2)), (Z.max (r_top r1) (r_top r2)). unfold inside. cbn. lia.
    + intros (x & y & [Hx Hy]). cbn in *. lia.
  - intros Hok []. split; cbn; lia.
Qed.

Lemma banded_tops r l : valid r → banded (r :: l) → Forall (λ r', r_top r <= r_top r') (r :: l).
Proof.
  intros [_ _ ? _] Hb. apply StronglySorted_inv in Hb as [_ Hb]. constructor; [lia|].
  eapply Forall_impl; [exact Hb|]. intros r' [[? _]|?]; lia.
Qed.

Lemma intersects_loop_spec l rect :
  Forall valid l → banded l → intersects_loop l rect = true ↔ ∃ x y, covers l x y ∧ inside rect x y.
Proof.
  intros Hv Hb. induction l as [|r l IH]; cbn [intersects_loop].
  { split; [done|]. by intros (x & y & ?%covers_nil & _). }
  pose proof Hv as [Hr Hvl]%Forall_cons. pose proof (banded_tops r l Hr Hb) as Htop.
  apply StronglySorted_inv in Hb as [Hb _]. specialize (IH Hvl Hb). setoid_rewrite covers_cons.
  destruct (Z.gtb_spec (r_bottom rect) (r_top r)).
  - pose proof (intersection_spec r rect) as Hi. unfold rectangles_intersects.
    destruct (rectangles_intersection r rect) as [ok common]. destruct Hi as (Hin & Hex & _). cbn [fst].
    destruct ok.
    + split; [|done]. intros _. destruct (proj1 Hex eq_refl) as (x & y & Hc). apply Hin in Hc as [? ?]. eauto.
    + rewrite IH. split; [intros (x & y & ? & ?); eauto|]. intros (x & y & [Hx|Hx] & Hi); [|eauto].
      exfalso. enough (false = true) by done. apply Hex. exists x, y. by apply Hin.
  - split; [done|]. intros (x & y & Hc & [_ Hy]). exfalso. rewrite <- covers_cons in Hc.
    apply (covers_below (r_top r)) in Hc; [lia|done].
Qed.

(** ** The parts of the rectangles inside another *)

Definition clip (rect : RECTANGLE_16) (l : list RECTANGLE_16) : list RECTANGLE_16 :=
  flat_map (λ r, if rectangles_intersects r rect then [(rectangles_intersection r rect).2] else []) l.

Lemma clip_cons rect r l :
  clip rect (r :: l) = (if rectangles_intersects r rect then [(rectangles_intersection r rect).2] else []) ++ clip rect l.
Proof. done. Qed.
Lemma elem_of_clip rect l c :
  c ∈ clip rect l ↔ ∃ r, r ∈ l ∧ rectangles_intersects r rect = true ∧ c = (rectangles_intersection r rect).2.
Proof.
  unfold clip. rewrite list_elem_of_In, in_flat_map. setoid_rewrite list_elem_of_In. split.
  - intros (r & Hr & Hc). exists r. destruct (rectangles_intersects r rect); [|done]. destruct Hc as [<-|[]]. auto.
  - intros (r & Hr & Hi & ->). exists r. split; [done|]. rewrite Hi. by left.
Qed.
Lemma clip_valid rect l : Forall valid l → Forall valid (clip rect l).
Proof.
  intros Hv. apply Forall_forall. intros c (r & Hr & Hi & ->)%elem_of_clip. rewrite Forall_forall in Hv.
  pose proof (intersection_spec r rect) as Hs. unfold rectangles_intersects in Hi.
  destruct (rectangles_intersection r rect) as [ok common]. destruct Hs as (_ & _ & Hs). auto.
Qed.
Lemma clip_banded rect l : banded l → banded (clip rect l).
Proof.
  induction 1 as [|r l Hl IH Hr]; [constructor|]. rewrite clip_cons.
  destruct (rectangles_intersects r rect) eqn:Hi; [|done]. constructor; [done|].
  apply Forall_forall. intros c (r2 & Hr2 & Hi2 & ->)%elem_of_clip. rewrite Forall_forall in Hr. specialize (Hr r2 Hr2).
  unfold rectangles_intersects, rectangles_intersection in *. cbn in *. unfold precedes in *. cbn. lia.
Qed.
Lemma clip_covers rect l x y : covers (clip rect l) x y ↔ meet rect (covers l) x y.
Proof.
  unfold covers, meet. rewrite !Exists_exists. split.
  - intros (c & (r & Hr & Hi & ->)%elem_of_clip & Hin). pose proof (intersection_spec r rect) as Hs.
    destruct (rectangles_intersection r rect) as [ok common]. destruct Hs as (Hs & _). apply Hs in Hin as [? ?]. eauto.
  - intros ((r & Hr & Hin) & Hrect). exists (rectangles_intersection r rect).2. pose proof (intersection_spec r rect) as Hs.
    rewrite elem_of_clip. unfold rectangles_intersects.
    destruct (rectangles_intersection r rect) as [ok common] eqn:E. destruct Hs as (Hs & Hok & _). cbn [snd].
    assert (inside common x y) as Hc by (by apply Hs). split; [|done]. exists r. rewrite E. split_and!; [done| |done].
    apply Hok. eauto.
Qed.
Lemma clip_above rect l : Forall (λ r, r_bottom rect <= r_top r) l → clip rect l = [].
Proof.
  induction 1 as [|r l Hr _ IH]; [done|]. rewrite clip_cons, IH.
  unfold rectangles_intersects, rectangles_intersection. cbn. by replace (_ && _) with false by lia.
Qed.
Lemma clip_length rect l : zlen (clip rect l) <= zlen l.
Proof.
  induction l as [|r l IH]; [done|]. rewrite clip_cons, zlen_app, zlen_cons.
  destruct (rectangles_intersects r rect); [change (zlen [_]) with 1|change (zlen []) with 0]; lia.
Qed.

(** The extents of the rectangles so far: none, or the smallest. *)
Definition extents_of (l : list RECTANGLE_16) (e : RECTANGLE_16) : Prop :=
  if decide (l = []) then e = no_rect else bounds e (covers l).

Lemma extents_grow l e c : valid c → Forall valid l → extents_of l e → extents_of (l ++ [c]) (grow_extents c e).
Proof.
  intros Hc Hv He. unfold extents_of, grow_extents in *. rewrite decide_False by (by destruct l).
  assert (∀ x y, covers (l ++ [c]) x y ↔ with_rect c (covers l) x y) as Hcov.
  { intros x y. rewrite covers_app, covers_cons. unfold with_rect. split; [|tauto]. intros [?|[?|[]%covers_nil]]; auto. }
  destruct (decide (l = [])) as [->|Hne].
  - subst e. eapply bounds_ext; [|by apply bounds_rect]. intros x y. rewrite Hcov. unfold with_rect.
    split; [by right|]. by intros [[]%covers_nil|?].
  - replace (rectangle_is_empty e) with false.
    + eapply bounds_ext; [|by apply bounds_join]. intros x y. symmetry. apply Hcov.
    + destruct l as [|r l]; [done|]. apply Forall_cons in Hv as [[] _]. destruct He as [Hin _ _ _ _].
      destruct (Hin (r_left r) (r_top r)) as [? ?]; [left; unfold inside; lia|]. unfold rectangle_is_empty. lia.
Qed.

Lemma intersect_loop_spec nb rect l acc tl e :
  Forall valid l → banded l → Forall valid acc → extents_of acc e →
  zlen acc + zlen l <= nb → nb <= INT_MAX → zlen (acc ++ tl) = nb →
  ∃ tl' e', intersect_loop nb rect l (acc ++ tl) (zlen acc) e =
      Ret (Some ((acc ++ clip rect l) ++ tl', zlen (acc ++ clip rect l), e')) ∧
    extents_of (acc ++ clip rect l) e'.
Proof.
  intros Hv Hb. revert acc tl e. induction l as [|r l IH]; intros acc tl e Hva He Hn Hmax Hlen.
  { exists tl, e. cbn. by rewrite !app_nil_r. }
  pose proof Hv as [Hr Hvl]%Forall_cons. pose proof (banded_tops r l Hr Hb) as Htop.
  apply StronglySorted_inv in Hb as [Hb _]. rewrite zlen_cons in Hn. pose proof (zlen_nonneg acc). pose proof (zlen_nonneg l).
  unfold INT_MAX in *. cbn [intersect_loop]. destruct (Z.gtb_spec (r_bottom rect) (r_top r)).
  - replace (zlen acc >? nb) with false by lia. rewrite clip_cons. pose proof (intersection_spec r rect) as Hs.
    unfold rectangles_intersects. destruct (rectangles_intersection r rect) as [ok common].
    destruct Hs as (_ & _ & Hcv). cbn [fst snd]. destruct ok.
    + replace (zlen acc <? zlen (acc ++ tl)) with true by lia. destruct tl as [|r0 tl]; [rewrite app_nil_r in Hlen; lia|].
      replace (<[_ := common]> (acc ++ r0 :: tl)) with ((acc ++ [common]) ++ tl).
      2:{ unfold zlen. by rewrite Nat2Z.id, insert_app_r_alt, Nat.sub_diag, <- app_assoc by done. }
      replace (u32 (zlen acc + 1)) with (zlen (acc ++ [common])).
      2:{ unfold u32. rewrite Z.mod_small by lia. by rewrite zlen_app. }
      rewrite app_assoc. rewrite zlen_app, zlen_cons in Hlen. apply IH; [done|done| |by apply extents_grow; auto|..].
      * apply Forall_app. split; [done|]. apply Forall_singleton. auto.
      * rewrite zlen_app. change (zlen [common]) with 1. lia.
      * done.
      * rewrite !zlen_app. change (zlen [common]) with 1. lia.
    + apply IH; try done. lia.
  - rewrite clip_above, app_nil_r by (eapply Forall_impl; [exact Htop|]; cbn; intros; lia). by exists tl, e.
Qed.

Lemma intersect_rect_spec dst src rect :
  region_ok src → zlen (rects_of src) <= INT_MAX →
  finishes (region16_intersect_rect dst src rect)
    (λ region, region_ok region ∧ ∀ x y, shows region x y ↔ meet rect (shows src) x y).
Proof.
  intros [Hv Hb _ He] Hn. pose proof (zlen_nonneg (rects_of src)). unfold region16_intersect_rect.
  rewrite rects_spec by (unfold INT_MAX, UINT32_MAX in *; lia). cbn [mbind outcome_bind]. unfold shows. set (l := rects_of src) in *.
  assert (region_ok (region16_clear dst)) as Hclear by (split; try done; constructor).
  destruct (Z.eqb_spec (zlen l) 0) as [Hz|Hz].
  { exists true, (region16_clear dst). split_and!; [done..|]. intros _. split; [done|]. intros x y.
    rewrite (zlen_nil_inv l) by lia. cbn. unfold meet. split; [by intros ?%covers_nil|by intros [?%covers_nil _]]. }
  assert (l ≠ []) as Hne by (by intros E; rewrite E in Hz). specialize (He Hne).
  destruct (Z.eqb_spec (zlen l) 1) as [H1|H1].
  - destruct l as [|r [|r' l']] eqn:El; [done| |rewrite !zlen_cons in H1; pose proof (zlen_nonneg l'); lia].
    assert (∀ x y, covers [r] x y ↔ inside r x y) as Hc.
    { intros x y. rewrite covers_cons. split; [|by left]. by intros [?|?%covers_nil]. }
    apply Forall_cons in Hv as [Hv _]. assert (extents src = r) as ->.
    { eapply bounds_unique; [exact He|]. eapply bounds_ext; [|by apply bounds_rect]. intros x y.
      unfold shows. fold l. rewrite El. symmetry. apply Hc. }
    pose proof (intersection_spec r rect) as Hs. destruct (rectangles_intersection r rect) as [ok common].
    destruct Hs as (Hin & Hex & Hcv). cbv zeta. destruct ok.
    + destruct (union_rect_spec (region16_clear dst) (region16_clear dst) common) as (ok & region & E & Hp & Hok);
        [done|by apply Hcv|done|].
      exists ok, region. split_and!; [done..|]. intros Htrue. destruct (Hok Htrue) as [? Hsh]. split; [done|].
      intros x y. unfold shows in Hsh. rewrite Hsh. unfold meet, with_rect. rewrite Hc, Hin.
      split; [by intros [?%covers_nil|?]|by right].
    + exists true, (region16_clear dst). split_and!; [done..|]. intros _. split; [done|]. intros x y. unfold meet.
      rewrite Hc, Hin. split; [by intros ?%covers_nil|]. intros Hi. enough (false = true) by done. apply Hex. eauto.
  - pose proof (allocate_holds (zlen l) ltac:(lia)) as Ha. destruct (allocateRegion (zlen l)) as [newItems|]; [|by exists false, dst].
    destruct (intersect_loop_spec (zlen l) rect l [] newItems no_rect) as (tl' & e' & E & Hex); [done|done|constructor|done|done..|].
    cbn [app] in E. change (zlen []) with 0 in E. rewrite E. cbn [mbind outcome_bind app]. rewrite ztake_app_le, ztake_all by lia.
    apply simplify_bands_spec; [by apply clip_valid|by apply clip_banded| |apply clip_covers|].
    + pose proof (clip_length rect l). lia.
    + intros Hcne. unfold extents_of in Hex. rewrite decide_False in Hex by done.
      eapply bounds_ext; [|exact Hex]. apply clip_covers.
Qed.

Lemma copy_spec dst src dst' : region_ok src → region16_copy dst src = (true, dst') → region_ok dst' ∧ ∀ x y, shows dst' x y ↔ shows src x y.
Proof.
  intros Hok E. enough (extents dst' = extents src ∧ rects_of dst' = rects_of src) as [He Hr].
  { unfold shows. rewrite Hr. split; [|done]. destruct Hok as [? ? ? Hex]. split; unfold shows in *; rewrite ?Hr, ?He; done. }
  unfold region16_copy, region16_copy_data, rects_of in *. destruct (data src) as [l|]; [|by injection E as <-].
  destruct (Z.gtb_spec (zlen l) 0).
  - destruct (allocateRegion _); [|done]. by injection E as <-.
  - injection E as <-. cbn. rewrite (zlen_nil_inv l); [done|]. pose proof (zlen_nonneg l). lia.
Qed.

(** What a program can make of a new region if it does not add empty rectangles, and the pixels it
    should have. *)
Inductive reachable : REGION16 → pixels → Prop :=
| reach_init : reachable region16_init (λ _ _, False)
| reach_clear region P : reachable region P → reachable (region16_clear region) (λ _ _, False)
| reach_copy dst Q src P dst' :
    reachable dst Q → reachable src P → region16_copy dst src = (true, dst') → reachable dst' P
| reach_union dst Q src P rect dst' :
    reachable dst Q → reachable src P → valid rect → 5 * zlen (rects_of src) + 2 <= INT_MAX →
    region16_union_rect dst src rect = Ret (true, dst') → reachable dst' (λ x y, P x y ∨ inside rect x y)
| reach_intersect dst Q src P rect dst' :
    reachable dst Q → reachable src P → zlen (rects_of src) <= INT_MAX →
    region16_intersect_rect dst src rect = Ret (true, dst') → reachable dst' (λ x y, P x y ∧ inside rect x y).

Lemma region_cleared e : region_ok (mkRegion e None) ∧ ∀ x y, shows (mkRegion e None) x y ↔ False.
Proof.
  split; [|intros x y; split; [by intros ?%covers_nil|done]]. split; try done; constructor.
Qed.

Lemma reachable_ok region P : reachable region P → region_ok region ∧ ∀ x y, shows region x y ↔ P x y.
Proof.
  induction 1 as [|region P _ _|dst Q src P dst' _ _ _ [Hok Hsh] E|dst Q src P rect dst' _ _ _ [Hok Hsh] Hr Hn E
    |dst Q src P rect dst' _ _ _ [Hok Hsh] Hn E].
  - apply region_cleared.
  - apply region_cleared.
  - destruct (copy_spec dst src dst' Hok E) as [? Hs]. split; [done|]. intros x y. by rewrite Hs.
  - destruct (union_rect_spec dst src rect Hok Hr Hn) as (ok & region & E' & _ & HP). rewrite E in E'. injection E' as <- <-.
    destruct (HP eq_refl) as [? Hs]. split; [done|]. intros x y. rewrite Hs. unfold with_rect. by rewrite Hsh.
  - destruct (intersect_rect_spec dst src rect Hok Hn) as (ok & region & E' & _ & HP). rewrite E in E'. injection E' as <- <-.
    destruct (HP eq_refl) as [? Hs]. split; [done|]. intros x y. rewrite Hs. unfold meet. by rewrite Hsh.
Qed.

(** ** Rectangles that touch *)

(** Comparisons that the hypotheses decide. *)
Ltac decide_z :=
  repeat match goal with
  | |- context [?a <? ?b] => first [replace (a <? b) with true by lia|replace (a <? b) with false by lia]
  | |- context [?a <=? ?b] => first [replace (a <=? b) with true by lia|replace (a <=? b) with false by lia]
  | |- context [?a >? ?b] => first [replace (a >? b) with true by lia|replace (a >? b) with false by lia]
  | |- context [?a =? ?b] => first [replace (a =? b) with true by lia|replace (a =? b) with false by lia]
  end; cbn.

Lemma nextRect_in rects i : i < zlen rects → nextRect rects i = Ret (Some rects).
Proof. intros. unfold nextRect. by replace (_ >? _) with false by lia. Qed.

Lemma touching_items r u :
  valid r → valid u → r_top u = r_top r → r_bottom u = r_bottom r → r_right u = r_left r →
  union_items r u [r] ([no_rect; no_rect], 0) = Ret (Some (tt, ([u; r], 2))).
Proof.
  destruct r as [l t r b], u as [l' t' r' b']. intros [] [] Ht Hb Hx. cbn in *. subst t' b' r'.
  unfold union_items. cbn. unfold mbind, RM_bind. decide_z.
  unfold merge_overlap. cbn. unfold mbind, RM_bind. do 2 decide_z.
  rewrite nextRect_in by done. cbn. unfold mbind, RM_bind, put_rect. rewrite Z.eqb_refl.
  change (u32 (0 + 1)) with 1. cbn. rewrite nextRect_in by done. cbn. by decide_z.
Qed.

(** Items may touch: a rectangle added just in front of another of the same
    height is kept apart from it, although "no two rectangles within a band are
    allowed to touch". *)
Lemma touching_union dst r u :
  plenty → valid r → valid u → r_top u = r_top r → r_bottom u = r_bottom r → r_right u = r_left r →
  region16_union_rect dst (mkRegion r (Some [r])) u = Ret (true, mkRegion (join_extents u r) (Some [u; r])).
Proof.
  intros Hp Hr Hu Ht Hb Hx. unfold region16_union_rect. rewrite n_rects_spec, rects_spec by done.
  change (zlen (rects_of _)) with 1. change (rects_of (mkRegion r (Some [r]))) with [r].
  assert (allocateRegion (1 + 1) = Some [no_rect; no_rect]) as Ha by (unfold allocateRegion; by rewrite !Hp).
  cbn [mbind outcome_bind extents]. change (1 =? 0) with false. change (1 + 1 >? INT_MAX) with false. cbv iota.
  rewrite Ha. cbn [mbind outcome_bind]. rewrite touching_items by done. cbn [mbind outcome_bind].
  change (ztake 2 [u; r]) with [u; r]. unfold region16_simplify_bands. rewrite n_rects_spec by done.
  change (zlen (rects_of _)) with 2. cbn [mbind outcome_bind data default length Z.ltb Z.compare Pos.compare Pos.compare_cont].
  cbn [length simplify_loop]. assert (next_band [u; r] = ([u; r], [])) as Hnb by (cbn; by rewrite Ht, !Z.eqb_refl).
  change (id [u; r]) with [u; r]. by rewrite Hnb.
Qed.
Lemma union_into_empty dst src rect :
  plenty → rects_of src = [] → region16_union_rect dst src rect = Ret (true, mkRegion rect (Some [rect])).
Proof.
  intros Hp Hl. unfold region16_union_rect. rewrite n_rects_spec by (by rewrite Hl). rewrite Hl. cbn [mbind outcome_bind].
  change (zlen [] =? 0) with true. cbv iota. unfold resizeRegion, allocateRegion. rewrite ?Hp. by repeat case_match; simplify_eq.
Qed.

(** * Properties *)

(** C34. Union: [region16_union_rect] of a well-formed region and a rectangle that
    is not empty does not abort.  If it returns success, and it does if memory does
    not run out, the result is well formed (disjoint items in bands that cannot be
    joined, with exact extents) and has just the pixels of both.  The function does not
    check that the rectangle is not empty: united with a region that has none, an empty
    one is stored, and the result is not well formed. *)
Theorem region16_union_correct dst src rect :
  region_ok src → 5 * zlen (rects_of src) + 2 <= INT_MAX →
  (valid rect →
   ∃ ok dst', region16_union_rect dst src rect = Ret (ok, dst') ∧ (plenty → ok = true) ∧
    (ok = true → region_ok dst' ∧ ∀ x y, shows dst' x y ↔ shows src x y ∨ inside rect x y)) ∧
  (¬ valid rect → plenty → rects_of src = [] →
   ∃ dst', region16_union_rect dst src rect = Ret (true, dst') ∧ rects_of dst' = [rect] ∧ ¬ region_ok dst').
Proof.
  intros Hok Hn. split; [intros Hr; by apply union_rect_spec|].
  intros Hr Hp Hl. exists (mkRegion rect (Some [rect])). split_and!; [by apply union_into_empty|done|].
  intros [Hv _ _ _]. apply Hr. by apply Forall_cons_1 in Hv as [].
Qed.

(** C35. Intersection: [region16_intersect_rect] of a well-formed region and any
    rectangle does not abort, and the result is well formed and has just the pixels
    that are in both. *)
Theorem region16_intersect_correct dst src rect :
  region_ok src → zlen (rects_of src) <= INT_MAX →
  ∃ ok dst', region16_intersect_rect dst src rect = Ret (ok, dst') ∧ (plenty → ok = true) ∧
    (ok = true → region_ok dst' ∧ ∀ x y, shows dst' x y ↔ shows src x y ∧ inside rect x y).
Proof. apply intersect_rect_spec. Qed.

(** C37. The test for an intersection, which looks at the extents first and stops at
    the first band below the rectangle, is true just if they have a pixel in common. *)
Theorem region16_intersects_correct src rect :
  region_ok src → zlen (rects_of src) <= UINT32_MAX →
  ∃ b, region16_intersects_rect src rect = Ret b ∧ (b = true ↔ ∃ x y, shows src x y ∧ inside rect x y).
Proof.
  intros [Hv Hb _ He] Hn. unfold region16_intersects_rect. rewrite rects_spec by done. cbn [mbind outcome_bind].
  destruct (Z.eqb_spec (zlen (rects_of src)) 0) as [Hz|Hz].
  { exists false. split; [done|]. split; [done|]. intros (x & y & Hs & _). unfold shows in Hs.
    rewrite (zlen_nil_inv (rects_of src)) in Hs by lia. by apply covers_nil in Hs. }
  assert (rects_of src ≠ []) as Hne by (by intros E; rewrite E in Hz). specialize (He Hne).
  assert (rectangles_intersects (extents src) rect = true ↔ ∃ x y, inside (extents src) x y ∧ inside rect x y) as Hext.
  { pose proof (intersection_spec (extents src) rect) as Hs. unfold rectangles_intersects.
    destruct (rectangles_intersection _ _) as [ok common]. destruct Hs as (Hin & Hex & _). cbn [fst]. rewrite Hex.
    by setoid_rewrite <- Hin. }
  destruct (Z.eqb_spec (zlen (rects_of src)) 1) as [H1|H1].
  - eexists. split; [done|]. rewrite Hext. destruct (rects_of src) as [|r [|r' l']] eqn:El;
      [done| |rewrite !zlen_cons in H1; pose proof (zlen_nonneg l'); lia].
    assert (∀ x y, shows src x y ↔ inside r x y) as Hc.
    { intros x y. unfold shows. rewrite El, covers_cons. split; [|by left]. by intros [?|?%covers_nil]. }
    setoid_rewrite Hc. apply Forall_cons in Hv as [Hv _]. replace (extents src) with r; [done|].
    eapply bounds_unique; [|exact He]. eapply bounds_ext; [|by apply bounds_rect]. intros x y. by rewrite Hc.
  - destruct (rectangles_intersects (extents src) rect) eqn:Hi; cbn [negb].
    + eexists. split; [done|]. by apply intersects_loop_spec.
    + exists false. split; [done|]. split; [done|]. intros (x & y & Hs & Hr). apply Hext.
      exists x, y. split; [|done]. by apply He.
Qed.


(** C36. Every region that a program makes with these operations from new ones, as long as it does
    not add empty rectangles, is well formed (disjoint items in bands that cannot be joined,
    with exact extents) and has the pixels that the operations say.  The rule at the
    head of the file that no two rectangles within a band touch is not an invariant:
    of any two rectangles side by side, the left one added to the right one, a program
    makes a region in which both are kept. *)
Theorem region16_reachable region P :
  reachable region P →
  region_ok region ∧ (∀ x y, shows region x y ↔ P x y) ∧
  (plenty → ∀ r u, valid r → valid u → r_top u = r_top r → r_bottom u = r_bottom r → r_right u = r_left r →
   ∃ touching Q, reachable touching Q ∧ rects_of touching = [u; r]).
Proof.
  intros Hreach. destruct (reachable_ok region P Hreach) as [Hok Hsh]. split_and!; [done|done|].
  intros Hp r u Hr Hu Ht Hb Hx.
  assert (reachable (mkRegion r (Some [r])) (λ x y, False ∨ inside r x y)) as H1.
  { eapply reach_union; [apply reach_init|apply reach_init|done|done|]. by apply union_into_empty. }
  eexists _, _. split.
  - eapply (reach_union region16_init _ (mkRegion r (Some [r]))); [apply reach_init|exact H1|exact Hu|done|]. by apply touching_union.
  - done.
Qed.
End arrays.

(** * Witnesses *)

#[local] Definition square : RECTANGLE_16 := mkRect 10 10 20 20.
#[local] Definition corner : RECTANGLE_16 := mkRect 15 15 30 30.
#[local] Definition one_square : REGION16 := mkRegion square (Some [square]).
Lemma square_valid : valid square.
Proof. by split. Qed.
Lemma corner_valid : valid corner.
Proof. by split. Qed.

(** The union of two overlapping squares has three bands. *)
Lemma region16_union_correct_witness :
  let HM : Malloc := λ _, true in
  match region16_union_rect region16_init one_square corner with
  | Ret (true, dst') => region_ok dst' ∧ zlen (rects_of dst') = 3 ∧ shows dst' 25 25 ∧ ¬ shows dst' 25 12
  | _ => False
  end ∧
  ∃ dst', region16_union_rect region16_init region16_init no_rect = Ret (true, dst') ∧ rects_of dst' = [no_rect] ∧ ¬ region_ok dst'.
Proof.
  intros HM. split.
  2:{ apply (region16_union_correct (HM := HM) region16_init region16_init no_rect); [apply region_cleared|done|by intros [[]]|done|done]. }
  destruct (region16_union_correct (HM := HM) region16_init one_square corner) as [Hu _];
    [apply region_single, square_valid|done|]. destruct (Hu corner_valid) as (ok & dst' & E & Hp & HP).
  - rewrite E. rewrite Hp in * by done. destruct (HP eq_refl) as [Hok Hsh]. split_and!; [done| | |].
    + by vm_compute in E; injection E as <-.
    + apply Hsh. right. by split.
    + rewrite Hsh. intros [Hs|[_ [? _]]]; [|done]. apply region_single in Hs as [[_ ?] _]; [done|apply square_valid].
Defined.

Lemma region16_intersect_correct_witness :
  let HM : Malloc := λ _, true in
  match region16_intersect_rect region16_init one_square corner with
  | Ret (true, dst') => region_ok dst' ∧ shows dst' 17 17 ∧ ¬ shows dst' 12 12
  | _ => False
  end.
Proof.
  intros HM. destruct (region16_intersect_correct (HM := HM) region16_init one_square corner) as (ok & dst' & E & Hp & HP).
  - apply region_single, square_valid.
  - done.
  - rewrite E. rewrite Hp in * by done. destruct (HP eq_refl) as [Hok Hsh]. split_and!; [done| |].
    + apply Hsh. split; [|by split]. apply region_single; [apply square_valid|by split].
    + rewrite Hsh. intros [_ [[? _] _]]. done.
Defined.

Lemma region16_intersects_correct_witness :
  region16_intersects_rect one_square corner = Ret true ∧ ∃ x y, shows one_square x y ∧ inside corner x y.
Proof.
  destruct (region16_intersects_correct one_square corner) as (b & E & Hb).
  - apply region_single, square_valid.
  - done.
  - vm_compute in E. injection E as <-. split; [done|]. by apply Hb.
Defined.

(** A new region and one square. *)
Lemma region16_reachable_witness :
  let HM : Malloc := λ _, true in
  (∃ region, region16_union_rect region16_init region16_init square = Ret (true, region) ∧
    region_ok region ∧ shows region 12 12) ∧
  ∃ touching Q, reachable touching Q ∧ rects_of touching = [mkRect 0 10 10 20; square].
Proof.
  intros HM. destruct (region16_reachable (HM := HM) one_square (λ x y, False ∨ inside square x y)) as (Hok & Hsh & Ht).
  - eapply reach_union; [apply reach_init|apply reach_init|apply square_valid|done|done].
  - split; [exists one_square; split; [done|]; split; [done|]; apply Hsh; right; by split|].
    apply (Ht ltac:(done) square (mkRect 0 10 10 20)); [apply square_valid|by split|done..].
Defined.
