(* ===== verification/Rle.v ===== *)
(** The decoder of run-length encoded bitmaps (libfreerdp/codec/interleaved.c
    and libfreerdp/codec/include/bitmap.h, which is compiled once for each of
    three pixel formats). *)

From S2P Require Import Prelude.
From stdpp Require Import prelude list numbers.
From Stdlib Require Import ZArith Lia.

#[local] Open Scope Z_scope.

(** * Constants *)

Definition REGULAR_BG_RUN : Z := 0x00.
Definition MEGA_MEGA_BG_RUN : Z := 0xF0.
Definition REGULAR_FG_RUN : Z := 0x01.
Definition MEGA_MEGA_FG_RUN : Z := 0xF1.
Definition LITE_SET_FG_FG_RUN : Z := 0x0C.
Definition MEGA_MEGA_SET_FG_RUN : Z := 0xF6.
Definition LITE_DITHERED_RUN : Z := 0x0E.
Definition MEGA_MEGA_DITHERED_RUN : Z := 0xF8.
Definition REGULAR_COLOR_RUN : Z := 0x03.
Definition MEGA_MEGA_COLOR_RUN : Z := 0xF3.
Definition REGULAR_FGBG_IMAGE : Z := 0x02.
Definition MEGA_MEGA_FGBG_IMAGE : Z := 0xF2.
Definition LITE_SET_FG_FGBG_IMAGE : Z := 0x0D.
Definition MEGA_MEGA_SET_FGBG_IMAGE : Z := 0xF7.
Definition REGULAR_COLOR_IMAGE : Z := 0x04.
Definition MEGA_MEGA_COLOR_IMAGE : Z := 0xF4.
Definition SPECIAL_FGBG_1 : Z := 0xF9.
Definition SPECIAL_FGBG_2 : Z := 0xFA.
Definition SPECIAL_WHITE : Z := 0xFD.
Definition SPECIAL_BLACK : Z := 0xFE.
Definition BLACK_PIXEL : Z := 0.
Definition g_MaskSpecialFgBg1 : Z := 0x03.
Definition g_MaskSpecialFgBg2 : Z := 0x05.
Definition g_MaskRegularRunLength : Z := 0x1F.
Definition g_MaskLiteRunLength : Z := 0x0F.

(** The [case] labels of a branch. *)
Definition one_of (code : Z) (labels : list Z) : bool := existsb (Z.eqb code) labels.

(** * Headers *)

Definition ExtractCodeId (bOrderHdr : Z) : Z :=
  if negb (Z.land bOrderHdr 0xC0 =? 0xC0) then Z.shiftr bOrderHdr 5
  else if Z.land bOrderHdr 0xF0 =? 0xF0 then bOrderHdr
  else Z.shiftr bOrderHdr 4.

(** A pointer into the source is what is left of it up to [pbEnd]. *)
Definition buffer_within_range (pbSrc : list Z) (size : Z) : bool := negb (size >? zlen pbSrc).
Definition src_byte (pbSrc : list Z) (i : Z) : outcome Z :=
  if i <? zlen pbSrc then Ret (zget pbSrc i) else Abort.

(** The run length and [advance]. *)
Definition ExtractRunLengthRegularFgBg (pbOrderHdr : list Z) (advance : Z) : outcome (Z * Z) :=
  h ← src_byte pbOrderHdr 0;
  let runLength := Z.land h g_MaskRegularRunLength in
  if runLength =? 0 then
    if negb (buffer_within_range pbOrderHdr 2) then Ret (0, 0)
    else b ← src_byte pbOrderHdr 1; Ret (b + 1, advance + 1)
  else Ret (runLength * 8, advance).
Definition ExtractRunLengthLiteFgBg (pbOrderHdr : list Z) (advance : Z) : outcome (Z * Z) :=
  h ← src_byte pbOrderHdr 0;
  let runLength := Z.land h g_MaskLiteRunLength in
  if runLength =? 0 then
    if negb (buffer_within_range pbOrderHdr 2) then Ret (0, 0)
    else b ← src_byte pbOrderHdr 1; Ret (b + 1, advance + 1)
  else Ret (runLength * 8, advance).
Definition ExtractRunLengthRegular (pbOrderHdr : list Z) (advance : Z) : outcome (Z * Z) :=
  h ← src_byte pbOrderHdr 0;
  let runLength := Z.land h g_MaskRegularRunLength in
  if runLength =? 0 then
    if negb (buffer_within_range pbOrderHdr 2) then Ret (0, 0)
    else b ← src_byte pbOrderHdr 1; Ret (b + 32, advance + 1)
  else Ret (runLength, advance).
Definition ExtractRunLengthMegaMega (pbOrderHdr : list Z) (advance : Z) : outcome (Z * Z) :=
  if negb (buffer_within_range pbOrderHdr 3) then Ret (0, 0)
  else
    b1 ← src_byte pbOrderHdr 1; b2 ← src_byte pbOrderHdr 2;
    Ret (Z.lor b1 (Z.land (Z.shiftl b2 8) 0xFF00), advance + 2).
Definition ExtractRunLengthLite (pbOrderHdr : list Z) (advance : Z) : outcome (Z * Z) :=
  h ← src_byte pbOrderHdr 0;
  let runLength := Z.land h g_MaskLiteRunLength in
  if runLength =? 0 then
    if negb (buffer_within_range pbOrderHdr 2) then Ret (0, 0)
    else b ← src_byte pbOrderHdr 1; Ret (b + 16, advance + 1)
  else Ret (runLength, advance).

Definition ExtractRunLength (code : Z) (pbOrderHdr : list Z) : outcome (Z * Z) :=
  if negb (buffer_within_range pbOrderHdr 0) then Ret (0, 0)
  else if code =? REGULAR_FGBG_IMAGE then ExtractRunLengthRegularFgBg pbOrderHdr 1
  else if code =? LITE_SET_FG_FGBG_IMAGE then ExtractRunLengthLiteFgBg pbOrderHdr 1
  else if one_of code [REGULAR_BG_RUN; REGULAR_FG_RUN; REGULAR_COLOR_RUN; REGULAR_COLOR_IMAGE]
  then ExtractRunLengthRegular pbOrderHdr 1
  else if one_of code [LITE_SET_FG_FG_RUN; LITE_DITHERED_RUN] then ExtractRunLengthLite pbOrderHdr 1
  else if one_of code [MEGA_MEGA_BG_RUN; MEGA_MEGA_FG_RUN; MEGA_MEGA_SET_FG_RUN; MEGA_MEGA_DITHERED_RUN;
                       MEGA_MEGA_COLOR_RUN; MEGA_MEGA_FGBG_IMAGE; MEGA_MEGA_SET_FGBG_IMAGE; MEGA_MEGA_COLOR_IMAGE]
  then ExtractRunLengthMegaMega pbOrderHdr 1
  else Ret (0, 0).

(** Offsets into one buffer; the difference and the product are [size_t]. *)
Definition ensure_capacity_ (start end_ size base : Z) : bool :=
  let available := u64 (end_ - start) in
  (available >=? u64 (size * base)) && (start <=? end_).

(** * Pixels *)

(** What the code defines before each [#include] of bitmap.h. *)
Class PixelFormat := {
  PIXEL_SIZE : Z;
  WHITE_PIXEL : Z;
  write_pixel : Z → list Z;
  read_pixel : list Z → Z;
}.

Definition write_pixel_8 (pix : Z) : list Z := [u8 pix].
Definition write_pixel_16 (pix : Z) : list Z := [Z.land pix 0xFF; Z.land (Z.shiftr pix 8) 0xFF].
Definition write_pixel_24 (pix : Z) : list Z := [u8 pix; u8 (Z.shiftr pix 8); u8 (Z.shiftr pix 16)].
Definition read_pixel_8 (buf : list Z) : Z := zget buf 0.
Definition read_pixel_16 (buf : list Z) : Z := Z.lor (zget buf 0) (Z.land (Z.shiftl (zget buf 1) 8) 0xFF00).
Definition read_pixel_24 (buf : list Z) : Z :=
  Z.lor (Z.lor (zget buf 0) (Z.land (Z.shiftl (zget buf 1) 8) 0xFF00))
        (Z.land (Z.shiftl (zget buf 2) 16) 0xFF0000).

Definition format_8 : PixelFormat :=
  {| PIXEL_SIZE := 1; WHITE_PIXEL := 0xFF; write_pixel := write_pixel_8; read_pixel := read_pixel_8 |}.
Definition format_16 : PixelFormat :=
  {| PIXEL_SIZE := 2; WHITE_PIXEL := 0xFFFF; write_pixel := write_pixel_16; read_pixel := read_pixel_16 |}.
Definition format_24 : PixelFormat :=
  {| PIXEL_SIZE := 3; WHITE_PIXEL := 0xFFFFFF; write_pixel := write_pixel_24; read_pixel := read_pixel_24 |}.

(** * Code on the source and the destination *)

(** What is left of the source, the destination buffer and the offset of
    [pbDest] into it. *)
Record rle_state : Type := mkRle { pbSrc : list Z; pbDestBuffer : list Z; pbDest : Z }.

(** [None] is the return of [FALSE], with what has been written. *)
Definition DM (A : Type) : Type := rle_state → outcome (option A * rle_state).
#[global] Instance DM_ret : MRet DM := λ A a st, Ret (Some a, st).
#[global] Instance DM_bind : MBind DM := λ A B k m st,
  match m st with
  | Ret (Some a, st) => k a st
  | Ret (None, st) => Ret (None, st)
  | Abort => Abort
  end.
Definition rle_fail {A} : DM A := λ st, Ret (None, st).
(** [if (!b) return FALSE;] *)
Definition require (b : bool) : DM unit := if b then mret tt else rle_fail.

Definition within_range (size : Z) : DM unit := λ st, require (buffer_within_range (pbSrc st) size) st.
Definition read_src : DM Z := λ st,
  match pbSrc st with
  | b :: src => Ret (Some b, mkRle src (pbDestBuffer st) (pbDest st))
  | [] => Abort
  end.
(** [ExtractRunLength], the test of [advance] and the step over the header. *)
Definition read_run (code : Z) : DM Z := λ st,
  match ExtractRunLength code (pbSrc st) with
  | Ret (runLength, advance) =>
      if advance =? 0 then Ret (None, st)
      else if advance <=? zlen (pbSrc st)
      then Ret (Some runLength, mkRle (zdrop advance (pbSrc st)) (pbDestBuffer st) (pbDest st))
      else Abort
  | Abort => Abort
  end.

Section loops.
Context {A : Type}.
(** The variables that [_exp] changes are an argument of it. *)
Fixpoint UNROLL_BODY (_exp : A → DM A) (_count : nat) (a : A) : DM A :=
  match _count with
  | O => mret a
  | S n => a ← _exp a; UNROLL_BODY _exp n a
  end.
Fixpoint UNROLL_MULTIPLE (fuel : nat) (_condition : Z) (_exp : A → DM A) (_count : Z) (a : A) : DM (Z * A) :=
  if _condition >=? _count then
    match fuel with
    | O => λ _, Abort
    | S fuel =>
        a ← UNROLL_BODY _exp (Z.to_nat _count) a;
        UNROLL_MULTIPLE fuel (_condition - _count) _exp _count a
    end
  else mret (_condition, a).
Definition UNROLL (_condition : Z) (_exp : A → DM A) (a : A) : DM A :=
  '(c, a) ← UNROLL_MULTIPLE (Z.to_nat _condition) _condition _exp 16 a;
  '(c, a) ← UNROLL_MULTIPLE (Z.to_nat c) c _exp 4 a;
  '(c, a) ← UNROLL_MULTIPLE (Z.to_nat c) c _exp 1 a;
  mret a.
End loops.

Section format.
Context {HF : PixelFormat}.

Definition SRCREADPIXEL : DM Z := λ st,
  if PIXEL_SIZE <=? zlen (pbSrc st)
  then Ret (Some (read_pixel (pbSrc st)), mkRle (zdrop PIXEL_SIZE (pbSrc st)) (pbDestBuffer st) (pbDest st))
  else Abort.
(** The pixel at [pbDest - rowDelta]. *)
Definition DESTREADPIXEL (rowDelta : Z) : DM Z := λ st,
  let p := pbDest st - rowDelta in
  if (0 <=? p) && (p + PIXEL_SIZE <=? zlen (pbDestBuffer st))
  then Ret (Some (read_pixel (zdrop p (pbDestBuffer st))), st)
  else Abort.
Definition DESTWRITEPIXEL (pix : Z) : DM unit := λ st,
  let p := pbDest st in
  if (0 <=? p) && (p + PIXEL_SIZE <=? zlen (pbDestBuffer st))
  then Ret (Some tt, mkRle (pbSrc st) (zblit p (write_pixel pix) (pbDestBuffer st)) (p + PIXEL_SIZE))
  else Abort.
Definition ENSURE_CAPACITY (pbDestEnd size : Z) : DM unit := λ st,
  require (ensure_capacity_ (pbDest st) pbDestEnd size PIXEL_SIZE) st.
Definition ENSURE_SRC (size : Z) : DM unit := λ st,
  require (ensure_capacity_ 0 (zlen (pbSrc st)) size PIXEL_SIZE) st.

Section image.
Context (rowDelta pbDestEnd : Z).

Definition WRITEFGBGIMAGE (bitmask fgPel cBits : Z) : DM unit :=
  if cBits >? 8 then rle_fail
  else
    ENSURE_CAPACITY pbDestEnd cBits;;
    UNROLL cBits (λ mask,
      xorPixel ← DESTREADPIXEL rowDelta;
      let data := if negb (Z.land bitmask mask =? 0) then Z.lxor xorPixel fgPel else xorPixel in
      DESTWRITEPIXEL data;;
      mret (Z.land (Z.shiftl mask 1) 0xFF)) 0x01;;
    mret tt.
Definition WRITEFIRSTLINEFGBGIMAGE (bitmask fgPel cBits : Z) : DM unit :=
  if cBits >? 8 then rle_fail
  else
    ENSURE_CAPACITY pbDestEnd cBits;;
    UNROLL cBits (λ mask,
      let data := if negb (Z.land bitmask mask =? 0) then fgPel else BLACK_PIXEL in
      DESTWRITEPIXEL data;;
      mret (Z.land (Z.shiftl mask 1) 0xFF)) 0x01;;
    mret tt.
Definition write_fgbg (fFirstLine : bool) (bitmask fgPel cBits : Z) : DM unit :=
  if fFirstLine then WRITEFIRSTLINEFGBGIMAGE bitmask fgPel cBits else WRITEFGBGIMAGE bitmask fgPel cBits.

(** The loop body of a run that writes [f] of the pixel above. *)
Definition xor_pixel (f : Z → Z) (_ : unit) : DM unit :=
  temp ← DESTREADPIXEL rowDelta; DESTWRITEPIXEL (f temp).
Definition put_pixel (pix : Z) (_ : unit) : DM unit := DESTWRITEPIXEL pix.

Definition bg_run (fgPel : Z) (fInsertFgPel fFirstLine : bool) (runLength : Z) : DM unit :=
  if fFirstLine then
    runLength ←
      (if fInsertFgPel then
         ENSURE_CAPACITY pbDestEnd 1;; DESTWRITEPIXEL fgPel;; mret (u32 (runLength - 1))
       else mret runLength);
    ENSURE_CAPACITY pbDestEnd runLength;;
    UNROLL runLength (put_pixel BLACK_PIXEL) tt
  else
    runLength ←
      (if fInsertFgPel then
         temp ← DESTREADPIXEL rowDelta;
         ENSURE_CAPACITY pbDestEnd 1;; DESTWRITEPIXEL (Z.lxor temp fgPel);; mret (u32 (runLength - 1))
       else mret runLength);
    ENSURE_CAPACITY pbDestEnd runLength;;
    UNROLL runLength (xor_pixel (λ temp, temp)) tt.

Definition fg_run (fgPel : Z) (fFirstLine : bool) (runLength : Z) : DM unit :=
  ENSURE_CAPACITY pbDestEnd runLength;;
  if fFirstLine then UNROLL runLength (put_pixel fgPel) tt
  else UNROLL runLength (xor_pixel (λ temp, Z.lxor temp fgPel)) tt.

(** [while (runLength > 8)]: the rest of the run. *)
Fixpoint fgbg_loop (fuel : nat) (fFirstLine : bool) (fgPel runLength : Z) : DM Z :=
  if runLength >? 8 then
    match fuel with
    | O => λ _, Abort
    | S fuel =>
        bitmask ← read_src;
        write_fgbg fFirstLine bitmask fgPel 8;;
        fgbg_loop fuel fFirstLine fgPel (runLength - 8)
    end
  else mret runLength.
Definition fgbg_image (fFirstLine : bool) (fgPel runLength : Z) : DM unit :=
  within_range (runLength / 8);;
  runLength ← fgbg_loop (Z.to_nat runLength) fFirstLine fgPel runLength;
  if runLength >? 0 then
    within_range 1;;
    bitmask ← read_src;
    write_fgbg fFirstLine bitmask fgPel runLength
  else mret tt.

(** A pixel of the source, checked to be there. *)
Definition read_checked_pixel : DM Z := within_range PIXEL_SIZE;; SRCREADPIXEL.
Definition read_fgPel (labels : list Z) (code fgPel : Z) : DM Z :=
  if one_of code labels then read_checked_pixel else mret fgPel.

(** The [switch]: the new foreground pixel. *)
Definition other_order (code fgPel : Z) (fFirstLine : bool) : DM Z :=
  if one_of code [REGULAR_FG_RUN; MEGA_MEGA_FG_RUN; LITE_SET_FG_FG_RUN; MEGA_MEGA_SET_FG_RUN] then
    runLength ← read_run code;
    fgPel ← read_fgPel [LITE_SET_FG_FG_RUN; MEGA_MEGA_SET_FG_RUN] code fgPel;
    fg_run fgPel fFirstLine runLength;;
    mret fgPel
  else if one_of code [LITE_DITHERED_RUN; MEGA_MEGA_DITHERED_RUN] then
    runLength ← read_run code;
    pixelA ← read_checked_pixel;
    pixelB ← read_checked_pixel;
    ENSURE_CAPACITY pbDestEnd (u32 (runLength * 2));;
    UNROLL runLength (λ _, DESTWRITEPIXEL pixelA;; DESTWRITEPIXEL pixelB) tt;;
    mret fgPel
  else if one_of code [REGULAR_COLOR_RUN; MEGA_MEGA_COLOR_RUN] then
    runLength ← read_run code;
    pixelA ← read_checked_pixel;
    ENSURE_CAPACITY pbDestEnd runLength;;
    UNROLL runLength (put_pixel pixelA) tt;;
    mret fgPel
  else if one_of code [REGULAR_FGBG_IMAGE; MEGA_MEGA_FGBG_IMAGE; LITE_SET_FG_FGBG_IMAGE; MEGA_MEGA_SET_FGBG_IMAGE] then
    runLength ← read_run code;
    fgPel ← read_fgPel [LITE_SET_FG_FGBG_IMAGE; MEGA_MEGA_SET_FGBG_IMAGE] code fgPel;
    fgbg_image fFirstLine fgPel runLength;;
    mret fgPel
  else if one_of code [REGULAR_COLOR_IMAGE; MEGA_MEGA_COLOR_IMAGE] then
    runLength ← read_run code;
    ENSURE_CAPACITY pbDestEnd runLength;;
    ENSURE_SRC runLength;;
    UNROLL runLength (λ _, temp ← SRCREADPIXEL; DESTWRITEPIXEL temp) tt;;
    mret fgPel
  else if code =? SPECIAL_FGBG_1 then
    within_range 1;; read_src;; write_fgbg fFirstLine g_MaskSpecialFgBg1 fgPel 8;; mret fgPel
  else if code =? SPECIAL_FGBG_2 then
    within_range 1;; read_src;; write_fgbg fFirstLine g_MaskSpecialFgBg2 fgPel 8;; mret fgPel
  else if code =? SPECIAL_WHITE then
    within_range 1;; read_src;; ENSURE_CAPACITY pbDestEnd 1;; DESTWRITEPIXEL WHITE_PIXEL;; mret fgPel
  else if code =? SPECIAL_BLACK then
    within_range 1;; read_src;; ENSURE_CAPACITY pbDestEnd 1;; DESTWRITEPIXEL BLACK_PIXEL;; mret fgPel
  else rle_fail.

(** The [while (pbSrc < pbEnd)]. *)
Fixpoint order_loop (fuel : nat) (fgPel : Z) (fInsertFgPel fFirstLine : bool) : DM unit := λ st,
  match pbSrc st with
  | [] => Ret (Some tt, st)
  | bOrderHdr :: _ =>
      match fuel with
      | O => Abort
      | S fuel =>
          let past := fFirstLine && (u32 (pbDest st) >=? rowDelta) in
          let fFirstLine := if past then false else fFirstLine in
          let fInsertFgPel := if past then false else fInsertFgPel in
          let code := ExtractCodeId bOrderHdr in
          if one_of code [REGULAR_BG_RUN; MEGA_MEGA_BG_RUN] then
            (runLength ← read_run code;
             bg_run fgPel fInsertFgPel fFirstLine runLength;;
             order_loop fuel fgPel true fFirstLine) st
          else
            (fgPel ← other_order code fgPel fFirstLine;
             order_loop fuel fgPel false fFirstLine) st
      end
  end.
End image.

(** The result and the buffer; the pointers are not null. *)
Definition RLEDECOMPRESS (pbSrcBuffer destBuffer : list Z) (rowDelta width height : Z) : outcome (bool * list Z) :=
  if (rowDelta =? 0) || (rowDelta <? width) then Ret (false, destBuffer)
  else
    match order_loop rowDelta (rowDelta * height) (length pbSrcBuffer) WHITE_PIXEL false true
            (mkRle pbSrcBuffer destBuffer 0) with
    | Ret (Some _, st) => Ret (true, pbDestBuffer st)
    | Ret (None, st) => Ret (false, pbDestBuffer st)
    | Abort => Abort
    end.
End format.

Definition RleDecompress8to8 := RLEDECOMPRESS (HF := format_8).
Definition RleDecompress16to16 := RLEDECOMPRESS (HF := format_16).
Definition RleDecompress24to24 := RLEDECOMPRESS (HF := format_24).
