(* ===== verification/RleSafe.v ===== *)
(** The decoder of run-length encoded bitmaps on any bytes: it ends, and
    stays within the source and the destination. *)

From S2P Require Import Prelude Rle.
From stdpp Require Import prelude list numbers.
From Stdlib Require Import ZArith Lia.

#[local] Open Scope Z_scope.

(** * Pixel formats *)

(** What the decoder relies on of a pixel format. *)
Class PixelLaws (HF : PixelFormat) : Prop := {
  pixel_size : 1 <= PIXEL_SIZE <= 3;
  zlen_write_pixel p : zlen (write_pixel p) = PIXEL_SIZE;
  bytes_write_pixel p : bytes (write_pixel p);
  white_range : 0 < WHITE_PIXEL;
  read_pixel_range buf : bytes buf → 0 <= read_pixel buf <= WHITE_PIXEL;
  read_write_pixel p l : 0 <= p <= WHITE_PIXEL → read_pixel (write_pixel p ++ l) = p;
  lxor_range a b : 0 <= a <= WHITE_PIXEL → 0 <= b <= WHITE_PIXEL → 0 <= Z.lxor a b <= WHITE_PIXEL;
}.

Lemma land_u8 z : Z.land z 255 = u8 z.
Proof. apply (land_mask z 8). lia. Qed.
Lemma shifted_byte b : is_byte b → Z.land (Z.shiftl b 8) 0xFF00 = b * 256.
Proof.
  intros Hb. unfold is_byte in Hb. change 0xFF00 with ((2 ^ 8 - 1) * 2 ^ 8). rewrite land_field by lia.
  rewrite Z.shiftl_mul_pow2 by lia. rewrite Z.div_mul by lia. rewrite Z.mod_small by lia. lia.
Qed.
Lemma shifted_byte_2 b : is_byte b → Z.land (Z.shiftl b 16) 0xFF0000 = b * 65536.
Proof.
  intros Hb. unfold is_byte in Hb. change 0xFF0000 with ((2 ^ 8 - 1) * 2 ^ 16). rewrite land_field by lia.
  rewrite Z.shiftl_mul_pow2 by lia. rewrite Z.div_mul by lia. rewrite Z.mod_small by lia. lia.
Qed.
Lemma lor_byte b c : is_byte b → Z.lor b (c * 256) = b + c * 256.
Proof.
  intros Hb. unfold is_byte in Hb. rewrite Z.lor_comm, (lor_disjoint (c * 256) b 8) by (try div_mod_lia; lia). lia.
Qed.
Lemma read_16_sum l : bytes l → read_pixel_16 l = zget l 0 + zget l 1 * 256.
Proof. intros Hl. unfold read_pixel_16. rewrite shifted_byte, lor_byte by (by apply zget_byte). done. Qed.
Lemma read_24_sum l : bytes l → read_pixel_24 l = zget l 0 + zget l 1 * 256 + zget l 2 * 65536.
Proof.
  intros Hl. unfold read_pixel_24. rewrite shifted_byte, shifted_byte_2, lor_byte by (by apply zget_byte).
  pose proof (zget_byte l 0 Hl). pose proof (zget_byte l 1 Hl). pose proof (zget_byte l 2 Hl). unfold is_byte in *.
  rewrite Z.lor_comm, (lor_disjoint (zget l 2 * 65536) _ 16) by (try div_mod_lia; lia). lia.
Qed.
Lemma read_pixel_16_app a b l : read_pixel_16 (a :: b :: l) = read_pixel_16 [a; b].
Proof. done. Qed.
Lemma read_pixel_24_app a b c l : read_pixel_24 (a :: b :: c :: l) = read_pixel_24 [a; b; c].
Proof. done. Qed.

Lemma is_byte_u8 z : is_byte (u8 z).
Proof. unfold is_byte, u8. apply Z.mod_pos_bound. lia. Qed.
Ltac byte_list := rewrite ?land_u8; repeat (constructor; [apply is_byte_u8|]); constructor.

#[export] Instance format_8_laws : PixelLaws format_8.
Proof.
  constructor; cbn; try done.
  - intros p. unfold write_pixel_8, write_pixel_16, write_pixel_24. byte_list.
  - intros buf Hb. pose proof (zget_byte buf 0 Hb). unfold is_byte, read_pixel_8 in *. lia.
  - intros p l Hp. change (u8 p = p). unfold u8. apply Z.mod_small. lia.
  - intros a b Ha Hb. pose proof (lxor_below 8 a b). lia.
Qed.
#[export] Instance format_16_laws : PixelLaws format_16.
Proof.
  constructor; cbn; try done.
  - intros p. unfold write_pixel_8, write_pixel_16, write_pixel_24. byte_list.
  - intros buf Hb. rewrite read_16_sum by done. pose proof (zget_byte buf 0 Hb). pose proof (zget_byte buf 1 Hb).
    unfold is_byte in *. lia.
  - intros p l Hp. rewrite read_pixel_16_app, read_16_sum by byte_list.
    change (Z.land p 255 + Z.land (Z.shiftr p 8) 255 * 256 = p). rewrite !land_u8. unfold u8. rewrite Z.shiftr_div_pow2 by lia.
    change (2 ^ 8) with 256. try change (2 ^ 16) with 65536. div_mod_lia.
  - intros a b Ha Hb. pose proof (lxor_below 16 a b). lia.
Qed.
#[export] Instance format_24_laws : PixelLaws format_24.
Proof.
  constructor; cbn; try done.
  - intros p. unfold write_pixel_8, write_pixel_16, write_pixel_24. byte_list.
  - intros buf Hb. rewrite read_24_sum by done. pose proof (zget_byte buf 0 Hb). pose proof (zget_byte buf 1 Hb).
    pose proof (zget_byte buf 2 Hb). unfold is_byte in *. lia.
  - intros p l Hp. rewrite read_pixel_24_app, read_24_sum by byte_list.
    change (u8 p + u8 (Z.shiftr p 8) * 256 + u8 (Z.shiftr p 16) * 65536 = p). unfold u8. rewrite !Z.shiftr_div_pow2 by lia.
    change (2 ^ 8) with 256. try change (2 ^ 16) with 65536. div_mod_lia.
  - intros a b Ha Hb. pose proof (lxor_below 24 a b). lia.
Qed.

(** * The unrolled loops *)

Section loops.
Context {A : Type}.
Implicit Types (f : A → DM A).

Lemma unroll_body_app f n m a st :
  UNROLL_BODY f (n + m) a st = (a ← UNROLL_BODY f n a; UNROLL_BODY f m a) st.
Proof.
  revert a st. induction n as [|n IH]; intros a st; [done|]. cbn [UNROLL_BODY Nat.add].
  unfold mbind, DM_bind. destruct (f a st) as [[[a'|] st']|]; first [apply IH|done].
Qed.

Lemma unroll_multiple_spec f count c a fuel st :
  0 < count → 0 <= c → (Z.to_nat c <= fuel)%nat →
  UNROLL_MULTIPLE fuel c f count a st =
    (a ← UNROLL_BODY f (Z.to_nat (c / count * count)) a; mret (c mod count, a)) st.
Proof.
  intros Hp. revert c a st. induction fuel as [|fuel IH]; intros c a st Hc Hf; cbn [UNROLL_MULTIPLE].
  - replace c with 0 by lia. replace (0 >=? count) with false by lia.
    rewrite Z.mod_0_l, Z.div_0_l by lia. done.
  - destruct (Z.geb_spec c count) as [Hge|Hlt].
    + assert (c / count = 1 + (c - count) / count) as Hd.
      { replace c with (c - count + 1 * count) at 1 by lia. rewrite Z.div_add by lia. lia. }
      assert (0 <= (c - count) / count) by (apply Z.div_pos; lia).
      replace (Z.to_nat (c / count * count)) with (Z.to_nat count + Z.to_nat ((c - count) / count * count))%nat by nia.
      unfold mbind, DM_bind at 1 2. rewrite unroll_body_app. unfold mbind, DM_bind.
      destruct (UNROLL_BODY f (Z.to_nat count) a st) as [[[a'|] st']|]; try done.
      rewrite IH by lia. unfold mbind, DM_bind.
      replace ((c - count) mod count) with (c mod count); [done|].
      replace c with (c - count + 1 * count) at 1 by lia. by rewrite Z.mod_add by lia.
    + by rewrite Z.div_small, Z.mod_small by lia.
Qed.

(** The loop in steps of 16, 4 and 1 runs its body as often as it says. *)
Lemma UNROLL_spec f n a st : 0 <= n → UNROLL n f a st = UNROLL_BODY f (Z.to_nat n) a st.
Proof.
  intros Hn. unfold UNROLL. unfold mbind, DM_bind. rewrite unroll_multiple_spec by lia.
  set (n1 := n / 16 * 16). pose proof (Z.mod_pos_bound n 16 ltac:(lia)). pose proof (Z.div_mod n 16 ltac:(lia)).
  pose proof (Z.div_pos n 16 ltac:(lia) ltac:(lia)).
  replace (Z.to_nat n) with (Z.to_nat n1 + Z.to_nat (n mod 16))%nat by (subst n1; lia).
  rewrite unroll_body_app. unfold mbind, DM_bind. destruct (UNROLL_BODY f (Z.to_nat n1) a st) as [[[a1|] s1]|]; [|done..].
  unfold mret, DM_ret. rewrite unroll_multiple_spec by lia.
  set (r := n mod 16) in *. pose proof (Z.mod_pos_bound r 4 ltac:(lia)). pose proof (Z.div_mod r 4 ltac:(lia)).
  pose proof (Z.div_pos r 4 ltac:(lia) ltac:(lia)).
  replace (Z.to_nat r) with (Z.to_nat (r / 4 * 4) + Z.to_nat (r mod 4))%nat by lia.
  rewrite unroll_body_app. unfold mbind, DM_bind.
  destruct (UNROLL_BODY f (Z.to_nat (r / 4 * 4)) a1 s1) as [[[a2|] s2]|]; [|done..].
  unfold mret, DM_ret. rewrite unroll_multiple_spec by lia.
  rewrite Z.div_1_r, Z.mul_1_r. unfold mbind, DM_bind. by destruct (UNROLL_BODY f _ a2 s2) as [[[a3|] s3]|].
Qed.
End loops.

(** * What every step keeps *)

Section safety.
Context {HF : PixelFormat} {HL : PixelLaws HF}.
Context (rowDelta pbDestEnd : Z).
Hypothesis Hrow : PIXEL_SIZE <= rowDelta.
Hypothesis Hend : pbDestEnd <= UINT32_MAX.

Record good (st : rle_state) : Prop := {
  good_src : bytes (pbSrc st);
  good_dst : bytes (pbDestBuffer st);
  good_pos : 0 <= pbDest st <= pbDestEnd;
  good_end : pbDestEnd <= zlen (pbDestBuffer st);
}.

(** The pointers only go forward, and nothing is written outside the image. *)
Record step (st st' : rle_state) : Prop := {
  step_good : good st';
  step_pos : pbDest st <= pbDest st';
  step_src : zlen (pbSrc st') <= zlen (pbSrc st);
  step_len : zlen (pbDestBuffer st') = zlen (pbDestBuffer st);
  step_tail : zdrop pbDestEnd (pbDestBuffer st') = zdrop pbDestEnd (pbDestBuffer st);
}.

Lemma step_refl st : good st → step st st.
Proof. by constructor. Qed.
Lemma step_trans a b c : step a b → step b c → step a c.
Proof. intros [] []. constructor; [done|lia|lia|congruence|congruence]. Qed.

(** Code that returns, keeps what [step] says, and establishes [Q] if it does
    not return [FALSE]. *)
Definition triple {A} (P : rle_state → Prop) (m : DM A) (Q : A → rle_state → Prop) : Prop :=
  ∀ st, good st → P st →
    ∃ r st', m st = Ret (r, st') ∧ step st st' ∧ match r with Some a => Q a st' | None => True end.

(** [n] pixels fit into the image, [m] bytes are left, and there is a line above
    unless it is the first. *)
Definition cfg (first : bool) (n m : Z) (st : rle_state) : Prop :=
  (first = false → rowDelta <= pbDest st) ∧ pbDest st + n * PIXEL_SIZE <= pbDestEnd ∧ m <= zlen (pbSrc st).

Section rules.
Context {A B : Type}.
Implicit Types (P : rle_state → Prop).

Lemma triple_ret P (a : A) (Q : A → rle_state → Prop) : (∀ st, P st → Q a st) → triple P (mret a) Q.
Proof. intros H st Hg HP. do 2 eexists. split; [done|]. split; [by apply step_refl|]. by apply H. Qed.
Lemma triple_fail P (Q : A → rle_state → Prop) : triple P rle_fail Q.
Proof. intros st Hg HP. do 2 eexists. split; [done|]. split; [by apply step_refl|done]. Qed.
Lemma triple_bind P (m : DM A) (R : A → rle_state → Prop) (k : A → DM B) (Q : B → rle_state → Prop) :
  triple P m R → (∀ a, triple (R a) (k a) Q) → triple P (m ≫= k) Q.
Proof.
  intros Hm Hk st Hg HP. destruct (Hm st Hg HP) as (r & st1 & E & Hs & Hr).
  unfold mbind, DM_bind. rewrite E. destruct r as [a|]; [|by exists None, st1].
  destruct (Hk a st1 (step_good _ _ Hs) Hr) as (r & st2 & -> & Hs2 & Hr2).
  exists r, st2. split; [done|]. split; [by eapply step_trans|done].
Qed.
Lemma triple_weaken P P' (m : DM A) (Q Q' : A → rle_state → Prop) :
  triple P m Q → (∀ st, P' st → P st) → (∀ a st, Q a st → Q' a st) → triple P' m Q'.
Proof.
  intros Hm HP HQ st Hg H. destruct (Hm st Hg (HP st H)) as (r & st' & E & Hs & Hr).
  exists r, st'. split; [done|]. split; [done|]. destruct r; auto.
Qed.
(** What is left of the source does not grow. *)
Lemma triple_left L P (m : DM A) (Q : A → rle_state → Prop) :
  triple P m Q → triple (λ st, P st ∧ zlen (pbSrc st) <= L) m (λ a st, Q a st ∧ zlen (pbSrc st) <= L).
Proof.
  intros Hm st Hg [HP HL']. destruct (Hm st Hg HP) as (r & st' & E & Hs & Hr).
  exists r, st'. split; [done|]. split; [done|]. destruct r; [|done]. split; [done|].
  pose proof (step_src _ _ Hs). lia.
Qed.
Lemma triple_pre (φ : Prop) P (m : DM A) (Q : A → rle_state → Prop) :
  (φ → triple P m Q) → triple (λ st, P st ∧ φ) m Q.
Proof. intros H st Hg [HP Hφ]. by apply H. Qed.
End rules.

(** ** The loops *)

Lemma triple_unroll {A} (I : Z → rle_state → Prop) n (body : A → DM A) a :
  0 <= n → (∀ a j, 0 <= j → triple (I (1 + j)) (body a) (λ _, I j)) →
  triple (I n) (UNROLL n body a) (λ _, I 0).
Proof.
  intros Hn Hb.
  assert (∀ m a, triple (I (Z.of_nat m)) (UNROLL_BODY body m a) (λ _, I 0)) as H.
  { induction m as [|m IH]; intros a'; cbn [UNROLL_BODY]; [by apply triple_ret|].
    eapply triple_bind; [|intros; apply IH].
    replace (Z.of_nat (S m)) with (1 + Z.of_nat m) by lia. apply Hb. lia. }
  intros st Hg HI. rewrite UNROLL_spec by done. apply H; [done|]. by rewrite Z2Nat.id.
Qed.

(** ** The primitives *)

Lemma triple_require b (P : rle_state → Prop) : triple P (require b) (λ _ st, P st ∧ b = true).
Proof. destruct b; [by apply triple_ret|apply triple_fail]. Qed.

Lemma ensure_capacity_within x y n :
  0 <= x → 0 <= y <= SIZE_MAX → 0 <= n <= UINT32_MAX →
  ensure_capacity_ x y n PIXEL_SIZE = (x + n * PIXEL_SIZE <=? y).
Proof.
  intros Hx Hy Hn. pose proof pixel_size. unfold ensure_capacity_, u64. unfold SIZE_MAX, UINT32_MAX in *.
  destruct (Z.leb_spec x y); [|rewrite andb_false_r; symmetry; apply Z.leb_gt; nia].
  rewrite (Z.mod_small (n * _)) by nia. rewrite (Z.mod_small (y - x)) by lia. rewrite andb_true_r.
  rewrite Z.geb_leb. destruct (Z.leb_spec (x + n * PIXEL_SIZE) y); [apply Z.leb_le|apply Z.leb_gt]; lia.
Qed.

Lemma triple_ensure first m n :
  0 <= n <= UINT32_MAX → triple (cfg first 0 m) (ENSURE_CAPACITY pbDestEnd n) (λ _, cfg first n m).
Proof.
  intros Hn st Hg (H1 & H2 & H3). unfold ENSURE_CAPACITY. pose proof (good_pos _ Hg).
  rewrite ensure_capacity_within by (unfold SIZE_MAX, UINT32_MAX in *; lia).
  destruct (Z.leb_spec (pbDest st + n * PIXEL_SIZE) pbDestEnd); do 2 eexists; (split; [done|]);
    (split; [by apply step_refl|]); done.
Qed.
Lemma triple_ensure_src first n k :
  0 <= k <= UINT32_MAX →
  triple (λ st, cfg first n 0 st ∧ zlen (pbSrc st) <= SIZE_MAX) (ENSURE_SRC k) (λ _, cfg first n (k * PIXEL_SIZE)).
Proof.
  intros Hk st Hg ((H1 & H2 & H3) & Hz). unfold ENSURE_SRC. pose proof (zlen_nonneg (pbSrc st)).
  rewrite ensure_capacity_within by lia.
  destruct (Z.leb_spec (0 + k * PIXEL_SIZE) (zlen (pbSrc st))); do 2 eexists; (split; [done|]);
    (split; [by apply step_refl|]); [|done]. split_and!; [done..|lia].
Qed.

Lemma triple_write first n m p :
  0 <= n → triple (cfg first (1 + n) m) (DESTWRITEPIXEL p) (λ _, cfg first n m).
Proof.
  intros Hn st Hg (H1 & H2 & H3). pose proof pixel_size. destruct Hg as [Hs Hd Hp He].
  pose proof (zlen_write_pixel p) as Hz. unfold DESTWRITEPIXEL.
  destruct (Z.leb_spec 0 (pbDest st)); [|lia]. cbn [andb].
  destruct (Z.leb_spec (pbDest st + PIXEL_SIZE) (zlen (pbDestBuffer st))); [|nia].
  do 2 eexists. split; [done|]. split.
  - constructor; cbn; [constructor; cbn| | | |].
    + done.
    + apply Forall_zblit; [done|apply bytes_write_pixel].
    + nia.
    + by rewrite zlen_zblit by lia.
    + lia.
    + lia.
    + by rewrite zlen_zblit by lia.
    + unfold zblit. assert (zlen (ztake (pbDest st) (pbDestBuffer st)) = pbDest st) as Ht by (rewrite zlen_ztake; lia).
      rewrite zdrop_app_ge, Ht, zdrop_app_ge, Hz, zdrop_zdrop by nia. f_equal. lia.
  - split_and!; cbn; [intros E; specialize (H1 E); lia|lia|done].
Qed.
Lemma triple_read n m :
  triple (cfg false n m) (DESTREADPIXEL rowDelta) (λ p st, cfg false n m st).
Proof.
  intros st Hg (H1 & H2 & H3). specialize (H1 eq_refl). destruct (Hg) as [Hs Hd Hp He]. unfold DESTREADPIXEL.
  destruct (Z.leb_spec 0 (pbDest st - rowDelta)); [|lia]. cbn [andb].
  destruct (Z.leb_spec (pbDest st - rowDelta + PIXEL_SIZE) (zlen (pbDestBuffer st))); [|lia].
  do 2 eexists. split; [done|]. split; [by apply step_refl|]. done.
Qed.
Lemma triple_src_pixel first n m :
  0 <= m → triple (cfg first n (PIXEL_SIZE + m)) SRCREADPIXEL (λ _, cfg first n m).
Proof.
  intros Hm st Hg (H1 & H2 & H3). pose proof pixel_size. unfold SRCREADPIXEL.
  destruct (Z.leb_spec PIXEL_SIZE (zlen (pbSrc st))); [|lia]. do 2 eexists. split; [done|]. split.
  - destruct Hg. constructor; cbn; [constructor; cbn; [by apply Forall_zdrop|done..]|..]; rewrite ?zlen_zdrop; done || lia.
  - split_and!; cbn; [done..|rewrite zlen_zdrop; lia].
Qed.
Lemma triple_src_byte first n m :
  0 <= m → triple (cfg first n (1 + m)) read_src (λ _, cfg first n m).
Proof.
  intros Hm st Hg (H1 & H2 & H3). unfold read_src. destruct (pbSrc st) as [|b src] eqn:E; [rewrite zlen_nil in H3; lia|].
  rewrite zlen_cons in H3. do 2 eexists. split; [done|]. split.
  - destruct Hg as [Hs Hd Hp He]. rewrite E in Hs. apply Forall_cons_1 in Hs as [_ Hs].
    constructor; cbn; [by constructor| |rewrite E, zlen_cons|..]; try done; lia.
  - split_and!; cbn; [done..|lia].
Qed.
Lemma triple_within first n k :
  0 <= k → triple (cfg first n 0) (within_range k) (λ _, cfg first n k).
Proof.
  intros Hk st Hg (H1 & H2 & H3). unfold within_range, buffer_within_range.
  destruct (Z.gtb_spec k (zlen (pbSrc st))); do 2 eexists; (split; [done|]); (split; [by apply step_refl|]); done.
Qed.

(** ** Run lengths *)

Lemma src_byte_in l i : i < zlen l → src_byte l i = Ret (zget l i).
Proof. intros. unfold src_byte. by destruct (Z.ltb_spec i (zlen l)); [|lia]. Qed.

Definition run_ok (l : list Z) (o : outcome (Z * Z)) : Prop :=
  ∃ r adv, o = Ret (r, adv) ∧ (adv = 0 ∨ 1 <= adv <= zlen l ∧ 0 <= r <= 65535).

(** The four forms with a length in the header or one byte behind it. *)
Lemma short_run_ok l mask f g :
  bytes l → 0 < zlen l → (∀ x, 0 <= x → 0 <= Z.land x mask <= 31) →
  (∀ r, 0 <= r <= 31 → 0 <= f r <= 65535) → (∀ b, is_byte b → 0 <= g b <= 65535) →
  run_ok l (h ← src_byte l 0;
            if Z.land h mask =? 0 then
              if negb (buffer_within_range l 2) then Ret (0, 0) else b ← src_byte l 1; Ret (g b, 1 + 1)
            else Ret (f (Z.land h mask), 1)).
Proof.
  intros Hb Hl Hm Hf Hg. rewrite (src_byte_in l 0) by lia. cbn [mbind outcome_bind].
  assert (0 <= zget l 0) as H0 by (pose proof (zget_byte l 0 Hb); unfold is_byte in *; lia).
  destruct (Z.eqb_spec (Z.land (zget l 0) mask) 0); [|do 2 eexists; split; [done|right]; split; [lia|by apply Hf, Hm]].
  unfold buffer_within_range. destruct (Z.gtb_spec 2 (zlen l)); cbn [negb]; [do 2 eexists; split; [done|by left]|].
  rewrite src_byte_in by lia. do 2 eexists. split; [done|]. right. split; [lia|]. by apply Hg, zget_byte.
Qed.
Lemma land_nonneg_le x n : 0 <= n → 0 <= x → 0 <= Z.land x (2 ^ n - 1) <= 2 ^ n - 1.
Proof. intros. rewrite land_mask by lia. pose proof (Z.mod_pos_bound x (2 ^ n) ltac:(by apply Z.pow_pos_nonneg)). lia. Qed.

Lemma ExtractRunLength_ok code l : bytes l → 0 < zlen l → run_ok l (ExtractRunLength code l).
Proof.
  intros Hb Hl. unfold ExtractRunLength. replace (buffer_within_range l 0) with true
    by (unfold buffer_within_range; by destruct (Z.gtb_spec 0 (zlen l)); [lia|]). cbn [negb].
  assert (∀ x, 0 <= x → 0 <= Z.land x g_MaskRegularRunLength <= 31) as H5 by (intros; by apply (land_nonneg_le x 5)).
  assert (∀ x, 0 <= x → 0 <= Z.land x g_MaskLiteRunLength <= 31) as H4.
  { intros x Hx. pose proof (land_nonneg_le x 4 ltac:(lia) Hx) as H4. change (2 ^ 4 - 1) with 15 in H4.
    unfold g_MaskLiteRunLength. lia. }
  destruct (code =? _); [apply (short_run_ok l _ (λ r, r * 8) (λ b, b + 1)); [done|done|assumption|lia|unfold is_byte; lia]|].
  destruct (code =? _); [apply (short_run_ok l _ (λ r, r * 8) (λ b, b + 1)); [done|done|assumption|lia|unfold is_byte; lia]|].
  destruct (one_of _ _); [apply (short_run_ok l _ (λ r, r) (λ b, b + 32)); [done|done|done|lia|unfold is_byte; lia]|].
  destruct (one_of _ _); [apply (short_run_ok l _ (λ r, r) (λ b, b + 16)); [done|done|done|lia|unfold is_byte; lia]|].
  destruct (one_of _ _); [|do 2 eexists; split; [done|by left]].
  unfold ExtractRunLengthMegaMega, buffer_within_range.
  destruct (Z.gtb_spec 3 (zlen l)); cbn [negb]; [do 2 eexists; split; [done|by left]|].
  rewrite !src_byte_in by lia. do 2 eexists. split; [done|]. right. split; [lia|].
  pose proof (zget_byte l 1 Hb) as H1. pose proof (zget_byte l 2 Hb) as H2.
  rewrite shifted_byte, lor_byte by done. unfold is_byte in *. lia.
Qed.

Lemma triple_run first code L :
  triple (λ st, cfg first 0 1 st ∧ zlen (pbSrc st) <= 1 + L) (read_run code)
         (λ r st, (cfg first 0 0 st ∧ zlen (pbSrc st) <= L) ∧ 0 <= r <= 65535).
Proof.
  intros st Hg ((H1 & H2 & H3) & HL'). unfold read_run.
  destruct (ExtractRunLength_ok code (pbSrc st) (good_src _ Hg) ltac:(lia)) as (r & adv & -> & [->|[Ha Hr]]).
  { do 2 eexists. split; [done|]. split; [by apply step_refl|done]. }
  destruct (Z.eqb_spec adv 0); [lia|]. destruct (Z.leb_spec adv (zlen (pbSrc st))); [|lia].
  do 2 eexists. split; [done|]. split.
  - destruct Hg. constructor; cbn; [constructor; cbn; [by apply Forall_zdrop|done..]|..]; rewrite ?zlen_zdrop; done || lia.
  - unfold cfg. split_and!; cbn; rewrite ?zlen_zdrop; done || lia.
Qed.

(** ** Orders *)

Lemma cfg_mono first n m n' m' st : n' <= n → m' <= m → cfg first n m st → cfg first n' m' st.
Proof. intros Hn Hm (H1 & H2 & H3). pose proof pixel_size. split_and!; [done|nia|lia]. Qed.

Lemma triple_put first m p n :
  0 <= n → triple (cfg first n m) (UNROLL n (put_pixel p) tt) (λ _, cfg first 0 m).
Proof. intros Hn. apply (triple_unroll (λ j, cfg first j m)); [done|]. intros [] j Hj. by apply triple_write. Qed.
Lemma triple_xor m f n :
  0 <= n → triple (cfg false n m) (UNROLL n (xor_pixel rowDelta f) tt) (λ _, cfg false 0 m).
Proof.
  intros Hn. apply (triple_unroll (λ j, cfg false j m)); [done|]. intros [] j Hj.
  eapply triple_bind; [apply triple_read|]. intros p. by apply triple_write.
Qed.

Lemma triple_write_fgbg first m bitmask fgPel c :
  0 <= c → triple (cfg first 0 m) (write_fgbg rowDelta pbDestEnd first bitmask fgPel c) (λ _, cfg first 0 m).
Proof.
  intros Hc. unfold write_fgbg, WRITEFIRSTLINEFGBGIMAGE, WRITEFGBGIMAGE.
  destruct first; (destruct (Z.gtb_spec c 8); [apply triple_fail|]);
    (eapply triple_bind; [apply triple_ensure; unfold UINT32_MAX; lia|intros ?; cbv beta]);
    (eapply triple_bind; [eapply (triple_unroll (λ j, cfg _ j m)); [done|]|intros ?; by apply triple_ret]);
    intros mask j Hj.
  - eapply triple_bind; [by apply triple_write|]. intros ?; cbv beta. by apply triple_ret.
  - eapply triple_bind; [apply triple_read|]. intros p.
    eapply triple_bind; [by apply triple_write|]. intros ?; cbv beta. by apply triple_ret.
Qed.

Lemma triple_ensure_put first p n :
  0 <= n <= UINT32_MAX →
  triple (cfg first 0 0) (ENSURE_CAPACITY pbDestEnd n;; UNROLL n (put_pixel p) tt) (λ _, cfg first 0 0).
Proof. intros Hn. eapply triple_bind; [by apply triple_ensure|]. intros ?; cbv beta. apply triple_put. lia. Qed.
Lemma triple_ensure_xor f n :
  0 <= n <= UINT32_MAX →
  triple (cfg false 0 0) (ENSURE_CAPACITY pbDestEnd n;; UNROLL n (xor_pixel rowDelta f) tt) (λ _, cfg false 0 0).
Proof. intros Hn. eapply triple_bind; [by apply triple_ensure|]. intros ?; cbv beta. apply triple_xor. lia. Qed.
Lemma triple_ensure_one first p :
  triple (cfg first 0 0) (ENSURE_CAPACITY pbDestEnd 1;; DESTWRITEPIXEL p) (λ _, cfg first 0 0).
Proof.
  eapply triple_bind; [by apply triple_ensure|]. intros ?; cbv beta. by apply (triple_write first 0).
Qed.

Lemma triple_bg_run first insert fgPel r :
  0 <= r <= 65535 →
  triple (cfg first 0 0) (bg_run rowDelta pbDestEnd fgPel insert first r) (λ _, cfg first 0 0).
Proof.
  intros Hr. unfold bg_run. destruct first.
  - eapply (triple_bind _ _ (λ n st, cfg true 0 0 st ∧ 0 <= n <= UINT32_MAX)).
    + destruct insert; [|apply triple_ret; unfold UINT32_MAX; split; [done|lia]].
      eapply triple_bind; [by apply triple_ensure|]. intros ?; cbv beta.
      eapply triple_bind; [by apply (triple_write true 0)|]. intros ?; cbv beta. apply triple_ret. split; [done|apply u32_max].
    + intros n. apply triple_pre. intros Hn. by apply triple_ensure_put.
  - eapply (triple_bind _ _ (λ n st, cfg false 0 0 st ∧ 0 <= n <= UINT32_MAX)).
    + destruct insert; [|apply triple_ret; unfold UINT32_MAX; split; [done|lia]].
      eapply triple_bind; [apply triple_read|]. intros temp.
      eapply triple_bind; [by apply triple_ensure|]. intros ?; cbv beta.
      eapply triple_bind; [by apply (triple_write false 0)|]. intros ?; cbv beta. apply triple_ret. split; [done|apply u32_max].
    + intros n. apply triple_pre. intros Hn. by apply triple_ensure_xor.
Qed.
Lemma triple_fg_run first fgPel r :
  0 <= r <= 65535 → triple (cfg first 0 0) (fg_run rowDelta pbDestEnd fgPel first r) (λ _, cfg first 0 0).
Proof.
  intros Hr. unfold fg_run. eapply triple_bind; [apply triple_ensure; unfold UINT32_MAX; lia|]. intros ?; cbv beta.
  destruct first; [apply triple_put|apply triple_xor]; lia.
Qed.

Lemma triple_fgbg_loop first fgPel fuel r :
  0 <= r → (Z.to_nat r <= fuel)%nat →
  triple (cfg first 0 (Z.max 0 ((r - 1) / 8))) (fgbg_loop rowDelta pbDestEnd fuel first fgPel r)
         (λ n st, cfg first 0 0 st ∧ 0 <= n <= 8).
Proof.
  revert r. induction fuel as [|fuel IH]; intros r Hr Hf; cbn [fgbg_loop]; destruct (Z.gtb_spec r 8).
  - lia.
  - apply triple_ret. intros st Hc. split; [|lia]. eapply cfg_mono; [..|exact Hc]; lia.
  - assert ((r - 1) / 8 = 1 + (r - 8 - 1) / 8) as E.
    { replace (r - 1) with (r - 8 - 1 + 1 * 8) by lia. rewrite Z.div_add by lia. lia. }
    assert (0 <= (r - 8 - 1) / 8) by (apply Z.div_pos; lia).
    replace (Z.max 0 ((r - 1) / 8)) with (1 + Z.max 0 ((r - 8 - 1) / 8)) by lia.
    eapply triple_bind; [apply triple_src_byte; lia|]. intros b.
    eapply triple_bind; [by apply triple_write_fgbg|]. intros ?; cbv beta. apply IH; lia.
  - apply triple_ret. intros st Hc. split; [|lia]. eapply cfg_mono; [..|exact Hc]; lia.
Qed.
Lemma triple_fgbg_image first fgPel r :
  0 <= r <= 65535 → triple (cfg first 0 0) (fgbg_image rowDelta pbDestEnd first fgPel r) (λ _, cfg first 0 0).
Proof.
  intros Hr. unfold fgbg_image. assert (0 <= r / 8) by (apply Z.div_pos; lia).
  eapply triple_bind; [by apply triple_within|]. intros ?; cbv beta.
  eapply triple_bind.
  - eapply triple_weaken; [apply triple_fgbg_loop; [|reflexivity]; lia| |by intros].
    intros st Hc. eapply cfg_mono; [..|exact Hc]; [lia|]. div_mod_lia.
  - intros n. apply triple_pre. intros Hn. destruct (Z.gtb_spec n 0); [|by apply triple_ret].
    eapply triple_bind; [by apply (triple_within first 0 1)|]. intros ?; cbv beta.
    eapply triple_bind; [by apply (triple_src_byte first 0 0)|]. intros b. apply triple_write_fgbg. lia.
Qed.

Lemma triple_checked_pixel first n : triple (cfg first n 0) read_checked_pixel (λ _, cfg first n 0).
Proof.
  pose proof pixel_size. eapply triple_bind; [apply triple_within; lia|]. intros ?; cbv beta.
  rewrite <- (Z.add_0_r PIXEL_SIZE). by apply triple_src_pixel.
Qed.
Lemma triple_read_fgPel first labels code fgPel :
  triple (cfg first 0 0) (read_fgPel labels code fgPel) (λ _, cfg first 0 0).
Proof. unfold read_fgPel. destruct (one_of _ _); [apply triple_checked_pixel|by apply triple_ret]. Qed.

Section order.
Context (first : bool) (L : Z).
Hypothesis HLmax : L <= UINT32_MAX.

Lemma triple_after_run {A} code (k : Z → DM A) :
  (∀ r, 0 <= r <= 65535 → triple (λ st, cfg first 0 0 st ∧ zlen (pbSrc st) <= L) (k r) (λ _, cfg first 0 0)) →
  triple (λ st, cfg first 0 1 st ∧ zlen (pbSrc st) <= 1 + L) (read_run code ≫= k)
         (λ _ st, cfg first 0 0 st ∧ zlen (pbSrc st) <= L).
Proof.
  intros Hk. eapply triple_bind; [apply triple_run|]. intros r. apply triple_pre. intros Hr.
  eapply triple_weaken; [apply (triple_left L), Hk, Hr| |by intros]. by intros st [??].
Qed.
Lemma triple_any_length {A} (m : DM A) Q :
  triple (cfg first 0 0) m Q → triple (λ st, cfg first 0 0 st ∧ zlen (pbSrc st) <= L) m Q.
Proof. intros H. eapply triple_weaken; [exact H|by intros ? []|done]. Qed.
Lemma triple_special (k : DM Z) :
  triple (cfg first 0 0) k (λ _, cfg first 0 0) →
  triple (λ st, cfg first 0 1 st ∧ zlen (pbSrc st) <= 1 + L) (within_range 1;; read_src;; k)
         (λ _ st, cfg first 0 0 st ∧ zlen (pbSrc st) <= L).
Proof.
  intros Hk st Hg [Hc Hz]. unfold mbind, DM_bind. unfold within_range, buffer_within_range. destruct (Hc) as (_ & _ & Hm).
  destruct (Z.gtb_spec 1 (zlen (pbSrc st))); [lia|]. cbn [negb require mret DM_ret].
  destruct (triple_src_byte first 0 0 ltac:(lia) st Hg) as (r & st1 & E & Hs & Hr); [done|]. rewrite E.
  unfold read_src in E. destruct (pbSrc st) as [|b src] eqn:Es; [done|]. injection E as <- <-.
  destruct (triple_left L _ _ _ Hk _ (step_good _ _ Hs)) as (r & st2 & -> & Hs2 & Hr2).
  - split; [done|]. cbn. rewrite zlen_cons in Hz. lia.
  - exists r, st2. split; [done|]. split; [by eapply step_trans|done].
Qed.

Lemma triple_other_order code fgPel :
  triple (λ st, cfg first 0 1 st ∧ zlen (pbSrc st) <= 1 + L) (other_order rowDelta pbDestEnd code fgPel first)
         (λ _ st, cfg first 0 0 st ∧ zlen (pbSrc st) <= L).
Proof.
  assert (∀ r, 0 <= r <= 65535 → 0 <= r <= UINT32_MAX) as H32 by (unfold UINT32_MAX; lia).
  unfold other_order. destruct (one_of _ _).
  { apply triple_after_run. intros r Hr. apply triple_any_length.
    eapply triple_bind; [apply triple_read_fgPel|]. intros fg.
    eapply triple_bind; [by apply triple_fg_run|]. intros ?; cbv beta. by apply triple_ret. }
  destruct (one_of _ _).
  { apply triple_after_run. intros r Hr. apply triple_any_length.
    eapply triple_bind; [apply triple_checked_pixel|]. intros a.
    eapply triple_bind; [apply triple_checked_pixel|]. intros b.
    eapply triple_bind; [apply triple_ensure, u32_max|]. intros ?; cbv beta.
    eapply triple_bind; [|intros ?; cbv beta; apply triple_ret; intros st Hc; exact Hc].
    replace (u32 (r * 2)) with (2 * r) by (unfold u32; rewrite Z.mod_small; lia).
    apply (triple_unroll (λ j, cfg first (2 * j) 0)); [lia|]. intros ? j Hj.
    replace (2 * (1 + j)) with (1 + (1 + 2 * j)) by lia.
    eapply triple_bind; [apply triple_write; lia|]. intros ?; cbv beta. apply triple_write. lia. }
  destruct (one_of _ _).
  { apply triple_after_run. intros r Hr. apply triple_any_length.
    eapply triple_bind; [apply triple_checked_pixel|]. intros a.
    eapply triple_bind; [by apply triple_ensure, H32|]. intros ?; cbv beta.
    eapply triple_bind; [apply triple_put; lia|]. intros ?; cbv beta. by apply triple_ret. }
  destruct (one_of _ _).
  { apply triple_after_run. intros r Hr. apply triple_any_length.
    eapply triple_bind; [apply triple_read_fgPel|]. intros fg.
    eapply triple_bind; [by apply triple_fgbg_image|]. intros ?; cbv beta. by apply triple_ret. }
  destruct (one_of _ _).
  { apply triple_after_run. intros r Hr.
    eapply triple_bind; [apply triple_left, triple_ensure, H32, Hr|]. intros ?; cbv beta.
    eapply triple_bind.
    { eapply triple_weaken; [apply (triple_ensure_src first r r), H32, Hr| |intros ? ? H; exact H].
      intros st [? Hz]. split; [done|]. unfold SIZE_MAX, UINT32_MAX in *. lia. }
    intros ?; cbv beta.
    eapply triple_bind; [|intros ?; cbv beta; apply triple_ret; intros st Hc; exact Hc].
    apply (triple_unroll (λ j, cfg first j (j * PIXEL_SIZE))); [lia|]. intros ? j Hj. pose proof pixel_size.
    replace ((1 + j) * PIXEL_SIZE) with (PIXEL_SIZE + j * PIXEL_SIZE) by lia.
    eapply triple_bind; [apply triple_src_pixel; nia|]. intros p. by apply triple_write. }
  destruct (code =? _).
  { apply triple_special. eapply triple_bind; [by apply triple_write_fgbg|]. intros ?; cbv beta. by apply triple_ret. }
  destruct (code =? _).
  { apply triple_special. eapply triple_bind; [by apply triple_write_fgbg|]. intros ?; cbv beta. by apply triple_ret. }
  destruct (code =? _).
  { apply triple_special. eapply triple_bind; [by apply triple_ensure|]. intros ?; cbv beta.
    eapply triple_bind; [by apply (triple_write first 0)|]. intros ?; cbv beta. by apply triple_ret. }
  destruct (code =? _); [|apply triple_fail].
  apply triple_special. eapply triple_bind; [by apply triple_ensure|]. intros ?; cbv beta.
  eapply triple_bind; [by apply (triple_write first 0)|]. intros ?; cbv beta. by apply triple_ret.
Qed.
End order.

Lemma triple_order_loop fuel fgPel insert first :
  Z.of_nat fuel <= UINT32_MAX + 1 →
  triple (λ st, cfg first 0 0 st ∧ zlen (pbSrc st) <= Z.of_nat fuel)
         (order_loop rowDelta pbDestEnd fuel fgPel insert first) (λ _ _, True).
Proof.
  revert fgPel insert first. induction fuel as [|fuel IH]; intros fgPel insert first Hf st Hg [Hc Hz];
    cbn [order_loop]; destruct (pbSrc st) as [|h src] eqn:Es;
    [do 2 eexists; split; [done|]; split; [by apply step_refl|done] | rewrite zlen_cons in Hz; pose proof (zlen_nonneg src); lia
    |do 2 eexists; split; [done|]; split; [by apply step_refl|done] | ].
  rewrite <- Es in Hz. set (past := first && _). set (first' := if past then false else first).
  assert (cfg first' 0 1 st ∧ zlen (pbSrc st) <= 1 + Z.of_nat fuel) as Hc'.
  { split; [|lia]. destruct Hc as (H1 & H2 & H3). split_and!; [|done|rewrite Es, zlen_cons; pose proof (zlen_nonneg src); lia].
    subst first'. destruct past eqn:Ep; [|done]. intros _. subst past. apply andb_true_iff in Ep as [_ Ep].
    pose proof (good_pos _ Hg). unfold u32, UINT32_MAX in *. rewrite Z.mod_small in Ep by lia. lia. }
  destruct (one_of _ _).
  - refine (triple_bind (λ st, cfg first' 0 1 st ∧ zlen (pbSrc st) <= 1 + Z.of_nat fuel) _ _ _ _ (triple_run _ _ _) _ st Hg Hc').
    intros r. apply triple_pre. intros Hr.
    eapply triple_bind; [by apply triple_left, triple_bg_run|]. intros ?; cbv beta. apply IH. lia.
  - refine (triple_bind _ _ _ _ _ (triple_other_order first' (Z.of_nat fuel) ltac:(lia) _ _) _ st Hg Hc').
    intros fg. apply IH. lia.
Qed.

Lemma order_loop_safe src dst :
  bytes src → bytes dst → zlen src <= UINT32_MAX → 0 <= pbDestEnd <= zlen dst →
  ∃ r st, order_loop rowDelta pbDestEnd (length src) WHITE_PIXEL false true (mkRle src dst 0) = Ret (r, st) ∧
    step (mkRle src dst 0) st.
Proof.
  intros Hs Hd Hl He. destruct (triple_order_loop (length src) WHITE_PIXEL false true) with (st := mkRle src dst 0)
    as (r & st & E & Hst & _); [unfold zlen in *; lia|..].
  - constructor; cbn; done || lia.
  - split; [|done]. split_and!; cbn; [done|lia|apply zlen_nonneg].
  - by exists r, st.
Qed.
End safety.

(** The decoder of a format returns on any bytes; what is behind the image stays. *)
Lemma RLEDECOMPRESS_safe {HF : PixelFormat} {HL : PixelLaws HF} src dst width height :
  bytes src → bytes dst → zlen src <= UINT32_MAX → 0 < width → 0 <= height →
  width * PIXEL_SIZE * height <= UINT32_MAX → width * PIXEL_SIZE * height <= zlen dst →
  ∃ ok dst', RLEDECOMPRESS src dst (width * PIXEL_SIZE) width height = Ret (ok, dst') ∧
    bytes dst' ∧ zlen dst' = zlen dst ∧
    zdrop (width * PIXEL_SIZE * height) dst' = zdrop (width * PIXEL_SIZE * height) dst.
Proof.
  intros Hs Hd Hl Hw Hh H32 Hend. pose proof pixel_size. unfold RLEDECOMPRESS.
  destruct (Z.eqb_spec (width * PIXEL_SIZE) 0); [nia|]. destruct (Z.ltb_spec (width * PIXEL_SIZE) width); [nia|]. cbn [orb].
  assert (PIXEL_SIZE <= width * PIXEL_SIZE) as Hrow by nia.
  assert (0 <= width * PIXEL_SIZE * height) as Hpos by (apply Z.mul_nonneg_nonneg; lia).
  destruct (order_loop_safe (width * PIXEL_SIZE) (width * PIXEL_SIZE * height) Hrow H32 src dst Hs Hd Hl (conj Hpos Hend))
    as (r & st & -> & [[_ Hd' _ _] _ _ Hlen Htail]).
  exists (match r with Some _ => true | None => false end), (pbDestBuffer st). by destruct r.
Qed.
