(* ===== verification/RleFormat.v ===== *)
(** What the orders of a run-length encoded bitmap mean, and that the decoder
    does what they mean. *)

From S2P Require Import Prelude Rle RleSafe.
From stdpp Require Import prelude list numbers.
From Stdlib Require Import ZArith Lia.

#[local] Open Scope Z_scope.

(** * The meaning of orders *)

Inductive order : Type :=
| BgRun (n : Z)
| FgRun (n : Z)
| SetFgRun (p n : Z)
| DitheredRun (n a b : Z)
| ColorRun (n c : Z)
| FgBgImage (n : Z) (masks : list Z)
| SetFgBgImage (p n : Z) (masks : list Z)
| ColorImage (ps : list Z)
| FgBg1
| FgBg2
| White
| Black.

Section meaning.
Context {HF : PixelFormat}.
Context (w : Z).

(** The picture so far, pixel by pixel, with the state of the decoder. *)
Record picture : Type := mkPicture { pc_out : list Z; pc_fg : Z; pc_insert : bool; pc_first : bool }.

(** Above the first line everything is black. *)
Definition above (first : bool) (out : list Z) : Z := if first then 0 else zget out (zlen out - w).
(** Every new pixel is a function of the one above. *)
Fixpoint emit (first : bool) (fs : list (Z → Z)) (out : list Z) : list Z :=
  match fs with
  | [] => out
  | f :: fs => emit first fs (out ++ [f (above first out)])
  end.

Definition mask_fs (fg b : Z) (c : Z) : list (Z → Z) :=
  map (λ (i : nat) x, if Z.testbit b (Z.of_nat i) then Z.lxor x fg else x) (seq 0 (Z.to_nat c)).
Fixpoint masks_fs (fg n : Z) (masks : list Z) : list (Z → Z) :=
  match masks with
  | [] => []
  | b :: masks => mask_fs fg b (Z.min 8 n) ++ masks_fs fg (n - 8) masks
  end.

(** A background run right after another one begins with a foreground pixel. *)
Definition order_fs (fg : Z) (insert : bool) (o : order) : list (Z → Z) :=
  match o with
  | BgRun n => if insert then (λ x, Z.lxor x fg) :: replicate (Z.to_nat (n - 1)) id else replicate (Z.to_nat n) id
  | FgRun n => replicate (Z.to_nat n) (λ x, Z.lxor x fg)
  | SetFgRun p n => replicate (Z.to_nat n) (λ x, Z.lxor x p)
  | DitheredRun n a b => mjoin (replicate (Z.to_nat n) [λ _, a; λ _, b])
  | ColorRun n c => replicate (Z.to_nat n) (λ _, c)
  | FgBgImage n masks => masks_fs fg n masks
  | SetFgBgImage p n masks => masks_fs p n masks
  | ColorImage ps => map (λ p _, p) ps
  | FgBg1 => mask_fs fg g_MaskSpecialFgBg1 8
  | FgBg2 => mask_fs fg g_MaskSpecialFgBg2 8
  | White => [λ _, WHITE_PIXEL]
  | Black => [λ _, BLACK_PIXEL]
  end.
Definition order_fg (fg : Z) (o : order) : Z :=
  match o with SetFgRun p _ => p | SetFgBgImage p _ _ => p | _ => fg end.
Definition is_bg (o : order) : bool := match o with BgRun _ => true | _ => false end.

(** After the first line. *)
Definition next_line (pc : picture) : picture :=
  if pc_first pc && (w <=? zlen (pc_out pc)) then mkPicture (pc_out pc) (pc_fg pc) false false else pc.
Definition apply_order (pc : picture) (o : order) : picture :=
  let pc := next_line pc in
  mkPicture (emit (pc_first pc) (order_fs (pc_fg pc) (pc_insert pc) o) (pc_out pc)) (order_fg (pc_fg pc) o) (is_bg o) (pc_first pc).
Definition new_picture : picture := mkPicture [] WHITE_PIXEL false true.
Definition apply_orders (os : list order) (pc : picture) : picture := fold_left apply_order os pc.

(** * Their encoding *)

(** A run length in a header of three bits [c] and five bits, in the byte behind
    it, or in two bytes behind the header [mega]. *)
Inductive regular (c mega n : Z) : list Z → Prop :=
| regular_short : 1 <= n < 32 → regular c mega n [c * 32 + n]
| regular_long : 32 <= n < 288 → regular c mega n [c * 32; n - 32]
| regular_mega : 0 <= n <= UINT16_MAX → regular c mega n [mega; Z.land n 255; Z.land (Z.shiftr n 8) 255].
Inductive lite (c mega n : Z) : list Z → Prop :=
| lite_short : 1 <= n < 16 → lite c mega n [c * 16 + n]
| lite_long : 16 <= n < 272 → lite c mega n [c * 16; n - 16]
| lite_mega : 0 <= n <= UINT16_MAX → lite c mega n [mega; Z.land n 255; Z.land (Z.shiftr n 8) 255].
Inductive regular_fgbg (n : Z) : list Z → Prop :=
| rfgbg_short m : 1 <= m < 32 → n = 8 * m → regular_fgbg n [0x40 + m]
| rfgbg_long : 1 <= n <= 256 → regular_fgbg n [0x40; n - 1]
| rfgbg_mega : 0 <= n <= UINT16_MAX → regular_fgbg n [0xF2; Z.land n 255; Z.land (Z.shiftr n 8) 255].
Inductive lite_fgbg (n : Z) : list Z → Prop :=
| lfgbg_short m : 1 <= m < 16 → n = 8 * m → lite_fgbg n [0xD0 + m]
| lfgbg_long : 1 <= n <= 256 → lite_fgbg n [0xD0; n - 1]
| lfgbg_mega : 0 <= n <= UINT16_MAX → lite_fgbg n [0xF7; Z.land n 255; Z.land (Z.shiftr n 8) 255].

Definition pixel (p : Z) : Prop := 0 <= p <= WHITE_PIXEL.
Definition masks_ok (n : Z) (masks : list Z) : Prop := bytes masks ∧ zlen masks = (n + 7) / 8.

Inductive encoded : order → list Z → Prop :=
| enc_bg n h : regular 0 0xF0 n h → encoded (BgRun n) h
| enc_fg n h : regular 1 0xF1 n h → encoded (FgRun n) h
| enc_set_fg p n h : pixel p → lite 0xC 0xF6 n h → encoded (SetFgRun p n) (h ++ write_pixel p)
| enc_dithered n a b h : pixel a → pixel b → lite 0xE 0xF8 n h →
    encoded (DitheredRun n a b) (h ++ write_pixel a ++ write_pixel b)
| enc_color n c h : pixel c → regular 3 0xF3 n h → encoded (ColorRun n c) (h ++ write_pixel c)
| enc_fgbg n masks h : masks_ok n masks → regular_fgbg n h → encoded (FgBgImage n masks) (h ++ masks)
| enc_set_fgbg p n masks h : pixel p → masks_ok n masks → lite_fgbg n h →
    encoded (SetFgBgImage p n masks) (h ++ write_pixel p ++ masks)
| enc_image ps h : Forall pixel ps → regular 4 0xF4 (zlen ps) h →
    encoded (ColorImage ps) (h ++ mjoin (map write_pixel ps))
| enc_fgbg1 : encoded FgBg1 [0xF9]
| enc_fgbg2 : encoded FgBg2 [0xFA]
| enc_white : encoded White [0xFD]
| enc_black : encoded Black [0xFE].

(** Two background runs in a row: the second is not empty. *)
Definition order_ok (pc : picture) (o : order) : Prop :=
  match o with BgRun n => pc_insert (next_line pc) = true → 1 <= n | _ => True end.
Fixpoint orders_ok (os : list order) (pc : picture) : Prop :=
  match os with [] => True | o :: os => order_ok pc o ∧ orders_ok os (apply_order pc o) end.
End meaning.

(** * The decoder on a picture *)

Section decoder.
Context {HF : PixelFormat} {HL : PixelLaws HF}.
Context (w pbDestEnd : Z).
Hypothesis Hw : 0 < w.
Hypothesis Hend : pbDestEnd <= UINT32_MAX.

Definition pixels_bytes (l : list Z) : list Z := mjoin (map write_pixel l).
Lemma pixels_bytes_app l1 l2 : pixels_bytes (l1 ++ l2) = pixels_bytes l1 ++ pixels_bytes l2.
Proof. unfold pixels_bytes. by rewrite map_app, join_app. Qed.
Lemma zlen_pixels_bytes l : zlen (pixels_bytes l) = zlen l * PIXEL_SIZE.
Proof.
  induction l as [|x l IH]; [done|]. change (pixels_bytes (x :: l)) with (write_pixel x ++ pixels_bytes l).
  rewrite zlen_app, zlen_cons, zlen_write_pixel, IH. lia.
Qed.

(** The state with the pixels [l] written, [rest] behind them. *)
Definition drawn (src l rest : list Z) : rle_state := mkRle src (pixels_bytes l ++ rest) (zlen l * PIXEL_SIZE).
(** The image fits into the buffer. *)
Definition fits (l rest : list Z) : Prop := pbDestEnd <= zlen l * PIXEL_SIZE + zlen rest.

Lemma fits_more l rest n l' :
  fits l rest → 0 <= n → zlen l' = zlen l + n → zlen l' * PIXEL_SIZE <= pbDestEnd →
  fits l' (zdrop (n * PIXEL_SIZE) rest).
Proof. unfold fits. intros Hf Hn Hl He. pose proof pixel_size. rewrite zlen_zdrop, Hl. rewrite Hl in He. nia. Qed.

Lemma write_drawn src l rest p :
  fits l rest → (zlen l + 1) * PIXEL_SIZE <= pbDestEnd →
  DESTWRITEPIXEL p (drawn src l rest) = Ret (Some tt, drawn src (l ++ [p]) (zdrop PIXEL_SIZE rest)).
Proof.
  unfold fits. intros Hf He. pose proof pixel_size. pose proof (zlen_nonneg l). unfold DESTWRITEPIXEL, drawn. cbn [pbDest pbDestBuffer pbSrc].
  rewrite zlen_app, zlen_pixels_bytes. destruct (Z.leb_spec 0 (zlen l * PIXEL_SIZE)); [|nia]. cbn [andb].
  destruct (Z.leb_spec (zlen l * PIXEL_SIZE + PIXEL_SIZE) (zlen l * PIXEL_SIZE + zlen rest)); [|lia].
  do 3 f_equal.
  - unfold zblit. rewrite zlen_write_pixel, pixels_bytes_app.
    rewrite ztake_app_ge, ztake_nonpos, app_nil_r by (rewrite zlen_pixels_bytes; lia).
    rewrite zdrop_app_ge by (rewrite zlen_pixels_bytes; lia). rewrite zlen_pixels_bytes.
    change (pixels_bytes [p]) with (write_pixel p ++ []). rewrite app_nil_r, <- app_assoc. do 3 f_equal. lia.
  - rewrite zlen_app, zlen_cons, zlen_nil. lia.
Qed.

Lemma read_drawn src l rest :
  Forall pixel l → w <= zlen l →
  DESTREADPIXEL (w * PIXEL_SIZE) (drawn src l rest) = Ret (Some (zget l (zlen l - w)), drawn src l rest).
Proof.
  intros Hp Hl. pose proof pixel_size. unfold DESTREADPIXEL, drawn. cbn [pbDest pbDestBuffer].
  set (i := zlen l - w). rewrite zlen_app, zlen_pixels_bytes. pose proof (zlen_nonneg rest).
  replace (zlen l * PIXEL_SIZE - w * PIXEL_SIZE) with (i * PIXEL_SIZE) by (subst i; lia).
  destruct (Z.leb_spec 0 (i * PIXEL_SIZE)); [|subst i; nia]. cbn [andb].
  destruct (Z.leb_spec (i * PIXEL_SIZE + PIXEL_SIZE) (zlen l * PIXEL_SIZE + zlen rest)); [|subst i; nia].
  do 2 f_equal. f_equal. rewrite <- (ztake_zdrop i l) at 1. rewrite pixels_bytes_app, <- app_assoc.
  assert (zlen (ztake i l) = i) as Hi by (rewrite zlen_ztake; subst i; lia).
  rewrite zdrop_app_ge, zdrop_nonpos by (rewrite zlen_pixels_bytes; lia).
  assert (zget l i = zget (zdrop i l) 0) as Hg by (rewrite zget_zdrop by (subst i; lia); f_equal; lia).
  assert (0 < zlen (zdrop i l)) as Hz by (rewrite zlen_zdrop; subst i; lia).
  assert (Forall pixel (zdrop i l)) as Hpd by (by apply Forall_zdrop). rewrite Hg.
  destruct (zdrop i l) as [|x l']; [unfold zlen in Hz; cbn in Hz; lia|]. apply Forall_cons_1 in Hpd as [Hx _].
  change (pixels_bytes (x :: l')) with (write_pixel x ++ pixels_bytes l'). rewrite <- app_assoc.
  by rewrite read_write_pixel.
Qed.

Lemma zlen_emit first fs l : zlen (emit w first fs l) = zlen l + zlen fs.
Proof.
  revert l. induction fs as [|f fs IH]; intros l; cbn [emit]; [rewrite zlen_nil; lia|].
  rewrite IH, zlen_app, !zlen_cons, zlen_nil. lia.
Qed.
Lemma emit_app first fs1 fs2 l : emit w first (fs1 ++ fs2) l = emit w first fs2 (emit w first fs1 l).
Proof. revert l. induction fs1 as [|f fs IH]; intros l; cbn [emit app]; [done|apply IH]. Qed.
Lemma emit_pixels first fs l :
  (∀ p, pixel p → Forall (λ f : Z → Z, pixel (f p)) fs) → Forall pixel l → Forall pixel (emit w first fs l).
Proof.
  assert (pixel 0) as P0 by (unfold pixel; pose proof white_range; lia).
  revert l. induction fs as [|f fs IH]; intros l Hf Hl; cbn [emit]; [done|]. apply IH.
  - intros p Hp. specialize (Hf p Hp). by apply Forall_cons_1 in Hf as [_ Hf].
  - apply Forall_app_2; [done|]. constructor; [|constructor].
    assert (pixel (above w first l)) as Ha.
    { unfold above. destruct first; [done|]. unfold zget.
      destruct (nth_in_or_default (Z.to_nat (zlen l - w)) l 0) as [Hin| ->]; [|done].
      rewrite List.Forall_forall in Hl. by apply Hl. }
    specialize (Hf _ Ha). by apply Forall_cons_1 in Hf as [Hf _].
Qed.

(** ** Loops *)

Definition keeps_pixels (fs : list (Z → Z)) : Prop := ∀ p, pixel p → Forall (λ f : Z → Z, pixel (f p)) fs.

(** Code that reads [bs] and writes the pixels [fs]. *)
Definition draws {A} (bs : list Z) (m : DM A) (first : bool) (fs : list (Z → Z)) (a : A) : Prop :=
  ∀ src l rest, Forall pixel l → (first = false → w <= zlen l) → fits l rest →
    (zlen l + zlen fs) * PIXEL_SIZE <= pbDestEnd → zlen bs + zlen src <= UINT32_MAX →
    m (drawn (bs ++ src) l rest) =
      Ret (Some a, drawn src (emit w first fs l) (zdrop (zlen fs * PIXEL_SIZE) rest)).

Lemma draws_ret {A} first (a : A) : draws [] (mret a) first [] a.
Proof. intros src l rest _ _ _ _ _. cbn [emit]. by rewrite (zdrop_nonpos (zlen [] * PIXEL_SIZE)) by (change (zlen (@nil (Z → Z))) with 0; lia). Qed.
Lemma draws_bind {A B} bs1 bs2 first fs1 fs2 (m : DM A) (k : A → DM B) a b :
  keeps_pixels fs1 → draws bs1 m first fs1 a → draws bs2 (k a) first fs2 b → draws (bs1 ++ bs2) (m ≫= k) first (fs1 ++ fs2) b.
Proof.
  intros Hk Hm Hb src l rest Hp Hf Hfit He Hs. rewrite zlen_app in He. rewrite zlen_app in Hs. pose proof pixel_size.
  pose proof (zlen_nonneg fs1). pose proof (zlen_nonneg fs2).
  assert ((zlen l + zlen fs1) * PIXEL_SIZE <= pbDestEnd) by nia.
  unfold mbind, DM_bind. rewrite <- app_assoc. rewrite Hm by (done || rewrite zlen_app; lia). rewrite Hb.
  - rewrite emit_app, zlen_app, zdrop_zdrop by nia. do 3 f_equal. f_equal. lia.
  - by apply emit_pixels.
  - intros E. rewrite zlen_emit. specialize (Hf E). lia.
  - apply (fits_more l); [done|lia|apply zlen_emit|rewrite zlen_emit; nia].
  - rewrite zlen_emit. nia.
  - pose proof (zlen_nonneg bs1). lia.
Qed.
Lemma keeps_app fs1 fs2 : keeps_pixels fs1 → keeps_pixels fs2 → keeps_pixels (fs1 ++ fs2).
Proof. intros H1 H2 p Hp. by apply Forall_app_2; [apply H1|apply H2]. Qed.
Lemma draws_write first p f : (∀ l, f (above w first l) = p) → draws [] (DESTWRITEPIXEL p) first [f] tt.
Proof.
  intros Hf src l rest _ _ Hfit He _. change (zlen [f]) with 1 in *. cbn [app]. rewrite write_drawn by done.
  cbn [emit]. by rewrite Hf, Z.mul_1_l.
Qed.
Lemma draws_xor f : draws [] (xor_pixel (w * PIXEL_SIZE) f tt) false [f] tt.
Proof.
  intros src l rest Hp Hf Hfit He _. change (zlen [f]) with 1 in *. unfold xor_pixel, mbind, DM_bind. cbn [app].
  rewrite read_drawn by auto. rewrite write_drawn by done. cbn [emit above]. by rewrite Z.mul_1_l.
Qed.

Fixpoint steps {A} (g : A → list (Z → Z)) (nx : A → A) (n : nat) (a : A) : list (Z → Z) :=
  match n with O => [] | S n => g a ++ steps g nx n (nx a) end.
Lemma draws_unroll {A} (body : A → DM A) first g nx n a :
  0 <= n → (∀ a, keeps_pixels (g a)) → (∀ a, draws [] (body a) first (g a) (nx a)) →
  draws [] (UNROLL n body a) first (steps g nx (Z.to_nat n) a) (Nat.iter (Z.to_nat n) nx a).
Proof.
  intros Hn Hk Hb src l rest. cbn [app]. rewrite UNROLL_spec by done. revert src l rest.
  change (draws [] (UNROLL_BODY body (Z.to_nat n) a) first (steps g nx (Z.to_nat n) a) (Nat.iter (Z.to_nat n) nx a)).
  generalize (Z.to_nat n) as m. intros m. revert a. induction m as [|m IH]; intros a; cbn [UNROLL_BODY steps].
  - apply draws_ret.
  - rewrite Nat.iter_succ_r. by apply (draws_bind [] [] _ _ _ _ _ (nx a)).
Qed.
Lemma steps_const {A} (f : Z → Z) nx n (a : A) : steps (λ _, [f]) nx n a = replicate n f.
Proof. revert a. induction n as [|n IH]; intros a; [done|]. cbn. by rewrite IH. Qed.
Lemma keeps_replicate n f : (∀ p, pixel p → pixel (f p)) → keeps_pixels (replicate n f).
Proof. intros Hf p Hp. apply Forall_replicate. by apply Hf. Qed.

Lemma draws_unit_unroll (body : unit → DM unit) first f n :
  0 <= n → (∀ p, pixel p → pixel (f p)) → draws [] (body tt) first [f] tt →
  draws [] (UNROLL n body tt) first (replicate (Z.to_nat n) f) tt.
Proof.
  intros Hn Hf Hb. rewrite <- (steps_const f (λ x, x) (Z.to_nat n) tt).
  assert (Nat.iter (Z.to_nat n) (λ x : unit, x) tt = tt) as Ei by (by destruct (Nat.iter _ _ _)).
  pose proof (draws_unroll body first (λ _, [f]) (λ x, x) n tt Hn) as H. rewrite Ei in H. apply H; [|by intros []].
  intros _. apply (keeps_replicate 1 f Hf).
Qed.

(** Code that only checks. *)
Lemma draws_ensure {A} bs first fs n (m : DM A) a :
  0 <= n <= UINT32_MAX → n <= zlen fs → draws bs m first fs a → draws bs (ENSURE_CAPACITY pbDestEnd n;; m) first fs a.
Proof.
  intros Hn Hle Hm src l rest Hp Hf Hfit He Hs. unfold mbind, DM_bind, ENSURE_CAPACITY.
  pose proof pixel_size. pose proof (zlen_nonneg l). cbn [pbDest drawn].
  assert (pbDestEnd <= SIZE_MAX) by (unfold SIZE_MAX, UINT32_MAX in *; lia).
  rewrite ensure_capacity_within by nia. destruct (Z.leb_spec (zlen l * PIXEL_SIZE + n * PIXEL_SIZE) pbDestEnd); [|nia].
  cbn [require mret DM_ret]. by apply Hm.
Qed.

(** ** Headers *)

Lemma code_id b :
  is_byte b → ExtractCodeId b = if b <? 0xC0 then b / 32 else if b <? 0xF0 then b / 16 else b.
Proof.
  intros Hb. apply Z.eqb_eq.
  apply (byte_cases (λ b, ExtractCodeId b =? if b <? 0xC0 then b / 32 else if b <? 0xF0 then b / 16 else b)); [|done].
  by vm_compute.
Qed.
Lemma regular_mask b : Z.land b g_MaskRegularRunLength = b mod 32.
Proof. by apply (land_mask b 5). Qed.
Lemma lite_mask b : Z.land b g_MaskLiteRunLength = b mod 16.
Proof. by apply (land_mask b 4). Qed.

(** The header [h] is of an order with one of two codes, and of the length [n]. *)
Definition header (c mega : Z) (h : list Z) (n : Z) : Prop :=
  ∃ b h', h = b :: h' ∧ (ExtractCodeId b = c ∨ ExtractCodeId b = mega) ∧ 0 <= n <= 65535 ∧
    ∀ first, draws h (read_run (ExtractCodeId b)) first [] n.

Lemma header_intro c mega b h' n :
  (ExtractCodeId b = c ∨ ExtractCodeId b = mega) → 0 <= n <= 65535 →
  (∀ src, ExtractRunLength (ExtractCodeId b) (b :: h' ++ src) = Ret (n, 1 + zlen h')) →
  header c mega (b :: h') n.
Proof.
  intros Hc Hn Hr. exists b, h'. split_and!; [done|done|lia|lia|]. intros first src l rest _ _ _ _ _.
  unfold read_run. cbn [drawn pbSrc app]. rewrite Hr. pose proof (zlen_nonneg h'). pose proof (zlen_nonneg src).
  destruct (Z.eqb_spec (1 + zlen h') 0); [lia|]. destruct (Z.leb_spec (1 + zlen h') (zlen (b :: h' ++ src))); [|zlia].
  do 3 f_equal. unfold drawn. change (zlen (@nil (Z → Z))) with 0. cbn [emit]. rewrite (zdrop_nonpos (0 * _)) by lia.
  f_equal. change (b :: h' ++ src) with ((b :: h') ++ src). rewrite zdrop_app_ge, zdrop_nonpos by zlia. done.
Qed.

Lemma mega_length n : 0 <= n <= UINT16_MAX →
  Z.lor (Z.land n 255) (Z.land (Z.shiftl (Z.land (Z.shiftr n 8) 255) 8) 0xFF00) = n.
Proof.
  intros Hn. unfold UINT16_MAX in Hn. rewrite !land_u8. rewrite shifted_byte, lor_byte by apply is_byte_u8. unfold u8.
  rewrite Z.shiftr_div_pow2 by lia. change (2 ^ 8) with 256. div_mod_lia.
Qed.
Lemma mega_run b n src :
  0 <= n <= UINT16_MAX →
  ExtractRunLengthMegaMega (b :: [Z.land n 255; Z.land (Z.shiftr n 8) 255] ++ src) 1 = Ret (n, 3).
Proof.
  intros Hn. unfold ExtractRunLengthMegaMega, buffer_within_range. pose proof (zlen_nonneg src).
  destruct (Z.gtb_spec 3 (zlen (b :: [Z.land n 255; Z.land (Z.shiftr n 8) 255] ++ src))); [zlia|]. cbn [negb].
  rewrite !src_byte_in by zlia. cbn [mbind outcome_bind]. do 2 f_equal. by apply mega_length.
Qed.

(** A length in the header or the byte behind it. *)
Lemma short_run b l mask f g m :
  Z.land b mask = m → m ≠ 0 →
  (h ← src_byte (b :: l) 0;
   if Z.land h mask =? 0 then
     if negb (buffer_within_range (b :: l) 2) then Ret (0, 0) else x ← src_byte (b :: l) 1; Ret (g x, 1 + 1)
   else Ret (f (Z.land h mask), 1)) = Ret (f m, 1).
Proof.
  intros Hm Hne. rewrite (src_byte_in _ 0) by zlia. cbn [mbind outcome_bind]. change (zget (b :: l) 0) with b. rewrite Hm.
  by destruct (Z.eqb_spec m 0).
Qed.
Lemma long_run b x l mask f g :
  Z.land b mask = 0 →
  (h ← src_byte (b :: x :: l) 0;
   if Z.land h mask =? 0 then
     if negb (buffer_within_range (b :: x :: l) 2) then Ret (0, 0) else x ← src_byte (b :: x :: l) 1; Ret (g x, 1 + 1)
   else Ret (f (Z.land h mask), 1)) = Ret (g x, 2).
Proof.
  intros Hm. rewrite (src_byte_in _ 0) by zlia. cbn [mbind outcome_bind]. change (zget (b :: x :: l) 0) with b. rewrite Hm.
  unfold buffer_within_range. destruct (Z.gtb_spec 2 (zlen (b :: x :: l))); [zlia|]. cbn [negb Z.eqb].
  rewrite src_byte_in by zlia. done.
Qed.

Lemma regular_header c n h :
  c = 0 ∨ c = 1 ∨ c = 3 ∨ c = 4 → regular c (0xF0 + c) n h → header c (0xF0 + c) h n.
Proof.
  intros Hcs Hr. destruct Hr as [Hn|Hn|Hn].
  - assert (ExtractCodeId (c * 32 + n) = c) as E.
    { rewrite code_id by (unfold is_byte; lia). destruct (Z.ltb_spec (c * 32 + n) 0xC0); [|lia]. div_mod_lia. }
    apply header_intro; [auto|lia|]. intros src. rewrite E.
    assert (∀ l, ExtractRunLengthRegular (c * 32 + n :: l) 1 = Ret (n, 1)) as Er.
    { intros l. apply (short_run (c * 32 + n) l g_MaskRegularRunLength (λ r, r) (λ x, x + 32)); [|lia].
      rewrite regular_mask. div_mod_lia. }
    destruct Hcs as [->|[->|[->| ->]]]; apply Er.
  - assert (ExtractCodeId (c * 32) = c) as E.
    { rewrite code_id by (unfold is_byte; lia). destruct (Z.ltb_spec (c * 32) 0xC0); [|lia]. div_mod_lia. }
    apply header_intro; [auto|lia|]. intros src. rewrite E.
    assert (∀ l, ExtractRunLengthRegular (c * 32 :: n - 32 :: l) 1 = Ret (n, 2)) as Er.
    { intros l. replace n with (n - 32 + 32) at 2 by lia.
      apply (long_run (c * 32) (n - 32) l g_MaskRegularRunLength (λ r, r) (λ x, x + 32)).
      rewrite regular_mask. div_mod_lia. }
    destruct Hcs as [->|[->|[->| ->]]]; apply Er.
  - assert (ExtractCodeId (0xF0 + c) = 0xF0 + c) as E.
    { rewrite code_id by (unfold is_byte; lia). by destruct (Z.ltb_spec (0xF0 + c) 0xC0), (Z.ltb_spec (0xF0 + c) 0xF0); try lia. }
    apply header_intro; [auto|unfold UINT16_MAX in *; lia|]. intros src. rewrite E.
    destruct Hcs as [->|[->|[->| ->]]]; apply mega_run; done.
Qed.

Lemma lite_header c mega n h :
  c = 0xC ∧ mega = 0xF6 ∨ c = 0xE ∧ mega = 0xF8 → lite c mega n h → header c mega h n.
Proof.
  intros Hcs Hr. destruct Hr as [Hn|Hn|Hn].
  - assert (ExtractCodeId (c * 16 + n) = c) as E.
    { rewrite code_id by (unfold is_byte; lia).
      destruct (Z.ltb_spec (c * 16 + n) 0xC0), (Z.ltb_spec (c * 16 + n) 0xF0); try lia; div_mod_lia. }
    apply header_intro; [auto|lia|]. intros src. rewrite E.
    assert (∀ l, ExtractRunLengthLite (c * 16 + n :: l) 1 = Ret (n, 1)) as Er.
    { intros l. apply (short_run (c * 16 + n) l g_MaskLiteRunLength (λ r, r) (λ x, x + 16)); [|lia].
      rewrite lite_mask. div_mod_lia. }
    destruct Hcs as [[-> ->]|[-> ->]]; apply Er.
  - assert (ExtractCodeId (c * 16) = c) as E.
    { rewrite code_id by (unfold is_byte; lia).
      destruct (Z.ltb_spec (c * 16) 0xC0), (Z.ltb_spec (c * 16) 0xF0); try lia; div_mod_lia. }
    apply header_intro; [auto|lia|]. intros src. rewrite E.
    assert (∀ l, ExtractRunLengthLite (c * 16 :: n - 16 :: l) 1 = Ret (n, 2)) as Er.
    { intros l. replace n with (n - 16 + 16) at 2 by lia.
      apply (long_run (c * 16) (n - 16) l g_MaskLiteRunLength (λ r, r) (λ x, x + 16)).
      rewrite lite_mask. div_mod_lia. }
    destruct Hcs as [[-> ->]|[-> ->]]; apply Er.
  - apply header_intro; [right; by destruct Hcs as [[-> ->]|[-> ->]]|unfold UINT16_MAX in *; lia|]. intros src.
    destruct Hcs as [[-> ->]|[-> ->]]; apply mega_run; done.
Qed.

Lemma regular_fgbg_header n h : regular_fgbg n h → header 2 0xF2 h n.
Proof.
  intros [m Hm ->|Hn|Hn].
  - assert (ExtractCodeId (0x40 + m) = 2) as E.
    { rewrite code_id by (unfold is_byte; lia). destruct (Z.ltb_spec (0x40 + m) 0xC0); [|lia]. div_mod_lia. }
    apply header_intro; [auto|lia|]. intros src. rewrite E, (Z.mul_comm 8 m).
    apply (short_run (0x40 + m) src g_MaskRegularRunLength (λ r, r * 8) (λ x, x + 1)); [|lia].
    rewrite regular_mask. div_mod_lia.
  - apply header_intro; [by left|lia|]. intros src. replace n with (n - 1 + 1) at 2 by lia.
    by apply (long_run 0x40 (n - 1) src g_MaskRegularRunLength (λ r, r * 8) (λ x, x + 1)).
  - apply header_intro; [by right|unfold UINT16_MAX in *; lia|]. intros src. by apply mega_run.
Qed.
Lemma lite_fgbg_header n h : lite_fgbg n h → header 0xD 0xF7 h n.
Proof.
  intros [m Hm ->|Hn|Hn].
  - assert (ExtractCodeId (0xD0 + m) = 0xD) as E.
    { rewrite code_id by (unfold is_byte; lia).
      destruct (Z.ltb_spec (0xD0 + m) 0xC0), (Z.ltb_spec (0xD0 + m) 0xF0); try lia; div_mod_lia. }
    apply header_intro; [auto|lia|]. intros src. rewrite E, (Z.mul_comm 8 m).
    apply (short_run (0xD0 + m) src g_MaskLiteRunLength (λ r, r * 8) (λ x, x + 1)); [|lia].
    rewrite lite_mask. div_mod_lia.
  - apply header_intro; [by left|lia|]. intros src. replace n with (n - 1 + 1) at 2 by lia.
    by apply (long_run 0xD0 (n - 1) src g_MaskLiteRunLength (λ r, r * 8) (λ x, x + 1)).
  - apply header_intro; [by right|unfold UINT16_MAX in *; lia|]. intros src. by apply mega_run.
Qed.

(** ** Orders *)

Lemma pixel_lxor p q : pixel p → pixel q → pixel (Z.lxor p q).
Proof. apply lxor_range. Qed.
Lemma pixel_black : pixel 0.
Proof. unfold pixel. pose proof white_range. lia. Qed.
Lemma pixel_white : pixel WHITE_PIXEL.
Proof. unfold pixel. pose proof white_range. lia. Qed.

Lemma draws_eq {A} bs (m : DM A) first fs a fs' : fs = fs' → draws bs m first fs a → draws bs m first fs' a.
Proof. by intros ->. Qed.
Lemma draws_then {A B} bs1 bs2 (m : DM A) (k : A → DM B) first fs a b :
  draws bs1 m first [] a → draws bs2 (k a) first fs b → draws (bs1 ++ bs2) (m ≫= k) first fs b.
Proof. intros Hm Hk. apply (draws_bind bs1 bs2 first [] fs m k a b); [by intros p _|done|done]. Qed.
Lemma draws_last {A B} bs (m : DM A) (b : B) first fs a :
  keeps_pixels fs → draws bs m first fs a → draws bs (m ≫= λ _, mret b) first fs b.
Proof.
  intros Hk Hm. rewrite <- (app_nil_r bs), <- (app_nil_r fs).
  apply (draws_bind bs [] first fs [] m _ a b); [done|done|]. apply draws_ret.
Qed.

Lemma draws_put first f p n :
  0 <= n → pixel p → (∀ l, f (above w first l) = p) → (∀ q, pixel q → pixel (f q)) →
  draws [] (UNROLL n (put_pixel p) tt) first (replicate (Z.to_nat n) f) tt.
Proof. intros Hn Hp Hf Hk. apply draws_unit_unroll; [done|done|]. by apply draws_write. Qed.
Lemma draws_copy f n :
  0 <= n → (∀ q, pixel q → pixel (f q)) →
  draws [] (UNROLL n (xor_pixel (w * PIXEL_SIZE) f) tt) false (replicate (Z.to_nat n) f) tt.
Proof. intros Hn Hk. apply draws_unit_unroll; [done|done|]. apply draws_xor. Qed.
Lemma zlen_run {A} n (f : A) : 0 <= n → zlen (replicate (Z.to_nat n) f) = n.
Proof. intros. rewrite zlen_replicate. lia. Qed.

Lemma draws_fg_run first fg n :
  pixel fg → 0 <= n <= 65535 →
  draws [] (fg_run (w * PIXEL_SIZE) pbDestEnd fg first n) first (replicate (Z.to_nat n) (λ x, Z.lxor x fg)) tt.
Proof.
  intros Hp Hn. unfold fg_run. apply draws_ensure; [unfold UINT32_MAX; lia|rewrite zlen_run; lia|].
  destruct first; [apply draws_put|apply draws_copy]; try done; try lia; intros q Hq; by apply pixel_lxor.
Qed.

Lemma draws_insert {A} f (x : A) :
  draws [] (temp ← DESTREADPIXEL (w * PIXEL_SIZE); ENSURE_CAPACITY pbDestEnd 1;; DESTWRITEPIXEL (f temp);; mret x)
        false [f] x.
Proof.
  intros src l rest Hp Hf Hfit He Hs. cbn [app]. unfold mbind at 1. unfold DM_bind at 1. rewrite read_drawn by auto.
  assert (draws [] (ENSURE_CAPACITY pbDestEnd 1;; DESTWRITEPIXEL (f (zget l (zlen l - w)));; mret x) true
            [λ _, f (zget l (zlen l - w))] x) as H.
  { apply draws_ensure; [unfold UINT32_MAX; lia|done|].
    intros src' l' rest' _ _ Hfit' He' _. unfold mbind, DM_bind. cbn [app]. by rewrite (write_drawn _ _ _ _ Hfit' He'), Z.mul_1_l. }
  by apply (H src l rest).
Qed.

Lemma draws_bg_run first insert fg n :
  pixel fg → 0 <= n <= 65535 → (insert = true → 1 <= n) →
  draws [] (bg_run (w * PIXEL_SIZE) pbDestEnd fg insert first n) first (order_fs fg insert (BgRun n)) tt.
Proof.
  intros Hp Hn Hi. unfold bg_run, order_fs. destruct insert.
  - specialize (Hi eq_refl). assert (u32 (n - 1) = n - 1) as Eu by (unfold u32; apply Z.mod_small; lia).
    assert (keeps_pixels [λ x, Z.lxor x fg]) as Hk by (intros p Hpp; repeat constructor; by apply pixel_lxor).
    destruct first.
    + apply (draws_bind [] [] true [λ x, Z.lxor x fg] _ _ _ (u32 (n - 1)) tt Hk).
      * apply draws_ensure; [unfold UINT32_MAX; lia|done|]. eapply draws_last; [done|]. by apply draws_write.
      * rewrite Eu. apply draws_ensure; [unfold UINT32_MAX; lia|rewrite zlen_run; lia|].
        apply draws_put; [lia|apply pixel_black|done|done].
    + apply (draws_bind [] [] false [λ x, Z.lxor x fg] _ _ _ (u32 (n - 1)) tt Hk).
      * apply draws_insert.
      * rewrite Eu. apply draws_ensure; [unfold UINT32_MAX; lia|rewrite zlen_run; lia|]. by apply draws_copy; [lia|].
  - destruct first.
    + apply (draws_then [] [] _ _ _ _ n); [apply draws_ret|].
      apply draws_ensure; [unfold UINT32_MAX; lia|rewrite zlen_run; lia|].
      apply draws_put; [lia|apply pixel_black|done|done].
    + apply (draws_then [] [] _ _ _ _ n); [apply draws_ret|].
      apply draws_ensure; [unfold UINT32_MAX; lia|rewrite zlen_run; lia|]. by apply draws_copy; [lia|].
Qed.

(** ** Reading the source *)

Lemma zdrop_zero {A} (l : list A) k : zdrop (zlen (@nil (Z → Z)) * k) l = l.
Proof. by rewrite zdrop_nonpos by (change (zlen (@nil (Z → Z))) with 0; lia). Qed.
Lemma draws_read_src b first : draws [b] read_src first [] b.
Proof. intros src l rest _ _ _ _ _. cbn [emit]. by rewrite zdrop_zero. Qed.
Lemma draws_src_pixel p first : pixel p → draws (write_pixel p) SRCREADPIXEL first [] p.
Proof.
  intros Hp src l rest _ _ _ _ _. cbn [emit]. rewrite zdrop_zero. unfold SRCREADPIXEL. cbn [drawn pbSrc].
  rewrite zlen_app, zlen_write_pixel. pose proof (zlen_nonneg src).
  destruct (Z.leb_spec PIXEL_SIZE (PIXEL_SIZE + zlen src)); [|lia]. rewrite read_write_pixel by done.
  rewrite zdrop_app_ge, zdrop_nonpos by (rewrite zlen_write_pixel; lia). done.
Qed.
Lemma draws_within {A} k bs (m : DM A) first fs a :
  k <= zlen bs → draws bs m first fs a → draws bs (within_range k;; m) first fs a.
Proof.
  intros Hk Hm src l rest Hp Hf Hfit He Hs. unfold mbind, DM_bind, within_range, buffer_within_range. cbn [drawn pbSrc].
  rewrite zlen_app. pose proof (zlen_nonneg src). destruct (Z.gtb_spec k (zlen bs + zlen src)); [lia|].
  cbn [negb require mret DM_ret]. by apply Hm.
Qed.
Lemma draws_ensure_src {A} n bs (m : DM A) first fs a :
  0 <= n <= UINT32_MAX → n * PIXEL_SIZE <= zlen bs → draws bs m first fs a → draws bs (ENSURE_SRC n;; m) first fs a.
Proof.
  intros Hn Hk Hm src l rest Hp Hf Hfit He Hs. unfold mbind, DM_bind, ENSURE_SRC. cbn [drawn pbSrc].
  rewrite zlen_app. pose proof (zlen_nonneg src). pose proof (zlen_nonneg bs).
  assert (zlen bs + zlen src <= SIZE_MAX) by (unfold SIZE_MAX, UINT32_MAX in *; lia).
  rewrite ensure_capacity_within by lia. destruct (Z.leb_spec (0 + n * PIXEL_SIZE) (zlen bs + zlen src)); [|lia].
  cbn [require mret DM_ret]. by apply Hm.
Qed.
Lemma draws_checked_pixel p first : pixel p → draws (write_pixel p) read_checked_pixel first [] p.
Proof. intros Hp. apply draws_within; [rewrite zlen_write_pixel; lia|]. by apply draws_src_pixel. Qed.
Lemma draws_assoc {A B C} bs (m : DM A) (k : A → DM B) (t : B → DM C) first fs c :
  draws bs (m ≫= λ a, k a ≫= t) first fs c → draws bs ((m ≫= k) ≫= t) first fs c.
Proof.
  intros H src l rest Hp Hf Hfit He Hs. rewrite <- (H src l rest) by done. unfold mbind, DM_bind.
  by destruct (m _) as [[[a|] st]|].
Qed.

(** ** Masks *)

Lemma land_bit b k : 0 <= k → negb (Z.land b (2 ^ k) =? 0) = Z.testbit b k.
Proof.
  intros Hk. destruct (Z.testbit b k) eqn:E.
  - apply negb_true_iff, Z.eqb_neq. intros H. assert (Z.testbit (Z.land b (2 ^ k)) k = true) as Hb.
    { by rewrite Z.land_spec, E, Z.pow2_bits_true. }
    by rewrite H, Z.bits_0 in Hb.
  - apply negb_false_iff, Z.eqb_eq, Z.bits_inj'. intros i Hi. rewrite Z.bits_0, Z.land_spec, Z.pow2_bits_eqb by lia.
    destruct (Z.eqb_spec k i) as [->|]; [by rewrite E|by rewrite andb_false_r].
Qed.
Lemma next_mask k : 0 <= k < 7 → Z.land (Z.shiftl (2 ^ k) 1) 0xFF = 2 ^ (k + 1).
Proof.
  intros Hk. rewrite land_u8, Z.shiftl_mul_pow2, Z.pow_add_r by lia. change (2 ^ 1) with 2. unfold u8.
  apply Z.mod_small. assert (2 ^ k <= 2 ^ 6) as H by (apply Z.pow_le_mono_r; lia). change (2 ^ 6) with 64 in H.
  pose proof (Z.pow_pos_nonneg 2 k). lia.
Qed.

Definition mask_step (fg b mask : Z) : list (Z → Z) := [λ x, if negb (Z.land b mask =? 0) then Z.lxor x fg else x].
Lemma mask_steps fg b n k :
  (k + n <= 8)%nat →
  steps (mask_step fg b) (λ mask, Z.land (Z.shiftl mask 1) 0xFF) n (2 ^ Z.of_nat k) =
  map (λ (i : nat) x, if Z.testbit b (Z.of_nat i) then Z.lxor x fg else x) (seq k n).
Proof.
  revert k. induction n as [|n IH]; intros k Hk; [done|]. cbn [steps seq map]. unfold mask_step at 1.
  rewrite land_bit by lia. cbn [app]. f_equal. destruct n as [|n]; [done|]. rewrite next_mask by lia.
  replace (Z.of_nat k + 1) with (Z.of_nat (S k)) by lia. apply IH. lia.
Qed.

Lemma keeps_mask fg b c : pixel fg → keeps_pixels (mask_fs fg b c).
Proof.
  intros Hp p Hpp. unfold mask_fs. apply Forall_forall. intros f Hf.
  apply in_map_iff in Hf as (i & <- & _). destruct (Z.testbit _ _); [by apply pixel_lxor|done].
Qed.
Lemma keeps_masks fg n masks : pixel fg → keeps_pixels (masks_fs fg n masks).
Proof.
  intros Hp. revert n. induction masks as [|b masks IH]; intros n; cbn [masks_fs]; [by intros p _|].
  apply keeps_app; [by apply keeps_mask|apply IH].
Qed.
Lemma zlen_mask_fs fg b c : 0 <= c → zlen (mask_fs fg b c) = c.
Proof. intros. unfold mask_fs, zlen. rewrite length_map, length_seq. lia. Qed.

Lemma draws_write_fgbg first b fg c :
  pixel fg → 0 <= c <= 8 →
  draws [] (write_fgbg (w * PIXEL_SIZE) pbDestEnd first b fg c) first (mask_fs fg b c) tt.
Proof.
  intros Hp Hc. assert (∀ a, keeps_pixels (mask_step fg b a)) as Hk.
  { intros a p Hpp. apply Forall_singleton. destruct (negb _); [by apply pixel_lxor|done]. }
  assert (steps (mask_step fg b) (λ mask, Z.land (Z.shiftl mask 1) 0xFF) (Z.to_nat c) 0x01 = mask_fs fg b c) as Es
    by (apply (mask_steps fg b (Z.to_nat c) 0); lia).
  unfold write_fgbg, WRITEFIRSTLINEFGBGIMAGE, WRITEFGBGIMAGE.
  destruct first; (destruct (Z.gtb_spec c 8); [lia|]);
    (apply draws_ensure; [unfold UINT32_MAX; lia|rewrite zlen_mask_fs; lia|]);
    (eapply draws_last; [by apply keeps_mask|]); rewrite <- Es; apply draws_unroll; try done; try lia; intros mask.
  - eapply draws_last; [apply Hk|]. apply draws_write. intros l. cbn [above]. by destruct (negb _).
  - intros src l rest Hpl Hf Hfit He Hs. cbn [app]. unfold mbind, DM_bind. rewrite read_drawn by auto.
    rewrite write_drawn by (done || exact He). cbn [emit mask_step above]. by rewrite Z.mul_1_l.
Qed.

Lemma draws_fgbg_loop first fg fuel n masks :
  pixel fg → 0 <= n → (Z.to_nat n <= fuel)%nat → zlen masks = (n + 7) / 8 →
  draws masks (r ← fgbg_loop (w * PIXEL_SIZE) pbDestEnd fuel first fg n;
               if r >? 0 then
                 within_range 1;; bitmask ← read_src; write_fgbg (w * PIXEL_SIZE) pbDestEnd first bitmask fg r
               else mret tt) first (masks_fs fg n masks) tt.
Proof.
  intros Hp. revert n masks. induction fuel as [|fuel IH]; intros n masks Hn Hf Hz; cbn [fgbg_loop];
    (destruct (Z.gtb_spec n 8); [|apply (draws_then [] masks _ _ _ _ n); [apply draws_ret|];
       destruct (Z.gtb_spec n 0)]).
  1: lia.
  2: replace n with 0 in Hz by lia; rewrite (zlen_nil_inv masks) by done; apply draws_ret.
  4: replace n with 0 in Hz by lia; rewrite (zlen_nil_inv masks) by done; apply draws_ret.
  1, 3: assert (zlen masks = 1) as H1 by (rewrite Hz; div_mod_lia); destruct masks as [|b [|b' masks]];
    [done| |rewrite !zlen_cons in H1; pose proof (zlen_nonneg masks); lia];
    (apply draws_within; [done|]); (apply (draws_then [b] [] _ _ _ _ b); [apply draws_read_src|]);
    cbn [masks_fs]; rewrite app_nil_r, Z.min_r by lia; apply draws_write_fgbg; [done|lia].
  assert ((n + 7) / 8 = 1 + (n - 8 + 7) / 8) as E8.
  { replace (n + 7) with (n - 8 + 7 + 1 * 8) by lia. rewrite Z.div_add by lia. lia. }
  assert (0 <= (n - 8 + 7) / 8) by (apply Z.div_pos; lia).
  destruct masks as [|b masks]; [unfold zlen in Hz; cbn in Hz; lia|]. rewrite zlen_cons in Hz.
  apply draws_assoc. apply (draws_then [b] masks _ _ _ _ b); [apply draws_read_src|]. apply draws_assoc.
  cbn [masks_fs]. rewrite Z.min_l by lia.
  apply (draws_bind [] masks _ _ _ _ _ tt); [by apply keeps_mask|by apply draws_write_fgbg|]. apply IH; lia.
Qed.
Lemma draws_fgbg_image first fg n masks :
  pixel fg → 0 <= n → zlen masks = (n + 7) / 8 →
  draws masks (fgbg_image (w * PIXEL_SIZE) pbDestEnd first fg n) first (masks_fs fg n masks) tt.
Proof.
  intros Hp Hn Hz. apply draws_within; [rewrite Hz; div_mod_lia|]. by apply draws_fgbg_loop.
Qed.

(** ** Every order *)

Lemma draws_color_image first ps :
  Forall pixel ps →
  draws (pixels_bytes ps) (UNROLL (zlen ps) (λ _, temp ← SRCREADPIXEL; DESTWRITEPIXEL temp) tt) first
        (map (λ p _, p) ps) tt.
Proof.
  intros Hp src l rest. rewrite UNROLL_spec by apply zlen_nonneg.
  replace (Z.to_nat (zlen ps)) with (length ps) by (unfold zlen; lia). revert src l rest.
  change (draws (pixels_bytes ps) (UNROLL_BODY (λ _ : unit, temp ← SRCREADPIXEL; DESTWRITEPIXEL temp) (length ps) tt) first
            (map (λ p _, p) ps) tt).
  induction Hp as [|p ps Hp Hps IH]; [apply draws_ret|].
  change (pixels_bytes (p :: ps)) with (write_pixel p ++ pixels_bytes ps).
  apply (draws_bind _ _ first [λ _, p] (map (λ p _, p) ps) _ _ tt); [intros q Hq; by apply Forall_singleton| |done].
  rewrite <- (app_nil_r (write_pixel p)). apply (draws_then _ [] _ _ _ _ p); [by apply draws_src_pixel|]. by apply draws_write.
Qed.
Lemma draws_dithered first n a b :
  0 <= n → pixel a → pixel b →
  draws [] (UNROLL n (λ _, DESTWRITEPIXEL a;; DESTWRITEPIXEL b) tt) first
        (mjoin (replicate (Z.to_nat n) [λ _, a; λ _, b])) tt.
Proof.
  intros Hn Ha Hb. assert (keeps_pixels [λ _, a; λ _, b]) as Hk by (intros p Hp; by repeat apply Forall_cons_2).
  pose proof (draws_unroll (λ _ : unit, DESTWRITEPIXEL a;; DESTWRITEPIXEL b) first (λ _, [λ _, a; λ _, b]) (λ x, x) n tt Hn (λ _, Hk)) as H.
  assert (Nat.iter (Z.to_nat n) (λ x : unit, x) tt = tt) as Ei by (by destruct (Nat.iter _ _ _)). rewrite Ei in H.
  eapply draws_eq; [|apply H].
  - generalize (Z.to_nat n) as m. induction m as [|m IH]; [done|]. cbn. by rewrite IH.
  - intros []. apply (draws_bind [] [] _ [λ _, a] [λ _, b] _ _ tt); [intros p Hp; by apply Forall_singleton|by apply draws_write..].
Qed.

Lemma keeps_order fg insert o bs : pixel fg → encoded o bs → keeps_pixels (order_fs fg insert o).
Proof.
  intros Hf He p Hp. pose proof pixel_black. pose proof pixel_white. destruct He; cbn [order_fs].
  - destruct insert; [apply Forall_cons_2; [by apply pixel_lxor|]|]; by apply Forall_replicate.
  - apply Forall_replicate. by apply pixel_lxor.
  - apply Forall_replicate. by apply pixel_lxor.
  - generalize (Z.to_nat n) as m. induction m as [|m IH]; [constructor|]. cbn. by repeat apply Forall_cons_2.
  - by apply Forall_replicate.
  - by apply keeps_masks.
  - by apply keeps_masks.
  - apply Forall_map. eapply Forall_impl; [done|]. done.
  - by apply keeps_mask.
  - by apply keeps_mask.
  - by apply Forall_singleton.
  - by apply Forall_singleton.
Qed.
Lemma pixel_order_fg fg o bs : pixel fg → encoded o bs → pixel (order_fg fg o).
Proof. intros Hf He. by destruct He. Qed.

(** The code of an order and what is done on it. *)
Definition decodes (fg : Z) (insert first : bool) (o : order) (bs : list Z) : Prop :=
  ∃ b bs', bs = b :: bs' ∧ one_of (ExtractCodeId b) [REGULAR_BG_RUN; MEGA_MEGA_BG_RUN] = is_bg o ∧
    if is_bg o
    then draws bs (r ← read_run (ExtractCodeId b); bg_run (w * PIXEL_SIZE) pbDestEnd fg insert first r) first
               (order_fs fg insert o) tt
    else draws bs (other_order (w * PIXEL_SIZE) pbDestEnd (ExtractCodeId b) fg first) first
               (order_fs fg insert o) (order_fg fg o).

Lemma zlen_dithered n (f g : Z → Z) : 0 <= n → zlen (mjoin (replicate (Z.to_nat n) [f; g])) = 2 * n.
Proof.
  intros Hn. rewrite <- (Z2Nat.id n) at 2 by done. generalize (Z.to_nat n) as m.
  induction m as [|m IH]; [done|]. change (mjoin (replicate (S m) [f; g])) with (f :: g :: mjoin (replicate m [f; g])). zlia.
Qed.

(** Opens the header of an order that is not a background run. *)
Ltac open_header H first tail :=
  let b := fresh "b" in let h' := fresh "h" in let Hc := fresh "Hc" in
  destruct H as (b & h' & -> & Hc & Hn & Hd); exists b, (h' ++ tail); split; [done|];
  split; [by destruct Hc as [->| ->]|]; specialize (Hd first);
  destruct Hc as [Ec|Ec]; rewrite Ec in *; cbn [is_bg order_fs order_fg];
  (apply (draws_then _ tail _ _ _ _ _ _ Hd)).

Lemma order_decodes fg insert first o bs :
  pixel fg → encoded o bs → (∀ n, o = BgRun n → insert = true → 1 <= n) → decodes fg insert first o bs.
Proof.
  intros Hf He Hi. pose proof (keeps_order fg insert o bs Hf He) as Hk.
  destruct He as [n h H|n h H|p n h Hp H|n a b h Ha Hb H|n c h Hp H|n masks h [_ Hm] H|p n masks h Hp [_ Hm] H|ps h Hp H| | | |];
    cbn [order_fs] in Hk.
  - destruct (regular_header 0 n h ltac:(lia) H) as (b & h' & -> & Hc & Hn & Hd). exists b, h'. split; [done|].
    split; [by destruct Hc as [->| ->]|]. rewrite <- (app_nil_r (b :: h')).
    apply (draws_then _ [] _ _ _ _ n); [apply Hd|]. apply draws_bg_run; [done|done|by apply Hi].
  - rewrite <- (app_nil_r h). apply (regular_header 1) in H; [|lia].
    open_header H first (@nil Z); (apply (draws_then [] [] _ _ _ _ fg); [apply draws_ret|]);
      (eapply draws_last; [exact Hk|]); by apply draws_fg_run.
  - apply lite_header in H; [|lia]. open_header H first (write_pixel p);
      rewrite <- (app_nil_r (write_pixel p)); (apply (draws_then _ [] _ _ _ _ p); [by apply draws_checked_pixel|]);
      (eapply draws_last; [exact Hk|]); by apply draws_fg_run.
  - apply lite_header in H; [|lia]. open_header H first (write_pixel a ++ write_pixel b);
      (apply (draws_then _ _ _ _ _ _ a); [by apply draws_checked_pixel|]); rewrite <- (app_nil_r (write_pixel b));
      (apply (draws_then _ [] _ _ _ _ b); [by apply draws_checked_pixel|]);
      (apply draws_ensure; [apply u32_max|unfold u32; rewrite Z.mod_small, zlen_dithered; lia|]);
      (eapply draws_last; [exact Hk|]); apply draws_dithered; done || lia.
  - apply (regular_header 3) in H; [|lia]. open_header H first (write_pixel c); rewrite <- (app_nil_r (write_pixel c));
      (apply (draws_then _ [] _ _ _ _ c); [by apply draws_checked_pixel|]);
      (apply draws_ensure; [unfold UINT32_MAX; lia|rewrite zlen_run; lia|]);
      (eapply draws_last; [exact Hk|]); apply draws_put; done || lia.
  - apply regular_fgbg_header in H. open_header H first masks;
      (apply (draws_then [] masks _ _ _ _ fg); [apply draws_ret|]); (eapply draws_last; [exact Hk|]);
      apply draws_fgbg_image; done || lia.
  - apply lite_fgbg_header in H. open_header H first (write_pixel p ++ masks);
      (apply (draws_then _ masks _ _ _ _ p); [by apply draws_checked_pixel|]); (eapply draws_last; [exact Hk|]);
      apply draws_fgbg_image; done || lia.
  - apply (regular_header 4) in H; [|lia]. open_header H first (pixels_bytes ps);
      (apply draws_ensure; [unfold UINT32_MAX; lia|unfold zlen; by rewrite length_map|]);
      (apply draws_ensure_src; [unfold UINT32_MAX; lia|by rewrite zlen_pixels_bytes|]);
      (eapply draws_last; [exact Hk|]); by apply draws_color_image.
  - exists 0xF9, []. split; [done|]. split; [done|]. apply draws_within; [done|].
    apply (draws_then [0xF9] [] _ _ _ _ 0xF9); [apply draws_read_src|]. eapply draws_last; [exact Hk|]. by apply draws_write_fgbg.
  - exists 0xFA, []. split; [done|]. split; [done|]. apply draws_within; [done|].
    apply (draws_then [0xFA] [] _ _ _ _ 0xFA); [apply draws_read_src|]. eapply draws_last; [exact Hk|]. by apply draws_write_fgbg.
  - exists 0xFD, []. split; [done|]. split; [done|]. apply draws_within; [done|].
    apply (draws_then [0xFD] [] _ _ _ _ 0xFD); [apply draws_read_src|].
    apply draws_ensure; [unfold UINT32_MAX; lia|done|]. eapply draws_last; [exact Hk|]. by apply draws_write.
  - exists 0xFE, []. split; [done|]. split; [done|]. apply draws_within; [done|].
    apply (draws_then [0xFE] [] _ _ _ _ 0xFE); [apply draws_read_src|].
    apply draws_ensure; [unfold UINT32_MAX; lia|done|]. eapply draws_last; [exact Hk|]. by apply draws_write.
Qed.

(** ** A sequence of orders *)

Lemma next_line_out pc : pc_out (next_line w pc) = pc_out pc.
Proof. unfold next_line. by destruct (_ && _). Qed.
Lemma next_line_fg pc : pc_fg (next_line w pc) = pc_fg pc.
Proof. unfold next_line. by destruct (_ && _). Qed.
Lemma next_line_first pc :
  pc_first (next_line w pc) = if pc_first pc && (w <=? zlen (pc_out pc)) then false else pc_first pc.
Proof. unfold next_line. by destruct (pc_first pc && (w <=? zlen (pc_out pc))). Qed.
Lemma next_line_insert pc :
  pc_insert (next_line w pc) = if pc_first pc && (w <=? zlen (pc_out pc)) then false else pc_insert pc.
Proof. unfold next_line. by destruct (pc_first pc && (w <=? zlen (pc_out pc))). Qed.
Lemma apply_orders_grow os pc : zlen (pc_out pc) <= zlen (pc_out (apply_orders w os pc)).
Proof.
  revert pc. induction os as [|o os IH]; intros pc; [cbn; lia|]. cbn [apply_orders fold_left].
  etrans; [|apply IH]. unfold apply_order. cbn [pc_out]. rewrite zlen_emit, next_line_out.
  pose proof (zlen_nonneg (order_fs (pc_fg (next_line w pc)) (pc_insert (next_line w pc)) o)). lia.
Qed.

Record pic_ok (pc : picture) : Prop := {
  pic_pixels : Forall pixel (pc_out pc);
  pic_fg : pixel (pc_fg pc);
  pic_first : pc_first pc = false → w <= zlen (pc_out pc);
}.
Lemma apply_order_ok pc o bs : pic_ok pc → encoded o bs → pic_ok (apply_order w pc o).
Proof.
  intros [Hp Hf H1] He. assert (pc_first (next_line w pc) = false → w <= zlen (pc_out pc)) as Hn.
  { unfold next_line. destruct (pc_first pc) eqn:E; [|by intros; apply H1]. cbn [andb].
    destruct (Z.leb_spec w (zlen (pc_out pc))); [done|]. by rewrite E. }
  constructor; unfold apply_order; cbn [pc_out pc_fg pc_first]; rewrite ?next_line_out, ?next_line_fg.
  - apply emit_pixels; [|done]. by eapply keeps_order.
  - by eapply pixel_order_fg.
  - intros E. rewrite zlen_emit. specialize (Hn E).
    pose proof (zlen_nonneg (order_fs (pc_fg pc) (pc_insert (next_line w pc)) o)). lia.
Qed.

Lemma order_loop_step pc o bs src rest fuel :
  pic_ok pc → encoded o bs → order_ok w pc o → fits (pc_out pc) rest →
  zlen (pc_out (apply_order w pc o)) * PIXEL_SIZE <= pbDestEnd → zlen (bs ++ src) <= UINT32_MAX →
  order_loop (w * PIXEL_SIZE) pbDestEnd (S fuel) (pc_fg pc) (pc_insert pc) (pc_first pc) (drawn (bs ++ src) (pc_out pc) rest) =
  let pc' := apply_order w pc o in
  order_loop (w * PIXEL_SIZE) pbDestEnd fuel (pc_fg pc') (pc_insert pc') (pc_first pc')
    (drawn src (pc_out pc') (zdrop ((zlen (pc_out pc') - zlen (pc_out pc)) * PIXEL_SIZE) rest)).
Proof.
  intros [Hp Hf H1] He Hok Hfit Hlen Hs. pose proof pixel_size. set (pc1 := next_line w pc).
  assert (pc_first pc && (u32 (pbDest (drawn (bs ++ src) (pc_out pc) rest)) >=? w * PIXEL_SIZE)
          = pc_first pc && (w <=? zlen (pc_out pc))) as Epast.
  { f_equal. cbn [drawn pbDest]. unfold apply_order in Hlen. cbn [pc_out] in Hlen.
    rewrite zlen_emit, next_line_out in Hlen. pose proof (zlen_nonneg (pc_out pc)).
    pose proof (zlen_nonneg (order_fs (pc_fg (next_line w pc)) (pc_insert (next_line w pc)) o)).
    unfold u32, UINT32_MAX in *. rewrite Z.mod_small by nia. rewrite Z.geb_leb.
    destruct (Z.leb_spec w (zlen (pc_out pc))); [apply Z.leb_le|apply Z.leb_gt]; nia. }
  destruct (order_decodes (pc_fg pc) (pc_insert pc1) (pc_first pc1) o bs Hf He) as (b & bs' & -> & Ec & Hd).
  { intros n ->. exact Hok. }
  assert (pc_first pc1 = false → w <= zlen (pc_out pc)) as Hfirst.
  { subst pc1. unfold next_line. destruct (pc_first pc) eqn:E; [|by intros; apply H1]. cbn [andb].
    destruct (Z.leb_spec w (zlen (pc_out pc))); [done|]. by rewrite E. }
  assert (zlen (pc_out (apply_order w pc o)) = zlen (pc_out pc) + zlen (order_fs (pc_fg pc) (pc_insert pc1) o)) as El
    by (unfold apply_order; cbn [pc_out]; by rewrite zlen_emit, next_line_out, next_line_fg).
  assert (zlen (b :: bs') + zlen src <= UINT32_MAX) as Hs' by (by rewrite <- zlen_app).
  cbn [order_loop]. change (pbSrc (drawn ((b :: bs') ++ src) (pc_out pc) rest)) with (b :: bs' ++ src). cbv iota beta.
  rewrite Epast.
  rewrite <- next_line_first, <- next_line_insert. fold pc1. rewrite Ec. replace (_ - _) with (zlen (order_fs (pc_fg pc) (pc_insert pc1) o)) by lia.
  rewrite El in Hlen.
  assert (pc_fg pc1 = pc_fg pc) as Eg by apply next_line_fg. assert (pc_out pc1 = pc_out pc) as Eo by apply next_line_out.
  unfold apply_order. cbn zeta. fold pc1. cbn [pc_out pc_fg pc_insert pc_first]. rewrite Eg, Eo.
  destruct (is_bg o) eqn:Ebg.
  - specialize (Hd src (pc_out pc) rest Hp Hfirst Hfit Hlen Hs'). unfold mbind, DM_bind in Hd |- *.
    change (drawn (b :: bs' ++ src) (pc_out pc) rest) with (drawn ((b :: bs') ++ src) (pc_out pc) rest).
    destruct (read_run _ _) as [[[r|] st]|]; try done. rewrite Hd. by destruct o.
  - specialize (Hd src (pc_out pc) rest Hp Hfirst Hfit Hlen Hs'). unfold mbind, DM_bind. by rewrite Hd.
Qed.

Lemma order_loop_decodes os bss pc rest fuel :
  Forall2 encoded os bss → pic_ok pc → orders_ok w os pc → fits (pc_out pc) rest →
  zlen (pc_out (apply_orders w os pc)) * PIXEL_SIZE <= pbDestEnd → zlen (mjoin bss) <= UINT32_MAX →
  (length (mjoin bss) <= fuel)%nat →
  order_loop (w * PIXEL_SIZE) pbDestEnd fuel (pc_fg pc) (pc_insert pc) (pc_first pc) (drawn (mjoin bss) (pc_out pc) rest) =
  Ret (Some tt, let l := pc_out (apply_orders w os pc) in
                drawn [] l (zdrop ((zlen l - zlen (pc_out pc)) * PIXEL_SIZE) rest)).
Proof.
  intros He. revert pc rest fuel. induction He as [|o bs os bss Ho _ IH]; intros pc rest fuel Hpc Hok Hfit Hlen Hs Hfuel.
  { cbn [apply_orders fold_left]. rewrite Z.sub_diag, zdrop_nonpos by lia. by destruct fuel. }
  change (mjoin (bs :: bss)) with (bs ++ mjoin bss) in *. destruct Hok as [Ho1 Hok]. pose proof pixel_size.
  cbn [apply_orders fold_left] in *. fold (apply_orders w os (apply_order w pc o)) in *.
  pose proof (apply_orders_grow os (apply_order w pc o)) as Hgrow.
  pose proof (apply_orders_grow [o] pc) as Hgrow1. cbn [apply_orders fold_left] in Hgrow1.
  destruct fuel as [|fuel].
  { exfalso. destruct (order_decodes (pc_fg pc) (pc_insert (next_line w pc)) true o bs (pic_fg _ Hpc) Ho) as (b & bs' & -> & _).
    - intros n ->. exact Ho1.
    - cbn in Hfuel. lia. }
  rewrite order_loop_step with (o := o) by (done || nia). cbn zeta. rewrite IH.
  - cbn zeta. do 3 f_equal. rewrite zdrop_zdrop by nia. f_equal. lia.
  - by eapply apply_order_ok.
  - done.
  - apply (fits_more (pc_out pc)); [done|lia|lia|nia].
  - done.
  - rewrite zlen_app in Hs. pose proof (zlen_nonneg bs). lia.
  - rewrite length_app in Hfuel. assert (0 < length bs)%nat; [|lia].
    destruct (order_decodes (pc_fg pc) (pc_insert (next_line w pc)) true o bs (pic_fg _ Hpc) Ho) as (b & bs' & -> & _); [|cbn; lia].
    intros n ->. exact Ho1.
Qed.
End decoder.

(** A source that encodes orders gives the picture they describe. *)
Lemma RLEDECOMPRESS_orders {HF : PixelFormat} {HL : PixelLaws HF} w height os bss dst :
  0 < w → 0 <= height → w * PIXEL_SIZE * height <= UINT32_MAX → w * PIXEL_SIZE * height <= zlen dst →
  Forall2 encoded os bss → orders_ok w os new_picture → zlen (mjoin bss) <= UINT32_MAX →
  zlen (pc_out (apply_orders w os new_picture)) <= w * height →
  let l := pc_out (apply_orders w os new_picture) in
  RLEDECOMPRESS (mjoin bss) dst (w * PIXEL_SIZE) w height =
    Ret (true, pixels_bytes l ++ zdrop (zlen l * PIXEL_SIZE) dst).
Proof.
  intros Hw Hh H32 Hd He Hok Hs Hl l. pose proof pixel_size. unfold RLEDECOMPRESS.
  destruct (Z.eqb_spec (w * PIXEL_SIZE) 0); [nia|]. destruct (Z.ltb_spec (w * PIXEL_SIZE) w); [nia|]. cbn [orb].
  pose proof (order_loop_decodes w (w * PIXEL_SIZE * height) Hw H32 os bss new_picture dst (length (mjoin bss)) He) as H1.
  change (mkRle (mjoin bss) dst 0) with (drawn (mjoin bss) [] dst).
  cbn [new_picture pc_fg pc_insert pc_first pc_out] in H1. rewrite H1.
  - cbn [drawn pbDestBuffer]. fold l. do 4 f_equal. change (zlen (@nil Z)) with 0. f_equal. lia.
  - constructor; cbn; [constructor| |done]. unfold pixel. pose proof white_range. lia.
  - done.
  - unfold fits, new_picture. cbn [pc_out]. change (zlen (@nil Z)) with 0. lia.
  - replace (w * PIXEL_SIZE * height) with (w * height * PIXEL_SIZE) by lia. apply Z.mul_le_mono_nonneg_r; [lia|done].
  - done.
  - done.
Qed.
