(* ===== verification/BitmapCompress.v ===== *)
(** The encoder of run-length encoded bitmaps (libfreerdp/codec/bitmap.c).
    The code has the whole compressor twice, for pixels of 16 and of 24 bits;
    here it is once, over what differs. *)

From S2P Require Import Prelude Stream.
From stdpp Require Import prelude list numbers.
From Stdlib Require Import ZArith Lia.

#[local] Open Scope Z_scope.

(** * Orders *)

(** The header of a run, [c] in its upper three bits. *)
Definition count_header (c mega in_count : Z) : SM unit :=
  if in_count <? 32 then Stream_Write_UINT8 (Z.land (Z.lor (Z.shiftl c 5) in_count) 0xFF)
  else if in_count <? 256 + 32 then
    Stream_Write_UINT8 (Z.shiftl c 5);;
    Stream_Write_UINT8 (Z.land (in_count - 32) 0xFF)
  else
    Stream_Write_UINT8 mega;;
    Stream_Write_UINT16 in_count.
Definition write_24 (in_data : Z) : SM unit :=
  Stream_Write_UINT8 (Z.land in_data 0xFF);;
  Stream_Write_UINT8 (Z.land (Z.shiftr in_data 8) 0xFF);;
  Stream_Write_UINT8 (Z.land (Z.shiftr in_data 16) 0xFF).

Definition out_color_count_2 (in_count in_data : Z) : SM unit :=
  if in_count >? 0 then count_header 3 0xf3 in_count;; Stream_Write_UINT16 in_data else mret tt.
Definition out_color_count_3 (in_count in_data : Z) : SM unit :=
  if in_count >? 0 then count_header 3 0xf3 in_count;; write_24 in_data else mret tt.

(** The bytes of [in_data] from an offset on. *)
Definition memory_at (in_data : wStream) (p n : Z) : SM (list Z) :=
  WINPR_ASSERT ((0 <=? p) && (p + n <=? zlen (st_buffer in_data)));; mret (zslice p n (st_buffer in_data)).
(** [in_data] is then reset. *)
Definition out_copy_count_2 (in_count : Z) (in_data : wStream) : SM unit :=
  if in_count >? 0 then
    count_header 4 0xf4 in_count;;
    b ← memory_at in_data 0 (2 * in_count);
    Stream_Write b
  else mret tt.
Definition out_copy_count_3 (in_count : Z) (in_data : wStream) : SM unit :=
  if in_count >? 0 then
    count_header 4 0xf4 in_count;;
    b ← memory_at in_data (st_pointer in_data) (3 * in_count);
    Stream_Write b
  else mret tt.

Definition bicolor_header (in_count : Z) : SM unit :=
  if in_count / 2 <? 16 then Stream_Write_UINT8 (Z.land (Z.lor (Z.shiftl 0xe 4) (in_count / 2)) 0xFF)
  else if in_count / 2 <? 256 + 16 then
    Stream_Write_UINT8 0xe0;;
    Stream_Write_UINT8 (Z.land (in_count / 2 - 16) 0xFF)
  else
    Stream_Write_UINT8 0xf8;;
    Stream_Write_UINT16 (in_count / 2).
Definition out_bicolor_count_2 (in_count in_color1 in_color2 : Z) : SM unit :=
  if in_count >? 0 then
    bicolor_header in_count;; Stream_Write_UINT16 in_color1;; Stream_Write_UINT16 in_color2
  else mret tt.
Definition out_bicolor_count_3 (in_count in_color1 in_color2 : Z) : SM unit :=
  if in_count >? 0 then bicolor_header in_count;; write_24 in_color1;; write_24 in_color2 else mret tt.

Definition out_fill_count (in_count : Z) : SM unit :=
  if in_count >? 0 then count_header 0 0xf0 in_count else mret tt.
Definition out_counts_mix_count (in_count : Z) : SM unit :=
  if in_count >? 0 then count_header 1 0xf1 in_count else mret tt.

Definition out_from_count (in_count : Z) (in_mask : list Z) (in_mask_len : Z) : SM unit :=
  if in_count >? 0 then
    (if (in_count mod 8 =? 0) && (in_count <? 249) then
       Stream_Write_UINT8 (Z.land (Z.lor (Z.shiftl 2 5) (in_count / 8)) 0xFF)
     else if in_count <? 256 then
       Stream_Write_UINT8 0x40;;
       Stream_Write_UINT8 (Z.land (in_count - 1) 0xFF)
     else
       Stream_Write_UINT8 0xf2;;
       Stream_Write_UINT16 in_count);;
    WINPR_ASSERT (in_mask_len <=? zlen in_mask);;
    Stream_Write (ztake in_mask_len in_mask)
  else mret tt.

(** * Pixels *)

(** The [n] bytes of the pixel [in_x] of the line at the offset [d]. *)
Definition pixel_bytes (srcData : list Z) (n d in_x : Z) : outcome (list Z) :=
  let p := d + in_x * n in
  if (0 <=? p) && (p + n <=? zlen srcData) then Ret (zslice p n srcData) else Abort.
Definition GETPIXEL16 (src : list Z) : Z := Z.lor (Z.shiftl (zget src 1) 8) (zget src 0).
Definition GETPIXEL32 (src : list Z) : Z :=
  Z.lor (Z.lor (Z.lor (Z.shiftl (zget src 3) 24) (Z.shiftl (zget src 2) 16)) (Z.shiftl (zget src 1) 8))
        (Z.land (zget src 0) 0xFF).

(** What differs between the two compressors: the bytes of a pixel in the
    source and in the output, and the functions for them. *)
Class Depth := {
  src_size : Z;
  dst_size : Z;
  GETPIXEL : list Z → Z;
  write_temp : Z → SM unit;
  out_color_count : Z → Z → SM unit;
  out_copy_count : Z → wStream → SM unit;
  out_bicolor_count : Z → Z → Z → SM unit;
}.
Definition depth_16 : Depth :=
  {| src_size := 2; dst_size := 2; GETPIXEL := GETPIXEL16; write_temp := Stream_Write_UINT16;
     out_color_count := out_color_count_2; out_copy_count := out_copy_count_2;
     out_bicolor_count := out_bicolor_count_2 |}.
Definition depth_24 : Depth :=
  {| src_size := 4; dst_size := 3; GETPIXEL := GETPIXEL32; write_temp := write_24;
     out_color_count := out_color_count_3; out_copy_count := out_copy_count_3;
     out_bicolor_count := out_bicolor_count_3 |}.

(** * The compressor *)

Record struct_count : Type := mkCounts {
  bicolor_count : Z; fill_count : Z; color_count : Z; mix_count : Z; fom_count : Z;
  fom_mask_len : Z; bicolor_spin : bool;
}.
Definition reset_counts : struct_count := mkCounts 0 0 0 0 0 0 false.

(** The two streams and the variables of the function. *)
Record compressor : Type := mkCompressor {
  c_s : wStream; temp_s : wStream; fom_mask : list Z; count : Z; last_pixel : Z; last_ypixel : Z;
  counts : struct_count; bicolor1 : Z; bicolor2 : Z;
}.

(** [None] is the return of -1. *)
Definition CM (A : Type) : Type := compressor → outcome (option A * compressor).
#[global] Instance CM_ret : MRet CM := λ A a c, Ret (Some a, c).
#[global] Instance CM_bind : MBind CM := λ A B k m c,
  match m c with
  | Ret (Some a, c) => k a c
  | Ret (None, c) => Ret (None, c)
  | Abort => Abort
  end.
#[local] Close Scope winpr_scope.

Definition set_s s c := mkCompressor s (temp_s c) (fom_mask c) (count c) (last_pixel c) (last_ypixel c) (counts c) (bicolor1 c) (bicolor2 c).
Definition set_temp t c := mkCompressor (c_s c) t (fom_mask c) (count c) (last_pixel c) (last_ypixel c) (counts c) (bicolor1 c) (bicolor2 c).
Definition set_mask m c := mkCompressor (c_s c) (temp_s c) m (count c) (last_pixel c) (last_ypixel c) (counts c) (bicolor1 c) (bicolor2 c).
Definition set_count n c := mkCompressor (c_s c) (temp_s c) (fom_mask c) n (last_pixel c) (last_ypixel c) (counts c) (bicolor1 c) (bicolor2 c).
Definition set_counts k c := mkCompressor (c_s c) (temp_s c) (fom_mask c) (count c) (last_pixel c) (last_ypixel c) k (bicolor1 c) (bicolor2 c).
Definition set_last p y c := mkCompressor (c_s c) (temp_s c) (fom_mask c) (count c) p y (counts c) (bicolor1 c) (bicolor2 c).
Definition set_bicolors b1 b2 c := mkCompressor (c_s c) (temp_s c) (fom_mask c) (count c) (last_pixel c) (last_ypixel c) (counts c) b1 b2.
Definition set_fill n k := mkCounts (bicolor_count k) n (color_count k) (mix_count k) (fom_count k) (fom_mask_len k) (bicolor_spin k).
Definition set_mix n k := mkCounts (bicolor_count k) (fill_count k) (color_count k) n (fom_count k) (fom_mask_len k) (bicolor_spin k).
Definition set_color n k := mkCounts (bicolor_count k) (fill_count k) n (mix_count k) (fom_count k) (fom_mask_len k) (bicolor_spin k).
Definition set_bicolor n spin k := mkCounts n (fill_count k) (color_count k) (mix_count k) (fom_count k) (fom_mask_len k) spin.
Definition set_fom n len k := mkCounts (bicolor_count k) (fill_count k) (color_count k) (mix_count k) n len (bicolor_spin k).

Definition modify (f : compressor → compressor) : CM unit := λ c, Ret (Some tt, f c).
Definition on_s (m : compressor → SM unit) : CM unit := λ c,
  match m c (c_s c) with Ret (_, s) => Ret (Some tt, set_s s c) | Abort => Abort end.
Definition on_temp (m : SM unit) : CM unit := λ c,
  match m (temp_s c) with Ret (_, t) => Ret (Some tt, set_temp t c) | Abort => Abort end.

(** A run that is longer than three and not shorter than the others. *)
Definition best (n : Z) (k : struct_count) : bool :=
  (n >? 3) && (n >=? fill_count k) && (n >=? color_count k) && (n >=? bicolor_count k)
  && (n >=? mix_count k) && (n >=? fom_count k).

Section depth.
Context {HD : Depth}.

(** [if (n > count) return -1; count -= n; count = out_copy_count(count, s, temp_s);] *)
Definition out_pending (n : Z) : CM unit := λ c,
  if n >? count c then Ret (None, c)
  else
    (modify (set_count (u16 (count c - n)));;
     on_s (λ c, out_copy_count (count c) (temp_s c));;
     on_temp Stream_ResetPosition;;
     modify (set_count 0)) c.

Definition emit_fill : CM unit := λ c,
  (out_pending (fill_count (counts c));; on_s (λ c, out_fill_count (fill_count (counts c)))) c.
Definition emit_mix : CM unit := λ c,
  (out_pending (mix_count (counts c));; on_s (λ c, out_counts_mix_count (mix_count (counts c)))) c.
Definition emit_color : CM unit := λ c,
  (out_pending (color_count (counts c));; on_s (λ c, out_color_count (color_count (counts c)) (last_pixel c))) c.
Definition emit_bicolor : CM unit := λ c,
  let n := bicolor_count (counts c) in
  let n := if negb (n mod 2 =? 0) then n - 1 else n in
  (modify (λ c, set_counts (set_bicolor n (bicolor_spin (counts c)) (counts c)) c);;
   out_pending n;; on_s (λ c, out_bicolor_count n (bicolor2 c) (bicolor1 c))) c.
Definition emit_fom : CM unit := λ c,
  (out_pending (fom_count (counts c));;
   on_s (λ c, out_from_count (fom_count (counts c)) (fom_mask c) (fom_mask_len (counts c)))) c.

(** [reset_counts(&counts)] after the run is written. *)
Definition flush (b : struct_count → bool) (m : CM unit) : CM unit := λ c,
  if b (counts c) then (m;; modify (set_counts reset_counts)) c else Ret (Some tt, c).
Definition flush_fill : CM unit :=
  flush (λ k, best (fill_count k) k) emit_fill;; modify (λ c, set_counts (set_fill 0 (counts c)) c).
Definition flush_mix : CM unit :=
  flush (λ k, best (mix_count k) k) emit_mix;; modify (λ c, set_counts (set_mix 0 (counts c)) c).
Definition flush_color : CM unit :=
  flush (λ k, best (color_count k) k) emit_color;; modify (λ c, set_counts (set_color 0 (counts c)) c).
Definition flush_bicolor (pixel : Z) : CM unit :=
  flush (λ k, best (bicolor_count k) k) emit_bicolor;;
  modify (λ c, set_bicolors (last_pixel c) pixel (set_counts (set_bicolor 0 false (counts c)) c)).
Definition flush_fom : CM unit :=
  flush (λ k, best (fom_count k) k) emit_fom;; modify (λ c, set_counts (set_fom 0 0 (counts c)) c).

(** Runs that refer to the line above do not go past the first line. *)
Definition first_line_done : CM unit := flush_fill;; flush_mix;; flush_fom.

Definition cm_if (b : bool) (m : CM unit) : CM unit := if b then m else mret tt.
Definition test_bicolor (pixel : Z) (c : compressor) : bool :=
  negb (pixel =? last_pixel c)
  && ((negb (bicolor_spin (counts c)) && (pixel =? bicolor1 c) && (last_pixel c =? bicolor2 c))
      || (bicolor_spin (counts c) && (pixel =? bicolor2 c) && (last_pixel c =? bicolor1 c))).

(** The bit of the mask for a pixel that is filled or mixed. *)
Definition count_fom (mixed : bool) : CM unit := λ c,
  let k := counts c in
  if (fom_count k mod 8 =? 0) && (fom_mask_len k >=? zlen (fom_mask c)) then Abort
  else
    let '(m, len) :=
      if fom_count k mod 8 =? 0 then (<[Z.to_nat (fom_mask_len k) := 0]> (fom_mask c), fom_mask_len k + 1)
      else (fom_mask c, fom_mask_len k) in
    if len =? 0 then Abort
    else
      let m := if mixed then
                 let tmp := Z.land (Z.shiftl 1 (fom_count k mod 8)) 0xFF in
                 <[Z.to_nat (len - 1) := Z.lor (zget m (len - 1)) tmp]> m
               else m in
      Ret (Some tt, set_mask m (set_counts (set_fom (u16 (fom_count k + 1)) len k) c)).

(** One pixel; [first] if there is no line above. *)
Definition compress_pixel (mix : Z) (first : bool) (pixel ypixel : Z) : CM unit :=
  let TEST_FILL := (first && (pixel =? 0)) || (negb first && (pixel =? ypixel)) in
  let TEST_MIX := (first && (pixel =? mix)) || (negb first && (pixel =? Z.lxor ypixel mix)) in
  cm_if (negb TEST_FILL) flush_fill;;
  cm_if (negb TEST_MIX) flush_mix;;
  (λ c, cm_if (negb (pixel =? last_pixel c)) flush_color c);;
  (λ c, cm_if (negb (test_bicolor pixel c)) (flush_bicolor pixel) c);;
  cm_if (negb (TEST_FILL || TEST_MIX)) flush_fom;;
  cm_if TEST_FILL (modify (λ c, set_counts (set_fill (u16 (fill_count (counts c) + 1)) (counts c)) c));;
  cm_if TEST_MIX (modify (λ c, set_counts (set_mix (u16 (mix_count (counts c) + 1)) (counts c)) c));;
  (λ c, cm_if (pixel =? last_pixel c)
          (modify (λ c, set_counts (set_color (u16 (color_count (counts c) + 1)) (counts c)) c)) c);;
  (λ c, cm_if (test_bicolor pixel c)
          (modify (λ c, set_counts (set_bicolor (u16 (bicolor_count (counts c) + 1)) (negb (bicolor_spin (counts c))) (counts c)) c)) c);;
  cm_if (TEST_FILL || TEST_MIX) (count_fom (pixel =? Z.lxor ypixel mix));;
  on_temp (write_temp pixel);;
  modify (λ c, set_last pixel ypixel (set_count (u16 (count c + 1)) c)).

(** [in_ptr] is the offset of a line, or null. *)
Definition IN_PIXEL (srcData : list Z) (in_ptr : option Z) (in_x in_w in_last_pixel : Z) : outcome Z :=
  match in_ptr with
  | None => Ret 0
  | Some d =>
      if in_x <? in_w
      then match pixel_bytes srcData src_size d in_x with Ret l => Ret (GETPIXEL l) | Abort => Abort end
      else Ret in_last_pixel
  end.

Section image.
Context (srcData : list Z) (width end_ mix : Z).

Fixpoint pixel_loop (n : nat) (j : Z) (line : Z) (last_line : option Z) : CM unit :=
  match n with
  | O => mret tt
  | S n =>
      (λ c,
        match IN_PIXEL srcData (Some line) j width (last_pixel c), IN_PIXEL srcData last_line j width (last_ypixel c) with
        | Ret pixel, Ret ypixel =>
            compress_pixel mix (match last_line with None => true | Some _ => false end) pixel ypixel c
        | _, _ => Abort
        end);;
      pixel_loop n (j + 1) line last_line
  end.

(** The output and what is pending, without each of the runs, are too long. *)
Definition over_limit (byte_limit : Z) (c : compressor) : bool :=
  let i := st_pointer (c_s c) + dst_size * count c in
  let over n := u64 (i - dst_size * n) >=? byte_limit in
  over (color_count (counts c)) && over (bicolor_count (counts c)) && over (fill_count (counts c))
  && over (mix_count (counts c)) && over (fom_count (counts c)).

(** The [while] over the lines, from the last one up: the number of lines sent.
    The width is not 0, so that there are [start_line + 1] lines. *)
Fixpoint line_loop (fuel : nat) (byte_limit out_count line : Z) (last_line : option Z) (lines_sent : Z) : CM Z := λ c,
  if (0 <=? line) && (out_count <? 32768) then
    if over_limit byte_limit c then Ret (Some lines_sent, c)
    else
      match fuel with
      | O => Abort
      | S fuel =>
          (pixel_loop (Z.to_nat end_) 0 line last_line;;
           match last_line with None => first_line_done | Some _ => mret tt end;;
           line_loop fuel byte_limit (u32 (out_count + u32 (end_ * dst_size))) (line - src_size * width) (Some line)
             (lines_sent + 1)) c
      end
  else Ret (Some lines_sent, c).

(** What is pending in the end.  The second dithered run the code writes there
    is always empty: [out_bicolor_count] and [out_copy_count] have returned 0. *)
Definition finish : CM unit := λ c,
  let k := counts c in
  (on_temp Stream_ResetPosition;;
   if best (fill_count k) k then emit_fill
   else if best (mix_count k) k then emit_mix
   else if best (color_count k) k then emit_color
   else if best (bicolor_count k) k then emit_bicolor
   else if best (fom_count k) k then emit_fom
   else out_pending 0) c.
End image.

(** [-1] and the output, or the lines sent. *)
Definition compress (srcData : list Z) (width : Z) (s : wStream) (mix byte_limit start_line : Z) (temp : wStream) (e : Z)
    : outcome (Z * wStream * wStream) :=
  let end_ := u32 (width + e) in
  let c := mkCompressor s temp (zeros 8192) 0 0 0 reset_counts 0 0 in
  match (lines_sent ← line_loop srcData width end_ mix (Z.to_nat (start_line + 1)) byte_limit (u32 (end_ * dst_size))
                        (src_size * width * start_line) None 0;
         finish;; mret lines_sent) c with
  | Ret (Some lines_sent, c) => Ret (lines_sent, c_s c, temp_s c)
  | Ret (None, c) => Ret (-1, c_s c, temp_s c)
  | Abort => Abort
  end.
End depth.

Definition freerdp_bitmap_compress_24 (srcData : list Z) (width height : Z) (s : wStream) (byte_limit start_line : Z)
    (temp : wStream) (e : Z) : outcome (Z * wStream * wStream) :=
  compress (HD := depth_24) srcData width s 0xFFFFFF byte_limit start_line temp e.
Definition freerdp_bitmap_compress_16 (srcData : list Z) (width height : Z) (s : wStream) (bpp byte_limit start_line : Z)
    (temp : wStream) (e : Z) : outcome (Z * wStream * wStream) :=
  let mix := if bpp =? 15 then 0xBA1F else 0xFFFF in
  compress (HD := depth_16) srcData width s mix byte_limit start_line temp e.

Definition freerdp_bitmap_compress (srcData : list Z) (width height : Z) (s : wStream) (bpp byte_limit start_line : Z)
    (temp : wStream) (e : Z) : outcome (Z * wStream * wStream) :=
  let temp := set_pointer 0 temp in
  if (bpp =? 15) || (bpp =? 16) then freerdp_bitmap_compress_16 srcData width height s bpp byte_limit start_line temp e
  else if bpp =? 24 then freerdp_bitmap_compress_24 srcData width height s byte_limit start_line temp e
  else Ret (-1, s, temp).
