(* ===== verification/BitmapCompressCorrect.v ===== *)
(** The 16-bit encoder of run-length encoded bitmaps: what it writes is a
    sequence of orders that draws the image. *)

From stdpp Require Import prelude list numbers.
From Stdlib Require Import ZArith Lia.
From S2P Require Import Prelude Stream StreamLogic Rle RleSafe RleFormat BitmapCompress.

#[local] Open Scope Z_scope.
#[local] Existing Instance format_16.
#[local] Existing Instance depth_16.

(** * What the order writers write *)

(** [m] writes [bs], which is the order [o]. *)
Definition writes_order (n : Z) (m : SM unit) (o : order) (bs : list Z) : Prop :=
  puts n m bs tt ∧ encoded o bs ∧ zlen bs <= n ∧ bytes bs.

Lemma puts_last_UINT8 n v : 1 <= n → is_byte v → puts n (Stream_Write_UINT8 v) [v] tt.
Proof. intros Hn Hv s Hw Hf. apply run_Write_UINT8; [done| |done]. unfold StreamLogic.fits in *. lia. Qed.
Lemma puts_last_UINT16 n v : 2 <= n → 0 <= v <= UINT16_MAX → puts n (Stream_Write_UINT16 v) (winpr_Data_Write_UINT16 v) tt.
Proof. intros Hn Hv s Hw Hf. apply run_Write_UINT16; [done| |done]. unfold StreamLogic.fits in *. lia. Qed.
Lemma puts_last_Write n l : zlen l <= n → bytes l → puts n (Stream_Write l) l tt.
Proof. intros Hn Hl s Hw Hf. apply run_Write; [done| |done]. unfold StreamLogic.fits in *. lia. Qed.

Lemma lor_header c n k : 0 <= n < 2 ^ k → 0 <= k → 0 <= c → c * 2 ^ k + n < 256 → Z.land (Z.lor (Z.shiftl c k) n) 255 = c * 2 ^ k + n.
Proof. intros Hn Hk Hc Hb. rewrite lor_shiftl by lia. rewrite land_255. apply Z.mod_small. nia. Qed.

Lemma count_header_puts c n :
  0 <= c <= 4 → 1 <= n <= UINT16_MAX →
  ∃ h, puts 3 (count_header c (0xF0 + c) n) h tt ∧ regular c (0xF0 + c) n h ∧ zlen h <= 3 ∧ bytes h.
Proof.
  intros Hc Hn. unfold count_header, UINT16_MAX in *. destruct (Z.ltb_spec n 32); [|destruct (Z.ltb_spec n (256 + 32))].
  - exists [c * 32 + n]. split_and!; [|apply regular_short; lia|done|repeat constructor; lia].
    rewrite lor_header by lia. apply puts_last_UINT8; [lia|unfold is_byte; lia].
  - exists [c * 32; n - 32]. split_and!; [|apply regular_long; lia|done|repeat constructor; lia].
    rewrite Z.shiftl_mul_pow2 by lia. rewrite land_255, Z.mod_small by lia.
    apply puts_UINT8; [lia|unfold is_byte; lia|]. apply puts_last_UINT8; [lia|unfold is_byte; lia].
  - exists ([0xF0 + c] ++ winpr_Data_Write_UINT16 n).
    split_and!; [|apply regular_mega; unfold UINT16_MAX; lia|done|constructor; [unfold is_byte; lia|apply write16_le_bytes]].
    apply puts_UINT8; [lia|unfold is_byte; lia|]. apply puts_last_UINT16; [lia|unfold UINT16_MAX; lia].
Qed.

Lemma out_fill_order n : 1 <= n <= UINT16_MAX → ∃ bs, writes_order 3 (out_fill_count n) (BgRun n) bs.
Proof.
  intros Hn. destruct (count_header_puts 0 n) as (h & Hp & Hr & Hz & Hb); [lia|done|]. exists h.
  unfold out_fill_count. replace (n >? 0) with true by lia. split_and!; [done|by constructor|done|done].
Qed.
Lemma out_mix_order n : 1 <= n <= UINT16_MAX → ∃ bs, writes_order 3 (out_counts_mix_count n) (FgRun n) bs.
Proof.
  intros Hn. destruct (count_header_puts 1 n) as (h & Hp & Hr & Hz & Hb); [lia|done|]. exists h.
  unfold out_counts_mix_count. replace (n >? 0) with true by lia. split_and!; [done|by constructor|done|done].
Qed.
Lemma out_color_order n p :
  1 <= n <= UINT16_MAX → pixel p → ∃ bs, writes_order 5 (out_color_count_2 n p) (ColorRun n p) bs.
Proof.
  intros Hn Hp. destruct (count_header_puts 3 n) as (h & Hh & Hr & Hz & Hb); [lia|done|]. exists (h ++ write_pixel p).
  unfold out_color_count_2. replace (n >? 0) with true by lia. split_and!.
  - eapply (puts_bind 5 3); [lia|done|]. apply puts_last_UINT16; [lia|exact Hp].
  - by constructor.
  - rewrite zlen_app. change (zlen (write_pixel p)) with 2. lia.
  - apply Forall_app_2; [done|]. apply (bytes_write_pixel (HF := format_16)).
Qed.
Lemma out_copy_order temp ps :
  1 <= zlen ps <= UINT16_MAX → Forall pixel ps → ztake (2 * zlen ps) (st_buffer temp) = pixels_bytes ps →
  ∃ bs, writes_order (3 + 2 * zlen ps) (out_copy_count_2 (zlen ps) temp) (ColorImage ps) bs.
Proof.
  intros Hn Hp Ht. destruct (count_header_puts 4 (zlen ps)) as (h & Hh & Hr & Hz & Hb); [lia|done|].
  exists (h ++ pixels_bytes ps). pose proof (zlen_pixels_bytes ps) as Hl. change PIXEL_SIZE with 2 in Hl.
  assert (bytes (pixels_bytes ps)) as Hbs.
  { clear. induction ps as [|p ps IH]; [constructor|]. apply Forall_app_2; [apply (bytes_write_pixel (HF := format_16))|done]. }
  assert (2 * zlen ps <= zlen (st_buffer temp)) as Hle by (rewrite <- Ht, zlen_ztake in Hl; lia).
  unfold out_copy_count_2. replace (zlen ps >? 0) with true by lia. split_and!.
  - eapply (puts_bind _ 3); [lia|done|]. unfold memory_at.
    rewrite <- (app_nil_l (pixels_bytes ps)). eapply (puts_bind _ 0 _ _ [] _ (pixels_bytes ps)); [change (zlen (@nil Z)) with 0; zlia| |].
    + apply puts_assert; [by rewrite !andb_true_iff, !Z.leb_le|]. unfold zslice. rewrite zdrop_nonpos, Ht by lia. apply puts_ret.
    + apply puts_last_Write; [change (zlen (@nil Z)) with 0; lia|done].
  - by constructor.
  - rewrite zlen_app. lia.
  - by apply Forall_app_2.
Qed.
Lemma out_fom_order n mask len :
  1 <= n <= UINT16_MAX → bytes mask → len <= zlen mask → len = (n + 7) / 8 →
  ∃ bs, writes_order (3 + len) (out_from_count n mask len) (FgBgImage n (ztake len mask)) bs.
Proof.
  intros Hn Hm Hlen El. assert (0 <= len) as H0 by (subst len; apply Z.div_pos; lia).
  assert (zlen (ztake len mask) = len) as Hz by (rewrite zlen_ztake; lia). unfold UINT16_MAX in Hn.
  assert (masks_ok n (ztake len mask)) as Hok by (split; [by apply Forall_ztake|lia]).
  assert (∃ h, puts 3 (if (n mod 8 =? 0) && (n <? 249) then
       Stream_Write_UINT8 (Z.land (Z.lor (Z.shiftl 2 5) (n / 8)) 0xFF)
     else if n <? 256 then Stream_Write_UINT8 0x40;; Stream_Write_UINT8 (Z.land (n - 1) 0xFF)
     else Stream_Write_UINT8 0xf2;; Stream_Write_UINT16 n) h tt ∧ regular_fgbg n h ∧ zlen h <= 3 ∧ bytes h) as (h & Hp & Hr & Hzh & Hb).
  { destruct (Z.eqb_spec (n mod 8) 0) as [E|E]; [destruct (Z.ltb_spec n 249)|]; cbn [andb].
    - exists [0x40 + n / 8]. assert (1 <= n / 8 < 32) by div_mod_lia.
      split_and!; [|apply (rfgbg_short n (n / 8)); [done|div_mod_lia]|done|repeat constructor; lia].
      rewrite lor_header by lia. apply puts_last_UINT8; [lia|unfold is_byte; lia].
    - destruct (Z.ltb_spec n 256); [div_mod_lia|]. exists ([0xF2] ++ winpr_Data_Write_UINT16 n).
      split_and!; [|apply rfgbg_mega; unfold UINT16_MAX; lia|done|constructor; [done|apply write16_le_bytes]].
      apply puts_UINT8; [lia|done|]. apply puts_last_UINT16; [lia|unfold UINT16_MAX; lia].
    - destruct (Z.ltb_spec n 256).
      + exists [0x40; n - 1]. split_and!; [|apply rfgbg_long; lia|done|repeat constructor; lia].
        rewrite land_255, Z.mod_small by lia. apply puts_UINT8; [lia|done|]. apply puts_last_UINT8; [lia|unfold is_byte; lia].
      + exists ([0xF2] ++ winpr_Data_Write_UINT16 n).
        split_and!; [|apply rfgbg_mega; unfold UINT16_MAX; lia|done|constructor; [done|apply write16_le_bytes]].
        apply puts_UINT8; [lia|done|]. apply puts_last_UINT16; [lia|unfold UINT16_MAX; lia]. }
  exists (h ++ ztake len mask). unfold out_from_count. replace (n >? 0) with true by lia. split_and!.
  - eapply (puts_bind _ 3); [lia|exact Hp|]. apply puts_assert; [by apply Z.leb_le|].
    apply puts_last_Write; [lia|by apply Forall_ztake].
  - by constructor.
  - rewrite zlen_app. lia.
  - apply Forall_app_2; [done|by apply Forall_ztake].
Qed.

(** * The mask of a mixed run *)

Lemma bit_of_shift f : 0 <= f → Z.land (Z.shiftl 1 (f mod 8)) 0xFF = 2 ^ (f mod 8).
Proof.
  intros Hf. rewrite Z.shiftl_mul_pow2, Z.mul_1_l, land_255 by (apply Z.mod_pos_bound; lia). apply Z.mod_small.
  pose proof (Z.mod_pos_bound f 8 ltac:(lia)). split; [apply Z.pow_nonneg; lia|].
  assert (2 ^ (f mod 8) <= 2 ^ 7) as H7 by (apply Z.pow_le_mono_r; lia). change (2 ^ 7) with 128 in H7. lia.
Qed.
Lemma lor_bit_byte b k : is_byte b → 0 <= k < 8 → is_byte (Z.lor b (2 ^ k)).
Proof.
  intros Hb Hk. unfold is_byte in *.
  assert (0 <= Z.lor b (2 ^ k)) as H0 by (apply Z.lor_nonneg; split; [lia|apply Z.pow_nonneg; lia]). split; [done|].
  destruct (Z.eq_dec (Z.lor b (2 ^ k)) 0) as [->|Hne]; [lia|]. change 256 with (2 ^ 8). apply Z.log2_lt_pow2; [lia|].
  rewrite Z.log2_lor by (try apply Z.pow_nonneg; lia). rewrite Z.log2_pow2 by lia.
  destruct (Z.eq_dec b 0) as [->|Hb0]; [cbn; lia|]. assert (Z.log2 b < 8) by (apply Z.log2_lt_pow2; lia). lia.
Qed.

(** The byte of the next bit, cleared if it is a new one. *)
Definition open_byte (m : list Z) (f len : Z) : list Z * Z :=
  if f mod 8 =? 0 then (<[Z.to_nat len := 0]> m, len + 1) else (m, len).
Definition put_bit (b : bool) (m : list Z) (f len : Z) : list Z :=
  if b then <[Z.to_nat (len - 1) := Z.lor (zget m (len - 1)) (Z.land (Z.shiftl 1 (f mod 8)) 0xFF)]> m else m.
Record mask_ok (m : list Z) (f len : Z) (bit : Z → Prop) : Prop := {
  mask_size : zlen m = 8192;
  mask_bytes : bytes m;
  mask_length : len = (f + 7) / 8;
  mask_bits t : 0 <= t < 8 * len → Z.testbit (zget m (t / 8)) (t mod 8) = true ↔ t < f ∧ bit t;
}.

Lemma open_byte_ok m f len bit m1 len1 :
  mask_ok m f len bit → 0 <= f < 32768 → open_byte m f len = (m1, len1) →
  zlen m1 = 8192 ∧ bytes m1 ∧ len1 = f / 8 + 1 ∧ len1 = (f + 1 + 7) / 8 ∧
  ∀ t, 0 <= t < 8 * len1 → Z.testbit (zget m1 (t / 8)) (t mod 8) = true ↔ t < f ∧ bit t.
Proof.
  intros [Hz Hb -> Ht] Hf. unfold open_byte. destruct (Z.eqb_spec (f mod 8) 0) as [E|E]; intros [= <- <-].
  - assert (f = 8 * (f / 8)) as Ef by (pose proof (Z.div_mod f 8 ltac:(lia)); lia).
    assert ((f + 7) / 8 = f / 8) as El by div_mod_lia. rewrite El in *. split_and!.
    + unfold zlen. by rewrite length_insert.
    + by apply Forall_insert.
    + lia.
    + div_mod_lia.
    + intros t Hr. assert (0 <= t / 8) by (apply Z.div_pos; lia). rewrite zget_insert by (rewrite ?Hz; div_mod_lia).
      destruct (Z.eqb_spec (t / 8) (f / 8)) as [Et|Et].
      * rewrite Z.bits_0. split; [done|]. intros [? _]. div_mod_lia.
      * apply Ht. div_mod_lia.
  - split_and!; [done|done|div_mod_lia|div_mod_lia|]. intros t Hr. apply Ht. div_mod_lia.
Qed.
Lemma mask_step m f len bit b m1 len1 :
  mask_ok m f len bit → 0 <= f < 32768 → (b = true ↔ bit f) → open_byte m f len = (m1, len1) →
  mask_ok (put_bit b m1 f len1) (f + 1) len1 bit.
Proof.
  intros Hm Hf Hbit Ho. destruct (open_byte_ok _ _ _ _ _ _ Hm Hf Ho) as (Hz & Hb & El & El' & Ht).
  assert (0 <= f / 8 < 4096) as Hf8 by div_mod_lia. pose proof (Z.mod_pos_bound f 8 ltac:(lia)) as Hmod.
  unfold put_bit. rewrite bit_of_shift by lia. destruct b; constructor; try done.
  - unfold zlen. by rewrite length_insert.
  - apply Forall_insert; [done|]. apply lor_bit_byte; [by apply zget_byte|lia].
  - intros t Hr. assert (0 <= t / 8) by (apply Z.div_pos; lia). rewrite zget_insert by lia.
    destruct (Z.eqb_spec (t / 8) (len1 - 1)) as [Et|Et].
    + pose proof (Z.mod_pos_bound t 8 ltac:(lia)). pose proof (Z.div_mod t 8 ltac:(lia)) as Dt. pose proof (Z.div_mod f 8 ltac:(lia)) as Df.
      rewrite Z.lor_spec, Z.pow2_bits_eqb, orb_true_iff by lia. rewrite <- Et, Ht by lia. rewrite Z.eqb_eq.
      destruct (Z.eq_dec t f) as [->|Hne]; [split; [|by right]|].
      * intros _. split; [lia|]. by apply Hbit.
      * split; [intros [[? ?]|?]; [split; [lia|done]|lia]|]. intros [? ?]. left. split; [lia|done].
    + rewrite Ht by done. split; intros [? ?]; (split; [|done]); [lia|]. div_mod_lia.
  - intros t Hr. rewrite Ht by done. split; intros [? ?]; (split; [|done]); [lia|].
    assert (t ≠ f); [|lia]. intros ->. by apply Hbit in H0.
Qed.

(** * Orders that draw an image *)

Section image.
Context (img : list Z) (w mix : Z).
Hypothesis Hw : 0 < w.
Hypothesis Himg : Forall pixel img.

(** The pixel above, and what makes a pixel part of a run. *)
Definition up (j : Z) : Z := if j <? w then 0 else zget img (j - w).
Definition filled (j : Z) : Prop := zget img j = up j.
Definition mixed (j : Z) : Prop := zget img j = Z.lxor (up j) mix.

(** The foreground of the decoder is always white. *)
Hypothesis Hmix : ∀ j, 0 <= j < zlen img → mixed j → mix = WHITE_PIXEL.

Lemma zget_ztake_last k : 0 <= k < zlen img → ztake (k + 1) img = ztake k img ++ [zget img k].
Proof.
  intros Hk. rewrite ztake_ztake_zdrop by lia. f_equal. unfold zslice.
  assert (zlen (zdrop k img) = zlen img - k) as Hz by (rewrite zlen_zdrop; lia).
  pose proof (zget_zdrop k img 0 ltac:(lia) ltac:(lia)) as Hg. rewrite Z.add_0_r in Hg. rewrite <- Hg.
  destruct (zdrop k img) as [|x l]; [change (zlen (@nil Z)) with 0 in Hz; lia|done].
Qed.

(** The pixels from [k] on are what [fs] makes of those above. *)
Lemma emit_image first k fs :
  0 <= k → k + zlen fs <= zlen img → (first = false → w <= k) →
  (∀ t f, fs !! t = Some f → zget img (k + Z.of_nat t) = f (if first then 0 else zget img (k + Z.of_nat t - w))) →
  emit w first fs (ztake k img) = ztake (k + zlen fs) img.
Proof.
  revert k. induction fs as [|f fs IH]; intros k Hk Hl Hf Ht.
  { cbn [emit]. change (zlen (@nil (Z → Z))) with 0. by rewrite Z.add_0_r. }
  rewrite zlen_cons in Hl |- *. pose proof (zlen_nonneg fs). cbn [emit].
  assert (above w first (ztake k img) = if first then 0 else zget img (k - w)) as Ea.
  { unfold above. destruct first; [done|]. specialize (Hf eq_refl). rewrite zlen_ztake.
    replace (Z.min (Z.max 0 k) (zlen img)) with k by lia. by rewrite zget_ztake by lia. }
  rewrite Ea. pose proof (Ht 0%nat f eq_refl) as H0. rewrite Z.add_0_r in H0. rewrite <- H0, <- zget_ztake_last by lia.
  rewrite IH; [f_equal; lia|lia|lia|intros E; specialize (Hf E); lia|].
  intros t g Hg. specialize (Ht (S t) g Hg). replace (k + Z.of_nat (S t)) with (k + 1 + Z.of_nat t) in Ht by lia. done.
Qed.

(** [bs] is orders that draw the first [k] pixels; the decoder would put a
    foreground pixel in front of a background run if [ins]. *)
Definition drawn_by (bs : list Z) (k : Z) (ins : bool) : Prop :=
  ∃ os bss, bs = mjoin bss ∧ Forall2 encoded os bss ∧ orders_ok w os new_picture ∧
    let pc := apply_orders w os new_picture in
    pic_ok w pc ∧ pc_out pc = ztake k img ∧ pc_fg pc = WHITE_PIXEL ∧ pc_insert (next_line w pc) = ins.

Lemma drawn_by_nil : drawn_by [] 0 false.
Proof.
  exists [], []. split; [done|]. split; [constructor|]. split; [done|]. split_and!; [|done|done|].
  - constructor; cbn; [constructor| |done]. unfold pixel. cbn. lia.
  - unfold next_line. by destruct (_ && _).
Qed.

Lemma orders_ok_app os o pc : orders_ok w os pc → order_ok w (apply_orders w os pc) o → orders_ok w (os ++ [o]) pc.
Proof.
  revert pc. induction os as [|o' os IH]; intros pc H Ho; [done|]. destruct H as [H1 H2]. split; [done|]. by apply IH.
Qed.
Lemma first_line pc : pic_ok w pc → pc_first (next_line w pc) = (zlen (pc_out pc) <? w).
Proof.
  intros [_ _ H]. rewrite next_line_first by done. destruct (pc_first pc); cbn [andb].
  - destruct (Z.leb_spec w (zlen (pc_out pc))), (Z.ltb_spec (zlen (pc_out pc)) w); lia || done.
  - specialize (H eq_refl). symmetry. apply Z.ltb_ge. lia.
Qed.

Lemma drawn_by_order bs k ins o ob :
  drawn_by bs k ins → 0 <= k → encoded o ob → order_fg WHITE_PIXEL o = WHITE_PIXEL →
  (is_bg o = true → ins = false) →
  k + zlen (order_fs WHITE_PIXEL false o) <= zlen img →
  (∀ t f, order_fs WHITE_PIXEL false o !! t = Some f →
     zget img (k + Z.of_nat t) = f (if k <? w then 0 else zget img (k + Z.of_nat t - w))) →
  ∃ ins', drawn_by (bs ++ ob) (k + zlen (order_fs WHITE_PIXEL false o)) ins' ∧ (is_bg o = false → ins' = false) ∧
          (k < w → w <= k + zlen (order_fs WHITE_PIXEL false o) → ins' = false).
Proof.
  intros (os & bss & -> & He & Hok & Hpc & Hout & Hfg & Hins) Hk Ho Hf Hbg Hl Ht.
  set (pc := apply_orders w os new_picture) in *. set (fs := order_fs WHITE_PIXEL false o) in *.
  assert (zlen (ztake k img) = k) as Hz by (rewrite zlen_ztake; pose proof (zlen_nonneg fs); lia).
  assert (order_fs (pc_fg pc) (pc_insert (next_line w pc)) o = fs) as Efs.
  { rewrite Hfg, Hins. subst fs. destruct o; try done. by rewrite (Hbg eq_refl). }
  assert (apply_orders w (os ++ [o]) new_picture = apply_order w pc o) as Ea by (unfold apply_orders; by rewrite fold_left_app).
  assert (pc_out (apply_order w pc o) = ztake (k + zlen fs) img) as Eo.
  { unfold apply_order. cbn [pc_out]. rewrite next_line_out, next_line_fg, Efs, first_line by done. rewrite Hout, Hz.
    apply emit_image; [lia|done| |done]. intros E%Z.ltb_ge. lia. }
  exists (pc_insert (next_line w (apply_order w pc o))). split_and!.
  - exists (os ++ [o]), (bss ++ [ob]). split_and!.
    + rewrite join_app. cbn. by rewrite app_nil_r.
    + by apply Forall2_app; [|constructor].
    + apply orders_ok_app; [done|]. destruct o; try done. cbn. fold pc. rewrite Hins, (Hbg eq_refl). done.
    + rewrite Ea. split_and!; [by eapply apply_order_ok|done| |done].
      unfold apply_order. cbn [pc_fg]. by rewrite next_line_fg, Hfg.
  - intros E. rewrite next_line_insert by done. unfold apply_order at 3. cbn [pc_insert]. rewrite E. by destruct (_ && _).
  - intros Hlt Hge. rewrite next_line_insert by done. rewrite Eo, zlen_ztake.
    unfold apply_order at 1. cbn [pc_first]. rewrite first_line, Hout, Hz by done.
    destruct (Z.ltb_spec k w); [|lia]. cbn [andb]. by destruct (Z.leb_spec w (Z.min (Z.max 0 (k + zlen fs)) (zlen img))); [|lia].
Qed.

(** ** The orders of the encoder *)

Lemma masks_fs_spec fg n masks :
  0 <= n → zlen masks = (n + 7) / 8 →
  zlen (masks_fs fg n masks) = n ∧
  ∀ (t : nat) f, masks_fs fg n masks !! t = Some f →
    ∀ x, f x = if Z.testbit (zget masks (Z.of_nat t / 8)) (Z.of_nat t mod 8) then Z.lxor x fg else x.
Proof.
  revert n. induction masks as [|b masks IH]; intros n Hn Hz.
  { change (zlen (@nil Z)) with 0 in Hz. assert (n = 0) as -> by div_mod_lia. done. }
  rewrite zlen_cons in Hz. pose proof (zlen_nonneg masks). cbn [masks_fs].
  destruct (Z.le_gt_cases n 8) as [Hle|Hgt].
  - assert (n ≠ 0) by (intros ->; change ((0 + 7) / 8) with 0 in Hz; lia).
    assert (zlen masks = 0) as Hm by div_mod_lia. rewrite (zlen_nil_inv masks Hm). cbn [masks_fs].
    rewrite app_nil_r, Z.min_r by lia. split; [by apply zlen_mask_fs|]. intros t f Hf x.
    apply list_lookup_fmap_Some in Hf as (i & -> & Hi). apply lookup_seq in Hi as [-> Hi]. cbn [Nat.add].
    rewrite Z.div_small, Z.mod_small by lia. done.
  - assert ((n + 7) / 8 = 1 + (n - 8 + 7) / 8) as E8.
    { replace (n + 7) with (n - 8 + 7 + 1 * 8) by lia. rewrite Z.div_add by lia. lia. }
    destruct (IH (n - 8)) as [Hl Ht]; [lia|lia|]. rewrite Z.min_l by lia.
    pose proof (zlen_mask_fs fg b 8 ltac:(lia)) as H8. split; [rewrite zlen_app; lia|]. intros t f Hf x.
    apply lookup_app_Some in Hf as [Hf|[Hge Hf]].
    + apply list_lookup_fmap_Some in Hf as (i & -> & Hi). apply lookup_seq in Hi as [-> Hi]. cbn [Nat.add].
      change (Z.to_nat 8) with 8%nat in Hi. rewrite Z.div_small, Z.mod_small by lia. done.
    + unfold zlen in H8. rewrite (Ht _ f Hf x). replace (length (mask_fs fg b 8)) with 8%nat in Hge |- * by lia.
      replace (Z.of_nat t) with (Z.of_nat (t - 8) + 1 * 8) by lia. rewrite Z.div_add, Z.mod_add by lia.
      change (b :: masks) with ([b] ++ masks). rewrite zget_app by (pose proof (Z.div_pos (Z.of_nat (t - 8)) 8); lia).
      change (zlen [b]) with 1. assert (0 <= Z.of_nat (t - 8) / 8) by (apply Z.div_pos; lia).
      destruct (Z.ltb_spec (Z.of_nat (t - 8) / 8 + 1) 1); [lia|]. by replace (Z.of_nat (t - 8) / 8 + 1 - 1) with (Z.of_nat (t - 8) / 8) by lia.
Qed.

(** A run of pixels in one line or below the first one. *)
Definition run (P : Z → Prop) (first : bool) (s n : Z) : Prop := ∀ j, s <= j < s + n → P j ∧ (j <? w) = first.

Lemma run_up first s n j : run (λ _, True) first s n → s <= j < s + n →
  (if s <? w then 0 else zget img (j - w)) = up j.
Proof.
  intros Hr Hj. unfold up. destruct (Hr j Hj) as [_ E1]. destruct (Hr s ltac:(lia)) as [_ E2]. by rewrite E1, E2.
Qed.
Lemma run_true P first s n : run P first s n → run (λ _, True) first s n.
Proof. intros Hr j Hj. split; [done|]. by apply Hr. Qed.

Lemma draw_copy bs k ins n ob :
  drawn_by bs k ins → 0 <= k → 0 <= n → k + n <= zlen img → encoded (ColorImage (zslice k n img)) ob →
  drawn_by (bs ++ ob) (k + n) false.
Proof.
  intros Hd Hk Hn Hl He. assert (zlen (order_fs WHITE_PIXEL false (ColorImage (zslice k n img))) = n) as Hz.
  { cbn [order_fs]. unfold zlen. rewrite length_map. by apply zlen_zslice. }
  destruct (drawn_by_order bs k ins _ ob Hd Hk He eq_refl ltac:(done)) as (ins' & Hd' & Hi & _).
  - by rewrite Hz.
  - cbn [order_fs]. intros t f Hf. apply list_lookup_fmap_Some in Hf as (p & -> & Hp).
    unfold zslice, ztake, zdrop in Hp. apply lookup_take_Some in Hp as [Hp _]. rewrite lookup_drop in Hp.
    unfold zget. rewrite nth_lookup. replace (Z.to_nat (k + Z.of_nat t)) with (Z.to_nat k + t)%nat by lia. by rewrite Hp.
  - rewrite Hz in Hd'. by rewrite (Hi eq_refl) in Hd'.
Qed.

Lemma replicate_lookup n (f g : Z → Z) t : replicate n f !! t = Some g → g = f ∧ (t < n)%nat.
Proof. intros H. by apply lookup_replicate in H. Qed.

Lemma draw_fill bs k first n ob :
  drawn_by bs k false → 0 <= k → 1 <= n → k + n <= zlen img → run filled first k n → encoded (BgRun n) ob →
  ∃ ins, drawn_by (bs ++ ob) (k + n) ins ∧ (k < w → w <= k + n → ins = false).
Proof.
  intros Hd Hk Hn Hl Hr He. assert (zlen (order_fs WHITE_PIXEL false (BgRun n)) = n) as Hz by (by apply zlen_run; lia).
  destruct (drawn_by_order bs k false _ ob Hd Hk He eq_refl ltac:(done)) as (ins' & Hd' & _ & Hi).
  - by rewrite Hz.
  - cbn [order_fs]. intros t f [-> Ht]%replicate_lookup. rewrite (run_up first k n) by (lia || by eapply run_true).
    apply (Hr (k + Z.of_nat t)). lia.
  - rewrite Hz in Hd', Hi. eauto.
Qed.
Lemma draw_mix bs k ins first n ob :
  drawn_by bs k ins → 0 <= k → 1 <= n → k + n <= zlen img → run mixed first k n → encoded (FgRun n) ob →
  drawn_by (bs ++ ob) (k + n) false.
Proof.
  intros Hd Hk Hn Hl Hr He. assert (zlen (order_fs WHITE_PIXEL false (FgRun n)) = n) as Hz by (by apply zlen_run; lia).
  assert (mix = WHITE_PIXEL) as Em by (apply (Hmix k); [lia|]; apply Hr; lia).
  destruct (drawn_by_order bs k ins _ ob Hd Hk He eq_refl ltac:(done)) as (ins' & Hd' & Hi & _).
  - by rewrite Hz.
  - cbn [order_fs]. intros t f [-> Ht]%replicate_lookup. rewrite (run_up first k n) by (lia || by eapply run_true).
    rewrite <- Em. apply (Hr (k + Z.of_nat t)). lia.
  - rewrite Hz in Hd'. by rewrite (Hi eq_refl) in Hd'.
Qed.
Lemma draw_color bs k ins n p ob :
  drawn_by bs k ins → 0 <= k → 1 <= n → k + n <= zlen img → (∀ j, k <= j < k + n → zget img j = p) →
  encoded (ColorRun n p) ob → drawn_by (bs ++ ob) (k + n) false.
Proof.
  intros Hd Hk Hn Hl Hr He. assert (zlen (order_fs WHITE_PIXEL false (ColorRun n p)) = n) as Hz by (by apply zlen_run; lia).
  destruct (drawn_by_order bs k ins _ ob Hd Hk He eq_refl ltac:(done)) as (ins' & Hd' & Hi & _).
  - by rewrite Hz.
  - cbn [order_fs]. intros t f [-> Ht]%replicate_lookup. apply Hr. lia.
  - rewrite Hz in Hd'. by rewrite (Hi eq_refl) in Hd'.
Qed.
Lemma draw_fom bs k ins first n masks ob :
  drawn_by bs k ins → 0 <= k → 1 <= n → k + n <= zlen img → run (λ j, filled j ∨ mixed j) first k n →
  zlen masks = (n + 7) / 8 →
  (∀ t, 0 <= t < n → Z.testbit (zget masks (t / 8)) (t mod 8) = true ↔ mixed (k + t)) →
  encoded (FgBgImage n masks) ob → drawn_by (bs ++ ob) (k + n) false.
Proof.
  intros Hd Hk Hn Hl Hr Hm Hb He. destruct (masks_fs_spec WHITE_PIXEL n masks) as [Hz Hf]; [lia|done|].
  destruct (drawn_by_order bs k ins _ ob Hd Hk He eq_refl ltac:(done)) as (ins' & Hd' & Hi & _); cbn [order_fs] in *.
  - by rewrite Hz.
  - intros t f Ht. pose proof (lookup_lt_Some _ _ _ Ht) as Hlt. unfold zlen in Hz.
    rewrite (Hf t f Ht), (run_up first k n) by (lia || by eapply run_true).
    specialize (Hb (Z.of_nat t) ltac:(lia)). specialize (Hr (k + Z.of_nat t) ltac:(lia)) as [Hr _].
    destruct (Z.testbit _ _).
    + assert (mixed (k + Z.of_nat t)) as Hmx by (by apply Hb). rewrite <- (Hmix (k + Z.of_nat t)) by (done || lia). exact Hmx.
    + destruct Hr as [Hr|Hr]; [exact Hr|]. apply Hb in Hr. done.
  - rewrite Hz in Hd'. by rewrite (Hi eq_refl) in Hd'.
Qed.

#[local] Close Scope winpr_scope.

(** * The state of the encoder *)

Hypothesis HN : zlen img <= 32768.

(** The pixels with a black one in front. *)
Definition seen (j : Z) : Z := if j <? 0 then 0 else zget img j.
(** No five pixels in a row alternate between two colors. *)
Hypothesis Halt : ∀ i, 3 <= i < zlen img → seen i ≠ seen (i - 1) →
  seen i = seen (i - 2) → seen (i - 1) = seen (i - 3) → seen (i - 2) = seen (i - 4) → False.

(** [i] pixels are read; the output draws the first [k] of them, the others are
    pending.  Each counter is the length of a run that ends at [i]. *)
Record inv (first : bool) (i k : Z) (c : compressor) : Prop := {
  i_range : 0 <= k <= i ∧ i <= zlen img;
  i_out : ∃ ins, drawn_by (written (c_s c)) k ins ∧ (ins = true → k < zlen img → ¬ filled k);
  i_s : wf (c_s c);
  i_cap : 2 * zlen img + 3 <= st_capacity (c_s c);
  i_size : st_pointer (c_s c) <= 2 * k;
  i_t : wf (temp_s c);
  i_tcap : 2 * zlen img <= st_capacity (temp_s c);
  i_temp : ztake (2 * (i - k)) (st_buffer (temp_s c)) = pixels_bytes (zslice k (i - k) img);
  i_count : count c = i - k;
  i_last : last_pixel c = seen (i - 1);
  i_fill : 0 <= fill_count (counts c) <= i - k ∧ run filled first (i - fill_count (counts c)) (fill_count (counts c));
  i_mix : 0 <= mix_count (counts c) <= i - k ∧ run mixed first (i - mix_count (counts c)) (mix_count (counts c));
  i_color : 0 <= color_count (counts c) <= i - k ∧
    ∀ j, i - color_count (counts c) <= j < i → zget img j = last_pixel c;
  i_fom : 0 <= fom_count (counts c) <= i - k ∧
    run (λ j, filled j ∨ mixed j) first (i - fom_count (counts c)) (fom_count (counts c));
  i_mask : mask_ok (fom_mask c) (fom_count (counts c)) (fom_mask_len (counts c)) (λ t, mixed (i - fom_count (counts c) + t));
  i_bicolor : 0 <= bicolor_count (counts c) <= 3 ∧ bicolor_count (counts c) <= i - k ∧
    ∀ t, 1 <= t <= bicolor_count (counts c) → seen (i - t) ≠ seen (i - t - 1) ∧
      (seen (i - t) = bicolor1 c ∨ seen (i - t) = bicolor2 c) ∧
      (seen (i - t - 1) = bicolor1 c ∨ seen (i - t - 1) = bicolor2 c);
}.
(** The stream of the pending pixels is at its end. *)
Definition at_end (c : compressor) : Prop := st_pointer (temp_s c) = 2 * count c.

(** ** Writing a run *)

Lemma run_nil P first s : run P first s 0.
Proof. intros j Hj. lia. Qed.

Lemma copied first i k c n :
  inv first i k c → 0 <= n <= i - k →
  ∃ s', out_pending n c = Ret (Some tt, set_count 0 (set_temp (set_pointer 0 (temp_s c)) (set_s s' c))) ∧
    wf s' ∧ st_capacity s' = st_capacity (c_s c) ∧ st_pointer s' <= 2 * (i - n) + 3 ∧
    ∃ ins, drawn_by (written s') (i - n) ins ∧ (ins = true → i - n < zlen img → ¬ filled (i - n)).
Proof.
  intros [Hr (ins & Hd & Hins) Hs Hcap Hsz Ht Htc Htemp Hc _ _ _ _ _ _ _] Hn.
  unfold out_pending. destruct (Z.gtb_spec n (count c)); [lia|].
  set (m := i - n - k). assert (u16 (count c - n) = m) as Em by (unfold u16; rewrite Z.mod_small; lia). rewrite Em.
  assert (∃ s', out_copy_count m (temp_s c) (c_s c) = Ret (tt, s') ∧ wf s' ∧ st_capacity s' = st_capacity (c_s c) ∧
     st_pointer s' <= 2 * (i - n) + 3 ∧
     ∃ ins, drawn_by (written s') (i - n) ins ∧ (ins = true → i - n < zlen img → ¬ filled (i - n))) as (s' & E & Hs').
  { destruct (Z.eq_dec m 0) as [E0|E0].
    { exists (c_s c). rewrite E0. split_and!; [done|done|done|lia|]. replace (i - n) with k by lia. by exists ins. }
    assert (zlen (zslice k m img) = m) as Hzm by (apply zlen_zslice; lia).
    destruct (out_copy_order (temp_s c) (zslice k m img)) as (bs & Hp & He & Hz & _).
    - rewrite Hzm. unfold UINT16_MAX. lia.
    - by apply Forall_zslice.
    - rewrite Hzm. rewrite <- (ztake_ztake (2 * m) (2 * (i - k))), Htemp by lia.
      replace (zslice k (i - k) img) with (zslice k m img ++ zslice (k + m) (i - k - m) img).
      + rewrite pixels_bytes_app, ztake_app_le by (rewrite zlen_pixels_bytes, Hzm; change PIXEL_SIZE with 2; lia).
        apply ztake_all. rewrite zlen_pixels_bytes, Hzm. change PIXEL_SIZE with 2. lia.
      + unfold zslice. rewrite <- (zdrop_zdrop m k) by lia. rewrite <- (ztake_zdrop m (ztake (i - k) (zdrop k img))).
        rewrite ztake_ztake, zdrop_ztake by lia. done.
    - rewrite Hzm in *. destruct (Hp (c_s c)) as (s' & E & W); [done|unfold StreamLogic.fits; lia|]. exists s'.
      destruct W as [W1 W2 W3 W4 _]. split_and!; [done|done|lia|lia|].
      exists false. split; [|done]. rewrite W2. replace (i - n) with (k + m) by lia.
      eapply draw_copy; [exact Hd|lia|lia|lia|exact He]. }
  exists s'. split; [|done]. unfold mbind, CM_bind, modify, on_s, on_temp.
  cbn [set_count set_s set_temp count temp_s c_s]. by rewrite E.
Qed.

(** The state after a run of [n] pixels is written and the counters are reset. *)
Lemma inv_reset first i k c s' ins :
  inv first i k c → wf s' → st_capacity s' = st_capacity (c_s c) → st_pointer s' <= 2 * i →
  drawn_by (written s') i ins → (ins = true → i < zlen img → ¬ filled i) →
  let c' := set_counts reset_counts (set_s s' (set_count 0 (set_temp (set_pointer 0 (temp_s c)) (set_s s' c)))) in
  inv first i i c' ∧ at_end c'.
Proof.
  intros [Hr _ Hs Hcap Hsz Ht Htc Htemp Hc Hl _ _ _ _ [Hm1 Hm2 _ _] _] Hs' Hc' Hp' Hd Hi c'. split; [|done].
  constructor; cbn; try (split; [lia|]); try apply run_nil; try done.
  - lia.
  - by exists ins.
  - lia.
  - destruct Ht. by constructor; cbn; try lia.
  - rewrite Z.sub_diag. by rewrite ztake_nonpos by lia.
  - lia.
  - intros j Hj. lia.
  - constructor; [done|done|done|]. intros t Ht'. lia.
  - split; [lia|]. intros t Ht'. lia.
Qed.

(** [m] writes the order [o] for the last [n] pixels. *)
Definition emits (i k : Z) (c : compressor) (n : Z) (m : compressor → SM unit) : Prop :=
  ∃ sz o, 4 <= n <= i - k ∧ sz <= 2 * n - 3 ∧
  (∀ s', ∃ bs, writes_order sz (m (set_count 0 (set_temp (set_pointer 0 (temp_s c)) (set_s s' c)))) o bs) ∧
  (∀ s' bs ins, drawn_by (written s') (i - n) ins → (ins = true → i - n < zlen img → ¬ filled (i - n)) → encoded o bs →
     ∃ ins', drawn_by (written s' ++ bs) i ins' ∧ (ins' = true → i < zlen img → ¬ filled i)).

(** The order behind the pending pixels. *)
Lemma emitted first i k c n m :
  inv first i k c → emits i k c n m →
  ∃ s', (out_pending n;; on_s m) c = Ret (Some tt, set_s s' (set_count 0 (set_temp (set_pointer 0 (temp_s c)) (set_s s' c)))) ∧
    wf s' ∧ st_capacity s' = st_capacity (c_s c) ∧ st_pointer s' <= 2 * i ∧
    ∃ ins, drawn_by (written s') i ins ∧ (ins = true → i < zlen img → ¬ filled i).
Proof.
  intros Hinv (sz & o & Hn & Hsz & Hm & Hd).
  destruct (copied first i k c n Hinv ltac:(lia)) as (s' & E & Hw' & Hc' & Hp' & ins & Hd' & Hi).
  destruct (Hm s') as (bs & Hput & Henc & Hz & _). set (c1 := set_count 0 _) in *.
  destruct (Hput s' Hw') as (s'' & E2 & W).
  { unfold StreamLogic.fits. rewrite Hc'. pose proof (i_cap _ _ _ _ Hinv). pose proof (i_range _ _ _ _ Hinv). lia. }
  destruct W as [W1 W2 W3 W4 _]. destruct (Hd s' bs ins Hd' Hi Henc) as (ins' & Hd'' & Hi').
  exists s''. split_and!; [|done|lia|lia|exists ins'; by rewrite W2].
  unfold mbind, CM_bind. rewrite E. unfold on_s. change (c_s c1) with s'. by rewrite E2.
Qed.

(** ** Flushing *)

Lemma best_long n k : best n k = true → 4 <= n.
Proof. unfold best. rewrite !andb_true_iff. intros (((((H & _) & _) & _) & _) & _). lia. Qed.

(** What a flush makes of the state. *)
Record flushed (first : bool) (i : Z) (c c' : compressor) : Prop := {
  f_inv : ∃ k, inv first i k c';
  f_end : at_end c';
  f_fill : fill_count (counts c) = 0 → fill_count (counts c') = 0;
  f_mix : mix_count (counts c) = 0 → mix_count (counts c') = 0;
  f_color : color_count (counts c) = 0 → color_count (counts c') = 0;
  f_bicolor : bicolor_count (counts c) = 0 → bicolor_count (counts c') = 0;
  f_fom : fom_count (counts c) = 0 → fom_count (counts c') = 0;
}.
(** The test for two colors comes out the same, or its run is over. *)
Definition same_test (c c' : compressor) : Prop :=
  bicolor_count (counts c') = 0 ∨ ∀ p, test_bicolor p c' = test_bicolor p c.

Lemma flushed_refl first i k c : inv first i k c → at_end c → flushed first i c c.
Proof. intros Hi He. constructor; eauto. Qed.
Lemma flushed_trans first i c1 c2 c3 : flushed first i c1 c2 → flushed first i c2 c3 → flushed first i c1 c3.
Proof. intros [] []. constructor; auto. Qed.

Lemma flush_ok first i k c b (e : CM unit) n m :
  inv first i k c → at_end c → e c = (out_pending n;; on_s m) c → (b (counts c) = true → emits i k c n m) →
  ∃ c', flush b e c = Ret (Some tt, c') ∧ flushed first i c c' ∧ same_test c c'.
Proof.
  intros Hinv He Ee Hb. unfold flush. destruct (b (counts c)).
  - destruct (emitted first i k c n m Hinv (Hb eq_refl)) as (s' & E & Hs & Hc & Hp & ins & Hd & Hi).
    destruct (inv_reset first i k c s' ins Hinv Hs Hc Hp Hd Hi) as [Hinv' He'].
    eexists. split_and!; [unfold mbind at 1; unfold CM_bind at 1; rewrite Ee, E; unfold modify; reflexivity| |by left].
    constructor; cbn; eauto.
  - exists c. split_and!; [done|by eapply flushed_refl|by right].
Qed.

(** Clearing a counter. *)
Lemma inv_clear first i k c K :
  inv first i k c →
  (fill_count K = fill_count (counts c) ∨ fill_count K = 0) →
  (mix_count K = mix_count (counts c) ∨ mix_count K = 0) →
  (color_count K = color_count (counts c) ∨ color_count K = 0) →
  (bicolor_count K = bicolor_count (counts c) ∨ bicolor_count K = 0) →
  (fom_count K = fom_count (counts c) ∧ fom_mask_len K = fom_mask_len (counts c) ∨ fom_count K = 0 ∧ fom_mask_len K = 0) →
  inv first i k (set_counts K c).
Proof.
  intros [] H1 H2 H3 H4 H5. constructor; cbn; try done.
  - destruct H1 as [->| ->]; [done|]. split; [lia|apply run_nil].
  - destruct H2 as [->| ->]; [done|]. split; [lia|apply run_nil].
  - destruct H3 as [->| ->]; [done|]. split; [lia|]. intros j Hj. lia.
  - destruct H5 as [[-> _]|[-> _]]; [done|]. split; [lia|apply run_nil].
  - destruct H5 as [[-> ->]|[-> ->]]; [done|]. destruct i_mask0 as [? ? _ _]. constructor; [done|done|done|]. intros t Ht. lia.
  - destruct H4 as [->| ->]; [done|]. split_and!; [lia|lia|lia|]. intros t Ht. lia.
Qed.

(** A flush and the clearing of the counter behind it. *)
Lemma cleared first i c (m : CM unit) K :
  (∃ c', m c = Ret (Some tt, c') ∧ flushed first i c c' ∧ same_test c c') →
  (∀ k0, (fill_count (K k0) = fill_count k0 ∨ fill_count (K k0) = 0) ∧
         (mix_count (K k0) = mix_count k0 ∨ mix_count (K k0) = 0) ∧
         (color_count (K k0) = color_count k0 ∨ color_count (K k0) = 0) ∧
         bicolor_count (K k0) = bicolor_count k0 ∧ bicolor_spin (K k0) = bicolor_spin k0 ∧
         (fom_count (K k0) = fom_count k0 ∧ fom_mask_len (K k0) = fom_mask_len k0 ∨
          fom_count (K k0) = 0 ∧ fom_mask_len (K k0) = 0)) →
  ∃ c', (m;; modify (λ c, set_counts (K (counts c)) c)) c = Ret (Some tt, c') ∧ flushed first i c c' ∧ same_test c c' ∧
    ∃ k0, counts c' = K k0.
Proof.
  intros (c1 & E & Hf & Ht) HK. exists (set_counts (K (counts c1)) c1). destruct (HK (counts c1)) as (K1 & K2 & K3 & K4 & K5 & K6).
  split; [unfold mbind, CM_bind; by rewrite E|]. destruct Hf as [[k Hi] He F1 F2 F3 F4 F5]. split_and!.
  - constructor; cbn; [|done|..].
    + exists k. apply inv_clear; eauto.
    + intros H. destruct K1 as [->| ->]; auto.
    + intros H. destruct K2 as [->| ->]; auto.
    + intros H. destruct K3 as [->| ->]; auto.
    + rewrite K4. auto.
    + intros H. destruct K6 as [[-> _]|[-> _]]; auto.
  - destruct Ht as [Ht|Ht]; [left; cbn; congruence|]. right. intros p. rewrite <- Ht. unfold test_bicolor. cbn. by rewrite K5.
  - by eexists.
Qed.

Lemma fill_emits first i k c :
  inv first i k c → (i < zlen img → ¬ filled i) ∨ first = true ∧ w <= i → 4 <= fill_count (counts c) →
  emits i k c (fill_count (counts c)) (λ c, out_fill_count (fill_count (counts c))).
Proof.
  intros Hinv Hnext Hb. destruct (i_fill _ _ _ _ Hinv) as [Hn Hrun]. destruct (i_range _ _ _ _ Hinv) as [Hr1 Hr2].
  set (n := fill_count (counts c)) in *. exists 3, (BgRun n). split_and!; [lia..| |].
  - intros s'. apply out_fill_order. fold n. unfold UINT16_MAX. cbn. lia.
  - intros s' bs ins Hd Hi Henc. assert (ins = false) as ->.
    { destruct ins; [|done]. exfalso. apply Hi; [done|lia|]. apply Hrun. lia. }
    destruct (draw_fill (written s') (i - n) first n bs) as (ins' & Hd' & Hc); [done|lia|lia|lia|done|done|].
    exists ins'. replace (i - n + n) with i in Hd', Hc by lia. split; [done|]. intros ->.
    destruct Hnext as [Hnext|[-> Hnext]]; [done|]. destruct (Hrun (i - n) ltac:(lia)) as [_ Hlt%Z.ltb_lt]. by specialize (Hc Hlt Hnext).
Qed.
Lemma mix_emits first i k c :
  inv first i k c → 4 <= mix_count (counts c) →
  emits i k c (mix_count (counts c)) (λ c, out_counts_mix_count (mix_count (counts c))).
Proof.
  intros Hinv Hb. destruct (i_mix _ _ _ _ Hinv) as [Hn Hrun]. destruct (i_range _ _ _ _ Hinv) as [Hr1 Hr2].
  set (n := mix_count (counts c)) in *. exists 3, (FgRun n). split_and!; [lia..| |].
  - intros s'. apply out_mix_order. fold n. unfold UINT16_MAX. cbn. lia.
  - intros s' bs ins Hd Hi Henc. exists false. split; [|done].
    pose proof (draw_mix (written s') (i - n) ins first n bs Hd) as H. replace (i - n + n) with i in H by lia. apply H; done || lia.
Qed.
Lemma last_pixel_ok first i k c : inv first i k c → pixel (last_pixel c).
Proof.
  intros Hinv. rewrite (i_last _ _ _ _ Hinv). assert (pixel 0) as H0 by (unfold pixel; cbn; lia).
  unfold seen. destruct (_ <? 0); [done|]. unfold zget.
  destruct (nth_in_or_default (Z.to_nat (i - 1)) img 0) as [Hin| ->]; [|done].
  rewrite List.Forall_forall in Himg. by apply Himg.
Qed.
Lemma color_emits first i k c :
  inv first i k c → 4 <= color_count (counts c) →
  emits i k c (color_count (counts c)) (λ c, out_color_count (color_count (counts c)) (last_pixel c)).
Proof.
  intros Hinv Hb. destruct (i_color _ _ _ _ Hinv) as [Hn Hrun]. destruct (i_range _ _ _ _ Hinv) as [Hr1 Hr2].
  set (n := color_count (counts c)) in *. set (p := last_pixel c) in *. exists 5, (ColorRun n p). split_and!; [lia..| |].
  - intros s'. apply out_color_order; [fold n; unfold UINT16_MAX; cbn; lia|]. by eapply last_pixel_ok.
  - intros s' bs ins Hd Hi Henc. exists false. split; [|done].
    pose proof (draw_color (written s') (i - n) ins n p bs Hd) as H. replace (i - n + n) with i in H by lia. apply H; done || lia.
Qed.
Lemma fom_emits first i k c :
  inv first i k c → 4 <= fom_count (counts c) →
  emits i k c (fom_count (counts c)) (λ c, out_from_count (fom_count (counts c)) (fom_mask c) (fom_mask_len (counts c))).
Proof.
  intros Hinv Hb. destruct (i_fom _ _ _ _ Hinv) as [Hn Hrun]. destruct (i_range _ _ _ _ Hinv) as [Hr1 Hr2].
  destruct (i_mask _ _ _ _ Hinv) as [Hm1 Hm2 Hm3 Hm4].
  set (n := fom_count (counts c)) in *. set (len := fom_mask_len (counts c)) in *.
  assert (0 <= len <= 8192) as Hlen by (rewrite Hm3; div_mod_lia).
  exists (3 + len), (FgBgImage n (ztake len (fom_mask c))). split_and!; [lia|lia| | |].
  - rewrite Hm3. div_mod_lia.
  - intros s'. apply out_fom_order; cbn; fold n len; [unfold UINT16_MAX; lia|done|lia|done].
  - intros s' bs ins Hd Hi Henc. exists false. split; [|done].
    pose proof (draw_fom (written s') (i - n) ins first n (ztake len (fom_mask c)) bs Hd) as H.
    replace (i - n + n) with i in H by lia. apply H; try done; try lia.
    + rewrite zlen_ztake. lia.
    + intros t Ht. assert (0 <= t / 8 < len) by (rewrite Hm3; div_mod_lia). rewrite zget_ztake by lia.
      rewrite Hm4 by div_mod_lia. split; [by intros [_ ?]|]. intros. split; [lia|done].
Qed.

Lemma flush_fill_ok first i k c :
  inv first i k c → at_end c → (i < zlen img → ¬ filled i) ∨ first = true ∧ w <= i →
  ∃ c', flush_fill c = Ret (Some tt, c') ∧ flushed first i c c' ∧ same_test c c' ∧ fill_count (counts c') = 0.
Proof.
  intros Hinv He Hnext.
  destruct (cleared first i c (flush (λ k, best (fill_count k) k) emit_fill) (set_fill 0)) as (c' & E & Hf & Ht & k0 & Ec).
  - eapply (flush_ok first i k c); [done|done|reflexivity|]. intros Hb%best_long. by apply (fill_emits first i k c Hinv Hnext).
  - intros k0. cbn. tauto.
  - exists c'. split_and!; [done|done|done|by rewrite Ec].
Qed.
Lemma flush_mix_ok first i k c :
  inv first i k c → at_end c →
  ∃ c', flush_mix c = Ret (Some tt, c') ∧ flushed first i c c' ∧ same_test c c' ∧ mix_count (counts c') = 0.
Proof.
  intros Hinv He.
  destruct (cleared first i c (flush (λ k, best (mix_count k) k) emit_mix) (set_mix 0)) as (c' & E & Hf & Ht & k0 & Ec).
  - eapply (flush_ok first i k c); [done|done|reflexivity|]. intros Hb%best_long. by apply (mix_emits first i k c Hinv).
  - intros k0. cbn. tauto.
  - exists c'. split_and!; [done|done|done|by rewrite Ec].
Qed.
Lemma flush_color_ok first i k c :
  inv first i k c → at_end c →
  ∃ c', flush_color c = Ret (Some tt, c') ∧ flushed first i c c' ∧ same_test c c' ∧ color_count (counts c') = 0.
Proof.
  intros Hinv He.
  destruct (cleared first i c (flush (λ k, best (color_count k) k) emit_color) (set_color 0)) as (c' & E & Hf & Ht & k0 & Ec).
  - eapply (flush_ok first i k c); [done|done|reflexivity|]. intros Hb%best_long. by apply (color_emits first i k c Hinv).
  - intros k0. cbn. tauto.
  - exists c'. split_and!; [done|done|done|by rewrite Ec].
Qed.
Lemma flush_fom_ok first i k c :
  inv first i k c → at_end c →
  ∃ c', flush_fom c = Ret (Some tt, c') ∧ flushed first i c c' ∧ same_test c c' ∧ fom_count (counts c') = 0.
Proof.
  intros Hinv He.
  destruct (cleared first i c (flush (λ k, best (fom_count k) k) emit_fom) (set_fom 0 0)) as (c' & E & Hf & Ht & k0 & Ec).
  - eapply (flush_ok first i k c); [done|done|reflexivity|]. intros Hb%best_long. by apply (fom_emits first i k c Hinv).
  - intros k0. cbn. tauto.
  - exists c'. split_and!; [done|done|done|by rewrite Ec].
Qed.
Lemma flush_bicolor_ok first i k c pixel :
  inv first i k c → at_end c →
  ∃ c', flush_bicolor pixel c = Ret (Some tt, c') ∧ flushed first i c c' ∧ bicolor_count (counts c') = 0.
Proof.
  intros Hinv He. set (c' := set_bicolors (last_pixel c) pixel (set_counts (set_bicolor 0 false (counts c)) c)).
  exists c'. destruct (i_bicolor _ _ _ _ Hinv) as (Hb & _). split_and!; [|constructor; try done|done].
  - unfold flush_bicolor, flush, mbind, CM_bind, best. by replace (bicolor_count (counts c) >? 3) with false by lia.
  - exists k. assert (inv first i k (set_counts (set_bicolor 0 false (counts c)) c)) as H by (apply inv_clear; cbn; auto).
    destruct H. constructor; try done. cbn. split_and!; [lia..|]. intros t Ht. lia.
Qed.

(** ** One pixel *)

Definition test_fill (first : bool) (p y : Z) : bool := (first && (p =? 0)) || (negb first && (p =? y)).
Definition test_mix (first : bool) (p y : Z) : bool := (first && (p =? mix)) || (negb first && (p =? Z.lxor y mix)).
Lemma test_fill_spec i : test_fill (i <? w) (zget img i) (up i) = true ↔ filled i.
Proof.
  unfold test_fill, filled, up. destruct (i <? w); cbn [andb orb negb]; rewrite ?orb_false_r; apply Z.eqb_eq.
Qed.
Lemma test_mix_spec i : test_mix (i <? w) (zget img i) (up i) = true ↔ mixed i.
Proof.
  unfold test_mix, mixed, up. destruct (i <? w); cbn [andb orb negb]; rewrite ?orb_false_r, ?Z.lxor_0_l; apply Z.eqb_eq.
Qed.
Lemma mixed_spec i : (zget img i =? Z.lxor (up i) mix) = true ↔ mixed i.
Proof. apply Z.eqb_eq. Qed.

Lemma bind_run {A B} (m : CM A) (k : A → CM B) c a c' : m c = Ret (Some a, c') → (m ≫= k) c = k a c'.
Proof. intros E. unfold mbind, CM_bind. by rewrite E. Qed.

Lemma run_extend P first i n :
  run P first (i - n) n → P i → (i <? w) = first → 0 <= n → run P first (i + 1 - (n + 1)) (n + 1).
Proof. intros Hr Hp Hf Hn j Hj. destruct (Z.eq_dec j i) as [->|Hne]; [done|]. apply Hr. lia. Qed.

(** What a pixel adds to a counter that was cleared if the pixel does not go on with its run. *)
Definition add_if (b : bool) (n : Z) : Z := if b then u16 (n + 1) else n.

Lemma cm_if_fill b c :
  cm_if b (modify (λ c, set_counts (set_fill (u16 (fill_count (counts c) + 1)) (counts c)) c)) c =
  Ret (Some tt, set_counts (set_fill (add_if b (fill_count (counts c))) (counts c)) c).
Proof. by destruct b, c as [??????[]??]. Qed.
Lemma cm_if_mix b c :
  cm_if b (modify (λ c, set_counts (set_mix (u16 (mix_count (counts c) + 1)) (counts c)) c)) c =
  Ret (Some tt, set_counts (set_mix (add_if b (mix_count (counts c))) (counts c)) c).
Proof. by destruct b, c as [??????[]??]. Qed.
Lemma cm_if_color b c :
  cm_if b (modify (λ c, set_counts (set_color (u16 (color_count (counts c) + 1)) (counts c)) c)) c =
  Ret (Some tt, set_counts (set_color (add_if b (color_count (counts c))) (counts c)) c).
Proof. by destruct b, c as [??????[]??]. Qed.
Lemma cm_if_bicolor b c :
  cm_if b (modify (λ c, set_counts (set_bicolor (u16 (bicolor_count (counts c) + 1)) (negb (bicolor_spin (counts c))) (counts c)) c)) c =
  Ret (Some tt, set_counts (set_bicolor (add_if b (bicolor_count (counts c))) (xorb b (bicolor_spin (counts c))) (counts c)) c).
Proof. by destruct b, c as [??????[????? ? []]??]. Qed.

Lemma count_fom_run mixed_ m f len bit c m1 len1 :
  m = fom_mask c → f = fom_count (counts c) → len = fom_mask_len (counts c) →
  mask_ok m f len bit → 0 <= f < 32768 → open_byte m f len = (m1, len1) →
  count_fom mixed_ c =
    Ret (Some tt, set_mask (put_bit mixed_ m1 f len1) (set_counts (set_fom (f + 1) len1 (counts c)) c)).
Proof.
  intros -> -> -> Hm Hf Ho. pose proof (open_byte_ok _ _ _ _ _ _ Hm Hf Ho) as (_ & _ & El & _ & _).
  destruct Hm as [Hz _ Hl _]. unfold count_fom.
  assert ((fom_count (counts c) mod 8 =? 0) && (fom_mask_len (counts c) >=? zlen (fom_mask c)) = false) as ->.
  { rewrite Hz, Hl. apply andb_false_iff. right. rewrite Z.geb_leb. apply Z.leb_gt. div_mod_lia. }
  unfold open_byte in Ho. rewrite Ho. destruct (Z.eqb_spec len1 0); [assert (0 <= fom_count (counts c) / 8) by (apply Z.div_pos; lia); lia|].
  unfold u16. by rewrite (Z.mod_small (_ + 1) 65536) by lia.
Qed.

Lemma zslice_snoc k i : 0 <= k <= i → i < zlen img → zslice k (i + 1 - k) img = zslice k (i - k) img ++ [zget img i].
Proof.
  intros Hk Hi. unfold zslice. rewrite <- (ztake_zdrop (i - k) (ztake (i + 1 - k) (zdrop k img))).
  rewrite ztake_ztake, zdrop_ztake, zdrop_zdrop by lia. f_equal. replace (k + (i - k)) with i by lia.
  replace (i + 1 - k - (i - k)) with 1 by lia.
  assert (0 < zlen (zdrop i img)) as Hz by (rewrite zlen_zdrop; lia).
  pose proof (zget_zdrop i img 0 ltac:(lia) ltac:(lia)) as Hg. rewrite Z.add_0_r in Hg. rewrite <- Hg.
  destruct (zdrop i img) as [|x l]; [change (zlen (@nil Z)) with 0 in Hz; lia|done].
Qed.

Lemma two_colors (x y z a b : Z) : x ≠ y → y ≠ z → x = a ∨ x = b → y = a ∨ y = b → z = a ∨ z = b → x = z.
Proof. intros Hxy Hyz [->| ->] [->| ->] [->| ->]; congruence. Qed.
Lemma bicolor_counted i n a b :
  0 <= n <= 3 → n <= i → i < zlen img →
  (∀ t, 1 <= t <= n → seen (i - t) ≠ seen (i - t - 1) ∧ (seen (i - t) = a ∨ seen (i - t) = b) ∧
     (seen (i - t - 1) = a ∨ seen (i - t - 1) = b)) →
  seen i ≠ seen (i - 1) → (seen i = a ∨ seen i = b) → (seen (i - 1) = a ∨ seen (i - 1) = b) →
  n + 1 <= 3 ∧ ∀ t, 1 <= t <= n + 1 → seen (i + 1 - t) ≠ seen (i + 1 - t - 1) ∧
    (seen (i + 1 - t) = a ∨ seen (i + 1 - t) = b) ∧ (seen (i + 1 - t - 1) = a ∨ seen (i + 1 - t - 1) = b).
Proof.
  intros Hn Hni Hi Ht N1 P1 Q1. split.
  - destruct (Z.eq_dec n 3) as [->|Hne]; [|clear - Hn Hne; lia]. exfalso.
    assert (3 <= i < zlen img) as Hi3 by (clear - Hni Hi; lia).
    pose proof (Ht 1 ltac:(clear; lia)) as (N2 & P2 & Q2). pose proof (Ht 2 ltac:(clear; lia)) as (N3 & P3 & Q3).
    pose proof (Ht 3 ltac:(clear; lia)) as (N4 & P4 & Q4).
    replace (i - 1 - 1) with (i - 2) in * by (clear; lia). replace (i - 2 - 1) with (i - 3) in * by (clear; lia).
    replace (i - 3 - 1) with (i - 4) in * by (clear; lia).
    exact (Halt i Hi3 N1 (two_colors _ _ _ _ _ N1 N2 P1 Q1 Q2) (two_colors _ _ _ _ _ N2 N3 P2 Q2 Q3)
             (two_colors _ _ _ _ _ N3 N4 P3 Q3 Q4)).
  - intros t Hr. destruct (Z.eq_dec t 1) as [->|Hne].
    + by replace (i + 1 - 1) with i by (clear; lia).
    + specialize (Ht (t - 1) ltac:(clear - Hr Hne; lia)). by replace (i - (t - 1)) with (i + 1 - t) in Ht by (clear; lia).
Qed.
Lemma counted first i k c K m' t' :
  inv first i k c → i < zlen img → (i <? w) = first →
  (fill_count K = fill_count (counts c) + 1 ∧ filled i ∨ fill_count K = 0) →
  (mix_count K = mix_count (counts c) + 1 ∧ mixed i ∨ mix_count K = 0) →
  (color_count K = color_count (counts c) + 1 ∧ zget img i = last_pixel c ∨ color_count K = 0) →
  (bicolor_count K = bicolor_count (counts c) + 1 ∧ zget img i ≠ last_pixel c ∧
     (zget img i = bicolor1 c ∨ zget img i = bicolor2 c) ∧ (last_pixel c = bicolor1 c ∨ last_pixel c = bicolor2 c)
   ∨ bicolor_count K = 0) →
  (fom_count K = fom_count (counts c) + 1 ∧ (filled i ∨ mixed i) ∧
     mask_ok m' (fom_count K) (fom_mask_len K) (λ t, mixed (i - fom_count (counts c) + t))
   ∨ fom_count K = 0 ∧ mask_ok m' 0 (fom_mask_len K) (λ t, mixed (i + 1 - 0 + t))) →
  wf t' → st_capacity t' = st_capacity (temp_s c) →
  ztake (2 * (i + 1 - k)) (st_buffer t') = pixels_bytes (zslice k (i + 1 - k) img) →
  inv first (i + 1) k (set_last (zget img i) (up i) (set_count (count c + 1) (set_temp t' (set_mask m' (set_counts K c))))).
Proof.
  intros [Hr Hout Hs Hcap Hsz Ht Htc Htemp Hc Hl [Hf1 Hf2] [Hm1 Hm2] [Hc1 Hc2] [Hfo1 Hfo2] Hmask (Hb1 & Hb2 & Hb3)]
    Hi Hfirst HF HM HC HB HFO Ht' Hcap' Htemp'.
  constructor; cbn; try done; try (clear - Hr Hi Hcap' Htc Hc; lia).
  - unfold seen. replace (i + 1 - 1) with i by lia. by destruct (Z.ltb_spec i 0); [lia|].
  - destruct HF as [[-> Hp]| ->]; [|split; [lia|apply run_nil]]. split; [lia|]. apply run_extend; done || lia.
  - destruct HM as [[-> Hp]| ->]; [|split; [lia|apply run_nil]]. split; [lia|]. apply run_extend; done || lia.
  - destruct HC as [[-> Hp]| ->]; [|split; [lia|intros j Hj; lia]]. split; [lia|]. intros j Hj.
    destruct (Z.eq_dec j i) as [->|Hne]; [done|]. rewrite Hp. apply Hc2. lia.
  - destruct HFO as [(-> & Hp & _)|[-> _]]; [|split; [lia|apply run_nil]]. split; [lia|]. apply run_extend; done || lia.
  - destruct HFO as [(E & _ & Hm)|[E Hm]]; rewrite E in *; [|done].
    by replace (i + 1 - (fom_count (counts c) + 1)) with (i - fom_count (counts c)) by lia.
  - destruct HB as [(E & Hne & Hp & Hq)| ->]; [|split_and!; [lia..|intros u Hu; lia]]. rewrite E. rewrite Hl in Hne, Hq.
    assert (seen i = zget img i) as Ei by (unfold seen; destruct (Z.ltb_spec i 0); [clear - H Hr; lia|done]).
    rewrite <- Ei in Hne, Hp.
    destruct (bicolor_counted i (bicolor_count (counts c)) (bicolor1 c) (bicolor2 c)) as [H3 Hall]; try done; [clear - Hr Hb2; lia|].
    clear - H3 Hall Hb1 Hb2. split_and!; [lia..|done].
Qed.

(** A flush that is made if the pixel does not go on with the run. *)
Lemma cm_if_flush first i k c b (m : CM unit) (Q : compressor → Prop) :
  inv first i k c → at_end c →
  (b = true → ∃ c', m c = Ret (Some tt, c') ∧ flushed first i c c' ∧ same_test c c' ∧ Q c') →
  ∃ c' k', cm_if b m c = Ret (Some tt, c') ∧ inv first i k' c' ∧ at_end c' ∧ flushed first i c c' ∧ same_test c c' ∧
    (b = true → Q c').
Proof.
  intros Hi He H. destruct b.
  - destruct (H eq_refl) as (c' & E & Hf & Ht & Hq). destruct (f_inv _ _ _ _ Hf) as [k' Hk]. exists c', k'.
    split_and!; try done. by destruct Hf.
  - exists c, k. split_and!; try done; [by eapply flushed_refl|by right].
Qed.

(** The flushes before a pixel is counted. *)
Lemma flush_phase first i k c TF TM p :
  inv first i k c → at_end c → i < zlen img → (TF = true ↔ filled i) →
  ∃ c' k',
    (∀ (r : CM unit),
      (cm_if (negb TF) flush_fill;; cm_if (negb TM) flush_mix;;
       (λ c, cm_if (negb (p =? last_pixel c)) flush_color c);;
       (λ c, cm_if (negb (test_bicolor p c)) (flush_bicolor p) c);;
       cm_if (negb (TF || TM)) flush_fom;; r) c = r c') ∧
    inv first i k' c' ∧ at_end c' ∧
    (TF = false → fill_count (counts c') = 0) ∧ (TM = false → mix_count (counts c') = 0) ∧
    (p ≠ last_pixel c' → color_count (counts c') = 0) ∧
    (test_bicolor p c' = false → bicolor_count (counts c') = 0) ∧
    (TF || TM = false → fom_count (counts c') = 0).
Proof.
  intros Hinv He Hi HTF.
  destruct (cm_if_flush first i k c (negb TF) flush_fill (λ c', fill_count (counts c') = 0) Hinv He) as (c1 & k1 & E1 & I1 & A1 & F1 & _ & Q1).
  { intros Hb%negb_true_iff. apply (flush_fill_ok first i k c Hinv He). left. intros _ Hf%HTF. congruence. }
  destruct (cm_if_flush first i k1 c1 (negb TM) flush_mix (λ c', mix_count (counts c') = 0) I1 A1) as (c2 & k2 & E2 & I2 & A2 & F2 & _ & Q2).
  { intros _. by apply (flush_mix_ok first i k1 c1). }
  destruct (cm_if_flush first i k2 c2 (negb (p =? last_pixel c2)) flush_color (λ c', color_count (counts c') = 0) I2 A2) as (c3 & k3 & E3 & I3 & A3 & F3 & _ & Q3).
  { intros _. by apply (flush_color_ok first i k2 c2). }
  assert (∃ c4 k4, cm_if (negb (test_bicolor p c3)) (flush_bicolor p) c3 = Ret (Some tt, c4) ∧ inv first i k4 c4 ∧ at_end c4 ∧
    flushed first i c3 c4 ∧ (test_bicolor p c4 = false → bicolor_count (counts c4) = 0)) as (c4 & k4 & E4 & I4 & A4 & F4 & Q4).
  { destruct (test_bicolor p c3) eqn:Et; cbn [negb cm_if].
    - exists c3, k3. split_and!; try done; [by eapply flushed_refl|congruence].
    - destruct (flush_bicolor_ok first i k3 c3 p I3 A3) as (c4 & E & Hf & Hb). destruct (f_inv _ _ _ _ Hf) as [k4 Hk].
      exists c4, k4. split_and!; try done. by destruct Hf. }
  destruct (cm_if_flush first i k4 c4 (negb (TF || TM)) flush_fom (λ c', fom_count (counts c') = 0) I4 A4) as (c5 & k5 & E5 & I5 & A5 & F5 & T5 & Q5).
  { intros _. by apply (flush_fom_ok first i k4 c4). }
  exists c5, k5. split_and!; try done.
  - intros r. unfold mbind, CM_bind. by rewrite E1, E2, E3, E4, E5.
  - intros ->. by apply (f_fill _ _ _ _ F5), (f_fill _ _ _ _ F4), (f_fill _ _ _ _ F3), (f_fill _ _ _ _ F2), Q1.
  - intros ->. by apply (f_mix _ _ _ _ F5), (f_mix _ _ _ _ F4), (f_mix _ _ _ _ F3), Q2.
  - rewrite (i_last _ _ _ _ I5), <- (i_last _ _ _ _ I2). intros Hne. destruct F4, F5.
    assert (color_count (counts c3) = 0) by (apply Q3, negb_true_iff, Z.eqb_neq; done). auto.
  - intros Ht. destruct T5 as [T5|T5]; [done|]. rewrite T5 in Ht. destruct F5. auto.
  - intros E. apply Q5. by rewrite E.
Qed.

(** The counting of a pixel. *)
Lemma fom_phase first i k c K b mixed_ :
  inv first i k c → i < zlen img → (b = true ↔ filled i ∨ mixed i) → (mixed_ = true ↔ mixed i) →
  (b = false → fom_count (counts c) = 0) →
  fom_count K = fom_count (counts c) → fom_mask_len K = fom_mask_len (counts c) →
  ∃ m' f' len', cm_if b (count_fom mixed_) (set_counts K c) = Ret (Some tt, set_mask m' (set_counts (set_fom f' len' K) c)) ∧
    (f' = fom_count (counts c) + 1 ∧ (filled i ∨ mixed i) ∧ mask_ok m' f' len' (λ t, mixed (i - fom_count (counts c) + t))
     ∨ f' = 0 ∧ mask_ok m' 0 len' (λ t, mixed (i + 1 - 0 + t))).
Proof.
  intros Hinv Hi Hb Hm Hz E1 E2. pose proof (i_mask _ _ _ _ Hinv) as Hmask. destruct (i_fom _ _ _ _ Hinv) as [Hf _].
  pose proof (i_range _ _ _ _ Hinv) as Hr. destruct b; cbn [cm_if].
  - destruct (open_byte (fom_mask c) (fom_count (counts c)) (fom_mask_len (counts c))) as [m1 len1] eqn:Eo.
    exists (put_bit mixed_ m1 (fom_count (counts c)) len1), (fom_count (counts c) + 1), len1. split.
    + assert (0 <= fom_count (counts c) < 32768) as Hlt by (clear - Hf Hr Hi HN; lia).
      rewrite (count_fom_run mixed_ (fom_mask c) (fom_count (counts c)) (fom_mask_len (counts c)) _ (set_counts K c) m1 len1
                 eq_refl (eq_sym E1) (eq_sym E2) Hmask Hlt Eo). done.
    + left. split_and!; [done|by apply Hb|]. eapply mask_step; [exact Hmask|clear - Hf Hr Hi HN; lia| |exact Eo].
      rewrite Hm. by replace (i - fom_count (counts c) + fom_count (counts c)) with i by (clear; lia).
  - specialize (Hz eq_refl). exists (fom_mask c), 0, (fom_mask_len (counts c)). split.
    + rewrite Hz in E1. destruct c as [????????]. destruct K as [???????]. cbn in *. by subst.
    + right. split; [done|]. destruct Hmask as [H1 H2 H3 _]. rewrite Hz in H3. constructor; [done|done|done|].
      intros t Ht. rewrite H3 in Ht. change ((0 + 7) / 8) with 0 in Ht. clear - Ht. lia.
Qed.

Lemma add_if_spec b n (P : Prop) : 0 <= n < 65535 → (b = true → P) → (b = false → n = 0) → add_if b n = n + 1 ∧ P ∨ add_if b n = 0.
Proof.
  intros Hn Hp Hz. unfold add_if. destruct b; [left|right; by apply Hz]. split; [|by apply Hp]. unfold u16. apply Z.mod_small. lia.
Qed.

Lemma pixel_written first i k c :
  inv first i k c → at_end c → i < zlen img →
  ∃ t', Stream_Write_UINT16 (zget img i) (temp_s c) = Ret (tt, t') ∧ wf t' ∧ st_capacity t' = st_capacity (temp_s c) ∧
    st_pointer t' = 2 * (i + 1 - k) ∧ ztake (2 * (i + 1 - k)) (st_buffer t') = pixels_bytes (zslice k (i + 1 - k) img).
Proof.
  intros Hinv He Hi. unfold at_end in He. rewrite (i_count _ _ _ _ Hinv) in He. pose proof (i_range _ _ _ _ Hinv).
  pose proof (i_tcap _ _ _ _ Hinv). assert (pixel (zget img i)) as Hp.
  { unfold zget. destruct (nth_in_or_default (Z.to_nat i) img 0) as [Hin| ->]; [|unfold pixel; cbn; lia].
    rewrite List.Forall_forall in Himg. by apply Himg. }
  destruct (run_Write_UINT16 (zget img i) (temp_s c)) as (t' & E & [W1 W2 W3 W4 _]);
    [apply Hinv|unfold StreamLogic.fits; lia|exact Hp|].
  exists t'. change (zlen (winpr_Data_Write_UINT16 (zget img i))) with 2 in W3. split_and!; [done|done|lia|lia|].
  unfold written in W2. rewrite W3, He in W2. replace (2 * (i + 1 - k)) with (2 * (i - k) + 2) by lia. rewrite W2.
  rewrite (i_temp _ _ _ _ Hinv), zslice_snoc, pixels_bytes_app by lia. done.
Qed.

Lemma pixel_ok first i k c :
  inv first i k c → at_end c → i < zlen img → (i <? w) = first →
  ∃ c' k', compress_pixel mix first (zget img i) (up i) c = Ret (Some tt, c') ∧
    inv first (i + 1) k' c' ∧ at_end c' ∧ last_ypixel c' = up i.
Proof.
  intros Hinv He Hi Hfirst. unfold compress_pixel. cbn zeta. fold (test_fill first (zget img i) (up i)).
  fold (test_mix first (zget img i) (up i)).
  pose proof (test_fill_spec i) as HTF. pose proof (test_mix_spec i) as HTM. rewrite Hfirst in HTF, HTM.
  set (TF := test_fill first (zget img i) (up i)) in *. set (TM := test_mix first (zget img i) (up i)) in *.
  destruct (flush_phase first i k c TF TM (zget img i) Hinv He Hi HTF) as (c0 & k0 & E & I0 & A0 & Z1 & Z2 & Z3 & Z4 & Z5).
  rewrite E. clear E. pose proof (i_range _ _ _ _ I0) as Hr.
  destruct (pixel_written first i k0 c0 I0 A0 Hi) as (t' & Et & Wt & Ct & Pt & Bt).
  unfold mbind, CM_bind. rewrite cm_if_fill, cm_if_mix. cbn [set_counts last_pixel counts].
  rewrite cm_if_color. cbn [set_counts last_pixel counts].
  set (Kc := set_color _ _). change (test_bicolor (zget img i) _) with (test_bicolor (zget img i) c0).
  rewrite cm_if_bicolor. cbn [counts set_counts].
  match goal with |- context [cm_if (TF || TM) _ ?x] => change x with (set_counts
    (set_bicolor (add_if (test_bicolor (zget img i) c0) (bicolor_count Kc)) (xorb (test_bicolor (zget img i) c0) (bicolor_spin Kc)) Kc) c0) end.
  set (K := set_bicolor _ _ Kc).
  destruct (fom_phase first i k0 c0 K (TF || TM) (zget img i =? Z.lxor (up i) mix) I0 Hi) as (m' & f' & len' & Ef & HFO);
    [rewrite orb_true_iff, HTF, HTM; done|apply mixed_spec|done|done|done|].
  rewrite Ef. unfold on_temp. cbn [temp_s set_mask set_counts]. change (write_temp (zget img i)) with (Stream_Write_UINT16 (zget img i)).
  rewrite Et. unfold modify. eexists _, k0. split; [done|].
  pose proof (i_count _ _ _ _ I0) as Hc.
  assert (u16 (count c0 + 1) = count c0 + 1) as Eu by (unfold u16; apply Z.mod_small; clear - Hc Hr Hi HN; lia).
  cbn [count set_temp set_mask set_counts]. rewrite Eu. split_and!; [| |done].
  - apply counted with (K := set_fom f' len' K); try done.
    + cbn. apply add_if_spec; [destruct (i_fill _ _ _ _ I0); lia|apply HTF|done].
    + cbn. apply add_if_spec; [destruct (i_mix _ _ _ _ I0); lia|apply HTM|done].
    + cbn. apply add_if_spec; [destruct (i_color _ _ _ _ I0); lia|apply Z.eqb_eq|]. intros Ez%Z.eqb_neq. by apply Z3.
    + cbn. apply add_if_spec; [destruct (i_bicolor _ _ _ _ I0); lia| |done].
      unfold test_bicolor. rewrite andb_true_iff, negb_true_iff, Z.eqb_neq, orb_true_iff, !andb_true_iff, !Z.eqb_eq. tauto.
  - unfold at_end. cbn. rewrite Pt, Hc. lia.
Qed.

(** ** Lines *)

(** With nothing in a run that depends on the line above, the first line may end. *)
Lemma inv_next_line first first' i k c :
  inv first i k c → fill_count (counts c) = 0 → mix_count (counts c) = 0 → fom_count (counts c) = 0 → inv first' i k c.
Proof.
  intros [] E1 E2 E3. constructor; try done.
  - rewrite E1. split; [lia|apply run_nil].
  - rewrite E2. split; [lia|apply run_nil].
  - rewrite E3. split; [lia|apply run_nil].
Qed.
Lemma first_line_end k c :
  inv true w k c → at_end c →
  ∃ c' k', (flush_fill;; flush_mix;; flush_fom) c = Ret (Some tt, c') ∧ inv false w k' c' ∧ at_end c'.
Proof.
  intros Hinv He. destruct (flush_fill_ok true w k c Hinv He) as (c1 & E1 & F1 & _ & Z1); [right; split; [done|lia]|].
  destruct (f_inv _ _ _ _ F1) as [k1 I1]. destruct (flush_mix_ok true w k1 c1 I1 (f_end _ _ _ _ F1)) as (c2 & E2 & F2 & _ & Z2).
  destruct (f_inv _ _ _ _ F2) as [k2 I2]. destruct (flush_fom_ok true w k2 c2 I2 (f_end _ _ _ _ F2)) as (c3 & E3 & F3 & _ & Z3).
  destruct (f_inv _ _ _ _ F3) as [k3 I3]. exists c3, k3. split_and!.
  - unfold mbind, CM_bind. by rewrite E1, E2, E3.
  - apply (inv_next_line true); [done|..|done].
    + by apply (f_fill _ _ _ _ F3), (f_fill _ _ _ _ F2).
    + by apply (f_mix _ _ _ _ F3).
  - by destruct F3.
Qed.

(** The image is [h] lines of the source, the last one first, each with its last
    pixel repeated up to the width [w]. *)
Section lines.
Context (srcData : list Z) (width h : Z).
Hypothesis Hwidth : 0 < width <= w.
Hypothesis Hh : 0 < h.
Hypothesis Hsrc : 2 * width * h <= zlen srcData.
Definition pixel_at (r j : Z) : Z := GETPIXEL16 (zslice (2 * width * r + Z.min j (width - 1) * 2) 2 srcData).
Hypothesis Hlen : zlen img = h * w.
Hypothesis Hpix : ∀ t j, 0 <= t < h → 0 <= j < w → zget img (t * w + j) = pixel_at (h - 1 - t) j.

Definition line_offset (t : Z) : Z := 2 * width * (h - 1 - t).
Definition above_offset (t : Z) : option Z := if t =? 0 then None else Some (line_offset (t - 1)).

Lemma in_pixel_ok t j last :
  0 <= t < h → 0 <= j < w → (width <= j → last = zget img (t * w + j - 1)) →
  IN_PIXEL srcData (Some (line_offset t)) j width last = Ret (zget img (t * w + j)).
Proof.
  intros Ht Hj Hlast. unfold IN_PIXEL. rewrite Hpix by done. destruct (Z.ltb_spec j width) as [Hlt|Hge].
  - unfold pixel_bytes, line_offset. change src_size with 2.
    assert (2 * width * (h - 1 - t) + j * 2 + 2 <= 2 * width * h) by nia. assert (0 <= 2 * width * (h - 1 - t)) by nia.
    destruct (Z.leb_spec 0 (2 * width * (h - 1 - t) + j * 2)); [|lia].
    destruct (Z.leb_spec (2 * width * (h - 1 - t) + j * 2 + 2) (zlen srcData)); [|lia]. cbn [andb].
    unfold pixel_at. by rewrite Z.min_l by lia.
  - rewrite (Hlast Hge). replace (t * w + j - 1) with (t * w + (j - 1)) by lia. rewrite Hpix by lia.
    unfold pixel_at. by rewrite !Z.min_r by lia.
Qed.
Lemma up_line t j : 0 <= t → 0 <= j < w → up (t * w + j) = if t =? 0 then 0 else zget img ((t - 1) * w + j).
Proof.
  intros Ht Hj. unfold up. destruct (Z.eqb_spec t 0) as [->|Hne].
  - by destruct (Z.ltb_spec (0 * w + j) w); [|lia].
  - destruct (Z.ltb_spec (t * w + j) w); [nia|]. f_equal. lia.
Qed.
Lemma above_pixel_ok t j last :
  0 <= t < h → 0 <= j < w → (width <= j → last = up (t * w + j - 1)) →
  IN_PIXEL srcData (above_offset t) j width last = Ret (up (t * w + j)).
Proof.
  intros Ht Hj Hlast. rewrite up_line by lia. unfold above_offset. destruct (Z.eqb_spec t 0) as [->|Hne]; [done|].
  apply in_pixel_ok; [lia|done|]. intros Hge. rewrite (Hlast Hge). replace (t * w + j - 1) with (t * w + (j - 1)) by lia.
  rewrite up_line by lia. destruct (Z.eqb_spec t 0); [done|]. f_equal. lia.
Qed.

Lemma pixel_loop_ok n t j k c :
  0 <= t < h → 0 <= j → Z.of_nat n = w - j → inv (t =? 0) (t * w + j) k c → at_end c →
  (0 < j → last_ypixel c = up (t * w + j - 1)) →
  ∃ c' k', pixel_loop srcData width mix n j (line_offset t) (above_offset t) c = Ret (Some tt, c') ∧
    inv (t =? 0) ((t + 1) * w) k' c' ∧ at_end c'.
Proof.
  revert j k c. induction n as [|n IH]; intros j k c Ht Hj Hn Hinv He Hy; cbn [pixel_loop].
  { exists c, k. split; [done|]. split; [|done]. by replace ((t + 1) * w) with (t * w + j) by lia. }
  assert (t * w + j < zlen img) as Hi by (rewrite Hlen; nia).
  assert ((t * w + j <? w) = (t =? 0)) as Hf.
  { destruct (Z.eqb_spec t 0) as [E0|E0]; [apply Z.ltb_lt; rewrite E0; lia|apply Z.ltb_ge; clear IH; nia]. }
  destruct (pixel_ok (t =? 0) (t * w + j) k c Hinv He Hi Hf) as (c1 & k1 & E & I1 & A1 & Y1).
  unfold mbind at 1. unfold CM_bind at 1.
  rewrite in_pixel_ok; [|done|lia|].
  2:{ intros Hge. rewrite (i_last _ _ _ _ Hinv). unfold seen. destruct (Z.ltb_spec (t * w + j - 1) 0); [nia|done]. }
  rewrite above_pixel_ok by (done || lia || (intros; apply Hy; lia)).
  replace (match above_offset t with None => true | Some _ => false end) with (t =? 0)
    by (unfold above_offset; by destruct (t =? 0)).
  rewrite E. apply (IH (j + 1) k1 c1); [done|lia|lia|by rewrite Z.add_assoc|done|].
  intros _. rewrite Y1. f_equal. lia.
Qed.

Lemma over_limit_false first i k c byte_limit :
  inv first i k c → 2 * zlen img < byte_limit → over_limit byte_limit c = false.
Proof.
  intros Hinv Hl. unfold over_limit. change dst_size with 2.
  pose proof (i_range _ _ _ _ Hinv). pose proof (i_size _ _ _ _ Hinv). pose proof (i_count _ _ _ _ Hinv) as Hc.
  destruct (i_color _ _ _ _ Hinv) as [Hco _]. pose proof (wf_pointer _ (i_s _ _ _ _ Hinv)).
  assert ((u64 (st_pointer (c_s c) + 2 * count c - 2 * color_count (counts c)) >=? byte_limit) = false) as ->; [|done].
  unfold u64. rewrite Z.mod_small by lia. rewrite Z.geb_leb. apply Z.leb_gt. lia.
Qed.

Lemma line_loop_ok fuel byte_limit t k c :
  0 <= t <= h → (Z.to_nat (h - t) <= fuel)%nat → inv (t =? 0) (t * w) k c → at_end c →
  2 * zlen img < byte_limit → 2 * zlen img < 32768 →
  ∃ c' k', line_loop srcData width w mix fuel byte_limit (2 * w * (t + 1)) (line_offset t) (above_offset t) t c =
    Ret (Some h, c') ∧ inv false (zlen img) k' c'.
Proof.
  revert t k c. induction fuel as [|fuel IH]; intros t k c Ht Hf Hinv He Hlim Hmax.
  { assert (t = h) as -> by lia. cbn [line_loop]. assert (line_offset h < 0) by (unfold line_offset; nia).
    destruct (Z.leb_spec 0 (line_offset h)); [lia|]. exists c, k. split; [done|]. rewrite Hlen.
    by replace (h =? 0) with false in Hinv by lia. }
  destruct (Z.eq_dec t h) as [->|Hne].
  { cbn [line_loop]. assert (line_offset h < 0) by (unfold line_offset; nia).
    destruct (Z.leb_spec 0 (line_offset h)); [lia|]. exists c, k. split; [done|]. rewrite Hlen.
    by replace (h =? 0) with false in Hinv by lia. }
  cbn [line_loop]. assert (0 <= line_offset t) by (unfold line_offset; nia). destruct (Z.leb_spec 0 (line_offset t)); [|lia].
  destruct (Z.ltb_spec (2 * w * (t + 1)) 32768); [|nia]. cbn [andb]. rewrite (over_limit_false (t =? 0) (t * w) k) by done.
  destruct (pixel_loop_ok (Z.to_nat w) t 0 k c) as (c1 & k1 & E1 & I1 & A1); [lia|lia|lia|by rewrite Z.add_0_r|done|lia|].
  assert (∃ c2 k2, match above_offset t with None => first_line_done | Some _ => mret tt end c1 =
    Ret (Some tt, c2) ∧ inv false ((t + 1) * w) k2 c2 ∧ at_end c2) as (c2 & k2 & E2 & I2 & A2).
  { unfold above_offset. destruct (Z.eqb_spec t 0) as [->|Ht0]; [|by exists c1, k1].
    replace ((0 + 1) * w) with w in I1 |- * by lia. by apply (first_line_end k1). }
  destruct (IH (t + 1) k2 c2) as (c3 & k3 & E3 & I3); [lia|lia| |done|done|done|].
  { by replace (t + 1 =? 0) with false by lia. }
  exists c3, k3. split; [|done]. rewrite <- E3. rewrite (bind_run _ _ _ _ _ E1), (bind_run _ _ _ _ _ E2).
  change dst_size with 2. change src_size with 2.
  assert (above_offset (t + 1) = Some (line_offset t)) as ->.
  { unfold above_offset. destruct (Z.eqb_spec (t + 1) 0); [lia|]. do 2 f_equal. lia. }
  f_equal; [|unfold line_offset; lia]. unfold u32. rewrite (Z.mod_small (w * 2)) by nia. rewrite Z.mod_small by nia. lia.
Qed.

(** ** The end *)

Lemma finish_ok k c :
  inv false (zlen img) k c →
  ∃ c' ins, finish c = Ret (Some tt, c') ∧ wf (c_s c') ∧
    st_pointer (c_s c') <= 2 * zlen img + 3 ∧ drawn_by (written (c_s c')) (zlen img) ins.
Proof.
  intros Hinv. set (c0 := set_temp (set_pointer 0 (temp_s c)) c).
  assert (inv false (zlen img) k c0) as I0.
  { destruct Hinv. constructor; try done. destruct i_t0. constructor; cbn; done || lia. }
  assert (∀ n m, emits (zlen img) k c0 n m → ∃ c' ins, (out_pending n;; on_s m) c0 = Ret (Some tt, c') ∧ wf (c_s c') ∧
    st_pointer (c_s c') <= 2 * zlen img + 3 ∧
    drawn_by (written (c_s c')) (zlen img) ins) as Hout.
  { intros n m Hm. destruct (emitted false (zlen img) k c0 n m I0 Hm) as (s' & E & Hs & Hc & Hp & ins & Hd & _).
    do 2 eexists. split_and!; [exact E|done| |exact Hd]. cbn. lia. }
  unfold finish. rewrite (bind_run (on_temp Stream_ResetPosition) _ c tt c0) by done. change (counts c) with (counts c0).
  destruct (best (fill_count (counts c0)) (counts c0)) eqn:B1.
  { apply Hout. apply (fill_emits false); [done|left; lia|by eapply best_long]. }
  destruct (best (mix_count (counts c0)) (counts c0)) eqn:B2.
  { apply Hout. apply (mix_emits false); [done|by eapply best_long]. }
  destruct (best (color_count (counts c0)) (counts c0)) eqn:B3.
  { apply Hout. apply (color_emits false); [done|by eapply best_long]. }
  destruct (best (bicolor_count (counts c0)) (counts c0)) eqn:B4.
  { apply best_long in B4. destruct (i_bicolor _ _ _ _ I0) as [? _]. lia. }
  destruct (best (fom_count (counts c0)) (counts c0)) eqn:B5.
  { apply Hout. apply (fom_emits false); [done|by eapply best_long]. }
  destruct (copied false (zlen img) k c0 0 I0) as (s' & E & Hs & Hc & Hp & ins & Hd & _).
  { pose proof (i_range _ _ _ _ I0). lia. }
  rewrite Z.sub_0_r in Hd, Hp. do 2 eexists. split_and!; [exact E|done|done|exact Hd].
Qed.

Lemma compress_ok s temp byte_limit e :
  w = width + e → wf s → st_pointer s = 0 → 2 * zlen img + 3 <= st_capacity s →
  wf temp → st_pointer temp = 0 → 2 * zlen img <= st_capacity temp →
  2 * zlen img < byte_limit → 2 * zlen img < 32768 →
  ∃ s' t' ins, compress srcData width s mix byte_limit (h - 1) temp e = Ret (h, s', t') ∧ wf s' ∧
    st_pointer s' <= 2 * zlen img + 3 ∧ drawn_by (written s') (zlen img) ins.
Proof.
  intros Ew Hs Hp Hc Ht Htp Htc Hlim Hmax. unfold compress. rewrite <- Ew.
  assert (w <= 32768) as Hw32 by nia.
  replace (u32 w) with w by (unfold u32; rewrite Z.mod_small; lia). change dst_size with 2. change src_size with 2.
  replace (u32 (w * 2)) with (2 * w * (0 + 1)) by (unfold u32; rewrite Z.mod_small; lia).
  change None with (above_offset 0). replace (2 * width * (h - 1)) with (line_offset 0) by (unfold line_offset; f_equal; lia).
  set (c0 := mkCompressor _ _ _ _ _ _ _ _ _).
  assert (inv (0 =? 0) (0 * w) 0 c0) as I0.
  { pose proof (zlen_nonneg img). constructor; cbn; try done; try lia.
    - exists false. split; [|done]. unfold written. rewrite Hp, ztake_nonpos by lia. apply drawn_by_nil.
    - split; [lia|apply run_nil].
    - split; [lia|apply run_nil].
    - split; [lia|]. intros j Hj. lia.
    - split; [lia|apply run_nil].
    - constructor; [done|apply bytes_zeros|done|]. intros t Hr. lia.
    - split_and!; [lia..|]. intros t Hr. lia. }
  destruct (line_loop_ok (Z.to_nat (h - 1 + 1)) byte_limit 0 0 c0) as (c1 & k1 & E1 & I1); [lia|lia|done| |done|done|].
  { unfold at_end. cbn. lia. }
  destruct (finish_ok k1 c1 I1) as (c2 & ins & E2 & Hs2 & Hp2 & Hd2). exists (c_s c2), (temp_s c2), ins.
  rewrite (bind_run _ _ _ _ _ E1), (bind_run _ _ _ _ _ E2). by split_and!.
Qed.
End lines.
End image.

(** * Images in memory *)

(** The pixels of [h] lines of [width] pixels, the last line first. *)
Definition scan_line (srcData : list Z) (width r : Z) : list Z :=
  map (λ j, GETPIXEL16 (zslice (2 * width * r + Z.of_nat j * 2) 2 srcData)) (seq 0 (Z.to_nat width)).
Definition scan (srcData : list Z) (width h : Z) : list Z :=
  mjoin (map (λ t, scan_line srcData width (h - 1 - Z.of_nat t)) (seq 0 (Z.to_nat h))).
(** The bytes of the lines, the last one first. *)
Definition flip_lines (srcData : list Z) (stride h : Z) : list Z :=
  mjoin (map (λ t, zslice (stride * (h - 1 - Z.of_nat t)) stride srcData) (seq 0 (Z.to_nat h))).

Lemma zlen_scan_line srcData width r : 0 <= width → zlen (scan_line srcData width r) = width.
Proof. intros. unfold scan_line, zlen. rewrite length_map, length_seq. lia. Qed.

(** Blocks of one length. *)
Lemma zlen_blocks (f : nat → list Z) n m a : (∀ t, zlen (f t) = m) → zlen (mjoin (map f (seq a n))) = Z.of_nat n * m.
Proof.
  intros Hf. revert a. induction n as [|n IH]; intros a; [done|]. cbn [seq map].
  change (mjoin (f a :: map f (seq (S a) n))) with (f a ++ mjoin (map f (seq (S a) n))). rewrite zlen_app, Hf, IH. lia.
Qed.
Lemma zget_blocks (f : nat → list Z) n m a t j :
  (∀ t, zlen (f t) = m) → (t < n)%nat → 0 <= j < m → zget (mjoin (map f (seq a n))) (Z.of_nat t * m + j) = zget (f (a + t)%nat) j.
Proof.
  intros Hf. revert a t. induction n as [|n IH]; intros a t Ht Hj; [lia|]. cbn [seq map].
  change (mjoin (f a :: map f (seq (S a) n))) with (f a ++ mjoin (map f (seq (S a) n))).
  rewrite zget_app, Hf by nia. destruct t as [|t].
  - destruct (Z.ltb_spec (Z.of_nat 0 * m + j) m); [|lia]. by rewrite Nat.add_0_r.
  - destruct (Z.ltb_spec (Z.of_nat (S t) * m + j) m); [nia|].
    replace (Z.of_nat (S t) * m + j - m) with (Z.of_nat t * m + j) by lia. rewrite IH by lia. f_equal. f_equal. lia.
Qed.
Lemma Forall_blocks (P : Z → Prop) (f : nat → list Z) l : (∀ t, In t l → Forall P (f t)) → Forall P (mjoin (map f l)).
Proof.
  intros Hf. induction l as [|t l IH]; [constructor|]. apply Forall_app_2; [by apply Hf; left|]. apply IH. intros. apply Hf. by right.
Qed.

Lemma GETPIXEL16_pixel l : bytes l → pixel (GETPIXEL16 l).
Proof.
  intros Hl. unfold GETPIXEL16, pixel. pose proof (zget_byte l 0 Hl). pose proof (zget_byte l 1 Hl).
  rewrite lor_shiftl by (unfold is_byte in *; lia). cbn. unfold is_byte in *. lia.
Qed.
Lemma write_GETPIXEL16 a b : is_byte a → is_byte b → write_pixel (GETPIXEL16 [a; b]) = [a; b].
Proof.
  intros Ha Hb. unfold GETPIXEL16. change (zget [a; b] 1) with b. change (zget [a; b] 0) with a.
  rewrite lor_shiftl by (unfold is_byte in *; lia). change (write_pixel ?p) with (write_pixel_16 p). unfold write_pixel_16.
  rewrite !land_255, shiftr_8. unfold is_byte in *. change (2 ^ 8) with 256. f_equal; [|f_equal]; div_mod_lia.
Qed.

Lemma pixels_of_bytes n (l : list Z) :
  bytes l → zlen l = 2 * Z.of_nat n → pixels_bytes (map (λ j, GETPIXEL16 (zslice (Z.of_nat j * 2) 2 l)) (seq 0 n)) = l.
Proof.
  revert l. induction n as [|n IH]; intros l Hb Hz; [by rewrite (zlen_nil_inv l) by lia|].
  destruct l as [|a [|b l]]; [unfold zlen in Hz; cbn in Hz; lia..|]. rewrite !zlen_cons in Hz.
  apply Forall_cons_1 in Hb as [Ha Hb]. apply Forall_cons_1 in Hb as [Hb Hl].
  cbn [seq map]. rewrite <- seq_shift, map_map.
  change (pixels_bytes (?p :: ?ps)) with (write_pixel p ++ pixels_bytes ps).
  change (zslice (Z.of_nat 0 * 2) 2 (a :: b :: l)) with [a; b]. rewrite write_GETPIXEL16 by done.
  change (a :: b :: l) with ([a; b] ++ l) at 2. f_equal. etrans; [|apply IH; [done|lia]]. f_equal. apply map_ext. intros j. f_equal.
  change (a :: b :: l) with ([a; b] ++ l). unfold zslice. rewrite zdrop_app_ge by (change (zlen [a; b]) with 2; lia).
  change (zlen [a; b]) with 2. do 2 f_equal. lia.
Qed.
Lemma scan_line_bytes srcData width r :
  bytes srcData → 0 <= width → 0 <= r → 2 * width * (r + 1) <= zlen srcData →
  pixels_bytes (scan_line srcData width r) = zslice (2 * width * r) (2 * width) srcData.
Proof.
  intros Hb Hw Hr Hz. assert (0 <= 2 * width * r) by nia.
  rewrite <- (pixels_of_bytes (Z.to_nat width) (zslice (2 * width * r) (2 * width) srcData)).
  - f_equal. apply map_ext_in. intros j [_ Hj]%in_seq. f_equal. unfold zslice.
    rewrite zdrop_ztake, zdrop_zdrop, ztake_ztake by lia. done.
  - by apply Forall_zslice.
  - rewrite zlen_zslice by lia. lia.
Qed.

Lemma scan_bytes srcData width h :
  bytes srcData → 0 <= width → 0 <= h → 2 * width * h <= zlen srcData →
  pixels_bytes (scan srcData width h) = flip_lines srcData (2 * width) h.
Proof.
  intros Hb Hw Hh Hz. unfold scan, flip_lines.
  assert (∀ l, (∀ t, In t l → (t < Z.to_nat h)%nat) →
    pixels_bytes (mjoin (map (λ t, scan_line srcData width (h - 1 - Z.of_nat t)) l)) =
    mjoin (map (λ t, zslice (2 * width * (h - 1 - Z.of_nat t)) (2 * width) srcData) l)) as H.
  { induction l as [|t l IH]; intros Hl; [done|]. cbn [map].
    change (mjoin (?x :: ?y)) with (x ++ mjoin y). rewrite pixels_bytes_app, IH by (intros; apply Hl; by right). f_equal.
    specialize (Hl t (or_introl eq_refl)). apply scan_line_bytes; [done|done|lia|nia]. }
  apply H. intros t [_ Ht]%in_seq. lia.
Qed.

Section scan.
Context (srcData : list Z) (width h : Z).
Hypothesis Hbytes : bytes srcData.
Hypothesis Hwidth : 0 < width.
Hypothesis Hh : 0 < h.
Hypothesis Hsrc : 2 * width * h <= zlen srcData.

Lemma zlen_scan : zlen (scan srcData width h) = h * width.
Proof. unfold scan. rewrite (zlen_blocks _ _ width); [lia|]. intros t. apply zlen_scan_line. lia. Qed.
Lemma scan_pixels : Forall pixel (scan srcData width h).
Proof.
  apply Forall_blocks. intros t _. unfold scan_line. apply Forall_map. apply List.Forall_forall. intros j _.
  apply GETPIXEL16_pixel. by apply Forall_zslice.
Qed.
Lemma zget_scan t j :
  0 <= t < h → 0 <= j < width → zget (scan srcData width h) (t * width + j) = pixel_at srcData width (h - 1 - t) j.
Proof.
  intros Ht Hj. rewrite <- (Z2Nat.id t) at 1 by lia. unfold scan.
  rewrite zget_blocks by (try (intros; apply zlen_scan_line); lia). unfold scan_line, pixel_at, zget.
  rewrite Nat.add_0_l, nth_lookup, list_lookup_fmap, lookup_seq_lt by lia. cbn [fmap option_fmap option_map default].
  rewrite Z.min_l by lia. cbn [Nat.add]. rewrite !Z2Nat.id by lia. done.
Qed.
End scan.

(** No five pixels in a row, with a black one in front, alternate between two colors. *)
Definition no_alternation (l : list Z) : Prop :=
  ∀ i, 3 <= i < zlen l → seen l i ≠ seen l (i - 1) →
    seen l i = seen l (i - 2) → seen l (i - 1) = seen l (i - 3) → seen l (i - 2) = seen l (i - 4) → False.

Lemma lxor_high x : 0 <= x < 0x8000 → 0x8000 <= Z.lxor x 0xBA1F.
Proof.
  intros Hx. assert (Z.testbit (Z.lxor x 0xBA1F) 15 = true) as Hb.
  { rewrite Z.lxor_spec. replace (Z.testbit x 15) with false; [done|]. symmetry. rewrite <- (Z.mod_small x (2 ^ 15)) by (cbn; lia).
    apply Z.mod_pow2_bits_high. lia. }
  assert (0 <= Z.lxor x 0xBA1F) as H0 by (apply Z.lxor_nonneg; lia).
  destruct (Z.lt_ge_cases (Z.lxor x 0xBA1F) 0x8000) as [Hlt|]; [|done]. exfalso.
  rewrite <- (Z.mod_small (Z.lxor x 0xBA1F) (2 ^ 15)), Z.mod_pow2_bits_high in Hb by (cbn; lia). done.
Qed.

(** What the 16-bit encoder writes is decoded to the lines of the image, the
    last one first. *)
Lemma bitmap_16_roundtrip srcData width h s temp bpp byte_limit dst :
  bytes srcData → 0 < width → 0 < h → 2 * width * h <= zlen srcData → bpp = 15 ∨ bpp = 16 →
  (bpp = 15 → Forall (λ p, p < 0x8000) (scan srcData width h)) → no_alternation (scan srcData width h) →
  wf s → st_pointer s = 0 → 2 * width * h + 3 <= st_capacity s → wf temp → 2 * width * h <= st_capacity temp →
  2 * width * h < byte_limit → 2 * width * h < 32768 → 2 * width * h <= zlen dst →
  ∃ s' t', freerdp_bitmap_compress srcData width h s bpp byte_limit (h - 1) temp 0 = Ret (h, s', t') ∧ wf s' ∧
    st_pointer s' <= 2 * width * h + 3 ∧
    RleDecompress16to16 (written s') dst (width * 2) width h =
      Ret (true, flip_lines srcData (2 * width) h ++ zdrop (2 * width * h) dst).
Proof.
  intros Hb Hw Hh Hsrc Hbpp H15 Halt Hs Hp Hc Ht Htc Hlim Hmax Hdst.
  pose proof (zlen_scan srcData width h Hw Hh) as Hz. pose proof (scan_pixels srcData width h Hb) as Hpix.
  set (mix := if bpp =? 15 then 0xBA1F else 0xFFFF).
  assert (∀ j, 0 <= j < zlen (scan srcData width h) → mixed (scan srcData width h) width mix j → mix = WHITE_PIXEL) as Hmix.
  { intros j Hj Hm. subst mix. destruct (Z.eqb_spec bpp 15) as [E|E]; [|done]. exfalso. specialize (H15 E).
    assert (∀ i, 0 <= zget (scan srcData width h) i < 0x8000) as Hr.
    { intros i. unfold zget. destruct (nth_in_or_default (Z.to_nat i) (scan srcData width h) 0) as [Hin| ->]; [|lia].
      rewrite List.Forall_forall in H15, Hpix. specialize (H15 _ Hin). specialize (Hpix _ Hin). unfold pixel in Hpix. lia. }
    unfold mixed in Hm. pose proof (Hr j). assert (0 <= up (scan srcData width h) width j < 0x8000) as Hu.
    { unfold up. destruct (_ <? _); [lia|apply Hr]. }
    pose proof (lxor_high _ Hu). lia. }
  destruct (compress_ok (scan srcData width h) width mix Hw Hpix Hmix ltac:(lia) Halt srcData width h ltac:(lia) Hh Hsrc Hz
              (zget_scan srcData width h Hw Hh) s (set_pointer 0 temp) byte_limit 0) as (s' & t' & ins & E & Hs' & Hp' & Hd);
    try done; try lia.
  { destruct Ht. constructor; cbn; done || lia. }
  { cbn. lia. }
  exists s', t'. split_and!; [|done|lia|].
  - unfold freerdp_bitmap_compress, freerdp_bitmap_compress_16. fold mix. by destruct Hbpp as [->| ->].
  - destruct Hd as (os & bss & Ew & He & Hok & Hpc & Hout & _ & _). rewrite Ew.
    change RleDecompress16to16 with (RLEDECOMPRESS (HF := format_16)). change 2 with PIXEL_SIZE at 1.
    rewrite (ztake_all (zlen _)) in Hout by lia.
    rewrite (RLEDECOMPRESS_orders (HF := format_16) width h os bss dst); change PIXEL_SIZE with 2; try done; try lia.
    + rewrite Hout, Hz, scan_bytes by (done || lia). do 3 f_equal. f_equal. lia.
    + unfold UINT32_MAX. lia.
    + rewrite <- Ew. unfold written. rewrite zlen_ztake. unfold UINT32_MAX. lia.
    + rewrite Hout, Hz. lia.
Qed.
