(* ===== verification/Interleaved.v ===== *)
(** The interleaved bitmap codec (libfreerdp/codec/interleaved.c): its
    context, decompression into a buffer of the context and compression out of
    it, and the aligned allocation of the buffer (winpr/libwinpr/crt/alignment.c).
    The conversion of pixel formats between that buffer and the caller's
    (codec/color.c) is an argument. *)

From S2P Require Import Prelude Stream Rle BitmapCompress.
From stdpp Require Import prelude list numbers.
From Stdlib Require Import ZArith Lia.

#[local] Open Scope Z_scope.

(** * Aligned memory *)

Section malloc.
Context {HM : Malloc}.

(** Whether there is a block; its header is a structure of 24 bytes. *)
Definition winpr_aligned_offset_malloc (size alignment offset : Z) : bool :=
  if alignment mod 2 =? 1 then false
  else if offset >=? size then false
  else
    let alignment := if alignment <? 8 then 8 else alignment in
    if alignment >? SIZE_MAX - 24 then false
    else
      let header := 24 + alignment in
      if size >? SIZE_MAX - header then false else malloc_ok (size + header).

(** The new block, [None] for null; an old one has the size it was asked for. *)
Definition winpr_aligned_offset_recalloc (memblock : option (list Z)) (num size alignment offset : Z) : option (list Z) :=
  let n := u64 (size * num) in
  match memblock with
  | None => if winpr_aligned_offset_malloc n alignment offset then Some (zeros n) else None
  | Some old =>
      if (num =? 0) || (size =? 0) then None
      else if zlen old >? u64 (n + alignment) then Some old
      else if winpr_aligned_offset_malloc n alignment offset then
        let csize := Z.min (zlen old) n in
        Some (ztake csize old ++ zeros (n - csize))
      else None
  end.
Definition winpr_aligned_recalloc (memblock : option (list Z)) (num size alignment : Z) : option (list Z) :=
  winpr_aligned_offset_recalloc memblock num size alignment 0.
Definition winpr_aligned_calloc (count size alignment : Z) : option (list Z) :=
  winpr_aligned_recalloc None count size alignment.

(** * The context *)

(** Pixel formats the codec names. *)
Inductive pixel_format : Type :=
| PIXEL_FORMAT_BGR24 | PIXEL_FORMAT_RGB16 | PIXEL_FORMAT_RGB15 | PIXEL_FORMAT_RGB8 | PIXEL_FORMAT_BGRX32.

Record BITMAP_INTERLEAVED_CONTEXT : Type := mkInterleaved {
  TempSize : Z;
  TempBuffer : option (list Z);
  bts : wStream;
}.

Definition bitmap_interleaved_context_new : option BITMAP_INTERLEAVED_CONTEXT :=
  match winpr_aligned_recalloc None 1 24 32 with
  | None => None
  | Some _ =>
      let size := 64 * 64 * 4 in
      match winpr_aligned_calloc size 1 16 with
      | None => None
      | Some buffer =>
          match Stream_New None size with
          | None => None
          | Some s => Some (mkInterleaved size (Some buffer) s)
          end
      end
  end.

(** * Decompression *)

(** The length of a line and the format of the pixels. *)
Definition source_line (nSrcWidth bpp : Z) : option (Z * pixel_format) :=
  if bpp =? 24 then if nSrcWidth >? UINT32_MAX / 3 then None else Some (nSrcWidth * 3, PIXEL_FORMAT_BGR24)
  else if bpp =? 16 then if nSrcWidth >? UINT32_MAX / 2 then None else Some (nSrcWidth * 2, PIXEL_FORMAT_RGB16)
  else if bpp =? 15 then if nSrcWidth >? UINT32_MAX / 2 then None else Some (nSrcWidth * 2, PIXEL_FORMAT_RGB15)
  else if bpp =? 8 then Some (nSrcWidth, PIXEL_FORMAT_RGB8)
  else None.

Definition rle_decompress (bpp : Z) : list Z → list Z → Z → Z → Z → outcome (bool * list Z) :=
  if bpp =? 24 then RleDecompress24to24
  else if bpp =? 8 then RleDecompress8to8
  else RleDecompress16to16.

Section image_copy.
(** [freerdp_image_copy_no_overlap] from a buffer with lines of the given
    format and length into the destination of the caller. *)
Context {D : Type} (image_copy : D → list Z → pixel_format → Z → bool * D).

(** The pointers are not null; [pSrcData] is [SrcSize] bytes. *)
Definition interleaved_decompress (interleaved : BITMAP_INTERLEAVED_CONTEXT) (pSrcData : list Z)
    (nSrcWidth nSrcHeight bpp : Z) (pDstData : D) (nDstWidth nDstHeight : Z)
    : outcome (bool * BITMAP_INTERLEAVED_CONTEXT * D) :=
  if (nSrcWidth =? 0) || (nSrcHeight =? 0) then Ret (false, interleaved, pDstData)
  else if (nDstWidth =? 0) || (nDstHeight =? 0) then Ret (false, interleaved, pDstData)
  else
    match source_line nSrcWidth bpp with
    | None => Ret (false, interleaved, pDstData)
    | Some (scanline, SrcFormat) =>
        if scanline >? UINT32_MAX / nSrcHeight then Ret (false, interleaved, pDstData)
        else
          let BufferSize := scanline * nSrcHeight in
          let interleaved :=
            if BufferSize >? TempSize interleaved
            then mkInterleaved BufferSize (winpr_aligned_recalloc (TempBuffer interleaved) BufferSize 1 16) (bts interleaved)
            else interleaved in
          match TempBuffer interleaved with
          | None => Ret (false, interleaved, pDstData)
          | Some buffer =>
              match rle_decompress bpp pSrcData buffer scanline nSrcWidth nSrcHeight with
              | Abort => Abort
              | Ret (ok, buffer) =>
                  let interleaved := mkInterleaved (TempSize interleaved) (Some buffer) (bts interleaved) in
                  if negb ok then Ret (false, interleaved, pDstData)
                  else
                    let '(ok, pDstData) := image_copy pDstData buffer SrcFormat scanline in
                    Ret (ok, interleaved, pDstData)
              end
          end
    end.
End image_copy.

(** * Compression *)

(** [image_read] is [freerdp_image_copy_no_overlap] from the source of the
    caller into a buffer, with its result.  The status, the context, the
    destination and its size. *)
Definition interleaved_compress (image_read : list Z → pixel_format → bool * list Z)
    (interleaved : BITMAP_INTERLEAVED_CONTEXT) (pDstData : list Z) (DstSize nWidth nHeight bpp : Z)
    : outcome (bool * BITMAP_INTERLEAVED_CONTEXT * list Z * Z) :=
  let maxSize := 64 * 64 * 4 in
  let failed := Ret (false, interleaved, pDstData, DstSize) in
  if (nWidth =? 0) || (nHeight =? 0) then failed
  else if negb (nWidth mod 4 =? 0) then failed
  else if (nWidth >? 64) || (nHeight >? 64) then failed
  else
    match (if bpp =? 24 then Some PIXEL_FORMAT_BGRX32
           else if bpp =? 16 then Some PIXEL_FORMAT_RGB16
           else if bpp =? 15 then Some PIXEL_FORMAT_RGB15 else None) with
    | None => failed
    | Some DstFormat =>
        match TempBuffer interleaved with
        | None => Abort
        | Some buffer =>
            let '(ok, buffer) := image_read buffer DstFormat in
            let interleaved := mkInterleaved (TempSize interleaved) (Some buffer) (bts interleaved) in
            if negb ok then Ret (false, interleaved, pDstData, DstSize)
            else
              match Stream_New (Some pDstData) DstSize with
              | None => Ret (false, interleaved, pDstData, DstSize)
              | Some s =>
                  match freerdp_bitmap_compress buffer nWidth nHeight s bpp maxSize (nHeight - 1)
                          (set_pointer 0 (bts interleaved)) 0 with
                  | Abort => Abort
                  | Ret (lines, s, temp) =>
                      match Stream_SealLength s with
                      | Abort => Abort
                      | Ret (_, s) =>
                          Ret (lines >=? 0, mkInterleaved (TempSize interleaved) (Some buffer) temp, st_buffer s,
                               u32 (st_length s))
                      end
                  end
              end
        end
    end.
End malloc.
