(* ===== verification/InterleavedCorrect.v ===== *)
(** The interleaved bitmap codec: what it decompresses and what it compresses. *)

From stdpp Require Import prelude list numbers.
From Stdlib Require Import ZArith Lia.
From S2P Require Import Prelude Stream StreamLogic Rle RleSafe RleFormat BitmapCompress BitmapCompressCorrect Interleaved.

#[local] Open Scope Z_scope.

(** * The context *)

(** The buffer is null or has the size the context says. *)
Record context_ok (c : BITMAP_INTERLEAVED_CONTEXT) : Prop := {
  ctx_size : 16384 <= TempSize c <= UINT32_MAX;
  ctx_buffer b : TempBuffer c = Some b → zlen b = TempSize c ∧ bytes b;
  ctx_stream : wf (bts c) ∧ 16384 <= st_capacity (bts c);
}.

Section malloc.
Context {HM : Malloc}.

Lemma recalloc_size old n b :
  0 <= n <= UINT32_MAX → (∀ o, old = Some o → zlen o < n ∧ bytes o) →
  winpr_aligned_recalloc old n 1 16 = Some b → zlen b = n ∧ bytes b.
Proof.
  intros Hn Ho. unfold winpr_aligned_recalloc, winpr_aligned_offset_recalloc.
  assert (u64 (1 * n) = n) as -> by (unfold u64, UINT32_MAX in *; rewrite Z.mod_small; lia).
  assert (u64 (n + 16) = n + 16) as -> by (unfold u64, UINT32_MAX in *; rewrite Z.mod_small; lia).
  destruct old as [o|].
  - destruct (Ho o eq_refl) as [Hz Hb]. destruct (_ || _); [done|]. destruct (Z.gtb_spec (zlen o) (n + 16)); [lia|].
    destruct (winpr_aligned_offset_malloc _ _ _); [|done]. intros [= <-]. pose proof (zlen_nonneg o).
    rewrite Z.min_l by lia. rewrite zlen_app, zlen_ztake, zlen_zeros by lia. split; [lia|].
    apply Forall_app_2; [by apply Forall_ztake|apply bytes_zeros].
  - destruct (winpr_aligned_offset_malloc _ _ _); [|done]. intros [= <-]. split; [apply zlen_zeros; lia|apply bytes_zeros].
Qed.

Lemma interleaved_context_new_ok c : bitmap_interleaved_context_new = Some c → context_ok c ∧ TempBuffer c <> None.
Proof.
  unfold bitmap_interleaved_context_new. destruct (winpr_aligned_recalloc None 1 24 32); [|done].
  change (64 * 64 * 4) with 16384. unfold winpr_aligned_calloc.
  destruct (winpr_aligned_recalloc None 16384 1 16) as [b|] eqn:E; [|done].
  apply recalloc_size in E; [|unfold UINT32_MAX; lia|done]. unfold Stream_New. cbn [andb Z.eqb].
  destruct (malloc_ok 56); [|done]. cbn [negb]. destruct (malloc_ok 16384); [|done]. intros [= <-]. split; [|done].
  constructor; cbn [TempSize TempBuffer bts].
  - unfold UINT32_MAX. lia.
  - intros b' [= <-]. exact E.
  - cbn [st_capacity]. split; [|lia]. constructor; cbn [st_buffer st_pointer st_length st_capacity].
    + apply zlen_zeros. lia.
    + lia.
    + lia.
    + unfold SIZE_MAX. lia.
    + apply bytes_zeros.
Qed.

(** The buffer for [n] bytes. *)
Definition enlarged (n : Z) (c : BITMAP_INTERLEAVED_CONTEXT) : BITMAP_INTERLEAVED_CONTEXT :=
  if n >? TempSize c then mkInterleaved n (winpr_aligned_recalloc (TempBuffer c) n 1 16) (bts c) else c.
Lemma enlarged_ok n c : context_ok c → n <= UINT32_MAX → context_ok (enlarged n c) ∧ n <= TempSize (enlarged n c).
Proof.
  intros [Hs Hb Ht] Hn. unfold enlarged. destruct (Z.gtb_spec n (TempSize c)) as [Hg|Hg]; [|by split].
  cbn [TempSize]. split; [|lia]. constructor; cbn [TempSize TempBuffer bts]; [lia| |done].
  intros b. apply recalloc_size; [lia|]. intros o Ho. destruct (Hb o Ho) as [? ?]. split; [lia|done].
Qed.
Lemma buffer_ok c b : context_ok c → zlen b = TempSize c → bytes b → context_ok (mkInterleaved (TempSize c) (Some b) (bts c)).
Proof. intros [Hs Hb Ht] Hz Hby. constructor; cbn [TempSize TempBuffer bts]; [done| |done]. by intros ? [= <-]. Qed.

(** * Decompression *)

(** The pixels of a depth. *)
Definition depth_format (bpp : Z) : PixelFormat :=
  if bpp =? 24 then format_24 else if bpp =? 8 then format_8 else format_16.
#[local] Instance depth_laws bpp : PixelLaws (depth_format bpp).
Proof. unfold depth_format. destruct (bpp =? 24); [apply _|]. destruct (bpp =? 8); apply _. Qed.
Lemma source_line_depth w bpp line fmt :
  source_line w bpp = Some (line, fmt) → line = w * PIXEL_SIZE (PixelFormat := depth_format bpp).
Proof.
  unfold source_line, depth_format. destruct (bpp =? 24); [by destruct (_ >? _); [|intros [= <- _]]|].
  destruct (bpp =? 16) eqn:E16; [apply Z.eqb_eq in E16 as ->; by destruct (_ >? _); [|intros [= <- _]]|].
  destruct (bpp =? 15) eqn:E15; [apply Z.eqb_eq in E15 as ->; by destruct (_ >? _); [|intros [= <- _]]|].
  destruct (bpp =? 8); [|done]. intros [= <- _]. cbn. lia.
Qed.
Lemma rle_decompress_depth bpp : rle_decompress bpp = RLEDECOMPRESS (HF := depth_format bpp).
Proof. unfold rle_decompress, depth_format. destruct (bpp =? 24); [done|]. by destruct (bpp =? 8). Qed.

Section image_copy.
Context {D : Type} (image_copy : D → list Z → pixel_format → Z → bool * D).

(** What the caller sees: nothing, or one copy out of a buffer that has all the lines. *)
Inductive decompressed (d : D) (w h bpp : Z) : bool → D → Prop :=
| refused : decompressed d w h bpp false d
| copied buffer fmt line ok d' :
    source_line w bpp = Some (line, fmt) → bytes buffer → line * h <= zlen buffer →
    image_copy d buffer fmt line = (ok, d') → decompressed d w h bpp ok d'.

(** C32. Decompression of any bytes into any size ends without touching memory
    outside the source and the buffer of the context; the context stays
    usable, and the destination is untouched or filled from a buffer that has
    all the lines. *)
Theorem interleaved_decompress_safe c src w h bpp d dw dh :
  context_ok c → bytes src → zlen src <= UINT32_MAX → 0 <= w <= UINT32_MAX → 0 <= h <= UINT32_MAX →
  ∃ ok c' d', interleaved_decompress image_copy c src w h bpp d dw dh = Ret (ok, c', d') ∧
    context_ok c' ∧ decompressed d w h bpp ok d'.
Proof.
  intros Hc Hs Hz Hw Hh. unfold interleaved_decompress.
  destruct (Z.eqb_spec w 0); [do 3 eexists; split; [done|]; by split; [|constructor]|].
  destruct (Z.eqb_spec h 0); [do 3 eexists; split; [done|]; by split; [|constructor]|]. cbn [orb].
  destruct (_ || _); [do 3 eexists; split; [done|]; by split; [|constructor]|].
  destruct (source_line w bpp) as [[line fmt]|] eqn:El; [|do 3 eexists; split; [done|]; by split; [|constructor]].
  pose proof (source_line_depth _ _ _ _ El) as ->. pose proof (pixel_size (HF := depth_format bpp)). set (psize := PIXEL_SIZE) in *.
  destruct (Z.gtb_spec (w * psize) (UINT32_MAX / h)) as [Hg|Hg]; [do 3 eexists; split; [done|]; by split; [|constructor]|].
  assert (w * psize * h <= UINT32_MAX) as H32.
  { pose proof (Z.mul_div_le UINT32_MAX h ltac:(lia)). nia. }
  fold (enlarged (w * psize * h) c). destruct (enlarged_ok _ _ Hc H32) as [Hc1 Hn].
  set (c1 := enlarged (w * psize * h) c) in *.
  destruct (TempBuffer c1) as [b|] eqn:Eb; [|do 3 eexists; split; [done|]; by split; [|constructor]].
  destruct (ctx_buffer c1 Hc1 b Eb) as [Hzb Hb]. rewrite rle_decompress_depth.
  destruct (RLEDECOMPRESS_safe (HF := depth_format bpp) src b w h) as (ok & b' & Eo & Hb' & Hz' & _); try done; try lia. fold psize in Eo. rewrite Eo.
  assert (context_ok (mkInterleaved (TempSize c1) (Some b') (bts c1))) as Hc2 by (apply buffer_ok; [done|lia|done]).
  destruct ok; cbn [negb]; [|do 3 eexists; split; [done|]; by split; [|constructor]].
  destruct (image_copy d b' fmt (w * psize)) as [ok' d'] eqn:Ei. do 3 eexists. split; [done|]. split; [done|].
  eapply copied; [done|done| |done]. lia.
Qed.
(** A source the decoder accepts. *)
Lemma interleaved_decompress_ok c b src w h bpp line fmt img out dw dh :
  0 < w → 0 < h → 0 < dw → 0 < dh → 0 <= line → source_line w bpp = Some (line, fmt) → line * h <= UINT32_MAX →
  TempBuffer (enlarged (line * h) c) = Some b → rle_decompress bpp src b line w h = Ret (true, img) →
  ∃ c', interleaved_decompress image_copy c src w h bpp out dw dh =
    Ret (fst (image_copy out img fmt line), c', snd (image_copy out img fmt line)).
Proof.
  intros Hw Hh Hdw Hdh Hl El H32 Eb Hr.
  unfold interleaved_decompress. destruct (Z.eqb_spec w 0), (Z.eqb_spec h 0), (Z.eqb_spec dw 0), (Z.eqb_spec dh 0); try lia.
  cbn [orb]. rewrite El. assert (line <= UINT32_MAX / h) as Hq by (apply Z.div_le_lower_bound; lia).
  destruct (Z.gtb_spec line (UINT32_MAX / h)); [lia|]. fold (enlarged (line * h) c). rewrite Eb, Hr.
  cbn [negb]. destruct (image_copy out img fmt line). by eexists.
Qed.

(** C33. A source that encodes orders, in any of the forms each of them has, is
    decompressed to the picture the orders describe: every pixel is what the
    order makes of the one above it. *)
Theorem interleaved_orders_decoded c b w h bpp line fmt os bss out dw dh :
  0 < w → 0 < h → 0 < dw → 0 < dh → source_line w bpp = Some (line, fmt) → line * h <= UINT32_MAX →
  context_ok c → TempBuffer (enlarged (line * h) c) = Some b →
  Forall2 (encoded (HF := depth_format bpp)) os bss → orders_ok (HF := depth_format bpp) w os (new_picture (HF := depth_format bpp)) →
  zlen (mjoin bss) <= UINT32_MAX →
  let l := pc_out (apply_orders (HF := depth_format bpp) w os (new_picture (HF := depth_format bpp))) in
  zlen l <= w * h →
  let buffer := pixels_bytes (HF := depth_format bpp) l ++ zdrop (zlen l * PIXEL_SIZE (PixelFormat := depth_format bpp)) b in
  ∃ c', interleaved_decompress image_copy c (mjoin bss) w h bpp out dw dh =
    Ret (fst (image_copy out buffer fmt line), c', snd (image_copy out buffer fmt line)).
Proof.
  intros Hw Hh Hdw Hdh El H32 Hc Eb He Hok Hz l Hl buffer. pose proof (source_line_depth _ _ _ _ El) as ->.
  pose proof (pixel_size (HF := depth_format bpp)).
  destruct (enlarged_ok _ _ Hc H32) as [Hc1 Hn]. destruct (ctx_buffer _ Hc1 b Eb) as [Hzb _].
  eapply interleaved_decompress_ok; [done..|nia|done|done|done|]. rewrite rle_decompress_depth.
  apply RLEDECOMPRESS_orders; done || lia.
Qed.
End image_copy.

(** * Compression *)

Definition format_of (bpp : Z) : pixel_format := if bpp =? 15 then PIXEL_FORMAT_RGB15 else PIXEL_FORMAT_RGB16.

Lemma source_line_16 w bpp : bpp = 15 ∨ bpp = 16 → 0 < w <= 64 → source_line w bpp = Some (w * 2, format_of bpp).
Proof.
  intros Hb Hw. unfold source_line. change (UINT32_MAX / 2) with 2147483647.
  destruct (Z.gtb_spec w 2147483647); [lia|]. by destruct Hb as [->| ->].
Qed.

Section roundtrip.
Context {D : Type} (image_copy : D → list Z → pixel_format → Z → bool * D).
Context (image_read : list Z → pixel_format → bool * list Z).
Context (w h bpp : Z).
Hypothesis Hbpp : bpp = 15 ∨ bpp = 16.
Hypothesis Hw : 0 < w <= 64.
Hypothesis Hh : 0 < h <= 64.

(** Compression, and the stream of its output. *)
Lemma interleaved_compress_ok c b img dst DstSize :
  context_ok c → TempBuffer c = Some b → image_read b (format_of bpp) = (true, img) →
  bytes img → 2 * w * h <= zlen img → (bpp = 15 → Forall (λ p, p < 0x8000) (scan img w h)) → no_alternation (scan img w h) →
  malloc_ok 56 = true → w mod 4 = 0 → zlen dst = DstSize → bytes dst → 2 * w * h + 3 <= DstSize <= UINT32_MAX →
  ∃ c' dst' n, interleaved_compress image_read c dst DstSize w h bpp = Ret (true, c', dst', n) ∧
    0 <= n <= 2 * w * h + 3 ∧
    ∀ out, 2 * w * h <= zlen out →
      RleDecompress16to16 (ztake n dst') out (w * 2) w h =
        Ret (true, flip_lines img (2 * w) h ++ zdrop (2 * w * h) out).
Proof.
  intros Hc Eb Er Hi Hz H15 Halt HM56 Hw4 Hd Hbd HD. destruct (ctx_stream c Hc) as [Ht Htc].
  assert (2 * w * h <= 8192) as H8 by nia. assert (0 < 2 * w * h) as H0 by nia.
  assert (wf (mkStream dst 0 DstSize DstSize true true)) as Hs.
  { constructor; cbn [st_buffer st_pointer st_length st_capacity]; try done; unfold UINT32_MAX, SIZE_MAX in *; lia. }
  assert (wf (set_pointer 0 (bts c))) as Ht0 by (destruct Ht; constructor; cbn; done || lia).
  destruct (bitmap_16_roundtrip img w h (mkStream dst 0 DstSize DstSize true true) (set_pointer 0 (bts c)) bpp 16384 (zeros (2 * w * h)))
    as (s' & t' & E & Hs' & Hp' & _); try done; try lia; try (cbn; lia).
  { rewrite zlen_zeros; lia. }
  assert (0 <= st_pointer s' <= st_capacity s') as Hps by (by destruct Hs').
  unfold interleaved_compress. destruct (Z.eqb_spec w 0), (Z.eqb_spec h 0); try lia. cbn [orb].
  rewrite Hw4. cbn [Z.eqb negb]. destruct (Z.gtb_spec w 64), (Z.gtb_spec h 64); try lia. cbn [orb].
  assert ((if bpp =? 24 then Some PIXEL_FORMAT_BGRX32 else if bpp =? 16 then Some PIXEL_FORMAT_RGB16
           else if bpp =? 15 then Some PIXEL_FORMAT_RGB15 else None) = Some (format_of bpp)) as -> by (by destruct Hbpp as [->| ->]).
  rewrite Eb, Er. cbn [negb]. unfold Stream_New. rewrite HM56. cbn [andb negb bts]. change (64 * 64 * 4) with 16384. rewrite E.
  unfold Stream_SealLength. destruct (Z.leb_spec 0 (st_pointer s')); [|lia].
  destruct (Z.leb_spec (st_pointer s') (st_capacity s')); [|lia]. cbn [andb].
  destruct (Z.geb_spec h 0); [|lia]. cbn [set_length st_buffer st_length].
  replace (u32 (st_pointer s')) with (st_pointer s') by (unfold u32; rewrite Z.mod_small; lia).
  do 3 eexists. split; [done|]. split; [lia|]. intros out Hout.
  destruct (bitmap_16_roundtrip img w h (mkStream dst 0 DstSize DstSize true true) (set_pointer 0 (bts c)) bpp 16384 out)
    as (s2 & t2 & E2 & _ & _ & Hr); try done; try lia; try (cbn; lia).
  rewrite E in E2. injection E2 as <- <-. exact Hr.
Qed.

(** C31. An image of 15 or 16 bits per pixel that was compressed is
    decompressed to its lines, the last one first: the destination is filled
    from a buffer that begins with them. *)
Theorem interleaved_roundtrip c b img dst DstSize c2 b2 out dw dh :
  w mod 4 = 0 → context_ok c → TempBuffer c = Some b → context_ok c2 → TempBuffer c2 = Some b2 →
  image_read b (format_of bpp) = (true, img) → bytes img → 2 * w * h <= zlen img →
  (bpp = 15 → Forall (λ p, p < 0x8000) (scan img w h)) → no_alternation (scan img w h) → malloc_ok 56 = true →
  zlen dst = DstSize → bytes dst → 2 * w * h + 3 <= DstSize <= UINT32_MAX → 0 < dw → 0 < dh →
  ∃ c' dst' n c2', interleaved_compress image_read c dst DstSize w h bpp = Ret (true, c', dst', n) ∧
    let lines := flip_lines img (2 * w) h ++ zdrop (2 * w * h) b2 in
    interleaved_decompress image_copy c2 (ztake n dst') w h bpp out dw dh =
      Ret (fst (image_copy out lines (format_of bpp) (w * 2)), c2', snd (image_copy out lines (format_of bpp) (w * 2))).
Proof.
  intros. destruct (interleaved_compress_ok c b img dst DstSize) as (c' & dst' & n & E & Hn & Hr); try done.
  destruct (ctx_size c2) as [Hs2 _]; [done|].
  assert (2 * w * h <= zlen b2) as Hb2 by (destruct (ctx_buffer c2) with b2 as [-> _]; [done..|nia]).
  assert (w * 2 * h <= TempSize c2) as Hn2 by nia.
  destruct (interleaved_decompress_ok image_copy c2 b2 (ztake n dst') w h bpp (w * 2) (format_of bpp)
              (flip_lines img (2 * w) h ++ zdrop (2 * w * h) b2) out dw dh) as (c2' & Hd).
  1-5: lia.
  - by apply source_line_16.
  - unfold UINT32_MAX. nia.
  - unfold enlarged. destruct (Z.gtb_spec (w * 2 * h) (TempSize c2)); [lia|done].
  - assert (rle_decompress bpp = RleDecompress16to16) as -> by (by destruct Hbpp as [->| ->]). by apply Hr.
  - by exists c', dst', n, c2'.
Qed.
End roundtrip.
End malloc.

(** * Instances *)

Example interleaved_decompress_safe_witness :
  let HM : Malloc := λ _, true in
  let c := mkInterleaved 16384 (Some (zeros 16384)) (mkStream (zeros 16384) 0 16384 16384 true true) in
  ∃ ok c' d', interleaved_decompress (λ d b (_ : pixel_format) (_ : Z), (true, ztake 4 b ++ d)) c [0x63; 7; 0xFF; 1] 4 1 8 [] 4 1 = Ret (ok, c', d').
Proof.
  intros HM c.
  destruct (interleaved_decompress_safe (HM := HM) (λ d b (_ : pixel_format) (_ : Z), (true, ztake 4 b ++ d)) c
              [0x63; 7; 0xFF; 1] 4 1 8 [] 4 1) as (ok & c' & d' & H & _).
  - by apply (interleaved_context_new_ok (HM := HM)); vm_compute.
  - repeat constructor; unfold is_byte; lia.
  - done.
  - done.
  - done.
  - by exists ok, c', d'.
Defined.

Example interleaved_orders_decoded_witness :
  let HM : Malloc := λ _, true in
  let c := mkInterleaved 16384 (Some (zeros 16384)) (mkStream (zeros 16384) 0 16384 16384 true true) in
  let os := [ColorRun 2 7; BgRun 2; White; FgRun 3] in
  let bss := [[0x62; 7]; [0x02]; [0xFD]; [0x23]] in
  let l := pc_out (apply_orders (HF := format_8) 4 os (new_picture (HF := format_8))) in
  l = [7; 7; 0; 0; 255; 248; 255; 255] ∧
  ∃ c', interleaved_decompress (λ d b (_ : pixel_format) (_ : Z), (true, ztake 8 b ++ d)) c (mjoin bss) 4 2 8 [] 4 2 =
    Ret (true, c', l).
Proof.
  intros HM c os bss l. split; [done|].
  apply (interleaved_orders_decoded (HM := HM) (λ d b (_ : pixel_format) (_ : Z), (true, ztake 8 b ++ d)) c (zeros 16384)
           4 2 8 4 PIXEL_FORMAT_RGB8 os bss); try done.
  - by apply (interleaved_context_new_ok (HM := HM)); vm_compute.
  - constructor; [apply (enc_color (HF := format_8) 2 7 [0x62]); [unfold pixel; cbn; lia|by apply regular_short]|].
    constructor; [apply enc_bg; by apply regular_short|]. constructor; [apply enc_white|].
    constructor; [apply enc_fg; by apply regular_short|constructor].
Defined.

Example interleaved_roundtrip_witness :
  let HM : Malloc := λ _, true in
  let c := mkInterleaved 16384 (Some (zeros 16384)) (mkStream (zeros 16384) 0 16384 16384 true true) in
  let img := [1; 0; 2; 0; 3; 0; 4; 0; 9; 1; 9; 1; 9; 1; 9; 1] in
  ∃ c' dst' n c2', interleaved_compress (λ _ _, (true, img)) c (zeros 20) 20 4 2 16 = Ret (true, c', dst', n) ∧
    interleaved_decompress (λ d b (_ : pixel_format) (_ : Z), (true, ztake 16 b ++ d)) c (ztake n dst') 4 2 16 [] 4 2 =
      Ret (true, c2', [9; 1; 9; 1; 9; 1; 9; 1; 1; 0; 2; 0; 3; 0; 4; 0]).
Proof.
  intros HM c img.
  apply (interleaved_roundtrip (HM := HM) (λ d b (_ : pixel_format) (_ : Z), (true, ztake 16 b ++ d)) (λ _ _, (true, img))
           4 2 16 (or_intror eq_refl) ltac:(lia) ltac:(lia) c (zeros 16384) img (zeros 20) 20 c (zeros 16384) [] 4 2); try done.
  - by apply (interleaved_context_new_ok (HM := HM)); vm_compute.
  - by apply (interleaved_context_new_ok (HM := HM)); vm_compute.
  - repeat constructor; unfold is_byte; lia.
  - intros i Hi. assert (zlen (scan img 4 2) = 8) as Ez by done. rewrite Ez in Hi.
    assert (i = 3 ∨ i = 4 ∨ i = 5 ∨ i = 6 ∨ i = 7) as Hcs by lia.
    destruct Hcs as [-> | [-> | [-> | [-> | ->]]]]; by vm_compute.
  - apply bytes_zeros.
Defined.

(** Two images the encoder does not keep: an even number of pixels that
    alternate between two colors comes back with the colors swapped, and in a
    24-bit image the pixels that are copied in front of a run come back black. *)
Example bitmap_compress_loses_pixels :
  let HM : Malloc := λ _, true in
  let s := mkStream (zeros 64) 0 64 64 true true in
  (∃ s' t', freerdp_bitmap_compress [9; 0; 5; 0; 6; 0; 5; 0; 6; 0; 5; 0; 6; 0; 7; 0] 8 1 s 16 64 0 s 0 = Ret (1, s', t') ∧
     RleDecompress16to16 (written s') (zeros 16) 16 8 1 = Ret (true, [9; 0; 5; 0; 6; 0; 6; 0; 5; 0; 6; 0; 5; 0; 7; 0])) ∧
  (∃ s' t', freerdp_bitmap_compress (mjoin (map (λ p, [p; 0; 0; 0]) [1; 2; 3; 4; 7; 7; 7; 7; 7; 7; 7; 8])) 12 1 s 24 64 0 s 0 = Ret (1, s', t') ∧
     RleDecompress24to24 (written s') (zeros 36) 36 12 1 =
       Ret (true, mjoin (map (λ p, [p; 0; 0]) [0; 0; 0; 0; 0; 7; 7; 7; 7; 7; 7; 8]))).
Proof. split; do 2 eexists; (split; [vm_compute; reflexivity|vm_compute; reflexivity]). Qed.
