(* ===== verification/Gcc.v ===== *)
(** The T.124 GCC conference create PDUs of libfreerdp/core/gcc.c: the PER
    headers of the request and the response around the user data, the
    TS_UD_HEADER in front of each data block, and the loops that take the
    blocks apart.  What a block means for the settings is left to the caller:
    [client_block] and [server_block] stand for the [gcc_read_*_data]
    functions. *)

From S2P Require Import Prelude Stream StreamLogic Per.
From stdpp Require Import prelude list numbers.
From Stdlib Require Import ZArith Lia.

#[local] Open Scope Z_scope.

Definition MCS_Result_enum_length : Z := 16.

Definition t124_02_98_oid : list Z := [0; 0; 20; 124; 0; 1].
Definition h221_cs_key : list Z := [68; 117; 99; 97].
Definition h221_sc_key : list Z := [77; 99; 68; 110].

Definition CS_CORE : Z := 0xC001.
Definition CS_SECURITY : Z := 0xC002.
Definition CS_NET : Z := 0xC003.
Definition CS_CLUSTER : Z := 0xC004.
Definition CS_MONITOR : Z := 0xC005.
Definition CS_MCS_MSGCHANNEL : Z := 0xC006.
Definition CS_MONITOR_EX : Z := 0xC008.
Definition CS_MULTITRANSPORT : Z := 0xC00A.
Definition CS_UNUSED1 : Z := 0xC00C.
Definition SC_CORE : Z := 0x0C01.
Definition SC_SECURITY : Z := 0x0C02.
Definition SC_NET : Z := 0x0C03.
Definition SC_MCS_MSGCHANNEL : Z := 0x0C04.
Definition SC_MULTITRANSPORT : Z := 0x0C08.

(** * Data blocks *)

(** The type and the length of a block, which counts the header. *)
Definition gcc_read_user_data_header : SM (option (Z * Z)) :=
  TRY Stream_CheckAndLogRequiredLength 4;
  type ← Stream_Read_UINT16;
  length ← Stream_Read_UINT16;
  if length <? 4 then FALSE
  else
    TRY Stream_CheckAndLogRequiredLength (length - 4);
    mret (Some (type, length)).

Definition gcc_write_user_data_header `{HM : Malloc} (type length : Z) : SM (option unit) :=
  TRY Stream_EnsureRemainingCapacity (4 + length);
  Stream_Write_UINT16 type;;
  Stream_Write_UINT16 length;;
  TRUE.

Definition fuel_out {A} : SM A := λ _, Abort.

Section blocks.
Context {St : Type}.
(** [gcc_read_client_*_data] and [gcc_read_server_*_data] of a block of the
    given type, on its bytes; [clear_multitransport] is what
    [gcc_read_client_data_blocks] does to the settings of a client without
    multitransport. *)
Context (client_block server_block : Z → list Z → St → outcome (option St)).
Context (clear_multitransport : St → option St).

Definition client_block_known (type : Z) : bool :=
  bool_decide (type ∈ [CS_CORE; CS_SECURITY; CS_NET; CS_CLUSTER; CS_MONITOR;
    CS_MCS_MSGCHANNEL; CS_MONITOR_EX; CS_UNUSED1; 0xC009; CS_MULTITRANSPORT]).
Definition client_block_multitransport (type : Z) : bool :=
  (type =? 0xC009) || (type =? CS_MULTITRANSPORT).

(** [while (length > 0)]: the flag [gotMultitransport] and the state.  Every
    iteration consumes four bytes or more. *)
Fixpoint client_blocks_loop (fuel : nat) (length : Z) (got : bool) (st : St)
    : SM (option (bool * St)) :=
  match fuel with
  | O => fuel_out
  | S fuel =>
      if length >? 0 then
        '(type, blockLength) ←? gcc_read_user_data_header;
        TRY Stream_CheckAndLogRequiredLength (blockLength - 4);
        sub ← Stream_Peek (blockLength - 4);
        Stream_Seek (blockLength - 4);;
        st ←? (if client_block_known type then lift (client_block type sub st)
               else mret (Some st));
        client_blocks_loop fuel (if blockLength >? length then 0 else length - blockLength)
          (got || client_block_multitransport type) st
      else mret (Some (got, st))
  end.

(** The fuel is what remains of the stream. *)
Definition gcc_read_client_data_blocks (st : St) (length : Z) : SM (option St) :=
  rem ← Stream_GetRemainingLength;
  '(got, st) ←? client_blocks_loop (S (S (Z.to_nat rem))) length false st;
  if got : bool then mret (Some st) else mret (clear_multitransport st).

Definition server_block_known (type : Z) : bool :=
  bool_decide (type ∈ [SC_CORE; SC_SECURITY; SC_NET; SC_MCS_MSGCHANNEL; SC_MULTITRANSPORT]).

(** [while (offset < length)], with the 16-bit [offset]. *)
Fixpoint server_blocks_loop (fuel : nat) (offset length : Z) (st : St) : SM (option St) :=
  match fuel with
  | O => fuel_out
  | S fuel =>
      if offset <? length then
        '(type, blockLength) ←? gcc_read_user_data_header;
        sub ← Stream_Peek (blockLength - 4);
        TRY Stream_SafeSeekEx (blockLength - 4);
        st ←? (if server_block_known type then lift (server_block type sub st)
               else mret (Some st));
        server_blocks_loop fuel (u16 (offset + blockLength)) length st
      else mret (Some st)
  end.

Definition gcc_read_server_data_blocks (st : St) (length : Z) : SM (option St) :=
  rem ← Stream_GetRemainingLength;
  server_blocks_loop (S (S (Z.to_nat rem))) 0 length st.

(** * The conference create PDUs *)

Definition gcc_read_conference_create_request (st : St) : SM (option St) :=
  choice ←? per_read_choice;
  TRY per_read_object_identifier t124_02_98_oid;
  length ←? per_read_length;
  choice ←? per_read_choice;
  selection ←? per_read_selection;
  TRY per_read_numeric_string 1;
  TRY per_read_padding 1;
  number ←? per_read_number_of_sets;
  if negb (number =? 1) then FALSE
  else
    choice ←? per_read_choice;
    if negb (choice =? 0xC0) then FALSE
    else
      TRY per_read_octet_string h221_cs_key 4 4;
      length ←? per_read_length;
      TRY Stream_CheckAndLogRequiredLength length;
      gcc_read_client_data_blocks st length.

Definition gcc_read_conference_create_response (st : St) : SM (option St) :=
  choice ←? per_read_choice;
  TRY per_read_object_identifier t124_02_98_oid;
  length ←? per_read_length;
  choice ←? per_read_choice;
  nodeID ←? per_read_integer16 1001;
  tag ←? per_read_integer;
  result ←? per_read_enumerated MCS_Result_enum_length;
  number ←? per_read_number_of_sets;
  choice ←? per_read_choice;
  TRY per_read_octet_string h221_sc_key 4 4;
  length ←? per_read_length;
  gcc_read_server_data_blocks st length.
End blocks.

Section writers.
Context {HM : Malloc}.

(** [userData] is what was written to the stream of that name. *)
Definition gcc_write_conference_create_request (userData : list Z) : SM (option unit) :=
  TRY per_write_choice 0;
  TRY per_write_object_identifier t124_02_98_oid;
  let pos := zlen userData in
  WINPR_ASSERT (pos <=? UINT16_MAX - 14);;
  TRY per_write_length (pos + 14);
  TRY per_write_choice 0;
  TRY per_write_selection 0x08;
  TRY per_write_numeric_string [49] 1 1;
  TRY per_write_padding 1;
  TRY per_write_number_of_sets 1;
  TRY per_write_choice 0xC0;
  TRY per_write_octet_string h221_cs_key 4 4;
  WINPR_ASSERT (pos <=? UINT16_MAX);;
  per_write_octet_string userData pos 0.

Definition gcc_write_conference_create_response (userData : list Z) : SM (option unit) :=
  TRY per_write_choice 0;
  TRY per_write_object_identifier t124_02_98_oid;
  TRY per_write_length 0x2A;
  TRY per_write_choice 0x14;
  TRY per_write_integer16 0x79F3 1001;
  TRY per_write_integer 1;
  TRY per_write_enumerated 0 MCS_Result_enum_length;
  TRY per_write_number_of_sets 1;
  TRY per_write_choice 0xC0;
  TRY per_write_octet_string h221_sc_key 4 4;
  let pos := zlen userData in
  WINPR_ASSERT (pos <=? UINT16_MAX);;
  per_write_octet_string userData pos 0.
End writers.

(** * Lemmas *)

(** ** Blocks *)

Definition block_bytes (b : Z * list Z) : list Z :=
  winpr_Data_Write_UINT16 b.1 ++ winpr_Data_Write_UINT16 (zlen b.2 + 4) ++ b.2.
Definition blocks_bytes (bl : list (Z * list Z)) : list Z := concat (map block_bytes bl).
Definition block_ok (b : Z * list Z) : Prop :=
  0 <= b.1 <= UINT16_MAX ∧ zlen b.2 + 4 <= UINT16_MAX ∧ bytes b.2.

Lemma zlen_block b : zlen (block_bytes b) = zlen b.2 + 4.
Proof.
  unfold block_bytes. rewrite !zlen_app. change (zlen (winpr_Data_Write_UINT16 _)) with 2. lia.
Qed.
Lemma blocks_bytes_cons type data bl :
  blocks_bytes ((type, data) :: bl) =
    winpr_Data_Write_UINT16 type ++ winpr_Data_Write_UINT16 (zlen data + 4) ++ data
      ++ blocks_bytes bl.
Proof. unfold blocks_bytes, block_bytes. cbn [map concat]. by rewrite <- !app_assoc. Qed.
Lemma zlen_blocks_cons b bl :
  zlen (blocks_bytes (b :: bl)) = zlen b.2 + 4 + zlen (blocks_bytes bl).
Proof. unfold blocks_bytes. cbn [map concat]. rewrite zlen_app, zlen_block. done. Qed.
Lemma zlen_blocks_ge bl : 4 * Z.of_nat (length bl) <= zlen (blocks_bytes bl).
Proof.
  induction bl as [|b bl IH]; [done|]. rewrite zlen_blocks_cons. cbn [length]. zlia.
Qed.

Lemma reads_user_data_header {B} type len (k : option (Z * Z) → SM B) body b :
  0 <= type <= UINT16_MAX → 4 <= len <= UINT16_MAX → len - 4 <= zlen body →
  reads (k (Some (type, len))) body b →
  reads (x ← gcc_read_user_data_header; k x)
    (winpr_Data_Write_UINT16 type ++ winpr_Data_Write_UINT16 len ++ body) b.
Proof.
  intros Ht Hl Hb Hk s tl Hs Hr.
  set (hd := winpr_Data_Write_UINT16 type ++ winpr_Data_Write_UINT16 len) in *.
  rewrite app_assoc, <- app_assoc in Hr. fold hd in Hr.
  destruct (remaining_app _ _ _ Hs Hr) as (Hz & Hs' & Hr').
  change (zlen hd) with 4 in *.
  assert (gcc_read_user_data_header s = Ret (Some (type, len), adv 4 s)) as Hh.
  { unfold gcc_read_user_data_header. erewrite bind_Ret by by apply run_CheckLength.
    replace (rem s <? 4) with false by lia. unfold hd in Hr. rewrite <- app_assoc in Hr.
    destruct (remaining_app _ _ _ Hs Hr) as (_ & Hs1 & Hr1).
    erewrite bind_Ret by by apply (reads_UINT16 type Ht s _ Hs Hr).
    erewrite bind_Ret by by apply (reads_UINT16 len ltac:(lia) _ _ Hs1 Hr1).
    replace (len <? 4) with false by lia. rewrite adv_adv. change (_ + _) with 4.
    erewrite bind_Ret by by apply run_CheckLength.
    replace (rem (adv 4 s) <? len - 4) with false; [done|].
    assert (rem (adv 4 s) = zlen body + zlen tl) as ->
      by (rewrite <- zlen_remaining, Hr', zlen_app by done; done). zlia. }
  erewrite bind_Ret by exact Hh. rewrite (Hk _ _ Hs' Hr'), adv_adv.
  rewrite app_assoc, zlen_app. done.
Qed.

Lemma writes_user_data_header `{HM : Malloc} type len :
  (∀ z, malloc_ok z = true) → 0 <= type <= UINT16_MAX → 0 <= len <= UINT16_MAX →
  writes (gcc_write_user_data_header type len)
    (winpr_Data_Write_UINT16 type ++ winpr_Data_Write_UINT16 len) (len + 132) (Some tt).
Proof.
  intros Hm Ht Hl. apply (writes_weaken _ (4 + len + 128)); [lia|].
  apply writes_ensure; [done|lia|]. apply puts_UINT16; [lia|done|].
  apply puts_nil_r, puts_UINT16; [lia|done|]. apply puts_ret.
Qed.

Section blocks_spec.
Context {St : Type} (block : Z → list Z → St → outcome (option St)) (known : Z → bool).

(** The handlers, run over the blocks of a PDU. *)
Fixpoint run_blocks (bl : list (Z * list Z)) (st : St) : outcome (option St) :=
  match bl with
  | [] => Ret (Some st)
  | (type, data) :: bl =>
      match (if known type then block type data st else Ret (Some st)) with
      | Ret (Some st) => run_blocks bl st
      | r => r
      end
  end.

Lemma run_blocks_cons type data bl st st' :
  run_blocks ((type, data) :: bl) st = Ret (Some st') →
  ∃ st1, (if known type then block type data st else Ret (Some st)) = Ret (Some st1) ∧
    run_blocks bl st1 = Ret (Some st').
Proof.
  cbn [run_blocks]. destruct (if known type then _ else _) as [[st1|]|]; intros; [|done..].
  by exists st1.
Qed.
Lemma reads_handler type data st st1 :
  (if known type then block type data st else Ret (Some st)) = Ret (Some st1) →
  reads (if known type then lift (block type data st) else mret (Some st)) [] (Some st1).
Proof.
  destruct (known type); [intros ->; apply reads_lift|]. intros. simplify_eq. apply reads_ret.
Qed.
End blocks_spec.

Section loops.
Context {St : Type} (client_block server_block : Z → list Z → St → outcome (option St)).
Context (clear_multitransport : St → option St).

Lemma reads_client_loop fuel bl got st st' :
  Forall block_ok bl → (length bl < fuel)%nat →
  run_blocks client_block client_block_known bl st = Ret (Some st') →
  reads (client_blocks_loop client_block fuel (zlen (blocks_bytes bl)) got st) (blocks_bytes bl)
    (Some (got || existsb (λ b, client_block_multitransport b.1) bl, st')).
Proof.
  revert fuel got st. induction bl as [|[type data] bl IH]; intros fuel got st Hok Hf Hrun;
    (destruct fuel as [|fuel]; [simpl in Hf; lia|]).
  { cbn in *. simplify_eq. rewrite orb_false_r. apply reads_ret. }
  apply Forall_cons_1 in Hok as [(Ht & Hd & Hb) Hok]. cbn [fst snd] in *.
  apply run_blocks_cons in Hrun as (st1 & Hst1 & Hrun).
  cbn [client_blocks_loop]. rewrite zlen_blocks_cons. cbn [snd].
  replace (_ >? 0) with true by zlia.
  rewrite blocks_bytes_cons. apply reads_user_data_header; [done|zlia|zlia|]. cbv beta iota.
  replace (zlen data + 4 - 4) with (zlen data) by lia.
  apply reads_check; [zlia|]. apply reads_step_Peek; [done|].
  apply reads_step_Seek; [done|].
  eapply (reads_bind_nil _ _ _ (Some st1)); [by apply reads_handler|]. cbv beta iota.
  replace (_ >? _) with false by zlia.
  replace (_ - _) with (zlen (blocks_bytes bl)) by lia.
  replace (got || existsb _ _) with
    ((got || client_block_multitransport type)
       || existsb (λ b : Z * list Z, client_block_multitransport b.1) bl)
    by (cbn; by rewrite orb_assoc).
  apply IH; [done|simpl in Hf; lia|done].
Qed.

Lemma reads_client_blocks bl st st' :
  Forall block_ok bl →
  run_blocks client_block client_block_known bl st = Ret (Some st') →
  reads (gcc_read_client_data_blocks client_block clear_multitransport st
           (zlen (blocks_bytes bl))) (blocks_bytes bl)
    (if existsb (λ b, client_block_multitransport b.1) bl then Some st'
     else clear_multitransport st').
Proof.
  intros Hok Hrun s tl Hs Hr. unfold gcc_read_client_data_blocks.
  erewrite bind_Ret by by apply run_GetRemainingLength.
  destruct (remaining_app _ _ _ Hs Hr) as (Hz & _ & _). pose proof (zlen_blocks_ge bl).
  erewrite bind_Ret by (eapply reads_client_loop; [done|lia|done|done|done]).
  cbn. by destruct (existsb _ bl).
Qed.

Lemma reads_server_loop fuel bl offset len st st' :
  Forall block_ok bl → (length bl < fuel)%nat → 0 <= offset →
  offset + zlen (blocks_bytes bl) = len → len <= UINT16_MAX →
  run_blocks server_block server_block_known bl st = Ret (Some st') →
  reads (server_blocks_loop server_block fuel offset len st) (blocks_bytes bl) (Some st').
Proof.
  revert fuel offset st. induction bl as [|[type data] bl IH];
    intros fuel offset st Hok Hf Hoff Hlen Hmax Hrun;
    (destruct fuel as [|fuel]; [simpl in Hf; lia|]).
  { change (zlen (blocks_bytes [])) with 0 in Hlen. cbn in Hrun |- *. simplify_eq.
    replace (offset <? offset + 0) with false by lia. apply reads_ret. }
  apply Forall_cons_1 in Hok as [(Ht & Hd & Hb) Hok]. cbn [fst snd] in *.
  apply run_blocks_cons in Hrun as (st1 & Hst1 & Hrun).
  rewrite zlen_blocks_cons in Hlen. cbn [snd] in Hlen.
  cbn [server_blocks_loop]. replace (offset <? len) with true by zlia.
  rewrite blocks_bytes_cons. apply reads_user_data_header; [done|zlia|zlia|]. cbv beta iota.
  replace (zlen data + 4 - 4) with (zlen data) by lia.
  apply reads_step_Peek; [done|]. apply reads_SafeSeek; [done|].
  eapply (reads_bind_nil _ _ _ (Some st1)); [by apply reads_handler|]. cbv beta iota.
  unfold u16. rewrite Z.mod_small by (unfold UINT16_MAX in *; zlia).
  apply IH; [done|simpl in Hf; lia|zlia|lia|done..].
Qed.

Lemma reads_server_blocks bl st st' :
  Forall block_ok bl → zlen (blocks_bytes bl) <= UINT16_MAX →
  run_blocks server_block server_block_known bl st = Ret (Some st') →
  reads (gcc_read_server_data_blocks server_block st (zlen (blocks_bytes bl)))
    (blocks_bytes bl) (Some st').
Proof.
  intros Hok Hmax Hrun s tl Hs Hr. unfold gcc_read_server_data_blocks.
  erewrite bind_Ret by by apply run_GetRemainingLength.
  destruct (remaining_app _ _ _ Hs Hr) as (Hz & _ & _). pose proof (zlen_blocks_ge bl).
  eapply reads_server_loop; done || lia.
Qed.

(** ** Any input *)

(** A header that is accepted has been consumed and is followed by its block. *)
Lemma run_user_data_header s :
  readable s →
  ∃ r s', gcc_read_user_data_header s = Ret (r, s') ∧
    match r with
    | None => same_data s s'
    | Some (type, len) => s' = adv 4 s ∧ 4 <= len <= rem s
    end.
Proof.
  intros Hs. unfold gcc_read_user_data_header. erewrite bind_Ret by by apply run_CheckLength.
  destruct (Z.ltb_spec (rem s) 4).
  { eexists _, _. split; [done|]. by apply same_data_refl. }
  erewrite bind_Ret by (apply run_stream_read; [done|lia]).
  assert (readable (adv 2 s)) as Hs2 by (apply readable_adv; [done|lia]).
  erewrite bind_Ret by (apply run_stream_read; [done|rewrite rem_adv; lia]).
  rewrite adv_adv. change (2 + 2) with 4. set (len := winpr_Data_Get_LE _).
  assert (readable (adv 4 s)) as Hs4 by (apply readable_adv; [done|lia]).
  assert (same_data s (adv 4 s)) as Hd by (apply same_data_adv; [done|lia]).
  destruct (Z.ltb_spec len 4); [by eexists _, _|].
  erewrite bind_Ret by by apply run_CheckLength. rewrite rem_adv.
  destruct (Z.ltb_spec (rem s - 4) (len - 4)); [by eexists _, _|].
  eexists _, _. split; [done|]. split; [done|lia].
Qed.

Lemma ends_client_loop fuel length got st s :
  (∀ t l st, ∃ r, client_block t l st = Ret r) → readable s → rem s < Z.of_nat fuel →
  ends (client_blocks_loop client_block fuel length got st) s.
Proof.
  intros Hb. revert length got st s. induction fuel as [|fuel IH]; intros length got st s Hs Hf.
  { pose proof (readable_rem s Hs). lia. }
  cbn [client_blocks_loop]. destruct (length >? 0); [|by apply ends_ret].
  destruct (run_user_data_header s Hs) as ([[type len]|] & s1 & Hh & Hr); cycle 1.
  { eapply ends_bind; [done..|]. apply ends_ret. by destruct Hr. }
  destruct Hr as [-> Hl]. assert (readable (adv 4 s)) by (apply readable_adv; [done|lia]).
  eapply ends_bind; [done|apply same_data_adv; [done|lia]|]. cbv beta iota.
  eapply ends_bind; [by apply run_CheckLength|by apply same_data_refl|].
  rewrite rem_adv. replace (_ <? _) with false by lia.
  eapply ends_bind; [apply run_Peek; [done|rewrite rem_adv; lia]|by apply same_data_refl|].
  eapply ends_bind; [apply run_Seek; [by destruct H|]| |].
  { destruct H as [[] ?]. simpl in *. unfold rem in Hl. lia. }
  { apply same_data_adv; [done|rewrite rem_adv; lia]. }
  assert (readable (adv (len - 4) (adv 4 s))) as Hs2
    by (apply readable_adv; [done|rewrite rem_adv; lia]).
  set (h := if client_block_known type then _ else _).
  assert (∃ r, h (adv (len - 4) (adv 4 s)) = Ret (r, adv (len - 4) (adv 4 s))) as [r Hr].
  { unfold h. destruct (client_block_known type); [|by eexists].
    unfold lift. edestruct Hb as [r ->]. by eexists. }
  eapply ends_bind; [done|by apply same_data_refl|].
  destruct r as [st'|]; [|by apply ends_ret]. apply IH; [done|]. rewrite !rem_adv. lia.
Qed.

Lemma run_SafeSeek n s :
  readable s → 0 <= n <= rem s → Stream_SafeSeekEx n s = Ret (Some tt, adv n s).
Proof.
  intros Hs Hn. unfold Stream_SafeSeekEx. erewrite bind_Ret by by apply (run_CheckLength n).
  replace (rem s <? n) with false by lia.
  erewrite bind_Ret; [done|]. pose proof Hs as [[] ?]. unfold rem in Hn.
  apply run_Seek; [by destruct Hs|lia].
Qed.

Lemma ends_server_loop fuel offset length st s :
  (∀ t l st, ∃ r, server_block t l st = Ret r) → readable s → rem s < Z.of_nat fuel →
  ends (server_blocks_loop server_block fuel offset length st) s.
Proof.
  intros Hb. revert offset st s. induction fuel as [|fuel IH]; intros offset st s Hs Hf.
  { pose proof (readable_rem s Hs). lia. }
  cbn [server_blocks_loop]. destruct (offset <? length); [|by apply ends_ret].
  destruct (run_user_data_header s Hs) as ([[type len]|] & s1 & Hh & Hr); cycle 1.
  { eapply ends_bind; [done..|]. apply ends_ret. by destruct Hr. }
  destruct Hr as [-> Hl]. assert (readable (adv 4 s)) by (apply readable_adv; [done|lia]).
  eapply ends_bind; [done|apply same_data_adv; [done|lia]|]. cbv beta iota.
  eapply ends_bind; [apply run_Peek; [done|rewrite rem_adv; lia]|by apply same_data_refl|].
  eapply ends_bind; [apply run_SafeSeek; [done|rewrite rem_adv; lia]| |].
  { apply same_data_adv; [done|rewrite rem_adv; lia]. }
  assert (readable (adv (len - 4) (adv 4 s))) as Hs2
    by (apply readable_adv; [done|rewrite rem_adv; lia]).
  set (h := if server_block_known type then _ else _).
  assert (∃ r, h (adv (len - 4) (adv 4 s)) = Ret (r, adv (len - 4) (adv 4 s))) as [r Hr].
  { unfold h. destruct (server_block_known type); [|by eexists].
    unfold lift. edestruct Hb as [r ->]. by eexists. }
  cbv beta iota. eapply ends_bind; [done|by apply same_data_refl|].
  destruct r as [st'|]; [|by apply ends_ret]. apply IH; [done|]. rewrite !rem_adv. lia.
Qed.

Lemma safe_ends {A} (m : SM A) : (∀ s, readable s → ends m s) → safe 0 m (λ _, True).
Proof. intros Hm s Hs _. destruct (Hm s Hs) as (a & s' & ? & ?). by exists a, s'. Qed.

Lemma safe_client_blocks st length :
  (∀ t l st, ∃ r, client_block t l st = Ret r) →
  safe 0 (gcc_read_client_data_blocks client_block clear_multitransport st length) (λ _, True).
Proof.
  intros Hb. apply safe_ends. intros s Hs. pose proof (readable_rem s Hs).
  eapply ends_bind; [by apply run_GetRemainingLength|by apply same_data_refl|].
  destruct (ends_client_loop (S (S (Z.to_nat (rem s)))) length false st s)
    as (r & s' & Hr & Hd); [done..|lia|].
  eapply ends_bind; [done..|]. assert (readable s') by by destruct Hd.
  destruct r as [[[|] st']|]; by apply ends_ret.
Qed.
Lemma safe_server_blocks st length :
  (∀ t l st, ∃ r, server_block t l st = Ret r) →
  safe 0 (gcc_read_server_data_blocks server_block st length) (λ _, True).
Proof.
  intros Hb. apply safe_ends. intros s Hs. pose proof (readable_rem s Hs).
  eapply ends_bind; [by apply run_GetRemainingLength|by apply same_data_refl|].
  apply ends_server_loop; [done..|lia].
Qed.

(** ** The PDUs *)

Lemma reads_per_byte v :
  reads (TRY Stream_CheckAndLogRequiredLength 1; c ← Stream_Read_UINT8; mret (Some c)) [v] (Some v).
Proof. apply reads_check; [done|]. apply reads_step_UINT8, reads_ret. Qed.

Definition request_bytes (ud : list Z) : list Z :=
  [0] ++ per_oid_bytes t124_02_98_oid ++ per_length_bytes (zlen ud + 14) ++ [0] ++ [8]
    ++ [0; 16] ++ [0] ++ [1] ++ [0xC0] ++ (per_length_bytes 0 ++ h221_cs_key)
    ++ per_length_bytes (zlen ud) ++ ud.
Definition response_bytes (ud : list Z) : list Z :=
  [0] ++ per_oid_bytes t124_02_98_oid ++ per_length_bytes 0x2A ++ [0x14]
    ++ winpr_Data_Write_UINT16_BE (0x79F3 - 1001) ++ per_integer_bytes 1 ++ [0] ++ [1]
    ++ [0xC0] ++ (per_length_bytes 0 ++ h221_sc_key) ++ per_length_bytes (zlen ud) ++ ud.

Lemma reads_numeric : reads (per_read_numeric_string 1) [0; 16] (Some tt).
Proof.
  unfold per_read_numeric_string. eapply (reads_bind _ _ [0] [16]).
  { by apply (reads_per_length 0). }
  apply (reads_check 1); [done|]. by apply (reads_step_Seek 1 [16] _ []), reads_ret.
Qed.

Lemma reads_request bl st st' :
  Forall block_ok bl → zlen (blocks_bytes bl) + 14 < 32768 →
  run_blocks client_block client_block_known bl st = Ret (Some st') →
  reads (gcc_read_conference_create_request client_block clear_multitransport st)
    (request_bytes (blocks_bytes bl))
    (if existsb (λ b, client_block_multitransport b.1) bl then Some st'
     else clear_multitransport st').
Proof.
  intros Hok Hl Hrun. unfold gcc_read_conference_create_request, request_bytes.
  eapply reads_bind; [apply reads_per_byte|]. cbv beta iota.
  eapply reads_bind; [by apply reads_per_oid|]. cbv beta iota.
  eapply reads_bind; [apply reads_per_length; zlia|]. cbv beta iota.
  eapply reads_bind; [apply reads_per_byte|]. cbv beta iota.
  eapply reads_bind; [apply reads_per_byte|]. cbv beta iota.
  eapply reads_bind; [apply reads_numeric|]. cbv beta iota.
  eapply (reads_bind _ _ [0] _ (Some tt)).
  { apply (reads_check 1); [done|]. by apply (reads_step_Seek 1 [0] _ []), reads_ret. }
  cbv beta iota. eapply reads_bind; [apply reads_per_byte|]. cbv beta iota. cbn [Z.eqb negb].
  eapply reads_bind; [apply reads_per_byte|]. cbv beta iota. cbn [Z.eqb Pos.eqb negb].
  eapply reads_bind; [by apply (reads_per_octet_string h221_cs_key 4);
    [repeat constructor|..]|]. cbv beta iota.
  eapply reads_bind; [apply reads_per_length; zlia|]. cbv beta iota.
  apply reads_check; [lia|]. by apply reads_client_blocks.
Qed.

Lemma reads_response bl st st' :
  Forall block_ok bl → zlen (blocks_bytes bl) < 32768 →
  run_blocks server_block server_block_known bl st = Ret (Some st') →
  reads (gcc_read_conference_create_response server_block st)
    (response_bytes (blocks_bytes bl)) (Some st').
Proof.
  intros Hok Hl Hrun. unfold gcc_read_conference_create_response, response_bytes.
  eapply reads_bind; [apply reads_per_byte|]. cbv beta iota.
  eapply reads_bind; [by apply reads_per_oid|]. cbv beta iota.
  eapply reads_bind; [by apply reads_per_length|]. cbv beta iota.
  eapply reads_bind; [apply reads_per_byte|]. cbv beta iota.
  eapply (reads_bind _ _ _ _ (Some 0x79F3)).
  { apply reads_check; [done|]. apply reads_nil_r, reads_step_UINT16_BE; [done|]. apply reads_ret. }
  cbv beta iota. eapply reads_bind; [by apply reads_per_integer|]. cbv beta iota.
  eapply (reads_bind _ _ [0] _ (Some 0)).
  { apply reads_check; [done|]. apply reads_step_UINT8, reads_ret. }
  cbv beta iota. eapply reads_bind; [apply reads_per_byte|]. cbv beta iota.
  eapply reads_bind; [apply reads_per_byte|]. cbv beta iota.
  eapply reads_bind; [by apply (reads_per_octet_string h221_sc_key 4);
    [repeat constructor|..]|]. cbv beta iota.
  eapply reads_bind; [apply reads_per_length; zlia|]. cbv beta iota.
  apply reads_server_blocks; [done|unfold UINT16_MAX; lia|done].
Qed.
End loops.

Section writers_spec.
Context {HM : Malloc} (Hmalloc : ∀ z, malloc_ok z = true).

Lemma writes_numeric : writes (per_write_numeric_string [49] 1 1) [0; 16] 260 (Some tt).
Proof.
  unfold per_write_numeric_string. apply (writes_step _ 130 _ _ [0] [16] (Some tt)); [lia| |].
  { by apply (writes_per_length Hmalloc 0). }
  apply (writes_weaken _ (1 + 128)); [lia|]. apply writes_ensure; [done|lia|].
  cbn [ztake take Z.to_nat write_digits]. apply puts_cast; [by unfold UINT8_MAX|].
  apply puts_UINT8; [lia|done|]. apply puts_ret.
Qed.
Lemma writes_padding : writes (per_write_padding 1) [0] 129 (Some tt).
Proof.
  apply writes_ensure; [done|lia|]. apply (puts_Zero 1 1 _ []); [lia|]. apply puts_ret.
Qed.

Ltac wstep c := eapply (writes_step _ c); [lia| |].

Lemma writes_request ud :
  bytes ud → zlen ud + 14 < 32768 →
  writes (gcc_write_conference_create_request ud) (request_bytes ud) (4096 + zlen ud) (Some tt).
Proof.
  intros Hb Hl. pose proof (zlen_nonneg ud).
  unfold gcc_write_conference_create_request, request_bytes.
  wstep 129; [by apply writes_per_byte|]. wstep 134; [by apply writes_per_oid; [|repeat constructor|]|].
  apply writes_assert; [unfold UINT16_MAX; lia|]. wstep 130; [apply writes_per_length; [done|lia]|].
  wstep 129; [by apply writes_per_byte|]. wstep 129; [by apply writes_per_byte|].
  wstep 260; [apply writes_numeric|]. wstep 129; [apply writes_padding|].
  wstep 129; [by apply writes_per_byte|]. wstep 129; [by apply writes_per_byte|].
  wstep (258 + 4).
  { by apply (writes_per_octet_string Hmalloc h221_cs_key 4); [repeat constructor|..]. }
  apply writes_assert; [unfold UINT16_MAX; lia|].
  eapply writes_weaken; [|replace (zlen ud) with (zlen ud - 0) at 2 by lia;
    apply writes_per_octet_string; unfold UINT16_MAX; done || lia]. lia.
Qed.

Lemma writes_response ud :
  bytes ud → zlen ud < 32768 →
  writes (gcc_write_conference_create_response ud) (response_bytes ud) (4096 + zlen ud) (Some tt).
Proof.
  intros Hb Hl. pose proof (zlen_nonneg ud).
  unfold gcc_write_conference_create_response, response_bytes.
  wstep 129; [by apply writes_per_byte|]. wstep 134; [by apply writes_per_oid; [|repeat constructor|]|].
  wstep 130; [by apply writes_per_length|]. wstep 129; [by apply writes_per_byte|].
  wstep 130; [by apply writes_per_integer16|]. wstep 262; [by apply writes_per_integer|].
  wstep 129; [by apply writes_per_byte|]. wstep 129; [by apply writes_per_byte|].
  wstep 129; [by apply writes_per_byte|]. wstep (258 + 4).
  { by apply (writes_per_octet_string Hmalloc h221_sc_key 4); [repeat constructor|..]. }
  apply writes_assert; [unfold UINT16_MAX; lia|].
  eapply writes_weaken; [|replace (zlen ud) with (zlen ud - 0) at 2 by lia;
    apply writes_per_octet_string; unfold UINT16_MAX; done || lia]. lia.
Qed.
End writers_spec.

(** ** Hostile input *)

Lemma gcc_request_safe {St} (client_block : Z → list Z → St → outcome (option St)) clear st :
  (∀ t l st, ∃ r, client_block t l st = Ret r) →
  safe 0 (gcc_read_conference_create_request client_block clear st) (λ _, True).
Proof.
  intros Hc. unfold gcc_read_conference_create_request.
  safe_sub safe_per_byte. safe_sub safe_per_oid. safe_sub safe_per_length.
  safe_sub safe_per_byte. safe_sub safe_per_byte.
  safe_sub (safe_per_numeric_string 1 ltac:(lia)). safe_sub (safe_per_padding 1 ltac:(lia)).
  safe_sub safe_per_byte. safe_step; [by safe_step|].
  safe_sub safe_per_byte. safe_step; [by safe_step|].
  safe_sub (safe_per_octet_string h221_cs_key 4 4 ltac:(lia)). safe_sub safe_per_length.
  safe_step; [by safe_step|]. eapply safe_weaken; [|by apply safe_client_blocks]. lia.
Qed.
Lemma gcc_response_safe {St} (server_block : Z → list Z → St → outcome (option St)) st :
  (∀ t l st, ∃ r, server_block t l st = Ret r) →
  safe 0 (gcc_read_conference_create_response server_block st) (λ _, True).
Proof.
  intros Hs. unfold gcc_read_conference_create_response.
  safe_sub safe_per_byte. safe_sub safe_per_oid. safe_sub safe_per_length.
  safe_sub safe_per_byte. safe_sub (safe_per_integer16 1001 ltac:(by unfold UINT16_MAX)).
  safe_sub safe_per_integer. safe_sub (safe_per_enumerated MCS_Result_enum_length).
  safe_sub safe_per_byte. safe_sub safe_per_byte.
  safe_sub (safe_per_octet_string h221_sc_key 4 4 ltac:(lia)). safe_sub safe_per_length.
  by apply safe_server_blocks.
Qed.

(** * Properties *)

(** GCC conference create round trip: the user data blocks a client puts
    into a conference create request reach the handlers of the server, in
    order, unchanged and each with its own type, and those of a server reach
    the client in the response, for any handlers that accept them; the reader
    consumes exactly the PDU.  A request without a multitransport block clears
    the multitransport settings. *)
Theorem gcc_conference_roundtrip `{HM : Malloc} {St} (client_block server_block : Z → list Z → St → outcome (option St))
    clear bl st st1 st2 st3 :
  (∀ z, malloc_ok z = true) → Forall block_ok bl → zlen (blocks_bytes bl) + 14 < 32768 →
  run_blocks client_block client_block_known bl st = Ret (Some st1) →
  (if existsb (λ b, client_block_multitransport b.1) bl then Some st1 else clear st1) = Some st2 →
  run_blocks server_block server_block_known bl st = Ret (Some st3) →
  roundtrip (4096 + zlen (blocks_bytes bl))
    (gcc_write_conference_create_request (blocks_bytes bl))
    (gcc_read_conference_create_request client_block clear st) st2 ∧
  roundtrip (4096 + zlen (blocks_bytes bl))
    (gcc_write_conference_create_response (blocks_bytes bl))
    (gcc_read_conference_create_response server_block st) st3.
Proof.
  intros Hm Hok Hl Hrun Hst2 Hrun'.
  assert (bytes (blocks_bytes bl)) as Hb.
  { unfold blocks_bytes. apply Forall_concat, Forall_map. eapply Forall_impl; [|exact Hok].
    intros [t d] (_ & _ & Hd). unfold block_bytes. rewrite !Forall_app.
    split_and!; [apply write16_le_bytes..|done]. }
  split; eapply roundtrip_intro.
  - by apply writes_request.
  - rewrite <- Hst2. by apply reads_request.
  - apply writes_response; done || lia.
  - apply reads_response; done || lia.
Qed.

(** C23. The GCC readers on hostile input: whatever bytes arrive, the loops over
    the data blocks end and every read stays inside the data, for any handlers
    that return. *)
Theorem gcc_readers_safe {St} (client_block server_block : Z → list Z → St → outcome (option St))
    clear st :
  (∀ t l st, ∃ r, client_block t l st = Ret r) → (∀ t l st, ∃ r, server_block t l st = Ret r) →
  safe 0 (gcc_read_conference_create_request client_block clear st) (λ _, True) ∧
  safe 0 (gcc_read_conference_create_response server_block st) (λ _, True).
Proof.
  intros Hc Hs. split; [by apply gcc_request_safe|by apply gcc_response_safe].
Qed.

(** * Witnesses *)

(** A request and a response with two blocks, taken apart by handlers that
    collect them. *)
Definition collect (t : Z) (d : list Z) (st : list (Z * list Z)) : outcome (option (list (Z * list Z))) :=
  Ret (Some (st ++ [(t, d)])).

Lemma gcc_conference_roundtrip_witness :
  let HM : Malloc := λ _, true in
  let bl := [(CS_CORE, [1; 2; 3]); (CS_MULTITRANSPORT, [4])] in
  roundtrip (4096 + zlen (blocks_bytes bl)) (gcc_write_conference_create_request (blocks_bytes bl))
    (gcc_read_conference_create_request collect (λ _, None) []) bl ∧
  roundtrip (4096 + zlen (blocks_bytes bl)) (gcc_write_conference_create_response (blocks_bytes bl))
    (gcc_read_conference_create_response collect []) [].
Proof.
  intros HM bl. apply (gcc_conference_roundtrip collect collect (λ _, None) bl [] bl bl []);
    [done| |by vm_compute..].
  repeat apply Forall_cons_2; try done; (split; [by vm_compute|]);
    (split; [by vm_compute|by repeat constructor]).
Defined.

Lemma gcc_readers_safe_witness :
  safe 0 (gcc_read_conference_create_request collect (λ _, None) []) (λ _, True) ∧
  safe 0 (gcc_read_conference_create_response collect []) (λ _, True).
Proof. apply (gcc_readers_safe collect collect); intros; by eexists. Defined.
