(* ===== verification/Mcs.v ===== *)
(** The T.125 MCS layer (libfreerdp/core/mcs.c): the domain parameters and
    their negotiation, the connect-initial and connect-response PDUs in BER,
    and the domain PDUs in PER that erect the domain, attach the user, join the
    channels and disconnect.  A [mcs_send_*] function is modelled up to its
    call of [transport_write]: its result is the stream it passes to it. *)

From S2P Require Import Prelude Stream StreamLogic Transmission Per Ber Framing Gcc.
From stdpp Require Import prelude list numbers.
From Stdlib Require Import ZArith Lia.

#[local] Open Scope Z_scope.

Definition MCS_BASE_CHANNEL_ID : Z := 1001.
Definition MCS_GLOBAL_CHANNEL_ID : Z := 1003.
Definition MCS_TYPE_CONNECT_INITIAL : Z := 0x65.
Definition MCS_TYPE_CONNECT_RESPONSE : Z := 0x66.

Definition DomainMCSPDU_invalid : Z := -1.
Definition DomainMCSPDU_ErectDomainRequest : Z := 1.
Definition DomainMCSPDU_DisconnectProviderUltimatum : Z := 8.
Definition DomainMCSPDU_AttachUserRequest : Z := 10.
Definition DomainMCSPDU_AttachUserConfirm : Z := 11.
Definition DomainMCSPDU_ChannelJoinRequest : Z := 14.
Definition DomainMCSPDU_ChannelJoinConfirm : Z := 15.
Definition DomainMCSPDU_enum_length : Z := 43.

Record DomainParameters : Type := mkDomain {
  maxChannelIds : Z;
  maxUserIds : Z;
  maxTokenIds : Z;
  numPriorities : Z;
  minThroughput : Z;
  maxHeight : Z;
  maxMCSPDUsize : Z;
  protocolVersion : Z;
}.

(** The fields of [rdp_mcs] this layer reads and writes itself; [mcs_gcc] is
    the rest of the structure and the settings, on which the GCC handlers
    work. *)
Record rdpMcs (G : Type) : Type := mkMcs {
  mcs_userId : Z;
  mcs_baseChannelId : Z;
  mcs_domainParameters : DomainParameters;
  mcs_targetParameters : DomainParameters;
  mcs_minimumParameters : DomainParameters;
  mcs_maximumParameters : DomainParameters;
  mcs_gcc : G;
}.
Arguments mkMcs {G}.
Arguments mcs_userId {G}.
Arguments mcs_baseChannelId {G}.
Arguments mcs_domainParameters {G}.
Arguments mcs_targetParameters {G}.
Arguments mcs_minimumParameters {G}.
Arguments mcs_maximumParameters {G}.
Arguments mcs_gcc {G}.

Definition set_userId {G} (v : Z) (mcs : rdpMcs G) : rdpMcs G :=
  mkMcs v (mcs_baseChannelId mcs) (mcs_domainParameters mcs) (mcs_targetParameters mcs)
    (mcs_minimumParameters mcs) (mcs_maximumParameters mcs) (mcs_gcc mcs).

(** * Streams made on the way *)

(** [if (!f(...)) goto fail;] of a function that returns a size. *)
Definition nonzero (m : SM Z) : SM (option unit) := n ← m; if n =? 0 then FALSE else TRUE.

Section streams.
Context {HM : Malloc}.

(** A function that writes to a temporary stream of the capacity of [s]: what
    it wrote. *)
Definition with_tmps (m : SM (option unit)) : SM (option (list Z)) := λ s,
  match Stream_New None (st_capacity s) with
  | None => Ret (None, s)
  | Some tmps =>
      match m tmps with
      | Ret (Some _, tmps) => Ret (Some (ztake (st_pointer tmps) (st_buffer tmps)), s)
      | Ret (None, _) => Ret (None, s)
      | Abort => Abort
      end
  end.

(** * Headers *)

Definition mcs_write_domain_mcspdu_header (domainMCSPDU length options : Z) : SM (option unit) :=
  WINPR_ASSERT (Z.land options (Z.lnot 3) =? 0);;
  WINPR_ASSERT (Z.land domainMCSPDU (Z.lnot 0x3F) =? 0);;
  TRY tpkt_write_header length;
  TRY tpdu_write_data;
  per_write_choice (u8 (Z.lor (Z.shiftl domainMCSPDU 2) options)).

(** The TPKT length. *)
Definition mcs_read_domain_mcspdu_header (domainMCSPDU : Z) : SM (option Z) :=
  WINPR_ASSERT (negb (domainMCSPDU =? 0));;
  length ←? tpkt_read_header;
  li ←? tpdu_read_data length;
  choice ←? per_read_choice;
  let val := Z.shiftr choice 2 in
  let MCSPDU := if val >? DomainMCSPDU_enum_length then DomainMCSPDU_invalid else val in
  if negb (domainMCSPDU =? MCSPDU) then FALSE else mret (Some length).

(** * Domain parameters *)

Definition mcs_init_domain_parameters (maxChannelIds maxUserIds maxTokenIds maxMCSPDUsize : Z)
    : DomainParameters :=
  mkDomain maxChannelIds maxUserIds maxTokenIds 1 0 1 maxMCSPDUsize 2.

Definition mcs_read_domain_parameters : SM (option DomainParameters) :=
  length ←? ber_read_sequence_tag;
  maxChannelIds ←? ber_read_integer;
  maxUserIds ←? ber_read_integer;
  maxTokenIds ←? ber_read_integer;
  numPriorities ←? ber_read_integer;
  minThroughput ←? ber_read_integer;
  maxHeight ←? ber_read_integer;
  maxMCSPDUsize ←? ber_read_integer;
  protocolVersion ←? ber_read_integer;
  mret (Some (mkDomain maxChannelIds maxUserIds maxTokenIds numPriorities minThroughput
                maxHeight maxMCSPDUsize protocolVersion)).

Definition mcs_write_domain_parameters (dp : DomainParameters) : SM (option unit) :=
  content ←? with_tmps (
    TRY nonzero (ber_write_integer (maxChannelIds dp));
    TRY nonzero (ber_write_integer (maxUserIds dp));
    TRY nonzero (ber_write_integer (maxTokenIds dp));
    TRY nonzero (ber_write_integer (numPriorities dp));
    TRY nonzero (ber_write_integer (minThroughput dp));
    TRY nonzero (ber_write_integer (maxHeight dp));
    TRY nonzero (ber_write_integer (maxMCSPDUsize dp));
    TRY nonzero (ber_write_integer (protocolVersion dp));
    TRUE);
  TRY nonzero (ber_write_sequence_tag (zlen content));
  Stream_Write content;;
  TRUE.

Definition mcs_merge_domain_parameters (target minimum maximum : DomainParameters)
    : option DomainParameters :=
  channelIds ← (if maxChannelIds target >=? 4 then Some (maxChannelIds target)
                else if maxChannelIds maximum >=? 4 then Some 4 else None);
  userIds ← (if maxUserIds target >=? 3 then Some (maxUserIds target)
             else if maxUserIds maximum >=? 3 then Some 3 else None);
  priorities ← (if numPriorities minimum <=? 1 then Some 1 else None);
  height ← (if (maxHeight target =? 1) || (maxHeight minimum <=? 1) then Some 1 else None);
  size ← (if maxMCSPDUsize target >=? 1024 then
            if maxMCSPDUsize target <=? 65528 then Some (maxMCSPDUsize target)
            else if (maxMCSPDUsize minimum >=? 124) && (maxMCSPDUsize minimum <=? 65528)
            then Some 65528 else None
          else if maxMCSPDUsize maximum >=? 124 then Some (maxMCSPDUsize maximum) else None);
  version ← (if (protocolVersion target =? 2)
                || ((protocolVersion minimum <=? 2) && (protocolVersion maximum >=? 2))
             then Some 2 else None);
  Some (mkDomain channelIds userIds (maxTokenIds target) priorities (minThroughput target)
          height size version).
End streams.

Section mcs.
Context {HM : Malloc} {G : Type}.
(** The data blocks of gcc.c: what [gcc_read_client_*_data] and
    [gcc_read_server_*_data] do with a block, and the bytes
    [gcc_write_client_data_blocks] and [gcc_write_server_data_blocks] put into
    their stream. *)
Context (client_block server_block : Z → list Z → rdpMcs G → outcome (option (rdpMcs G))).
Context (clear_multitransport : rdpMcs G → option (rdpMcs G)).
Context (client_data server_data : rdpMcs G → option (list Z)).

(** * Connecting *)

Definition callingDomainSelector : list Z := [1].
Definition calledDomainSelector : list Z := [1].

Definition mcs_write_connect_initial (mcs : rdpMcs G) (userData : list Z) : SM (option unit) :=
  content ←? with_tmps (
    TRY nonzero (ber_write_octet_string callingDomainSelector);
    TRY nonzero (ber_write_octet_string calledDomainSelector);
    ber_write_BOOL true;;
    TRY mcs_write_domain_parameters (mcs_targetParameters mcs);
    TRY mcs_write_domain_parameters (mcs_minimumParameters mcs);
    TRY mcs_write_domain_parameters (mcs_maximumParameters mcs);
    TRY nonzero (ber_write_octet_string userData);
    TRUE);
  ber_write_application_tag MCS_TYPE_CONNECT_INITIAL (zlen content);;
  Stream_Write content;;
  TRUE.

Definition mcs_write_connect_response (mcs : rdpMcs G) (userData : list Z) : SM (option unit) :=
  content ←? with_tmps (
    ber_write_enumerated 0 MCS_Result_enum_length;;
    TRY nonzero (ber_write_integer 0);
    TRY mcs_write_domain_parameters (mcs_domainParameters mcs);
    TRY nonzero (ber_write_octet_string userData);
    TRUE);
  ber_write_application_tag MCS_TYPE_CONNECT_RESPONSE (zlen content);;
  Stream_Write content;;
  TRUE.

(** The common end of the two senders: the PDU behind room for its headers,
    which are filled in when its length is known. *)
Definition mcs_frame_pdu (write_pdu : SM (option unit)) : SM (option unit) :=
  bm ← Stream_GetPosition;
  Stream_Seek 7;;
  TRY write_pdu;
  em ← Stream_GetPosition;
  let length := u64 (em - bm) in
  if length >? UINT16_MAX then FALSE
  else
    TRY Stream_SetPosition bm;
    TRY tpkt_write_header (u16 length);
    TRY tpdu_write_data;
    TRY Stream_SetPosition em;
    Stream_SealLength;;
    TRUE.

(** The stream passed to [transport_write]. *)
Definition mcs_send_connect_initial (mcs : rdpMcs G) : outcome (option wStream) :=
  match client_data mcs with
  | None => Ret None
  | Some blocks =>
      ccrq ← on_new_stream 1024 (gcc_write_conference_create_request blocks);
      match ccrq with
      | None => Ret None
      | Some gcc_CCrq =>
          let length := st_pointer gcc_CCrq + 7 in
          on_new_stream (1024 + length)
            (mcs_frame_pdu (mcs_write_connect_initial mcs
               (ztake (st_pointer gcc_CCrq) (st_buffer gcc_CCrq))))
      end
  end.

(** [cap] is the capacity of the stream of the data blocks. *)
Definition mcs_send_connect_response (cap : Z) (mcs : rdpMcs G) : outcome (option wStream) :=
  match server_data mcs with
  | None => Ret None
  | Some blocks =>
      ccrsp ← on_new_stream (512 + cap) (gcc_write_conference_create_response blocks);
      match ccrsp with
      | None => Ret None
      | Some gcc_CCrsp =>
          let length := st_pointer gcc_CCrsp + 7 in
          on_new_stream (length + 1024)
            (mcs_frame_pdu (mcs_write_connect_response mcs
               (ztake (st_pointer gcc_CCrsp) (st_buffer gcc_CCrsp))))
      end
  end.

(** A [BOOL] that ends a function. *)
Definition then_some {A} (m : SM (option unit)) (a : A) : SM (option A) :=
  TRY m; mret (Some a).

Definition mcs_recv_connect_initial (mcs : rdpMcs G) : SM (option (rdpMcs G)) :=
  tlength ←? tpkt_read_header;
  li ←? tpdu_read_data tlength;
  length ←? ber_read_application_tag MCS_TYPE_CONNECT_INITIAL;
  length ←? ber_read_octet_string_tag;
  TRY Stream_CheckAndLogRequiredLength length;
  Stream_Seek length;;
  length ←? ber_read_octet_string_tag;
  TRY Stream_CheckAndLogRequiredLength length;
  Stream_Seek length;;
  upwardFlag ←? ber_read_BOOL;
  target ←? mcs_read_domain_parameters;
  minimum ←? mcs_read_domain_parameters;
  maximum ←? mcs_read_domain_parameters;
  length ←? ber_read_octet_string_tag;
  TRY Stream_CheckAndLogRequiredLength length;
  let mcs := mkMcs (mcs_userId mcs) (mcs_baseChannelId mcs) (mcs_domainParameters mcs)
               target minimum maximum (mcs_gcc mcs) in
  mcs ←? gcc_read_conference_create_request client_block clear_multitransport mcs;
  match mcs_merge_domain_parameters (mcs_targetParameters mcs) (mcs_minimumParameters mcs)
          (mcs_maximumParameters mcs) with
  | None => FALSE
  | Some dp =>
      then_some (tpkt_ensure_stream_consumed tlength)
        (mkMcs (mcs_userId mcs) (mcs_baseChannelId mcs) dp (mcs_targetParameters mcs)
           (mcs_minimumParameters mcs) (mcs_maximumParameters mcs) (mcs_gcc mcs))
  end.

Definition mcs_recv_connect_response (mcs : rdpMcs G) : SM (option (rdpMcs G)) :=
  tlength ←? tpkt_read_header;
  li ←? tpdu_read_data tlength;
  length ←? ber_read_application_tag MCS_TYPE_CONNECT_RESPONSE;
  result ←? ber_read_enumerated MCS_Result_enum_length;
  calledConnectId ←? ber_read_integer;
  dp ←? mcs_read_domain_parameters;
  length ←? ber_read_octet_string_tag;
  let mcs := mkMcs (mcs_userId mcs) (mcs_baseChannelId mcs) dp (mcs_targetParameters mcs)
               (mcs_minimumParameters mcs) (mcs_maximumParameters mcs) (mcs_gcc mcs) in
  mcs ←? gcc_read_conference_create_response server_block mcs;
  then_some (tpkt_ensure_stream_consumed tlength) mcs.

(** * Domain PDUs *)

Definition mcs_send_erect_domain_request : outcome (option wStream) :=
  on_new_stream 12 (
    TRY mcs_write_domain_mcspdu_header DomainMCSPDU_ErectDomainRequest 12 0;
    TRY per_write_integer 0;
    TRY per_write_integer 0;
    Stream_SealLength;; TRUE).

Definition mcs_recv_erect_domain_request : SM (option unit) :=
  length ←? mcs_read_domain_mcspdu_header DomainMCSPDU_ErectDomainRequest;
  subHeight ←? per_read_integer;
  subInterval ←? per_read_integer;
  tpkt_ensure_stream_consumed length.

Definition mcs_send_attach_user_request : outcome (option wStream) :=
  on_new_stream 8 (
    TRY mcs_write_domain_mcspdu_header DomainMCSPDU_AttachUserRequest 8 0;
    Stream_SealLength;; TRUE).

Definition mcs_recv_attach_user_request : SM (option unit) :=
  length ←? mcs_read_domain_mcspdu_header DomainMCSPDU_AttachUserRequest;
  tpkt_ensure_stream_consumed length.

(** The server takes the next channel id for the user. *)
Definition mcs_send_attach_user_confirm (mcs : rdpMcs G) : outcome (option wStream * rdpMcs G) :=
  match Stream_New None 11 with
  | None => Ret (None, mcs)
  | Some _ =>
      let userId := mcs_baseChannelId mcs in
      let mcs := mkMcs userId (u16 (mcs_baseChannelId mcs + 1)) (mcs_domainParameters mcs)
                   (mcs_targetParameters mcs) (mcs_minimumParameters mcs)
                   (mcs_maximumParameters mcs) (mcs_gcc mcs) in
      s ← on_new_stream 11 (
        TRY mcs_write_domain_mcspdu_header DomainMCSPDU_AttachUserConfirm 11 2;
        TRY per_write_enumerated 0 MCS_Result_enum_length;
        TRY per_write_integer16 userId MCS_BASE_CHANNEL_ID;
        Stream_SealLength;; TRUE);
      Ret (s, mcs)
  end.

Definition mcs_recv_attach_user_confirm (mcs : rdpMcs G) : SM (option (rdpMcs G)) :=
  length ←? mcs_read_domain_mcspdu_header DomainMCSPDU_AttachUserConfirm;
  result ←? per_read_enumerated MCS_Result_enum_length;
  userId ←? per_read_integer16 MCS_BASE_CHANNEL_ID;
  then_some (tpkt_ensure_stream_consumed length) (set_userId userId mcs).

Definition mcs_send_channel_join_request (mcs : rdpMcs G) (channelId : Z) : outcome (option wStream) :=
  on_new_stream 12 (
    TRY mcs_write_domain_mcspdu_header DomainMCSPDU_ChannelJoinRequest 12 0;
    TRY per_write_integer16 (mcs_userId mcs) MCS_BASE_CHANNEL_ID;
    TRY per_write_integer16 channelId 0;
    Stream_SealLength;; TRUE).

(** [replay] is the setting [FreeRDP_TransportDumpReplay].  The channel id,
    and the state. *)
Definition mcs_recv_channel_join_request (replay : bool) (mcs : rdpMcs G)
    : SM (option (Z * rdpMcs G)) :=
  length ←? mcs_read_domain_mcspdu_header DomainMCSPDU_ChannelJoinRequest;
  userId ←? per_read_integer16 MCS_BASE_CHANNEL_ID;
  if negb (userId =? mcs_userId mcs) && negb replay then FALSE
  else
    channelId ←? per_read_integer16 0;
    then_some (tpkt_ensure_stream_consumed length) (channelId, set_userId userId mcs).

Definition mcs_send_channel_join_confirm (mcs : rdpMcs G) (channelId : Z) : outcome (option wStream) :=
  on_new_stream 15 (
    TRY mcs_write_domain_mcspdu_header DomainMCSPDU_ChannelJoinConfirm 15 2;
    TRY per_write_enumerated 0 MCS_Result_enum_length;
    TRY per_write_integer16 (mcs_userId mcs) MCS_BASE_CHANNEL_ID;
    TRY per_write_integer16 channelId 0;
    TRY per_write_integer16 channelId 0;
    Stream_SealLength;; TRUE).

Definition mcs_recv_channel_join_confirm : SM (option Z) :=
  length ←? mcs_read_domain_mcspdu_header DomainMCSPDU_ChannelJoinConfirm;
  result ←? per_read_enumerated MCS_Result_enum_length;
  initiator ←? per_read_integer16 MCS_BASE_CHANNEL_ID;
  requested ←? per_read_integer16 0;
  channelId ←? per_read_integer16 0;
  then_some (tpkt_ensure_stream_consumed length) channelId.

Definition mcs_send_disconnect_provider_ultimatum (reason : Z) : outcome (option wStream) :=
  on_new_stream 9 (
    TRY mcs_write_domain_mcspdu_header DomainMCSPDU_DisconnectProviderUltimatum 9 1;
    reason ← WINPR_ASSERTING_INT_CAST UINT8_MAX reason;
    per_write_enumerated 0x80 reason).

(** Called behind the first byte of the PDU. *)
Definition mcs_recv_disconnect_provider_ultimatum : SM (option Z) :=
  TRY Stream_CheckAndLogRequiredLength 1;
  Stream_Rewind 1;;
  b1 ← Stream_Read_UINT8;
  b2 ← Stream_Read_UINT8;
  mret (Some (Z.lor (Z.shiftl (Z.land b1 1) 1) (Z.shiftr b2 7))).

(** The allocations succeed. *)
Definition mcs_new (g : G) : rdpMcs G :=
  mkMcs 0 (MCS_GLOBAL_CHANNEL_ID + 1) (mcs_init_domain_parameters 0 0 0 0xFFFF)
    (mcs_init_domain_parameters 34 2 0 0xFFFF) (mcs_init_domain_parameters 1 1 1 0x420)
    (mcs_init_domain_parameters 0xFFFF 0xFC17 0xFFFF 0xFFFF) g.
End mcs.

(** * Lemmas *)

(** ** Headers *)

Definition header_bytes (length choice : Z) : list Z :=
  ([3; 0] ++ winpr_Data_Write_UINT16_BE length) ++ [2; 240; 128] ++ [choice].

Lemma parses_tpkt_header {B} len (k : option Z → SM B) body b :
  7 <= len <= UINT16_MAX → len - 4 <= zlen body → parses (k (Some len)) body b →
  parses (x ← tpkt_read_header; k x) (([3; 0] ++ winpr_Data_Write_UINT16_BE len) ++ body) b.
Proof.
  intros Hl Hb Hk s Hs Hr.
  destruct (remaining_app _ _ _ Hs Hr) as (_ & Hs' & Hr').
  change (zlen ([3; 0] ++ winpr_Data_Write_UINT16_BE len)) with 4 in *.
  assert (tpkt_read_header s = Ret (Some len, adv 4 s)) as Ht.
  { rewrite tpkt_read_header_is_spec, Hr by done. rewrite <- app_assoc.
    rewrite tpkt_spec_frame by done. done. }
  erewrite bind_Ret by exact Ht. rewrite (Hk _ Hs' Hr'), adv_adv, (zlen_app _ body). done.
Qed.

Lemma parses_consumed len : len <= UINT16_MAX → parses (tpkt_ensure_stream_consumed len) [] (Some tt).
Proof.
  intros Hl s Hs Hr. unfold tpkt_ensure_stream_consumed.
  replace (len >? UINT16_MAX) with false by lia.
  erewrite bind_Ret by by apply run_GetRemainingLength.
  rewrite <- zlen_remaining, Hr by done. by rewrite adv_0.
Qed.

Lemma puts_tpkt_tpdu n length :
  7 <= n → 0 <= length <= UINT16_MAX →
  puts n (TRY tpkt_write_header length; tpdu_write_data)
    (([3; 0] ++ winpr_Data_Write_UINT16_BE length) ++ [2; 240; 128]) (Some tt).
Proof.
  intros Hn Hl. eapply (puts_bind _ 4); [lia|by apply puts_tpkt_header; lia|].
  change (zlen ([3; 0] ++ _)) with 4. by apply (puts_tpdu_header _ 2 240); [change (zlen (tpdu_tail 240)) with 1; lia|..].
Qed.

Section domain_pdus.
Context {HM : Malloc} (Hmalloc : ∀ z, malloc_ok z = true).

Lemma emits_domain_header pdu length options :
  (Z.land options (Z.lnot 3) =? 0) = true → (Z.land pdu (Z.lnot 0x3F) =? 0) = true →
  0 <= length <= UINT16_MAX →
  emits 7 (mcs_write_domain_mcspdu_header pdu length options)
    (header_bytes length (u8 (Z.lor (Z.shiftl pdu 2) options))) 129 (Some tt).
Proof.
  intros Ho Hp Hl. unfold mcs_write_domain_mcspdu_header, header_bytes.
  apply emits_assert; [done|]. apply emits_assert; [done|].
  eapply (emits_step _ 4); [lia|by apply puts_tpkt_header|]. cbv beta iota.
  change (zlen ([3; 0] ++ _)) with 4.
  eapply (emits_step _ 3); [lia|by apply (puts_tpdu_header _ 2 240)|]. cbv beta iota.
  apply emits_writes, writes_per_byte; [done|]. unfold is_byte, u8. div_mod_lia.
Qed.

Lemma parses_domain_header {B} pdu len choice (k : option Z → SM B) body b :
  negb (pdu =? 0) = true → Z.shiftr choice 2 = pdu → pdu <= 43 →
  len = 8 + zlen body → len <= UINT16_MAX →
  parses (k (Some len)) body b →
  parses (x ← mcs_read_domain_mcspdu_header pdu; k x) (header_bytes len choice ++ body) b.
Proof.
  intros Hp Hc Hm Hl Hmax Hk s Hs Hr. unfold header_bytes in Hr.
  rewrite <- (app_assoc (_ ++ _)) in Hr.
  destruct (remaining_app _ _ _ Hs Hr) as (_ & Hs1 & Hr1).
  rewrite <- app_assoc in Hr1.
  destruct (remaining_app _ _ _ Hs1 Hr1) as (_ & Hs2 & Hr2).
  destruct (remaining_app _ _ _ Hs2 Hr2) as (_ & Hs3 & Hr3).
  erewrite bind_Ret.
  1:{ rewrite (Hk _ Hs3 Hr3), !adv_adv. unfold header_bytes. by rewrite !zlen_app, !Z.add_assoc. }
  unfold mcs_read_domain_mcspdu_header. rewrite assert_bind by done.
  erewrite bind_Ret.
  2:{ rewrite tpkt_read_header_is_spec, Hr by done. rewrite <- !app_assoc.
      rewrite tpkt_spec_frame by (rewrite ?zlen_app; change (zlen [2; 240; 128]) with 3;
        change (zlen [choice]) with 1; zlia). done. }
  cbn [fst snd]. change (adv 4 s) with (adv (zlen ([3; 0] ++ winpr_Data_Write_UINT16_BE len)) s).
  erewrite bind_Ret by (apply (reads_tpdu_code len 2 240 ltac:(zlia) _ _ Hs1 Hr1)). cbv beta iota.
  erewrite bind_Ret by (apply (reads_per_byte choice _ _ Hs2 Hr2)). cbv beta iota zeta.
  rewrite Hc. unfold DomainMCSPDU_enum_length. replace (pdu >? 43) with false by lia.
  by rewrite Z.eqb_refl.
Qed.

Lemma parses_then_some {A} (a : A) len :
  len <= UINT16_MAX → parses (then_some (tpkt_ensure_stream_consumed len) a) [] (Some a).
Proof.
  intros Hl s Hs Hr. unfold then_some. erewrite bind_Ret by by apply parses_consumed.
  done.
Qed.

Lemma reads_integer16 v min :
  0 <= min <= v → v <= UINT16_MAX →
  reads (per_read_integer16 min) (winpr_Data_Write_UINT16_BE (v - min)) (Some v).
Proof.
  intros. unfold per_read_integer16, UINT16_MAX in *. apply reads_check; [done|].
  apply reads_nil_r, reads_step_UINT16_BE; [unfold UINT16_MAX; lia|].
  unfold u16, UINT16_MAX. replace (_ >? _) with false by lia.
  rewrite Z.mod_small by lia. replace (v - min + min) with v by lia. apply reads_ret.
Qed.

Lemma reads_enumerated16 : reads (per_read_enumerated MCS_Result_enum_length) [0] (Some 0).
Proof. apply reads_check; [done|]. apply reads_step_UINT8, reads_ret. Qed.

Lemma emits_fields n c c1 m bs1 bs (k : SM (option unit)) :
  c1 <= c → writes m bs1 c1 (Some tt) → emits (n - zlen bs1) k bs (c - c1) (Some tt) →
  emits n (TRY m; k) (bs1 ++ bs) c (Some tt).
Proof. intros. apply (emits_bind n n c c1 _ _ _ _ (Some tt)); [done..|by apply emits_writes|done]. Qed.
Lemma emits_weaken {A} n n' c (m : SM A) bs a : n' <= n → emits n' m bs c a → emits n m bs c a.
Proof. intros ? Hm s ???. apply Hm; [done| |done]. unfold fits in *. lia. Qed.

(** A domain PDU: its header and its fields. *)
Lemma delivers_domain_pdu {A} pdu len options fields bs (r : option Z → SM (option A)) a :
  let choice := u8 (Z.lor (Z.shiftl pdu 2) options) in
  (Z.land options (Z.lnot 3) =? 0) = true → (Z.land pdu (Z.lnot 0x3F) =? 0) = true →
  negb (pdu =? 0) = true → Z.shiftr choice 2 = pdu → pdu <= 43 →
  len = 8 + zlen bs → len <= UINT16_MAX →
  emits (-1) fields bs 65536 (Some tt) → parses (r (Some len)) bs (Some a) →
  delivers (on_new_stream len (TRY mcs_write_domain_mcspdu_header pdu len options; fields))
    (x ← mcs_read_domain_mcspdu_header pdu; r x) a.
Proof.
  intros choice Ho Hp Hz Hc Hm Hl Hmax Hw Hr. pose proof (zlen_nonneg bs).
  apply (delivers_intro Hmalloc len 7 65665 _ (header_bytes len choice ++ bs));
    [lia|unfold UINT16_MAX, SIZE_MAX in *; lia|lia|lia| |].
  - eapply (emits_bind _ 7 _ 129); [lia|lia|by apply emits_domain_header; [..|lia]|].
    change (zlen (header_bytes _ _)) with 8. done.
  - by apply parses_domain_header.
Qed.

Ltac field c := eapply (emits_fields _ _ c); [lia| |].

Lemma delivers_erect_domain :
  delivers mcs_send_erect_domain_request mcs_recv_erect_domain_request tt.
Proof.
  apply (delivers_domain_pdu 1 12 0 _ ([1; 0] ++ [1; 0] ++ [])); try done.
  - field 262; [by apply (writes_per_integer Hmalloc 0)|].
    field 262; [by apply (writes_per_integer Hmalloc 0)|]. by apply emits_seal.
  - eapply parses_bind; [by apply (reads_per_integer 0)|]. cbv beta iota.
    eapply parses_bind; [by apply (reads_per_integer 0)|]. by apply parses_consumed.
Qed.

Lemma delivers_attach_request :
  delivers mcs_send_attach_user_request mcs_recv_attach_user_request tt.
Proof.
  apply (delivers_domain_pdu 10 8 0 _ []); try done; [by apply emits_seal|by apply parses_consumed].
Qed.

Context {G : Type}.
Implicit Types (mcs server client : rdpMcs G).

Lemma delivers_join_request server client channelId :
  1001 <= mcs_userId client <= UINT16_MAX → mcs_userId server = mcs_userId client →
  0 <= channelId <= UINT16_MAX →
  delivers (mcs_send_channel_join_request client channelId)
    (mcs_recv_channel_join_request false server) (channelId, server).
Proof.
  intros Hu Hs Hc.
  apply (delivers_domain_pdu 14 12 0 _ (winpr_Data_Write_UINT16_BE (mcs_userId client - 1001) ++
    winpr_Data_Write_UINT16_BE (channelId - 0) ++ [])); try done.
  - field 130; [apply (writes_per_integer16 Hmalloc); lia|].
    field 130; [apply (writes_per_integer16 Hmalloc); lia|]. by apply emits_seal.
  - eapply parses_bind; [apply reads_integer16; lia|]. cbv beta iota.
    rewrite Hs, Z.eqb_refl. cbn [negb andb].
    eapply parses_bind; [apply reads_integer16; lia|]. cbv beta iota.
    replace (set_userId (mcs_userId client) server) with server
      by (rewrite <- Hs; by destruct server).
    by apply parses_then_some.
Qed.

Lemma delivers_join_confirm mcs channelId :
  1001 <= mcs_userId mcs <= UINT16_MAX → 0 <= channelId <= UINT16_MAX →
  delivers (mcs_send_channel_join_confirm mcs channelId) mcs_recv_channel_join_confirm channelId.
Proof.
  intros Hu Hc.
  apply (delivers_domain_pdu 15 15 2 _ ([0] ++ winpr_Data_Write_UINT16_BE (mcs_userId mcs - 1001)
    ++ winpr_Data_Write_UINT16_BE (channelId - 0) ++ winpr_Data_Write_UINT16_BE (channelId - 0)
    ++ [])); try done.
  - field 129; [by apply (writes_per_byte Hmalloc)|].
    do 3 (field 130; [apply (writes_per_integer16 Hmalloc); lia|]). by apply emits_seal.
  - eapply parses_bind; [apply reads_enumerated16|]. cbv beta iota.
    do 3 (eapply parses_bind; [apply reads_integer16; lia|]; cbv beta iota).
    by apply parses_then_some.
Qed.

Lemma delivers_attach_confirm server client :
  1001 <= mcs_baseChannelId server <= UINT16_MAX →
  ∃ sent server', mcs_send_attach_user_confirm server = Ret (sent, server') ∧
    mcs_userId server' = mcs_baseChannelId server ∧
    mcs_baseChannelId server' = u16 (mcs_baseChannelId server + 1) ∧
    delivers (Ret sent) (mcs_recv_attach_user_confirm client)
      (set_userId (mcs_baseChannelId server) client).
Proof.
  intros Hb. unfold mcs_send_attach_user_confirm.
  destruct (new_stream_spec Hmalloc 11) as (s0 & -> & _); [by unfold SIZE_MAX|].
  set (body := TRY mcs_write_domain_mcspdu_header DomainMCSPDU_AttachUserConfirm 11 2; _).
  assert (delivers (on_new_stream 11 body) (mcs_recv_attach_user_confirm client)
    (set_userId (mcs_baseChannelId server) client)) as Hd.
  { apply (delivers_domain_pdu 11 11 2 _ ([0] ++
      winpr_Data_Write_UINT16_BE (mcs_baseChannelId server - 1001) ++ [])); try done.
    - field 129; [by apply (writes_per_byte Hmalloc)|].
      field 130; [apply (writes_per_integer16 Hmalloc); lia|]. by apply emits_seal.
    - eapply parses_bind; [apply reads_enumerated16|]. cbv beta iota.
      eapply parses_bind; [apply reads_integer16; lia|]. by apply parses_then_some. }
  destruct (on_new_stream 11 body) as [sent|]; [|done].
  eexists _, _. by split_and!; cbn.
Qed.
End domain_pdus.

(** ** The channel connection sequence *)

Section session.
Context {HM : Malloc} {G : Type}.

(** The client joins the channels one by one, each join confirmed by the
    server: the ids confirmed. *)
Fixpoint join_channels (server client : rdpMcs G) (channels : list Z)
    : outcome (option (rdpMcs G * list Z)) :=
  match channels with
  | [] => Ret (Some (server, []))
  | channelId :: channels =>
      r ← transmit (mcs_send_channel_join_request client channelId)
            (mcs_recv_channel_join_request false server);
      match r with
      | None => Ret None
      | Some (channelId, server) =>
          r ← transmit (mcs_send_channel_join_confirm server channelId)
                mcs_recv_channel_join_confirm;
          match r with
          | None => Ret None
          | Some confirmed =>
              r ← join_channels server client channels;
              match r with
              | None => Ret None
              | Some (server, ids) => Ret (Some (server, confirmed :: ids))
              end
          end
      end
  end.

(** Erect the domain, attach the user, join the channels. *)
Definition channel_connection (server client : rdpMcs G) (channels : list Z)
    : outcome (option (rdpMcs G * rdpMcs G * list Z)) :=
  r ← transmit mcs_send_erect_domain_request mcs_recv_erect_domain_request;
  match r with
  | None => Ret None
  | Some _ =>
      r ← transmit mcs_send_attach_user_request mcs_recv_attach_user_request;
      match r with
      | None => Ret None
      | Some _ =>
          '(sent, server) ← mcs_send_attach_user_confirm server;
          r ← transmit (Ret sent) (mcs_recv_attach_user_confirm client);
          match r with
          | None => Ret None
          | Some client =>
              r ← join_channels server client channels;
              match r with
              | None => Ret None
              | Some (server, ids) => Ret (Some (server, client, ids))
              end
          end
      end
  end.

Lemma join_channels_spec server client channels :
  (∀ z, malloc_ok z = true) →
  1001 <= mcs_userId client <= UINT16_MAX → mcs_userId server = mcs_userId client →
  Forall (λ c, 0 <= c <= UINT16_MAX) channels →
  join_channels server client channels = Ret (Some (server, channels)).
Proof.
  intros Hm Hu Hs. induction 1 as [|c channels Hc Hcs IH]; [done|]. cbn [join_channels].
  rewrite (delivers_join_request Hm server client c) by done. cbn [mbind outcome_bind].
  rewrite (delivers_join_confirm Hm server c) by (done || by rewrite Hs).
  cbn [mbind outcome_bind]. rewrite IH. done.
Qed.
End session.

(** ** Domain parameters *)

(** What [ber_write_integer] can write. *)
Definition int_ok (v : Z) : Prop := 0 <= v < 65536 ∨ 8388608 <= v <= UINT32_MAX.
Definition dp_fields (dp : DomainParameters) : list Z :=
  [maxChannelIds dp; maxUserIds dp; maxTokenIds dp; numPriorities dp; minThroughput dp;
   maxHeight dp; maxMCSPDUsize dp; protocolVersion dp].
Definition dp_ok (dp : DomainParameters) : Prop := Forall int_ok (dp_fields dp).
Definition dp_body (dp : DomainParameters) : list Z := concat (map ber_integer_bytes (dp_fields dp)).
Definition dp_bytes (dp : DomainParameters) : list Z :=
  (48 :: ber_length_bytes (zlen (dp_body dp))) ++ dp_body dp.

Lemma integer_size v : 3 <= zlen (ber_integer_bytes v) <= 6.
Proof. rewrite ber_integer_bytes_size. unfold ber_sizeof_integer. repeat case_match; lia. Qed.
Lemma int_ok_range v : int_ok v → 0 <= v <= UINT32_MAX.
Proof. unfold int_ok, UINT32_MAX. lia. Qed.
Lemma dp_ok_inv dp : dp_ok dp →
  int_ok (maxChannelIds dp) ∧ int_ok (maxUserIds dp) ∧ int_ok (maxTokenIds dp) ∧
  int_ok (numPriorities dp) ∧ int_ok (minThroughput dp) ∧ int_ok (maxHeight dp) ∧
  int_ok (maxMCSPDUsize dp) ∧ int_ok (protocolVersion dp).
Proof.
  unfold dp_ok, dp_fields. intros H.
  repeat (apply Forall_cons_1 in H as [? H]). by split_and!.
Qed.
Lemma dp_body_size dp : 16 <= zlen (dp_body dp) <= 48.
Proof.
  unfold dp_body, dp_fields. cbn [map concat]. rewrite !zlen_app. change (zlen []) with 0.
  pose proof (integer_size (maxChannelIds dp)). pose proof (integer_size (maxUserIds dp)).
  pose proof (integer_size (maxTokenIds dp)). pose proof (integer_size (numPriorities dp)).
  pose proof (integer_size (minThroughput dp)). pose proof (integer_size (maxHeight dp)).
  pose proof (integer_size (maxMCSPDUsize dp)). pose proof (integer_size (protocolVersion dp)).
  lia.
Qed.
Lemma dp_bytes_size dp : zlen (dp_bytes dp) = 2 + zlen (dp_body dp).
Proof.
  pose proof (dp_body_size dp). unfold dp_bytes, ber_length_bytes.
  replace (_ >? 255) with false by lia. replace (_ >? 127) with false by lia. zlia.
Qed.

Lemma puts_is_nonzero n m bs size :
  size ≠ 0 → puts n m bs size → puts n (nonzero m) bs (Some tt).
Proof.
  intros Hs Hm. apply puts_nil_r. eapply puts_bind; [apply Z.le_refl|done|].
  replace (size =? 0) with false by lia. apply puts_ret.
Qed.
Lemma puts_nonzero {B} n n1 m bs1 size (k : option unit → SM B) bs b :
  size ≠ 0 → n1 <= n → puts n1 m bs1 size → puts (n - zlen bs1) (k (Some tt)) bs b →
  puts n (x ← nonzero m; k x) (bs1 ++ bs) b.
Proof.
  intros Hs Hn Hm Hk. eapply (puts_bind n n1); [done|by eapply puts_is_nonzero|done].
Qed.
Lemma puts_int {B} n v (k : option unit → SM B) bs b :
  int_ok v → 6 <= n → puts (n - 6) (k (Some tt)) bs b →
  puts n (x ← nonzero (ber_write_integer v); k x) (ber_integer_bytes v ++ bs) b.
Proof.
  intros Hv Hn Hk.
  pose proof (integer_size v) as Hi. rewrite ber_integer_bytes_size in Hi.
  eapply puts_nonzero; [|apply Hn|apply puts_ber_integer; [exact Hv|lia]|].
  { lia. } eapply puts_weaken; [|exact Hk]. rewrite ber_integer_bytes_size. lia.
Qed.

Lemma reads_domain_parameters dp :
  dp_ok dp → reads mcs_read_domain_parameters (dp_bytes dp) (Some dp).
Proof.
  intros Hdp. pose proof (dp_body_size dp). unfold mcs_read_domain_parameters, dp_bytes.
  eapply reads_bind; [apply reads_sequence_tag; unfold UINT16_MAX; lia|]. cbv beta iota.
  apply dp_ok_inv in Hdp as (?&?&?&?&?&?&?&?).
    unfold dp_body, dp_fields. cbn [map concat].
  do 8 (eapply reads_bind; [by apply reads_ber_integer, int_ok_range|]; cbv beta iota).
  destruct dp. apply reads_ret.
Qed.

Section connect_writers.
Context {HM : Malloc} (Hmalloc : ∀ z, malloc_ok z = true).

Lemma puts_with_tmps {B} n n1 m content (k : option (list Z) → SM B) bs b :
  n1 <= n → 0 < n → puts n1 m content (Some tt) →
  (bytes content → puts n (k (Some content)) bs b) →
  puts n (x ← with_tmps m; k x) bs b.
Proof.
  intros Hn Hn0 Hm Hk s Hwf Hf.
  assert (with_tmps m s = Ret (Some content, s) ∧ bytes content) as [Hw Hb];
    [|by erewrite bind_Ret; [apply Hk|]].
  unfold with_tmps. pose proof Hwf as []. unfold fits in Hf.
  destruct (new_stream_spec Hmalloc (st_capacity s)) as (t & -> & Ht & Hp & Hc); [lia|].
  destruct (Hm t Ht) as (t' & -> & W); [unfold fits; lia|]. destruct W as [Hwf' W _ _ _].
  pose proof (written_bytes t' Hwf') as Hb. unfold written in W, Hb.
  rewrite W, Hp in *. done.
Qed.

Lemma puts_domain_parameters n dp :
  dp_ok dp → 50 <= n → puts n (mcs_write_domain_parameters dp) (dp_bytes dp) (Some tt).
Proof.
  intros Hdp Hn. pose proof (dp_body_size dp). unfold mcs_write_domain_parameters, dp_bytes.
  apply (puts_with_tmps n 48 _ (dp_body dp)); [lia|lia| |].
  - apply dp_ok_inv in Hdp as (?&?&?&?&?&?&?&?).
    unfold dp_body, dp_fields. cbn [map concat].
    do 8 (apply puts_int; [done|lia|]; cbv beta iota). apply puts_ret.
  - intros Hb. eapply (puts_nonzero n n); [|lia|apply puts_sequence_tag|].
    + unfold ber_sizeof_sequence_tag. pose proof (sizeof_length_range (zlen (dp_body dp))). lia.
    + unfold UINT16_MAX. lia.
    + unfold _ber_sizeof_length. repeat case_match; lia.
    + rewrite zlen_cons, ber_length_bytes_size. unfold _ber_sizeof_length.
      replace (_ >? 255) with false by lia. replace (_ >? 127) with false by lia.
      apply puts_nil_r, puts_Write; [lia|done|apply puts_ret].
Qed.

(** The bytes of the connect PDUs. *)
Definition initial_body (t mi ma : DomainParameters) (ud : list Z) : list Z :=
  ber_octet_string_bytes [1] ++ ber_octet_string_bytes [1] ++ [1; 1; 255] ++ dp_bytes t
    ++ dp_bytes mi ++ dp_bytes ma ++ ber_octet_string_bytes ud ++ [].
Definition response_body (dp : DomainParameters) (ud : list Z) : list Z :=
  [10; 1; 0] ++ ber_integer_bytes 0 ++ dp_bytes dp ++ ber_octet_string_bytes ud ++ [].
Definition connect_bytes (tag : Z) (body : list Z) : list Z :=
  (application_tag_bytes tag ++ ber_length_bytes (zlen body)) ++ body.

Lemma zlen_octet_string l : 2 + zlen l <= zlen (ber_octet_string_bytes l) <= 4 + zlen l.
Proof.
  rewrite ber_octet_string_bytes_size. unfold ber_sizeof_octet_string.
  pose proof (sizeof_length_range (zlen l)). lia.
Qed.
Lemma dp_bytes_range dp : 18 <= zlen (dp_bytes dp) <= 50.
Proof. rewrite dp_bytes_size. pose proof (dp_body_size dp). lia. Qed.
Lemma initial_body_size t mi ma ud :
  65 + zlen ud <= zlen (initial_body t mi ma ud) <= 163 + zlen ud.
Proof.
  unfold initial_body. rewrite !zlen_app. change (zlen []) with 0. change (zlen [1; 1; 255]) with 3.
  change (zlen (ber_octet_string_bytes [1])) with 3. pose proof (zlen_octet_string ud).
  pose proof (dp_bytes_range t). pose proof (dp_bytes_range mi). pose proof (dp_bytes_range ma). lia.
Qed.
Lemma response_body_size dp ud : 26 + zlen ud <= zlen (response_body dp ud) <= 63 + zlen ud.
Proof.
  unfold response_body. rewrite !zlen_app. change (zlen []) with 0. change (zlen [10; 1; 0]) with 3.
  change (zlen (ber_integer_bytes 0)) with 3. pose proof (zlen_octet_string ud).
  pose proof (dp_bytes_range dp). lia.
Qed.
Lemma connect_bytes_size tag body :
  30 < tag → zlen body + 3 <= zlen (connect_bytes tag body) <= zlen body + 5.
Proof.
  intros. unfold connect_bytes, application_tag_bytes. replace (tag >? 30) with true by lia.
  rewrite !zlen_app, ber_length_bytes_size. change (zlen [127; tag]) with 2.
  pose proof (sizeof_length_range (zlen body)). lia.
Qed.

Lemma puts_nonzero_octets {B} n l (k : option unit → SM B) bs b :
  bytes l → zlen l <= UINT16_MAX → 4 + zlen l <= n → puts (n - (4 + zlen l)) (k (Some tt)) bs b →
  puts n (x ← nonzero (ber_write_octet_string l); k x) (ber_octet_string_bytes l ++ bs) b.
Proof.
  intros Hb Hl Hn Hk. pose proof (zlen_octet_string l) as Hz.
  pose proof (ber_octet_string_bytes_size l) as Hs.
  eapply (puts_nonzero n n); [|lia|apply puts_ber_octet_string; [done|done|lia]|].
  { zlia. } eapply puts_weaken; [|exact Hk]. lia.
Qed.
Lemma puts_step_dp {B} n dp (k : option unit → SM B) bs b :
  dp_ok dp → 50 <= n → puts (n - 50) (k (Some tt)) bs b →
  puts n (x ← mcs_write_domain_parameters dp; k x) (dp_bytes dp ++ bs) b.
Proof.
  intros Hdp Hn Hk. pose proof (dp_bytes_range dp).
  eapply (puts_bind n n); [lia|by apply puts_domain_parameters|].
  eapply puts_weaken; [|exact Hk]. lia.
Qed.
(** The application tag and the content. *)
Lemma puts_connect n tag content :
  is_byte tag → 30 < tag → bytes content → zlen content <= UINT16_MAX → zlen content + 5 <= n →
  puts n (ber_write_application_tag tag (zlen content);; Stream_Write content;; TRUE)
    (connect_bytes tag content) (Some tt).
Proof.
  intros Ht Ht' Hb Hl Hn. pose proof (sizeof_length_range (zlen content)).
  eapply (puts_bind n 5); [zlia|apply puts_application_tag; [done|zlia|lia]|].
  unfold application_tag_bytes. replace (tag >? 30) with true by lia.
  rewrite zlen_app, ber_length_bytes_size. change (zlen [127; tag]) with 2.
  apply puts_nil_r, puts_Write; [lia|done|apply puts_ret].
Qed.

Lemma puts_connect_initial {G} (mcs : rdpMcs G) ud n :
  dp_ok (mcs_targetParameters mcs) → dp_ok (mcs_minimumParameters mcs) →
  dp_ok (mcs_maximumParameters mcs) → bytes ud → zlen ud + 163 <= UINT16_MAX →
  zlen ud + 168 <= n →
  puts n (mcs_write_connect_initial mcs ud)
    (connect_bytes MCS_TYPE_CONNECT_INITIAL (initial_body (mcs_targetParameters mcs)
       (mcs_minimumParameters mcs) (mcs_maximumParameters mcs) ud)) (Some tt).
Proof.
  intros Ht Hmi Hma Hb Hl Hn. pose proof (zlen_nonneg ud).
  pose proof (initial_body_size (mcs_targetParameters mcs) (mcs_minimumParameters mcs)
    (mcs_maximumParameters mcs) ud).
  eapply (puts_with_tmps n (zlen ud + 167)); [lia|lia| |intros Hc; apply puts_connect; done || lia].
  unfold initial_body.
  assert (bytes [1]) as H1 by by repeat constructor.
  apply (puts_nonzero_octets _ [1]); [done|done|change (zlen [1]) with 1; lia|cbv beta iota].
  apply (puts_nonzero_octets _ [1]); [done|done|change (zlen [1]) with 1; lia|cbv beta iota].
  change (zlen [1]) with 1.
  eapply (puts_bind _ 3); [lia|by apply (puts_ber_BOOL true)|]. change (zlen [1; 1; 255]) with 3.
  do 3 (apply puts_step_dp; [done|lia|]; cbv beta iota).
  apply puts_nonzero_octets; [done|lia|lia|]. apply puts_ret.
Qed.

Lemma puts_connect_response {G} (mcs : rdpMcs G) ud n :
  dp_ok (mcs_domainParameters mcs) → bytes ud → zlen ud + 163 <= UINT16_MAX →
  zlen ud + 168 <= n →
  puts n (mcs_write_connect_response mcs ud)
    (connect_bytes MCS_TYPE_CONNECT_RESPONSE (response_body (mcs_domainParameters mcs) ud)) (Some tt).
Proof.
  intros Hd Hb Hl Hn. pose proof (zlen_nonneg ud).
  pose proof (response_body_size (mcs_domainParameters mcs) ud).
  eapply (puts_with_tmps n (zlen ud + 163)); [lia|lia| |intros Hc; apply puts_connect; done || lia].
  unfold response_body. eapply (puts_bind _ 3); [lia|by apply puts_ber_enumerated|].
  change (zlen [10; 1; 0]) with 3. apply puts_int; [by left|lia|]. cbv beta iota.
  apply puts_step_dp; [done|lia|]. cbv beta iota.
  apply puts_nonzero_octets; [done|lia|lia|]. apply puts_ret.
Qed.
End connect_writers.

(** ** Filling in the headers *)

Definition frame_header (length : Z) : list Z :=
  ([3; 0] ++ winpr_Data_Write_UINT16_BE length) ++ [2; 240; 128].

(** The second half: the position is [em] and the PDU is written behind the
    seven bytes of the headers. *)
Lemma run_frame_headers s em length :
  wf s → st_pointer s = em → 7 <= em → 0 <= length <= UINT16_MAX →
  ∃ s', (TRY Stream_SetPosition 0;
         TRY tpkt_write_header length;
         TRY tpdu_write_data;
         TRY Stream_SetPosition em;
         Stream_SealLength;; TRUE) s = Ret (Some tt, s') ∧ wf s' ∧
    written s' = frame_header length ++ zdrop 7 (written s).
Proof.
  intros Hwf Hem H7 Hl. pose proof Hwf as [].
  assert (wf (set_pointer 0 s)) as Hwf0 by (apply wf_set_pointer; [done|lia]).
  destruct (puts_tpkt_header 4 length ltac:(lia) Hl _ Hwf0) as (s1 & R1 & W1);
    [unfold fits; simpl; lia|].
  pose proof W1 as [Hw1 _ Hp1 Hc1 _]. change (zlen ([3; 0] ++ _)) with 4 in Hp1.
  destruct (puts_tpdu_header 3 2 240 ltac:(done) ltac:(done) ltac:(done) _ Hw1) as (s2 & R2 & W2);
    [unfold fits; simpl in *; lia|].
  pose proof (wstep_trans _ _ _ _ _ _ _ W1 W2) as [Hw2 Hwr Hp2 Hc2 [z Ha]].
  change (zlen _) with 7 in Hp2. cbn [set_pointer st_pointer st_buffer st_capacity] in *.
  assert (wf (set_pointer em s2)) as Hw3 by (apply wf_set_pointer; [done|lia]).
  destruct (emits_seal 0 0 ltac:(lia) _ Hw3) as (s4 & R4 & [Hw4 Hwr4 _ _ _]);
    [unfold fits; simpl; lia|simpl; destruct Hw2; lia|].
  exists s4. split; [|split; [done|]].
  { erewrite bind_Ret by (apply run_SetPosition; lia). cbv beta iota.
    erewrite bind_Ret by exact R1. cbv beta iota. erewrite bind_Ret by exact R2. cbv beta iota.
    erewrite bind_Ret by (apply run_SetPosition; lia). exact R4. }
  rewrite Hwr4, app_nil_r. unfold written in *. cbn [set_pointer st_pointer st_buffer] in *.
  replace em with (7 + (em - 7)) by lia. rewrite ztake_ztake_zdrop by lia.
  rewrite Hp2 in *. change (0 + 7) with 7 in *. rewrite Hwr, (ztake_nonpos 0), app_nil_l by lia.
  change ([2; 240] ++ tpdu_tail 240) with [2; 240; 128]. fold (frame_header length).
  f_equal. unfold zslice. rewrite Ha, zdrop_ztake by lia.
  rewrite ztake_app_le by (rewrite zlen_zdrop; lia). f_equal. lia.
Qed.

Lemma frame_pdu_spec s n w bs :
  wf s → st_pointer s = 0 → fits s (7 + n) → 0 <= n → puts n w bs (Some tt) →
  zlen bs + 7 <= UINT16_MAX →
  ∃ s', mcs_frame_pdu w s = Ret (Some tt, s') ∧ wf s' ∧
    written s' = frame_header (zlen bs + 7) ++ bs.
Proof.
  intros Hwf Hp Hf Hn Hw Hl. pose proof Hwf as []. unfold fits in Hf.
  pose proof (zlen_nonneg bs).
  assert (wf (adv 7 s)) as Hwf7 by (apply wf_set_pointer; [done|lia]).
  destruct (Hw _ Hwf7) as (s1 & R1 & [Hw1 Hwr1 Hp1 _ _]); [unfold fits; simpl; lia|].
  simpl in Hp1. rewrite Hp in Hp1.
  destruct (run_frame_headers s1 (st_pointer s1) (zlen bs + 7)) as (s2 & R2 & Hw2 & Hwr2);
    [done|done|lia|lia|].
  exists s2. split; [|split; [done|]].
  - unfold mcs_frame_pdu. erewrite bind_Ret by by apply run_GetPosition.
    erewrite bind_Ret by (apply run_Seek; [done|lia]).
    erewrite bind_Ret by exact R1. cbv beta iota.
    erewrite bind_Ret by by apply run_GetPosition. cbv beta zeta.
    rewrite Hp. unfold u64, UINT16_MAX in *.
    rewrite Z.mod_small by (unfold SIZE_MAX in *; lia).
    replace (st_pointer s1 - 0) with (zlen bs + 7) by lia.
    replace (_ >? 65535) with false by lia. unfold u16. rewrite Z.mod_small by lia. exact R2.
  - rewrite Hwr2, Hwr1. f_equal. unfold written. simpl. rewrite Hp.
    assert (zlen (ztake (0 + 7) (st_buffer s)) = 7) as Hz by (rewrite zlen_ztake; lia).
    rewrite zdrop_app_ge, Hz by lia. by rewrite zdrop_nonpos by lia.
Qed.

(** ** Receiving the connect PDUs *)

Lemma reads_octet_string_tag n :
  0 <= n <= UINT16_MAX →
  reads ber_read_octet_string_tag (tag_byte BER_TAG_OCTET_STRING false :: ber_length_bytes n) (Some n).
Proof. intros. apply reads_universal_tag. by apply reads_ber_length. Qed.

(** A domain selector is skipped. *)
Lemma parses_selector {B} l (k : SM (option B)) bs b :
  zlen l <= UINT16_MAX → parses k bs b →
  parses (len ←? ber_read_octet_string_tag;
          TRY Stream_CheckAndLogRequiredLength len;
          Stream_Seek len;; k) (ber_octet_string_bytes l ++ bs) b.
Proof.
  intros Hl Hk. change (ber_octet_string_bytes l) with
    ((tag_byte BER_TAG_OCTET_STRING false :: ber_length_bytes (zlen l)) ++ l).
  rewrite <- app_assoc. eapply parses_bind; [apply reads_octet_string_tag; zlia|]. cbv beta iota.
  apply parses_check; [zlia|]. cbv beta iota. by eapply parses_bind; [apply reads_Seek|].
Qed.

(** The frame and the application tag. *)
Lemma parses_frame {B} tag body (k : Z → Z → SM (option B)) b :
  zlen body + 12 <= UINT16_MAX → 30 < tag →
  (∀ len, parses (k (zlen (connect_bytes tag body) + 7) len) body b) →
  parses (tlength ←? tpkt_read_header;
          li ←? tpdu_read_data tlength;
          len ←? ber_read_application_tag tag;
          k tlength len)
    (frame_header (zlen (connect_bytes tag body) + 7) ++ connect_bytes tag body) b.
Proof.
  intros Hl Ht Hk. pose proof (connect_bytes_size tag body Ht). unfold frame_header.
  pose proof (zlen_nonneg body). rewrite <- app_assoc.
  apply parses_tpkt_header; [lia|rewrite zlen_app; change (zlen [2; 240; 128]) with 3; lia|].
  eapply parses_bind; [apply (reads_tpdu_code _ 2 240); lia|]. cbv beta iota.
  unfold connect_bytes at 2. eapply parses_bind; [apply reads_application_tag; lia|]. apply Hk.
Qed.

(** The user data, taken apart by the GCC layer. *)
Section receivers.
Context {G : Type} (client_block server_block : Z → list Z → rdpMcs G → outcome (option (rdpMcs G))).
Context (clear_multitransport : rdpMcs G → option (rdpMcs G)).

Definition set_domain (dp : DomainParameters) (mcs : rdpMcs G) : rdpMcs G :=
  mkMcs (mcs_userId mcs) (mcs_baseChannelId mcs) dp (mcs_targetParameters mcs)
    (mcs_minimumParameters mcs) (mcs_maximumParameters mcs) (mcs_gcc mcs).
(** The state with the parameters of the client. *)
Definition set_parameters (client mcs : rdpMcs G) : rdpMcs G :=
  mkMcs (mcs_userId mcs) (mcs_baseChannelId mcs) (mcs_domainParameters mcs)
    (mcs_targetParameters client) (mcs_minimumParameters client) (mcs_maximumParameters client)
    (mcs_gcc mcs).

Definition user_ok (bl : list (Z * list Z)) : Prop :=
  Forall block_ok bl ∧ zlen (blocks_bytes bl) + 14 < 32768.

Lemma request_bytes_size ud : zlen ud <= zlen (request_bytes ud) <= zlen ud + 40.
Proof.
  unfold request_bytes. rewrite !zlen_app. pose proof (per_length_bytes_len (zlen ud + 14)).
  pose proof (per_length_bytes_len (zlen ud)).
  change (zlen (per_oid_bytes t124_02_98_oid)) with 6. change (zlen (per_length_bytes 0)) with 1.
  change (zlen h221_cs_key) with 4. zlia.
Qed.
Lemma response_bytes_size ud : zlen ud <= zlen (response_bytes ud) <= zlen ud + 40.
Proof.
  unfold response_bytes. rewrite !zlen_app. pose proof (per_length_bytes_len (zlen ud)).
  change (zlen (per_oid_bytes t124_02_98_oid)) with 6. change (zlen (per_length_bytes 42)) with 1.
  change (zlen (winpr_Data_Write_UINT16_BE _)) with 2. change (zlen (per_integer_bytes 1)) with 2.
  change (zlen h221_sc_key) with 4. change (zlen (per_length_bytes 0)) with 1. zlia.
Qed.

Lemma parses_connect_initial client server bl m1 m2 dp :
  dp_ok (mcs_targetParameters client) → dp_ok (mcs_minimumParameters client) →
  dp_ok (mcs_maximumParameters client) → user_ok bl →
  run_blocks client_block client_block_known bl (set_parameters client server) = Ret (Some m1) →
  (if existsb (λ b, client_block_multitransport b.1) bl then Some m1
   else clear_multitransport m1) = Some m2 →
  mcs_merge_domain_parameters (mcs_targetParameters m2) (mcs_minimumParameters m2)
    (mcs_maximumParameters m2) = Some dp →
  let pdu := connect_bytes MCS_TYPE_CONNECT_INITIAL (initial_body (mcs_targetParameters client)
               (mcs_minimumParameters client) (mcs_maximumParameters client)
               (request_bytes (blocks_bytes bl))) in
  parses (mcs_recv_connect_initial client_block clear_multitransport server)
    (frame_header (zlen pdu + 7) ++ pdu) (Some (set_domain dp m2)).
Proof.
  intros Ht Hmi Hma [Hok Hl] Hrun Hm2 Hdp pdu.
  pose proof (request_bytes_size (blocks_bytes bl)) as Hr.
  set (ud := request_bytes _) in *.
  pose proof (initial_body_size (mcs_targetParameters client)
    (mcs_minimumParameters client) (mcs_maximumParameters client) ud) as Hb.
  pose proof (connect_bytes_size MCS_TYPE_CONNECT_INITIAL (initial_body (mcs_targetParameters client)
    (mcs_minimumParameters client) (mcs_maximumParameters client) ud) ltac:(done)) as Hp.
  unfold mcs_recv_connect_initial. apply parses_frame; [unfold UINT16_MAX; lia|done|]. intros len.
  fold pdu in Hp |- *. unfold initial_body at 1.
  apply (parses_selector [1]); [done|]. apply (parses_selector [1]); [done|].
  eapply parses_bind; [apply (reads_ber_BOOL true)|]. cbv beta iota.
  do 3 (eapply parses_bind; [by apply reads_domain_parameters|]; cbv beta iota).
  rewrite app_nil_r. change (ber_octet_string_bytes ud) with
    ((tag_byte BER_TAG_OCTET_STRING false :: ber_length_bytes (zlen ud)) ++ ud).
  eapply parses_bind; [apply reads_octet_string_tag; unfold UINT16_MAX; zlia|]. cbv beta iota.
  apply parses_check; [lia|]. cbv beta iota zeta. fold (set_parameters client server).
  rewrite <- (app_nil_r ud). eapply parses_bind; [by apply reads_request|].
  rewrite Hm2. cbv beta iota. rewrite Hdp. apply parses_then_some. unfold UINT16_MAX. lia.
Qed.

Lemma parses_connect_response (server client : rdpMcs G) bl m1 :
  dp_ok (mcs_domainParameters server) → user_ok bl →
  run_blocks server_block server_block_known bl (set_domain (mcs_domainParameters server) client)
    = Ret (Some m1) →
  let pdu := connect_bytes MCS_TYPE_CONNECT_RESPONSE
    (response_body (mcs_domainParameters server) (response_bytes (blocks_bytes bl))) in
  parses (mcs_recv_connect_response server_block client)
    (frame_header (zlen pdu + 7) ++ pdu) (Some m1).
Proof.
  intros Hd [Hok Hl] Hrun pdu. pose proof (response_bytes_size (blocks_bytes bl)) as Hr.
  set (ud := response_bytes _) in *.
  pose proof (response_body_size (mcs_domainParameters server) ud) as Hb.
  pose proof (connect_bytes_size MCS_TYPE_CONNECT_RESPONSE
    (response_body (mcs_domainParameters server) ud) ltac:(done)) as Hp.
  unfold mcs_recv_connect_response. apply parses_frame; [unfold UINT16_MAX; lia|done|]. intros len.
  fold pdu in Hp |- *. unfold response_body at 1.
  eapply parses_bind; [by apply reads_ber_enumerated|]. cbv beta iota.
  eapply parses_bind; [by apply reads_ber_integer|]. cbv beta iota.
  eapply parses_bind; [by apply reads_domain_parameters|]. cbv beta iota.
  rewrite app_nil_r. change (ber_octet_string_bytes ud) with
    ((tag_byte BER_TAG_OCTET_STRING false :: ber_length_bytes (zlen ud)) ++ ud).
  eapply parses_bind; [apply reads_octet_string_tag; unfold UINT16_MAX; zlia|].
  cbv beta iota zeta. fold (set_domain (mcs_domainParameters server) client).
  rewrite <- (app_nil_r ud). eapply parses_bind; [apply reads_response; [done|lia|done]|].
  cbv beta iota. apply parses_then_some. unfold UINT16_MAX. lia.
Qed.
End receivers.

(** ** Sending them *)

Section senders.
Context {HM : Malloc} (Hmalloc : ∀ z, malloc_ok z = true).

Lemma delivers_frame {A} size n w pdu (r : SM (option A)) a :
  0 <= n → size = 7 + n → size <= SIZE_MAX → puts n w pdu (Some tt) → zlen pdu + 7 <= UINT16_MAX →
  parses r (frame_header (zlen pdu + 7) ++ pdu) (Some a) →
  delivers (on_new_stream size (mcs_frame_pdu w)) r a.
Proof.
  intros Hn -> Hs Hw Hl Hr.
  destruct (new_stream_spec Hmalloc (7 + n)) as (s & Hnew & Hwf & Hp & Hc); [lia|].
  destruct (frame_pdu_spec s n w pdu) as (s' & R & Hwf' & Hwr); [done|done|unfold fits; lia|done..|].
  destruct (parsed_by s' _ r a Hwf' Hwr Hr) as (s'' & Hs'').
  unfold delivers, transmit, on_new_stream. by rewrite Hnew, R, Hs''.
Qed.

Lemma user_bytes bl : user_ok bl → bytes (blocks_bytes bl).
Proof.
  intros [Hok _]. unfold blocks_bytes. apply Forall_concat, Forall_map.
  eapply Forall_impl; [|exact Hok]. intros [t d] (_ & _ & Hd). unfold block_bytes.
  rewrite !Forall_app. split_and!; [apply write16_le_bytes..|done].
Qed.

Section connect.
Context {G : Type} (client_block server_block : Z → list Z → rdpMcs G → outcome (option (rdpMcs G))).
Context (clear_multitransport : rdpMcs G → option (rdpMcs G)).
Context (client_data server_data : rdpMcs G → option (list Z)).

Lemma delivers_connect_initial client server bl m1 m2 dp :
  client_data client = Some (blocks_bytes bl) → user_ok bl →
  dp_ok (mcs_targetParameters client) → dp_ok (mcs_minimumParameters client) →
  dp_ok (mcs_maximumParameters client) →
  run_blocks client_block client_block_known bl (set_parameters client server) = Ret (Some m1) →
  (if existsb (λ b, client_block_multitransport b.1) bl then Some m1
   else clear_multitransport m1) = Some m2 →
  mcs_merge_domain_parameters (mcs_targetParameters m2) (mcs_minimumParameters m2)
    (mcs_maximumParameters m2) = Some dp →
  delivers (mcs_send_connect_initial client_data client)
    (mcs_recv_connect_initial client_block clear_multitransport server) (set_domain dp m2).
Proof.
  intros Hcd Hok Ht Hmi Hma Hrun Hm2 Hdp. unfold mcs_send_connect_initial. rewrite Hcd.
  pose proof (request_bytes_size (blocks_bytes bl)) as Hr. pose proof Hok as [_ Hl].
  set (ud := request_bytes (blocks_bytes bl)) in *.
  destruct (on_new_stream_spec Hmalloc 1024 0 (4096 + zlen (blocks_bytes bl))
    (gcc_write_conference_create_request (blocks_bytes bl)) ud) as (g & Hg & Hwg & Hgw);
    [lia|unfold SIZE_MAX; lia|zlia|lia| |].
  { apply emits_writes, writes_request; [done|by apply user_bytes|lia]. }
  rewrite Hg. cbn [mbind outcome_bind]. fold (written g).
  pose proof (zlen_written g Hwg) as Hz. rewrite Hgw in *.
  eapply (delivers_frame _ (1024 + st_pointer g)); [zlia|lia|unfold SIZE_MAX; lia| | |].
  - apply puts_connect_initial; try done; [|unfold UINT16_MAX; lia|lia].
    rewrite <- Hgw. by apply written_bytes.
  - pose proof (connect_bytes_size MCS_TYPE_CONNECT_INITIAL (initial_body
      (mcs_targetParameters client) (mcs_minimumParameters client)
      (mcs_maximumParameters client) ud) ltac:(done)).
    pose proof (initial_body_size (mcs_targetParameters client)
      (mcs_minimumParameters client) (mcs_maximumParameters client) ud). unfold UINT16_MAX. lia.
  - by eapply parses_connect_initial.
Qed.

Lemma delivers_connect_response server client bl m1 cap :
  server_data server = Some (blocks_bytes bl) → user_ok bl → 0 <= cap <= 65536 →
  dp_ok (mcs_domainParameters server) →
  run_blocks server_block server_block_known bl (set_domain (mcs_domainParameters server) client)
    = Ret (Some m1) →
  delivers (mcs_send_connect_response server_data cap server)
    (mcs_recv_connect_response server_block client) m1.
Proof.
  intros Hsd Hok Hcap Hd Hrun. unfold mcs_send_connect_response. rewrite Hsd.
  pose proof (response_bytes_size (blocks_bytes bl)) as Hr. pose proof Hok as [_ Hl].
  set (ud := response_bytes (blocks_bytes bl)) in *.
  destruct (on_new_stream_spec Hmalloc (512 + cap) 0 (4096 + zlen (blocks_bytes bl))
    (gcc_write_conference_create_response (blocks_bytes bl)) ud) as (g & Hg & Hwg & Hgw);
    [lia|unfold SIZE_MAX; lia|zlia|lia| |].
  { apply emits_writes, writes_response; [done|by apply user_bytes|lia]. }
  rewrite Hg. cbn [mbind outcome_bind]. fold (written g).
  pose proof (zlen_written g Hwg) as Hz. rewrite Hgw in *.
  eapply (delivers_frame _ (1024 + st_pointer g)); [zlia|lia|unfold SIZE_MAX; lia| | |].
  - apply puts_connect_response; try done; [|unfold UINT16_MAX; lia|lia].
    rewrite <- Hgw. by apply written_bytes.
  - pose proof (connect_bytes_size MCS_TYPE_CONNECT_RESPONSE
      (response_body (mcs_domainParameters server) ud) ltac:(done)).
    pose proof (response_body_size (mcs_domainParameters server) ud). unfold UINT16_MAX. lia.
  - by eapply parses_connect_response.
Qed.
End connect.
End senders.

(** ** Hostile input *)

Lemma safe_tpkt_header :
  safe 0 tpkt_read_header (on_some (λ len, len = 0 ∨ 7 <= len <= UINT16_MAX)).
Proof. unfold tpkt_read_header. repeat safe_step; simpl; unfold UINT16_MAX; done || lia. Qed.
Lemma safe_consumed len : safe 0 (tpkt_ensure_stream_consumed len) (λ _, True).
Proof. unfold tpkt_ensure_stream_consumed. by repeat safe_step. Qed.
Lemma safe_then_some {A} (a : A) len :
  safe 0 (then_some (tpkt_ensure_stream_consumed len) a) (on_some (λ b, b = a)).
Proof.
  unfold then_some. eapply safe_bind; [apply safe_consumed|]. by intros [[]|] _; apply safe_ret.
Qed.
Lemma safe_domain_header pdu :
  negb (pdu =? 0) = true → safe 0 (mcs_read_domain_mcspdu_header pdu) (λ _, True).
Proof.
  intros Hp. unfold mcs_read_domain_mcspdu_header. apply safe_assert; [done|].
  safe_sub safe_tpkt_header. safe_sub safe_tpdu_code. safe_sub safe_per_byte.
  safe_step; by apply safe_ret.
Qed.
Lemma safe_domain_parameters :
  safe 0 mcs_read_domain_parameters
    (on_some (λ dp, Forall (λ v, 0 <= v <= UINT32_MAX) (dp_fields dp))).
Proof.
  unfold mcs_read_domain_parameters. safe_sub safe_ber_sequence_tag.
  do 8 safe_sub safe_ber_integer. apply safe_ret. unfold dp_fields. simpl in *.
  repeat constructor; simpl; lia.
Qed.

(** Skipping a selector. *)
Lemma safe_selector {B} (k : SM (option B)) P :
  P None → safe 0 k P →
  safe 0 (len ←? ber_read_octet_string_tag;
          TRY Stream_CheckAndLogRequiredLength len;
          Stream_Seek len;; k) P.
Proof.
  intros HN Hk. eapply safe_bind; [apply safe_ber_octet_string_tag|].
  intros [len|] Hl; [|by apply safe_ret]. simpl in Hl. safe_step; [by apply safe_ret|].
  safe_step. eapply safe_weaken; [|done]. lia.
Qed.

Section connect_safe.
Context {G : Type} (client_block server_block : Z → list Z → rdpMcs G → outcome (option (rdpMcs G))).
Context (clear_multitransport : rdpMcs G → option (rdpMcs G)).

Lemma safe_connect_initial mcs :
  (∀ t l st, ∃ r, client_block t l st = Ret r) →
  safe 0 (mcs_recv_connect_initial client_block clear_multitransport mcs) (λ _, True).
Proof.
  intros Hc. unfold mcs_recv_connect_initial.
  safe_sub safe_tpkt_header. safe_sub safe_tpdu_code. safe_sub safe_ber_application_tag.
  apply safe_selector; [done|]. apply safe_selector; [done|]. safe_sub safe_ber_BOOL.
  do 3 safe_sub safe_domain_parameters.
  safe_sub safe_ber_octet_string_tag. safe_step; [by apply safe_ret|]. cbv beta iota zeta.
  eapply (safe_weaken _ 0); [lia|].
  eapply safe_bind; [by apply gcc_request_safe|]. intros [?|] _; [|by apply safe_ret].
  cbv beta iota. destruct (mcs_merge_domain_parameters _ _ _); [|by apply safe_ret].
  by eapply safe_mono; [|apply safe_then_some].
Qed.
Lemma safe_connect_response mcs :
  (∀ t l st, ∃ r, server_block t l st = Ret r) →
  safe 0 (mcs_recv_connect_response server_block mcs) (λ _, True).
Proof.
  intros Hs. unfold mcs_recv_connect_response.
  safe_sub safe_tpkt_header. safe_sub safe_tpdu_code. safe_sub safe_ber_application_tag.
  safe_sub safe_ber_enumerated. safe_sub safe_ber_integer. safe_sub safe_domain_parameters.
  safe_sub safe_ber_octet_string_tag. cbv beta iota zeta.
  eapply safe_bind; [by apply gcc_response_safe|]. intros [?|] _; [|by apply safe_ret].
  by eapply safe_mono; [|apply safe_then_some].
Qed.
End connect_safe.

(** The ids the domain PDUs carry are in range. *)
Definition channel_in_range (c : Z) : Prop := 0 <= c <= UINT16_MAX.
Definition user_in_range {G} (mcs : rdpMcs G) : Prop :=
  MCS_BASE_CHANNEL_ID <= mcs_userId mcs <= UINT16_MAX.

Section domain_safe.
Context {G : Type} (mcs : rdpMcs G).

Lemma safe_user_id : safe 0 (per_read_integer16 MCS_BASE_CHANNEL_ID)
  (on_some (λ v, MCS_BASE_CHANNEL_ID <= v <= UINT16_MAX)).
Proof. by apply safe_per_integer16. Qed.
Lemma safe_channel_id : safe 0 (per_read_integer16 0) (on_some channel_in_range).
Proof. by apply safe_per_integer16. Qed.

Lemma safe_erect_request : safe 0 mcs_recv_erect_domain_request (λ _, True).
Proof.
  unfold mcs_recv_erect_domain_request. safe_sub (safe_domain_header 1 eq_refl).
  do 2 safe_sub safe_per_integer. apply safe_consumed.
Qed.
Lemma safe_attach_request : safe 0 mcs_recv_attach_user_request (λ _, True).
Proof.
  unfold mcs_recv_attach_user_request. safe_sub (safe_domain_header 10 eq_refl).
  apply safe_consumed.
Qed.
Lemma safe_attach_confirm :
  safe 0 (mcs_recv_attach_user_confirm mcs) (on_some user_in_range).
Proof.
  unfold mcs_recv_attach_user_confirm. safe_sub (safe_domain_header 11 eq_refl).
  safe_sub safe_per_enumerated. safe_sub safe_user_id.
  eapply safe_mono; [|apply safe_then_some]. by intros [?|]; [intros ->|].
Qed.
Lemma safe_join_request replay :
  safe 0 (mcs_recv_channel_join_request replay mcs)
    (on_some (λ '(c, mcs'), channel_in_range c ∧ user_in_range mcs' ∧
                (replay = false → mcs_userId mcs' = mcs_userId mcs))).
Proof.
  unfold mcs_recv_channel_join_request. safe_sub (safe_domain_header 14 eq_refl).
  safe_sub safe_user_id. safe_step; [by apply safe_ret|]. safe_sub safe_channel_id.
  eapply safe_mono; [|apply safe_then_some]. intros [?|]; [intros ->|done].
  split_and!; [done..|]. intros ->. simpl.
  match goal with H : _ && negb false = false |- _ => apply andb_false_iff in H as [H|H]; [|done] end.
  by apply Z.eqb_eq, negb_false_iff.
Qed.
Lemma safe_join_confirm : safe 0 mcs_recv_channel_join_confirm (on_some channel_in_range).
Proof.
  unfold mcs_recv_channel_join_confirm. safe_sub (safe_domain_header 15 eq_refl).
  safe_sub safe_per_enumerated. safe_sub safe_user_id. do 2 safe_sub safe_channel_id.
  eapply safe_mono; [|apply safe_then_some]. by intros [?|]; [intros ->|].
Qed.
End domain_safe.

(** ** Failed assertions *)

(** [m] aborts on every stream with room for [n] bytes. *)
Definition aborts {A} (n : Z) (m : SM A) : Prop := ∀ s, wf s → fits s n → m s = Abort.

Lemma aborts_now {A B} n (m : SM A) (k : A → SM B) : aborts n m → aborts n (x ← m; k x).
Proof. intros Hm s Hwf Hf. by apply bind_Abort, Hm. Qed.
Lemma aborts_later {A B} n n1 (m : SM A) (k : A → SM B) bs a :
  n1 <= n → puts n1 m bs a → aborts (n - zlen bs) (k a) → aborts n (x ← m; k x).
Proof.
  intros Hn Hm Hk s Hwf Hf. unfold fits in Hf.
  destruct (Hm s Hwf) as (s' & R & []); [unfold fits; lia|].
  erewrite bind_Ret by exact R. apply Hk; [done|unfold fits; lia].
Qed.
Lemma aborts_weaken {A} n n' (m : SM A) : n' <= n → aborts n' m → aborts n m.
Proof. intros ? Hm s ??. apply Hm; [done|]. unfold fits in *. lia. Qed.
Lemma aborts_with_tmps `{HM : Malloc} n m :
  (∀ z, malloc_ok z = true) → 0 < n → aborts n m → aborts n (with_tmps m).
Proof.
  intros Hmalloc Hn Hm s Hwf Hf. unfold fits in Hf. pose proof Hwf as []. unfold with_tmps.
  destruct (new_stream_spec Hmalloc (st_capacity s)) as (t & -> & Ht & Hp & Hc); [lia|].
  rewrite Hm; [done..|unfold fits; lia].
Qed.

Lemma aborts_domain_parameters `{HM : Malloc} dp :
  (∀ z, malloc_ok z = true) → 65536 <= maxChannelIds dp < 8388608 →
  aborts 5 (mcs_write_domain_parameters dp).
Proof.
  intros Hmalloc Hv. unfold mcs_write_domain_parameters.
  apply aborts_now, aborts_with_tmps; [done|lia|]. apply aborts_now, aborts_now.
  intros s Hwf Hf. by apply ber_write_integer_aborts.
Qed.
Lemma aborts_connect_response `{HM : Malloc} {G} (mcs : rdpMcs G) ud :
  (∀ z, malloc_ok z = true) → 65536 <= maxChannelIds (mcs_domainParameters mcs) < 8388608 →
  aborts 64 (mcs_write_connect_response mcs ud).
Proof.
  intros Hmalloc Hv. unfold mcs_write_connect_response.
  apply aborts_now, aborts_with_tmps; [done|lia|].
  eapply (aborts_later _ 3); [lia|by apply puts_ber_enumerated|]. change (zlen [10; 1; 0]) with 3.
  eapply (aborts_later _ 6 _ _ (ber_integer_bytes 0)); [lia| |].
  { by eapply puts_is_nonzero; [|apply puts_ber_integer; [left|]]. }
  cbv beta iota. eapply aborts_now, aborts_weaken; [|by apply aborts_domain_parameters].
  change (zlen _) with 3. lia.
Qed.

(** * Properties *)

(** C11. Connect round trip: the connect-initial PDU a client sends is accepted by
    the server, which ends with the client's target, minimum and maximum
    parameters, the parameters negotiated from them, and what the GCC handlers
    make of the client's data blocks; the connect-response of the server is
    accepted by the client, which ends with the server's domain parameters and
    what the handlers make of the server's blocks.  For all parameters that fit
    16 bits (or need four bytes) and all data blocks of less than 32 KB; the
    data blocks themselves are left to the handlers. *)
Theorem mcs_connect_delivered `{HM : Malloc} {G}
    (client_block server_block : Z → list Z → rdpMcs G → outcome (option (rdpMcs G)))
    clear client_data server_data client server bl sbl m1 m2 m3 dp cap :
  (∀ z, malloc_ok z = true) →
  client_data client = Some (blocks_bytes bl) → user_ok bl →
  dp_ok (mcs_targetParameters client) → dp_ok (mcs_minimumParameters client) →
  dp_ok (mcs_maximumParameters client) →
  run_blocks client_block client_block_known bl (set_parameters client server) = Ret (Some m1) →
  (if existsb (λ b, client_block_multitransport b.1) bl then Some m1 else clear m1) = Some m2 →
  mcs_merge_domain_parameters (mcs_targetParameters m2) (mcs_minimumParameters m2)
    (mcs_maximumParameters m2) = Some dp →
  dp_ok dp → server_data (set_domain dp m2) = Some (blocks_bytes sbl) → user_ok sbl →
  0 <= cap <= 65536 →
  run_blocks server_block server_block_known sbl (set_domain dp client) = Ret (Some m3) →
  transmit (mcs_send_connect_initial client_data client)
    (mcs_recv_connect_initial client_block clear server) = Ret (Some (set_domain dp m2)) ∧
  transmit (mcs_send_connect_response server_data cap (set_domain dp m2))
    (mcs_recv_connect_response server_block client) = Ret (Some m3).
Proof.
  intros. split; [by eapply delivers_connect_initial|by eapply delivers_connect_response].
Qed.

(** C12. Channel connection: after erect-domain, attach-user and any sequence of
    channel joins, every channel asked for is confirmed with its own id, client
    and server agree on the user id, which is the server's next channel id, and
    the server has moved on to the following one.  No step fails. *)
Theorem mcs_channel_connection `{HM : Malloc} {G} (server client : rdpMcs G) channels :
  (∀ z, malloc_ok z = true) → MCS_BASE_CHANNEL_ID <= mcs_baseChannelId server <= UINT16_MAX →
  Forall channel_in_range channels →
  ∃ server', channel_connection server client channels =
      Ret (Some (server', set_userId (mcs_baseChannelId server) client, channels)) ∧
    mcs_userId server' = mcs_baseChannelId server ∧
    mcs_baseChannelId server' = u16 (mcs_baseChannelId server + 1).
Proof.
  intros Hm Hb Hch. unfold channel_connection.
  rewrite (delivers_erect_domain Hm). cbn [mbind outcome_bind].
  rewrite (delivers_attach_request Hm). cbn [mbind outcome_bind].
  destruct (delivers_attach_confirm Hm server client Hb) as (sent & server' & Hs & Hu & Hn & Hd).
  rewrite Hs. cbn [mbind outcome_bind]. rewrite Hd. cbn [mbind outcome_bind].
  rewrite (join_channels_spec server' (set_userId (mcs_baseChannelId server) client)); [|done..].
  by exists server'.
Qed.

(** Domain parameter negotiation: from a client whose minimum, target and
    maximum are in order, accepted parameters lie between its minimum and its
    maximum, give the server at least 4 channels, 3 users and 124 bytes per
    PDU, and are version 2 with one priority and height one. *)
Theorem mcs_negotiation target minimum maximum dp :
  maxChannelIds minimum <= maxChannelIds target <= maxChannelIds maximum →
  maxUserIds minimum <= maxUserIds target <= maxUserIds maximum →
  maxMCSPDUsize minimum <= maxMCSPDUsize target <= maxMCSPDUsize maximum →
  mcs_merge_domain_parameters target minimum maximum = Some dp →
  Z.max 4 (maxChannelIds minimum) <= maxChannelIds dp <= maxChannelIds maximum ∧
  Z.max 3 (maxUserIds minimum) <= maxUserIds dp <= maxUserIds maximum ∧
  Z.max 124 (maxMCSPDUsize minimum) <= maxMCSPDUsize dp <= maxMCSPDUsize maximum ∧
  maxTokenIds dp = maxTokenIds target ∧ minThroughput dp = minThroughput target ∧
  numPriorities dp = 1 ∧ maxHeight dp = 1 ∧ protocolVersion dp = 2.
Proof.
  intros Hc Hu Hs Hdp. unfold mcs_merge_domain_parameters in Hdp.
  repeat (case_match; [|simplify_option_eq]; cbn in *); simplify_option_eq; cbn; lia.
Qed.

(** C40. A client can ask for more channels than the server can answer: a target
    of 0x10000 to 0x7FFFFF channel ids is accepted as negotiated, and writing
    the connect-response then fails the assertion of [ber_write_integer] and
    aborts the server, whatever the rest of the state and the user data. *)
Theorem mcs_connect_response_aborts `{HM : Malloc} {G} (mcs : rdpMcs G) target minimum maximum ud s :
  (∀ z, malloc_ok z = true) → 65536 <= maxChannelIds target < 8388608 →
  mcs_merge_domain_parameters target minimum maximum = Some (mcs_domainParameters mcs) →
  wf s → fits s 64 → mcs_write_connect_response mcs ud s = Abort.
Proof.
  intros Hm Ht Hdp Hwf Hf. apply aborts_connect_response; [done| |done..].
  destruct mcs as [? ? dp ? ? ? ?]. simpl in *. unfold mcs_merge_domain_parameters in Hdp.
  replace (maxChannelIds target >=? 4) with true in Hdp by lia. simplify_option_eq. simpl. lia.
Qed.

(** The reason of a disconnect is lost: for every 8-bit reason the
    provider ultimatum carries the same bytes, from which the peer reads reason
    3 (rn-user-requested). *)
Theorem mcs_disconnect_reason_lost `{HM : Malloc} reason :
  (∀ z, malloc_ok z = true) → is_byte reason →
  ∃ s, mcs_send_disconnect_provider_ultimatum reason = Ret (Some s) ∧
    written s = header_bytes 9 0x21 ++ [0x80] ∧
    mcs_recv_disconnect_provider_ultimatum (adv 8 (stream_of (written s))) =
      Ret (Some 3, adv 9 (stream_of (written s))).
Proof.
  intros Hm Hr.
  destruct (on_new_stream_spec Hm 9 7 258 (
      TRY mcs_write_domain_mcspdu_header DomainMCSPDU_DisconnectProviderUltimatum 9 1;
      reason ← WINPR_ASSERTING_INT_CAST UINT8_MAX reason;
      per_write_enumerated 0x80 reason) (header_bytes 9 0x21 ++ [0x80])) as (s & Hs & Hwf & Hw);
    [lia|by unfold SIZE_MAX|lia|lia| |].
  - eapply (emits_bind _ 7 _ 129); [lia|lia|by apply emits_domain_header|].
    intros s Hwf Hf Hc. unfold is_byte in Hr.
    erewrite bind_Ret; [|rewrite run_cast; unfold UINT8_MAX; by replace (_ && _) with true by lia].
    by apply (writes_per_byte Hm 0x80).
  - exists s. split; [done|]. split; [done|]. rewrite Hw. by vm_compute.
Qed.

(** C13. The MCS readers on hostile input: whatever bytes arrive, no reader
    aborts or reads outside the data; user and channel ids they return are in
    range, and a join request for another user than the attached one is
    refused. *)
Theorem mcs_readers_safe {G}
    (client_block server_block : Z → list Z → rdpMcs G → outcome (option (rdpMcs G)))
    clear mcs replay :
  (∀ t l st, ∃ r, client_block t l st = Ret r) → (∀ t l st, ∃ r, server_block t l st = Ret r) →
  safe 0 (mcs_recv_connect_initial client_block clear mcs) (λ _, True) ∧
  safe 0 (mcs_recv_connect_response server_block mcs) (λ _, True) ∧
  safe 0 mcs_recv_erect_domain_request (λ _, True) ∧
  safe 0 mcs_recv_attach_user_request (λ _, True) ∧
  safe 0 (mcs_recv_attach_user_confirm mcs) (on_some user_in_range) ∧
  safe 0 (mcs_recv_channel_join_request replay mcs)
    (on_some (λ '(c, mcs'), channel_in_range c ∧ user_in_range mcs' ∧
                (replay = false → mcs_userId mcs' = mcs_userId mcs))) ∧
  safe 0 mcs_recv_channel_join_confirm (on_some channel_in_range).
Proof.
  intros Hc Hs. split_and!; [by apply safe_connect_initial|by apply safe_connect_response|
    apply safe_erect_request|apply safe_attach_request|apply safe_attach_confirm|apply safe_join_request|apply safe_join_confirm].
Qed.

(** * Witnesses *)

(** Peers whose handlers collect the data blocks. *)
Definition collect_block (t : Z) (d : list Z) (mcs : rdpMcs (list (Z * list Z)))
    : outcome (option (rdpMcs (list (Z * list Z)))) :=
  Ret (Some (mkMcs (mcs_userId mcs) (mcs_baseChannelId mcs) (mcs_domainParameters mcs)
    (mcs_targetParameters mcs) (mcs_minimumParameters mcs) (mcs_maximumParameters mcs)
    (mcs_gcc mcs ++ [(t, d)]))).
Definition no_blocks : list (Z * list Z) := [].
Definition negotiated : DomainParameters := mkDomain 34 3 0 1 0 1 65528 2.

Lemma mcs_connect_delivered_witness :
  let HM : Malloc := λ _, true in
  let bl := [(CS_CORE, [1; 2; 3]); (CS_NET, [4])] in
  let sbl := [(SC_CORE, [5]); (SC_NET, [6; 7])] in
  transmit (mcs_send_connect_initial (λ _, Some (blocks_bytes bl)) (mcs_new no_blocks))
    (mcs_recv_connect_initial collect_block Some (mcs_new no_blocks)) =
      Ret (Some (set_domain negotiated (mcs_new bl))) ∧
  transmit (mcs_send_connect_response (λ _, Some (blocks_bytes sbl)) 1024
      (set_domain negotiated (mcs_new bl)))
    (mcs_recv_connect_response collect_block (mcs_new no_blocks)) =
      Ret (Some (set_domain negotiated (mcs_new sbl))).
Proof.
  intros HM bl sbl.
  assert (∀ l, Forall (λ v, 0 <= v < 65536) l → Forall int_ok l) as Hint.
  { intros l. apply Forall_impl. by left. }
  apply (mcs_connect_delivered collect_block collect_block Some (λ _, Some (blocks_bytes bl))
    (λ _, Some (blocks_bytes sbl)) (mcs_new no_blocks) (mcs_new no_blocks) bl sbl (mcs_new bl) (mcs_new bl)
    (set_domain negotiated (mcs_new sbl)) negotiated 1024); try done;
    try (apply Hint; by repeat constructor).
  all: split; [|by vm_compute].
  all: repeat apply Forall_cons_2; try done; (split; [by vm_compute|]);
    (split; [by vm_compute|by repeat constructor]).
Defined.

Lemma mcs_channel_connection_witness :
  let HM : Malloc := λ _, true in
  ∃ server', channel_connection (mcs_new tt) (mcs_new tt) [1003; 1004; 1005] =
      Ret (Some (server', set_userId 1004 (mcs_new tt), [1003; 1004; 1005])) ∧
    mcs_userId server' = 1004 ∧ mcs_baseChannelId server' = 1005.
Proof.
  apply (mcs_channel_connection (HM := λ _, true) (mcs_new tt) (mcs_new tt) [1003; 1004; 1005]);
    [done|done|by repeat constructor].
Defined.

Lemma mcs_negotiation_witness :
  mcs_merge_domain_parameters (mcs_init_domain_parameters 34 2 0 0xFFFF)
    (mcs_init_domain_parameters 1 1 1 0x420) (mcs_init_domain_parameters 0xFFFF 0xFC17 0xFFFF 0xFFFF)
    = Some negotiated ∧ 3 <= maxUserIds negotiated.
Proof.
  split; [done|].
  edestruct (mcs_negotiation (mcs_init_domain_parameters 34 2 0 0xFFFF)
    (mcs_init_domain_parameters 1 1 1 0x420)
    (mcs_init_domain_parameters 0xFFFF 0xFC17 0xFFFF 0xFFFF) negotiated) as (_ & H & _);
    [simpl; lia..|done|]. exact (proj1 H).
Defined.

Lemma mcs_connect_response_aborts_witness :
  let HM : Malloc := λ _, true in
  let target := mcs_init_domain_parameters 0x10000 3 0 0xFFF8 in
  mcs_write_connect_response (set_domain target (mcs_new tt)) [] (new_stream 100) = Abort.
Proof.
  intros HM target.
  apply (mcs_connect_response_aborts (set_domain target (mcs_new tt)) target
    (mcs_init_domain_parameters 1 1 1 0x420) (mcs_init_domain_parameters 0x20000 0xFC17 0xFFFF 0xFFFF));
    [done|done|done|by apply new_stream_wf|done].
Defined.

Lemma mcs_disconnect_reason_lost_witness :
  let HM : Malloc := λ _, true in
  ∃ s, mcs_send_disconnect_provider_ultimatum 1 = Ret (Some s) ∧
    written s = header_bytes 9 0x21 ++ [0x80] ∧
    mcs_recv_disconnect_provider_ultimatum (adv 8 (stream_of (written s))) =
      Ret (Some 3, adv 9 (stream_of (written s))).
Proof. by apply (mcs_disconnect_reason_lost (HM := λ _, true) 1). Defined.

Lemma mcs_readers_safe_witness :
  safe 0 (mcs_recv_connect_initial collect_block Some (mcs_new no_blocks)) (λ _, True) ∧
  safe 0 mcs_recv_channel_join_confirm (on_some channel_in_range).
Proof.
  destruct (mcs_readers_safe collect_block collect_block Some (mcs_new no_blocks) false)
    as (H1 & _ & _ & _ & _ & _ & H5); [intros; by eexists..|]. by split.
Defined.
