(* ===== verification/Rc4.v ===== *)
(** The RC4 stream cipher of WinPR (winpr/libwinpr/crypto/rc4.c) and its
    wrapper in crypto/cipher.c, as built with the internal RC4: the state is a
    permutation of the bytes, and two contexts in the same state undo each
    other. *)

From S2P Require Import Prelude.
From stdpp Require Import prelude list numbers.
From Stdlib Require Import ZArith Lia.

#[local] Open Scope Z_scope.

Definition CTX_SIZE : Z := 256.

(** The indices [i] and [j] and the tables [s] and [t], of [CTX_SIZE] bytes;
    every index the code uses is reduced modulo [CTX_SIZE]. *)
Record winpr_int_RC4_CTX : Type := mkRC4 { rc4_i : Z; rc4_j : Z; rc4_s : list Z; rc4_t : list Z }.

Definition swap (p1 p2 : Z) (s : list Z) : list Z :=
  let t := zget s p1 in <[Z.to_nat p2 := t]> (<[Z.to_nat p1 := zget s p2]> s).

(** The second loop: [j] and the permutation, from index [i] on. *)
Fixpoint schedule_loop (n : nat) (i j : Z) (s t : list Z) : list Z :=
  match n with
  | O => s
  | S n =>
      let j := (j + zget s i + zget t i) mod CTX_SIZE in
      schedule_loop n (i + 1) j (swap i j s) t
  end.

(** One byte of output: the indices, the table and the byte of the key stream. *)
Definition rc4_step (t1 t2 : Z) (s : list Z) : Z * Z * list Z * Z :=
  let t1 := (t1 + 1) mod CTX_SIZE in
  let t2 := (t2 + zget s t1) mod CTX_SIZE in
  let s := swap t1 t2 s in
  let idx := (zget s t1 + zget s t2) mod CTX_SIZE in
  (t1, t2, s, zget s idx).
Fixpoint update_loop (input : list Z) (t1 t2 : Z) (s : list Z) : list Z * (Z * Z * list Z) :=
  match input with
  | [] => ([], (t1, t2, s))
  | b :: input =>
      let '(t1, t2, s, val) := rc4_step t1 t2 s in
      let '(output, st) := update_loop input t1 t2 s in
      (Z.lxor b val :: output, st)
  end.
(** [output] may be [input]: a byte is read before it is written. *)
Definition winpr_int_rc4_update (input : list Z) (ctx : winpr_int_RC4_CTX) : list Z * winpr_int_RC4_CTX :=
  let '(output, (t1, t2, s)) := update_loop input (rc4_i ctx) (rc4_j ctx) (rc4_s ctx) in
  (output, mkRC4 t1 t2 s (rc4_t ctx)).

Section alloc.
Context {HM : Malloc}.

(** The first [keylength] bytes of [key]; the structure has 528 bytes. *)
Definition winpr_int_rc4_new (key : list Z) (keylength : Z) : outcome (option winpr_int_RC4_CTX) :=
  if negb (malloc_ok 528) then Ret None
  else if (keylength =? 0) || (zlen key <? Z.min keylength CTX_SIZE) then Abort
  else
    let indices := map Z.of_nat (seq 0 (Z.to_nat CTX_SIZE)) in
    let t := map (λ i, zget key (i mod keylength)) indices in
    Ret (Some (mkRC4 0 0 (schedule_loop (Z.to_nat CTX_SIZE) 0 0 indices t) t)).

Definition winpr_RC4_New_Internal (key : list Z) (keylen : Z) : outcome (option winpr_int_RC4_CTX) :=
  if keylen =? 0 then Ret None
  else if negb (malloc_ok 8) then Ret None
  else winpr_int_rc4_new key keylen.
Definition winpr_RC4_New (key : list Z) (keylen : Z) : outcome (option winpr_int_RC4_CTX) :=
  winpr_RC4_New_Internal key keylen.
Definition winpr_RC4_New_Allow_FIPS (key : list Z) (keylen : Z) : outcome (option winpr_int_RC4_CTX) :=
  winpr_RC4_New_Internal key keylen.
End alloc.
Definition winpr_RC4_Update (ctx : winpr_int_RC4_CTX) (input : list Z) : list Z * winpr_int_RC4_CTX :=
  winpr_int_rc4_update input ctx.

(** The vectors of the literature: the keys "Key", "Wiki" and "Secret". *)
Definition rc4_encrypted (key text : list Z) : option (list Z) :=
  match winpr_RC4_New (HM := λ _, true) key (zlen key) with
  | Ret (Some ctx) => Some (fst (winpr_RC4_Update ctx text))
  | _ => None
  end.
Example rc4_key : rc4_encrypted [75; 101; 121] [80; 108; 97; 105; 110; 116; 101; 120; 116] =
  Some [0xBB; 0xF3; 0x16; 0xE8; 0xD9; 0x40; 0xAF; 0x0A; 0xD3].
Proof. by vm_compute. Qed.
Example rc4_wiki : rc4_encrypted [87; 105; 107; 105] [112; 101; 100; 105; 97] = Some [0x10; 0x21; 0xBF; 0x04; 0x20].
Proof. by vm_compute. Qed.
Example rc4_secret :
  rc4_encrypted [83; 101; 99; 114; 101; 116] [65; 116; 116; 97; 99; 107; 32; 97; 116; 32; 100; 97; 119; 110] =
  Some [0x45; 0xA0; 0x1F; 0x64; 0x5F; 0xC3; 0x5B; 0x38; 0x35; 0x52; 0x54; 0x4B; 0x9B; 0xF5].
Proof. by vm_compute. Qed.

(** * The state is a permutation *)

Definition byte_table : list Z := map Z.of_nat (seq 0 256).

Record rc4_ok (ctx : winpr_int_RC4_CTX) : Prop := {
  rc4_indices : 0 <= rc4_i ctx < CTX_SIZE ∧ 0 <= rc4_j ctx < CTX_SIZE;
  rc4_table : rc4_s ctx ≡ₚ byte_table;
}.

Lemma swap_Permutation p1 p2 s : 0 <= p1 < zlen s → 0 <= p2 < zlen s → swap p1 p2 s ≡ₚ s.
Proof.
  intros H1 H2. unfold swap, zlen in *.
  destruct (lookup_lt_is_Some_2 s (Z.to_nat p1) ltac:(lia)) as [x Hx].
  destruct (lookup_lt_is_Some_2 s (Z.to_nat p2) ltac:(lia)) as [y Hy].
  assert (zget s p1 = x) as -> by (unfold zget; by apply nth_lookup_Some).
  assert (zget s p2 = y) as -> by (unfold zget; by apply nth_lookup_Some).
  by apply (Permutation_insert_swap s).
Qed.

Lemma zlen_byte_table s : s ≡ₚ byte_table → zlen s = CTX_SIZE.
Proof. intros H. unfold zlen. by rewrite H. Qed.
Lemma byte_table_get s i : s ≡ₚ byte_table → is_byte (zget s i).
Proof.
  intros H. unfold zget. destruct (nth_in_or_default (Z.to_nat i) s 0) as [Hin| ->]; [|unfold is_byte; lia].
  apply list_elem_of_In in Hin. revert Hin. generalize (nth (Z.to_nat i) s 0). intros x Hin. rewrite H in Hin.
  apply list_elem_of_fmap in Hin as (k & -> & Hk).
  apply elem_of_seq in Hk. unfold is_byte. lia.
Qed.
Lemma schedule_loop_table n i j s t :
  0 <= i → i + Z.of_nat n <= CTX_SIZE → s ≡ₚ byte_table → schedule_loop n i j s t ≡ₚ byte_table.
Proof.
  revert i j s. induction n as [|n IH]; intros i j s Hi Hn Hs; [done|]. cbn [schedule_loop].
  pose proof (zlen_byte_table s Hs) as Hz. pose proof (Z.mod_pos_bound (j + zget s i + zget t i) CTX_SIZE ltac:(done)).
  apply IH; [lia..|]. by rewrite swap_Permutation by lia.
Qed.
Lemma rc4_step_ok t1 t2 s t1' t2' s' v :
  s ≡ₚ byte_table → rc4_step t1 t2 s = (t1', t2', s', v) →
  0 <= t1' < CTX_SIZE ∧ 0 <= t2' < CTX_SIZE ∧ s' ≡ₚ byte_table ∧ is_byte v.
Proof.
  intros Hs [= <- <- <- <-]. pose proof (zlen_byte_table s Hs) as Hz.
  pose proof (Z.mod_pos_bound (t1 + 1) CTX_SIZE ltac:(done)) as H1.
  pose proof (Z.mod_pos_bound (t2 + zget s ((t1 + 1) mod CTX_SIZE)) CTX_SIZE ltac:(done)) as H2.
  assert (swap ((t1 + 1) mod CTX_SIZE) ((t2 + zget s ((t1 + 1) mod CTX_SIZE)) mod CTX_SIZE) s ≡ₚ byte_table) as Hp.
  { by rewrite swap_Permutation by lia. }
  split_and!; [lia..|done|by apply byte_table_get].
Qed.
Lemma lxor_byte a b : is_byte a → is_byte b → is_byte (Z.lxor a b).
Proof. unfold is_byte. intros Ha Hb. change 256 with (2 ^ 8) in *. by apply lxor_below. Qed.
Lemma update_loop_ok input t1 t2 s output t1' t2' s' :
  0 <= t1 < CTX_SIZE → 0 <= t2 < CTX_SIZE → s ≡ₚ byte_table → bytes input →
  update_loop input t1 t2 s = (output, (t1', t2', s')) →
  0 <= t1' < CTX_SIZE ∧ 0 <= t2' < CTX_SIZE ∧ s' ≡ₚ byte_table ∧ bytes output ∧ zlen output = zlen input.
Proof.
  revert t1 t2 s output. induction input as [|b input IH]; intros t1 t2 s output H1 H2 Hs Hb E; cbn [update_loop] in E.
  { by injection E as <- <- <- <-. }
  apply Forall_cons_1 in Hb as [Hb Hin].
  destruct (rc4_step t1 t2 s) as [[[u1 u2] us] v] eqn:Es. destruct (update_loop input u1 u2 us) as [o st] eqn:Eu.
  injection E as <- ->. apply rc4_step_ok in Es as (? & ? & ? & ?); [|done].
  destruct (IH u1 u2 us o) as (? & ? & ? & ? & ?); try done. do 3 (split; [done|]). split.
  - apply Forall_cons_2; [by apply lxor_byte|done].
  - rewrite !zlen_cons. lia.
Qed.

(** The new table and the state after any data. *)
Lemma rc4_update_ok ctx input output ctx' :
  rc4_ok ctx → bytes input → winpr_RC4_Update ctx input = (output, ctx') →
  rc4_ok ctx' ∧ bytes output ∧ zlen output = zlen input.
Proof.
  intros [[Hi Hj] Hs] Hb. unfold winpr_RC4_Update, winpr_int_rc4_update.
  destruct (update_loop input (rc4_i ctx) (rc4_j ctx) (rc4_s ctx)) as [o [[t1 t2] s]] eqn:E. intros [= <- <-].
  apply update_loop_ok in E as (? & ? & ? & ? & ?); try done.
Qed.
Lemma rc4_new_ok {HM : Malloc} key keylen ctx : winpr_RC4_New key keylen = Ret (Some ctx) → rc4_ok ctx.
Proof.
  unfold winpr_RC4_New, winpr_RC4_New_Internal, winpr_int_rc4_new. destruct (keylen =? 0); [done|].
  destruct (negb (malloc_ok 8)); [done|]. destruct (negb (malloc_ok 528)); [done|]. destruct (_ || _); [done|].
  generalize (map (λ i, zget key (i mod keylen)) (map Z.of_nat (seq 0 (Z.to_nat CTX_SIZE)))). intros t.
  pose proof (schedule_loop_table (Z.to_nat CTX_SIZE) 0 0 byte_table t ltac:(done) ltac:(done) (Permutation_refl _)) as Hs.
  change (map Z.of_nat (seq 0 (Z.to_nat CTX_SIZE))) with byte_table.
  revert Hs. generalize (schedule_loop (Z.to_nat CTX_SIZE) 0 0 byte_table t). intros s Hs [= <-]. by split.
Qed.
(** A key of enough bytes is accepted if there is memory. *)
Lemma rc4_new_total {HM : Malloc} key keylen :
  0 < keylen <= zlen key → ∃ o, winpr_RC4_New key keylen = Ret o.
Proof.
  intros Hk. unfold winpr_RC4_New, winpr_RC4_New_Internal, winpr_int_rc4_new.
  destruct (Z.eqb_spec keylen 0); [lia|]. destruct (negb _); [by eexists|]. destruct (negb _); [by eexists|].
  destruct (Z.ltb_spec (zlen key) (Z.min keylen CTX_SIZE)); [unfold CTX_SIZE in *; lia|]. by eexists.
Qed.

Lemma rc4_new_some {HM : Malloc} key keylen :
  (∀ n, malloc_ok n = true) → 0 < keylen <= zlen key → ∃ c, winpr_RC4_New key keylen = Ret (Some c).
Proof.
  intros HM' Hk. unfold winpr_RC4_New, winpr_RC4_New_Internal, winpr_int_rc4_new. rewrite !HM'.
  destruct (Z.eqb_spec keylen 0); [lia|]. cbn [negb].
  destruct (Z.ltb_spec (zlen key) (Z.min keylen CTX_SIZE)); [unfold CTX_SIZE in *; lia|]. by eexists.
Qed.

(** * Decryption is encryption *)

Lemma update_loop_undo input t1 t2 s output st :
  update_loop input t1 t2 s = (output, st) → update_loop output t1 t2 s = (input, st).
Proof.
  revert t1 t2 s output. induction input as [|b input IH]; intros t1 t2 s output E; cbn [update_loop] in E.
  { by injection E as <- <-. }
  destruct (rc4_step t1 t2 s) as [[[u1 u2] us] v] eqn:Es. destruct (update_loop input u1 u2 us) as [o st'] eqn:Eu.
  injection E as <- <-. cbn [update_loop]. rewrite Es, (IH _ _ _ _ Eu).
  by rewrite Z.lxor_assoc, Z.lxor_nilpotent, Z.lxor_0_r.
Qed.
Lemma rc4_undo ctx input output ctx' :
  winpr_RC4_Update ctx input = (output, ctx') → winpr_RC4_Update ctx output = (input, ctx').
Proof.
  unfold winpr_RC4_Update, winpr_int_rc4_update.
  destruct (update_loop input (rc4_i ctx) (rc4_j ctx) (rc4_s ctx)) as [o [[t1 t2] s]] eqn:E. intros [= <- <-].
  by rewrite (update_loop_undo _ _ _ _ _ _ E).
Qed.
(** The data may be given in pieces. *)
Lemma update_loop_app i1 i2 t1 t2 s o1 u1 u2 us :
  update_loop i1 t1 t2 s = (o1, (u1, u2, us)) →
  update_loop (i1 ++ i2) t1 t2 s = let '(o2, st) := update_loop i2 u1 u2 us in (o1 ++ o2, st).
Proof.
  revert t1 t2 s o1. induction i1 as [|b i1 IH]; intros t1 t2 s o1 E; cbn [update_loop app] in E |- *.
  { injection E as <- <- <- <-. by destruct (update_loop i2 t1 t2 s). }
  destruct (rc4_step t1 t2 s) as [[[v1 v2] vs] v]. destruct (update_loop i1 v1 v2 vs) as [o st] eqn:Eu.
  injection E as <- ->. rewrite (IH _ _ _ _ Eu). by destruct (update_loop i2 u1 u2 us).
Qed.
