(* ===== verification/Security.v ===== *)
(** The standard security of RDP (core/security.c) and the RC4 contexts it keeps
    (core/rdp.c): session keys from the randoms of the two sides, signatures,
    and the encryption of packets with keys that are renewed every 4096 packets,
    or with triple DES (FIPS).  SHA-1, MD5, HMAC and the block cipher are those of
    the crypto library under WinPR, and arguments of the model. *)

From S2P Require Import Prelude Stream Rc4.
From stdpp Require Import prelude list numbers.
From Stdlib Require Import ZArith Lia.

#[local] Close Scope winpr_scope.
#[local] Open Scope Z_scope.

(** * The crypto library *)

(** A digest from [winpr_Digest_New] to [winpr_Digest_Final], [None] if one of the
    calls fails.  MD5 may be refused in FIPS mode unless it is asked for with
    [winpr_Digest_Init_Allow_FIPS]: the boolean. *)
Class Digests := {
  sha1 : list Z → option (list Z);
  md5 : bool → list Z → option (list Z);
  hmac_sha1 : list Z → list Z → option (list Z);
}.
Class DigestLaws {HD : Digests} : Prop := {
  sha1_length m d : sha1 m = Some d → zlen d = 20 ∧ bytes d;
  md5_length a m d : md5 a m = Some d → zlen d = 16 ∧ bytes d;
  md5_allow a a' m d d' : md5 a m = Some d → md5 a' m = Some d' → d = d';
  hmac_sha1_length k m d : hmac_sha1 k m = Some d → zlen d = 20 ∧ bytes d;
}.

(** [winpr_Cipher_NewEx] for [WINPR_CIPHER_DES_EDE3_CBC] (encrypting or not, key,
    initial vector) and [winpr_Cipher_Update]. *)
Class Cipher := {
  cipher_ctx : Type;
  winpr_Cipher_NewEx : bool → list Z → list Z → option cipher_ctx;
  winpr_Cipher_Update : cipher_ctx → list Z → option (list Z * cipher_ctx);
}.
(** What one context encrypts in whole blocks, one made for decryption with
    the same key and vector decrypts, in the same order. *)
Class CipherLaws {HC : Cipher} := {
  cipher_pair : cipher_ctx → cipher_ctx → Prop;
  cipher_pair_new key iv e d :
    winpr_Cipher_NewEx true key iv = Some e → winpr_Cipher_NewEx false key iv = Some d → cipher_pair e d;
  cipher_pair_update e d data out e' :
    cipher_pair e d → bytes data → zlen data mod 8 = 0 → winpr_Cipher_Update e data = Some (out, e') →
    zlen out = zlen data ∧ bytes out ∧ ∃ d', winpr_Cipher_Update d out = Some (data, d') ∧ cipher_pair e' d';
  cipher_update_bytes c data out c' : bytes data → winpr_Cipher_Update c data = Some (out, c') → bytes out;
}.

(** * Constants *)

Definition ENCRYPTION_METHOD_NONE : Z := 0.
Definition ENCRYPTION_METHOD_40BIT : Z := 0x1.
Definition ENCRYPTION_METHOD_128BIT : Z := 0x2.
Definition ENCRYPTION_METHOD_56BIT : Z := 0x8.
Definition ENCRYPTION_METHOD_FIPS : Z := 0x10.

Definition pad1 : list Z := replicate 40 0x36.
Definition pad2 : list Z := replicate 48 0x5C.
Definition key_salt : list Z := [0xD1; 0x26; 0x9E].

Definition fips_reverse_table : list Z :=
  [
   0x00; 0x80; 0x40; 0xc0; 0x20; 0xa0; 0x60; 0xe0; 0x10; 0x90; 0x50; 0xd0; 0x30; 0xb0; 0x70; 0xf0;
   0x08; 0x88; 0x48; 0xc8; 0x28; 0xa8; 0x68; 0xe8; 0x18; 0x98; 0x58; 0xd8; 0x38; 0xb8; 0x78; 0xf8;
   0x04; 0x84; 0x44; 0xc4; 0x24; 0xa4; 0x64; 0xe4; 0x14; 0x94; 0x54; 0xd4; 0x34; 0xb4; 0x74; 0xf4;
   0x0c; 0x8c; 0x4c; 0xcc; 0x2c; 0xac; 0x6c; 0xec; 0x1c; 0x9c; 0x5c; 0xdc; 0x3c; 0xbc; 0x7c; 0xfc;
   0x02; 0x82; 0x42; 0xc2; 0x22; 0xa2; 0x62; 0xe2; 0x12; 0x92; 0x52; 0xd2; 0x32; 0xb2; 0x72; 0xf2;
   0x0a; 0x8a; 0x4a; 0xca; 0x2a; 0xaa; 0x6a; 0xea; 0x1a; 0x9a; 0x5a; 0xda; 0x3a; 0xba; 0x7a; 0xfa;
   0x06; 0x86; 0x46; 0xc6; 0x26; 0xa6; 0x66; 0xe6; 0x16; 0x96; 0x56; 0xd6; 0x36; 0xb6; 0x76; 0xf6;
   0x0e; 0x8e; 0x4e; 0xce; 0x2e; 0xae; 0x6e; 0xee; 0x1e; 0x9e; 0x5e; 0xde; 0x3e; 0xbe; 0x7e; 0xfe;
   0x01; 0x81; 0x41; 0xc1; 0x21; 0xa1; 0x61; 0xe1; 0x11; 0x91; 0x51; 0xd1; 0x31; 0xb1; 0x71; 0xf1;
   0x09; 0x89; 0x49; 0xc9; 0x29; 0xa9; 0x69; 0xe9; 0x19; 0x99; 0x59; 0xd9; 0x39; 0xb9; 0x79; 0xf9;
   0x05; 0x85; 0x45; 0xc5; 0x25; 0xa5; 0x65; 0xe5; 0x15; 0x95; 0x55; 0xd5; 0x35; 0xb5; 0x75; 0xf5;
   0x0d; 0x8d; 0x4d; 0xcd; 0x2d; 0xad; 0x6d; 0xed; 0x1d; 0x9d; 0x5d; 0xdd; 0x3d; 0xbd; 0x7d; 0xfd;
   0x03; 0x83; 0x43; 0xc3; 0x23; 0xa3; 0x63; 0xe3; 0x13; 0x93; 0x53; 0xd3; 0x33; 0xb3; 0x73; 0xf3;
   0x0b; 0x8b; 0x4b; 0xcb; 0x2b; 0xab; 0x6b; 0xeb; 0x1b; 0x9b; 0x5b; 0xdb; 0x3b; 0xbb; 0x7b; 0xfb;
   0x07; 0x87; 0x47; 0xc7; 0x27; 0xa7; 0x67; 0xe7; 0x17; 0x97; 0x57; 0xd7; 0x37; 0xb7; 0x77; 0xf7;
   0x0f; 0x8f; 0x4f; 0xcf; 0x2f; 0xaf; 0x6f; 0xef; 0x1f; 0x9f; 0x5f; 0xdf; 0x3f; 0xbf; 0x7f; 0xff].
Definition fips_oddparity_table : list Z :=
  [
   0x01; 0x01; 0x02; 0x02; 0x04; 0x04; 0x07; 0x07; 0x08; 0x08; 0x0b; 0x0b; 0x0d; 0x0d; 0x0e; 0x0e;
   0x10; 0x10; 0x13; 0x13; 0x15; 0x15; 0x16; 0x16; 0x19; 0x19; 0x1a; 0x1a; 0x1c; 0x1c; 0x1f; 0x1f;
   0x20; 0x20; 0x23; 0x23; 0x25; 0x25; 0x26; 0x26; 0x29; 0x29; 0x2a; 0x2a; 0x2c; 0x2c; 0x2f; 0x2f;
   0x31; 0x31; 0x32; 0x32; 0x34; 0x34; 0x37; 0x37; 0x38; 0x38; 0x3b; 0x3b; 0x3d; 0x3d; 0x3e; 0x3e;
   0x40; 0x40; 0x43; 0x43; 0x45; 0x45; 0x46; 0x46; 0x49; 0x49; 0x4a; 0x4a; 0x4c; 0x4c; 0x4f; 0x4f;
   0x51; 0x51; 0x52; 0x52; 0x54; 0x54; 0x57; 0x57; 0x58; 0x58; 0x5b; 0x5b; 0x5d; 0x5d; 0x5e; 0x5e;
   0x61; 0x61; 0x62; 0x62; 0x64; 0x64; 0x67; 0x67; 0x68; 0x68; 0x6b; 0x6b; 0x6d; 0x6d; 0x6e; 0x6e;
   0x70; 0x70; 0x73; 0x73; 0x75; 0x75; 0x76; 0x76; 0x79; 0x79; 0x7a; 0x7a; 0x7c; 0x7c; 0x7f; 0x7f;
   0x80; 0x80; 0x83; 0x83; 0x85; 0x85; 0x86; 0x86; 0x89; 0x89; 0x8a; 0x8a; 0x8c; 0x8c; 0x8f; 0x8f;
   0x91; 0x91; 0x92; 0x92; 0x94; 0x94; 0x97; 0x97; 0x98; 0x98; 0x9b; 0x9b; 0x9d; 0x9d; 0x9e; 0x9e;
   0xa1; 0xa1; 0xa2; 0xa2; 0xa4; 0xa4; 0xa7; 0xa7; 0xa8; 0xa8; 0xab; 0xab; 0xad; 0xad; 0xae; 0xae;
   0xb0; 0xb0; 0xb3; 0xb3; 0xb5; 0xb5; 0xb6; 0xb6; 0xb9; 0xb9; 0xba; 0xba; 0xbc; 0xbc; 0xbf; 0xbf;
   0xc1; 0xc1; 0xc2; 0xc2; 0xc4; 0xc4; 0xc7; 0xc7; 0xc8; 0xc8; 0xcb; 0xcb; 0xcd; 0xcd; 0xce; 0xce;
   0xd0; 0xd0; 0xd3; 0xd3; 0xd5; 0xd5; 0xd6; 0xd6; 0xd9; 0xd9; 0xda; 0xda; 0xdc; 0xdc; 0xdf; 0xdf;
   0xe0; 0xe0; 0xe3; 0xe3; 0xe5; 0xe5; 0xe6; 0xe6; 0xe9; 0xe9; 0xea; 0xea; 0xec; 0xec; 0xef; 0xef;
   0xf1; 0xf1; 0xf2; 0xf2; 0xf4; 0xf4; 0xf7; 0xf7; 0xf8; 0xf8; 0xfb; 0xfb; 0xfd; 0xfd; 0xfe; 0xfe].

(** * Hashes *)

Section security.
Context {HM : Malloc} {HD : Digests} {HC : Cipher}.

(** [n] bytes of an array. *)
Definition mem_read (n : Z) (l : list Z) : outcome (list Z) :=
  if n <=? zlen l then Ret (ztake n l) else Abort.
Definition ASSERT (b : bool) : outcome unit := if b then Ret tt else Abort.
Definition and_then {A B} (m : outcome (option A)) (k : A → outcome (option B)) : outcome (option B) :=
  match m with Ret (Some a) => k a | Ret None => Ret None | Abort => Abort end.

Definition security_salted_hash (salt input salt1 salt2 : list Z) (out_len : Z) : outcome (option (list Z)) :=
  ASSERT (16 <=? out_len);;
  ASSERT (zlen salt =? 48);;
  ASSERT (zlen salt1 =? 32);;
  ASSERT (zlen salt2 =? 32);;
  mret (sha1_digest ← sha1 (input ++ salt ++ salt1 ++ salt2); md5 true (salt ++ sha1_digest)).

Definition security_premaster_hash (input premaster_secret client_random server_random : list Z) (out_len : Z) :
    outcome (option (list Z)) :=
  security_salted_hash premaster_secret input client_random server_random out_len.
Definition security_master_hash (input master_secret client_random server_random : list Z) (out_len : Z) :
    outcome (option (list Z)) :=
  security_salted_hash master_secret input server_random client_random out_len.

Definition str_A : list Z := [65].
Definition str_BB : list Z := [66; 66].
Definition str_CCC : list Z := [67; 67; 67].

Definition security_master_secret (premaster_secret client_random server_random : list Z) (out_len : Z) :
    outcome (option (list Z)) :=
  ASSERT (32 <=? out_len);;
  and_then (security_premaster_hash str_A premaster_secret client_random server_random out_len) (λ a,
  and_then (security_premaster_hash str_BB premaster_secret client_random server_random (u64 (out_len - 16))) (λ b,
  and_then (security_premaster_hash str_CCC premaster_secret client_random server_random (u64 (out_len - 32))) (λ c,
  mret (Some (a ++ b ++ c))))).
Definition security_session_key_blob (master_secret client_random server_random : list Z) (out_len : Z) :
    outcome (option (list Z)) :=
  ASSERT (32 <=? out_len);;
  and_then (security_master_hash str_A master_secret client_random server_random 16) (λ a,
  and_then (security_master_hash str_BB master_secret client_random server_random 16) (λ b,
  and_then (security_master_hash str_CCC master_secret client_random server_random (u64 (out_len - 32))) (λ c,
  mret (Some (a ++ b ++ c))))).
Definition security_mac_salt_key (session_key_blob : list Z) : outcome (list Z) :=
  ASSERT (16 <=? zlen session_key_blob);; mret (ztake 16 session_key_blob).

Definition security_md5 (allow : bool) (in0 in1 in2 : list Z) : outcome (option (list Z)) :=
  in0 ← mem_read 16 in0; in1 ← mem_read 32 in1; in2 ← mem_read 32 in2;
  mret (md5 allow (in0 ++ in1 ++ in2)).
Definition security_md5_16_32_32 (in0 in1 in2 : list Z) : outcome (option (list Z)) := security_md5 false in0 in1 in2.
Definition security_md5_16_32_32_Allow_FIPS (in0 in1 in2 : list Z) : outcome (option (list Z)) :=
  security_md5 true in0 in1 in2.
Definition security_licensing_encryption_key (session_key_blob client_random server_random : list Z) :
    outcome (option (list Z)) :=
  if zlen session_key_blob <? 16 then mret None
  else if zlen client_random <? 32 then mret None
  else if zlen server_random <? 32 then mret None
  else security_md5_16_32_32_Allow_FIPS (zdrop 16 session_key_blob) client_random server_random.

Definition security_UINT32_le (value : Z) : list Z :=
  [Z.land value 0xFF; Z.land (Z.shiftr value 8) 0xFF; Z.land (Z.shiftr value 16) 0xFF; Z.land (Z.shiftr value 24) 0xFF].

Definition security_mac_data (mac_salt_key data : list Z) : outcome (option (list Z)) :=
  ASSERT (zlen data <=? UINT32_MAX);;
  ASSERT (zlen mac_salt_key =? 16);;
  mret (sha1_digest ← sha1 (mac_salt_key ++ pad1 ++ security_UINT32_le (zlen data) ++ data);
        md5 true (mac_salt_key ++ pad2 ++ sha1_digest)).

Definition security_A (master_secret client_random server_random : list Z) (out_len : Z) : outcome (option (list Z)) :=
  ASSERT (32 <=? out_len);;
  and_then (security_premaster_hash str_A master_secret client_random server_random 16) (λ a,
  and_then (security_premaster_hash str_BB master_secret client_random server_random 16) (λ b,
  and_then (security_premaster_hash str_CCC master_secret client_random server_random (u64 (out_len - 32))) (λ c,
  mret (Some (a ++ b ++ c))))).
Definition security_X (master_secret client_random server_random : list Z) (out_len : Z) : outcome (option (list Z)) :=
  ASSERT (32 <=? out_len);;
  and_then (security_premaster_hash [88] master_secret client_random server_random 16) (λ a,
  and_then (security_premaster_hash [89; 89] master_secret client_random server_random 16) (λ b,
  and_then (security_premaster_hash [90; 90; 90] master_secret client_random server_random (u64 (out_len - 32))) (λ c,
  mret (Some (a ++ b ++ c))))).

(** A key of 21 bytes spread over 24: seven bits to a byte and its parity. *)
Definition expand_byte (buf : list Z) (i : Z) : outcome Z :=
  let b := 7 * i in let p := b / 8 in let r := b mod 8 in
  ASSERT (p <? 21);;
  if r <=? 1 then mret (Z.land (u8 (Z.shiftl (zget buf p) r)) 0xfe)
  else
    ASSERT (p + 1 <? 21);;
    let c := u8 (Z.shiftl (zget buf p) r) in
    let c := Z.lor c (Z.shiftr (zget buf (p + 1)) (8 - r)) in
    mret (Z.land c 0xfe).
Fixpoint expand_loop (buf : list Z) (n : nat) (i : Z) : outcome (list Z) :=
  match n with
  | O => mret []
  | S n => out ← expand_byte buf i; outs ← expand_loop buf n (i + 1); mret (out :: outs)
  end.
Definition fips_expand_key_bits (key : list Z) : outcome (list Z) :=
  ASSERT (21 <=? zlen key);;
  let buf := map (zget fips_reverse_table) (ztake 21 key) in
  out ← expand_loop buf 24 0;
  mret (map (λ c, zget fips_oddparity_table (zget fips_reverse_table c)) out).

(** * The state of a connection *)

(** One direction of the connection: the fields [encrypt_*] and [decrypt_*] of
    [rdpRdp], with [rc4_encrypt_key] and [fips_encrypt]. *)
Record crypt_dir : Type := mkDir {
  c_key : list Z; c_update_key : list Z;
  c_use_count : Z; c_checksum_use_count : Z;
  c_rc4 : option winpr_int_RC4_CTX;
  c_fips_key : list Z; c_fips : option cipher_ctx;
}.
(** The fields of [rdpRdp] and its settings that concern security. *)
Record rdpRdp : Type := mkRdp {
  EncryptionMethods : Z; ServerMode : bool;
  ClientRandom : list Z; ServerRandom : list Z;
  sign_key : list Z; fips_sign_key : list Z; rc4_key_len : Z;
  dir_encrypt : crypt_dir; dir_decrypt : crypt_dir;
}.
Definition set_encrypt (d : crypt_dir) (r : rdpRdp) : rdpRdp :=
  mkRdp (EncryptionMethods r) (ServerMode r) (ClientRandom r) (ServerRandom r) (sign_key r) (fips_sign_key r)
    (rc4_key_len r) d (dir_decrypt r).
Definition set_decrypt (d : crypt_dir) (r : rdpRdp) : rdpRdp :=
  mkRdp (EncryptionMethods r) (ServerMode r) (ClientRandom r) (ServerRandom r) (sign_key r) (fips_sign_key r)
    (rc4_key_len r) (dir_encrypt r) d.
Definition set_signing (key fips_key : list Z) (len : Z) (r : rdpRdp) : rdpRdp :=
  mkRdp (EncryptionMethods r) (ServerMode r) (ClientRandom r) (ServerRandom r) key fips_key len
    (dir_encrypt r) (dir_decrypt r).
Definition set_key (key : list Z) (d : crypt_dir) : crypt_dir :=
  mkDir key (c_update_key d) (c_use_count d) (c_checksum_use_count d) (c_rc4 d) (c_fips_key d) (c_fips d).
Definition set_fips_key (key : list Z) (d : crypt_dir) : crypt_dir :=
  mkDir (c_key d) (c_update_key d) (c_use_count d) (c_checksum_use_count d) (c_rc4 d) key (c_fips d).
Definition set_fips (c : option cipher_ctx) (d : crypt_dir) : crypt_dir :=
  mkDir (c_key d) (c_update_key d) (c_use_count d) (c_checksum_use_count d) (c_rc4 d) (c_fips_key d) c.
Definition set_rc4 (c : option winpr_int_RC4_CTX) (count : Z) (d : crypt_dir) : crypt_dir :=
  mkDir (c_key d) (c_update_key d) count (c_checksum_use_count d) c (c_fips_key d) (c_fips d).
Definition set_counts (count checksum : Z) (d : crypt_dir) : crypt_dir :=
  mkDir (c_key d) (c_update_key d) count checksum (c_rc4 d) (c_fips_key d) (c_fips d).
Definition reset_update_key (d : crypt_dir) : crypt_dir :=
  mkDir (c_key d) (c_key d) 0 0 (c_rc4 d) (c_fips_key d) (c_fips d).

(** * Signatures *)

(** First64Bits(MD5(MACKeyN + pad2 + SHA1(MACKeyN + pad1 + length + data))) *)
Definition security_signature (r : rdpRdp) (data suffix : list Z) : outcome (option (list Z)) :=
  mac_key ← mem_read (rc4_key_len r) (sign_key r);
  mret (sha1_digest ← sha1 (mac_key ++ pad1 ++ security_UINT32_le (zlen data) ++ data ++ suffix);
        md5_digest ← md5 false (mac_key ++ pad2 ++ sha1_digest);
        mret (ztake 8 md5_digest)).
Definition security_mac_signature (r : rdpRdp) (data : list Z) : outcome (option (list Z)) :=
  security_signature r data [].
Definition security_salted_mac_signature (r : rdpRdp) (data : list Z) (encryption : bool) : outcome (option (list Z)) :=
  let use_count_le :=
    if encryption then security_UINT32_le (c_checksum_use_count (dir_encrypt r))
    else security_UINT32_le (u32 (c_checksum_use_count (dir_decrypt r) - 1)) in
  security_signature r data use_count_le.

Definition security_hmac (r : rdpRdp) (data : list Z) (use_count : Z) : option (list Z) :=
  buf ← hmac_sha1 (fips_sign_key r) (data ++ security_UINT32_le use_count); mret (ztake 8 buf).
Definition security_hmac_signature (r : rdpRdp) (data : list Z) : option (list Z) :=
  security_hmac r data (c_use_count (dir_encrypt r)).
(** The count goes up whatever the result. *)
Definition security_fips_check_signature (data sig : list Z) (r : rdpRdp) : bool * rdpRdp :=
  let d := dir_decrypt r in
  let r' := set_decrypt (set_counts (u32 (c_use_count d + 1)) (c_checksum_use_count d) d) r in
  match security_hmac r data (c_use_count d) with
  | None => (false, r')
  | Some buf => ((8 <=? zlen sig) && bool_decide (ztake 8 sig = buf), r')
  end.

(** * Keys *)

Definition reset_rc4 (key_len : Z) (d : crypt_dir) : outcome (bool * crypt_dir) :=
  rc4 ← winpr_RC4_New (c_key d) key_len;
  mret (bool_decide (is_Some rc4), set_rc4 rc4 0 d).
Definition rdp_reset_rc4_encrypt_keys (r : rdpRdp) : outcome (bool * rdpRdp) :=
  '(ok, d) ← reset_rc4 (rc4_key_len r) (dir_encrypt r); mret (ok, set_encrypt d r).
Definition rdp_reset_rc4_decrypt_keys (r : rdpRdp) : outcome (bool * rdpRdp) :=
  '(ok, d) ← reset_rc4 (rc4_key_len r) (dir_decrypt r); mret (ok, set_decrypt d r).

Definition salted (method : Z) (key : list Z) : list Z :=
  if method =? ENCRYPTION_METHOD_40BIT then zblit 0 key_salt key
  else if method =? ENCRYPTION_METHOD_56BIT then zblit 0 (ztake 1 key_salt) key
  else key.

(** The keys of the FIPS mode: signing, client to server, server to client. *)
Definition fips_keys (client_random server_random : list Z) : outcome (option (list Z * list Z * list Z)) :=
  let half n l := zslice n 16 l in
  match sha1 (half 16 client_random ++ half 16 server_random) with
  | None => mret None
  | Some client_encrypt_key_t =>
      match sha1 (half 0 client_random ++ half 0 server_random) with
      | None => mret None
      | Some client_decrypt_key_t =>
          match sha1 (client_decrypt_key_t ++ client_encrypt_key_t) with
          | None => mret None
          | Some fips_sign_key =>
              encrypt ← fips_expand_key_bits (client_encrypt_key_t ++ [zget client_encrypt_key_t 0]);
              decrypt ← fips_expand_key_bits (client_decrypt_key_t ++ [zget client_decrypt_key_t 0]);
              mret (Some (fips_sign_key, encrypt, decrypt))
          end
      end
  end.
Definition establish_fips (r : rdpRdp) : outcome (bool * rdpRdp) :=
  if EncryptionMethods r =? ENCRYPTION_METHOD_FIPS then
    keys ← fips_keys (ClientRandom r) (ServerRandom r);
    match keys with
    | None => mret (false, r)
    | Some (sign, encrypt, decrypt) =>
        let r := set_signing (sign_key r) sign (rc4_key_len r) r in
        let '(to, from) := if ServerMode r then (decrypt, encrypt) else (encrypt, decrypt) in
        mret (true, set_decrypt (set_fips_key from (dir_decrypt r)) (set_encrypt (set_fips_key to (dir_encrypt r)) r))
    end
  else mret (true, r).

(** The blob of 48 bytes the session keys are taken from. *)
Definition establish_blob (client_random server_random : list Z) : outcome (option (list Z)) :=
  let pre_master_secret := ztake 24 client_random ++ ztake 24 server_random in
  and_then (security_A pre_master_secret client_random server_random 48) (λ master_secret,
  security_X master_secret client_random server_random 48).

(** The keys of both directions, first the one from the server.  The second hash
    is computed even when the first fails; a failed one leaves its key as it was. *)
Definition establish_session (blob : list Z) (r : rdpRdp) : outcome (bool * rdpRdp) :=
  let h in0 := security_md5 (negb (ServerMode r)) in0 (ClientRandom r) (ServerRandom r) in
  from_server ← h (zdrop 16 blob);
  from_client ← h (zdrop 32 blob);
  let put k d := match k with Some k => set_key k d | None => d end in
  let '(to, from) := if ServerMode r then (from_server, from_client) else (from_client, from_server) in
  let r := set_decrypt (put from (dir_decrypt r)) (set_encrypt (put to (dir_encrypt r)) r) in
  mret (bool_decide (is_Some from_server) && bool_decide (is_Some from_client), r).

Definition new_key_len (method len : Z) : Z :=
  if (method =? ENCRYPTION_METHOD_40BIT) || (method =? ENCRYPTION_METHOD_56BIT) then 8
  else if method =? ENCRYPTION_METHOD_128BIT then 16
  else len.
Definition establish_strength (r : rdpRdp) : rdpRdp :=
  let m := EncryptionMethods r in
  let dir d := reset_update_key (set_key (salted m (c_key d)) d) in
  let r := set_signing (salted m (sign_key r)) (fips_sign_key r) (new_key_len m (rc4_key_len r)) r in
  set_decrypt (dir (dir_decrypt r)) (set_encrypt (dir (dir_encrypt r)) r).

Definition security_establish_keys (r : rdpRdp) : outcome (bool * rdpRdp) :=
  if negb ((zlen (ClientRandom r) =? 32) && (zlen (ServerRandom r) =? 32)) then mret (false, r)
  else
    '(ok, r) ← establish_fips r;
    if negb ok then mret (false, r)
    else
      blob ← establish_blob (ClientRandom r) (ServerRandom r);
      match blob with
      | None => mret (false, r)
      | Some blob =>
          let r := set_signing (ztake 16 blob) (fips_sign_key r) (rc4_key_len r) r in
          '(ok, r) ← establish_session blob r;
          if negb ok then mret (false, r) else mret (true, establish_strength r)
      end.

(** The new key of a direction.  MD5 writes all 16 bytes, RC4 the first [key_len]. *)
Definition security_key_update (key update_key : list Z) (key_len method : Z) : outcome (option unit * list Z) :=
  u ← mem_read key_len update_key;
  k ← mem_read key_len key;
  match sha1 (u ++ pad1 ++ k) with
  | None => mret (None, key)
  | Some sha1h =>
      match md5 false (u ++ pad2 ++ sha1h) with
      | None => mret (None, key)
      | Some key =>
          rc4 ← winpr_RC4_New key key_len;
          match rc4 with
          | None => mret (None, key)
          | Some rc4 =>
              let key := zblit 0 (fst (winpr_RC4_Update rc4 (ztake key_len key))) key in
              mret (Some tt, salted method key)
          end
      end
  end.

(** * Encryption *)

(** The common text of [security_encrypt] and [security_decrypt]. *)
Definition security_crypt (key_len method : Z) (data : list Z) (d : crypt_dir) :
    outcome (option (list Z) * crypt_dir) :=
  match c_rc4 d with
  | None => mret (None, d)
  | Some _ =>
      '(ok, d) ←
        (if 4096 <=? c_use_count d then
           '(ok, key) ← security_key_update (c_key d) (c_update_key d) key_len method;
           let d := set_key key d in
           match ok with
           | None => mret (false, d)
           | Some _ => reset_rc4 key_len d
           end
         else mret (true, d));
      match ok, c_rc4 d with
      | true, Some rc4 =>
          let '(data, rc4) := winpr_RC4_Update rc4 data in
          let d := set_rc4 (Some rc4) (u32 (c_use_count d + 1)) d in
          mret (Some data, set_counts (c_use_count d) (u32 (c_checksum_use_count d + 1)) d)
      | _, _ => mret (None, d)
      end
  end.
Definition security_encrypt (data : list Z) (r : rdpRdp) : outcome (option (list Z) * rdpRdp) :=
  '(data, d) ← security_crypt (rc4_key_len r) (EncryptionMethods r) data (dir_encrypt r); mret (data, set_encrypt d r).
Definition security_decrypt (data : list Z) (r : rdpRdp) : outcome (option (list Z) * rdpRdp) :=
  '(data, d) ← security_crypt (rc4_key_len r) (EncryptionMethods r) data (dir_decrypt r); mret (data, set_decrypt d r).

(** The cipher writes over the data as far as its output goes. *)
Definition fips_crypt (data : list Z) (c : cipher_ctx) : option (list Z * cipher_ctx) :=
  '(out, c) ← winpr_Cipher_Update c data; mret (zblit 0 (ztake (zlen data) out) data, c).
(** [security_fips_encrypt] does not look whether there is a context. *)
Definition security_fips_encrypt (data : list Z) (r : rdpRdp) : outcome (option (list Z) * rdpRdp) :=
  let d := dir_encrypt r in
  match c_fips d with
  | None => Abort
  | Some c =>
      match fips_crypt data c with
      | None => mret (None, r)
      | Some (out, c) =>
          mret (Some out, set_encrypt (set_counts (u32 (c_use_count d + 1)) (c_checksum_use_count d)
                                         (set_fips (Some c) d)) r)
      end
  end.
Definition security_fips_decrypt (data : list Z) (r : rdpRdp) : outcome (option (list Z) * rdpRdp) :=
  let d := dir_decrypt r in
  match c_fips d with
  | None => mret (None, r)
  | Some c =>
      match fips_crypt data c with
      | None => mret (None, r)
      | Some (out, c) => mret (Some out, set_decrypt (set_fips (Some c) d) r)
      end
  end.

(** * After the key exchange *)

Definition fips_ivec : list Z := [0x12; 0x34; 0x56; 0x78; 0x90; 0xAB; 0xCD; 0xEF].

(** The end of [rdp_client_establish_keys] and of [rdp_server_establish_keys], once both
    randoms are known: the keys and the contexts. *)
Definition rdp_establish_contexts (r : rdpRdp) : outcome (bool * rdpRdp) :=
  let fail r := set_decrypt (set_fips None (set_rc4 None (c_use_count (dir_decrypt r)) (dir_decrypt r)))
                  (set_encrypt (set_fips None (set_rc4 None (c_use_count (dir_encrypt r)) (dir_encrypt r))) r) in
  '(ok, r) ← security_establish_keys r;
  if negb ok then mret (false, fail r)
  else if EncryptionMethods r =? ENCRYPTION_METHOD_FIPS then
    match winpr_Cipher_NewEx true (c_fips_key (dir_encrypt r)) fips_ivec with
    | None => mret (false, fail r)
    | Some e =>
        match winpr_Cipher_NewEx false (c_fips_key (dir_decrypt r)) fips_ivec with
        | None => mret (false, fail r)
        | Some d =>
            mret (true, set_decrypt (set_fips (Some d) (dir_decrypt r)) (set_encrypt (set_fips (Some e) (dir_encrypt r)) r))
        end
    end
  else
    '(ok, r) ← rdp_reset_rc4_encrypt_keys r;
    if negb ok then mret (false, fail r)
    else
      '(ok, r) ← rdp_reset_rc4_decrypt_keys r;
      if negb ok then mret (false, fail r) else mret (true, r).
End security.
