(* ===== verification/SecurityCorrect.v ===== *)
(** Session security keeps its two ends together: both derive the same keys
    from the randoms, and a packet one side protects is accepted and restored by the
    other, through every renewal of the keys. *)

From S2P Require Import Prelude Stream StreamLogic Rc4 Security.
From stdpp Require Import prelude list numbers.
From Stdlib Require Import ZArith Lia.

#[local] Close Scope winpr_scope.
#[local] Open Scope Z_scope.

Create HintDb crypto.

Lemma UINT32_le_bytes v : bytes (security_UINT32_le v).
Proof.
  unfold security_UINT32_le. repeat apply Forall_cons_2; try apply Forall_nil_2;
    rewrite land_255; unfold is_byte; apply Z.mod_pos_bound; lia.
Qed.

(** * The tables of the FIPS keys *)

Definition odd_parity (b : Z) : bool :=
  Nat.odd (length (List.filter (Z.testbit b) (map Z.of_nat (seq 0 8)))).
Definition reversed (b : Z) : Z :=
  fold_right (λ i acc, if Z.testbit b i then Z.lor acc (Z.shiftl 1 (7 - i)) else acc) 0 (map Z.of_nat (seq 0 8)).

Lemma reverse_table_spec b : is_byte b → zget fips_reverse_table b = reversed b.
Proof.
  intros Hb. apply Z.eqb_eq. revert b Hb. apply byte_cases. by vm_compute.
Qed.
Lemma reverse_table_byte b : is_byte b → is_byte (zget fips_reverse_table b).
Proof.
  intros Hb. apply zget_byte. by apply (bool_decide_unpack _); vm_compute.
Qed.
(** Only the last bit of a byte is changed. *)
Lemma oddparity_table_spec b :
  is_byte b → is_byte (zget fips_oddparity_table b) ∧ odd_parity (zget fips_oddparity_table b) = true ∧
    Z.shiftr (zget fips_oddparity_table b) 1 = Z.shiftr b 1.
Proof.
  intros Hb.
  assert (bool_decide (is_byte (zget fips_oddparity_table b)) && odd_parity (zget fips_oddparity_table b) &&
    (Z.shiftr (zget fips_oddparity_table b) 1 =? Z.shiftr b 1) = true) as H.
  { revert b Hb. apply byte_cases. by vm_compute. }
  apply andb_prop in H as [H H3]. apply andb_prop in H as [H1 H2]. apply bool_decide_eq_true in H1. apply Z.eqb_eq in H3. done.
Qed.

Section fips.
Lemma expand_byte_ok buf i :
  bytes buf → 0 <= i < 24 → ∃ c, expand_byte buf i = Ret c ∧ is_byte c.
Proof.
  intros Hb Hi. unfold expand_byte, ASSERT.
  assert (7 * i / 8 < 21 ∧ (1 < (7 * i) mod 8 → 7 * i / 8 + 1 < 21)) as [Hp Hq].
  { assert (i = 23 ∨ i < 23) as [->|]; [lia|by vm_compute|div_mod_lia]. }
  destruct (Z.ltb_spec (7 * i / 8) 21); [|lia]. cbn [mbind outcome_bind].
  assert (∀ c, is_byte (Z.land c 254)) as Hc.
  { intros c. unfold is_byte. split; [apply Z.land_nonneg; lia|].
    change 254 with (Z.land 254 255). rewrite Z.land_assoc. rewrite land_255. apply Z.mod_pos_bound. lia. }
  destruct (Z.leb_spec ((7 * i) mod 8) 1); [by eexists|].
  destruct (Z.ltb_spec (7 * i / 8 + 1) 21); [|lia]. cbn [mbind outcome_bind]. by eexists.
Qed.
Lemma expand_loop_ok buf n i :
  bytes buf → 0 <= i → i + Z.of_nat n <= 24 → ∃ out, expand_loop buf n i = Ret out ∧ bytes out ∧ zlen out = Z.of_nat n.
Proof.
  intros Hb. revert i. induction n as [|n IH]; intros i Hi Hn; cbn [expand_loop]; [by exists []; split_and!; [|apply Forall_nil_2|]|].
  destruct (expand_byte_ok buf i Hb) as (c & -> & Hc); [lia|]. cbn [mbind outcome_bind].
  destruct (IH (i + 1)) as (out & -> & Ho & Hl); [lia..|]. exists (c :: out). split; [done|].
  split; [by apply Forall_cons_2|]. rewrite zlen_cons. lia.
Qed.
(** A key of the block cipher: 24 bytes of odd parity. *)
Lemma expand_key_ok key :
  bytes key → 21 <= zlen key →
  ∃ out, fips_expand_key_bits key = Ret out ∧ zlen out = 24 ∧ Forall (λ b, is_byte b ∧ odd_parity b = true) out.
Proof.
  intros Hb Hl. unfold fips_expand_key_bits, ASSERT. destruct (Z.leb_spec 21 (zlen key)); [|lia]. cbn [mbind outcome_bind].
  destruct (expand_loop_ok (map (zget fips_reverse_table) (ztake 21 key)) 24 0) as (out & -> & Ho & Hz); [|lia..|].
  { apply Forall_map. eapply Forall_impl; [|by apply Forall_ztake]. by intros; apply reverse_table_byte. }
  eexists. split; [done|]. split; [by unfold zlen in *; rewrite length_map|].
  apply Forall_map. eapply Forall_impl; [|apply Ho]. intros c Hc.
  pose proof (oddparity_table_spec (zget fips_reverse_table c) (reverse_table_byte c Hc)) as (? & ? & ?). done.
Qed.
End fips.

(** * Two ends *)

Section sync.
Context {HM : Malloc} {HD : Digests} {HC : Cipher} {HDL : DigestLaws} {HCL : CipherLaws}.

(** Memory is granted and the crypto library does not refuse. *)
Record crypto_available : Prop := {
  av_malloc n : malloc_ok n = true;
  av_sha1 m : is_Some (sha1 m);
  av_md5 a m : is_Some (md5 a m);
  av_hmac k m : is_Some (hmac_sha1 k m);
  av_cipher_new b k : zlen k = 24 → is_Some (winpr_Cipher_NewEx b k fips_ivec);
  av_cipher e d data : cipher_pair e d → zlen data mod 8 = 0 → is_Some (winpr_Cipher_Update e data);
}.
(** A result, or one of these failed. *)
Definition on_success {A} (P : A → Prop) (o : option A) : Prop :=
  match o with Some a => P a | None => ¬ crypto_available end.
Lemma sha1_fails m : sha1 m = None → ¬ crypto_available.
Proof. intros E Hav. pose proof (av_sha1 Hav m) as H. rewrite E in H. by destruct H. Qed.
Lemma md5_fails a m : md5 a m = None → ¬ crypto_available.
Proof. intros E Hav. pose proof (av_md5 Hav a m) as H. rewrite E in H. by destruct H. Qed.
Lemma hmac_fails k m : hmac_sha1 k m = None → ¬ crypto_available.
Proof. intros E Hav. pose proof (av_hmac Hav k m) as H. rewrite E in H. by destruct H. Qed.
Lemma rc4_fails key keylen : winpr_RC4_New key keylen = Ret None → 0 < keylen <= zlen key → ¬ crypto_available.
Proof. intros E Hk Hav. destruct (rc4_new_some key keylen (av_malloc Hav) Hk) as [c Hc]. congruence. Qed.
#[local] Hint Resolve sha1_fails md5_fails hmac_fails rc4_fails : crypto.
Ltac crypto_failed := split; [reflexivity|split; [done|cbn [on_success]; solve [eauto with crypto]]].

(** A direction is ready: keys of 16 bytes and a context of its method. *)
Record dir_ok (method : Z) (d : crypt_dir) : Prop := {
  ok_key : zlen (c_key d) = 16 ∧ bytes (c_key d);
  ok_update_key : zlen (c_update_key d) = 16 ∧ bytes (c_update_key d);
  ok_count : 0 <= c_use_count d <= UINT32_MAX;
  ok_checksum : 0 <= c_checksum_use_count d <= UINT32_MAX;
  ok_rc4 : method ≠ ENCRYPTION_METHOD_FIPS → ∃ c, c_rc4 d = Some c ∧ rc4_ok c;
  ok_fips : method = ENCRYPTION_METHOD_FIPS → is_Some (c_fips d);
}.
(** The two ends of a direction, the encrypting one first. *)
Record dir_sync (method : Z) (e d : crypt_dir) : Prop := {
  sync_ok : dir_ok method e;
  sync_key : c_key d = c_key e;
  sync_update_key : c_update_key d = c_update_key e;
  sync_count : c_use_count d = c_use_count e;
  sync_checksum : method ≠ ENCRYPTION_METHOD_FIPS → c_checksum_use_count d = c_checksum_use_count e;
  sync_rc4 : method ≠ ENCRYPTION_METHOD_FIPS → c_rc4 d = c_rc4 e;
  sync_fips : method = ENCRYPTION_METHOD_FIPS → ∃ ce cd, c_fips e = Some ce ∧ c_fips d = Some cd ∧ cipher_pair ce cd;
}.
Definition rc4_method (m : Z) : Prop :=
  m = ENCRYPTION_METHOD_40BIT ∨ m = ENCRYPTION_METHOD_56BIT ∨ m = ENCRYPTION_METHOD_128BIT.
Record same_session (r1 r2 : rdpRdp) : Prop := {
  same_method : EncryptionMethods r2 = EncryptionMethods r1;
  same_sign : sign_key r2 = sign_key r1;
  same_fips_sign : EncryptionMethods r1 = ENCRYPTION_METHOD_FIPS → fips_sign_key r2 = fips_sign_key r1;
  same_len : EncryptionMethods r1 ≠ ENCRYPTION_METHOD_FIPS → rc4_key_len r2 = rc4_key_len r1;
  session_method : rc4_method (EncryptionMethods r1) ∨ EncryptionMethods r1 = ENCRYPTION_METHOD_FIPS;
  session_len : EncryptionMethods r1 ≠ ENCRYPTION_METHOD_FIPS → rc4_key_len r1 = 8 ∨ rc4_key_len r1 = 16;
  session_sign : zlen (sign_key r1) = 16 ∧ bytes (sign_key r1);
}.
(** What [r1] sends, [r2] is ready to receive. *)
Record sec_sync (r1 r2 : rdpRdp) : Prop := {
  sec_same : same_session r1 r2;
  sec_dir : dir_sync (EncryptionMethods r1) (dir_encrypt r1) (dir_decrypt r2);
}.

Lemma salted_ok m key : zlen key = 16 → bytes key → zlen (salted m key) = 16 ∧ bytes (salted m key).
Proof.
  intros Hl Hb. unfold salted, key_salt.
  assert (∀ s, bytes s → zlen s <= 16 → zlen (zblit 0 s key) = 16 ∧ bytes (zblit 0 s key)) as H.
  { intros s Hs Hz. pose proof (zlen_nonneg s). split; [rewrite zlen_zblit; lia|by apply Forall_zblit]. }
  destruct (_ =? _); [apply H; [by apply (bool_decide_unpack _); vm_compute|by vm_compute]|].
  destruct (_ =? _); [apply H; [by apply (bool_decide_unpack _); vm_compute|by vm_compute]|]. done.
Qed.

(** The update gives a key again, or fails. *)
Lemma key_update_ok key update_key key_len m :
  zlen key = 16 → bytes key → zlen update_key = 16 → key_len = 8 ∨ key_len = 16 →
  ∃ o key', security_key_update key update_key key_len m = Ret (o, key') ∧ (zlen key' = 16 ∧ bytes key') ∧ on_success (λ _, True) o.
Proof.
  intros Hk Hb Hu Hl. unfold security_key_update, mem_read.
  destruct (Z.leb_spec key_len (zlen update_key)); [|lia]. destruct (Z.leb_spec key_len (zlen key)); [|lia].
  cbn [mbind outcome_bind]. destruct (sha1 _) as [h|] eqn:Eh; [|do 2 eexists; crypto_failed].
  destruct (md5 false _) as [k|] eqn:E; [|do 2 eexists; crypto_failed]. apply md5_length in E as [Hk' Hb'].
  destruct (rc4_new_total k key_len ltac:(lia)) as [o Ho]. rewrite Ho. cbn [mbind outcome_bind].
  assert (0 < key_len <= zlen k) by lia. destruct o as [rc4|]; [|do 2 eexists; crypto_failed].
  do 2 eexists. split; [done|]. split; [|done].
  destruct (winpr_RC4_Update rc4 (ztake key_len k)) as [out rc4'] eqn:Eu.
  apply rc4_update_ok in Eu as (_ & Hob & Hol); [|by eapply rc4_new_ok|by apply Forall_ztake].
  rewrite zlen_ztake in Hol. apply salted_ok.
  - cbn [fst]. rewrite zlen_zblit; lia.
  - by apply Forall_zblit.
Qed.

Lemma reset_rc4_ok key_len d :
  zlen (c_key d) = 16 → key_len = 8 ∨ key_len = 16 →
  ∃ rc4, reset_rc4 key_len d = Ret (bool_decide (is_Some rc4), set_rc4 rc4 0 d) ∧ on_success rc4_ok rc4.
Proof.
  intros Hk Hl. unfold reset_rc4. destruct (rc4_new_total (c_key d) key_len ltac:(lia)) as [o Ho]. rewrite Ho.
  exists o. split; [done|]. destruct o as [c|]; [by eapply rc4_new_ok|]. apply (rc4_fails _ _ Ho). lia.
Qed.

Definition renewed (key_len m : Z) (d : crypt_dir) : outcome (bool * crypt_dir) :=
  if 4096 <=? c_use_count d then
    '(ok, key) ← security_key_update (c_key d) (c_update_key d) key_len m;
    let d := set_key key d in
    match ok with
    | None => mret (false, d)
    | Some _ => reset_rc4 key_len d
    end
  else mret (true, d).

(** Encryption of any data succeeds or fails for want of memory or of a digest. *)
Lemma security_crypt_total key_len m data d :
  dir_ok m d → m ≠ ENCRYPTION_METHOD_FIPS → key_len = 8 ∨ key_len = 16 → bytes data →
  ∃ o d', security_crypt key_len m data d = Ret (o, d') ∧
    on_success (λ out, dir_ok m d' ∧ zlen out = zlen data ∧ bytes out) o.
Proof.
  intros Hd Hm Hl Hdata. unfold security_crypt. fold (renewed key_len m d).
  destruct (ok_rc4 _ _ Hd Hm) as (c & Hc & Hcok). rewrite Hc.
  assert (∃ ok d1, renewed key_len m d = Ret (ok, d1) ∧ if ok then dir_ok m d1 else ¬ crypto_available) as (ok & d1 & -> & Hd1).
  { unfold renewed. pose proof Hd as [[Hk Hkb] [Hu Hub] Hct Hcs Hr Hf]. destruct (_ <=? _); [|by do 2 eexists].
    destruct (key_update_ok (c_key d) (c_update_key d) key_len m) as (o & key' & -> & [Hk' Hb'] & Ho); [done..|].
    cbn [mbind outcome_bind]. destruct o as [|]; [|by do 2 eexists].
    destruct (reset_rc4_ok key_len (set_key key' d)) as (rc4 & -> & Hrc); [done..|]. do 2 eexists. split; [done|].
    destruct rc4 as [c'|]; [rewrite bool_decide_true by done|by rewrite bool_decide_false by (by intros [])].
    split; try done. intros _. by exists c'. }
  cbn [mbind outcome_bind]. destruct ok; [|by do 2 eexists].
  destruct (ok_rc4 _ _ Hd1 Hm) as (c1 & -> & Hc1). destruct (winpr_RC4_Update c1 data) as [out c2] eqn:E.
  apply rc4_update_ok in E as (Hc2 & Hob & Hol); [|done..]. do 2 eexists. split; [done|]. split; [|done].
  destruct Hd1 as [Hk Hu Hct Hcs Hr Hf]. split; try done.
  - apply u32_max.
  - apply u32_max.
  - intros _. by exists c2.
Qed.
(** What a direction encrypts, the same direction decrypts. *)
Lemma security_crypt_undo key_len m data d out d' :
  security_crypt key_len m data d = Ret (Some out, d') → security_crypt key_len m out d = Ret (Some data, d').
Proof.
  unfold security_crypt. fold (renewed key_len m d). destruct (c_rc4 d); [|done].
  destruct (renewed key_len m d) as [[ok d1]|]; [|done]. cbn [mbind outcome_bind]. destruct ok; [|done].
  destruct (c_rc4 d1) as [c1|]; [|done]. destruct (winpr_RC4_Update c1 data) as [o c2] eqn:E.
  intros [= <- <-]. by rewrite (rc4_undo _ _ _ _ E).
Qed.

(** The fields of the block cipher are not touched. *)
Definition refips (key : list Z) (c : option cipher_ctx) (d : crypt_dir) : crypt_dir := set_fips c (set_fips_key key d).
Lemma renewed_frame key_len m key c d :
  renewed key_len m (refips key c d) =
  '(ok, d') ← renewed key_len m d; mret (ok, refips key c d').
Proof.
  unfold renewed. cbn [refips set_fips set_fips_key c_use_count c_key c_update_key].
  destruct (_ <=? _); [|done]. destruct (security_key_update _ _ _ _) as [[[] k]|]; [|done..].
  cbn [mbind outcome_bind]. unfold reset_rc4. cbn [set_key c_key refips set_fips set_fips_key].
  by destruct (winpr_RC4_New k key_len).
Qed.
Lemma security_crypt_frame key_len m data key c d :
  security_crypt key_len m data (refips key c d) =
  '(o, d') ← security_crypt key_len m data d; mret (o, refips key c d').
Proof.
  unfold security_crypt. fold (renewed key_len m d). fold (renewed key_len m (refips key c d)). rewrite renewed_frame.
  cbn [c_rc4 refips set_fips set_fips_key]. destruct (c_rc4 d); [|done].
  destruct (renewed key_len m d) as [[[] d1]|]; [|done..]. cbn [mbind outcome_bind mret outcome_ret].
  cbn [c_rc4 refips set_fips set_fips_key]. destruct (c_rc4 d1) as [c1|]; [|done]. by destruct (winpr_RC4_Update c1 data).
Qed.
Lemma dir_sync_refips m e d :
  dir_sync m e d → m ≠ ENCRYPTION_METHOD_FIPS → d = refips (c_fips_key d) (c_fips d) e.
Proof.
  intros [_ Hk Hu Hn Hc Hr _] Hm. specialize (Hc Hm). specialize (Hr Hm). destruct d, e. cbn in *. by subst.
Qed.

Lemma crypt_sync key_len m data e d out e' :
  dir_sync m e d → m ≠ ENCRYPTION_METHOD_FIPS → key_len = 8 ∨ key_len = 16 → bytes data →
  security_crypt key_len m data e = Ret (Some out, e') →
  ∃ d', security_crypt key_len m out d = Ret (Some data, d') ∧ dir_sync m e' d' ∧ zlen out = zlen data ∧ bytes out.
Proof.
  intros Hs Hm Hl Hb E. rewrite (dir_sync_refips m e d Hs Hm).
  destruct (security_crypt_total key_len m data e (sync_ok _ _ _ Hs) Hm Hl Hb) as (o & e2 & E2 & Ho).
  rewrite E2 in E. injection E as -> ->. destruct Ho as (Hok & Hzl & Hob).
  eexists. split; [by rewrite security_crypt_frame, (security_crypt_undo _ _ _ _ _ _ E2)|]. split; [|done].
  split; cbn [refips set_fips set_fips_key c_key c_update_key c_use_count c_checksum_use_count c_rc4 c_fips]; done.
Qed.

(** The count a packet is signed with, seen from the other side. *)
Lemma checksum_count key_len m data d out d' :
  security_crypt key_len m data d = Ret (Some out, d') →
  c_checksum_use_count d' = u32 (c_checksum_use_count d + 1).
Proof.
  unfold security_crypt. fold (renewed key_len m d). destruct (c_rc4 d); [|done].
  destruct (renewed key_len m d) as [[ok d1]|] eqn:Er; [|done]. cbn [mbind outcome_bind]. destruct ok; [|done].
  assert (c_checksum_use_count d1 = c_checksum_use_count d) as Hd.
  { revert Er. unfold renewed, reset_rc4. destruct (_ <=? _); [|by intros [= <-]].
    destruct (security_key_update _ _ _ _) as [[[] k]|]; [|done..]. cbn [mbind outcome_bind mret outcome_ret].
    destruct (winpr_RC4_New _ _); [|done]. by intros [= _ <-]. }
  destruct (c_rc4 d1) as [c1|]; [|done]. destruct (winpr_RC4_Update c1 data) as [o c2]. intros [= <- <-].
  cbn [set_counts set_rc4 c_checksum_use_count]. by rewrite Hd.
Qed.

Definition checksum (r : rdpRdp) (secure encryption : bool) (data : list Z) : outcome (option (list Z)) :=
  if secure then security_salted_mac_signature r data encryption else security_mac_signature r data.

Lemma checksum_total r secure encryption data :
  0 <= rc4_key_len r <= zlen (sign_key r) →
  ∃ o, checksum r secure encryption data = Ret o ∧ on_success (λ sig, zlen sig = 8 ∧ bytes sig) o.
Proof.
  intros Hl.
  assert (∀ suffix, ∃ o, security_signature r data suffix = Ret o ∧ on_success (λ sig, zlen sig = 8 ∧ bytes sig) o) as H.
  { intros suffix. unfold security_signature, mem_read. destruct (Z.leb_spec (rc4_key_len r) (zlen (sign_key r))); [|lia].
    eexists. split; [done|]. destruct (sha1 _) eqn:Eh; [|by eapply sha1_fails]. cbn [mbind option_bind].
    destruct (md5 false _) as [d|] eqn:E; [|by eapply md5_fails]. apply md5_length in E as [E Hb].
    cbn. split; [rewrite zlen_ztake; lia|by apply Forall_ztake]. }
  unfold checksum, security_salted_mac_signature, security_mac_signature. destruct secure; apply H.
Qed.

(** A packet under RC4: signed, encrypted, decrypted, and the signature agrees. *)
Lemma rc4_packet r1 r2 secure data sig out r1' :
  sec_sync r1 r2 → EncryptionMethods r1 ≠ ENCRYPTION_METHOD_FIPS → bytes data →
  checksum r1 secure true data = Ret (Some sig) → security_encrypt data r1 = Ret (Some out, r1') →
  ∃ r2', security_decrypt out r2 = Ret (Some data, r2') ∧ checksum r2' secure false data = Ret (Some sig) ∧
    sec_sync r1' r2' ∧ zlen out = zlen data ∧ bytes out.
Proof.
  intros [Hss Hd] Hm Hb Hsig E. pose proof Hss as [Hme Hsi Hfs Hle Hmo Hsl Hsg]. specialize (Hle Hm). specialize (Hsl Hm).
  unfold security_encrypt in E. destruct (security_crypt _ _ data _) as [[o e']|] eqn:Ec; [|done].
  cbn [mbind outcome_bind mret outcome_ret] in E. injection E as -> <-.
  destruct (crypt_sync _ _ _ _ _ _ _ Hd Hm Hsl Hb Ec) as (d' & Ed & Hd' & Hol & Hob).
  eexists. split; [unfold security_decrypt; by rewrite Hle, Hme, Ed|]. split; [|split; [|done]].
  - rewrite <- Hsig. apply checksum_count in Ed as Hc.
    unfold checksum, security_salted_mac_signature, security_mac_signature, security_signature.
    cbn [set_decrypt sign_key rc4_key_len dir_decrypt dir_encrypt]. rewrite Hsi, Hle. destruct secure; [|done].
    assert (u32 (c_checksum_use_count d' - 1) = c_checksum_use_count (dir_encrypt r1)) as ->; [|done].
    rewrite Hc, (sync_checksum _ _ _ Hd Hm). pose proof (ok_checksum _ _ (sync_ok _ _ _ Hd)) as Hr.
    unfold UINT32_MAX in Hr. unfold u32. div_mod_lia.
  - split; [|done]. split; done.
Qed.

Lemma zblit_whole (out l : list Z) : zlen out = zlen l → zblit 0 (ztake (zlen l) out) l = out.
Proof.
  intros H. unfold zblit. rewrite (ztake_all (zlen l)) by lia. rewrite ztake_nonpos by lia. rewrite zdrop_all by lia.
  by rewrite app_nil_l, app_nil_r.
Qed.

(** A packet under the block cipher, with the padding the sender adds. *)
Lemma fips_packet r1 r2 data pad sig out r1' :
  sec_sync r1 r2 → EncryptionMethods r1 = ENCRYPTION_METHOD_FIPS → bytes (data ++ pad) → zlen (data ++ pad) mod 8 = 0 →
  security_hmac_signature r1 data = Some sig → security_fips_encrypt (data ++ pad) r1 = Ret (Some out, r1') →
  ∃ r2a r2', security_fips_decrypt out r2 = Ret (Some (data ++ pad), r2a) ∧
    security_fips_check_signature data sig r2a = (true, r2') ∧ sec_sync r1' r2' ∧ zlen sig = 8 ∧ bytes sig ∧
    zlen out = zlen (data ++ pad) ∧ bytes out.
Proof.
  intros [Hss Hd] Hm Hb Hmod Hsig. pose proof Hss as [Hme Hsi Hfs Hle Hmo Hsl Hsg]. specialize (Hfs Hm).
  destruct (sync_fips _ _ _ Hd Hm) as (ce & cd & He & Hdd & Hp).
  unfold security_fips_encrypt, security_fips_decrypt, fips_crypt. rewrite He, Hdd.
  destruct (winpr_Cipher_Update ce (data ++ pad)) as [[o ce']|] eqn:E; [|done].
  destruct (cipher_pair_update _ _ _ _ _ Hp Hb Hmod E) as (Hol & Hob & cd' & Ed & Hp').
  cbn [mbind option_bind mret option_ret]. rewrite zblit_whole by done. intros [= <- <-].
  rewrite Ed. cbn [mbind option_bind mret option_ret]. rewrite zblit_whole by lia.
  unfold security_hmac_signature, security_hmac in Hsig. destruct (hmac_sha1 _ _) as [buf|] eqn:Eh; [|done].
  cbn [mbind option_bind mret option_ret] in Hsig. injection Hsig as <-. pose proof (hmac_sha1_length _ _ _ Eh) as [Hbl Hbb].
  assert (zlen (ztake 8 buf) = 8) as H8 by (rewrite zlen_ztake; lia).
  do 2 eexists. split; [done|]. split.
  - unfold security_fips_check_signature, security_hmac. cbn [set_decrypt dir_decrypt set_fips c_use_count fips_sign_key].
    rewrite (sync_count _ _ _ Hd), Hfs, Eh. cbn [mbind option_bind mret option_ret]. rewrite H8.
    rewrite ztake_ztake by lia. by rewrite bool_decide_true.
  - split; [|split_and!; [done|by apply Forall_ztake|done|done]].
    split; [by split|]. destruct Hd as [Hok Hk Hu Hn Hc Hr Hf].
    split; cbn [set_encrypt set_decrypt dir_encrypt dir_decrypt EncryptionMethods set_counts set_fips
      c_key c_update_key c_use_count c_checksum_use_count c_rc4 c_fips c_fips_key]; try done.
    + destruct Hok as [? ? ? ? ? ?]. split; cbn [c_key c_update_key c_use_count c_checksum_use_count c_rc4 c_fips]; try done.
      apply u32_max.
    + intros _. by exists ce', cd'.
Qed.

Lemma hmac_signature_total r data : on_success (λ sig, zlen sig = 8 ∧ bytes sig) (security_hmac_signature r data).
Proof.
  unfold security_hmac_signature, security_hmac. destruct (hmac_sha1 _ _) as [h|] eqn:Eh; [|by eapply hmac_fails].
  apply hmac_sha1_length in Eh as []. cbn. split; [rewrite zlen_ztake; lia|by apply Forall_ztake].
Qed.
Lemma fips_encrypt_total r1 r2 data :
  sec_sync r1 r2 → EncryptionMethods r1 = ENCRYPTION_METHOD_FIPS → zlen data mod 8 = 0 →
  ∃ o r', security_fips_encrypt data r1 = Ret (o, r') ∧ on_success (λ _, True) o.
Proof.
  intros Hs Hm Hd. unfold security_fips_encrypt, fips_crypt. destruct (sync_fips _ _ _ (sec_dir _ _ Hs) Hm) as (ce & cd & -> & _ & Hp).
  destruct (winpr_Cipher_Update ce data) as [[out c]|] eqn:E; [by do 2 eexists|]. do 2 eexists. split; [done|].
  intros Hav. destruct (av_cipher Hav ce cd data Hp Hd). congruence.
Qed.

(** * The keys *)

Lemma and_then_Some {A B} (m : outcome (option A)) (k : A → outcome (option B)) b :
  and_then m k = Ret (Some b) → ∃ a, m = Ret (Some a) ∧ k a = Ret (Some b).
Proof. destruct m as [[a|]|]; [|done..]. by exists a. Qed.

Lemma salted_hash_total salt input s1 s2 n :
  zlen salt = 48 → zlen s1 = 32 → zlen s2 = 32 → 16 <= n →
  ∃ o, security_salted_hash salt input s1 s2 n = Ret o ∧ on_success (λ d, zlen d = 16 ∧ bytes d) o.
Proof.
  intros H1 H2 H3 Hn. unfold security_salted_hash, ASSERT. rewrite H1, H2, H3. destruct (Z.leb_spec 16 n); [|lia].
  cbn [mbind outcome_bind Z.eqb Pos.eqb]. eexists. split; [done|]. destruct (sha1 _) eqn:Eh; [|by eapply sha1_fails].
  cbn [mbind option_bind]. destruct (md5 true _) as [d|] eqn:E; [by apply md5_length in E|by eapply md5_fails].
Qed.
(** Three hashes in a row. *)
Lemma three_hashes (h : list Z → Z → outcome (option (list Z))) a b c :
  (∀ i n, 16 <= n → ∃ o, h i n = Ret o ∧ on_success (λ d, zlen d = 16 ∧ bytes d) o) →
  ∃ o, and_then (h a 16) (λ x, and_then (h b 16) (λ y, and_then (h c (u64 (48 - 32))) (λ z, mret (Some (x ++ y ++ z))))) =
    Ret o ∧ on_success (λ d, zlen d = 48 ∧ bytes d) o.
Proof.
  intros H. change (u64 (48 - 32)) with 16.
  destruct (H a 16 ltac:(lia)) as ([x|] & -> & Hx); [|by eexists]. destruct (H b 16 ltac:(lia)) as ([y|] & -> & Hy); [|by eexists].
  destruct (H c 16 ltac:(lia)) as ([z|] & -> & Hz); [|by eexists]. cbn in Hx, Hy, Hz. eexists. split; [done|].
  cbn. rewrite !zlen_app. split; [lia|]. destruct Hx, Hy, Hz. by repeat apply Forall_app_2.
Qed.
Lemma blob_total cr sr :
  zlen cr = 32 → zlen sr = 32 → ∃ o, establish_blob cr sr = Ret o ∧ on_success (λ d, zlen d = 48 ∧ bytes d) o.
Proof.
  intros Hc Hs. unfold establish_blob, security_A, security_X, security_premaster_hash.
  change (ASSERT (32 <=? 48)) with (Ret tt). cbn [mbind outcome_bind].
  destruct (three_hashes (λ i n, security_salted_hash (ztake 24 cr ++ ztake 24 sr) i cr sr n) str_A str_BB str_CCC)
    as (o & -> & Ho).
  { intros. apply salted_hash_total; try done. rewrite zlen_app, !zlen_ztake. lia. }
  destruct o as [ms|]; [|by eexists]. destruct Ho as [Ho _]. cbn [and_then].
  apply (three_hashes (λ i n, security_salted_hash ms i cr sr n)). intros. by apply salted_hash_total.
Qed.
Lemma security_md5_total allow in0 in1 in2 :
  16 <= zlen in0 → zlen in1 = 32 → zlen in2 = 32 →
  security_md5 allow in0 in1 in2 = Ret (md5 allow (ztake 16 in0 ++ in1 ++ in2)).
Proof.
  intros H0 H1 H2. unfold security_md5, mem_read. destruct (Z.leb_spec 16 (zlen in0)); [|lia].
  rewrite H1, H2. cbn [mbind outcome_bind Z.leb Z.compare Pos.compare Pos.compare_cont].
  rewrite !(ztake_all 32) by lia. done.
Qed.
Lemma fips_keys_total cr sr :
  ∃ o, fips_keys cr sr = Ret o ∧ on_success (λ '(s, e, d), zlen s = 20 ∧ zlen e = 24 ∧ zlen d = 24) o.
Proof.
  unfold fips_keys. destruct (sha1 (zslice 16 16 cr ++ zslice 16 16 sr)) as [e|] eqn:Ee; [|by exists None; split; [|by eapply sha1_fails]].
  destruct (sha1 (zslice 0 16 cr ++ zslice 0 16 sr)) as [d|] eqn:Ed; [|by exists None; split; [|by eapply sha1_fails]].
  destruct (sha1 (d ++ e)) as [s|] eqn:Es; [|by exists None; split; [|by eapply sha1_fails]].
  apply sha1_length in Ee as [Hel Heb]. apply sha1_length in Ed as [Hdl Hdb]. apply sha1_length in Es as [Hsl Hsb].
  assert (∀ k, zlen k = 20 → bytes k → ∃ out, fips_expand_key_bits (k ++ [zget k 0]) = Ret out ∧ zlen out = 24) as Hx.
  { intros k Hk Hb. destruct (expand_key_ok (k ++ [zget k 0])) as (out & -> & Hz & _).
    - apply Forall_app_2; [done|]. by apply Forall_singleton, zget_byte.
    - rewrite zlen_app, zlen_cons. change (zlen (@nil Z)) with 0. lia.
    - by eexists. }
  destruct (Hx e Hel Heb) as (ex & -> & Hex). destruct (Hx d Hdl Hdb) as (dx & -> & Hdx). by eexists.
Qed.

Definition session_key (r : rdpRdp) (blob : list Z) (off : Z) : option (list Z) :=
  md5 (negb (ServerMode r)) (ztake 16 (zdrop off blob) ++ ClientRandom r ++ ServerRandom r).
Definition fresh (m : Z) (k : list Z) (d : crypt_dir) : Prop :=
  c_key d = salted m k ∧ c_update_key d = salted m k ∧ c_use_count d = 0 ∧ c_checksum_use_count d = 0.
(** [r'] has the session keys of the randoms of [r], [kS] for what the server sends and
    [kC] for what the client sends. *)
Record established (r r' : rdpRdp) (blob kS kC : list Z) : Prop := {
  est_randoms : zlen (ClientRandom r) = 32 ∧ zlen (ServerRandom r) = 32;
  est_blob : establish_blob (ClientRandom r) (ServerRandom r) = Ret (Some blob);
  est_server : session_key r blob 16 = Some kS;
  est_client : session_key r blob 32 = Some kC;
  est_method : EncryptionMethods r' = EncryptionMethods r;
  est_mode : ServerMode r' = ServerMode r;
  est_sign : sign_key r' = salted (EncryptionMethods r) (ztake 16 blob);
  est_len : rc4_key_len r' = new_key_len (EncryptionMethods r) (rc4_key_len r);
  est_encrypt : fresh (EncryptionMethods r) (if ServerMode r then kS else kC) (dir_encrypt r');
  est_decrypt : fresh (EncryptionMethods r) (if ServerMode r then kC else kS) (dir_decrypt r');
  est_fips : EncryptionMethods r = ENCRYPTION_METHOD_FIPS → ∃ sg e d,
    fips_keys (ClientRandom r) (ServerRandom r) = Ret (Some (sg, e, d)) ∧ fips_sign_key r' = sg ∧ zlen e = 24 ∧ zlen d = 24 ∧
    c_fips_key (dir_encrypt r') = (if ServerMode r then d else e) ∧
    c_fips_key (dir_decrypt r') = (if ServerMode r then e else d);
}.

Lemma establish_fips_spec r :
  ∃ ok r1, establish_fips r = Ret (ok, r1) ∧
    EncryptionMethods r1 = EncryptionMethods r ∧ ServerMode r1 = ServerMode r ∧
    ClientRandom r1 = ClientRandom r ∧ ServerRandom r1 = ServerRandom r ∧ rc4_key_len r1 = rc4_key_len r ∧
    (ok = false → ¬ crypto_available) ∧
    (ok = true → EncryptionMethods r = ENCRYPTION_METHOD_FIPS → ∃ sg e d,
       fips_keys (ClientRandom r) (ServerRandom r) = Ret (Some (sg, e, d)) ∧ fips_sign_key r1 = sg ∧
       zlen e = 24 ∧ zlen d = 24 ∧
       c_fips_key (dir_encrypt r1) = (if ServerMode r then d else e) ∧
       c_fips_key (dir_decrypt r1) = (if ServerMode r then e else d)).
Proof.
  unfold establish_fips. destruct (Z.eqb_spec (EncryptionMethods r) ENCRYPTION_METHOD_FIPS) as [Hf|Hf].
  2:{ exists true, r. split_and!; try done. }
  destruct (fips_keys_total (ClientRandom r) (ServerRandom r)) as (o & E & Ho). rewrite E. cbn [mbind outcome_bind].
  destruct o as [[[sg e] d]|]; [|by exists false, r; split_and!]. destruct Ho as (_ & Hel & Hdl).
  cbn [set_signing ServerMode]. destruct (ServerMode r) eqn:Em; do 2 eexists; (split; [done|]);
    (split_and!; try done); intros _ _; exists sg, e, d; done.
Qed.

Lemma establish_keys_spec r :
  ∃ ok r', security_establish_keys r = Ret (ok, r') ∧
    if ok then ∃ blob kS kC, established r r' blob kS kC
    else zlen (ClientRandom r) = 32 → zlen (ServerRandom r) = 32 → ¬ crypto_available.
Proof.
  unfold security_establish_keys.
  destruct (Z.eqb_spec (zlen (ClientRandom r)) 32) as [Hc|]; [|by exists false, r].
  destruct (Z.eqb_spec (zlen (ServerRandom r)) 32) as [Hs|]; [|by exists false, r]. cbn [andb negb].
  destruct (establish_fips_spec r) as (ok & r1 & -> & Em & Esm & Ec & Es & El & Hno & Hf). cbn [mbind outcome_bind].
  destruct ok; [|do 2 eexists; split; [done|]; intros _ _; by apply Hno]. specialize (Hf eq_refl). cbn [negb]. rewrite Ec, Es.
  destruct (blob_total _ _ Hc Hs) as ([blob|] & Eb & Hb); [|rewrite Eb; do 2 eexists; split; [done|]; by intros _ _].
  rewrite Eb. cbn [mbind outcome_bind].
  destruct Hb as [Hbl Hbb]. unfold establish_session.
  cbn [set_signing ServerMode ClientRandom ServerRandom]. rewrite Ec, Es, Esm.
  rewrite !security_md5_total by (rewrite ?zlen_zdrop; lia). cbn [mbind outcome_bind].
  fold (session_key r blob 16). fold (session_key r blob 32).
  destruct (session_key r blob 16) as [kS|] eqn:EkS;
    [|destruct (ServerMode r); (do 2 eexists; split; [done|]; intros _ _; by eapply md5_fails)].
  destruct (session_key r blob 32) as [kC|] eqn:EkC;
    [|destruct (ServerMode r); (do 2 eexists; split; [done|]; intros _ _; by eapply md5_fails)].
  destruct (ServerMode r) eqn:Emode; do 2 eexists; (split; [done|]); exists blob, kS, kC; split; try done;
    rewrite ?Emode; try (by cbn; rewrite ?Em, ?El; repeat split).
Qed.

(** The contexts, from the keys. *)
Definition contexts (r1 r' : rdpRdp) : Prop :=
  if EncryptionMethods r1 =? ENCRYPTION_METHOD_FIPS then ∃ e d,
    winpr_Cipher_NewEx true (c_fips_key (dir_encrypt r1)) fips_ivec = Some e ∧
    winpr_Cipher_NewEx false (c_fips_key (dir_decrypt r1)) fips_ivec = Some d ∧
    r' = set_decrypt (set_fips (Some d) (dir_decrypt r1)) (set_encrypt (set_fips (Some e) (dir_encrypt r1)) r1)
  else ∃ e d,
    winpr_RC4_New (c_key (dir_encrypt r1)) (rc4_key_len r1) = Ret (Some e) ∧
    winpr_RC4_New (c_key (dir_decrypt r1)) (rc4_key_len r1) = Ret (Some d) ∧
    r' = set_decrypt (set_rc4 (Some d) 0 (dir_decrypt r1)) (set_encrypt (set_rc4 (Some e) 0 (dir_encrypt r1)) r1).

Lemma establish_contexts_spec r r' :
  rdp_establish_contexts r = Ret (true, r') → ∃ r1 blob kS kC, established r r1 blob kS kC ∧ contexts r1 r'.
Proof.
  unfold rdp_establish_contexts. destruct (establish_keys_spec r) as (ok & r1 & -> & Hest). cbn [mbind outcome_bind].
  destruct ok; [|done]. destruct Hest as (blob & kS & kC & He). cbn [negb]. intros H.
  exists r1, blob, kS, kC. split; [done|]. unfold contexts. destruct (_ =? _).
  - destruct (winpr_Cipher_NewEx true _ _) as [e|]; [|done]. destruct (winpr_Cipher_NewEx false _ _) as [d|]; [|done].
    injection H as <-. by exists e, d.
  - revert H. unfold rdp_reset_rc4_encrypt_keys, rdp_reset_rc4_decrypt_keys, reset_rc4.
    destruct (winpr_RC4_New (c_key (dir_encrypt r1)) (rc4_key_len r1)) as [[e|]|]; [|done..].
    cbn [mbind outcome_bind mret outcome_ret]. rewrite bool_decide_true by done. cbn [negb].
    cbn [set_encrypt rc4_key_len dir_decrypt].
    destruct (winpr_RC4_New (c_key (dir_decrypt r1)) (rc4_key_len r1)) as [[d|]|]; [|done..].
    cbn [mbind outcome_bind mret outcome_ret]. rewrite bool_decide_true by done. intros [= <-]. by exists e, d.
Qed.

Definition valid_method (m : Z) : Prop := rc4_method m ∨ m = ENCRYPTION_METHOD_FIPS.
Lemma valid_key_len m len : valid_method m → m ≠ ENCRYPTION_METHOD_FIPS → new_key_len m len = 8 ∨ new_key_len m len = 16.
Proof. intros [[->|[->| ->]]|]; [by left|by left|by right|done]. Qed.

(** One direction: [r] sends, and [p] is its peer. *)
Lemma contexts_sync r p r1 p1 r' p' blob kS kC :
  established r r1 blob kS kC → established p p1 blob kS kC → contexts r1 r' → contexts p1 p' →
  ServerMode p = negb (ServerMode r) → EncryptionMethods p = EncryptionMethods r → valid_method (EncryptionMethods r) →
  ClientRandom p = ClientRandom r → ServerRandom p = ServerRandom r → zlen blob = 48 → bytes blob →
  sec_sync r' p'.
Proof.
  intros [_ _ HS HC1 Hm _ Hsi Hle He Hd Hf] [_ _ _ _ Hm' _ Hsi' Hle' He' Hd' Hf'] Hc Hc' Hmode Hme Hv Hcr Hsr Hbl Hbb.
  rewrite Hmode in He', Hd', Hf'. rewrite Hme in *. rewrite Hcr, Hsr in Hf'. unfold contexts in Hc, Hc'. rewrite Hm in Hc. rewrite Hm' in Hc'.
  assert (∃ kE, fresh (EncryptionMethods r) kE (dir_encrypt r1) ∧ fresh (EncryptionMethods r) kE (dir_decrypt p1) ∧
    zlen kE = 16 ∧ bytes kE) as (kE & (Hk & Hu & Hn & Hs) & (Hk' & Hu' & Hn' & Hs') & HkE).
  { apply md5_length in HS, HC1. exists (if ServerMode r then kS else kC). by destruct (ServerMode r). }
  assert (zlen (ztake 16 blob) = 16 ∧ bytes (ztake 16 blob)) as [Hz Hb].
  { split; [rewrite zlen_ztake; lia|by apply Forall_ztake]. }
  destruct (salted_ok (EncryptionMethods r) _ Hz Hb) as [Hz' Hb'].
  destruct (salted_ok (EncryptionMethods r) kE) as [HzE HbE]; [by destruct HkE..|].
  destruct (Z.eqb_spec (EncryptionMethods r) ENCRYPTION_METHOD_FIPS) as [Hfips|Hfips].
  - destruct Hc as (e & d & He1 & Hd1 & ->). destruct Hc' as (e' & d' & He1' & Hd1' & ->).
    destruct (Hf Hfips) as (sg & ke & kd & Hk1 & Hsg & _ & _ & Hke & Hkd).
    destruct (Hf' Hfips) as (sg' & ke' & kd' & Hk1' & Hsg' & _ & _ & Hke' & Hkd').
    rewrite Hk1 in Hk1'. injection Hk1' as <- <- <-.
    assert (c_fips_key (dir_decrypt p1) = c_fips_key (dir_encrypt r1)) as Hkk.
    { rewrite Hke, Hkd'. by destruct (ServerMode r). }
    rewrite Hkk in Hd1'. pose proof (cipher_pair_new _ _ _ _ He1 Hd1') as Hp.
    split; cbn [set_decrypt set_encrypt dir_encrypt dir_decrypt EncryptionMethods].
    + split; cbn; rewrite ?Hm, ?Hm', ?Hsi, ?Hsi', ?Hsg, ?Hsg'; try done; by left.
    + rewrite Hm. split; cbn; try done; try congruence; [|intros _; by exists e, d'].
      split; cbn; rewrite ?Hk, ?Hu, ?Hn, ?Hs; try done.
  - destruct Hc as (e & d & He1 & Hd1 & ->). destruct Hc' as (e' & d' & He1' & Hd1' & ->).
    pose proof (valid_key_len _ (rc4_key_len r) Hv Hfips) as Hl.
    assert (rc4_key_len p1 = rc4_key_len r1) as Hlp.
    { rewrite Hle, Hle'. destruct Hv as [[->|[->| ->]]|]; done. }
    rewrite Hlp, Hk', <- Hk, He1 in Hd1'. injection Hd1' as <-. apply rc4_new_ok in He1.
    split; cbn [set_decrypt set_encrypt dir_encrypt dir_decrypt EncryptionMethods].
    + split; cbn; rewrite ?Hm, ?Hm', ?Hsi, ?Hsi', ?Hle; try done; by rewrite Hlp, Hle.
    + rewrite Hm. split; cbn; try done; try congruence.
      split; cbn; rewrite ?Hk, ?Hu, ?Hn, ?Hs; try done. intros _. by exists e.
Qed.

(** Client and server derive the same session from the two randoms, in both directions. *)
Lemma establish_in_sync client server client' server' :
  ServerMode client = false → ServerMode server = true → EncryptionMethods server = EncryptionMethods client →
  valid_method (EncryptionMethods client) →
  ClientRandom server = ClientRandom client → ServerRandom server = ServerRandom client →
  rdp_establish_contexts client = Ret (true, client') → rdp_establish_contexts server = Ret (true, server') →
  sec_sync client' server' ∧ sec_sync server' client'.
Proof.
  intros Hmc Hms Hm Hv Hcr Hsr Ec Es.
  apply establish_contexts_spec in Ec as (c1 & blob & kS & kC & He & Hc).
  apply establish_contexts_spec in Es as (s1 & blob' & kS' & kC' & He' & Hs).
  assert (blob' = blob) as ->.
  { pose proof (est_blob _ _ _ _ _ He) as H1. pose proof (est_blob _ _ _ _ _ He') as H2. rewrite Hcr, Hsr, H1 in H2. congruence. }
  assert (kS' = kS) as ->.
  { pose proof (est_server _ _ _ _ _ He) as H1. pose proof (est_server _ _ _ _ _ He') as H2.
    unfold session_key in H1, H2. rewrite Hcr, Hsr in H2. symmetry. by eapply md5_allow. }
  assert (kC' = kC) as ->.
  { pose proof (est_client _ _ _ _ _ He) as H1. pose proof (est_client _ _ _ _ _ He') as H2.
    unfold session_key in H1, H2. rewrite Hcr, Hsr in H2. symmetry. by eapply md5_allow. }
  destruct (est_randoms _ _ _ _ _ He) as [Hc32 Hs32].
  destruct (blob_total _ _ Hc32 Hs32) as (o & Ho & Hz). rewrite (est_blob _ _ _ _ _ He) in Ho. injection Ho as <-. destruct Hz.
  split.
  - eapply (contexts_sync client server); try done. by rewrite Hmc, Hms.
  - eapply (contexts_sync server client); try done; [by rewrite Hmc, Hms|by rewrite Hm].
Qed.

Lemma establish_mode r r' : rdp_establish_contexts r = Ret (true, r') → ServerMode r' = ServerMode r.
Proof.
  intros E. apply establish_contexts_spec in E as (r1 & blob & kS & kC & He & Hc). unfold contexts in Hc.
  destruct (_ =? _); destruct Hc as (e & d & _ & _ & ->); cbn; by destruct He.
Qed.
Lemma establish_method r r' : rdp_establish_contexts r = Ret (true, r') → EncryptionMethods r' = EncryptionMethods r.
Proof.
  intros E. apply establish_contexts_spec in E as (r1 & blob & kS & kC & He & Hc). unfold contexts in Hc.
  destruct (_ =? _); destruct Hc as (e & d & _ & _ & ->); cbn; by destruct He.
Qed.
(** With randoms of the right size, nothing but the crypto library stands in the way. *)
Lemma establish_available r :
  crypto_available → zlen (ClientRandom r) = 32 → zlen (ServerRandom r) = 32 → valid_method (EncryptionMethods r) →
  ∃ r', rdp_establish_contexts r = Ret (true, r').
Proof.
  intros Hav Hc Hs Hv. unfold rdp_establish_contexts.
  destruct (establish_keys_spec r) as (ok & r1 & -> & Hest). cbn [mbind outcome_bind].
  destruct ok; [|by destruct (Hest Hc Hs)]. destruct Hest as (blob & kS & kC & [_ Hblob HS HC1 Hm _ Hsi Hle He Hd Hf]). cbn [negb].
  rewrite Hm. destruct (Z.eqb_spec (EncryptionMethods r) ENCRYPTION_METHOD_FIPS) as [Hfips|Hfips].
  - destruct (Hf Hfips) as (sg & e & d & _ & _ & Hel & Hdl & -> & ->).
    destruct (av_cipher_new Hav true (if ServerMode r then d else e)) as [ce ->]; [by destruct (ServerMode r)|].
    destruct (av_cipher_new Hav false (if ServerMode r then e else d)) as [cd ->]; [by destruct (ServerMode r)|]. by eexists.
  - assert (∀ dir k, fresh (EncryptionMethods r) k dir → zlen k = 16 → bytes k →
      ∃ c, reset_rc4 (rc4_key_len r1) dir = Ret (true, set_rc4 (Some c) 0 dir)) as Hreset.
    { intros dir k (Hk & _) Hz Hb. destruct (salted_ok (EncryptionMethods r) k Hz Hb) as [Hz' _].
      rewrite Hle. destruct (reset_rc4_ok (new_key_len (EncryptionMethods r) (rc4_key_len r)) dir) as (rc4 & -> & Hok);
        [by rewrite Hk|by apply valid_key_len|]. destruct rc4 as [c|]; [|done]. exists c. by rewrite bool_decide_true. }
    apply md5_length in HS as [HSl HSb]. apply md5_length in HC1 as [HCl HCb].
    unfold rdp_reset_rc4_encrypt_keys, rdp_reset_rc4_decrypt_keys.
    destruct (Hreset _ _ He) as [ce ->]; [by destruct (ServerMode r)..|]. cbn [mbind outcome_bind mret outcome_ret negb].
    cbn [set_encrypt rc4_key_len dir_decrypt].
    destruct (Hreset _ _ Hd) as [cd ->]; [by destruct (ServerMode r)..|]. by eexists.
Qed.
End sync.

(** * A crypto library of which all this holds *)

Definition model_digest (n : nat) (m : list Z) : list Z := map (λ i, u8 (fold_right Z.add 0 m + Z.of_nat i)) (seq 0 n).
Definition model_digests : Digests :=
  {| sha1 m := Some (model_digest 20 m); md5 _ m := Some (model_digest 16 m);
     hmac_sha1 k m := Some (model_digest 20 (k ++ m)) |}.
Definition model_cipher : Cipher :=
  {| cipher_ctx := Z; winpr_Cipher_NewEx _ key _ := Some (u8 (fold_right Z.add 0 key));
     winpr_Cipher_Update k data := Some (map (λ b, Z.lxor (u8 b) (u8 k)) data, k) |}.

Lemma model_digest_ok n m : zlen (model_digest n m) = Z.of_nat n ∧ bytes (model_digest n m).
Proof.
  unfold model_digest, zlen. rewrite length_map, length_seq. split; [done|]. apply Forall_map, Forall_forall.
  intros i _. unfold is_byte, u8. apply Z.mod_pos_bound. lia.
Qed.
Lemma model_digest_laws : @DigestLaws model_digests.
Proof.
  split.
  - intros m d [= <-]. apply (model_digest_ok 20).
  - intros a m d [= <-]. apply (model_digest_ok 16).
  - intros a a' m d d' [= <-] [= <-]. done.
  - intros k m d [= <-]. apply (model_digest_ok 20).
Qed.
Lemma lxor_bytes (k : Z) (data : list Z) : bytes (map (λ b, Z.lxor (u8 b) (u8 k)) data).
Proof. apply Forall_map, Forall_forall. intros b _. apply lxor_byte; apply u8_byte. Qed.
Lemma lxor_twice (k : Z) (data : list Z) :
  bytes data → map (λ b, Z.lxor (u8 b) (u8 k)) (map (λ b, Z.lxor (u8 b) (u8 k)) data) = data.
Proof.
  intros Hb. rewrite map_map. rewrite <- (map_id data) at 2. apply map_ext_in. intros b Hin.
  pose proof (proj1 (Forall_forall _ _) Hb b Hin) as Hbb. unfold u8 at 1.
  pose proof (lxor_byte (u8 b) (u8 k) (u8_byte _) (u8_byte _)) as Hx. unfold is_byte in Hx, Hbb.
  rewrite Z.mod_small by lia. rewrite Z.lxor_assoc, Z.lxor_nilpotent, Z.lxor_0_r. unfold u8. by apply Z.mod_small.
Qed.
Definition model_cipher_laws : @CipherLaws model_cipher.
Proof.
  unshelve refine {| cipher_pair := λ e d : @cipher_ctx model_cipher, (e : Z) = d |}.
  - intros key iv e d [= <-] [= <-]. done.
  - intros e d data out e' -> Hb _ [= <- <-]. split; [unfold zlen; by rewrite length_map|]. split; [apply lxor_bytes|].
    exists d. split; [|done]. cbn. by rewrite lxor_twice.
  - intros c data out c' _ [= <- <-]. apply lxor_bytes.
Defined.
Lemma model_available :
  @crypto_available (λ _, true) model_digests model_cipher model_cipher_laws.
Proof. split; try done; by eexists. Qed.
