(* ===== verification/RdpPdu.v ===== *)
(** The slow path of an RDP connection (core/rdp.c): the headers of a PDU, its
    protection on the way out ([rdp_send] and its variants) and its acceptance on
    the way in ([rdp_read_header], [rdp_decrypt], [rdp_recv_tpkt_pdu]). *)

From S2P Require Import Prelude Stream StreamLogic Transmission Per Framing Rc4 Security Mcs.
From stdpp Require Import prelude list numbers.
From Stdlib Require Import ZArith Lia.

#[local] Open Scope Z_scope.

Definition SEC_ENCRYPT : Z := 0x0008.
Definition SEC_REDIRECTION_PKT : Z := 0x0400.
Definition SEC_SECURE_CHECKSUM : Z := 0x0800.
Definition SEC_FLAGSHI_VALID : Z := 0x8000.
Definition RDP_PACKET_HEADER_MAX_LENGTH : Z := 15.
Definition RDP_SHARE_CONTROL_HEADER_LENGTH : Z := 6.
Definition RDP_SHARE_DATA_HEADER_LENGTH : Z := 12.
Definition PDU_TYPE_DEACTIVATE_ALL : Z := 0x6.
Definition PDU_TYPE_DATA : Z := 0x7.
Definition PDU_TYPE_SERVER_REDIRECTION : Z := 0xA.
Definition PDU_TYPE_FLOW_TEST : Z := 0x41.
Definition PDU_TYPE_FLOW_RESPONSE : Z := 0x42.
Definition PDU_TYPE_FLOW_STOP : Z := 0x43.
Definition DomainMCSPDU_SendDataRequest : Z := 25.
Definition DomainMCSPDU_SendDataIndication : Z := 26.
Definition STREAM_LOW : Z := 1.

Definition STATE_RUN_SUCCESS : Z := 0.
Definition STATE_RUN_FAILED : Z := -1.
Definition STATE_RUN_QUIT_SESSION : Z := -2.
Definition state_run_failed (status : Z) : bool :=
  (status =? STATE_RUN_FAILED) || (status =? STATE_RUN_QUIT_SESSION).

(** Memory of the buffer of a stream, at an offset. *)
Definition stream_get (pos n : Z) : SM (list Z) := λ s,
  if (0 <=? pos) && (0 <=? n) && (pos + n <=? st_capacity s) then Ret (zslice pos n (st_buffer s), s) else Abort.
Definition stream_set (pos : Z) (b : list Z) : SM unit := λ s,
  if (0 <=? pos) && (pos + zlen b <=? st_capacity s) then Ret (tt, set_buffer (zblit pos b (st_buffer s)) s) else Abort.

(** * Headers *)

(** The flags, and what is left of [length] if the caller counts it. *)
Definition rdp_read_security_header (length : option Z) : SM (option (Z * option Z)) :=
  if match length with Some l => l <? 4 | None => false end then FALSE
  else
    TRY Stream_CheckAndLogRequiredLength 4;
    flags ← Stream_Read_UINT16;
    flagsHi ← Stream_Read_UINT16;
    mret (Some (flags, option_map (λ l, l - 4) length)).
Definition rdp_write_security_header (flags : Z) : SM (option unit) :=
  TRY Stream_CheckAndLogRequiredCapacity 4;
  WINPR_ASSERT (Z.land flags SEC_FLAGSHI_VALID =? 0);;
  Stream_Write_UINT16 flags;;
  Stream_Write_UINT16 0;;
  TRUE.

Definition rdp_read_flow_control_pdu : SM (option (Z * Z)) :=
  TRY Stream_CheckAndLogRequiredLength 6;
  pduType ← Stream_Read_UINT8;
  Stream_Seek 1;;
  Stream_Seek 1;;
  Stream_Seek 1;;
  channel_id ← Stream_Read_UINT16;
  mret (Some (pduType, channel_id)).

(** [tpktLength], [remainingLength], the type and the source of the PDU. *)
Record share_control : Type := mkShare { sc_tpktLength : Z; sc_remainingLength : Z; sc_type : Z; sc_channel_id : Z }.
Definition rdp_read_share_control_header : SM (option share_control) :=
  TRY Stream_CheckAndLogRequiredLength 2;
  len ← Stream_Read_UINT16;
  if len =? 0x8000 then
    '(type, _) ←? rdp_read_flow_control_pdu;
    mret (Some (mkShare 8 0 type 0))
  else if len <? 4 then FALSE
  else
    TRY Stream_CheckAndLogRequiredLength 2;
    tmp ← Stream_Read_UINT16;
    let type := Z.land tmp 0x0F in
    if len >? 5 then
      TRY Stream_CheckAndLogRequiredLength 2;
      channel_id ← Stream_Read_UINT16;
      WINPR_ASSERT (len - 6 <=? UINT16_MAX);;
      TRY Stream_CheckAndLogRequiredLength (len - 6);
      mret (Some (mkShare len (len - 6) type channel_id))
    else
      WINPR_ASSERT (len - 4 <=? UINT16_MAX);;
      TRY Stream_CheckAndLogRequiredLength (len - 4);
      mret (Some (mkShare len (len - 4) type 0)).
Definition rdp_write_share_control_header (length type channel_id : Z) : SM (option unit) :=
  if length >? UINT16_MAX then FALSE
  else if length <? RDP_PACKET_HEADER_MAX_LENGTH then FALSE
  else
    TRY Stream_CheckAndLogRequiredCapacity 6;
    length ← WINPR_ASSERTING_INT_CAST UINT16_MAX (length - RDP_PACKET_HEADER_MAX_LENGTH);
    Stream_Write_UINT16 length;;
    type ← WINPR_ASSERTING_INT_CAST UINT16_MAX (Z.lor type 0x10);
    Stream_Write_UINT16 type;;
    channel_id ← WINPR_ASSERTING_INT_CAST UINT16_MAX channel_id;
    Stream_Write_UINT16 channel_id;;
    TRUE.

Record share_data : Type := mkShareData {
  sd_length : Z; sd_type : Z; sd_shareId : Z; sd_compressedType : Z; sd_compressedLength : Z;
}.
Definition rdp_read_share_data_header : SM (option share_data) :=
  TRY Stream_CheckAndLogRequiredLength 12;
  shareId ← Stream_Read_UINT32;
  Stream_Seek 1;;
  Stream_Seek 1;;
  length ← Stream_Read_UINT16;
  type ← Stream_Read_UINT8;
  compressedType ← Stream_Read_UINT8;
  compressedLength ← Stream_Read_UINT16;
  mret (Some (mkShareData length type shareId compressedType compressedLength)).
Definition rdp_write_share_data_header (length type share_id : Z) : SM (option unit) :=
  let headerLen := RDP_PACKET_HEADER_MAX_LENGTH + RDP_SHARE_CONTROL_HEADER_LENGTH + RDP_SHARE_DATA_HEADER_LENGTH in
  if length >? UINT16_MAX then FALSE
  else if length <? headerLen then FALSE
  else
    TRY Stream_CheckAndLogRequiredCapacity 12;
    Stream_Write_UINT32 share_id;;
    Stream_Write_UINT8 0;;
    Stream_Write_UINT8 STREAM_LOW;;
    length ← WINPR_ASSERTING_INT_CAST UINT16_MAX (length - headerLen);
    Stream_Write_UINT16 length;;
    Stream_Write_UINT8 type;;
    Stream_Write_UINT8 0;;
    Stream_Write_UINT16 0;;
    TRUE.

(** What [rdp_read_header] finds: a data unit (its length and channel), or that the
    peer is gone (with the reason of an ultimatum).  The ultimatum is then noted as the error of the
    connection and announced to the subscribers of its end; both are taken to succeed. *)
Inductive rdp_header : Type :=
| HeaderData (length channelId : Z)
| HeaderDisconnect
| HeaderUltimatum (reason : Z).
Definition rdp_read_header (server : bool) : SM (option rdp_header) :=
  let MCSPDU := if server then DomainMCSPDU_SendDataRequest else DomainMCSPDU_SendDataIndication in
  length ←? tpkt_read_header;
  '(code, li) ←? tpdu_read_header length;
  if negb (code =? X224_TPDU_DATA) then
    if code =? X224_TPDU_DISCONNECT_REQUEST then mret (Some HeaderDisconnect) else FALSE
  else
    choice ←? per_read_choice;
    let domainMCSPDU := Z.shiftr choice 2 in
    if negb (domainMCSPDU =? MCSPDU) && negb (domainMCSPDU =? DomainMCSPDU_DisconnectProviderUltimatum) then FALSE
    else if length <? 8 then FALSE
    else
      TRY Stream_CheckAndLogRequiredLength (length - 8);
      if domainMCSPDU =? DomainMCSPDU_DisconnectProviderUltimatum then
        reason ←? mcs_recv_disconnect_provider_ultimatum;
        mret (Some (HeaderUltimatum reason))
      else
        TRY Stream_CheckAndLogRequiredLength 5;
        initiator ←? per_read_integer16 MCS_BASE_CHANNEL_ID;
        channelId ←? per_read_integer16 0;
        dataPriority ← Stream_Read_UINT8;
        length ←? per_read_length;
        TRY Stream_CheckAndLogRequiredLength length;
        mret (Some (HeaderData length channelId)).

(** The identity of the sender ([rdp->mcs->userId]) is an argument. *)
Section sending.
Context {HM : Malloc} {HD : Digests} {HC : Cipher}.

Definition rdp_write_header (rdp : rdpRdp) (userId length channelId sec_flags : Z) : SM (option unit) :=
  WINPR_ASSERT (length >=? RDP_PACKET_HEADER_MAX_LENGTH);;
  if length >? UINT16_MAX then FALSE
  else
    let MCSPDU := if ServerMode rdp then DomainMCSPDU_SendDataIndication else DomainMCSPDU_SendDataRequest in
    let length :=
      if negb (Z.land sec_flags SEC_ENCRYPT =? 0) && (EncryptionMethods rdp =? ENCRYPTION_METHOD_FIPS) then
        let body_length := length - RDP_PACKET_HEADER_MAX_LENGTH in
        let pad := 8 - body_length mod 8 in
        if negb (pad =? 8) then length + pad else length
      else length in
    TRY mcs_write_domain_mcspdu_header MCSPDU (u16 length) 0;
    TRY per_write_integer16 userId MCS_BASE_CHANNEL_ID;
    TRY per_write_integer16 channelId 0;
    TRY Stream_EnsureRemainingCapacity 3;
    Stream_Write_UINT8 0x70;;
    length ← WINPR_ASSERTING_INT_CAST UINT16_MAX (Z.lor (length - RDP_PACKET_HEADER_MAX_LENGTH) 0x8000);
    Stream_Write_UINT16_BE length;;
    TRUE.

(** * Protection *)

(** The block of bytes at [size] is signed (in the 8 bytes before it), padded and encrypted. *)
Definition security_out_fips (rdp : rdpRdp) (length : Z) : SM (option Z * rdpRdp) :=
  pos ← Stream_GetPosition;
  let size := pos + 12 in
  if size >? length then mret (None, rdp)
  else
    let length := length - size in
    Stream_Write_UINT16 0x10;;
    Stream_Write_UINT8 0x1;;
    let pad := 8 - length mod 8 in
    let pad := if pad =? 8 then 0 else pad in
    (if negb (pad =? 0) then stream_set (size + length) (zeros pad) else mret tt);;
    Stream_Write_UINT8 pad;;
    ok ← Stream_CheckAndLogRequiredCapacity 8;
    match ok with
    | None => mret (None, rdp)
    | Some _ =>
        data ← stream_get size length;
        match security_hmac_signature rdp data with
        | None => mret (None, rdp)
        | Some sig =>
            stream_set (pos + 4) sig;;
            Stream_Seek 8;;
            data ← stream_get size (length + pad);
            '(out, rdp) ← lift (security_fips_encrypt data rdp);
            match out with
            | None => mret (None, rdp)
            | Some out => stream_set size out;; mret (Some pad, rdp)
            end
        end
    end.
Definition security_out_rc4 (rdp : rdpRdp) (length sec_flags : Z) : SM (option Z * rdpRdp) :=
  pos ← Stream_GetPosition;
  let diff := pos + 8 in
  if diff >? length then mret (None, rdp)
  else
    let length := length - diff in
    ok ← Stream_CheckAndLogRequiredCapacity 8;
    match ok with
    | None => mret (None, rdp)
    | Some _ =>
        data ← stream_get diff length;
        status ← lift (if negb (Z.land sec_flags SEC_SECURE_CHECKSUM =? 0)
                       then security_salted_mac_signature rdp data true else security_mac_signature rdp data);
        match status with
        | None => mret (None, rdp)
        | Some sig =>
            stream_set pos sig;;
            Stream_Seek 8;;
            data ← stream_get diff length;
            '(out, rdp) ← lift (security_encrypt data rdp);
            match out with
            | None => mret (None, rdp)
            | Some out => stream_set diff out;; mret (Some 0, rdp)
            end
        end
    end.
(** The padding that was added; [None] is [FALSE]. *)
Definition rdp_security_stream_out (rdp : rdpRdp) (length sec_flags : Z) : SM (option Z * rdpRdp) :=
  if length >? UINT16_MAX then mret (None, rdp)
  else if sec_flags =? 0 then mret (Some 0, rdp)
  else
    WINPR_ASSERT (sec_flags <=? UINT16_MAX);;
    ok ← rdp_write_security_header sec_flags;
    match ok with
    | None => mret (None, rdp)
    | Some _ =>
        if Z.land sec_flags SEC_ENCRYPT =? 0 then mret (Some 0, rdp)
        else if EncryptionMethods rdp =? ENCRYPTION_METHOD_FIPS then security_out_fips rdp length
        else security_out_rc4 rdp length sec_flags
    end.
Definition rdp_get_sec_bytes (rdp : rdpRdp) (sec_flags : Z) : Z :=
  if negb (Z.land sec_flags SEC_ENCRYPT =? 0) then
    if EncryptionMethods rdp =? ENCRYPTION_METHOD_FIPS then 16 else 12
  else if negb (sec_flags =? 0) then 4 else 0.

(** The room for the headers; [do_crypt] and [do_secure_checksum] are fields of [rdp]. *)
Definition rdp_security_stream_init (rdp : rdpRdp) (do_crypt do_secure_checksum sec_header : bool) (sec_flags : Z) :
    SM (option Z) :=
  if do_crypt then
    TRY Stream_SafeZeroEx 12;
    TRY (if EncryptionMethods rdp =? ENCRYPTION_METHOD_FIPS then Stream_SafeZeroEx 4 else TRUE);
    let sec_flags := Z.lor sec_flags SEC_ENCRYPT in
    mret (Some (if do_secure_checksum then Z.lor sec_flags SEC_SECURE_CHECKSUM else sec_flags))
  else if negb (sec_flags =? 0) || sec_header then
    TRY Stream_SafeZeroEx 4;
    mret (Some sec_flags)
  else mret (Some sec_flags).

(** A new stream with room for the headers, and the flags: [header] bytes behind the
    security header are for the share headers. *)
Definition send_stream_init (rdp : rdpRdp) (do_crypt do_secure_checksum sec_header : bool) (header sec_flags : Z) :
    outcome (option (wStream * Z)) :=
  match Stream_New None 4096 with
  | None => Ret None
  | Some s =>
      match (TRY Stream_SafeZeroEx RDP_PACKET_HEADER_MAX_LENGTH;
             sec_flags ←? rdp_security_stream_init rdp do_crypt do_secure_checksum sec_header sec_flags;
             TRY (if header =? 0 then TRUE else Stream_SafeZeroEx header);
             mret (Some sec_flags)) s with
      | Ret (Some sec_flags, s) => Ret (Some (s, sec_flags))
      | Ret (None, _) => Ret None
      | Abort => Abort
      end
  end.
Definition rdp_send_stream_init (rdp : rdpRdp) (do_crypt do_secure_checksum : bool) (sec_flags : Z) :
    outcome (option (wStream * Z)) :=
  send_stream_init rdp do_crypt do_secure_checksum false 0 sec_flags.
Definition rdp_send_stream_pdu_init (rdp : rdpRdp) (do_crypt do_secure_checksum : bool) (sec_flags : Z) :
    outcome (option (wStream * Z)) :=
  send_stream_init rdp do_crypt do_secure_checksum false RDP_SHARE_CONTROL_HEADER_LENGTH sec_flags.
Definition rdp_data_pdu_init (rdp : rdpRdp) (do_crypt do_secure_checksum : bool) (sec_flags : Z) :
    outcome (option (wStream * Z)) :=
  send_stream_init rdp do_crypt do_secure_checksum false
    (RDP_SHARE_CONTROL_HEADER_LENGTH + RDP_SHARE_DATA_HEADER_LENGTH) sec_flags.
Definition rdp_message_channel_pdu_init (rdp : rdpRdp) (do_crypt do_secure_checksum : bool) (sec_flags : Z) :
    outcome (option (wStream * Z)) :=
  send_stream_init rdp do_crypt do_secure_checksum true 0 sec_flags.

(** The end of every sender: protection, the new length, the seal.  The transport gets the stream. *)
Definition send_protected (rdp : rdpRdp) (length sec_flags : Z) : SM (option unit * rdpRdp) :=
  '(pad, rdp) ← rdp_security_stream_out rdp length sec_flags;
  match pad with
  | None => mret (None, rdp)
  | Some pad =>
      ok ← Stream_SetPosition (length + pad);
      match ok with
      | None => mret (None, rdp)
      | Some _ => Stream_SealLength;; mret (Some tt, rdp)
      end
  end.
Definition rdp_send (rdp : rdpRdp) (userId channelId sec_flags : Z) : SM (option unit * rdpRdp) :=
  length ← Stream_GetPosition;
  Stream_ResetPosition;;
  ok ← rdp_write_header rdp userId length channelId sec_flags;
  match ok with
  | None => mret (None, rdp)
  | Some _ => send_protected rdp length sec_flags
  end.
(** A PDU whose share headers are written too: [header] writes them. *)
Definition send_shared (rdp : rdpRdp) (userId sec_flags : Z) (header : Z → SM (option unit)) :
    SM (option unit * rdpRdp) :=
  length ← Stream_GetPosition;
  Stream_ResetPosition;;
  ok ← rdp_write_header rdp userId length MCS_GLOBAL_CHANNEL_ID sec_flags;
  match ok with
  | None => mret (None, rdp)
  | Some _ =>
      let sec_bytes := rdp_get_sec_bytes rdp sec_flags in
      sec_hold ← Stream_GetPosition;
      Stream_Seek sec_bytes;;
      ok ← header (u64 (length - sec_bytes));
      match ok with
      | None => mret (None, rdp)
      | Some _ =>
          ok ← Stream_SetPosition sec_hold;
          match ok with
          | None => mret (None, rdp)
          | Some _ => send_protected rdp length sec_flags
          end
      end
  end.
Definition rdp_send_pdu (rdp : rdpRdp) (userId type channel_id sec_flags : Z) : SM (option unit * rdpRdp) :=
  send_shared rdp userId sec_flags (λ length, rdp_write_share_control_header length type channel_id).
Definition rdp_send_data_pdu (rdp : rdpRdp) (userId shareId type channel_id sec_flags : Z) :
    SM (option unit * rdpRdp) :=
  send_shared rdp userId sec_flags (λ length,
    TRY rdp_write_share_control_header length PDU_TYPE_DATA channel_id;
    rdp_write_share_data_header length type shareId).
Definition rdp_send_message_channel_pdu (rdp : rdpRdp) (userId messageChannelId sec_flags : Z) :
    SM (option unit * rdpRdp) :=
  rdp_send rdp userId messageChannelId sec_flags.

(** A chunk of a virtual channel (core/channels.c); the stream the transport gets. *)
Definition freerdp_channel_send_packet (rdp : rdpRdp) (do_crypt do_secure_checksum : bool)
    (userId channelId totalSize flags : Z) (data : list Z) : outcome (option wStream * rdpRdp) :=
  if totalSize >? UINT32_MAX then Ret (None, rdp)
  else
    match rdp_send_stream_init rdp do_crypt do_secure_checksum 0 with
    | Abort => Abort
    | Ret None => Ret (None, rdp)
    | Ret (Some (s, sec_flags)) =>
        match (ok ← Stream_EnsureRemainingCapacity (zlen data + 8);
               match ok with
               | None => mret (None, rdp)
               | Some _ =>
                   Stream_Write_UINT32 totalSize;;
                   Stream_Write_UINT32 flags;;
                   Stream_Write data;;
                   rdp_send rdp userId channelId sec_flags
               end) s with
        | Abort => Abort
        | Ret ((None, rdp), _) => Ret (None, rdp)
        | Ret ((Some _, rdp), s) => Ret (Some s, rdp)
        end
    end.

(** * Acceptance *)

Definition decrypt_fips (rdp : rdpRdp) (pLength : Z) : SM (option Z * rdpRdp) :=
  ok ← Stream_CheckAndLogRequiredLength 12;
  match ok with
  | None => mret (None, rdp)
  | Some _ =>
      len ← Stream_Read_UINT16;
      version ← Stream_Read_UINT8;
      pad ← Stream_Read_UINT8;
      pos ← Stream_GetPosition;
      sig ← stream_get pos 8;
      Stream_Seek 8;;
      let length := pLength - 12 in
      let padLength := length - pad in
      if (length <=? 0) || (padLength <=? 0) || (padLength >? UINT16_MAX) then mret (None, rdp)
      else
        data ← stream_get (pos + 8) length;
        '(out, rdp) ← lift (security_fips_decrypt data rdp);
        match out with
        | None => mret (None, rdp)
        | Some out =>
            stream_set (pos + 8) out;;
            let '(valid, rdp) := security_fips_check_signature (ztake padLength out) sig rdp in
            if negb valid then mret (None, rdp)
            else
              l ← Stream_Length;
              ok ← Stream_SetLength (u64 (l - pad));
              match ok with
              | None => mret (None, rdp)
              | Some _ => mret (Some (u16 padLength), rdp)
              end
        end
  end.
(** A wrong signature is only logged. *)
Definition decrypt_rc4 (rdp : rdpRdp) (pLength securityFlags : Z) : SM (option Z * rdpRdp) :=
  ok ← Stream_CheckAndLogRequiredLength 8;
  match ok with
  | None => mret (None, rdp)
  | Some _ =>
      wmac ← Stream_Read 8;
      let length := pLength - 8 in
      if length <=? 0 then mret (None, rdp)
      else
        pos ← Stream_GetPosition;
        data ← stream_get pos length;
        '(out, rdp) ← lift (security_decrypt data rdp);
        match out with
        | None => mret (None, rdp)
        | Some out =>
            stream_set pos out;;
            status ← lift (if negb (Z.land securityFlags SEC_SECURE_CHECKSUM =? 0)
                           then security_salted_mac_signature rdp out false else security_mac_signature rdp out);
            match status with
            | None => mret (None, rdp)
            | Some cmac => mret (Some (u16 length), rdp)
            end
        end
  end.
Definition rdp_decrypt (rdp : rdpRdp) (pLength securityFlags : Z) : SM (option Z * rdpRdp) :=
  if EncryptionMethods rdp =? ENCRYPTION_METHOD_NONE then mret (Some pLength, rdp)
  else if EncryptionMethods rdp =? ENCRYPTION_METHOD_FIPS then decrypt_fips rdp pLength
  else decrypt_rc4 rdp pLength securityFlags.
End sending.

(** * Dispatch *)

(** The receivers of the parts of a packet: [rdp_handle_message_channel], the redirection,
    [rdp_recv_data_pdu], [rdp_recv_deactivate_all] and [freerdp_channel_process], over a state [D]. *)
Record receivers (D : Type) : Type := mkReceivers {
  on_message : Z → Z → D → SM (Z * D);
  on_redirect : D → SM (Z * D);
  on_share_redirect : list Z → D → Z * D;
  on_data : list Z → D → Z * D;
  on_deactivate : list Z → D → bool * D;
  on_channel : Z → Z → D → SM (bool * D);
}.
Arguments on_message {D}. Arguments on_redirect {D}. Arguments on_share_redirect {D}.
Arguments on_data {D}. Arguments on_deactivate {D}. Arguments on_channel {D}.

Section receiving.
Context {HM : Malloc} {HD : Digests} {HC : Cipher} {D : Type} (R : receivers D).

(** The PDUs of the global channel: the result the packet ends with, or the one the loop
    is left with. *)
Fixpoint recv_share_pdus (fuel : nat) (rc : Z) (d : D) : SM ((Z + Z) * D) :=
  rem ← Stream_GetRemainingLength;
  if negb (rem >? 3) then mret (inr rc, d)
  else
    match fuel with
    | O => lift Abort
    | S fuel =>
        header ← rdp_read_share_control_header;
        match header with
        | None => mret (inl STATE_RUN_FAILED, d)
        | Some h =>
            let remain := sc_remainingLength h in
            pos ← Stream_GetPosition;
            sub ← stream_get pos remain;
            ok ← Stream_SafeSeekEx remain;
            match ok with
            | None => mret (inl STATE_RUN_FAILED, d)
            | Some _ =>
                if sc_type h =? PDU_TYPE_DATA then
                  let '(rc, d) := on_data R sub d in
                  if state_run_failed rc then mret (inl rc, d) else recv_share_pdus fuel rc d
                else if sc_type h =? PDU_TYPE_DEACTIVATE_ALL then
                  let '(ok, d) := on_deactivate R sub d in
                  if negb ok then mret (inl STATE_RUN_FAILED, d) else recv_share_pdus fuel rc d
                else if sc_type h =? PDU_TYPE_SERVER_REDIRECTION then
                  let '(rc, d) := on_share_redirect R sub d in mret (inl rc, d)
                else recv_share_pdus fuel rc d
            end
        end
    end.

(** [rdp_recv_tpkt_pdu] after the header of a data unit; [UseRdpSecurityLayer] is a
    setting and [messageChannelId] a field of [rdp->mcs]. *)
Definition recv_consumed (length : Z) (rc : Z) (rdp : rdpRdp) (d : D) : SM (Z * rdpRdp * D) :=
  ok ← tpkt_ensure_stream_consumed length;
  mret (match ok with None => STATE_RUN_FAILED | Some _ => rc end, rdp, d).
Definition recv_unit (length channelId : Z) (rdp : rdpRdp) (d : D) : SM (Z * rdpRdp * D) :=
  if channelId =? MCS_GLOBAL_CHANNEL_ID then
    rem ← Stream_GetRemainingLength;
    '(r, d) ← recv_share_pdus (Z.to_nat rem) STATE_RUN_SUCCESS d;
    match r with
    | inl rc => mret (rc, rdp, d)
    | inr rc => recv_consumed length rc rdp d
    end
  else
    '(ok, d) ← on_channel R channelId length d;
    if negb ok then mret (STATE_RUN_FAILED, rdp, d) else recv_consumed length STATE_RUN_SUCCESS rdp d.
Definition recv_secure (length channelId : Z) (rdp : rdpRdp) (d : D) : SM (Z * rdpRdp * D) :=
  h ← rdp_read_security_header (Some length);
  match h with
  | Some (securityFlags, Some length) =>
      '(o, rdp) ←
        (if negb (Z.land securityFlags (Z.lor SEC_ENCRYPT SEC_REDIRECTION_PKT) =? 0)
         then rdp_decrypt rdp length securityFlags else mret (Some length, rdp));
      match o with
      | None => mret (STATE_RUN_FAILED, rdp, d)
      | Some length =>
          if negb (Z.land securityFlags SEC_REDIRECTION_PKT =? 0) then
            Stream_Rewind 2;;
            '(rc, d) ← on_redirect R d;
            recv_consumed length rc rdp d
          else recv_unit length channelId rdp d
      end
  | _ => mret (STATE_RUN_FAILED, rdp, d)
  end.
Definition rdp_recv_tpkt_pdu (UseRdpSecurityLayer : bool) (messageChannelId : Z) (rdp : rdpRdp) (d : D) :
    SM (Z * rdpRdp * D) :=
  header ← rdp_read_header (ServerMode rdp);
  match header with
  | None => mret (STATE_RUN_FAILED, rdp, d)
  | Some HeaderDisconnect | Some (HeaderUltimatum _) => mret (STATE_RUN_SUCCESS, rdp, d)
  | Some (HeaderData length channelId) =>
      if negb (messageChannelId =? 0) && (channelId =? messageChannelId) then
        '(rc, d) ← on_message R channelId length d;
        mret (rc, rdp, d)
      else if UseRdpSecurityLayer then recv_secure length channelId rdp d
      else recv_unit length channelId rdp d
  end.
End receiving.
