(* ===== verification/RdpPduCorrect.v ===== *)
(** A data unit that [rdp_send] hands to the transport is taken apart by
    [rdp_recv_tpkt_pdu] into what was sent, whatever protects it, packet after packet;
    and whatever arrives, the receiver stays inside the packet. *)

From S2P Require Import Prelude Stream StreamLogic Transmission Per Framing Rc4 Security SecurityCorrect Gcc Mcs RdpPdu.
From stdpp Require Import prelude list numbers.
From Stdlib Require Import ZArith Lia.

#[local] Open Scope Z_scope.

(** * Memory of a stream *)

Lemma run_stream_get pre mid tl s pos n :
  wf s → st_buffer s = pre ++ mid ++ tl → pos = zlen pre → n = zlen mid → stream_get pos n s = Ret (mid, s).
Proof.
  intros Hs Hb -> ->. unfold stream_get. pose proof (zlen_nonneg pre). pose proof (zlen_nonneg mid). pose proof (zlen_nonneg tl).
  rewrite <- (wf_object s Hs), Hb, zslice_mid by done. rewrite !zlen_app.
  destruct (Z.leb_spec 0 (zlen pre)); [|lia]. destruct (Z.leb_spec 0 (zlen mid)); [|lia].
  by destruct (Z.leb_spec (zlen pre + zlen mid) (zlen pre + (zlen mid + zlen tl))); [|lia].
Qed.
Lemma run_stream_set pre old tl s pos new :
  wf s → st_buffer s = pre ++ old ++ tl → pos = zlen pre → zlen old = zlen new → bytes new →
  stream_set pos new s = Ret (tt, set_buffer (pre ++ new ++ tl) s) ∧ wf (set_buffer (pre ++ new ++ tl) s).
Proof.
  intros Hs Hb -> Ho Hn. pose proof (zlen_nonneg pre). pose proof (zlen_nonneg tl). split.
  - unfold stream_set. rewrite <- (wf_object s Hs), Hb, zblit_mid by done. rewrite !zlen_app.
    destruct (Z.leb_spec 0 (zlen pre)); [|lia].
    by destruct (Z.leb_spec (zlen pre + zlen new) (zlen pre + (zlen old + zlen tl))); [|lia].
  - destruct Hs as [Ho' Hp Hl Hc Hbb]. rewrite Hb in Ho', Hbb. split; cbn; try done.
    + rewrite !zlen_app in *. lia.
    + apply Forall_app in Hbb as [H1 Hbb]. apply Forall_app in Hbb as [_ H2]. by repeat apply Forall_app_2.
Qed.

(** [takes m bs rest a]: in front of [rest], [m] consumes [bs] and returns [a]. *)
Definition takes {A} (m : SM A) (bs rest : list Z) (a : A) : Prop :=
  ∀ s, readable s → remaining s = bs ++ rest → m s = Ret (a, adv (zlen bs) s).
Lemma takes_ret {A} rest (a : A) : takes (mret a) [] rest a.
Proof. intros s _ _. by rewrite adv_0. Qed.
Lemma takes_step {A B} (m : SM A) (k : A → SM B) bs1 bs2 rest a b :
  reads m bs1 a → takes (k a) bs2 rest b → takes (x ← m; k x) (bs1 ++ bs2) rest b.
Proof.
  intros Hm Hk s Hs Hr. rewrite <- app_assoc in Hr. destruct (remaining_app _ _ _ Hs Hr) as (_ & Hs' & Hr').
  erewrite bind_Ret by by apply (Hm s _ Hs Hr). rewrite (Hk _ Hs' Hr'), adv_adv, zlen_app. done.
Qed.
Lemma takes_last {A B} (m : SM A) (k : A → SM B) bs rest a b :
  reads m bs a → takes (k a) [] rest b → takes (x ← m; k x) bs rest b.
Proof. intros Hm Hk. rewrite <- (app_nil_r bs). by eapply takes_step. Qed.
Lemma takes_check {B} n (k : option unit → SM B) bs rest b :
  n <= zlen bs + zlen rest → takes (k (Some tt)) bs rest b →
  takes (x ← Stream_CheckAndLogRequiredLength n; k x) bs rest b.
Proof.
  intros Hn Hk s Hs Hr. erewrite bind_Ret by by apply run_CheckLength.
  rewrite <- zlen_remaining, Hr, zlen_app by done. destruct (Z.ltb_spec (zlen bs + zlen rest) n); [lia|]. by apply Hk.
Qed.
Lemma takes_tpkt {B} len (k : option Z → SM B) bs rest b :
  7 <= len <= UINT16_MAX → len - 4 <= zlen bs + zlen rest → takes (k (Some len)) bs rest b →
  takes (x ← tpkt_read_header; k x) (([3; 0] ++ winpr_Data_Write_UINT16_BE len) ++ bs) rest b.
Proof.
  intros Hl Hb Hk s Hs Hr. rewrite <- app_assoc in Hr. pose proof Hr as Hr0.
  destruct (remaining_app _ _ _ Hs Hr) as (_ & Hs' & Hr').
  change (zlen ([3; 0] ++ winpr_Data_Write_UINT16_BE len)) with 4 in *.
  erewrite bind_Ret.
  2:{ rewrite tpkt_read_header_is_spec, Hr0 by done. rewrite <- app_assoc. rewrite tpkt_spec_frame; [done|done|].
      by rewrite zlen_app. }
  cbn [fst snd]. rewrite (Hk _ Hs' Hr'), adv_adv, (zlen_app _ bs). done.
Qed.

(** * The header *)

Definition unit_header (choice len userId channelId bodylen : Z) : list Z :=
  ([3; 0] ++ winpr_Data_Write_UINT16_BE len) ++ [2; 240; 128] ++ [choice] ++
  winpr_Data_Write_UINT16_BE (userId - MCS_BASE_CHANNEL_ID) ++
  winpr_Data_Write_UINT16_BE (channelId - 0) ++ [0x70] ++ winpr_Data_Write_UINT16_BE (bodylen + 0x8000).

Lemma zlen_unit_header choice len userId channelId bodylen : zlen (unit_header choice len userId channelId bodylen) = 15.
Proof. done. Qed.

Definition send_choice (server : bool) : Z := if server then 104 else 100.

Lemma unit_header_bytes server len userId channelId bodylen :
  bytes (unit_header (send_choice server) len userId channelId bodylen).
Proof.
  unfold unit_header. repeat apply Forall_app_2; try apply write16_be_bytes;
    repeat apply Forall_cons_2; try apply Forall_nil_2; unfold is_byte; destruct server; cbn; lia.
Qed.

(** The TPKT header may count more than the unit. *)
Lemma read_header_within server userId channelId len n rest :
  0 <= n < 32768 → n + 15 <= len <= UINT16_MAX → len <= zlen rest + 15 → MCS_BASE_CHANNEL_ID <= userId <= UINT16_MAX → 0 <= channelId <= UINT16_MAX →
  takes (rdp_read_header server) (unit_header (send_choice (negb server)) len userId channelId n) rest
    (Some (HeaderData n channelId)).
Proof.
  intros Hl Hlen Hn Hu Hc. unfold rdp_read_header, unit_header.
  apply takes_tpkt; [lia|change (zlen (_ ++ _)) with 11; lia|].
  eapply takes_step; [apply (reads_tpdu_header len 2 240 ltac:(lia))|]. cbv beta iota.
  change (negb (240 =? X224_TPDU_DATA)) with false. cbv iota.
  eapply takes_step; [apply reads_per_byte|]. cbv beta iota zeta.
  replace (Z.shiftr (send_choice (negb server)) 2) with
    (if server then DomainMCSPDU_SendDataRequest else DomainMCSPDU_SendDataIndication) by (by destruct server).
  rewrite Z.eqb_refl. cbn [negb andb]. destruct (Z.ltb_spec len 8); [lia|].
  apply takes_check; [change (zlen (_ ++ _)) with 7; lia|]. cbv iota.
  replace ((if server then DomainMCSPDU_SendDataRequest else DomainMCSPDU_SendDataIndication) =?
    DomainMCSPDU_DisconnectProviderUltimatum) with false by (by destruct server). cbv iota.
  apply takes_check; [change (zlen (_ ++ _)) with 7; lia|]. cbv iota. unfold MCS_BASE_CHANNEL_ID in *.
  eapply takes_step; [apply reads_integer16; lia|]. cbv beta iota.
  eapply takes_step; [apply reads_integer16; lia|]. cbv beta iota.
  eapply takes_step; [apply reads_UINT8|]. cbv beta iota.
  eapply takes_last; [by apply reads_long_length|]. cbv beta iota.
  apply takes_check; [change (zlen []) with 0; lia|]. apply takes_ret.
Qed.
Lemma read_unit_header server userId channelId n rest :
  0 <= n < 32768 → n <= zlen rest → MCS_BASE_CHANNEL_ID <= userId <= UINT16_MAX → 0 <= channelId <= UINT16_MAX →
  takes (rdp_read_header server) (unit_header (send_choice (negb server)) (n + 15) userId channelId n) rest
    (Some (HeaderData n channelId)).
Proof. intros. apply read_header_within; [done|unfold UINT16_MAX; lia|lia|done|done]. Qed.

(** The block cipher works on 8 bytes at a time. *)
Definition fips_pad (n : Z) : Z := (- n) mod 8.
Lemma fips_pad_range n : 0 <= fips_pad n < 8 ∧ (n + fips_pad n) mod 8 = 0.
Proof. unfold fips_pad. div_mod_lia. Qed.
Lemma fips_pad_code n : 0 <= n → (let pad := 8 - n mod 8 in if pad =? 8 then 0 else pad) = fips_pad n.
Proof. intros. unfold fips_pad. cbv zeta. destruct (Z.eqb_spec (8 - n mod 8) 8); div_mod_lia. Qed.

Section pdus.
Context {HM : Malloc} {HD : Digests} {HC : Cipher} {HDL : DigestLaws} {HCL : CipherLaws}.
Context (Hmalloc : ∀ z, malloc_ok z = true).

Definition encrypted (sec_flags : Z) : bool := negb (Z.land sec_flags SEC_ENCRYPT =? 0).
Definition is_fips (r : rdpRdp) : bool := EncryptionMethods r =? ENCRYPTION_METHOD_FIPS.
(** The length of the body on the wire. *)
Definition wire_pad (r : rdpRdp) (sec_flags n : Z) : Z := if encrypted sec_flags && is_fips r then fips_pad n else 0.

Lemma emits_unit_header r userId n channelId sec_flags :
  0 <= n → n + wire_pad r sec_flags n < 32768 → MCS_BASE_CHANNEL_ID <= userId <= UINT16_MAX → 0 <= channelId <= UINT16_MAX →
  emits 7 (rdp_write_header r userId (n + 15) channelId sec_flags)
    (unit_header (send_choice (ServerMode r)) (n + wire_pad r sec_flags n + 15) userId channelId (n + wire_pad r sec_flags n))
    520 (Some tt).
Proof.
  intros Hn Hl Hu Hc. set (m := n + wire_pad r sec_flags n) in *.
  assert (0 <= wire_pad r sec_flags n) as Hw by (unfold wire_pad; pose proof (fips_pad_range n); destruct (_ && _); lia).
  unfold rdp_write_header, RDP_PACKET_HEADER_MAX_LENGTH. apply emits_assert; [lia|].
  replace (n + 15 >? UINT16_MAX) with false by (unfold UINT16_MAX; lia).
  replace (if negb (Z.land sec_flags SEC_ENCRYPT =? 0) && (EncryptionMethods r =? ENCRYPTION_METHOD_FIPS) then _ else n + 15)
    with (m + 15).
  2:{ unfold m, wire_pad, encrypted, is_fips. destruct (_ && _); [|lia]. cbv zeta.
      replace (n + 15 - 15) with n by lia. rewrite <- (fips_pad_code n) by lia. cbv zeta.
      destruct (8 - n mod 8 =? 8); cbn [negb]; lia. }
  cbv zeta. unfold unit_header. rewrite (app_assoc [2; 240; 128]), (app_assoc (_ ++ winpr_Data_Write_UINT16_BE (m + 15))).
  change ((([3; 0] ++ winpr_Data_Write_UINT16_BE (m + 15)) ++ [2; 240; 128] ++ [send_choice (ServerMode r)])) with
    (header_bytes (m + 15) (send_choice (ServerMode r))).
  unfold u16. rewrite (Z.mod_small (m + 15)) by lia.
  eapply (emits_bind _ 7 _ 129); [lia|lia| |].
  { replace (send_choice (ServerMode r)) with (u8 (Z.lor (Z.shiftl (if ServerMode r then DomainMCSPDU_SendDataIndication
      else DomainMCSPDU_SendDataRequest) 2) 0)) by (by destruct (ServerMode r)).
    apply emits_domain_header; try done; [by destruct (ServerMode r)|unfold UINT16_MAX; lia]. }
  unfold MCS_BASE_CHANNEL_ID in *.
  eapply (emits_fields _ _ 130); [lia|apply writes_per_integer16; done || lia|].
  eapply (emits_fields _ _ 130); [lia|apply writes_per_integer16; done || lia|].
  apply emits_writes. change (520 - 129 - 130 - 130) with (3 + 128). apply writes_ensure; [done|lia|].
  apply puts_UINT8; [lia|done|]. replace (m + 15 - 15) with m by lia.
  rewrite Z.lor_comm, (lor_disjoint 0x8000 m 15), Z.add_comm by (done || lia).
  apply puts_cast; [unfold UINT16_MAX; lia|]. apply puts_nil_r, puts_UINT16_BE; [lia|unfold UINT16_MAX; lia|]. apply puts_ret.
Qed.

(** * Protection *)

Definition secure_checksum (sec_flags : Z) : bool := negb (Z.land sec_flags SEC_SECURE_CHECKSUM =? 0).

Lemma run_lift {A} (o : outcome A) a s : o = Ret a → lift o s = Ret (a, s).
Proof. by intros ->. Qed.

Lemma security_encrypt_total r1 r2 data :
  sec_sync r1 r2 → EncryptionMethods r1 ≠ ENCRYPTION_METHOD_FIPS → bytes data →
  ∃ o r', security_encrypt data r1 = Ret (o, r') ∧ on_success (λ out, zlen out = zlen data ∧ bytes out) o.
Proof.
  intros [Hss Hd] Hm Hb. unfold security_encrypt.
  destruct (security_crypt_total (rc4_key_len r1) (EncryptionMethods r1) data (dir_encrypt r1)) as (o & d' & -> & Ho);
    [by destruct Hd|done|by apply (session_len _ _ Hss)|done|].
  do 2 eexists. split; [done|]. destruct o; [|done]. by destruct Ho.
Qed.
Lemma session_sign_len r1 r2 :
  same_session r1 r2 → EncryptionMethods r1 ≠ ENCRYPTION_METHOD_FIPS → 0 <= rc4_key_len r1 <= zlen (sign_key r1).
Proof. intros [] Hm. destruct (session_len Hm); lia. Qed.

Lemma run_out_rc4 r1 r2 s pre old body tl flags :
  sec_sync r1 r2 → EncryptionMethods r1 ≠ ENCRYPTION_METHOD_FIPS → wf s → st_buffer s = pre ++ old ++ body ++ tl →
  st_pointer s = zlen pre → zlen old = 8 → bytes body →
  ∃ o r1' s', security_out_rc4 r1 (zlen pre + 8 + zlen body) flags s = Ret ((o, r1'), s') ∧
    on_success (λ pad, pad = 0 ∧ wf s' ∧ ∃ sig out, checksum r1 (secure_checksum flags) true body = Ret (Some sig) ∧
      security_encrypt body r1 = Ret (Some out, r1') ∧ st_buffer s' = pre ++ sig ++ out ++ tl) o.
Proof.
  intros Hsync Hm Hs Hb Hp Ho Hbb. pose proof (zlen_nonneg body). pose proof (zlen_nonneg pre). pose proof (zlen_nonneg tl).
  pose proof (wf_object s Hs) as Hcap. rewrite Hb, !zlen_app in Hcap.
  unfold security_out_rc4. erewrite bind_Ret by by apply run_GetPosition. rewrite Hp.
  destruct (Z.gtb_spec (zlen pre + 8) (zlen pre + 8 + zlen body)); [lia|].
  erewrite bind_Ret by by apply run_CheckCapacity. destruct (Z.ltb_spec (st_capacity s - st_pointer s) 8); [lia|].
  erewrite bind_Ret.
  2:{ apply (run_stream_get (pre ++ old) body tl); [done|by rewrite <- app_assoc|rewrite zlen_app; lia|lia]. }
  destruct (checksum_total r1 (secure_checksum flags) true body (session_sign_len _ _ (sec_same _ _ Hsync) Hm)) as (sg & Hsg & Hsgl).
  erewrite bind_Ret by by apply run_lift. destruct sg as [sig|]; [|by exists None, r1, s]. destruct Hsgl as [Hsl Hsb].
  destruct (run_stream_set pre old (body ++ tl) s (zlen pre) sig) as [E1 Hs1]; [done|done|done|lia|done|].
  erewrite bind_Ret by exact E1. set (s1 := set_buffer _ s) in *.
  erewrite bind_Ret by (apply run_Seek; [done|cbn; lia]).
  assert (wf (adv 8 s1)) as Hs2 by (destruct Hs1; split; cbn in *; try done; lia).
  erewrite bind_Ret.
  2:{ apply (run_stream_get (pre ++ sig) body tl); [done|by rewrite <- app_assoc|rewrite zlen_app; lia|lia]. }
  destruct (security_encrypt_total r1 r2 body Hsync Hm Hbb) as (o & r' & Ee & Hol).
  erewrite bind_Ret by by apply run_lift. destruct o as [out|]; [|by eexists None, r', _]. destruct Hol as [Hol Hob].
  destruct (run_stream_set (pre ++ sig) body tl (adv 8 s1) (zlen pre + 8) out) as [E2 Hs3];
    [done|by rewrite <- app_assoc|rewrite zlen_app; lia|lia|done|].
  erewrite bind_Ret by exact E2. eexists (Some 0), r', _. split; [done|]. cbn [on_success]. split; [done|]. split; [done|].
  exists sig, out. split; [done|]. split; [done|]. cbn. by rewrite <- app_assoc.
Qed.

(** What a writer leaves of the buffer. *)
Lemma wstep_buffer s s' bs c pre old tl :
  wf s → wstep s s' bs c → st_buffer s = pre ++ old ++ tl → st_pointer s = zlen pre → zlen old = zlen bs →
  st_pointer s' = zlen pre + zlen bs ∧ ∃ z, st_buffer s' = pre ++ bs ++ tl ++ z ∧ (c = 0 → z = []).
Proof.
  intros Hs [Hs' Hw Hp Hc [z Hz]] Hb Hpre Hold. rewrite Hpre in Hp. split; [done|]. exists z.
  pose proof (zlen_nonneg pre). pose proof (zlen_nonneg bs).
  assert (st_buffer s' = pre ++ bs ++ tl ++ z) as Hb'.
  { rewrite <- (ztake_zdrop (st_pointer s') (st_buffer s')). fold (written s'). rewrite Hw, Hz, Hp. unfold written.
    rewrite Hb, Hpre. rewrite ztake_app_le, ztake_all by lia. rewrite zdrop_app_ge by lia. rewrite zdrop_app_ge by lia.
    rewrite zdrop_nonpos by lia. by rewrite <- app_assoc. }
  split; [done|]. intros ->. apply zlen_nil_inv. pose proof (wf_object _ Hs) as H1. pose proof (wf_object _ Hs') as H2.
  rewrite Hb in H1. rewrite Hb' in H2. rewrite !zlen_app in *. pose proof (zlen_nonneg z). lia.
Qed.

Lemma puts_at {A} (m : SM A) bs a s pre old tl :
  puts (zlen bs) m bs a → wf s → st_buffer s = pre ++ old ++ tl → st_pointer s = zlen pre → zlen old = zlen bs →
  ∃ s', m s = Ret (a, s') ∧ wf s' ∧ st_buffer s' = pre ++ bs ++ tl ∧ st_pointer s' = zlen pre + zlen bs.
Proof.
  intros Hm Hs Hb Hp Ho. pose proof (wf_object s Hs) as Hcap. rewrite Hb, !zlen_app in Hcap.
  pose proof (zlen_nonneg pre). pose proof (zlen_nonneg tl).
  destruct (Hm s Hs) as (s' & E & W); [unfold fits; lia|].
  destruct (wstep_buffer s s' _ _ pre old tl Hs W Hb Hp Ho) as (Hp' & z & Hb' & Hz).
  exists s'. split; [done|]. split; [by destruct W|]. rewrite Hz, app_nil_r in Hb' by done. done.
Qed.

(** The header of a FIPS packet and its padding. *)
Lemma run_fips_prepare s pre old body oldpad tl pad :
  wf s → st_buffer s = pre ++ old ++ body ++ oldpad ++ tl → st_pointer s = zlen pre → zlen old = 12 →
  zlen oldpad = pad → 0 <= pad < 8 →
  ∃ s' o8, (∀ B (k : SM B), (Stream_Write_UINT16 0x10;; Stream_Write_UINT8 0x1;;
    (if negb (pad =? 0) then stream_set (zlen pre + 12 + zlen body) (zeros pad) else mret tt);;
    Stream_Write_UINT8 pad;; k) s = k s') ∧ wf s' ∧ zlen o8 = 8 ∧ st_pointer s' = zlen pre + 4 ∧
    st_buffer s' = (pre ++ [16; 0; 1; pad]) ++ o8 ++ body ++ zeros pad ++ tl.
Proof.
  intros Hs Hb Hp Ho Hop Hpad.
  destruct (split_at 2 old ltac:(lia)) as (o2 & old1 & -> & Hl2 & Hr2). rewrite Ho in Hr2.
  destruct (split_at 1 old1 ltac:(lia)) as (o1 & old2 & -> & Hl1 & Hr1). rewrite Hr2 in Hr1.
  destruct (split_at 1 old2 ltac:(lia)) as (op & o8 & -> & Hlp & H8). rewrite Hr1 in H8.
  destruct (puts_at (Stream_Write_UINT16 0x10) [16; 0] tt s pre o2 ((o1 ++ op ++ o8) ++ body ++ oldpad ++ tl))
    as (s1 & E1 & Hs1 & Hb1 & Hp1); [by intros s0 ??; apply run_Write_UINT16|done|by rewrite Hb, <- !app_assoc|done|done|].
  destruct (puts_at (Stream_Write_UINT8 1) [1] tt s1 (pre ++ [16; 0]) o1 ((op ++ o8) ++ body ++ oldpad ++ tl))
    as (s2 & E2 & Hs2 & Hb2 & Hp2);
    [intros s0 ??; apply run_Write_UINT8; [done|done|unfold is_byte; lia]|done|by rewrite Hb1, <- !app_assoc|by rewrite zlen_app|done|].
  rewrite zlen_app in Hp2. change (zlen [16; 0]) with 2 in Hp2. change (zlen [1]) with 1 in Hp2.
  assert (∃ s3, (if negb (pad =? 0) then stream_set (zlen pre + 12 + zlen body) (zeros pad) else mret tt) s2 = Ret (tt, s3) ∧
    wf s3 ∧ st_pointer s3 = zlen pre + 3 ∧
    st_buffer s3 = (pre ++ [16; 0; 1]) ++ op ++ o8 ++ body ++ zeros pad ++ tl) as (s3 & E3 & Hs3 & Hp3 & Hb3).
  { destruct (Z.eqb_spec pad 0) as [Hp0|Hp0]; cbn [negb].
    - exists s2. split; [done|]. split; [done|]. split; [lia|]. rewrite Hb2, Hp0.
      rewrite (zlen_nil_inv oldpad) by lia. by rewrite <- !app_assoc.
    - destruct (run_stream_set ((pre ++ [16; 0]) ++ [1] ++ (op ++ o8) ++ body) oldpad tl s2 (zlen pre + 12 + zlen body) (zeros pad))
        as [E Hwf]; [done|by rewrite Hb2, <- !app_assoc|rewrite !zlen_app; change (zlen [16; 0]) with 2; change (zlen [1]) with 1; lia
        |rewrite zlen_zeros; lia|apply bytes_zeros|].
      eexists. split; [exact E|]. split; [done|]. split; [cbn; lia|]. cbn [set_buffer st_buffer]. by rewrite <- !app_assoc. }
  destruct (puts_at (Stream_Write_UINT8 pad) [pad] tt s3 (pre ++ [16; 0; 1]) op (o8 ++ body ++ zeros pad ++ tl))
    as (s4 & E4 & Hs4 & Hb4 & Hp4); [intros s0 ??; apply run_Write_UINT8; [done|done|unfold is_byte; lia]|done|done
    |rewrite zlen_app; done|done|].
  exists s4, o8. split.
  { intros B k. erewrite bind_Ret by exact E1. erewrite bind_Ret by exact E2. erewrite bind_Ret by exact E3. by erewrite bind_Ret by exact E4. }
  rewrite zlen_app in Hp4. change (zlen [16; 0; 1]) with 3 in Hp4. change (zlen [pad]) with 1 in Hp4.
  split; [done|]. split; [done|]. split; [lia|]. by rewrite Hb4, <- !app_assoc.
Qed.

Lemma run_out_fips r1 r2 s pre old body oldpad tl :
  sec_sync r1 r2 → EncryptionMethods r1 = ENCRYPTION_METHOD_FIPS → wf s →
  st_buffer s = pre ++ old ++ body ++ oldpad ++ tl →
  st_pointer s = zlen pre → zlen old = 12 → bytes body → zlen oldpad = fips_pad (zlen body) →
  ∃ o r1' s', security_out_fips r1 (zlen pre + 12 + zlen body) s = Ret ((o, r1'), s') ∧
    on_success (λ pad, pad = fips_pad (zlen body) ∧ wf s' ∧ ∃ sig out, security_hmac_signature r1 body = Some sig ∧
      security_fips_encrypt (body ++ zeros pad) r1 = Ret (Some out, r1') ∧
      st_buffer s' = pre ++ ([16; 0; 1; pad] ++ sig) ++ out ++ tl) o.
Proof.
  intros Hsync Hm Hs Hb Hp Ho Hbb Hop. pose proof (zlen_nonneg body). pose proof (zlen_nonneg pre). pose proof (zlen_nonneg tl).
  unfold security_out_fips. erewrite bind_Ret by by apply run_GetPosition. rewrite Hp.
  destruct (Z.gtb_spec (zlen pre + 12) (zlen pre + 12 + zlen body)); [lia|].
  replace (zlen pre + 12 + zlen body - (zlen pre + 12)) with (zlen body) by lia.
  pose proof (fips_pad_code (zlen body) ltac:(lia)) as Hpc. cbv zeta in Hpc |- *. rewrite Hpc.
  pose proof (fips_pad_range (zlen body)) as [Hpr Hpm]. set (pad := fips_pad (zlen body)) in *.
  destruct (run_fips_prepare s pre old body oldpad tl pad) as (s4 & o8 & E & Hs4 & H8 & Hp4 & Hb4); [done..|].
  rewrite E. clear E. pose proof (wf_object s4 Hs4) as Hcap. rewrite Hb4, !zlen_app, zlen_zeros in Hcap by lia.
  change (zlen [16; 0; 1; pad]) with 4 in Hcap.
  erewrite bind_Ret by by apply run_CheckCapacity. destruct (Z.ltb_spec (st_capacity s4 - st_pointer s4) 8); [lia|].
  assert (zlen ((pre ++ [16; 0; 1; pad]) ++ o8) = zlen pre + 12) as Hz by (rewrite !zlen_app; change (zlen [16; 0; 1; pad]) with 4; lia).
  erewrite bind_Ret.
  2:{ apply (run_stream_get ((pre ++ [16; 0; 1; pad]) ++ o8) body (zeros pad ++ tl)); [done|by rewrite Hb4, <- !app_assoc|lia|lia]. }
  pose proof (hmac_signature_total r1 body) as Hsig.
  destruct (security_hmac_signature r1 body) as [sig|] eqn:Esig; [|by exists None, r1, s4]. destruct Hsig as [Hsl Hsb].
  destruct (run_stream_set (pre ++ [16; 0; 1; pad]) o8 (body ++ zeros pad ++ tl) s4 (zlen pre + 4) sig) as [E5 Hs5];
    [done|done|rewrite zlen_app; done|lia|done|].
  erewrite bind_Ret by exact E5. set (s5 := set_buffer _ s4) in *.
  erewrite bind_Ret by (apply run_Seek; [done|cbn; lia]).
  assert (wf (adv 8 s5)) as Hs6 by (destruct Hs5; split; cbn in *; try done; lia).
  assert (zlen ((pre ++ [16; 0; 1; pad]) ++ sig) = zlen pre + 12) as Hz' by (rewrite !zlen_app; change (zlen [16; 0; 1; pad]) with 4; lia).
  erewrite bind_Ret.
  2:{ apply (run_stream_get ((pre ++ [16; 0; 1; pad]) ++ sig) (body ++ zeros pad) tl); [done|cbn [s5 adv set_pointer set_buffer st_buffer]; by rewrite <- !app_assoc|lia|].
      rewrite zlen_app, zlen_zeros; lia. }
  destruct (fips_encrypt_total r1 r2 (body ++ zeros pad) Hsync Hm) as (o & r' & Ee & Hav); [rewrite zlen_app, zlen_zeros; lia|].
  erewrite bind_Ret by by apply run_lift. destruct o as [out|]; [|by eexists None, r', _].
  assert (bytes (body ++ zeros pad)) as Hbz by (apply Forall_app_2; [done|apply bytes_zeros]).
  destruct (fips_packet r1 r2 body (zeros pad) sig out r' Hsync Hm Hbz) as (_ & _ & _ & _ & _ & _ & _ & Hol & Hob);
    [rewrite zlen_app, zlen_zeros; lia|done|done|].
  destruct (run_stream_set ((pre ++ [16; 0; 1; pad]) ++ sig) (body ++ zeros pad) tl (adv 8 s5) (zlen pre + 12) out) as [E7 Hs7];
    [done|cbn [s5 adv set_pointer set_buffer st_buffer]; by rewrite <- !app_assoc|lia|lia|done|].
  erewrite bind_Ret by exact E7. eexists (Some pad), r', _. split; [done|]. cbn [on_success]. split; [done|]. split; [done|].
  exists sig, out. split; [done|]. split; [done|]. cbn. by rewrite <- !app_assoc.
Qed.

(** A body on the wire. *)
Definition sec_header (flags : Z) : list Z := winpr_Data_Write_UINT16 flags ++ winpr_Data_Write_UINT16 0.
Inductive secured (r : rdpRdp) (flags : Z) (body : list Z) : list Z → rdpRdp → Prop :=
| secured_plain : flags = 0 → secured r flags body body r
| secured_header : flags ≠ 0 → encrypted flags = false → secured r flags body (sec_header flags ++ body) r
| secured_rc4 sig out r' :
    encrypted flags = true → EncryptionMethods r ≠ ENCRYPTION_METHOD_FIPS →
    checksum r (secure_checksum flags) true body = Ret (Some sig) → security_encrypt body r = Ret (Some out, r') →
    secured r flags body (sec_header flags ++ sig ++ out) r'
| secured_fips sig out r' :
    encrypted flags = true → EncryptionMethods r = ENCRYPTION_METHOD_FIPS →
    security_hmac_signature r body = Some sig →
    security_fips_encrypt (body ++ zeros (fips_pad (zlen body))) r = Ret (Some out, r') →
    secured r flags body (sec_header flags ++ ([16; 0; 1; fips_pad (zlen body)] ++ sig) ++ out) r'.

(** The flags a sender may use. *)
Definition flags_ok (flags : Z) : Prop := 0 <= flags < 0x8000.
Lemma flags_hi flags : flags_ok flags → (Z.land flags SEC_FLAGSHI_VALID =? 0) = true.
Proof.
  unfold flags_ok, SEC_FLAGSHI_VALID. intros Hf. change 0x8000 with ((2 ^ 1 - 1) * 2 ^ 15). rewrite land_field by lia.
  rewrite Z.div_small by lia. done.
Qed.
Lemma puts_sec_header flags : flags_ok flags → puts 4 (rdp_write_security_header flags) (sec_header flags) (Some tt).
Proof.
  intros Hf. apply puts_check; [lia|]. apply puts_assert; [by apply flags_hi|]. unfold flags_ok in Hf.
  apply puts_UINT16; [lia|unfold UINT16_MAX; lia|]. apply puts_nil_r, puts_UINT16; [lia|unfold UINT16_MAX; lia|]. apply puts_ret.
Qed.

(** The end of a sender, once the protected bytes are in place. *)
Lemma run_finish {R} s length (r : R) hdr wire tl :
  wf s → st_buffer s = hdr ++ wire ++ tl → length = zlen hdr + zlen wire →
  ∃ s', (ok ← Stream_SetPosition length;
         match ok with None => mret (None, r) | Some _ => Stream_SealLength;; mret (Some tt, r) end) s = Ret ((Some tt, r), s') ∧
    wf s' ∧ written s' = hdr ++ wire.
Proof.
  intros Hs Hb ->. pose proof (wf_object s Hs) as Hc. rewrite Hb, !zlen_app in Hc.
  pose proof (zlen_nonneg hdr). pose proof (zlen_nonneg wire). pose proof (zlen_nonneg tl).
  unfold Stream_SetPosition. unfold mbind at 1, SM_bind. destruct (Z.gtb_spec (zlen hdr + zlen wire) (st_capacity s)); [lia|].
  unfold Stream_SealLength. unfold mbind, SM_bind. cbn [set_pointer st_pointer st_capacity].
  destruct (Z.leb_spec 0 (zlen hdr + zlen wire)); [|lia]. destruct (Z.leb_spec (zlen hdr + zlen wire) (st_capacity s)); [|lia].
  eexists. split; [done|]. split.
  - destruct Hs. split; cbn; try done; lia.
  - unfold written. cbn. rewrite Hb, app_assoc, <- zlen_app. rewrite ztake_app_le by lia. by rewrite ztake_all by lia.
Qed.

(** After the security header. *)
Lemma run_out_encrypted r1 r2 s pre old body oldpad tl flags :
  sec_sync r1 r2 → encrypted flags = true → wf s → st_buffer s = pre ++ old ++ body ++ oldpad ++ tl →
  st_pointer s = zlen pre → zlen old = (if is_fips r1 then 12 else 8) → bytes body →
  zlen oldpad = (if is_fips r1 then fips_pad (zlen body) else 0) →
  ∃ o r1' s', (if is_fips r1 then security_out_fips r1 (zlen pre + zlen old + zlen body)
               else security_out_rc4 r1 (zlen pre + zlen old + zlen body) flags) s = Ret ((o, r1'), s') ∧
    on_success (λ pad, pad = zlen oldpad ∧ wf s' ∧ ∃ w, secured r1 flags body (sec_header flags ++ w) r1' ∧
      st_buffer s' = pre ++ w ++ tl ∧ zlen w = zlen old + zlen body + pad) o.
Proof.
  intros Hsync He Hs Hb Hp Ho Hbb Hop. unfold is_fips in *.
  destruct (Z.eqb_spec (EncryptionMethods r1) ENCRYPTION_METHOD_FIPS) as [Hm|Hm]; rewrite Ho.
  - destruct (run_out_fips r1 r2 s pre old body oldpad tl) as (o & r' & s' & -> & Hres); [done..|].
    exists o, r', s'. split; [done|]. destruct o as [pad|]; [|done]. cbn [on_success] in *.
    destruct Hres as (-> & Hs' & sig & out & Hsig & Hout & Hb'). split; [done|]. split; [done|].
    assert (bytes (body ++ zeros (fips_pad (zlen body)))) as Hbz by (apply Forall_app_2; [done|apply bytes_zeros]).
    pose proof (fips_pad_range (zlen body)) as [Hpr Hpm].
    destruct (fips_packet r1 r2 body (zeros (fips_pad (zlen body))) sig out r' Hsync Hm Hbz) as (_ & _ & _ & _ & _ & Hsl & _ & Hol & _);
      [rewrite zlen_app, zlen_zeros; lia|done|done|]. rewrite zlen_app, zlen_zeros in Hol by lia.
    exists (([16; 0; 1; fips_pad (zlen body)] ++ sig) ++ out). split; [by constructor|]. split; [by rewrite Hb', <- !app_assoc|].
    rewrite !zlen_app. change (zlen [_; _; _; _]) with 4. lia.
  - destruct (run_out_rc4 r1 r2 s pre old body (oldpad ++ tl) flags) as (o & r' & s' & -> & Hres); [done..|].
    exists o, r', s'. split; [done|]. destruct o as [pad|]; [|done]. cbn [on_success] in *.
    destruct Hres as (-> & Hs' & sig & out & Hsig & Hout & Hb'). split; [done|]. split; [done|].
    destruct (rc4_packet r1 r2 _ body sig out r' Hsync Hm Hbb Hsig Hout) as (_ & _ & _ & _ & Hol & _).
    destruct (checksum_total r1 (secure_checksum flags) true body (session_sign_len _ _ (sec_same _ _ Hsync) Hm)) as (sg & Hsg & Hsgl).
    rewrite Hsig in Hsg. injection Hsg as <-. destruct Hsgl as [Hsl _].
    exists (sig ++ out). split; [by constructor|]. apply zlen_nil_inv in Hop as ->. split; [by rewrite Hb', <- !app_assoc|].
    rewrite zlen_app. lia.
Qed.

Lemma run_stream_out r1 r2 s hdr old body oldpad tl flags :
  (encrypted flags = true → sec_sync r1 r2) → flags_ok flags → wf s → st_buffer s = hdr ++ old ++ body ++ oldpad ++ tl →
  st_pointer s = zlen hdr → zlen old = rdp_get_sec_bytes r1 flags → bytes body → zlen oldpad = wire_pad r1 flags (zlen body) →
  zlen hdr + zlen old + zlen body <= UINT16_MAX →
  ∃ o r1' s', rdp_security_stream_out r1 (zlen hdr + zlen old + zlen body) flags s = Ret ((o, r1'), s') ∧
    on_success (λ pad, pad = zlen oldpad ∧ wf s' ∧ ∃ wire, secured r1 flags body wire r1' ∧
      st_buffer s' = hdr ++ wire ++ tl ∧ zlen wire = zlen old + zlen body + pad) o.
Proof.
  intros Hsync Hf Hs Hb Hp Ho Hbb Hop Hmax. pose proof (zlen_nonneg hdr). pose proof (zlen_nonneg body).
  unfold rdp_security_stream_out. destruct (Z.gtb_spec (zlen hdr + zlen old + zlen body) UINT16_MAX); [lia|].
  unfold rdp_get_sec_bytes in Ho. fold (encrypted flags) in Ho. fold (is_fips r1) in Ho |- *. unfold wire_pad in Hop.
  destruct (Z.eqb_spec flags 0) as [->|Hf0].
  { cbn [encrypted negb andb] in Ho, Hop. apply zlen_nil_inv in Ho as ->. apply zlen_nil_inv in Hop as ->.
    exists (Some 0), r1, s. split; [done|]. cbn [on_success]. split; [done|]. split; [done|]. exists body.
    split; [by constructor|]. change (zlen (@nil Z)) with 0. split; [done|lia]. }
  pose proof Hf as Hf'. unfold flags_ok in Hf'. rewrite assert_bind by (unfold UINT16_MAX; lia).
  destruct (split_at 4 old) as (o4 & old' & -> & Hl4 & Hr4).
  { destruct (encrypted flags); [destruct (is_fips r1)|]; cbn [negb] in Ho; lia. }
  rewrite zlen_app in Ho, Hmax |- *. rewrite Hl4 in *.
  destruct (puts_at (rdp_write_security_header flags) (sec_header flags) (Some tt) s hdr o4 (old' ++ body ++ oldpad ++ tl))
    as (s1 & E1 & Hs1 & Hb1 & Hp1); [by apply puts_sec_header|done|by rewrite Hb, <- !app_assoc|done|done|].
  erewrite bind_Ret by exact E1. cbv iota.
  change (zlen (sec_header flags)) with 4 in Hp1.
  assert (zlen (hdr ++ sec_header flags) = zlen hdr + 4) as Hz by (rewrite zlen_app; done).
  destruct (encrypted flags) eqn:He; pose proof He as He'; unfold encrypted in He'.
  - apply negb_true_iff in He'. rewrite He'.
    destruct (run_out_encrypted r1 r2 s1 (hdr ++ sec_header flags) old' body oldpad tl flags) as (o & r' & s' & E & Hres);
      [by apply Hsync|done|done|by rewrite Hb1, <- !app_assoc|by rewrite Hp1, Hz|destruct (is_fips r1); lia|done|done|].
    exists o, r', s'. rewrite Hz in E.
    replace (zlen hdr + (4 + zlen old') + zlen body) with (zlen hdr + 4 + zlen old' + zlen body) by lia. split; [exact E|].
    destruct o as [pad|]; [|done]. cbn [on_success] in *. destruct Hres as (-> & Hs' & w & Hw & Hb' & Hzw).
    split; [done|]. split; [done|]. exists (sec_header flags ++ w). split; [done|]. split; [by rewrite Hb', <- !app_assoc|].
    rewrite zlen_app. change (zlen (sec_header flags)) with 4. lia.
  - apply negb_false_iff in He'. rewrite He'. cbn [andb] in Hop. apply zlen_nil_inv in Hop as ->.
    destruct (Z.eqb_spec flags 0); [done|]. cbn [negb] in Ho. assert (old' = []) as -> by (apply zlen_nil_inv; lia).
    exists (Some 0), r1, s1. split; [done|]. cbn [on_success]. split; [done|]. split; [done|]. exists (sec_header flags ++ body).
    split; [by constructor|]. split; [by rewrite Hb1, <- !app_assoc|]. rewrite zlen_app.
    change (zlen (sec_header flags)) with 4. change (zlen (@nil Z)) with 0. lia.
Qed.

Lemma run_send_protected r1 r2 s hdr old body oldpad tl flags :
  (encrypted flags = true → sec_sync r1 r2) → flags_ok flags → wf s → st_buffer s = hdr ++ old ++ body ++ oldpad ++ tl →
  st_pointer s = zlen hdr → zlen old = rdp_get_sec_bytes r1 flags → bytes body → zlen oldpad = wire_pad r1 flags (zlen body) →
  zlen hdr + zlen old + zlen body <= UINT16_MAX →
  ∃ o r1' s', send_protected r1 (zlen hdr + zlen old + zlen body) flags s = Ret ((o, r1'), s') ∧
    on_success (λ _, wf s' ∧ ∃ wire, secured r1 flags body wire r1' ∧ written s' = hdr ++ wire ∧
      zlen wire = zlen old + zlen body + zlen oldpad) o.
Proof.
  intros Hsync Hf Hs Hb Hp Ho Hbb Hop Hmax.
  destruct (run_stream_out r1 r2 s hdr old body oldpad tl flags) as (o & r' & s' & E & Hres); [done..|].
  unfold send_protected. erewrite bind_Ret by exact E. destruct o as [pad|]; [|by exists None, r', s'].
  destruct Hres as (-> & Hs' & wire & Hsec & Hb' & Hz).
  destruct (run_finish s' (zlen hdr + zlen old + zlen body + zlen oldpad) r' hdr wire tl) as (s2 & E2 & Hs2 & Hw); [done|done|lia|].
  exists (Some tt), r', s2. split; [exact E2|]. split; [done|]. by exists wire.
Qed.

(** The stream a sender fills: room for the headers, the body, and what is behind it. *)
Definition unit_room (r : rdpRdp) (flags : Z) (body : list Z) (s : wStream) : Prop :=
  wf s ∧ st_capacity s + 520 <= SIZE_MAX ∧ bytes body ∧
  ∃ old15 old oldpad tl, st_buffer s = old15 ++ old ++ body ++ oldpad ++ tl ∧ zlen old15 = 15 ∧
    zlen old = rdp_get_sec_bytes r flags ∧ zlen oldpad = wire_pad r flags (zlen body) ∧
    st_pointer s = 15 + zlen old + zlen body.
Definition unit_size (r : rdpRdp) (flags : Z) (body : list Z) : Z :=
  rdp_get_sec_bytes r flags + zlen body + wire_pad r flags (zlen body).

Lemma sec_bytes_pad r flags n : wire_pad r flags (rdp_get_sec_bytes r flags + n) = wire_pad r flags n.
Proof.
  unfold wire_pad, rdp_get_sec_bytes. fold (encrypted flags) (is_fips r). destruct (encrypted flags), (is_fips r); cbn [andb negb]; try done.
  unfold fips_pad. div_mod_lia.
Qed.
Lemma sec_bytes_nonneg r flags : 0 <= rdp_get_sec_bytes r flags.
Proof. unfold rdp_get_sec_bytes. repeat destruct (negb _); repeat destruct (_ =? _); lia. Qed.

Definition unit_packet (server : bool) (userId channelId : Z) (wire : list Z) : list Z :=
  unit_header (send_choice server) (zlen wire + 15) userId channelId (zlen wire) ++ wire.

(** The header is written over the room for it. *)
Lemma run_unit_header r flags body s userId channelId :
  unit_room r flags body s → unit_size r flags body < 32768 →
  MCS_BASE_CHANNEL_ID <= userId <= UINT16_MAX → 0 <= channelId <= UINT16_MAX →
  ∃ s1 old oldpad tl, rdp_write_header r userId (st_pointer s) channelId flags (set_pointer 0 s) = Ret (Some tt, s1) ∧
    wf s1 ∧ zlen old = rdp_get_sec_bytes r flags ∧ zlen oldpad = wire_pad r flags (zlen body) ∧ st_pointer s1 = 15 ∧
    st_buffer s1 = unit_header (send_choice (ServerMode r)) (unit_size r flags body + 15) userId channelId (unit_size r flags body)
      ++ old ++ body ++ oldpad ++ tl.
Proof.
  intros (Hs & Hcap & Hbb & old15 & old & oldpad & tl & Hb & H15 & Ho & Hop & Hp) Hsz Hu Hc.
  pose proof (zlen_nonneg body). pose proof (sec_bytes_nonneg r flags). pose proof (zlen_nonneg oldpad). pose proof (zlen_nonneg tl).
  set (n := zlen old + zlen body). assert (wire_pad r flags n = wire_pad r flags (zlen body)) as Hw.
  { unfold n. rewrite Ho. apply sec_bytes_pad. }
  assert (n + wire_pad r flags n = unit_size r flags body) as Hn by (unfold unit_size; rewrite Hw; lia).
  assert (wf (set_pointer 0 s)) as Hs0 by (destruct Hs; split; cbn; try done; lia).
  pose proof (wf_object s Hs) as Hobj. rewrite Hb, !zlen_app in Hobj.
  destruct (emits_unit_header r userId n channelId flags ltac:(lia) ltac:(lia) Hu Hc (set_pointer 0 s) Hs0) as (s1 & E & W);
    [unfold fits; cbn; lia|cbn; lia|]. rewrite Hn in W.
  destruct (wstep_buffer (set_pointer 0 s) s1 _ _ [] old15 (old ++ body ++ oldpad ++ tl) Hs0 W) as (Hp1 & z & Hb1 & _); [done|done|done|].
  exists s1, old, oldpad, (tl ++ z). replace (st_pointer s) with (n + 15) by lia. split; [done|]. split; [by destruct W|].
  split; [done|]. split; [done|]. split; [done|]. rewrite Hb1. cbn [app]. by rewrite <- !app_assoc.
Qed.

Lemma run_rdp_send r1 r2 s body flags userId channelId :
  (encrypted flags = true → sec_sync r1 r2) → flags_ok flags → unit_room r1 flags body s → unit_size r1 flags body < 32768 →
  MCS_BASE_CHANNEL_ID <= userId <= UINT16_MAX → 0 <= channelId <= UINT16_MAX →
  ∃ o r1' s', rdp_send r1 userId channelId flags s = Ret ((o, r1'), s') ∧
    on_success (λ _, wf s' ∧ ∃ wire, secured r1 flags body wire r1' ∧ zlen wire < 32768 ∧
      written s' = unit_packet (ServerMode r1) userId channelId wire) o.
Proof.
  intros Hsync Hf Hroom Hsz Hu Hc.
  destruct (run_unit_header r1 flags body s userId channelId Hroom Hsz Hu Hc) as (s1 & old & oldpad & tl & E & Hs1 & Ho & Hop & Hp1 & Hb1).
  destruct Hroom as (Hs & Hcap & Hbb & _ & old0 & _ & _ & _ & _ & Ho0 & _ & Hp).
  unfold rdp_send. erewrite bind_Ret by by apply run_GetPosition. unfold Stream_ResetPosition. erewrite bind_Ret by done.
  erewrite bind_Ret by exact E. cbv iota. unfold unit_size in Hsz. pose proof (zlen_nonneg oldpad).
  set (hdr := unit_header _ _ _ _ _) in Hb1. assert (zlen hdr = 15) as Hh by done.
  destruct (run_send_protected r1 r2 s1 hdr old body oldpad tl flags) as (o & r' & s' & E2 & Hres);
    [done|done|done|done|by rewrite Hh|done|done|done|unfold UINT16_MAX; lia|].
  exists o, r', s'. replace (st_pointer s) with (zlen hdr + zlen old + zlen body) by lia. split; [exact E2|].
  destruct o; [|done]. destruct Hres as (Hs' & wire & Hsec & Hw & Hz). split; [done|]. exists wire. split; [done|]. split; [lia|].
  rewrite Hw. unfold unit_packet, hdr. by replace (zlen wire) with (unit_size r1 flags body) by (unfold unit_size; lia).
Qed.

(** * Acceptance *)

Lemma readable_split s bs :
  readable s → remaining s = bs →
  ∃ pre tl, st_buffer s = pre ++ bs ++ tl ∧ st_pointer s = zlen pre ∧ st_length s = zlen pre + zlen bs.
Proof.
  intros Hs <-. exists (ztake (st_pointer s) (st_buffer s)), (zdrop (st_length s) (st_buffer s)).
  pose proof (zlen_remaining s Hs) as Hz. destruct Hs as [[] Hp]. rewrite zlen_ztake. unfold rem in *. split; [|lia].
  unfold remaining, rem, zslice. rewrite <- (ztake_zdrop (st_pointer s) (st_buffer s)) at 1. f_equal.
  rewrite <- (ztake_zdrop (st_length s - st_pointer s) (zdrop (st_pointer s) (st_buffer s))) at 1. f_equal.
  rewrite zdrop_zdrop by lia. f_equal. lia.
Qed.
Lemma readable_join s pre bs tl :
  wf s → st_buffer s = pre ++ bs ++ tl → st_pointer s = zlen pre → st_length s = zlen pre + zlen bs →
  readable s ∧ remaining s = bs.
Proof.
  intros Hs Hb Hp Hl. pose proof (zlen_nonneg bs). split; [split; [done|lia]|].
  unfold remaining, rem. rewrite Hp, Hl, Hb. replace (zlen pre + zlen bs - zlen pre) with (zlen bs) by lia. by apply zslice_mid.
Qed.

(** Sending leaves the other direction alone, and so does receiving. *)
Definition only_encrypt (r r' : rdpRdp) : Prop := r' = set_encrypt (dir_encrypt r') r.
Definition only_decrypt (r r' : rdpRdp) : Prop := r' = set_decrypt (dir_decrypt r') r.
Lemma security_encrypt_frame data r o r' : security_encrypt data r = Ret (o, r') → only_encrypt r r'.
Proof. unfold security_encrypt. destruct (security_crypt _ _ _ _) as [[]|]; [|done]. by intros [= <- <-]. Qed.
Lemma security_decrypt_frame data r o r' : security_decrypt data r = Ret (o, r') → only_decrypt r r'.
Proof. unfold security_decrypt. destruct (security_crypt _ _ _ _) as [[]|]; [|done]. by intros [= <- <-]. Qed.
Lemma fips_encrypt_frame data r o r' : security_fips_encrypt data r = Ret (o, r') → only_encrypt r r'.
Proof.
  unfold security_fips_encrypt. destruct (c_fips (dir_encrypt r)); [|done]. destruct (fips_crypt _ _) as [[]|]; intros [= <- <-]; [done|].
  by destruct r.
Qed.
Lemma fips_decrypt_frame data r o r' : security_fips_decrypt data r = Ret (o, r') → only_decrypt r r'.
Proof.
  unfold security_fips_decrypt. destruct (c_fips (dir_decrypt r)); [|by destruct r; intros [= <- <-]].
  destruct (fips_crypt _ _) as [[]|]; intros [= <- <-]; [done|]. by destruct r.
Qed.
Lemma check_signature_frame data sig r v r' : security_fips_check_signature data sig r = (v, r') → only_decrypt r r'.
Proof. unfold security_fips_check_signature. destruct (security_hmac _ _ _); by intros [= <- <-]. Qed.
Lemma only_decrypt_trans r1 r2 r3 : only_decrypt r1 r2 → only_decrypt r2 r3 → only_decrypt r1 r3.
Proof. unfold only_decrypt. intros -> ->. done. Qed.
Lemma secured_frame r flags body wire r' : secured r flags body wire r' → only_encrypt r r'.
Proof.
  intros []; [by destruct r|by destruct r|by eapply security_encrypt_frame|by eapply fips_encrypt_frame].
Qed.
(** Both directions. *)
Definition duplex (r1 r2 : rdpRdp) : Prop := sec_sync r1 r2 ∧ sec_sync r2 r1.
Lemma duplex_frame r1 r2 r1' r2' :
  duplex r1 r2 → only_encrypt r1 r1' → only_decrypt r2 r2' → sec_sync r1' r2' → duplex r1' r2'.
Proof.
  intros [_ [Hss Hd]] -> -> Hs. split; [done|]. split; [|done]. destruct Hss. by split.
Qed.

(** The last packet was decrypted to its body. *)
Definition accepted (r1' r2 : rdpRdp) (body : list Z) (res : option Z * rdpRdp) (s' : wStream) : Prop :=
  fst res = Some (zlen body) ∧ sec_sync r1' (snd res) ∧ only_decrypt r2 (snd res) ∧ readable s' ∧ remaining s' = body.

Lemma run_decrypt_rc4 r1 r2 r1' body flags sig out s :
  sec_sync r1 r2 → EncryptionMethods r1 ≠ ENCRYPTION_METHOD_FIPS → bytes body → 0 < zlen body <= UINT16_MAX →
  checksum r1 (secure_checksum flags) true body = Ret (Some sig) → security_encrypt body r1 = Ret (Some out, r1') →
  readable s → remaining s = sig ++ out →
  ∃ res s', decrypt_rc4 r2 (8 + zlen body) flags s = Ret (res, s') ∧ accepted r1' r2 body res s'.
Proof.
  intros Hsync Hm Hbb Hn Hsig Hout Hs Hr.
  destruct (checksum_total r1 (secure_checksum flags) true body (session_sign_len _ _ (sec_same _ _ Hsync) Hm)) as (sg & Hsg & Hsgl).
  rewrite Hsig in Hsg. injection Hsg as <-. destruct Hsgl as [Hsl Hsb].
  destruct (rc4_packet r1 r2 _ body sig out r1' Hsync Hm Hbb Hsig Hout) as (r2' & Ed & Hck & Hsync' & Hol & Hob).
  destruct (remaining_app _ _ _ Hs Hr) as (_ & Hs1 & Hr1). rewrite Hsl in Hs1, Hr1.
  destruct (readable_split _ _ Hs1 Hr1) as (pre & tl & Hb & Hp & Hl).
  unfold decrypt_rc4. erewrite bind_Ret by by apply run_CheckLength.
  rewrite <- zlen_remaining, Hr, zlen_app by done. destruct (Z.ltb_spec (zlen sig + zlen out) 8); [lia|]. cbv iota.
  rewrite <- Hsl. erewrite bind_Ret by (apply (reads_Read sig s out Hs Hr)). rewrite Hsl.
  replace (8 + zlen body - 8) with (zlen body) by lia. destruct (Z.leb_spec (zlen body) 0); [lia|].
  erewrite bind_Ret by (apply run_GetPosition; by destruct Hs1). rewrite Hp.
  erewrite bind_Ret by (apply (run_stream_get pre out tl); [by destruct Hs1|done|done|lia]).
  erewrite bind_Ret by by apply run_lift. cbv iota.
  destruct (run_stream_set pre out tl (adv 8 s) (zlen pre) body) as [E Hwf]; [by destruct Hs1|done|done|lia|done|].
  erewrite bind_Ret by exact E. erewrite bind_Ret by (apply run_lift; exact Hck). cbv iota.
  do 2 eexists. split; [done|]. split.
  - cbn [fst]. unfold u16. rewrite Z.mod_small; [done|unfold UINT16_MAX in *; lia].
  - split; [done|]. split; [by eapply security_decrypt_frame|].
    apply (readable_join _ pre body tl); [done|done|done|cbn in *; lia].
Qed.

Lemma run_fips_fields s pad rest :
  readable s → remaining s = [16; 0; 1; pad] ++ rest →
  Stream_Read_UINT16 s = Ret (16, adv 2 s) ∧ Stream_Read_UINT8 (adv 2 s) = Ret (1, adv 3 s) ∧
  Stream_Read_UINT8 (adv 3 s) = Ret (pad, adv 4 s).
Proof.
  intros Hs Hr.
  destruct (remaining_app _ [16; 0] ([1; pad] ++ rest) Hs Hr) as (_ & Ha & Hra). change (zlen [16; 0]) with 2 in *.
  destruct (remaining_app _ [1] ([pad] ++ rest) Ha Hra) as (_ & Hc & Hrc). rewrite adv_adv in Hc, Hrc. change (2 + zlen [1]) with 3 in *.
  split; [apply (reads_UINT16 16 ltac:(unfold UINT16_MAX; lia) s ([1; pad] ++ rest) Hs Hr)|]. split.
  - rewrite (reads_UINT8 1 _ ([pad] ++ rest) Ha Hra). by rewrite adv_adv.
  - rewrite (reads_UINT8 pad _ rest Hc Hrc). by rewrite adv_adv.
Qed.
Lemma run_decrypt_fips r1 r2 r1' body sig out s :
  let pad := fips_pad (zlen body) in
  sec_sync r1 r2 → EncryptionMethods r1 = ENCRYPTION_METHOD_FIPS → bytes body → 0 < zlen body <= UINT16_MAX →
  security_hmac_signature r1 body = Some sig → security_fips_encrypt (body ++ zeros pad) r1 = Ret (Some out, r1') →
  readable s → remaining s = ([16; 0; 1; pad] ++ sig) ++ out →
  ∃ res s', decrypt_fips r2 (12 + zlen body + pad) s = Ret (res, s') ∧ accepted r1' r2 body res s'.
Proof.
  intros pad Hsync Hm Hbb Hn Hsig Hout Hs Hr. pose proof (fips_pad_range (zlen body)) as [Hpr Hpm]. fold pad in Hpr, Hpm.
  assert (bytes (body ++ zeros pad)) as Hbz by (apply Forall_app_2; [done|apply bytes_zeros]).
  destruct (fips_packet r1 r2 body (zeros pad) sig out r1' Hsync Hm Hbz) as (r2a & r2' & Ed & Eck & Hsync' & Hsl & Hsb & Hol & Hob);
    [rewrite zlen_app, zlen_zeros; lia|done|done|].
  assert (zlen out = zlen body + pad) as Holen by (rewrite Hol, zlen_app, zlen_zeros; lia).
  rewrite <- app_assoc in Hr. destruct (remaining_app _ _ _ Hs Hr) as (_ & Hs1 & Hr1). change (zlen [16; 0; 1; pad]) with 4 in Hs1, Hr1.
  destruct (readable_split _ _ Hs1 Hr1) as (pre & tl & Hb & Hp & Hl). rewrite zlen_app in Hl.
  destruct (run_fips_fields s pad (sig ++ out) Hs Hr) as (E1 & E2 & E3).
  unfold decrypt_fips. erewrite bind_Ret by by apply run_CheckLength.
  rewrite <- zlen_remaining, Hr, !zlen_app by done. change (zlen [16; 0; 1; pad]) with 4.
  destruct (Z.ltb_spec (4 + (zlen sig + zlen out)) 12); [lia|]. cbv iota.
  erewrite bind_Ret by exact E1. erewrite bind_Ret by exact E2. erewrite bind_Ret by exact E3.
  erewrite bind_Ret by (apply run_GetPosition; by destruct Hs1). rewrite Hp. rewrite <- app_assoc in Hb.
  erewrite bind_Ret by (apply (run_stream_get pre sig (out ++ tl)); [by destruct Hs1|done|done|lia]).
  pose proof (wf_object _ (proj1 Hs1)) as Hobj. rewrite Hb, !zlen_app in Hobj. pose proof (zlen_nonneg tl).
  erewrite bind_Ret by (apply run_Seek; [by destruct Hs1|lia]).
  replace (12 + zlen body + pad - 12) with (zlen body + pad) by lia. replace (zlen body + pad - pad) with (zlen body) by lia.
  destruct (Z.leb_spec (zlen body + pad) 0); [lia|]. destruct (Z.leb_spec (zlen body) 0); [lia|].
  destruct (Z.gtb_spec (zlen body) UINT16_MAX); [lia|]. cbn [orb].
  destruct Hs1 as [Hwf1 Hlt1]. assert (wf (adv 8 (adv 4 s))) as Hs2 by (destruct Hwf1; split; cbn in *; try done; lia).
  erewrite bind_Ret.
  2:{ apply (run_stream_get (pre ++ sig) out tl); [done|by rewrite <- app_assoc|rewrite zlen_app; lia|lia]. }
  erewrite bind_Ret by (apply run_lift; exact Ed). cbv iota.
  destruct (run_stream_set (pre ++ sig) out tl (adv 8 (adv 4 s)) (zlen pre + 8) (body ++ zeros pad)) as [E Hwf];
    [done|by rewrite <- app_assoc|rewrite zlen_app; lia|lia|done|].
  erewrite bind_Ret by exact E. rewrite ztake_app_le, ztake_all, Eck by lia. cbn [negb].
  unfold Stream_Length. erewrite bind_Ret by done.
  set (s3 := set_buffer _ _) in *. assert (st_length s3 = zlen pre + 8 + zlen body + pad) as Hl3 by (cbn in *; lia).
  pose proof (wf_length _ Hwf). pose proof (wf_capacity _ Hwf). pose proof (zlen_nonneg pre).
  unfold u64. rewrite Hl3, Z.mod_small by (unfold SIZE_MAX in *; lia).
  unfold Stream_SetLength. unfold mbind at 1, SM_bind. destruct (Z.gtb_spec (zlen pre + 8 + zlen body + pad - pad) (st_capacity s3)); [lia|].
  do 2 eexists. split; [done|]. split.
  - cbn [fst]. unfold u16. rewrite Z.mod_small; [done|unfold UINT16_MAX in *; lia].
  - split; [done|]. split; [eapply only_decrypt_trans; [by eapply fips_decrypt_frame|by eapply check_signature_frame]|].
    apply (readable_join _ (pre ++ sig) body (zeros pad ++ tl)).
    + destruct Hwf. split; cbn [set_length st_buffer st_pointer st_length st_capacity]; try done. lia.
    + cbn [set_length s3 set_buffer st_buffer]. by rewrite <- !app_assoc.
    + rewrite zlen_app. cbn in *. lia.
    + rewrite zlen_app. cbn [set_length st_length]. lia.
Qed.

(** * From sender to receiver *)

Definition redirects (flags : Z) : bool := negb (Z.land flags SEC_REDIRECTION_PKT =? 0).
Lemma decrypts_flags flags :
  redirects flags = false → negb (Z.land flags (Z.lor SEC_ENCRYPT SEC_REDIRECTION_PKT) =? 0) = encrypted flags.
Proof.
  unfold redirects, encrypted. rewrite Z.land_lor_distr_r. rewrite negb_false_iff, Z.eqb_eq. intros ->. by rewrite Z.lor_0_r.
Qed.

Section receiver.
Context {D : Type} (R : receivers D).

(** What the dispatcher is left with. *)
Definition arrives (server : bool) (r1 r1' r2 : rdpRdp) (flags channelId : Z) (body : list Z) (d : D)
    (res : outcome (Z * rdpRdp * D * wStream)) : Prop :=
  ∃ r2' s2, res = recv_unit R (zlen body) channelId r2' d s2 ∧ readable s2 ∧ remaining s2 = body ∧
    ServerMode r2' = server ∧ (duplex r1 r2 → duplex r1' r2').

Lemma secured_length r1 r2 flags body wire r1' :
  (encrypted flags = true → sec_sync r1 r2) → bytes body → secured r1 flags body wire r1' → zlen body <= zlen wire.
Proof.
  intros Hsync Hbb [->|Hf He|sig out r' He Hm Hsig Hout|sig out r' He Hm Hsig Hout].
  - lia.
  - rewrite zlen_app. pose proof (zlen_nonneg (sec_header flags)). lia.
  - destruct (rc4_packet r1 r2 _ body sig out r' (Hsync He) Hm Hbb Hsig Hout) as (_ & _ & _ & _ & Hol & _).
    rewrite !zlen_app. pose proof (zlen_nonneg (sec_header flags)). pose proof (zlen_nonneg sig). lia.
  - pose proof (fips_pad_range (zlen body)) as [Hpr Hpm].
    destruct (fips_packet r1 r2 body (zeros (fips_pad (zlen body))) sig out r' (Hsync He) Hm) as (_ & _ & _ & _ & _ & _ & _ & Hol & _);
      [by apply Forall_app_2; [|apply bytes_zeros]|rewrite zlen_app, zlen_zeros; lia|done|done|].
    rewrite zlen_app, zlen_zeros in Hol by lia. rewrite !zlen_app.
    pose proof (zlen_nonneg (sec_header flags)). pose proof (zlen_nonneg sig). change (zlen [_; _; _; _]) with 4. lia.
Qed.

Lemma run_read_sec_header flags n w s :
  flags_ok flags → 4 <= n → readable s → remaining s = sec_header flags ++ w →
  rdp_read_security_header (Some n) s = Ret (Some (flags, Some (n - 4)), adv 4 s) ∧ readable (adv 4 s) ∧ remaining (adv 4 s) = w.
Proof.
  intros Hf Hn Hs Hr. unfold flags_ok in Hf. destruct (remaining_app _ _ _ Hs Hr) as (_ & Hs' & Hr'). split; [|done].
  unfold rdp_read_security_header. destruct (Z.ltb_spec n 4); [lia|].
  assert (reads (TRY Stream_CheckAndLogRequiredLength 4; flags ← Stream_Read_UINT16; flagsHi ← Stream_Read_UINT16;
    mret (Some (flags, option_map (λ l, l - 4) (Some n)))) (sec_header flags) (Some (flags, Some (n - 4)))) as H'.
  { apply reads_check; [done|]. apply reads_step_UINT16; [unfold UINT16_MAX; lia|].
    apply reads_nil_r, reads_step_UINT16; [unfold UINT16_MAX; lia|]. apply reads_ret. }
  by apply (H' s w).
Qed.

Lemma run_rdp_decrypt r1 r2 r1' flags body w s :
  sec_sync r1 r2 → encrypted flags = true → bytes body → 0 < zlen body <= UINT16_MAX →
  secured r1 flags body (sec_header flags ++ w) r1' → readable s → remaining s = w →
  ∃ res s', rdp_decrypt r2 (zlen w) flags s = Ret (res, s') ∧ accepted r1' r2 body res s'.
Proof.
  intros Hsync He Hbb Hn Hsec Hs Hr. unfold rdp_decrypt. rewrite (same_method _ _ (sec_same _ _ Hsync)).
  pose proof (session_method _ _ (sec_same _ _ Hsync)) as Hvm.
  destruct (Z.eqb_spec (EncryptionMethods r1) ENCRYPTION_METHOD_NONE) as [Hnone|_].
  { rewrite Hnone in Hvm. by destruct Hvm as [[|[|]]|]. }
  revert Hr. inversion Hsec as [Hf|Hf He' Hw|sig out r' _ Hm Hsig Hout Hw|sig out r' _ Hm Hsig Hout Hw]; subst; intros Hr.
  - done.
  - congruence.
  - destruct (Z.eqb_spec (EncryptionMethods r1) ENCRYPTION_METHOD_FIPS); [done|].
    destruct (rc4_packet r1 r2 _ body sig out r1' Hsync Hm Hbb Hsig Hout) as (_ & _ & _ & _ & Hol & _).
    destruct (checksum_total r1 (secure_checksum flags) true body (session_sign_len _ _ (sec_same _ _ Hsync) Hm)) as (sg & Hsg & Hsgl).
    rewrite Hsig in Hsg. injection Hsg as <-. destruct Hsgl as [Hsl _].
    replace (zlen (sig ++ out)) with (8 + zlen body) by (rewrite zlen_app; lia). by apply (run_decrypt_rc4 r1 r2 r1' body flags sig out).
  - destruct (Z.eqb_spec (EncryptionMethods r1) ENCRYPTION_METHOD_FIPS); [|done].
    pose proof (fips_pad_range (zlen body)) as [Hpr Hpm].
    destruct (fips_packet r1 r2 body (zeros (fips_pad (zlen body))) sig out r1' Hsync Hm) as (_ & _ & _ & _ & _ & Hsl & _ & Hol & _);
      [by apply Forall_app_2; [|apply bytes_zeros]|rewrite zlen_app, zlen_zeros; lia|done|done|].
    rewrite zlen_app, zlen_zeros in Hol by lia.
    replace (zlen (16 :: 0 :: 1 :: fips_pad (zlen body) :: sig ++ out)) with (12 + zlen body + fips_pad (zlen body))
      by (rewrite !zlen_cons, zlen_app; lia).
    by apply (run_decrypt_fips r1 r2 r1' body sig out).
Qed.

Lemma run_recv_secure r1 r2 r1' flags body wire channelId d s :
  (encrypted flags = true → sec_sync r1 r2 ∧ 0 < zlen body) → flags_ok flags → flags ≠ 0 → redirects flags = false →
  bytes body → zlen wire < 32768 → secured r1 flags body wire r1' → readable s → remaining s = wire →
  arrives (ServerMode r2) r1 r1' r2 flags channelId body d (recv_secure R (zlen wire) channelId r2 d s).
Proof.
  intros Hsync Hf Hf0 Hnr Hbb Hz Hsec Hs Hr. pose proof (zlen_nonneg body).
  pose proof (secured_length r1 r2 flags body wire r1' (λ H, proj1 (Hsync H)) Hbb Hsec) as Hlen.
  assert (∃ w, wire = sec_header flags ++ w) as [w ->] by (inversion Hsec; [done|by eexists..]).
  rewrite zlen_app in Hz, Hlen |- *. change (zlen (sec_header flags)) with 4 in *. pose proof (zlen_nonneg w).
  destruct (run_read_sec_header flags (4 + zlen w) w s Hf ltac:(lia) Hs Hr) as (E & Hs1 & Hr1).
  unfold recv_secure. erewrite bind_Ret by exact E. cbv beta iota. replace (4 + zlen w - 4) with (zlen w) by lia.
  rewrite decrypts_flags by done. unfold redirects in Hnr. rewrite Hnr.
  destruct (encrypted flags) eqn:He.
  - destruct (Hsync eq_refl) as [Hss Hbp].
    destruct (run_rdp_decrypt r1 r2 r1' flags body w (adv 4 s)) as ([o r2'] & s2 & E2 & Ho & Hss' & Hod & Hs2 & Hr2);
      [done|done|done|unfold UINT16_MAX; lia|done|done|done|]. cbn [fst snd] in *. subst o.
    erewrite bind_Ret by exact E2. cbv beta iota. exists r2', s2. split; [done|]. split; [done|]. split; [done|].
    split; [by rewrite Hod|]. intros Hd. by eapply duplex_frame; [|eapply secured_frame| |].
  - assert (w = body ∧ r1' = r1) as [-> ->].
    { clear Hr Hr1. by inversion Hsec; subst; try congruence. }
    erewrite bind_Ret by done. cbv beta iota. by exists r2, (adv 4 s).
Qed.

(** A unit that was sent arrives. *)
Lemma run_recv_unit r1 r2 r1' flags body wire userId channelId messageChannelId d :
  (encrypted flags = true → sec_sync r1 r2 ∧ 0 < zlen body) → flags_ok flags → redirects flags = false → bytes body → bytes wire →
  zlen wire < 32768 → secured r1 flags body wire r1' → ServerMode r2 = negb (ServerMode r1) →
  MCS_BASE_CHANNEL_ID <= userId <= UINT16_MAX → 0 <= channelId <= UINT16_MAX → channelId ≠ messageChannelId →
  arrives (ServerMode r2) r1 r1' r2 flags channelId body d
    (rdp_recv_tpkt_pdu R (negb (flags =? 0)) messageChannelId r2 d (stream_of (unit_packet (ServerMode r1) userId channelId wire))).
Proof.
  intros Hsync Hf Hnr Hbb Hwb Hz Hsec Hmode Hu Hc Hmc. pose proof (zlen_nonneg wire). unfold unit_packet.
  set (hdr := unit_header _ _ _ _ _). assert (bytes hdr) as Hhb by apply unit_header_bytes.
  assert (readable (stream_of (hdr ++ wire))) as Hs.
  { apply stream_of_readable; [rewrite zlen_app; change (zlen hdr) with 15; unfold SIZE_MAX; lia|by apply Forall_app_2]. }
  destruct (remaining_app _ _ _ Hs (remaining_stream_of _)) as (_ & Hs1 & Hr1). change (zlen hdr) with 15 in Hs1, Hr1.
  unfold rdp_recv_tpkt_pdu. erewrite bind_Ret.
  2:{ unfold hdr. replace (ServerMode r1) with (negb (ServerMode r2)) by (by rewrite Hmode, negb_involutive).
      apply (read_unit_header (ServerMode r2) userId channelId (zlen wire) wire); [lia|lia|done|done| |apply remaining_stream_of].
      by rewrite Hmode, negb_involutive. }
  cbv beta iota. destruct (Z.eqb_spec channelId messageChannelId); [done|]. rewrite andb_false_r.
  change (zlen (unit_header _ _ _ _ _)) with 15. destruct (Z.eqb_spec flags 0) as [->|Hf0]; cbn [negb].
  - assert (wire = body ∧ r1' = r1) as [-> ->] by (by inversion Hsec; subst). exists r2. eexists. split; [done|].
    replace (negb (ServerMode r2)) with (ServerMode r1) by (by rewrite Hmode, negb_involutive). done.
  - replace (negb (ServerMode r2)) with (ServerMode r1) by (by rewrite Hmode, negb_involutive).
    by apply (run_recv_secure r1 r2 r1' flags body wire channelId d).
Qed.
End receiver.
End pdus.
