(* ===== verification/RdpPduSafe.v ===== *)
(** Whatever bytes arrive on the slow path, the receiver does not leave the packet:
    headers, decryption in place and the loop over the PDUs of the global channel. *)

From S2P Require Import Prelude Stream StreamLogic Transmission Per Framing Rc4 Security SecurityCorrect Gcc Mcs RdpPdu RdpPduCorrect.
From stdpp Require Import prelude list numbers.
From Stdlib Require Import ZArith Lia.

#[local] Open Scope Z_scope.

(** [wp m Q s]: run on [s], [m] returns, in [Q]. *)
Definition wp {A} (m : SM A) (Q : A → wStream → Prop) (s : wStream) : Prop := ∃ a s', m s = Ret (a, s') ∧ Q a s'.

Section wp.
Context {A B : Type}.
Implicit Types (s : wStream) (m : SM A) (k : A → SM B).

Lemma wp_ret (a : A) (Q : A → wStream → Prop) s : Q a s → wp (mret a) Q s.
Proof. intros H. by exists a, s. Qed.
Lemma wp_bind m k (Q : B → wStream → Prop) s : wp m (λ a s', wp (k a) Q s') s → wp (x ← m; k x) Q s.
Proof. intros (a & s1 & H1 & b & s2 & H2 & HQ). exists b, s2. split; [by erewrite bind_Ret|done]. Qed.
Lemma wp_mono m (Q Q' : A → wStream → Prop) s : (∀ a s', Q a s' → Q' a s') → wp m Q s → wp m Q' s.
Proof. intros H (a & s' & E & HQ). exists a, s'. auto. Qed.
Lemma wp_safe n m P (Q : A → wStream → Prop) s :
  safe n m P → readable s → n <= rem s → (∀ a s', same_data s s' → P a → Q a s') → wp m Q s.
Proof. intros Hm Hs Hn HQ. destruct (Hm s Hs Hn) as (a & s' & E & Hd & Ha). exists a, s'. auto. Qed.
Lemma wp_lift (o : outcome A) a (Q : A → wStream → Prop) s : o = Ret a → Q a s → wp (lift o) Q s.
Proof. intros -> H. by exists a, s. Qed.
End wp.
Lemma wp_check n (Q : option unit → wStream → Prop) s :
  readable s → (rem s < n → Q None s) → (n <= rem s → Q (Some tt) s) → wp (Stream_CheckAndLogRequiredLength n) Q s.
Proof.
  intros Hs HN HS. exists (if rem s <? n then None else Some tt), s. split; [by apply run_CheckLength|].
  destruct (Z.ltb_spec (rem s) n); auto.
Qed.
Lemma wp_UINT8 (Q : Z → wStream → Prop) s : readable s → 1 <= rem s → (∀ v, is_byte v → Q v (adv 1 s)) → wp Stream_Read_UINT8 Q s.
Proof.
  intros Hs Hn HQ. eexists _, _. split; [by apply run_stream_read|]. apply HQ. pose proof Hs as [Hwf ?].
  pose proof (get_be_range _ (slice_bytes 1 s Hwf)) as Hg. unfold rem in Hn. destruct Hwf. by rewrite zlen_zslice in Hg by lia.
Qed.
Lemma wp_UINT16 (Q : Z → wStream → Prop) s :
  readable s → 2 <= rem s → (∀ v, 0 <= v < 65536 → Q v (adv 2 s)) → wp Stream_Read_UINT16 Q s.
Proof.
  intros Hs Hn HQ. eexists _, _. split; [by apply run_stream_read|]. apply HQ. pose proof Hs as [Hwf ?].
  pose proof (get_le_range _ (slice_bytes 2 s Hwf)) as Hg. unfold rem in Hn. destruct Hwf. by rewrite zlen_zslice in Hg by lia.
Qed.
Lemma wp_Seek n (Q : unit → wStream → Prop) s : readable s → 0 <= n <= rem s → Q tt (adv n s) → wp (Stream_Seek n) Q s.
Proof.
  intros [[] Hp] Hn HQ. unfold rem in Hn. exists tt, (adv n s). split; [|done]. apply run_Seek; [by split|lia].
Qed.
Lemma wp_GetPosition (Q : Z → wStream → Prop) s : readable s → Q (st_pointer s) s → wp Stream_GetPosition Q s.
Proof. intros [Hs _] HQ. exists (st_pointer s), s. split; [by apply run_GetPosition|done]. Qed.
Lemma wp_get pos n (Q : list Z → wStream → Prop) s :
  readable s → st_pointer s <= pos → 0 <= n → pos + n <= st_length s →
  (∀ l, bytes l → zlen l = n → Q l s) → wp (stream_get pos n) Q s.
Proof.
  intros [[] Hp] Hpos Hn Hl HQ. eexists _, s. unfold stream_get.
  destruct (Z.leb_spec 0 pos); [|lia]. destruct (Z.leb_spec 0 n); [|lia]. destruct (Z.leb_spec (pos + n) (st_capacity s)); [|lia].
  split; [done|]. apply HQ; [by apply Forall_zslice|]. rewrite zlen_zslice; lia.
Qed.
Lemma wp_set pos b (Q : unit → wStream → Prop) s :
  readable s → st_pointer s <= pos → pos + zlen b <= st_length s → bytes b →
  (∀ s', readable s' → st_pointer s' = st_pointer s → st_length s' = st_length s → st_capacity s' = st_capacity s → Q tt s') →
  wp (stream_set pos b) Q s.
Proof.
  intros [[] Hp] Hpos Hl Hb HQ. pose proof (zlen_nonneg b). eexists _, _. unfold stream_set.
  destruct (Z.leb_spec 0 pos); [|lia]. destruct (Z.leb_spec (pos + zlen b) (st_capacity s)); [|lia]. split; [done|].
  apply HQ; try done. split; [split|]; cbn; try done; [rewrite zlen_zblit; lia|by apply Forall_zblit].
Qed.

(** * Headers *)

Ltac readable_adv := apply readable_adv; [done|lia].

Lemma wp_choice (Q : option Z → wStream → Prop) s :
  readable s → Q None s → (1 <= rem s → ∀ v, is_byte v → Q (Some v) (adv 1 s)) → wp per_read_choice Q s.
Proof.
  intros Hs HN HS. unfold per_read_choice. apply wp_bind, wp_check; [done|by intros; apply wp_ret|intros Hr].
  apply wp_bind, wp_UINT8; [done..|]. intros v Hv. apply wp_ret. by apply HS.
Qed.
Lemma wp_ultimatum (Q : option Z → wStream → Prop) s :
  readable s → 1 <= st_pointer s → (∀ o s', same_data s s' → Q o s') → wp mcs_recv_disconnect_provider_ultimatum Q s.
Proof.
  intros Hs Hp HQ. unfold mcs_recv_disconnect_provider_ultimatum.
  apply wp_bind, wp_check; [done|intros; apply wp_ret, HQ; by apply same_data_refl|intros Hr].
  unfold Stream_Rewind. apply wp_bind. exists tt, (adv (-1) s). pose proof Hs as [Hwf Hlt].
  split. { destruct (Z.leb_spec 0 (st_pointer s)); [|lia]. destruct (Z.geb_spec (st_pointer s) 1); [|lia]. done. }
  assert (readable (adv (-1) s)) as Hs'.
  { destruct Hwf. split; [split|]; cbn; try done; lia. }
  apply wp_bind, wp_UINT8; [done|rewrite rem_adv; lia|]. intros b1 _. rewrite adv_adv.
  apply wp_bind, wp_UINT8; [by rewrite adv_0|rewrite rem_adv; lia|]. intros b2 _. rewrite adv_adv.
  apply wp_ret, HQ. apply same_data_adv; [done|lia].
Qed.

Lemma wp_integer16 min (Q : option Z → wStream → Prop) s :
  readable s → 2 <= rem s → 0 <= min → (Q None (adv 2 s)) → (∀ v, min <= v <= UINT16_MAX → Q (Some v) (adv 2 s)) → wp (per_read_integer16 min) Q s.
Proof.
  intros Hs Hr Hm HN HS. unfold per_read_integer16. apply wp_bind, wp_check; [done|lia|intros _].
  apply wp_bind. eexists _, _. split; [by apply run_stream_read|]. cbv beta.
  pose proof Hs as [Hwf ?]. pose proof (get_be_range _ (slice_bytes 2 s Hwf)) as Hg. unfold rem in Hr.
  rewrite zlen_zslice in Hg by (destruct Hwf; lia). change (256 ^ 2) with 65536 in Hg.
  destruct (Z.gtb_spec (winpr_Data_Get_BE (zslice (st_pointer s) 2 (st_buffer s))) (UINT16_MAX - min)); apply wp_ret; [done|].
  unfold u16, UINT16_MAX in *. apply HS. div_mod_lia.
Qed.

Definition header_ok (s' : wStream) (h : rdp_header) : Prop :=
  match h with HeaderData length channelId => 0 <= length < 32768 ∧ length <= rem s' ∧ 0 <= channelId <= UINT16_MAX | _ => True end.
Lemma wp_read_header server s :
  readable s → wp (rdp_read_header server) (λ o s', same_data s s' ∧ on_some (header_ok s') o) s.
Proof.
  intros Hs. unfold rdp_read_header.
  apply wp_bind, (wp_safe _ _ _ _ _ safe_tpkt_header Hs (readable_rem _ Hs)). intros [len|] s1 D1 Hlen; [|by apply wp_ret].
  pose proof (sd_readable _ _ D1) as Hs1. apply wp_bind, (wp_safe _ _ _ _ _ (safe_tpdu_header len) Hs1 (readable_rem _ Hs1)).
  intros [[code li]|] s2 D2 _; [|apply wp_ret; split; [by eapply same_data_trans|done]]. cbv beta iota.
  assert (same_data s s2) as D by (by eapply same_data_trans). pose proof (sd_readable _ _ D2) as Hs2. clear D1 D2 Hs1 s1.
  destruct (negb (code =? X224_TPDU_DATA)). { by destruct (_ =? _); apply wp_ret. }
  apply wp_bind, wp_choice; [done|by apply wp_ret|]. intros Hr choice Hc. cbv beta iota zeta.
  assert (same_data s (adv 1 s2)) as D1 by (eapply same_data_trans; [done|]; by apply same_data_adv; [|lia]).
  pose proof (sd_readable _ _ D1) as Hs3. assert (1 <= st_pointer (adv 1 s2)) as Hp by (destruct Hs2 as [[] _]; cbn; lia).
  destruct (negb (Z.shiftr choice 2 =? _) && _); [by apply wp_ret|]. destruct (len <? 8); [by apply wp_ret|].
  apply wp_bind, wp_check; [done|by intros; apply wp_ret|intros _].
  destruct (Z.shiftr choice 2 =? _).
  { apply wp_bind, wp_ultimatum; [done..|]. intros o s4 D4. assert (same_data s s4) by (by eapply same_data_trans).
    by destruct o; apply wp_ret. }
  set (s3 := adv 1 s2) in *. clearbody s3. clear D.
  apply wp_bind, wp_check; [done|by intros; apply wp_ret|intros H5].
  assert (∀ n, 0 <= n <= 5 → same_data s (adv n s3)) as HD.
  { intros n Hn. eapply same_data_trans; [done|]. apply same_data_adv; [done|lia]. }
  assert (∀ n, 0 <= n <= 5 → readable (adv n s3)) as HR by (intros n Hn; by destruct (HD n Hn)).
  apply wp_bind, wp_integer16; [done|lia|done|by apply wp_ret; split; [apply HD; lia|]|]. intros u _.
  apply wp_bind, wp_integer16; [apply HR; lia|rewrite rem_adv; lia|done|by apply wp_ret; rewrite adv_adv; split; [apply HD; lia|]|].
  intros ch Hch. rewrite adv_adv.
  apply wp_bind, wp_UINT8; [apply HR; lia|rewrite rem_adv; lia|]. intros _ _. rewrite adv_adv.
  apply wp_bind, (wp_safe 0 _ _ _ _ safe_per_length); [apply HR; lia|rewrite rem_adv; lia|].
  intros o s5 D5 Ho. assert (same_data s s5) as Ds by (eapply same_data_trans; [apply (HD (2 + 2 + 1)); lia|done]).
  destruct o as [n|]; [|by apply wp_ret]. apply wp_bind, wp_check; [by destruct Ds|by intros; apply wp_ret|intros Hn].
  apply wp_ret. split; [done|]. cbn in *. lia.
Qed.

(** Part of the PDU behind the header is there, and the header has at least four bytes. *)
Lemma wp_share_control s :
  readable s →
  wp rdp_read_share_control_header (λ o s', same_data s s' ∧
    on_some (λ h, 0 <= sc_remainingLength h <= rem s' ∧ rem s' <= rem s - 4) o) s.
Proof.
  intros Hs. unfold rdp_read_share_control_header.
  assert (∀ n, 0 <= n <= rem s → same_data s (adv n s)) as HD by (intros; by apply same_data_adv).
  assert (∀ n, 0 <= n <= rem s → readable (adv n s)) as HR by (intros; by apply readable_adv).
  pose proof (readable_rem s Hs) as Hr0. pose proof (same_data_refl s Hs).
  apply wp_bind, wp_check; [done|by intros; apply wp_ret|intros H2].
  apply wp_bind, wp_UINT16; [done..|]. intros len Hlen. pose proof (HD 2 ltac:(lia)).
  destruct (len =? 0x8000).
  - apply wp_bind. unfold rdp_read_flow_control_pdu.
    apply wp_bind, wp_check; [apply HR; lia|intros; apply wp_ret; by apply wp_ret|rewrite rem_adv; intros H6].
    apply wp_bind, wp_UINT8; [apply HR; lia|rewrite rem_adv; lia|]. intros type _. rewrite adv_adv.
    do 3 (apply wp_bind, wp_Seek; [apply HR; lia|rewrite rem_adv; lia|]; rewrite adv_adv).
    apply wp_bind, wp_UINT16; [apply HR; lia|rewrite rem_adv; lia|]. intros ch _. rewrite adv_adv.
    apply wp_ret. cbv beta iota. apply wp_ret. split; [apply HD; lia|]. cbn. rewrite rem_adv. lia.
  - destruct (Z.ltb_spec len 4); [by apply wp_ret|].
    apply wp_bind, wp_check; [apply HR; lia|by intros; apply wp_ret|rewrite rem_adv; intros H4].
    apply wp_bind, wp_UINT16; [apply HR; lia|rewrite rem_adv; lia|]. intros tmp _. rewrite adv_adv. change (2 + 2) with 4.
    pose proof (HD 4 ltac:(lia)). destruct (Z.gtb_spec len 5).
    + apply wp_bind, wp_check; [apply HR; lia|by intros; apply wp_ret|rewrite rem_adv; intros H6].
      apply wp_bind, wp_UINT16; [apply HR; lia|rewrite rem_adv; lia|]. intros ch _. rewrite adv_adv. change (4 + 2) with 6.
      pose proof (HD 6 ltac:(lia)). apply wp_bind. exists tt, (adv 6 s).
      split. { unfold WINPR_ASSERT, UINT16_MAX. by destruct (Z.leb_spec (len - 6) 65535); [|lia]. }
      apply wp_bind, wp_check; [apply HR; lia|by intros; apply wp_ret|intros Hlast]. apply wp_ret. split; [done|]. cbn.
      rewrite rem_adv in *. lia.
    + apply wp_bind. exists tt, (adv 4 s).
      split. { unfold WINPR_ASSERT, UINT16_MAX. by destruct (Z.leb_spec (len - 4) 65535); [|lia]. }
      apply wp_bind, wp_check; [apply HR; lia|by intros; apply wp_ret|intros Hlast]. apply wp_ret. split; [done|]. cbn.
      rewrite rem_adv in *. lia.
Qed.
Lemma wp_sec_header n s :
  readable s → n <= rem s → 0 <= n →
  wp (rdp_read_security_header (Some n)) (λ o s', readable s' ∧
    on_some (λ '(flags, l), l = Some (n - 4) ∧ 0 <= n - 4 <= rem s' ∧ 4 <= st_pointer s') o) s.
Proof.
  intros Hs Hn H0. unfold rdp_read_security_header. destruct (Z.ltb_spec n 4); [by apply wp_ret|].
  apply wp_bind, wp_check; [done|by intros; apply wp_ret|intros H4].
  apply wp_bind, wp_UINT16; [done|lia|]. intros flags _. apply wp_bind, wp_UINT16; [readable_adv|rewrite rem_adv; lia|].
  intros hi _. rewrite adv_adv. apply wp_ret. split; [readable_adv|]. cbn. rewrite rem_adv. destruct Hs as [[] _]. split; [done|]. lia.
Qed.

(** * Decryption *)

Section safe.
Context {HM : Malloc} {HD : Digests} {HC : Cipher} {HDL : DigestLaws} {HCL : CipherLaws}.

(** A receiver under RC4 has no context yet, or a good one. *)
Definition recv_ok (r : rdpRdp) : Prop :=
  EncryptionMethods r ≠ ENCRYPTION_METHOD_FIPS →
  c_rc4 (dir_decrypt r) = None ∨
  dir_ok (EncryptionMethods r) (dir_decrypt r) ∧ (rc4_key_len r = 8 ∨ rc4_key_len r = 16) ∧ zlen (sign_key r) = 16.

Definition decrypted (s : wStream) (res : option Z * rdpRdp) (s' : wStream) : Prop :=
  readable s' ∧ st_pointer s <= st_pointer s' ∧ on_some (λ n, 0 <= n <= rem s' ∧ recv_ok (snd res)) (fst res).

Lemma decrypt_data_total r data :
  recv_ok r → EncryptionMethods r ≠ ENCRYPTION_METHOD_FIPS → bytes data →
  ∃ o r', security_decrypt data r = Ret (o, r') ∧ on_some (λ out, zlen out = zlen data ∧ bytes out ∧ recv_ok r' ∧
    0 <= rc4_key_len r' <= zlen (sign_key r')) o.
Proof.
  intros Hr Hm Hb. unfold security_decrypt. destruct (Hr Hm) as [Hn|(Hd & Hl & Hs)].
  { unfold security_crypt. rewrite Hn. by do 2 eexists. }
  destruct (security_crypt_total _ _ data _ Hd Hm Hl Hb) as (o & d' & -> & Ho). do 2 eexists. split; [done|].
  destruct o as [out|]; [|done]. destruct Ho as (Hd' & Hz & Hob). split; [done|]. split; [done|]. split.
  - intros _. right. done.
  - cbn. destruct Hl; lia.
Qed.
Lemma wp_Read n (Q : list Z → wStream → Prop) s :
  readable s → 0 <= n <= rem s → (∀ l, bytes l → zlen l = n → Q l (adv n s)) → wp (Stream_Read n) Q s.
Proof.
  intros Hs Hn HQ. set (l := ztake n (remaining s)). pose proof (zlen_remaining s Hs) as Hz.
  assert (zlen l = n) as Hl by (unfold l; rewrite zlen_ztake; lia).
  exists l, (adv n s). split; [|apply HQ; [by apply Forall_ztake, remaining_bytes, (proj1 Hs)|done]].
  rewrite <- Hl. apply (reads_Read l s (zdrop n (remaining s)) Hs). unfold l. by rewrite ztake_zdrop.
Qed.
Lemma wp_decrypt_rc4 r pLength flags s :
  recv_ok r → EncryptionMethods r ≠ ENCRYPTION_METHOD_FIPS → readable s → pLength <= rem s →
  wp (decrypt_rc4 r pLength flags) (decrypted s) s.
Proof.
  intros Hr Hm Hs Hl. unfold decrypt_rc4. apply wp_bind, wp_check; [done|intros; apply wp_ret; by split|intros H8].
  apply wp_bind, wp_Read; [done|lia|]. intros wmac _ _. assert (readable (adv 8 s)) as Hs1 by readable_adv.
  assert (st_pointer s <= st_pointer (adv 8 s)) as Hp1 by (cbn; lia).
  destruct (Z.leb_spec (pLength - 8) 0); [by apply wp_ret|].
  apply wp_bind, wp_GetPosition; [done|]. unfold rem in Hl.
  apply wp_bind, wp_get; [done|lia|lia|cbn; lia|]. intros data Hb Hz.
  destruct (decrypt_data_total r data Hr Hm Hb) as (o & r' & E & Ho).
  eapply wp_bind, wp_lift; [exact E|]. cbv beta iota. destruct o as [out|]; [|by apply wp_ret].
  destruct Ho as (Hoz & Hob & Hr' & Hk). apply wp_bind, wp_set; [done|lia|cbn; lia|done|].
  intros s2 Hs2 Hp2 Hl2 _. destruct (checksum_total r' (secure_checksum flags) false out Hk) as (c & Ec & _).
  eapply wp_bind, wp_lift; [exact Ec|]. cbn in Hp1, Hp2, Hl2.
  destruct c as [c|]; apply wp_ret; (split; [done|]); (split; [lia|]); [|done]. cbn [fst snd on_some]. split; [|done].
  unfold rem, u16. rewrite Hp2, Hl2. destruct Hs as [[] _]. pose proof (Z.mod_pos_bound (pLength - 8) 65536 ltac:(lia)).
  pose proof (Z.mod_le (pLength - 8) 65536 ltac:(lia) ltac:(lia)). lia.
Qed.
Lemma fips_decrypt_total r data :
  bytes data → ∃ o r', security_fips_decrypt data r = Ret (o, r') ∧ on_some (λ out, zlen out = zlen data ∧ bytes out) o.
Proof.
  intros Hb. unfold security_fips_decrypt. destruct (c_fips (dir_decrypt r)) as [c|]; [|by do 2 eexists].
  unfold fips_crypt. destruct (winpr_Cipher_Update c data) as [[out c']|] eqn:E; [|by do 2 eexists].
  cbn [mbind option_bind mret option_ret]. do 2 eexists. split; [done|]. apply cipher_update_bytes in E; [|done].
  pose proof (zlen_nonneg data). pose proof (zlen_nonneg out). cbn. split.
  - rewrite zlen_zblit; rewrite ?zlen_ztake; lia.
  - apply Forall_zblit; [done|by apply Forall_ztake].
Qed.
Lemma wp_decrypt_fips r pLength s :
  EncryptionMethods r = ENCRYPTION_METHOD_FIPS → readable s → pLength <= rem s →
  wp (decrypt_fips r pLength) (decrypted s) s.
Proof.
  intros Hm Hs Hl. unfold decrypt_fips. apply wp_bind, wp_check; [done|intros; apply wp_ret; by split|intros H12].
  assert (∀ n, 0 <= n <= 12 → readable (adv n s)) as HR by (intros; readable_adv).
  apply wp_bind, wp_UINT16; [done|lia|]. intros len _. apply wp_bind, wp_UINT8; [apply HR; lia|rewrite rem_adv; lia|]. intros version _.
  rewrite adv_adv. apply wp_bind, wp_UINT8; [apply HR; lia|rewrite rem_adv; lia|]. intros pad Hpad. rewrite adv_adv. change (2 + 1 + 1) with 4.
  apply wp_bind, wp_GetPosition; [apply HR; lia|]. pose proof (HR 4 ltac:(lia)) as Hs4.
  apply wp_bind, wp_get; [done|lia|lia|cbn; unfold rem in H12; lia|]. intros sig _ _.
  apply wp_bind, wp_Seek; [done|rewrite rem_adv; lia|]. rewrite adv_adv. change (4 + 8) with 12. pose proof (HR 12 ltac:(lia)) as Hs12.
  assert (st_pointer s <= st_pointer (adv 12 s)) as Hp12 by (cbn; lia).
  destruct (Z.leb_spec (pLength - 12) 0); [by apply wp_ret|]. destruct (Z.leb_spec (pLength - 12 - pad) 0); [by apply wp_ret|].
  destruct (Z.gtb_spec (pLength - 12 - pad) UINT16_MAX); [by apply wp_ret|]. cbn [orb]. unfold rem in Hl.
  apply wp_bind, wp_get; [done|cbn; lia|lia|cbn; lia|]. intros data Hb Hz.
  destruct (fips_decrypt_total r data Hb) as (o & r1 & E & Ho). eapply wp_bind, wp_lift; [exact E|]. cbv beta iota.
  destruct o as [out|]; [|by apply wp_ret]. destruct Ho as [Hoz Hob].
  apply wp_bind, wp_set; [done|cbn; lia|cbn; lia|done|]. intros s2 Hs2 Hp2 Hl2 Hc2. cbn in Hp2, Hl2, Hc2, Hp12.
  destruct (security_fips_check_signature _ sig r1) as [valid r2] eqn:Es.
  assert (EncryptionMethods r2 = ENCRYPTION_METHOD_FIPS) as Hm2.
  { by rewrite (check_signature_frame _ _ _ _ _ Es), (fips_decrypt_frame _ _ _ _ E). }
  destruct valid; cbn [negb]; [|by apply wp_ret; split; [|split; [lia|]]].
  unfold Stream_Length. apply wp_bind. exists (st_length s2), s2. split; [done|]. unfold is_byte in Hpad.
  pose proof Hs as [[] _]. pose proof Hs2 as [[] _].
  assert (u64 (st_length s2 - pad) = st_length s2 - pad) as -> by (unfold u64; rewrite Z.mod_small; [done|unfold SIZE_MAX in *; lia]).
  apply wp_bind. unfold Stream_SetLength. exists (Some tt), (set_length (st_length s2 - pad) s2).
  split; [by destruct (Z.gtb_spec (st_length s2 - pad) (st_capacity s2)); [lia|]|]. apply wp_ret. cbv beta iota.
  split; [split; [split|]; cbn; try done; lia|]. split; [cbn; lia|]. cbn [fst snd on_some]. split.
  - unfold rem, u16. cbn [set_length st_length st_pointer]. rewrite Hp2, Hl2. rewrite Z.mod_small by (unfold UINT16_MAX in *; lia). lia.
  - by intros ?.
Qed.
Lemma wp_rdp_decrypt r pLength flags s :
  recv_ok r → readable s → 0 <= pLength <= rem s → wp (rdp_decrypt r pLength flags) (decrypted s) s.
Proof.
  intros Hr Hs Hl. unfold rdp_decrypt. destruct (_ =? ENCRYPTION_METHOD_NONE). { apply wp_ret. by split. }
  destruct (Z.eqb_spec (EncryptionMethods r) ENCRYPTION_METHOD_FIPS); [by apply wp_decrypt_fips; [..|lia]|by apply wp_decrypt_rc4; [..|lia]].
Qed.

(** * The receiver *)

Section receiver.
Context {D : Type} (R : receivers D).

(** The receivers of the parts return, on any stream, and leave a stream. *)
Record receivers_ok : Prop := {
  channel_ok channelId length d s : readable s → wp (on_channel R channelId length d) (λ _ s', readable s') s;
  messages_ok channelId length d s : readable s → wp (on_message R channelId length d) (λ _ s', readable s') s;
  redirect_ok d s : readable s → wp (on_redirect R d) (λ _ s', readable s') s;
}.
Lemma wp_SafeSeek n (Q : option unit → wStream → Prop) s :
  readable s → 0 <= n <= rem s → Q (Some tt) (adv n s) → wp (Stream_SafeSeekEx n) Q s.
Proof.
  intros Hs Hn HQ. unfold Stream_SafeSeekEx. apply wp_bind, wp_check; [done|lia|intros _].
  apply wp_bind, wp_Seek; [done|done|]. by apply wp_ret.
Qed.
Lemma wp_share_pdus fuel rc d s :
  readable s → rem s <= Z.of_nat fuel → wp (recv_share_pdus R fuel rc d) (λ _ s', readable s') s.
Proof.
  revert rc d s. induction fuel as [|fuel IH]; intros rc d s Hs Hf; cbn [recv_share_pdus];
    (apply wp_bind; exists (rem s), s; split; [by apply run_GetRemainingLength|]).
  { destruct (Z.gtb_spec (rem s) 3); [lia|]. by apply wp_ret. }
  destruct (Z.gtb_spec (rem s) 3); cbn [negb]; [|by apply wp_ret].
  apply wp_bind. eapply wp_mono; [|by apply wp_share_control]. intros o s1 [D1 Ho]. destruct D1 as [_ _ _ Hs1].
  destruct o as [h|]; [|by apply wp_ret]. cbn in Ho. cbv beta iota zeta.
  apply wp_bind, wp_GetPosition; [done|]. apply wp_bind, wp_get; [done|lia|lia|unfold rem in Ho; lia|]. intros sub _ _.
  apply wp_bind, wp_SafeSeek; [done|lia|]. cbv beta iota.
  assert (readable (adv (sc_remainingLength h) s1)) as Hs2 by readable_adv.
  assert (∀ rc d, wp (recv_share_pdus R fuel rc d) (λ _ s', readable s') (adv (sc_remainingLength h) s1)) as Hnext.
  { intros. apply IH; [done|]. rewrite rem_adv. lia. }
  destruct (_ =? PDU_TYPE_DATA). { destruct (on_data R sub d). by destruct (state_run_failed _); [apply wp_ret|]. }
  destruct (_ =? PDU_TYPE_DEACTIVATE_ALL). { destruct (on_deactivate R sub d) as [[] ?]; cbn [negb]; [done|by apply wp_ret]. }
  destruct (_ =? PDU_TYPE_SERVER_REDIRECTION). { destruct (on_share_redirect R sub d). by apply wp_ret. }
  done.
Qed.

Definition received_ok (res : Z * rdpRdp * D) (s' : wStream) : Prop :=
  let '(rc, r, _) := res in readable s' ∧ (rc = STATE_RUN_FAILED ∨ recv_ok r).

Lemma wp_consumed length rc r d s : readable s → recv_ok r → wp (recv_consumed length rc r d) received_ok s.
Proof.
  intros Hs Hr. unfold recv_consumed.
  apply wp_bind, (wp_safe _ _ _ _ _ (safe_consumed length) Hs (readable_rem _ Hs)). intros o s' D' _.
  apply wp_ret. split; [by destruct D'|by right].
Qed.
Lemma wp_recv_unit length channelId r d s :
  receivers_ok → readable s → recv_ok r → wp (recv_unit R length channelId r d) received_ok s.
Proof.
  intros HR Hs Hr. unfold recv_unit. destruct (_ =? _).
  - apply wp_bind. exists (rem s), s. split; [by apply run_GetRemainingLength|]. pose proof (readable_rem s Hs).
    apply wp_bind. eapply wp_mono; [|apply wp_share_pdus; [done|lia]]. intros [[rc|rc] d'] s' Hs'; cbv beta iota.
    + apply wp_ret. split; [done|by right].
    + by apply wp_consumed.
  - apply wp_bind. eapply wp_mono; [|by apply HR]. intros [[] d'] s' Hs'; cbn [negb]; [by apply wp_consumed|].
    apply wp_ret. split; [done|by left].
Qed.
Lemma wp_recv_secure length channelId r d s :
  receivers_ok → readable s → recv_ok r → 0 <= length <= rem s → wp (recv_secure R length channelId r d) received_ok s.
Proof.
  intros HR Hs Hr Hl. unfold recv_secure. apply wp_bind. eapply wp_mono; [|apply wp_sec_header; [done|lia|lia]].
  intros [[flags l]|] s1 [Hs1 Ho]; [|by apply wp_ret; split; [|left]]. destruct Ho as (-> & Hn & Hp).
  apply wp_bind. apply (wp_mono _ (decrypted s1)).
  2:{ destruct (negb _); [by apply wp_rdp_decrypt|]. apply wp_ret. by split; [|split]. }
  intros [o r'] s2 (Hs2 & Hp2 & Ho). cbn [fst snd] in Ho. destruct o as [n|]; [|by apply wp_ret; split; [|left]].
  destruct Ho as [Hn2 Hr']. destruct (negb _); [|by apply wp_recv_unit].
  apply wp_bind. exists tt, (adv (-2) s2). split.
  { unfold Stream_Rewind. destruct (Z.leb_spec 0 (st_pointer s2)); [|lia]. by destruct (Z.geb_spec (st_pointer s2) 2); [|lia]. }
  assert (readable (adv (-2) s2)) as Hs3 by (destruct Hs2 as [[] Hlt]; split; [split|]; cbn; try done; lia).
  apply wp_bind. eapply wp_mono; [|by apply HR]. intros [rc d'] s3 Hs4. by apply wp_consumed.
Qed.
End receiver.

(** C8. Whatever bytes a packet of the slow path consists of, [rdp_recv_tpkt_pdu] returns: no
    header is read, nothing is decrypted in place and no PDU of the global channel is
    handed on outside the packet, the loop over the PDUs ends, and a packet that is not
    refused leaves the state of decryption good for the next one. *)
Theorem slow_path_safe {D} (R : receivers D) UseRdpSecurityLayer messageChannelId r d s :
  receivers_ok R → recv_ok r → readable s →
  wp (rdp_recv_tpkt_pdu R UseRdpSecurityLayer messageChannelId r d) received_ok s.
Proof.
  intros HR Hr Hs. unfold rdp_recv_tpkt_pdu. apply wp_bind. eapply wp_mono; [|by apply wp_read_header].
  intros o s1 [D1 Ho]. destruct D1 as [_ _ _ Hs1]. destruct o as [h|]; [|by apply wp_ret; split; [|left]].
  destruct h as [length channelId| |reason]; [|by apply wp_ret; split; [|right]..]. destruct Ho as (Hl & Hl' & _).
  destruct (_ && _).
  { apply wp_bind. eapply wp_mono; [|by apply HR]. intros [rc d'] s2 Hs2. apply wp_ret. by split; [|right]. }
  destruct UseRdpSecurityLayer; [by apply wp_recv_secure; [..|lia]|by apply wp_recv_unit].
Qed.
End safe.
