(* ===== verification/RdpSession.v ===== *)
(** Whole sessions under standard RDP security: the keys are established, and then
    messages go both ways.  What is assumed of the crypto library is in [DigestLaws],
    [CipherLaws] and [crypto_available]. *)

From S2P Require Import Prelude Stream StreamLogic Transmission Per Framing Rc4 Security SecurityCorrect Gcc Mcs RdpPdu RdpPduCorrect RdpPduSafe.
From stdpp Require Import prelude list numbers.
From Stdlib Require Import ZArith Lia.

#[local] Open Scope Z_scope.

(** * Conversations *)

(** A message of the client or the server, on a channel. *)
Record message : Type := mkMessage { m_client : bool; m_channel : Z; m_body : list Z }.

(** The stream a sender fills: room for the headers, the body, and a few bytes more. *)
Definition unit_stream {HC : Cipher} (r : rdpRdp) (flags : Z) (body : list Z) : wStream :=
  let room := zeros (15 + rdp_get_sec_bytes r flags) in
  mkStream (room ++ body ++ zeros 8) (zlen room + zlen body) (zlen room + zlen body + 8) (zlen room + zlen body + 8) true true.

(** A receiver that keeps what arrives on the channels. *)
Definition recorder : receivers (list (Z * list Z)) :=
  mkReceivers _ (λ _ _ d, mret (STATE_RUN_FAILED, d)) (λ d, mret (STATE_RUN_FAILED, d)) (λ _ d, (STATE_RUN_FAILED, d))
    (λ sub d, (STATE_RUN_SUCCESS, d ++ [(MCS_GLOBAL_CHANNEL_ID, sub)])) (λ _ d, (true, d))
    (λ channelId length d, bs ← Stream_Read length; mret (true, d ++ [(channelId, bs)])).

Section conversation.
Context {HM : Malloc} {HD : Digests} {HC : Cipher}.

Definition transfer (userId flags : Z) (m : message) (from to : rdpRdp) (log : list (Z * list Z)) :
    outcome (option (rdpRdp * rdpRdp * list (Z * list Z))) :=
  match rdp_send from userId (m_channel m) flags (unit_stream from flags (m_body m)) with
  | Ret ((Some _, from), s) =>
      match rdp_recv_tpkt_pdu recorder (negb (flags =? 0)) 0 to log (stream_of (written s)) with
      | Ret ((rc, to, log), _) => Ret (if rc =? STATE_RUN_SUCCESS then Some (from, to, log) else None)
      | Abort => Abort
      end
  | Ret ((None, _), _) => Ret None
  | Abort => Abort
  end.
Fixpoint conversation (userId flags : Z) (ms : list message) (client server : rdpRdp) (to_client to_server : list (Z * list Z)) :
    outcome (option (rdpRdp * rdpRdp * list (Z * list Z) * list (Z * list Z))) :=
  match ms with
  | [] => Ret (Some (client, server, to_client, to_server))
  | m :: ms =>
      if m_client m then
        match transfer userId flags m client server to_server with
        | Ret (Some (client, server, to_server)) => conversation userId flags ms client server to_client to_server
        | Ret None => Ret None
        | Abort => Abort
        end
      else
        match transfer userId flags m server client to_client with
        | Ret (Some (server, client, to_client)) => conversation userId flags ms client server to_client to_server
        | Ret None => Ret None
        | Abort => Abort
        end
  end.
End conversation.

(** What one side has to receive. *)
Definition sent (by_client : bool) (ms : list message) : list (Z * list Z) :=
  map (λ m, (m_channel m, m_body m)) (List.filter (λ m, bool_decide (m_client m = by_client)) ms).

(** Messages that fit: a body that is not empty and whose unit, with the security header
    and the padding of the method, stays below the 0x8000 bytes that [rdp_write_header] can
    encode; a channel that is not the global one. *)
Definition message_ok {HC : Cipher} (r : rdpRdp) (flags : Z) (m : message) : Prop :=
  bytes (m_body m) ∧ 0 < zlen (m_body m) ∧ unit_size r flags (m_body m) < 32768 ∧ 0 < m_channel m <= UINT16_MAX ∧ m_channel m ≠ MCS_GLOBAL_CHANNEL_ID.

(** * Delivery *)

Section delivery.
Context {HM : Malloc} {HD : Digests} {HC : Cipher} {HDL : DigestLaws} {HCL : CipherLaws}.

Lemma unit_stream_room r flags body :
  bytes body → zlen body <= UINT16_MAX → unit_room r flags body (unit_stream r flags body).
Proof.
  intros Hb Hl. unfold UINT16_MAX in Hl. pose proof (zlen_nonneg body). pose proof (sec_bytes_nonneg r flags) as Hs.
  assert (rdp_get_sec_bytes r flags <= 16) as Hs16.
  { unfold rdp_get_sec_bytes. repeat destruct (negb _); repeat destruct (_ =? _); lia. }
  assert (0 <= wire_pad r flags (zlen body) <= 8) as Hw.
  { unfold wire_pad. pose proof (fips_pad_range (zlen body)). destruct (_ && _); lia. }
  unfold unit_room, unit_stream. cbn [st_buffer st_pointer st_capacity]. rewrite !zlen_zeros by lia.
  split; [|split; [unfold SIZE_MAX; lia|split; [done|]]].
  - split; cbn [st_buffer st_pointer st_capacity st_length]; rewrite ?zlen_app, ?zlen_zeros by lia; unfold SIZE_MAX; try lia.
    repeat apply Forall_app_2; try apply bytes_zeros; done.
  - exists (zeros 15), (zeros (rdp_get_sec_bytes r flags)), (zeros (wire_pad r flags (zlen body))),
      (zeros (8 - wire_pad r flags (zlen body))).
    rewrite !zlen_zeros by lia. split; [|lia]. unfold zeros. rewrite !app_assoc, <- replicate_add. rewrite <- !app_assoc, <- replicate_add.
    by rewrite <- !Z2Nat.inj_add by lia; rewrite Zplus_minus.
Qed.

(** A unit is at least as long as its body, and its length depends on the method only. *)
Lemma unit_size_body r flags body : zlen body <= unit_size r flags body.
Proof.
  unfold unit_size, wire_pad. pose proof (sec_bytes_nonneg r flags). pose proof (fips_pad_range (zlen body)). destruct (_ && _); lia.
Qed.
Lemma message_ok_method r r' flags m :
  EncryptionMethods r' = EncryptionMethods r → message_ok r flags m → message_ok r' flags m.
Proof. unfold message_ok, unit_size, rdp_get_sec_bytes, wire_pad, is_fips. by intros ->. Qed.

(** The recorder takes the body. *)
Lemma recorder_unit channelId (r2 : rdpRdp) log s body :
  readable s → remaining s = body → channelId ≠ MCS_GLOBAL_CHANNEL_ID → zlen body <= UINT16_MAX →
  ∃ s', recv_unit recorder (zlen body) channelId r2 log s = Ret ((STATE_RUN_SUCCESS, r2, log ++ [(channelId, body)]), s').
Proof.
  intros Hs Hr Hc Hl. unfold recv_unit. destruct (Z.eqb_spec channelId MCS_GLOBAL_CHANNEL_ID); [done|]. cbn [recorder on_channel].
  assert (remaining s = body ++ []) as Hr' by (by rewrite app_nil_r).
  destruct (remaining_app _ _ _ Hs Hr') as (_ & Hs1 & Hr1).
  erewrite bind_Ret by (erewrite bind_Ret by (apply (reads_Read body s [] Hs Hr')); done). cbv beta iota. cbn [negb].
  unfold recv_consumed. erewrite bind_Ret by by apply parses_consumed. by eexists.
Qed.

(** A message is delivered unless the crypto library fails. *)
Lemma transfer_delivers userId flags m from to log :
  (∀ n, malloc_ok n = true) → encrypted flags = true → duplex from to → ServerMode to = negb (ServerMode from) →
  flags_ok flags → redirects flags = false → message_ok from flags m → MCS_BASE_CHANNEL_ID <= userId <= UINT16_MAX →
  ∃ o, transfer userId flags m from to log = Ret o ∧
    on_success (λ '(from', to', log'), log' = log ++ [(m_channel m, m_body m)] ∧ duplex from' to' ∧
      EncryptionMethods from' = EncryptionMethods from ∧ ServerMode from' = ServerMode from ∧ ServerMode to' = ServerMode to) o.
Proof.
  intros Hmalloc He Hd Hmode Hf Hnr (Hb & Hl & Hsz & Hch & Hg) Hu. pose proof Hd as [Hs _].
  assert (flags ≠ 0) as Hf0 by (by intros ->).
  pose proof (unit_size_body from flags (m_body m)) as Hle.
  destruct (run_rdp_send Hmalloc from to (unit_stream from flags (m_body m)) (m_body m) flags userId (m_channel m))
    as (o & from' & s & Es & Ho); [done|done|by apply unit_stream_room; [|unfold UINT16_MAX; lia]|done|done|lia|].
  unfold transfer. rewrite Es. destruct o as [u|]; [|by exists None].
  destruct Ho as (Hwf & wire & Hsec & Hwz & Hw).
  assert (bytes wire) as Hwb.
  { pose proof (written_bytes s Hwf) as H. rewrite Hw in H. by apply Forall_app in H as [_ H]. }
  destruct (run_recv_unit recorder from to from' flags (m_body m) wire userId (m_channel m) 0 log)
    as (to' & s2 & Er & Hs2 & Hr2 & Hm2 & Hd'); [by intros; split; [|lia]|done..|lia|lia|].
  destruct (recorder_unit (m_channel m) to' log s2 (m_body m)) as (s3 & E3); [done..|unfold UINT16_MAX; lia|].
  rewrite Hw, Er, E3. cbv beta iota. rewrite Z.eqb_refl. eexists. split; [done|]. split; [done|]. split; [by apply Hd'|].
  by rewrite (secured_frame _ _ _ _ _ Hsec).
Qed.

Lemma conversation_delivers userId flags ms client server lc ls :
  crypto_available → encrypted flags = true → flags_ok flags → redirects flags = false → Forall (message_ok client flags) ms →
  MCS_BASE_CHANNEL_ID <= userId <= UINT16_MAX →
  duplex client server → ServerMode client = false → ServerMode server = true →
  ∃ client' server', conversation userId flags ms client server lc ls =
    Ret (Some (client', server', lc ++ sent false ms, ls ++ sent true ms)) ∧ duplex client' server'.
Proof.
  intros Hav He Hf Hnr Hms Hu. revert client server lc ls Hms.
  induction ms as [|m ms IH]; intros client server lc ls Hms Hd Hc Hs; cbn [conversation].
  { exists client, server. unfold sent. cbn. by rewrite !app_nil_r. }
  apply Forall_cons_1 in Hms as [Hm Hms].
  assert (∀ r, EncryptionMethods r = EncryptionMethods client → Forall (message_ok r flags) ms) as Hms'.
  { intros r Hr. eapply Forall_impl; [|exact Hms]. intros x. by apply message_ok_method. }
  pose proof (same_method _ _ (sec_same _ _ (proj1 Hd))) as Hme. unfold sent. cbn [List.filter].
  destruct (m_client m) eqn:Em.
  - destruct (transfer_delivers userId flags m client server ls (av_malloc Hav) He Hd) as (o & -> & Ho); [by rewrite Hs, Hc|done..|].
    destruct o as [[[c' s'] ls']|]; [|by destruct Ho]. destruct Ho as (-> & Hd' & Hm' & Hc' & Hs').
    destruct (IH c' s' lc (ls ++ [(m_channel m, m_body m)]) (Hms' _ Hm') Hd') as (c2 & s2 & -> & Hd2); [congruence..|].
    exists c2, s2. split; [|done]. rewrite bool_decide_false, bool_decide_true by done. cbn [map]. unfold sent.
    by rewrite <- (app_assoc ls).
  - destruct (transfer_delivers userId flags m server client lc (av_malloc Hav) He) as (o & -> & Ho);
      [by destruct Hd|by rewrite Hs, Hc|done..|by eapply message_ok_method|done|].
    destruct o as [[[s' c'] lc']|]; [|by destruct Ho]. destruct Ho as (-> & Hd' & Hm' & Hs' & Hc').
    pose proof (same_method _ _ (sec_same _ _ (proj1 Hd'))) as Hme'.
    destruct (IH c' s' (lc ++ [(m_channel m, m_body m)]) ls) as (c2 & s2 & -> & Hd2);
      [by apply Hms'; congruence|by destruct Hd'|congruence..|].
    exists c2, s2. split; [|done]. rewrite bool_decide_true, bool_decide_false by done. cbn [map]. unfold sent.
    by rewrite <- (app_assoc lc).
Qed.

(** * Data PDUs *)

(** The share headers in front of a payload of [n] bytes. *)
Definition share_control_bytes (n type channel_id : Z) : list Z :=
  winpr_Data_Write_UINT16 (n + 18) ++ winpr_Data_Write_UINT16 (Z.lor type 0x10) ++ winpr_Data_Write_UINT16 channel_id.
Definition share_data_bytes (n type share_id : Z) : list Z :=
  winpr_Data_Write_UINT32 share_id ++ [0; STREAM_LOW] ++ winpr_Data_Write_UINT16 n ++ [type; 0] ++ winpr_Data_Write_UINT16 0.
Definition data_pdu (payload : list Z) (type share_id channel_id : Z) : list Z :=
  share_control_bytes (zlen payload) PDU_TYPE_DATA channel_id ++ share_data_bytes (zlen payload) type share_id ++ payload.

Lemma puts_share_headers n type share_id channel_id :
  0 <= n <= 32749 → is_byte type → 0 <= share_id <= UINT32_MAX → 0 <= channel_id <= UINT16_MAX →
  puts 18 (TRY rdp_write_share_control_header (n + 33) PDU_TYPE_DATA channel_id; rdp_write_share_data_header (n + 33) type share_id)
    (share_control_bytes n PDU_TYPE_DATA channel_id ++ share_data_bytes n type share_id) (Some tt).
Proof.
  intros Hn Ht Hi Hc. eapply (puts_bind 18 6).
  - lia.
  - unfold rdp_write_share_control_header, RDP_PACKET_HEADER_MAX_LENGTH.
    destruct (Z.gtb_spec (n + 33) UINT16_MAX); [unfold UINT16_MAX in *; lia|]. destruct (Z.ltb_spec (n + 33) 15); [lia|].
    apply puts_check; [lia|]. replace (n + 33 - 15) with (n + 18) by lia. unfold share_control_bytes.
    apply puts_cast; [unfold UINT16_MAX; lia|]. apply puts_UINT16; [lia|unfold UINT16_MAX; lia|].
    apply puts_cast; [by vm_compute|]. apply puts_UINT16; [lia|by vm_compute|].
    apply puts_cast; [done|]. apply puts_nil_r, puts_UINT16; [lia|done|]. apply puts_ret.
  - cbv beta iota. change (18 - zlen (share_control_bytes n PDU_TYPE_DATA channel_id)) with 12. unfold rdp_write_share_data_header.
    change (RDP_PACKET_HEADER_MAX_LENGTH + RDP_SHARE_CONTROL_HEADER_LENGTH + RDP_SHARE_DATA_HEADER_LENGTH) with 33. cbv zeta.
    destruct (Z.gtb_spec (n + 33) UINT16_MAX); [unfold UINT16_MAX in *; lia|]. destruct (Z.ltb_spec (n + 33) 33); [lia|].
    replace (n + 33 - 33) with n by lia. unfold share_data_bytes, STREAM_LOW. apply puts_check; [lia|].
    apply puts_UINT32; [lia|done|]. apply puts_UINT8; [lia|unfold is_byte; lia|]. apply puts_UINT8; [lia|unfold is_byte; lia|].
    apply puts_cast; [unfold UINT16_MAX; lia|]. apply puts_UINT16; [lia|unfold UINT16_MAX; lia|].
    apply puts_UINT8; [lia|done|]. apply puts_UINT8; [lia|unfold is_byte; lia|].
    apply puts_nil_r, puts_UINT16; [lia|done|]. apply puts_ret.
Qed.
Lemma share_headers_bytes n type share_id channel_id :
  is_byte type → bytes (share_control_bytes n PDU_TYPE_DATA channel_id ++ share_data_bytes n type share_id).
Proof.
  intros Ht. unfold share_control_bytes, share_data_bytes, STREAM_LOW.
  repeat apply Forall_app_2; try apply write16_le_bytes; try apply write32_le_bytes;
    repeat apply Forall_cons_2; try apply Forall_nil_2; try done; unfold is_byte; lia.
Qed.

(** The payload is behind room for the share headers. *)
Lemma run_send_data r1 r2 s room payload flags userId type share_id channel_id :
  (∀ n, malloc_ok n = true) → (encrypted flags = true → sec_sync r1 r2) → flags_ok flags →
  unit_room r1 flags (room ++ payload) s → zlen room = 18 → unit_size r1 flags (room ++ payload) < 32768 →
  MCS_BASE_CHANNEL_ID <= userId <= UINT16_MAX → is_byte type → 0 <= share_id <= UINT32_MAX → 0 <= channel_id <= UINT16_MAX →
  ∃ o r1' s', rdp_send_data_pdu r1 userId share_id type channel_id flags s = Ret ((o, r1'), s') ∧
    on_success (λ _, wf s' ∧ ∃ wire, secured r1 flags (data_pdu payload type share_id channel_id) wire r1' ∧ zlen wire < 32768 ∧
      written s' = unit_packet (ServerMode r1) userId MCS_GLOBAL_CHANNEL_ID wire) o.
Proof.
  intros Hmalloc Hsync Hf Hroom Hr18 Hsz Hu Ht Hi Hc. pose proof (zlen_nonneg payload).
  assert (rdp_get_sec_bytes r1 flags <= 16) as Hs16.
  { unfold rdp_get_sec_bytes. repeat destruct (negb _); repeat destruct (_ =? _); lia. }
  pose proof (sec_bytes_nonneg r1 flags) as Hs0.
  assert (0 <= wire_pad r1 flags (zlen (room ++ payload)) <= 8) as Hwp.
  { unfold wire_pad. pose proof (fips_pad_range (zlen (room ++ payload))). destruct (_ && _); lia. }
  assert (zlen payload <= 32749) as Hl by (unfold unit_size in Hsz; rewrite zlen_app in *; lia).
  destruct (run_unit_header Hmalloc r1 flags (room ++ payload) s userId MCS_GLOBAL_CHANNEL_ID Hroom Hsz Hu ltac:(unfold UINT16_MAX, MCS_GLOBAL_CHANNEL_ID; lia))
    as (s1 & old & oldpad & tl & E & Hs1 & Ho & Hop & Hp1 & Hb1).
  destruct Hroom as (Hs & Hcap & Hbb & _ & old0 & _ & _ & _ & _ & Ho0 & _ & Hp).
  unfold rdp_send_data_pdu, send_shared. erewrite bind_Ret by by apply run_GetPosition. unfold Stream_ResetPosition.
  erewrite bind_Ret by done. erewrite bind_Ret by exact E. cbv iota zeta. clear E.
  erewrite bind_Ret by by apply run_GetPosition. rewrite Hp1.
  set (hdr := unit_header _ _ _ _ _) in Hb1. assert (zlen hdr = 15) as Hh by done.
  pose proof (wf_object s1 Hs1) as Hobj. rewrite Hb1, !zlen_app in Hobj. pose proof (zlen_nonneg tl). pose proof (zlen_nonneg oldpad).
  erewrite bind_Ret by (apply run_Seek; [done|lia]).
  assert (wf (adv (rdp_get_sec_bytes r1 flags) s1)) as Hs2 by (destruct Hs1; split; cbn; try done; lia).
  rewrite zlen_app in Hp. replace (u64 (st_pointer s - rdp_get_sec_bytes r1 flags)) with (zlen payload + 33)
    by (unfold u64; rewrite Z.mod_small; lia).
  set (head := share_control_bytes (zlen payload) PDU_TYPE_DATA channel_id ++ share_data_bytes (zlen payload) type share_id).
  assert (zlen head = 18) as Hhead by done.
  destruct (puts_at (TRY rdp_write_share_control_header (zlen payload + 33) PDU_TYPE_DATA channel_id;
    rdp_write_share_data_header (zlen payload + 33) type share_id) head (Some tt) (adv (rdp_get_sec_bytes r1 flags) s1)
    (hdr ++ old) room (payload ++ oldpad ++ tl)) as (s3 & E3 & Hs3 & Hb3 & Hp3);
    [rewrite Hhead; by apply puts_share_headers|done|cbn [adv set_pointer st_buffer]; by rewrite Hb1, <- !app_assoc|rewrite zlen_app; cbn [adv set_pointer st_pointer]; lia|lia|].
  erewrite bind_Ret by exact E3. cbv iota.
  pose proof (wf_object s3 Hs3) as Hobj3. rewrite Hb3, !zlen_app in Hobj3.
  unfold Stream_SetPosition. erewrite bind_Ret; cycle 1.
  { instantiate (1 := set_pointer 15 s3). instantiate (1 := Some tt). by destruct (Z.gtb_spec 15 (st_capacity s3)); [lia|]. }
  cbv iota. assert (wf (set_pointer 15 s3)) as Hs4 by (destruct Hs3; split; cbn; try done; lia).
  assert (zlen (data_pdu payload type share_id channel_id) = 18 + zlen payload) as Hbody.
  { unfold data_pdu. rewrite app_assoc, zlen_app. fold head. lia. }
  destruct (run_send_protected r1 r2 (set_pointer 15 s3) hdr old (data_pdu payload type share_id channel_id) oldpad tl flags)
    as (o & r' & s' & E5 & Hres);
    [done|done|done|cbn [set_pointer st_buffer]; rewrite Hb3; unfold data_pdu; fold head; by rewrite <- !app_assoc|done|done
    |unfold data_pdu; rewrite app_assoc; apply Forall_app_2; [by apply share_headers_bytes|by apply Forall_app in Hbb as []]
    |rewrite Hop; f_equal; rewrite zlen_app; lia|unfold UINT16_MAX; lia|].
  exists o, r', s'. replace (st_pointer s) with (zlen hdr + zlen old + zlen (data_pdu payload type share_id channel_id)) by lia.
  split; [exact E5|]. destruct o; [|done]. destruct Hres as (Hs' & wire & Hsec & Hw & Hz).
  split; [done|]. exists wire. split; [done|]. unfold unit_size in Hsz. rewrite zlen_app in Hop, Hsz. split; [lia|].
  rewrite Hw. unfold unit_packet, hdr. replace (zlen wire) with (unit_size r1 flags (room ++ payload)); [done|].
  unfold unit_size. rewrite zlen_app. lia.
Qed.

Lemma reads_share_data n type share_id :
  0 <= n <= UINT16_MAX → 0 <= share_id <= UINT32_MAX →
  reads rdp_read_share_data_header (share_data_bytes n type share_id) (Some (mkShareData n type share_id 0 0)).
Proof.
  intros Hn Hi. unfold rdp_read_share_data_header, share_data_bytes. apply reads_check; [done|].
  apply reads_step_UINT32; [done|]. apply (reads_step_Seek 1 [0]); [done|]. apply (reads_step_Seek 1 [STREAM_LOW]); [done|].
  apply reads_step_UINT16; [done|]. apply (reads_step_UINT8 type), (reads_step_UINT8 0).
  apply reads_nil_r, reads_step_UINT16; [unfold UINT16_MAX; lia|]. apply reads_ret.
Qed.
Lemma takes_share_control n channel_id rest :
  0 <= n <= 32749 → 0 <= channel_id <= UINT16_MAX → zlen rest = n + 12 →
  takes rdp_read_share_control_header (share_control_bytes n PDU_TYPE_DATA channel_id) rest
    (Some (mkShare (n + 18) (n + 12) PDU_TYPE_DATA channel_id)).
Proof.
  intros Hn Hc Hr. unfold rdp_read_share_control_header, share_control_bytes.
  apply takes_check; [change (zlen (_ ++ _)) with 6; lia|].
  eapply takes_step; [apply reads_UINT16; unfold UINT16_MAX; lia|]. cbv beta.
  destruct (Z.eqb_spec (n + 18) 0x8000); [lia|]. destruct (Z.ltb_spec (n + 18) 4); [lia|].
  apply takes_check; [change (zlen (_ ++ _)) with 4; lia|].
  eapply takes_step; [by apply reads_UINT16|]. cbv beta zeta. destruct (Z.gtb_spec (n + 18) 5); [|lia].
  apply takes_check; [change (zlen (winpr_Data_Write_UINT16 channel_id)) with 2; lia|].
  eapply takes_last; [by apply reads_UINT16|]. cbv beta. intros s Hs Hrem.
  rewrite assert_bind by (unfold UINT16_MAX; lia). revert s Hs Hrem. fold (takes (A := option share_control)).
  apply takes_check; [change (zlen (@nil Z)) with 0; lia|]. replace (n + 18 - 6) with (n + 12) by lia. apply takes_ret.
Qed.

Context {D : Type} (R : receivers D).

(** The receiver hands the data PDU on and is done. *)
Lemma run_recv_data r2 d s payload type share_id channel_id :
  readable s → remaining s = data_pdu payload type share_id channel_id → zlen payload <= 32749 →
  0 <= channel_id <= UINT16_MAX →
  ∃ s', recv_unit R (zlen (data_pdu payload type share_id channel_id)) MCS_GLOBAL_CHANNEL_ID r2 d s =
    Ret ((fst (on_data R (share_data_bytes (zlen payload) type share_id ++ payload) d), r2,
          snd (on_data R (share_data_bytes (zlen payload) type share_id ++ payload) d)), s').
Proof.
  intros Hs Hr Hl Hc. set (sub := share_data_bytes (zlen payload) type share_id ++ payload). pose proof (zlen_nonneg payload).
  assert (zlen sub = zlen payload + 12) as Hsub by (unfold sub; rewrite zlen_app; change (zlen (share_data_bytes _ _ _)) with 12; lia).
  unfold data_pdu in Hr. fold sub in Hr.
  assert (zlen (data_pdu payload type share_id channel_id) = zlen payload + 18) as Hz.
  { unfold data_pdu. fold sub. rewrite zlen_app, Hsub. change (zlen (share_control_bytes _ _ _)) with 6. lia. }
  destruct (remaining_app _ _ _ Hs Hr) as (_ & Hs1 & Hr1). change (zlen (share_control_bytes _ _ _)) with 6 in Hs1, Hr1.
  destruct (remaining_app _ sub [] Hs1 ltac:(by rewrite app_nil_r)) as (_ & Hs2 & Hr2). rewrite adv_adv in Hs2, Hr2.
  pose proof (zlen_remaining s Hs) as Hrem. rewrite Hr, zlen_app, Hsub in Hrem. change (zlen (share_control_bytes _ _ _)) with 6 in Hrem.
  destruct (readable_split _ _ Hs1 Hr1) as (pre & tl & Hb & Hp & Hlen).
  unfold recv_unit. rewrite Z.eqb_refl. erewrite bind_Ret by by apply run_GetRemainingLength. rewrite <- Hrem, Hz.
  destruct (Z.to_nat (6 + (zlen payload + 12))) as [|fuel] eqn:Efuel; [lia|].
  assert (∀ rc d, rem (adv (6 + zlen sub) s) = 0 ∧ recv_share_pdus R fuel rc d (adv (6 + zlen sub) s) = Ret ((inr rc, d), adv (6 + zlen sub) s)) as Hend.
  { intros rc d'. assert (rem (adv (6 + zlen sub) s) = 0) as H0 by (rewrite rem_adv, <- Hrem; lia). split; [done|].
    destruct fuel; cbn [recv_share_pdus]; erewrite bind_Ret by (by apply run_GetRemainingLength); by rewrite H0. }
  erewrite bind_Ret; cycle 1.
  { cbn [recv_share_pdus]. erewrite bind_Ret by by apply run_GetRemainingLength. rewrite <- Hrem.
    destruct (Z.gtb_spec (6 + (zlen payload + 12)) 3); [|lia]. cbn [negb].
    erewrite bind_Ret by (apply (takes_share_control (zlen payload) channel_id sub ltac:(lia) Hc Hsub s Hs Hr)).
    change (zlen (share_control_bytes _ _ _)) with 6. cbn [sc_remainingLength sc_type].
    erewrite bind_Ret by (apply run_GetPosition; by destruct Hs1). rewrite Hp.
    erewrite bind_Ret by (apply (run_stream_get pre sub tl); [by destruct Hs1|done|done|lia]).
    unfold Stream_SafeSeekEx. erewrite bind_Ret; cycle 1.
    { erewrite bind_Ret by by apply run_CheckLength. rewrite rem_adv, <- Hrem.
      destruct (Z.ltb_spec (6 + (zlen payload + 12) - 6) (zlen payload + 12)); [lia|]. cbv iota.
      erewrite bind_Ret by (apply run_Seek; [by destruct Hs1|pose proof (wf_length _ (proj1 Hs1)); lia]). reflexivity. }
    cbv iota. rewrite Z.eqb_refl, adv_adv, <- Hsub. destruct (on_data R sub d) as [rc d'] eqn:Ed.
    instantiate (1 := adv (6 + zlen sub) s).
    instantiate (1 := (if state_run_failed (fst (on_data R sub d)) then inl (fst (on_data R sub d)) else inr (fst (on_data R sub d)), snd (on_data R sub d))).
    rewrite Ed. cbn [fst snd]. destruct (state_run_failed rc); [done|]. by destruct (Hend rc d'). }
  cbv beta iota. destruct (state_run_failed _); [by eexists|].
  unfold recv_consumed. erewrite bind_Ret by (apply parses_consumed; [unfold UINT16_MAX; lia|done|done]). by eexists.
Qed.
End delivery.

(** * Theorems *)

Section theorems.
Context {HM : Malloc} {HD : Digests} {HC : Cipher} {HDL : DigestLaws} {HCL : CipherLaws}.

(** C1. A whole session under standard RDP security.  A client and a server that use the
    same method (40, 56 or 128 bit RC4, or the FIPS mode) and know both randoms establish
    their keys, and from then on every message either of them sends with [rdp_send] is
    accepted by the [rdp_recv_tpkt_pdu] of the other, decrypted and handed to its channel
    unchanged: in any order of the directions and for any number of messages, so
    through any number of key updates.  A message is a body that is not empty, on a
    channel that is not the global one, whose unit with the security header and the padding stays
    below 0x8000 bytes ([message_ok]); its sender fills a stream that has eight bytes to spare
    for the padding ([unit_stream]).  What happens to longer units and in a stream that is full
    is the subject of the next file. *)
Theorem encrypted_session client server userId flags ms :
  crypto_available →
  ServerMode client = false → ServerMode server = true →
  EncryptionMethods server = EncryptionMethods client → valid_method (EncryptionMethods client) →
  ClientRandom server = ClientRandom client → ServerRandom server = ServerRandom client →
  zlen (ClientRandom client) = 32 → zlen (ServerRandom client) = 32 →
  encrypted flags = true → flags_ok flags → redirects flags = false →
  MCS_BASE_CHANNEL_ID <= userId <= UINT16_MAX → Forall (message_ok client flags) ms →
  ∃ client1 server1 client2 server2,
    rdp_establish_contexts client = Ret (true, client1) ∧ rdp_establish_contexts server = Ret (true, server1) ∧
    conversation userId flags ms client1 server1 [] [] = Ret (Some (client2, server2, sent false ms, sent true ms)).
Proof.
  intros Hav Hc Hs Hm Hv Hcr Hsr Hc32 Hs32 He Hf Hnr Hu Hms.
  destruct (establish_available client Hav Hc32 Hs32 Hv) as [c1 Ec].
  destruct (establish_available server Hav) as [s1 Es]; [by rewrite Hcr|by rewrite Hsr|by rewrite Hm|].
  destruct (establish_in_sync client server c1 s1) as [H1 H2]; [done..|].
  assert (∀ r r', rdp_establish_contexts r = Ret (true, r') → ServerMode r' = ServerMode r) as Hmode by apply establish_mode.
  destruct (conversation_delivers userId flags ms c1 s1 [] []) as (c2 & s2 & E & _);
    [done..| |done|done|by rewrite (Hmode _ _ Ec)|by rewrite (Hmode _ _ Es)|].
  { eapply Forall_impl; [|exact Hms]. intros x. apply message_ok_method, (establish_method _ _ Ec). }
  by exists c1, s1, c2, s2.
Qed.


(** C14. What [rdp_send_data_pdu] sends with a payload, [rdp_recv_tpkt_pdu] hands to the receiver of
    data PDUs: the share data header with the type, the share id and the length of the
    payload, and then the payload; the result of that receiver is the result of the packet.  The
    unit, with all its headers and the padding, is shorter than 0x8000 bytes and the stream
    has room for the padding ([unit_room]). *)
Theorem share_data_delivery {D} (R : receivers D) r1 r2 s room payload flags userId type share_id channel_id d :
  (∀ n, malloc_ok n = true) → (encrypted flags = true → duplex r1 r2) → flags_ok flags → redirects flags = false →
  unit_room r1 flags (room ++ payload) s → zlen room = 18 → unit_size r1 flags (room ++ payload) < 32768 → ServerMode r2 = negb (ServerMode r1) →
  MCS_BASE_CHANNEL_ID <= userId <= UINT16_MAX → is_byte type → 0 <= share_id <= UINT32_MAX → 0 <= channel_id <= UINT16_MAX →
  let pdu := share_data_bytes (zlen payload) type share_id ++ payload in
  reads rdp_read_share_data_header (share_data_bytes (zlen payload) type share_id)
    (Some (mkShareData (zlen payload) type share_id 0 0)) ∧
  ∃ o r1' s', rdp_send_data_pdu r1 userId share_id type channel_id flags s = Ret ((o, r1'), s') ∧
    on_success (λ _, ∃ r2' s2, rdp_recv_tpkt_pdu R (negb (flags =? 0)) 0 r2 d (stream_of (written s')) =
        Ret ((fst (on_data R pdu d), r2', snd (on_data R pdu d)), s2) ∧ (duplex r1 r2 → duplex r1' r2')) o.
Proof.
  intros Hmalloc Hsync Hf Hnr Hroom H18 Hsz Hmode Hu Ht Hi Hc pdu. pose proof (zlen_nonneg payload).
  pose proof (unit_size_body r1 flags (room ++ payload)) as Hl. rewrite zlen_app in Hl.
  split; [by apply reads_share_data; [unfold UINT16_MAX; lia|]|].
  destruct (run_send_data r1 r2 s room payload flags userId type share_id channel_id) as (o & r1' & s' & E & Ho);
    [done|intros He; by destruct (Hsync He)|done..|].
  exists o, r1', s'. split; [done|]. destruct o; [|done]. destruct Ho as (Hwf & wire & Hsec & Hz & Hw). rewrite Hw.
  pose proof (written_bytes s' Hwf) as Hb. rewrite Hw in Hb. apply Forall_app in Hb as [_ Hb].
  assert (bytes (data_pdu payload type share_id channel_id)) as Hbb.
  { unfold data_pdu. rewrite app_assoc. apply Forall_app_2; [by apply share_headers_bytes|].
    destruct Hroom as (_ & _ & Hbb & _). by apply Forall_app in Hbb as []. }
  assert (0 < zlen (data_pdu payload type share_id channel_id)) as Hpos.
  { unfold data_pdu. rewrite app_assoc, zlen_app. change (zlen (_ ++ _)) with 18. lia. }
  destruct (run_recv_unit R r1 r2 r1' flags (data_pdu payload type share_id channel_id) wire userId MCS_GLOBAL_CHANNEL_ID 0 d)
    as (r2' & s2 & Er & Hs2 & Hr2 & _ & Hd);
    [intros He; by destruct (Hsync He) as []|done..|].
  destruct (run_recv_data R r2' d s2 payload type share_id channel_id) as (s3 & E3); [done|done|lia|done|].
  exists r2', s3. split; [by rewrite Er, E3|done].
Qed.
End theorems.

(** * Witnesses *)

#[local] Instance model_malloc : Malloc := λ _, true.
#[local] Existing Instances model_digests model_cipher model_digest_laws model_cipher_laws.

(** Client and server that share a method and the randoms, with a crypto library to
    evaluate them with. *)
Definition empty_dir : crypt_dir := mkDir (zeros 16) (zeros 16) 0 0 None (zeros 24) None.
Definition new_rdp (method : Z) (server : bool) : rdpRdp :=
  mkRdp method server (map Z.of_nat (seq 1 32)) (map Z.of_nat (seq 101 32)) (zeros 16) (zeros 20) 0 empty_dir empty_dir.
Definition established_rdp (method : Z) (server : bool) : rdpRdp :=
  match rdp_establish_contexts (new_rdp method server) with
  | Ret (true, r) => r
  | _ => new_rdp method server
  end.
Definition greetings : list message :=
  [mkMessage true 1004 [1; 2; 3]; mkMessage false 1005 [4; 5]; mkMessage true 1004 (zeros 40)].

Lemma established_duplex method :
  valid_method method → duplex (established_rdp method false) (established_rdp method true).
Proof.
  intros Hv. assert (crypto_available (HM := model_malloc)) as Hav by exact model_available.
  destruct (establish_available (new_rdp method false) Hav eq_refl eq_refl Hv) as [c Hc].
  destruct (establish_available (new_rdp method true) Hav eq_refl eq_refl Hv) as [v Hs].
  unfold established_rdp. rewrite Hc, Hs.
  by apply (establish_in_sync (new_rdp method false) (new_rdp method true)).
Qed.

Example session_runs : Forall (λ method,
  match conversation 1007 (Z.lor SEC_ENCRYPT SEC_SECURE_CHECKSUM) greetings
    (established_rdp method false) (established_rdp method true) [] [] with
  | Ret (Some (_, _, to_client, to_server)) => to_client = sent false greetings ∧ to_server = sent true greetings
  | _ => False
  end) [ENCRYPTION_METHOD_40BIT; ENCRYPTION_METHOD_56BIT; ENCRYPTION_METHOD_128BIT; ENCRYPTION_METHOD_FIPS].
Proof. do 4 (apply Forall_cons_2; [vm_compute; by split|]). apply Forall_nil_2. Qed.

Lemma encrypted_session_witness :
  let client := new_rdp ENCRYPTION_METHOD_56BIT false in
  let server := new_rdp ENCRYPTION_METHOD_56BIT true in
  ∃ client1 server1 client2 server2,
    rdp_establish_contexts client = Ret (true, client1) ∧ rdp_establish_contexts server = Ret (true, server1) ∧
    conversation 1007 SEC_ENCRYPT greetings client1 server1 [] [] =
      Ret (Some (client2, server2, sent false greetings, sent true greetings)).
Proof.
  apply (encrypted_session (new_rdp ENCRYPTION_METHOD_56BIT false) (new_rdp ENCRYPTION_METHOD_56BIT true) 1007 SEC_ENCRYPT greetings);
    try done.
  - left. right. by left.
  - unfold greetings, message_ok. repeat apply Forall_cons_2; try apply Forall_nil_2; cbn [m_body m_channel];
      (split; [by apply (bool_decide_unpack _); vm_compute|]); by vm_compute.
Defined.


Lemma share_data_delivery_witness :
  let r1 := established_rdp ENCRYPTION_METHOD_128BIT true in
  let r2 := established_rdp ENCRYPTION_METHOD_128BIT false in
  let pdu := share_data_bytes 3 31 66 ++ [1; 2; 3] in
  reads rdp_read_share_data_header (share_data_bytes 3 31 66) (Some (mkShareData 3 31 66 0 0)) ∧
  ∃ o r1' s', rdp_send_data_pdu r1 1002 66 31 1007 SEC_ENCRYPT (unit_stream r1 SEC_ENCRYPT (zeros 18 ++ [1; 2; 3])) = Ret ((o, r1'), s') ∧
    on_success (λ _, ∃ r2' s2, rdp_recv_tpkt_pdu recorder true 0 r2 [] (stream_of (written s')) =
        Ret ((fst (on_data recorder pdu []), r2', snd (on_data recorder pdu [])), s2) ∧ (duplex r1 r2 → duplex r1' r2')) o.
Proof.
  apply (share_data_delivery recorder (established_rdp ENCRYPTION_METHOD_128BIT true) (established_rdp ENCRYPTION_METHOD_128BIT false)
    (unit_stream (established_rdp ENCRYPTION_METHOD_128BIT true) SEC_ENCRYPT (zeros 18 ++ [1; 2; 3])) (zeros 18) [1; 2; 3]).
  - done.
  - intros _. destruct (established_duplex ENCRYPTION_METHOD_128BIT) as [H1 H2]; [left; by right; right|]. split; [exact H2|exact H1].
  - done.
  - done.
  - apply unit_stream_room; [by apply (bool_decide_unpack _); vm_compute|by vm_compute].
  - done.
  - by vm_compute.
  - by vm_compute.
  - done.
  - done.
  - done.
  - done.
Defined.

(** A receiver that leaves everything where it is. *)
Definition sink : receivers unit :=
  mkReceivers _ (λ _ _ d, mret (STATE_RUN_SUCCESS, d)) (λ d, mret (STATE_RUN_SUCCESS, d)) (λ _ d, (STATE_RUN_SUCCESS, d))
    (λ _ d, (STATE_RUN_SUCCESS, d)) (λ _ d, (true, d)) (λ _ _ d, mret (true, d)).
Lemma slow_path_safe_witness :
  wp (rdp_recv_tpkt_pdu sink true 0 (established_rdp ENCRYPTION_METHOD_FIPS false) tt) (received_ok (D := unit))
    (stream_of [3; 0; 0; 19; 2; 240; 128; 104; 0; 6; 3; 235; 112; 128; 4; 8; 0; 0; 0]).
Proof.
  apply (slow_path_safe sink true 0 (established_rdp ENCRYPTION_METHOD_FIPS false) tt).
  - split; intros; by apply wp_ret.
  - intros H. exfalso. apply H. by vm_compute.
  - apply stream_of_readable; [by vm_compute|by apply (bool_decide_unpack _); vm_compute].
Defined.
