(* ===== verification/RdpLimits.v ===== *)
(** Where the slow path ends: units that are longer than the encoding of their length in
    [rdp_write_header], and the padding of FIPS behind a stream that is full. *)

From S2P Require Import Prelude Stream StreamLogic Transmission Per Framing Rc4 Security SecurityCorrect Gcc Mcs RdpPdu RdpPduCorrect RdpSession.
From stdpp Require Import prelude list numbers.
From Stdlib Require Import ZArith Lia.

#[local] Open Scope Z_scope.

Section limits.
Context {HM : Malloc} {HD : Digests} {HC : Cipher} {HDL : DigestLaws} {HCL : CipherLaws}.

(** * The header in a stream that has room for it *)

Lemma puts_per_integer16 n v min :
  2 <= n → 0 <= min <= v → v <= UINT16_MAX → puts n (per_write_integer16 v min) (winpr_Data_Write_UINT16_BE (v - min)) (Some tt).
Proof.
  intros Hn Hm Hv. unfold per_write_integer16. replace (min >? v) with false by lia. apply puts_ensure; [lia|].
  apply puts_nil_r, puts_UINT16_BE; [lia|lia|]. apply puts_ret.
Qed.
Lemma puts_domain_header n pdu length options :
  8 <= n → (Z.land options (Z.lnot 3) =? 0) = true → (Z.land pdu (Z.lnot 0x3F) =? 0) = true → 0 <= length <= UINT16_MAX →
  puts n (mcs_write_domain_mcspdu_header pdu length options) (header_bytes length (u8 (Z.lor (Z.shiftl pdu 2) options))) (Some tt).
Proof.
  intros Hn Ho Hp Hl. unfold mcs_write_domain_mcspdu_header, header_bytes. apply puts_assert; [done|]. apply puts_assert; [done|].
  eapply (puts_bind _ 4); [lia|by apply puts_tpkt_header|]. cbv beta iota. change (zlen ([3; 0] ++ _)) with 4.
  eapply (puts_bind _ 3 _ _ [2; 240; 128]); [lia|by apply (puts_tpdu_header 3 2 240)|]. cbv beta iota. change (zlen [2; 240; 128]) with 3.
  unfold per_write_choice. apply puts_ensure; [lia|]. apply puts_UINT8; [lia|unfold is_byte, u8; div_mod_lia|]. apply puts_ret.
Qed.

(** The length of the unit loses its top bit. *)
Definition encoded_length (m : Z) : Z := if m <? 0x8000 then m else m - 0x8000.
Lemma encoded_length_lor m : 0 <= m <= UINT16_MAX → Z.lor m 0x8000 = encoded_length m + 0x8000.
Proof.
  unfold UINT16_MAX, encoded_length. intros Hm.
  assert (∀ k, 0 <= k < 32768 → Z.lor 32768 k = 32768 + k) as H by (intros; by rewrite (lor_disjoint 32768 k 15) by (done || lia)).
  destruct (Z.ltb_spec m 32768); rewrite Z.lor_comm; [rewrite H; lia|].
  replace m with (32768 + (m - 32768)) at 1 by lia. rewrite <- H, Z.lor_assoc, Z.lor_diag, H by lia. lia.
Qed.

Lemma puts_header r userId n channelId flags :
  0 <= n → n + wire_pad r flags n + 15 <= UINT16_MAX → MCS_BASE_CHANNEL_ID <= userId <= UINT16_MAX → 0 <= channelId <= UINT16_MAX →
  puts 15 (rdp_write_header r userId (n + 15) channelId flags)
    (unit_header (send_choice (ServerMode r)) (n + wire_pad r flags n + 15) userId channelId (encoded_length (n + wire_pad r flags n)))
    (Some tt).
Proof.
  intros Hn Hl Hu Hc. set (m := n + wire_pad r flags n) in *.
  assert (0 <= wire_pad r flags n) as Hw by (unfold wire_pad; pose proof (fips_pad_range n); destruct (_ && _); lia).
  unfold rdp_write_header, RDP_PACKET_HEADER_MAX_LENGTH. apply puts_assert; [lia|].
  replace (n + 15 >? UINT16_MAX) with false by (unfold UINT16_MAX in *; lia).
  replace (if negb (Z.land flags SEC_ENCRYPT =? 0) && (EncryptionMethods r =? ENCRYPTION_METHOD_FIPS) then _ else n + 15)
    with (m + 15).
  2:{ unfold m, wire_pad, encrypted, is_fips. destruct (_ && _); [|lia]. cbv zeta.
      replace (n + 15 - 15) with n by lia. rewrite <- (fips_pad_code n) by lia. cbv zeta.
      destruct (8 - n mod 8 =? 8); cbn [negb]; lia. }
  cbv zeta. unfold unit_header. rewrite (app_assoc [2; 240; 128]), (app_assoc (_ ++ winpr_Data_Write_UINT16_BE (m + 15))).
  change ((([3; 0] ++ winpr_Data_Write_UINT16_BE (m + 15)) ++ [2; 240; 128] ++ [send_choice (ServerMode r)])) with
    (header_bytes (m + 15) (send_choice (ServerMode r))).
  unfold u16. rewrite (Z.mod_small (m + 15)) by (unfold UINT16_MAX in *; lia).
  eapply (puts_bind _ 8); [lia| |].
  { replace (send_choice (ServerMode r)) with (u8 (Z.lor (Z.shiftl (if ServerMode r then DomainMCSPDU_SendDataIndication
      else DomainMCSPDU_SendDataRequest) 2) 0)) by (by destruct (ServerMode r)).
    apply puts_domain_header; try done; [by destruct (ServerMode r)|lia]. }
  change (15 - zlen (header_bytes _ _)) with 7. cbv beta iota. unfold MCS_BASE_CHANNEL_ID in *.
  eapply (puts_bind _ 2); [lia|apply puts_per_integer16; lia|]. change (7 - zlen (winpr_Data_Write_UINT16_BE _)) with 5. cbv beta iota.
  eapply (puts_bind _ 2); [lia|apply puts_per_integer16; lia|]. change (5 - zlen (winpr_Data_Write_UINT16_BE _)) with 3. cbv beta iota.
  apply puts_ensure; [lia|]. apply puts_UINT8; [lia|done|]. replace (m + 15 - 15) with m by lia.
  assert (0 <= encoded_length m < 0x8000) as He by (unfold encoded_length, UINT16_MAX in *; destruct (Z.ltb_spec m 0x8000); lia).
  rewrite encoded_length_lor by lia.
  apply puts_cast; [unfold UINT16_MAX; lia|]. apply puts_nil_r, puts_UINT16_BE; [lia|unfold UINT16_MAX; lia|]. apply puts_ret.
Qed.

(** The header is written in place: nothing behind it moves. *)
Lemma run_header r flags s old15 rest userId channelId :
  wf s → st_buffer s = old15 ++ rest → zlen old15 = 15 → 15 <= st_pointer s →
  let n := st_pointer s - 15 in let m := n + wire_pad r flags n in
  m + 15 <= UINT16_MAX → MCS_BASE_CHANNEL_ID <= userId <= UINT16_MAX → 0 <= channelId <= UINT16_MAX →
  ∃ s1, (∀ B (k : option unit → SM B), (length ← Stream_GetPosition; Stream_ResetPosition;;
      ok ← rdp_write_header r userId length channelId flags; k ok) s = k (Some tt) s1) ∧
    wf s1 ∧ st_pointer s1 = 15 ∧
    st_buffer s1 = unit_header (send_choice (ServerMode r)) (m + 15) userId channelId (encoded_length m) ++ rest.
Proof.
  intros Hs Hb H15 Hp n m Hm Hu Hc. assert (wf (set_pointer 0 s)) as Hs0 by (destruct Hs; split; cbn; try done; lia).
  pose proof (wf_object s Hs) as Hobj. rewrite Hb, zlen_app in Hobj. pose proof (zlen_nonneg rest).
  destruct (puts_header r userId n channelId flags ltac:(lia) Hm Hu Hc (set_pointer 0 s) Hs0) as (s1 & E & W); [unfold fits; cbn; lia|].
  destruct (wstep_buffer (set_pointer 0 s) s1 _ _ [] old15 rest Hs0 W) as (Hp1 & z & Hb1 & Hz); [done|done|done|].
  exists s1. rewrite Hz, app_nil_r in Hb1 by done. split; [|by destruct W].
  intros B k. erewrite bind_Ret by by apply run_GetPosition. unfold Stream_ResetPosition. erewrite bind_Ret by done.
  replace (st_pointer s) with (n + 15) by lia. by erewrite bind_Ret by exact E.
Qed.

(** * Long units *)

(** A unit of 0x8000 bytes or more. *)
Lemma run_long_send r1 r2 s body flags userId channelId :
  (encrypted flags = true → sec_sync r1 r2) → flags_ok flags → unit_room r1 flags body s →
  0x8000 <= unit_size r1 flags body → unit_size r1 flags body + 15 <= UINT16_MAX →
  MCS_BASE_CHANNEL_ID <= userId <= UINT16_MAX → 0 <= channelId <= UINT16_MAX →
  ∃ o r1' s', rdp_send r1 userId channelId flags s = Ret ((o, r1'), s') ∧
    on_success (λ _, wf s' ∧ ∃ wire, zlen wire = unit_size r1 flags body ∧
      written s' = unit_header (send_choice (ServerMode r1)) (zlen wire + 15) userId channelId (zlen wire - 0x8000) ++ wire) o.
Proof.
  intros Hsync Hf (Hs & Hcap & Hbb & old15 & old & oldpad & tl & Hb & H15 & Ho & Hop & Hp) Hlo Hsz Hu Hc.
  pose proof (zlen_nonneg body). pose proof (zlen_nonneg oldpad). pose proof (sec_bytes_nonneg r1 flags).
  assert (wire_pad r1 flags (st_pointer s - 15) = wire_pad r1 flags (zlen body)) as Hw.
  { rewrite <- (sec_bytes_pad r1 flags (zlen body)). f_equal. lia. }
  assert (st_pointer s - 15 + wire_pad r1 flags (st_pointer s - 15) = unit_size r1 flags body) as Hn by (unfold unit_size; rewrite Hw; lia).
  destruct (run_header r1 flags s old15 (old ++ body ++ oldpad ++ tl) userId channelId) as (s1 & E & Hs1 & Hp1 & Hb1);
    [done|done|done|lia|lia|done|done|]. rewrite Hn in Hb1.
  set (hdr := unit_header _ _ _ _ _) in Hb1. assert (zlen hdr = 15) as Hh by done.
  unfold rdp_send. erewrite bind_Ret by by apply run_GetPosition.
  specialize (E _ (λ ok, match ok with None => mret (None, r1) | Some _ => send_protected r1 (st_pointer s) flags end)).
  erewrite bind_Ret in E by by apply run_GetPosition. rewrite E. clear E. unfold unit_size in Hsz.
  destruct (run_send_protected r1 r2 s1 hdr old body oldpad tl flags) as (o & r' & s' & E2 & Hres);
    [done|done|done|done|by rewrite Hh|done|done|done|lia|].
  exists o, r', s'. replace (st_pointer s) with (zlen hdr + zlen old + zlen body) by lia. split; [exact E2|].
  destruct o; [|done]. destruct Hres as (Hs' & wire & _ & Hwr & Hz). split; [done|]. exists wire.
  assert (zlen wire = unit_size r1 flags body) as Hwz by (unfold unit_size; lia). split; [done|].
  rewrite Hwr, Hwz. unfold hdr, encoded_length. by replace (unit_size r1 flags body <? 32768) with false by lia.
Qed.

(** * Full streams *)

(** The padding does not fit behind the body. *)
Lemma fips_send_overruns r s old15 old body tl flags userId channelId :
  EncryptionMethods r = ENCRYPTION_METHOD_FIPS → encrypted flags = true → flags_ok flags → wf s →
  st_buffer s = old15 ++ old ++ body ++ tl → zlen old15 = 15 → zlen old = 16 → st_pointer s = 31 + zlen body →
  zlen tl < fips_pad (zlen body) → zlen body <= 65000 →
  MCS_BASE_CHANNEL_ID <= userId <= UINT16_MAX → 0 <= channelId <= UINT16_MAX →
  rdp_send r userId channelId flags s = Abort.
Proof.
  intros Hm He Hf Hs Hb H15 Ho Hp Htl Hz Hu Hc. pose proof (zlen_nonneg body). pose proof (zlen_nonneg tl).
  pose proof (fips_pad_range (zlen body)) as [Hpr _]. pose proof (fips_pad_range (st_pointer s - 15)) as [Hpr' _].
  assert (0 <= wire_pad r flags (st_pointer s - 15) < 8) as Hwp by (unfold wire_pad; destruct (_ && _); lia).
  destruct (run_header r flags s old15 (old ++ body ++ tl) userId channelId) as (s1 & E & Hs1 & Hp1 & Hb1);
    [done|done|done|lia|unfold UINT16_MAX; lia|done|done|].
  set (hdr := unit_header _ _ _ _ _) in Hb1. assert (zlen hdr = 15) as Hh by done.
  unfold rdp_send. erewrite bind_Ret by by apply run_GetPosition.
  specialize (E _ (λ ok, match ok with None => mret (None, r) | Some _ => send_protected r (st_pointer s) flags end)).
  erewrite bind_Ret in E by by apply run_GetPosition. rewrite E. clear E.
  unfold send_protected. apply bind_Abort. unfold rdp_security_stream_out.
  replace (st_pointer s >? UINT16_MAX) with false by (unfold UINT16_MAX; lia).
  destruct (Z.eqb_spec flags 0) as [->|]; [done|]. rewrite assert_bind by (unfold flags_ok, UINT16_MAX in *; lia).
  destruct (split_at 4 old ltac:(lia)) as (o4 & o12 & -> & Hl4 & Hl12). rewrite Ho in Hl12.
  destruct (puts_at (rdp_write_security_header flags) (sec_header flags) (Some tt) s1 hdr o4 (o12 ++ body ++ tl))
    as (s2 & E2 & Hs2 & Hb2 & Hp2); [by apply puts_sec_header|done|by rewrite Hb1, <- !app_assoc|lia|done|].
  erewrite bind_Ret by exact E2. cbv iota. change (zlen (sec_header flags)) with 4 in Hp2.
  unfold encrypted in He. apply negb_true_iff in He. rewrite He, Hm, Z.eqb_refl.
  unfold security_out_fips. erewrite bind_Ret by by apply run_GetPosition. rewrite Hp2, Hh, Hp.
  destruct (Z.gtb_spec (15 + 4 + 12) (31 + zlen body)); [lia|].
  replace (31 + zlen body - (15 + 4 + 12)) with (zlen body) by lia.
  pose proof (fips_pad_code (zlen body) ltac:(lia)) as Hpc. cbv zeta in Hpc |- *. rewrite Hpc.
  destruct (split_at 2 o12 ltac:(lia)) as (o2 & o10 & -> & Hl2 & Hl10). rewrite Hl12 in Hl10.
  destruct (split_at 1 o10 ltac:(lia)) as (o1 & o9 & -> & Hl1 & Hl9). rewrite Hl10 in Hl9.
  destruct (puts_at (Stream_Write_UINT16 0x10) [16; 0] tt s2 (hdr ++ sec_header flags) o2 (o1 ++ o9 ++ body ++ tl))
    as (s3 & E3 & Hs3 & Hb3 & Hp3); [by intros s0 ??; apply run_Write_UINT16|done|by rewrite Hb2, <- !app_assoc|rewrite zlen_app; done|done|].
  erewrite bind_Ret by exact E3.
  destruct (puts_at (Stream_Write_UINT8 1) [1] tt s3 ((hdr ++ sec_header flags) ++ [16; 0]) o1 (o9 ++ body ++ tl))
    as (s4 & E4 & Hs4 & Hb4 & Hp4);
    [intros s0 ??; apply run_Write_UINT8; [done|done|unfold is_byte; lia]|done|by rewrite Hb3, <- !app_assoc|by rewrite zlen_app|done|].
  erewrite bind_Ret by exact E4. apply bind_Abort. replace (fips_pad (zlen body) =? 0) with false by lia. cbn [negb].
  pose proof (wf_object s4 Hs4) as Hobj. rewrite Hb4, !zlen_app in Hobj. change (zlen (sec_header flags)) with 4 in Hobj.
  change (zlen [16; 0]) with 2 in Hobj. change (zlen [1]) with 1 in Hobj.
  unfold stream_set. rewrite zlen_zeros by lia.
  replace (_ + fips_pad (zlen body) <=? st_capacity s4) with false by lia. by rewrite andb_false_r.
Qed.
(** The stream of a chunk before it is sent. *)
Definition channel_flags (do_secure_checksum : bool) : Z :=
  if do_secure_checksum then Z.lor SEC_ENCRYPT SEC_SECURE_CHECKSUM else SEC_ENCRYPT.
Definition chunk (totalSize flags : Z) (data : list Z) : list Z :=
  winpr_Data_Write_UINT32 totalSize ++ winpr_Data_Write_UINT32 flags ++ data.
Lemma zlen_chunk totalSize flags data : zlen (chunk totalSize flags data) = 8 + zlen data.
Proof. unfold chunk. rewrite !zlen_app. change (zlen (winpr_Data_Write_UINT32 _)) with 4. lia. Qed.

Lemma channel_stream_init r ck :
  (∀ n, malloc_ok n = true) → EncryptionMethods r = ENCRYPTION_METHOD_FIPS →
  rdp_send_stream_init r true ck 0 = Ret (Some (mkStream (zeros 4096) 31 4096 4096 true true, channel_flags ck)).
Proof.
  intros Hm Hf. unfold rdp_send_stream_init, send_stream_init, Stream_New, rdp_security_stream_init.
  cbn [andb Z.eqb]. rewrite !Hm, Hf. by destruct ck; vm_compute.
Qed.

Lemma run_channel_writes totalSize flags data :
  (∀ n, malloc_ok n = true) → 0 <= totalSize <= UINT32_MAX → 0 <= flags <= UINT32_MAX → bytes data → zlen data <= 32736 →
  ∃ s tl, (∀ B (d : B) (k : SM B), (ok ← Stream_EnsureRemainingCapacity (zlen data + 8);
      match ok with
      | None => mret d
      | Some _ => Stream_Write_UINT32 totalSize;; Stream_Write_UINT32 flags;; Stream_Write data;; k
      end) (mkStream (zeros 4096) 31 4096 4096 true true) = k s) ∧
    wf s ∧ st_buffer s = zeros 15 ++ zeros 16 ++ chunk totalSize flags data ++ tl ∧ st_pointer s = 39 + zlen data ∧
    st_capacity s + 520 <= SIZE_MAX ∧ (zlen tl = 4057 - zlen data ∨ 4057 < zlen data ∧ 8 <= zlen tl).
Proof.
  intros Hm Ht Hf Hb Hl. pose proof (zlen_nonneg data). set (s0 := mkStream _ _ _ _ _ _).
  assert (wf s0) as Hs0 by (split; cbn -[zeros]; lia || apply bytes_zeros || done).
  assert (st_capacity s0 = 4096 ∧ st_pointer s0 = 31) as [Hc0 Hp0] by done.
  destruct (grow_step (zlen data + 8) s0 Hs0) as (s1 & E1 & W1 & F1); [lia|done|rewrite Hc0; unfold SIZE_MAX; lia|].
  assert (st_pointer s1 = 31 ∧ wf s1 ∧ st_capacity s1 <= 40000 ∧ written s1 = zeros 31) as (Hp1 & Hs1 & Hc1 & Hw1).
  { destruct W1. rewrite ws_written, ws_pointer. change (zlen (@nil Z)) with 0. split_and!; [done|done|lia|by vm_compute]. }
  pose proof (grow_capacity (zlen data + 8) s0 s1 Hs0 ltac:(rewrite Hc0; unfold SIZE_MAX; lia) E1) as Hg.
  unfold fits in *. destruct (run_Write_UINT32 totalSize s1) as (s2 & E2 & W2); [done|unfold fits; lia|done|].
  assert (wf s2 ∧ st_pointer s2 = 35 ∧ st_capacity s2 = st_capacity s1) as (Hs2 & Hp2 & Hc2).
  { destruct W2. change (zlen (winpr_Data_Write_UINT32 _)) with 4 in *. split_and!; [done|lia|lia]. }
  destruct (run_Write_UINT32 flags s2) as (s3 & E3 & W3); [done|unfold fits; lia|done|].
  assert (wf s3 ∧ st_pointer s3 = 39 ∧ st_capacity s3 = st_capacity s1) as (Hs3 & Hp3 & Hc3).
  { destruct W3. change (zlen (winpr_Data_Write_UINT32 _)) with 4 in *. split_and!; [done|lia|lia]. }
  destruct (run_Write data s3) as (s4 & E4 & W4); [done|unfold fits; lia|done|].
  pose proof (wstep_trans _ _ _ _ _ _ _ W2 (wstep_trans _ _ _ _ _ _ _ W3 W4)) as W. fold (chunk totalSize flags data) in W.
  pose proof (wf_object s1 Hs1) as Hobj. pose proof (ztake_zdrop 31 (st_buffer s1)) as Hsp.
  unfold written in Hw1. rewrite Hp1 in Hw1. rewrite Hw1 in Hsp.
  assert (zlen (zdrop 31 (st_buffer s1)) = st_capacity s1 - 31) as Hzd by (rewrite zlen_zdrop; lia).
  destruct (split_at (8 + zlen data) (zdrop 31 (st_buffer s1)) ltac:(lia)) as (old & tl & Hot & Hol & Htl). rewrite Hot in Hsp.
  destruct (wstep_buffer s1 s4 _ _ (zeros 31) old tl Hs1 W) as (Hp4 & z & Hb4 & Hz); [done|done|by rewrite zlen_chunk|].
  rewrite Hz, app_nil_r in Hb4 by done. rewrite zlen_chunk in Hp4. change (zlen (zeros 31)) with 31 in Hp4.
  exists s4, tl. split; [|split; [by destruct W|split; [|split; [lia|split]]]].
  - intros B d k. erewrite bind_Ret by exact E1. cbv iota. erewrite bind_Ret by exact E2. erewrite bind_Ret by exact E3.
    by erewrite bind_Ret by exact E4.
  - rewrite Hb4. by change (zeros 31) with (zeros 15 ++ zeros 16).
  - destruct W. unfold SIZE_MAX. lia.
  - destruct (Z.le_gt_cases (zlen data) 4057); [left|right; destruct Hg as [[-> Hg]|Hg]; lia].
    rewrite ensure_fits in E1 by (done || unfold fits; lia). injection E1 as <-. lia.
Qed.
End limits.

(** * Theorems *)

Section theorems.
Context {HM : Malloc} {HD : Digests} {HC : Cipher} {HDL : DigestLaws} {HCL : CipherLaws}.

(** C16. The other side of the bound on a unit: [rdp_write_header] encodes the length of the
    unit as [length | 0x8000] in two bytes, but it refuses only a packet of more than [UINT16_MAX]
    bytes.  A unit of 0x8000 bytes or more, with its security header and its padding, in a stream
    that has room for that padding, is sent ([rdp_send] returns [TRUE] unless memory or the crypto library fails), and
    [rdp_read_header] of the peer reports a length that is short by 0x8000 bytes. *)
Theorem long_unit_misread r1 r2 s body flags userId channelId :
  (encrypted flags = true → sec_sync r1 r2) → flags_ok flags → unit_room r1 flags body s →
  0x8000 <= unit_size r1 flags body → unit_size r1 flags body + 15 <= UINT16_MAX →
  MCS_BASE_CHANNEL_ID <= userId <= UINT16_MAX → 0 <= channelId <= UINT16_MAX →
  ∃ o r1' s', rdp_send r1 userId channelId flags s = Ret ((o, r1'), s') ∧
    on_success (λ _, zlen (written s') = unit_size r1 flags body + 15 ∧
      ∃ s2, rdp_read_header (negb (ServerMode r1)) (stream_of (written s')) =
        Ret (Some (HeaderData (unit_size r1 flags body - 0x8000) channelId), s2)) o.
Proof.
  intros Hsync Hf Hroom Hlo Hhi Hu Hc.
  destruct (run_long_send r1 r2 s body flags userId channelId) as (o & r1' & s' & E & Ho); [done..|].
  exists o, r1', s'. split; [done|]. destruct o; [|done]. destruct Ho as (Hwf & wire & Hz & Hw). cbn [on_success].
  pose proof (written_bytes s' Hwf) as Hb. rewrite Hw in Hb |- *. rewrite zlen_app, zlen_unit_header, <- Hz in *. split; [lia|].
  eexists. rewrite <- (negb_involutive (ServerMode r1)) at 2.
  apply (read_header_within (negb (ServerMode r1)) userId channelId (zlen wire + 15) (zlen wire - 0x8000) wire);
    [unfold UINT16_MAX in *; lia|lia|lia|done|done| |apply remaining_stream_of].
  apply stream_of_readable; [rewrite zlen_app, zlen_unit_header; unfold UINT16_MAX, SIZE_MAX in *; lia|by rewrite negb_involutive].
Qed.

(** C17. The padding of a FIPS packet is written behind the data without a look at the room there.
    For a chunk of a virtual channel, which [freerdp_channel_send_packet] writes into the 4096
    bytes that [rdp_send_stream_init] allocates (or into a larger buffer if it does not fit), that
    leaves the buffer just if the chunk fills the 4096 bytes to the last one: with 4057 bytes of
    data the seven bytes of padding are cleared behind the end; with any other length
    (of a unit below 0x8000 bytes) the function returns.  The keys are established and memory does
    not run out. *)
Theorem fips_padding_overruns r r2 ck userId channelId totalSize flags data :
  (∀ n, malloc_ok n = true) → sec_sync r r2 → EncryptionMethods r = ENCRYPTION_METHOD_FIPS →
  MCS_BASE_CHANNEL_ID <= userId <= UINT16_MAX → 0 <= channelId <= UINT16_MAX →
  0 <= totalSize <= UINT32_MAX → 0 <= flags <= UINT32_MAX → bytes data → zlen data <= 32736 →
  freerdp_channel_send_packet r true ck userId channelId totalSize flags data = Abort ↔ zlen data = 4057.
Proof.
  intros Hm Hsync Hfips Hu Hc Ht Hf Hb Hl. pose proof (zlen_nonneg data).
  destruct (run_channel_writes totalSize flags data) as (s & tl & E & Hs & Hbuf & Hp & Hcap & Htl); [done..|].
  assert (encrypted (channel_flags ck) = true ∧ flags_ok (channel_flags ck) ∧ rdp_get_sec_bytes r (channel_flags ck) = 16) as (He & Hfl & H16).
  { unfold rdp_get_sec_bytes. rewrite Hfips. by destruct ck. }
  assert (wire_pad r (channel_flags ck) (8 + zlen data) = fips_pad (8 + zlen data)) as Hwp.
  { unfold wire_pad, is_fips. by rewrite He, Hfips. }
  pose proof (fips_pad_range (8 + zlen data)) as [Hpr Hpm]. pose proof (zlen_chunk totalSize flags data) as Hzc.
  unfold freerdp_channel_send_packet. replace (totalSize >? UINT32_MAX) with false by lia.
  rewrite (channel_stream_init r ck Hm Hfips), E.
  destruct (Z.le_gt_cases (fips_pad (8 + zlen data)) (zlen tl)) as [Hroom|Hfull].
  - assert (zlen data ≠ 4057) as Hne by (intros Hx; rewrite Hx in *; change (fips_pad (8 + 4057)) with 7 in *; lia).
    destruct (run_rdp_send Hm r r2 s (chunk totalSize flags data) (channel_flags ck) userId channelId) as (o & r' & s' & -> & _);
      [done|done| |unfold unit_size; rewrite Hzc, Hwp, H16; div_mod_lia|done|done|by destruct o].
    destruct (split_at (fips_pad (8 + zlen data)) tl ltac:(lia)) as (pad & tl' & -> & Hpad & _).
    split; [done|]. split; [done|]. split.
    { apply Forall_app_2; [apply write32_le_bytes|]. apply Forall_app_2; [apply write32_le_bytes|done]. }
    exists (zeros 15), (zeros 16), pad, tl'. rewrite Hzc, Hwp, H16. rewrite Hbuf. split_and!; [done|done|done|done|rewrite Hp; change (zlen (zeros 16)) with 16; lia].
  - rewrite (fips_send_overruns r s (zeros 15) (zeros 16) (chunk totalSize flags data) tl) by (done || rewrite ?Hzc; lia).
    split; [intros _|done]. destruct Htl as [Htl|[_ Htl]]; [|lia].
    pose proof (zlen_nonneg tl). clear E. unfold fips_pad in *. div_mod_lia.
Qed.
End theorems.

(** * Witnesses *)

#[local] Existing Instances model_malloc model_digests model_cipher model_digest_laws model_cipher_laws.

Lemma long_unit_misread_witness :
  let r := established_rdp ENCRYPTION_METHOD_128BIT true in
  unit_size r 0 (zeros 40000) = 40000 ∧
  ∃ o r1' s', rdp_send r 1002 1004 0 (unit_stream r 0 (zeros 40000)) = Ret ((o, r1'), s') ∧
    on_success (λ _, zlen (written s') = unit_size r 0 (zeros 40000) + 15 ∧
      ∃ s2, rdp_read_header (negb (ServerMode r)) (stream_of (written s')) =
        Ret (Some (HeaderData (unit_size r 0 (zeros 40000) - 0x8000) 1004), s2)) o.
Proof.
  set (r := established_rdp ENCRYPTION_METHOD_128BIT true). cbv zeta.
  assert (unit_size r 0 (zeros 40000) = 40000) as Hz by by vm_compute. split; [exact Hz|].
  apply (long_unit_misread r (established_rdp ENCRYPTION_METHOD_128BIT false) (unit_stream r 0 (zeros 40000)) (zeros 40000) 0 1002 1004).
  - by intros [=].
  - by vm_compute.
  - apply unit_stream_room; [apply bytes_zeros|by rewrite zlen_zeros].
  - rewrite Hz. lia.
  - rewrite Hz. unfold UINT16_MAX. lia.
  - unfold MCS_BASE_CHANNEL_ID, UINT16_MAX. lia.
  - unfold UINT16_MAX. lia.
Defined.
Lemma fips_padding_overruns_witness :
  let send n := freerdp_channel_send_packet (established_rdp ENCRYPTION_METHOD_FIPS false) true false 1007 1004 n 3 (zeros n) in
  (send 4057 = Abort ↔ zlen (zeros 4057) = 4057) ∧ (send 4058 = Abort ↔ zlen (zeros 4058) = 4057).
Proof.
  assert (sec_sync (established_rdp ENCRYPTION_METHOD_FIPS false) (established_rdp ENCRYPTION_METHOD_FIPS true)) as Hs.
  { refine (proj1 (established_duplex ENCRYPTION_METHOD_FIPS _)). by right. }
  cbv zeta. split; apply (fips_padding_overruns (established_rdp ENCRYPTION_METHOD_FIPS false) (established_rdp ENCRYPTION_METHOD_FIPS true)).
  all: try exact Hs; try apply bytes_zeros; unfold MCS_BASE_CHANNEL_ID, UINT16_MAX, UINT32_MAX; rewrite ?zlen_zeros; try lia; by vm_compute.
Defined.
