(* ===== verification/Bulk.v ===== *)
(** Bulk compression of the data of a connection (codec/bulk.c): the choice of a codec by the
    compression level of the settings and by the flags of a packet, and the statistics of
    core/metrics.c.

    MPPC is the codec of [Mppc]; the codecs of RDP 6.0 and 6.1 (ncrush.c, xcrush.c) are
    arguments, a [codec] each. *)

From S2P Require Import Prelude Arrays BitStream Mppc MppcCorrect.
From stdpp Require Import prelude list numbers.
From Stdlib Require Import ZArith Lia.

#[local] Open Scope Z_scope.

Definition PACKET_COMPR_TYPE_8K : Z := 0.
Definition PACKET_COMPR_TYPE_64K : Z := 1.
Definition PACKET_COMPR_TYPE_RDP6 : Z := 2.
Definition PACKET_COMPR_TYPE_RDP61 : Z := 3.
Definition PACKET_COMPR_TYPE_RDP8 : Z := 4.
Definition BULK_COMPRESSION_TYPE_MASK : Z := 0x0F.
Definition BULK_COMPRESSION_FLAGS_MASK : Z := 0xE0.

(** * The other codecs *)

(** The status, the context and the data, or [None] when the out-parameters are not set;
    compression takes and gives the flags too. *)
Class Codec := {
  codec_ctx : Type;
  codec_new : bool → option codec_ctx;
  codec_reset : bool → codec_ctx → codec_ctx;
  codec_decompress : codec_ctx → list Z → Z → outcome (Z * codec_ctx * option (list Z));
  codec_compress : codec_ctx → list Z → Z → outcome (Z * codec_ctx * Z * list Z);
}.
Arguments codec_ctx : clear implicits.
(** On any bytes the decoder returns bytes. *)
Class CodecLaws (C : Codec) : Prop := {
  codec_total ctx data flags : bytes data →
    ∃ status ctx' o, codec_decompress ctx data flags = Ret (status, ctx', o) ∧ ∀ d, o = Some d → bytes d ∧ zlen d <= UINT32_MAX;
}.

(** * Statistics *)

(** Two 64-bit counters; the ratios, which nothing reads, are left out. *)
Record rdpMetrics : Type := mkMetrics { TotalCompressedBytes : Z; TotalUncompressedBytes : Z }.
Definition metrics_new : rdpMetrics := mkMetrics 0 0.
Definition metrics_write_bytes (UncompressedBytes CompressedBytes : Z) (m : rdpMetrics) : rdpMetrics :=
  mkMetrics (u64 (TotalCompressedBytes m + CompressedBytes)) (u64 (TotalUncompressedBytes m + UncompressedBytes)).

Section bulk.
Context {ncrush xcrush : Codec}.

(** [bulk_level] is the level of the settings, [metrics] those of the context.
    [OutputBuffer] is what the buffer holds when a packet is compressed: the codec
    writes every byte it returns. *)
Record rdpBulk : Type := mkBulk {
  CompressionLevel : Z; CompressionMaxSize : Z;
  mppcSend : MPPC_CONTEXT; mppcRecv : MPPC_CONTEXT;
  ncrushRecv : codec_ctx ncrush; ncrushSend : codec_ctx ncrush;
  xcrushRecv : codec_ctx xcrush; xcrushSend : codec_ctx xcrush;
  OutputBuffer : list Z;
  bulk_metrics : rdpMetrics;
}.
Definition set_level (level size : Z) (b : rdpBulk) : rdpBulk :=
  mkBulk level size (mppcSend b) (mppcRecv b) (ncrushRecv b) (ncrushSend b) (xcrushRecv b) (xcrushSend b)
    (OutputBuffer b) (bulk_metrics b).
Definition set_mppcSend (c : MPPC_CONTEXT) (b : rdpBulk) : rdpBulk :=
  mkBulk (CompressionLevel b) (CompressionMaxSize b) c (mppcRecv b) (ncrushRecv b) (ncrushSend b) (xcrushRecv b)
    (xcrushSend b) (OutputBuffer b) (bulk_metrics b).
Definition set_mppcRecv (c : MPPC_CONTEXT) (b : rdpBulk) : rdpBulk :=
  mkBulk (CompressionLevel b) (CompressionMaxSize b) (mppcSend b) c (ncrushRecv b) (ncrushSend b) (xcrushRecv b)
    (xcrushSend b) (OutputBuffer b) (bulk_metrics b).
Definition set_ncrush (recv send : codec_ctx ncrush) (b : rdpBulk) : rdpBulk :=
  mkBulk (CompressionLevel b) (CompressionMaxSize b) (mppcSend b) (mppcRecv b) recv send (xcrushRecv b) (xcrushSend b)
    (OutputBuffer b) (bulk_metrics b).
Definition set_xcrush (recv send : codec_ctx xcrush) (b : rdpBulk) : rdpBulk :=
  mkBulk (CompressionLevel b) (CompressionMaxSize b) (mppcSend b) (mppcRecv b) (ncrushRecv b) (ncrushSend b) recv send
    (OutputBuffer b) (bulk_metrics b).
Definition set_metrics (m : rdpMetrics) (b : rdpBulk) : rdpBulk :=
  mkBulk (CompressionLevel b) (CompressionMaxSize b) (mppcSend b) (mppcRecv b) (ncrushRecv b) (ncrushSend b)
    (xcrushRecv b) (xcrushSend b) (OutputBuffer b) m.

(** * Levels *)

(** [setting] is [FreeRDP_CompressionLevel]. *)
Definition bulk_compression_level (setting : Z) (b : rdpBulk) : Z * rdpBulk :=
  let level := if setting >=? PACKET_COMPR_TYPE_RDP61 then PACKET_COMPR_TYPE_RDP61 else setting in
  (level, set_level level (CompressionMaxSize b) b).
Definition bulk_update_compression_max_size (setting : Z) (b : rdpBulk) : rdpBulk :=
  let '(level, b) := bulk_compression_level setting b in
  set_level level (if level <? PACKET_COMPR_TYPE_64K then 8192 else UINT16_MAX) b.
Definition bulk_compression_max_size (setting : Z) (b : rdpBulk) : Z * rdpBulk :=
  let b := bulk_update_compression_max_size setting b in (CompressionMaxSize b, b).

(** * Packets *)

(** The codec's status, the bulk and the data; [None] stands for the null pointer and the
    size 0 the callers start with. *)
Definition decompress_by_type (pSrcData : list Z) (flags : Z) (b : rdpBulk) : outcome (Z * rdpBulk * list Z) :=
  let type := Z.land flags BULK_COMPRESSION_TYPE_MASK in
  if (type =? PACKET_COMPR_TYPE_8K) || (type =? PACKET_COMPR_TYPE_64K) then
    '(status, c, o) ← mppc_decompress (mppc_set_compression_level type (mppcRecv b)) pSrcData flags;
    mret (status, set_mppcRecv c b, default [] o)
  else if type =? PACKET_COMPR_TYPE_RDP6 then
    '(status, c, o) ← codec_decompress (ncrushRecv b) pSrcData flags;
    mret (status, set_ncrush c (ncrushSend b) b, default [] o)
  else if type =? PACKET_COMPR_TYPE_RDP61 then
    '(status, c, o) ← codec_decompress (xcrushRecv b) pSrcData flags;
    mret (status, set_xcrush c (xcrushSend b) b, default [] o)
  else mret (-1, b, []).
Definition bulk_decompress (setting : Z) (pSrcData : list Z) (flags : Z) (b : rdpBulk) : outcome (Z * rdpBulk * list Z) :=
  let b := bulk_update_compression_max_size setting b in
  '(status, b, data) ←
    (if negb (Z.land flags BULK_COMPRESSION_FLAGS_MASK =? 0) then decompress_by_type pSrcData flags b
     else mret (0, b, pSrcData));
  mret (status, if status >=? 0 then set_metrics (metrics_write_bytes (zlen data) (zlen pSrcData) (bulk_metrics b)) b else b, data).

(** The status, the bulk, the data and the flags.  [before] is the byte in front of the
    history in memory ([Mppc]). *)
Definition compress_by_level (before level : Z) (pSrcData : list Z) (flags : Z) (b : rdpBulk) :
    outcome (Z * rdpBulk * list Z * Z) :=
  if (level =? PACKET_COMPR_TYPE_8K) || (level =? PACKET_COMPR_TYPE_64K) then
    '(c, r) ← mppc_compress before (mppc_set_compression_level level (mppcSend b)) pSrcData (OutputBuffer b);
    mret (1, set_mppcSend c b, cr_data r, Z.lor flags (cr_flags r))
  else if level =? PACKET_COMPR_TYPE_RDP6 then
    '(status, c, flags, data) ← codec_compress (ncrushSend b) pSrcData flags;
    mret (status, set_ncrush (ncrushRecv b) c b, data, flags)
  else if level =? PACKET_COMPR_TYPE_RDP61 then
    '(status, c, flags, data) ← codec_compress (xcrushSend b) pSrcData flags;
    mret (status, set_xcrush (xcrushRecv b) c b, data, flags)
  else mret (-1, b, [], flags).
Definition bulk_compress (before setting : Z) (pSrcData : list Z) (flags : Z) (b : rdpBulk) :
    outcome (Z * rdpBulk * list Z * Z) :=
  let SrcSize := zlen pSrcData in
  if (SrcSize <=? 50) || (SrcSize >=? 16384) then mret (0, b, pSrcData, flags)
  else
    let '(level, b) := bulk_compression_level setting b in
    let b := bulk_update_compression_max_size setting b in
    '(status, b, data, flags) ← compress_by_level before level pSrcData flags b;
    mret (status, if status >=? 0 then set_metrics (metrics_write_bytes SrcSize (zlen data) (bulk_metrics b)) b else b, data, flags).

Definition bulk_reset (b : rdpBulk) : rdpBulk :=
  set_xcrush (codec_reset false (xcrushRecv b)) (codec_reset false (xcrushSend b))
    (set_ncrush (codec_reset false (ncrushRecv b)) (codec_reset false (ncrushSend b))
       (set_mppcRecv (mppc_context_reset false (mppcRecv b)) (set_mppcSend (mppc_context_reset false (mppcSend b)) b))).
(** The structure and the contexts of MPPC are allocated; [metrics] are those of the context. *)
Definition bulk_new (setting : Z) (metrics : rdpMetrics) : option rdpBulk :=
  nr ← @codec_new ncrush false; ns ← @codec_new ncrush true;
  xr ← @codec_new xcrush false; xs ← @codec_new xcrush true;
  Some (mkBulk setting 0 (mppc_context_new 1 true) (mppc_context_new 1 false) nr ns xr xs (zeros 65536) metrics).
End bulk.
Arguments rdpBulk : clear implicits.

(** * Between two ends *)

Lemma mppc_packet before enc dec src buf :
  in_sync enc dec → packet_ok enc src buf →
  ∃ enc' r dec' flush front, mppc_compress before enc src buf = Ret (enc', r) ∧
    cr_flags r = (if (flush : bool) then Z.lor PACKET_FLUSHED (mppc_CompressionLevel enc)
                  else packet_flags (mppc_CompressionLevel enc) front.1 front.2) ∧
    bytes (cr_data r) ∧ zlen (cr_data r) <= zlen src ∧
    mppc_decompress dec (cr_data r) (cr_flags r) = Ret (1, dec', Some src) ∧
    in_sync enc' dec' ∧ mppc_HistoryBufferSize enc' = mppc_HistoryBufferSize enc ∧
    mppc_CompressionLevel enc' = mppc_CompressionLevel enc.
Proof.
  intros Hs Hp. pose proof Hp as (Hsrc & _).
  destruct (compress_packet before enc dec src buf Hs Hp) as [->|(st & ts & ws & -> & He & Hend)].
  - destruct (flushed_packet enc dec src Hs) as (Hd & dec' & Hdec & Hs').
    eexists _, _, dec', true, (true, true). split; [done|]. split; [done|]. split; [done|]. by rewrite Hd.
  - destruct (decompress_packet enc dec src buf st ts ws Hs Hp He Hend) as (Hz & dec' & Hdec & Hs').
    eexists _, _, dec', false, (_, _). split; [done|]. split; [done|]. split.
    { apply Forall_ztake. destruct (flush_frame (c_bs st)) as (_ & _ & _ & _ & _ & _ & HB). by apply HB, (en_writing _ _ _ _ _ _ _ _ _ He). }
    split; [|done]. etransitivity; [done|]. unfold dst_size. destruct (Z.gtb_spec (zlen buf) (zlen src)); lia.
Qed.
Lemma packet_type level flush front flushed :
  0 <= level <= 1 →
  let flags := if (flush : bool) then Z.lor PACKET_FLUSHED level else packet_flags level front flushed in
  0 < flags <= UINT8_MAX ∧ Z.land flags BULK_COMPRESSION_TYPE_MASK = level ∧ (Z.land flags BULK_COMPRESSION_FLAGS_MASK =? 0) = false.
Proof.
  intros Hl. assert (level = 0 ∨ level = 1) as [->| ->] by lia; destruct flush, front, flushed; by vm_compute.
Qed.

Section sync.
Context {ncrush xcrush : Codec}.
Implicit Types (b : rdpBulk ncrush xcrush).

(** A sender and its receiver, with MPPC at [level]. *)
Record bulk_sync (level : Z) (b1 b2 : rdpBulk ncrush xcrush) : Prop := {
  bk_level : 0 <= level <= 1;
  bk_sync : in_sync (mppc_set_compression_level level (mppcSend b1)) (mppc_set_compression_level level (mppcRecv b2));
  bk_buffer : zlen (OutputBuffer b1) = 65536 ∧ bytes (OutputBuffer b1);
}.
Lemma bulk_sync_set_metrics level m1 m2 b1 b2 :
  bulk_sync level b1 b2 → bulk_sync level (set_metrics m1 b1) (set_metrics m2 b2).
Proof. by intros []. Qed.
Lemma bulk_sync_update level s1 s2 b1 b2 :
  bulk_sync level b1 b2 → bulk_sync level (bulk_update_compression_max_size s1 b1) (bulk_update_compression_max_size s2 b2).
Proof. by intros []. Qed.

Lemma set_level_same level enc :
  0 <= level <= 1 → level_size (mppc_CompressionLevel enc) (mppc_HistoryBufferSize enc) → mppc_CompressionLevel enc = level →
  mppc_set_compression_level level enc = enc.
Proof.
  intros Hl Hs <-. unfold mppc_set_compression_level. destruct enc as [bs c hp ho sz H M lv]. cbn in *.
  destruct Hs as [[-> ->]|[-> ->]]; done.
Qed.
Lemma set_level_level level enc : 0 <= level <= 1 → mppc_CompressionLevel (mppc_set_compression_level level enc) = level.
Proof. intros. cbn. destruct (Z.ltb_spec level 1); lia. Qed.
Lemma set_level_size level enc :
  0 <= level <= 1 → mppc_HistoryBufferSize (mppc_set_compression_level level enc) = if level =? 0 then 8192 else 65536.
Proof. intros. cbn. destruct (Z.ltb_spec level 1), (Z.eqb_spec level 0); lia. Qed.

(** What [bulk_decompress] makes of a packet; the setting of the receiver does not matter. *)
Lemma bulk_packet before level s2 b1 b2 src :
  bulk_sync level b1 b2 → bytes src → zlen src <= (if level =? 0 then 8190 else 65534) →
  ∃ status b1' data flags status2 b2', bulk_compress before level src 0 b1 = Ret (status, b1', data, flags) ∧
    0 <= status ∧ 0 <= flags <= UINT8_MAX ∧ bytes data ∧ zlen data <= zlen src ∧ (flags = 0 → data = src) ∧
    bulk_decompress s2 data flags b2 = Ret (status2, b2', src) ∧ 0 <= status2 ∧ bulk_sync level b1' b2'.
Proof.
  intros Hb Hsrc Hz. pose proof (zlen_nonneg src) as Hz0. unfold bulk_compress, bulk_decompress. cbv zeta. destruct (_ || _) eqn:Esz.
  { eexists _, _, _, _, _, _. split; [done|]. split; [done|]. split; [done|]. split; [done|]. split; [lia|]. split; [done|].
    split; [done|]. split; [done|]. apply (bulk_sync_update level level s2) in Hb. by destruct Hb. }
  pose proof Hb as [Hl Hsync [Ho Hob]]. unfold bulk_compression_level. replace (level >=? PACKET_COMPR_TYPE_RDP61) with false
    by (unfold PACKET_COMPR_TYPE_RDP61; lia). unfold compress_by_level.
  replace ((level =? PACKET_COMPR_TYPE_8K) || (level =? PACKET_COMPR_TYPE_64K)) with true by (unfold PACKET_COMPR_TYPE_8K, PACKET_COMPR_TYPE_64K; lia).
  destruct (mppc_packet before _ _ src (OutputBuffer b1) Hsync)
    as (enc' & r & dec' & fl & [fr fd] & Ec & Hf & Hdb & Hdz & Ed & Hs' & Hsz & Hlv).
  { split; [done|]. split; [done|]. split; [|lia]. rewrite set_level_size by done. destruct (level =? 0); lia. }
  rewrite set_level_level in Hf by done. destruct (packet_type level fl fr fd Hl) as (Hfr & Hty & Hfm). cbn [fst snd] in Hf.
  cbv zeta in Hfr, Hty, Hfm. rewrite <- Hf in Hfr, Hty, Hfm.
  cbn [mppcSend OutputBuffer set_level bulk_update_compression_max_size bulk_compression_level] in *.
  rewrite Ec. cbn [mbind outcome_bind mret outcome_ret]. rewrite Z.lor_0_l.
  eexists _, _, _, _, _, _. split; [done|]. split; [done|]. split; [lia|]. split; [done|]. split; [done|]. split; [lia|].
  rewrite Hfm. cbn [negb]. unfold decompress_by_type. rewrite Hty.
  replace ((level =? PACKET_COMPR_TYPE_8K) || (level =? PACKET_COMPR_TYPE_64K)) with true by (unfold PACKET_COMPR_TYPE_8K, PACKET_COMPR_TYPE_64K; lia).
  cbn [mppcRecv set_level bulk_update_compression_max_size bulk_compression_level]. rewrite Ed.
  cbn [mbind outcome_bind mret outcome_ret default]. split; [done|]. split; [done|].
  apply bulk_sync_set_metrics. split; [done| |done]. cbn [mppcSend mppcRecv set_mppcSend set_mppcRecv].
  rewrite set_level_level in Hlv by done. pose proof Hs' as [Hls Hlv' Hsz' _ _ _ _]. rewrite !(set_level_same level); [done|done| |by rewrite Hlv'|done..].
  by rewrite Hlv', Hsz'.
Qed.

(** * Any packet *)

(** A receiver whose history has bytes. *)
Definition bulk_recv_ok (b : rdpBulk ncrush xcrush) : Prop :=
  0 <= mppc_HistoryPtr (mppcRecv b) ∧ history_ok (mppc_HistoryBuffer (mppcRecv b)).

Lemma decompress_by_type_total {HN : CodecLaws ncrush} {HX : CodecLaws xcrush} src flags b :
  bulk_recv_ok b → bytes src → zlen src <= UINT32_MAX →
  ∃ status b' data, decompress_by_type src flags b = Ret (status, b', data) ∧ bulk_recv_ok b' ∧ bytes data ∧ zlen data <= UINT32_MAX.
Proof.
  intros [Hp Hh] Hb Hz. unfold decompress_by_type. cbv zeta. set (type := Z.land _ _).
  assert (bytes (@nil Z) ∧ zlen (@nil Z) <= UINT32_MAX) as Hnil by (split; [apply Forall_nil_2|by vm_compute]).
  assert (∀ o : option (list Z), (∀ d, o = Some d → bytes d ∧ zlen d <= UINT32_MAX) → bytes (default [] o) ∧ zlen (default [] o) <= UINT32_MAX) as Hd.
  { intros [d|] H; [by apply H|]. by apply (Hnil). }
  destruct (_ || _).
  { destruct (mppc_decompress_total (mppc_set_compression_level type (mppcRecv b)) src flags)
      as (rc & c & o & -> & Hp' & _ & Hh' & Ho); [unfold HISTORY_ARRAY; cbn; destruct (type <? 1); lia|done|].
    cbn [mbind outcome_bind mret outcome_ret]. eexists _, _, _. split; [done|]. split; [split; [cbn; lia|by apply Hh']|]. apply Hd.
    intros d ->. destruct Ho as [[_ (d' & [= <-] & Hl & Hb')]|[_ ?]]; [|done]. split; [by apply Hb'|].
    cbn in Hl. destruct (type <? 1); destruct Hl as [->|?]; unfold UINT32_MAX in *; lia. }
  destruct (_ =? _).
  { destruct (codec_total (ncrushRecv b) src flags Hb) as (st & c & o & -> & Ho). eexists _, _, _. split; [done|].
    split; [done|]. by apply Hd. }
  destruct (_ =? _).
  { destruct (codec_total (xcrushRecv b) src flags Hb) as (st & c & o & -> & Ho). eexists _, _, _. split; [done|].
    split; [done|]. by apply Hd. }
  eexists _, _, _. split; [done|]. by split.
Qed.
Lemma bulk_decompress_total {HN : CodecLaws ncrush} {HX : CodecLaws xcrush} setting src flags b :
  bulk_recv_ok b → bytes src → zlen src <= UINT32_MAX →
  ∃ status b' data, bulk_decompress setting src flags b = Ret (status, b', data) ∧ bulk_recv_ok b' ∧ bytes data ∧ zlen data <= UINT32_MAX.
Proof.
  intros Hb Hs Hz. unfold bulk_decompress. cbv zeta.
  assert (bulk_recv_ok (bulk_update_compression_max_size setting b)) as Hu by done.
  destruct (negb _); [|by eexists _, _, _].
  destruct (decompress_by_type_total src flags _ Hu Hs Hz) as (st & b' & d & -> & Hb' & Hd). eexists _, _, _. split; [done|].
  by destruct (st >=? 0).
Qed.
End sync.
