(* ===== verification/FastPath.v ===== *)
(** The fast path (core/fastpath.c): updates from the server, cut into fragments, compressed
    and encrypted, and how the client puts them together again and dispatches them.

    The functions the client hands an update to are a record of arguments ([updates]); a
    [FASTPATH_UPDATE_HEADER] is what stands in front of each fragment. *)

From S2P Require Import Prelude Stream Per Framing Rc4 Security Bulk Mcs RdpPdu.
From stdpp Require Import prelude list numbers.
From Stdlib Require Import ZArith Lia.

#[local] Open Scope Z_scope.

Definition FASTPATH_MAX_PACKET_SIZE : Z := 0x3FFF.
Definition FASTPATH_OUTPUT_SECURE_CHECKSUM : Z := 0x1.
Definition FASTPATH_OUTPUT_ENCRYPTED : Z := 0x2.
Definition FASTPATH_OUTPUT_COMPRESSION_USED : Z := 0x2.
Definition FASTPATH_FRAGMENT_SINGLE : Z := 0x0.
Definition FASTPATH_FRAGMENT_LAST : Z := 0x1.
Definition FASTPATH_FRAGMENT_FIRST : Z := 0x2.
Definition FASTPATH_FRAGMENT_NEXT : Z := 0x3.
Definition FASTPATH_UPDATETYPE_ORDERS : Z := 0x0.
Definition FASTPATH_UPDATETYPE_BITMAP : Z := 0x1.
Definition FASTPATH_UPDATETYPE_PALETTE : Z := 0x2.
Definition FASTPATH_UPDATETYPE_SYNCHRONIZE : Z := 0x3.
Definition FASTPATH_UPDATETYPE_SURFCMDS : Z := 0x4.
Definition FASTPATH_UPDATETYPE_PTR_NULL : Z := 0x5.
Definition FASTPATH_UPDATETYPE_PTR_DEFAULT : Z := 0x6.
Definition FASTPATH_UPDATETYPE_PTR_POSITION : Z := 0x8.
Definition FASTPATH_UPDATETYPE_COLOR : Z := 0x9.
Definition FASTPATH_UPDATETYPE_CACHED : Z := 0xA.
Definition FASTPATH_UPDATETYPE_POINTER : Z := 0xB.
Definition FASTPATH_UPDATETYPE_LARGE_POINTER : Z := 0xC.
Definition UPDATE_TYPE_BITMAP : Z := 1.
Definition UPDATE_TYPE_PALETTE : Z := 2.

(** * Headers *)

Record FASTPATH_UPDATE_HEADER : Type := mkUpdateHeader {
  uh_compressionFlags : Z; uh_size : Z; uh_updateCode : Z; uh_fragmentation : Z; uh_compression : Z;
}.
Record FASTPATH_UPDATE_PDU_HEADER : Type := mkPduHeader {
  ph_fipsInformation : list Z; ph_dataSignature : list Z; ph_action : Z; ph_secFlags : Z; ph_length : Z;
}.

(** The update code, the fragmentation and the compression. *)
Definition fastpath_read_update_header : SM (option (Z * Z * Z)) :=
  TRY Stream_CheckAndLogRequiredLength 1;
  updateHeader ← Stream_Read_UINT8;
  mret (Some (Z.land updateHeader 0x0F, Z.land (Z.shiftr updateHeader 4) 0x03, Z.land (Z.shiftr updateHeader 6) 0x03)).
Definition fastpath_write_update_header (h : FASTPATH_UPDATE_HEADER) : SM (option unit) :=
  let updateHeader :=
    Z.lor (Z.lor (Z.land (uh_updateCode h) 0x0F) (Z.shiftl (Z.land (uh_fragmentation h) 0x03) 4))
      (Z.shiftl (Z.land (uh_compression h) 0x03) 6) in
  TRY Stream_CheckAndLogRequiredCapacity 1;
  Stream_Write_UINT8 updateHeader;;
  TRY (if negb (uh_compression h =? 0) then
         TRY Stream_CheckAndLogRequiredCapacity 1;
         Stream_Write_UINT8 (uh_compressionFlags h);;
         TRUE
       else TRUE);
  TRY Stream_CheckAndLogRequiredCapacity 2;
  Stream_Write_UINT16 (uh_size h);;
  TRUE.
Definition fastpath_get_update_header_size (h : FASTPATH_UPDATE_HEADER) : Z :=
  if negb (uh_compression h =? 0) then 4 else 3.

Section headers.
Context {HC : Cipher}.
Definition fastpath_write_update_pdu_header (h : FASTPATH_UPDATE_PDU_HEADER) (rdp : rdpRdp) : SM (option unit) :=
  TRY Stream_CheckAndLogRequiredCapacity 3;
  Stream_Write_UINT8 (Z.lor (Z.land (ph_action h) 0x03) (Z.shiftl (Z.land (ph_secFlags h) 0x03) 6));;
  Stream_Write_UINT8 (Z.lor 0x80 (Z.shiftr (ph_length h) 8));;
  Stream_Write_UINT8 (Z.land (ph_length h) 0xFF);;
  if negb (ph_secFlags h =? 0) then
    TRY (if EncryptionMethods rdp =? ENCRYPTION_METHOD_FIPS then
           TRY Stream_CheckAndLogRequiredCapacity 4;
           Stream_Write (ph_fipsInformation h);;
           TRUE
         else TRUE);
    TRY Stream_CheckAndLogRequiredCapacity 8;
    Stream_Write (ph_dataSignature h);;
    TRUE
  else TRUE.
Definition fastpath_get_update_pdu_header_size (h : FASTPATH_UPDATE_PDU_HEADER) (rdp : rdpRdp) : Z :=
  if negb (ph_secFlags h =? 0) then
    if EncryptionMethods rdp =? ENCRYPTION_METHOD_FIPS then 15 else 11
  else 3.
End headers.

(** * The state *)

(** The settings, and the fields of [rdp] that say whether to encrypt. *)
Record fp_settings : Type := mkFpSettings {
  fps_CompressionLevel : Z; fps_CompressionEnabled : bool; fps_FastPathOutput : bool;
  fps_MultifragMaxRequestSize : Z; fps_do_crypt : bool; fps_do_secure_checksum : bool;
}.

Section fastpath.
Context {HM : Malloc} {HD : Digests} {HC : Cipher} {ncrush xcrush : Codec}.

(** [rdp] and its [bulk] are reached through the structure. *)
Record rdpFastPath : Type := mkFastPath {
  fp_rdp : rdpRdp; fp_bulk : rdpBulk ncrush xcrush;
  fp_fs : wStream; fp_encryptionFlags : Z; fp_numberEvents : Z; fp_updateData : wStream; fp_fragmentation : Z;
}.
Definition fp_set_rdp (r : rdpRdp) (f : rdpFastPath) : rdpFastPath :=
  mkFastPath r (fp_bulk f) (fp_fs f) (fp_encryptionFlags f) (fp_numberEvents f) (fp_updateData f) (fp_fragmentation f).
Definition fp_set_bulk (b : rdpBulk ncrush xcrush) (f : rdpFastPath) : rdpFastPath :=
  mkFastPath (fp_rdp f) b (fp_fs f) (fp_encryptionFlags f) (fp_numberEvents f) (fp_updateData f) (fp_fragmentation f).
Definition fp_set_fs (s : wStream) (f : rdpFastPath) : rdpFastPath :=
  mkFastPath (fp_rdp f) (fp_bulk f) s (fp_encryptionFlags f) (fp_numberEvents f) (fp_updateData f) (fp_fragmentation f).
Definition fp_set_header (flags events : Z) (f : rdpFastPath) : rdpFastPath :=
  mkFastPath (fp_rdp f) (fp_bulk f) (fp_fs f) flags events (fp_updateData f) (fp_fragmentation f).
Definition fp_set_updateData (s : wStream) (f : rdpFastPath) : rdpFastPath :=
  mkFastPath (fp_rdp f) (fp_bulk f) (fp_fs f) (fp_encryptionFlags f) (fp_numberEvents f) s (fp_fragmentation f).
Definition fp_set_fragmentation (n : Z) (f : rdpFastPath) : rdpFastPath :=
  mkFastPath (fp_rdp f) (fp_bulk f) (fp_fs f) (fp_encryptionFlags f) (fp_numberEvents f) (fp_updateData f) n.

Definition fastpath_new (rdp : rdpRdp) (bulk : rdpBulk ncrush xcrush) : option rdpFastPath :=
  if negb (malloc_ok 40) then None
  else
    match Stream_New None FASTPATH_MAX_PACKET_SIZE, Stream_New None FASTPATH_MAX_PACKET_SIZE with
    | Some fs, Some updateData => Some (mkFastPath rdp bulk fs 0 0 updateData (-1))
    | _, _ => None
    end.

(** The length behind the header. *)
Definition fastpath_read_header_rdp (f : rdpFastPath) : SM (option Z * rdpFastPath) :=
  ok ← Stream_CheckAndLogRequiredLength 1;
  match ok with
  | None => mret (None, f)
  | Some _ =>
      header ← Stream_Read_UINT8;
      let f := fp_set_header (Z.shiftr (Z.land header 0xC0) 6) (Z.shiftr (Z.land header 0x3C) 2) f in
      length ← per_read_length;
      match length with
      | None => mret (None, f)
      | Some length =>
          pos ← Stream_GetPosition;
          if pos >? length then mret (None, f) else mret (Some (length - u16 pos), f)
      end
  end.
Definition fastpath_get_encryption_flags (f : rdpFastPath) : Z := fp_encryptionFlags f.
Definition fastpath_decrypt (f : rdpFastPath) (length : Z) : SM (option Z * rdpFastPath) :=
  if negb (Z.land (fastpath_get_encryption_flags f) FASTPATH_OUTPUT_ENCRYPTED =? 0) then
    let flags := if negb (Z.land (fastpath_get_encryption_flags f) FASTPATH_OUTPUT_SECURE_CHECKSUM =? 0)
                 then SEC_SECURE_CHECKSUM else 0 in
    '(o, rdp) ← rdp_decrypt (fp_rdp f) length flags;
    mret (o, fp_set_rdp rdp f)
  else mret (Some length, f).

(** * Dispatch *)

(** What an update is handed to, over a state [D]: a reader of core/update.c, orders.c or
    surface.c together with the callback that gets what it has read. *)
Record updates (D : Type) : Type := mkUpdates {
  update_begin_paint : D → bool * D;
  update_end_paint : D → bool * D;
  update_recv_order : D → SM (bool * D);
  on_bitmap_update : D → SM (bool * D);
  on_palette_update : D → SM (bool * D);
  on_synchronize : D → bool * D;
  update_recv_surfcmds : D → SM (bool * D);
  on_pointer_system : bool → D → bool * D;
  on_pointer_position : D → SM (bool * D);
  on_pointer_color : D → SM (bool * D);
  on_pointer_cached : D → SM (bool * D);
  on_pointer_new : D → SM (bool * D);
  on_pointer_large : D → SM (bool * D);
}.
Arguments update_begin_paint {D}. Arguments update_end_paint {D}. Arguments update_recv_order {D}.
Arguments on_bitmap_update {D}. Arguments on_palette_update {D}. Arguments on_synchronize {D}.
Arguments update_recv_surfcmds {D}. Arguments on_pointer_system {D}. Arguments on_pointer_position {D}.
Arguments on_pointer_color {D}. Arguments on_pointer_cached {D}. Arguments on_pointer_new {D}. Arguments on_pointer_large {D}.

Section receiving.
Context {D : Type} (U : updates D).

Fixpoint orders_loop (numberOrders : nat) (d : D) : SM (bool * D) :=
  match numberOrders with
  | O => mret (true, d)
  | S n =>
      '(ok, d) ← update_recv_order U d;
      if negb ok then mret (false, d) else orders_loop n d
  end.
Definition fastpath_recv_orders (d : D) : SM (bool * D) :=
  ok ← Stream_CheckAndLogRequiredLength 2;
  match ok with
  | None => mret (false, d)
  | Some _ => numberOrders ← Stream_Read_UINT16; orders_loop (Z.to_nat numberOrders) d
  end.
Definition fastpath_recv_update_common (d : D) : SM (bool * D) :=
  ok ← Stream_CheckAndLogRequiredLength 2;
  match ok with
  | None => mret (false, d)
  | Some _ =>
      updateType ← Stream_Read_UINT16;
      if updateType =? UPDATE_TYPE_BITMAP then on_bitmap_update U d
      else if updateType =? UPDATE_TYPE_PALETTE then on_palette_update U d
      else mret (false, d)
  end.
Definition fastpath_recv_update_synchronize : SM (option unit) :=
  len ← Stream_GetRemainingLength;
  Stream_SafeSeekEx (Z.min 2 len).
Definition fastpath_recv_update_paint_block (fkt : D → SM (bool * D)) (d : D) : SM (bool * D) :=
  let '(ok, d) := update_begin_paint U d in
  if negb ok then mret (false, d)
  else
    '(res, d) ← fkt d;
    let '(ok, d) := update_end_paint U d in
    mret (if negb ok then false else res, d).

(** [rc] and [status]: surface commands leave their [BOOL] in [status]. *)
Definition dispatch_update (updateCode : Z) (d : D) : SM (bool * Z * D) :=
  let only m := '(rc, d) ← (m : SM (bool * D)); mret (rc, 0, d) in
  if updateCode =? FASTPATH_UPDATETYPE_ORDERS then only (fastpath_recv_update_paint_block fastpath_recv_orders d)
  else if (updateCode =? FASTPATH_UPDATETYPE_BITMAP) || (updateCode =? FASTPATH_UPDATETYPE_PALETTE) then
    only (fastpath_recv_update_paint_block fastpath_recv_update_common d)
  else if updateCode =? FASTPATH_UPDATETYPE_SYNCHRONIZE then
    ok ← fastpath_recv_update_synchronize;
    match ok with
    | None => mret (false, 0, d)
    | Some _ => let '(rc, d) := on_synchronize U d in mret (rc, 0, d)
    end
  else if updateCode =? FASTPATH_UPDATETYPE_SURFCMDS then
    '(res, d) ← fastpath_recv_update_paint_block (update_recv_surfcmds U) d;
    let status := if (res : bool) then 1 else 0 in
    mret (status >=? 0, status, d)
  else if updateCode =? FASTPATH_UPDATETYPE_PTR_NULL then only (mret (on_pointer_system U false d))
  else if updateCode =? FASTPATH_UPDATETYPE_PTR_DEFAULT then only (mret (on_pointer_system U true d))
  else if updateCode =? FASTPATH_UPDATETYPE_PTR_POSITION then only (on_pointer_position U d)
  else if updateCode =? FASTPATH_UPDATETYPE_COLOR then only (on_pointer_color U d)
  else if updateCode =? FASTPATH_UPDATETYPE_CACHED then only (on_pointer_cached U d)
  else if updateCode =? FASTPATH_UPDATETYPE_POINTER then only (on_pointer_new U d)
  else if updateCode =? FASTPATH_UPDATETYPE_LARGE_POINTER then only (on_pointer_large U d)
  else mret (false, 0, d).
(** On the stream with the data of the update. *)
Definition fastpath_recv_update (updateCode : Z) (d : D) : SM (Z * D) :=
  Stream_SealLength;;
  Stream_ResetPosition;;
  '(rc, status, d) ← dispatch_update updateCode d;
  Stream_ResetPosition;;
  mret (if negb rc then -1 else status, d).

(** * Fragments *)

(** The header of a fragment and its bytes: update code, fragmentation, compression flags, data. *)
Definition read_fragment : SM (option (Z * Z * Z * list Z)) :=
  '(updateCode, fragmentation, compression) ←? fastpath_read_update_header;
  compressionFlags ←?
    (if compression =? FASTPATH_OUTPUT_COMPRESSION_USED then
       TRY Stream_CheckAndLogRequiredLength 1;
       flags ← Stream_Read_UINT8;
       mret (Some flags)
     else mret (Some 0));
  TRY Stream_CheckAndLogRequiredLength 2;
  size ← Stream_Read_UINT16;
  TRY Stream_CheckAndLogRequiredLength size;
  pos ← Stream_GetPosition;
  data ← stream_get pos size;
  Stream_Seek size;;
  mret (Some (updateCode, fragmentation, compressionFlags, data)).
(** The update is complete: [fastpath_recv_update] on [updateData]. *)
Definition finish_update (updateCode : Z) (f : rdpFastPath) (d : D) : outcome (Z * rdpFastPath * D) :=
  match fastpath_recv_update updateCode d (fp_updateData f) with
  | Abort => Abort
  | Ret ((status, d), s) => Ret (if status <? 0 then -1 else status, fp_set_updateData s f, d)
  end.
(** The state machine of the fragments, once the data is in [updateData]. *)
Definition add_fragment (c : fp_settings) (updateCode fragmentation : Z) (f : rdpFastPath) (d : D) :
    outcome (Z * rdpFastPath * D) :=
  if fragmentation =? FASTPATH_FRAGMENT_SINGLE then
    if negb (fp_fragmentation f =? -1) then Ret (-1, f, d)
    else finish_update updateCode f d
  else
    let totalSize := st_pointer (fp_updateData f) in
    if totalSize >? fps_MultifragMaxRequestSize c then Ret (-1, f, d)
    else if fragmentation =? FASTPATH_FRAGMENT_FIRST then
      if negb (fp_fragmentation f =? -1) then Ret (-1, f, d)
      else Ret (0, fp_set_fragmentation FASTPATH_FRAGMENT_FIRST f, d)
    else
      if negb (fp_fragmentation f =? FASTPATH_FRAGMENT_FIRST) && negb (fp_fragmentation f =? FASTPATH_FRAGMENT_NEXT)
      then Ret (-1, f, d)
      else if fragmentation =? FASTPATH_FRAGMENT_NEXT then Ret (0, fp_set_fragmentation FASTPATH_FRAGMENT_NEXT f, d)
      else finish_update updateCode (fp_set_fragmentation (-1) f) d.
Definition fastpath_recv_update_data (c : fp_settings) (f : rdpFastPath) (d : D) : SM (Z * rdpFastPath * D) :=
  h ← read_fragment;
  match h with
  | None => mret (-1, f, d)
  | Some (updateCode, fragmentation, compressionFlags, data) =>
      '(bulkStatus, bulk, dst) ← lift (bulk_decompress (fps_CompressionLevel c) data compressionFlags (fp_bulk f));
      let f := fp_set_bulk bulk f in
      if bulkStatus <? 0 then mret (-1, f, d)
      else
        '(ok, updateData) ← lift ((TRY Stream_EnsureRemainingCapacity (zlen dst); Stream_Write dst;; TRUE) (fp_updateData f));
        let f := fp_set_updateData updateData f in
        match ok with
        | None => mret (-1, f, d)
        | Some _ => lift (add_fragment c updateCode fragmentation f d)
        end
  end.
Fixpoint updates_loop (fuel : nat) (c : fp_settings) (f : rdpFastPath) (d : D) : SM (Z * rdpFastPath * D) :=
  rem ← Stream_GetRemainingLength;
  if negb (rem >=? 3) then mret (STATE_RUN_SUCCESS, f, d)
  else
    match fuel with
    | O => lift Abort
    | S fuel =>
        '(status, f, d) ← fastpath_recv_update_data c f d;
        if status <? 0 then mret (STATE_RUN_FAILED, f, d) else updates_loop fuel c f d
    end.
Definition fastpath_recv_updates (c : fp_settings) (f : rdpFastPath) (d : D) : SM (Z * rdpFastPath * D) :=
  rem ← Stream_GetRemainingLength;
  updates_loop (Z.to_nat rem) c f d.

(** A packet of the fast path (core/rdp.c). *)
Definition rdp_recv_fastpath_pdu (c : fp_settings) (f : rdpFastPath) (d : D) : SM (Z * rdpFastPath * D) :=
  '(length, f) ← fastpath_read_header_rdp f;
  match length with
  | None => mret (STATE_RUN_FAILED, f, d)
  | Some length =>
      if length =? 0 then mret (STATE_RUN_FAILED, f, d)
      else
        ok ← Stream_CheckAndLogRequiredLength length;
        match ok with
        | None => mret (STATE_RUN_FAILED, f, d)
        | Some _ =>
            '(length, f) ← fastpath_decrypt f length;
            match length with
            | None => mret (STATE_RUN_FAILED, f, d)
            | Some _ => fastpath_recv_updates c f d
            end
        end
  end.
End receiving.

(** * Sending *)

Section sending.
(** [transport_write] of a packet, over a state [W]; [before] is the byte in memory in front
    of the history of the compressor ([Mppc]). *)
Context {W : Type} (transport_write : list Z → W → bool * W) (before : Z).

Definition fragment_flags (c : fp_settings) : Z :=
  if fps_do_crypt c then Z.lor SEC_ENCRYPT (if fps_do_secure_checksum c then SEC_SECURE_CHECKSUM else 0) else 0.
Definition max_fragment (c : fp_settings) (skipCompression : bool) (f : rdpFastPath) : Z * rdpFastPath :=
  let maxLength := FASTPATH_MAX_PACKET_SIZE - 20 in
  if fps_CompressionEnabled c && negb skipCompression then
    let '(size, bulk) := bulk_compression_max_size (fps_CompressionLevel c) (fp_bulk f) in
    (Z.min maxLength size - 20, fp_set_bulk bulk f)
  else (maxLength, f).

(** The bulk, the fields [compression] and [compressionFlags] of the header, and the data. *)
Definition compress_fragment (c : fp_settings) (skipCompression : bool) (src : list Z) (bulk : rdpBulk ncrush xcrush) :
    outcome (rdpBulk ncrush xcrush * Z * Z * list Z) :=
  if fps_CompressionEnabled c && negb skipCompression then
    '(status, bulk, dst, flags) ← bulk_compress before (fps_CompressionLevel c) src 0 bulk;
    if (status >=? 0) && negb (flags =? 0) then
      if flags <=? UINT8_MAX then mret (bulk, FASTPATH_OUTPUT_COMPRESSION_USED, flags, dst) else Abort
    else mret (bulk, 0, 0, src)
  else mret (bulk, 0, 0, src).
Definition fragment_kind (fragment totalLength : Z) : Z :=
  if totalLength =? 0 then if fragment =? 0 then FASTPATH_FRAGMENT_SINGLE else FASTPATH_FRAGMENT_LAST
  else if fragment =? 0 then FASTPATH_FRAGMENT_FIRST else FASTPATH_FRAGMENT_NEXT.

(** The last [dataSize] bytes of [fs] are signed and encrypted in place. *)
Definition protect_fragment (rdp : rdpRdp) (sec_flags pSignature dataSize pad : Z) : SM (bool * rdpRdp) :=
  pos ← Stream_GetPosition;
  let data := pos - dataSize in
  if EncryptionMethods rdp =? ENCRYPTION_METHOD_FIPS then
    plain ← stream_get data (dataSize - pad);
    match security_hmac_signature rdp plain with
    | None => mret (false, rdp)
    | Some sig =>
        stream_set pSignature sig;;
        plain ← stream_get data dataSize;
        '(out, rdp) ← lift (security_fips_encrypt plain rdp);
        match out with
        | None => mret (false, rdp)
        | Some out => stream_set data out;; mret (true, rdp)
        end
    end
  else
    plain ← stream_get data dataSize;
    sig ← lift (if negb (Z.land sec_flags SEC_SECURE_CHECKSUM =? 0) then security_salted_mac_signature rdp plain true
                else security_mac_signature rdp plain);
    match sig with
    | None => mret (false, rdp)
    | Some sig =>
        stream_set pSignature sig;;
        plain ← stream_get data dataSize;
        '(out, rdp) ← lift (security_encrypt plain rdp);
        match out with
        | None => mret (false, rdp)
        | Some out => stream_set data out;; mret (true, rdp)
        end
    end.

(** A fragment in [fs]: [false] when the function returns [FALSE]. *)
Definition write_fragment (rdp : rdpRdp) (sec_flags updateCode fragmentation compression compressionFlags : Z) (dst : list Z) :
    SM (bool * rdpRdp) :=
  let DstSize := zlen dst in
  if DstSize >? UINT16_MAX then mret (false, rdp)
  else
    let encrypt := negb (Z.land sec_flags SEC_ENCRYPT =? 0) in
    let fips := EncryptionMethods rdp =? ENCRYPTION_METHOD_FIPS in
    let secFlags := Z.lor (if encrypt then FASTPATH_OUTPUT_ENCRYPTED else 0)
                      (if negb (Z.land sec_flags SEC_SECURE_CHECKSUM =? 0) then FASTPATH_OUTPUT_SECURE_CHECKSUM else 0) in
    let header := mkUpdateHeader compressionFlags DstSize updateCode fragmentation compression in
    let headerSize := fastpath_get_update_header_size header in
    let pad := if encrypt && fips then (let pad := 8 - (DstSize + headerSize) mod 8 in if pad =? 8 then 0 else pad) else 0 in
    let pSignature := if fips then 7 else 3 in
    let pdu length := mkPduHeader (if encrypt && fips then [0x10; 0x00; 0x01; pad] else [0; 0; 0; 0]) (zeros 8) 0 secFlags length in
    let len := DstSize + (headerSize + fastpath_get_update_pdu_header_size (pdu 0) rdp) + pad in
    if len >? UINT16_MAX then mret (false, rdp)
    else
      Stream_ResetPosition;;
      ok ← (TRY fastpath_write_update_pdu_header (pdu len) rdp;
            TRY fastpath_write_update_header header;
            TRY Stream_CheckAndLogRequiredCapacity (DstSize + pad);
            Stream_Write dst;;
            (if negb (pad =? 0) then Stream_Zero pad else mret tt);;
            TRUE);
      match ok with
      | None => mret (false, rdp)
      | Some _ =>
          '(res, rdp) ←
            (if encrypt then protect_fragment rdp sec_flags pSignature (headerSize + DstSize + pad) pad else mret (true, rdp));
          if negb res then mret (false, rdp)
          else Stream_SealLength;; mret (true, rdp)
      end.

(** The loop, on the stream with the data of the update.  In C it is left when
    [totalLength] is 0 behind the first fragment. *)
Fixpoint send_fragments (fuel : nat) (c : fp_settings) (updateCode : Z) (skipCompression : bool)
    (fragment totalLength maxLength : Z) (f : rdpFastPath) (w : W) : SM (bool * rdpFastPath * W) :=
  if negb ((totalLength >? 0) || (fragment =? 0)) then mret (true, f, w)
  else
    match fuel with
    | O => lift Abort
    | S fuel =>
        let SrcSize := if totalLength >? maxLength then maxLength else totalLength in
        pos ← Stream_GetPosition;
        src ← stream_get pos SrcSize;
        '(bulk, compression, compressionFlags, dst) ← lift (compress_fragment c skipCompression src (fp_bulk f));
        let f := fp_set_bulk bulk f in
        let totalLength := totalLength - SrcSize in
        '((res, rdp), fs) ← lift (write_fragment (fp_rdp f) (fragment_flags c) updateCode (fragment_kind fragment totalLength)
                                    compression compressionFlags dst (fp_fs f));
        let f := fp_set_fs fs (fp_set_rdp rdp f) in
        if negb res then mret (false, f, w)
        else
          let '(sent, w) := transport_write (ztake (st_length fs) (st_buffer fs)) w in
          if negb sent then mret (false, f, w)
          else
            Stream_Seek SrcSize;;
            send_fragments fuel c updateCode skipCompression (fragment + 1) totalLength maxLength f w
    end.
Definition fastpath_send_update_pdu (c : fp_settings) (updateCode : Z) (skipCompression : bool) (f : rdpFastPath) (w : W) :
    SM (bool * rdpFastPath * W) :=
  let '(maxLength, f) := max_fragment c skipCompression f in
  totalLength ← Stream_GetPosition;
  Stream_ResetPosition;;
  if negb (fps_FastPathOutput c) then mret (false, f, w)
  else if totalLength >? fps_MultifragMaxRequestSize c then mret (false, f, w)
  else send_fragments (S (Z.to_nat totalLength)) c updateCode skipCompression 0 totalLength maxLength f w.
End sending.

Definition fastpath_update_pdu_init : option wStream := Stream_New None FASTPATH_MAX_PACKET_SIZE.
End fastpath.
Arguments rdpFastPath {HC} ncrush xcrush.
Arguments mkUpdates {D}.
Arguments update_begin_paint {D}. Arguments update_end_paint {D}. Arguments update_recv_order {D}.
Arguments on_bitmap_update {D}. Arguments on_palette_update {D}. Arguments on_synchronize {D}.
Arguments update_recv_surfcmds {D}. Arguments on_pointer_system {D}. Arguments on_pointer_position {D}.
Arguments on_pointer_color {D}. Arguments on_pointer_cached {D}. Arguments on_pointer_new {D}. Arguments on_pointer_large {D}.
