(* ===== verification/FastPathCorrect.v ===== *)
(** An update that the server sends on the fast path arrives at the client's dispatcher as it
    was: through fragments, compression and encryption. *)

From S2P Require Import Prelude Stream StreamLogic Transmission Per Framing Rc4 Security SecurityCorrect Mppc MppcCorrect Bulk Gcc Mcs RdpPdu RdpPduCorrect FastPath.
From stdpp Require Import prelude list numbers.
From Stdlib Require Import ZArith Lia.

#[local] Open Scope Z_scope.

(** * Headers *)

Definition update_byte (code frag comp : Z) : Z :=
  Z.lor (Z.lor (Z.land code 0x0F) (Z.shiftl (Z.land frag 0x03) 4)) (Z.shiftl (Z.land comp 0x03) 6).
Definition fragment_header (code frag comp flags size : Z) : list Z :=
  [update_byte code frag comp] ++ (if comp =? 0 then [] else [flags]) ++ winpr_Data_Write_UINT16 size.
Definition compression_ok (comp flags : Z) : Prop := (comp = 0 ∧ flags = 0) ∨ (comp = FASTPATH_OUTPUT_COMPRESSION_USED ∧ is_byte flags).

Lemma update_byte_fields code frag comp :
  0 <= code < 16 → 0 <= frag < 4 → 0 <= comp < 4 →
  is_byte (update_byte code frag comp) ∧ Z.land (update_byte code frag comp) 0x0F = code ∧
  Z.land (Z.shiftr (update_byte code frag comp) 4) 0x03 = frag ∧ Z.land (Z.shiftr (update_byte code frag comp) 6) 0x03 = comp.
Proof.
  intros Hc Hf Hp. unfold update_byte.
  assert (∀ n, Z.land n 0x0F = n mod 2 ^ 4) as L4 by (intros; apply (Z.land_ones _ 4); lia).
  assert (∀ n, Z.land n 0x03 = n mod 2 ^ 2) as L2 by (intros; apply (Z.land_ones _ 2); lia).
  rewrite !L4, !L2, !Z.shiftl_mul_pow2, !Z.shiftr_div_pow2 by lia. rewrite (Z.mod_small code), (Z.mod_small frag), (Z.mod_small comp) by lia.
  rewrite (Z.lor_comm code), (lor_disjoint (frag * 2 ^ 4) code 4) by (try lia; apply Z.mod_mul; lia).
  rewrite Z.lor_comm, (lor_disjoint (comp * 2 ^ 6) _ 6) by (try lia; apply Z.mod_mul; lia).
  unfold is_byte. split; [lia|]. split; [div_mod_lia|]. split; div_mod_lia.
Qed.
Lemma compression_range comp flags : compression_ok comp flags → 0 <= comp < 4 ∧ is_byte flags.
Proof. intros [[-> ->]|[-> Hf]]; split; try done; unfold FASTPATH_OUTPUT_COMPRESSION_USED, is_byte; lia. Qed.

Lemma fragment_header_bytes code frag comp flags size :
  0 <= code < 16 → 0 <= frag < 4 → compression_ok comp flags → bytes (fragment_header code frag comp flags size).
Proof.
  intros Hc Hf Hp. destruct (compression_range _ _ Hp) as [Hr Hb]. destruct (update_byte_fields code frag comp Hc Hf Hr) as [Hu _].
  unfold fragment_header. apply Forall_cons_2; [done|]. apply Forall_app_2.
  - destruct (comp =? 0); [apply Forall_nil_2|]. apply Forall_cons_2; [done|apply Forall_nil_2].
  - apply write16_le_bytes.
Qed.
Lemma zlen_fragment_header code frag comp flags size :
  zlen (fragment_header code frag comp flags size) = if comp =? 0 then 3 else 4.
Proof. unfold fragment_header. by destruct (comp =? 0). Qed.

Lemma puts_fragment_header n code frag comp flags size :
  0 <= code < 16 → 0 <= frag < 4 → compression_ok comp flags → 0 <= size <= UINT16_MAX → 4 <= n ∨ comp = 0 ∧ 3 <= n →
  puts n (fastpath_write_update_header (mkUpdateHeader flags size code frag comp)) (fragment_header code frag comp flags size) (Some tt).
Proof.
  intros Hc Hf Hp Hs Hn. destruct (compression_range _ _ Hp) as [Hr Hb]. destruct (update_byte_fields code frag comp Hc Hf Hr) as [Hu _].
  unfold fastpath_write_update_header, fragment_header. cbn [uh_updateCode uh_fragmentation uh_compression uh_compressionFlags uh_size].
  apply puts_check; [lia|]. apply puts_UINT8; [lia|done|].
  eapply (puts_bind _ (n - 1)); [lia| |].
  - instantiate (1 := Some tt). destruct (Z.eqb_spec comp 0); [apply puts_ret|]. apply puts_check; [lia|]. apply puts_nil_r, puts_UINT8; [lia|done|].
    apply puts_ret.
  - destruct (Z.eqb_spec comp 0); change (zlen [flags]) with 1; change (zlen (@nil Z)) with 0; cbv iota;
    (apply puts_check; [lia|]); (apply puts_nil_r, puts_UINT16; [lia|done|]); apply puts_ret.
Qed.

Lemma reads_fragment code frag comp flags data :
  0 <= code < 16 → 0 <= frag < 4 → compression_ok comp flags → zlen data <= UINT16_MAX → bytes data →
  reads read_fragment (fragment_header code frag comp flags (zlen data) ++ data) (Some (code, frag, flags, data)).
Proof.
  intros Hc Hf Hp Hz Hd. destruct (compression_range _ _ Hp) as [Hr Hb]. destruct (update_byte_fields code frag comp Hc Hf Hr) as (Hu & H1 & H2 & H3).
  pose proof (zlen_nonneg data). unfold read_fragment, fragment_header. rewrite <- !app_assoc.
  eapply reads_bind.
  { unfold fastpath_read_update_header. apply reads_check; [change (zlen [_]) with 1; lia|]. apply reads_nil_r, reads_step_UINT8.
    rewrite H1, H2, H3. apply reads_ret. }
  cbv beta iota. eapply (reads_bind _ _ (if comp =? 0 then [] else [flags]) _ (Some flags)).
  { destruct Hp as [[-> ->]|[-> _]]; [apply reads_ret|]. cbn [Z.eqb FASTPATH_OUTPUT_COMPRESSION_USED Pos.eqb].
    apply reads_check; [change (zlen [_]) with 1; lia|]. apply reads_nil_r, reads_step_UINT8. apply reads_ret. }
  cbv beta iota. apply reads_check; [rewrite zlen_app; change (zlen (winpr_Data_Write_UINT16 (zlen data))) with 2; lia|].
  apply reads_step_UINT16; [lia|]. apply reads_check; [lia|].
  intros s tl Hs Hrem. destruct (readable_split _ _ Hs Hrem) as (pre & post & Hb' & Hp' & Hl').
  pose proof Hs as [Hwf _]. erewrite bind_Ret by by apply run_GetPosition. rewrite Hp'.
  rewrite <- app_assoc in Hb'. erewrite bind_Ret by (apply (run_stream_get pre data (tl ++ post)); [done|done|done|done]).
  pose proof (wf_object _ Hwf) as Ho. rewrite Hb', !zlen_app in Ho. pose proof (zlen_nonneg tl). pose proof (zlen_nonneg post).
  erewrite bind_Ret by (apply run_Seek; [done|lia]).
  done.
Qed.

(** * A fragment on the wire *)

Section fragments.
Context {HM : Malloc} {HD : Digests} {HC : Cipher} {HDL : DigestLaws} {HCL : CipherLaws} {ncrush xcrush : Codec}.

Definition fp_wire (r : rdpRdp) (flags : Z) (body w : list Z) (r' : rdpRdp) : Prop :=
  if encrypted flags then secured r flags body (sec_header flags ++ w) r' else w = body ∧ r' = r.
Definition sec_bits (flags : Z) : Z :=
  Z.lor (if encrypted flags then FASTPATH_OUTPUT_ENCRYPTED else 0) (if secure_checksum flags then FASTPATH_OUTPUT_SECURE_CHECKSUM else 0).
Definition fp_packet (header : Z) (w : list Z) : list Z :=
  [header] ++ winpr_Data_Write_UINT16_BE (zlen w + 3 + 0x8000) ++ w.
(** What [protect_fragment] leaves of the stream. *)
Definition protected (r1 : rdpRdp) (flags : Z) (body hdr tl : list Z) (s : wStream) (res : bool * rdpRdp) (s' : wStream) : Prop :=
  if res.1 then wf s' ∧ st_pointer s' = st_pointer s ∧ st_capacity s' = st_capacity s ∧
    ∃ w, secured r1 flags body (sec_header flags ++ w) res.2 ∧ st_buffer s' = hdr ++ w ++ tl
  else ¬ crypto_available.

Lemma run_protect_rc4 r1 r2 s hdr old body tl flags :
  sec_sync r1 r2 → encrypted flags = true → EncryptionMethods r1 ≠ ENCRYPTION_METHOD_FIPS → wf s → bytes body →
  st_buffer s = hdr ++ old ++ body ++ tl → zlen hdr = 3 → zlen old = 8 → st_pointer s = 11 + zlen body →
  ∃ res s', protect_fragment r1 flags 3 (zlen body) 0 s = Ret (res, s') ∧ protected r1 flags body hdr tl s res s'.
Proof.
  intros Hsync He Hm Hs Hbb Hb H3 H8 Hp. pose proof (zlen_nonneg body).
  unfold protect_fragment. erewrite bind_Ret by by apply run_GetPosition. rewrite Hp.
  destruct (Z.eqb_spec (EncryptionMethods r1) ENCRYPTION_METHOD_FIPS); [done|]. replace (11 + zlen body - zlen body) with 11 by lia.
  erewrite bind_Ret by (apply (run_stream_get (hdr ++ old) body tl); [done|by rewrite Hb, <- !app_assoc|rewrite zlen_app; lia|done]).
  destruct (checksum_total r1 (secure_checksum flags) true body (session_sign_len _ _ (sec_same _ _ Hsync) Hm)) as (sg & Hsg & Hsgl).
  erewrite bind_Ret by (apply run_lift; exact Hsg). destruct sg as [sig|]; [|by do 2 eexists]. destruct Hsgl as [Hsl Hsb].
  destruct (run_stream_set hdr old (body ++ tl) s 3 sig) as [E1 Hs1]; [done|done|done|lia|done|].
  erewrite bind_Ret by exact E1. set (s1 := set_buffer _ s) in *.
  erewrite bind_Ret by (apply (run_stream_get (hdr ++ sig) body tl); [done|cbn; by rewrite <- !app_assoc|rewrite zlen_app; lia|done]).
  destruct (security_encrypt_total r1 r2 body Hsync Hm Hbb) as (o & r' & Ee & Hol).
  erewrite bind_Ret by by apply run_lift. destruct o as [out|]; [|by do 2 eexists]. destruct Hol as [Hol Hob].
  destruct (run_stream_set (hdr ++ sig) body tl s1 11 out) as [E2 Hs2]; [done|cbn; by rewrite <- !app_assoc|rewrite zlen_app; lia|lia|done|].
  erewrite bind_Ret by exact E2. do 2 eexists. split; [done|]. split; [done|]. split; [done|]. split; [done|].
  exists (sig ++ out). split; [by constructor|]. cbn. by rewrite <- !app_assoc.
Qed.
Lemma run_protect_fips r1 r2 s hdr old body tl flags :
  let pad := fips_pad (zlen body) in
  sec_sync r1 r2 → encrypted flags = true → EncryptionMethods r1 = ENCRYPTION_METHOD_FIPS → wf s → bytes body →
  st_buffer s = hdr ++ ([16; 0; 1; pad] ++ old) ++ body ++ zeros pad ++ tl → zlen hdr = 3 → zlen old = 8 →
  st_pointer s = 15 + (zlen body + pad) →
  ∃ res s', protect_fragment r1 flags 7 (zlen body + pad) pad s = Ret (res, s') ∧ protected r1 flags body hdr tl s res s'.
Proof.
  intros pad Hsync He Hm Hs Hbb Hb H3 H8 Hp. pose proof (zlen_nonneg body). pose proof (fips_pad_range (zlen body)) as [Hpr Hpm]. fold pad in Hpr, Hpm.
  set (info := [16; 0; 1; pad]) in *. assert (zlen info = 4) as H4 by done.
  unfold protect_fragment. erewrite bind_Ret by by apply run_GetPosition. rewrite Hp.
  destruct (Z.eqb_spec (EncryptionMethods r1) ENCRYPTION_METHOD_FIPS); [|done].
  replace (15 + (zlen body + pad) - (zlen body + pad)) with 15 by lia. replace (zlen body + pad - pad) with (zlen body) by lia.
  erewrite bind_Ret by (apply (run_stream_get (hdr ++ info ++ old) body (zeros pad ++ tl)); [done|by rewrite Hb, <- !app_assoc|rewrite !zlen_app; lia|done]).
  pose proof (hmac_signature_total r1 body) as Hsig.
  destruct (security_hmac_signature r1 body) as [sig|] eqn:Esig; [|by do 2 eexists]. destruct Hsig as [Hsl Hsb].
  destruct (run_stream_set (hdr ++ info) old (body ++ zeros pad ++ tl) s 7 sig) as [E1 Hs1];
    [done|by rewrite Hb, <- !app_assoc|rewrite zlen_app; lia|lia|done|].
  erewrite bind_Ret by exact E1. set (s1 := set_buffer _ s) in *.
  assert (zlen (body ++ zeros pad) = zlen body + pad) as Hbz by (rewrite zlen_app, zlen_zeros; lia).
  erewrite bind_Ret by (apply (run_stream_get (hdr ++ info ++ sig) (body ++ zeros pad) tl);
    [done|cbn [s1 set_buffer st_buffer]; by rewrite <- !app_assoc|rewrite !zlen_app; lia|done]).
  destruct (fips_encrypt_total r1 r2 (body ++ zeros pad) Hsync Hm) as (o & r' & Ee & Hav); [by rewrite Hbz|].
  erewrite bind_Ret by by apply run_lift. destruct o as [out|]; [|by do 2 eexists].
  assert (bytes (body ++ zeros pad)) as Hbb' by (apply Forall_app_2; [done|apply bytes_zeros]).
  destruct (fips_packet r1 r2 body (zeros pad) sig out r' Hsync Hm Hbb') as (_ & _ & _ & _ & _ & _ & _ & Hol & Hob); [by rewrite Hbz|done|done|].
  destruct (run_stream_set (hdr ++ info ++ sig) (body ++ zeros pad) tl s1 15 out) as [E2 Hs2];
    [done|cbn [s1 set_buffer st_buffer]; by rewrite <- !app_assoc|rewrite !zlen_app; lia|lia|done|].
  erewrite bind_Ret by exact E2. do 2 eexists. split; [done|]. split; [done|]. split; [done|]. split; [done|].
  exists ((info ++ sig) ++ out). split; [by constructor|]. cbn [set_buffer st_buffer]. by rewrite <- !app_assoc.
Qed.

(** The room in front of the body, before it is signed. *)
Definition pdu_front (r : rdpRdp) (flags pad : Z) : list Z :=
  if encrypted flags then (if is_fips r then [16; 0; 1; pad] else []) ++ zeros 8 else [].
Definition flags_shape (flags : Z) : Prop := encrypted flags = false → secure_checksum flags = false.
Lemma sec_bits_cases flags :
  flags_shape flags → 0 <= sec_bits flags < 4 ∧ (sec_bits flags =? 0) = negb (encrypted flags) ∧
  negb (Z.land (sec_bits flags) FASTPATH_OUTPUT_ENCRYPTED =? 0) = encrypted flags ∧
  (encrypted flags = true → negb (Z.land (sec_bits flags) FASTPATH_OUTPUT_SECURE_CHECKSUM =? 0) = secure_checksum flags).
Proof.
  intros Hf. unfold sec_bits. destruct (encrypted flags) eqn:E; [|rewrite (Hf E)]; destruct (secure_checksum flags); by vm_compute.
Qed.
Lemma length_bytes len : 0 <= len < 0x8000 →
  [Z.lor 0x80 (Z.shiftr len 8); Z.land len 0xFF] = winpr_Data_Write_UINT16_BE (len + 0x8000).
Proof.
  intros Hl. unfold winpr_Data_Write_UINT16_BE. autorewrite with bits. rewrite (lor_disjoint 0x80 _ 7) by (try done; try lia; div_mod_lia).
  change 255 with (Z.ones 8). rewrite ?Z.land_ones by lia. f_equal; [|f_equal]; div_mod_lia.
Qed.

Lemma puts_pdu_header n r flags pad len :
  flags_shape flags → 0 <= len < 0x8000 → is_byte pad → 3 + zlen (pdu_front r flags pad) <= n →
  puts n (fastpath_write_update_pdu_header
            (mkPduHeader (if encrypted flags && is_fips r then [16; 0; 1; pad] else [0; 0; 0; 0]) (zeros 8) 0 (sec_bits flags) len) r)
    (([64 * sec_bits flags] ++ winpr_Data_Write_UINT16_BE (len + 0x8000)) ++ pdu_front r flags pad) (Some tt).
Proof.
  intros Hsh Hl Hp Hn. destruct (sec_bits_cases flags Hsh) as (Hb & Hb0 & _). pose proof (zlen_nonneg (pdu_front r flags pad)).
  unfold fastpath_write_update_pdu_header. cbn [ph_action ph_secFlags ph_length ph_fipsInformation ph_dataSignature].
  apply puts_check; [lia|]. rewrite <- length_bytes by lia. cbn [app]. rewrite Hb0, negb_involutive.
  replace (Z.lor (Z.land 0 3) (Z.shiftl (Z.land (sec_bits flags) 3) 6)) with (64 * sec_bits flags).
  2:{ assert (sec_bits flags = 0 ∨ sec_bits flags = 1 ∨ sec_bits flags = 2 ∨ sec_bits flags = 3) as [-> | [-> | [-> | ->]]] by lia; done. }
  apply (puts_UINT8 _ _ _ (_ :: _ :: _)); [lia|unfold is_byte; lia|].
  assert (is_byte (Z.lor 128 (Z.shiftr len 8)) ∧ is_byte (Z.land len 255)) as [Hb1 Hb2].
  { pose proof (write16_be_bytes (len + 0x8000)) as H'. rewrite <- length_bytes in H' by lia.
    apply Forall_cons_1 in H' as [? H']. by apply Forall_cons_1 in H' as [? _]. }
  apply (puts_UINT8 _ _ _ (_ :: _)); [lia|done|]. apply (puts_UINT8 _ _ _ _); [lia|done|].
  unfold pdu_front in *. destruct (encrypted flags); [|apply puts_ret]. cbn [andb]. fold (is_fips r).
  rewrite zlen_app, zlen_zeros in Hn by lia.
  eapply (puts_bind _ (if is_fips r then 4 else 0) _ _ (if is_fips r then [16; 0; 1; pad] else []) _ (Some tt)).
  - destruct (is_fips r); change (zlen [16; 0; 1; pad]) with 4 in *; change (zlen (@nil Z)) with 0 in *; lia.
  - destruct (is_fips r); [|apply puts_ret]. apply puts_check; [lia|]. apply puts_nil_r, puts_Write; [done| |apply puts_ret].
    repeat apply Forall_cons_2; try apply Forall_nil_2; try done; unfold is_byte; lia.
  - cbv iota. apply puts_check; [lia|]. apply puts_nil_r, puts_Write; [rewrite zlen_zeros; lia|apply bytes_zeros|apply puts_ret].
Qed.

(** The packet in [fs]. *)
Definition fragment_body (code frag comp cflags : Z) (dst : list Z) : list Z :=
  fragment_header code frag comp cflags (zlen dst) ++ dst.
Definition fragment_written (r1 : rdpRdp) (flags : Z) (body : list Z) (res : bool * rdpRdp) (s' : wStream) : Prop :=
  if res.1 then wf s' ∧ st_capacity s' = FASTPATH_MAX_PACKET_SIZE ∧
    ∃ w, fp_wire r1 flags body w res.2 ∧ ztake (st_length s') (st_buffer s') = fp_packet (64 * sec_bits flags) w ∧ 0 < zlen w <= 16380
  else ¬ crypto_available.

Lemma run_seal {A} (a : A) s hdr w tl :
  wf s → st_buffer s = hdr ++ w ++ tl → st_pointer s = zlen hdr + zlen w →
  ∃ s', (Stream_SealLength;; mret a) s = Ret (a, s') ∧ wf s' ∧ st_capacity s' = st_capacity s ∧
    ztake (st_length s') (st_buffer s') = hdr ++ w.
Proof.
  intros Hs Hb Hp. pose proof Hs as []. unfold Stream_SealLength, mbind, SM_bind.
  destruct (Z.leb_spec 0 (st_pointer s)); [|lia]. destruct (Z.leb_spec (st_pointer s) (st_capacity s)); [|lia]. cbn [andb].
  eexists. split; [done|]. split; [by split; cbn|]. split; [done|]. cbn. rewrite Hb, app_assoc, Hp, <- zlen_app.
  rewrite ztake_app_le by lia. by apply ztake_all.
Qed.
Lemma front_size r flags pad : zlen (pdu_front r flags pad) = if encrypted flags then if is_fips r then 12 else 8 else 0.
Proof. unfold pdu_front. destruct (encrypted flags); [|done]. by destruct (is_fips r). Qed.

Lemma run_protect r1 r2 s hdr old body tl flags :
  let pad := if encrypted flags && is_fips r1 then fips_pad (zlen body) else 0 in
  (encrypted flags = true → sec_sync r1 r2) → wf s → bytes body → zlen hdr = 3 → old = pdu_front r1 flags pad →
  st_buffer s = hdr ++ old ++ body ++ zeros pad ++ tl → st_pointer s = 3 + zlen old + zlen body + pad → st_pointer s <= FASTPATH_MAX_PACKET_SIZE →
  ∃ res s', ('(res, rdp) ← (if encrypted flags then
      protect_fragment r1 flags (if is_fips r1 then 7 else 3) (zlen body + pad) pad else mret (true, r1));
    if negb res then mret (false, rdp) else Stream_SealLength;; mret (true, rdp)) s = Ret (res, s') ∧
    if res.1 then wf s' ∧ st_capacity s' = st_capacity s ∧
      ∃ w, fp_wire r1 flags body w res.2 ∧ ztake (st_length s') (st_buffer s') = hdr ++ w ∧ zlen w = st_pointer s - 3
    else ¬ crypto_available.
Proof.
  intros pad Hsync Hs Hbb H3 -> Hb Hp Hmax. pose proof (zlen_nonneg body). unfold fp_wire.
  destruct (encrypted flags) eqn:He; cbn [andb] in *.
  2:{ unfold pdu_front in *. rewrite He in *. change (zlen (@nil Z)) with 0 in *. erewrite bind_Ret by done. cbv beta iota. cbn [negb].
      destruct (run_seal (true, r1) s hdr body tl) as (s' & -> & Hw & Hc & Ht); [done|by rewrite Hb|lia|].
      do 2 eexists. split; [done|]. cbn [fst snd]. split; [done|]. split; [done|]. exists body. split; [done|]. split; [done|]. lia. }
  specialize (Hsync eq_refl). rewrite front_size, He in Hp.
  assert (∃ res s', protect_fragment r1 flags (if is_fips r1 then 7 else 3) (zlen body + pad) pad s = Ret (res, s') ∧
    protected r1 flags body hdr tl s res s') as ([o r'] & s1 & E & Hres).
  { unfold pdu_front in Hb. rewrite He in Hb. unfold pad in *. clear pad. unfold is_fips in *.
    destruct (Z.eqb_spec (EncryptionMethods r1) ENCRYPTION_METHOD_FIPS) as [Hm|Hm].
    - apply (run_protect_fips r1 r2 s hdr (zeros 8) body tl); try done. lia.
    - rewrite Z.add_0_r. apply (run_protect_rc4 r1 r2 s hdr (zeros 8) body tl); try done. lia. }
  erewrite bind_Ret by exact E. unfold protected in Hres. cbn [fst snd] in Hres. cbv beta iota. destruct o; cbn [negb]; [|by do 2 eexists].
  destruct Hres as (Hs1 & Hp1 & Hc1 & w & Hw & Hb1).
  assert (zlen w = st_pointer s - 3) as Hzw.
  { pose proof (wf_object _ Hs) as Ho. pose proof (wf_object _ Hs1) as Ho1. rewrite Hb in Ho. rewrite Hb1 in Ho1.
    rewrite !zlen_app, front_size, He in Ho. rewrite !zlen_app in Ho1.
    assert (0 <= pad) by (unfold pad; destruct (is_fips r1); [apply fips_pad_range|done]). rewrite zlen_zeros in Ho by lia. lia. }
  destruct (run_seal (true, r') s1 hdr w tl) as (s' & -> & Hw' & Hc & Ht); [done|done|lia|].
  do 2 eexists. split; [done|]. cbn [fst snd]. split; [done|]. split; [congruence|]. exists w. done.
Qed.

Lemma puts_optional_zero n pad :
  0 <= pad <= n → puts n ((if negb (pad =? 0) then Stream_Zero pad else mret tt);; TRUE) (zeros pad) (Some tt).
Proof.
  intros Hp. destruct (Z.eqb_spec pad 0) as [->|]; cbn [negb]; [apply puts_ret|]. apply puts_nil_r, puts_Zero; [lia|apply puts_ret].
Qed.
(** All that is written in front of the protection. *)
Lemma zlen_fragment_body code frag comp cflags dst :
  zlen (fragment_body code frag comp cflags dst) = (if comp =? 0 then 3 else 4) + zlen dst.
Proof. unfold fragment_body. by rewrite zlen_app, zlen_fragment_header. Qed.
Lemma puts_fragment r flags code frag comp cflags dst pad len hdr :
  flags_shape flags → 0 <= code < 16 → 0 <= frag < 4 → compression_ok comp cflags → bytes dst → 0 <= pad < 8 →
  len = 3 + zlen (pdu_front r flags pad) + zlen (fragment_body code frag comp cflags dst) + pad → len <= FASTPATH_MAX_PACKET_SIZE →
  hdr = [64 * sec_bits flags] ++ winpr_Data_Write_UINT16_BE (len + 0x8000) →
  puts len (TRY fastpath_write_update_pdu_header
      (mkPduHeader (if encrypted flags && is_fips r then [16; 0; 1; pad] else [0; 0; 0; 0]) (zeros 8) 0 (sec_bits flags) len) r;
      TRY fastpath_write_update_header (mkUpdateHeader cflags (zlen dst) code frag comp);
      TRY Stream_CheckAndLogRequiredCapacity (zlen dst + pad);
      Stream_Write dst;; (if negb (pad =? 0) then Stream_Zero pad else mret tt);; TRUE)
    (hdr ++ pdu_front r flags pad ++ fragment_body code frag comp cflags dst ++ zeros pad) (Some tt).
Proof.
  intros Hsh Hc Hf Hcomp Hdb Hpad Hlen Hmax ->. rewrite zlen_fragment_body in Hlen. pose proof (zlen_nonneg dst).
  pose proof (zlen_nonneg (pdu_front r flags pad)). unfold FASTPATH_MAX_PACKET_SIZE in Hmax. unfold fragment_body.
  rewrite <- !(app_assoc (fragment_header _ _ _ _ _)). rewrite app_assoc.
  eapply (puts_bind _ len _ _ _ _ (Some tt)); [lia| |].
  { apply puts_pdu_header; [done|destruct (comp =? 0); lia|unfold is_byte; lia|destruct (comp =? 0); lia]. }
  cbv iota. rewrite zlen_app. change (zlen ([64 * sec_bits flags] ++ _)) with 3.
  eapply (puts_bind _ (len - (3 + zlen (pdu_front r flags pad))) _ _ _ _ (Some tt)); [lia| |].
  { apply puts_fragment_header; try done; [unfold UINT16_MAX; destruct (comp =? 0); lia|]. destruct (Z.eqb_spec comp 0); lia. }
  cbv iota. rewrite zlen_fragment_header. apply puts_check; [lia|]. apply puts_Write; [lia|done|]. apply puts_optional_zero. lia.
Qed.

Lemma run_write_fragment r1 r2 fs flags code frag comp cflags dst :
  (encrypted flags = true → sec_sync r1 r2) → flags_shape flags → wf fs → st_capacity fs = FASTPATH_MAX_PACKET_SIZE →
  0 <= code < 16 → 0 <= frag < 4 → compression_ok comp cflags → bytes dst → zlen (fragment_body code frag comp cflags dst) <= 16366 →
  ∃ res fs', write_fragment r1 flags code frag comp cflags dst fs = Ret (res, fs') ∧
    fragment_written r1 flags (fragment_body code frag comp cflags dst) res fs'.
Proof.
  intros Hsync Hsh Hs Hcap Hc Hf Hcomp Hdb Hz. pose proof (zlen_nonneg dst). pose proof (zlen_fragment_body code frag comp cflags dst) as Hbz.
  assert (bytes (fragment_body code frag comp cflags dst)) as Hbb by (apply Forall_app_2; [by apply fragment_header_bytes|done]).
  set (body := fragment_body _ _ _ _ _) in *. pose proof (zlen_nonneg body).
  set (pad := if encrypted flags && is_fips r1 then fips_pad (zlen body) else 0).
  assert (0 <= pad < 8 ∧ zlen body + pad <= 16368) as [Hpad Hpz].
  { unfold pad. destruct (_ && _); [|lia]. unfold fips_pad. split; [apply Z.mod_pos_bound; lia|]. div_mod_lia. }
  unfold write_fragment. cbv zeta. fold (encrypted flags) (is_fips r1) (secure_checksum flags) (sec_bits flags).
  destruct (Z.gtb_spec (zlen dst) UINT16_MAX); [unfold UINT16_MAX in *; destruct (comp =? 0); lia|].
  unfold fastpath_get_update_header_size. cbn [uh_compression].
  replace (if negb (comp =? 0) then 4 else 3) with (zlen body - zlen dst) by (rewrite Hbz; destruct (comp =? 0); cbn [negb]; lia).
  replace (if encrypted flags && is_fips r1 then _ else 0) with pad.
  2:{ unfold pad. destruct (_ && _); [|done]. replace (zlen dst + (zlen body - zlen dst)) with (zlen body) by lia.
      symmetry. apply (fips_pad_code (zlen body)). lia. }
  unfold fastpath_get_update_pdu_header_size. cbn [ph_secFlags]. destruct (sec_bits_cases flags Hsh) as (_ & Hb0 & _). rewrite Hb0, negb_involutive.
  fold (is_fips r1). replace (if encrypted flags then if is_fips r1 then 15 else 11 else 3) with (3 + zlen (pdu_front r1 flags pad))
    by (rewrite front_size; destruct (encrypted flags), (is_fips r1); lia).
  replace (zlen dst + (zlen body - zlen dst + (3 + zlen (pdu_front r1 flags pad))) + pad) with (3 + zlen (pdu_front r1 flags pad) + zlen body + pad) by lia.
  set (len := 3 + zlen (pdu_front r1 flags pad) + zlen body + pad).
  assert (0 <= len <= FASTPATH_MAX_PACKET_SIZE) as Hlen.
  { unfold len, FASTPATH_MAX_PACKET_SIZE. rewrite front_size. destruct (encrypted flags), (is_fips r1); lia. }
  destruct (Z.gtb_spec len UINT16_MAX); [unfold UINT16_MAX, FASTPATH_MAX_PACKET_SIZE in *; lia|].
  unfold Stream_ResetPosition at 1. erewrite bind_Ret by done.
  set (hdr := [64 * sec_bits flags] ++ winpr_Data_Write_UINT16_BE (len + 0x8000)). assert (zlen hdr = 3) as H3 by done.
  assert (wf (set_pointer 0 fs)) as Hs0 by (destruct Hs; split; cbn; try done; lia).
  pose proof (wf_object _ Hs) as Ho. destruct (split_at len (st_buffer fs) ltac:(lia)) as (old & tl & Hb & Hol & _).
  pose proof (puts_fragment r1 flags code frag comp cflags dst pad len hdr Hsh Hc Hf Hcomp Hdb Hpad eq_refl (proj2 Hlen) eq_refl) as Hput.
  fold body in Hput. set (bs := hdr ++ pdu_front r1 flags pad ++ body ++ zeros pad) in Hput.
  assert (zlen bs = len) as Hzb by (unfold bs; rewrite !zlen_app, H3, zlen_zeros by lia; unfold len; lia). rewrite <- Hzb in Hput at 1.
  destruct (puts_at _ bs _ (set_pointer 0 fs) [] old tl Hput Hs0 Hb eq_refl ltac:(lia)) as (s1 & E & Hs1 & Hb1 & Hp1).
  erewrite bind_Ret by exact E. cbv iota. replace (zlen body - zlen dst + zlen dst + pad) with (zlen body + pad) by lia.
  change (zlen (@nil Z)) with 0 in Hp1. cbn [app] in Hb1.
  assert (st_capacity s1 = st_capacity fs) as Hc1.
  { pose proof (wf_object _ Hs1) as Ho1. rewrite Hb1, zlen_app in Ho1. rewrite Hb, zlen_app in Ho. lia. }
  destruct (run_protect r1 r2 s1 hdr (pdu_front r1 flags pad) body tl flags) as ([o r'] & s' & Er & Hres);
    [done|done|done|done|done|rewrite Hb1; unfold bs; by rewrite <- !app_assoc|fold pad; unfold len in Hzb; lia|lia|].
  fold pad in Er. exists (o, r'), s'. split; [exact Er|]. unfold fragment_written. cbn [fst snd] in *. destruct o; [|done].
  destruct Hres as (Hs' & Hc' & w & Hw & Ht & Hzw). split; [done|]. split; [by rewrite Hc', Hc1|]. exists w. split; [done|].
  assert (3 < len) by (unfold len; pose proof (zlen_nonneg (pdu_front r1 flags pad)); destruct (comp =? 0); lia).
  split; [|unfold FASTPATH_MAX_PACKET_SIZE in *; lia].
  rewrite Ht. unfold fp_packet, hdr. by replace (zlen w + 3) with len by lia.
Qed.

(** * Acceptance *)

Implicit Types (f : rdpFastPath ncrush xcrush).

(** The security flags and the number of events in the first byte. *)
Definition header_byte (header flags events : Z) : Prop :=
  Z.shiftr (Z.land header 0xC0) 6 = sec_bits flags ∧ Z.shiftr (Z.land header 0x3C) 2 = events.
Lemma update_header_byte flags : flags_shape flags → header_byte (64 * sec_bits flags) flags 0.
Proof.
  intros Hf. unfold header_byte, sec_bits. destruct (encrypted flags) eqn:E; [|rewrite (Hf E)]; destruct (secure_checksum flags); by vm_compute.
Qed.
Lemma run_fp_header f header flags events w s :
  header_byte header flags events → readable s → st_pointer s = 0 → remaining s = fp_packet header w → zlen w <= 16380 →
  fastpath_read_header_rdp f s = Ret ((Some (zlen w), fp_set_header (sec_bits flags) events f), adv 3 s) ∧
  readable (adv 3 s) ∧ remaining (adv 3 s) = w.
Proof.
  intros [H1 H2] Hs Hp Hr Hz. pose proof (zlen_nonneg w). unfold fp_packet in Hr.
  destruct (remaining_app _ _ _ Hs Hr) as (_ & Hs1 & Hr1). change (zlen [header]) with 1 in *.
  destruct (remaining_app _ _ _ Hs1 Hr1) as (_ & Hs3 & Hr3).
  change (zlen (winpr_Data_Write_UINT16_BE (zlen w + 3 + 0x8000))) with 2 in *. rewrite adv_adv in Hs3, Hr3. change (1 + 2) with 3 in *.
  split; [|done]. unfold fastpath_read_header_rdp. erewrite bind_Ret by by apply run_CheckLength.
  rewrite <- zlen_remaining, Hr, !zlen_app by done. change (zlen [header]) with 1.
  destruct (Z.ltb_spec (1 + (zlen (winpr_Data_Write_UINT16_BE (zlen w + 3 + 0x8000)) + zlen w)) 1);
    [pose proof (zlen_nonneg (winpr_Data_Write_UINT16_BE (zlen w + 3 + 0x8000))); lia|].
  erewrite bind_Ret by (apply (reads_UINT8 _ s _ Hs Hr)). change (zlen [header]) with 1. rewrite H1, H2.
  erewrite bind_Ret by (apply (reads_long_length (zlen w + 3) ltac:(lia) _ _ Hs1 Hr1)).
  change (zlen (winpr_Data_Write_UINT16_BE (zlen w + 3 + 32768))) with 2. rewrite adv_adv. change (1 + 2) with 3.
  erewrite bind_Ret by (apply run_GetPosition; by destruct Hs3). cbn [adv set_pointer st_pointer]. rewrite Hp.
  destruct (Z.gtb_spec (0 + 3) (zlen w + 3)); [lia|]. change (u16 (0 + 3)) with 3. by replace (zlen w + 3 - 3) with (zlen w) by lia.
Qed.

Lemma rdp_decrypt_flags r n flags flags' :
  secure_checksum flags = secure_checksum flags' → rdp_decrypt r n flags = rdp_decrypt r n flags'.
Proof. intros H. unfold rdp_decrypt, decrypt_rc4. fold (secure_checksum flags) (secure_checksum flags'). by rewrite H. Qed.
Lemma fp_wire_plain r flags body w r' : encrypted flags = false → fp_wire r flags body w r' → w = body ∧ r' = r.
Proof. unfold fp_wire. by intros ->. Qed.
Lemma run_fp_decrypt f r1 r1' flags body w s :
  (encrypted flags = true → sec_sync r1 (fp_rdp f)) → flags_shape flags → bytes body → 0 < zlen body <= UINT16_MAX →
  fp_wire r1 flags body w r1' → fp_encryptionFlags f = sec_bits flags → readable s → remaining s = w →
  ∃ r2' s', fastpath_decrypt f (zlen w) s = Ret ((Some (zlen body), fp_set_rdp r2' f), s') ∧ readable s' ∧ remaining s' = body ∧
    (encrypted flags = true → sec_sync r1' r2').
Proof.
  intros Hsync Hsh Hbb Hz Hw He Hs Hr. unfold fastpath_decrypt, fastpath_get_encryption_flags. rewrite He.
  destruct (sec_bits_cases flags Hsh) as (_ & _ & -> & Hck). destruct (encrypted flags) eqn:Een.
  - rewrite (Hck eq_refl). unfold fp_wire in Hw. rewrite Een in Hw.
    destruct (run_rdp_decrypt r1 (fp_rdp f) r1' flags body w s) as ([o r2'] & s' & E & Ha); [by apply Hsync|done..|].
    destruct Ha as (Ho & Hs' & _ & Hrd & Hrem). cbn [fst snd] in *. rewrite (rdp_decrypt_flags _ _ _ flags).
    2:{ by destruct (secure_checksum flags). }
    erewrite bind_Ret by exact E. exists r2', s'. rewrite Ho. done.
  - apply fp_wire_plain in Hw as [-> ->]; [|done]. exists (fp_rdp f), s. split; [by destruct f|]. done.
Qed.

Lemma run_append u src :
  (∀ n, malloc_ok n = true) → wf u → bytes src → st_capacity u + zlen src + 128 <= SIZE_MAX →
  ∃ u', (TRY Stream_EnsureRemainingCapacity (zlen src); Stream_Write src;; TRUE) u = Ret (Some tt, u') ∧ wf u' ∧
    written u' = written u ++ src ∧ st_pointer u' = st_pointer u + zlen src ∧
    st_capacity u' <= Z.max (st_capacity u) (st_pointer u + 2 * zlen src + 128).
Proof.
  intros Hmalloc Hu Hb Hcap. pose proof (zlen_nonneg src).
  assert (∀ n, zlen src <= n → puts n (Stream_Write src;; TRUE) src (Some tt)) as Hw.
  { intros n Hn. apply puts_nil_r, puts_Write; [done|done|apply puts_ret]. }
  destruct (Z.le_gt_cases (st_pointer u + zlen src) (st_capacity u)) as [Hf|Hf].
  - destruct (puts_ensure (zlen src) (zlen src) (λ o, match o with Some _ => Stream_Write src;; TRUE | None => FALSE end) src (Some tt))
      with (s := u) as (u' & E & []); [lia|by apply Hw|done|unfold fits; lia|].
    exists u'. split; [exact E|]. split; [done|]. split; [done|]. split; [done|]. lia.
  - destruct (writes_ensure (zlen src) (λ o, match o with Some _ => Stream_Write src;; TRUE | None => FALSE end) src (Some tt))
      with (s := u) as (u' & E & []); [done|lia|by apply Hw|done|lia|].
    exists u'. split; [exact E|]. split; [done|]. split; [done|]. split; [done|]. lia.
Qed.

(** [updateData] has grown to what the largest update needs, and no further. *)
Definition DATA_MAX : Z := 8589934592.

Section receiver.
Context {D : Type} (U : updates D).

(** The result of a packet with one fragment. *)
Definition fragment_result (o : outcome (Z * rdpFastPath ncrush xcrush * D)) (s : wStream) :
    outcome (Z * rdpFastPath ncrush xcrush * D * wStream) :=
  match o with
  | Abort => Abort
  | Ret (status, f, d) => Ret ((if status <? 0 then STATE_RUN_FAILED else STATE_RUN_SUCCESS, f, d), s)
  end.
Lemma run_recv_fragment c f d s code frag comp cflags dst src status bulk u :
  0 <= code < 16 → 0 <= frag < 4 → compression_ok comp cflags → bytes dst → zlen dst <= UINT16_MAX →
  (TRY Stream_EnsureRemainingCapacity (zlen src); Stream_Write src;; TRUE) (fp_updateData f) = Ret (Some tt, u) →
  bulk_decompress (fps_CompressionLevel c) dst cflags (fp_bulk f) = Ret (status, bulk, src) → 0 <= status →
  readable s → remaining s = fragment_body code frag comp cflags dst →
  ∃ s', fastpath_recv_updates U c f d s =
    fragment_result (add_fragment U c code frag (fp_set_updateData u (fp_set_bulk bulk f)) d) s'.
Proof.
  intros Hc Hf Hcomp Hdb Hdz Eu Hbulk Hst Hs Hr. pose proof (zlen_nonneg dst).
  assert (remaining s = fragment_body code frag comp cflags dst ++ []) as Hr0 by (by rewrite app_nil_r).
  pose proof (reads_fragment code frag comp cflags dst Hc Hf Hcomp Hdz Hdb s [] Hs Hr0) as Er. fold (fragment_body code frag comp cflags dst) in Er.
  destruct (remaining_app _ _ _ Hs Hr0) as (_ & Hs1 & Hr1). set (body := fragment_body _ _ _ _ _) in *.
  assert (zlen body >= 3) as Hb3 by (unfold body; rewrite zlen_fragment_body; destruct (comp =? 0); lia).
  exists (adv (zlen body) s).
  unfold fastpath_recv_updates. erewrite bind_Ret by by apply run_GetRemainingLength.
  rewrite <- zlen_remaining, Hr by done. destruct (Z.to_nat (zlen body)) as [|fuel] eqn:Ef; [lia|]. cbn [updates_loop].
  erewrite bind_Ret by by apply run_GetRemainingLength. rewrite <- zlen_remaining, Hr by done.
  destruct (Z.geb_spec (zlen body) 3); [|lia]. cbn [negb].
  unfold fastpath_recv_update_data at 1. unfold mbind at 1, SM_bind. erewrite bind_Ret by exact Er. cbv beta iota.
  erewrite bind_Ret by (apply run_lift; exact Hbulk). cbv beta iota zeta. destruct (Z.ltb_spec status 0); [lia|].
  erewrite bind_Ret by (apply run_lift; exact Eu). cbv beta iota zeta. unfold lift at 1.
  destruct (add_fragment U c code frag _ d) as [[[st f'] d']|]; [|done]. cbn [fragment_result]. destruct (Z.ltb_spec st 0); [done|].
  destruct fuel as [|fuel]; [lia|]. cbn [updates_loop].
  erewrite bind_Ret by by apply run_GetRemainingLength. rewrite <- zlen_remaining, Hr1 by done. done.
Qed.
End receiver.

(** * A fragment from end to end *)

Definition frag_max (c : fp_settings) (skip : bool) : Z :=
  if fps_CompressionEnabled c && negb skip then (if fps_CompressionLevel c =? 0 then 8192 else 16363) - 20 else 16363.
Lemma fragment_compressed before c s2 skip (b1 b2 : rdpBulk ncrush xcrush) src :
  (fps_CompressionEnabled c = true → bulk_sync (fps_CompressionLevel c) b1 b2) → bytes src → zlen src <= frag_max c skip →
  ∃ b1' comp cflags dst st b2', compress_fragment before c skip src b1 = Ret (b1', comp, cflags, dst) ∧ compression_ok comp cflags ∧
    bytes dst ∧ zlen dst + (if comp =? 0 then 3 else 4) <= 16366 ∧ zlen dst <= zlen src ∧
    bulk_decompress s2 dst cflags b2 = Ret (st, b2', src) ∧ 0 <= st ∧
    (fps_CompressionEnabled c = true → bulk_sync (fps_CompressionLevel c) b1' b2').
Proof.
  intros Hb Hs Hz. unfold compress_fragment. unfold frag_max in Hz. destruct (fps_CompressionEnabled c && negb skip) eqn:Ec.
  2:{ eexists _, 0, 0, src, _, _. split; [done|]. split; [by left|]. split; [done|]. split; [cbn; lia|]. split; [lia|]. split; [done|].
      split; [done|]. intros He. by destruct (Hb He). }
  apply andb_true_iff in Ec as [Ec _]. specialize (Hb Ec). pose proof Hb as [Hl _ _].
  assert ((fps_CompressionLevel c =? 0) = true ∧ zlen src <= 8190 ∨ (fps_CompressionLevel c =? 0) = false ∧ zlen src <= 16343) as Hz'.
  { destruct (fps_CompressionLevel c =? 0); lia. }
  destruct (bulk_packet before (fps_CompressionLevel c) s2 b1 b2 src Hb Hs) as (status & b1' & data & flags & st & b2' & E & Hst & Hf & Hdb & Hdz & Hf0 & Ed & Hst2 & Hb').
  { destruct Hz' as [[-> ?]|[-> ?]]; lia. }
  rewrite E. cbn [mbind outcome_bind]. destruct (Z.geb_spec status 0); [|lia]. cbn [andb].
  destruct (Z.eqb_spec flags 0) as [Hfl|Hfl]; cbn [negb].
  { rewrite Hfl in *. rewrite (Hf0 eq_refl) in *. eexists _, 0, 0, src, _, _. split; [done|]. split; [by left|]. split; [done|].
    split; [cbn; lia|]. split; [lia|]. split; [done|]. split; [done|]. done. }
  destruct (Z.leb_spec flags UINT8_MAX); [|lia]. eexists _, _, flags, data, _, _. split; [done|].
  split; [right; split; [done|unfold is_byte, UINT8_MAX in *; lia]|]. split; [done|]. split; [cbn; lia|]. done.
Qed.

Record fp_sync (c1 : fp_settings) (f1 f2 : rdpFastPath ncrush xcrush) : Prop := {
  fs_sec : fps_do_crypt c1 = true → sec_sync (fp_rdp f1) (fp_rdp f2);
  fs_bulk : fps_CompressionEnabled c1 = true → bulk_sync (fps_CompressionLevel c1) (fp_bulk f1) (fp_bulk f2);
  fs_fs : wf (fp_fs f1) ∧ st_capacity (fp_fs f1) = FASTPATH_MAX_PACKET_SIZE;
  fs_data : wf (fp_updateData f2) ∧ st_capacity (fp_updateData f2) <= DATA_MAX;
}.
Lemma fragment_flags_shape c :
  encrypted (fragment_flags c) = fps_do_crypt c ∧ flags_shape (fragment_flags c).
Proof. unfold flags_shape, fragment_flags. destruct (fps_do_crypt c), (fps_do_secure_checksum c); by vm_compute. Qed.

Lemma fragment_delivered before c1 c2 f1 f2 code kind skip src :
  crypto_available → fp_sync c1 f1 f2 → bytes src → zlen src <= frag_max c1 skip → 0 <= code < 16 → 0 <= kind < 4 →
  st_pointer (fp_updateData f2) <= UINT32_MAX →
  ∃ b1 comp cflags dst r1 fs, compress_fragment before c1 skip src (fp_bulk f1) = Ret (b1, comp, cflags, dst) ∧
    write_fragment (fp_rdp f1) (fragment_flags c1) code kind comp cflags dst (fp_fs f1) = Ret ((true, r1), fs) ∧
    ∃ f2', fp_sync c1 (fp_set_fs fs (fp_set_rdp r1 (fp_set_bulk b1 f1))) f2' ∧
      written (fp_updateData f2') = written (fp_updateData f2) ++ src ∧ fp_fragmentation f2' = fp_fragmentation f2 ∧
      ∀ (D : Type) (U : updates D) d, ∃ s', rdp_recv_fastpath_pdu U c2 f2 d (stream_of (ztake (st_length fs) (st_buffer fs))) =
        fragment_result (add_fragment U c2 code kind f2' d) s'.
Proof.
  intros Hav Hsync Hsb Hsz Hc Hk Hpos. pose proof (av_malloc Hav) as Hmalloc. destruct (fragment_flags_shape c1) as [He Hsh].
  destruct (fragment_compressed before c1 (fps_CompressionLevel c2) skip (fp_bulk f1) (fp_bulk f2) src (fs_bulk _ _ _ Hsync) Hsb Hsz)
    as (b1 & comp & cflags & dst & st & b2 & Ec & Hcomp & Hdb & Hdz & Hdl & Ed & Hst & Hbulk).
  exists b1, comp, cflags, dst. destruct (fs_fs _ _ _ Hsync) as [Hfs Hcap]. destruct (fs_data _ _ _ Hsync) as [Hu Hucap].
  destruct (run_write_fragment (fp_rdp f1) (fp_rdp f2) (fp_fs f1) (fragment_flags c1) code kind comp cflags dst) as ([o r1] & fs & Ew & Hw);
    [rewrite He; apply (fs_sec _ _ _ Hsync)|done..|rewrite zlen_fragment_body; lia|].
  unfold fragment_written in Hw. cbn [fst snd] in Hw. destruct o; [|done]. destruct Hw as (Hfs' & Hcap' & w & Hwire & Hpkt & Hwz).
  exists r1, fs. split; [done|]. split; [done|]. set (body := fragment_body code kind comp cflags dst) in *.
  assert (bytes body ∧ 0 < zlen body <= UINT16_MAX) as [Hbb Hbz].
  { split; [apply Forall_app_2; [by apply fragment_header_bytes|done]|]. unfold body. rewrite zlen_fragment_body. pose proof (zlen_nonneg dst).
    unfold UINT16_MAX. destruct (comp =? 0); lia. }
  assert (bytes (fp_packet (64 * sec_bits (fragment_flags c1)) w)) as Hpb.
  { rewrite <- Hpkt. apply Forall_ztake. by destruct Hfs'. }
  assert (readable (stream_of (fp_packet (64 * sec_bits (fragment_flags c1)) w))) as Hs.
  { apply stream_of_readable; [|done]. unfold fp_packet. rewrite !zlen_app. change (zlen [_]) with 1.
    change (zlen (winpr_Data_Write_UINT16_BE _)) with 2. unfold SIZE_MAX. lia. }
  destruct (run_fp_header f2 _ (fragment_flags c1) 0 w _ (update_header_byte _ Hsh) Hs eq_refl (remaining_stream_of _) (proj2 Hwz)) as (Eh & Hs3 & Hr3).
  set (f2a := fp_set_header _ 0 f2) in Eh.
  destruct (run_fp_decrypt f2a (fp_rdp f1) r1 (fragment_flags c1) body w (adv 3 (stream_of (fp_packet (64 * sec_bits (fragment_flags c1)) w))))
    as (r2 & s4 & Edec & Hs4 & Hr4 & Hsec'); [rewrite He; apply (fs_sec _ _ _ Hsync)|done..|].
  assert (zlen src <= 16363) as Hsz' by (unfold frag_max in Hsz; destruct (_ && _); [destruct (_ =? 0)|]; lia).
  destruct (run_append (fp_updateData f2) src) as (u & Eu & Hu' & Hw' & _ & Hc'); [done|done|done|unfold DATA_MAX, SIZE_MAX in *; lia|].
  exists (fp_set_updateData u (fp_set_bulk b2 (fp_set_rdp r2 f2a))). split; [split|split; [done|split; [done|]]].
  - cbn [fp_rdp fp_set_fs fp_set_rdp fp_set_bulk fp_set_updateData]. by rewrite <- He.
  - done.
  - done.
  - cbn [fp_updateData fp_set_updateData]. split; [done|]. unfold DATA_MAX, UINT32_MAX in *. lia.
  - intros D U d. rewrite Hpkt. unfold rdp_recv_fastpath_pdu. erewrite bind_Ret by exact Eh. cbv beta iota.
    destruct (Z.eqb_spec (zlen w) 0); [lia|]. erewrite bind_Ret by by apply run_CheckLength.
    rewrite <- zlen_remaining, Hr3 by done. destruct (Z.ltb_spec (zlen w) (zlen w)); [lia|].
    erewrite bind_Ret by exact Edec. cbv beta iota.
    apply (run_recv_fragment U c2 (fp_set_rdp r2 f2a) d s4 code kind comp cflags dst src st b2 u); try done.
    unfold UINT16_MAX. destruct (comp =? 0); lia.
Qed.
End fragments.
