(* ===== verification/FastPathSession.v ===== *)
(** A server's updates, sent on the fast path one after the other, reach the functions that
    handle them at the client: every fragment of every update, in order. *)

From S2P Require Import Prelude Stream StreamLogic Transmission Per Framing Rc4 Security SecurityCorrect Mppc MppcCorrect Bulk Mcs RdpPdu RdpPduCorrect RdpSession FastPath FastPathCorrect.
From stdpp Require Import prelude list numbers.
From Stdlib Require Import ZArith Lia.

#[local] Open Scope Z_scope.

Section session.
Context {HM : Malloc} {HD : Digests} {HC : Cipher} {HDL : DigestLaws} {HCL : CipherLaws} {ncrush xcrush : Codec}.
Implicit Types (f : rdpFastPath ncrush xcrush).

(** * The two ends *)

(** An update of the server: its code, whether it is not to be compressed, and the stream
    that ends at its position. *)
Record update_pdu : Type := mkUpdatePdu { up_code : Z; up_skip : bool; up_stream : wStream }.

(** The transport keeps the packets. *)
Definition record_packet (p : list Z) (w : list (list Z)) : bool * list (list Z) := (true, w ++ [p]).
Fixpoint send_updates (before : Z) (c : fp_settings) (us : list update_pdu) f (w : list (list Z)) :
    outcome (bool * rdpFastPath ncrush xcrush * list (list Z)) :=
  match us with
  | [] => Ret (true, f, w)
  | u :: us =>
      match fastpath_send_update_pdu record_packet before c (up_code u) (up_skip u) f w (up_stream u) with
      | Abort => Abort
      | Ret ((ok, f, w), _) => if negb ok then Ret (false, f, w) else send_updates before c us f w
      end
  end.

Section client.
Context {D : Type} (U : updates D).
Fixpoint recv_packets (c : fp_settings) (pkts : list (list Z)) f (d : D) : outcome (Z * rdpFastPath ncrush xcrush * D) :=
  match pkts with
  | [] => Ret (STATE_RUN_SUCCESS, f, d)
  | p :: pkts =>
      match rdp_recv_fastpath_pdu U c f d (stream_of p) with
      | Abort => Abort
      | Ret ((status, f, d), _) => if status =? STATE_RUN_SUCCESS then recv_packets c pkts f d else Ret (status, f, d)
      end
  end.

(** The function behind [code] takes [payload] and goes from [d] to [d']. *)
Definition accepts (code : Z) (payload : list Z) (d d' : D) : Prop :=
  ∀ s, readable s → st_pointer s = 0 → remaining s = payload →
    ∃ status s', dispatch_update U code d s = Ret ((true, status, d'), s') ∧ 0 <= status ∧ wf s' ∧ st_capacity s' = st_capacity s.
Inductive handled : list update_pdu → D → D → Prop :=
  | handled_nil d : handled [] d d
  | handled_cons u us d d1 d2 :
      accepts (up_code u) (written (up_stream u)) d d1 → handled us d1 d2 → handled (u :: us) d d2.

Lemma recv_packets_app c pkts1 pkts2 f d f1 d1 :
  recv_packets c pkts1 f d = Ret (STATE_RUN_SUCCESS, f1, d1) → recv_packets c (pkts1 ++ pkts2) f d = recv_packets c pkts2 f1 d1.
Proof.
  revert f d. induction pkts1 as [|p pkts1 IH]; intros f d; cbn; [by intros [= -> ->]|].
  destruct (rdp_recv_fastpath_pdu U c f d (stream_of p)) as [[[[st f'] d'] s']|]; [|done].
  destruct (Z.eqb_spec st STATE_RUN_SUCCESS); [apply IH|]. by intros [= -> _ _].
Qed.

(** * Complete updates *)

Lemma run_update code u d d' :
  accepts code (written u) d d' → wf u →
  ∃ status u', fastpath_recv_update U code d u = Ret ((status, d'), u') ∧ 0 <= status ∧ wf u' ∧ st_pointer u' = 0 ∧
    st_capacity u' = st_capacity u.
Proof.
  intros Ha Hu. pose proof Hu as []. unfold fastpath_recv_update, Stream_SealLength. unfold mbind at 1, SM_bind.
  destruct (Z.leb_spec 0 (st_pointer u)); [|lia]. destruct (Z.leb_spec (st_pointer u) (st_capacity u)); [|lia]. cbn [andb].
  unfold Stream_ResetPosition at 1. erewrite bind_Ret by done. set (s := set_pointer 0 _).
  destruct (Ha s) as (st & s' & E & Hst & Hs' & Hc); [by split; [split; cbn; lia || done|cbn]|done| |].
  { unfold remaining, rem, zslice, written. cbn. rewrite zdrop_nonpos by lia. f_equal. lia. }
  erewrite bind_Ret by exact E. cbv beta iota. unfold Stream_ResetPosition. erewrite bind_Ret by done. cbn [negb].
  do 2 eexists. split; [done|]. split; [done|]. split; [|by cbn]. destruct Hs'. by split; cbn; lia || done.
Qed.

(** The client between two updates, and inside one. *)
Definition idle f : Prop := fp_fragmentation f = -1 ∧ st_pointer (fp_updateData f) = 0.
Definition partial (fragment : Z) f : Prop :=
  if fragment =? 0 then fp_fragmentation f = -1
  else fp_fragmentation f = FASTPATH_FRAGMENT_FIRST ∨ fp_fragmentation f = FASTPATH_FRAGMENT_NEXT.

Lemma run_add_next c code fragment total f d :
  partial fragment f → 0 < total → 0 <= fragment → st_pointer (fp_updateData f) <= fps_MultifragMaxRequestSize c →
  ∃ n, add_fragment U c code (fragment_kind fragment total) f d = Ret (0, fp_set_fragmentation n f, d) ∧
    partial (fragment + 1) (fp_set_fragmentation n f).
Proof.
  intros Hp Ht Hf Hm. unfold partial, fragment_kind in *. destruct (Z.eqb_spec total 0); [lia|]. destruct (Z.eqb_spec (fragment + 1) 0); [lia|].
  unfold add_fragment. destruct (Z.eqb_spec fragment 0).
  - change (FASTPATH_FRAGMENT_FIRST =? FASTPATH_FRAGMENT_SINGLE) with false. cbv iota zeta. rewrite Hp.
    destruct (Z.gtb_spec (st_pointer (fp_updateData f)) (fps_MultifragMaxRequestSize c)); [lia|]. eexists. split; [done|]. by left.
  - change (FASTPATH_FRAGMENT_NEXT =? FASTPATH_FRAGMENT_SINGLE) with false. cbv iota zeta.
    destruct (Z.gtb_spec (st_pointer (fp_updateData f)) (fps_MultifragMaxRequestSize c)); [lia|].
    destruct Hp as [-> | ->]; (eexists; split; [done|]; by right).
Qed.
Lemma run_add_last c code fragment f d d' :
  partial fragment f → wf (fp_updateData f) → accepts code (written (fp_updateData f)) d d' →
  st_pointer (fp_updateData f) <= fps_MultifragMaxRequestSize c →
  ∃ status u, add_fragment U c code (fragment_kind fragment 0) f d = Ret (status, fp_set_fragmentation (-1) (fp_set_updateData u f), d') ∧
    0 <= status ∧ wf u ∧ st_pointer u = 0 ∧ st_capacity u = st_capacity (fp_updateData f).
Proof.
  intros Hp Hu Ha Hm. destruct (run_update _ _ _ _ Ha Hu) as (status & u & E & Hst & Hrest).
  exists status, u. split; [|done].
  assert (∀ g : rdpFastPath ncrush xcrush, fp_updateData g = fp_updateData f → finish_update U code g d = Ret (status, fp_set_updateData u g, d')) as Hfin.
  { intros g Hg. unfold finish_update. rewrite Hg, E. by destruct (Z.ltb_spec status 0); [lia|]. }
  unfold add_fragment, fragment_kind, partial in *. cbn [Z.eqb]. destruct (fragment =? 0).
  - change (FASTPATH_FRAGMENT_SINGLE =? FASTPATH_FRAGMENT_SINGLE) with true. cbv iota. rewrite Hp. cbn [negb Z.eqb Pos.eqb].
    rewrite Hfin by done. destruct f; cbn in *; by subst.
  - change (FASTPATH_FRAGMENT_LAST =? FASTPATH_FRAGMENT_SINGLE) with false. cbv iota zeta.
    destruct (Z.gtb_spec (st_pointer (fp_updateData f)) (fps_MultifragMaxRequestSize c)); [lia|].
    destruct Hp as [-> | ->]; cbn -[finish_update]; by rewrite Hfin.
Qed.
End client.

(** * All fragments of an update *)

Section exchange.
Context (before : Z) (c1 c2 : fp_settings) {D : Type} (U : updates D).
Context (Hav : crypto_available).

(** What the server has sent and the client has made of it. *)
Definition exchanged (pkts : list (list Z)) f1' f2 d d' : Prop :=
  ∃ f2', recv_packets U c2 pkts f2 d = Ret (STATE_RUN_SUCCESS, f2', d') ∧ fp_sync c1 f1' f2' ∧ idle f2' ∧
    Forall (λ p, zlen p <= FASTPATH_MAX_PACKET_SIZE) pkts.

Lemma packet_size f1 f2 : fp_sync c1 f1 f2 → zlen (ztake (st_length (fp_fs f1)) (st_buffer (fp_fs f1))) <= FASTPATH_MAX_PACKET_SIZE.
Proof. intros []. destruct fs_fs as [[] <-]. rewrite zlen_ztake. lia. Qed.
Lemma recv_step pkt pkts f2 d f2a status f2b d1 f1' d' s' :
  rdp_recv_fastpath_pdu U c2 f2 d (stream_of pkt) = fragment_result (Ret (status, f2a, d1)) s' → 0 <= status → f2b = f2a →
  zlen pkt <= FASTPATH_MAX_PACKET_SIZE → exchanged pkts f1' f2b d1 d' → exchanged (pkt :: pkts) f1' f2 d d'.
Proof.
  intros E Hst -> Hz (f2' & Er & Hs & Hi & Hp). exists f2'. cbn [recv_packets]. rewrite E. cbn [fragment_result].
  destruct (Z.ltb_spec status 0); [lia|]. change (STATE_RUN_SUCCESS =? STATE_RUN_SUCCESS) with true. cbv iota.
  split; [done|]. split; [done|]. split; [done|]. by apply Forall_cons_2.
Qed.
Lemma sync_fragmentation f1 f2 n u :
  fp_sync c1 f1 f2 → wf u → st_capacity u = st_capacity (fp_updateData f2) → fp_sync c1 f1 (fp_set_fragmentation n (fp_set_updateData u f2)).
Proof. intros [] Hu Hc. split; try done. cbn. rewrite Hc. by destruct fs_data. Qed.

(** One turn of the loop: a packet that appends [src] to what the client has. *)
Lemma fragment_sent fuel code skip fragment f1 f2 w s pre rest tl :
  let n := Z.min (zlen rest) (frag_max c1 skip) in
  0 <= code < 16 → 0 < zlen rest ∨ fragment = 0 → wf s → st_buffer s = pre ++ rest ++ tl → st_pointer s = zlen pre →
  fp_sync c1 f1 f2 → st_pointer (fp_updateData f2) <= UINT32_MAX →
  ∃ src rest' f1a f2a pkt, rest = src ++ rest' ∧ zlen src = n ∧ wf (adv n s) ∧
    send_fragments record_packet before (S fuel) c1 code skip fragment (zlen rest) (frag_max c1 skip) f1 w s =
      send_fragments record_packet before fuel c1 code skip (fragment + 1) (zlen rest') (frag_max c1 skip) f1a (w ++ [pkt]) (adv n s) ∧
    zlen pkt <= FASTPATH_MAX_PACKET_SIZE ∧ fp_sync c1 f1a f2a ∧ written (fp_updateData f2a) = written (fp_updateData f2) ++ src ∧
    fp_fragmentation f2a = fp_fragmentation f2 ∧
    ∀ d, ∃ s', rdp_recv_fastpath_pdu U c2 f2 d (stream_of pkt) =
      fragment_result (add_fragment U c2 code (fragment_kind fragment (zlen rest')) f2a d) s'.
Proof.
  intros n Hc Hgo Hs Hb Hp Hsync Hmax. pose proof (zlen_nonneg rest). pose proof (zlen_nonneg pre). pose proof (zlen_nonneg tl).
  assert (0 < frag_max c1 skip) as Hfm by (unfold frag_max; destruct (_ && _); [destruct (_ =? 0)|]; lia).
  destruct (split_at n rest ltac:(lia)) as (src & rest' & -> & Hsrc & Hrest'). pose proof (zlen_nonneg rest').
  rewrite <- app_assoc in Hb. pose proof (wf_object _ Hs) as Ho. rewrite Hb, !zlen_app in Ho.
  assert (bytes src) as Hsb.
  { pose proof (wf_bytes _ Hs) as Hbb. rewrite Hb in Hbb. by apply Forall_app in Hbb as [_ [? _]%Forall_app]. }
  set (kind := fragment_kind fragment (zlen rest')).
  assert (0 <= kind < 4) as Hk by (unfold kind, fragment_kind; destruct (zlen rest' =? 0), (fragment =? 0); by vm_compute).
  destruct (fragment_delivered before c1 c2 f1 f2 code kind skip src)
    as (b1 & comp & cflags & dst & r1 & fs & Ec & Ew & f2a & Hsync' & Hw' & Hfrag & Hrecv); [done|done|done|lia|done|done|lia|].
  exists src, rest', (fp_set_fs fs (fp_set_rdp r1 (fp_set_bulk b1 f1))), f2a, (ztake (st_length fs) (st_buffer fs)).
  split; [done|]. split; [done|]. split; [destruct Hs; split; cbn; lia || done|]. split.
  2:{ split; [apply (packet_size _ _ Hsync')|]. split; [done|]. split; [done|]. split; [done|]. apply Hrecv. }
  cbn [send_fragments]. replace (negb ((zlen (src ++ rest') >? 0) || (fragment =? 0))) with false by (destruct Hgo; lia).
  replace (if zlen (src ++ rest') >? frag_max c1 skip then _ else _) with n by (unfold n; destruct (Z.gtb_spec (zlen (src ++ rest')) (frag_max c1 skip)); lia).
  erewrite bind_Ret by by apply run_GetPosition. rewrite Hp.
  erewrite bind_Ret by (apply (run_stream_get pre src (rest' ++ tl)); [done|done|done|lia]).
  rewrite zlen_app. replace (zlen src + zlen rest' - n) with (zlen rest') by lia. fold kind.
  erewrite bind_Ret by (apply run_lift; exact Ec). cbv beta iota zeta. cbn [fp_rdp fp_set_bulk fp_fs].
  erewrite bind_Ret by (apply run_lift; exact Ew). cbv beta iota zeta. cbn [negb record_packet].
  by erewrite bind_Ret by (apply run_Seek; [done|lia]).
Qed.

Lemma fragments_delivered fuel : ∀ code skip fragment f1 f2 w s pre rest tl d d',
  (Z.to_nat (zlen rest) < fuel)%nat → 0 <= code < 16 → 0 <= fragment → 0 < zlen rest ∨ fragment = 0 →
  wf s → st_buffer s = pre ++ rest ++ tl → st_pointer s = zlen pre → fp_sync c1 f1 f2 → partial fragment f2 →
  zlen (written (fp_updateData f2)) + zlen rest <= fps_MultifragMaxRequestSize c2 → fps_MultifragMaxRequestSize c2 <= UINT32_MAX →
  accepts U code (written (fp_updateData f2) ++ rest) d d' →
  ∃ f1' s' pkts, send_fragments record_packet before fuel c1 code skip fragment (zlen rest) (frag_max c1 skip) f1 w s =
    Ret ((true, f1', w ++ pkts), s') ∧ exchanged pkts f1' f2 d d'.
Proof.
  induction fuel as [|fuel IH]; intros code skip fragment f1 f2 w s pre rest tl d d' Hfuel Hc Hfr Hgo Hs Hb Hp Hsync Hpart Hmulti Hmax Hacc; [lia|].
  pose proof (zlen_nonneg rest). destruct (fs_data _ _ _ Hsync) as [Hu _]. rewrite zlen_written in Hmulti by done.
  destruct (fragment_sent fuel code skip fragment f1 f2 w s pre rest tl)
    as (src & rest' & f1a & f2a & pkt & -> & Hsrc & Hs' & -> & Hpz & Hsync' & Hw' & Hfrag & Hrecv); [done..|lia|].
  set (n := Z.min _ _) in *. rewrite zlen_app in *. pose proof (zlen_nonneg rest'). destruct (Hrecv d) as (s2 & Er). clear Hrecv.
  assert (partial fragment f2a) as Hpart' by (unfold partial in *; by rewrite Hfrag).
  destruct (fs_data _ _ _ Hsync') as [Hu' _].
  assert (st_pointer (fp_updateData f2a) = st_pointer (fp_updateData f2) + zlen src) as Hpu.
  { rewrite <- (zlen_written _ Hu'), Hw', zlen_app, zlen_written; done. }
  destruct (Z.eq_dec (zlen rest') 0) as [Hz|Hz].
  - apply zlen_nil_inv in Hz as ->. change (zlen (@nil Z)) with 0 in *. rewrite app_nil_r, <- Hw' in Hacc.
    destruct (run_add_last U c2 code fragment f2a d d') as (st & u & Ea & Hst & Hu2 & Hp2 & Hc2); [done|done|done|lia|].
    rewrite Ea in Er. exists f1a, (adv n s), [pkt]. split.
    { destruct fuel; cbn [send_fragments]; (destruct (Z.eqb_spec (fragment + 1) 0); [lia|]); done. }
    eapply (recv_step pkt []); [exact Er|done|done|done|]. eexists. split; [done|]. split; [by apply sync_fragmentation|]. done.
  - assert (0 < frag_max c1 skip) as Hfm by (unfold frag_max; destruct (_ && _); [destruct (_ =? 0)|]; lia).
    assert (0 < zlen src) by (unfold n in Hsrc; rewrite ?zlen_app in Hsrc; lia).
    destruct (run_add_next U c2 code fragment (zlen rest') f2a d Hpart') as (m & Ea & Hpart2); [lia|done|lia|]. rewrite Ea in Er.
    destruct (IH code skip (fragment + 1) f1a (fp_set_fragmentation m f2a) (w ++ [pkt]) (adv n s) (pre ++ src) rest' tl d d')
      as (f1' & s' & pkts & Es & Hex); try done; try lia.
    + cbn [adv set_pointer st_buffer]. by rewrite Hb, <- !app_assoc.
    + cbn. rewrite zlen_app. lia.
    + by destruct Hsync'.
    + cbn. rewrite zlen_written by done. lia.
    + cbn. by rewrite Hw', <- app_assoc.
    + exists f1', s', (pkt :: pkts). split; [by rewrite Es, <- app_assoc|]. by eapply recv_step.
Qed.

(** * All updates *)

(** An update fits what either end allows; [fastpath_update_pdu_init] and the writers of the
    server make the stream. *)
Definition sendable (u : update_pdu) : Prop :=
  0 <= up_code u < 16 ∧ wf (up_stream u) ∧
  st_pointer (up_stream u) <= fps_MultifragMaxRequestSize c1 ∧ st_pointer (up_stream u) <= fps_MultifragMaxRequestSize c2.

Lemma max_fragment_sync skip f1 f2 :
  fp_sync c1 f1 f2 → ∃ b, max_fragment c1 skip f1 = (frag_max c1 skip, fp_set_bulk b f1) ∧ fp_sync c1 (fp_set_bulk b f1) f2.
Proof.
  intros Hs. unfold max_fragment, frag_max. destruct (fps_CompressionEnabled c1 && negb skip) eqn:E.
  2:{ exists (fp_bulk f1). by destruct f1. }
  apply andb_true_iff in E as [E _]. destruct (fs_bulk _ _ _ Hs E) as [Hl Hb Ho].
  exists (bulk_compression_max_size (fps_CompressionLevel c1) (fp_bulk f1)).2. split.
  - assert (fps_CompressionLevel c1 = 0 ∨ fps_CompressionLevel c1 = 1) as [-> | ->] by lia; done.
  - destruct Hs. by split; [|intros _; split| |].
Qed.

Lemma update_delivered u f1 f2 w d d' :
  fps_FastPathOutput c1 = true → fps_MultifragMaxRequestSize c2 <= UINT32_MAX → fp_sync c1 f1 f2 → idle f2 → sendable u →
  accepts U (up_code u) (written (up_stream u)) d d' →
  ∃ f1' s' pkts, fastpath_send_update_pdu record_packet before c1 (up_code u) (up_skip u) f1 w (up_stream u) =
    Ret ((true, f1', w ++ pkts), s') ∧ exchanged pkts f1' f2 d d'.
Proof.
  intros Hout Hmax Hsync [Hi0 Hi1] (Hc & Hs & Hm1 & Hm2) Ha. destruct u as [code skip s]. cbn [up_code up_skip up_stream] in *.
  destruct (max_fragment_sync skip f1 f2 Hsync) as (b & Em & Hsync'). unfold fastpath_send_update_pdu. rewrite Em.
  erewrite bind_Ret by by apply run_GetPosition. unfold Stream_ResetPosition at 1. erewrite bind_Ret by done.
  rewrite Hout. cbn [negb]. destruct (Z.gtb_spec (st_pointer s) (fps_MultifragMaxRequestSize c1)); [lia|].
  destruct (fs_data _ _ _ Hsync) as [Hu _]. pose proof (zlen_written _ Hu) as Hz0. rewrite Hi1 in Hz0. apply zlen_nil_inv in Hz0.
  pose proof (zlen_written s Hs) as Hz. pose proof Hs as [].
  rewrite <- Hz. apply (fragments_delivered _ code skip 0 _ f2 w _ [] (written s) (zdrop (st_pointer s) (st_buffer s)) d d'); try done.
  - lia.
  - by right.
  - split; cbn; lia || done.
  - cbn. unfold written. symmetry. apply ztake_zdrop.
  - rewrite Hz0. change (zlen (@nil Z)) with 0. lia.
  - by rewrite Hz0.
Qed.

Lemma updates_delivered us : ∀ f1 f2 w d d',
  fps_FastPathOutput c1 = true → fps_MultifragMaxRequestSize c2 <= UINT32_MAX → fp_sync c1 f1 f2 → idle f2 →
  Forall sendable us → handled U us d d' →
  ∃ f1' pkts, send_updates before c1 us f1 w = Ret (true, f1', w ++ pkts) ∧ exchanged pkts f1' f2 d d'.
Proof.
  induction us as [|u us IH]; intros f1 f2 w d d' Hout Hmax Hsync Hi Hus Hh; inversion Hh as [|? ? ? d1 ? Ha Hh']; subst.
  - exists f1, []. rewrite app_nil_r. split; [done|]. by exists f2.
  - apply Forall_cons_1 in Hus as [Hu Hus].
    destruct (update_delivered u f1 f2 w d d1 Hout Hmax Hsync Hi Hu Ha) as (f1a & s' & pkts1 & E & f2a & Er & Hsync' & Hi' & Hz).
    destruct (IH f1a f2a (w ++ pkts1) d1 d') as (f1' & pkts2 & Es & f2' & Er2 & Hsync2 & Hi2 & Hz2); [done..|].
    exists f1', (pkts1 ++ pkts2). cbn [send_updates]. rewrite E. cbn [negb]. rewrite Es, <- app_assoc. split; [done|].
    exists f2'. erewrite recv_packets_app by exact Er. split; [done|]. split; [done|]. split; [done|]. by apply Forall_app_2.
Qed.
End exchange.

(** The two ends as the connection leaves them. *)
Lemma bulk_new_sync level s2 m1 m2 (b1 b2 : rdpBulk ncrush xcrush) :
  0 <= level <= 1 → bulk_new level m1 = Some b1 → bulk_new s2 m2 = Some b2 → bulk_sync level b1 b2.
Proof.
  intros Hl. unfold bulk_new. destruct (@codec_new ncrush false), (@codec_new ncrush true); try done.
  destruct (@codec_new xcrush false), (@codec_new xcrush true); try done. intros [= <-] [= <-].
  split; [done|exact (in_sync_new level)|]. split; [by apply (zlen_zeros 65536)|apply bytes_zeros].
Qed.
Lemma fastpath_new_spec r b f :
  fastpath_new r b = Some f → fp_rdp f = r ∧ fp_bulk f = b ∧ idle f ∧
  (wf (fp_fs f) ∧ st_capacity (fp_fs f) = FASTPATH_MAX_PACKET_SIZE) ∧ wf (fp_updateData f) ∧ st_capacity (fp_updateData f) = FASTPATH_MAX_PACKET_SIZE.
Proof.
  unfold fastpath_new, Stream_New, FASTPATH_MAX_PACKET_SIZE. destruct (malloc_ok 40); [|done]. cbn [negb andb Z.eqb].
  destruct (malloc_ok 56); [|done]. destruct (malloc_ok 16383); [|done]. intros [= <-]. cbn -[zeros].
  assert (wf (mkStream (zeros 16383) 0 16383 16383 true true)) by (split; cbn -[zeros]; lia || apply bytes_zeros || (by rewrite zlen_zeros) || done).
  done.
Qed.

(** C4. Updates over the fast path, from the creation of both ends.  Any number of updates that the
    server sends with [fastpath_send_update_pdu], each of any size up to the limit for
    fragmented updates, leave the server in packets of at most 16383 bytes, and the
    [rdp_recv_fastpath_pdu] of the client hands every one to the function that belongs to its
    code, whole, unchanged and in order.  That holds with and without encryption (RC4 and FIPS), with MPPC at
    either level or none, and for updates excepted from compression between others. *)
Theorem fastpath_session {D : Type} (U : updates D) before c1 c2 r1 r2 m1 m2 (b1 b2 : rdpBulk ncrush xcrush) f1 f2 us d d' :
  crypto_available → (fps_do_crypt c1 = true → sec_sync r1 r2) →
  (fps_CompressionEnabled c1 = true → 0 <= fps_CompressionLevel c1 <= 1) →
  fps_FastPathOutput c1 = true → fps_MultifragMaxRequestSize c2 <= UINT32_MAX →
  bulk_new (fps_CompressionLevel c1) m1 = Some b1 → bulk_new (fps_CompressionLevel c2) m2 = Some b2 →
  fastpath_new r1 b1 = Some f1 → fastpath_new r2 b2 = Some f2 →
  Forall (sendable c1 c2) us → handled U us d d' →
  ∃ f1' pkts f2', send_updates before c1 us f1 [] = Ret (true, f1', pkts) ∧
    Forall (λ p, zlen p <= FASTPATH_MAX_PACKET_SIZE) pkts ∧
    recv_packets U c2 pkts f2 d = Ret (STATE_RUN_SUCCESS, f2', d') ∧ idle f2'.
Proof.
  intros Hav Hsec Hlev Hout Hmax Hb1 Hb2 Hf1 Hf2 Hus Hh.
  destruct (fastpath_new_spec _ _ _ Hf1) as (Hr1 & Hk1 & _ & Hfs & _). destruct (fastpath_new_spec _ _ _ Hf2) as (Hr2 & Hk2 & Hi & _ & Hd & Hdc).
  destruct (updates_delivered before c1 c2 U Hav us f1 f2 [] d d') as (f1' & pkts & E & f2' & Er & _ & Hi' & Hz); try done.
  { split; [by rewrite Hr1, Hr2| |done|by rewrite Hdc].
    intros He. rewrite Hk1, Hk2. by eapply bulk_new_sync; [apply Hlev| |]. }
  by exists f1', pkts, f2'.
Qed.
End session.

(** * Witnesses *)

#[local] Existing Instances model_malloc model_digests model_cipher model_digest_laws model_cipher_laws.
(** A codec that is not there. *)
Definition no_codec : Codec := {|
  codec_ctx := unit; codec_new _ := Some tt; codec_reset _ _ := tt;
  codec_decompress _ _ _ := Ret (-1, tt, None); codec_compress _ _ flags := Ret (-1, tt, flags, []);
|}.

(** A client that keeps the surface commands, and takes nothing else. *)
Definition keep_rest (d : list (list Z)) : SM (bool * list (list Z)) :=
  n ← Stream_GetRemainingLength;
  pos ← Stream_GetPosition;
  data ← stream_get pos n;
  mret (true, d ++ [data]).
Definition keeper : updates (list (list Z)) :=
  let no d := mret (false, d) in
  mkUpdates (λ d, (true, d)) (λ d, (true, d)) no no no (λ d, (false, d)) keep_rest (λ _ d, (false, d)) no no no no no.
Lemma keeper_accepts payload d : accepts keeper FASTPATH_UPDATETYPE_SURFCMDS payload d (d ++ [payload]).
Proof.
  intros s Hs Hp Hr. destruct (readable_split _ _ Hs Hr) as (pre & tl & Hb & Hpp & Hl). pose proof Hs as [Hw _].
  exists 1, s. split; [|done]. unfold dispatch_update. cbn [Z.eqb Pos.eqb orb FASTPATH_UPDATETYPE_SURFCMDS FASTPATH_UPDATETYPE_ORDERS
    FASTPATH_UPDATETYPE_BITMAP FASTPATH_UPDATETYPE_PALETTE FASTPATH_UPDATETYPE_SYNCHRONIZE].
  unfold fastpath_recv_update_paint_block. cbn [update_begin_paint update_end_paint update_recv_surfcmds keeper negb].
  unfold keep_rest. unfold mbind, SM_bind. rewrite run_GetRemainingLength by done. rewrite run_GetPosition by done.
  rewrite (run_stream_get pre payload tl s); [done|done|done|done|]. rewrite <- zlen_remaining by done. by rewrite Hr.
Qed.

Definition fp_stream (payload : list Z) : wStream := mkStream payload (zlen payload) (zlen payload) (zlen payload) true true.
Lemma fp_stream_written payload : written (fp_stream payload) = payload.
Proof. unfold written. cbn. by apply ztake_all. Qed.
Lemma fp_stream_sendable payload skip c :
  bytes payload → zlen payload <= fps_MultifragMaxRequestSize c → fps_MultifragMaxRequestSize c <= UINT32_MAX →
  sendable c c (mkUpdatePdu FASTPATH_UPDATETYPE_SURFCMDS skip (fp_stream payload)).
Proof.
  intros Hb Hz Hm. pose proof (zlen_nonneg payload). split; [done|]. unfold UINT32_MAX in Hm.
  split; [split; cbn; done || lia || (unfold SIZE_MAX; lia)|]. done.
Qed.
Definition server_settings : fp_settings := mkFpSettings 1 true true 65535 true true.
Definition fp_rdp0 (server : bool) : rdpRdp := established_rdp ENCRYPTION_METHOD_128BIT server.
Definition fp_end (r : rdpRdp) : option (rdpFastPath no_codec no_codec) :=
  b ← @bulk_new no_codec no_codec 1 metrics_new; fastpath_new r b.
Definition two_updates : list update_pdu :=
  [mkUpdatePdu FASTPATH_UPDATETYPE_SURFCMDS false (fp_stream (zeros 40000)); mkUpdatePdu FASTPATH_UPDATETYPE_SURFCMDS true (fp_stream [1; 2; 3])].

Lemma fastpath_session_witness :
  ∃ f1 f2 f1' pkts f2', fp_end (fp_rdp0 true) = Some f1 ∧ fp_end (fp_rdp0 false) = Some f2 ∧
    send_updates 0 server_settings two_updates f1 [] = Ret (true, f1', pkts) ∧
    Forall (λ p, zlen p <= FASTPATH_MAX_PACKET_SIZE) pkts ∧
    recv_packets keeper server_settings pkts f2 [] = Ret (STATE_RUN_SUCCESS, f2', [zeros 40000; [1; 2; 3]]) ∧ idle f2'.
Proof.
  destruct (@bulk_new no_codec no_codec 1 metrics_new) as [b|] eqn:Eb; [|done].
  destruct (fastpath_new (fp_rdp0 true) b) as [f1|] eqn:E1; [|done]. destruct (fastpath_new (fp_rdp0 false) b) as [f2|] eqn:E2; [|done].
  assert (Forall (sendable server_settings server_settings) two_updates) as Hus.
  { apply Forall_cons_2; [apply fp_stream_sendable; [apply bytes_zeros|by rewrite zlen_zeros|by vm_compute]|].
    apply Forall_cons_2; [|apply Forall_nil_2]. apply fp_stream_sendable; [|by vm_compute..].
    by apply (bool_decide_unpack _); vm_compute. }
  assert (handled keeper two_updates [] [zeros 40000; [1; 2; 3]]) as Hh.
  { eapply handled_cons; [|eapply handled_cons; [|apply handled_nil]]; cbn [up_code up_stream]; rewrite fp_stream_written.
    - apply keeper_accepts.
    - apply (keeper_accepts [1; 2; 3] [zeros 40000]). }
  destruct (fastpath_session keeper 0 server_settings server_settings (fp_rdp0 true) (fp_rdp0 false) metrics_new metrics_new b b f1 f2
    two_updates [] [zeros 40000; [1; 2; 3]]) as (f1' & pkts & f2' & H).
  - exact model_available.
  - intros _. apply (established_duplex ENCRYPTION_METHOD_128BIT). left. by right; right.
  - by intros _.
  - reflexivity.
  - by vm_compute.
  - exact Eb.
  - exact Eb.
  - exact E1.
  - exact E2.
  - exact Hus.
  - exact Hh.
  - exists f1, f2, f1', pkts, f2'. unfold fp_end. rewrite Eb. by cbn [mbind option_bind].
Defined.

(** The same by evaluation: two updates under either kind of method, the first compressed at level 0. *)
Example fastpath_runs : Forall (λ method,
  let r server := established_rdp method server in
  let c := mkFpSettings 0 true true 65535 true true in
  let text := flat_map (λ _, map Z.of_nat (seq 0 30)) (seq 0 10) in
  match fp_end (r true), fp_end (r false) with
  | Some f1, Some f2 =>
      match send_updates 0 c [mkUpdatePdu FASTPATH_UPDATETYPE_SURFCMDS false (fp_stream text);
        mkUpdatePdu FASTPATH_UPDATETYPE_SURFCMDS true (fp_stream text)] f1 [] with
      | Ret (true, _, pkts) =>
          zlen (nth 0 pkts []) < 100 < zlen (nth 1 pkts []) ∧ match recv_packets keeper c pkts f2 [] with
            | Ret (status, _, d) => status = STATE_RUN_SUCCESS ∧ d = [text; text]
            | Abort => False
            end
      | _ => False
      end
  | _, _ => False
  end) [ENCRYPTION_METHOD_128BIT; ENCRYPTION_METHOD_FIPS].
Proof. do 2 (apply Forall_cons_2; [vm_compute; by split_and!|]). apply Forall_nil_2. Qed.
