(* ===== verification/FastPathSafe.v ===== *)
(** Whatever bytes arrive on the fast path, the client stays inside the packet and inside
    the buffer the fragments are put together in. *)

From S2P Require Import Prelude Stream StreamLogic Transmission Per Framing Rc4 Security SecurityCorrect Arrays Mppc MppcCorrect Bulk Mcs RdpPdu RdpPduCorrect RdpPduSafe RdpSession FastPath FastPathSession.
From stdpp Require Import prelude list numbers gmap.
From Stdlib Require Import ZArith Lia.

#[local] Open Scope Z_scope.

(** * A fragment of the packet *)

Definition fragment_read (s : wStream) (o : option (Z * Z * Z * list Z)) (s' : wStream) : Prop :=
  readable s' ∧ on_some (λ '(code, frag, flags, data), rem s' + 3 <= rem s ∧ 0 <= frag < 4 ∧ bytes data ∧ zlen data <= UINT16_MAX) o.
Lemma frag_bits b : 0 <= Z.land b 0x03 < 4.
Proof. change 3 with (Z.ones 2). rewrite Z.land_ones by lia. apply (Z.mod_pos_bound b 4). lia. Qed.
Lemma wp_read_fragment s : readable s → wp read_fragment (fragment_read s) s.
Proof.
  intros Hs. unfold read_fragment, fastpath_read_update_header. apply wp_bind.
  apply wp_bind, wp_check; [done|intros; by apply wp_ret, wp_ret|intros H1].
  apply wp_bind, wp_UINT8; [done..|]. intros b _. apply wp_ret. cbv beta iota.
  set (frag := Z.land (Z.shiftr b 4) 3). pose proof (frag_bits (Z.shiftr b 4) : 0 <= frag < 4) as Hf.
  assert (readable (adv 1 s)) as Hs1 by readable_adv.
  apply wp_bind, (wp_mono _ (λ (o : option Z) s', same_data (adv 1 s) s' ∧ rem s' <= rem s - 1)).
  2:{ destruct (_ =? _); [|apply wp_ret; split; [by apply same_data_refl|rewrite rem_adv; lia]].
      apply wp_bind, wp_check; [done|intros; apply wp_ret; split; [by apply same_data_refl|rewrite rem_adv; lia]|intros H2].
      apply wp_bind, wp_UINT8; [done..|]. intros fl _. apply wp_ret. split; [apply same_data_adv; [done|lia]|rewrite !rem_adv; lia]. }
  intros [fl|] s2 [D2 Hr2]; [|apply wp_ret; by split; [destruct D2|]]. pose proof (sd_readable _ _ D2) as Hs2.
  apply wp_bind, wp_check; [done|intros; by apply wp_ret|intros H3].
  apply wp_bind, wp_UINT16; [done..|]. intros size Hsz. assert (readable (adv 2 s2)) as Hs3 by readable_adv.
  apply wp_bind, wp_check; [done|intros; by apply wp_ret|intros H4].
  apply wp_bind, wp_GetPosition; [done|]. unfold rem in H4.
  apply wp_bind, wp_get; [done|lia|lia|lia|]. intros data Hb Hz.
  apply wp_bind, wp_Seek; [done|unfold rem; lia|]. apply wp_ret. split; [apply readable_adv; [done|unfold rem; lia]|].
  cbn [on_some]. rewrite !rem_adv. split; [lia|]. split; [done|]. split; [done|]. unfold UINT16_MAX. lia.
Qed.

Section safe.
Context {HM : Malloc} {HD : Digests} {HC : Cipher} {HDL : DigestLaws} {HCL : CipherLaws}.
Context {ncrush xcrush : Codec} {HN : CodecLaws ncrush} {HX : CodecLaws xcrush}.
Implicit Types (f : rdpFastPath ncrush xcrush).

(** Growing [updateData], or not. *)
Lemma ensure_any n s :
  wf s → 0 <= n → st_capacity s + n + 128 <= SIZE_MAX →
  ∃ r s', Stream_EnsureRemainingCapacity n s = Ret (r, s') ∧ wf s' ∧ st_pointer s' = st_pointer s ∧ (r = Some tt → fits s' n) ∧
    st_capacity s' <= Z.max (st_capacity s) (st_pointer s + 2 * n + 128).
Proof.
  intros Hwf Hn Hmax. pose proof Hwf as []. unfold Stream_EnsureRemainingCapacity.
  erewrite bind_Ret by by apply run_GetPosition. erewrite bind_Ret by done.
  destruct (Z.gtb_spec (st_pointer s) (SIZE_MAX - n)); [lia|].
  destruct (Z.gtb_spec (st_pointer s + n) (st_capacity s)) as [Hg|Hg].
  2:{ exists (Some tt), s. split; [done|]. split; [done|]. split; [done|]. split; [intros _; unfold fits; lia|lia]. }
  unfold u64. rewrite Z.mod_small by (unfold SIZE_MAX in *; lia). unfold Stream_EnsureCapacity.
  destruct (Z.geb_spec (st_capacity s) (st_capacity s + n)); [lia|].
  destruct (Z.gtb_spec (st_capacity s + n) (SIZE_MAX - 128)); [lia|].
  pose proof (Z.mod_pos_bound (st_capacity s + n) 128 ltac:(lia)).
  set (nc := st_capacity s + n + 128 - (st_capacity s + n) mod 128) in *.
  destruct (malloc_ok nc); cbn [negb].
  2:{ exists None, s. split; [done|]. split; [done|]. split; [done|]. split; [done|lia]. }
  unfold Stream_SetPosition. cbn [st_capacity]. destruct (Z.gtb_spec (st_pointer s) nc); [lia|].
  do 2 eexists. split; [done|]. rewrite (ztake_all (st_capacity s)) by lia. split; [split; cbn -[zeros]; try done; try lia|].
  - rewrite zlen_app, zlen_zeros by lia. lia.
  - apply Forall_app_2; [done|apply bytes_zeros].
  - split; [done|]. split; [intros _; unfold fits; cbn; lia|cbn; lia].
Qed.
Lemma append_any u src :
  wf u → bytes src → st_capacity u + zlen src + 128 <= SIZE_MAX →
  ∃ ok u', (TRY Stream_EnsureRemainingCapacity (zlen src); Stream_Write src;; TRUE) u = Ret (ok, u') ∧ wf u' ∧
    st_capacity u' <= Z.max (st_capacity u) (st_pointer u + 2 * zlen src + 128).
Proof.
  intros Hu Hb Hc. pose proof (zlen_nonneg src). destruct (ensure_any (zlen src) u Hu) as (r & s1 & E & Hs1 & Hp & Hf & Hc1); [lia|done|].
  erewrite bind_Ret by exact E. destruct r as [[]|]; [|by exists None, s1].
  assert (puts (zlen src) (Stream_Write src;; TRUE) src (Some tt)) as Hw by (apply puts_nil_r, puts_Write; [done|done|apply puts_ret]).
  destruct (Hw s1 Hs1 (Hf eq_refl)) as (s2 & E2 & []). exists (Some tt), s2. split; [done|]. split; [done|]. lia.
Qed.

(** * The state *)

(** Established contexts are good to receive with. *)
Lemma sync_recv_ok r1 r2 : sec_sync r1 r2 → recv_ok r2.
Proof.
  intros [Hs [[Hk Hu Hc Hck Hr _] Ek Eu Ec Eck Er _]] Hm. destruct Hs as [Em Es _ El _ Hl Hsg].
  rewrite Em in Hm. right. rewrite Em. split; [|split].
  - split; [by rewrite Ek|by rewrite Eu|by rewrite Ec|by rewrite Eck|by rewrite Er|done].
  - rewrite El by done. by apply Hl.
  - rewrite Es. by destruct Hsg.
Qed.

(** The largest buffer an update of the allowed size and one fragment can ask for. *)
Definition DATA_BOUND : Z := 4 * 4294967296.
Record fp_ok (c : fp_settings) f : Prop := {
  fo_recv : recv_ok (fp_rdp f);
  fo_bulk : bulk_recv_ok (fp_bulk f);
  fo_data : wf (fp_updateData f) ∧ st_capacity (fp_updateData f) <= DATA_BOUND;
  fo_size : st_pointer (fp_updateData f) <= fps_MultifragMaxRequestSize c;
  fo_state : fp_fragmentation f = -1 ∨ fp_fragmentation f = FASTPATH_FRAGMENT_FIRST ∨ fp_fragmentation f = FASTPATH_FRAGMENT_NEXT;
}.

(** A packet that is decrypted leaves contexts to go on with. *)
Lemma wp_decrypt f n s :
  recv_ok (fp_rdp f) → readable s → 0 <= n <= rem s →
  wp (fastpath_decrypt f n) (λ '(o, f') s', readable s' ∧ on_some (λ _, ∃ r, f' = fp_set_rdp r f ∧ recv_ok r) o) s.
Proof.
  intros Hf Hs Hn. unfold fastpath_decrypt. destruct (negb _); [|apply wp_ret; split; [done|]; exists (fp_rdp f); by destruct f].
  apply wp_bind. eapply wp_mono; [|by apply wp_rdp_decrypt].
  intros [o r] s' (Hs' & _ & Ho). apply wp_ret. split; [done|]. destruct o as [k|]; [|done]. destruct Ho as [_ Ho]. by exists r.
Qed.

Section receiver.
Context {D : Type} (U : updates D).

(** The functions behind the codes return, on any stream, and leave a stream of that size. *)
Definition handler_ok (m : D → SM (bool * D)) : Prop :=
  ∀ d s, readable s → wp (m d) (λ _ s', readable s' ∧ st_capacity s' = st_capacity s) s.
Record updates_ok : Prop := {
  uo_order : handler_ok (update_recv_order U);
  uo_bitmap : handler_ok (on_bitmap_update U);
  uo_palette : handler_ok (on_palette_update U);
  uo_surfcmds : handler_ok (update_recv_surfcmds U);
  uo_position : handler_ok (on_pointer_position U);
  uo_color : handler_ok (on_pointer_color U);
  uo_cached : handler_ok (on_pointer_cached U);
  uo_new : handler_ok (on_pointer_new U);
  uo_large : handler_ok (on_pointer_large U);
}.
Context (HU : updates_ok) (c : fp_settings).
Context (Hmulti : 0 <= fps_MultifragMaxRequestSize c <= UINT32_MAX).

Lemma handler_orders : handler_ok (fastpath_recv_orders U).
Proof.
  intros d s Hs. unfold fastpath_recv_orders. apply wp_bind, wp_check; [done|intros; by apply wp_ret|intros H2].
  apply wp_bind, wp_UINT16; [done..|]. intros n _. assert (readable (adv 2 s)) as Hs' by readable_adv.
  assert (st_capacity (adv 2 s) = st_capacity s) as Hc by done. revert Hs' Hc. generalize (adv 2 s) as s'. revert d.
  induction (Z.to_nat n) as [|k IH]; intros d s' Hs' Hc; cbn [orders_loop]; [by apply wp_ret|].
  apply wp_bind. eapply wp_mono; [|by apply (uo_order HU)]. intros [ok d'] s2 [Hs2 Hc2]. rewrite Hc in Hc2.
  destruct ok; cbn [negb]; [by apply IH|by apply wp_ret].
Qed.
Lemma handler_common : handler_ok (fastpath_recv_update_common U).
Proof.
  intros d s Hs. unfold fastpath_recv_update_common. apply wp_bind, wp_check; [done|intros; by apply wp_ret|intros H2].
  apply wp_bind, wp_UINT16; [done..|]. intros n _. assert (readable (adv 2 s)) as Hs' by readable_adv.
  destruct (_ =? _); [by apply (uo_bitmap HU d (adv 2 s))|]. destruct (_ =? _); [by apply (uo_palette HU d (adv 2 s))|]. by apply wp_ret.
Qed.
Lemma handler_paint m : handler_ok m → handler_ok (fastpath_recv_update_paint_block U m).
Proof.
  intros Hm d s Hs. unfold fastpath_recv_update_paint_block. destruct (update_begin_paint U d) as [[] d1]; cbn [negb]; [|by apply wp_ret].
  apply wp_bind. eapply wp_mono; [|by apply Hm]. intros [ok d2] s2 [Hs2 Hc2]. destruct (update_end_paint U d2) as [ok' d3]. by apply wp_ret.
Qed.

Lemma wp_dispatch code d s :
  readable s → wp (dispatch_update U code d) (λ _ s', readable s' ∧ st_capacity s' = st_capacity s) s.
Proof.
  intros Hs. unfold dispatch_update. cbv zeta.
  assert (∀ m : D → SM (bool * D), handler_ok m →
    wp ('(rc, d) ← m d; mret (rc, 0, d)) (λ _ s', readable s' ∧ st_capacity s' = st_capacity s) s) as Honly.
  { intros m Hm. apply wp_bind. eapply wp_mono; [|by apply Hm]. intros [rc d'] s' Hs'. by apply wp_ret. }
  destruct (_ =? _); [apply Honly, handler_paint, handler_orders|]. destruct (_ || _); [apply Honly, handler_paint, handler_common|].
  destruct (_ =? _).
  { unfold fastpath_recv_update_synchronize. apply wp_bind, wp_bind. exists (rem s), s. split; [by apply run_GetRemainingLength|].
    pose proof (readable_rem _ Hs). apply wp_SafeSeek; [done|lia|]. destruct (on_synchronize U d) as [rc d']. apply wp_ret.
    split; [|done]. apply readable_adv; [done|lia]. }
  destruct (_ =? _).
  { apply wp_bind. eapply wp_mono; [|apply handler_paint; [apply (uo_surfcmds HU)|done]]. intros [res d'] s' Hs'. by apply wp_ret. }
  do 2 (destruct (_ =? _); [apply (Honly (λ d, mret (on_pointer_system U _ d))); intros d1 s1 Hs1; by apply wp_ret|]).
  destruct (_ =? _); [apply Honly, (uo_position HU)|]. destruct (_ =? _); [apply Honly, (uo_color HU)|].
  destruct (_ =? _); [apply Honly, (uo_cached HU)|]. destruct (_ =? _); [apply Honly, (uo_new HU)|].
  destruct (_ =? _); [apply Honly, (uo_large HU)|]. by apply wp_ret.
Qed.
Lemma update_total code d u :
  wf u → ∃ status d' u', fastpath_recv_update U code d u = Ret ((status, d'), u') ∧ wf u' ∧ st_pointer u' = 0 ∧ st_capacity u' = st_capacity u.
Proof.
  intros Hu. pose proof Hu as []. unfold fastpath_recv_update, Stream_SealLength. unfold mbind at 1, SM_bind.
  destruct (Z.leb_spec 0 (st_pointer u)); [|lia]. destruct (Z.leb_spec (st_pointer u) (st_capacity u)); [|lia]. cbn [andb].
  unfold Stream_ResetPosition at 1. erewrite bind_Ret by done. set (s := set_pointer 0 _).
  destruct (wp_dispatch code d s) as ([[rc status] d'] & s' & E & [Hs' _] & Hc); [by split; [split; cbn; lia || done|cbn]|].
  erewrite bind_Ret by exact E. cbv beta iota. unfold Stream_ResetPosition. erewrite bind_Ret by done.
  do 3 eexists. split; [done|]. split; [|done]. destruct Hs'. by split; cbn; lia || done.
Qed.

(** The state machine: in a good state again, or the packet is refused. *)
Definition step_ok (res : Z * rdpFastPath ncrush xcrush * D) : Prop := 0 <= res.1.1 → fp_ok c res.1.2.
Lemma finish_total code f d :
  recv_ok (fp_rdp f) → bulk_recv_ok (fp_bulk f) → wf (fp_updateData f) → st_capacity (fp_updateData f) <= DATA_BOUND →
  fp_fragmentation f = -1 → ∃ res, finish_update U code f d = Ret res ∧ step_ok res.
Proof.
  intros Hr Hb Hu Hc Hf. unfold finish_update. destruct (update_total code d _ Hu) as (status & d' & u' & -> & Hu' & Hp' & Hc').
  eexists. split; [done|]. intros _. split; try done; cbn; [|lia|by left]. rewrite Hc'. done.
Qed.
Lemma add_total code frag f d :
  recv_ok (fp_rdp f) → bulk_recv_ok (fp_bulk f) → wf (fp_updateData f) → st_capacity (fp_updateData f) <= DATA_BOUND → 0 <= frag < 4 →
  ∃ res, add_fragment U c code frag f d = Ret res ∧ step_ok res.
Proof.
  intros Hr Hb Hu Hc Hf. unfold add_fragment.
  assert (∀ g, ∃ res, Ret (-1, g, d) = Ret res ∧ step_ok res) as Hfail by (intros g; eexists; split; [done|]; intros H; cbn in H; lia).
  destruct (_ =? FASTPATH_FRAGMENT_SINGLE).
  { destruct (Z.eqb_spec (fp_fragmentation f) (-1)); cbn [negb]; [|done]. by apply finish_total. }
  cbv zeta. destruct (Z.gtb_spec (st_pointer (fp_updateData f)) (fps_MultifragMaxRequestSize c)) as [|Hm]; [done|].
  destruct (_ =? FASTPATH_FRAGMENT_FIRST).
  { destruct (negb _); [done|]. eexists. split; [done|]. intros _. split; try done. right. by left. }
  destruct (negb _ && negb _); [done|]. destruct (_ =? FASTPATH_FRAGMENT_NEXT); [|by apply finish_total].
  eexists. split; [done|]. intros _. split; try done. right. by right.
Qed.
Lemma wp_update_data f d s :
  fp_ok c f → readable s → wp (fastpath_recv_update_data U c f d) (λ res s', readable s' ∧ (0 <= res.1.1 → rem s' + 3 <= rem s) ∧ step_ok res) s.
Proof.
  intros [Hr Hb [Hu Hc] Hz Hst] Hs. unfold fastpath_recv_update_data.
  apply wp_bind. eapply wp_mono; [|by apply wp_read_fragment]. intros o s1 [Hs1 Ho].
  assert (∀ g, wp (mret (-1, g, d)) (λ res s', readable s' ∧ (0 <= res.1.1 → rem s' + 3 <= rem s) ∧ step_ok res) s1) as Hfail.
  { intros g. apply wp_ret. split; [done|]. split; [cbn; lia|]. intros H; cbn in H; lia. }
  destruct o as [[[[code frag] flags] data]|]; [|apply Hfail]. destruct Ho as (Hrem & Hf & Hdb & Hdz).
  destruct (bulk_decompress_total (fps_CompressionLevel c) data flags (fp_bulk f) Hb Hdb) as (status & b & dst & E & Hb' & Hob & Hoz);
    [unfold UINT16_MAX, UINT32_MAX in *; lia|].
  eapply wp_bind, wp_lift; [exact E|]. cbv beta iota zeta. destruct (status <? 0); [apply Hfail|].
  destruct (append_any (fp_updateData f) dst Hu Hob) as (ok & u & Ea & Hu' & Hc'); [unfold DATA_BOUND, UINT32_MAX, SIZE_MAX in *; lia|].
  eapply wp_bind, wp_lift; [exact Ea|]. cbv beta iota zeta. destruct ok as [[]|]; [|apply Hfail].
  destruct (add_total code frag (fp_set_updateData u (fp_set_bulk b f)) d) as (res & Er & Hres); [done|done|done| |done|].
  { cbn. unfold DATA_BOUND, UINT32_MAX in *. lia. }
  eapply wp_lift; [exact Er|]. done.
Qed.

Definition run_ok (res : Z * rdpFastPath ncrush xcrush * D) (s' : wStream) : Prop :=
  readable s' ∧ (res.1.1 = STATE_RUN_FAILED ∨ res.1.1 = STATE_RUN_SUCCESS ∧ fp_ok c res.1.2).
Lemma wp_updates_loop fuel : ∀ f d s, fp_ok c f → readable s → (Z.to_nat (rem s) <= fuel)%nat → wp (updates_loop U fuel c f d) run_ok s.
Proof.
  induction fuel as [|fuel IH]; intros f d s Hf Hs Hfuel; cbn [updates_loop]; apply wp_bind; exists (rem s), s;
    (split; [by apply run_GetRemainingLength|]); destruct (Z.geb_spec (rem s) 3); cbn [negb].
  - lia.
  - apply wp_ret. split; [done|by right].
  - apply wp_bind. eapply wp_mono; [|by apply wp_update_data]. intros [[status f'] d'] s' (Hs' & Hrem & Hok).
    destruct (Z.ltb_spec status 0); [apply wp_ret; split; [done|by left]|]. apply IH; [by apply Hok|done|]. cbn in Hrem. lia.
  - apply wp_ret. split; [done|by right].
Qed.

Lemma wp_header f s :
  readable s → wp (fastpath_read_header_rdp f) (λ '(o, f') s', readable s' ∧ on_some (λ n, 0 <= n) o ∧
    ∃ flags events, f' = fp_set_header flags events f) s.
Proof.
  intros Hs. unfold fastpath_read_header_rdp. assert (∃ flags events, f = fp_set_header flags events f) as Hid.
  { exists (fp_encryptionFlags f), (fp_numberEvents f). by destruct f. }
  apply wp_bind, wp_check; [done|intros; by apply wp_ret|intros H1]. apply wp_bind, wp_UINT8; [done..|]. intros h _. cbv zeta.
  assert (readable (adv 1 s)) as Hs1 by readable_adv.
  apply wp_bind, (wp_safe _ _ _ _ _ safe_per_length Hs1 (readable_rem _ Hs1)). intros o s2 [_ _ _ Hs2] Ho.
  destruct o as [n|]; [|apply wp_ret; split; [done|]; split; [done|by do 2 eexists]].
  apply wp_bind, wp_GetPosition; [done|]. pose proof Hs2 as [[] _].
  destruct (Z.gtb_spec (st_pointer s2) n); apply wp_ret; (split; [done|]); (split; [|by do 2 eexists]); [done|].
  cbn in *. unfold u16. rewrite Z.mod_small by lia. lia.
Qed.
Lemma wp_fp_decrypt f n s :
  fp_ok c f → readable s → 0 <= n <= rem s → wp (fastpath_decrypt f n) (λ '(o, f') s', readable s' ∧ on_some (λ _, fp_ok c f') o) s.
Proof.
  intros Hf Hs Hn. eapply wp_mono; [|apply (wp_decrypt f n s (fo_recv _ _ Hf) Hs Hn)].
  intros [o f'] s' [Hs' Ho]. split; [done|]. destruct o; [|done]. destruct Ho as (r & -> & Hr). by destruct Hf.
Qed.

Lemma wp_recv_pdu f d s : fp_ok c f → readable s → wp (rdp_recv_fastpath_pdu U c f d) run_ok s.
Proof.
  intros Hf Hs. unfold rdp_recv_fastpath_pdu. apply wp_bind. eapply wp_mono; [|by apply wp_header].
  intros [o f1] s1 (Hs1 & Ho & flags & events & ->). assert (fp_ok c (fp_set_header flags events f)) as Hf1 by (by destruct Hf).
  destruct o as [n|]; [|apply wp_ret; split; [done|by left]]. cbn in Ho.
  destruct (n =? 0); [apply wp_ret; split; [done|by left]|].
  apply wp_bind, wp_check; [done|intros; apply wp_ret; split; [done|by left]|intros Hn].
  apply wp_bind. eapply wp_mono; [|by apply wp_fp_decrypt]. intros [o f2] s2 [Hs2 Hf2].
  destruct o as [k|]; [|apply wp_ret; split; [done|by left]].
  unfold fastpath_recv_updates. apply wp_bind. exists (rem s2), s2. split; [by apply run_GetRemainingLength|]. by apply wp_updates_loop.
Qed.
End receiver.

(** C5. Whatever packets arrive on the fast path, one after the other, the client returns from each: it
    reads headers, fragments and compressed data inside the packet only, it decrypts in place, it
    writes what it has decompressed inside [updateData], whose capacity stays below 16 GiB
    whatever the fragments, and the loops end.  A client that has not refused a packet is in one
    of the three states of the reassembly, with no more data than allowed, and ready for the next. *)
Theorem fastpath_safe {D : Type} (U : updates D) c pkts f d :
  updates_ok U → 0 <= fps_MultifragMaxRequestSize c <= UINT32_MAX → fp_ok c f → Forall (λ p, bytes p ∧ zlen p <= SIZE_MAX) pkts →
  ∃ status f' d', recv_packets U c pkts f d = Ret (status, f', d') ∧
    (status = STATE_RUN_FAILED ∨ status = STATE_RUN_SUCCESS ∧ fp_ok c f').
Proof.
  intros HU Hm. revert f d. induction pkts as [|p pkts IH]; intros f d Hf Hp; cbn [recv_packets].
  { eexists _, _, _. split; [done|]. by right. }
  apply Forall_cons_1 in Hp as [[Hb Hz] Hp].
  destruct (wp_recv_pdu U HU c Hm f d (stream_of p) Hf) as ([[status f1] d1] & s' & -> & _ & Hok); [by apply stream_of_readable|].
  destruct (Z.eqb_spec status STATE_RUN_SUCCESS) as [->|Hne].
  - destruct Hok as [?|[_ Hf1]]; [done|]. by apply IH.
  - eexists _, _, _. split; [done|]. by destruct Hok as [?|[? _]]; [left|].
Qed.
End safe.

(** * Witness *)

#[local] Existing Instances model_malloc model_digests model_cipher model_digest_laws model_cipher_laws.
#[local] Instance no_codec_laws : CodecLaws no_codec.
Proof. split. intros ctx data flags _. by eexists _, _, _. Qed.
Lemma keeper_ok : updates_ok keeper.
Proof.
  assert (handler_ok (λ d : list (list Z), mret (false, d))) as Hno by (intros d s Hs; by apply wp_ret).
  split; try exact Hno. intros d s Hs. pose proof (readable_rem _ Hs). cbn [update_recv_surfcmds keeper]. unfold keep_rest.
  apply wp_bind. exists (rem s), s. split; [by apply run_GetRemainingLength|]. apply wp_bind, wp_GetPosition; [done|].
  apply wp_bind, wp_get; [done|lia|lia|unfold rem; lia|]. intros l _ _. by apply wp_ret.
Qed.
Lemma fp_end_ok c f : 0 <= fps_MultifragMaxRequestSize c → fp_end (fp_rdp0 false) = Some f → fp_ok c f.
Proof.
  intros Hm Hf. unfold fp_end in Hf. destruct (@bulk_new no_codec no_codec 1 metrics_new) as [b|] eqn:Eb; [|done].
  cbn [mbind option_bind] in Hf. injection Eb as <-. destruct (fastpath_new_spec _ _ _ Hf) as (Hr & Hb & [Hi Hp] & _ & Hu & Hc).
  split; [rewrite Hr|rewrite Hb|split; [done|by rewrite Hc]|by rewrite Hp|by left].
  - eapply sync_recv_ok, (established_duplex ENCRYPTION_METHOD_128BIT). left. by right; right.
  - split; [done|]. apply (history_ok_zero HISTORY_ARRAY (∅ : array)). intros i. unfold aget. by rewrite lookup_empty.
Qed.

Lemma fastpath_safe_witness :
  ∃ f status f' d', fp_end (fp_rdp0 false) = Some f ∧
    recv_packets keeper server_settings [[128; 20; 1; 2; 3; 4; 5; 6; 7; 8; 36; 9; 255; 1; 2; 3; 4; 5; 6; 7]; [0; 5; 4; 255; 0]; []] f [] =
      Ret (status, f', d') ∧ (status = STATE_RUN_FAILED ∨ status = STATE_RUN_SUCCESS ∧ fp_ok server_settings f').
Proof.
  destruct (fp_end (fp_rdp0 false)) as [f|] eqn:Ef; [|done]. exists f.
  destruct (fastpath_safe keeper server_settings [[128; 20; 1; 2; 3; 4; 5; 6; 7; 8; 36; 9; 255; 1; 2; 3; 4; 5; 6; 7]; [0; 5; 4; 255; 0]; []] f [])
    as (status & f' & d' & H).
  - exact keeper_ok.
  - by vm_compute.
  - by apply fp_end_ok; [vm_compute|].
  - repeat apply Forall_cons_2; try apply Forall_nil_2; (split; [by apply (bool_decide_unpack _); vm_compute|by vm_compute]).
  - by exists status, f', d'.
Defined.
