(* ===== verification/Input.v ===== *)
(** User input (core/input.c, and the input half of core/fastpath.c): the events a client
    sends, on the fast path or on the slow path, and the server's callbacks they end in.

    The callbacks are a record of functions that may be missing ([rdpInput]). *)

From S2P Require Import Prelude Stream Per Framing Rc4 Security Bulk Mcs RdpPdu FastPath.
From stdpp Require Import prelude list numbers.
From Stdlib Require Import ZArith Lia.

#[local] Open Scope Z_scope.

Definition FASTPATH_INPUT_ACTION_FASTPATH : Z := 0x0.
Definition FASTPATH_INPUT_SECURE_CHECKSUM : Z := 0x1.
Definition FASTPATH_INPUT_ENCRYPTED : Z := 0x2.
Definition FASTPATH_INPUT_EVENT_SCANCODE : Z := 0x0.
Definition FASTPATH_INPUT_EVENT_MOUSE : Z := 0x1.
Definition FASTPATH_INPUT_EVENT_MOUSEX : Z := 0x2.
Definition FASTPATH_INPUT_EVENT_SYNC : Z := 0x3.
Definition FASTPATH_INPUT_EVENT_UNICODE : Z := 0x4.
Definition TS_FP_RELPOINTER_EVENT : Z := 0x5.
Definition TS_FP_QOETIMESTAMP_EVENT : Z := 0x6.
Definition FASTPATH_INPUT_KBDFLAGS_RELEASE : Z := 0x01.
Definition FASTPATH_INPUT_KBDFLAGS_EXTENDED : Z := 0x02.
Definition FASTPATH_INPUT_KBDFLAGS_PREFIX_E1 : Z := 0x04.
Definition KBD_FLAGS_EXTENDED : Z := 0x0100.
Definition KBD_FLAGS_EXTENDED1 : Z := 0x0200.
Definition KBD_FLAGS_DOWN : Z := 0x4000.
Definition KBD_FLAGS_RELEASE : Z := 0x8000.
Definition PTR_FLAGS_HWHEEL : Z := 0x0400.
Definition INPUT_EVENT_SYNC : Z := 0x0000.
Definition INPUT_EVENT_SCANCODE : Z := 0x0004.
Definition INPUT_EVENT_UNICODE : Z := 0x0005.
Definition INPUT_EVENT_MOUSE : Z := 0x8001.
Definition INPUT_EVENT_MOUSEX : Z := 0x8002.
Definition INPUT_EVENT_MOUSEREL : Z := 0x8004.
Definition DATA_PDU_TYPE_INPUT : Z := 0x1C.
Definition RDP_SCANCODE_LCONTROL : Z := 0x1D.
Definition RDP_SCANCODE_NUMLOCK : Z := 0x45.
Definition RDP_SCANCODE_CODE (scancode : Z) : Z := Z.land scancode 0xFF.

(** A signed 16-bit integer in a stream. *)
Definition Stream_Read_INT16 : SM Z :=
  v ← Stream_Read_UINT16;
  mret (if v >? 32767 then v - 65536 else v).
Definition Stream_Write_INT16 (v : Z) : SM unit :=
  WINPR_ASSERT ((-32768 <=? v) && (v <=? 32767));; stream_put (winpr_Data_Write_UINT16 (u16 v)).

(** Whether [flag] is set in [flags]. *)
Definition has (flags flag : Z) : bool := negb (Z.land flags flag =? 0).

Record input_settings : Type := mkInputSettings {
  is_UnicodeInput : bool; is_HasHorizontalWheel : bool; is_HasExtendedMouseEvent : bool;
  is_HasRelativeMouseEvent : bool; is_HasQoeEvent : bool;
}.

(** * The server *)

Record rdpInput (D : Type) : Type := mkInput {
  SynchronizeEvent : option (Z → D → bool * D);
  KeyboardEvent : option (Z → Z → D → bool * D);
  UnicodeKeyboardEvent : option (Z → Z → D → bool * D);
  MouseEvent : option (Z → Z → Z → D → bool * D);
  RelMouseEvent : option (Z → Z → Z → D → bool * D);
  ExtendedMouseEvent : option (Z → Z → Z → D → bool * D);
  QoEEvent : option (Z → D → bool * D);
}.
Arguments mkInput {D}. Arguments SynchronizeEvent {D}. Arguments KeyboardEvent {D}. Arguments UnicodeKeyboardEvent {D}.
Arguments MouseEvent {D}. Arguments RelMouseEvent {D}. Arguments ExtendedMouseEvent {D}. Arguments QoEEvent {D}.

Definition IFCALLRESULT {D} (default : bool) (call : option (D → bool * D)) (d : D) : bool * D :=
  match call with Some f => f d | None => (default, d) end.

Section server.
Context {D : Type} (I : rdpInput D) (c : input_settings).

Definition call_KeyboardEvent (flags code : Z) : D → bool * D :=
  IFCALLRESULT true ((λ f, f flags code) <$> KeyboardEvent I).
Definition call_MouseEvent (flags x y : Z) : D → bool * D := IFCALLRESULT true ((λ f, f flags x y) <$> MouseEvent I).
Definition call_RelMouseEvent (flags x y : Z) (d : D) : bool * D :=
  if negb (is_HasRelativeMouseEvent c) then (false, d)
  else IFCALLRESULT true ((λ f, f flags x y) <$> RelMouseEvent I) d.
Definition call_ExtendedMouseEvent (flags x y : Z) (d : D) : bool * D :=
  if negb (is_HasExtendedMouseEvent c) then (false, d)
  else IFCALLRESULT true ((λ f, f flags x y) <$> ExtendedMouseEvent I) d.
Definition call_QoEEvent (timestampMS : Z) (d : D) : bool * D :=
  if negb (is_HasQoeEvent c) then (false, d)
  else IFCALLRESULT true ((λ f, f timestampMS) <$> QoEEvent I) d.
Definition call_SynchronizeEvent (flags : Z) : D → bool * D := IFCALLRESULT true ((λ f, f flags) <$> SynchronizeEvent I).
Definition call_UnicodeKeyboardEvent (default : bool) (flags code : Z) : D → bool * D :=
  IFCALLRESULT default ((λ f, f flags code) <$> UnicodeKeyboardEvent I).

(** ** The fast path *)

Definition fastpath_read_input_event_header : SM (option (Z * Z)) :=
  TRY Stream_CheckAndLogRequiredLength 1;
  eventHeader ← Stream_Read_UINT8;
  mret (Some (Z.land eventHeader 0x1F, Z.shiftr eventHeader 5)).

Definition fastpath_recv_input_event_scancode (eventFlags : Z) (d : D) : SM (bool * D) :=
  ok ← Stream_CheckAndLogRequiredLength 1;
  match ok with
  | None => mret (false, d)
  | Some _ =>
      code ← Stream_Read_UINT8;
      let flags := if has eventFlags FASTPATH_INPUT_KBDFLAGS_RELEASE then KBD_FLAGS_RELEASE else 0 in
      let flags := if has eventFlags FASTPATH_INPUT_KBDFLAGS_EXTENDED then Z.lor flags KBD_FLAGS_EXTENDED else flags in
      let flags := if has eventFlags FASTPATH_INPUT_KBDFLAGS_PREFIX_E1 then Z.lor flags KBD_FLAGS_EXTENDED1 else flags in
      mret (call_KeyboardEvent flags code d)
  end.
(** Flags and a position: the mouse events of either path. *)
Definition recv_pointer (read : SM Z) (call : Z → Z → Z → D → bool * D) (d : D) : SM (bool * D) :=
  ok ← Stream_CheckAndLogRequiredLength 6;
  match ok with
  | None => mret (false, d)
  | Some _ =>
      pointerFlags ← Stream_Read_UINT16;
      x ← read;
      y ← read;
      mret (call pointerFlags x y d)
  end.
Definition fastpath_recv_input_event_mouse : D → SM (bool * D) := recv_pointer Stream_Read_UINT16 call_MouseEvent.
Definition fastpath_recv_input_event_relmouse : D → SM (bool * D) := recv_pointer Stream_Read_INT16 call_RelMouseEvent.
Definition fastpath_recv_input_event_mousex : D → SM (bool * D) := recv_pointer Stream_Read_UINT16 call_ExtendedMouseEvent.
Definition fastpath_recv_input_event_qoe (d : D) : SM (bool * D) :=
  ok ← Stream_CheckAndLogRequiredLength 4;
  match ok with
  | None => mret (false, d)
  | Some _ => timestampMS ← Stream_Read_UINT32; mret (call_QoEEvent timestampMS d)
  end.
Definition fastpath_recv_input_event_sync (eventFlags : Z) (d : D) : SM (bool * D) :=
  mret (call_SynchronizeEvent eventFlags d).
Definition fastpath_recv_input_event_unicode (eventFlags : Z) (d : D) : SM (bool * D) :=
  ok ← Stream_CheckAndLogRequiredLength 2;
  match ok with
  | None => mret (false, d)
  | Some _ =>
      unicodeCode ← Stream_Read_UINT16;
      let flags := if has eventFlags FASTPATH_INPUT_KBDFLAGS_RELEASE then KBD_FLAGS_RELEASE else 0 in
      mret (call_UnicodeKeyboardEvent false flags unicodeCode d)
  end.
(** An unknown code is skipped, but not what belongs to it. *)
Definition dispatch_input_event (eventFlags eventCode : Z) (d : D) : SM (bool * D) :=
  if eventCode =? FASTPATH_INPUT_EVENT_SCANCODE then fastpath_recv_input_event_scancode eventFlags d
  else if eventCode =? FASTPATH_INPUT_EVENT_MOUSE then fastpath_recv_input_event_mouse d
  else if eventCode =? FASTPATH_INPUT_EVENT_MOUSEX then fastpath_recv_input_event_mousex d
  else if eventCode =? FASTPATH_INPUT_EVENT_SYNC then fastpath_recv_input_event_sync eventFlags d
  else if eventCode =? FASTPATH_INPUT_EVENT_UNICODE then fastpath_recv_input_event_unicode eventFlags d
  else if eventCode =? TS_FP_RELPOINTER_EVENT then fastpath_recv_input_event_relmouse d
  else if eventCode =? TS_FP_QOETIMESTAMP_EVENT then fastpath_recv_input_event_qoe d
  else mret (true, d).
Definition fastpath_recv_input_event (d : D) : SM (bool * D) :=
  h ← fastpath_read_input_event_header;
  match h with
  | None => mret (false, d)
  | Some (eventFlags, eventCode) => dispatch_input_event eventFlags eventCode d
  end.
(** The loop over the events of a packet, of either path. *)
Fixpoint recv_events (event : D → SM (bool * D)) (numberEvents : nat) (d : D) : SM (bool * D) :=
  match numberEvents with
  | O => mret (true, d)
  | S n =>
      '(ok, d) ← event d;
      if negb ok then mret (false, d) else recv_events event n d
  end.

Section fastpath.
Context {HM : Malloc} {HD : Digests} {HC : Cipher} {ncrush xcrush : Codec}.

Definition fastpath_recv_inputs (f : rdpFastPath ncrush xcrush) (d : D) : SM (Z * rdpFastPath ncrush xcrush * D) :=
  number ← (if fp_numberEvents f =? 0 then
              TRY Stream_CheckAndLogRequiredLength 1;
              n ← Stream_Read_UINT8;
              mret (Some n)
            else mret (Some (fp_numberEvents f)));
  match number with
  | None => mret (STATE_RUN_FAILED, f, d)
  | Some n =>
      '(ok, d) ← recv_events fastpath_recv_input_event (Z.to_nat n) d;
      mret (if negb ok then STATE_RUN_FAILED else STATE_RUN_SUCCESS, fp_set_header (fp_encryptionFlags f) n f, d)
  end.
(** A packet of the fast path at the server (core/peer.c). *)
Definition peer_recv_fastpath_pdu (f : rdpFastPath ncrush xcrush) (d : D) : SM (Z * rdpFastPath ncrush xcrush * D) :=
  '(length, f) ← fastpath_read_header_rdp f;
  match length with
  | None => mret (STATE_RUN_FAILED, f, d)
  | Some length =>
      if length =? 0 then mret (STATE_RUN_FAILED, f, d)
      else
        ok ← Stream_CheckAndLogRequiredLength length;
        match ok with
        | None => mret (STATE_RUN_FAILED, f, d)
        | Some _ =>
            '(length, f) ← fastpath_decrypt f length;
            match length with
            | None => mret (STATE_RUN_FAILED, f, d)
            | Some _ => fastpath_recv_inputs f d
            end
        end
  end.
End fastpath.

(** ** The slow path *)

Definition input_recv_sync_event (d : D) : SM (bool * D) :=
  ok ← Stream_CheckAndLogRequiredLength 6;
  match ok with
  | None => mret (false, d)
  | Some _ => Stream_Seek 2;; toggleFlags ← Stream_Read_UINT32; mret (call_SynchronizeEvent toggleFlags d)
  end.
(** A key that is released was not down before. *)
Definition fix_flags (keyboardFlags : Z) : Z :=
  if has keyboardFlags KBD_FLAGS_RELEASE then Z.ldiff keyboardFlags KBD_FLAGS_DOWN else keyboardFlags.
Definition recv_key (call : Z → Z → D → bool * D) (d : D) : SM (bool * D) :=
  ok ← Stream_CheckAndLogRequiredLength 6;
  match ok with
  | None => mret (false, d)
  | Some _ =>
      keyboardFlags ← Stream_Read_UINT16;
      code ← Stream_Read_UINT16;
      Stream_Seek 2;;
      mret (call (fix_flags keyboardFlags) code d)
  end.
Definition input_recv_keyboard_event : D → SM (bool * D) := recv_key (λ flags code, call_KeyboardEvent flags (Z.land code 0xFF)).
Definition input_recv_unicode_keyboard_event : D → SM (bool * D) := recv_key (call_UnicodeKeyboardEvent true).
Definition input_recv_mouse_event : D → SM (bool * D) := recv_pointer Stream_Read_UINT16 call_MouseEvent.
Definition input_recv_relmouse_event : D → SM (bool * D) := recv_pointer Stream_Read_INT16 call_RelMouseEvent.
Definition input_recv_extended_mouse_event : D → SM (bool * D) := recv_pointer Stream_Read_UINT16 call_ExtendedMouseEvent.
Definition input_recv_event (d : D) : SM (bool * D) :=
  ok ← Stream_CheckAndLogRequiredLength 6;
  match ok with
  | None => mret (false, d)
  | Some _ =>
      Stream_Seek 4;;
      messageType ← Stream_Read_UINT16;
      if messageType =? INPUT_EVENT_SYNC then input_recv_sync_event d
      else if messageType =? INPUT_EVENT_SCANCODE then input_recv_keyboard_event d
      else if messageType =? INPUT_EVENT_UNICODE then input_recv_unicode_keyboard_event d
      else if messageType =? INPUT_EVENT_MOUSE then input_recv_mouse_event d
      else if messageType =? INPUT_EVENT_MOUSEX then input_recv_extended_mouse_event d
      else if messageType =? INPUT_EVENT_MOUSEREL then input_recv_relmouse_event d
      else Stream_Seek 6;; mret (true, d)
  end.
Definition input_recv (d : D) : SM (bool * D) :=
  ok ← Stream_CheckAndLogRequiredLength 4;
  match ok with
  | None => mret (false, d)
  | Some _ =>
      numberEvents ← Stream_Read_UINT16;
      Stream_Seek 2;;
      ok ← Stream_CheckAndLogRequiredLengthEx numberEvents 6;
      match ok with
      | None => mret (false, d)
      | Some _ => recv_events input_recv_event (Z.to_nat numberEvents) d
      end
  end.
End server.

(** * The client *)

(** ** The fast path *)

Section client.
Context {HM : Malloc} {HD : Digests} {HC : Cipher} {ncrush xcrush : Codec}.

Definition fastpath_get_sec_bytes (do_crypt : bool) (rdp : rdpRdp) : Z :=
  if do_crypt then if EncryptionMethods rdp =? ENCRYPTION_METHOD_FIPS then 8 + 4 else 8 else 0.
(** The stream, with room for the header and the signature, and the security flags. *)
Definition fastpath_input_pdu_init_header (c : fp_settings) (rdp : rdpRdp) (sec_flags : Z) : outcome (option (wStream * Z)) :=
  match Stream_New None 256 with
  | None => Ret None
  | Some s =>
      let sec_flags :=
        if fps_do_crypt c then
          let sec_flags := Z.lor sec_flags SEC_ENCRYPT in
          if fps_do_secure_checksum c then Z.lor sec_flags SEC_SECURE_CHECKSUM else sec_flags
        else sec_flags in
      match (Stream_Seek 3;; Stream_Seek (fastpath_get_sec_bytes (fps_do_crypt c) rdp)) s with
      | Abort => Abort
      | Ret (_, s) => Ret (Some (s, sec_flags))
      end
  end.
Definition fastpath_input_pdu_init (c : fp_settings) (rdp : rdpRdp) (eventFlags eventCode sec_flags : Z) :
    outcome (option (wStream * Z)) :=
  r ← fastpath_input_pdu_init_header c rdp sec_flags;
  match r with
  | None => Ret None
  | Some (s, sec_flags) =>
      match (WINPR_ASSERT (eventCode <? 8);; WINPR_ASSERT (eventFlags <? 0x20);;
             Stream_Write_UINT8 (u8 (Z.lor eventFlags (Z.shiftl eventCode 5)))) s with
      | Abort => Abort
      | Ret (_, s) => Ret (Some (s, sec_flags))
      end
  end.

(** Length, version and padding of the FIPS header. *)
Definition write_fips_information (pad : Z) : SM unit :=
  Stream_Write_UINT16 0x10;; Stream_Write_UINT8 0x1;; Stream_Write_UINT8 pad.
(** The signature in front of the events, and the events encrypted in place, at the position
    behind the header.  The padding, or [None]. *)
Definition protect_inputs (rdp : rdpRdp) (sec_bytes events_length sec_flags : Z) : SM (option Z * rdpRdp) :=
  pos ← Stream_GetPosition;
  let fpInputEvents := pos + sec_bytes in
  if EncryptionMethods rdp =? ENCRYPTION_METHOD_FIPS then
    let pad := 8 - events_length mod 8 in
    let pad := if pad =? 8 then 0 else pad in
    write_fips_information pad;;
    ok ← Stream_CheckAndLogRequiredCapacity 8;
    match ok with
    | None => mret (None, rdp)
    | Some _ =>
        plain ← stream_get fpInputEvents events_length;
        match security_hmac_signature rdp plain with
        | None => mret (None, rdp)
        | Some sig =>
            pSignature ← Stream_GetPosition;
            stream_set pSignature sig;;
            (if negb (pad =? 0) then stream_set (fpInputEvents + events_length) (zeros pad) else mret tt);;
            plain ← stream_get fpInputEvents (events_length + pad);
            '(out, rdp) ← lift (security_fips_encrypt plain rdp);
            match out with
            | None => mret (None, rdp)
            | Some out => stream_set fpInputEvents out;; mret (Some pad, rdp)
            end
        end
    end
  else
    ok ← Stream_CheckAndLogRequiredCapacity 8;
    match ok with
    | None => mret (None, rdp)
    | Some _ =>
        plain ← stream_get fpInputEvents events_length;
        sig ← lift (if negb (Z.land sec_flags SEC_SECURE_CHECKSUM =? 0) then security_salted_mac_signature rdp plain true
                    else security_mac_signature rdp plain);
        match sig with
        | None => mret (None, rdp)
        | Some sig =>
            pSignature ← Stream_GetPosition;
            stream_set pSignature sig;;
            plain ← stream_get fpInputEvents events_length;
            '(out, rdp) ← lift (security_encrypt plain rdp);
            match out with
            | None => mret (None, rdp)
            | Some out => stream_set fpInputEvents out;; mret (Some 0, rdp)
            end
        end
    end.

(** On the stream with the events; [active] is [rdp_is_active_state].  The transport gets
    what is sealed. *)
Definition fastpath_send_multiple_input_pdu (active do_crypt : bool) (rdp : rdpRdp) (iNumEvents sec_flags : Z) : SM (bool * rdpRdp) :=
  WINPR_ASSERT (iNumEvents >? 0);;
  if negb active then mret (false, rdp)
  else if iNumEvents >? 15 then mret (false, rdp)
  else
    length ← Stream_GetPosition;
    if length >=? Z.shiftl 2 14 then mret (false, rdp)
    else
      let encrypt := negb (Z.land sec_flags SEC_ENCRYPT =? 0) in
      let eventHeader := Z.lor FASTPATH_INPUT_ACTION_FASTPATH (u8 (Z.shiftl iNumEvents 2)) in
      let eventHeader := if encrypt then Z.lor eventHeader (Z.shiftl FASTPATH_INPUT_ENCRYPTED 6) else eventHeader in
      let eventHeader := if negb (Z.land sec_flags SEC_SECURE_CHECKSUM =? 0)
                         then Z.lor eventHeader (Z.shiftl FASTPATH_INPUT_SECURE_CHECKSUM 6) else eventHeader in
      Stream_ResetPosition;;
      Stream_Write_UINT8 eventHeader;;
      Stream_Seek 2;;
      '(pad, rdp) ←
        (if encrypt then
           let sec_bytes := fastpath_get_sec_bytes do_crypt rdp in
           if sec_bytes + 3 >? length then mret (None, rdp)
           else protect_inputs rdp sec_bytes (u16 (length - 3 - sec_bytes)) sec_flags
         else mret (Some 0, rdp));
      match pad with
      | None => mret (false, rdp)
      | Some pad =>
          let length := length + pad in
          WINPR_ASSERT (length <? UINT16_MAX);;
          ok ← (TRY Stream_SetPosition 1;
                Stream_Write_UINT16_BE (Z.lor 0x8000 (u16 length));;
                TRY Stream_SetPosition length;
                Stream_SealLength;;
                TRUE);
          mret (match ok with None => false | Some _ => true end, rdp)
      end.

(** ** The functions of the client's [rdpInput] *)

(** [running] is [input_ensure_client_running]. *)
Context (c : fp_settings) (k : input_settings) (running active : bool).
Context {W : Type} (transport_write : list Z → W → bool * W).
Definition sending : Type := outcome (bool * rdpRdp * W).

(** [write] puts events behind what [init] has made, and the stream is sent. *)
Definition send_inputs (init : outcome (option (wStream * Z))) (write : SM (option unit)) (iNumEvents : Z) (rdp : rdpRdp) (w : W) : sending :=
  r ← init;
  match r with
  | None => Ret (false, rdp, w)
  | Some (s, sec_flags) =>
      match (ok ← write;
             match ok with
             | None => mret (false, rdp)
             | Some _ => fastpath_send_multiple_input_pdu active (fps_do_crypt c) rdp iNumEvents sec_flags
             end) s with
      | Abort => Abort
      | Ret ((false, rdp), _) => Ret (false, rdp, w)
      | Ret ((true, rdp), s) => let '(ok, w) := transport_write (ztake (st_length s) (st_buffer s)) w in Ret (ok, rdp, w)
      end
  end.
Definition fastpath_send_input_pdu (eventFlags eventCode : Z) (write : SM (option unit)) (rdp : rdpRdp) (w : W) : sending :=
  send_inputs (fastpath_input_pdu_init c rdp eventFlags eventCode 0) write 1 rdp w.

Definition input_write_keyboard_event (flags code : Z) : SM (option unit) :=
  WINPR_ASSERT (code <=? UINT8_MAX);; Stream_Write_UINT16 flags;; Stream_Write_UINT16 code;; Stream_Write_UINT16 0;; TRUE.
Definition input_write_unicode_keyboard_event (flags code : Z) : SM (option unit) :=
  Stream_Write_UINT16 flags;; Stream_Write_UINT16 code;; Stream_Write_UINT16 0;; TRUE.
Definition input_write_mouse_event (flags x y : Z) : SM (option unit) :=
  Stream_Write_UINT16 flags;; Stream_Write_UINT16 x;; Stream_Write_UINT16 y;; TRUE.
Definition input_write_extended_mouse_event (flags x y : Z) : SM (option unit) :=
  Stream_Write_UINT16 flags;; Stream_Write_UINT16 x;; Stream_Write_UINT16 y;; TRUE.
Definition write_relmouse (flags xDelta yDelta : Z) : SM (option unit) :=
  Stream_Write_UINT16 flags;; Stream_Write_INT16 xDelta;; Stream_Write_INT16 yDelta;; TRUE.
Definition input_write_synchronize_event (flags : Z) : SM (option unit) :=
  rem ← Stream_GetRemainingCapacity;
  WINPR_ASSERT (rem >=? 6);;
  Stream_Write_UINT16 0;; Stream_Write_UINT32 flags;; TRUE.

Definition input_send_fastpath_synchronize_event (flags : Z) (rdp : rdpRdp) (w : W) : sending :=
  if negb running then Ret (false, rdp, w)
  else fastpath_send_input_pdu (u8 flags) FASTPATH_INPUT_EVENT_SYNC TRUE rdp w.
Definition input_send_fastpath_keyboard_event (flags code : Z) (rdp : rdpRdp) (w : W) : sending :=
  if negb running then Ret (false, rdp, w)
  else
    let eventFlags := if has flags KBD_FLAGS_RELEASE then FASTPATH_INPUT_KBDFLAGS_RELEASE else 0 in
    let eventFlags := Z.lor eventFlags (if has flags KBD_FLAGS_EXTENDED then FASTPATH_INPUT_KBDFLAGS_EXTENDED else 0) in
    let eventFlags := Z.lor eventFlags (if has flags KBD_FLAGS_EXTENDED1 then FASTPATH_INPUT_KBDFLAGS_PREFIX_E1 else 0) in
    fastpath_send_input_pdu eventFlags FASTPATH_INPUT_EVENT_SCANCODE
      (WINPR_ASSERT (code <=? UINT8_MAX);; Stream_Write_UINT8 code;; TRUE) rdp w.
Definition input_send_fastpath_unicode_keyboard_event (flags code : Z) (rdp : rdpRdp) (w : W) : sending :=
  if negb running then Ret (false, rdp, w)
  else if negb (is_UnicodeInput k) then Ret (false, rdp, w)
  else
    fastpath_send_input_pdu (if has flags KBD_FLAGS_RELEASE then FASTPATH_INPUT_KBDFLAGS_RELEASE else 0)
      FASTPATH_INPUT_EVENT_UNICODE (Stream_Write_UINT16 code;; TRUE) rdp w.
Definition input_send_fastpath_mouse_event (flags x y : Z) (rdp : rdpRdp) (w : W) : sending :=
  if negb running then Ret (false, rdp, w)
  else if negb (is_HasHorizontalWheel k) && has flags PTR_FLAGS_HWHEEL then Ret (true, rdp, w)
  else fastpath_send_input_pdu 0 FASTPATH_INPUT_EVENT_MOUSE (input_write_mouse_event flags x y) rdp w.
Definition input_send_fastpath_extended_mouse_event (flags x y : Z) (rdp : rdpRdp) (w : W) : sending :=
  if negb running then Ret (false, rdp, w)
  else if negb (is_HasExtendedMouseEvent k) then Ret (true, rdp, w)
  else fastpath_send_input_pdu 0 FASTPATH_INPUT_EVENT_MOUSEX (input_write_extended_mouse_event flags x y) rdp w.
Definition input_send_fastpath_relmouse_event (flags xDelta yDelta : Z) (rdp : rdpRdp) (w : W) : sending :=
  if negb running then Ret (false, rdp, w)
  else if negb (is_HasRelativeMouseEvent k) then Ret (false, rdp, w)
  else fastpath_send_input_pdu 0 TS_FP_RELPOINTER_EVENT (write_relmouse flags xDelta yDelta) rdp w.
Definition input_send_fastpath_qoe_event (timestampMS : Z) (rdp : rdpRdp) (w : W) : sending :=
  if negb running then Ret (false, rdp, w)
  else if negb (is_HasQoeEvent k) then Ret (false, rdp, w)
  else
    fastpath_send_input_pdu 0 TS_FP_QOETIMESTAMP_EVENT
      (TRY Stream_EnsureRemainingCapacity 4; Stream_Write_UINT32 timestampMS;; TRUE) rdp w.
Definition input_send_fastpath_focus_in_event (toggleStates : Z) (rdp : rdpRdp) (w : W) : sending :=
  if negb running then Ret (false, rdp, w)
  else
    let release := Z.lor FASTPATH_INPUT_KBDFLAGS_RELEASE (Z.shiftl FASTPATH_INPUT_EVENT_SCANCODE 5) in
    send_inputs (fastpath_input_pdu_init_header c rdp 0)
      (Stream_Write_UINT8 release;;
       Stream_Write_UINT8 0x0f;;
       Stream_Write_UINT8 (Z.lor (Z.land toggleStates 0x1F) (Z.shiftl FASTPATH_INPUT_EVENT_SYNC 5));;
       Stream_Write_UINT8 release;;
       Stream_Write_UINT8 0x0f;;
       TRUE) 3 rdp w.
Definition input_send_fastpath_keyboard_pause_event (rdp : rdpRdp) (w : W) : sending :=
  if negb running then Ret (false, rdp, w)
  else
    let keyDownEvent := Z.shiftl FASTPATH_INPUT_EVENT_SCANCODE 5 in
    let keyUpEvent := Z.lor (Z.shiftl FASTPATH_INPUT_EVENT_SCANCODE 5) FASTPATH_INPUT_KBDFLAGS_RELEASE in
    send_inputs (fastpath_input_pdu_init_header c rdp 0)
      (Stream_Write_UINT8 (Z.lor keyDownEvent FASTPATH_INPUT_KBDFLAGS_PREFIX_E1);;
       Stream_Write_UINT8 (RDP_SCANCODE_CODE RDP_SCANCODE_LCONTROL);;
       Stream_Write_UINT8 keyDownEvent;;
       Stream_Write_UINT8 (RDP_SCANCODE_CODE RDP_SCANCODE_NUMLOCK);;
       Stream_Write_UINT8 (Z.lor keyUpEvent FASTPATH_INPUT_KBDFLAGS_PREFIX_E1);;
       Stream_Write_UINT8 (RDP_SCANCODE_CODE RDP_SCANCODE_LCONTROL);;
       Stream_Write_UINT8 keyUpEvent;;
       Stream_Write_UINT8 (RDP_SCANCODE_CODE RDP_SCANCODE_NUMLOCK);;
       TRUE) 4 rdp w.

(** ** The slow path *)

(** [userId] is that of [rdp->mcs], [shareId] that of [rdp]. *)
Context (userId shareId : Z).

Definition rdp_write_client_input_pdu_header (number : Z) : SM unit :=
  rem ← Stream_GetRemainingCapacity;
  WINPR_ASSERT (rem >=? 4);;
  Stream_Write_UINT16 number;;
  Stream_Write_UINT16 0.
Definition rdp_write_input_event_header (time type : Z) : SM unit :=
  rem ← Stream_GetRemainingCapacity;
  WINPR_ASSERT (rem >=? 6);;
  Stream_Write_UINT32 time;;
  Stream_Write_UINT16 type.
Definition rdp_client_input_pdu_init (rdp : rdpRdp) (type sec_flags : Z) : outcome (option (wStream * Z)) :=
  r ← rdp_data_pdu_init rdp (fps_do_crypt c) (fps_do_secure_checksum c) sec_flags;
  match r with
  | None => Ret None
  | Some (s, sec_flags) =>
      match (rdp_write_client_input_pdu_header 1;; rdp_write_input_event_header 0 type) s with
      | Abort => Abort
      | Ret (_, s) => Ret (Some (s, sec_flags))
      end
  end.
Definition rdp_send_client_input_pdu (rdp : rdpRdp) (sec_flags : Z) : SM (option unit * rdpRdp) :=
  rdp_send_data_pdu rdp userId shareId DATA_PDU_TYPE_INPUT userId sec_flags.
(** One event: its type, and what writes it. *)
Definition send_input (type : Z) (write : SM (option unit)) (rdp : rdpRdp) (w : W) : sending :=
  r ← rdp_client_input_pdu_init rdp type 0;
  match r with
  | None => Ret (false, rdp, w)
  | Some (s, sec_flags) =>
      match (write;; rdp_send_client_input_pdu rdp sec_flags) s with
      | Abort => Abort
      | Ret ((None, rdp), _) => Ret (false, rdp, w)
      | Ret ((Some _, rdp), s) => let '(ok, w) := transport_write (ztake (st_length s) (st_buffer s)) w in Ret (ok, rdp, w)
      end
  end.

Definition input_send_synchronize_event (flags : Z) (rdp : rdpRdp) (w : W) : sending :=
  if negb running then Ret (false, rdp, w) else send_input INPUT_EVENT_SYNC (input_write_synchronize_event flags) rdp w.
Definition input_send_keyboard_event (flags code : Z) (rdp : rdpRdp) (w : W) : sending :=
  if negb running then Ret (false, rdp, w) else send_input INPUT_EVENT_SCANCODE (input_write_keyboard_event flags code) rdp w.
Definition input_send_unicode_keyboard_event (flags code : Z) (rdp : rdpRdp) (w : W) : sending :=
  if negb running then Ret (false, rdp, w)
  else if negb (is_UnicodeInput k) then Ret (false, rdp, w)
  else send_input INPUT_EVENT_UNICODE (input_write_unicode_keyboard_event flags code) rdp w.
Definition input_send_mouse_event (flags x y : Z) (rdp : rdpRdp) (w : W) : sending :=
  if negb running then Ret (false, rdp, w)
  else if negb (is_HasHorizontalWheel k) && has flags PTR_FLAGS_HWHEEL then Ret (true, rdp, w)
  else send_input INPUT_EVENT_MOUSE (input_write_mouse_event flags x y) rdp w.
Definition input_send_relmouse_event (flags xDelta yDelta : Z) (rdp : rdpRdp) (w : W) : sending :=
  if negb running then Ret (false, rdp, w)
  else if negb (is_HasRelativeMouseEvent k) then Ret (false, rdp, w)
  else send_input INPUT_EVENT_MOUSEREL (write_relmouse flags xDelta yDelta) rdp w.
Definition input_send_extended_mouse_event (flags x y : Z) (rdp : rdpRdp) (w : W) : sending :=
  if negb running then Ret (false, rdp, w)
  else if negb (is_HasExtendedMouseEvent k) then Ret (true, rdp, w)
  else send_input INPUT_EVENT_MOUSEX (input_write_extended_mouse_event flags x y) rdp w.
(** The next event only if the last one was sent. *)
Definition and_then (first : sending) (next : rdpRdp → W → sending) : sending :=
  '(ok, rdp, w) ← first;
  if negb ok then Ret (false, rdp, w) else next rdp w.
Definition input_send_focus_in_event (toggleStates : Z) (rdp : rdpRdp) (w : W) : sending :=
  and_then (input_send_keyboard_event KBD_FLAGS_RELEASE 0x0f rdp w) (λ rdp w,
  and_then (input_send_synchronize_event (Z.land toggleStates 0x1F) rdp w) (λ rdp w,
  input_send_keyboard_event KBD_FLAGS_RELEASE 0x0f rdp w)).
Definition input_send_keyboard_pause_event (rdp : rdpRdp) (w : W) : sending :=
  and_then (input_send_keyboard_event KBD_FLAGS_EXTENDED1 (RDP_SCANCODE_CODE RDP_SCANCODE_LCONTROL) rdp w) (λ rdp w,
  and_then (input_send_keyboard_event 0 (RDP_SCANCODE_CODE RDP_SCANCODE_NUMLOCK) rdp w) (λ rdp w,
  and_then (input_send_keyboard_event (Z.lor KBD_FLAGS_RELEASE KBD_FLAGS_EXTENDED1) (RDP_SCANCODE_CODE RDP_SCANCODE_LCONTROL) rdp w) (λ rdp w,
  input_send_keyboard_event KBD_FLAGS_RELEASE (RDP_SCANCODE_CODE RDP_SCANCODE_NUMLOCK) rdp w))).

(** ** What is registered *)

(** A call of the client's [rdpInput], by the function it calls. *)
Inductive input_call : Type :=
  | CallSynchronize (flags : Z)
  | CallKeyboard (flags code : Z)
  | CallKeyboardPause
  | CallUnicodeKeyboard (flags code : Z)
  | CallMouse (flags x y : Z)
  | CallRelMouse (flags xDelta yDelta : Z)
  | CallExtendedMouse (flags x y : Z)
  | CallFocusIn (toggleStates : Z)
  | CallQoE (timestampMS : Z).
(** [input_register_client_callbacks]: on the slow path there is no [QoEEvent]. *)
Definition registered (FastPathInput : bool) (e : input_call) : option (rdpRdp → W → sending) :=
  if FastPathInput then
    match e with
    | CallSynchronize flags => Some (input_send_fastpath_synchronize_event flags)
    | CallKeyboard flags code => Some (input_send_fastpath_keyboard_event flags code)
    | CallKeyboardPause => Some input_send_fastpath_keyboard_pause_event
    | CallUnicodeKeyboard flags code => Some (input_send_fastpath_unicode_keyboard_event flags code)
    | CallMouse flags x y => Some (input_send_fastpath_mouse_event flags x y)
    | CallRelMouse flags x y => Some (input_send_fastpath_relmouse_event flags x y)
    | CallExtendedMouse flags x y => Some (input_send_fastpath_extended_mouse_event flags x y)
    | CallFocusIn toggleStates => Some (input_send_fastpath_focus_in_event toggleStates)
    | CallQoE timestampMS => Some (input_send_fastpath_qoe_event timestampMS)
    end
  else
    match e with
    | CallSynchronize flags => Some (input_send_synchronize_event flags)
    | CallKeyboard flags code => Some (input_send_keyboard_event flags code)
    | CallKeyboardPause => Some input_send_keyboard_pause_event
    | CallUnicodeKeyboard flags code => Some (input_send_unicode_keyboard_event flags code)
    | CallMouse flags x y => Some (input_send_mouse_event flags x y)
    | CallRelMouse flags x y => Some (input_send_relmouse_event flags x y)
    | CallExtendedMouse flags x y => Some (input_send_extended_mouse_event flags x y)
    | CallFocusIn toggleStates => Some (input_send_focus_in_event toggleStates)
    | CallQoE _ => None
    end.
End client.
