(* ===== verification/InputCorrect.v ===== *)
(** Input arrives: what a client's functions send on either path calls the server's
    callbacks with the events it stands for. *)

From S2P Require Import Prelude Stream StreamLogic Transmission Per Framing Rc4 Security SecurityCorrect Mppc MppcCorrect Bulk Gcc Mcs RdpPdu RdpPduCorrect FastPath FastPathCorrect Input.
From stdpp Require Import prelude list numbers.
From Stdlib Require Import ZArith Lia.

#[local] Open Scope Z_scope.

(** * Events *)

(** A call of the server's callbacks. *)
Inductive input_event : Type :=
  | EvSync (flags : Z)
  | EvKey (flags code : Z)
  | EvUnicode (flags code : Z)
  | EvMouse (flags x y : Z)
  | EvRelMouse (flags x y : Z)
  | EvMouseX (flags x y : Z)
  | EvQoE (timestampMS : Z).

Definition is_u16 (z : Z) : Prop := 0 <= z <= UINT16_MAX.
Definition is_i16 (z : Z) : Prop := -32768 <= z <= 32767.
Definition is_u32 (z : Z) : Prop := 0 <= z <= UINT32_MAX.

Section calls.
Context {D : Type} (I : rdpInput D) (k : input_settings).

(** [default] is the result where there is no callback for unicode keys. *)
Definition call_event (default : bool) (e : input_event) : D → bool * D :=
  match e with
  | EvSync flags => call_SynchronizeEvent I flags
  | EvKey flags code => call_KeyboardEvent I flags code
  | EvUnicode flags code => call_UnicodeKeyboardEvent I default flags code
  | EvMouse flags x y => call_MouseEvent I flags x y
  | EvRelMouse flags x y => call_RelMouseEvent I k flags x y
  | EvMouseX flags x y => call_ExtendedMouseEvent I k flags x y
  | EvQoE timestampMS => call_QoEEvent I k timestampMS
  end.
Fixpoint call_events (default : bool) (es : list input_event) (d : D) : bool * D :=
  match es with
  | [] => (true, d)
  | e :: es => let '(ok, d) := call_event default e d in if ok then call_events default es d else (false, d)
  end.
Lemma call_events_app default es1 es2 d d1 d2 :
  call_events default es1 d = (true, d1) → call_events default es2 d1 = (true, d2) → call_events default (es1 ++ es2) d = (true, d2).
Proof.
  revert d. induction es1 as [|e es IH]; intros d; cbn; [by intros [= ->]|].
  destruct (call_event default e d) as [[] d']; [apply IH|done].
Qed.
Lemma call_events_split default es1 es2 d d2 :
  call_events default (es1 ++ es2) d = (true, d2) →
  ∃ d1, call_events default es1 d = (true, d1) ∧ call_events default es2 d1 = (true, d2).
Proof.
  revert d. induction es1 as [|e es IH]; intros d; cbn; [by exists d|]. destruct (call_event default e d) as [[] d']; [apply IH|done].
Qed.

(** The loop of either path over events: [enc] is how one is written, [got] what the server makes of it. *)
Lemma reads_events default event (enc : input_event → list Z) got es : ∀ d d',
  (∀ e d, In e es → reads (event d) (enc e) (call_event default (got e) d)) →
  call_events default (map got es) d = (true, d') → reads (recv_events event (length es) d) (concat (map enc es)) (true, d').
Proof.
  induction es as [|e es IH]; intros d d' Hev Hc; cbn [recv_events length map concat call_events] in *.
  { injection Hc as <-. apply reads_ret. }
  eapply reads_bind; [by apply Hev; left|]. destruct (call_event default (got e) d) as [ok d1]. destruct ok; cbn [negb]; [|done].
  apply IH; [|done]. intros e' d2 He'. apply Hev. by right.
Qed.
End calls.

(** * The fast path, an event *)

Definition kbd_bits (flags : Z) : Z :=
  Z.lor (Z.lor (if has flags KBD_FLAGS_RELEASE then FASTPATH_INPUT_KBDFLAGS_RELEASE else 0)
               (if has flags KBD_FLAGS_EXTENDED then FASTPATH_INPUT_KBDFLAGS_EXTENDED else 0))
        (if has flags KBD_FLAGS_EXTENDED1 then FASTPATH_INPUT_KBDFLAGS_PREFIX_E1 else 0).
(** The flags of a key that the fast path knows. *)
Definition kbd_kept (flags : Z) : Z :=
  Z.lor (Z.lor (if has flags KBD_FLAGS_RELEASE then KBD_FLAGS_RELEASE else 0)
               (if has flags KBD_FLAGS_EXTENDED then KBD_FLAGS_EXTENDED else 0))
        (if has flags KBD_FLAGS_EXTENDED1 then KBD_FLAGS_EXTENDED1 else 0).
Definition release_bit (flags : Z) : Z := if has flags KBD_FLAGS_RELEASE then FASTPATH_INPUT_KBDFLAGS_RELEASE else 0.

Definition pointer_bytes (flags x y : Z) : list Z :=
  winpr_Data_Write_UINT16 flags ++ winpr_Data_Write_UINT16 x ++ winpr_Data_Write_UINT16 y.
(** The encoding, and the event the server makes of it. *)
Definition fast_bytes (e : input_event) : list Z :=
  match e with
  | EvSync flags => [Z.lor (u8 flags) (Z.shiftl FASTPATH_INPUT_EVENT_SYNC 5)]
  | EvKey flags code => [kbd_bits flags; code]
  | EvUnicode flags code => [Z.lor (release_bit flags) (Z.shiftl FASTPATH_INPUT_EVENT_UNICODE 5)] ++ winpr_Data_Write_UINT16 code
  | EvMouse flags x y => [Z.shiftl FASTPATH_INPUT_EVENT_MOUSE 5] ++ pointer_bytes flags x y
  | EvRelMouse flags x y => [Z.shiftl TS_FP_RELPOINTER_EVENT 5] ++ pointer_bytes flags (u16 x) (u16 y)
  | EvMouseX flags x y => [Z.shiftl FASTPATH_INPUT_EVENT_MOUSEX 5] ++ pointer_bytes flags x y
  | EvQoE timestampMS => [Z.shiftl TS_FP_QOETIMESTAMP_EVENT 5] ++ winpr_Data_Write_UINT32 timestampMS
  end.
Definition fast_event (e : input_event) : input_event :=
  match e with
  | EvSync flags => EvSync (u8 flags)
  | EvKey flags code => EvKey (kbd_kept flags) code
  | EvUnicode flags code => EvUnicode (if has flags KBD_FLAGS_RELEASE then KBD_FLAGS_RELEASE else 0) code
  | _ => e
  end.
(** Arguments of the widths of the code. *)
Definition event_ok (e : input_event) : Prop :=
  match e with
  | EvSync flags => is_u32 flags
  | EvKey flags code => is_u16 flags ∧ is_byte code
  | EvUnicode flags code => is_u16 flags ∧ is_u16 code
  | EvMouse flags x y | EvMouseX flags x y => is_u16 flags ∧ is_u16 x ∧ is_u16 y
  | EvRelMouse flags x y => is_u16 flags ∧ is_i16 x ∧ is_i16 y
  | EvQoE timestampMS => is_u32 timestampMS
  end.
(** The toggle flags share a byte with the code of the event; the client asserts that they fit. *)
Definition fast_ok (e : input_event) : Prop :=
  event_ok e ∧ match e with EvSync flags => u8 flags < 32 | _ => True end.
Lemma u8_sync flags : u8 flags < 32 → 0 <= u8 flags < 32.
Proof. unfold u8. pose proof (Z.mod_pos_bound flags 256 ltac:(lia)). lia. Qed.

Lemma u16_range v : is_u16 (u16 v).
Proof. unfold is_u16, u16, UINT16_MAX. pose proof (Z.mod_pos_bound v 65536 ltac:(lia)). lia. Qed.
Lemma reads_INT16 {B} v (cont : Z → SM B) bs b :
  is_i16 v → reads (cont v) bs b → reads (x ← Stream_Read_INT16; cont x) (winpr_Data_Write_UINT16 (u16 v) ++ bs) b.
Proof.
  intros Hv Hk. eapply reads_bind; [|exact Hk]. unfold Stream_Read_INT16. apply reads_nil_r, reads_step_UINT16; [apply u16_range|].
  replace (if u16 v >? 32767 then u16 v - 65536 else u16 v) with v; [apply reads_ret|].
  unfold is_i16, u16 in *. destruct (Z.gtb_spec (v mod 65536) 32767); div_mod_lia.
Qed.

Section readers.
Context {D : Type} (I : rdpInput D) (k : input_settings).

Lemma reads_pointer call flags x y (d : D) :
  is_u16 flags → is_u16 x → is_u16 y → reads (recv_pointer Stream_Read_UINT16 call d) (pointer_bytes flags x y) (call flags x y d).
Proof.
  intros. unfold recv_pointer, pointer_bytes. apply reads_check; [by vm_compute|]. apply reads_step_UINT16; [done|].
  apply reads_step_UINT16; [done|]. apply reads_nil_r, reads_step_UINT16; [done|]. apply reads_ret.
Qed.
Lemma reads_relpointer call flags x y (d : D) :
  is_u16 flags → is_i16 x → is_i16 y → reads (recv_pointer Stream_Read_INT16 call d) (pointer_bytes flags (u16 x) (u16 y)) (call flags x y d).
Proof.
  intros. unfold recv_pointer, pointer_bytes. apply reads_check; [by vm_compute|]. apply reads_step_UINT16; [done|].
  apply reads_INT16; [done|]. apply reads_nil_r, reads_INT16; [done|]. apply reads_ret.
Qed.

Lemma header_fields fl code : 0 <= fl < 32 → 0 <= code < 8 →
  is_byte (Z.lor fl (Z.shiftl code 5)) ∧ Z.land (Z.lor fl (Z.shiftl code 5)) 0x1F = fl ∧ Z.shiftr (Z.lor fl (Z.shiftl code 5)) 5 = code.
Proof.
  intros Hf Hc. rewrite Z.shiftl_mul_pow2, Z.shiftr_div_pow2 by lia. rewrite Z.lor_comm.
  rewrite (lor_disjoint (code * 2 ^ 5) fl 5) by (try lia; apply Z.mod_mul; lia). change 0x1F with (Z.ones 5). rewrite Z.land_ones by lia.
  unfold is_byte. split; [lia|]. split; div_mod_lia.
Qed.
Lemma kbd_bits_range flags : 0 <= kbd_bits flags < 32.
Proof. unfold kbd_bits. destruct (has flags KBD_FLAGS_RELEASE), (has flags KBD_FLAGS_EXTENDED), (has flags KBD_FLAGS_EXTENDED1); by vm_compute. Qed.
Lemma release_bit_range flags : 0 <= release_bit flags < 32.
Proof. unfold release_bit. destruct (has flags KBD_FLAGS_RELEASE); by vm_compute. Qed.

Lemma reads_event_header fl code rest d b :
  0 <= fl < 32 → 0 <= code < 8 → reads (dispatch_input_event I k fl code d) rest b →
  reads (fastpath_recv_input_event I k d) (Z.lor fl (Z.shiftl code 5) :: rest) b.
Proof.
  intros Hf Hc Hrest. destruct (header_fields fl code Hf Hc) as (Hb & H1 & H2).
  unfold fastpath_recv_input_event. eapply (reads_bind _ _ [_] _ (Some (fl, code))); [|exact Hrest]. unfold fastpath_read_input_event_header.
  apply reads_check; [by vm_compute|]. apply (reads_step_UINT8 _ _ []). rewrite H1, H2. apply reads_ret.
Qed.
Lemma reads_fast_event e d : fast_ok e → reads (fastpath_recv_input_event I k d) (fast_bytes e) (call_event I k false (fast_event e) d).
Proof.
  intros [He Hsync]. pose proof (λ fl code rest, reads_event_header fl code rest d) as Hhead.
  destruct e as [flags|flags code|flags code|flags x y|flags x y|flags x y|t];
    cbn [fast_bytes fast_event call_event event_ok app] in *.
  - by apply Hhead; [apply u8_sync|done|apply reads_ret].
  - rewrite <- (Z.lor_0_r (kbd_bits flags)). apply (Hhead (kbd_bits flags) 0); [apply kbd_bits_range|done|].
    unfold fastpath_recv_input_event_scancode, dispatch_input_event. cbn [Z.eqb FASTPATH_INPUT_EVENT_SCANCODE]. apply reads_check; [by vm_compute|]. apply (reads_step_UINT8 _ _ []).
    replace (kbd_kept flags) with (let fl := if has (kbd_bits flags) FASTPATH_INPUT_KBDFLAGS_RELEASE then KBD_FLAGS_RELEASE else 0 in
      let fl := if has (kbd_bits flags) FASTPATH_INPUT_KBDFLAGS_EXTENDED then Z.lor fl KBD_FLAGS_EXTENDED else fl in
      if has (kbd_bits flags) FASTPATH_INPUT_KBDFLAGS_PREFIX_E1 then Z.lor fl KBD_FLAGS_EXTENDED1 else fl); [apply reads_ret|].
    unfold kbd_kept, kbd_bits. by destruct (has flags KBD_FLAGS_RELEASE), (has flags KBD_FLAGS_EXTENDED), (has flags KBD_FLAGS_EXTENDED1).
  - apply Hhead; [apply release_bit_range|done|]. cbv iota. unfold fastpath_recv_input_event_unicode.
    apply reads_check; [by vm_compute|]. apply reads_nil_r, reads_step_UINT16; [by destruct He|].
    unfold release_bit. destruct (has flags KBD_FLAGS_RELEASE); apply reads_ret.
  - apply (Hhead 0 FASTPATH_INPUT_EVENT_MOUSE); [done..|]. destruct He as (? & ? & ?). by apply reads_pointer.
  - apply (Hhead 0 TS_FP_RELPOINTER_EVENT); [done..|]. destruct He as (? & ? & ?). by apply reads_relpointer.
  - apply (Hhead 0 FASTPATH_INPUT_EVENT_MOUSEX); [done..|]. destruct He as (? & ? & ?). by apply reads_pointer.
  - apply (Hhead 0 TS_FP_QOETIMESTAMP_EVENT); [done..|]. cbv iota. unfold fastpath_recv_input_event_qoe. apply reads_check; [by vm_compute|].
    apply reads_nil_r, reads_step_UINT32; [done|]. apply reads_ret.
Qed.
End readers.

(** * The fast path, a packet *)

Section packets.
Context {HM : Malloc} {HD : Digests} {HC : Cipher} {HDL : DigestLaws} {HCL : CipherLaws} {ncrush xcrush : Codec}.

(** A stream of the client with [room] bytes for the headers and [body] behind them. *)
Record staged (room : Z) (body : list Z) (s : wStream) : Prop := {
  sg_wf : wf s;
  sg_capacity : st_capacity s = 256;
  sg_pointer : st_pointer s = room + zlen body;
  sg_buffer : ∃ front tl, st_buffer s = front ++ body ++ tl ∧ zlen front = room;
}.
Lemma staged_room room body s : staged room body s → ∃ front tl, st_buffer s = front ++ body ++ tl ∧ zlen front = room ∧
  room + zlen body + zlen tl = 256.
Proof.
  intros [[] Hc Hp (front & tl & Hb & Hf)]. exists front, tl. split; [done|]. split; [done|]. rewrite Hb, !zlen_app in wf_object. lia.
Qed.
Lemma staged_puts {A} room body s (m : SM A) bs a :
  staged room body s → puts (zlen bs) m bs a → room + zlen body + zlen bs <= 256 → ∃ s', m s = Ret (a, s') ∧ staged room (body ++ bs) s'.
Proof.
  intros Hs Hm Hz. destruct (staged_room _ _ _ Hs) as (front & tl & Hb & Hf & Htl). destruct Hs as [Hwf Hc Hp _].
  pose proof (zlen_nonneg bs). destruct (split_at (zlen bs) tl ltac:(lia)) as (old & tl' & -> & Hol & Htl').
  destruct (puts_at m bs a s (front ++ body) old tl' Hm Hwf) as (s' & E & Hwf' & Hb' & Hp');
    [by rewrite Hb, <- !app_assoc|rewrite zlen_app; lia|done|].
  exists s'. split; [done|]. split; [done| |rewrite Hp', !zlen_app; lia|].
  - pose proof (wf_object _ Hwf') as Ho. pose proof (wf_object _ Hwf) as Ho0. rewrite Hb', !zlen_app in Ho. rewrite Hb, !zlen_app in Ho0. lia.
  - exists front, tl'. by rewrite Hb', <- !app_assoc.
Qed.

Definition sec_room (c : fp_settings) (r : rdpRdp) : Z := 3 + fastpath_get_sec_bytes (fps_do_crypt c) r.
Lemma sec_bytes_range b r : 0 <= fastpath_get_sec_bytes b r <= 12.
Proof. unfold fastpath_get_sec_bytes. destruct b; [destruct (_ =? _)|]; lia. Qed.
Lemma init_staged c r :
  (∀ n, malloc_ok n = true) → ∃ s, fastpath_input_pdu_init_header c r 0 = Ret (Some (s, fragment_flags c)) ∧ staged (sec_room c r) [] s.
Proof.
  intros Hm. unfold fastpath_input_pdu_init_header, Stream_New. cbn [andb Z.eqb]. rewrite !Hm. cbn [negb].
  set (s := mkStream (zeros 256) 0 256 256 true true). assert (wf s) as Hs.
  { unfold s. split; cbn -[zeros]; lia || apply bytes_zeros || (by rewrite zlen_zeros) || done. }
  pose proof (sec_bytes_range (fps_do_crypt c) r) as Hr. set (n := fastpath_get_sec_bytes _ _) in *.
  erewrite bind_Ret by (apply run_Seek; [done|cbn; lia]).
  assert (wf (adv 3 s)) as Hs3 by (destruct Hs; split; cbn -[zeros] in *; lia || done). rewrite run_Seek by (done || cbn; lia).
  eexists. split; [by unfold fragment_flags; destruct (fps_do_crypt c), (fps_do_secure_checksum c)|].
  rewrite adv_adv. unfold sec_room. fold n. split.
  - destruct Hs. split; cbn -[zeros] in *; lia || done.
  - done.
  - cbn [adv set_pointer st_pointer s]. change (zlen (@nil Z)) with 0. lia.
  - exists (ztake (3 + n) (zeros 256)), (zdrop (3 + n) (zeros 256)). cbn [app]. split; [symmetry; apply ztake_zdrop|].
    rewrite zlen_ztake, zlen_zeros by lia. lia.
Qed.

(** The events are signed and encrypted behind the three bytes of the header. *)
Definition inputs_protected (r : rdpRdp) (flags : Z) (body hdr old oldpad tl : list Z) (s : wStream) (res : option Z * rdpRdp) (s' : wStream) : Prop :=
  match res.1 with
  | None => ¬ crypto_available
  | Some pad => pad = zlen oldpad ∧ wf s' ∧ st_capacity s' = st_capacity s ∧ ∃ w, secured r flags body (sec_header flags ++ w) res.2 ∧
      st_buffer s' = hdr ++ w ++ tl ∧ zlen w = zlen old + zlen body + pad
  end.
Lemma run_protect_inputs_rc4 r1 r2 s hdr old body tl flags :
  sec_sync r1 r2 → encrypted flags = true → EncryptionMethods r1 ≠ ENCRYPTION_METHOD_FIPS → wf s → bytes body →
  st_buffer s = hdr ++ old ++ body ++ tl → zlen hdr = 3 → zlen old = 8 → st_pointer s = 3 →
  ∃ res s', protect_inputs r1 8 (zlen body) flags s = Ret (res, s') ∧ inputs_protected r1 flags body hdr old [] tl s res s'.
Proof.
  intros Hsync He Hm Hs Hbb Hb H3 H8 Hp. pose proof (zlen_nonneg body). pose proof (zlen_nonneg tl).
  pose proof (wf_object _ Hs) as Ho. rewrite Hb, !zlen_app in Ho.
  unfold protect_inputs. erewrite bind_Ret by by apply run_GetPosition. rewrite Hp. cbv zeta.
  destruct (Z.eqb_spec (EncryptionMethods r1) ENCRYPTION_METHOD_FIPS); [done|].
  erewrite bind_Ret by by apply run_CheckCapacity. destruct (Z.ltb_spec (st_capacity s - st_pointer s) 8); [lia|].
  erewrite bind_Ret by (apply (run_stream_get (hdr ++ old) body tl); [done|by rewrite Hb, <- !app_assoc|rewrite zlen_app; lia|done]).
  destruct (checksum_total r1 (secure_checksum flags) true body (session_sign_len _ _ (sec_same _ _ Hsync) Hm)) as (sg & Hsg & Hsgl).
  erewrite bind_Ret by (apply run_lift; exact Hsg). destruct sg as [sig|]; [|by do 2 eexists]. destruct Hsgl as [Hsl Hsb].
  erewrite bind_Ret by by apply run_GetPosition. rewrite Hp.
  destruct (run_stream_set hdr old (body ++ tl) s 3 sig) as [E1 Hs1]; [done|done|done|lia|done|].
  erewrite bind_Ret by exact E1. set (s1 := set_buffer _ s) in *.
  erewrite bind_Ret by (apply (run_stream_get (hdr ++ sig) body tl); [done|cbn; by rewrite <- !app_assoc|rewrite zlen_app; lia|done]).
  destruct (security_encrypt_total r1 r2 body Hsync Hm Hbb) as (o & r' & Ee & Hol).
  erewrite bind_Ret by by apply run_lift. destruct o as [out|]; [|by do 2 eexists]. destruct Hol as [Hol Hob].
  destruct (run_stream_set (hdr ++ sig) body tl s1 11 out) as [E2 Hs2]; [done|cbn; by rewrite <- !app_assoc|rewrite zlen_app; lia|lia|done|].
  erewrite bind_Ret by exact E2. do 2 eexists. split; [done|]. cbn [fst snd]. split; [done|]. split; [done|]. split; [done|].
  exists (sig ++ out). split; [by constructor|]. split; [cbn; by rewrite <- !app_assoc|]. rewrite zlen_app. lia.
Qed.
Lemma run_optional_zeros s pre old tl pos pad :
  wf s → st_buffer s = pre ++ old ++ tl → pos = zlen pre → zlen old = pad →
  ∃ s', (if negb (pad =? 0) then stream_set pos (zeros pad) else mret tt) s = Ret (tt, s') ∧ wf s' ∧
    st_capacity s' = st_capacity s ∧ st_buffer s' = pre ++ zeros pad ++ tl.
Proof.
  intros Hs Hb -> <-. pose proof (zlen_nonneg old). destruct (Z.eqb_spec (zlen old) 0) as [Hp0|Hp0]; cbn [negb].
  - exists s. split; [done|]. split; [done|]. split; [done|]. rewrite Hp0. apply zlen_nil_inv in Hp0 as ->. done.
  - destruct (run_stream_set pre old tl s (zlen pre) (zeros (zlen old))) as [E Hs']; [done|done|done|by rewrite zlen_zeros|apply bytes_zeros|].
    eexists. split; [exact E|]. done.
Qed.
Lemma run_protect_inputs_fips r1 r2 s hdr old4 old8 body oldpad tl flags :
  let pad := fips_pad (zlen body) in
  sec_sync r1 r2 → encrypted flags = true → EncryptionMethods r1 = ENCRYPTION_METHOD_FIPS → wf s → bytes body →
  st_buffer s = hdr ++ (old4 ++ old8) ++ body ++ oldpad ++ tl → zlen hdr = 3 → zlen old4 = 4 → zlen old8 = 8 → zlen oldpad = pad → st_pointer s = 3 →
  ∃ res s', protect_inputs r1 12 (zlen body) flags s = Ret (res, s') ∧ inputs_protected r1 flags body hdr (old4 ++ old8) oldpad tl s res s'.
Proof.
  intros pad Hsync He Hm Hs Hbb Hb H3 H4 H8 Hop Hp. pose proof (zlen_nonneg body). pose proof (zlen_nonneg tl).
  pose proof (fips_pad_range (zlen body)) as [Hpr Hpm]. fold pad in Hpr, Hpm.
  unfold protect_inputs. erewrite bind_Ret by by apply run_GetPosition. rewrite Hp. cbv zeta.
  destruct (Z.eqb_spec (EncryptionMethods r1) ENCRYPTION_METHOD_FIPS); [|done].
  pose proof (fips_pad_code (zlen body) ltac:(lia)) as Hpc. cbv zeta in Hpc. rewrite Hpc. fold pad. clear Hpc.
  set (info := [16; 0; 1; pad]). assert (zlen info = 4) as Hi4 by done. rewrite <- !app_assoc in Hb.
  assert (puts (zlen info) (write_fips_information pad) info tt) as Hput.
  { apply (puts_UINT16 4 16 _ [1; pad]); [done..|]. apply (puts_UINT8 2 1 _ [pad]); [done..|]. intros s0 Hs0 Hf0.
    apply run_Write_UINT8; [done|unfold fits in *; lia|unfold is_byte; lia]. }
  destruct (puts_at _ info tt s hdr old4 (old8 ++ body ++ oldpad ++ tl) Hput Hs Hb) as (s1 & E1 & Hs1 & Hb1 & Hp1); [lia|lia|].
  erewrite bind_Ret by exact E1. pose proof (wf_object _ Hs) as Ho. pose proof (wf_object _ Hs1) as Ho1.
  rewrite Hb, !zlen_app in Ho. rewrite Hb1, !zlen_app in Ho1.
  erewrite bind_Ret by by apply run_CheckCapacity. destruct (Z.ltb_spec (st_capacity s1 - st_pointer s1) 8); [lia|].
  erewrite bind_Ret by (apply (run_stream_get (hdr ++ info ++ old8) body (oldpad ++ tl)); [done|by rewrite Hb1, <- !app_assoc|rewrite !zlen_app; lia|done]).
  pose proof (hmac_signature_total r1 body) as Hsig.
  destruct (security_hmac_signature r1 body) as [sig|] eqn:Esig; [|by do 2 eexists]. destruct Hsig as [Hsl Hsb].
  erewrite bind_Ret by by apply run_GetPosition.
  destruct (run_stream_set (hdr ++ info) old8 (body ++ oldpad ++ tl) s1 (st_pointer s1) sig) as [E2 Hs2];
    [done|by rewrite Hb1, <- !app_assoc|rewrite zlen_app; lia|lia|done|].
  erewrite bind_Ret by exact E2. set (s2 := set_buffer _ s1) in *.
  destruct (run_optional_zeros s2 (hdr ++ info ++ sig ++ body) oldpad tl (3 + 12 + zlen body) pad) as (s3 & E3 & Hs3 & Hc3 & Hb3);
    [done|cbn [s2 set_buffer st_buffer]; by rewrite <- !app_assoc|rewrite !zlen_app; lia|lia|]. rewrite <- !app_assoc in Hb3.
  erewrite bind_Ret by exact E3.
  assert (zlen (body ++ zeros pad) = zlen body + pad) as Hbz by (rewrite zlen_app, zlen_zeros; lia).
  erewrite bind_Ret by (apply (run_stream_get (hdr ++ info ++ sig) (body ++ zeros pad) tl); [done|rewrite Hb3; by rewrite <- !app_assoc|rewrite !zlen_app; lia|done]).
  destruct (fips_encrypt_total r1 r2 (body ++ zeros pad) Hsync Hm) as (o & r' & Ee & Hav); [by rewrite Hbz|].
  erewrite bind_Ret by by apply run_lift. destruct o as [out|]; [|by do 2 eexists].
  assert (bytes (body ++ zeros pad)) as Hbb' by (apply Forall_app_2; [done|apply bytes_zeros]).
  destruct (fips_packet r1 r2 body (zeros pad) sig out r' Hsync Hm Hbb') as (_ & _ & _ & _ & _ & _ & _ & Hol & Hob); [by rewrite Hbz|done|done|].
  destruct (run_stream_set (hdr ++ info ++ sig) (body ++ zeros pad) tl s3 (3 + 12) out) as [E4 Hs4];
    [done|rewrite Hb3; by rewrite <- !app_assoc|rewrite !zlen_app; lia|lia|done|].
  erewrite bind_Ret by exact E4. do 2 eexists. split; [done|]. cbn [inputs_protected fst snd]. split; [done|]. split; [done|].
  split; [cbn [s2 set_buffer st_capacity] in *; lia|]. exists ((info ++ sig) ++ out). split; [by constructor|].
  split; [cbn [set_buffer st_buffer]; by rewrite <- !app_assoc|]. rewrite !zlen_app. lia.
Qed.

(** The first byte of an input packet. *)
Definition input_header (n flags : Z) : Z :=
  let h := Z.lor FASTPATH_INPUT_ACTION_FASTPATH (u8 (Z.shiftl n 2)) in
  let h := if encrypted flags then Z.lor h (Z.shiftl FASTPATH_INPUT_ENCRYPTED 6) else h in
  if secure_checksum flags then Z.lor h (Z.shiftl FASTPATH_INPUT_SECURE_CHECKSUM 6) else h.
Lemma input_header_fields n flags : 1 <= n <= 15 → is_byte (input_header n flags) ∧ header_byte (input_header n flags) flags n.
Proof.
  intros Hn. unfold header_byte, input_header, sec_bits.
  assert (n = 1 ∨ n = 2 ∨ n = 3 ∨ n = 4 ∨ n = 5 ∨ n = 6 ∨ n = 7 ∨ n = 8 ∨ n = 9 ∨ n = 10 ∨ n = 11 ∨ n = 12 ∨ n = 13 ∨ n = 14 ∨ n = 15) as Hc by lia.
  repeat destruct Hc as [->|Hc]; try subst n; destruct (encrypted flags), (secure_checksum flags); by vm_compute.
Qed.

(** The length in the second and third byte, and the end. *)
Lemma run_finish_inputs s hb h12 w tl :
  wf s → st_buffer s = ([hb] ++ h12) ++ w ++ tl → zlen h12 = 2 → zlen w <= 200 →
  ∃ s', (TRY Stream_SetPosition 1;
         Stream_Write_UINT16_BE (Z.lor 0x8000 (u16 (3 + zlen w)));;
         TRY Stream_SetPosition (3 + zlen w);
         Stream_SealLength;; TRUE) s = Ret (Some tt, s') ∧ wf s' ∧ ztake (st_length s') (st_buffer s') = fp_packet hb w.
Proof.
  intros Hs Hb H2 Hw. pose proof (zlen_nonneg w). pose proof (zlen_nonneg tl). pose proof (wf_object _ Hs) as Ho.
  rewrite Hb, !zlen_app in Ho. change (zlen [hb]) with 1 in Ho. pose proof Hs as [].
  assert (∀ p, 0 <= p <= 3 + zlen w → (Stream_SetPosition p s : outcome _) = Ret (Some tt, set_pointer p s) ∧ wf (set_pointer p s)) as Hset.
  { intros p Hp. unfold Stream_SetPosition. destruct (Z.gtb_spec p (st_capacity s)); [lia|]. split; [done|]. split; cbn; lia || done. }
  destruct (Hset 1 ltac:(lia)) as [E1 Hs1]. erewrite bind_Ret by exact E1. cbv iota.
  assert (Z.lor 0x8000 (u16 (3 + zlen w)) = zlen w + 3 + 0x8000) as ->.
  { unfold u16. rewrite Z.mod_small by lia. rewrite (lor_disjoint 0x8000 _ 15) by (try done; lia). lia. }
  set (len := winpr_Data_Write_UINT16_BE (zlen w + 3 + 0x8000)).
  assert (puts (zlen len) (Stream_Write_UINT16_BE (zlen w + 3 + 0x8000)) len tt) as Hput.
  { intros s0 Hs0 Hf. apply run_Write_UINT16_BE; [done|done|unfold UINT16_MAX; lia]. }
  destruct (puts_at _ len tt (set_pointer 1 s) [hb] h12 (w ++ tl) Hput Hs1) as (s2 & E2 & Hs2 & Hb2 & Hp2); [by rewrite <- app_assoc in Hb|done|done|].
  erewrite bind_Ret by exact E2. pose proof (StreamLogic.wf_object _ Hs2) as Ho2. rewrite Hb2, !zlen_app in Ho2.
  change (zlen [hb]) with 1 in Ho2. change (zlen len) with 2 in Ho2. pose proof Hs2 as [].
  unfold Stream_SetPosition. unfold mbind, SM_bind, Stream_SealLength. destruct (Z.gtb_spec (3 + zlen w) (st_capacity s2)); [lia|].
  cbn [set_pointer st_pointer st_capacity]. destruct (Z.leb_spec 0 (3 + zlen w)); [|lia]. destruct (Z.leb_spec (3 + zlen w) (st_capacity s2)); [|lia].
  cbn [andb]. eexists. split; [done|]. split; [split; cbn; lia || done|]. cbn [set_length set_pointer st_length st_buffer st_pointer]. rewrite Hb2. unfold fp_packet.
  fold len. rewrite !app_assoc, <- (app_assoc [hb]). rewrite ztake_app_le by (rewrite !zlen_app; change (zlen [hb]) with 1; change (zlen len) with 2; lia).
  apply ztake_all. rewrite !zlen_app. change (zlen [hb]) with 1. change (zlen len) with 2. lia.
Qed.

(** The protection, or none. *)
Lemma run_protect_inputs c r1 r2 s hdr old body tl :
  (fps_do_crypt c = true → sec_sync r1 r2) → wf s → bytes body → st_buffer s = hdr ++ old ++ body ++ tl → zlen hdr = 3 →
  zlen old = fastpath_get_sec_bytes (fps_do_crypt c) r1 → 7 <= zlen tl → zlen body <= 100 → st_pointer s = 3 →
  ∃ res s', (if encrypted (fragment_flags c) then protect_inputs r1 (zlen old) (zlen body) (fragment_flags c) else mret (Some 0, r1)) s = Ret (res, s') ∧
    match res.1 with
    | None => ¬ crypto_available
    | Some pad => wf s' ∧ ∃ w tl', fp_wire r1 (fragment_flags c) body w res.2 ∧ st_buffer s' = hdr ++ w ++ tl' ∧
        zlen w = zlen old + zlen body + pad ∧ 0 <= pad < 8
    end.
Proof.
  intros Hsync Hs Hbb Hb H3 Ho Htl Hz Hp. unfold fp_wire. destruct (fragment_flags_shape c) as [He _]. unfold fastpath_get_sec_bytes in Ho.
  destruct (encrypted (fragment_flags c)) eqn:Een.
  2:{ exists (Some 0, r1), s. split; [done|]. split; [done|]. exists body, tl. rewrite <- He in Ho. rewrite Ho.
      apply zlen_nil_inv in Ho as ->. split; [done|]. split; [done|]. lia. }
  rewrite <- He in Ho. specialize (Hsync (eq_sym He)).
  destruct (Z.eqb_spec (EncryptionMethods r1) ENCRYPTION_METHOD_FIPS) as [Hm|Hm].
  - pose proof (fips_pad_range (zlen body)) as [Hpr _]. destruct (split_at 4 old ltac:(lia)) as (old4 & old8 & -> & H4 & H8).
    destruct (split_at (fips_pad (zlen body)) tl ltac:(lia)) as (oldpad & tl' & -> & Hop & _). rewrite zlen_app in Ho.
    destruct (run_protect_inputs_fips r1 r2 s hdr old4 old8 body oldpad tl' (fragment_flags c)) as ([o r'] & s' & E & Hres); [done..|lia|lia|done|done|].
    rewrite zlen_app. replace (zlen old4 + zlen old8) with 12 by lia. exists (o, r'), s'. split; [done|]. unfold inputs_protected in Hres. cbn [fst snd] in *.
    destruct o as [pad|]; [|done]. destruct Hres as (-> & Hs' & _ & w & Hw & Hb' & Hzw). split; [done|]. exists w, tl'. rewrite zlen_app in Hzw.
    split; [done|]. split; [done|]. lia.
  - destruct (run_protect_inputs_rc4 r1 r2 s hdr old body tl (fragment_flags c)) as ([o r'] & s' & E & Hres); [done..|].
    rewrite Ho. exists (o, r'), s'. split; [done|]. unfold inputs_protected in Hres. cbn [fst snd] in *.
    destruct o as [pad|]; [|done]. destruct Hres as (-> & Hs' & _ & w & Hw & Hb' & Hzw). split; [done|]. exists w, tl. change (zlen (@nil Z)) with 0 in *.
    split; [done|]. split; [done|]. lia.
Qed.

Lemma run_send_multiple c r1 r2 n body s :
  (fps_do_crypt c = true → sec_sync r1 r2) → bytes body → 0 < zlen body <= 100 → 1 <= n <= 15 → staged (sec_room c r1) body s →
  ∃ res s', fastpath_send_multiple_input_pdu true (fps_do_crypt c) r1 n (fragment_flags c) s = Ret (res, s') ∧
    if res.1 then wf s' ∧ ∃ w, fp_wire r1 (fragment_flags c) body w res.2 ∧
      ztake (st_length s') (st_buffer s') = fp_packet (input_header n (fragment_flags c)) w ∧ 0 < zlen w <= 200
    else ¬ crypto_available.
Proof.
  intros Hsync Hbb Hz Hn Hst. destruct (staged_room _ _ _ Hst) as (front & tl & Hb & Hfr & Htl). destruct Hst as [Hs Hc Hp _].
  pose proof (sec_bytes_range (fps_do_crypt c) r1) as Hsr. unfold sec_room in *. set (sec := fastpath_get_sec_bytes _ _) in *.
  destruct (split_at 1 front ltac:(lia)) as (h0 & rest & -> & Hh0 & Hrest). destruct (split_at 2 rest ltac:(lia)) as (h12 & old & -> & Hh12 & Hold).
  unfold fastpath_send_multiple_input_pdu. destruct (Z.gtb_spec n 0); [|lia]. erewrite bind_Ret by done. cbn [negb].
  destruct (Z.gtb_spec n 15); [lia|]. erewrite bind_Ret by by apply run_GetPosition.
  destruct (Z.geb_spec (st_pointer s) (Z.shiftl 2 14)) as [Hg|_]; [change (Z.shiftl 2 14) with 32768 in Hg; lia|].
  cbv zeta. fold (encrypted (fragment_flags c)) (secure_checksum (fragment_flags c)). fold (input_header n (fragment_flags c)).
  set (hb := input_header n _). destruct (input_header_fields n (fragment_flags c) Hn) as [Hhb _]. fold hb in Hhb.
  unfold Stream_ResetPosition. erewrite bind_Ret by done. rewrite !zlen_app in Hfr.
  assert (wf (set_pointer 0 s)) as Hs0 by (destruct Hs; split; cbn; lia || done).
  assert (puts (zlen [hb]) (Stream_Write_UINT8 hb) [hb] tt) as Hput.
  { intros s0 Hs0' Hf. by apply run_Write_UINT8. }
  destruct (puts_at _ [hb] tt (set_pointer 0 s) [] h0 ((h12 ++ old) ++ body ++ tl) Hput Hs0) as (s1 & E1 & Hs1 & Hb1 & Hp1);
    [cbn [app]; by rewrite <- app_assoc in Hb|done|done|].
  erewrite bind_Ret by exact E1. cbn [app] in Hb1. change (zlen (@nil Z)) with 0 in Hp1. change (zlen [hb]) with 1 in Hp1.
  pose proof (StreamLogic.wf_object _ Hs1) as Ho1. rewrite Hb1, zlen_cons, !zlen_app in Ho1.
  erewrite bind_Ret by (apply run_Seek; [done|lia]).
  assert (wf (adv 2 s1)) as Hs2 by (destruct Hs1; split; cbn; lia || done).
  destruct (run_protect_inputs c r1 r2 (adv 2 s1) ([hb] ++ h12) old body tl) as ([o r'] & s2 & E2 & Hres);
    [done|done|done|cbn [adv set_pointer st_buffer]; rewrite Hb1; by rewrite <- !app_assoc|rewrite zlen_app; change (zlen [hb]) with 1; lia|fold sec; lia|lia|lia|cbn; lia|].
  fold sec. assert (sec = zlen old) as -> by lia. destruct (Z.gtb_spec (zlen old + 3) (st_pointer s)); [lia|].
  replace (u16 (st_pointer s - 3 - zlen old)) with (zlen body) by (unfold u16; rewrite Z.mod_small; lia).
  erewrite bind_Ret by exact E2. cbv beta iota.
  cbn [fst snd] in Hres. destruct o as [pad|]; [|by exists (false, r'), s2].
  destruct Hres as (Hs2' & w & tl' & Hw & Hb2 & Hzw & Hpad). replace (st_pointer s + pad) with (3 + zlen w) by lia.
  destruct (Z.ltb_spec (3 + zlen w) UINT16_MAX); [|unfold UINT16_MAX in *; lia]. erewrite bind_Ret by done.
  destruct (run_finish_inputs s2 hb h12 w tl') as (s3 & E3 & Hs3 & Hpk); [done|done|done|lia|].
  erewrite bind_Ret by exact E3. exists (true, r'), s3. split; [done|]. split; [done|]. exists w. split; [done|]. split; [done|]. lia.
Qed.

(** * The fast path, from end to end *)

Lemma run_peer_recv {D} (I : rdpInput D) k c (f2 : rdpFastPath ncrush xcrush) r1 r1' es w d d' :
  let body := concat (map fast_bytes es) in let flags := fragment_flags c in
  (fps_do_crypt c = true → sec_sync r1 (fp_rdp f2)) → Forall fast_ok es → 1 <= Z.of_nat (length es) <= 15 → bytes body → 0 < zlen body <= 100 →
  fp_wire r1 flags body w r1' → 0 < zlen w <= 200 → bytes (fp_packet (input_header (Z.of_nat (length es)) flags) w) →
  call_events I k false (map fast_event es) d = (true, d') →
  ∃ f2' s', peer_recv_fastpath_pdu I k f2 d (stream_of (fp_packet (input_header (Z.of_nat (length es)) flags) w)) = Ret ((STATE_RUN_SUCCESS, f2', d'), s') ∧
    (fps_do_crypt c = true → sec_sync r1' (fp_rdp f2')).
Proof.
  intros body flags Hsync Hes Hn Hbb Hbz Hw Hzw Hpb Hc. set (n := Z.of_nat (length es)) in *.
  destruct (fragment_flags_shape c) as [He Hsh]. fold flags in He, Hsh. destruct (input_header_fields n flags Hn) as [_ Hh]. set (pkt := fp_packet _ w) in *.
  assert (readable (stream_of pkt)) as Hs.
  { apply stream_of_readable; [|done]. unfold pkt, fp_packet. rewrite !zlen_app. change (zlen [_]) with 1.
    change (zlen (winpr_Data_Write_UINT16_BE _)) with 2. unfold SIZE_MAX. lia. }
  destruct (run_fp_header f2 _ flags n w _ Hh Hs eq_refl (remaining_stream_of _) ltac:(lia)) as (Eh & Hs3 & Hr3). set (f2a := fp_set_header _ n f2) in Eh.
  destruct (run_fp_decrypt f2a r1 r1' flags body w (adv 3 (stream_of pkt))) as (r2 & s4 & Edec & Hs4 & Hr4 & Hsec);
    [by rewrite He|done|done|unfold UINT16_MAX; lia|done..|].
  unfold peer_recv_fastpath_pdu. erewrite bind_Ret by exact Eh. cbv beta iota. destruct (Z.eqb_spec (zlen w) 0); [lia|].
  erewrite bind_Ret by by apply run_CheckLength. rewrite <- zlen_remaining, Hr3 by done. destruct (Z.ltb_spec (zlen w) (zlen w)); [lia|].
  erewrite bind_Ret by exact Edec. cbv beta iota. unfold fastpath_recv_inputs. cbn [fp_numberEvents fp_set_rdp f2a fp_set_header].
  destruct (Z.eqb_spec n 0); [lia|]. erewrite bind_Ret by done. cbv iota. replace (Z.to_nat n) with (length es) by lia.
  assert (reads (recv_events (fastpath_recv_input_event I k) (length es) d) body (true, d')) as Hev.
  { apply (reads_events I k false _ fast_bytes fast_event es d d'); [|done]. intros e d0 Hin. apply reads_fast_event.
    by apply (proj1 (List.Forall_forall _ _) Hes). }
  erewrite bind_Ret by (apply (Hev s4 []); [done|by rewrite app_nil_r]). cbn [negb]. do 2 eexists. split; [done|]. by rewrite <- He.
Qed.

(** ** What a call stands for *)

(** The events of a call, before either path has changed them. *)
Definition raw_events (k : input_settings) (e : input_call) : list input_event :=
  match e with
  | CallSynchronize flags => [EvSync flags]
  | CallKeyboard flags code => [EvKey flags code]
  | CallKeyboardPause =>
      [EvKey KBD_FLAGS_EXTENDED1 RDP_SCANCODE_LCONTROL; EvKey 0 RDP_SCANCODE_NUMLOCK;
       EvKey (Z.lor KBD_FLAGS_RELEASE KBD_FLAGS_EXTENDED1) RDP_SCANCODE_LCONTROL; EvKey KBD_FLAGS_RELEASE RDP_SCANCODE_NUMLOCK]
  | CallUnicodeKeyboard flags code => if is_UnicodeInput k then [EvUnicode flags code] else []
  | CallMouse flags x y => if negb (is_HasHorizontalWheel k) && has flags PTR_FLAGS_HWHEEL then [] else [EvMouse flags x y]
  | CallRelMouse flags x y => if is_HasRelativeMouseEvent k then [EvRelMouse flags x y] else []
  | CallExtendedMouse flags x y => if is_HasExtendedMouseEvent k then [EvMouseX flags x y] else []
  | CallFocusIn toggleStates => [EvKey KBD_FLAGS_RELEASE 0x0f; EvSync (Z.land toggleStates 0x1F); EvKey KBD_FLAGS_RELEASE 0x0f]
  | CallQoE timestampMS => if is_HasQoeEvent k then [EvQoE timestampMS] else []
  end.
(** What a call returns: the functions for text, relative moves and time stamps refuse what the settings do
    not allow, the other ones leave it out. *)
Definition call_result (k : input_settings) (FastPathInput : bool) (e : input_call) : bool :=
  match e with
  | CallUnicodeKeyboard _ _ => is_UnicodeInput k
  | CallRelMouse _ _ _ => is_HasRelativeMouseEvent k
  | CallQoE _ => if FastPathInput then is_HasQoeEvent k else true
  | _ => true
  end.
(** Arguments of the widths of the code. *)
Definition call_ok (e : input_call) : Prop :=
  match e with
  | CallSynchronize flags => is_u32 flags
  | CallKeyboard flags code => is_u16 flags ∧ is_byte code
  | CallUnicodeKeyboard flags code => is_u16 flags ∧ is_u16 code
  | CallMouse flags x y | CallExtendedMouse flags x y => is_u16 flags ∧ is_u16 x ∧ is_u16 y
  | CallRelMouse flags x y => is_u16 flags ∧ is_i16 x ∧ is_i16 y
  | CallKeyboardPause | CallFocusIn _ => True
  | CallQoE timestampMS => is_u32 timestampMS
  end.
(** On the fast path, toggle flags it can carry. *)
Definition fast_call_ok (e : input_call) : Prop :=
  call_ok e ∧ match e with CallSynchronize flags => u8 flags < 32 | _ => True end.

Lemma toggle_range states : 0 <= Z.land states 0x1F < 32.
Proof. change 0x1F with (Z.ones 5). rewrite Z.land_ones by lia. apply Z.mod_pos_bound. lia. Qed.
Lemma event_ok_key flags code : 0 <= flags <= 65535 → 0 <= code < 256 → event_ok (EvKey flags code).
Proof. intros. split; [done|]. unfold is_byte. lia. Qed.
Lemma raw_events_fast k e : call_ok e → Forall event_ok (raw_events k e) ∧ (fast_call_ok e → Forall fast_ok (raw_events k e)).
Proof.
  assert (∀ l, Forall event_ok l → (fast_call_ok e → Forall (λ e, match e with EvSync flags => u8 flags < 32 | _ => True end) l) →
    Forall event_ok l ∧ (fast_call_ok e → Forall fast_ok l)) as Hboth.
  { intros l H1 H2. split; [done|]. intros Hf. by apply List.Forall_and; [|apply H2]. }
  intros He. pose proof event_ok_key as Hk. pose proof (Forall_singleton event_ok) as H1.
  destruct e as [flags|flags code| |flags code|flags x y|flags x y|flags x y|states|t]; cbn [raw_events call_ok] in *; apply Hboth;
    try (intros [_ Hs]).
  all: try (repeat (apply Forall_cons_2; [exact I || exact Hs|]); apply Forall_nil_2).
  all: try (apply H1; exact He).
  all: try (case_match; [apply H1; exact He|apply Forall_nil_2]).
  all: try (case_match; [repeat (apply Forall_cons_2; [exact I|]); apply Forall_nil_2|apply Forall_nil_2]).
  - repeat (apply Forall_cons_2; [apply Hk; vm_compute; by split|]). apply Forall_nil_2.
  - case_match; [apply Forall_nil_2|apply H1; exact He].
  - case_match; repeat (apply Forall_cons_2; [exact I|]); apply Forall_nil_2.
  - pose proof (toggle_range states). apply Forall_cons_2; [apply Hk; vm_compute; by split|].
    apply Forall_cons_2; [unfold event_ok, is_u32, UINT32_MAX; lia|]. apply Forall_cons_2; [apply Hk; vm_compute; by split|apply Forall_nil_2].
  - pose proof (toggle_range states). do 2 (apply Forall_cons_2; [try exact I; unfold u8; rewrite Z.mod_small; lia|]).
    apply Forall_cons_2; [exact I|apply Forall_nil_2].
Qed.

Lemma fast_bytes_ok e : fast_ok e → bytes (fast_bytes e) ∧ 0 < zlen (fast_bytes e) <= 7.
Proof.
  intros [He Hsync]. assert (∀ fl code, 0 <= fl < 32 → 0 <= code < 8 → is_byte (Z.lor fl (Z.shiftl code 5))) as Hh by (intros; by apply header_fields).
  assert (∀ flags x y, bytes (pointer_bytes flags x y)) as Hp.
  { intros. unfold pointer_bytes. repeat apply Forall_app_2; apply write16_le_bytes. }
  assert (∀ h l, is_byte h → bytes l → bytes ([h] ++ l)) as Hc by (intros h l Hb Hl; by apply Forall_cons_2).
  destruct e as [flags|flags code|flags code|flags x y|flags x y|flags x y|t]; cbn [fast_bytes event_ok] in *; (split; [|by split]).
  - apply (Hc _ []); [by apply Hh; [apply u8_sync|]|apply Forall_nil_2].
  - pose proof (kbd_bits_range flags). apply (Hc _ [_]); [unfold is_byte; lia|]. apply (Hc _ []); [by destruct He|apply Forall_nil_2].
  - apply Hc; [by apply Hh; [apply release_bit_range|]|apply write16_le_bytes].
  - by apply Hc.
  - by apply Hc.
  - by apply Hc.
  - apply Hc; [done|apply write32_le_bytes].
Qed.
Lemma fast_body_ok es : Forall fast_ok es → bytes (concat (map fast_bytes es)) ∧ zlen (concat (map fast_bytes es)) <= 7 * Z.of_nat (length es) ∧
  Z.of_nat (length es) <= zlen (concat (map fast_bytes es)).
Proof.
  induction 1 as [|e es He _ (IH1 & IH2 & IH3)]; cbn [map concat length]; [by split; [apply Forall_nil_2|]|]. destruct (fast_bytes_ok e He) as [Hb Hz].
  rewrite zlen_app. split; [by apply Forall_app_2|]. lia.
Qed.

Section senders.
Context (c : fp_settings) (k : input_settings) {W : Type} (transport_write : list Z → W → bool * W).
Context (Hmalloc : ∀ n, malloc_ok n = true).

(** The end of [send_inputs]. *)
Definition deliver (n : Z) (r : rdpRdp) (w : W) (s : wStream) : outcome (bool * rdpRdp * W) :=
  match fastpath_send_multiple_input_pdu true (fps_do_crypt c) r n (fragment_flags c) s with
  | Abort => Abort
  | Ret ((false, r), _) => Ret (false, r, w)
  | Ret ((true, r), s) => let '(ok, w) := transport_write (ztake (st_length s) (st_buffer s)) w in Ret (ok, r, w)
  end.
Definition delivers (n : Z) (body : list Z) (r : rdpRdp) (w : W) (res : outcome (bool * rdpRdp * W)) : Prop :=
  ∃ s, staged (sec_room c r) body s ∧ res = deliver n r w s.

Lemma sec_room_range r : 3 <= sec_room c r <= 15.
Proof. unfold sec_room. pose proof (sec_bytes_range (fps_do_crypt c) r). lia. Qed.
Lemma run_send_inputs init write n r w b0 bs s0 :
  init = Ret (Some (s0, fragment_flags c)) → staged (sec_room c r) b0 s0 → puts (zlen bs) write bs (Some tt) → zlen b0 + zlen bs <= 200 →
  delivers n (b0 ++ bs) r w (send_inputs c true transport_write init write n r w).
Proof.
  intros -> Hs Hw Hz. pose proof (sec_room_range r). destruct (staged_puts _ _ _ _ _ _ Hs Hw) as (s1 & E & Hs1); [lia|].
  exists s1. split; [done|]. unfold send_inputs, deliver. cbn [mbind outcome_bind]. by erewrite bind_Ret by exact E.
Qed.
Lemma run_send_all write n r w bs :
  puts (zlen bs) write bs (Some tt) → zlen bs <= 200 →
  delivers n bs r w (send_inputs c true transport_write (fastpath_input_pdu_init_header c r 0) write n r w).
Proof.
  intros Hw Hz. destruct (init_staged c r Hmalloc) as (s0 & E0 & Hs0). by apply (run_send_inputs _ _ _ _ _ [] bs s0).
Qed.
Lemma run_send_one fl code write r w bs :
  0 <= fl < 32 → 0 <= code < 8 → puts (zlen bs) write bs (Some tt) → zlen bs <= 100 →
  delivers 1 ([Z.lor fl (Z.shiftl code 5)] ++ bs) r w (fastpath_send_input_pdu c true transport_write fl code write r w).
Proof.
  intros Hf Hc Hw Hz. destruct (init_staged c r Hmalloc) as (s0 & E0 & Hs0). destruct (header_fields fl code Hf Hc) as [Hb _].
  pose proof (sec_room_range r). set (h := Z.lor fl (Z.shiftl code 5)) in *.
  destruct (staged_puts _ _ _ (Stream_Write_UINT8 h) [h] tt Hs0) as (s1 & E1 & Hs1);
    [intros s Hs Hfit; by apply run_Write_UINT8|change (zlen (@nil Z)) with 0; change (zlen [h]) with 1; lia|].
  unfold fastpath_send_input_pdu. apply (run_send_inputs _ _ _ _ _ [h] bs s1); [|done|done|change (zlen [h]) with 1; lia].
  unfold fastpath_input_pdu_init. rewrite E0. cbn [mbind outcome_bind]. fold h.
  destruct (Z.ltb_spec code 8); [|lia]. erewrite bind_Ret by done. destruct (Z.ltb_spec fl 32); [|lia]. erewrite bind_Ret by done.
  replace (u8 h) with h by (unfold u8; rewrite Z.mod_small; done). by rewrite E1.
Qed.

Lemma puts_INT16 {B} n v (cont : unit → SM B) bs b :
  2 <= n → is_i16 v → puts (n - 2) (cont tt) bs b → puts n (x ← Stream_Write_INT16 v; cont x) (winpr_Data_Write_UINT16 (u16 v) ++ bs) b.
Proof.
  intros Hn Hv Hk. eapply (puts_bind n 2); [done| |exact Hk]. intros s Hs Hf.
  destruct (run_Write_UINT16 (u16 v) s Hs Hf (u16_range v)) as (s' & E & Hstep). exists s'. split; [|done]. rewrite <- E.
  unfold Stream_Write_INT16, Stream_Write_UINT16. pose proof (u16_range v) as [H1 H2]. unfold is_i16 in Hv.
  replace ((-32768 <=? v) && (v <=? 32767)) with true by lia. by replace ((u16 v <=? UINT16_MAX) && (0 <=? u16 v)) with true by lia.
Qed.
Lemma puts_pointer flags x y : is_u16 flags → is_u16 x → is_u16 y → puts 6 (input_write_mouse_event flags x y) (pointer_bytes flags x y) (Some tt).
Proof.
  intros. unfold input_write_mouse_event, pointer_bytes. do 2 (apply puts_UINT16; [lia|done|]). apply puts_nil_r, puts_UINT16; [lia|done|]. apply puts_ret.
Qed.
Lemma puts_relpointer flags x y : is_u16 flags → is_i16 x → is_i16 y → puts 6 (write_relmouse flags x y) (pointer_bytes flags (u16 x) (u16 y)) (Some tt).
Proof.
  intros. unfold write_relmouse, pointer_bytes. apply puts_UINT16; [lia|done|]. apply puts_INT16; [lia|done|].
  apply puts_nil_r, puts_INT16; [lia|done|]. apply puts_ret.
Qed.

Lemma puts_bytes n l : Forall is_byte l → zlen l <= n → puts n (foldr (λ b m, Stream_Write_UINT8 b;; m) TRUE l) l (Some tt).
Proof.
  intros Hl. revert n. induction Hl as [|b l Hb Hl IH]; intros n Hn; cbn [foldr]; [apply puts_ret|].
  rewrite zlen_cons in Hn. pose proof (zlen_nonneg l). apply puts_UINT8; [lia|done|]. apply IH. lia.
Qed.
Lemma run_send_bytes l n r w body :
  Forall is_byte l → zlen l <= 200 → l = body →
  delivers n body r w (send_inputs c true transport_write (fastpath_input_pdu_init_header c r 0) (foldr (λ b m, Stream_Write_UINT8 b;; m) TRUE l) n r w).
Proof. intros Hl Hz <-. apply run_send_all; [by apply puts_bytes|done]. Qed.

(** Every registered function of the fast path sends its events in one packet, or sends nothing and
    answers where there are none. *)
Lemma fast_call_delivers userId shareId e send r w :
  fast_call_ok e → registered c k true true transport_write userId shareId true e = Some send →
  let es := raw_events k e in
  if es is [] then send r w = Ret (call_result k true e, r, w) else call_result k true e = true ∧ delivers (Z.of_nat (length es)) (concat (map fast_bytes es)) r w (send r w).
Proof.
  intros [Hok Hsync] Hreg. destruct e as [flags|flags code| |flags code|flags x y|flags x y|flags x y|states|t];
    cbn [registered] in Hreg; injection Hreg as <-; cbn [raw_events call_ok call_result] in *; cbv zeta.
  - split; [done|]. unfold input_send_fastpath_synchronize_event. cbn [negb].
    by apply (run_send_one (u8 flags) _ _ _ _ []); [apply u8_sync| |apply puts_ret|].
  - split; [done|]. destruct Hok as [Hf Hc]. unfold input_send_fastpath_keyboard_event. cbn [negb]. cbv zeta. fold (kbd_bits flags).
    cbn [map concat fast_bytes app length]. rewrite <- (Z.lor_0_r (kbd_bits flags)) at 1.
    apply (run_send_one (kbd_bits flags) 0 _ _ _ [code]); [apply kbd_bits_range|done| |done].
    unfold is_byte in Hc. apply puts_assert; [unfold UINT8_MAX; lia|]. by apply puts_UINT8; [done| |apply puts_ret].
  - split; [done|]. by apply (run_send_bytes [4; 29; 0; 69; 5; 29; 1; 69]); [apply (bool_decide_unpack _); vm_compute| |].
  - unfold input_send_fastpath_unicode_keyboard_event. cbn [negb]. destruct (is_UnicodeInput k); cbn [negb]; [split; [done|]|done].
    destruct Hok as [Hf Hc]. fold (release_bit flags). cbn [map concat fast_bytes length]. rewrite app_nil_r.
    apply run_send_one; [apply release_bit_range|done| |done]. by apply puts_nil_r, puts_UINT16; [done| |apply puts_ret].
  - unfold input_send_fastpath_mouse_event. cbn [negb]. destruct (_ && _); [done|]. split; [done|]. destruct Hok as (Hf & Hx & Hy).
    cbn [map concat fast_bytes length]. rewrite app_nil_r. apply (run_send_one 0); [done|done|by apply puts_pointer|done].
  - unfold input_send_fastpath_relmouse_event. cbn [negb]. destruct (is_HasRelativeMouseEvent k); cbn [negb]; [split; [done|]|done].
    destruct Hok as (Hf & Hx & Hy).
    cbn [map concat fast_bytes length]. rewrite app_nil_r. apply (run_send_one 0); [done|done|by apply puts_relpointer|done].
  - unfold input_send_fastpath_extended_mouse_event. cbn [negb]. destruct (is_HasExtendedMouseEvent k); cbn [negb]; [split; [done|]|done].
    destruct Hok as (Hf & Hx & Hy).
    cbn [map concat fast_bytes length]. rewrite app_nil_r. apply (run_send_one 0); [done|done|by apply puts_pointer|done].
  - split; [done|]. pose proof (toggle_range states) as Hr.
    destruct (header_fields (Z.land states 0x1F) FASTPATH_INPUT_EVENT_SYNC Hr ltac:(done)) as [Hb _].
    cbn [map concat fast_bytes]. replace (u8 (Z.land states 0x1F)) with (Z.land states 0x1F) by (unfold u8; rewrite Z.mod_small; lia).
    apply (run_send_bytes [1; 15; Z.lor (Z.land states 0x1F) (Z.shiftl FASTPATH_INPUT_EVENT_SYNC 5); 1; 15]); [|done|done].
    repeat (apply Forall_cons_2; [done|]). apply Forall_nil_2.
  - unfold input_send_fastpath_qoe_event. cbn [negb]. destruct (is_HasQoeEvent k); cbn [negb]; [split; [done|]|done].
    cbn [map concat fast_bytes length]. rewrite app_nil_r. apply (run_send_one 0); [done|done| |done].
    apply puts_ensure; [done|]. apply puts_nil_r, puts_UINT32; [done|done|apply puts_ret].
Qed.
End senders.
End packets.

(** * Sessions *)

Section session.
Context {HM : Malloc} {HD : Digests} {HC : Cipher} {HDL : DigestLaws} {HCL : CipherLaws} {ncrush xcrush : Codec}.

(** The calls of a client, one after the other, and what they return; a function that is not
    registered counts as [TRUE]. *)
Fixpoint send_calls (c : fp_settings) (k : input_settings) (running active FastPathInput : bool) (userId shareId : Z) (es : list input_call)
    (r : rdpRdp) (w : list (list Z)) : outcome (list bool * rdpRdp * list (list Z)) :=
  match es with
  | [] => Ret ([], r, w)
  | e :: es =>
      '(ok, r, w) ← match registered c k running active (λ p w, (true, w ++ [p])) userId shareId FastPathInput e with
                    | Some send => send r w
                    | None => Ret (true, r, w)
                    end;
      '(oks, r, w) ← send_calls c k running active FastPathInput userId shareId es r w;
      Ret (ok :: oks, r, w)
  end.
Fixpoint recv_input_packets {D} (I : rdpInput D) (k : input_settings) (pkts : list (list Z)) (f : rdpFastPath ncrush xcrush) (d : D) :
    outcome (Z * rdpFastPath ncrush xcrush * D) :=
  match pkts with
  | [] => Ret (STATE_RUN_SUCCESS, f, d)
  | p :: pkts =>
      match peer_recv_fastpath_pdu I k f d (stream_of p) with
      | Abort => Abort
      | Ret ((status, f, d), _) => if status =? STATE_RUN_SUCCESS then recv_input_packets I k pkts f d else Ret (status, f, d)
      end
  end.

Section exchange.
Context {D : Type} (I : rdpInput D) (c : fp_settings) (k1 k2 : input_settings) (userId shareId : Z).
Context (Hav : crypto_available).

Lemma call_delivered e send r1 w (f2 : rdpFastPath ncrush xcrush) d d' :
  fast_call_ok e → registered c k1 true true (λ p w, (true, w ++ [p])) userId shareId true e = Some send →
  (fps_do_crypt c = true → sec_sync r1 (fp_rdp f2)) → call_events I k2 false (map fast_event (raw_events k1 e)) d = (true, d') →
  ∃ r1' pkts f2', send r1 w = Ret (call_result k1 true e, r1', w ++ pkts) ∧ recv_input_packets I k2 pkts f2 d = Ret (STATE_RUN_SUCCESS, f2', d') ∧
    (fps_do_crypt c = true → sec_sync r1' (fp_rdp f2')).
Proof.
  intros Hok Hreg Hsync Hc. pose proof (fast_call_delivers c k1 (λ p w, (true, w ++ [p])) (av_malloc Hav) userId shareId e send r1 w Hok Hreg) as Hdel.
  pose proof (proj2 (raw_events_fast k1 e (proj1 Hok)) Hok) as Hev. cbv zeta in Hdel. set (es := raw_events k1 e) in *.
  assert ((length es <= 4)%nat) as Hlen by (unfold es; destruct e; cbn [raw_events]; repeat case_match; cbn; lia).
  destruct (fast_body_ok es Hev) as (Hbb & Hz1 & Hz2). destruct es as [|e0 es0] eqn:Ees.
  { exists r1, [], f2. rewrite app_nil_r. injection Hc as <-. done. }
  rewrite <- Ees in *. assert (1 <= Z.of_nat (length es)) as Hl1 by (rewrite Ees; cbn; lia). destruct Hdel as (-> & s & Hst & ->).
  destruct (run_send_multiple c r1 (fp_rdp f2) (Z.of_nat (length es)) (concat (map fast_bytes es)) s) as ([ok r1'] & s' & E & Hres);
    [done|done|lia|lia|done|]. cbn [fst snd] in Hres. destruct ok; [|done]. destruct Hres as (Hs' & wire & Hw & Hpkt & Hzw).
  destruct (run_peer_recv I k2 c f2 r1 r1' es wire d d') as (f2' & s2 & Er & Hsync'); [done|done|lia|done|lia|done|done| |done|].
  { rewrite <- Hpkt. apply Forall_ztake. by destruct Hs'. }
  exists r1', [fp_packet (input_header (Z.of_nat (length es)) (fragment_flags c)) wire], f2'. unfold deliver. rewrite E, Hpkt. split; [done|].
  cbn [recv_input_packets]. rewrite Er. done.
Qed.
Lemma recv_input_packets_app p1 p2 (f : rdpFastPath ncrush xcrush) d f1 d1 :
  recv_input_packets I k2 p1 f d = Ret (STATE_RUN_SUCCESS, f1, d1) → recv_input_packets I k2 (p1 ++ p2) f d = recv_input_packets I k2 p2 f1 d1.
Proof.
  revert f d. induction p1 as [|p p1 IH]; intros f d; cbn; [by intros [= -> ->]|].
  destruct (peer_recv_fastpath_pdu I k2 f d (stream_of p)) as [[[[st f'] d'] s']|]; [|done].
  destruct (Z.eqb_spec st STATE_RUN_SUCCESS); [apply IH|]. by intros [= -> _ _].
Qed.
Lemma calls_delivered es : ∀ r1 w (f2 : rdpFastPath ncrush xcrush) d d',
  Forall fast_call_ok es → (fps_do_crypt c = true → sec_sync r1 (fp_rdp f2)) →
  call_events I k2 false (map fast_event (concat (map (raw_events k1) es))) d = (true, d') →
  ∃ r1' pkts f2', send_calls c k1 true true true userId shareId es r1 w = Ret (map (call_result k1 true) es, r1', w ++ pkts) ∧
    recv_input_packets I k2 pkts f2 d = Ret (STATE_RUN_SUCCESS, f2', d') ∧ (fps_do_crypt c = true → sec_sync r1' (fp_rdp f2')).
Proof.
  induction es as [|e es IH]; intros r1 w f2 d d' Hok Hsync Hc; cbn [send_calls map concat] in *.
  { exists r1, [], f2. rewrite app_nil_r. injection Hc as <-. done. }
  apply Forall_cons_1 in Hok as [He Hes]. rewrite map_app in Hc. apply call_events_split in Hc as (d1 & Hc1 & Hc2).
  destruct (registered c k1 true true (λ p w, (true, w ++ [p])) userId shareId true e) as [send|] eqn:Hreg; [|by destruct e].
  destruct (call_delivered e send r1 w f2 d d1 He Hreg Hsync Hc1) as (r1a & p1 & f2a & -> & Er1 & Hsync1).
  destruct (IH r1a (w ++ p1) f2a d1 d' Hes Hsync1 Hc2) as (r1' & p2 & f2' & E2 & Er2 & Hsync2).
  exists r1', (p1 ++ p2), f2'. cbn [mbind outcome_bind]. rewrite E2, <- app_assoc. split; [done|].
  by erewrite recv_input_packets_app by exact Er1.
Qed.
End exchange.
End session.
