(* ===== verification/InputSafe.v ===== *)
(** Input at the server: delivered in sessions, safe on any packet of the fast path; the
    events of the slow path as they are written and read. *)

From S2P Require Import Prelude Stream StreamLogic Transmission Per Framing Rc4 Security SecurityCorrect Mppc MppcCorrect Bulk Mcs RdpPdu RdpPduCorrect RdpPduSafe RdpSession FastPath FastPathCorrect FastPathSession FastPathSafe Input InputCorrect.
From stdpp Require Import prelude list numbers.
From Stdlib Require Import ZArith Lia.

#[local] Open Scope Z_scope.

(** * The slow path, an event *)

Definition slow_type (e : input_event) : Z :=
  match e with
  | EvSync _ => INPUT_EVENT_SYNC
  | EvKey _ _ => INPUT_EVENT_SCANCODE
  | EvUnicode _ _ => INPUT_EVENT_UNICODE
  | EvMouse _ _ _ => INPUT_EVENT_MOUSE
  | EvRelMouse _ _ _ => INPUT_EVENT_MOUSEREL
  | _ => INPUT_EVENT_MOUSEX
  end.
Definition slow_body (e : input_event) : list Z :=
  match e with
  | EvSync flags => winpr_Data_Write_UINT16 0 ++ winpr_Data_Write_UINT32 flags
  | EvKey flags code | EvUnicode flags code => pointer_bytes flags code 0
  | EvMouse flags x y | EvMouseX flags x y => pointer_bytes flags x y
  | EvRelMouse flags x y => pointer_bytes flags (u16 x) (u16 y)
  | EvQoE _ => []
  end.
Definition slow_bytes (e : input_event) : list Z := zeros 4 ++ winpr_Data_Write_UINT16 (slow_type e) ++ slow_body e.
(** A key that is released is not down. *)
Definition slow_event (e : input_event) : input_event :=
  match e with
  | EvKey flags code => EvKey (fix_flags flags) code
  | EvUnicode flags code => EvUnicode (fix_flags flags) code
  | _ => e
  end.
Definition on_slow_path (e : input_event) : Prop := match e with EvQoE _ => False | _ => True end.

Section slow.
Context {D : Type} (I : rdpInput D) (k : input_settings).

Lemma reads_key (call : Z → Z → D → bool * D) flags code d :
  is_u16 flags → is_u16 code → reads (recv_key call d) (pointer_bytes flags code 0) (call (fix_flags flags) code d).
Proof.
  intros. unfold recv_key, pointer_bytes. apply reads_check; [by vm_compute|]. do 2 (apply reads_step_UINT16; [done|]).
  apply reads_nil_r, (reads_step_Seek 2); [done|]. apply reads_ret.
Qed.
Lemma reads_slow_event e d :
  event_ok e → on_slow_path e → reads (input_recv_event I k d) (slow_bytes e) (call_event I k true (slow_event e) d).
Proof.
  intros He Hslow. unfold input_recv_event, slow_bytes.
  apply reads_check; [destruct e; by vm_compute|]. apply (reads_step_Seek 4); [done|]. apply reads_step_UINT16; [by destruct e|].
  destruct e as [flags|flags code|flags code|flags x y|flags x y|flags x y|t]; cbn [slow_type slow_body slow_event call_event event_ok] in *.
  - change (INPUT_EVENT_SYNC =? INPUT_EVENT_SYNC) with true. cbv iota. unfold input_recv_sync_event.
    apply reads_check; [by vm_compute|]. apply (reads_step_Seek 2); [done|].
    apply reads_nil_r, reads_step_UINT32; [exact He|]. apply reads_ret.
  - destruct He as [Hf Hc]. replace code with (Z.land code 0xFF) at 2.
    + apply (reads_key (λ flags code, call_KeyboardEvent I flags (Z.land code 0xFF))); [done|unfold is_byte, is_u16, UINT16_MAX in *; lia].
    + change 0xFF with (Z.ones 8). rewrite Z.land_ones by lia. apply Z.mod_small. unfold is_byte in Hc. lia.
  - destruct He. by apply reads_key.
  - destruct He as (? & ? & ?). by apply reads_pointer.
  - destruct He as (? & ? & ?). by apply reads_relpointer.
  - destruct He as (? & ? & ?). by apply reads_pointer.
  - done.
Qed.
Lemma reads_slow_events es d d' :
  Forall event_ok es → Forall on_slow_path es → Z.of_nat (length es) <= UINT16_MAX → call_events I k true (map slow_event es) d = (true, d') →
  reads (input_recv I k d) (winpr_Data_Write_UINT16 (Z.of_nat (length es)) ++ zeros 2 ++ concat (map slow_bytes es)) (true, d').
Proof.
  intros Hes Hslow Hn Hc. unfold input_recv.
  assert (zlen (concat (map slow_bytes es)) = 12 * Z.of_nat (length es)) as Hz.
  { clear -Hslow. induction Hslow as [|e es He _ IH]; cbn [map concat length]; [done|].
    rewrite zlen_app, IH. replace (zlen (slow_bytes e)) with 12 by (by destruct e). lia. }
  apply reads_check; [rewrite !zlen_app; change (zlen (winpr_Data_Write_UINT16 _)) with 2; change (zlen (zeros 2)) with 2; lia|].
  apply reads_step_UINT16; [lia|]. apply (reads_step_Seek 2); [done|]. intros s tl Hs Hr.
  erewrite bind_Ret by (apply run_CheckLengthEx; [done|done]). rewrite <- zlen_remaining, Hr, zlen_app, Hz by done.
  pose proof (zlen_nonneg tl). destruct (Z.ltb_spec ((12 * Z.of_nat (length es) + zlen tl) / 6) (Z.of_nat (length es))) as [Hlt|_].
  { exfalso. apply Z.lt_nge in Hlt. apply Hlt. apply Z.div_le_lower_bound; lia. }
  rewrite Nat2Z.id, <- Hz. refine (reads_events I k true _ slow_bytes slow_event es d d' _ Hc s tl Hs Hr). intros e d0 Hin.
  apply reads_slow_event; [by apply (proj1 (List.Forall_forall _ _) Hes)|by apply (proj1 (List.Forall_forall _ _) Hslow)].
Qed.

(** What the client writes for an event. *)
Definition slow_write (e : input_event) : SM (option unit) :=
  match e with
  | EvSync flags => input_write_synchronize_event flags
  | EvKey flags code => input_write_keyboard_event flags code
  | EvUnicode flags code => input_write_unicode_keyboard_event flags code
  | EvMouse flags x y => input_write_mouse_event flags x y
  | EvRelMouse flags x y => write_relmouse flags x y
  | EvMouseX flags x y => input_write_extended_mouse_event flags x y
  | EvQoE _ => FALSE
  end.
Lemma puts_slow_event e : event_ok e → on_slow_path e → puts 6 (slow_write e) (slow_body e) (Some tt).
Proof.
  intros He Hs. destruct e as [flags|flags code|flags code|flags x y|flags x y|flags x y|t]; cbn [slow_write slow_body event_ok] in *.
  - apply puts_assert_capacity; [done|]. apply puts_UINT16; [done..|]. apply puts_nil_r, puts_UINT32; [done|exact He|apply puts_ret].
  - destruct He as [Hf Hc]. unfold is_byte in Hc. apply puts_assert; [unfold UINT8_MAX; lia|].
    by apply (puts_pointer flags code 0); [|unfold is_u16, UINT16_MAX; lia|].
  - destruct He. by apply (puts_pointer flags code 0).
  - destruct He as (? & ? & ?). by apply puts_pointer.
  - destruct He as (? & ? & ?). by apply puts_relpointer.
  - destruct He as (? & ? & ?). by apply puts_pointer.
  - done.
Qed.
Lemma puts_slow_packet e :
  event_ok e → on_slow_path e →
  puts 16 (rdp_write_client_input_pdu_header 1;; rdp_write_input_event_header 0 (slow_type e);; slow_write e)
    (winpr_Data_Write_UINT16 1 ++ zeros 2 ++ slow_bytes e) (Some tt).
Proof.
  intros He Hs. unfold slow_bytes. rewrite app_assoc. eapply (puts_bind _ 4 _ _ _ _ tt); [done| |].
  { unfold rdp_write_client_input_pdu_header. apply puts_assert_capacity; [done|]. apply puts_UINT16; [done..|].
    intros s Hs' Hf. by apply (run_Write_UINT16 0). }
  change (16 - zlen (winpr_Data_Write_UINT16 1 ++ zeros 2)) with 12. rewrite app_assoc. eapply (puts_bind _ 6 _ _ _ _ tt); [done| |].
  { unfold rdp_write_input_event_header. apply puts_assert_capacity; [done|]. apply puts_UINT32; [done..|].
    intros s Hs' Hf. by apply run_Write_UINT16; [| |destruct e]. }
  apply (puts_weaken _ 6); [by destruct e|by apply puts_slow_event].
Qed.
End slow.

(** * The fast path, any packet *)

Lemma safe_INT16 {B} n (cont : Z → SM B) P :
  2 <= n → (∀ v, safe (n - 2) (cont v) P) → safe n (x ← Stream_Read_INT16; cont x) P.
Proof.
  intros Hn Hk s. assert ((x ← Stream_Read_INT16; cont x) s = (x ← Stream_Read_UINT16; cont (if x >? 32767 then x - 65536 else x)) s) as ->.
  { unfold Stream_Read_INT16, mbind, SM_bind. by destruct (Stream_Read_UINT16 s) as [[]|]. }
  revert s. apply safe_UINT16; [done|]. intros v _. apply Hk.
Qed.

Section any.
Context {D : Type} (I : rdpInput D) (k : input_settings).

Lemma safe_pointer read call (d : D) :
  (∀ (B : Type) n (cont : Z → SM B) P, 2 <= n → (∀ v, safe (n - 2) (cont v) P) → safe n (x ← read; cont x) P) →
  safe 0 (recv_pointer read call d) (λ _, True).
Proof.
  intros Hread. unfold recv_pointer. apply safe_check; [by apply safe_ret|]. apply safe_UINT16; [lia|]. intros fl _.
  do 2 (apply Hread; [lia|]; intros ?). by apply safe_ret.
Qed.
Lemma safe_read16 (B : Type) n (cont : Z → SM B) P : 2 <= n → (∀ v, safe (n - 2) (cont v) P) → safe n (x ← Stream_Read_UINT16; cont x) P.
Proof. intros ? Hk. apply safe_UINT16; [done|]. intros v _. apply Hk. Qed.
Lemma safe_input_event d : safe 0 (fastpath_recv_input_event I k d) (λ _, True).
Proof.
  unfold fastpath_recv_input_event. eapply (safe_bind _ _ _ (λ _, True)).
  { unfold fastpath_read_input_event_header. apply safe_check; [by apply safe_ret|]. apply safe_UINT8; [lia|]. intros. by apply safe_ret. }
  intros [[flags code]|] _; [|by apply safe_ret]. unfold dispatch_input_event.
  destruct (_ =? _); [apply safe_check; [by apply safe_ret|]; apply safe_UINT8; [lia|]; intros; by apply safe_ret|].
  do 2 (destruct (_ =? _); [apply safe_pointer, safe_read16|]). destruct (_ =? _); [by apply safe_ret|].
  destruct (_ =? _); [apply safe_check; [by apply safe_ret|]; apply safe_UINT16; [lia|]; intros; by apply safe_ret|].
  destruct (_ =? _); [apply safe_pointer; intros B; apply safe_INT16|].
  destruct (_ =? _); [|by apply safe_ret]. apply safe_check; [by apply safe_ret|]. apply safe_UINT32; [lia|]. intros. by apply safe_ret.
Qed.
Lemma safe_events event n : (∀ d : D, safe 0 (event d) (λ _, True)) → ∀ d, safe 0 (recv_events event n d) (λ _, True).
Proof.
  intros He. induction n as [|n IH]; intros d; cbn [recv_events]; [by apply safe_ret|].
  eapply safe_bind; [apply He|]. intros [[] d'] _; cbn [negb]; [apply IH|by apply safe_ret].
Qed.

Section peer.
Context {HM : Malloc} {HD : Digests} {HC : Cipher} {HDL : DigestLaws} {HCL : CipherLaws} {ncrush xcrush : Codec}.
Definition inputs_ok (res : Z * rdpFastPath ncrush xcrush * D) (s' : wStream) : Prop :=
  readable s' ∧ (res.1.1 = STATE_RUN_FAILED ∨ res.1.1 = STATE_RUN_SUCCESS ∧ recv_ok (fp_rdp res.1.2)).

Lemma wp_recv_inputs (f : rdpFastPath ncrush xcrush) d s :
  recv_ok (fp_rdp f) → readable s → wp (fastpath_recv_inputs I k f d) inputs_ok s.
Proof.
  intros Hf Hs. unfold fastpath_recv_inputs. eapply wp_bind, (wp_safe 0 _ (λ _, True) _ s); [|done|by apply readable_rem|].
  { destruct (_ =? 0); [|by apply safe_ret]. apply safe_check; [by apply safe_ret|]. apply safe_UINT8; [lia|]. intros. by apply safe_ret. }
  intros [n|] s1 [_ _ _ Hs1] _; [|apply wp_ret; split; [done|by left]].
  eapply wp_bind, (wp_safe 0 _ (λ _, True) _ s1); [apply safe_events, safe_input_event|done|by apply readable_rem|].
  intros [[] d'] s2 [_ _ _ Hs2] _; apply wp_ret; (split; [done|]); [by right|by left].
Qed.
Lemma wp_peer_recv (f : rdpFastPath ncrush xcrush) d s :
  recv_ok (fp_rdp f) → readable s → wp (peer_recv_fastpath_pdu I k f d) inputs_ok s.
Proof.
  intros Hf Hs. unfold peer_recv_fastpath_pdu. apply wp_bind. eapply wp_mono; [|by apply wp_header].
  intros [o f1] s1 (Hs1 & Ho & flags & events & ->). destruct o as [n|]; [|apply wp_ret; split; [done|by left]]. cbn in Ho.
  destruct (n =? 0); [apply wp_ret; split; [done|by left]|].
  apply wp_bind, wp_check; [done|intros; apply wp_ret; split; [done|by left]|intros Hn].
  apply wp_bind. eapply wp_mono; [|by apply wp_decrypt]. intros [o f2] s2 [Hs2 Hf2].
  destruct o as [m|]; [|apply wp_ret; split; [done|by left]]. destruct Hf2 as (r & -> & Hr). by apply wp_recv_inputs.
Qed.
End peer.
End any.

(** * Theorems *)

Section theorems.
Context {HM : Malloc} {HD : Digests} {HC : Cipher} {HDL : DigestLaws} {HCL : CipherLaws} {ncrush xcrush : Codec}.

(** C6. What a user does at the client happens at the server.  Whatever functions of its [rdpInput] a
    client that uses the fast path calls, one after the other (keys, text, the pause key, the
    mouse, focus and time stamps) and whatever its settings are: a call for text, a relative move or a
    time stamp that the settings do not allow returns [FALSE] and sends nothing, a horizontal wheel or an
    extended button they do not allow is left out and counts as [TRUE], every other call returns [TRUE]
    ([call_result]); and the packets that leave the client make the server call its own functions, as long
    as these return [TRUE], with just the events of these calls ([raw_events]) in the same order, whether the
    packets are in the clear or encrypted with RC4 or 3DES.  What the encoding keeps of an event is
    [fast_event]: a key keeps its code, its release and its two extended bits, a character its release, the
    toggle flags their low byte.  That byte has to be below 32, as it is for the flags of the protocol, since the
    client asserts it ([fast_call_ok]). *)
Theorem input_session {D} (I : rdpInput D) c k1 k2 userId shareId es r1 (f2 : rdpFastPath ncrush xcrush) d d' :
  crypto_available → (fps_do_crypt c = true → sec_sync r1 (fp_rdp f2)) → Forall fast_call_ok es →
  call_events I k2 false (map fast_event (concat (map (raw_events k1) es))) d = (true, d') →
  ∃ r1' pkts f2', send_calls c k1 true true true userId shareId es r1 [] = Ret (map (call_result k1 true) es, r1', pkts) ∧
    recv_input_packets I k2 pkts f2 d = Ret (STATE_RUN_SUCCESS, f2', d').
Proof.
  intros Hav Hsync Hes Hc. destruct (calls_delivered I c k1 k2 userId shareId Hav es r1 [] f2 d d' Hes Hsync Hc)
    as (r1' & pkts & f2' & E1 & E2 & _). by exists r1', pkts, f2'.
Qed.

(** C7. Whatever packets arrive on the fast path of the server, it returns from each: no header, no
    signature and no event is read outside the packet, whatever the number of events the packet
    claims and whatever their codes are, decryption stays in place, and the server can go on with
    the next packet unless it has refused one. *)
Theorem peer_inputs_safe {D} (I : rdpInput D) k pkts (f : rdpFastPath ncrush xcrush) d :
  recv_ok (fp_rdp f) → Forall (λ p, bytes p ∧ zlen p <= SIZE_MAX) pkts →
  ∃ status f' d', recv_input_packets I k pkts f d = Ret (status, f', d') ∧
    (status = STATE_RUN_FAILED ∨ status = STATE_RUN_SUCCESS ∧ recv_ok (fp_rdp f')).
Proof.
  intros Hf Hp. revert f d Hf. induction Hp as [|p pkts [Hb Hz] _ IH]; intros f d Hf; cbn [recv_input_packets].
  { eexists _, _, _. split; [done|]. by right. }
  destruct (wp_peer_recv I k f d (stream_of p) Hf) as ([[status f1] d1] & s' & -> & _ & Hok); [by apply stream_of_readable|].
  destruct (Z.eqb_spec status STATE_RUN_SUCCESS) as [->|Hne].
  - destruct Hok as [?|[_ Hf1]]; [done|]. by apply IH.
  - eexists _, _, _. split; [done|]. by destruct Hok as [?|[? _]]; [left|].
Qed.
End theorems.

(** * Witnesses *)

#[local] Existing Instances model_malloc model_digests model_cipher model_digest_laws model_cipher_laws.

(** A server that keeps the events. *)
Definition logger : rdpInput (list input_event) :=
  let log e (d : list input_event) := (true, d ++ [e]) in
  mkInput (Some (λ flags, log (EvSync flags))) (Some (λ flags code, log (EvKey flags code))) (Some (λ flags code, log (EvUnicode flags code)))
    (Some (λ flags x y, log (EvMouse flags x y))) (Some (λ flags x y, log (EvRelMouse flags x y)))
    (Some (λ flags x y, log (EvMouseX flags x y))) (Some (λ t, log (EvQoE t))).
Definition all_input : input_settings := mkInputSettings true true true true true.
Definition some_calls : list input_call :=
  [CallSynchronize 4; CallKeyboard KBD_FLAGS_RELEASE 30; CallKeyboardPause; CallUnicodeKeyboard 0 0x20AC; CallMouse 0x0800 640 480;
   CallRelMouse 0 (-3) 7; CallExtendedMouse 1 2 3; CallFocusIn 0x12; CallQoE 4294967295].
Lemma some_calls_ok : Forall fast_call_ok some_calls.
Proof.
  repeat (apply Forall_cons_2; [split; [vm_compute; repeat split; discriminate|by vm_compute]|]).
  apply Forall_nil_2.
Qed.
(** Text and relative moves are not allowed. *)
Definition less_input : input_settings := mkInputSettings false true true false true.

Lemma input_session_witness :
  ∃ f2 r1' pkts f2', fp_end (fp_rdp0 true) = Some f2 ∧
    send_calls server_settings less_input true true true 1007 66 some_calls (fp_rdp0 false) [] =
      Ret (map (call_result less_input true) some_calls, r1', pkts) ∧
    recv_input_packets logger all_input pkts f2 [] = Ret (STATE_RUN_SUCCESS, f2', map fast_event (concat (map (raw_events less_input) some_calls))).
Proof.
  destruct (@bulk_new no_codec no_codec 1 metrics_new) as [b|] eqn:Eb; [|done].
  destruct (fastpath_new (fp_rdp0 true) b) as [f2|] eqn:E2; [|done]. destruct (fastpath_new_spec _ _ _ E2) as [Hr _].
  destruct (input_session logger server_settings less_input all_input 1007 66 some_calls (fp_rdp0 false) f2 []
    (map fast_event (concat (map (raw_events less_input) some_calls)))) as (r1' & pkts & f2' & H).
  - exact model_available.
  - intros _. rewrite Hr. apply (established_duplex ENCRYPTION_METHOD_128BIT). left. by right; right.
  - exact some_calls_ok.
  - by vm_compute.
  - exists f2, r1', pkts, f2'. split; [|exact H]. unfold fp_end. rewrite Eb. exact E2.
Defined.

Lemma peer_inputs_safe_witness :
  ∃ f status f' d', fp_end (fp_rdp0 true) = Some f ∧
    recv_input_packets logger all_input [[252; 20; 1; 2; 3; 4; 5; 6; 7; 8; 36; 9; 255; 1; 2; 3; 4; 5; 6; 7]; [0; 4; 255; 224]; []] f [] =
      Ret (status, f', d') ∧ (status = STATE_RUN_FAILED ∨ status = STATE_RUN_SUCCESS ∧ recv_ok (fp_rdp f')).
Proof.
  destruct (@bulk_new no_codec no_codec 1 metrics_new) as [b|] eqn:Eb; [|done].
  destruct (fastpath_new (fp_rdp0 true) b) as [f|] eqn:E2; [|done]. destruct (fastpath_new_spec _ _ _ E2) as [Hr _].
  destruct (peer_inputs_safe logger all_input [[252; 20; 1; 2; 3; 4; 5; 6; 7; 8; 36; 9; 255; 1; 2; 3; 4; 5; 6; 7]; [0; 4; 255; 224]; []] f [])
    as (status & f' & d' & H).
  - rewrite Hr. eapply sync_recv_ok, (established_duplex ENCRYPTION_METHOD_128BIT). left. by right; right.
  - repeat apply Forall_cons_2; try apply Forall_nil_2; (split; [by apply (bool_decide_unpack _); vm_compute|by vm_compute]).
  - exists f, status, f', d'. split; [|exact H]. unfold fp_end. rewrite Eb. exact E2.
Defined.

(** The packets of the same calls, encrypted with RC4 and with 3DES. *)
Example inputs_run : Forall (λ method,
  match fp_end (established_rdp method true), send_calls server_settings all_input true true true 1007 66 some_calls (established_rdp method false) [] with
  | Some f2, Ret (oks, _, pkts) =>
      oks = map (λ _, true) some_calls ∧ length pkts = length some_calls ∧ match recv_input_packets logger all_input pkts f2 [] with
        | Ret (status, _, d) => status = STATE_RUN_SUCCESS ∧ d = map fast_event (concat (map (raw_events all_input) some_calls))
        | Abort => False
        end
  | _, _ => False
  end) [ENCRYPTION_METHOD_128BIT; ENCRYPTION_METHOD_FIPS].
Proof. do 2 (apply Forall_cons_2; [vm_compute; by split_and!|]). apply Forall_nil_2. Qed.
