(* ===== verification/Activation.v ===== *)
(** The end of the connection sequence (core/activation.c and its states in core/connection.c
    and core/rdp.c): the PDUs with which client and server synchronize, hand over the control and
    exchange fonts, and the one that takes the session back to the exchange of capabilities. *)

From S2P Require Import Prelude Stream Per Framing Rc4 Security Mcs RdpPdu.
From stdpp Require Import prelude list numbers.
From Stdlib Require Import ZArith Lia.

#[local] Open Scope Z_scope.

Inductive CONNECTION_STATE : Type :=
  | CONNECTION_STATE_INITIAL
  | CONNECTION_STATE_NEGO
  | CONNECTION_STATE_NLA
  | CONNECTION_STATE_AAD
  | CONNECTION_STATE_MCS_CREATE_REQUEST
  | CONNECTION_STATE_MCS_CREATE_RESPONSE
  | CONNECTION_STATE_MCS_ERECT_DOMAIN
  | CONNECTION_STATE_MCS_ATTACH_USER
  | CONNECTION_STATE_MCS_ATTACH_USER_CONFIRM
  | CONNECTION_STATE_MCS_CHANNEL_JOIN_REQUEST
  | CONNECTION_STATE_MCS_CHANNEL_JOIN_RESPONSE
  | CONNECTION_STATE_RDP_SECURITY_COMMENCEMENT
  | CONNECTION_STATE_SECURE_SETTINGS_EXCHANGE
  | CONNECTION_STATE_CONNECT_TIME_AUTO_DETECT_REQUEST
  | CONNECTION_STATE_CONNECT_TIME_AUTO_DETECT_RESPONSE
  | CONNECTION_STATE_LICENSING
  | CONNECTION_STATE_MULTITRANSPORT_BOOTSTRAPPING_REQUEST
  | CONNECTION_STATE_MULTITRANSPORT_BOOTSTRAPPING_RESPONSE
  | CONNECTION_STATE_CAPABILITIES_EXCHANGE_DEMAND_ACTIVE
  | CONNECTION_STATE_CAPABILITIES_EXCHANGE_MONITOR_LAYOUT
  | CONNECTION_STATE_CAPABILITIES_EXCHANGE_CONFIRM_ACTIVE
  | CONNECTION_STATE_FINALIZATION_SYNC
  | CONNECTION_STATE_FINALIZATION_COOPERATE
  | CONNECTION_STATE_FINALIZATION_REQUEST_CONTROL
  | CONNECTION_STATE_FINALIZATION_PERSISTENT_KEY_LIST
  | CONNECTION_STATE_FINALIZATION_FONT_LIST
  | CONNECTION_STATE_FINALIZATION_CLIENT_SYNC
  | CONNECTION_STATE_FINALIZATION_CLIENT_COOPERATE
  | CONNECTION_STATE_FINALIZATION_CLIENT_GRANTED_CONTROL
  | CONNECTION_STATE_FINALIZATION_CLIENT_FONT_MAP
  | CONNECTION_STATE_ACTIVE.
#[export] Instance CONNECTION_STATE_eq_dec : EqDecision CONNECTION_STATE.
Proof. solve_decision. Defined.

Definition FINALIZE_SC_SYNCHRONIZE_PDU : Z := 0x01.
Definition FINALIZE_SC_CONTROL_COOPERATE_PDU : Z := 0x02.
Definition FINALIZE_SC_CONTROL_GRANTED_PDU : Z := 0x04.
Definition FINALIZE_SC_FONT_MAP_PDU : Z := 0x08.
Definition FINALIZE_CS_SYNCHRONIZE_PDU : Z := 0x10.
Definition FINALIZE_CS_CONTROL_COOPERATE_PDU : Z := 0x20.
Definition FINALIZE_CS_CONTROL_REQUEST_PDU : Z := 0x40.
Definition FINALIZE_CS_PERSISTENT_KEY_LIST_PDU : Z := 0x80.
Definition FINALIZE_CS_FONT_LIST_PDU : Z := 0x100.
Definition FINALIZE_DEACTIVATE_REACTIVATE : Z := 0x200.
Definition DATA_PDU_TYPE_CONTROL : Z := 0x14.
Definition DATA_PDU_TYPE_SYNCHRONIZE : Z := 0x1F.
Definition DATA_PDU_TYPE_FONT_LIST : Z := 0x27.
Definition DATA_PDU_TYPE_FONT_MAP : Z := 0x28.
Definition DATA_PDU_TYPE_BITMAP_CACHE_PERSISTENT_LIST : Z := 0x2B.
Definition SYNCMSGTYPE_SYNC : Z := 0x0001.
Definition CTRLACTION_REQUEST_CONTROL : Z := 0x0001.
Definition CTRLACTION_GRANTED_CONTROL : Z := 0x0002.
Definition CTRLACTION_COOPERATE : Z := 0x0004.
Definition PERSIST_FIRST_PDU : Z := 0x01.
Definition PERSIST_LAST_PDU : Z := 0x02.
Definition FONTLIST_FIRST : Z := 0x0001.
Definition FONTLIST_LAST : Z := 0x0002.

(** * One end of a connection *)

(** What these functions change of [rdpRdp], the settings and the peer.  [e_data] is the rest:
    the transport, the updates and the application. *)
Record endpoint {HC : Cipher} (D : Type) : Type := mkEndpoint {
  e_rdp : rdpRdp;
  e_finalize : Z; e_monitor_layout : bool; e_state : CONNECTION_STATE; e_activated : bool; e_connected : bool;
  e_resendFocus : bool; e_was_deactivated : bool; e_deactivated_height : Z; e_deactivated_width : Z;
  e_ShareId : Z; e_PduSource : Z; e_data : D;
}.
Arguments mkEndpoint {HC D}. Arguments e_rdp {HC D}. Arguments e_finalize {HC D}. Arguments e_monitor_layout {HC D}. Arguments e_state {HC D}.
Arguments e_activated {HC D}. Arguments e_connected {HC D}. Arguments e_resendFocus {HC D}. Arguments e_was_deactivated {HC D}. Arguments e_deactivated_height {HC D}.
Arguments e_deactivated_width {HC D}. Arguments e_ShareId {HC D}. Arguments e_PduSource {HC D}. Arguments e_data {HC D}.

(** What stays: of the settings, of [rdp], and the user of [rdp->mcs]. *)
Record end_settings : Type := mkEndSettings {
  es_do_crypt : bool; es_do_secure_checksum : bool; es_userId : Z; es_DesktopHeight : Z; es_DesktopWidth : Z;
  es_BitmapCachePersistEnabled : bool; es_BitmapCacheV2CellInfo : list Z;
}.

Section endpoint.
Context {HM : Malloc} {HD : Digests} {HC : Cipher} {D : Type}.
Implicit Types (e : endpoint D).

Definition set_rdp (r : rdpRdp) e : endpoint D :=
  let '(mkEndpoint _ f m st a cn rf wd h w sh ps d) := e in mkEndpoint r f m st a cn rf wd h w sh ps d.
Definition set_finalize (f : Z) e : endpoint D :=
  let '(mkEndpoint r _ m st a cn rf wd h w sh ps d) := e in mkEndpoint r f m st a cn rf wd h w sh ps d.
Definition set_monitor_layout (m : bool) e : endpoint D :=
  let '(mkEndpoint r f _ st a cn rf wd h w sh ps d) := e in mkEndpoint r f m st a cn rf wd h w sh ps d.
Definition set_state (st : CONNECTION_STATE) e : endpoint D :=
  let '(mkEndpoint r f m _ a cn rf wd h w sh ps d) := e in mkEndpoint r f m st a cn rf wd h w sh ps d.
Definition set_activated (a : bool) e : endpoint D :=
  let '(mkEndpoint r f m st _ cn rf wd h w sh ps d) := e in mkEndpoint r f m st a cn rf wd h w sh ps d.
Definition set_e_connected (cn : bool) e : endpoint D :=
  let '(mkEndpoint r f m st a _ rf wd h w sh ps d) := e in mkEndpoint r f m st a cn rf wd h w sh ps d.
Definition set_resendFocus (rf : bool) e : endpoint D :=
  let '(mkEndpoint r f m st a cn _ wd h w sh ps d) := e in mkEndpoint r f m st a cn rf wd h w sh ps d.
Definition set_deactivated (h w : Z) e : endpoint D :=
  let '(mkEndpoint r f m st a cn rf _ _ _ sh ps d) := e in mkEndpoint r f m st a cn rf true h w sh ps d.
Definition set_ShareId (sh : Z) e : endpoint D :=
  let '(mkEndpoint r f m st a cn rf wd h w _ ps d) := e in mkEndpoint r f m st a cn rf wd h w sh ps d.
Definition set_PduSource (ps : Z) e : endpoint D :=
  let '(mkEndpoint r f m st a cn rf wd h w sh _ d) := e in mkEndpoint r f m st a cn rf wd h w sh ps d.
Definition set_data (d : D) e : endpoint D :=
  let '(mkEndpoint r f m st a cn rf wd h w sh ps _) := e in mkEndpoint r f m st a cn rf wd h w sh ps d.

(** ** Flags *)

Definition rdp_finalize_set_flag (flag : Z) e : endpoint D := set_finalize (Z.lor (e_finalize e) flag) e.
Definition rdp_finalize_is_flag_set (flag : Z) e : bool := Z.land (e_finalize e) flag =? flag.
Definition rdp_set_monitor_layout_pdu_state (value : bool) e : bool * endpoint D :=
  if value && e_monitor_layout e then (false, e) else (true, set_monitor_layout value e).
Definition rdp_finalize_reset_flags (clearAll : bool) e : bool * endpoint D :=
  rdp_set_monitor_layout_pdu_state false
    (set_finalize (if clearAll then 0 else Z.land (e_finalize e) FINALIZE_DEACTIVATE_REACTIVATE) e).

(** ** States *)

Definition rdp_is_active_peer_state (state : CONNECTION_STATE) : bool :=
  match state with
  | CONNECTION_STATE_FINALIZATION_CLIENT_SYNC | CONNECTION_STATE_FINALIZATION_CLIENT_COOPERATE
  | CONNECTION_STATE_FINALIZATION_CLIENT_GRANTED_CONTROL | CONNECTION_STATE_FINALIZATION_CLIENT_FONT_MAP
  | CONNECTION_STATE_ACTIVE => true
  | _ => false
  end.
Definition rdp_is_active_client_state (state : CONNECTION_STATE) : bool :=
  match state with
  | CONNECTION_STATE_FINALIZATION_SYNC | CONNECTION_STATE_FINALIZATION_COOPERATE
  | CONNECTION_STATE_FINALIZATION_REQUEST_CONTROL | CONNECTION_STATE_FINALIZATION_PERSISTENT_KEY_LIST
  | CONNECTION_STATE_FINALIZATION_FONT_LIST => true
  | _ => rdp_is_active_peer_state state
  end.
(** The states before [CONNECTION_STATE_RDP_SECURITY_COMMENCEMENT]. *)
Definition before_security_commencement (state : CONNECTION_STATE) : bool :=
  match state with
  | CONNECTION_STATE_INITIAL | CONNECTION_STATE_NEGO | CONNECTION_STATE_NLA | CONNECTION_STATE_AAD
  | CONNECTION_STATE_MCS_CREATE_REQUEST | CONNECTION_STATE_MCS_CREATE_RESPONSE | CONNECTION_STATE_MCS_ERECT_DOMAIN
  | CONNECTION_STATE_MCS_ATTACH_USER | CONNECTION_STATE_MCS_ATTACH_USER_CONFIRM
  | CONNECTION_STATE_MCS_CHANNEL_JOIN_REQUEST | CONNECTION_STATE_MCS_CHANNEL_JOIN_RESPONSE => true
  | _ => false
  end.

(** Whom a change of the state is told, and what it resets. *)
Record watchers : Type := mkWatchers {
  OnStateChanged : CONNECTION_STATE → CONNECTION_STATE → D → D;
  OnActivated : bool → D → bool * D;
  OnConnectionStateChange : CONNECTION_STATE → bool → D → bool * D;
  update_reset_state : D → D;
}.
Context (W : watchers).

(** The result is always [TRUE]. *)
Definition rdp_set_state (state : CONNECTION_STATE) e : endpoint D :=
  set_state state (set_data (OnStateChanged W (e_state e) state (e_data e)) e).
Definition rdp_client_transition_to_state (state : CONNECTION_STATE) e : bool * endpoint D :=
  let e := rdp_set_state state e in
  let '(ok, e) :=
    match state with
    | CONNECTION_STATE_FINALIZATION_SYNC | CONNECTION_STATE_FINALIZATION_COOPERATE
    | CONNECTION_STATE_FINALIZATION_REQUEST_CONTROL | CONNECTION_STATE_FINALIZATION_PERSISTENT_KEY_LIST
    | CONNECTION_STATE_FINALIZATION_FONT_LIST => (true, set_data (update_reset_state W (e_data e)) e)
    | CONNECTION_STATE_CAPABILITIES_EXCHANGE_CONFIRM_ACTIVE =>
        let '(ok, d) := OnActivated W (negb (rdp_finalize_is_flag_set FINALIZE_DEACTIVATE_REACTIVATE e)) (e_data e) in (ok, set_data d e)
    | _ => (true, e)
    end in
  if negb ok then (false, e)
  else
    let '(ok, d) := OnConnectionStateChange W (e_state e) (rdp_is_active_client_state (e_state e)) (e_data e) in
    (ok, set_data d e).
Definition rdp_server_transition_to_state (state : CONNECTION_STATE) e : bool * endpoint D :=
  let cstate := e_state e in
  let e := if negb (rdp_is_active_peer_state cstate) && negb (before_security_commencement cstate) then set_activated false e else e in
  (true, rdp_set_state state e).

(** * Sending *)

Context (c : end_settings).
Context (transport_write : list Z → D → bool * D).
Definition end_step : Type := outcome (bool * endpoint D).

(** What is sealed is handed to the transport. *)
Definition hand_over (r : option unit * rdpRdp * wStream) e : bool * endpoint D :=
  let '(ok, rdp, s) := r in
  let e := set_rdp rdp e in
  match ok with
  | None => (false, e)
  | Some _ => let '(ok, d) := transport_write (ztake (st_length s) (st_buffer s)) (e_data e) in (ok, set_data d e)
  end.
(** A data PDU of the type, with what [write] puts into it. *)
Definition send_data (type : Z) (write : SM (option unit)) e : end_step :=
  r ← rdp_data_pdu_init (e_rdp e) (es_do_crypt c) (es_do_secure_checksum c) 0;
  match r with
  | None => Ret (false, e)
  | Some (s, sec_flags) =>
      match (ok ← write;
             match ok with
             | None => mret (None, e_rdp e)
             | Some _ => rdp_send_data_pdu (e_rdp e) (es_userId c) (e_ShareId e) type (es_userId c) sec_flags
             end) s with
      | Abort => Abort
      | Ret (r, s) => Ret (hand_over (r, s) e)
      end
  end.
(** The next step only if the last one has succeeded. *)
Definition also (first : bool * endpoint D) (next : endpoint D → end_step) : end_step :=
  let '(ok, e) := first in if negb ok then Ret (false, e) else next e.
Definition then_also (first : end_step) (next : endpoint D → end_step) : end_step := r ← first; also r next.

(** ** Synchronize *)

Definition rdp_write_synchronize_pdu (PduSource : Z) : SM (option unit) :=
  TRY Stream_CheckAndLogRequiredCapacity 4;
  Stream_Write_UINT16 SYNCMSGTYPE_SYNC;;
  targetUser ← WINPR_ASSERTING_INT_CAST UINT16_MAX PduSource;
  Stream_Write_UINT16 targetUser;;
  TRUE.
Definition rdp_send_server_synchronize_pdu e : end_step := send_data DATA_PDU_TYPE_SYNCHRONIZE (rdp_write_synchronize_pdu (e_PduSource e)) e.
Definition rdp_send_client_synchronize_pdu e : end_step := send_data DATA_PDU_TYPE_SYNCHRONIZE (rdp_write_synchronize_pdu (e_PduSource e)) e.
Definition rdp_recv_sync_pdu : SM (option unit) :=
  TRY Stream_CheckAndLogRequiredLengthEx 4 1;
  msgType ← Stream_Read_UINT16;
  if negb (msgType =? SYNCMSGTYPE_SYNC) then FALSE
  else
    targetUser ← Stream_Read_UINT16;
    TRUE.
Definition flag_if (flag : Z) (ok : option unit) e : bool * endpoint D :=
  match ok with None => (false, e) | Some _ => (true, rdp_finalize_set_flag flag e) end.
Definition rdp_recv_server_synchronize_pdu e : SM (bool * endpoint D) :=
  ok ← rdp_recv_sync_pdu; mret (flag_if FINALIZE_SC_SYNCHRONIZE_PDU ok e).
Definition rdp_recv_client_synchronize_pdu e : SM (bool * endpoint D) :=
  ok ← rdp_recv_sync_pdu; mret (flag_if FINALIZE_CS_SYNCHRONIZE_PDU ok e).

(** ** Control *)

Definition rdp_recv_control_pdu : SM (option (Z * Z * Z)) :=
  TRY Stream_CheckAndLogRequiredLength 8;
  action ← Stream_Read_UINT16;
  grantId ← Stream_Read_UINT16;
  controlId ← Stream_Read_UINT32;
  mret (Some (action, grantId, controlId)).
Definition rdp_write_client_control_pdu (action grantId controlId : Z) : SM (option unit) :=
  TRY Stream_CheckAndLogRequiredCapacity 8;
  Stream_Write_UINT16 action;;
  Stream_Write_UINT16 grantId;;
  Stream_Write_UINT32 controlId;;
  TRUE.
Definition rdp_recv_server_control_pdu e : SM (bool * endpoint D) :=
  o ← rdp_recv_control_pdu;
  mret (match o with
        | None => (false, e)
        | Some (action, grantId, controlId) =>
            if action =? CTRLACTION_COOPERATE then (true, rdp_finalize_set_flag FINALIZE_SC_CONTROL_COOPERATE_PDU e)
            else if action =? CTRLACTION_GRANTED_CONTROL
            then (true, rdp_finalize_set_flag FINALIZE_SC_CONTROL_GRANTED_PDU (set_resendFocus true e))
            else (false, e)
        end).
Definition rdp_send_server_control_cooperate_pdu e : end_step :=
  send_data DATA_PDU_TYPE_CONTROL
    (TRY Stream_CheckAndLogRequiredCapacity 8;
     Stream_Write_UINT16 CTRLACTION_COOPERATE;; Stream_Write_UINT16 0;; Stream_Write_UINT32 0;; TRUE) e.
Definition rdp_send_server_control_granted_pdu e : end_step :=
  send_data DATA_PDU_TYPE_CONTROL
    (TRY Stream_CheckAndLogRequiredCapacity 8;
     Stream_Write_UINT16 CTRLACTION_GRANTED_CONTROL;; Stream_Write_UINT16 (es_userId c);; Stream_Write_UINT32 0x03EA;; TRUE) e.
Definition rdp_send_client_control_pdu (action : Z) e : end_step :=
  if (action =? CTRLACTION_COOPERATE) || (action =? CTRLACTION_REQUEST_CONTROL)
  then send_data DATA_PDU_TYPE_CONTROL (rdp_write_client_control_pdu action 0 0) e
  else Ret (false, e).
Definition rdp_server_accept_client_control_pdu e : SM (bool * endpoint D) :=
  o ← rdp_recv_control_pdu;
  mret (match o with
        | None => (false, e)
        | Some (action, GrantId, ControlId) =>
            if action =? CTRLACTION_REQUEST_CONTROL then
              if negb (rdp_finalize_is_flag_set FINALIZE_CS_CONTROL_COOPERATE_PDU e) then (false, e)
              else if negb (GrantId =? 0) || negb (ControlId =? 0) then (false, e)
              else (true, rdp_finalize_set_flag FINALIZE_CS_CONTROL_REQUEST_PDU e)
            else if action =? CTRLACTION_COOPERATE then
              if negb (rdp_finalize_is_flag_set FINALIZE_CS_SYNCHRONIZE_PDU e) then (false, e)
              else if negb (GrantId =? 0) || negb (ControlId =? 0) then (false, e)
              else (true, rdp_finalize_set_flag FINALIZE_CS_CONTROL_COOPERATE_PDU e)
            else (false, e)
        end).

(** ** The keys of the bitmap cache *)

(** The numbers of entries of the five caches, their totals, and the keys. *)
Record RDP_BITMAP_PERSISTENT_INFO : Type := mkPersistent {
  numEntriesCache : list Z; totalEntriesCache : list Z; keyCount : Z; keyList : list Z;
}.
Fixpoint write_all {A} (write : A → SM unit) (l : list A) (next : SM (option unit)) : SM (option unit) :=
  match l with [] => next | v :: l => write v;; write_all write l next end.
Definition rdp_write_client_persistent_key_list_pdu (info : RDP_BITMAP_PERSISTENT_INFO) : SM (option unit) :=
  TRY Stream_EnsureRemainingCapacity 24;
  write_all Stream_Write_UINT16 (numEntriesCache info)
  (write_all Stream_Write_UINT16 (totalEntriesCache info)
  (Stream_Write_UINT8 (Z.lor PERSIST_FIRST_PDU PERSIST_LAST_PDU);;
   Stream_Write_UINT8 0;;
   Stream_Write_UINT16 0;;
   TRY Stream_EnsureRemainingCapacity (keyCount info * 8);
   write_all Stream_Write_UINT64 (ztake (keyCount info) (keyList info)) TRUE)).
(** The keys, [keyCount] of them, shared out to the caches. *)
Fixpoint share_out (keyCount : Z) (totals : list Z) : list Z :=
  match totals with
  | [] => []
  | total :: totals => let n := Z.min keyCount total in n :: share_out (keyCount - n) totals
  end.
Definition keyMaxFrag : Z := 2042.
(** [loaded] is what [rdp_load_persistent_key_list] has read from the file of the cache. *)
Definition rdp_send_client_persistent_key_list_pdu (loaded : list Z) e : end_step :=
  let keyCount := if zlen loaded >? keyMaxFrag then keyMaxFrag else zlen loaded in
  if negb (forallb (λ n, n <=? UINT16_MAX) (es_BitmapCacheV2CellInfo c)) then Abort
  else
    let entries := share_out keyCount (es_BitmapCacheV2CellInfo c) in
    let keyCount := u16 (foldr Z.add 0 entries) in
    send_data DATA_PDU_TYPE_BITMAP_CACHE_PERSISTENT_LIST
      (rdp_write_client_persistent_key_list_pdu (mkPersistent entries entries keyCount loaded)) e.
Fixpoint read_sum (n : nat) : SM Z :=
  match n with
  | O => mret 0
  | S n => v ← Stream_Read_UINT16; sum ← read_sum n; mret (v + sum)
  end.
Definition rdp_recv_client_persistent_key_list_pdu : SM (option unit) :=
  TRY Stream_CheckAndLogRequiredLength 21;
  count ← read_sum 5;
  total ← read_sum 5;
  if total >? 262144 then FALSE
  else
    flags ← Stream_Read_UINT8;
    if negb (Z.ldiff flags (Z.lor PERSIST_LAST_PDU PERSIST_FIRST_PDU) =? 0) then FALSE
    else
      TRY Stream_SafeSeekEx 3;
      Stream_SafeSeekEx (count * 8).
Definition rdp_server_accept_client_persistent_key_list_pdu e : SM (bool * endpoint D) :=
  ok ← rdp_recv_client_persistent_key_list_pdu; mret (flag_if FINALIZE_CS_PERSISTENT_KEY_LIST_PDU ok e).

(** ** Fonts *)

Definition rdp_recv_client_font_list_pdu : SM (option unit) :=
  TRY Stream_CheckAndLogRequiredLength 8;
  Stream_SafeSeekEx 8.
Definition rdp_write_client_font_list_pdu (flags : Z) : SM (option unit) :=
  TRY Stream_CheckAndLogRequiredCapacity 8;
  Stream_Write_UINT16 0;;
  Stream_Write_UINT16 0;;
  Stream_Write_UINT16 flags;;
  Stream_Write_UINT16 50;;
  TRUE.
Definition rdp_send_client_font_list_pdu (flags : Z) e : end_step := send_data DATA_PDU_TYPE_FONT_LIST (rdp_write_client_font_list_pdu flags) e.
Definition rdp_recv_font_map_pdu e : SM (bool * endpoint D) :=
  WINPR_ASSERT (negb (ServerMode (e_rdp e)));;
  ok ← Stream_CheckAndLogRequiredLength 8;
  match ok with
  | Some _ =>
      numberEntries ← Stream_Read_UINT16;
      totalNumEntries ← Stream_Read_UINT16;
      mapFlags ← Stream_Read_UINT16;
      entrySize ← Stream_Read_UINT16;
      mret (true, rdp_finalize_set_flag FINALIZE_SC_FONT_MAP_PDU e)
  | None => mret (true, rdp_finalize_set_flag FINALIZE_SC_FONT_MAP_PDU e)
  end.
Definition rdp_send_server_font_map_pdu e : end_step :=
  send_data DATA_PDU_TYPE_FONT_MAP
    (TRY Stream_CheckAndLogRequiredCapacity 8;
     Stream_Write_UINT16 0;; Stream_Write_UINT16 0;; Stream_Write_UINT16 (Z.lor FONTLIST_FIRST FONTLIST_LAST);; Stream_Write_UINT16 4;; TRUE) e.
Definition rdp_server_accept_client_font_list_pdu e : SM (bool * endpoint D) :=
  ok ← rdp_recv_client_font_list_pdu;
  match ok with
  | None => mret (false, e)
  | Some _ =>
      lift (also (rdp_server_transition_to_state CONNECTION_STATE_FINALIZATION_CLIENT_FONT_MAP (rdp_finalize_set_flag FINALIZE_CS_FONT_LIST_PDU e)) (λ e,
            then_also (rdp_send_server_font_map_pdu e) (λ e,
            Ret (rdp_server_transition_to_state CONNECTION_STATE_ACTIVE e))))
  end.

(** ** Deactivation *)

(** The fields of the PDU, which may be missing: a [ShareId] that was read. *)
Definition read_deactivate_all : SM (option Z) :=
  rem ← Stream_GetRemainingLength;
  if negb (rem >? 0) then FALSE
  else
    TRY Stream_CheckAndLogRequiredLength 4;
    ShareId ← Stream_Read_UINT32;
    ok ← Stream_CheckAndLogRequiredLength 2;
    match ok with
    | None => mret (Some ShareId)
    | Some _ =>
        lengthSourceDescriptor ← Stream_Read_UINT16;
        ok ← Stream_CheckAndLogRequiredLength lengthSourceDescriptor;
        match ok with
        | None => mret (Some ShareId)
        | Some _ => Stream_Seek lengthSourceDescriptor;; mret (Some ShareId)
        end
    end.
Definition rdp_recv_deactivate_all e : SM (bool * endpoint D) :=
  let e :=
    if decide (e_state e = CONNECTION_STATE_ACTIVE)
    then set_deactivated (es_DesktopHeight c) (es_DesktopWidth c) (rdp_finalize_set_flag FINALIZE_DEACTIVATE_REACTIVATE e)
    else e in
  o ← read_deactivate_all;
  mret (rdp_client_transition_to_state CONNECTION_STATE_CAPABILITIES_EXCHANGE_DEMAND_ACTIVE
          match o with None => e | Some ShareId => set_ShareId ShareId e end).
Definition rdp_send_deactivate_all e : end_step :=
  if es_userId c =? 0 then Ret (true, e)
  else
    r ← rdp_send_stream_pdu_init (e_rdp e) (es_do_crypt c) (es_do_secure_checksum c) 0;
    match r with
    | None => Ret (false, e)
    | Some (s, sec_flags) =>
        match (ok ← (TRY Stream_CheckAndLogRequiredCapacity 7;
                     Stream_Write_UINT32 (e_ShareId e);; Stream_Write_UINT16 1;; Stream_Write_UINT8 0;; TRUE);
               match ok with
               | None => mret (None, e_rdp e)
               | Some _ => rdp_send_pdu (e_rdp e) (es_userId c) PDU_TYPE_DEACTIVATE_ALL (es_userId c) sec_flags
               end) s with
        | Abort => Abort
        | Ret (r, s) => Ret (hand_over (r, s) e)
        end
    end.

(** ** The two sides of the finalization *)

(** After the capabilities: the server. *)
Definition rdp_server_send_sync e : end_step :=
  also (rdp_server_transition_to_state CONNECTION_STATE_FINALIZATION_CLIENT_SYNC e) (λ e,
  then_also (rdp_send_server_synchronize_pdu e) (λ e,
  also (rdp_server_transition_to_state CONNECTION_STATE_FINALIZATION_CLIENT_COOPERATE e) (λ e,
  then_also (rdp_send_server_control_cooperate_pdu e) (λ e,
  also (rdp_finalize_reset_flags false e) (λ e,
  Ret (rdp_server_transition_to_state CONNECTION_STATE_FINALIZATION_SYNC e)))))).
(** The client sends its PDUs in one go; [true] is [STATE_RUN_SUCCESS]. *)
Definition rdp_client_connect_finalize (loaded : list Z) e : end_step :=
  also (rdp_client_transition_to_state CONNECTION_STATE_FINALIZATION_SYNC e) (λ e,
  then_also (rdp_send_client_synchronize_pdu e) (λ e,
  also (rdp_client_transition_to_state CONNECTION_STATE_FINALIZATION_COOPERATE e) (λ e,
  then_also (rdp_send_client_control_pdu CTRLACTION_COOPERATE e) (λ e,
  also (rdp_client_transition_to_state CONNECTION_STATE_FINALIZATION_REQUEST_CONTROL e) (λ e,
  then_also (rdp_send_client_control_pdu CTRLACTION_REQUEST_CONTROL e) (λ e,
  then_also
    (if negb (rdp_finalize_is_flag_set FINALIZE_DEACTIVATE_REACTIVATE e) && es_BitmapCachePersistEnabled c then
       also (rdp_client_transition_to_state CONNECTION_STATE_FINALIZATION_PERSISTENT_KEY_LIST e) (λ e,
       rdp_send_client_persistent_key_list_pdu loaded e)
     else Ret (true, e)) (λ e,
  also (rdp_client_transition_to_state CONNECTION_STATE_FINALIZATION_FONT_LIST e) (λ e,
  then_also (rdp_send_client_font_list_pdu (Z.lor FONTLIST_FIRST FONTLIST_LAST) e) (λ e,
  Ret (rdp_client_transition_to_state CONNECTION_STATE_FINALIZATION_CLIENT_SYNC e)))))))))).
End endpoint.
Arguments watchers : clear implicits. Arguments mkWatchers {D}.
