(* ===== verification/Peer.v ===== *)
(** The server's side of the slow path (core/peer.c): what a packet of an active client is
    taken apart to, with the PDUs of the finalization, input, and requests about the output. *)

From S2P Require Import Prelude Stream Per Framing Rc4 Security Mcs RdpPdu Bulk FastPath Region Input Activation.
From stdpp Require Import prelude list numbers.
From Stdlib Require Import ZArith Lia.

#[local] Open Scope Z_scope.

Definition PDU_TYPE_CONFIRM_ACTIVE : Z := 0x3.
Definition DATA_PDU_TYPE_REFRESH_RECT : Z := 0x21.
Definition DATA_PDU_TYPE_SUPPRESS_OUTPUT : Z := 0x23.
Definition DATA_PDU_TYPE_SHUTDOWN_REQUEST : Z := 0x24.
Definition DATA_PDU_TYPE_FRAME_ACKNOWLEDGE : Z := 0x38.
Definition STATE_RUN_ACTIVE : Z := 2.
Definition STATE_RUN_TRY_AGAIN : Z := -23.
Definition STATE_RUN_CONTINUE : Z := -24.
Definition state_run_success (status : Z) : bool := (status =? STATE_RUN_CONTINUE) || (status >=? STATE_RUN_SUCCESS).
Definition state_run_continue (status : Z) : bool :=
  (status =? STATE_RUN_TRY_AGAIN) || (status =? STATE_RUN_CONTINUE) || (status =? STATE_RUN_ACTIVE).

(** Settings of the server, and the message channel of [rdp->mcs]. *)
Record peer_settings : Type := mkPeerSettings {
  ps_end : end_settings; ps_input : input_settings; ps_UseRdpSecurityLayer : bool;
  ps_RefreshRect : bool; ps_SuppressOutput : bool; ps_messageChannelId : Z; ps_messageChannelJoined : bool;
}.

Section peer.
Context {HM : Malloc} {HD : Digests} {HC : Cipher} {D : Type}.

(** What the server's application and the other parts of the library do with a PDU. *)
Record peer_calls : Type := mkPeerCalls {
  pc_input : rdpInput D;
  set_ack_frame_id : Z → D → D;
  SurfaceFrameAcknowledge : option (Z → D → bool * D);
  RefreshRect : option (list RECTANGLE_16 → D → D);
  SuppressOutput : option (Z → option RECTANGLE_16 → D → D);
  send_ultimatum : D → D;
  accept_confirm_active : Z → endpoint D → SM (bool * endpoint D);
  recv_message_channel_pdu : Z → endpoint D → SM (Z * endpoint D);
  channel_peer_process : Z → D → SM (bool * D);
  (** Whether the context is to disconnect, after a header of the packet says so. *)
  shall_disconnect : D → bool;
  (** The functions of the peer that are called as the connection proceeds. *)
  ReachedState : option (CONNECTION_STATE → endpoint D → bool * endpoint D);
  PostConnect : option (endpoint D → bool * endpoint D);
  Activate : option (endpoint D → bool * endpoint D);
  (** A packet before the client has confirmed the capabilities. *)
  recv_connecting : endpoint D → SM (Z * endpoint D);
}.
Context (P : peer_calls) (W : watchers D) (c : peer_settings).
Context (transport_write : list Z → D → bool * D).
Implicit Types (e : endpoint D).

(** [IFCALL] *)
Definition IFCALL (call : option (D → D)) (d : D) : D := match call with Some f => f d | None => d end.

(** ** Requests about the output (core/update.c) *)

Definition read_rectangle : SM RECTANGLE_16 :=
  left ← Stream_Read_UINT16;
  top ← Stream_Read_UINT16;
  right ← Stream_Read_UINT16;
  bottom ← Stream_Read_UINT16;
  mret (mkRect left top right bottom).
Fixpoint read_areas (numberOfAreas : nat) : SM (list RECTANGLE_16) :=
  match numberOfAreas with
  | O => mret []
  | S n => area ← read_rectangle; areas ← read_areas n; mret (area :: areas)
  end.
Definition update_read_refresh_rect (d : D) : SM (bool * D) :=
  ok ← Stream_CheckAndLogRequiredLength 4;
  match ok with
  | None => mret (false, d)
  | Some _ =>
      numberOfAreas ← Stream_Read_UINT8;
      Stream_Seek 3;;
      ok ← Stream_CheckAndLogRequiredLengthEx numberOfAreas 8;
      match ok with
      | None => mret (false, d)
      | Some _ =>
          areas ← read_areas (Z.to_nat numberOfAreas);
          mret (true, if ps_RefreshRect c then IFCALL ((λ f, f areas) <$> RefreshRect P) d else d)
      end
  end.
Definition update_read_suppress_output (d : D) : SM (bool * D) :=
  ok ← Stream_CheckAndLogRequiredLength 4;
  match ok with
  | None => mret (false, d)
  | Some _ =>
      allowDisplayUpdates ← Stream_Read_UINT8;
      Stream_Seek 3;;
      prect ←
        (if allowDisplayUpdates >? 0 then
           ok ← Stream_CheckAndLogRequiredLength 8;
           match ok with
           | None => FALSE
           | Some _ => rect ← read_rectangle; mret (Some (Some rect))
           end
         else mret (Some None));
      match prect with
      | None => mret (false, d)
      | Some prect => mret (true, if ps_SuppressOutput c then IFCALL ((λ f, f allowDisplayUpdates prect) <$> SuppressOutput P) d else d)
      end
  end.

(** ** Data PDUs *)

Definition recv_frame_acknowledge (d : D) : SM (bool * D) :=
  ok ← Stream_CheckAndLogRequiredLength 4;
  match ok with
  | None => mret (false, d)
  | Some _ =>
      ack_frame_id ← Stream_Read_UINT32;
      let d := set_ack_frame_id P ack_frame_id d in
      mret (match SurfaceFrameAcknowledge P with Some f => f ack_frame_id d | None => (true, d) end)
  end.
(** A reader that returns [FALSE] fails the packet; [rc] is the status after one that does not. *)
Definition status_of (rc : Z) (m : SM (bool * endpoint D)) : SM (Z * endpoint D) :=
  '(ok, e) ← m;
  mret (if negb ok then STATE_RUN_FAILED else rc, e).
Definition on_data_of e (m : D → SM (bool * D)) : SM (bool * endpoint D) :=
  '(ok, d) ← m (e_data e);
  mret (ok, set_data d e).
Definition dispatch_data_pdu (type : Z) e : SM (Z * endpoint D) :=
  if type =? DATA_PDU_TYPE_SYNCHRONIZE then status_of STATE_RUN_SUCCESS (rdp_recv_client_synchronize_pdu e)
  else if type =? DATA_PDU_TYPE_CONTROL then status_of STATE_RUN_SUCCESS (rdp_server_accept_client_control_pdu e)
  else if type =? DATA_PDU_TYPE_INPUT then status_of STATE_RUN_SUCCESS (on_data_of e (input_recv (pc_input P) (ps_input c)))
  else if type =? DATA_PDU_TYPE_BITMAP_CACHE_PERSISTENT_LIST then
    status_of STATE_RUN_SUCCESS (rdp_server_accept_client_persistent_key_list_pdu e)
  else if type =? DATA_PDU_TYPE_FONT_LIST then
    status_of STATE_RUN_CONTINUE (rdp_server_accept_client_font_list_pdu W (ps_end c) transport_write e)
  else if type =? DATA_PDU_TYPE_SHUTDOWN_REQUEST then mret (STATE_RUN_QUIT_SESSION, set_data (send_ultimatum P (e_data e)) e)
  else if type =? DATA_PDU_TYPE_FRAME_ACKNOWLEDGE then status_of STATE_RUN_SUCCESS (on_data_of e recv_frame_acknowledge)
  else if type =? DATA_PDU_TYPE_REFRESH_RECT then status_of STATE_RUN_SUCCESS (on_data_of e update_read_refresh_rect)
  else if type =? DATA_PDU_TYPE_SUPPRESS_OUTPUT then status_of STATE_RUN_SUCCESS (on_data_of e update_read_suppress_output)
  else mret (STATE_RUN_SUCCESS, e).
Definition peer_recv_data_pdu e : SM (Z * endpoint D) :=
  h ← rdp_read_share_data_header;
  match h with
  | None => mret (STATE_RUN_FAILED, e)
  | Some h => dispatch_data_pdu (sd_type h) e
  end.

(** ** Packets *)

(** The length of what is left and the security flags. *)
Definition decrypt_flagged (length securityFlags : Z) e : SM (option Z * endpoint D) :=
  if negb (Z.land securityFlags SEC_ENCRYPT =? 0) then
    '(o, rdp) ← rdp_decrypt (e_rdp e) length securityFlags;
    mret (o, set_rdp rdp e)
  else mret (Some length, e).
Definition rdp_handle_optional_rdp_decryption (length : Z) e : SM (option (Z * Z) * endpoint D) :=
  if ps_UseRdpSecurityLayer c then
    h ← rdp_read_security_header (Some length);
    match h with
    | Some (securityFlags, Some length) =>
        '(o, e) ← decrypt_flagged length securityFlags e;
        mret ((λ l, (l, securityFlags)) <$> o, e)
    | _ => mret (None, e)
    end
  else mret (Some (length, 0), e).
Definition rdp_handle_message_channel (channelId length : Z) e : SM (Z * endpoint D) :=
  if negb (ps_messageChannelJoined c) then mret (STATE_RUN_FAILED, e)
  else if ps_messageChannelId c =? 0 then mret (STATE_RUN_FAILED, e)
  else if negb (channelId =? ps_messageChannelId c) && negb (channelId =? MCS_GLOBAL_CHANNEL_ID) then mret (STATE_RUN_FAILED, e)
  else
    h ← rdp_read_security_header (Some length);
    match h with
    | Some (securityFlags, Some length) =>
        '(o, e) ← decrypt_flagged length securityFlags e;
        match o with
        | None => mret (STATE_RUN_FAILED, e)
        | Some length =>
            '(rc, e) ← recv_message_channel_pdu P securityFlags e;
            if state_run_success rc then
              ok ← tpkt_ensure_stream_consumed length;
              mret (match ok with None => STATE_RUN_FAILED | Some _ => rc end, e)
            else mret (rc, e)
        end
    | _ => mret (STATE_RUN_FAILED, e)
    end.

(** The states up to [CONNECTION_STATE_LICENSING]. *)
Definition up_to_licensing (state : CONNECTION_STATE) : bool :=
  before_security_commencement state ||
  match state with
  | CONNECTION_STATE_RDP_SECURITY_COMMENCEMENT | CONNECTION_STATE_SECURE_SETTINGS_EXCHANGE
  | CONNECTION_STATE_CONNECT_TIME_AUTO_DETECT_REQUEST | CONNECTION_STATE_CONNECT_TIME_AUTO_DETECT_RESPONSE
  | CONNECTION_STATE_LICENSING => true
  | _ => false
  end.
(** A share PDU; [None] is a [return] before the check that everything was read. *)
Definition peer_recv_share_pdu e : SM (option Z * endpoint D) :=
  h ← rdp_read_share_control_header;
  match h with
  | None => mret (None, e)
  | Some h =>
      let e := set_PduSource (sc_channel_id h) e in
      if sc_type h =? PDU_TYPE_DATA then '(rc, e) ← peer_recv_data_pdu e; mret (Some rc, e)
      else if sc_type h =? PDU_TYPE_CONFIRM_ACTIVE then
        '(ok, e) ← accept_confirm_active P (sc_tpktLength h) e;
        mret (if negb ok then None else Some STATE_RUN_SUCCESS, e)
      else if (sc_type h =? PDU_TYPE_FLOW_RESPONSE) || (sc_type h =? PDU_TYPE_FLOW_STOP) || (sc_type h =? PDU_TYPE_FLOW_TEST) then
        ok ← Stream_SafeSeekEx (sc_remainingLength h);
        mret (match ok with None => None | Some _ => Some STATE_RUN_SUCCESS end, e)
      else mret (None, e)
  end.
Definition peer_recv_unit (length channelId securityFlags : Z) e : SM (Z * endpoint D) :=
  if (negb (channelId =? MCS_GLOBAL_CHANNEL_ID)) && (ps_messageChannelId c >? 0) && (channelId =? ps_messageChannelId c) then
    flags ← (if negb (ps_UseRdpSecurityLayer c) then
               h ← rdp_read_security_header None;
               mret (fst <$> h)
             else mret (Some securityFlags));
    match flags with
    | None => mret (STATE_RUN_FAILED, e)
    | Some flags => recv_message_channel_pdu P flags e
    end
  else
    '(rc, e) ←
      (if channelId =? MCS_GLOBAL_CHANNEL_ID then peer_recv_share_pdu e
       else
         '(ok, e) ← on_data_of e (channel_peer_process P channelId);
         mret (if negb ok then None else Some STATE_RUN_SUCCESS, e));
    match rc with
    | None => mret (STATE_RUN_FAILED, e)
    | Some rc =>
        ok ← tpkt_ensure_stream_consumed length;
        mret (match ok with None => STATE_RUN_FAILED | Some _ => rc end, e)
    end.
Definition peer_recv_tpkt_pdu e : SM (Z * endpoint D) :=
  header ← rdp_read_header (ServerMode (e_rdp e));
  match header with
  | None => mret (STATE_RUN_FAILED, e)
  | Some HeaderDisconnect | Some (HeaderUltimatum _) => mret (STATE_RUN_SUCCESS, e)
  | Some (HeaderData length channelId) =>
      if shall_disconnect P (e_data e) then mret (STATE_RUN_SUCCESS, e)
      else if up_to_licensing (e_state e) then rdp_handle_message_channel channelId length e
      else
        '(o, e) ← rdp_handle_optional_rdp_decryption length e;
        match o with
        | None => mret (STATE_RUN_FAILED, e)
        | Some (length, securityFlags) => peer_recv_unit length channelId securityFlags e
        end
  end.

(** Either kind of packet; the fast path works on the same [rdp]. *)
Context {ncrush xcrush : Codec}.
Definition peer_recv_pdu (f : rdpFastPath ncrush xcrush) e : SM (Z * rdpFastPath ncrush xcrush * endpoint D) :=
  rc ← tpkt_verify_header;
  if rc >? 0 then
    '(status, e) ← peer_recv_tpkt_pdu e;
    mret (status, f, e)
  else if rc =? 0 then
    '(status, f, d) ← peer_recv_fastpath_pdu (pc_input P) (ps_input c) (fp_set_rdp (e_rdp e) f) (e_data e);
    mret (status, f, set_data d (set_rdp (fp_rdp f) e))
  else mret (STATE_RUN_FAILED, f, e).

(** ** The states of the server *)

Definition peer_unexpected_client_message : Z := STATE_RUN_SUCCESS.
(** [IFCALLRET] *)
Definition IFCALLRET (call : option (endpoint D → bool * endpoint D)) (ret : bool) e : bool * endpoint D :=
  match call with Some f => f e | None => (ret, e) end.
Definition rdp_peer_handle_state_active e : Z * endpoint D :=
  let e :=
    if negb (e_connected e) then
      let '(connected, e) := IFCALLRET (PostConnect P) (e_connected e) e in set_e_connected connected e
    else e in
  if negb (e_connected e) then (STATE_RUN_FAILED, e)
  else if negb (e_activated e) then
    let '(activated, e) := IFCALLRET (Activate P) true (set_activated true e) in
    (if negb activated then STATE_RUN_FAILED else STATE_RUN_SUCCESS, e)
  else (STATE_RUN_ACTIVE, e).
Definition peer_state : Type := Z * rdpFastPath ncrush xcrush * endpoint D.
(** The next state once the flag is set, whatever has set it; any other message is ignored. *)
Definition advance_on (flag : Z) (next : endpoint D → end_step) (r : peer_state) : outcome peer_state :=
  let '(ret, f, e) := r in
  if rdp_finalize_is_flag_set flag e then
    '(ok, e) ← next e;
    Ret (if negb ok then STATE_RUN_FAILED else ret, f, e)
  else Ret (peer_unexpected_client_message, f, e).
Definition enter (state : CONNECTION_STATE) e : end_step := Ret (rdp_server_transition_to_state W state e).
Definition peer_recv_callback_internal (f : rdpFastPath ncrush xcrush) e : SM peer_state :=
  let '(ok, e) := IFCALLRET ((λ f, f (e_state e)) <$> ReachedState P) true e in
  if negb ok then mret (STATE_RUN_FAILED, f, e)
  else
    match e_state e with
    | CONNECTION_STATE_CAPABILITIES_EXCHANGE_CONFIRM_ACTIVE => peer_recv_pdu f e
    | CONNECTION_STATE_FINALIZATION_SYNC =>
        r ← peer_recv_pdu f e;
        lift (advance_on FINALIZE_CS_SYNCHRONIZE_PDU (enter CONNECTION_STATE_FINALIZATION_COOPERATE) r)
    | CONNECTION_STATE_FINALIZATION_COOPERATE =>
        r ← peer_recv_pdu f e;
        lift (advance_on FINALIZE_CS_CONTROL_COOPERATE_PDU (enter CONNECTION_STATE_FINALIZATION_REQUEST_CONTROL) r)
    | CONNECTION_STATE_FINALIZATION_REQUEST_CONTROL =>
        r ← peer_recv_pdu f e;
        lift (advance_on FINALIZE_CS_CONTROL_REQUEST_PDU (λ e,
          then_also (rdp_send_server_control_granted_pdu (ps_end c) transport_write e)
            (enter CONNECTION_STATE_FINALIZATION_PERSISTENT_KEY_LIST)) r)
    | CONNECTION_STATE_FINALIZATION_PERSISTENT_KEY_LIST =>
        if es_BitmapCachePersistEnabled (ps_end c) && negb (rdp_finalize_is_flag_set FINALIZE_DEACTIVATE_REACTIVATE e) then
          r ← peer_recv_pdu f e;
          lift (advance_on FINALIZE_CS_PERSISTENT_KEY_LIST_PDU (enter CONNECTION_STATE_FINALIZATION_FONT_LIST) r)
        else
          let '(ok, e) := rdp_server_transition_to_state W CONNECTION_STATE_FINALIZATION_FONT_LIST e in
          mret (if negb ok then STATE_RUN_FAILED else STATE_RUN_CONTINUE, f, e)
    | CONNECTION_STATE_FINALIZATION_FONT_LIST =>
        '(ret, f, e) ← peer_recv_pdu f e;
        if state_run_success ret then
          if rdp_finalize_is_flag_set FINALIZE_CS_FONT_LIST_PDU e then
            let '(ok, e) := rdp_server_transition_to_state W CONNECTION_STATE_ACTIVE e in
            mret (if negb ok then (STATE_RUN_FAILED, f, e) else (STATE_RUN_CONTINUE, f, set_data (update_reset_state W (e_data e)) e))
          else mret (peer_unexpected_client_message, f, e)
        else mret (ret, f, e)
    | CONNECTION_STATE_ACTIVE =>
        let '(ret, e) := rdp_peer_handle_state_active e in
        if ret >=? STATE_RUN_ACTIVE then peer_recv_pdu f e else mret (ret, f, e)
    | CONNECTION_STATE_FINALIZATION_CLIENT_SYNC | CONNECTION_STATE_FINALIZATION_CLIENT_COOPERATE
    | CONNECTION_STATE_FINALIZATION_CLIENT_GRANTED_CONTROL | CONNECTION_STATE_FINALIZATION_CLIENT_FONT_MAP =>
        mret (STATE_RUN_FAILED, f, e)
    | _ =>
        '(ret, e) ← recv_connecting P e;
        mret (ret, f, e)
    end.
(** The loop over the states that work on one packet; [None] if [fuel] states are not enough. *)
Fixpoint run_states (fuel : nat) (start rc : Z) (f : rdpFastPath ncrush xcrush) e : SM (option peer_state) :=
  match fuel with
  | O => mret None
  | S fuel =>
      ok ← (if rc =? STATE_RUN_TRY_AGAIN then Stream_SetPosition start else TRUE);
      match ok with
      | None => mret (Some (STATE_RUN_FAILED, f, e))
      | Some _ =>
          '(rc, f, e) ← peer_recv_callback_internal f e;
          len ← Stream_GetRemainingLength;
          if state_run_continue rc then run_states fuel start rc f e else mret (Some (rc, f, e))
      end
  end.
Definition peer_recv_callback (fuel : nat) (f : rdpFastPath ncrush xcrush) e : SM (option peer_state) :=
  start ← Stream_GetPosition;
  run_states fuel start STATE_RUN_FAILED f e.
End peer.
