(* ===== verification/PeerCorrect.v ===== *)
(** From a data PDU of the client to the function of the server that reads it, through
    encryption and all headers. *)

From S2P Require Import Prelude Stream StreamLogic Transmission Per Framing Rc4 Security SecurityCorrect Mcs RdpPdu RdpPduCorrect RdpSession Bulk FastPath Region Input InputCorrect InputSafe Activation Peer.
From stdpp Require Import prelude list numbers.
From Stdlib Require Import ZArith Lia.

#[local] Open Scope Z_scope.

(** * Sending *)

Section sending.
Context {HM : Malloc} {HD : Digests} {HC : Cipher} {HDL : DigestLaws} {HCL : CipherLaws}.

Definition data_flags (do_crypt do_secure_checksum : bool) : Z :=
  if do_crypt then Z.lor SEC_ENCRYPT (if do_secure_checksum then SEC_SECURE_CHECKSUM else 0) else 0.
Lemma data_flags_ok dc ck :
  flags_ok (data_flags dc ck) ∧ redirects (data_flags dc ck) = false ∧ encrypted (data_flags dc ck) = dc ∧ (data_flags dc ck =? 0) = negb dc.
Proof. by destruct dc, ck. Qed.

(** [write] puts the payload behind the room for the headers and leaves room for the padding of
    FIPS, when these headers are there. *)
Definition fills (write : SM (option unit)) (payload : list Z) : Prop :=
  bytes payload ∧ zlen payload <= 20000 ∧
  ∀ s, wf s → st_capacity s = 4096 → 33 <= st_pointer s <= 49 →
  ∃ s' c, write s = Ret (Some tt, s') ∧ wstep s s' payload c ∧ c <= 20000 ∧
    (st_pointer s = 49 → st_pointer s' + fips_pad (18 + zlen payload) <= st_capacity s').
Lemma puts_fills n write payload : bytes payload → puts n write payload (Some tt) → n <= 4000 → zlen payload <= 4000 → fills write payload.
Proof.
  intros Hb Hw Hn Hz. split; [done|]. split; [lia|]. intros s Hs Hc Hp. destruct (Hw s Hs) as (s' & E & W); [unfold fits; lia|].
  exists s', 0. split; [done|]. split; [done|]. split; [lia|]. destruct W. pose proof (fips_pad_range (18 + zlen payload)). lia.
Qed.

Lemma data_pdu_init r dc ck :
  (∀ n, malloc_ok n = true) →
  rdp_data_pdu_init r dc ck 0 =
    Ret (Some (mkStream (zeros 4096) (33 + rdp_get_sec_bytes r (data_flags dc ck)) 4096 4096 true true, data_flags dc ck)).
Proof.
  intros Hm. unfold rdp_data_pdu_init, send_stream_init, Stream_New, rdp_security_stream_init, rdp_get_sec_bytes.
  cbn [andb Z.eqb]. rewrite !Hm. by destruct dc, ck, (EncryptionMethods r =? ENCRYPTION_METHOD_FIPS); vm_compute.
Qed.

Lemma bind_inv {A B} (m : SM A) (k : A → SM B) s b s' :
  (x ← m; k x) s = Ret (b, s') → ∃ a s1, m s = Ret (a, s1) ∧ k a s1 = Ret (b, s').
Proof. unfold mbind, SM_bind. destruct (m s) as [[a s1]|]; [|done]. intros H. by exists a, s1. Qed.
(** A stream that was sent is sealed. *)
Lemma send_protected_sealed r n flags s r' s' :
  send_protected r n flags s = Ret ((Some tt, r'), s') → st_length s' = st_pointer s'.
Proof.
  unfold send_protected. intros H. apply bind_inv in H as ([[pad|] r1] & s1 & _ & H); [|done].
  apply bind_inv in H as ([ok|] & s2 & _ & H); [|done]. apply bind_inv in H as (? & s3 & E & H). injection H as <- <-.
  unfold Stream_SealLength in E. destruct (_ && _); [|done]. by injection E as <- <-.
Qed.
Lemma send_data_sealed r userId share_id type ch flags s r' s' :
  rdp_send_data_pdu r userId share_id type ch flags s = Ret ((Some tt, r'), s') → st_length s' = st_pointer s'.
Proof.
  unfold rdp_send_data_pdu, send_shared. intros H. apply bind_inv in H as (? & s1 & _ & H). apply bind_inv in H as (? & s2 & _ & H).
  apply bind_inv in H as ([|] & s3 & _ & H); [|done]. apply bind_inv in H as (? & s4 & _ & H). apply bind_inv in H as (? & s5 & _ & H).
  apply bind_inv in H as ([|] & s6 & _ & H); [|done]. apply bind_inv in H as ([|] & s7 & _ & H); [|done]. by eapply send_protected_sealed.
Qed.

(** The packet of a data PDU. *)
Lemma run_data_pdu r1 r2 dc ck write payload userId share_id type :
  crypto_available → (dc = true → sec_sync r1 r2) → fills write payload →
  MCS_BASE_CHANNEL_ID <= userId <= UINT16_MAX → is_byte type → 0 <= share_id <= UINT32_MAX →
  ∃ s s1 r1' s' wire, rdp_data_pdu_init r1 dc ck 0 = Ret (Some (s, data_flags dc ck)) ∧ write s = Ret (Some tt, s1) ∧
    rdp_send_data_pdu r1 userId share_id type userId (data_flags dc ck) s1 = Ret ((Some tt, r1'), s') ∧
    ztake (st_length s') (st_buffer s') = unit_packet (ServerMode r1) userId MCS_GLOBAL_CHANNEL_ID wire ∧
    secured r1 (data_flags dc ck) (data_pdu payload type share_id userId) wire r1' ∧ zlen wire < 32768 ∧ bytes wire.
Proof.
  intros Hav Hsync (Hb & Hz & Hw) Hu Ht Hi. pose proof (av_malloc Hav) as Hm. destruct (data_flags_ok dc ck) as (Hf & _ & He & _).
  set (flags := data_flags dc ck) in *.
  pose proof (sec_bytes_nonneg r1 flags) as Hs0. assert (rdp_get_sec_bytes r1 flags <= 16) as Hs16.
  { unfold rdp_get_sec_bytes. repeat destruct (negb _); repeat destruct (_ =? _); lia. }
  set (s := mkStream (zeros 4096) (33 + rdp_get_sec_bytes r1 flags) 4096 4096 true true).
  assert (wf s) as Hs by (split; cbn -[zeros]; lia || apply bytes_zeros || done).
  destruct (Hw s Hs) as (s1 & c & E1 & W & Hc & Hpad); [done|cbn; lia|].
  assert (zlen (written s) = 33 + rdp_get_sec_bytes r1 flags) as Hzw.
  { unfold written, s. cbn [st_pointer st_buffer]. rewrite zlen_ztake, zlen_zeros by lia. lia. }
  destruct (split_at 15 (written s) ltac:(lia)) as (old15 & rest & Hw0 & H15 & Hrest).
  destruct (split_at (rdp_get_sec_bytes r1 flags) rest ltac:(lia)) as (old & room & -> & Hold & Hr18).
  assert (unit_room r1 flags (room ++ payload) s1) as Hroom.
  { destruct W. change (st_capacity s) with 4096 in *. change (st_pointer s) with (33 + rdp_get_sec_bytes r1 flags) in *.
    pose proof (written_bytes s Hs) as Hbs. rewrite Hw0 in Hbs. apply Forall_app in Hbs as [_ Hbs]. apply Forall_app in Hbs as [_ Hbs].
    split; [done|]. split; [unfold SIZE_MAX; lia|]. split; [by apply Forall_app_2|].
    assert (0 <= wire_pad r1 flags (18 + zlen payload) <= st_capacity s1 - st_pointer s1) as Hwp.
    { pose proof (fips_pad_range (18 + zlen payload)). pose proof (wf_pointer _ ws_wf). unfold wire_pad.
      destruct (encrypted flags && is_fips r1) eqn:Hef; [|lia]. apply andb_true_iff in Hef as [Hen Hfi].
      assert (rdp_get_sec_bytes r1 flags = 16) as H16.
      { unfold rdp_get_sec_bytes. unfold encrypted in Hen. unfold is_fips in Hfi. by rewrite Hen, Hfi. }
      specialize (Hpad ltac:(lia)). lia. }
    pose proof (StreamLogic.wf_object _ ws_wf) as Hobj. pose proof (zlen_nonneg payload).
    exists old15, old, (ztake (wire_pad r1 flags (18 + zlen payload)) (zdrop (st_pointer s1) (st_buffer s1))),
      (zdrop (wire_pad r1 flags (18 + zlen payload)) (zdrop (st_pointer s1) (st_buffer s1))).
    rewrite zlen_app, ztake_zdrop. replace (zlen room) with 18 by lia. split.
    - rewrite <- (ztake_zdrop (st_pointer s1) (st_buffer s1)) at 1. fold (written s1). rewrite ws_written, Hw0. by rewrite <- !app_assoc.
    - split; [done|]. split; [done|]. split; [|lia]. rewrite zlen_ztake, zlen_zdrop. lia. }
  destruct (run_send_data r1 r2 s1 room payload flags userId type share_id userId) as (o & r1' & s' & E2 & Ho);
    [done|by rewrite He|done|done|lia| |done|done|done|unfold MCS_BASE_CHANNEL_ID in *; lia|].
  { unfold unit_size, wire_pad. rewrite zlen_app. pose proof (fips_pad_range (zlen room + zlen payload)). destruct (_ && _); lia. }
  destruct o as [[]|]; [|done]. destruct Ho as (Hwf' & wire & Hsec & Hzwire & Hpkt).
  exists s, s1, r1', s', wire. split; [by apply data_pdu_init|]. split; [done|]. split; [done|].
  rewrite (send_data_sealed _ _ _ _ _ _ _ _ _ E2). fold (written s'). split; [done|]. split; [done|]. split; [done|].
  pose proof (written_bytes s' Hwf') as Hbs. rewrite Hpkt in Hbs. by apply Forall_app in Hbs as [_ Hbs].
Qed.
End sending.

(** * Receiving *)

Section receiving.
Context {HM : Malloc} {HD : Digests} {HC : Cipher} {HDL : DigestLaws} {HCL : CipherLaws} {D : Type}.
Context (P : peer_calls (D := D)) (W : watchers D) (c : peer_settings) (transport_write : list Z → D → bool * D).
Implicit Types (e : endpoint D).

(** The server is past licensing and not about to disconnect. *)
Definition listening e : Prop := up_to_licensing (e_state e) = false ∧ shall_disconnect P (e_data e) = false.

Lemma set_rdp_same e : set_rdp (e_rdp e) e = e.
Proof. by destruct e. Qed.
Lemma run_peer_unit r1 r1' e2 ck body wire userId channelId s :
  (ps_UseRdpSecurityLayer c = true → sec_sync r1 (e_rdp e2) ∧ 0 < zlen body) → bytes body → zlen wire < 32768 →
  secured r1 (data_flags (ps_UseRdpSecurityLayer c) ck) body wire r1' →
  ServerMode (e_rdp e2) = negb (ServerMode r1) → MCS_BASE_CHANNEL_ID <= userId <= UINT16_MAX → 0 <= channelId <= UINT16_MAX →
  listening e2 → readable s → remaining s = unit_packet (ServerMode r1) userId channelId wire →
  ∃ r2' s2, peer_recv_tpkt_pdu P W c transport_write e2 s =
      peer_recv_unit P W c transport_write (zlen body) channelId (data_flags (ps_UseRdpSecurityLayer c) ck) (set_rdp r2' e2) s2 ∧
    readable s2 ∧ remaining s2 = body ∧ ServerMode r2' = ServerMode (e_rdp e2) ∧
    (ps_UseRdpSecurityLayer c = true → sec_sync r1' r2') ∧ only_decrypt (e_rdp e2) r2'.
Proof.
  intros Hsync Hbb Hz Hsec Hmode Hu Hc [Hst Hdis] Hs Hr. pose proof (zlen_nonneg wire).
  unfold unit_packet in Hr. set (hdr := unit_header _ _ _ _ _) in Hr.
  destruct (remaining_app _ _ _ Hs Hr) as (_ & Hs1 & Hr1). change (zlen hdr) with 15 in Hs1, Hr1.
  unfold peer_recv_tpkt_pdu. erewrite bind_Ret.
  2:{ replace (ServerMode (e_rdp e2)) with (negb (ServerMode r1)) by done.
      apply (read_unit_header (negb (ServerMode r1)) userId channelId (zlen wire) wire); [lia|lia|done|done|done|].
      by rewrite negb_involutive. }
  cbv beta iota. rewrite negb_involutive. change (zlen (unit_header _ _ _ _ _)) with 15. rewrite Hdis, Hst.
  unfold rdp_handle_optional_rdp_decryption. destruct (data_flags_ok (ps_UseRdpSecurityLayer c) ck) as (Hf & _ & He & H0).
  destruct (ps_UseRdpSecurityLayer c) eqn:Hdc.
  - set (flags := data_flags true ck) in *. destruct (Hsync eq_refl) as [Hss Hbp]. cbn [negb] in H0. apply Z.eqb_neq in H0.
    pose proof (secured_length r1 (e_rdp e2) flags body wire r1' (λ _, Hss) Hbb Hsec) as Hlen.
    assert (∃ w, wire = sec_header flags ++ w) as [w ->] by (inversion Hsec; [done|by eexists..]).
    rewrite zlen_app in *. change (zlen (sec_header flags)) with 4 in *. pose proof (zlen_nonneg w).
    destruct (run_read_sec_header flags (4 + zlen w) w (adv 15 s) Hf ltac:(lia) Hs1 Hr1) as (E & Hs2 & Hr2).
    destruct (run_rdp_decrypt r1 (e_rdp e2) r1' flags body w (adv 4 (adv 15 s))) as ([o r2'] & s2 & E2 & Ho & Hss' & Hod & Hs3 & Hr3);
      [done|done|done|unfold UINT16_MAX; lia|done|done|done|]. cbn [fst snd] in *. subst o.
    erewrite bind_Ret; cycle 1.
    { erewrite bind_Ret by exact E. cbv beta iota. replace (4 + zlen w - 4) with (zlen w) by lia. unfold decrypt_flagged.
      fold (encrypted flags). rewrite He. erewrite bind_Ret; [|erewrite bind_Ret by exact E2; reflexivity]. reflexivity. }
    exists r2', s2. split; [done|]. split; [done|]. split; [done|]. split; [by rewrite Hod|]. by split.
  - assert (wire = body ∧ r1' = r1) as [-> ->] by (by inversion Hsec). erewrite bind_Ret by done.
    exists (e_rdp e2), (adv 15 s). rewrite set_rdp_same. split_and!; try done. by destruct (e_rdp e2).
Qed.

Lemma reads_status rc (m : SM (bool * endpoint D)) bs e : reads m bs (true, e) → reads (status_of rc m) bs (rc, e).
Proof. intros Hm. unfold status_of. apply reads_nil_r. eapply reads_bind; [exact Hm|]. apply reads_ret. Qed.
Lemma reads_on_data e (m : D → SM (bool * D)) bs d' : reads (m (e_data e)) bs (true, d') → reads (on_data_of e m) bs (true, set_data d' e).
Proof. intros Hm. unfold on_data_of. apply reads_nil_r. eapply reads_bind; [exact Hm|]. apply reads_ret. Qed.

(** Behind the share headers. *)
Definition recv_payload (length type ch : Z) e : SM (Z * endpoint D) :=
  '(rc, e) ← dispatch_data_pdu P W c transport_write type (set_PduSource ch e);
  ok ← tpkt_ensure_stream_consumed length;
  mret (match ok with None => STATE_RUN_FAILED | Some _ => rc end, e).
Lemma run_peer_data flags e s payload type share_id ch :
  readable s → remaining s = data_pdu payload type share_id ch → zlen payload <= 32000 → 0 <= ch <= UINT16_MAX → 0 <= share_id <= UINT32_MAX →
  peer_recv_unit P W c transport_write (zlen (data_pdu payload type share_id ch)) MCS_GLOBAL_CHANNEL_ID flags e s =
    recv_payload (zlen (data_pdu payload type share_id ch)) type ch e (adv 18 s) ∧ readable (adv 18 s) ∧ remaining (adv 18 s) = payload.
Proof.
  intros Hs Hr Hl Hc Hi. set (n := zlen (data_pdu payload type share_id ch)). pose proof (zlen_nonneg payload). unfold data_pdu in Hr.
  destruct (remaining_app _ _ _ Hs Hr) as (_ & Hs1 & Hr1). change (zlen (share_control_bytes _ _ _)) with 6 in Hs1, Hr1.
  destruct (remaining_app _ _ _ Hs1 Hr1) as (_ & Hs2 & Hr2). change (zlen (share_data_bytes _ _ _)) with 12 in Hs2, Hr2.
  rewrite adv_adv in Hs2, Hr2. change (6 + 12) with 18 in Hs2, Hr2. split; [|done].
  assert (zlen (share_data_bytes (zlen payload) type share_id ++ payload) = zlen payload + 12) as Hsub.
  { rewrite zlen_app. change (zlen (share_data_bytes _ _ _)) with 12. lia. }
  unfold peer_recv_unit. rewrite Z.eqb_refl. cbn [negb andb]. unfold peer_recv_share_pdu, recv_payload. unfold mbind at 1, SM_bind at 1.
  erewrite bind_Ret by (apply (takes_share_control (zlen payload) ch _ ltac:(lia) Hc Hsub s Hs Hr)).
  change (zlen (share_control_bytes _ _ _)) with 6. cbv iota zeta. cbn [sc_type sc_channel_id]. rewrite Z.eqb_refl.
  unfold peer_recv_data_pdu. unfold mbind at 1, SM_bind at 1.
  erewrite bind_Ret by (apply (reads_share_data (zlen payload) type share_id ltac:(unfold UINT16_MAX; lia) Hi _ _ Hs1 Hr1)).
  change (zlen (share_data_bytes _ _ _)) with 12. rewrite adv_adv. change (6 + 12) with 18. cbn [sd_type].
  destruct (dispatch_data_pdu _ _ _ _ _ _ _) as [[[rc e'] s']|] eqn:Ed; [by erewrite bind_Ret by exact Ed|by rewrite bind_Abort by exact Ed].
Qed.
Lemma run_recv_payload n type ch e s payload rc e' :
  n <= UINT16_MAX → readable s → remaining s = payload → reads (dispatch_data_pdu P W c transport_write type (set_PduSource ch e)) payload (rc, e') →
  ∃ s', recv_payload n type ch e s = Ret ((rc, e'), s') ∧ readable s'.
Proof.
  intros Hn Hs Hr Hd. assert (remaining s = payload ++ []) as Hr' by (by rewrite app_nil_r).
  destruct (remaining_app _ _ _ Hs Hr') as (_ & Hs1 & Hr1). unfold recv_payload. erewrite bind_Ret by (apply (Hd s [] Hs Hr')).
  cbv beta iota. erewrite bind_Ret by (apply parses_consumed; done). eexists. split; [done|]. by rewrite adv_0.
Qed.

(** A packet of the slow path. *)
Context {ncrush xcrush : Codec}.
Lemma recv_pdu_slow (f : rdpFastPath ncrush xcrush) e s tl :
  readable s → remaining s = 3 :: tl →
  peer_recv_pdu P W c transport_write f e s =
    match peer_recv_tpkt_pdu P W c transport_write e s with Abort => Abort | Ret ((status, e'), s') => Ret ((status, f, e'), s') end.
Proof.
  intros Hs Hr. assert (tpkt_verify_header s = Ret (1, s)) as E.
  { unfold tpkt_verify_header. erewrite bind_Ret by by apply run_CheckLength. rewrite <- zlen_remaining, Hr, zlen_cons by done.
    pose proof (zlen_nonneg tl). destruct (Z.ltb_spec (1 + zlen tl) 1); [lia|]. by erewrite bind_Ret by by eapply peek_uint8_at. }
  unfold peer_recv_pdu. erewrite bind_Ret by exact E. change (1 >? 0) with true. cbv iota. unfold mbind, SM_bind.
  by destruct (peer_recv_tpkt_pdu _ _ _ _ _ _) as [[[status e'] s']|].
Qed.

(** What the client sends is read by the function for its type, and nothing is left. *)
Lemma data_pdu_received r1 r1' e2 ck payload wire userId type share_id :
  (ps_UseRdpSecurityLayer c = true → sec_sync r1 (e_rdp e2)) → bytes payload → zlen payload <= 20000 → zlen wire < 32768 → bytes wire →
  secured r1 (data_flags (ps_UseRdpSecurityLayer c) ck) (data_pdu payload type share_id userId) wire r1' →
  ServerMode (e_rdp e2) = negb (ServerMode r1) → MCS_BASE_CHANNEL_ID <= userId <= UINT16_MAX → is_byte type → 0 <= share_id <= UINT32_MAX →
  listening e2 →
  ∃ r2', ServerMode r2' = ServerMode (e_rdp e2) ∧ (ps_UseRdpSecurityLayer c = true → sec_sync r1' r2') ∧ only_decrypt (e_rdp e2) r2' ∧
    ∀ rc e2', reads (dispatch_data_pdu P W c transport_write type (set_PduSource userId (set_rdp r2' e2))) payload (rc, e2') →
    ∀ (f : rdpFastPath ncrush xcrush),
    ∃ s', peer_recv_pdu P W c transport_write f e2 (stream_of (unit_packet (ServerMode r1) userId MCS_GLOBAL_CHANNEL_ID wire)) = Ret ((rc, f, e2'), s') ∧
      readable s'.
Proof.
  intros Hsync Hb Hl Hz Hwb Hsec Hmode Hu Ht Hi Hlis. pose proof (zlen_nonneg payload).
  set (body := data_pdu payload type share_id userId) in *.
  assert (bytes body) as Hbb by (unfold body, data_pdu; rewrite app_assoc; apply Forall_app_2; [by apply share_headers_bytes|done]).
  assert (zlen body = zlen payload + 18) as Hzb.
  { unfold body, data_pdu. rewrite app_assoc, zlen_app. change (zlen (_ ++ _)) with 18. lia. }
  set (pkt := unit_packet _ _ _ _). assert (bytes pkt) as Hpb by (apply Forall_app_2; [apply unit_header_bytes|done]).
  assert (zlen pkt <= SIZE_MAX) as Hpz.
  { unfold pkt, unit_packet. rewrite zlen_app. change (zlen (unit_header _ _ _ _ _)) with 15. unfold SIZE_MAX. lia. }
  destruct (run_peer_unit r1 r1' e2 ck body wire userId MCS_GLOBAL_CHANNEL_ID (stream_of pkt)) as (r2' & s2 & E & Hs2 & Hr2 & Hm & Hss & Hd);
    [intros H'; split; [by apply Hsync|lia]|done|done|done|done|done|done|done|by apply stream_of_readable|apply remaining_stream_of|].
  exists r2'. split; [done|]. split; [done|]. split; [done|]. intros rc e2' Hreads f.
  destruct (run_peer_data (data_flags (ps_UseRdpSecurityLayer c) ck) (set_rdp r2' e2) s2 payload type share_id userId) as (E2 & Hs3 & Hr3);
    [done|done|lia|unfold MCS_BASE_CHANNEL_ID in *; lia|done|]. fold body in E2.
  destruct (run_recv_payload (zlen body) type userId (set_rdp r2' e2) (adv 18 s2) payload rc e2') as (s' & E3 & Hs'); [unfold UINT16_MAX; lia|done..|].
  exists s'. split; [|done]. erewrite recv_pdu_slow; [|by apply stream_of_readable|apply remaining_stream_of]. by rewrite E, E2, E3.
Qed.

(** ** The states *)

(** The application lets every state be. *)
Definition consents : Prop := ∀ e, IFCALLRET ((λ f, f (e_state e)) <$> ReachedState P) true e = (true, e).
Lemma run_states_stop n start rc0 (f f' : rdpFastPath ncrush xcrush) e rc e' s s' :
  peer_recv_callback_internal P W c transport_write f e s = Ret ((rc, f', e'), s') → readable s' → state_run_continue rc = false → rc0 ≠ STATE_RUN_TRY_AGAIN →
  run_states P W c transport_write (S n) start rc0 f e s = Ret (Some (rc, f', e'), s').
Proof.
  intros E Hs' Hc Hrc. cbn [run_states]. destruct (Z.eqb_spec rc0 STATE_RUN_TRY_AGAIN) as [->|_]; [done|]. erewrite bind_Ret by done. cbv beta iota.
  erewrite bind_Ret by exact E. cbv beta iota. erewrite bind_Ret by by apply run_GetRemainingLength. by rewrite Hc.
Qed.
Lemma run_states_next n start rc0 (f f' : rdpFastPath ncrush xcrush) e e' s s' :
  peer_recv_callback_internal P W c transport_write f e s = Ret ((STATE_RUN_CONTINUE, f', e'), s') → readable s' → rc0 ≠ STATE_RUN_TRY_AGAIN →
  run_states P W c transport_write (S n) start rc0 f e s = run_states P W c transport_write n start STATE_RUN_CONTINUE f' e' s'.
Proof.
  intros E Hs' Hrc. cbn [run_states]. destruct (Z.eqb_spec rc0 STATE_RUN_TRY_AGAIN) as [->|_]; [done|]. erewrite bind_Ret by done. cbv beta iota.
  erewrite bind_Ret by exact E. cbv beta iota. by erewrite bind_Ret by by apply run_GetRemainingLength.
Qed.
Lemma run_callback n (f : rdpFastPath ncrush xcrush) e s :
  readable s → peer_recv_callback P W c transport_write n f e s = run_states P W c transport_write n (st_pointer s) STATE_RUN_FAILED f e s.
Proof. intros [Hs _]. unfold peer_recv_callback. by erewrite bind_Ret by by apply run_GetPosition. Qed.

(** In the active state, once the application is. *)
Definition serving e : Prop := e_state e = CONNECTION_STATE_ACTIVE ∧ e_connected e = true ∧ e_activated e = true.
Lemma internal_active (f : rdpFastPath ncrush xcrush) e :
  consents → serving e → peer_recv_callback_internal P W c transport_write f e = peer_recv_pdu P W c transport_write f e.
Proof.
  intros Hc (Hst & Hcn & Ha). unfold peer_recv_callback_internal. rewrite Hc. cbn [negb]. rewrite Hst.
  unfold rdp_peer_handle_state_active. rewrite Hcn. cbn [negb]. cbv zeta. by rewrite Hcn, Ha.
Qed.
End receiving.
