(* ===== verification/PeerSession.v ===== *)
(** Input on the slow path and the finalization of a connection, from client to server. *)

From S2P Require Import Prelude Stream StreamLogic Transmission Per Framing Rc4 Security SecurityCorrect Mcs RdpPdu RdpPduCorrect RdpPduSafe RdpSession Bulk FastPath FastPathSession Region Input InputCorrect InputSafe Activation Peer PeerCorrect.
From stdpp Require Import prelude list numbers.
From Stdlib Require Import ZArith Lia.

#[local] Open Scope Z_scope.

(** Packets at the server, until one is refused. *)
Fixpoint recv_peer_packets {HM : Malloc} {HD : Digests} {HC : Cipher} {D} {ncrush xcrush : Codec} (P : peer_calls (D := D)) (W : watchers D)
    (c : peer_settings) (transport_write : list Z → D → bool * D) (fuel : nat) (pkts : list (list Z)) (f : rdpFastPath ncrush xcrush)
    (e : endpoint D) : outcome (option (Z * rdpFastPath ncrush xcrush * endpoint D)) :=
  match pkts with
  | [] => Ret (Some (STATE_RUN_SUCCESS, f, e))
  | p :: pkts =>
      match peer_recv_callback P W c transport_write fuel f e (stream_of p) with
      | Abort => Abort
      | Ret (None, _) => Ret None
      | Ret (Some (status, f, e), _) =>
          if status =? STATE_RUN_SUCCESS then recv_peer_packets P W c transport_write fuel pkts f e else Ret (Some (status, f, e))
      end
  end.
Lemma recv_peer_packets_app {HM : Malloc} {HD : Digests} {HC : Cipher} {D} {ncrush xcrush : Codec} (P : peer_calls (D := D)) W c transport_write fuel p1 p2
    (f f1 : rdpFastPath ncrush xcrush) e e1 :
  recv_peer_packets P W c transport_write fuel p1 f e = Ret (Some (STATE_RUN_SUCCESS, f1, e1)) →
  recv_peer_packets P W c transport_write fuel (p1 ++ p2) f e = recv_peer_packets P W c transport_write fuel p2 f1 e1.
Proof.
  revert f e. induction p1 as [|p p1 IH]; intros f e; cbn; [by intros [= -> ->]|].
  destruct (peer_recv_callback _ _ _ _ _ _ _ _) as [[[[[st f'] e']|] s']|]; [|done..]. destruct (Z.eqb_spec st STATE_RUN_SUCCESS); [apply IH|]. by intros [= -> _ _].
Qed.

(** * Input *)

Section input.
Context {HM : Malloc} {HD : Digests} {HC : Cipher} {HDL : DigestLaws} {HCL : CipherLaws}.
Context (c1 : fp_settings) (k1 : input_settings) (userId shareId : Z).
Context (write : list Z → list (list Z) → bool * list (list Z)) (Hwrite : ∀ p w, write p w = (true, w ++ [p])).

(** Events one after the other, a packet each. *)
Fixpoint send_slow (es : list input_event) (r : rdpRdp) (w : list (list Z)) : outcome (bool * rdpRdp * list (list Z)) :=
  match es with
  | [] => Ret (true, r, w)
  | e :: es => and_then (send_input c1 write userId shareId (slow_type e) (slow_write e) r w) (send_slow es)
  end.
(** On the slow path there are no time stamps. *)
Definition slow_events (e : input_call) : list input_event := match e with CallQoE _ => [] | _ => raw_events k1 e end.

Lemma and_then_end (x : outcome (bool * rdpRdp * list (list Z))) : and_then x (λ r w, Ret (true, r, w)) = x.
Proof. by destruct x as [[[[] ?] ?]|]. Qed.
Lemma and_then_ext (x : outcome (bool * rdpRdp * list (list Z))) f g : (∀ r w, f r w = g r w) → and_then x f = and_then x g.
Proof. intros H. destruct x as [[[[] ?] ?]|]; [apply H|done..]. Qed.
(** A function that is called sends its events, or answers where there are none. *)
Lemma slow_call e r w :
  match registered c1 k1 true true write userId shareId false e with
  | Some send => if slow_events e is [] then send r w = Ret (call_result k1 false e, r, w)
                 else call_result k1 false e = true ∧ send r w = send_slow (slow_events e) r w
  | None => slow_events e = [] ∧ call_result k1 false e = true
  end.
Proof.
  destruct e as [flags|flags code| |flags code|flags x y|flags x y|flags x y|states|t];
    cbn [registered slow_events raw_events send_slow slow_type slow_write call_result]; try done.
  - by rewrite and_then_end.
  - by rewrite and_then_end.
  - split; [done|]. unfold input_send_keyboard_pause_event. do 3 (apply and_then_ext; intros ? ?). by rewrite and_then_end.
  - unfold input_send_unicode_keyboard_event. cbn [negb]. destruct (is_UnicodeInput k1); [|done]. split; [done|].
    cbn [send_slow]. by rewrite and_then_end.
  - unfold input_send_mouse_event. cbn [negb]. destruct (_ && _); [done|]. split; [done|]. cbn [send_slow]. by rewrite and_then_end.
  - unfold input_send_relmouse_event. cbn [negb]. destruct (is_HasRelativeMouseEvent k1); [|done]. split; [done|].
    cbn [send_slow]. by rewrite and_then_end.
  - unfold input_send_extended_mouse_event. cbn [negb]. destruct (is_HasExtendedMouseEvent k1); [|done]. split; [done|].
    cbn [send_slow]. by rewrite and_then_end.
  - split; [done|]. unfold input_send_focus_in_event. do 2 (apply and_then_ext; intros ? ?). by rewrite and_then_end.
Qed.

Context {D : Type} {ncrush xcrush : Codec} (P : peer_calls (D := D)) (W : watchers D) (c2 : peer_settings).
Context (transport_write : list Z → D → bool * D) (fuel : nat) (f : rdpFastPath ncrush xcrush).
Context (Hav : crypto_available) (Hcrypt : ps_UseRdpSecurityLayer c2 = fps_do_crypt c1).
Context (Hu : MCS_BASE_CHANNEL_ID <= userId <= UINT16_MAX) (Hi : 0 <= shareId <= UINT32_MAX).
Context (Hdis : ∀ d, shall_disconnect P d = false) (Hcons : consents P).

Definition slow_payload (e : input_event) : list Z := winpr_Data_Write_UINT16 1 ++ zeros 2 ++ slow_bytes e.
Lemma slow_fills e :
  event_ok e → on_slow_path e →
  fills (rdp_write_client_input_pdu_header 1;; rdp_write_input_event_header 0 (slow_type e);; slow_write e) (slow_payload e).
Proof.
  intros He Hs. apply (puts_fills 16); [|by apply puts_slow_packet|lia|by destruct e].
  unfold slow_payload, slow_bytes. repeat apply Forall_app_2; try apply write16_le_bytes; try apply bytes_zeros.
  destruct e; cbn [slow_body]; unfold pointer_bytes; repeat apply Forall_app_2; try apply write16_le_bytes; try apply write32_le_bytes. apply Forall_nil_2.
Qed.
Lemma slow_event_delivered e r1 w e2 d' :
  event_ok e → on_slow_path e → (fps_do_crypt c1 = true → sec_sync r1 (e_rdp e2)) → ServerMode (e_rdp e2) = negb (ServerMode r1) →
  serving e2 →
  call_event (pc_input P) (ps_input c2) true (slow_event e) (e_data e2) = (true, d') →
  ∃ r1' pkt r2' s', send_input c1 write userId shareId (slow_type e) (slow_write e) r1 w = Ret (true, r1', w ++ [pkt]) ∧
    peer_recv_callback P W c2 transport_write (S fuel) f e2 (stream_of pkt) =
      Ret (Some (STATE_RUN_SUCCESS, f, set_data d' (set_PduSource userId (set_rdp r2' e2))), s') ∧
    ServerMode r1' = ServerMode r1 ∧ ServerMode r2' = ServerMode (e_rdp e2) ∧ (fps_do_crypt c1 = true → sec_sync r1' r2').
Proof.
  intros He Hs Hsync Hmode Hst Hcall. destruct (slow_fills e He Hs) as (Hb & Hz & Hw).
  destruct (run_data_pdu r1 (e_rdp e2) (fps_do_crypt c1) (fps_do_secure_checksum c1)
    (rdp_write_client_input_pdu_header 1;; rdp_write_input_event_header 0 (slow_type e);; slow_write e) (slow_payload e) userId shareId
    DATA_PDU_TYPE_INPUT) as (s & s1 & r1' & s' & wire & E0 & E1 & E2 & Hpkt & Hsec & Hzw & Hwb); [done|done|done|done|done|done|].
  rewrite <- Hcrypt in Hsync, Hsec.
  destruct (data_pdu_received (ncrush := ncrush) (xcrush := xcrush) P W c2 transport_write r1 r1' e2 (fps_do_secure_checksum c1) (slow_payload e) wire userId DATA_PDU_TYPE_INPUT shareId)
    as (r2' & Hm2 & Hss & _ & Hrecv); [done..|split; [by destruct Hst as (-> & _)|done]|].
  exists r1', (unit_packet (ServerMode r1) userId MCS_GLOBAL_CHANNEL_ID wire), r2'.
  destruct (Hrecv STATE_RUN_SUCCESS (set_data d' (set_PduSource userId (set_rdp r2' e2)))) with (f := f) as (s2 & E3 & Hs2).
  { apply (reads_status STATE_RUN_SUCCESS), reads_on_data.
    unfold slow_payload. rewrite <- (app_nil_r (slow_bytes e)). apply (reads_slow_events _ _ [e]); [by apply Forall_singleton..|done|].
    cbn [map call_events]. destruct e2; cbn in *. by rewrite Hcall. }
  exists s2. split; [|split]; [| |split; [|split; [done|by rewrite Hcrypt in Hss]]].
  - unfold send_input, rdp_client_input_pdu_init. rewrite E0. cbn [mbind outcome_bind].
    apply bind_inv in E1 as (? & sa & Ea & E1). apply bind_inv in E1 as (? & sb & Eb & E1).
    erewrite bind_Ret by exact Ea. rewrite Eb. cbn [mbind outcome_bind]. erewrite bind_Ret by exact E1.
    unfold rdp_send_client_input_pdu. rewrite E2. cbv iota. by rewrite Hpkt, Hwrite.
  - rewrite run_callback.
    + apply run_states_stop; [by rewrite internal_active|done|done|done].
    + apply stream_of_readable; unfold unit_packet; [rewrite zlen_app; change (zlen (unit_header _ _ _ _ _)) with 15; unfold SIZE_MAX; lia|].
      apply Forall_app_2; [apply unit_header_bytes|done].
  - by rewrite (secured_frame _ _ _ _ _ Hsec).
Qed.

(** Client and server between two packets. *)
Definition in_step (r1 : rdpRdp) (e2 : endpoint D) : Prop :=
  (fps_do_crypt c1 = true → sec_sync r1 (e_rdp e2)) ∧ ServerMode (e_rdp e2) = negb (ServerMode r1) ∧ serving e2.
Lemma slow_events_delivered es : ∀ r1 w e2 d',
  Forall event_ok es → Forall on_slow_path es → in_step r1 e2 →
  call_events (pc_input P) (ps_input c2) true (map slow_event es) (e_data e2) = (true, d') →
  ∃ r1' pkts e2', send_slow es r1 w = Ret (true, r1', w ++ pkts) ∧
    recv_peer_packets P W c2 transport_write (S fuel) pkts f e2 = Ret (Some (STATE_RUN_SUCCESS, f, e2')) ∧ e_data e2' = d' ∧ in_step r1' e2'.
Proof.
  induction es as [|e es IH]; intros r1 w e2 d' Hok Hslow Hstep Hc; cbn [send_slow map call_events] in *.
  { exists r1, [], e2. rewrite app_nil_r. by injection Hc as <-. }
  apply Forall_cons_1 in Hok as [He Hok]. apply Forall_cons_1 in Hslow as [Hs Hslow]. destruct Hstep as (Hsync & Hmode & Hst).
  destruct (call_event _ _ _ _ _) as [[] d1] eqn:Hc1; [|done].
  destruct (slow_event_delivered e r1 w e2 d1 He Hs Hsync Hmode Hst Hc1) as (r1a & pkt & r2 & s' & E1 & E2 & Hm1 & Hm2 & Hss).
  destruct (IH r1a (w ++ [pkt]) (set_data d1 (set_PduSource userId (set_rdp r2 e2))) d') as (r1' & pkts & e2' & E3 & E4 & Hd & Hstep');
    [done|done| |by destruct e2|].
  { split; [by destruct e2|]. split; [|by destruct e2]. destruct e2; cbn in *. congruence. }
  exists r1', (pkt :: pkts), e2'. rewrite E1. cbn [and_then mbind outcome_bind negb recv_peer_packets]. rewrite E2, E3, <- app_assoc. done.
Qed.
End input.

Section input_calls.
Context {HM : Malloc} {HD : Digests} {HC : Cipher} {HDL : DigestLaws} {HCL : CipherLaws} {D : Type} {ncrush xcrush : Codec}.
Context (c1 : fp_settings) (k1 : input_settings) (userId shareId : Z).
Context (P : peer_calls (D := D)) (W : watchers D) (c2 : peer_settings) (transport_write : list Z → D → bool * D).
Context (fuel : nat) (f : rdpFastPath ncrush xcrush).
Context (Hav : crypto_available) (Hcrypt : ps_UseRdpSecurityLayer c2 = fps_do_crypt c1).
Context (Hu : MCS_BASE_CHANNEL_ID <= userId <= UINT16_MAX) (Hi : 0 <= shareId <= UINT32_MAX).
Context (Hdis : ∀ d, shall_disconnect P d = false) (Hcons : consents P).

Lemma slow_events_ok e : call_ok e → Forall event_ok (slow_events k1 e) ∧ Forall on_slow_path (slow_events k1 e).
Proof.
  intros He. destruct (raw_events_fast k1 e He) as [Hev _]. revert Hev. clear He.
  destruct e; cbn [slow_events raw_events]; repeat case_match; intros Hev; (split; [exact Hev || apply Forall_nil_2|by repeat constructor]).
Qed.
Lemma slow_calls_delivered es : ∀ r1 w e2 d',
  Forall call_ok es → in_step c1 r1 e2 →
  call_events (pc_input P) (ps_input c2) true (map slow_event (concat (map (slow_events k1) es))) (e_data e2) = (true, d') →
  ∃ r1' pkts e2', send_calls c1 k1 true true false userId shareId es r1 w = Ret (map (call_result k1 false) es, r1', w ++ pkts) ∧
    recv_peer_packets P W c2 transport_write (S fuel) pkts f e2 = Ret (Some (STATE_RUN_SUCCESS, f, e2')) ∧ e_data e2' = d' ∧ in_step c1 r1' e2'.
Proof.
  induction es as [|e es IH]; intros r1 w e2 d' Hok Hstep Hc; cbn [send_calls map concat] in *.
  { exists r1, [], e2. rewrite app_nil_r. by injection Hc as <-. }
  apply Forall_cons_1 in Hok as [He Hes]. rewrite map_app in Hc. apply call_events_split in Hc as (d1 & Hc1 & Hc2).
  destruct (slow_events_ok e He) as [Hev Hsl].
  destruct (slow_events_delivered c1 userId shareId (λ p w, (true, w ++ [p])) (λ _ _, eq_refl) P W c2 transport_write fuel f Hav Hcrypt Hu Hi Hdis Hcons
    (slow_events k1 e) r1 w e2 d1 Hev Hsl Hstep Hc1) as (r1a & p1 & e2a & E1 & E2 & <- & Hstep1).
  destruct (IH r1a (w ++ p1) e2a d' Hes Hstep1 Hc2) as (r1' & p2 & e2' & E3 & E4 & Hd & Hstep2).
  exists r1', (p1 ++ p2), e2'.
  assert (slow_events k1 e = [] → r1a = r1 ∧ p1 = [] ∧ e2a = e2) as Hnone.
  { intros Hn. rewrite Hn in E1. cbn [send_slow] in E1. injection E1 as -> Hw.
    assert (p1 = []) as ->. { apply (f_equal length) in Hw. rewrite length_app in Hw. destruct p1; [done|cbn in Hw; lia]. }
    by injection E2 as ->. }
  pose proof (slow_call c1 k1 userId shareId (λ p w, (true, w ++ [p])) e r1 w) as Hreg.
  destruct (registered c1 k1 true true (λ p w, (true, w ++ [p])) userId shareId false e) as [send|].
  - destruct (slow_events k1 e) as [|ev evs].
    + rewrite Hreg. destruct (Hnone eq_refl) as (-> & -> & ->). cbn [mbind outcome_bind]. rewrite app_nil_r in E3. by rewrite E3.
    + destruct Hreg as [-> ->]. rewrite E1. cbn [mbind outcome_bind]. rewrite E3, <- app_assoc. split; [done|].
      by erewrite recv_peer_packets_app by exact E2.
  - destruct Hreg as [Hn ->]. destruct (Hnone Hn) as (-> & -> & ->). cbn [mbind outcome_bind]. rewrite app_nil_r in E3. by rewrite E3.
Qed.
End input_calls.

(** * A packet that takes the server down *)

Section unknown.
Context {HM : Malloc} {HD : Digests} {HC : Cipher} {HDL : DigestLaws} {HCL : CipherLaws} {D : Type}.

(** Types of events that [input_recv_event] does not know. *)
Definition unknown_type (t : Z) : bool :=
  negb (existsb (Z.eqb t) [INPUT_EVENT_SYNC; INPUT_EVENT_SCANCODE; INPUT_EVENT_UNICODE; INPUT_EVENT_MOUSE; INPUT_EVENT_MOUSEX; INPUT_EVENT_MOUSEREL]).
(** One event, its header only. *)
Definition short_event (time : list Z) (t : Z) : list Z := winpr_Data_Write_UINT16 1 ++ zeros 2 ++ time ++ winpr_Data_Write_UINT16 t.

(** Beyond the end, or past the buffer. *)
Lemma seek_beyond n s : readable s → rem s < n → Stream_Seek n s = Abort ∨ ∃ s', Stream_Seek n s = Ret (tt, s') ∧ Stream_GetRemainingLength s' = Abort.
Proof.
  intros [Hwf Hl] Hn. pose proof Hwf as []. unfold rem in Hn. unfold Stream_Seek. erewrite bind_Ret by by apply run_GetRemainingCapacity.
  unfold WINPR_ASSERT. unfold mbind at 1, SM_bind. destruct (_ >=? n); [right|by left].
  eexists. split; [done|]. unfold Stream_GetRemainingLength. cbn. destruct (Z.leb_spec (st_pointer s + n) (st_length s)); [lia|]. by rewrite andb_false_r.
Qed.
Lemma unknown_dispatch (I : rdpInput D) k t time d s o :
  unknown_type t = true → is_u16 t → zlen time = 4 → readable s → remaining s = short_event time t →
  input_recv I k d s = o → o = Abort ∨ ∃ r s', o = Ret (r, s') ∧ Stream_GetRemainingLength s' = Abort.
Proof.
  intros Ht Hu Hz Hs Hr. unfold short_event in Hr. assert (zlen (remaining s) = 10) as Hz10.
  { rewrite Hr, !zlen_app, Hz. change (zlen (zeros 2)) with 2. by change (zlen (winpr_Data_Write_UINT16 _)) with 2. }
  rewrite zlen_remaining in Hz10 by done. unfold input_recv. erewrite bind_Ret by by apply run_CheckLength. rewrite Hz10. change (10 <? 4) with false. cbv iota.
  destruct (remaining_app _ _ _ Hs Hr) as (_ & Hs1 & Hr1). erewrite bind_Ret by (apply (reads_UINT16 1 ltac:(done) s _ Hs Hr)).
  destruct (remaining_app _ _ _ Hs1 Hr1) as (_ & Hs2 & Hr2). erewrite bind_Ret by (apply (reads_Seek (zeros 2) _ _ Hs1 Hr1)).
  rewrite adv_adv in *. set (s2 := adv (zlen (winpr_Data_Write_UINT16 1) + zlen (zeros 2)) s) in *.
  assert (rem s2 = 6) as Hrem2 by (rewrite <- zlen_remaining, Hr2, zlen_app, Hz by done; done).
  erewrite bind_Ret by by apply run_CheckLengthEx. rewrite Hrem2. change (6 / 6 <? 1) with false. cbv iota. change (Z.to_nat 1) with 1%nat.
  cbn [recv_events]. unfold input_recv_event. unfold mbind at 1, SM_bind at 1. erewrite bind_Ret by by apply run_CheckLength. rewrite Hrem2.
  change (6 <? 6) with false. cbv iota. rewrite <- Hz. erewrite bind_Ret by (apply (reads_Seek time _ _ Hs2 Hr2)).
  destruct (remaining_app _ _ _ Hs2 Hr2) as (_ & Hs3 & Hr3).
  erewrite bind_Ret by (apply (reads_UINT16 t ltac:(unfold is_u16 in Hu; lia) _ []); [done|by rewrite app_nil_r]).
  assert (remaining (adv (zlen time) s2) = winpr_Data_Write_UINT16 t ++ []) as Hr3' by (by rewrite app_nil_r).
  destruct (remaining_app _ _ _ Hs3 Hr3') as (_ & Hs4 & Hr4). set (s4 := adv _ (adv _ s2)) in *.
  assert (rem s4 < 6) as Hrem4 by (rewrite <- zlen_remaining, Hr4 by done; done).
  unfold unknown_type in Ht. cbn [existsb] in Ht. rewrite negb_true_iff, !orb_false_iff in Ht. destruct Ht as (-> & -> & -> & -> & -> & -> & _).
  destruct (seek_beyond 6 s4 Hs4 Hrem4) as [E|(s' & E & E')].
  - rewrite (bind_Abort _ _ _ E). intros <-. by left.
  - erewrite bind_Ret by exact E. intros <-. right. do 2 eexists. split; [done|done].
Qed.

Context (P : peer_calls (D := D)) (W : watchers D) (c : peer_settings) (transport_write : list Z → D → bool * D).
Lemma unknown_payload n ch e s time t :
  n <= UINT16_MAX → unknown_type t = true → is_u16 t → zlen time = 4 → readable s → remaining s = short_event time t →
  recv_payload P W c transport_write n DATA_PDU_TYPE_INPUT ch e s = Abort.
Proof.
  intros Hn Ht Hu Hz Hs Hr. unfold recv_payload.
  change (dispatch_data_pdu P W c transport_write DATA_PDU_TYPE_INPUT (set_PduSource ch e)) with
    (status_of STATE_RUN_SUCCESS (on_data_of (set_PduSource ch e) (input_recv (pc_input P) (ps_input c)))).
  unfold status_of, on_data_of.
  destruct (unknown_dispatch (pc_input P) (ps_input c) t time (e_data (set_PduSource ch e)) s _ Ht Hu Hz Hs Hr eq_refl) as [E|([ok d] & s' & E & E')].
  - by do 3 apply bind_Abort.
  - erewrite bind_Ret; [|erewrite bind_Ret; [|erewrite bind_Ret by exact E; reflexivity]; reflexivity]. cbv beta iota.
    apply bind_Abort. unfold tpkt_ensure_stream_consumed. destruct (Z.gtb_spec n UINT16_MAX); [lia|]. by apply bind_Abort.
Qed.
End unknown.

(** * Theorems *)

Section theorems.
Context {HM : Malloc} {HD : Digests} {HC : Cipher} {HDL : DigestLaws} {HCL : CipherLaws} {D : Type} {ncrush xcrush : Codec}.

(** C3. What a user does at a client without the fast path happens at the server.  Whatever functions of
    its [rdpInput] the client calls, one after the other, and whatever its settings are: a call for
    text or a relative move that the settings do not allow returns [FALSE] and sends nothing; a time stamp,
    for which the slow path has no function, and a horizontal wheel or an extended button that are not allowed
    send nothing and count as [TRUE]; every other call returns [TRUE] ([call_result]).  The packets
    that leave the client, each a share data PDU behind its TPKT, X.224, MCS and security headers, make
    a server in its active state, whose application neither objects to that state nor disconnects, call its
    own functions, as long as these return [TRUE], with just the events of
    these calls ([slow_events]) in the same order and return success
    for each packet, whether they are in the clear or encrypted with RC4 or 3DES; afterwards the
    two ends are ready for the next packet.  Of a key or a character that is released the server
    clears the flag that it was down before ([slow_event]); nothing else of an event is changed. *)
Theorem slow_input_session (P : peer_calls (D := D)) W c1 c2 k1 transport_write fuel userId shareId es r1
    (f : rdpFastPath ncrush xcrush) (e2 : endpoint D) d' :
  crypto_available → ps_UseRdpSecurityLayer c2 = fps_do_crypt c1 → MCS_BASE_CHANNEL_ID <= userId <= UINT16_MAX → 0 <= shareId <= UINT32_MAX →
  (∀ d, shall_disconnect P d = false) → consents P → in_step c1 r1 e2 → Forall call_ok es →
  call_events (pc_input P) (ps_input c2) true (map slow_event (concat (map (slow_events k1) es))) (e_data e2) = (true, d') →
  ∃ r1' pkts e2', send_calls c1 k1 true true false userId shareId es r1 [] = Ret (map (call_result k1 false) es, r1', pkts) ∧
    recv_peer_packets P W c2 transport_write (S fuel) pkts f e2 = Ret (Some (STATE_RUN_SUCCESS, f, e2')) ∧ e_data e2' = d' ∧ in_step c1 r1' e2'.
Proof.
  intros Hav Hcrypt Hu Hi Hdis Hcons Hstep Hes Hc.
  exact (slow_calls_delivered c1 k1 userId shareId P W c2 transport_write fuel f Hav Hcrypt Hu Hi Hdis Hcons es r1 [] e2 d' Hes Hstep Hc).
Qed.

(** C38. One packet takes the server down: in the active state, an input PDU of one event whose
    type [input_recv_event] does not know and which ends with the header of the event passes the
    check of [input_recv], which asks for six bytes per event where an event has twelve; the six
    bytes that are then skipped unchecked lie outside the packet, and the next look at the
    stream, or the skip itself, fails an assertion. *)
Theorem unknown_input_aborts (P : peer_calls (D := D)) W c transport_write fuel userId share_id (f : rdpFastPath ncrush xcrush)
    (e2 : endpoint D) s time t :
  ps_UseRdpSecurityLayer c = false → ServerMode (e_rdp e2) = true → serving e2 → consents P → shall_disconnect P (e_data e2) = false →
  MCS_BASE_CHANNEL_ID <= userId <= UINT16_MAX → 0 <= share_id <= UINT32_MAX →
  unknown_type t = true → is_u16 t → bytes time → zlen time = 4 → readable s →
  remaining s = unit_packet false userId MCS_GLOBAL_CHANNEL_ID (data_pdu (short_event time t) DATA_PDU_TYPE_INPUT share_id userId) →
  peer_recv_callback P W c transport_write (S fuel) f e2 s = Abort.
Proof.
  intros Hc Hmode Hl Hcons Hdis Hu Hi Ht Htu Hb Hz Hs Hr. set (payload := short_event time t) in *.
  assert (zlen payload = 10) as Hzp.
  { unfold payload, short_event. rewrite !zlen_app, Hz. done. }
  set (body := data_pdu payload _ _ _) in *.
  assert (bytes body) as Hbb.
  { unfold body, data_pdu. rewrite app_assoc. apply Forall_app_2; [by apply share_headers_bytes|].
    unfold payload, short_event. repeat apply Forall_app_2; try apply write16_le_bytes; [apply bytes_zeros|done]. }
  assert (zlen body = 28) as Hzb.
  { unfold body, data_pdu. rewrite app_assoc, zlen_app. change (zlen (_ ++ _)) with 18. lia. }
  set (r1 := mkRdp (EncryptionMethods (e_rdp e2)) false (ClientRandom (e_rdp e2)) (ServerRandom (e_rdp e2)) (sign_key (e_rdp e2))
    (fips_sign_key (e_rdp e2)) (rc4_key_len (e_rdp e2)) (dir_encrypt (e_rdp e2)) (dir_decrypt (e_rdp e2))).
  destruct (run_peer_unit P W c transport_write r1 r1 e2 false body body userId MCS_GLOBAL_CHANNEL_ID s) as (r2' & s2 & E & Hs2 & Hr2 & _);
    [by rewrite Hc|done|lia|rewrite Hc; by apply secured_plain|done|done|done|split; [by destruct Hl as (-> & _)|done]|done|done|].
  destruct (run_peer_data P W c transport_write (data_flags (ps_UseRdpSecurityLayer c) false) (set_rdp r2' e2) s2 payload
    DATA_PDU_TYPE_INPUT share_id userId) as (E2 & Hs3 & Hr3); [done|done|lia|unfold MCS_BASE_CHANNEL_ID in *; lia|done|].
  fold body in E2. rewrite run_callback by done. cbn [run_states]. erewrite bind_Ret by done. cbv beta iota. apply bind_Abort.
  rewrite internal_active by done. erewrite recv_pdu_slow; [|done|exact Hr]. rewrite E, E2.
  by rewrite (unknown_payload P W c transport_write (zlen body) _ _ _ time t ltac:(rewrite Hzb; done) Ht Htu Hz Hs3 Hr3).
Qed.
End theorems.

(** * Witnesses *)

#[local] Existing Instances model_malloc model_digests model_cipher model_digest_laws model_cipher_laws.

(** A server that keeps the events, with RDP security and without. *)
Definition logging_peer : peer_calls (D := list input_event) :=
  mkPeerCalls logger (λ _ d, d) None None None (λ d, d) (λ _ e, mret (false, e)) (λ _ e, mret (STATE_RUN_FAILED, e))
    (λ _ d, mret (false, d)) (λ _, false) None None None (λ e, mret (STATE_RUN_FAILED, e)).
Definition no_watchers {D} : watchers D := mkWatchers (λ _ _ d, d) (λ _ d, (true, d)) (λ _ _ d, (true, d)) (λ d, d).
Definition peer_end (crypt : bool) : peer_settings :=
  mkPeerSettings (mkEndSettings crypt true 1007 1080 1920 false []) all_input crypt true true 0 false.
Definition active_end {HC : Cipher} {D} (r : rdpRdp) (d : D) : endpoint D :=
  mkEndpoint r 0 false CONNECTION_STATE_ACTIVE true true false false 0 0 66 0 d.
Definition keep_sent {D} (p : list Z) (d : D) : bool * D := (true, d).


Lemma slow_input_session_witness :
  ∃ f r1' pkts e2', fp_end (fp_rdp0 true) = Some f ∧
    send_calls server_settings less_input true true false 1007 66 some_calls (fp_rdp0 false) [] =
      Ret (map (call_result less_input false) some_calls, r1', pkts) ∧
    recv_peer_packets logging_peer no_watchers (peer_end true) keep_sent 1 pkts f (active_end (fp_rdp0 true) []) = Ret (Some (STATE_RUN_SUCCESS, f, e2')) ∧
    e_data e2' = map slow_event (concat (map (slow_events less_input) some_calls)) ∧ in_step server_settings r1' e2'.
Proof.
  destruct (@bulk_new no_codec no_codec 1 metrics_new) as [b|] eqn:Eb; [|done].
  destruct (fastpath_new (fp_rdp0 true) b) as [f|] eqn:E2; [|done].
  destruct (slow_input_session logging_peer no_watchers server_settings (peer_end true) less_input keep_sent 0 1007 66 some_calls (fp_rdp0 false) f
    (active_end (fp_rdp0 true) []) (map slow_event (concat (map (slow_events less_input) some_calls)))) as (r1' & pkts & e2' & H).
  - exact model_available.
  - done.
  - done.
  - done.
  - done.
  - done.
  - split; [|done]. intros _. apply (established_duplex ENCRYPTION_METHOD_128BIT). left. by right; right.
  - eapply Forall_impl; [|exact some_calls_ok]. by intros ? [].
  - by vm_compute.
  - exists f, r1', pkts, e2'. split; [|exact H]. unfold fp_end. rewrite Eb. exact E2.
Defined.

Lemma unknown_input_aborts_witness :
  ∃ f, fp_end (fp_rdp0 true) = Some f ∧
  peer_recv_callback logging_peer no_watchers (peer_end false) keep_sent 1 f (active_end (fp_rdp0 true) [])
    (stream_of (unit_packet false 1007 MCS_GLOBAL_CHANNEL_ID (data_pdu (short_event [0; 0; 0; 0] 7) DATA_PDU_TYPE_INPUT 66 1007))) = Abort.
Proof.
  destruct (@bulk_new no_codec no_codec 1 metrics_new) as [b|] eqn:Eb; [|done].
  destruct (fastpath_new (fp_rdp0 true) b) as [f|] eqn:E2; [|done]. exists f. split; [unfold fp_end; rewrite Eb; exact E2|].
  apply (unknown_input_aborts logging_peer no_watchers (peer_end false) keep_sent 0 1007 66 f _ _ [0; 0; 0; 0] 7);
    try done; try by vm_compute.
  - apply (bool_decide_unpack _). by vm_compute.
  - apply stream_of_readable; [by vm_compute|apply (bool_decide_unpack _); by vm_compute].
Defined.
