(* ===== verification/ActivationCorrect.v ===== *)
(** The PDUs of the finalization, written and read, and what it takes to send them. *)

From S2P Require Import Prelude Stream StreamLogic Transmission Per Framing Rc4 Security SecurityCorrect Mcs RdpPdu RdpPduCorrect RdpPduSafe RdpSession Bulk FastPath FastPathSession Region Input InputCorrect InputSafe Activation Peer PeerCorrect PeerSession.
From stdpp Require Import prelude list numbers.
From Stdlib Require Import ZArith Lia.

#[local] Open Scope Z_scope.

(** * The PDUs *)

Definition sync_payload (user : Z) : list Z := winpr_Data_Write_UINT16 SYNCMSGTYPE_SYNC ++ winpr_Data_Write_UINT16 user.
Definition control_payload (action grant control : Z) : list Z :=
  winpr_Data_Write_UINT16 action ++ winpr_Data_Write_UINT16 grant ++ winpr_Data_Write_UINT32 control.
Definition fonts_payload (flags size : Z) : list Z :=
  winpr_Data_Write_UINT16 0 ++ winpr_Data_Write_UINT16 0 ++ winpr_Data_Write_UINT16 flags ++ winpr_Data_Write_UINT16 size.
Definition words (l : list Z) : list Z := concat (map winpr_Data_Write_UINT16 l).
Definition keys_payload (entries keys : list Z) : list Z :=
  words entries ++ words entries ++ [3] ++ [0] ++ winpr_Data_Write_UINT16 0 ++ concat (map winpr_Data_Write_UINT64 keys).

Section pdus.
Context {HM : Malloc}.

Lemma fills_sync user : is_u16 user → fills (rdp_write_synchronize_pdu user) (sync_payload user).
Proof.
  intros Hu. apply (puts_fills 4); [|unfold rdp_write_synchronize_pdu, sync_payload|done|done].
  - repeat apply Forall_app_2; apply write16_le_bytes.
  - apply puts_check; [done|]. apply puts_UINT16; [done..|]. apply puts_cast; [done|].
    apply puts_nil_r, puts_UINT16; [done|done|apply puts_ret].
Qed.
Lemma fills_control action grant control :
  is_u16 action → is_u16 grant → is_u32 control → fills (rdp_write_client_control_pdu action grant control) (control_payload action grant control).
Proof.
  intros Ha Hg Hc. apply (puts_fills 8); [|unfold rdp_write_client_control_pdu, control_payload|done|done].
  - repeat apply Forall_app_2; apply write16_le_bytes || apply write32_le_bytes.
  - apply puts_check; [done|]. do 2 (apply puts_UINT16; [done..|]). apply puts_nil_r, puts_UINT32; [done|done|apply puts_ret].
Qed.
Lemma fills_fonts flags size :
  is_u16 flags → is_u16 size →
  fills (TRY Stream_CheckAndLogRequiredCapacity 8;
    Stream_Write_UINT16 0;; Stream_Write_UINT16 0;; Stream_Write_UINT16 flags;; Stream_Write_UINT16 size;; TRUE) (fonts_payload flags size).
Proof.
  intros Hf Hs. apply (puts_fills 8); [|unfold fonts_payload|done|done].
  - repeat apply Forall_app_2; apply write16_le_bytes.
  - apply puts_check; [done|]. do 3 (apply puts_UINT16; [done..|]). apply puts_nil_r, puts_UINT16; [done|done|apply puts_ret].
Qed.

Lemma write64_le_bytes v : bytes (winpr_Data_Write_UINT64 v).
Proof. unfold winpr_Data_Write_UINT64. apply Forall_app_2; apply write32_le_bytes. Qed.

(** A writer at the position [p] of a stream of capacity [cap], which may grow the stream. *)
Definition tops (p cap : Z) (m : SM (option unit)) (bs : list Z) (Q : wStream → Prop) : Prop :=
  ∀ s, wf s → st_capacity s = cap → st_pointer s = p → ∃ s' c, m s = Ret (Some tt, s') ∧ wstep s s' bs c ∧ c <= 20000 ∧ Q s'.
Lemma tops_step {A} p cap w (m : SM A) (k : A → SM (option unit)) a bs1 bs Q :
  puts w m bs1 a → zlen bs1 = w → p + w <= cap → tops (p + w) cap (k a) bs Q → tops p cap (x ← m; k x) (bs1 ++ bs) Q.
Proof.
  intros Hm Hw Hp Hk s Hs Hc Hsp. destruct (Hm s Hs) as (s1 & E & W1); [unfold fits; lia|].
  destruct (Hk s1) as (s' & c & E' & W' & Hc' & HQ); [by destruct W1|destruct W1; lia|destruct W1; lia|].
  exists s', (0 + c). split; [by erewrite bind_Ret by exact E|]. split; [by eapply wstep_trans|]. split; [lia|done].
Qed.
Lemma tops_all {A} (write : A → SM unit) enc w (l : list A) next bs Q p cap :
  (∀ v, v ∈ l → puts w (write v) (enc v) tt ∧ zlen (enc v) = w) → 0 <= w → p + w * zlen l <= cap →
  tops (p + w * zlen l) cap next bs Q → tops p cap (write_all write l next) (concat (map enc l) ++ bs) Q.
Proof.
  revert p. induction l as [|v l IH]; intros p Hw Hw0 Hp Hk; cbn [write_all map concat].
  { change (zlen (@nil A)) with 0 in *. replace p with (p + w * 0) by lia. done. }
  rewrite zlen_cons in *. pose proof (zlen_nonneg l). rewrite <- app_assoc. destruct (Hw v) as [Hv Hz]; [by left|].
  eapply (tops_step _ _ w); [done|done|nia|]. apply IH; [intros v' Hin; apply Hw; by right|done|nia|].
  replace (p + w + w * zlen l) with (p + w * (1 + zlen l)) by lia. done.
Qed.
Lemma puts_word v : is_u16 v → puts 2 (Stream_Write_UINT16 v) (winpr_Data_Write_UINT16 v) tt.
Proof. intros Hv s Hs Hf. by apply run_Write_UINT16. Qed.
Lemma puts_quad v : puts 8 (Stream_Write_UINT64 v) (winpr_Data_Write_UINT64 v) tt.
Proof. intros s Hs Hf. apply run_stream_put; [done|done|apply write64_le_bytes]. Qed.
Lemma puts_byte v : is_byte v → puts 1 (Stream_Write_UINT8 v) [v] tt.
Proof. intros Hv s Hs Hf. by apply run_Write_UINT8. Qed.

Lemma tops_quads p cap keys :
  p + 8 * zlen keys <= cap →
  tops p cap (write_all Stream_Write_UINT64 keys TRUE) (concat (map winpr_Data_Write_UINT64 keys))
    (λ s', st_pointer s' = p + 8 * zlen keys ∧ st_capacity s' = cap).
Proof.
  intros Hp. rewrite <- (app_nil_r (concat _)). apply (tops_all _ _ 8); [intros v _; split; [apply puts_quad|done]|lia|lia|].
  intros s Hs Hc Hsp. exists s, 0. split; [done|]. split; [by apply wstep_refl|]. lia.
Qed.
Lemma tops_keys p keys :
  (∀ n, malloc_ok n = true) → 57 <= p <= 73 → zlen keys <= keyMaxFrag →
  tops p 4096 (TRY Stream_EnsureRemainingCapacity (zlen keys * 8); write_all Stream_Write_UINT64 keys TRUE) (concat (map winpr_Data_Write_UINT64 keys))
    (λ s', p = 73 → st_pointer s' + 6 <= st_capacity s').
Proof.
  intros Hm Hp Hk s Hs Hc Hsp. unfold keyMaxFrag in Hk. pose proof (zlen_nonneg keys).
  destruct (grow_step (zlen keys * 8) s Hs) as (s1 & E & W1 & F1); [lia|done|unfold SIZE_MAX; lia|].
  pose proof (grow_capacity (zlen keys * 8) s s1 Hs ltac:(unfold SIZE_MAX; lia) E) as Hg.
  assert (st_pointer s1 = p) as Hp1 by (destruct W1; change (zlen (@nil Z)) with 0 in *; lia).
  unfold fits in *.
  destruct (tops_quads p (st_capacity s1) keys ltac:(lia) s1) as (s' & c & E' & W' & Hc' & Hp' & Hcap); [by destruct W1|done|done|].
  exists s', (zlen keys * 8 + 128 + 0). split; [by erewrite bind_Ret by exact E|]. split; [|split; [lia|]].
  - apply (wstep_trans _ _ _ [] _ _ _ W1). destruct W'. split; [done..| |done]. lia.
  - intros ->. destruct Hg as [[-> Hf]|Hg]; [|lia]. lia.
Qed.
Lemma zlen_words l : zlen (words l) = 2 * zlen l.
Proof. induction l as [|v l IH]; [done|]. unfold words in *. cbn [map concat]. rewrite zlen_app, IH, zlen_cons. change (zlen (winpr_Data_Write_UINT16 v)) with 2. lia. Qed.
Lemma zlen_quads l : zlen (concat (map winpr_Data_Write_UINT64 l)) = 8 * zlen l.
Proof. induction l as [|v l IH]; [done|]. cbn [map concat]. rewrite zlen_app, IH, zlen_cons. change (zlen (winpr_Data_Write_UINT64 v)) with 8. lia. Qed.
Lemma bytes_concat_map {A} (enc : A → list Z) l : (∀ v, bytes (enc v)) → bytes (concat (map enc l)).
Proof. intros H. induction l; cbn [map concat]; [apply Forall_nil_2|apply Forall_app_2; [apply H|done]]. Qed.

Lemma fills_keys entries keys n :
  (∀ n, malloc_ok n = true) → Forall is_u16 entries → zlen entries = 5 → zlen keys <= keyMaxFrag → n = zlen keys →
  ∀ loaded, ztake n loaded = keys →
  fills (rdp_write_client_persistent_key_list_pdu (mkPersistent entries entries n loaded)) (keys_payload entries keys).
Proof.
  intros Hm He H5 Hk -> loaded Hl. assert (zlen (keys_payload entries keys) = 24 + 8 * zlen keys) as Hz.
  { unfold keys_payload. rewrite !zlen_app, !zlen_words, zlen_quads, H5. change (zlen [_]) with 1. change (zlen (winpr_Data_Write_UINT16 _)) with 2. lia. }
  unfold keyMaxFrag in Hk. pose proof (zlen_nonneg keys). split; [|split; [lia|]].
  { unfold keys_payload, words. repeat apply Forall_app_2; try apply Forall_nil_2; try apply write16_le_bytes; try (by apply Forall_singleton);
      apply bytes_concat_map; (apply write16_le_bytes || apply write64_le_bytes). }
  intros s Hs Hc Hp. unfold rdp_write_client_persistent_key_list_pdu. cbn [numEntriesCache totalEntriesCache keyCount keyList]. rewrite Hl.
  assert (tops (st_pointer s) 4096
    (write_all Stream_Write_UINT16 entries (write_all Stream_Write_UINT16 entries
      (Stream_Write_UINT8 (Z.lor PERSIST_FIRST_PDU PERSIST_LAST_PDU);; Stream_Write_UINT8 0;; Stream_Write_UINT16 0;;
       TRY Stream_EnsureRemainingCapacity (zlen keys * 8); write_all Stream_Write_UINT64 keys TRUE)))
    (keys_payload entries keys) (λ s', st_pointer s = 49 → st_pointer s' + 6 <= st_capacity s')) as Hw.
  { unfold keys_payload, words.
    do 2 (apply (tops_all _ _ 2); [intros v Hv; split; [apply puts_word; by apply (proj1 (list.Forall_forall _ _) He)|done]|lia|lia|]).
    rewrite H5. apply (tops_step _ _ 1 _ _ tt); [by apply puts_byte|done|lia|]. apply (tops_step _ _ 1 _ _ tt); [by apply puts_byte|done|lia|].
    apply (tops_step _ _ 2 _ _ tt); [by apply puts_word|done|lia|]. intros s' Hs' Hc' Hp'.
    destruct (tops_keys (st_pointer s + 24) keys) with (s := s') as (s2 & c & E & W2 & Hc2 & HQ); [done|lia|done|done|done|lia|].
    exists s2, c. split; [done|]. split; [done|]. split; [done|]. intros. apply HQ. lia. }
  destruct (Hw s Hs Hc eq_refl) as (s' & c & E & W1 & Hc1 & HQ). exists s', c. split; [|split; [done|split; [done|]]].
  - by erewrite bind_Ret by (apply ensure_fits; [done|lia|unfold fits; lia]).
  - intros H49. rewrite Hz. replace (fips_pad _) with 6; [by apply HQ|]. unfold fips_pad. div_mod_lia.
Qed.
End pdus.

(** * Reading them *)

Lemma reads_ret_end {A} (m : SM A) bs a : reads (x ← m; mret x) bs a → reads m bs a.
Proof.
  intros Hm s tl Hs Hr. specialize (Hm s tl Hs Hr). unfold mbind, SM_bind in Hm. by destruct (m s) as [[]|].
Qed.
Lemma reads_sync user : is_u16 user → reads rdp_recv_sync_pdu (sync_payload user) (Some tt).
Proof.
  intros Hu. unfold rdp_recv_sync_pdu, sync_payload. change (Stream_CheckAndLogRequiredLengthEx 4 1) with (Stream_CheckAndLogRequiredLength 4).
  apply reads_check; [done|]. apply reads_step_UINT16; [done|]. apply reads_nil_r, reads_step_UINT16; [done|apply reads_ret].
Qed.
Lemma reads_control action grant control :
  is_u16 action → is_u16 grant → is_u32 control →
  reads rdp_recv_control_pdu (control_payload action grant control) (Some (action, grant, control)).
Proof.
  intros Ha Hg Hc. unfold rdp_recv_control_pdu, control_payload. apply reads_check; [done|].
  do 2 (apply reads_step_UINT16; [done|]). apply reads_nil_r, reads_step_UINT32; [done|apply reads_ret].
Qed.
Lemma reads_fonts flags size : reads rdp_recv_client_font_list_pdu (fonts_payload flags size) (Some tt).
Proof.
  unfold rdp_recv_client_font_list_pdu. apply reads_check; [done|].
  apply reads_ret_end, reads_nil_r, reads_SafeSeek; [done|apply reads_ret].
Qed.
Definition sum_all (l : list Z) : Z := foldr Z.add 0 l.
Lemma reads_total l : Forall is_u16 l → reads (read_sum (length l)) (words l) (sum_all l).
Proof.
  induction 1 as [|v l Hv _ IH]; unfold words; cbn [length read_sum map concat sum_all foldr]; [apply reads_ret|].
  apply reads_step_UINT16; [done|]. apply reads_nil_r. eapply reads_bind; [exact IH|apply reads_ret].
Qed.
Lemma reads_keys entries keys :
  Forall is_u16 entries → length entries = 5%nat → sum_all entries = zlen keys → zlen keys <= keyMaxFrag →
  reads rdp_recv_client_persistent_key_list_pdu (keys_payload entries keys) (Some tt).
Proof.
  intros He H5 Ht Hk. unfold rdp_recv_client_persistent_key_list_pdu, keys_payload, keyMaxFrag in *. pose proof (zlen_nonneg keys).
  apply reads_check.
  { rewrite !zlen_app, !zlen_words, zlen_quads. unfold zlen at 1 2. rewrite H5. change (zlen [_]) with 1. change (zlen (winpr_Data_Write_UINT16 _)) with 2. lia. }
  pose proof (reads_total entries He) as Hr. rewrite H5 in Hr. eapply reads_bind; [exact Hr|]. eapply reads_bind; [exact Hr|].
  destruct (Z.gtb_spec (sum_all entries) 262144); [lia|]. apply reads_step_UINT8. cbn [negb Z.eqb].
  change (negb _) with false. cbv iota. rewrite (app_assoc [0]). apply reads_SafeSeek; [done|].
  apply reads_ret_end, reads_nil_r, reads_SafeSeek; [rewrite zlen_quads; lia|apply reads_ret].
Qed.

(** ** The keys are shared out *)

Lemma share_out_length n totals : length (share_out n totals) = length totals.
Proof. revert n. induction totals; cbn; auto. Qed.
Lemma share_out_total n totals :
  0 <= n <= UINT16_MAX → Forall is_u16 totals → Forall is_u16 (share_out n totals) ∧ 0 <= sum_all (share_out n totals) <= n.
Proof.
  intros Hn Ht. revert n Hn. induction Ht as [|v l Hv _ IH]; intros n Hn; cbn [share_out sum_all foldr]; [split; [apply Forall_nil_2|lia]|].
  unfold is_u16 in *. destruct (IH (n - Z.min n v) ltac:(lia)) as [H1 H2]. unfold sum_all in H2. split; [apply Forall_cons_2; [lia|done]|lia].
Qed.

(** * One end sends *)

(** A transport that takes every packet, and watchers of the state that consent and send nothing;
    [sent] are the packets. *)
Record quiet {D} (W : watchers D) (transport_write : list Z → D → bool * D) (sent : D → list (list Z)) : Prop := {
  q_changed : ∀ old new d, sent (OnStateChanged W old new d) = sent d;
  q_activated : ∀ b d, ∃ d', OnActivated W b d = (true, d') ∧ sent d' = sent d;
  q_state : ∀ st b d, ∃ d', OnConnectionStateChange W st b d = (true, d') ∧ sent d' = sent d;
  q_reset : ∀ d, sent (update_reset_state W d) = sent d;
  q_write : ∀ p d, ∃ d', transport_write p d = (true, d') ∧ sent d' = sent d ++ [p];
}.

Section sending.
Context {HM : Malloc} {HD : Digests} {HC : Cipher} {HDL : DigestLaws} {HCL : CipherLaws} {D : Type}.
Context (W : watchers D) (c : end_settings) (transport_write : list Z → D → bool * D) (sent : D → list (list Z)).
Context (Hq : quiet W transport_write sent).

Lemma quiet_transition st (e : endpoint D) :
  ∃ d', rdp_client_transition_to_state W st e = (true, set_data d' (set_state st e)) ∧ sent d' = sent (e_data e).
Proof.
  destruct e as [r f m st0 a cn rf wd h w sh ps d]. unfold rdp_client_transition_to_state, rdp_set_state. cbn [e_state e_data set_data set_state].
  assert (∀ d1, sent d1 = sent d → ∃ d', (let '(ok, d2) := OnConnectionStateChange W st (rdp_is_active_client_state st) d1 in
    (ok, mkEndpoint r f m st a cn rf wd h w sh ps d2)) = (true, mkEndpoint r f m st a cn rf wd h w sh ps d') ∧ sent d' = sent d) as Hend.
  { intros d1 Hd1. destruct (q_state _ _ _ Hq st (rdp_is_active_client_state st) d1) as (d' & -> & Hd'). exists d'. by rewrite Hd', Hd1. }
  destruct st; cbn [negb e_state e_data set_data]; try (apply Hend; by rewrite ?(q_reset _ _ _ Hq), (q_changed _ _ _ Hq)).
  destruct (q_activated _ _ _ Hq (negb (rdp_finalize_is_flag_set FINALIZE_DEACTIVATE_REACTIVATE
    (mkEndpoint r f m CONNECTION_STATE_CAPABILITIES_EXCHANGE_CONFIRM_ACTIVE a cn rf wd h w sh ps
      (OnStateChanged W st0 CONNECTION_STATE_CAPABILITIES_EXCHANGE_CONFIRM_ACTIVE d))))
    (OnStateChanged W st0 CONNECTION_STATE_CAPABILITIES_EXCHANGE_CONFIRM_ACTIVE d)) as (d1 & -> & Hd1). cbn [negb e_state e_data set_data].
  apply Hend. by rewrite Hd1, (q_changed _ _ _ Hq).
Qed.
Lemma send_data_run type write payload r2 (e : endpoint D) :
  crypto_available → (es_do_crypt c = true → sec_sync (e_rdp e) r2) → fills write payload →
  MCS_BASE_CHANNEL_ID <= es_userId c <= UINT16_MAX → is_byte type → is_u32 (e_ShareId e) →
  ∃ r' wire d', send_data c transport_write type write e = Ret (true, set_data d' (set_rdp r' e)) ∧
    sent d' = sent (e_data e) ++ [unit_packet (ServerMode (e_rdp e)) (es_userId c) MCS_GLOBAL_CHANNEL_ID wire] ∧
    secured (e_rdp e) (data_flags (es_do_crypt c) (es_do_secure_checksum c)) (data_pdu payload type (e_ShareId e) (es_userId c)) wire r' ∧
    zlen wire < 32768 ∧ bytes wire.
Proof.
  intros Hav Hs Hf Hu Ht Hi.
  destruct (run_data_pdu (e_rdp e) r2 (es_do_crypt c) (es_do_secure_checksum c) write payload (es_userId c) (e_ShareId e) type)
    as (s & s1 & r' & s' & wire & E0 & E1 & E2 & Hpkt & Hsec & Hz & Hb); [done..|].
  destruct (q_write _ _ _ Hq (unit_packet (ServerMode (e_rdp e)) (es_userId c) MCS_GLOBAL_CHANNEL_ID wire) (e_data e)) as (d' & Ew & Hd').
  exists r', wire, d'. split; [|done]. unfold send_data. rewrite E0. cbn [mbind outcome_bind]. erewrite bind_Ret by exact E1. cbv iota.
  rewrite E2. unfold hand_over. rewrite Hpkt. destruct e as [r f m st a cn rf wd h w sh ps d]. cbn [e_data set_rdp e_rdp] in *. by rewrite Ew.
Qed.
End sending.

(** * Flags and keys on the way *)

Lemma flag_set_lor F flag flag' : Z.land F flag = flag → Z.land (Z.lor F flag') flag = flag.
Proof. intros H. rewrite Z.land_lor_distr_l, H. apply Z.bits_inj'. intros n Hn. rewrite Z.lor_spec, Z.land_spec. by destruct (Z.testbit flag n), (Z.testbit flag' n). Qed.
Lemma flag_set_new F flag : Z.land (Z.lor F flag) flag = flag.
Proof. apply Z.bits_inj'. intros n Hn. rewrite Z.land_spec, Z.lor_spec. by destruct (Z.testbit flag n), (Z.testbit F n). Qed.

(** A packet with a PDU, in the security of the end that sends it. *)
Definition carries {HM : Malloc} {HD : Digests} {HC : Cipher} (c : end_settings) (r : rdpRdp) (pdu pkt : list Z) (r' : rdpRdp) : Prop :=
  ∃ wire, pkt = unit_packet (ServerMode r) (es_userId c) MCS_GLOBAL_CHANNEL_ID wire ∧
    secured r (data_flags (es_do_crypt c) (es_do_secure_checksum c)) pdu wire r'.
(** Someone could read what is encrypted here; what is under way is not read yet. *)
Definition can_send {HC : Cipher} {HCL : CipherLaws} (r : rdpRdp) : Prop := ∃ r', sec_sync r r'.
Section can_send.
Context {HM : Malloc} {HD : Digests} {HC : Cipher} {HDL : DigestLaws} {HCL : CipherLaws}.
Lemma can_send_decrypt r r' : can_send r → only_decrypt r r' → can_send r'.
Proof. intros [r2 Hs] ->. exists r2. destruct Hs as [Hss Hd]. split; [|done]. destruct Hss. by split. Qed.
Lemma sync_encrypt r1 r2 r2' : sec_sync r1 r2 → only_encrypt r2 r2' → sec_sync r1 r2'.
Proof. intros [Hss Hd] ->. split; [|done]. destruct Hss. by split. Qed.
Lemma can_send_secured r ck body wire r' :
  can_send r → bytes body → 0 < zlen body → zlen wire < 32768 → bytes wire → secured r (data_flags true ck) body wire r' → can_send r'.
Proof.
  intros [r2 Hss] Hbb Hbp Hz Hwb Hsec. destruct (data_flags_ok true ck) as (Hf & _ & He & H0). set (flags := data_flags true ck) in *.
  pose proof (secured_length r r2 flags body wire r' (λ _, Hss) Hbb Hsec) as Hlen. apply Z.eqb_neq in H0.
  assert (∃ w, wire = sec_header flags ++ w) as [w ->] by (inversion Hsec; [done|by eexists..]).
  rewrite zlen_app in *. change (zlen (sec_header flags)) with 4 in *. pose proof (zlen_nonneg w). apply Forall_app in Hwb as [_ Hwb].
  destruct (run_rdp_decrypt r r2 r' flags body w (stream_of w)) as ([o r2'] & s2 & E2 & Ho & Hss' & _);
    [done|done|done|unfold UINT16_MAX; lia|done|apply stream_of_readable; [unfold SIZE_MAX; lia|done]|apply remaining_stream_of|]. by exists r2'.
Qed.
End can_send.
