(* ===== verification/ActivationSession.v ===== *)
(** The finalization of a connection: what the client sends takes the server through its states
    to the active one. *)

From S2P Require Import Prelude Stream StreamLogic Transmission Per Framing Rc4 Security SecurityCorrect Mcs RdpPdu RdpPduCorrect RdpPduSafe RdpSession Bulk FastPath FastPathSession Region Input InputCorrect InputSafe Activation Peer PeerCorrect PeerSession ActivationCorrect.
From stdpp Require Import prelude list numbers.
From Stdlib Require Import ZArith Lia.

#[local] Open Scope Z_scope.

(** An application that lets the connection proceed and sends nothing of its own. *)
Record hosting {HC : Cipher} {D} (P : peer_calls (D := D)) (sent : D → list (list Z)) : Prop := {
  h_disconnect : ∀ d, shall_disconnect P d = false;
  h_consents : consents P;
  h_connect : ∀ e, ∃ d', IFCALLRET (PostConnect P) false e = (true, set_data d' e) ∧ sent d' = sent (e_data e);
  h_activate : ∀ e, ∃ d', IFCALLRET (Activate P) true e = (true, set_data d' e) ∧ sent d' = sent (e_data e);
}.

(** * The PDUs of one end *)

(** Packets with these PDUs, sealed one after the other, and others read in between. *)
Inductive sealed {HM : Malloc} {HD : Digests} {HC : Cipher} (c : end_settings) : rdpRdp → list (list Z) → list (list Z) → rdpRdp → Prop :=
  | sealed_nil r : sealed c r [] [] r
  | sealed_recv r r1 r' pdus pkts : only_decrypt r r1 → sealed c r1 pdus pkts r' → sealed c r pdus pkts r'
  | sealed_send r r1 r' pdu pkt pdus pkts : carries c r pdu pkt r1 → sealed c r1 pdus pkts r' → sealed c r (pdu :: pdus) (pkt :: pkts) r'.
Lemma sealed_app {HM : Malloc} {HD : Digests} {HC : Cipher} c r pdus pkts r1 pdus' pkts' r' :
  sealed c r pdus pkts r1 → sealed c r1 pdus' pkts' r' → sealed c r (pdus ++ pdus') (pkts ++ pkts') r'.
Proof. intros H H'. induction H; [done|eapply sealed_recv; eauto|eapply sealed_send; eauto]. Qed.

(** How far the server is: its state, its flags and the PDUs it has sent. *)
Record progress : Type := mkProgress { at_state : CONNECTION_STATE; at_flags : Z; at_pdus : list (list Z) }.
Definition go (st : CONNECTION_STATE) (g : progress) : progress := mkProgress st (at_flags g) (at_pdus g).
Definition flagged (flag : Z) (g : progress) : progress := mkProgress (at_state g) (Z.lor (at_flags g) flag) (at_pdus g).
Definition also_sent (pdu : list Z) (g : progress) : progress := mkProgress (at_state g) (at_flags g) (at_pdus g ++ [pdu]).

Section finalization.
Context {HM : Malloc} {HD : Digests} {HC : Cipher} {HDL : DigestLaws} {HCL : CipherLaws} {D1 D2 : Type} {ncrush xcrush : Codec}.
Context (W1 : watchers D1) (c1 : end_settings) (write1 : list Z → D1 → bool * D1) (sent1 : D1 → list (list Z)).
Context (P : peer_calls (D := D2)) (W2 : watchers D2) (c2 : peer_settings) (write2 : list Z → D2 → bool * D2) (sent2 : D2 → list (list Z)).
Context (fuel : nat) (f : rdpFastPath ncrush xcrush).
Context (Hav : crypto_available) (Hq1 : quiet W1 write1 sent1) (Hq2 : quiet W2 write2 sent2) (Hh : hosting P sent2).
Context (Hcrypt : ps_UseRdpSecurityLayer c2 = es_do_crypt c1) (Hcrypt2 : es_do_crypt (ps_end c2) = es_do_crypt c1).
Context (Hu1 : MCS_BASE_CHANNEL_ID <= es_userId c1 <= UINT16_MAX) (Hu2 : MCS_BASE_CHANNEL_ID <= es_userId (ps_end c2) <= UINT16_MAX).

(** * The server sends *)

Definition still_activated (e : endpoint D2) : bool :=
  if negb (rdp_is_active_peer_state (e_state e)) && negb (before_security_commencement (e_state e)) then false else e_activated e.
Lemma quiet_server st (e : endpoint D2) :
  ∃ d', rdp_server_transition_to_state W2 st e = (true, set_activated (still_activated e) (set_data d' (set_state st e))) ∧ sent2 d' = sent2 (e_data e).
Proof.
  destruct e as [r f0 m st0 a cn rf wd h w sh ps d]. unfold rdp_server_transition_to_state, rdp_set_state, still_activated. cbn [e_state].
  destruct (negb (rdp_is_active_peer_state st0) && negb (before_security_commencement st0));
    exists (OnStateChanged W2 st0 st d); (split; [done|apply (q_changed _ _ _ Hq2)]).
Qed.
Definition server_pdu (payload : list Z) (type shareId : Z) : list Z := data_pdu payload type shareId (es_userId (ps_end c2)).
Lemma server_send type write payload (e : endpoint D2) :
  (es_do_crypt c1 = true → can_send (e_rdp e)) → fills write payload → is_byte type → is_u32 (e_ShareId e) →
  ∃ r' d' pkt, send_data (ps_end c2) write2 type write e = Ret (true, set_data d' (set_rdp r' e)) ∧ sent2 d' = sent2 (e_data e) ++ [pkt] ∧
    carries (ps_end c2) (e_rdp e) (server_pdu payload type (e_ShareId e)) pkt r' ∧ only_encrypt (e_rdp e) r' ∧ (es_do_crypt c1 = true → can_send r').
Proof.
  intros Hs Hf Ht Hi. pose proof Hf as (Hb & Hz & _).
  assert (∃ r, es_do_crypt (ps_end c2) = true → sec_sync (e_rdp e) r) as [r Hr].
  { rewrite Hcrypt2. destruct (es_do_crypt c1); [|by exists (e_rdp e)]. destruct (Hs eq_refl) as [r Hr]. by exists r. }
  destruct (send_data_run W2 (ps_end c2) write2 sent2 Hq2 type write payload r e) as (r' & wire & d' & E & Hd & Hsec & Hzw & Hwb); [done..|].
  exists r', d', (unit_packet (ServerMode (e_rdp e)) (es_userId (ps_end c2)) MCS_GLOBAL_CHANNEL_ID wire).
  split; [done|]. split; [done|]. split; [by exists wire|]. split; [by eapply secured_frame|].
  intros Hc. rewrite Hcrypt2, Hc in Hsec. eapply can_send_secured; [by apply Hs| | |done|done|exact Hsec].
  - unfold data_pdu. rewrite app_assoc. apply Forall_app_2; [by apply share_headers_bytes|done].
  - unfold data_pdu. rewrite app_assoc, zlen_app. change (zlen (_ ++ _)) with 18. pose proof (zlen_nonneg payload). lia.
Qed.

(** * Client and server *)

(** The server was [base] before the finalization; [FC] are the flags of the client. *)
Record stage (FC : Z) (base : endpoint D2) (g : progress) (e1 : endpoint D1) (e2 : endpoint D2) : Prop := {
  sg_client : ServerMode (e_rdp e1) = false; sg_server : ServerMode (e_rdp e2) = true;
  sg_sync : es_do_crypt c1 = true → sec_sync (e_rdp e1) (e_rdp e2) ∧ can_send (e_rdp e2);
  sg_source : is_u16 (e_PduSource e1); sg_share : is_u32 (e_ShareId e1); sg_share2 : is_u32 (e_ShareId base);
  sg_reactivation : e_finalize e1 = FC;
  sg_state : e_state e2 = at_state g; sg_flags : e_finalize e2 = at_flags g; sg_id : e_ShareId e2 = e_ShareId base;
  sg_out : ∃ out, sent2 (e_data e2) = sent2 (e_data base) ++ out ∧ sealed (ps_end c2) (e_rdp base) (at_pdus g) out (e_rdp e2);
}.
Lemma stage_enter FC base g st e1 e2 :
  stage FC base g e1 e2 →
  ∃ e2', rdp_server_transition_to_state W2 st e2 = (true, e2') ∧ stage FC base (go st g) e1 e2' ∧ e_activated e2' = still_activated e2 ∧
    e_connected e2' = e_connected e2 ∧ e_PduSource e2' = e_PduSource e2.
Proof.
  intros []. destruct (quiet_server st e2) as (d' & E & Hd). eexists. split; [exact E|]. destruct e2; cbn in *.
  split; [|done]. split; cbn; try done. by rewrite Hd.
Qed.
Lemma stage_send FC base g type write payload e1 e2 :
  stage FC base g e1 e2 → fills write payload → is_byte type →
  ∃ e2', send_data (ps_end c2) write2 type write e2 = Ret (true, e2') ∧ stage FC base (also_sent (server_pdu payload type (e_ShareId base)) g) e1 e2' ∧
    e_activated e2' = e_activated e2 ∧ e_connected e2' = e_connected e2.
Proof.
  intros [] Hf Ht. destruct sg_out0 as (out & Hout & Hsealed).
  destruct (server_send type write payload e2) as (r' & d' & pkt & E & Hd & Hc & Ho & Hcs); [intros; by apply sg_sync0|done|done|by rewrite sg_id0|].
  eexists. split; [exact E|]. rewrite sg_id0 in Hc. destruct e2; cbn in *. split; [|done]. split; cbn; try done.
  - by rewrite Ho.
  - intros Hcr. split; [|by apply Hcs]. eapply sync_encrypt; [by apply sg_sync0|done].
  - exists (out ++ [pkt]). rewrite Hd, Hout, app_assoc. split; [done|]. eapply sealed_app; [exact Hsealed|]. eapply sealed_send; [exact Hc|apply sealed_nil].
Qed.

Definition sync_pdu (base : endpoint D2) : list Z := server_pdu (sync_payload (e_PduSource base)) DATA_PDU_TYPE_SYNCHRONIZE (e_ShareId base).
Definition cooperate_pdu (base : endpoint D2) : list Z := server_pdu (control_payload CTRLACTION_COOPERATE 0 0) DATA_PDU_TYPE_CONTROL (e_ShareId base).
Definition granted_pdu (base : endpoint D2) : list Z :=
  server_pdu (control_payload CTRLACTION_GRANTED_CONTROL (es_userId (ps_end c2)) 0x03EA) DATA_PDU_TYPE_CONTROL (e_ShareId base).
Definition fonts_flags : Z := Z.lor FONTLIST_FIRST FONTLIST_LAST.
Definition font_map_pdu (base : endpoint D2) : list Z := server_pdu (fonts_payload fonts_flags 4) DATA_PDU_TYPE_FONT_MAP (e_ShareId base).

(** The server begins. *)
Lemma server_sync FC st F e1 e2 :
  stage FC e2 (mkProgress st F []) e1 e2 → is_u16 (e_PduSource e2) →
  ∃ e2', rdp_server_send_sync W2 (ps_end c2) write2 e2 = Ret (true, e2') ∧
    stage FC e2 (mkProgress CONNECTION_STATE_FINALIZATION_SYNC (Z.land F FINALIZE_DEACTIVATE_REACTIVATE) [sync_pdu e2; cooperate_pdu e2]) e1 e2'.
Proof.
  intros Hs Hp. unfold rdp_server_send_sync.
  destruct (stage_enter _ _ _ CONNECTION_STATE_FINALIZATION_CLIENT_SYNC _ _ Hs) as (ea & Ea & Hsa & _ & _ & Hpa). rewrite Ea. unfold also at 1. cbn [negb].
  unfold rdp_send_server_synchronize_pdu. rewrite Hpa.
  destruct (stage_send _ _ _ DATA_PDU_TYPE_SYNCHRONIZE _ _ _ _ Hsa (fills_sync _ Hp) ltac:(done)) as (eb & Eb & Hsb & _).
  rewrite Eb. unfold then_also at 1, also at 1. cbn [mbind outcome_bind negb].
  destruct (stage_enter _ _ _ CONNECTION_STATE_FINALIZATION_CLIENT_COOPERATE _ _ Hsb) as (ec & Ec & Hsc & _). rewrite Ec. unfold also at 1. cbn [negb].
  destruct (stage_send _ _ _ DATA_PDU_TYPE_CONTROL (rdp_write_client_control_pdu CTRLACTION_COOPERATE 0 0) (control_payload CTRLACTION_COOPERATE 0 0) _ _ Hsc)
    as (ed & Ed & Hsd & _); [by apply fills_control|done|]. unfold then_also.
  change (rdp_send_server_control_cooperate_pdu (ps_end c2) write2 ec) with
    (send_data (ps_end c2) write2 DATA_PDU_TYPE_CONTROL (rdp_write_client_control_pdu CTRLACTION_COOPERATE 0 0) ec).
  rewrite Ed. cbn [mbind outcome_bind]. unfold also. cbn [negb]. unfold rdp_finalize_reset_flags, rdp_set_monitor_layout_pdu_state. cbn [andb negb].
  set (ee := set_monitor_layout false _).
  assert (stage FC e2 (mkProgress CONNECTION_STATE_FINALIZATION_CLIENT_COOPERATE (Z.land F FINALIZE_DEACTIVATE_REACTIVATE) [sync_pdu e2; cooperate_pdu e2]) e1 ee)
    as Hse. { destruct Hsd. unfold ee. destruct ed; cbn in *. split; cbn; try done. by rewrite sg_flags0. }
  destruct (stage_enter _ _ _ CONNECTION_STATE_FINALIZATION_SYNC _ _ Hse) as (ef & Ef & Hsf & _). exists ef. by rewrite Ef.
Qed.

(** A data PDU of the client and what the server does with it. *)
Lemma pdu_received FC base g type write payload e1 e2 :
  stage FC base g e1 e2 → up_to_licensing (at_state g) = false → fills write payload → is_byte type →
  ∃ r1' pkt d1 r2', send_data c1 write1 type write e1 = Ret (true, set_data d1 (set_rdp r1' e1)) ∧ sent1 d1 = sent1 (e_data e1) ++ [pkt] ∧
    stage FC base g (set_data d1 (set_rdp r1' e1)) (set_PduSource (es_userId c1) (set_rdp r2' e2)) ∧ readable (stream_of pkt) ∧
    ∀ rc e2', reads (dispatch_data_pdu P W2 c2 write2 type (set_PduSource (es_userId c1) (set_rdp r2' e2))) payload (rc, e2') →
    ∃ s', peer_recv_pdu P W2 c2 write2 f e2 (stream_of pkt) = Ret ((rc, f, e2'), s') ∧ readable s'.
Proof.
  intros [] Hlic Hf Ht. destruct (send_data_run W1 c1 write1 sent1 Hq1 type write payload (e_rdp e2) e1) as (r1' & wire & d1 & E & Hd & Hsec & Hz & Hb);
    [done|intros; by apply sg_sync0|done|done|done|done|]. rewrite sg_client0 in Hd.
  pose proof Hf as (Hpb & Hpz & _). rewrite <- Hcrypt in Hsec, sg_sync0.
  destruct (data_pdu_received (ncrush := ncrush) (xcrush := xcrush) P W2 c2 write2 (e_rdp e1) r1' e2 (es_do_secure_checksum c1) payload wire
    (es_userId c1) type (e_ShareId e1)) as (r2' & Hm2 & Hss & Hod & Hrecv);
    [intros; by apply sg_sync0|done..|by rewrite sg_client0, sg_server0|done|done|done|split; [by rewrite sg_state0|apply (h_disconnect _ _ Hh)]|].
  rewrite sg_client0 in Hrecv. exists r1', (unit_packet false (es_userId c1) MCS_GLOBAL_CHANNEL_ID wire), d1, r2'. split; [done|]. split; [done|].
  split; [|split; [|intros rc e2' Hr; by apply Hrecv]].
  - pose proof (secured_frame _ _ _ _ _ Hsec) as Hfr. rewrite Hcrypt in sg_sync0, Hss. destruct sg_out0 as (out & Hout & Hsealed).
    destruct e1, e2; cbn in *; split; cbn; try done.
    + by rewrite Hfr.
    + congruence.
    + intros Hc. split; [by apply Hss|]. eapply can_send_decrypt; [by apply sg_sync0|done].
    + exists out. split; [done|]. rewrite <- (app_nil_r (at_pdus g)), <- (app_nil_r out). eapply sealed_app; [exact Hsealed|].
      eapply sealed_recv; [exact Hod|apply sealed_nil].
  - apply stream_of_readable; unfold unit_packet; [rewrite zlen_app; change (zlen (unit_header _ _ _ _ _)) with 15; unfold SIZE_MAX; lia|].
    apply Forall_app_2; [apply unit_header_bytes|done].
Qed.

(** What the client does brings the server from [g] to [g']. *)
Definition leads (FC : Z) (base : endpoint D2) (g : progress) (m : endpoint D1 → end_step (D := D1)) (g' : progress) : Prop :=
  ∀ e1 e2, stage FC base g e1 e2 →
  ∃ e1' pkts e2', m e1 = Ret (true, e1') ∧ sent1 (e_data e1') = sent1 (e_data e1) ++ pkts ∧
    recv_peer_packets P W2 c2 write2 (S (S (S fuel))) pkts f e2 = Ret (Some (STATE_RUN_SUCCESS, f, e2')) ∧ stage FC base g' e1' e2'.
Lemma leads_then FC base g g' g'' m k : leads FC base g m g' → leads FC base g' k g'' → leads FC base g (λ e, then_also (m e) k) g''.
Proof.
  intros Hm Hk e1 e2 Hs. destruct (Hm e1 e2 Hs) as (e1a & p1 & e2a & E1 & Hp1 & R1 & Hs1).
  destruct (Hk e1a e2a Hs1) as (e1' & p2 & e2' & E2 & Hp2 & R2 & Hs2). exists e1', (p1 ++ p2), e2'.
  split; [unfold then_also; rewrite E1; exact E2|]. split; [by rewrite Hp2, Hp1, app_assoc|]. split; [|done].
  by erewrite recv_peer_packets_app by exact R1.
Qed.
Lemma leads_transition FC base g st : leads FC base g (λ e, Ret (rdp_client_transition_to_state W1 st e)) g.
Proof.
  intros e1 e2 Hs. destruct (quiet_transition W1 write1 sent1 Hq1 st e1) as (d' & -> & Hd'). eexists _, [], e2. split; [done|].
  destruct e1, Hs; cbn in *. rewrite app_nil_r. by split_and!.
Qed.
Lemma leads_also FC base g g' st k : leads FC base g k g' → leads FC base g (λ e, also (rdp_client_transition_to_state W1 st e) k) g'.
Proof. intros Hk. exact (leads_then FC base g g g' _ k (leads_transition FC base g st) Hk). Qed.

(** A PDU that the server keeps a flag for, in the state that waits for it. *)
Lemma leads_pdu FC base g type write payload flag next g' :
  up_to_licensing (at_state g) = false → is_byte type → (∀ e, is_u16 (e_PduSource e) → fills (write e) (payload e)) →
  (∀ e e2, is_u16 (e_PduSource e) → e_finalize e2 = at_flags g →
    reads (dispatch_data_pdu P W2 c2 write2 type e2) (payload e) (STATE_RUN_SUCCESS, rdp_finalize_set_flag flag e2)) →
  (∀ e, e_state e = at_state g → e_finalize e = at_flags g →
    peer_recv_callback_internal P W2 c2 write2 f e = (r ← peer_recv_pdu P W2 c2 write2 f e; lift (advance_on flag next r))) →
  (∀ e1 e2, stage FC base (flagged flag g) e1 e2 → ∃ e2', next e2 = Ret (true, e2') ∧ stage FC base g' e1 e2') →
  leads FC base g (λ e, send_data c1 write1 type (write e) e) g'.
Proof.
  intros Hlic Ht Hw Hr Hint Hnext e1 e2 Hs. pose proof (sg_source _ _ _ _ _ Hs) as Hsrc.
  destruct (pdu_received FC base g type (write e1) (payload e1) e1 e2 Hs Hlic (Hw e1 Hsrc) Ht) as (r1' & pkt & d1 & r2' & E & Hd & Hs' & Hrs & Hrecv).
  set (ea := set_PduSource _ _) in *. destruct (Hrecv _ _ (Hr e1 ea Hsrc (sg_flags _ _ _ _ _ Hs'))) as (s' & E2 & Hs'r).
  destruct (Hnext (set_data d1 (set_rdp r1' e1)) (rdp_finalize_set_flag flag ea)) as (e2' & E3 & Hs'').
  { unfold rdp_finalize_set_flag. rewrite (sg_flags _ _ _ _ _ Hs'). destruct Hs'. unfold ea in *. destruct e2; cbn in *. by split. }
  eexists _, [pkt], e2'. split; [exact E|]. split; [by destruct e1|]. split; [|exact Hs'']. cbn [recv_peer_packets].
  rewrite run_callback by done. rewrite (run_states_stop P W2 c2 write2 _ _ _ f f e2 STATE_RUN_SUCCESS e2' _ s'); [done| |exact Hs'r|done|done].
  rewrite Hint by apply Hs. erewrite bind_Ret by exact E2. unfold lift, advance_on, rdp_finalize_is_flag_set.
  replace (Z.land (e_finalize (rdp_finalize_set_flag flag ea)) flag) with flag by (unfold ea; destruct e2; cbn; by rewrite flag_set_new).
  rewrite Z.eqb_refl, E3. done.
Qed.

(** ** The PDUs of the client *)

Lemma stage_flagged_enter FC base g st e1 e2 :
  stage FC base g e1 e2 → ∃ e2', enter W2 st e2 = Ret (true, e2') ∧ stage FC base (go st g) e1 e2'.
Proof. intros Hs. destruct (stage_enter FC base g st e1 e2 Hs) as (e2' & E & Hs' & _). exists e2'. unfold enter. by rewrite E. Qed.
Lemma leads_sync FC base F pdus :
  leads FC base (mkProgress CONNECTION_STATE_FINALIZATION_SYNC F pdus) (rdp_send_client_synchronize_pdu c1 write1)
    (mkProgress CONNECTION_STATE_FINALIZATION_COOPERATE (Z.lor F FINALIZE_CS_SYNCHRONIZE_PDU) pdus).
Proof.
  eapply (leads_pdu FC base _ DATA_PDU_TYPE_SYNCHRONIZE (λ e, rdp_write_synchronize_pdu (e_PduSource e)) (λ e, sync_payload (e_PduSource e)));
    [done|done|intros; by apply fills_sync| | |].
  - intros e e2 Hu _. apply (reads_status STATE_RUN_SUCCESS). apply reads_nil_r. eapply reads_bind; [by apply reads_sync|apply reads_ret].
  - intros e Hst _. unfold peer_recv_callback_internal. rewrite (h_consents _ _ Hh). cbn [negb]. by rewrite Hst.
  - intros e1 e2 Hs. exact (stage_flagged_enter _ _ _ CONNECTION_STATE_FINALIZATION_COOPERATE _ _ Hs).
Qed.
Lemma reads_accept_control (F action flag : Z) (e2 : endpoint D2) :
  action = CTRLACTION_COOPERATE ∧ flag = FINALIZE_CS_CONTROL_COOPERATE_PDU ∧ Z.land F FINALIZE_CS_SYNCHRONIZE_PDU = FINALIZE_CS_SYNCHRONIZE_PDU ∨
  action = CTRLACTION_REQUEST_CONTROL ∧ flag = FINALIZE_CS_CONTROL_REQUEST_PDU ∧
    Z.land F FINALIZE_CS_CONTROL_COOPERATE_PDU = FINALIZE_CS_CONTROL_COOPERATE_PDU →
  e_finalize e2 = F →
  reads (dispatch_data_pdu P W2 c2 write2 DATA_PDU_TYPE_CONTROL e2) (control_payload action 0 0) (STATE_RUN_SUCCESS, rdp_finalize_set_flag flag e2).
Proof.
  intros Ha HF. assert (is_u16 action) as Hu by (by destruct Ha as [(-> & _)|(-> & _)]).
  apply (reads_status STATE_RUN_SUCCESS). unfold rdp_server_accept_client_control_pdu.
  apply reads_nil_r. eapply reads_bind; [by apply reads_control|]. cbv beta iota.
  destruct Ha as [(-> & -> & Hf)|(-> & -> & Hf)]; cbn [Z.eqb]; unfold rdp_finalize_is_flag_set; rewrite HF, Hf, Z.eqb_refl; apply reads_ret.
Qed.
Lemma leads_cooperate FC base F pdus :
  Z.land F FINALIZE_CS_SYNCHRONIZE_PDU = FINALIZE_CS_SYNCHRONIZE_PDU →
  leads FC base (mkProgress CONNECTION_STATE_FINALIZATION_COOPERATE F pdus) (rdp_send_client_control_pdu c1 write1 CTRLACTION_COOPERATE)
    (mkProgress CONNECTION_STATE_FINALIZATION_REQUEST_CONTROL (Z.lor F FINALIZE_CS_CONTROL_COOPERATE_PDU) pdus).
Proof.
  intros Hf. eapply (leads_pdu FC base _ DATA_PDU_TYPE_CONTROL (λ _, rdp_write_client_control_pdu CTRLACTION_COOPERATE 0 0)
    (λ _, control_payload CTRLACTION_COOPERATE 0 0)); [done|done|intros; by apply fills_control| | |].
  - intros e e2 _ HF. apply (reads_accept_control F); [by left|done].
  - intros e Hst _. unfold peer_recv_callback_internal. rewrite (h_consents _ _ Hh). cbn [negb]. by rewrite Hst.
  - intros e1 e2 Hs. exact (stage_flagged_enter _ _ _ CONNECTION_STATE_FINALIZATION_REQUEST_CONTROL _ _ Hs).
Qed.
Lemma leads_request FC base F pdus :
  Z.land F FINALIZE_CS_CONTROL_COOPERATE_PDU = FINALIZE_CS_CONTROL_COOPERATE_PDU →
  leads FC base (mkProgress CONNECTION_STATE_FINALIZATION_REQUEST_CONTROL F pdus) (rdp_send_client_control_pdu c1 write1 CTRLACTION_REQUEST_CONTROL)
    (mkProgress CONNECTION_STATE_FINALIZATION_PERSISTENT_KEY_LIST (Z.lor F FINALIZE_CS_CONTROL_REQUEST_PDU) (pdus ++ [granted_pdu base])).
Proof.
  intros Hf. eapply (leads_pdu FC base _ DATA_PDU_TYPE_CONTROL (λ _, rdp_write_client_control_pdu CTRLACTION_REQUEST_CONTROL 0 0)
    (λ _, control_payload CTRLACTION_REQUEST_CONTROL 0 0)); [done|done|intros; by apply fills_control| | |].
  - intros e e2 _ HF. apply (reads_accept_control F); [by right|done].
  - intros e Hst _. unfold peer_recv_callback_internal. rewrite (h_consents _ _ Hh). cbn [negb]. by rewrite Hst.
  - intros e1 e2 Hs. destruct (stage_send FC base _ DATA_PDU_TYPE_CONTROL
      (rdp_write_client_control_pdu CTRLACTION_GRANTED_CONTROL (es_userId (ps_end c2)) 0x03EA)
      (control_payload CTRLACTION_GRANTED_CONTROL (es_userId (ps_end c2)) 0x03EA) e1 e2 Hs) as (ea & Ea & Hsa & _);
      [apply fills_control; [done|unfold is_u16, MCS_BASE_CHANNEL_ID in *; lia|done]|done|].
    destruct (stage_flagged_enter _ _ _ CONNECTION_STATE_FINALIZATION_PERSISTENT_KEY_LIST _ _ Hsa) as (eb & Eb & Hsb).
    exists eb. split; [|exact Hsb]. unfold then_also.
    change (rdp_send_server_control_granted_pdu (ps_end c2) write2 e2) with (send_data (ps_end c2) write2 DATA_PDU_TYPE_CONTROL
      (rdp_write_client_control_pdu CTRLACTION_GRANTED_CONTROL (es_userId (ps_end c2)) 0x03EA) e2). by rewrite Ea.
Qed.
(** The server waits for the keys. *)
Definition expects_keys (F : Z) : bool :=
  es_BitmapCachePersistEnabled (ps_end c2) && negb (Z.land F FINALIZE_DEACTIVATE_REACTIVATE =? FINALIZE_DEACTIVATE_REACTIVATE).
Lemma leads_keys FC base F pdus loaded :
  expects_keys F = true → zlen loaded <= UINT16_MAX → Forall is_u16 (es_BitmapCacheV2CellInfo c1) → length (es_BitmapCacheV2CellInfo c1) = 5%nat →
  leads FC base (mkProgress CONNECTION_STATE_FINALIZATION_PERSISTENT_KEY_LIST F pdus) (rdp_send_client_persistent_key_list_pdu c1 write1 loaded)
    (mkProgress CONNECTION_STATE_FINALIZATION_FONT_LIST (Z.lor F FINALIZE_CS_PERSISTENT_KEY_LIST_PDU) pdus).
Proof.
  intros Hexp Hl Hc H5. pose proof (zlen_nonneg loaded). unfold rdp_send_client_persistent_key_list_pdu.
  assert (forallb (λ n, n <=? UINT16_MAX) (es_BitmapCacheV2CellInfo c1) = true) as Hcap.
  { apply forallb_forall. intros n Hn. apply Z.leb_le. by apply (proj1 (List.Forall_forall _ _) Hc). }
  rewrite Hcap. cbn [negb]. set (n := if zlen loaded >? keyMaxFrag then keyMaxFrag else zlen loaded).
  assert (0 <= n <= Z.min keyMaxFrag (zlen loaded)) as Hn by (unfold n, keyMaxFrag; destruct (Z.gtb_spec (zlen loaded) 2042); lia).
  unfold keyMaxFrag in Hn. set (entries := share_out n (es_BitmapCacheV2CellInfo c1)).
  destruct (share_out_total n (es_BitmapCacheV2CellInfo c1)) as [He Ht]; [unfold UINT16_MAX; lia|done|]. fold entries in He, Ht.
  fold (sum_all entries). replace (u16 (sum_all entries)) with (sum_all entries) by (unfold u16; rewrite Z.mod_small; lia).
  assert (zlen (ztake (sum_all entries) loaded) = sum_all entries) as Hz by (rewrite zlen_ztake; lia).
  assert (length entries = 5%nat) as He5 by (unfold entries; by rewrite share_out_length).
  eapply (leads_pdu FC base _ _ (λ _, rdp_write_client_persistent_key_list_pdu (mkPersistent entries entries (sum_all entries) loaded))
    (λ _, keys_payload entries (ztake (sum_all entries) loaded))); [done|done| | | |].
  - intros e _. apply fills_keys; [apply (av_malloc Hav)|done|unfold zlen; lia|unfold keyMaxFrag; lia|done|done].
  - intros e e2 _ _. apply (reads_status STATE_RUN_SUCCESS). apply reads_nil_r.
    eapply reads_bind; [apply reads_keys; [done|done|done|unfold keyMaxFrag; lia]|apply reads_ret].
  - intros e Hst HF. unfold peer_recv_callback_internal. rewrite (h_consents _ _ Hh). cbn [negb]. rewrite Hst. cbn [at_state].
    unfold rdp_finalize_is_flag_set. rewrite HF. cbn [at_flags]. fold (expects_keys F). by rewrite Hexp.
  - intros e1 e2 Hs. exact (stage_flagged_enter _ _ _ CONNECTION_STATE_FINALIZATION_FONT_LIST _ _ Hs).
Qed.

(** ** The fonts *)

Lemma stage_data FC base g e1 e2 d : stage FC base g e1 e2 → sent2 d = sent2 (e_data e2) → stage FC base g e1 (set_data d e2).
Proof. intros [] Hd. destruct e2; cbn in *. split; cbn; try done. by rewrite Hd. Qed.
Lemma stage_active FC base g e1 e2 a cn : stage FC base g e1 e2 → stage FC base g e1 (set_activated a (set_e_connected cn e2)).
Proof. intros []. destruct e2; cbn in *. by split. Qed.
Lemma activates FC base g e1 e2 :
  stage FC base g e1 e2 → e_activated e2 = false →
  ∃ e2', rdp_peer_handle_state_active P e2 = (STATE_RUN_SUCCESS, e2') ∧ stage FC base g e1 e2' ∧ e_connected e2' = true ∧ e_activated e2' = true.
Proof.
  intros Hs Ha. unfold rdp_peer_handle_state_active.
  assert (∃ ea, (if negb (e_connected e2) then let '(connected, e) := IFCALLRET (PostConnect P) (e_connected e2) e2 in set_e_connected connected e else e2) = ea ∧
    stage FC base g e1 ea ∧ e_connected ea = true ∧ e_activated ea = false) as (ea & -> & Hsa & Hca & Haa).
  { destruct (e_connected e2) eqn:Hcn; [by exists e2|]. destruct (h_connect _ _ Hh e2) as (d' & -> & Hd). cbn [negb]. eexists. split; [done|].
    split; [|by destruct e2]. pose proof (stage_active _ _ _ _ _ false true (stage_data _ _ _ _ _ d' Hs Hd)) as Hs'. destruct e2; cbn in *. by subst. }
  rewrite Hca, Haa. cbn [negb]. destruct (h_activate _ _ Hh (set_activated true ea)) as (d' & -> & Hd). eexists. split; [done|].
  split; [|by destruct ea]. apply stage_data; [|done]. pose proof (stage_active _ _ _ _ _ true true Hsa) as Hs'. destruct ea; cbn in *. by subst.
Qed.
Lemma reads_font_list FC base F pdus e1 e2 :
  stage FC base (mkProgress CONNECTION_STATE_FINALIZATION_FONT_LIST F pdus) e1 e2 →
  ∃ e2', reads (dispatch_data_pdu P W2 c2 write2 DATA_PDU_TYPE_FONT_LIST e2) (fonts_payload fonts_flags 50) (STATE_RUN_CONTINUE, e2') ∧
    stage FC base (mkProgress CONNECTION_STATE_ACTIVE (Z.lor F FINALIZE_CS_FONT_LIST_PDU) (pdus ++ [font_map_pdu base])) e1 e2' ∧ e_activated e2' = false.
Proof.
  intros Hs. set (ea := rdp_finalize_set_flag FINALIZE_CS_FONT_LIST_PDU e2).
  assert (stage FC base (mkProgress CONNECTION_STATE_FINALIZATION_FONT_LIST (Z.lor F FINALIZE_CS_FONT_LIST_PDU) pdus) e1 ea) as Hsa.
  { unfold ea, rdp_finalize_set_flag. rewrite (sg_flags _ _ _ _ _ Hs). destruct Hs, e2. by split. }
  destruct (stage_enter _ _ _ CONNECTION_STATE_FINALIZATION_CLIENT_FONT_MAP _ _ Hsa) as (eb & Eb & Hsb & Hab & _).
  destruct (stage_send _ _ _ DATA_PDU_TYPE_FONT_MAP
    (TRY Stream_CheckAndLogRequiredCapacity 8;
     Stream_Write_UINT16 0;; Stream_Write_UINT16 0;; Stream_Write_UINT16 fonts_flags;; Stream_Write_UINT16 4;; TRUE) (fonts_payload fonts_flags 4) _ _ Hsb)
    as (ec & Ec & Hsc & Hac & _); [by apply fills_fonts|done|].
  destruct (stage_enter _ _ _ CONNECTION_STATE_ACTIVE _ _ Hsc) as (ed & Ed & Hsd & Had & _). exists ed. split; [|split; [exact Hsd|]].
  - apply (reads_status STATE_RUN_CONTINUE). unfold rdp_server_accept_client_font_list_pdu. apply reads_nil_r.
    eapply reads_bind; [apply reads_fonts|]. cbv beta iota. fold ea. rewrite Eb. cbn [also negb]. unfold then_also.
    change (rdp_send_server_font_map_pdu (ps_end c2) write2 eb) with (send_data (ps_end c2) write2 DATA_PDU_TYPE_FONT_MAP
      (TRY Stream_CheckAndLogRequiredCapacity 8;
       Stream_Write_UINT16 0;; Stream_Write_UINT16 0;; Stream_Write_UINT16 fonts_flags;; Stream_Write_UINT16 4;; TRUE) eb).
    rewrite Ec. cbn [mbind outcome_bind also negb]. rewrite Ed. apply reads_lift.
  - unfold still_activated in Hab, Had. rewrite (sg_state _ _ _ _ _ Hsa) in Hab. rewrite (sg_state _ _ _ _ _ Hsc), Hac, Hab in Had. exact Had.
Qed.
Lemma fonts_received FC base F pdus e1 e2 :
  stage FC base (mkProgress CONNECTION_STATE_FINALIZATION_FONT_LIST F pdus) e1 e2 →
  ∃ e1' pkt e2', rdp_send_client_font_list_pdu c1 write1 fonts_flags e1 = Ret (true, e1') ∧ sent1 (e_data e1') = sent1 (e_data e1) ++ [pkt] ∧
    readable (stream_of pkt) ∧
    (∀ n start rc, rc ≠ STATE_RUN_TRY_AGAIN →
      ∃ s', run_states P W2 c2 write2 (S (S n)) start rc f e2 (stream_of pkt) = Ret (Some (STATE_RUN_SUCCESS, f, e2'), s')) ∧
    stage FC base (mkProgress CONNECTION_STATE_ACTIVE (Z.lor F FINALIZE_CS_FONT_LIST_PDU) (pdus ++ [font_map_pdu base])) e1' e2' ∧
    e_connected e2' = true ∧ e_activated e2' = true.
Proof.
  intros Hs. destruct (pdu_received FC base _ DATA_PDU_TYPE_FONT_LIST (rdp_write_client_font_list_pdu fonts_flags) (fonts_payload fonts_flags 50) e1 e2 Hs)
    as (r1' & pkt & d1 & r2' & E & Hd & Hsa & Hrs & Hrecv); [done|by apply fills_fonts|done|].
  destruct (reads_font_list _ _ _ _ _ _ Hsa) as (eb & Hreads & Hsb & Hab). destruct (Hrecv _ _ Hreads) as (s' & E2 & Hs').
  destruct (stage_enter _ _ _ CONNECTION_STATE_ACTIVE _ _ Hsb) as (ec & Ec & Hsc & Hac & _).
  set (ed := set_data (update_reset_state W2 (e_data ec)) ec).
  assert (stage FC base (mkProgress CONNECTION_STATE_ACTIVE (Z.lor F FINALIZE_CS_FONT_LIST_PDU) (pdus ++ [font_map_pdu base])) (set_data d1 (set_rdp r1' e1)) ed)
    as Hsd by (apply stage_data; [exact Hsc|apply (q_reset _ _ _ Hq2)]).
  assert (e_activated ed = false) as Had.
  { unfold still_activated in Hac. rewrite (sg_state _ _ _ _ _ Hsb), Hab in Hac. unfold ed. by destruct ec. }
  destruct (activates _ _ _ _ _ Hsd Had) as (e2' & Ea & Hse & Hce & Hae).
  exists (set_data d1 (set_rdp r1' e1)), pkt, e2'. split; [exact E|]. split; [by destruct e1|]. split; [done|]. split; [|done].
  intros n start rc Hrc. exists s'. rewrite (run_states_next P W2 c2 write2 (S n) start rc f f e2 ed (stream_of pkt) s'); [|clear Hrecv|done|done].
  - apply run_states_stop; [|done|done|done]. unfold peer_recv_callback_internal. rewrite (h_consents _ _ Hh). cbn [negb].
    rewrite (sg_state _ _ _ _ _ Hsd). cbn [at_state]. by rewrite Ea.
  - unfold peer_recv_callback_internal. rewrite (h_consents _ _ Hh). cbn [negb]. rewrite (sg_state _ _ _ _ _ Hs). cbn [at_state].
    erewrite bind_Ret by exact E2. cbv beta iota. change (state_run_success STATE_RUN_CONTINUE) with true. cbv iota.
    unfold rdp_finalize_is_flag_set. rewrite (sg_flags _ _ _ _ _ Hsb). cbn [at_flags]. rewrite flag_set_new, Z.eqb_refl, Ec. done.
Qed.

(** ** All of it *)

(** The PDUs of the client that the server keeps a flag for. *)
Definition client_flags (keys : bool) : Z :=
  Z.lor FINALIZE_CS_SYNCHRONIZE_PDU (Z.lor FINALIZE_CS_CONTROL_COOPERATE_PDU (Z.lor FINALIZE_CS_CONTROL_REQUEST_PDU
    (Z.lor (if keys then FINALIZE_CS_PERSISTENT_KEY_LIST_PDU else 0) FINALIZE_CS_FONT_LIST_PDU))).
(** What the client does, up to the state in which it waits, makes the server serve. *)
Definition finalizes (FC : Z) (base : endpoint D2) (g : progress) (m : endpoint D1 → end_step (D := D1)) (g' : progress) : Prop :=
  ∀ e1 e2, stage FC base g e1 e2 →
  ∃ e1' pkts e2', m e1 = Ret (true, e1') ∧ sent1 (e_data e1') = sent1 (e_data e1) ++ pkts ∧
    recv_peer_packets P W2 c2 write2 (S (S (S fuel))) pkts f e2 = Ret (Some (STATE_RUN_SUCCESS, f, e2')) ∧ stage FC base g' e1' e2' ∧
    e_state e1' = CONNECTION_STATE_FINALIZATION_CLIENT_SYNC ∧ e_connected e2' = true ∧ e_activated e2' = true.
Lemma finalizes_then FC base g g' g'' m k : leads FC base g m g' → finalizes FC base g' k g'' → finalizes FC base g (λ e, then_also (m e) k) g''.
Proof.
  intros Hm Hk e1 e2 Hs. destruct (Hm e1 e2 Hs) as (e1a & p1 & e2b & E1 & Hp1 & R1 & Hs1).
  destruct (Hk e1a e2b Hs1) as (e1' & p2 & e2' & E2 & Hp2 & R2 & H). exists e1', (p1 ++ p2), e2'.
  split; [unfold then_also; rewrite E1; exact E2|]. split; [by rewrite Hp2, Hp1, app_assoc|]. split; [|done].
  by erewrite recv_peer_packets_app by exact R1.
Qed.
Lemma finalizes_also FC base g g' st k : finalizes FC base g k g' → finalizes FC base g (λ e, also (rdp_client_transition_to_state W1 st e) k) g'.
Proof. exact (finalizes_then FC base g g g' _ k (leads_transition FC base g st)). Qed.
Lemma finalizes_fonts FC base F pdus (keys : bool) :
  expects_keys F = keys →
  finalizes FC base
    (if keys then mkProgress CONNECTION_STATE_FINALIZATION_FONT_LIST (Z.lor F FINALIZE_CS_PERSISTENT_KEY_LIST_PDU) pdus
     else mkProgress CONNECTION_STATE_FINALIZATION_PERSISTENT_KEY_LIST F pdus)
    (λ e, then_also (rdp_send_client_font_list_pdu c1 write1 fonts_flags e) (λ e,
          Ret (rdp_client_transition_to_state W1 CONNECTION_STATE_FINALIZATION_CLIENT_SYNC e)))
    (mkProgress CONNECTION_STATE_ACTIVE (Z.lor (Z.lor F (if keys then FINALIZE_CS_PERSISTENT_KEY_LIST_PDU else 0)) FINALIZE_CS_FONT_LIST_PDU)
       (pdus ++ [font_map_pdu base])).
Proof.
  intros Hkeys e1 e2 Hs. set (F' := Z.lor F (if keys then FINALIZE_CS_PERSISTENT_KEY_LIST_PDU else 0)).
  assert (∃ ea, stage FC base (mkProgress CONNECTION_STATE_FINALIZATION_FONT_LIST F' pdus) e1 ea ∧
    ∀ s, readable s → ∃ n rc, rc ≠ STATE_RUN_TRY_AGAIN ∧
      peer_recv_callback P W2 c2 write2 (S (S (S fuel))) f e2 s = run_states P W2 c2 write2 (S (S n)) (st_pointer s) rc f ea s) as (ea & Hsa & Hrun).
  { destruct keys.
    - exists e2. split; [done|]. intros s Hsr. exists (S fuel), STATE_RUN_FAILED. split; [done|]. by rewrite run_callback.
    - destruct (stage_enter _ _ _ CONNECTION_STATE_FINALIZATION_FONT_LIST _ _ Hs) as (ea & Ea & Hsa & _). exists ea.
      split; [unfold F'; by rewrite Z.lor_0_r|]. intros s Hsr. exists fuel, STATE_RUN_CONTINUE. split; [done|].
      rewrite run_callback by done. apply run_states_next; [|done|done].
      unfold peer_recv_callback_internal. rewrite (h_consents _ _ Hh). cbn [negb]. rewrite (sg_state _ _ _ _ _ Hs). cbn [at_state].
      unfold rdp_finalize_is_flag_set. rewrite (sg_flags _ _ _ _ _ Hs). cbn [at_flags]. fold (expects_keys F). by rewrite Hkeys, Ea. }
  destruct (fonts_received _ _ _ _ _ _ Hsa) as (e1a & pkt & e2' & E & Hd & Hrs & Hrec & Hs' & Hcn & Hac).
  destruct (Hrun _ Hrs) as (n & rc & Hrc & Hcall). destruct (Hrec n (st_pointer (stream_of pkt)) rc Hrc) as [s' Hst].
  destruct (quiet_transition W1 write1 sent1 Hq1 CONNECTION_STATE_FINALIZATION_CLIENT_SYNC e1a) as (d & E1 & Hd1).
  eexists _, [pkt], e2'. split; [unfold then_also; rewrite E; unfold also; cbn [mbind outcome_bind negb]; rewrite E1; reflexivity|].
  split; [destruct e1a; cbn in *; by rewrite Hd1, Hd|]. split; [cbn [recv_peer_packets]; by rewrite Hcall, Hst|].
  split; [|by destruct e1a]. destruct Hs', e1a; cbn in *. by split.
Qed.

Lemma client_finalizes FC base F pdus loaded :
  zlen loaded <= UINT16_MAX → Forall is_u16 (es_BitmapCacheV2CellInfo c1) → length (es_BitmapCacheV2CellInfo c1) = 5%nat →
  expects_keys F = negb (Z.land FC FINALIZE_DEACTIVATE_REACTIVATE =? FINALIZE_DEACTIVATE_REACTIVATE) && es_BitmapCachePersistEnabled c1 →
  finalizes FC base (mkProgress CONNECTION_STATE_FINALIZATION_SYNC F pdus) (rdp_client_connect_finalize W1 c1 write1 loaded)
    (mkProgress CONNECTION_STATE_ACTIVE (Z.lor F (client_flags (expects_keys F))) (pdus ++ [granted_pdu base; font_map_pdu base])).
Proof.
  intros Hl Hc H5 Hk. set (keys := expects_keys F) in *. unfold rdp_client_connect_finalize.
  set (F' := Z.lor (Z.lor (Z.lor F FINALIZE_CS_SYNCHRONIZE_PDU) FINALIZE_CS_CONTROL_COOPERATE_PDU) FINALIZE_CS_CONTROL_REQUEST_PDU).
  replace (Z.lor F (client_flags keys)) with (Z.lor (Z.lor F' (if keys then FINALIZE_CS_PERSISTENT_KEY_LIST_PDU else 0)) FINALIZE_CS_FONT_LIST_PDU)
    by (unfold F', client_flags; by rewrite <- !Z.lor_assoc).
  replace (pdus ++ [granted_pdu base; font_map_pdu base]) with ((pdus ++ [granted_pdu base]) ++ [font_map_pdu base]) by (by rewrite <- app_assoc).
  assert (expects_keys F' = keys) as HF'.
  { unfold keys, expects_keys, F'. rewrite !Z.land_lor_distr_l. f_equal. f_equal. by rewrite !Z.lor_0_r. }
  apply finalizes_also. eapply finalizes_then; [apply leads_sync|]. apply finalizes_also. eapply finalizes_then; [apply leads_cooperate, flag_set_new|].
  apply finalizes_also. eapply finalizes_then; [apply leads_request, flag_set_new|]. fold F'.
  eapply finalizes_then; [|apply finalizes_also, finalizes_fonts; exact HF'].
  intros e1 e2 Hs. unfold rdp_finalize_is_flag_set. rewrite (sg_reactivation _ _ _ _ _ Hs), <- Hk. fold keys. destruct keys.
  - exact (leads_also _ _ _ _ _ _ (leads_keys FC base F' _ loaded HF' Hl Hc H5) e1 e2 Hs).
  - exists e1, [], e2. by rewrite app_nil_r.
Qed.
End finalization.

(** * Theorems *)

Section theorems.
Context {HM : Malloc} {HD : Digests} {HC : Cipher} {HDL : DigestLaws} {HCL : CipherLaws} {D1 D2 : Type} {ncrush xcrush : Codec}.

(** C2. The finalization of a connection makes the server serve.  After the capabilities the
    server sends its synchronize and control PDUs, forgets the flags of an earlier round and
    waits; the client, without waiting for them, sends synchronize, cooperate, a request for
    control, the keys of its bitmap cache (not after a reactivation, and not without a
    persistent cache) and the font list.  All of it succeeds, whether the packets are in the clear
    or encrypted with RC4 or 3DES and whatever keys the cache holds: each packet takes the state
    machine of the server to its next state within three turns of its loop, and the server ends
    active, with the application told and a flag for exactly these PDUs; it has sent
    synchronize, cooperate, granted control and the font map, in this order and sealed one after
    the other; the client ends in the state in which it reads them, and its next packet can be
    read. *)
Theorem finalization_session (W1 : watchers D1) c1 write1 sent1 (P : peer_calls (D := D2)) W2 c2 write2 sent2 fuel (f : rdpFastPath ncrush xcrush) loaded e1 e2 :
  crypto_available → quiet W1 write1 sent1 → quiet W2 write2 sent2 → hosting P sent2 →
  ps_UseRdpSecurityLayer c2 = es_do_crypt c1 → es_do_crypt (ps_end c2) = es_do_crypt c1 →
  es_BitmapCachePersistEnabled (ps_end c2) = es_BitmapCachePersistEnabled c1 →
  rdp_finalize_is_flag_set FINALIZE_DEACTIVATE_REACTIVATE e2 = rdp_finalize_is_flag_set FINALIZE_DEACTIVATE_REACTIVATE e1 →
  MCS_BASE_CHANNEL_ID <= es_userId c1 <= UINT16_MAX → MCS_BASE_CHANNEL_ID <= es_userId (ps_end c2) <= UINT16_MAX →
  zlen loaded <= UINT16_MAX → Forall is_u16 (es_BitmapCacheV2CellInfo c1) → length (es_BitmapCacheV2CellInfo c1) = 5%nat →
  ServerMode (e_rdp e1) = false → ServerMode (e_rdp e2) = true → (es_do_crypt c1 = true → duplex (e_rdp e1) (e_rdp e2)) →
  is_u16 (e_PduSource e1) → is_u16 (e_PduSource e2) → is_u32 (e_ShareId e1) → is_u32 (e_ShareId e2) →
  ∃ e2s e1' pkts e2' out,
    rdp_server_send_sync W2 (ps_end c2) write2 e2 = Ret (true, e2s) ∧
    rdp_client_connect_finalize W1 c1 write1 loaded e1 = Ret (true, e1') ∧ sent1 (e_data e1') = sent1 (e_data e1) ++ pkts ∧
    recv_peer_packets P W2 c2 write2 (3 + fuel) pkts f e2s = Ret (Some (STATE_RUN_SUCCESS, f, e2')) ∧
    e_state e1' = CONNECTION_STATE_FINALIZATION_CLIENT_SYNC ∧ serving e2' ∧
    e_finalize e2' = Z.lor (Z.land (e_finalize e2) FINALIZE_DEACTIVATE_REACTIVATE)
      (client_flags (negb (rdp_finalize_is_flag_set FINALIZE_DEACTIVATE_REACTIVATE e1) && es_BitmapCachePersistEnabled c1)) ∧
    sent2 (e_data e2') = sent2 (e_data e2) ++ out ∧
    sealed (ps_end c2) (e_rdp e2) [sync_pdu c2 e2; cooperate_pdu c2 e2; granted_pdu c2 e2; font_map_pdu c2 e2] out (e_rdp e2') ∧
    (es_do_crypt c1 = true → sec_sync (e_rdp e1') (e_rdp e2')).
Proof.
  intros Hav Hq1 Hq2 Hh Hc Hc2 Hper Hre Hu1 Hu2 Hl Hcell H5 Hm1 Hm2 Hd Hp1 Hp2 Hi1 Hi2.
  assert (stage c1 c2 sent2 (e_finalize e1) e2 (mkProgress (e_state e2) (e_finalize e2) []) e1 e2) as Hs.
  { split; try done; [|exists []; rewrite app_nil_r; split; [done|apply sealed_nil]].
    intros Hcr. destruct (Hd Hcr) as [Hs1 Hs2]. split; [done|]. by exists (e_rdp e1). }
  destruct (server_sync c1 W2 c2 write2 sent2 Hav Hq2 Hc Hc2 Hu2 _ _ _ _ _ Hs Hp2) as (e2s & E & Hs1).
  assert (expects_keys c2 (Z.land (e_finalize e2) FINALIZE_DEACTIVATE_REACTIVATE) =
    negb (rdp_finalize_is_flag_set FINALIZE_DEACTIVATE_REACTIVATE e1) && es_BitmapCachePersistEnabled c1) as Hk.
  { unfold expects_keys. rewrite <- Z.land_assoc, Z.land_diag. fold (rdp_finalize_is_flag_set FINALIZE_DEACTIVATE_REACTIVATE e2). rewrite Hre, Hper. apply andb_comm. }
  destruct (client_finalizes W1 c1 write1 sent1 P W2 c2 write2 sent2 fuel f Hav Hq1 Hq2 Hh Hc Hc2 Hu1 Hu2 (e_finalize e1) e2 _
    [sync_pdu c2 e2; cooperate_pdu c2 e2] loaded Hl Hcell H5 Hk e1 e2s Hs1) as (e1' & pkts & e2' & E1 & Hsent & R & [] & Hst1 & Hcn & Hac).
  destruct sg_out0 as (out & Hout & Hsealed). exists e2s, e1', pkts, e2', out. rewrite <- Hk.
  split_and!; try done. intros Hcr. by apply sg_sync0.
Qed.

(** C39. While the server waits for the client's first PDUs it takes a bad packet for a good one: in the states in
    which it waits for synchronize, cooperate, the request for control and the keys,
    a packet on which [peer_recv_pdu] has failed ends the call with success when the flag of the state is
    missing, so the transport reads on. *)
Theorem failed_packet_ignored (P : peer_calls (D := D2)) W2 c2 write2 fuel (f f' : rdpFastPath ncrush xcrush) e e' s s' flag :
  consents P → readable s → readable s' →
  (e_state e, flag) ∈
    [(CONNECTION_STATE_FINALIZATION_SYNC, FINALIZE_CS_SYNCHRONIZE_PDU);
     (CONNECTION_STATE_FINALIZATION_COOPERATE, FINALIZE_CS_CONTROL_COOPERATE_PDU);
     (CONNECTION_STATE_FINALIZATION_REQUEST_CONTROL, FINALIZE_CS_CONTROL_REQUEST_PDU);
     (CONNECTION_STATE_FINALIZATION_PERSISTENT_KEY_LIST, FINALIZE_CS_PERSISTENT_KEY_LIST_PDU)] →
  (e_state e = CONNECTION_STATE_FINALIZATION_PERSISTENT_KEY_LIST → expects_keys c2 (e_finalize e) = true) → rdp_finalize_is_flag_set flag e' = false →
  peer_recv_pdu P W2 c2 write2 f e s = Ret ((STATE_RUN_FAILED, f', e'), s') →
  peer_recv_callback P W2 c2 write2 (S fuel) f e s = Ret (Some (STATE_RUN_SUCCESS, f', e'), s').
Proof.
  intros Hc Hs Hs' Hst Hk Hf E. rewrite run_callback by done. apply run_states_stop; [|done|done|done].
  unfold peer_recv_callback_internal. rewrite Hc. cbn [negb].
  repeat (apply elem_of_cons in Hst as [[= He ->]|Hst]); [| | | |by apply not_elem_of_nil in Hst]; rewrite He.
  4: unfold rdp_finalize_is_flag_set at 1; fold (expects_keys c2 (e_finalize e)); rewrite (Hk He).
  all: erewrite bind_Ret by exact E; unfold lift, advance_on; by rewrite Hf.
Qed.
End theorems.

(** * Witnesses *)

#[local] Existing Instances model_malloc model_digests model_cipher model_digest_laws model_cipher_laws.

(** Ends that keep the packets they send. *)
Definition keep (p : list Z) (d : list (list Z)) : bool * list (list Z) := (true, d ++ [p]).
Lemma quiet_keep : quiet no_watchers keep id.
Proof. split; intros; by try eexists. Qed.
Definition silent_peer : peer_calls (D := list (list Z)) :=
  mkPeerCalls (mkInput None None None None None None None) (λ _ d, d) None None None (λ d, d) (λ _ e, mret (false, e))
    (λ _ e, mret (STATE_RUN_FAILED, e)) (λ _ d, mret (false, d)) (λ _, false) None (Some (λ e, (true, e))) None (λ e, mret (STATE_RUN_FAILED, e)).
Lemma set_data_same {HC : Cipher} {D} (e : endpoint D) : e = set_data (e_data e) e.
Proof. by destruct e. Qed.
Lemma silent_hosting : hosting silent_peer id.
Proof. split; [done|done|..]; intros e; exists (e_data e); (split; [cbn; by rewrite <- set_data_same|done]). Qed.
Definition client_end (persist : bool) : end_settings := mkEndSettings true true 1007 1080 1920 persist [600; 600; 2048; 4096; 2048].
Definition server_end (persist : bool) : peer_settings :=
  mkPeerSettings (mkEndSettings true true 1002 1080 1920 persist []) all_input true true true 0 false.
Definition confirmed (method flags : Z) (st : CONNECTION_STATE) (server : bool) : endpoint (list (list Z)) :=
  mkEndpoint (established_rdp method server) flags false st false false false false 0 0 66 1007 [].
Definition confirmed0 : bool → endpoint (list (list Z)) := confirmed ENCRYPTION_METHOD_128BIT 0 CONNECTION_STATE_CAPABILITIES_EXCHANGE_CONFIRM_ACTIVE.

Lemma finalization_session_witness :
  ∃ f, fp_end (fp_rdp0 true) = Some f ∧ ∃ e2s e1' pkts e2' out,
    rdp_server_send_sync no_watchers (ps_end (server_end true)) keep (confirmed0 true) = Ret (true, e2s) ∧
    rdp_client_connect_finalize no_watchers (client_end true) keep [1; 2; 3] (confirmed0 false) = Ret (true, e1') ∧ id (e_data e1') = [] ++ pkts ∧
    recv_peer_packets silent_peer no_watchers (server_end true) keep 3 pkts f e2s = Ret (Some (STATE_RUN_SUCCESS, f, e2')) ∧
    e_state e1' = CONNECTION_STATE_FINALIZATION_CLIENT_SYNC ∧ serving e2' ∧ e_finalize e2' = Z.lor 0 (client_flags true) ∧
    id (e_data e2') = [] ++ out ∧
    sealed (ps_end (server_end true)) (e_rdp (confirmed0 true))
      [sync_pdu (server_end true) (confirmed0 true); cooperate_pdu (server_end true) (confirmed0 true);
       granted_pdu (server_end true) (confirmed0 true); font_map_pdu (server_end true) (confirmed0 true)] out (e_rdp e2') ∧
    (true = true → sec_sync (e_rdp e1') (e_rdp e2')).
Proof.
  destruct (@bulk_new no_codec no_codec 1 metrics_new) as [b|] eqn:Eb; [|done].
  destruct (fastpath_new (fp_rdp0 true) b) as [f|] eqn:E2; [|done]. exists f. split; [unfold fp_end; rewrite Eb; exact E2|].
  apply (finalization_session no_watchers (client_end true) keep id silent_peer no_watchers (server_end true) keep id 0 f [1; 2; 3]
    (confirmed0 false) (confirmed0 true)).
  - exact model_available.
  - exact quiet_keep.
  - exact quiet_keep.
  - exact silent_hosting.
  - done.
  - done.
  - done.
  - done.
  - done.
  - done.
  - by vm_compute.
  - repeat (apply Forall_cons_2; [done|]). apply Forall_nil_2.
  - done.
  - by vm_compute.
  - by vm_compute.
  - intros _. apply established_duplex. left. by right; right.
  - done.
  - done.
  - done.
  - done.
Defined.

Lemma failed_packet_ignored_witness :
  ∃ f, fp_end (fp_rdp0 true) = Some f ∧
    peer_recv_callback silent_peer no_watchers (server_end true) keep 1 f
      (confirmed ENCRYPTION_METHOD_128BIT 0 CONNECTION_STATE_FINALIZATION_SYNC true) (stream_of []) =
    Ret (Some (STATE_RUN_SUCCESS, f, confirmed ENCRYPTION_METHOD_128BIT 0 CONNECTION_STATE_FINALIZATION_SYNC true), stream_of []).
Proof.
  destruct (@bulk_new no_codec no_codec 1 metrics_new) as [b|] eqn:Eb; [|done].
  destruct (fastpath_new (fp_rdp0 true) b) as [f|] eqn:E2; [|done]. exists f. split; [unfold fp_end; rewrite Eb; exact E2|].
  apply (failed_packet_ignored silent_peer no_watchers (server_end true) keep 0 f f _ _ _ _ FINALIZE_CS_SYNCHRONIZE_PDU).
  - done.
  - apply stream_of_readable; [done|apply Forall_nil_2].
  - apply stream_of_readable; [done|apply Forall_nil_2].
  - by left.
  - done.
  - done.
  - done.
Defined.

(** A connection and its reactivation, encrypted with RC4 and with 3DES: the packets of the
    client, those of the server, and the flags of the server. *)
Example finalizations_run : Forall (λ '(method, flags, persist, sent, got),
  let st := CONNECTION_STATE_CAPABILITIES_EXCHANGE_CONFIRM_ACTIVE in
  match fp_end (fp_rdp0 true), rdp_server_send_sync no_watchers (ps_end (server_end persist)) keep (confirmed method flags st true),
        rdp_client_connect_finalize no_watchers (client_end persist) keep (map Z.of_nat (seq 0 700)) (confirmed method flags st false) with
  | Some f, Ret (true, e2), Ret (true, e1) =>
      match recv_peer_packets silent_peer no_watchers (server_end persist) keep 3 (e_data e1) f e2 with
      | Ret (Some (status, _, e2)) => (status, e_state e2, e_connected e2, e_activated e2) = (STATE_RUN_SUCCESS, CONNECTION_STATE_ACTIVE, true, true) ∧
          (length (e_data e1), length (e_data e2), e_finalize e2) = (sent, 4%nat, got)
      | _ => False
      end
  | _, _, _ => False
  end)
  [(ENCRYPTION_METHOD_128BIT, 0, true, 5%nat, 0x1F0); (ENCRYPTION_METHOD_FIPS, 0, true, 5%nat, 0x1F0);
   (ENCRYPTION_METHOD_128BIT, 0, false, 4%nat, 0x170); (ENCRYPTION_METHOD_128BIT, FINALIZE_DEACTIVATE_REACTIVATE, true, 4%nat, 0x370)].
Proof. do 4 (apply Forall_cons_2; [vm_compute; by split|]). apply Forall_nil_2. Qed.
