(* ===== verification/Nego.v ===== *)
(** The negotiation of the security protocol (libfreerdp/core/nego.c): the
    negotiation request, response and failure in the X.224 connection PDUs, the
    client's state machine, which falls back from protocol to protocol, and the
    server's side.  The transport is an interface. *)

From S2P Require Import Prelude Stream StreamLogic Framing.
From stdpp Require Import prelude list numbers strings.
From Stdlib Require Import ZArith Lia.

#[local] Open Scope Z_scope.

(** * Data *)

Definition PROTOCOL_RDP : Z := 0x00.
Definition PROTOCOL_SSL : Z := 0x01.
Definition PROTOCOL_HYBRID : Z := 0x02.
Definition PROTOCOL_RDSTLS : Z := 0x04.
Definition PROTOCOL_HYBRID_EX : Z := 0x08.
Definition PROTOCOL_RDSAAD : Z := 0x10.
Definition PROTOCOL_FAILED_NEGO : Z := 0x80000000.

Definition SSL_REQUIRED_BY_SERVER : Z := 1.
Definition SSL_NOT_ALLOWED_BY_SERVER : Z := 2.
Definition SSL_CERT_NOT_ON_SERVER : Z := 3.
Definition INCONSISTENT_FLAGS : Z := 4.
Definition HYBRID_REQUIRED_BY_SERVER : Z := 5.

Definition TYPE_RDP_NEG_REQ : Z := 1.
Definition TYPE_RDP_NEG_RSP : Z := 2.
Definition TYPE_RDP_NEG_FAILURE : Z := 3.
Definition TYPE_RDP_CORRELATION_INFO : Z := 6.

Definition EXTENDED_CLIENT_DATA_SUPPORTED : Z := 0x01.
Definition DYNVC_GFX_PROTOCOL_SUPPORTED : Z := 0x02.
Definition RESTRICTED_ADMIN_MODE_SUPPORTED : Z := 0x08.
Definition REDIRECTED_AUTHENTICATION_MODE_SUPPORTED : Z := 0x10.

Definition RESTRICTED_ADMIN_MODE_REQUIRED : Z := 0x01.
Definition REDIRECTED_AUTHENTICATION_MODE_REQUIRED : Z := 0x02.
Definition CORRELATION_INFO_PRESENT : Z := 0x08.

Definition PRECONNECTION_PDU_V2 : Z := 2.
Definition PRECONNECTION_PDU_V2_MIN_SIZE : Z := 18.

Definition FREERDP_ERROR_SUCCESS : Z := 0.
Definition FREERDP_ERROR_TLS_CONNECT_FAILED : Z := 0x20008.
Definition FREERDP_ERROR_SECURITY_NEGO_CONNECT_FAILED : Z := 0x2000C.
Definition FREERDP_ERROR_CONNECT_HYBRID_REQUIRED_BY_SERVER : Z := 0x2001E.

Definition ENCRYPTION_METHODS_ALL : Z := 0x1B.
Definition ENCRYPTION_LEVEL_NONE : Z := 0.
Definition ENCRYPTION_LEVEL_CLIENT_COMPATIBLE : Z := 2.

Inductive NEGO_STATE : Type :=
| NEGO_STATE_INITIAL
| NEGO_STATE_RDSTLS
| NEGO_STATE_AAD
| NEGO_STATE_EXT
| NEGO_STATE_NLA
| NEGO_STATE_TLS
| NEGO_STATE_RDP
| NEGO_STATE_FAIL
| NEGO_STATE_FINAL.
#[export] Instance NEGO_STATE_eq_dec : EqDecision NEGO_STATE.
Proof. solve_decision. Defined.

(** What the [nego_set_*] functions configure.  [PreconnectionBlob] is the blob as
    [ConvertUtf8ToWCharAlloc] gives it, [Some None] where it fails. *)
Record nego_config : Type := mkConfig {
  cf_CookieMaxLength : Z;
  cf_SendPreconnectionPdu : bool;
  cf_PreconnectionId : Z;
  cf_PreconnectionBlob : option (option (list Z));
  cf_NegotiateSecurityLayer : bool;
  cf_RestrictedAdminModeRequired : bool;
  cf_RestrictedAdminModeSupported : bool;
  cf_RemoteCredsGuardRequired : bool;
  cf_RemoteCredsGuardSupported : bool;
  cf_GatewayEnabled : bool;
  cf_GatewayBypassLocal : bool;
  cf_ConnectChildSession : bool;
}.

(** [EnabledProtocols] is indexed by the protocols. *)
Record rdpNego : Type := mkNego {
  ng_config : nego_config;
  ng_flags : Z;
  ng_cookie : option (list Z);
  ng_RoutingToken : option (list Z);
  ng_state : NEGO_STATE;
  ng_TcpConnected : bool;
  ng_SecurityConnected : bool;
  ng_sendNegoData : bool;
  ng_SelectedProtocol : Z;
  ng_RequestedProtocols : Z;
  ng_failureCode : Z;
  ng_EnabledProtocols : Z → bool;
  ng_RemoteCredsGuardActive : bool;
}.

(** The settings and the error of the context that the negotiation uses. *)
Record rdpContext : Type := mkContext {
  cx_LastError : Z;
  cx_RequestedProtocols : Z;
  cx_SelectedProtocol : Z;
  cx_NegotiationFlags : Z;
  cx_UseRdpSecurityLayer : bool;
  cx_EncryptionMethods : Z;
  cx_EncryptionLevel : Z;
  cx_TlsSecurity : bool;
  cx_NlaSecurity : bool;
  cx_RdstlsSecurity : bool;
  cx_RdpSecurity : bool;
  cx_LocalConnection : bool;
  cx_RdpServerRsaKey : bool;
  cx_SupportGraphicsPipeline : bool;
}.

Section setters.
Implicit Type nego : rdpNego.
Definition set_flags (v : Z) nego : rdpNego :=
  mkNego (ng_config nego) v (ng_cookie nego) (ng_RoutingToken nego) (ng_state nego) (ng_TcpConnected nego)
    (ng_SecurityConnected nego) (ng_sendNegoData nego) (ng_SelectedProtocol nego) (ng_RequestedProtocols nego)
    (ng_failureCode nego) (ng_EnabledProtocols nego) (ng_RemoteCredsGuardActive nego).
Definition set_cookie (v : option (list Z)) nego : rdpNego :=
  mkNego (ng_config nego) (ng_flags nego) v (ng_RoutingToken nego) (ng_state nego) (ng_TcpConnected nego)
    (ng_SecurityConnected nego) (ng_sendNegoData nego) (ng_SelectedProtocol nego) (ng_RequestedProtocols nego)
    (ng_failureCode nego) (ng_EnabledProtocols nego) (ng_RemoteCredsGuardActive nego).
Definition set_token (v : option (list Z)) nego : rdpNego :=
  mkNego (ng_config nego) (ng_flags nego) (ng_cookie nego) v (ng_state nego) (ng_TcpConnected nego)
    (ng_SecurityConnected nego) (ng_sendNegoData nego) (ng_SelectedProtocol nego) (ng_RequestedProtocols nego)
    (ng_failureCode nego) (ng_EnabledProtocols nego) (ng_RemoteCredsGuardActive nego).
Definition set_connected (tcp security : bool) nego : rdpNego :=
  mkNego (ng_config nego) (ng_flags nego) (ng_cookie nego) (ng_RoutingToken nego) (ng_state nego) tcp
    security (ng_sendNegoData nego) (ng_SelectedProtocol nego) (ng_RequestedProtocols nego)
    (ng_failureCode nego) (ng_EnabledProtocols nego) (ng_RemoteCredsGuardActive nego).
Definition set_sendNegoData (v : bool) nego : rdpNego :=
  mkNego (ng_config nego) (ng_flags nego) (ng_cookie nego) (ng_RoutingToken nego) (ng_state nego)
    (ng_TcpConnected nego) (ng_SecurityConnected nego) v (ng_SelectedProtocol nego) (ng_RequestedProtocols nego)
    (ng_failureCode nego) (ng_EnabledProtocols nego) (ng_RemoteCredsGuardActive nego).
Definition set_failureCode (v : Z) nego : rdpNego :=
  mkNego (ng_config nego) (ng_flags nego) (ng_cookie nego) (ng_RoutingToken nego) (ng_state nego)
    (ng_TcpConnected nego) (ng_SecurityConnected nego) (ng_sendNegoData nego) (ng_SelectedProtocol nego)
    (ng_RequestedProtocols nego) v (ng_EnabledProtocols nego) (ng_RemoteCredsGuardActive nego).
Definition set_enabled (v : Z → bool) nego : rdpNego :=
  mkNego (ng_config nego) (ng_flags nego) (ng_cookie nego) (ng_RoutingToken nego) (ng_state nego)
    (ng_TcpConnected nego) (ng_SecurityConnected nego) (ng_sendNegoData nego) (ng_SelectedProtocol nego)
    (ng_RequestedProtocols nego) (ng_failureCode nego) v (ng_RemoteCredsGuardActive nego).
Definition set_rcg_active (v : bool) nego : rdpNego :=
  mkNego (ng_config nego) (ng_flags nego) (ng_cookie nego) (ng_RoutingToken nego) (ng_state nego)
    (ng_TcpConnected nego) (ng_SecurityConnected nego) (ng_sendNegoData nego) (ng_SelectedProtocol nego)
    (ng_RequestedProtocols nego) (ng_failureCode nego) (ng_EnabledProtocols nego) v.
Definition nego_set_state (v : NEGO_STATE) nego : rdpNego :=
  mkNego (ng_config nego) (ng_flags nego) (ng_cookie nego) (ng_RoutingToken nego) v
    (ng_TcpConnected nego) (ng_SecurityConnected nego) (ng_sendNegoData nego) (ng_SelectedProtocol nego)
    (ng_RequestedProtocols nego) (ng_failureCode nego) (ng_EnabledProtocols nego) (ng_RemoteCredsGuardActive nego).
Definition nego_set_selected_protocol (v : Z) nego : rdpNego :=
  mkNego (ng_config nego) (ng_flags nego) (ng_cookie nego) (ng_RoutingToken nego) (ng_state nego)
    (ng_TcpConnected nego) (ng_SecurityConnected nego) (ng_sendNegoData nego) v
    (ng_RequestedProtocols nego) (ng_failureCode nego) (ng_EnabledProtocols nego) (ng_RemoteCredsGuardActive nego).
Definition nego_set_requested_protocols (v : Z) nego : rdpNego :=
  mkNego (ng_config nego) (ng_flags nego) (ng_cookie nego) (ng_RoutingToken nego) (ng_state nego)
    (ng_TcpConnected nego) (ng_SecurityConnected nego) (ng_sendNegoData nego) (ng_SelectedProtocol nego)
    v (ng_failureCode nego) (ng_EnabledProtocols nego) (ng_RemoteCredsGuardActive nego).
End setters.

Section malloc.
Context {HM : Malloc}.

(** The string with its terminating zero is copied. *)
Definition nego_set_cookie (cookie : option (list Z)) (nego : rdpNego) : bool * rdpNego :=
  match cookie with
  | None => (true, set_cookie None nego)
  | Some c => if malloc_ok (zlen c + 1) then (true, set_cookie (Some c) nego) else (false, set_cookie None nego)
  end.
Definition nego_set_routing_token (token : list Z) (nego : rdpNego) : bool * rdpNego :=
  if zlen token =? 0 then (false, nego)
  else if malloc_ok (zlen token) then (true, set_token (Some token) nego)
  else (false, set_token None nego).

Definition with_CookieMaxLength (v : Z) (cf : nego_config) : nego_config :=
  mkConfig v (cf_SendPreconnectionPdu cf) (cf_PreconnectionId cf) (cf_PreconnectionBlob cf)
    (cf_NegotiateSecurityLayer cf) (cf_RestrictedAdminModeRequired cf) (cf_RestrictedAdminModeSupported cf)
    (cf_RemoteCredsGuardRequired cf) (cf_RemoteCredsGuardSupported cf) (cf_GatewayEnabled cf)
    (cf_GatewayBypassLocal cf) (cf_ConnectChildSession cf).
Definition DEFAULT_COOKIE_MAX_LENGTH : Z := 0xFF.
(** The selected protocol and those enabled are not reset. *)
Definition nego_init (nego : rdpNego) : rdpNego :=
  mkNego (with_CookieMaxLength DEFAULT_COOKIE_MAX_LENGTH (ng_config nego)) 0 (ng_cookie nego) (ng_RoutingToken nego)
    NEGO_STATE_INITIAL (ng_TcpConnected nego) (ng_SecurityConnected nego) false
    (ng_SelectedProtocol nego) PROTOCOL_RDP 0 (ng_EnabledProtocols nego) (ng_RemoteCredsGuardActive nego).
Definition nego_new : option rdpNego :=
  if malloc_ok 272 then
    Some (nego_init (mkNego (mkConfig 0 false 0 None false false false false false false false false)
      0 None None NEGO_STATE_INITIAL false false false 0 0 0 (λ _, false) false))
  else None.

(** * The client reads the response *)

Definition nego_process_negotiation_response (nego : rdpNego) : SM (bool * rdpNego) :=
  check ← Stream_CheckAndLogRequiredLength 7;
  match check with
  | None => mret (false, nego_set_state NEGO_STATE_FAIL nego)
  | Some _ =>
      flags ← Stream_Read_UINT8;
      let nego := set_flags flags nego in
      length ← Stream_Read_UINT16;
      if negb (length =? 8) then mret (false, nego_set_state NEGO_STATE_FAIL nego)
      else
        SelectedProtocol ← Stream_Read_UINT32;
        mret (true, nego_set_state NEGO_STATE_FINAL (nego_set_selected_protocol SelectedProtocol nego))
  end.

Definition nego_disable_all_except (what : Z) (nego : rdpNego) : rdpNego :=
  set_enabled (λ x, if x =? what then ng_EnabledProtocols nego x else false) nego.

(** The [switch] over the failure codes. *)
Definition on_failure (failureCode : Z) (nego : rdpNego) : rdpNego :=
  if failureCode =? SSL_REQUIRED_BY_SERVER then nego_disable_all_except PROTOCOL_SSL nego
  else if failureCode =? SSL_NOT_ALLOWED_BY_SERVER then
    set_sendNegoData true (nego_disable_all_except PROTOCOL_RDP nego)
  else if failureCode =? SSL_CERT_NOT_ON_SERVER then set_sendNegoData true nego
  else if failureCode =? INCONSISTENT_FLAGS then nego
  else if failureCode =? HYBRID_REQUIRED_BY_SERVER then nego_disable_all_except PROTOCOL_HYBRID nego
  else nego.

Definition nego_process_negotiation_failure (nego : rdpNego) : SM (bool * rdpNego) :=
  check ← Stream_CheckAndLogRequiredLength 7;
  match check with
  | None => mret (false, nego)
  | Some _ =>
      flags ← Stream_Read_UINT8;
      if negb (flags =? 0) then mret (false, nego)
      else
        length ← Stream_Read_UINT16;
        if negb (length =? 8) then mret (false, nego)
        else
          failureCode ← Stream_Read_UINT32;
          mret (true, nego_set_state NEGO_STATE_FAIL (on_failure failureCode (set_failureCode failureCode nego)))
  end.

(** Whether the client accepts what the server selected. *)
Definition check_selected (nego : rdpNego) : rdpNego :=
  let selected := ng_SelectedProtocol nego in
  if negb (selected =? 0) then
    if (selected =? PROTOCOL_RDSAAD) && negb (ng_EnabledProtocols nego PROTOCOL_RDSAAD)
       || (selected =? PROTOCOL_HYBRID) && negb (ng_EnabledProtocols nego PROTOCOL_HYBRID)
       || (selected =? PROTOCOL_SSL) && negb (ng_EnabledProtocols nego PROTOCOL_SSL)
    then nego_set_state NEGO_STATE_FAIL nego else nego
  else if negb (ng_EnabledProtocols nego PROTOCOL_RDP) then nego_set_state NEGO_STATE_FAIL nego
  else nego.

(** The part behind the length indicator; [false] is a return of -1. *)
Definition recv_neg_data (li : Z) (nego : rdpNego) : SM (bool * rdpNego) :=
  if li >? 6 then
    type ← Stream_Read_UINT8;
    if type =? TYPE_RDP_NEG_RSP then
      '(ok, nego) ← nego_process_negotiation_response nego;
      if negb ok then mret (false, nego) else mret (true, check_selected nego)
    else if type =? TYPE_RDP_NEG_FAILURE then nego_process_negotiation_failure nego
    else mret (false, nego)
  else if li =? 6 then
    if negb (ng_EnabledProtocols nego PROTOCOL_RDP)
    then mret (true, nego_set_state NEGO_STATE_FAIL nego)
    else mret (true, nego_set_state NEGO_STATE_FINAL nego)
  else mret (true, nego_set_state NEGO_STATE_FAIL nego).

(** [true] is a return of 0. *)
Definition nego_recv (nego : rdpNego) : SM (bool * rdpNego) :=
  length ← tpkt_read_header;
  match length with
  | None => mret (false, nego)
  | Some length =>
      li ← tpdu_read_connection_confirm length;
      match li with
      | None => mret (false, nego)
      | Some li =>
          '(ok, nego) ← recv_neg_data li nego;
          if negb ok then mret (false, nego)
          else
            consumed ← tpkt_ensure_stream_consumed length;
            mret (match consumed with Some _ => true | None => false end, nego)
      end
  end.

(** * The server reads the request *)

Definition ascii_of (s : string) : list Z := map (λ a, Z.of_nat (Ascii.nat_of_ascii a)) (String.list_ascii_of_string s).

(** [memcmp(Stream_ConstPointer(s), str, n) == 0] *)
Definition starts_with (str : list Z) : SM bool :=
  b ← Stream_Peek (zlen str);
  mret (bool_decide (b = str)).

(** [while (Stream_GetRemainingLength(s) >= 2)]: the last two bytes read. *)
Fixpoint find_crlf (fuel : nat) (crlf : Z) : SM Z :=
  rem ← Stream_GetRemainingLength;
  if rem >=? 2 then
    match fuel with
    | O => (λ _, Abort) : SM Z
    | S fuel =>
        crlf ← Stream_Read_UINT16;
        if crlf =? 0x0A0D then mret crlf
        else Stream_Rewind 1;; find_crlf fuel crlf
    end
  else mret crlf.

(** Back to [pos] if it was not accepted. *)
Definition token_result (pos : Z) (r : bool * rdpNego) : SM (bool * rdpNego) :=
  let '(result, nego) := r in
  if negb result then Stream_SetPosition pos;; mret (false, nego) else mret (true, nego).

(** From the beginning of the token or cookie at [pos]: the end of the line is
    overwritten, which makes it a string. *)
Definition read_to_crlf (isToken : bool) (pos : Z) (nego : rdpNego) : SM (bool * rdpNego) :=
  remain ← Stream_GetRemainingLength;
  crlf ← find_crlf (S (Z.to_nat remain)) 0;
  if crlf =? 0x0A0D then
    Stream_Rewind 2;;
    position ← Stream_GetPosition;
    let len := position - pos in
    Stream_Write_UINT16 0;;
    str ← ((λ s, Ret (zslice pos len (st_buffer s), s)) : SM (list Z));
    if len >? UINT32_MAX then mret (false, nego)
    else if forallb (λ b, negb (b =? 0)) str then
      token_result pos (if isToken then nego_set_routing_token str nego else nego_set_cookie (Some str) nego)
    else token_result pos (false, nego)
  else token_result pos (false, nego).

Definition nego_read_request_token_or_cookie (nego : rdpNego) : SM (bool * rdpNego) :=
  remain ← Stream_GetRemainingLength;
  pos ← Stream_GetPosition;
  if remain <? 15 then mret (true, nego)
  else
    cookie ← (if remain <? 17 then mret false else starts_with (ascii_of "Cookie: mstshash="));
    if negb cookie then
      msts ← starts_with (ascii_of "Cookie: msts=");
      tsv ← starts_with (ascii_of "tsv:");
      mth ← starts_with (ascii_of "mth://");
      if negb (msts || tsv || mth) then mret (true, nego)
      else read_to_crlf true pos nego
    else if remain <? 19 then mret (true, nego)
    else Stream_Seek 17;; read_to_crlf false pos nego.

Definition nego_process_correlation_info : SM bool :=
  check ← Stream_CheckAndLogRequiredLength 36;
  match check with
  | None => mret false
  | Some _ =>
      type ← Stream_Read_UINT8;
      if negb (type =? TYPE_RDP_CORRELATION_INFO) then mret false
      else
        flags ← Stream_Read_UINT8;
        if negb (flags =? 0) then mret false
        else
          length ← Stream_Read_UINT16;
          if negb (length =? 36) then mret false
          else
            correlationId ← Stream_Read 16;
            if (zget correlationId 0 =? 0x00) || (zget correlationId 0 =? 0xF4) then mret false
            else if existsb (λ b, b =? 0x0D) correlationId then mret false
            else Stream_Seek 16;; mret true
  end.

(** The modes the flags ask for: refused if not supported. *)
Definition request_flags (flags : Z) (nego : rdpNego) : bool * rdpNego :=
  let cf := ng_config nego in
  let admin := negb (Z.land flags RESTRICTED_ADMIN_MODE_REQUIRED =? 0) in
  let redirected := negb (Z.land flags REDIRECTED_AUTHENTICATION_MODE_REQUIRED =? 0) in
  if negb (Z.land flags (Z.lnot (Z.lor (Z.lor RESTRICTED_ADMIN_MODE_REQUIRED
             REDIRECTED_AUTHENTICATION_MODE_REQUIRED) CORRELATION_INFO_PRESENT)) =? 0) then (false, nego)
  else if admin && negb (cf_RestrictedAdminModeSupported cf) then (false, nego)
  else if redirected then
    if cf_RemoteCredsGuardSupported cf then (true, set_rcg_active true nego)
    else if admin then (true, nego) else (false, nego)
  else (true, nego).

Definition nego_process_negotiation_request (nego : rdpNego) : SM (bool * rdpNego) :=
  check ← Stream_CheckAndLogRequiredLength 7;
  match check with
  | None => mret (false, nego)
  | Some _ =>
      flags ← Stream_Read_UINT8;
      let '(ok, nego) := request_flags flags nego in
      if negb ok then mret (false, nego)
      else
        length ← Stream_Read_UINT16;
        if negb (length =? 8) then mret (false, nego)
        else
          RequestedProtocols ← Stream_Read_UINT32;
          let nego := nego_set_requested_protocols RequestedProtocols nego in
          correlation ← (if Z.land flags CORRELATION_INFO_PRESENT =? 0 then mret true
                         else nego_process_correlation_info);
          if negb correlation then mret (false, nego)
          else mret (true, nego_set_state NEGO_STATE_FINAL nego)
  end.

Definition nego_read_request (nego : rdpNego) : SM (bool * rdpNego) :=
  length ← tpkt_read_header;
  match length with
  | None => mret (false, nego)
  | Some length =>
      li ← tpdu_read_connection_request length;
      match li with
      | None => mret (false, nego)
      | Some li =>
          rem ← Stream_GetRemainingLength;
          if negb (li =? rem + 6) then mret (false, nego)
          else
            '(ok, nego) ← nego_read_request_token_or_cookie nego;
            if negb ok then mret (false, nego)
            else
              rem ← Stream_GetRemainingLength;
              '(ok, nego) ←
                (if rem >=? 8 then
                   type ← Stream_Read_UINT8;
                   if negb (type =? TYPE_RDP_NEG_REQ) then mret (false, nego)
                   else nego_process_negotiation_request nego
                 else mret (true, nego));
              if negb ok then mret (false, nego)
              else
                consumed ← tpkt_ensure_stream_consumed length;
                mret (match consumed with Some _ => true | None => false end, nego)
      end
  end.

(** * Requests and responses *)

(** [RDP_NEG_DATA] *)
Definition write_neg_data (type flags value : Z) : SM (option unit) :=
  Stream_Write_UINT8 type;;
  Stream_Write_UINT8 flags;;
  Stream_Write_UINT16 8;;
  Stream_Write_UINT32 value;;
  TRUE.

Definition token_terminated (token : list Z) : bool :=
  (zlen token >? 2) && (zget token (zlen token - 2) =? 0x0D) && (zget token (zlen token - 1) =? 0x0A).

Definition write_crlf : SM (option unit) :=
  TRY Stream_EnsureRemainingCapacity 2;
  Stream_Write_UINT8 0x0D;;
  Stream_Write_UINT8 0x0A;;
  TRUE.

Definition write_token_or_cookie (nego : rdpNego) : SM (option unit) :=
  match ng_RoutingToken nego with
  | Some token =>
      TRY Stream_EnsureRemainingCapacity (zlen token);
      Stream_Write token;;
      if token_terminated token then TRUE else write_crlf
  | None =>
      match ng_cookie nego with
      | Some cookie =>
          let cookie_length := Z.min (zlen cookie) (cf_CookieMaxLength (ng_config nego)) in
          TRY Stream_EnsureRemainingCapacity 17;
          Stream_Write (ascii_of "Cookie: mstshash=");;
          TRY Stream_EnsureRemainingCapacity cookie_length;
          Stream_Write (ztake cookie_length cookie);;
          write_crlf
      | None => TRUE
      end
  end.

Definition request_mode_flags (cf : nego_config) : Z :=
  Z.lor (if cf_RestrictedAdminModeRequired cf then RESTRICTED_ADMIN_MODE_REQUIRED else 0)
    (if cf_RemoteCredsGuardRequired cf then REDIRECTED_AUTHENTICATION_MODE_REQUIRED else 0).

(** The headers, over the bytes left for them at the beginning. *)
Definition write_headers (bm length : Z) (tpdu : Z → SM (option unit)) : SM (option unit) :=
  em ← Stream_GetPosition;
  TRY Stream_SetPosition bm;
  TRY tpkt_write_header length;
  TRY tpdu (length - 5);
  TRY Stream_SetPosition em;
  Stream_SealLength;;
  TRUE.

(** The stream [nego_send_negotiation_request] gives to the transport. *)
Definition negotiation_request (nego : rdpNego) : outcome (option wStream) :=
  on_new_stream 512 (
    bm ← Stream_GetPosition;
    TRY Stream_SafeZeroEx 11;
    TRY write_token_or_cookie nego;
    TRY (if (ng_RequestedProtocols nego >? PROTOCOL_RDP) || ng_sendNegoData nego then
           TRY Stream_EnsureRemainingCapacity 8;
           write_neg_data TYPE_RDP_NEG_REQ (request_mode_flags (ng_config nego)) (ng_RequestedProtocols nego)
         else TRUE);
    em ← Stream_GetPosition;
    if (em <? 5) || (em >? UINT16_MAX) then FALSE
    else write_headers bm em tpdu_write_connection_request).

Definition response_flags (nego : rdpNego) (cx : rdpContext) : Z :=
  Z.lor (Z.lor (Z.lor EXTENDED_CLIENT_DATA_SUPPORTED
    (if cx_SupportGraphicsPipeline cx then DYNVC_GFX_PROTOCOL_SUPPORTED else 0))
    (if cf_RestrictedAdminModeSupported (ng_config nego) then RESTRICTED_ADMIN_MODE_SUPPORTED else 0))
    (if cf_RemoteCredsGuardSupported (ng_config nego) then REDIRECTED_AUTHENTICATION_MODE_SUPPORTED else 0).

(** The stream [nego_send_negotiation_response] gives to the transport. *)
Definition negotiation_response (nego : rdpNego) (cx : rdpContext) : outcome (option wStream) :=
  on_new_stream 512 (
    bm ← Stream_GetPosition;
    TRY Stream_SafeZeroEx 11;
    TRY (if negb (Z.land (ng_SelectedProtocol nego) PROTOCOL_FAILED_NEGO =? 0) then
           write_neg_data TYPE_RDP_NEG_FAILURE 0
             (Z.land (ng_SelectedProtocol nego) (u32 (Z.lnot PROTOCOL_FAILED_NEGO)))
         else write_neg_data TYPE_RDP_NEG_RSP (response_flags nego cx) (ng_SelectedProtocol nego));
    write_headers bm (11 + 8) tpdu_write_connection_confirm).

(** The settings after a response was sent: [false] ends with an error. *)
Definition set_security (tls nla rdstls rdp layer : bool) (level : Z) (cx : rdpContext) : rdpContext :=
  mkContext (cx_LastError cx) (cx_RequestedProtocols cx) (cx_SelectedProtocol cx) (cx_NegotiationFlags cx)
    layer (cx_EncryptionMethods cx) level tls nla rdstls rdp (cx_LocalConnection cx) (cx_RdpServerRsaKey cx)
    (cx_SupportGraphicsPipeline cx).
Definition set_protocols (requested selected flags : Z) (cx : rdpContext) : rdpContext :=
  mkContext (cx_LastError cx) requested selected flags (cx_UseRdpSecurityLayer cx) (cx_EncryptionMethods cx)
    (cx_EncryptionLevel cx) (cx_TlsSecurity cx) (cx_NlaSecurity cx) (cx_RdstlsSecurity cx) (cx_RdpSecurity cx)
    (cx_LocalConnection cx) (cx_RdpServerRsaKey cx) (cx_SupportGraphicsPipeline cx).
Definition response_settings (nego : rdpNego) (cx : rdpContext) : bool * rdpContext :=
  let cx := set_protocols (ng_RequestedProtocols nego) (ng_SelectedProtocol nego) (cx_NegotiationFlags cx) cx in
  let selected := ng_SelectedProtocol nego in
  if selected =? PROTOCOL_RDP then
    let level := if cx_EncryptionLevel cx =? ENCRYPTION_LEVEL_NONE then ENCRYPTION_LEVEL_CLIENT_COMPATIBLE
                 else cx_EncryptionLevel cx in
    let rdstls := cx_RdstlsSecurity cx in
    if cx_LocalConnection cx
    then (true, set_security false false rdstls true false ENCRYPTION_LEVEL_NONE cx)
    else (cx_RdpServerRsaKey cx, set_security false false rdstls true true level cx)
  else if selected =? PROTOCOL_SSL then (true, set_security true false false false false ENCRYPTION_LEVEL_NONE cx)
  else if selected =? PROTOCOL_HYBRID then (true, set_security true true false false false ENCRYPTION_LEVEL_NONE cx)
  else if selected =? PROTOCOL_RDSTLS then (true, set_security true false true false false ENCRYPTION_LEVEL_NONE cx)
  else (true, cx).

(** The stream [nego_send_preconnection_pdu] gives to the transport. *)
Definition preconnection_pdu (nego : rdpNego) : outcome (option wStream) :=
  let cf := ng_config nego in
  let '(cchPCB, wszPCB) :=
    match cf_PreconnectionBlob cf with
    | None => (0, [])
    | Some None => (1, [])
    | Some (Some l) => (zlen l + 1, l ++ [0])
    end in
  if cchPCB >? UINT16_MAX then Ret None
  else
    let cbSize := PRECONNECTION_PDU_V2_MIN_SIZE + 2 * cchPCB in
    on_new_stream cbSize (
      Stream_Write_UINT32 cbSize;;
      Stream_Write_UINT32 0;;
      Stream_Write_UINT32 PRECONNECTION_PDU_V2;;
      Stream_Write_UINT32 (cf_PreconnectionId cf);;
      Stream_Write_UINT16 cchPCB;;
      Stream_Write (concat (map winpr_Data_Write_UINT16 wszPCB));;
      Stream_SealLength;;
      TRUE).
End malloc.

(** * The client *)

(** The transport.  [true] is success; [transport_read_pdu] gives the bytes of a
    packet, [None] on an error. *)
Class Transport (T : Type) : Type := {
  transport_connect : T → bool * T;
  transport_connect_childsession : T → bool * T;
  transport_set_gateway_enabled : bool → T → T;
  transport_disconnect : T → T;
  transport_connect_rdp : T → bool * T;
  transport_connect_tls : T → bool * T;
  transport_connect_nla : bool → T → bool * T;
  transport_connect_rdstls : T → bool * T;
  transport_connect_aad : T → bool * T;
  transport_write : list Z → T → bool * T;
  transport_read_pdu : T → option (list Z) * T;
}.

Section client.
Context {HM : Malloc} {T : Type} {HT : Transport T}.

Record session : Type := mkSession {
  se_nego : rdpNego;
  se_context : rdpContext;
  se_transport : T;
}.

(** Code that works on the negotiation, the context and the transport. *)
Definition NM (A : Type) : Type := session → outcome (A * session).
#[global] Instance NM_ret : MRet NM := λ A a se, Ret (a, se).
#[global] Instance NM_bind : MBind NM := λ A B k m se,
  match m se with Ret (a, se') => k a se' | Abort => Abort end.

Definition get_nego : NM rdpNego := λ se, Ret (se_nego se, se).
Definition on_nego (f : rdpNego → rdpNego) : NM unit := λ se,
  Ret (tt, mkSession (f (se_nego se)) (se_context se) (se_transport se)).
Definition on_context (f : rdpContext → rdpContext) : NM unit := λ se,
  Ret (tt, mkSession (se_nego se) (f (se_context se)) (se_transport se)).
Definition on_transport {A} (f : T → A * T) : NM A := λ se,
  let '(a, t) := f (se_transport se) in Ret (a, mkSession (se_nego se) (se_context se) t).
(** A stream is made and written to the transport. *)
Definition send (made : outcome (option wStream)) : NM bool :=
  match made with
  | Ret (Some s) => on_transport (transport_write (written s))
  | Ret None => mret false
  | Abort => λ _, Abort
  end.

(** ** Connecting *)

Definition tcp_attempt : NM bool :=
  tcp ← on_transport transport_connect;
  on_nego (λ nego, set_connected tcp (ng_SecurityConnected nego) nego);;
  mret tcp.

Definition nego_tcp_connect : NM bool :=
  nego ← get_nego;
  let cf := ng_config nego in
  if ng_TcpConnected nego then mret true
  else if cf_GatewayEnabled cf then
    tcp ← (if cf_GatewayBypassLocal cf
           then on_transport (λ t, (tt, transport_set_gateway_enabled false t));; tcp_attempt
           else mret false);
    if tcp : bool then mret true
    else on_transport (λ t, (tt, transport_set_gateway_enabled true t));; tcp_attempt
  else if cf_ConnectChildSession cf then
    tcp ← on_transport transport_connect_childsession;
    on_nego (λ nego, set_connected tcp (ng_SecurityConnected nego) nego);;
    mret tcp
  else tcp_attempt.

(** The protocol that was selected; [None] for any other. *)
Definition security_of (selected : Z) : option (T → bool * T) :=
  if selected =? PROTOCOL_RDSAAD then Some transport_connect_aad
  else if selected =? PROTOCOL_RDSTLS then Some transport_connect_rdstls
  else if selected =? PROTOCOL_HYBRID then Some (transport_connect_nla false)
  else if selected =? PROTOCOL_HYBRID_EX then Some (transport_connect_nla true)
  else if selected =? PROTOCOL_SSL then Some transport_connect_tls
  else if selected =? PROTOCOL_RDP then Some transport_connect_rdp
  else None.
Definition nego_try_connect : NM bool :=
  nego ← get_nego;
  match security_of (ng_SelectedProtocol nego) with
  | None => mret false
  | Some connect =>
      security ← on_transport connect;
      on_nego (λ nego, set_connected (ng_TcpConnected nego) security nego);;
      mret security
  end.
Definition nego_security_connect : NM bool :=
  nego ← get_nego;
  if negb (ng_TcpConnected nego) then on_nego (set_connected false false);; mret false
  else if negb (ng_SecurityConnected nego) then nego_try_connect
  else mret true.

Definition nego_transport_connect : NM bool :=
  tcp ← nego_tcp_connect;
  nego ← get_nego;
  if negb tcp then mret false
  else if ng_TcpConnected nego && negb (cf_NegotiateSecurityLayer (ng_config nego))
  then nego_security_connect
  else mret (ng_TcpConnected nego).
Definition nego_transport_disconnect : NM bool :=
  nego ← get_nego;
  (if ng_TcpConnected nego then on_transport (λ t, (tt, transport_disconnect t)) else mret tt);;
  on_nego (set_connected false false);;
  mret true.

Definition nego_send_preconnection_pdu : NM bool :=
  tcp ← nego_tcp_connect;
  if negb tcp then mret false
  else nego ← get_nego; send (preconnection_pdu nego).

(** ** Attempts *)

Definition nego_send_negotiation_request : NM bool :=
  nego ← get_nego; send (negotiation_request nego).

(** The stream of [nego_recv_response] holds the packet. *)
Definition nego_recv_response : NM bool :=
  match Stream_New None 1024 with
  | None => mret false
  | Some _ =>
      pdu ← on_transport transport_read_pdu;
      match pdu with
      | None => mret false
      | Some pdu =>
          nego ← get_nego;
          match nego_recv nego (Stream_StaticInit pdu (zlen pdu)) with
          | Ret ((ok, nego), _) => on_nego (λ _, nego);; mret ok
          | Abort => λ _, Abort
          end
      end
  end.

(** The request for these protocols and the response to it; [false] after a
    failure. *)
Definition attempt (requested : Z) : NM bool :=
  on_nego (nego_set_requested_protocols requested);;
  ok ← nego_transport_connect;
  ok ← (if ok : bool then nego_send_negotiation_request else mret false);
  ok ← (if ok : bool then nego_recv_response else mret false);
  if ok : bool then mret true
  else on_nego (nego_set_state NEGO_STATE_FAIL);; mret false.

(** The state of the first protocol that is enabled. *)
Fixpoint first_enabled (states : list (Z * NEGO_STATE)) (nego : rdpNego) : option NEGO_STATE :=
  match states with
  | [] => None
  | (protocol, state) :: states =>
      if ng_EnabledProtocols nego protocol then Some state else first_enabled states nego
  end.
Definition attempt_or (requested : Z) (states : list (Z * NEGO_STATE)) : NM unit :=
  ok ← attempt requested;
  nego ← get_nego;
  if negb ok || bool_decide (ng_state nego = NEGO_STATE_FINAL) then mret tt
  else
    nego_transport_disconnect;;
    nego ← get_nego;
    on_nego (nego_set_state (default NEGO_STATE_FAIL (first_enabled states nego))).

Definition after_tls : list (Z * NEGO_STATE) := [(PROTOCOL_RDP, NEGO_STATE_RDP)].
Definition after_nla : list (Z * NEGO_STATE) := (PROTOCOL_SSL, NEGO_STATE_TLS) :: after_tls.
Definition after_ext : list (Z * NEGO_STATE) := (PROTOCOL_HYBRID, NEGO_STATE_NLA) :: after_nla.
Definition after_aad : list (Z * NEGO_STATE) := (PROTOCOL_HYBRID_EX, NEGO_STATE_EXT) :: after_ext.

Definition nego_attempt_rdstls : NM unit := attempt_or (Z.lor PROTOCOL_RDSTLS PROTOCOL_SSL) after_aad.
Definition nego_attempt_rdsaad : NM unit := attempt_or PROTOCOL_RDSAAD after_aad.
Definition nego_attempt_ext : NM unit :=
  attempt_or (Z.lor (Z.lor PROTOCOL_HYBRID PROTOCOL_SSL) PROTOCOL_HYBRID_EX) after_ext.
Definition nego_attempt_nla : NM unit := attempt_or (Z.lor PROTOCOL_HYBRID PROTOCOL_SSL) after_nla.
Definition nego_attempt_tls : NM unit := attempt_or PROTOCOL_SSL after_tls.
Definition nego_attempt_rdp : NM unit := attempt PROTOCOL_RDP;; mret tt.

Definition nego_send : NM unit :=
  nego ← get_nego;
  match ng_state nego with
  | NEGO_STATE_AAD => nego_attempt_rdsaad
  | NEGO_STATE_RDSTLS => nego_attempt_rdstls
  | NEGO_STATE_EXT => nego_attempt_ext
  | NEGO_STATE_NLA => nego_attempt_nla
  | NEGO_STATE_TLS => nego_attempt_tls
  | NEGO_STATE_RDP => nego_attempt_rdp
  | _ => mret tt
  end.

(** ** The negotiation *)

Definition nego_failure_to_error (failureCode : Z) : Z :=
  if failureCode =? SSL_CERT_NOT_ON_SERVER then FREERDP_ERROR_TLS_CONNECT_FAILED
  else if failureCode =? HYBRID_REQUIRED_BY_SERVER then FREERDP_ERROR_CONNECT_HYBRID_REQUIRED_BY_SERVER
  else FREERDP_ERROR_SECURITY_NEGO_CONNECT_FAILED.

Definition set_last_error_if_not (e : Z) (cx : rdpContext) : rdpContext :=
  if cx_LastError cx =? FREERDP_ERROR_SUCCESS then
    mkContext e (cx_RequestedProtocols cx) (cx_SelectedProtocol cx) (cx_NegotiationFlags cx)
      (cx_UseRdpSecurityLayer cx) (cx_EncryptionMethods cx) (cx_EncryptionLevel cx) (cx_TlsSecurity cx)
      (cx_NlaSecurity cx) (cx_RdstlsSecurity cx) (cx_RdpSecurity cx) (cx_LocalConnection cx)
      (cx_RdpServerRsaKey cx) (cx_SupportGraphicsPipeline cx)
  else cx.

(** Without negotiation only the protocol of the state is left. *)
Definition only_protocols (keep : list Z) (enabled : Z → bool) : Z → bool := λ x,
  if bool_decide (x ∈ [PROTOCOL_RDSAAD; PROTOCOL_HYBRID; PROTOCOL_SSL; PROTOCOL_RDP; PROTOCOL_HYBRID_EX;
                       PROTOCOL_RDSTLS])
  then bool_decide (x ∈ keep) else enabled x.
Definition select_only (state : NEGO_STATE) (nego : rdpNego) : option rdpNego :=
  let only keep selected :=
    Some (nego_set_selected_protocol selected (set_enabled (only_protocols keep (ng_EnabledProtocols nego)) nego)) in
  match state with
  | NEGO_STATE_AAD => only [PROTOCOL_RDSAAD] PROTOCOL_RDSAAD
  | NEGO_STATE_RDSTLS => only [PROTOCOL_RDSTLS] PROTOCOL_RDSTLS
  | NEGO_STATE_EXT => only [PROTOCOL_HYBRID_EX; PROTOCOL_HYBRID] PROTOCOL_HYBRID_EX
  | NEGO_STATE_NLA => only [PROTOCOL_HYBRID] PROTOCOL_HYBRID
  | NEGO_STATE_TLS => only [PROTOCOL_SSL] PROTOCOL_SSL
  | NEGO_STATE_RDP => only [PROTOCOL_RDP] PROTOCOL_RDP
  | _ => None
  end.

Definition initial_states : list (Z * NEGO_STATE) :=
  (PROTOCOL_RDSAAD, NEGO_STATE_AAD) :: (PROTOCOL_RDSTLS, NEGO_STATE_RDSTLS) :: after_aad.

(** [if (nego_get_state(nego) == NEGO_STATE_INITIAL)] *)
Definition connect_initial : NM bool :=
  nego ← get_nego;
  match first_enabled initial_states nego with
  | None => on_nego (nego_set_state NEGO_STATE_FAIL);; mret false
  | Some state =>
      on_nego (nego_set_state state);;
      (if cf_NegotiateSecurityLayer (ng_config nego) then mret tt
       else on_nego (λ nego, default nego (select_only state nego)));;
      tcp ← nego_tcp_connect;
      if negb tcp then mret false
      else if cf_SendPreconnectionPdu (ng_config nego) then
        sent ← nego_send_preconnection_pdu;
        if negb sent then on_nego (nego_set_state NEGO_STATE_FINAL);; mret false else mret true
      else mret true
  end.

(** The [do] loop, for at most [fuel] attempts. *)
Fixpoint connect_loop (fuel : nat) : NM bool :=
  match fuel with
  | O => λ _, Abort
  | S fuel =>
      nego_send;;
      nego ← get_nego;
      if bool_decide (ng_state nego = NEGO_STATE_FAIL) then
        (if negb (ng_failureCode nego =? 0)
         then on_context (set_last_error_if_not (nego_failure_to_error (ng_failureCode nego))) else mret tt);;
        on_nego (nego_set_state NEGO_STATE_FINAL);;
        mret false
      else if bool_decide (ng_state nego = NEGO_STATE_FINAL) then mret true
      else connect_loop fuel
  end.

Definition nego_update_settings_from_state (nego : rdpNego) (cx : rdpContext) : rdpContext :=
  set_protocols (ng_RequestedProtocols nego) (ng_SelectedProtocol nego) (ng_flags nego) cx.
Definition rdp_security_settings (cx : rdpContext) : rdpContext :=
  mkContext (cx_LastError cx) (cx_RequestedProtocols cx) (cx_SelectedProtocol cx) (cx_NegotiationFlags cx)
    true (if cx_EncryptionMethods cx =? 0 then ENCRYPTION_METHODS_ALL else cx_EncryptionMethods cx)
    (cx_EncryptionLevel cx) (cx_TlsSecurity cx) (cx_NlaSecurity cx) (cx_RdstlsSecurity cx) (cx_RdpSecurity cx)
    (cx_LocalConnection cx) (cx_RdpServerRsaKey cx) (cx_SupportGraphicsPipeline cx).

(** There are six protocols to attempt. *)
Definition nego_connect : NM bool :=
  nego ← get_nego;
  ok ← (if bool_decide (ng_state nego = NEGO_STATE_INITIAL) then connect_initial else mret true);
  if negb ok then mret false
  else
    ok ← (if negb (cf_NegotiateSecurityLayer (ng_config nego))
          then on_nego (nego_set_state NEGO_STATE_FINAL);; mret true
          else connect_loop 6);
    if negb ok then mret false
    else
      nego ← get_nego;
      on_context (nego_update_settings_from_state nego);;
      (if ng_SelectedProtocol nego =? PROTOCOL_RDP then on_context rdp_security_settings else mret tt);;
      nego_security_connect.

Definition nego_disconnect : NM bool :=
  on_nego (nego_set_state NEGO_STATE_INITIAL);;
  nego_transport_disconnect.

(** ** The server's response *)

Definition nego_send_negotiation_response : NM bool :=
  nego ← get_nego;
  ((λ se,
      match send (negotiation_response nego (se_context se)) se with
      | Abort => Abort
      | Ret (false, se) => Ret (false, se)
      | Ret (true, se) =>
          let '(ok, cx) := response_settings nego (se_context se) in
          Ret (ok, mkSession (se_nego se) cx (se_transport se))
      end) : NM bool).
End client.
Arguments session T : clear implicits.
Arguments NM T A : clear implicits.
