(* ===== verification/NegoCorrect.v ===== *)
(** Correctness of the negotiation: the readers on any input, the delivery of
    requests and responses, and the client's state machine against any server. *)

From S2P Require Import Prelude Stream StreamLogic Transmission Framing Nego.
From stdpp Require Import prelude list numbers strings.
From Stdlib Require Import ZArith Lia.

#[local] Open Scope Z_scope.

(** * Readers *)

Lemma run_Read_UINT8 s :
  readable s → 1 <= rem s → ∃ v, Stream_Read_UINT8 s = Ret (v, adv 1 s) ∧ is_byte v.
Proof.
  intros Hs Hr. eexists. split; [by apply run_stream_read|].
  pose proof Hs as [Hwf ?]. pose proof (slice_bytes 1 s Hwf) as Hb.
  pose proof (get_be_range _ Hb) as Hg. destruct Hwf. unfold rem in Hr.
  rewrite zlen_zslice in Hg by lia. exact Hg.
Qed.

(** The header of any TPDU but data has seven bytes. *)
Lemma run_tpdu_header tpktlength s :
  readable s →
  ∃ r s', tpdu_read_header tpktlength s = Ret (r, s') ∧ same_data s s' ∧
    match r with
    | Some (code, li) =>
        is_byte li ∧ li + 4 <= tpktlength ∧ (code ≠ X224_TPDU_DATA → st_pointer s' = st_pointer s + 7)
    | None => True
    end.
Proof.
  intros Hs. unfold tpdu_read_header. erewrite bind_Ret by by apply run_CheckLength.
  destruct (Z.ltb_spec (rem s) 3); [exists None, s; split_and!; try done; by apply same_data_refl|].
  destruct (run_Read_UINT8 s) as (li & E1 & Hli); [done|lia|]. erewrite bind_Ret by done.
  assert (readable (adv 1 s)) as Hs1 by (apply readable_adv; [done|lia]).
  destruct (run_Read_UINT8 (adv 1 s)) as (code & E2 & _); [done|rewrite rem_adv; lia|].
  erewrite bind_Ret by done. rewrite adv_adv. change (1 + 1) with 2.
  assert (same_data s (adv 2 s)) as Hd by (apply same_data_adv; [done|lia]).
  destruct (Z.gtb_spec (li + 4) tpktlength); [by exists None, (adv 2 s)|].
  destruct (Z.eqb_spec code X224_TPDU_DATA).
  - erewrite bind_Ret; cycle 1.
    { apply run_Seek; [apply Hd|]. destruct Hs as [[] ?]. unfold rem in *. simpl. lia. }
    rewrite adv_adv. eexists _, _. split; [done|]. split; [apply same_data_adv; [done|lia]|].
    by split_and!.
  - unfold Stream_SafeSeekEx. unfold mbind at 1, SM_bind at 1.
    erewrite bind_Ret by by apply (run_CheckLength 5), Hd.
    rewrite rem_adv. destruct (Z.ltb_spec (rem s - 2) 5); [by exists None, (adv 2 s)|].
    erewrite bind_Ret; cycle 1.
    { apply run_Seek; [apply Hd|]. destruct Hs as [[] ?]. unfold rem in *. simpl. lia. }
    rewrite adv_adv. eexists _, _. split; [done|]. split; [apply same_data_adv; [done|lia]|].
    by split_and!.
Qed.

(** The bytes that the length indicator of a confirm announces are there. *)
Lemma safe_tpdu_confirm_then {B} tpktlength (k : option Z → SM B) P :
  safe 0 (k None) P →
  (∀ li, is_byte li → 6 <= li → li + 4 <= tpktlength → safe (li - 6) (k (Some li)) P) →
  safe 0 (x ← tpdu_read_connection_confirm tpktlength; k x) P.
Proof.
  intros HN HS s Hs _. pose proof Hs as [Hwf ?].
  assert (∃ r s', tpdu_read_connection_confirm tpktlength s = Ret (r, s') ∧ same_data s s' ∧
    match r with
    | Some li => is_byte li ∧ 6 <= li ∧ li + 4 <= tpktlength ∧ li - 6 <= rem s'
    | None => True
    end) as (r & s1 & E & Hd & Hr).
  { unfold tpdu_read_connection_confirm. erewrite bind_Ret by by apply run_GetPosition.
    destruct (run_tpdu_header tpktlength s Hs) as ([[code li]|] & s1 & E & Hd & Hr); rewrite (bind_Ret _ _ _ _ _ E);
      [|by exists None, s1].
    destruct Hr as (Hb & Hli & Hp). destruct (Z.eqb_spec code X224_TPDU_CONNECTION_CONFIRM) as [Hc|]; cbn [negb];
      [|by exists None, s1].
    rewrite Hc in Hp. specialize (Hp ltac:(done)). pose proof Hd as [_ _ _ [Hwf1 ?]].
    erewrite bind_Ret by by apply run_GetPosition. cbv zeta. rewrite Hp.
    replace (u64 (u64 (st_pointer s + 7 - st_pointer s) - 1)) with 6
      by (replace (st_pointer s + 7 - st_pointer s) with 7 by lia; done).
    erewrite bind_Ret by by apply run_CheckLength.
    destruct (Z.ltb_spec (rem s1) (u64 (li - 6))) as [|Hle]; [by exists None, s1|].
    exists (Some li), s1. split_and!; try done; unfold is_byte in *.
    - destruct (Z.lt_ge_cases li 6) as [Hlt|]; [|done]. exfalso.
      unfold u64 in Hle. rewrite <- (Z.mod_unique (li - 6) 18446744073709551616 (-1)
        (18446744073709551616 + li - 6)) in Hle by lia.
      unfold rem in Hle. destruct Hwf1, Hwf. unfold SIZE_MAX in *. lia.
    - unfold u64 in Hle. pose proof (Z.mod_pos_bound (li - 6) 18446744073709551616 ltac:(lia)).
      destruct (Z.lt_ge_cases li 6); [pose proof (readable_rem s1 ltac:(done)); lia|].
      rewrite Z.mod_small in Hle by lia. lia. }
  rewrite (bind_Ret _ _ _ _ _ E).
  assert (∃ a s', k r s1 = Ret (a, s') ∧ same_data s1 s' ∧ P a) as (a & s2 & E2 & Hd2 & Ha).
  { destruct r as [li|].
    - destruct Hr as (? & ? & ? & ?). apply HS; try done. apply Hd.
    - apply HN; [apply Hd|]. apply readable_rem, Hd. }
  exists a, s2. split_and!; [done|by eapply same_data_trans|done].
Qed.

(** The protocols the client checks that it enabled before it uses them. *)
Definition checked_protocols : list Z := [PROTOCOL_RDP; PROTOCOL_SSL; PROTOCOL_HYBRID; PROTOCOL_RDSAAD].

(** What the server selected was enabled, or it selected nothing and plain RDP
    security was enabled. *)
Definition accepts (nego nego' : rdpNego) : Prop :=
  let selected := ng_SelectedProtocol nego' in
  (selected ∈ checked_protocols → ng_EnabledProtocols nego selected = true) ∨
  (ng_EnabledProtocols nego PROTOCOL_RDP = true ∧ selected = ng_SelectedProtocol nego).

(** What an answer leaves alone: no protocol is enabled by it. *)
Record narrowed (nego nego' : rdpNego) : Prop := {
  nw_config : ng_config nego' = ng_config nego;
  nw_cookie : ng_cookie nego' = ng_cookie nego;
  nw_token : ng_RoutingToken nego' = ng_RoutingToken nego;
  nw_enabled p : ng_EnabledProtocols nego' p = true → ng_EnabledProtocols nego p = true;
}.
Lemma narrowed_refl nego : narrowed nego nego.
Proof. by split. Qed.
Lemma narrowed_trans n1 n2 n3 : narrowed n1 n2 → narrowed n2 n3 → narrowed n1 n3.
Proof. intros [] []. split; [congruence..|auto]. Qed.

Definition answered (nego : rdpNego) (r : bool * rdpNego) : Prop :=
  narrowed nego r.2 ∧
  (r.1 = true →
   ng_state r.2 = NEGO_STATE_FAIL ∨ ng_state r.2 = NEGO_STATE_FINAL ∧ accepts nego r.2).

Lemma safe_response nego :
  safe 0 (nego_process_negotiation_response nego) (λ '(ok, nego'),
    narrowed nego nego' ∧
    (ok = true → ng_state nego' = NEGO_STATE_FINAL ∧ ng_EnabledProtocols nego' = ng_EnabledProtocols nego)).
Proof. unfold nego_process_negotiation_response. repeat safe_step; by split. Qed.

Lemma safe_failure nego :
  safe 0 (nego_process_negotiation_failure nego) (λ '(ok, nego'),
    narrowed nego nego' ∧ (ok = true → ng_state nego' = NEGO_STATE_FAIL)).
Proof.
  unfold nego_process_negotiation_failure. repeat safe_step; (split; [|done]); try apply narrowed_refl.
  unfold on_failure, nego_disable_all_except. repeat case_match; split; cbn; try done;
    intros p; repeat case_match; done.
Qed.

Lemma check_selected_ok nego nego' :
  ng_state nego' = NEGO_STATE_FINAL → ng_EnabledProtocols nego' = ng_EnabledProtocols nego →
  narrowed nego nego' → answered nego (true, check_selected nego').
Proof.
  intros Hst He Hn. unfold check_selected, answered. cbn [fst snd]. rewrite He.
  destruct (Z.eqb_spec (ng_SelectedProtocol nego') 0) as [Hz|Hz]; cbn [negb].
  - destruct (ng_EnabledProtocols nego PROTOCOL_RDP) eqn:Hr; cbn [negb].
    + split; [done|]. intros _. right. split; [done|]. left. intros _. by rewrite Hz.
    + split; [|by left]. destruct Hn. by split.
  - destruct (_ || _) eqn:Ho.
    + split; [|by left]. destruct Hn. by split.
    + split; [done|]. intros _. right. split; [done|]. left. unfold checked_protocols.
      apply orb_false_iff in Ho as [Ho H3]. apply orb_false_iff in Ho as [H1 H2].
      rewrite !elem_of_cons, elem_of_nil. intros [Hs|[Hs|[Hs|[Hs|[]]]]]; rewrite Hs in *; [done|..];
        rewrite Z.eqb_refl in *; cbn [andb] in *; by apply negb_false_iff.
Qed.

Lemma safe_neg_data li nego :
  6 <= li → safe (li - 6) (recv_neg_data li nego) (answered nego).
Proof.
  intros Hli. unfold recv_neg_data. destruct (Z.gtb_spec li 6).
  - safe_step. destruct (v =? TYPE_RDP_NEG_RSP).
    + eapply (safe_weaken _ 0); [lia|]. eapply safe_bind; [apply safe_response|].
      intros [ok nego'] [Hn Hf]. destruct ok; cbn [negb]; safe_step.
      * destruct (Hf eq_refl). by apply check_selected_ok.
      * by split.
    + destruct (v =? TYPE_RDP_NEG_FAILURE); [|safe_step; split; [apply narrowed_refl|done]].
      eapply (safe_weaken _ 0); [lia|]. eapply safe_mono; [|apply safe_failure].
      intros [ok nego'] [Hn Hf]. split; [done|]. intros Hok. left. by apply Hf.
  - replace (li =? 6) with true by lia. destruct (ng_EnabledProtocols nego PROTOCOL_RDP) eqn:Hr; cbn [negb]; safe_step.
    + split; [by split|]. intros _. right. split; [done|]. by right.
    + split; [by split|]. by left.
Qed.

Lemma safe_nego_recv nego : safe 0 (nego_recv nego) (answered nego).
Proof.
  assert (∀ nego', narrowed nego nego' → answered nego (false, nego')) as HF by (intros; by split).
  unfold nego_recv. eapply (safe_bind _ _ _ (λ _, True)).
  { unfold tpkt_read_header. by repeat safe_step. }
  intros [length|] _; [|safe_step; apply HF, narrowed_refl].
  apply safe_tpdu_confirm_then; [safe_step; apply HF, narrowed_refl|].
  intros li Hb Hli Hle. eapply safe_bind; [by apply safe_neg_data|].
  intros [ok nego'] Ha. pose proof Ha as [Hn _]. destruct ok; cbn [negb]; [|safe_step; by apply HF].
  eapply (safe_bind _ _ _ (λ _, True)).
  { unfold tpkt_ensure_stream_consumed. by repeat safe_step. }
  intros [u|] _; safe_step; [done|by apply HF].
Qed.

(** * Requests *)

Section requests.
Context {HM : Malloc}.

(** The values fit their types. *)
Record nego_ok (nego : rdpNego) : Prop := {
  no_token : bytes (default [] (ng_RoutingToken nego));
  no_cookie : bytes (default [] (ng_cookie nego));
  no_max : 0 <= cf_CookieMaxLength (ng_config nego);
  no_requested : 0 <= ng_RequestedProtocols nego <= UINT32_MAX;
}.

Definition token_part (nego : rdpNego) : list Z :=
  match ng_RoutingToken nego with
  | Some token => token ++ (if token_terminated token then [] else [0x0D; 0x0A])
  | None =>
      match ng_cookie nego with
      | Some cookie =>
          ascii_of "Cookie: mstshash=" ++
          ztake (Z.min (zlen cookie) (cf_CookieMaxLength (ng_config nego))) cookie ++ [0x0D; 0x0A]
      | None => []
      end
  end.
Definition neg_data (type flags value : Z) : list Z :=
  [type; flags] ++ winpr_Data_Write_UINT16 8 ++ winpr_Data_Write_UINT32 value.
Definition neg_part (nego : rdpNego) : list Z :=
  if (ng_RequestedProtocols nego >? PROTOCOL_RDP) || ng_sendNegoData nego
  then neg_data TYPE_RDP_NEG_REQ (request_mode_flags (ng_config nego)) (ng_RequestedProtocols nego) else [].
Definition request_body (nego : rdpNego) : list Z := token_part nego ++ neg_part nego.

(** A connection PDU with this variable part. *)
Definition connection_pdu (code : Z) (body : list Z) : list Z :=
  [3; 0] ++ winpr_Data_Write_UINT16_BE (11 + zlen body) ++ ([6 + zlen body; code] ++ zeros 5) ++ body.

Lemma puts_neg_data n type flags value :
  8 <= n → is_byte type → is_byte flags → 0 <= value <= UINT32_MAX →
  puts n (write_neg_data type flags value) (neg_data type flags value) (Some tt).
Proof.
  intros Hn Ht Hf Hv. unfold write_neg_data, neg_data. cbn [app].
  apply puts_UINT8; [lia|done|]. apply puts_UINT8; [lia|done|].
  apply puts_UINT16; [lia|done|]. apply puts_nil_r, puts_UINT32; [lia|done|]. apply puts_ret.
Qed.
Lemma puts_crlf n : 2 <= n → puts n write_crlf [0x0D; 0x0A] (Some tt).
Proof.
  intros Hn. apply puts_ensure; [lia|]. apply puts_UINT8; [lia|done|]. apply puts_UINT8; [lia|done|]. apply puts_ret.
Qed.

Lemma puts_token_or_cookie n nego :
  nego_ok nego → zlen (token_part nego) <= n →
  puts n (write_token_or_cookie nego) (token_part nego) (Some tt).
Proof.
  intros [Ht Hc Hm _] Hn. unfold write_token_or_cookie, token_part in *.
  destruct (ng_RoutingToken nego) as [token|]; cbn [default] in Ht.
  { rewrite zlen_app in Hn. pose proof (zlen_nonneg token).
    destruct (token_terminated token); cbn in Hn.
    - change (zlen []) with 0 in Hn. apply puts_ensure; [lia|]. apply puts_Write; [lia|done|apply puts_ret].
    - change (zlen [13; 10]) with 2 in Hn. apply puts_ensure; [lia|]. apply puts_Write; [lia|done|]. apply puts_crlf. lia. }
  destruct (ng_cookie nego) as [cookie|]; [|apply puts_ret]. cbn [default] in Hc. cbv zeta.
  set (len := Z.min _ _) in *. pose proof (zlen_nonneg cookie). assert (0 <= len <= zlen cookie) as Hl by lia.
  rewrite !zlen_app, zlen_ztake in Hn. change (zlen (ascii_of _)) with 17 in Hn. change (zlen [13; 10]) with 2 in Hn.
  apply puts_ensure; [lia|]. apply puts_Write; [change (zlen (ascii_of _)) with 17; lia|by repeat constructor|].
  change (zlen (ascii_of _)) with 17. apply puts_ensure; [lia|].
  apply puts_Write; [rewrite zlen_ztake; lia|by apply Forall_take|]. rewrite zlen_ztake. apply puts_crlf. lia.
Qed.

Lemma request_mode_flags_byte cf : is_byte (request_mode_flags cf).
Proof. unfold request_mode_flags. by repeat case_match. Qed.

Lemma puts_neg_part n nego :
  nego_ok nego → zlen (neg_part nego) <= n →
  puts n (if (ng_RequestedProtocols nego >? PROTOCOL_RDP) || ng_sendNegoData nego then
            TRY Stream_EnsureRemainingCapacity 8;
            write_neg_data TYPE_RDP_NEG_REQ (request_mode_flags (ng_config nego)) (ng_RequestedProtocols nego)
          else TRUE) (neg_part nego) (Some tt).
Proof.
  intros Hok Hn. unfold neg_part in *. destruct (_ || _); [|apply puts_ret].
  change (zlen (neg_data _ _ _)) with 8 in Hn. apply puts_ensure; [lia|].
  apply puts_neg_data; [lia|done|apply request_mode_flags_byte|apply Hok].
Qed.

(** The headers go over the first eleven bytes; a length indicator of more than a
    byte aborts. *)
Lemma run_write_headers body code s :
  wf s → written s = zeros 11 ++ body → 11 + zlen body <= UINT16_MAX → is_byte code → code ≠ X224_TPDU_DATA →
  if 6 + zlen body <=? UINT8_MAX then
    ∃ s', write_headers 0 (11 + zlen body) (λ l, tpdu_write_header l code) s = Ret (Some tt, s') ∧
      wf s' ∧ written s' = connection_pdu code body
  else write_headers 0 (11 + zlen body) (λ l, tpdu_write_header l code) s = Abort.
Proof.
  intros Hwf Hw Hmax Hc Hnd. pose proof (zlen_written s Hwf) as Hp. rewrite Hw, zlen_app in Hp.
  change (zlen (zeros 11)) with 11 in Hp. pose proof (zlen_nonneg body) as Hb. pose proof Hwf as [].
  unfold write_headers. erewrite bind_Ret by by apply run_GetPosition.
  erewrite bind_Ret by (apply run_SetPosition; lia).
  destruct (puts_tpkt_header 4 (11 + zlen body) ltac:(lia) ltac:(lia) (set_pointer 0 s)) as (s1 & E1 & W1);
    [apply wf_set_pointer; [done|lia]|unfold fits; cbn; lia|].
  rewrite (bind_Ret _ _ _ _ _ E1). replace (11 + zlen body - 5) with (6 + zlen body) by lia.
  pose proof W1 as [Hwf1 _ Hp1 Hc1 _]. cbn [set_pointer st_pointer st_capacity] in *.
  change (zlen ([3; 0] ++ _)) with 4 in Hp1.
  destruct (Z.leb_spec (6 + zlen body) UINT8_MAX).
  - unfold UINT8_MAX in *.
    assert (tpdu_tail code = zeros 5) as Htail by (unfold tpdu_tail; by rewrite (proj2 (Z.eqb_neq _ _) Hnd)).
    destruct (puts_tpdu_header 7 (6 + zlen body) code) with (s := s1) as (s2 & E2 & W2);
      [by rewrite Htail|unfold is_byte; lia|done|done|unfold fits; lia|].
    rewrite (bind_Ret _ _ _ _ _ E2). rewrite Htail in W2.
    pose proof (wstep_trans _ _ _ _ _ _ _ W1 W2) as W. change (0 + 0) with 0 in W.
    set (hdr := _ ++ _) in W. assert (zlen hdr = 11) as Hh by done.
    destruct (backfilled 0 hdr s s2 Hwf ltac:(lia) ltac:(lia) W) as (Hcap & Hwf' & Hw').
    erewrite bind_Ret by (apply run_SetPosition; lia).
    eexists. split; [|split].
    + erewrite bind_Ret; [done|]. unfold Stream_SealLength. cbn [set_pointer st_pointer st_capacity].
      by replace (_ && _) with true by lia.
    + destruct Hwf'. split; cbn in *; done || lia.
    + change (written _) with (written (set_pointer (st_pointer s) s2)). rewrite Hw'.
      unfold zblit, connection_pdu. rewrite Hw, Hh. change (0 + 11) with (zlen (zeros 11)).
      rewrite zdrop_app_ge, Z.sub_diag by lia. change (ztake 0 _) with (@nil Z).
      rewrite (zdrop_nonpos 0) by lia. unfold hdr. cbn [app]. done.
  - erewrite bind_Abort; [done|]. unfold tpdu_write_header.
    erewrite bind_Ret by by apply run_CheckCapacity. replace (_ <? 3) with false by lia.
    unfold WINPR_ASSERT, mbind, SM_bind. by replace (6 + zlen body <=? UINT8_MAX) with false by lia.
Qed.

Lemma new_512 s : Stream_New None 512 = Some s → wf s ∧ st_pointer s = 0 ∧ st_capacity s = 512.
Proof.
  unfold Stream_New. cbn [andb Z.eqb]. destruct (negb _); [done|]. destruct (malloc_ok 512); [|done].
  intros [= <-]. split; [|done]. split; try done. apply bytes_zeros.
Qed.

(** Eleven bytes and the variable part. *)
Lemma run_SafeZero s :
  wf s → fits s 11 → ∃ s', Stream_SafeZeroEx 11 s = Ret (Some tt, s') ∧ wstep s s' (zeros 11) 0.
Proof.
  intros Hwf Hf. apply (puts_nil_r 11); [|done|done].
  unfold Stream_SafeZeroEx. change (Stream_CheckAndLogRequiredCapacityEx 11 1) with
    (Stream_CheckAndLogRequiredCapacity 11). apply puts_check; [lia|].
  apply puts_Zero; [lia|]. apply puts_ret.
Qed.

Lemma written_fresh s s' bs c : wstep s s' bs c → st_pointer s = 0 → written s' = bs.
Proof. intros [] Hp. rewrite ws_written. unfold written. by rewrite Hp. Qed.

Lemma negotiation_request_spec nego :
  nego_ok nego → zlen (request_body nego) <= 501 →
  match Stream_New None 512 with
  | None => negotiation_request nego = Ret None
  | Some _ =>
      if 6 + zlen (request_body nego) <=? UINT8_MAX then
        ∃ s, negotiation_request nego = Ret (Some s) ∧ wf s ∧
          written s = connection_pdu X224_TPDU_CONNECTION_REQUEST (request_body nego)
      else negotiation_request nego = Abort
  end.
Proof.
  intros Hok Hlen. unfold negotiation_request, on_new_stream.
  destruct (Stream_New None 512) as [s|] eqn:Hs; [|done]. destruct (new_512 s Hs) as (Hwf & Hp & Hcap).
  erewrite bind_Ret by by apply run_GetPosition. rewrite Hp.
  destruct (run_SafeZero s Hwf) as (s1 & E1 & W1); [unfold fits; lia|]. rewrite (bind_Ret _ _ _ _ _ E1).
  unfold request_body in Hlen. rewrite zlen_app in Hlen.
  pose proof (zlen_nonneg (token_part nego)). pose proof (zlen_nonneg (neg_part nego)).
  pose proof W1 as [Hwf1 _ Hp1 Hc1 _]. change (zlen (zeros 11)) with 11 in Hp1.
  destruct (puts_token_or_cookie (zlen (token_part nego)) nego) with (s := s1) as (s2 & E2 & W2);
    [done|lia|done|unfold fits; lia|].
  rewrite (bind_Ret _ _ _ _ _ E2). pose proof W2 as [Hwf2 _ Hp2 Hc2 _].
  destruct (puts_neg_part (zlen (neg_part nego)) nego) with (s := s2) as (s3 & E3 & W3);
    [done|lia|done|unfold fits; lia|].
  rewrite (bind_Ret _ _ _ _ _ E3). pose proof W3 as [Hwf3 _ Hp3 _ _].
  erewrite bind_Ret by by apply run_GetPosition.
  pose proof (wstep_trans _ _ _ _ _ _ _ W1 (wstep_trans _ _ _ _ _ _ _ W2 W3)) as W.
  pose proof (written_fresh _ _ _ _ W Hp) as Hw. fold (request_body nego) in Hw.
  assert (st_pointer s3 = 11 + zlen (request_body nego)) as -> by (unfold request_body; rewrite zlen_app; lia).
  unfold request_body, UINT16_MAX in *. rewrite zlen_app in *.
  replace (_ || _) with false by lia. rewrite <- zlen_app in *.
  pose proof (run_write_headers _ X224_TPDU_CONNECTION_REQUEST s3 Hwf3 Hw) as Hrun.
  unfold tpdu_write_connection_request. unfold UINT16_MAX in Hrun.
  destruct (_ <=? UINT8_MAX).
  - destruct Hrun as (s' & -> & Hwf' & Hw'); [lia|done..|]. by exists s'.
  - rewrite Hrun; [done|lia|done..].
Qed.

(** * Responses *)

(** What the server answers. *)
Definition response_body (nego : rdpNego) (cx : rdpContext) : list Z :=
  if negb (Z.land (ng_SelectedProtocol nego) PROTOCOL_FAILED_NEGO =? 0)
  then neg_data TYPE_RDP_NEG_FAILURE 0 (Z.land (ng_SelectedProtocol nego) (u32 (Z.lnot PROTOCOL_FAILED_NEGO)))
  else neg_data TYPE_RDP_NEG_RSP (response_flags nego cx) (ng_SelectedProtocol nego).

Lemma response_flags_byte nego cx : is_byte (response_flags nego cx).
Proof. unfold response_flags. by repeat case_match. Qed.

Lemma negotiation_response_spec nego cx :
  0 <= ng_SelectedProtocol nego <= UINT32_MAX →
  match Stream_New None 512 with
  | None => negotiation_response nego cx = Ret None
  | Some _ =>
      ∃ s, negotiation_response nego cx = Ret (Some s) ∧ wf s ∧
        written s = connection_pdu X224_TPDU_CONNECTION_CONFIRM (response_body nego cx)
  end.
Proof.
  intros Hsel. unfold negotiation_response, on_new_stream.
  destruct (Stream_New None 512) as [s|] eqn:Hs; [|done]. destruct (new_512 s Hs) as (Hwf & Hp & Hcap).
  erewrite bind_Ret by by apply run_GetPosition. rewrite Hp.
  destruct (run_SafeZero s Hwf) as (s1 & E1 & W1); [unfold fits; lia|]. rewrite (bind_Ret _ _ _ _ _ E1).
  pose proof W1 as [Hwf1 _ Hp1 Hc1 _]. change (zlen (zeros 11)) with 11 in Hp1.
  match goal with |- context [mbind _ ?m s1] =>
    assert (∃ s2, m s1 = Ret (Some tt, s2) ∧ wstep s1 s2 (response_body nego cx) 0) as (s2 & E2 & W2) end.
  { unfold response_body. destruct (negb _).
    - apply (puts_neg_data 8); [lia|done|done| |done|unfold fits; lia].
      assert (0 <= Z.land (ng_SelectedProtocol nego) (u32 (Z.lnot PROTOCOL_FAILED_NEGO)) < 2 ^ 32); [|unfold UINT32_MAX; lia].
      change (u32 (Z.lnot PROTOCOL_FAILED_NEGO)) with (Z.ones 31). rewrite Z.land_ones by lia.
      pose proof (Z.mod_pos_bound (ng_SelectedProtocol nego) (2 ^ 31) ltac:(lia)). lia.
    - apply (puts_neg_data 8); [lia|done|apply response_flags_byte|done|done|unfold fits; lia]. }
  rewrite (bind_Ret _ _ _ _ _ E2).
  assert (zlen (response_body nego cx) = 8) as Hl by (unfold response_body; by destruct (negb _)).
  pose proof (written_fresh _ _ _ _ (wstep_trans _ _ _ _ _ _ _ W1 W2) Hp) as Hw.
  pose proof (run_write_headers _ X224_TPDU_CONNECTION_CONFIRM s2 ltac:(by destruct W2) Hw) as Hrun.
  rewrite Hl in Hrun. destruct Hrun as (s' & E3 & Hwf' & Hw'); [done..|].
  unfold tpdu_write_connection_confirm. rewrite E3. by exists s'.
Qed.
End requests.

(** * The client *)

(** What the client relies on: a packet consists of bytes. *)
Class TransportLaws (T : Type) {HT : Transport T} : Prop := {
  law_read_pdu t pdu t' : transport_read_pdu t = (Some pdu, t') → bytes pdu ∧ zlen pdu <= SIZE_MAX;
}.

Section client.
Context {HM : Malloc} {T : Type} {HT : Transport T} {HL : TransportLaws T}.
Implicit Types (se : session T) (nego : rdpNego).

(** [m] returns, with a result and a session that satisfy [Q]. *)
Definition runs {A} (m : NM T A) (se : session T) (Q : A → session T → Prop) : Prop :=
  ∃ a se', m se = Ret (a, se') ∧ Q a se'.

Lemma runs_ret {A} (a : A) se (Q : A → session T → Prop) : Q a se → runs (mret a) se Q.
Proof. intros. by exists a, se. Qed.
Lemma runs_bind {A B} (m : NM T A) (k : A → NM T B) se (Q : B → session T → Prop) :
  runs m se (λ a se', runs (k a) se' Q) → runs (x ← m; k x) se Q.
Proof.
  intros (a & se' & E & b & se'' & E' & HQ). exists b, se''. split; [|done].
  unfold mbind, NM_bind. by rewrite E.
Qed.
Lemma runs_mono {A} (m : NM T A) se (Q Q' : A → session T → Prop) :
  runs m se Q → (∀ a se', Q a se' → Q' a se') → runs m se Q'.
Proof. intros (a & se' & E & HQ) HQ'. exists a, se'. auto. Qed.
Lemma runs_get se (Q : rdpNego → session T → Prop) : Q (se_nego se) se → runs get_nego se Q.
Proof. intros. by exists (se_nego se), se. Qed.
Lemma runs_nego f se (Q : unit → session T → Prop) :
  Q tt (mkSession (f (se_nego se)) (se_context se) (se_transport se)) → runs (on_nego f) se Q.
Proof. intros. by eexists _, _. Qed.
Lemma runs_context f se (Q : unit → session T → Prop) :
  Q tt (mkSession (se_nego se) (f (se_context se)) (se_transport se)) → runs (on_context f) se Q.
Proof. intros. by eexists _, _. Qed.
Lemma runs_transport {A} (f : T → A * T) se (Q : A → session T → Prop) :
  (∀ a t, f (se_transport se) = (a, t) → Q a (mkSession (se_nego se) (se_context se) t)) →
  runs (on_transport f) se Q.
Proof.
  intros HQ. unfold runs, on_transport. destruct (f (se_transport se)) as [a t]. eexists _, _. split; [done|].
  by apply HQ.
Qed.

(** ** Connecting *)

Definition reconnected nego nego' : Prop := ∃ tcp security, nego' = set_connected tcp security nego.
Lemma reconnected_refl nego : reconnected nego nego.
Proof. exists (ng_TcpConnected nego), (ng_SecurityConnected nego). by destruct nego. Qed.
Lemma reconnected_trans n1 n2 n3 : reconnected n1 n2 → reconnected n2 n3 → reconnected n1 n3.
Proof. intros (a & b & ->) (c & d & ->). by exists c, d. Qed.
Lemma reconnected_narrowed n1 n2 : reconnected n1 n2 → narrowed n1 n2.
Proof. intros (a & b & ->). by split. Qed.

(** Only the connection changes. *)
Definition connects (m : NM T bool) : Prop := ∀ se,
  runs m se (λ _ se', reconnected (se_nego se) (se_nego se') ∧ se_context se' = se_context se).

Lemma connects_tcp_attempt : connects tcp_attempt.
Proof.
  intros se. apply runs_bind, runs_transport. intros tcp t _. apply runs_bind, runs_nego, runs_ret.
  split; [|done]. by eexists _, _.
Qed.
Lemma connects_tcp : connects nego_tcp_connect.
Proof.
  intros se. unfold nego_tcp_connect. apply runs_bind, runs_get.
  destruct (ng_TcpConnected _); [apply runs_ret; split; [apply reconnected_refl|done]|].
  destruct (cf_GatewayEnabled _).
  - apply runs_bind. eapply (runs_mono _ _ (λ _ se', reconnected (se_nego se) (se_nego se') ∧
      se_context se' = se_context se)).
    + destruct (cf_GatewayBypassLocal _); [|apply runs_ret; split; [apply reconnected_refl|done]].
      apply runs_bind, runs_transport. intros [] t _. exact (connects_tcp_attempt _).
    + intros tcp se1 [Hr Hc]. destruct tcp; [by apply runs_ret|].
      apply runs_bind, runs_transport. intros [] t _. eapply runs_mono; [apply connects_tcp_attempt|].
      intros ok se2 [Hr2 Hc2]. cbn in *. split; [by eapply reconnected_trans|congruence].
  - destruct (cf_ConnectChildSession _); [|exact (connects_tcp_attempt _)].
    apply runs_bind, runs_transport. intros tcp t _. apply runs_bind, runs_nego, runs_ret.
    split; [|done]. by eexists _, _.
Qed.

(** A secured connection, if it succeeds. *)
Lemma runs_security se :
  runs nego_security_connect se (λ ok se',
    reconnected (se_nego se) (se_nego se') ∧ se_context se' = se_context se ∧
    (ok = true → ng_SecurityConnected (se_nego se') = true)).
Proof.
  unfold nego_security_connect. apply runs_bind, runs_get.
  destruct (ng_TcpConnected _); cbn [negb].
  2:{ apply runs_bind, runs_nego, runs_ret. split_and!; [by eexists _, _|done..]. }
  destruct (ng_SecurityConnected (se_nego se)) eqn:Hs; cbn [negb].
  { apply runs_ret. split_and!; [apply reconnected_refl|done..]. }
  unfold nego_try_connect. apply runs_bind, runs_get. destruct (security_of _) as [connect|].
  - apply runs_bind, runs_transport. intros ok t _. apply runs_bind, runs_nego, runs_ret.
    split_and!; [by eexists _, _|done..].
  - apply runs_ret. split_and!; [apply reconnected_refl|done..].
Qed.
Lemma connects_transport : connects nego_transport_connect.
Proof.
  intros se. apply runs_bind. eapply runs_mono; [apply connects_tcp|]. intros tcp se1 [Hr Hc].
  apply runs_bind, runs_get. destruct tcp; cbn [negb]; [|by apply runs_ret].
  destruct (_ && _); [|by apply runs_ret]. eapply runs_mono; [apply runs_security|].
  intros ok se2 (Hr2 & Hc2 & _). split; [by eapply reconnected_trans|congruence].
Qed.
Lemma connects_disconnect : connects nego_transport_disconnect.
Proof.
  intros se. apply runs_bind, runs_get. apply runs_bind. destruct (ng_TcpConnected _).
  - apply runs_transport. intros [] t _. apply runs_bind, runs_nego, runs_ret. split; [by eexists _, _|done].
  - apply runs_ret, runs_bind, runs_nego, runs_ret. split; [by eexists _, _|done].
Qed.

(** ** Attempts *)

(** The request for any protocols fits the length indicator of its TPDU. *)
Record ready nego : Prop := {
  rd_token : bytes (default [] (ng_RoutingToken nego));
  rd_cookie : bytes (default [] (ng_cookie nego));
  rd_max : 0 <= cf_CookieMaxLength (ng_config nego);
  rd_fits : zlen (token_part nego) <= 241;
}.
Lemma narrowed_ready nego nego' : narrowed nego nego' → ready nego → ready nego'.
Proof.
  intros [Hc Hk Ht _] []. split; rewrite ?Hk, ?Ht, ?Hc; try done.
  unfold token_part in *. by rewrite Hk, Ht, Hc.
Qed.

Lemma runs_request se :
  ready (se_nego se) → 0 <= ng_RequestedProtocols (se_nego se) <= UINT32_MAX →
  runs nego_send_negotiation_request se (λ _ se', se_nego se' = se_nego se ∧ se_context se' = se_context se).
Proof.
  intros [] Hr. apply runs_bind, runs_get.
  assert (zlen (neg_part (se_nego se)) <= 8) as Hn by (unfold neg_part; by destruct (_ || _)).
  pose proof (negotiation_request_spec (se_nego se)) as Hreq.
  unfold request_body in Hreq. rewrite zlen_app in Hreq. unfold send.
  destruct (Stream_New None 512).
  - replace (_ <=? UINT8_MAX) with true in Hreq by (unfold UINT8_MAX; lia).
    destruct Hreq as (s & -> & _); [by split|lia|]. apply runs_transport. by intros.
  - rewrite Hreq; [by apply runs_ret|by split|lia].
Qed.

Lemma runs_response se :
  runs nego_recv_response se (λ ok se',
    answered (se_nego se) (ok, se_nego se') ∧ se_context se' = se_context se).
Proof.
  assert (∀ t : T, answered (se_nego se) (false, se_nego (mkSession (se_nego se) (se_context se) t)))
    as HF by (split; [apply narrowed_refl|done]).
  unfold nego_recv_response. destruct (Stream_New None 1024); [|by apply runs_ret; split].
  apply runs_bind, runs_transport. intros [pdu|] t Hpdu; [|apply runs_ret; by split].
  apply law_read_pdu in Hpdu as [Hb Hz]. apply runs_bind, runs_get.
  destruct (safe_nego_recv (se_nego se) (stream_of pdu)) as ([ok nego'] & s' & E & _ & Ha);
    [by apply stream_of_readable|apply readable_rem; by apply stream_of_readable|].
  cbn [se_nego]. change (Stream_StaticInit pdu (zlen pdu)) with (stream_of pdu). rewrite E.
  apply runs_bind, runs_nego, runs_ret. by split.
Qed.

(** An attempt ends in failure or with an answer. *)
Definition attempted nego nego' : Prop :=
  narrowed nego nego' ∧
  (ng_state nego' = NEGO_STATE_FAIL ∨ ng_state nego' = NEGO_STATE_FINAL ∧ accepts nego nego').

Lemma runs_attempt requested se :
  ready (se_nego se) → 0 <= requested <= UINT32_MAX →
  runs (attempt requested) se (λ _ se',
    attempted (se_nego se) (se_nego se') ∧ se_context se' = se_context se).
Proof.
  intros Hrd Hreq. unfold attempt. apply runs_bind, runs_nego. set (se1 := mkSession _ _ _).
  set (FAILS := λ (ok : bool) se', ok = false ∧ narrowed (se_nego se) (se_nego se') ∧ se_context se' = se_context se).
  assert (∀ se', FAILS false se' → runs (on_nego (nego_set_state NEGO_STATE_FAIL);; mret false) se' (λ _ se',
    attempted (se_nego se) (se_nego se') ∧ se_context se' = se_context se)) as Hfail.
  { intros se' (_ & [] & Hc). apply runs_bind, runs_nego, runs_ret. split; [|done]. split; [by split|by left]. }
  apply runs_bind. eapply runs_mono; [apply connects_transport|]. intros ok se2 [Hr2 Hc2].
  assert (narrowed (se_nego se) (se_nego se2)) as Hn2 by (destruct Hr2 as (? & ? & ->); by split).
  assert (ng_RequestedProtocols (se_nego se2) = requested) as Hq2 by (by destruct Hr2 as (? & ? & ->)).
  assert (∀ nego', accepts (se_nego se2) nego' → accepts (se_nego se) nego') as Hacc
    by (by destruct Hr2 as (? & ? & ->)).
  apply runs_bind. destruct ok.
  2:{ apply runs_ret, runs_bind, runs_ret. by apply Hfail. }
  eapply runs_mono; [apply runs_request; [by eapply narrowed_ready|lia]|]. intros ok se3 [Hn3 Hc3].
  apply runs_bind. destruct ok.
  2:{ apply runs_ret, Hfail. split_and!; [done|by rewrite Hn3|cbn in *; congruence]. }
  eapply runs_mono; [apply runs_response|]. intros ok se4 [[Hn4 Ha] Hc4]. cbn [fst snd] in *. rewrite Hn3 in *.
  destruct ok.
  - apply runs_ret. split; [|cbn in *; congruence]. split; [by eapply narrowed_trans|].
    destruct (Ha eq_refl) as [|[? ?]]; auto.
  - apply Hfail. split_and!; [done|by eapply narrowed_trans|cbn in *; congruence].
Qed.

(** How many protocols are left to attempt. *)
Definition rank (state : NEGO_STATE) : nat :=
  match state with
  | NEGO_STATE_AAD | NEGO_STATE_RDSTLS => 5
  | NEGO_STATE_EXT => 4
  | NEGO_STATE_NLA => 3
  | NEGO_STATE_TLS => 2
  | NEGO_STATE_RDP => 1
  | _ => 0
  end.

(** The next state: done, or a weaker protocol. *)
Definition fell_back (n : nat) nego nego' : Prop :=
  narrowed nego nego' ∧
  (ng_state nego' = NEGO_STATE_FAIL ∨ ng_state nego' = NEGO_STATE_FINAL ∧ accepts nego nego' ∨
   (0 < rank (ng_state nego') < n)%nat).

Lemma first_enabled_rank n states nego :
  Forall (λ p, (0 < rank p.2 < n)%nat) states →
  default NEGO_STATE_FAIL (first_enabled states nego) = NEGO_STATE_FAIL ∨
  (0 < rank (default NEGO_STATE_FAIL (first_enabled states nego)) < n)%nat.
Proof.
  induction 1 as [|[p st] states Hp _ IH]; [by left|]. cbn. destruct (ng_EnabledProtocols nego p); [by right|done].
Qed.

Lemma runs_attempt_or requested states n se :
  ready (se_nego se) → 0 <= requested <= UINT32_MAX → Forall (λ p, (0 < rank p.2 < n)%nat) states →
  runs (attempt_or requested states) se (λ _ se',
    fell_back n (se_nego se) (se_nego se') ∧ se_context se' = se_context se).
Proof.
  intros Hrd Hreq Hst. apply runs_bind. eapply runs_mono; [by apply runs_attempt|].
  intros ok se1 [[Hn1 Ha] Hc1]. apply runs_bind, runs_get.
  destruct (negb ok || _).
  { apply runs_ret. split; [|done]. split; [done|]. destruct Ha as [|[? ?]]; auto. }
  apply runs_bind. eapply runs_mono; [apply connects_disconnect|]. intros b se2 [Hr2 Hc2].
  apply runs_bind, runs_get, runs_nego. cbn [se_nego se_context]. split; [|congruence].
  apply reconnected_narrowed in Hr2. pose proof (narrowed_trans _ _ _ Hn1 Hr2) as [].
  split; [by split|]. cbn [ng_state nego_set_state].
  destruct (first_enabled_rank n states (se_nego se2) Hst); auto.
Qed.

Lemma runs_send se :
  ready (se_nego se) → (0 < rank (ng_state (se_nego se)))%nat →
  runs nego_send se (λ _ se',
    fell_back (rank (ng_state (se_nego se))) (se_nego se) (se_nego se') ∧ se_context se' = se_context se).
Proof.
  intros Hrd Hrk. apply runs_bind, runs_get.
  destruct (ng_state (se_nego se)) eqn:Hst; cbn [rank] in *; try lia;
    try (apply runs_attempt_or; [done|done|repeat constructor]).
  apply runs_bind. eapply runs_mono; [by apply runs_attempt|].
  intros ok se1 [[Hn1 Ha] Hc1]. apply runs_ret. split; [|done]. split; [done|]. destruct Ha as [|[? ?]]; auto.
Qed.

(** ** The preconnection PDU *)

Definition preconnection_ok (cf : nego_config) : Prop :=
  0 <= cf_PreconnectionId cf <= UINT32_MAX ∧
  match cf_PreconnectionBlob cf with
  | Some (Some l) => Forall (λ c, 0 <= c <= UINT16_MAX) l
  | _ => True
  end.

Lemma wchars_bytes l : bytes (concat (map winpr_Data_Write_UINT16 l)).
Proof.
  induction l as [|c l IH]; [constructor|]. cbn [map concat]. apply Forall_app. split; [apply write16_le_bytes|done].
Qed.

Lemma preconnection_returns nego :
  preconnection_ok (ng_config nego) → ∃ r, preconnection_pdu nego = Ret r.
Proof.
  intros [Hid Hblob]. unfold preconnection_pdu.
  assert (∃ cch wsz, match cf_PreconnectionBlob (ng_config nego) with
    | None => (0, []) | Some None => (1, []) | Some (Some l) => (zlen l + 1, l ++ [0]) end = (cch, wsz) ∧
    0 <= cch ∧ zlen wsz <= cch) as (cch & wsz & -> & Hc & Hw).
  { destruct (cf_PreconnectionBlob _) as [[l|]|]; eexists _, _; (split; [done|]); try done.
    rewrite zlen_app. pose proof (zlen_nonneg l). change (zlen [0]) with 1. lia. }
  destruct (Z.gtb_spec cch UINT16_MAX); [by eexists|]. unfold UINT16_MAX, PRECONNECTION_PDU_V2_MIN_SIZE in *.
  unfold on_new_stream. destruct (Stream_New None (18 + 2 * cch)) as [s|] eqn:Hs; [|by eexists].
  assert (wf s ∧ fits s (18 + 2 * cch)) as [Hwf Hf].
  { unfold Stream_New in Hs. destruct (_ && _); [done|]. destruct (negb _); [done|].
    destruct (malloc_ok (18 + 2 * cch)); [|done]. injection Hs as <-. split; [|unfold fits; cbn; lia].
    split; cbn; [apply zlen_zeros; lia|lia|lia|unfold SIZE_MAX; lia|apply bytes_zeros]. }
  match goal with |- context [match ?m s with _ => _ end] =>
    assert (∃ bs, puts (18 + 2 * cch) m bs (Some tt)) as (bs & Hp) end; [|destruct (Hp s Hwf Hf) as (s' & -> & _); by eexists].
  eexists. apply puts_UINT32; [lia|unfold UINT32_MAX; lia|]. apply puts_UINT32; [lia|done|].
  apply puts_UINT32; [lia|done|]. apply puts_UINT32; [lia|done|]. apply puts_UINT16; [lia|unfold UINT16_MAX; lia|].
  apply puts_Write; [rewrite zlen_wchars; lia|apply wchars_bytes|].
  intros s1 Hwf1 Hf1. by apply (emits_seal 0 0 ltac:(lia) s1 Hwf1); [unfold fits in *; rewrite zlen_wchars in *; lia|destruct Hwf1; lia].
Qed.

Lemma runs_preconnection se :
  preconnection_ok (ng_config (se_nego se)) →
  runs nego_send_preconnection_pdu se (λ _ se',
    reconnected (se_nego se) (se_nego se') ∧ se_context se' = se_context se).
Proof.
  intros Hp. apply runs_bind. eapply runs_mono; [apply connects_tcp|]. intros tcp se1 [Hr Hc].
  destruct tcp; cbn [negb]; [|by apply runs_ret]. apply runs_bind, runs_get.
  assert (ng_config (se_nego se1) = ng_config (se_nego se)) as Hcf by (by destruct Hr as (? & ? & ->)).
  destruct (preconnection_returns (se_nego se1)) as [[s|] ->]; [by rewrite Hcf| |].
  - apply runs_transport. by intros.
  - by apply runs_ret.
Qed.

(** ** The negotiation *)

(** The protocol that is used was enabled, or plain RDP security was. *)
Definition accepted nego nego' : Prop :=
  (ng_SelectedProtocol nego' ∈ checked_protocols →
   ng_EnabledProtocols nego (ng_SelectedProtocol nego') = true) ∨
  ng_EnabledProtocols nego PROTOCOL_RDP = true.

Lemma accepts_accepted n0 n1 n2 : narrowed n0 n1 → accepts n1 n2 → accepted n0 n2.
Proof. intros [_ _ _ He] [Ha|[Ha _]]; [left|right]; auto. Qed.

Lemma runs_loop fuel n0 se :
  ready (se_nego se) → narrowed n0 (se_nego se) → (0 < rank (ng_state (se_nego se)) <= fuel)%nat →
  runs (connect_loop fuel) se (λ ok se',
    ng_state (se_nego se') = NEGO_STATE_FINAL ∧ (ok = true → accepted n0 (se_nego se'))).
Proof.
  revert se. induction fuel as [|fuel IH]; intros se Hrd Hn Hrk; [lia|]. cbn [connect_loop].
  apply runs_bind. eapply runs_mono; [apply runs_send; [done|lia]|]. intros [] se1 [[Hn1 Hst] _].
  apply runs_bind, runs_get.
  destruct (bool_decide (ng_state (se_nego se1) = NEGO_STATE_FAIL)) eqn:Hf.
  { apply runs_bind. destruct (negb _); [apply runs_context|apply runs_ret]; by apply runs_bind, runs_nego, runs_ret. }
  apply bool_decide_eq_false in Hf.
  destruct (bool_decide (ng_state (se_nego se1) = NEGO_STATE_FINAL)) eqn:Hfin.
  - apply bool_decide_eq_true in Hfin. apply runs_ret. split; [done|]. intros _.
    destruct Hst as [|[[_ Ha]|Hlt]]; [done|by eapply accepts_accepted|]. rewrite Hfin in Hlt. cbn in Hlt. lia.
  - apply bool_decide_eq_false in Hfin. destruct Hst as [|[[? _]|Hlt]]; [done..|].
    apply IH; [by eapply narrowed_ready|by eapply narrowed_trans|lia].
Qed.

(** After the first block: a state to start from, or the only protocol. *)
Definition started n0 (negotiate : bool) nego : Prop :=
  if negotiate then narrowed n0 nego ∧ (0 < rank (ng_state nego) <= 5)%nat else accepted n0 nego.

Lemma initial_rank nego st :
  first_enabled initial_states nego = Some st →
  (0 < rank st <= 5)%nat ∧
  ∃ nego', select_only st (nego_set_state st nego) = Some nego' ∧ ng_config nego' = ng_config nego ∧
    accepted nego nego'.
Proof.
  cbn. intros H. repeat case_match; try done; injection H as <-; (split; [cbn; lia|]); cbn;
    (eexists; split; [done|]; split; [done|]; left; by cbn).
Qed.

Lemma runs_initial se :
  preconnection_ok (ng_config (se_nego se)) →
  runs connect_initial se (λ ok se',
    ok = true → started (se_nego se) (cf_NegotiateSecurityLayer (ng_config (se_nego se))) (se_nego se')).
Proof.
  intros Hp. apply runs_bind, runs_get.
  destruct (first_enabled initial_states (se_nego se)) as [st|] eqn:Hf;
    [|by apply runs_bind, runs_nego, runs_ret].
  destruct (initial_rank _ _ Hf) as (Hrk & nego' & Hsel & Hcf' & Hacc'). apply runs_bind, runs_nego, runs_bind.
  set (negotiate := cf_NegotiateSecurityLayer _).
  eapply (runs_mono _ _ (λ _ se', ng_config (se_nego se') = ng_config (se_nego se) ∧
    started (se_nego se) negotiate (se_nego se'))).
  { destruct negotiate.
    - apply runs_ret. split; [done|]. by split.
    - apply runs_nego. cbn [se_nego]. by rewrite Hsel. }
  intros [] se1 [Hcf Hs].
  assert (∀ n', reconnected (se_nego se1) n' → started (se_nego se) negotiate n') as Hre.
  { intros n' (a & b & ->). unfold started in *. destruct negotiate; [|done].
    destruct Hs as [[] ?]. split; [by split|done]. }
  apply runs_bind. eapply runs_mono; [apply connects_tcp|]. intros tcp se2 [Hr Hc].
  destruct tcp; cbn [negb]; [|by apply runs_ret].
  destruct (cf_SendPreconnectionPdu _); [|apply runs_ret; intros _; by apply Hre].
  apply runs_bind. eapply runs_mono; [apply runs_preconnection|].
  { destruct Hr as (? & ? & ->). cbn [ng_config set_connected]. by rewrite Hcf. }
  intros sent se3 [Hr3 _]. destruct sent; cbn [negb]; [|by apply runs_bind, runs_nego, runs_ret].
  apply runs_ret. intros _. apply Hre. by eapply reconnected_trans.
Qed.

(** What a successful negotiation leaves behind. *)
Record agreed n0 (se : session T) : Prop := {
  ag_state : ng_state (se_nego se) = NEGO_STATE_FINAL;
  ag_secured : ng_SecurityConnected (se_nego se) = true;
  ag_settings : cx_SelectedProtocol (se_context se) = ng_SelectedProtocol (se_nego se);
  ag_layer : ng_SelectedProtocol (se_nego se) = PROTOCOL_RDP → cx_UseRdpSecurityLayer (se_context se) = true;
  ag_accepted : accepted n0 (se_nego se);
}.

(** The end of [nego_connect]. *)
Lemma runs_settle n0 se :
  ng_state (se_nego se) = NEGO_STATE_FINAL → accepted n0 (se_nego se) →
  runs (nego ← get_nego;
        on_context (nego_update_settings_from_state nego);;
        (if ng_SelectedProtocol nego =? PROTOCOL_RDP then on_context rdp_security_settings else mret tt);;
        nego_security_connect) se (λ ok se', ok = true → agreed n0 se').
Proof.
  intros Hst Hacc. apply runs_bind, runs_get, runs_bind, runs_context, runs_bind. cbn [se_nego se_context].
  set (Q := λ (ok : bool) (se' : session T), ok = true → agreed n0 se').
  assert (∀ se1, se_nego se1 = se_nego se →
    cx_SelectedProtocol (se_context se1) = ng_SelectedProtocol (se_nego se) →
    (ng_SelectedProtocol (se_nego se) = PROTOCOL_RDP → cx_UseRdpSecurityLayer (se_context se1) = true) →
    runs nego_security_connect se1 Q) as Hend.
  { intros se1 Hn Hs Hl. eapply runs_mono; [apply runs_security|]. intros ok se2 ((a & b & Hn2) & Hc2 & Hok) Htrue.
    rewrite Hn in Hn2. split; rewrite ?Hc2; [by rewrite Hn2|by apply Hok|by rewrite Hn2|by rewrite Hn2|].
    by rewrite Hn2. }
  destruct (Z.eqb_spec (ng_SelectedProtocol (se_nego se)) PROTOCOL_RDP); [apply runs_context|apply runs_ret];
    by apply Hend.
Qed.

Lemma runs_connect se :
  ng_state (se_nego se) = NEGO_STATE_INITIAL → ready (se_nego se) → preconnection_ok (ng_config (se_nego se)) →
  runs nego_connect se (λ ok se', ok = true → agreed (se_nego se) se').
Proof.
  intros Hst Hrd Hp. apply runs_bind, runs_get, runs_bind. rewrite Hst. cbn [bool_decide].
  eapply runs_mono; [by apply runs_initial|]. intros ok se1 Hs. destruct ok; cbn [negb]; [|by apply runs_ret].
  specialize (Hs eq_refl). unfold started in Hs. apply runs_bind.
  eapply (runs_mono _ _ (λ ok se', ng_state (se_nego se') = NEGO_STATE_FINAL ∧
    (ok = true → accepted (se_nego se) (se_nego se')))).
  { destruct (cf_NegotiateSecurityLayer _); cbn [negb].
    - destruct Hs as [Hn Hrk]. apply runs_loop; [by eapply narrowed_ready|done|lia].
    - by apply runs_bind, runs_nego, runs_ret. }
  intros ok se2 [Hfin Ha]. destruct ok; cbn [negb]; [|by apply runs_ret].
  apply runs_settle; auto.
Qed.

(** ** A request that is too long *)

Lemma tcp_connected se : runs nego_tcp_connect se (λ ok se', ok = true → ng_TcpConnected (se_nego se') = true).
Proof.
  assert (∀ se, runs tcp_attempt se (λ ok se', ok = true → ng_TcpConnected (se_nego se') = true)) as Ha.
  { intros se0. apply runs_bind, runs_transport. intros ok t _. by apply runs_bind, runs_nego, runs_ret. }
  apply runs_bind, runs_get. destruct (ng_TcpConnected (se_nego se)) eqn:Ht; [by apply runs_ret|].
  destruct (cf_GatewayEnabled _).
  - apply runs_bind. destruct (cf_GatewayBypassLocal _).
    + apply runs_bind, runs_transport. intros [] t _. eapply runs_mono; [apply Ha|]. intros [] se1 H1; [by apply runs_ret|].
      apply runs_bind, runs_transport. intros [] t1 _. apply Ha.
    + apply runs_ret, runs_bind, runs_transport. intros [] t1 _. apply Ha.
  - destruct (cf_ConnectChildSession _); [|apply Ha]. apply runs_bind, runs_transport. intros ok t _. by apply runs_bind, runs_nego, runs_ret.
Qed.

(** The first block has chosen a state and connected. *)
Record entered n0 st nego : Prop := {
  en_state : ng_state nego = st;
  en_tcp : ng_TcpConnected nego = true;
  en_config : ng_config nego = ng_config n0;
  en_cookie : ng_cookie nego = ng_cookie n0;
  en_token : ng_RoutingToken nego = ng_RoutingToken n0;
}.
Lemma runs_entered se st :
  preconnection_ok (ng_config (se_nego se)) → cf_NegotiateSecurityLayer (ng_config (se_nego se)) = true →
  first_enabled initial_states (se_nego se) = Some st →
  runs connect_initial se (λ ok se', ok = true → entered (se_nego se) st (se_nego se')).
Proof.
  intros Hp Hneg Hf. apply runs_bind, runs_get. rewrite Hf. apply runs_bind, runs_nego, runs_bind. rewrite Hneg. apply runs_ret, runs_bind.
  set (se1 := mkSession _ _ _). destruct (connects_tcp se1) as (tcp & se2 & E2 & ((a & b & Hr) & _)).
  destruct (tcp_connected se1) as (tcp' & se2' & E2' & Htcp). rewrite E2 in E2'. injection E2' as <- <-.
  exists tcp, se2. split; [done|]. destruct tcp; cbn [negb]; [|by apply runs_ret]. specialize (Htcp eq_refl).
  assert (entered (se_nego se) st (se_nego se2)) as Hen by (rewrite Hr in Htcp |- *; by split).
  destruct (cf_SendPreconnectionPdu _); [|by apply runs_ret]. apply runs_bind.
  unfold nego_send_preconnection_pdu, nego_tcp_connect. do 2 apply runs_bind. apply runs_get. rewrite Htcp. apply runs_ret. cbn [negb].
  apply runs_bind, runs_get. destruct (preconnection_returns (se_nego se2)) as [[s|] ->]; [by rewrite (en_config _ _ _ Hen)| |].
  - apply runs_transport. intros ok t _. destruct ok; cbn [negb]; [by apply runs_ret|by apply runs_bind, runs_nego, runs_ret].
  - apply runs_ret. by apply runs_bind, runs_nego, runs_ret.
Qed.

Lemma attempt_aborts n0 st se requested :
  entered n0 st (se_nego se) → nego_ok n0 → cf_NegotiateSecurityLayer (ng_config n0) = true → 0 < requested <= UINT32_MAX →
  Stream_New None 512 ≠ None → 241 < zlen (token_part n0) <= 493 → attempt requested se = Abort.
Proof.
  intros [Hst Ht Hc Hk Hr] [] Hneg Hreq Hnew Hz. unfold attempt, nego_transport_connect, nego_tcp_connect, mbind, NM_bind, mret, NM_ret, on_nego, get_nego.
  cbn [se_nego nego_set_requested_protocols ng_TcpConnected ng_config]. rewrite Ht. cbn [negb se_nego nego_set_requested_protocols ng_TcpConnected ng_config].
  rewrite Ht, Hc, Hneg. cbn [negb andb]. unfold nego_send_negotiation_request, send, mbind, NM_bind, get_nego. cbn [se_nego].
  set (nego := nego_set_requested_protocols requested (se_nego se)).
  assert (token_part nego = token_part n0) as Htp by (unfold token_part, nego; cbn; by rewrite Hr, Hk, Hc).
  assert (zlen (request_body nego) = zlen (token_part n0) + 8) as Hz8.
  { unfold request_body, neg_part. rewrite zlen_app, Htp. change (ng_RequestedProtocols nego) with requested.
    unfold PROTOCOL_RDP. by replace (requested >? 0) with true by lia. }
  pose proof (negotiation_request_spec nego) as Hreq'. destruct (Stream_New None 512); [|done].
  replace (_ <=? UINT8_MAX) with false in Hreq' by (unfold UINT8_MAX; lia).
  rewrite Hreq'; [done| |lia]. split; cbn; [by rewrite Hr|by rewrite Hk|by rewrite Hc|lia].
Qed.

Lemma connect_aborts se se1 st :
  ng_state (se_nego se) = NEGO_STATE_INITIAL → nego_ok (se_nego se) → preconnection_ok (ng_config (se_nego se)) →
  cf_NegotiateSecurityLayer (ng_config (se_nego se)) = true →
  first_enabled initial_states (se_nego se) = Some st → st ≠ NEGO_STATE_RDP → connect_initial se = Ret (true, se1) →
  Stream_New None 512 ≠ None → 241 < zlen (token_part (se_nego se)) <= 493 → nego_connect se = Abort.
Proof.
  intros Hst Hok Hp Hneg Hf Hne Hi Hnew Hz. destruct (runs_entered se st Hp Hneg Hf) as (ok & se2 & E & Hen).
  rewrite Hi in E. injection E as <- <-. specialize (Hen eq_refl).
  assert (∀ requested, 0 < requested <= UINT32_MAX → attempt requested se1 = Abort) as Ha by (intros; by eapply attempt_aborts).
  assert (nego_send se1 = Abort) as Hs.
  { unfold nego_send, mbind, NM_bind, get_nego. rewrite (en_state _ _ _ Hen). destruct (initial_rank _ _ Hf) as [Hrk _].
    destruct st; cbn [rank] in Hrk; try lia; try done;
      unfold nego_attempt_rdsaad, nego_attempt_rdstls, nego_attempt_ext, nego_attempt_nla, nego_attempt_tls, attempt_or, mbind, NM_bind;
      by rewrite Ha. }
  unfold nego_connect, mbind, NM_bind, get_nego. rewrite Hst, Hneg, bool_decide_true, Hi by done. cbn [negb connect_loop].
  unfold mbind, NM_bind. by rewrite Hs.
Qed.
End client.

(** * Properties *)

Section properties.
Context {HM : Malloc} {T : Type} {HT : Transport T} {HL : TransportLaws T}.

(** C18. The negotiation ends: whatever the server answers and wherever the
    transport or the allocator fails, [nego_connect] makes at most six attempts and
    returns.  If it returns success the state is final, the connection is secured,
    the settings hold the selected protocol, and plain RDP security is switched on
    in the settings if that was selected.  That is so from the initial state and if
    the line with the routing token or the cookie has at most 241 bytes, which no code
    checks: with a longer line (up to the 493 bytes that the stream was allocated for)
    a client that negotiates aborts as soon as it is connected, in an assertion
    of [tpdu_write_header] for its first request, unless plain RDP security is all that
    is enabled. *)
Theorem nego_connect_returns (se : session T) :
  ng_state (se_nego se) = NEGO_STATE_INITIAL → nego_ok (se_nego se) → preconnection_ok (ng_config (se_nego se)) →
  (zlen (token_part (se_nego se)) <= 241 → ∃ ok se', nego_connect se = Ret (ok, se') ∧
    (ok = true →
     ng_state (se_nego se') = NEGO_STATE_FINAL ∧
     ng_SecurityConnected (se_nego se') = true ∧
     cx_SelectedProtocol (se_context se') = ng_SelectedProtocol (se_nego se') ∧
     (ng_SelectedProtocol (se_nego se') = PROTOCOL_RDP → cx_UseRdpSecurityLayer (se_context se') = true))) ∧
  (241 < zlen (token_part (se_nego se)) <= 493 → cf_NegotiateSecurityLayer (ng_config (se_nego se)) = true →
   first_enabled initial_states (se_nego se) ≠ Some NEGO_STATE_RDP → Stream_New None 512 ≠ None →
   ∀ se1, connect_initial se = Ret (true, se1) → nego_connect se = Abort).
Proof.
  intros Hst Hok Hp. split.
  - intros Hz. destruct (runs_connect se) as (ok & se' & E & HQ); [done|destruct Hok; by split|done|]. exists ok, se'. split; [done|].
    intros Htrue. by destruct (HQ Htrue).
  - intros Hz Hneg Hrdp Hnew se1 Hi. destruct (first_enabled initial_states (se_nego se)) as [st|] eqn:Hf.
    + apply (connect_aborts se se1 st); try done. congruence.
    + unfold connect_initial, mbind, NM_bind, get_nego in Hi. by rewrite Hf in Hi.
Qed.

(** C19. No downgrade for a client that has not enabled plain RDP security (and whose
    request fits its TPDU): no server can make [nego_connect] succeed with plain RDP security, and if
    it succeeds with SSL, NLA or AAD that was enabled.  A client that has
    enabled plain RDP security has no such guarantee: an answer without
    negotiation data leaves it with the protocol that was selected before
    ([nego_stale_selection]). *)
Theorem nego_no_downgrade (se se' : session T) :
  ng_state (se_nego se) = NEGO_STATE_INITIAL → ready (se_nego se) → preconnection_ok (ng_config (se_nego se)) →
  ng_EnabledProtocols (se_nego se) PROTOCOL_RDP = false →
  nego_connect se = Ret (true, se') →
  let selected := ng_SelectedProtocol (se_nego se') in
  selected ≠ PROTOCOL_RDP ∧
  (selected ∈ [PROTOCOL_SSL; PROTOCOL_HYBRID; PROTOCOL_RDSAAD] →
   ng_EnabledProtocols (se_nego se) selected = true).
Proof.
  intros Hst Hrd Hp Hrdp E selected. destruct (runs_connect se) as (ok & se2 & E2 & HQ); [done..|].
  rewrite E in E2. injection E2 as <- <-. destruct (HQ eq_refl) as [_ _ _ _ [Ha|Ha]]; [|congruence].
  fold selected in Ha. split.
  - intros Hsel. rewrite Hsel in Ha. rewrite Ha in Hrdp; [done|]. left.
  - intros Hsel. apply Ha. by right.
Qed.
End properties.

(** * Witnesses *)

(** A server that always answers with this packet. *)
#[local] Definition answering (pdu : list Z) : Transport unit := {|
  transport_connect t := (true, t);
  transport_connect_childsession t := (true, t);
  transport_set_gateway_enabled _ t := t;
  transport_disconnect t := t;
  transport_connect_rdp t := (true, t);
  transport_connect_tls t := (true, t);
  transport_connect_nla _ t := (true, t);
  transport_connect_rdstls t := (true, t);
  transport_connect_aad t := (true, t);
  transport_write _ t := (true, t);
  transport_read_pdu t := (Some pdu, t);
|}.
#[local] Definition selecting (p : Z) : list Z :=
  connection_pdu X224_TPDU_CONNECTION_CONFIRM (neg_data TYPE_RDP_NEG_RSP 0 p).
#[local] Definition client_of (enabled : Z → bool) : session unit :=
  mkSession
    (set_enabled enabled (set_cookie (Some (ascii_of "alice")) (nego_init (mkNego
      (mkConfig 255 true 7 (Some (Some [65])) true false false false false false false false)
      0 None None NEGO_STATE_INITIAL false false false 0 0 0 (λ _, false) false))))
    (mkContext 0 0 0 0 false 0 0 false false false false false false false) tt.

Lemma answering_laws pdu : bytes pdu → zlen pdu <= SIZE_MAX → @TransportLaws unit (answering pdu).
Proof. intros Hb Hz. split. by intros t pdu' t' [= <- <-]. Qed.

Lemma client_of_ready enabled : ready (se_nego (client_of enabled)).
Proof. split; [constructor|by repeat constructor|done|done]. Qed.

Lemma client_of_ok enabled : nego_ok (se_nego (client_of enabled)).
Proof. split; [constructor|by repeat constructor|done|done]. Qed.
#[local] Definition with_cookie (cookie : list Z) (se : session unit) : session unit :=
  mkSession (set_cookie (Some cookie) (se_nego se)) (se_context se) tt.

(** A server that selects NLA and a client that enabled NLA and SSL; then a client with a
    cookie of 223 bytes. *)
Lemma nego_connect_returns_witness :
  let HM : Malloc := λ _, true in
  let HT := answering (selecting PROTOCOL_HYBRID) in
  let se := client_of (λ p, bool_decide (p ∈ [PROTOCOL_SSL; PROTOCOL_HYBRID])) in
  match nego_connect se with
  | Ret (true, se') =>
      ng_state (se_nego se') = NEGO_STATE_FINAL ∧ ng_SecurityConnected (se_nego se') = true ∧
      cx_SelectedProtocol (se_context se') = PROTOCOL_HYBRID
  | _ => False
  end ∧ nego_connect (with_cookie (zeros 223) se) = Abort.
Proof.
  intros HM HT se. assert (@TransportLaws unit HT) as HL by (apply answering_laws; [by repeat constructor|done]). split.
  - destruct (@nego_connect_returns HM unit HT HL se eq_refl (client_of_ok _) ltac:(by repeat constructor)) as [Hret _].
    destruct Hret as (ok & se' & E & H); [done|].
    assert (ok = true ∧ ng_SelectedProtocol (se_nego se') = PROTOCOL_HYBRID) as [-> Hsel]
      by (by vm_compute in E; simplify_eq).
    rewrite E. destruct (H eq_refl) as (? & ? & Hs & _). rewrite <- Hsel. auto.
  - destruct (@nego_connect_returns HM unit HT HL (with_cookie (zeros 223) se) eq_refl) as [_ Habort];
      [split; [constructor|apply bytes_zeros|done|done]|by repeat constructor|].
    eapply Habort; [by vm_compute|done|by vm_compute|by vm_compute|by vm_compute].
Defined.

(** The same server; plain RDP security is not enabled. *)
Lemma nego_no_downgrade_witness :
  let HM : Malloc := λ _, true in
  let HT := answering (selecting PROTOCOL_HYBRID) in
  let se := client_of (λ p, bool_decide (p ∈ [PROTOCOL_SSL; PROTOCOL_HYBRID])) in
  ∃ se', nego_connect se = Ret (true, se') ∧ ng_SelectedProtocol (se_nego se') ≠ PROTOCOL_RDP.
Proof.
  intros HM HT se. eexists. split; [vm_compute; reflexivity|].
  apply (@nego_no_downgrade HM unit HT) with (se := se);
    [apply answering_laws; [by repeat constructor|done]|done|apply client_of_ready|by repeat constructor|done
    |vm_compute; reflexivity].
Defined.
