(* ===== verification/NegoMessages.v ===== *)
(** The delivery of the messages of the negotiation: what the server reads from a
    request, what the client reads from a response, and the server's reader on
    any input. *)

From S2P Require Import Prelude Stream StreamLogic Transmission Framing Nego NegoCorrect.
From stdpp Require Import prelude list numbers strings.
From Stdlib Require Import ZArith Lia.

#[local] Open Scope Z_scope.

(** A reader that returns success and its state. *)
Definition succeeding (m : SM (bool * rdpNego)) : SM (option rdpNego) :=
  '(ok, nego) ← m; mret (if ok : bool then Some nego else None).

Lemma run_succeeding m s nego s' :
  m s = Ret ((true, nego), s') → succeeding m s = Ret (Some nego, s').
Proof. intros E. unfold succeeding. by rewrite (bind_Ret _ _ _ _ _ E). Qed.

(** * Responses *)

Lemma run_consumed length s :
  readable s → length <= UINT16_MAX → remaining s = [] → tpkt_ensure_stream_consumed length s = Ret (Some tt, s).
Proof.
  intros Hs Hl Hr. unfold tpkt_ensure_stream_consumed. replace (_ >? UINT16_MAX) with false by lia.
  erewrite bind_Ret by by apply run_GetRemainingLength. by rewrite <- zlen_remaining, Hr by done.
Qed.

(** The three fields behind the type. *)
Lemma parses_neg_data {B} type flags value (k : Z → SM B) b :
  parses (k type) ([flags] ++ winpr_Data_Write_UINT16 8 ++ winpr_Data_Write_UINT32 value) b →
  parses (x ← Stream_Read_UINT8; k x) (neg_data type flags value) b.
Proof. intros Hk. by apply (parses_bind Stream_Read_UINT8 _ [type] _ type); [apply reads_UINT8|]. Qed.

(** What the client takes from a packet that the server sent. *)
Lemma parses_nego_recv nego nego' body :
  zlen body <= 249 → parses (recv_neg_data (6 + zlen body) nego) body (true, nego') →
  parses (nego_recv nego) (connection_pdu X224_TPDU_CONNECTION_CONFIRM body) (true, nego').
Proof.
  intros Hl Hp s Hs Hr. pose proof (zlen_nonneg body). unfold nego_recv, connection_pdu in *. set (len := 11 + zlen body) in *.
  erewrite bind_Ret by by apply tpkt_read_header_is_spec.
  assert (zlen (([6 + zlen body; X224_TPDU_CONNECTION_CONFIRM] ++ zeros 5) ++ body) = 7 + zlen body) as Hz
    by (by rewrite zlen_app).
  rewrite Hr, tpkt_spec_frame by (unfold UINT16_MAX; lia).
  cbn [fst snd]. rewrite app_assoc in Hr. destruct (remaining_app _ _ _ Hs Hr) as (_ & Hs1 & Hr1).
  change (zlen ([3; 0] ++ winpr_Data_Write_UINT16_BE len)) with 4 in *.
  erewrite bind_Ret by (apply (run_tpdu_confirm len (6 + zlen body) body []);
    unfold is_byte, len; done || lia || by rewrite app_nil_r).
  destruct (remaining_app _ _ _ Hs1 Hr1) as (_ & Hs2 & Hr2). change (zlen ([_; _] ++ zeros 5)) with 7 in *.
  rewrite adv_adv in *. erewrite bind_Ret by by apply Hp. cbn [negb].
  rewrite <- (app_nil_r body) in Hr2. destruct (remaining_app _ _ _ Hs2 Hr2) as (_ & Hs3 & Hr3).
  erewrite bind_Ret by (apply run_consumed; [done|unfold len, UINT16_MAX; lia|done]).
  unfold mret, SM_ret. rewrite adv_adv, app_assoc, (zlen_app (_ ++ _)), Hz.
  change (zlen ([3; 0] ++ winpr_Data_Write_UINT16_BE len)) with 4. by rewrite Z.add_assoc.
Qed.

Definition failed (selected : Z) : bool := negb (Z.land selected PROTOCOL_FAILED_NEGO =? 0).

(** What a client knows after the server's choice. *)
Record informed (client : rdpNego) (selected flags : Z) (client' : rdpNego) : Prop := {
  in_failed : failed selected = true →
    ng_state client' = NEGO_STATE_FAIL ∧ ng_failureCode client' = selected mod 2 ^ 31;
  in_selected : failed selected = false →
    ng_SelectedProtocol client' = selected ∧ ng_flags client' = flags ∧
    ng_EnabledProtocols client' = ng_EnabledProtocols client ∧
    ng_state client' =
      if bool_decide (selected ∈ checked_protocols) && negb (ng_EnabledProtocols client selected)
      then NEGO_STATE_FAIL else NEGO_STATE_FINAL;
}.

Lemma land_not_failed selected : Z.land selected (u32 (Z.lnot PROTOCOL_FAILED_NEGO)) = selected mod 2 ^ 31.
Proof. change (u32 (Z.lnot PROTOCOL_FAILED_NEGO)) with (Z.ones 31). by rewrite Z.land_ones by lia. Qed.

Lemma check_selected_state nego :
  ng_state nego = NEGO_STATE_FINAL →
  ng_state (check_selected nego) =
    (if bool_decide (ng_SelectedProtocol nego ∈ checked_protocols) &&
        negb (ng_EnabledProtocols nego (ng_SelectedProtocol nego))
     then NEGO_STATE_FAIL else NEGO_STATE_FINAL) ∧
  ng_SelectedProtocol (check_selected nego) = ng_SelectedProtocol nego ∧
  ng_flags (check_selected nego) = ng_flags nego ∧
  ng_EnabledProtocols (check_selected nego) = ng_EnabledProtocols nego.
Proof.
  intros Hst. unfold check_selected. cbv zeta. destruct (Z.eqb_spec (ng_SelectedProtocol nego) 0) as [E|H0]; cbn [negb].
  { rewrite E. change (bool_decide _) with true. change 0 with PROTOCOL_RDP.
    by destruct (ng_EnabledProtocols nego PROTOCOL_RDP). }
  destruct (decide (ng_SelectedProtocol nego ∈ checked_protocols)) as [Hin|Hni].
  - rewrite bool_decide_eq_true_2 by done. unfold checked_protocols in Hin.
    rewrite !elem_of_cons, elem_of_nil in Hin.
    destruct Hin as [E|[E|[E|[E|[]]]]]; [done|..]; rewrite E;
      [destruct (ng_EnabledProtocols nego PROTOCOL_SSL) eqn:He|destruct (ng_EnabledProtocols nego PROTOCOL_HYBRID) eqn:He
      |destruct (ng_EnabledProtocols nego PROTOCOL_RDSAAD) eqn:He]; by cbn; rewrite ?E.
  - rewrite bool_decide_eq_false_2 by done. unfold checked_protocols in Hni.
    rewrite !elem_of_cons, elem_of_nil in Hni.
    rewrite !(proj2 (Z.eqb_neq _ _)) by naive_solver. done.
Qed.

Lemma parses_response client server cx :
  0 <= ng_SelectedProtocol server <= UINT32_MAX →
  ∃ client', parses (recv_neg_data 14 client) (response_body server cx) (true, client') ∧
    informed client (ng_SelectedProtocol server) (response_flags server cx) client'.
Proof.
  intros Hsel. set (sel := ng_SelectedProtocol server) in *. unfold response_body. fold sel (failed sel).
  destruct (failed sel) eqn:Hf.
  - rewrite land_not_failed. pose proof (Z.mod_pos_bound sel (2 ^ 31) ltac:(lia)) as Hm.
    eexists. split; [apply parses_neg_data, parses_check; [done|]|].
    + apply (parses_bind Stream_Read_UINT8 _ [0] _ 0); [apply reads_UINT8|].
      apply (parses_bind Stream_Read_UINT16 _ _ _ 8); [by apply reads_UINT16|].
      rewrite <- (app_nil_r (winpr_Data_Write_UINT32 _)).
      eapply parses_bind; [apply reads_UINT32; unfold UINT32_MAX in *; lia|].
      by apply reads_parses, reads_ret.
    + split; [|by rewrite Hf]. intros _. split; [done|]. cbn [ng_failureCode nego_set_state].
      unfold on_failure, nego_disable_all_except. by repeat case_match.
  - set (flags := response_flags server cx).
    set (client1 := nego_set_state NEGO_STATE_FINAL (nego_set_selected_protocol sel (set_flags flags client))).
    exists (check_selected client1). split.
    + apply parses_neg_data. rewrite <- (app_nil_r (_ ++ _)).
      eapply (parses_bind _ _ _ [] (true, client1)); [|by apply reads_parses, reads_ret].
      apply reads_check; [done|]. apply (reads_step_UINT8 flags), reads_step_UINT16; [done|].
      rewrite <- (app_nil_r (winpr_Data_Write_UINT32 sel)). apply reads_step_UINT32; [done|]. apply reads_ret.
    + split; [by rewrite Hf|]. intros _. by destruct (check_selected_state client1) as (-> & -> & -> & ->).
Qed.

(** * Requests *)

(** ** The end of a line *)

Lemma run_Rewind n s : wf s → 0 <= n <= st_pointer s → Stream_Rewind n s = Ret (tt, adv (- n) s).
Proof. intros [] ?. unfold Stream_Rewind. by replace (_ && _) with true by lia. Qed.

Lemma low_byte a b : is_byte a → is_byte b → winpr_Data_Get_LE [a; b] = 0x0A0D → a = 0x0D.
Proof.
  unfold is_byte. intros Ha Hb E. change (winpr_Data_Get_LE [a; b]) with (Z.lor (Z.shiftl (Z.lor (Z.shiftl 0 8) b) 8) a) in E.
  rewrite !get_be_step in E by (unfold is_byte; lia). lia.
Qed.

(** The line is followed by its end. *)
Lemma run_find_crlf line fuel crlf tl s :
  readable s → remaining s = line ++ [0x0D; 0x0A] ++ tl → 0x0D ∉ line → (length line < fuel)%nat →
  find_crlf fuel crlf s = Ret (0x0A0D, adv (zlen line + 2) s).
Proof.
  revert line crlf s. induction fuel as [|fuel IH]; intros line crlf s Hs Hr Hni Hf; [lia|]. cbn [find_crlf].
  assert (zlen line + 2 <= rem s) as Hrem by (rewrite <- zlen_remaining, Hr by done; zlia).
  pose proof (zlen_nonneg line). erewrite bind_Ret by by apply run_GetRemainingLength.
  replace (rem s >=? 2) with true by lia.
  destruct line as [|a line].
  { erewrite bind_Ret by by apply (reads_UINT16 0x0A0D ltac:(done) s tl). done. }
  assert (∃ b tl', remaining s = [a; b] ++ tl' ∧ line ++ [0x0D; 0x0A] ++ tl = b :: tl') as (b & tl' & Hr2 & Htl').
  { rewrite Hr. by destruct line; eexists _, _. }
  pose proof (remaining_bytes s (proj1 Hs)) as Hb. rewrite Hr2 in Hb. apply Forall_cons in Hb as [Ha Hb].
  apply Forall_cons in Hb as [Hb _]. apply not_elem_of_cons in Hni as [Hne Hni].
  erewrite bind_Ret by by apply (reads_stream_read _ 2 [a; b] eq_refl s tl'). change (zlen [a; b]) with 2.
  destruct (Z.eqb_spec (winpr_Data_Get_LE [a; b]) 0x0A0D) as [E|_]; [by apply low_byte in E|].
  assert (readable (adv 1 s)) as Hs1 by (apply readable_adv; [done|zlia]).
  erewrite bind_Ret; [|apply run_Rewind; [apply readable_adv; [done|zlia]|destruct Hs as [[] ?]; cbn; lia]].
  rewrite adv_adv. change (2 + -1) with 1.
  rewrite (IH line); [|done| |done|cbn in Hf; lia].
  - rewrite adv_adv, zlen_cons. do 3 f_equal. lia.
  - by destruct (remaining_app s [a] (line ++ [13; 10] ++ tl)) as (_ & _ & Htl).
Qed.

(** Zeros over the two bytes before the position. *)
Definition blanked (s : wStream) : wStream :=
  set_buffer (zblit (st_pointer s - 2) [0; 0] (st_buffer s)) s.
Lemma run_blank s :
  wf s → 2 <= st_pointer s → Stream_Write_UINT16 0 (adv (-2) s) = Ret (tt, blanked s).
Proof.
  intros Hwf Hp. pose proof Hwf as []. unfold Stream_Write_UINT16. rewrite assert_bind by done. unfold stream_put.
  erewrite bind_Ret by (apply run_GetRemainingCapacity, wf_set_pointer; [done|lia]).
  change (zlen (winpr_Data_Write_UINT16 0)) with 2. rewrite assert_bind by (cbn; lia). unfold blanked, adv. destruct s. cbn. unfold set_pointer, set_buffer. cbn.
  do 2 f_equal. f_equal; lia.
Qed.
Lemma blanked_spec s :
  readable s → 2 <= st_pointer s →
  readable (blanked s) ∧ remaining (blanked s) = remaining s ∧
  ∀ p n, 0 <= p → 0 <= n → p + n <= st_pointer s - 2 → zslice p n (st_buffer (blanked s)) = zslice p n (st_buffer s).
Proof.
  intros [Hwf Hl] Hp. pose proof Hwf as []. assert (zlen [0; 0] = 2) as Hz by done. unfold blanked. split_and!.
  - split; [|done]. split; cbn; try done; [by rewrite zlen_zblit by lia|].
    apply Forall_zblit; [done|by repeat constructor].
  - unfold remaining, zslice. cbn. by rewrite zdrop_zblit by lia.
  - intros p n H0 Hn Hpn. cbn. unfold zslice. replace n with (p + n - p) by lia.
    rewrite <- !zdrop_ztake by lia. f_equal. apply ztake_zblit_before; lia.
Qed.

Section requests.
Context {HM : Malloc}.

(** A line that was begun at [pos] and is a string. *)
Record line_at (pos : Z) (pre line tl : list Z) (s : wStream) : Prop := {
  la_readable : readable s;
  la_pos : 0 <= pos;
  la_pointer : st_pointer s = pos + zlen pre;
  la_begun : zslice pos (zlen pre) (st_buffer s) = pre;
  la_rest : remaining s = line ++ [0x0D; 0x0A] ++ tl;
  la_cr : 0x0D ∉ line;
}.
Definition keep_line (isToken : bool) (str : list Z) (nego : rdpNego) : rdpNego :=
  if isToken then set_token (Some str) nego else set_cookie (Some str) nego.

Lemma zslice_more {A} p a b (l : list A) :
  0 <= p → 0 <= a → 0 <= b → zslice p (a + b) l = zslice p a l ++ zslice (p + a) b l.
Proof. intros. unfold zslice at 1. rewrite ztake_ztake_zdrop by lia. unfold zslice. by rewrite zdrop_zdrop by lia. Qed.

Lemma run_read_to_crlf isToken pos pre line tl nego s :
  (∀ z, malloc_ok z = true) → line_at pos pre line tl s →
  0 ∉ pre ++ line → 0 < zlen (pre ++ line) <= UINT32_MAX →
  read_to_crlf isToken pos nego s =
    Ret ((true, keep_line isToken (pre ++ line) nego), blanked (adv (zlen line + 2) s)).
Proof.
  intros Hmalloc [Hs Hpos Hp Hpre Hr Hcr] H0 Hlen. rewrite zlen_app in Hlen.
  pose proof (zlen_nonneg pre). pose proof (zlen_nonneg line). unfold read_to_crlf.
  assert (zlen line + 2 <= rem s) as Hrem by (rewrite <- zlen_remaining, Hr by done; zlia).
  erewrite bind_Ret by by apply run_GetRemainingLength.
  erewrite bind_Ret by (apply (run_find_crlf line _ _ tl); [done..|unfold zlen in Hrem; lia]).
  cbn [Z.eqb Pos.eqb]. set (s1 := adv (zlen line + 2) s).
  assert (readable s1) as Hs1 by (apply readable_adv; [done|lia]).
  assert (st_pointer s1 = pos + zlen pre + zlen line + 2) as Hp1 by (cbn; lia).
  erewrite bind_Ret by (apply run_Rewind; [apply Hs1|lia]).
  erewrite bind_Ret; [|apply run_GetPosition, wf_set_pointer; [apply Hs1|destruct Hs1 as [[] ?]; lia]].
  cbv zeta. erewrite bind_Ret by (apply run_blank; [apply Hs1|lia]).
  destruct (blanked_spec s1 Hs1 ltac:(lia)) as (_ & _ & Hsl).
  replace (st_pointer (adv (- (2)) s1) - pos) with (zlen pre + zlen line) by (cbn in *; lia).
  assert (zslice pos (zlen pre + zlen line) (st_buffer (blanked s1)) = pre ++ line) as Hstr.
  { rewrite Hsl by lia. change (st_buffer s1) with (st_buffer s). rewrite zslice_more, Hpre, <- Hp by lia.
    by rewrite (slice_app s line _ Hs Hr). }
  erewrite bind_Ret by (cbv beta; by rewrite Hstr). replace (_ >? UINT32_MAX) with false by lia.
  replace (forallb _ (pre ++ line)) with true.
  2:{ symmetry. apply forallb_forall. intros b Hb. apply negb_true_iff, Z.eqb_neq. intros ->.
      by apply H0, list_elem_of_In. }
  unfold nego_set_routing_token, nego_set_cookie. rewrite !Hmalloc, zlen_app.
  replace (_ =? 0) with false by lia. by destruct isToken.
Qed.
(** ** The token or cookie *)

(** The line of a request, and whether it is a token. *)
Definition sent_line (nego : rdpNego) : option (bool * list Z) :=
  match ng_RoutingToken nego with
  | Some token => Some (true, if token_terminated token then ztake (zlen token - 2) token else token)
  | None =>
      match ng_cookie nego with
      | Some cookie =>
          Some (false, ascii_of "Cookie: mstshash=" ++
                       ztake (Z.min (zlen cookie) (cf_CookieMaxLength (ng_config nego))) cookie)
      | None => None
      end
  end.
Definition token_prefixes : list (list Z) := [ascii_of "Cookie: msts="; ascii_of "tsv:"; ascii_of "mth://"].
(** It is a string on one line, and a token begins as tokens do. *)
Definition line_ok (l : option (bool * list Z)) : Prop :=
  match l with
  | Some (isToken, line) =>
      (0x0D ∉ line) ∧ (0 ∉ line) ∧ zlen line <= UINT32_MAX ∧
      (isToken = true → 13 <= zlen line ∧ Exists (λ prefix, ztake (zlen prefix) line = prefix) token_prefixes)
  | None => True
  end.

Lemma terminated_line token :
  token_terminated token = true → token = ztake (zlen token - 2) token ++ [0x0D; 0x0A].
Proof.
  unfold token_terminated. rewrite !andb_true_iff, !Z.eqb_eq. intros [[H H1] H2]. apply Z.gtb_lt in H.
  rewrite <- (ztake_zdrop (zlen token - 2) token) at 1. f_equal.
  assert (zlen (zdrop (zlen token - 2) token) = 2) as Hl by (rewrite zlen_zdrop; lia).
  rewrite <- (Z.add_0_r (zlen token - 2)), <- zget_zdrop in H1 by lia.
  replace (zlen token - 1) with (zlen token - 2 + 1) in H2 by lia. rewrite <- zget_zdrop in H2 by lia.
  destruct (zdrop _ token) as [|a [|b [|c l]]]; unfold zlen in Hl; cbn in Hl; try lia.
  change (a = 13) in H1. change (b = 10) in H2. by subst.
Qed.
Lemma token_part_line nego :
  token_part nego = match sent_line nego with Some (_, line) => line ++ [0x0D; 0x0A] | None => [] end.
Proof.
  unfold token_part, sent_line. destruct (ng_RoutingToken nego) as [token|].
  - destruct (token_terminated token) eqn:E; [|done]. rewrite app_nil_r. by apply terminated_line.
  - destruct (ng_cookie nego); [|done]. by rewrite <- app_assoc.
Qed.

Lemma run_starts_with str s :
  readable s → zlen str <= rem s → starts_with str s = Ret (bool_decide (ztake (zlen str) (remaining s) = str), s).
Proof.
  intros Hs Hl. pose proof (zlen_nonneg str). unfold starts_with. erewrite bind_Ret by by apply run_Peek.
  unfold remaining, zslice. by rewrite ztake_ztake by lia.
Qed.

(** What no token begins with. *)
Lemma token_no_cookie prefix l :
  prefix ∈ token_prefixes → ztake (zlen prefix) l = prefix → ztake 17 l ≠ ascii_of "Cookie: mstshash=".
Proof.
  intros Hin Hp Hc. assert (zlen prefix <= 17 ∧ ztake (zlen prefix) (ascii_of "Cookie: mstshash=") ≠ prefix) as [Hl Hne].
  { unfold token_prefixes in Hin. rewrite !elem_of_cons, elem_of_nil in Hin.
    destruct Hin as [->|[->|[->|[]]]]; by vm_compute. }
  apply Hne. rewrite <- Hc, ztake_ztake by (pose proof (zlen_nonneg prefix); lia). done.
Qed.

Lemma run_token line tl nego s :
  (∀ z, malloc_ok z = true) → readable s → remaining s = line ++ [0x0D; 0x0A] ++ tl → line_ok (Some (true, line)) →
  nego_read_request_token_or_cookie nego s =
    Ret ((true, set_token (Some line) nego), blanked (adv (zlen line + 2) s)).
Proof.
  intros Hmalloc Hs Hr (Hcr & H0 & Hmax & Htok). pose proof Hs as [Hwf _].
  destruct (Htok eq_refl) as [Hl Hex]. apply Exists_exists in Hex as (prefix & Hin & Hpre).
  assert (zlen line + 2 <= rem s) as Hrem by (rewrite <- zlen_remaining, Hr, !zlen_app by done; zlia).
  assert (ztake (zlen prefix) (remaining s) = prefix) as Hpre'.
  { rewrite Hr, ztake_app_le; [done|]. pose proof (f_equal zlen Hpre) as Hz. rewrite zlen_ztake in Hz.
    pose proof (zlen_nonneg prefix). lia. }
  unfold nego_read_request_token_or_cookie. erewrite bind_Ret by by apply run_GetRemainingLength.
  erewrite bind_Ret by by apply run_GetPosition. replace (rem s <? 15) with false by lia.
  erewrite (bind_Ret _ _ _ false); cycle 1.
  { destruct (Z.ltb_spec (rem s) 17); [done|]. rewrite run_starts_with by done.
    rewrite bool_decide_eq_false_2; [done|]. exact (token_no_cookie prefix _ Hin Hpre'). }
  cbn [negb]. assert (∀ str : list Z, zlen str <= 13 → zlen str <= rem s) as H13 by lia.
  do 3 (erewrite bind_Ret; [|apply run_starts_with; [done|by apply H13]]).
  replace (negb _) with false.
  2:{ symmetry. apply negb_false_iff. rewrite !orb_true_iff, !bool_decide_eq_true.
      unfold token_prefixes in Hin. rewrite !elem_of_cons, elem_of_nil in Hin.
      destruct Hin as [->|[->|[->|[]]]]; auto. }
  apply (run_read_to_crlf true _ [] line tl); [done| |done|rewrite app_nil_l; lia].
  split; try done; [destruct Hwf; lia|change (zlen []) with 0; lia].
Qed.

Lemma run_cookie name tl nego s :
  let line := ascii_of "Cookie: mstshash=" ++ name in
  (∀ z, malloc_ok z = true) → readable s → remaining s = line ++ [0x0D; 0x0A] ++ tl → line_ok (Some (false, line)) →
  nego_read_request_token_or_cookie nego s =
    Ret ((true, set_cookie (Some line) nego), blanked (adv (zlen line + 2) s)).
Proof.
  intros line Hmalloc Hs Hr (Hcr & H0 & Hmax & _). pose proof Hs as [Hwf _].
  assert (zlen line = 17 + zlen name) as Hl by (unfold line; by rewrite zlen_app). pose proof (zlen_nonneg name).
  assert (zlen line + 2 <= rem s) as Hrem by (rewrite <- zlen_remaining, Hr, !zlen_app by done; zlia).
  unfold line in Hr. rewrite <- app_assoc in Hr. destruct (remaining_app _ _ _ Hs Hr) as (_ & Hs1 & Hr1).
  change (zlen (ascii_of _)) with 17 in *.
  unfold nego_read_request_token_or_cookie. erewrite bind_Ret by by apply run_GetRemainingLength.
  erewrite bind_Ret by by apply run_GetPosition. replace (rem s <? 15) with false by lia.
  replace (rem s <? 17) with false by lia. erewrite (bind_Ret _ _ _ true); cycle 1.
  { rewrite run_starts_with by (done || change (zlen (ascii_of _)) with 17; lia).
    by rewrite bool_decide_eq_true_2 by (rewrite Hr; by rewrite ztake_app_le). }
  cbn [negb]. replace (rem s <? 19) with false by lia.
  erewrite bind_Ret by by apply (reads_Seek (ascii_of "Cookie: mstshash=") s _ Hs Hr).
  change (zlen (ascii_of _)) with 17.
  erewrite (run_read_to_crlf false _ (ascii_of "Cookie: mstshash=") name tl); [|done| |done|].
  - rewrite adv_adv. by replace (17 + (zlen name + 2)) with (zlen line + 2) by lia.
  - split; try done; [destruct Hwf; lia| |].
    + exact (slice_app s _ _ Hs Hr).
    + intros Hin. apply Hcr. apply elem_of_app. by right.
  - fold line. lia.
Qed.

(** ** A whole request *)

Definition sends_neg_data (nego : rdpNego) : bool := (ng_RequestedProtocols nego >? PROTOCOL_RDP) || ng_sendNegoData nego.
(** The server supports what the client requires. *)
Definition modes_supported (client server : nego_config) : Prop :=
  (cf_RestrictedAdminModeRequired client = true → cf_RestrictedAdminModeSupported server = true) ∧
  (cf_RemoteCredsGuardRequired client = true → cf_RemoteCredsGuardSupported server = true).

(** What the server knows after a request. *)
Definition told_line (client server : rdpNego) : rdpNego :=
  match sent_line client with Some (isToken, line) => keep_line isToken line server | None => server end.
Definition told_protocols (client server : rdpNego) : rdpNego :=
  if sends_neg_data client then
    nego_set_state NEGO_STATE_FINAL (nego_set_requested_protocols (ng_RequestedProtocols client)
      (if cf_RemoteCredsGuardRequired (ng_config client) then set_rcg_active true server else server))
  else server.

Lemma run_request_flags client server :
  modes_supported (ng_config client) (ng_config server) →
  request_flags (request_mode_flags (ng_config client)) server =
    (true, if cf_RemoteCredsGuardRequired (ng_config client) then set_rcg_active true server else server) ∧
  Z.land (request_mode_flags (ng_config client)) CORRELATION_INFO_PRESENT = 0.
Proof.
  intros [Ha Hr]. unfold request_flags, request_mode_flags.
  destruct (cf_RestrictedAdminModeRequired _), (cf_RemoteCredsGuardRequired _);
    rewrite ?Ha, ?Hr by done; by split.
Qed.

Lemma parses_request_data client server length :
  nego_ok client → modes_supported (ng_config client) (ng_config server) → length <= UINT16_MAX →
  parses (rem ← Stream_GetRemainingLength;
          '(ok, nego) ←
            (if rem >=? 8 then
               type ← Stream_Read_UINT8;
               if negb (type =? TYPE_RDP_NEG_REQ) then mret (false, server)
               else nego_process_negotiation_request server
             else mret (true, server));
          if negb ok then mret (false, nego)
          else
            consumed ← tpkt_ensure_stream_consumed length;
            mret (match consumed with Some _ => true | None => false end, nego))
    (neg_part client) (true, told_protocols client server).
Proof.
  intros Hok Hm Hl s Hs Hr. erewrite bind_Ret by by apply run_GetRemainingLength.
  rewrite <- zlen_remaining, Hr by done. destruct (run_request_flags client server Hm) as [Hfl Hcor].
  erewrite (bind_Ret _ _ _ (true, told_protocols client server) (adv (zlen (neg_part client)) s)); cycle 1.
  { revert s Hs Hr. change (parses (if zlen (neg_part client) >=? 8 then
       type ← Stream_Read_UINT8;
       if negb (type =? TYPE_RDP_NEG_REQ) then mret (false, server) else nego_process_negotiation_request server
     else mret (true, server)) (neg_part client) (true, told_protocols client server)).
    unfold neg_part, told_protocols. fold (sends_neg_data client).
    destruct (sends_neg_data client); [|by apply reads_parses, reads_ret].
    change (zlen (neg_data _ _ _)) with 8. apply parses_neg_data. apply reads_parses, reads_check; [done|].
    eapply reads_step_UINT8. rewrite Hfl. cbn [negb]. apply reads_step_UINT16; [done|].
    rewrite <- (app_nil_r (winpr_Data_Write_UINT32 _)). apply reads_step_UINT32; [apply Hok|].
    rewrite Hcor. apply reads_ret. }
  cbn [negb]. rewrite <- (app_nil_r (neg_part client)) in Hr. destruct (remaining_app _ _ _ Hs Hr) as (_ & Hs' & Hr').
  by rewrite (bind_Ret _ _ _ _ _ (run_consumed length _ Hs' Hl Hr')).
Qed.

Lemma run_line client server tl s :
  (∀ z, malloc_ok z = true) → line_ok (sent_line client) →
  readable s → remaining s = token_part client ++ tl → zlen tl <= 8 →
  ∃ s', nego_read_request_token_or_cookie server s = Ret ((true, told_line client server), s') ∧
    readable s' ∧ remaining s' = tl.
Proof.
  intros Hmalloc Hok Hs Hr Htl. rewrite token_part_line in Hr. unfold told_line.
  destruct (sent_line client) as [[isToken line]|] eqn:Hline.
  - assert (let s1 := adv (zlen line + 2) s in readable s1 ∧ remaining s1 = tl ∧ 2 <= st_pointer s1) as (Hs1 & Hr1 & Hp1).
    { destruct (remaining_app _ _ _ Hs Hr) as (_ & Hs1 & Hr1). rewrite zlen_app in Hs1, Hr1.
      split_and!; [done..|]. pose proof (zlen_nonneg line). destruct Hs as [[] ?]. cbn. lia. }
    destruct (blanked_spec _ Hs1 Hp1) as (Hs2 & Hr2 & _).
    rewrite <- app_assoc in Hr. eexists. split_and!; [|exact Hs2|by rewrite Hr2].
    destruct isToken; [by apply (run_token line tl)|].
    unfold sent_line in Hline. destruct (ng_RoutingToken client); [done|].
    destruct (ng_cookie client); [|done]. injection Hline as <-. by apply (run_cookie _ tl).
  - exists s. split_and!; [|done..]. unfold nego_read_request_token_or_cookie.
    erewrite bind_Ret by by apply run_GetRemainingLength. erewrite bind_Ret by (apply run_GetPosition, Hs).
    rewrite <- zlen_remaining, Hr by done. cbn [app].
    by replace (zlen tl <? 15) with true by lia.
Qed.

Lemma run_read_request client server s :
  (∀ z, malloc_ok z = true) → nego_ok client → line_ok (sent_line client) →
  modes_supported (ng_config client) (ng_config server) → zlen (request_body client) <= 249 →
  readable s → remaining s = connection_pdu X224_TPDU_CONNECTION_REQUEST (request_body client) →
  ∃ s', nego_read_request server s = Ret ((true, told_protocols client (told_line client server)), s').
Proof.
  intros Hmalloc Hok Hline Hmodes Hmax Hs Hr. set (body := request_body client) in *.
  pose proof (zlen_nonneg body). unfold nego_read_request, connection_pdu in *. set (len := 11 + zlen body) in *.
  set (hdr := [6 + zlen body; X224_TPDU_CONNECTION_REQUEST] ++ zeros 5) in *.
  assert (zlen (hdr ++ body) = 7 + zlen body) as Hz by (unfold hdr; by rewrite zlen_app).
  erewrite bind_Ret by by apply tpkt_read_header_is_spec.
  rewrite Hr, tpkt_spec_frame by (unfold UINT16_MAX; lia).
  cbn [fst snd]. rewrite app_assoc in Hr. destruct (remaining_app _ _ _ Hs Hr) as (_ & Hs1 & Hr1).
  change (zlen ([3; 0] ++ winpr_Data_Write_UINT16_BE len)) with 4 in *.
  erewrite bind_Ret by by apply (reads_tpdu_code len (6 + zlen body) X224_TPDU_CONNECTION_REQUEST ltac:(lia) _ body).
  destruct (remaining_app _ hdr _ Hs1 Hr1) as (_ & Hs2 & Hr2). change (zlen ([_; _] ++ _)) with (zlen hdr).
  erewrite bind_Ret by by apply run_GetRemainingLength. rewrite <- zlen_remaining, Hr2 by done.
  replace (negb _) with false by lia.
  assert (zlen (neg_part client) <= 8) as Hn by (unfold neg_part; by destruct (_ || _)).
  destruct (run_line client server (neg_part client) _ Hmalloc Hline Hs2 Hr2 Hn) as (s3 & E3 & Hs3 & Hr3).
  rewrite (bind_Ret _ _ _ _ _ E3). cbn [negb]. eexists. apply parses_request_data; [done| |unfold len, UINT16_MAX; lia|done..].
  unfold told_line. by destruct (sent_line client) as [[[] ?]|].
Qed.

(** ** Any request *)

(** [m] returns, with a result of which [P] holds, and leaves a stream that can be read. *)
Definition total {A} (P : A → Prop) (m : SM A) (s : wStream) : Prop := ∃ a s', m s = Ret (a, s') ∧ readable s' ∧ P a.
Lemma total_bind {A B} (P : B → Prop) (m : SM A) (k : A → SM B) s a s' :
  m s = Ret (a, s') → total P (k a) s' → total P (x ← m; k x) s.
Proof. intros E (b & s2 & E2 & Hs2). exists b, s2. split; [by erewrite bind_Ret|done]. Qed.
Lemma total_then {A B} (Q : A → Prop) (P : B → Prop) (m : SM A) (k : A → SM B) s :
  total Q m s → (∀ a s', readable s' → Q a → total P (k a) s') → total P (x ← m; k x) s.
Proof. intros (a & s1 & E & Hs1 & Ha) Hk. by eapply total_bind; [|apply Hk]. Qed.
Lemma total_ret {A} (P : A → Prop) (a : A) s : readable s → P a → total P (mret a) s.
Proof. intros. by exists a, s. Qed.
Lemma safe_total {A} n (m : SM A) P s : safe n m P → readable s → n <= rem s → total P m s.
Proof. intros Hm Hs Hn. destruct (Hm s Hs Hn) as (a & s' & E & [] & ?). by exists a, s'. Qed.

(** What a request leaves alone: the configuration, the protocols that are enabled and the one that is
    selected. *)
Record asked (nego : rdpNego) (r : bool * rdpNego) : Prop := {
  as_config : ng_config r.2 = ng_config nego;
  as_enabled : ng_EnabledProtocols r.2 = ng_EnabledProtocols nego;
  as_selected : ng_SelectedProtocol r.2 = ng_SelectedProtocol nego;
}.
Lemma asked_refl ok nego : asked nego (ok, nego).
Proof. by split. Qed.
Lemma asked_trans nego r r' : asked nego r → asked r.2 r' → asked nego r'.
Proof. intros [] []. split; congruence. Qed.

Lemma find_crlf_total fuel crlf s :
  readable s → rem s <= Z.of_nat fuel →
  ∃ c n, find_crlf fuel crlf s = Ret (c, adv n s) ∧ 0 <= n <= rem s ∧ (c = 0x0A0D → crlf = 0x0A0D ∨ 2 <= n).
Proof.
  revert crlf s. induction fuel as [|fuel IH]; intros crlf s Hs Hf; cbn [find_crlf];
    erewrite bind_Ret by (by apply run_GetRemainingLength); pose proof (readable_rem s Hs);
    destruct (Z.geb_spec (rem s) 2) as [H2|H2];
    try (exists crlf, 0; rewrite adv_0; split_and!; [done|lia|lia|auto]); [lia|].
  erewrite bind_Ret by (by apply run_stream_read). cbv iota. set (v := winpr_Data_Get_LE _).
  destruct (Z.eqb_spec v 0x0A0D) as [|Hv]; [exists v, 2; split_and!; [done|lia|lia|auto with lia]|].
  assert (readable (adv 2 s)) as Hs2 by (apply readable_adv; [done|lia]).
  erewrite bind_Ret; [|apply run_Rewind; [apply Hs2|destruct Hs as [[] ?]; cbn; lia]].
  rewrite adv_adv. change (2 + - (1)) with 1.
  destruct (IH v (adv 1 s)) as (c & n & E & Hn & Hc); [apply readable_adv; [done|lia]|rewrite rem_adv; lia|].
  rewrite rem_adv in Hn. exists c, (1 + n). rewrite E, adv_adv. split_and!; [done|lia|lia|].
  intros H13. destruct (Hc H13); [done|]. right. lia.
Qed.

Lemma read_to_crlf_total isToken pos nego s :
  readable s → 0 <= pos <= st_pointer s → total (asked nego) (read_to_crlf isToken pos nego) s.
Proof.
  intros Hs Hpos. unfold read_to_crlf.
  assert (∀ r s', readable s' → st_capacity s' = st_capacity s → st_length s' = st_length s →
    asked nego r → total (asked nego) (token_result pos r) s') as Hend.
  { intros [result nego'] s' Hs' Hc Hl Hr. destruct Hs as [[] ?]. unfold token_result.
    destruct result; cbn [negb]; [by apply total_ret|].
    eapply total_bind; [apply run_SetPosition; lia|]. apply total_ret; [|by destruct Hr; split]. destruct Hs' as [Hwf' ?].
    split; [apply wf_set_pointer; [done|lia]|cbn; lia]. }
  eapply total_bind; [by apply run_GetRemainingLength|].
  destruct (find_crlf_total (S (Z.to_nat (rem s))) 0 s) as (c & n & E & Hn & Hc);
    [done|pose proof (readable_rem s Hs); lia|].
  eapply total_bind; [exact E|]. assert (readable (adv n s)) as Hs1 by (by apply readable_adv).
  destruct (Z.eqb_spec c 0x0A0D) as [H13|]; [|by apply Hend; [..|apply asked_refl]].
  assert (2 <= n) as H2 by (by destruct (Hc H13)). assert (2 <= st_pointer (adv n s)) as Hp by (cbn; lia).
  eapply total_bind; [apply run_Rewind; [apply Hs1|lia]|].
  eapply total_bind; [apply run_GetPosition, wf_set_pointer; [apply Hs1|destruct Hs1 as [[] ?]; lia]|].
  cbv zeta. eapply total_bind; [apply run_blank; [apply Hs1|lia]|].
  destruct (blanked_spec _ Hs1 Hp) as (Hs2 & _). eapply total_bind; [done|].
  destruct (_ >? UINT32_MAX); [by apply total_ret|]. destruct (forallb _ _); apply Hend; try done.
  unfold nego_set_routing_token, nego_set_cookie. destruct isToken; repeat case_match; by split.
Qed.

Lemma token_or_cookie_total nego s : readable s → total (asked nego) (nego_read_request_token_or_cookie nego) s.
Proof.
  intros Hs. pose proof Hs as [Hwf _]. pose proof Hwf as []. unfold nego_read_request_token_or_cookie.
  eapply total_bind; [by apply run_GetRemainingLength|]. eapply total_bind; [by apply run_GetPosition|].
  destruct (Z.ltb_spec (rem s) 15); [by apply total_ret|].
  assert (∀ str : list Z, zlen str <= 15 → zlen str <= rem s) as H15 by lia.
  assert (∃ b, (if rem s <? 17 then mret false else starts_with (ascii_of "Cookie: mstshash=")) s = Ret (b, s)) as [b E].
  { destruct (Z.ltb_spec (rem s) 17); [by exists false|]. eexists. by apply run_starts_with. }
  eapply total_bind; [exact E|]. destruct b; cbn [negb].
  - destruct (Z.ltb_spec (rem s) 19); [by apply total_ret|].
    eapply total_bind; [apply run_Seek; [done|]; unfold rem in *; lia|].
    apply read_to_crlf_total; [apply readable_adv; [done|lia]|cbn; lia].
  - do 3 (eapply total_bind; [apply run_starts_with; [done|by apply H15]|]).
    destruct (negb _); [by apply total_ret|]. apply read_to_crlf_total; [done|lia].
Qed.

Lemma safe_negotiation_request nego : safe 0 (nego_process_negotiation_request nego) (asked nego).
Proof.
  assert (safe 0 nego_process_correlation_info (λ _, True)) as Hcor
    by (unfold nego_process_correlation_info; by repeat safe_step).
  unfold nego_process_negotiation_request. repeat safe_step; [apply asked_refl|].
  destruct (request_flags _ nego) as [ok nego'] eqn:Ef.
  assert (asked nego (ok, nego')) as Ha.
  { revert Ef. unfold request_flags. repeat case_match; intros [= <- <-]; by split. }
  repeat safe_step; try (by destruct Ha; split). eapply safe_weaken; [|eapply (safe_bind 0 _ _ (λ _, True))].
  - lia.
  - destruct (_ =? 0); [by apply safe_ret|done].
  - intros [] _; repeat safe_step; by destruct Ha; split.
Qed.

Lemma read_request_total nego s : readable s → total (asked nego) (nego_read_request nego) s.
Proof.
  intros Hs. pose proof (readable_rem s Hs). unfold nego_read_request. apply (total_then (λ _, True)).
  { apply (safe_total 0 _ (λ _, True)); [|done..]. unfold tpkt_read_header. by repeat safe_step. }
  intros [length|] s1 Hs1 _; [|by apply total_ret]. pose proof (readable_rem s1 Hs1). eapply total_then.
  { by eapply safe_total; [apply safe_tpdu_code|..]. }
  intros [li|] s2 Hs2 _; [|by apply total_ret]. eapply total_bind; [by apply run_GetRemainingLength|].
  destruct (negb _); [by apply total_ret|]. eapply total_then; [by apply token_or_cookie_total|].
  intros [ok nego1] s3 Hs3 Ha. destruct ok; cbn [negb]; [|by apply total_ret; [|by destruct Ha; split]].
  apply (safe_total 0); [|done|by apply readable_rem].
  safe_step. eapply (safe_bind _ _ _ (asked nego)).
  - destruct (Z.geb_spec r 8); [|by safe_step]. safe_step. destruct (negb _); [by safe_step; destruct Ha; split|].
    apply (safe_weaken _ 0); [lia|]. eapply safe_mono; [|apply safe_negotiation_request]. intros r2 Hr2. by eapply asked_trans.
  - intros [[] nego2] Ha2; cbn [negb]; [|by safe_step; destruct Ha2; split]. eapply (safe_bind _ _ _ (λ _, True)).
    + unfold tpkt_ensure_stream_consumed. by repeat safe_step.
    + intros [] _; safe_step; by destruct Ha2; split.
Qed.
End requests.

Section properties.
Context {HM : Malloc}.

(** * Properties *)

(** C20. The request reaches the server: of a request whose variable part has at most 249
    bytes, with a routing token or a cookie on one line (no carriage return and no zero in it; a token
    of at least 13 bytes that begins with one of the prefixes the server knows,
    [token_prefixes]) and, if the client requires the restricted admin mode or the
    guarded credentials, a server that supports them, [nego_read_request] gets the
    token or the cookie with its prefix, cut to the maximal length, and the
    requested protocols. *)
Theorem nego_request_delivered client server :
  (∀ z, malloc_ok z = true) → nego_ok client → line_ok (sent_line client) →
  modes_supported (ng_config client) (ng_config server) → zlen (request_body client) <= 249 →
  ∃ server', delivers (negotiation_request client) (succeeding (nego_read_request server)) server' ∧
    match sent_line client with
    | Some (true, token) => ng_RoutingToken server' = Some token ∧ ng_cookie server' = ng_cookie server
    | Some (false, cookie) => ng_cookie server' = Some cookie ∧ ng_RoutingToken server' = ng_RoutingToken server
    | None => ng_RoutingToken server' = ng_RoutingToken server ∧ ng_cookie server' = ng_cookie server
    end ∧
    (sends_neg_data client = true →
     ng_RequestedProtocols server' = ng_RequestedProtocols client ∧ ng_state server' = NEGO_STATE_FINAL).
Proof.
  intros Hmalloc Hok Hline Hmodes Hmax. exists (told_protocols client (told_line client server)). split.
  - pose proof (negotiation_request_spec client Hok ltac:(lia)) as Hspec.
    destruct (new_stream_spec Hmalloc 512) as (s0 & Hs0 & _); [done|]. rewrite Hs0 in Hspec.
    replace (_ <=? UINT8_MAX) with true in Hspec by (unfold UINT8_MAX; lia).
    destruct Hspec as (s & E & Hwf & Hw). unfold delivers, transmit. rewrite E.
    destruct (run_read_request client server (stream_of (written s))) as (s' & E'); try done.
    + apply stream_of_readable; [rewrite zlen_written by done; destruct Hwf; lia|by apply written_bytes].
    + by rewrite remaining_stream_of.
    + by rewrite (run_succeeding _ _ _ _ E').
  - unfold told_protocols, told_line. destruct (sent_line client) as [[[] ?]|], (sends_neg_data client),
      (cf_RemoteCredsGuardRequired (ng_config client)); by split.
Qed.

(** C22. Neither side can be stopped by its peer: on any bytes the client's
    [nego_recv] and the server's [nego_read_request] return, within the data; an
    answer only takes protocols away from those the client has enabled, and a request
    changes neither what the server has enabled nor what it has selected. *)
Theorem nego_readers_total nego pdu :
  bytes pdu → zlen pdu <= SIZE_MAX →
  (∃ ok nego' s', nego_recv nego (stream_of pdu) = Ret ((ok, nego'), s') ∧ readable s' ∧ narrowed nego nego') ∧
  (∃ ok nego' s', nego_read_request nego (stream_of pdu) = Ret ((ok, nego'), s') ∧ readable s' ∧
    ng_EnabledProtocols nego' = ng_EnabledProtocols nego ∧ ng_SelectedProtocol nego' = ng_SelectedProtocol nego ∧
    ng_config nego' = ng_config nego).
Proof.
  intros Hb Hz. pose proof (stream_of_readable pdu Hz Hb) as Hs. split.
  - destruct (safe_nego_recv nego _ Hs) as ([ok nego'] & s' & E & [] & [? _]);
      [by apply readable_rem|]. by exists ok, nego', s'.
  - destruct (read_request_total nego _ Hs) as ([ok nego'] & s' & E & Hs' & []). by exists ok, nego', s'.
Qed.

(** C21. The server's choice reaches the client: what [nego_send_negotiation_response]
    sends is read by [nego_recv].  A failure is reported with its code.  A protocol
    the server selected is the client's, with the server's flags, and the client
    accepts it unless it is plain RDP, SSL, NLA or AAD and not enabled: every other
    selection is accepted whether it is enabled or not. *)
Theorem nego_response_delivered client server cx :
  (∀ z, malloc_ok z = true) → 0 <= ng_SelectedProtocol server <= UINT32_MAX →
  ∃ client', delivers (negotiation_response server cx) (succeeding (nego_recv client)) client' ∧
    informed client (ng_SelectedProtocol server) (response_flags server cx) client'.
Proof.
  intros Hmalloc Hsel. destruct (parses_response client server cx Hsel) as (client' & Hp & Hi).
  exists client'. split; [|done]. pose proof (negotiation_response_spec server cx Hsel) as Hspec.
  destruct (new_stream_spec Hmalloc 512) as (s0 & Hs0 & _); [done|]. rewrite Hs0 in Hspec.
  destruct Hspec as (s & E & Hwf & Hw). unfold delivers, transmit. rewrite E.
  assert (zlen (response_body server cx) = 8) as Hz by (unfold response_body; by destruct (negb _)).
  destruct (parsed_by s _ (succeeding (nego_recv client)) client' Hwf Hw) as (s' & ->); [|done].
  intros s1 Hs1 Hr1. apply run_succeeding, parses_nego_recv; [lia| |done..]. by rewrite Hz.
Qed.

(** The request that does not fit: with a routing token or a cookie that makes
    the variable part of the X.224 connection request longer than 249 bytes, an
    assertion of [tpdu_write_header] stops the program. *)
Theorem nego_request_aborts nego :
  (∀ z, malloc_ok z = true) → nego_ok nego → 249 < zlen (request_body nego) <= 501 →
  negotiation_request nego = Abort.
Proof.
  intros Hmalloc Hok Hl. pose proof (negotiation_request_spec nego Hok ltac:(lia)) as Hspec.
  destruct (new_stream_spec Hmalloc 512) as (s0 & Hs0 & _); [done|]. rewrite Hs0 in Hspec.
  by replace (_ <=? UINT8_MAX) with false in Hspec by (unfold UINT8_MAX; lia).
Qed.

(** A stale choice: a server that answers without negotiation data selects plain
    RDP security, but the client, also after [nego_init], goes on with the protocol
    of its last connection. *)
Theorem nego_stale_selection nego s :
  readable s → remaining s = connection_pdu X224_TPDU_CONNECTION_CONFIRM [] →
  ng_EnabledProtocols nego PROTOCOL_RDP = true →
  ∃ nego' s', nego_recv (nego_init nego) s = Ret ((true, nego'), s') ∧
    ng_state nego' = NEGO_STATE_FINAL ∧ ng_SelectedProtocol nego' = ng_SelectedProtocol nego.
Proof.
  intros Hs Hr Hrdp. exists (nego_set_state NEGO_STATE_FINAL (nego_init nego)). eexists. split_and!; [|done..].
  apply (parses_nego_recv _ _ []); [done| |done..]. change (6 + zlen []) with 6. unfold recv_neg_data.
  cbn [Z.gtb Z.compare Pos.compare Pos.compare_cont Z.eqb Pos.eqb nego_init ng_EnabledProtocols]. rewrite Hrdp.
  by apply reads_parses, reads_ret.
Qed.
End properties.

(** * Witnesses *)

#[local] Definition peer : rdpNego :=
  nego_set_requested_protocols (Z.lor PROTOCOL_HYBRID PROTOCOL_SSL) (set_cookie (Some (ascii_of "alice"))
    (mkNego (mkConfig 4 false 0 None true false false false false false false false)
      0 None None NEGO_STATE_INITIAL false false false PROTOCOL_SSL 0 0 (λ p, p =? PROTOCOL_RDP) false)).

(** The cookie is cut to four characters. *)
Lemma nego_request_delivered_witness :
  let HM : Malloc := λ _, true in
  ∃ server', delivers (negotiation_request peer) (succeeding (nego_read_request peer)) server' ∧
    ng_cookie server' = Some (ascii_of "Cookie: mstshash=alic") ∧ ng_RequestedProtocols server' = 3.
Proof.
  intros HM. destruct (nego_request_delivered (HM := HM) peer peer) as (server' & Hd & [Hc _] & Hr).
  - done.
  - split; [constructor|by repeat constructor|done|done].
  - split_and!; [by rewrite list_elem_of_In; vm_compute; intuition discriminate..|done|done].
  - by split.
  - done.
  - exists server'. destruct (Hr eq_refl). auto.
Defined.

(** SSL is not enabled. *)
Lemma nego_response_delivered_witness :
  let HM : Malloc := λ _, true in
  let cx := mkContext 0 0 0 0 false 0 0 false false false false false false true in
  ∃ client', delivers (negotiation_response peer cx) (succeeding (nego_recv peer)) client' ∧
    ng_state client' = NEGO_STATE_FAIL ∧ ng_flags client' = 3.
Proof.
  intros HM cx. destruct (nego_response_delivered (HM := HM) peer peer cx) as (client' & Hd & [_ Hi]); [done..|].
  exists client'. destruct (Hi eq_refl) as (_ & ? & _ & ?). auto.
Defined.

(** A token of 250 characters. *)
Lemma nego_request_aborts_witness :
  let HM : Malloc := λ _, true in
  negotiation_request (set_token (Some (replicate 250 65)) peer) = Abort.
Proof.
  intros HM. apply (nego_request_aborts (HM := HM)); [done| |by vm_compute].
  split; [by repeat constructor|by repeat constructor|done|done].
Defined.

(** The last connection had used SSL. *)
Lemma nego_stale_selection_witness :
  ∃ nego' s', nego_recv (nego_init peer) (stream_of (connection_pdu X224_TPDU_CONNECTION_CONFIRM [])) =
    Ret ((true, nego'), s') ∧ ng_SelectedProtocol nego' = PROTOCOL_SSL.
Proof.
  destruct (nego_stale_selection peer (stream_of (connection_pdu X224_TPDU_CONNECTION_CONFIRM [])))
    as (nego' & s' & E & _ & Hs).
  - apply stream_of_readable; [done|by repeat constructor].
  - done.
  - done.
  - by exists nego', s'.
Defined.

Lemma nego_readers_total_witness :
  let HM : Malloc := λ _, true in
  ∃ ok nego' s', nego_read_request peer (stream_of (connection_pdu X224_TPDU_CONNECTION_REQUEST
    (ascii_of "Cookie: mstshash=without end"))) = Ret ((ok, nego'), s') ∧ readable s' ∧
    ng_EnabledProtocols nego' = ng_EnabledProtocols peer ∧ ng_SelectedProtocol nego' = ng_SelectedProtocol peer ∧
    ng_config nego' = ng_config peer.
Proof.
  intros HM. apply (nego_readers_total (HM := HM)); [by repeat constructor|done].
Defined.
