(* ===== verification/EncodedTypes.v ===== *)
(** The variable-size numbers of the input, geometry and location channels
    (libfreerdp/utils/encoded_types.c): signed integers of 29 bits and decimal
    fractions, in one to four bytes.  The reader of a fraction is modelled up
    to its last division, which the code does in [double]: it returns the sign,
    the digits and the exponent. *)

From S2P Require Import Prelude Stream StreamLogic.
From stdpp Require Import prelude list numbers.
From Stdlib Require Import ZArith Lia.

#[local] Open Scope Z_scope.

Definition FREERDP_FOUR_BYTE_SIGNED_INT_MAX : Z := 0x1FFFFFFF.
Definition FREERDP_FOUR_BYTE_SIGNED_INT_MIN : Z := -0x1FFFFFFF.

(** The first byte: the count of bytes behind it, the sign and the top bits. *)
Record FOUR_BYTE_SIGNED_INTEGER : Type := mkSI { si_c : Z; si_s : Z; si_vals : list Z }.

(** [switch (si.c)]: the value of [val1] and the [c] bytes behind it. *)
Definition read_vals (c val1 : Z) : SM (option Z) :=
  if c =? 0 then mret (Some val1)
  else if c =? 1 then
    val2 ← Stream_Read_UINT8;
    mret (Some (Z.lor (Z.shiftl val1 8) val2))
  else if c =? 2 then
    val2 ← Stream_Read_UINT8;
    val3 ← Stream_Read_UINT8;
    mret (Some (Z.lor (Z.lor (Z.shiftl val1 16) (Z.shiftl val2 8)) val3))
  else if c =? 3 then
    val2 ← Stream_Read_UINT8;
    val3 ← Stream_Read_UINT8;
    val4 ← Stream_Read_UINT8;
    mret (Some (Z.lor (Z.lor (Z.lor (Z.shiftl val1 24) (Z.shiftl val2 16)) (Z.shiftl val3 8)) val4))
  else FALSE.

Definition freerdp_read_four_byte_signed_integer : SM (option Z) :=
  TRY Stream_CheckAndLogRequiredLength 1;
  byte ← Stream_Read_UINT8;
  let c := Z.shiftr (Z.land byte 0xC0) 6 in
  let s := Z.shiftr (Z.land byte 0x20) 5 in
  let val1 := Z.land byte 0x1F in
  TRY Stream_CheckAndLogRequiredLength c;
  value ←? read_vals c val1;
  mret (Some (if s =? 1 then - value else value)).

(** The sign, the digits and the exponent of the fraction. *)
Definition freerdp_read_four_byte_float_exp : SM (option (Z * Z * Z)) :=
  TRY Stream_CheckAndLogRequiredLength 1;
  byte ← Stream_Read_UINT8;
  let c := Z.shiftr (Z.land byte 0xC0) 6 in
  let s := Z.shiftr (Z.land byte 0x20) 5 in
  let e := Z.shiftr (Z.land byte 0x1C) 2 in
  let val1 := Z.land byte 0x03 in
  TRY Stream_CheckAndLogRequiredLength c;
  base ←? read_vals c val1;
  mret (Some (s, base, e)).

(** The fields the writer chooses for the magnitude. *)
Definition split_value (s value : Z) : option FOUR_BYTE_SIGNED_INTEGER :=
  if value <=? 0x1F then Some (mkSI 0 s [Z.land value 0x1F])
  else if value <=? 0x1FFF then
    Some (mkSI 1 s [Z.land (Z.shiftr value 8) 0x1F; Z.land value 0xFF])
  else if value <=? 0x1FFFFF then
    Some (mkSI 2 s [Z.land (Z.shiftr value 16) 0x1F; Z.land (Z.shiftr value 8) 0xFF;
                    Z.land value 0xFF])
  else if value <=? 0x1FFFFFFF then
    Some (mkSI 3 s [Z.land (Z.shiftr value 24) 0x1F; Z.land (Z.shiftr value 16) 0xFF;
                    Z.land (Z.shiftr value 8) 0xFF; Z.land value 0xFF])
  else None.

Fixpoint write_vals (l : list Z) : SM (option unit) :=
  match l with
  | [] => TRUE
  | v :: l => Stream_Write_UINT8 v;; write_vals l
  end.

Definition first_byte (si : FOUR_BYTE_SIGNED_INTEGER) (val1 : Z) : Z :=
  Z.lor (Z.lor (Z.land (Z.shiftl (si_c si) 6) 0xC0) (Z.land (Z.shiftl (si_s si) 5) 0x20))
    (Z.land val1 0x1F).

Definition freerdp_write_four_byte_signed_integer `{HM : Malloc} (value : Z) : SM (option unit) :=
  if value >? FREERDP_FOUR_BYTE_SIGNED_INT_MAX then FALSE
  else if value <? FREERDP_FOUR_BYTE_SIGNED_INT_MIN then FALSE
  else
    let '(s, value) := if value <? 0 then (1, - value) else (0, value) in
    match split_value s value with
    | Some si =>
        match si_vals si with
        | val1 :: vals =>
            TRY Stream_EnsureRemainingCapacity (si_c si + 1);
            Stream_Write_UINT8 (first_byte si val1);;
            write_vals vals
        | [] => FALSE
        end
    | None => FALSE
    end.

(** * Lemmas *)

(** The fields of the first byte. *)
Lemma byte_fields b :
  is_byte b →
  Z.shiftr (Z.land b 0xC0) 6 = b / 64 ∧ Z.shiftr (Z.land b 0x20) 5 = (b / 32) mod 2 ∧
  Z.land b 0x1F = b mod 32 ∧ Z.shiftr (Z.land b 0x1C) 2 = (b / 4) mod 8 ∧ Z.land b 0x03 = b mod 4.
Proof.
  intros Hb.
  assert ((Z.shiftr (Z.land b 0xC0) 6 =? b / 64) && (Z.shiftr (Z.land b 0x20) 5 =? (b / 32) mod 2)
    && (Z.land b 0x1F =? b mod 32) && (Z.shiftr (Z.land b 0x1C) 2 =? (b / 4) mod 8)
    && (Z.land b 0x03 =? b mod 4) = true) as H.
  { by apply (byte_cases (λ b, (Z.shiftr (Z.land b 0xC0) 6 =? b / 64)
      && (Z.shiftr (Z.land b 0x20) 5 =? (b / 32) mod 2)
      && (Z.land b 0x1F =? b mod 32) && (Z.shiftr (Z.land b 0x1C) 2 =? (b / 4) mod 8)
      && (Z.land b 0x03 =? b mod 4))). }
  rewrite !andb_true_iff, !Z.eqb_eq in H. tauto.
Qed.

(** The bytes put together. *)
Lemma join_2 a b : is_byte b → Z.lor (Z.shiftl a 8) b = a * 256 + b.
Proof. apply get_be_step. Qed.
Lemma join_3 a b c :
  is_byte b → is_byte c →
  Z.lor (Z.lor (Z.shiftl a 16) (Z.shiftl b 8)) c = (a * 256 + b) * 256 + c.
Proof.
  unfold is_byte. intros. rewrite (Z.shiftl_mul_pow2 b 8) by lia.
  rewrite lor_shiftl by lia. rewrite (lor_disjoint _ c 8) by (lia || div_mod_lia). lia.
Qed.
Lemma join_4 a b c d :
  is_byte b → is_byte c → is_byte d →
  Z.lor (Z.lor (Z.lor (Z.shiftl a 24) (Z.shiftl b 16)) (Z.shiftl c 8)) d =
    ((a * 256 + b) * 256 + c) * 256 + d.
Proof.
  unfold is_byte. intros. rewrite (Z.shiftl_mul_pow2 b 16), (Z.shiftl_mul_pow2 c 8) by lia.
  rewrite lor_shiftl by lia.
  rewrite (lor_disjoint _ (c * 2 ^ 8) 16) by (lia || div_mod_lia).
  rewrite (lor_disjoint _ d 8) by (lia || div_mod_lia). lia.
Qed.

(** The number in [val1] and the bytes behind it. *)
Definition number (val1 : Z) (vals : list Z) : Z := fold_left (λ v b, v * 256 + b) vals val1.

Lemma reads_vals val1 vals :
  bytes vals → zlen vals <= 3 →
  reads (read_vals (zlen vals) val1) vals (Some (number val1 vals)).
Proof.
  intros Hb Hl. destruct vals as [|a [|b [|c [|d vals]]]].
  - apply reads_ret.
  - apply reads_step_UINT8. unfold bytes in Hb. decompose_Forall_hyps.
    rewrite join_2 by done. apply reads_ret.
  - do 2 apply reads_step_UINT8. unfold bytes in Hb. decompose_Forall_hyps.
    rewrite join_3 by done. apply reads_ret.
  - do 3 apply reads_step_UINT8. unfold bytes in Hb. decompose_Forall_hyps.
    rewrite join_4 by done. apply reads_ret.
  - rewrite !zlen_cons in Hl. zlia.
Qed.

Lemma safe_vals c val1 :
  0 <= c <= 3 →
  safe c (read_vals c val1)
    (on_some (λ v, val1 * 256 ^ c <= v < (val1 + 1) * 256 ^ c)).
Proof.
  intros Hc. unfold read_vals. assert (c = 0 ∨ c = 1 ∨ c = 2 ∨ c = 3) as [->|[->|[->| ->]]] by lia.
  all: cbn [Z.eqb Pos.eqb]; repeat safe_step; unfold on_some, is_byte in *.
  - lia.
  - rewrite join_2 by done. lia.
  - rewrite join_3 by done. lia.
  - rewrite join_4 by done. lia.
Qed.

Lemma puts_vals n l : bytes l → zlen l <= n → puts n (write_vals l) l (Some tt).
Proof.
  intros Hb. revert n. induction Hb as [|v l Hv Hb IH]; intros n Hn; [apply puts_ret|].
  rewrite zlen_cons in Hn. pose proof (zlen_nonneg l).
  apply puts_UINT8; [lia|done|]. apply IH. lia.
Qed.

(** What the writer makes of a magnitude. *)
Lemma split_value_spec s v :
  0 <= v <= 0x1FFFFFFF →
  ∃ val1 vals, split_value s v = Some (mkSI (zlen vals) s (val1 :: vals)) ∧
    0 <= val1 < 32 ∧ bytes vals ∧ zlen vals <= 3 ∧ number val1 vals = v.
Proof.
  intros Hv. unfold split_value. rewrite !land_255, !shiftr_8, !shiftr_16.
  rewrite (Z.shiftr_div_pow2 v 24) by lia. change (2 ^ 24) with 16777216.
  assert (∀ x, Z.land x 31 = x mod 32) as Hm by (intros; by apply (land_mask x 5)).
  rewrite !Hm.
  destruct (Z.leb_spec v 31); [|destruct (Z.leb_spec v 8191);
    [|destruct (Z.leb_spec v 2097151); [|replace (v <=? 536870911) with true by lia]]].
  1: exists (v mod 32), [].
  2: exists ((v / 256) mod 32), [v mod 256].
  3: exists ((v / 65536) mod 32), [(v / 256) mod 256; v mod 256].
  4: exists ((v / 16777216) mod 32), [(v / 65536) mod 256; (v / 256) mod 256; v mod 256].
  all: split; [reflexivity|]; unfold number, bytes, is_byte; cbn [fold_left].
  all: split_and!; [div_mod_lia..| |done|div_mod_lia].
  all: repeat apply Forall_cons_2; try apply Forall_nil_2; div_mod_lia.
Qed.

Lemma first_byte_spec c s val1 :
  0 <= c <= 3 → 0 <= s <= 1 → 0 <= val1 < 32 →
  first_byte (mkSI c s []) val1 = c * 64 + s * 32 + val1.
Proof.
  intros Hc Hs Hv. unfold first_byte. cbn [si_c si_s].
  change 31 with (2 ^ 5 - 1). rewrite land_mask, (Z.mod_small val1) by lia.
  assert (c = 0 ∨ c = 1 ∨ c = 2 ∨ c = 3) as [->|[->|[->| ->]]] by lia;
    assert (s = 0 ∨ s = 1) as [->| ->] by lia;
    match goal with |- Z.lor ?x _ = _ => let y := eval vm_compute in x in change x with y end;
    rewrite (lor_disjoint _ val1 5) by (done || lia); lia.
Qed.

Lemma first_byte_fields c s val1 :
  0 <= c <= 3 → 0 <= s <= 1 → 0 <= val1 < 32 →
  let b := c * 64 + s * 32 + val1 in
  is_byte b ∧ b / 64 = c ∧ (b / 32) mod 2 = s ∧ b mod 32 = val1.
Proof. intros Hc Hs Hv b. unfold is_byte, b. split_and!; div_mod_lia. Qed.

Lemma reads_signed_integer s val1 vals :
  0 <= s <= 1 → 0 <= val1 < 32 → bytes vals → zlen vals <= 3 →
  reads freerdp_read_four_byte_signed_integer (zlen vals * 64 + s * 32 + val1 :: vals)
    (Some (if s =? 1 then - number val1 vals else number val1 vals)).
Proof.
  intros Hs Hv Hb Hl. pose proof (zlen_nonneg vals).
  destruct (first_byte_fields (zlen vals) s val1) as (Hb1 & E1 & E2 & E3); [lia..|].
  set (b := _ + _ + _) in *. destruct (byte_fields b Hb1) as (F1 & F2 & F3 & _).
  unfold freerdp_read_four_byte_signed_integer. apply reads_check; [zlia|].
  apply reads_step_UINT8. cbv zeta. rewrite F1, F2, F3, E1, E2, E3.
  apply reads_check; [lia|]. cbv beta iota. apply reads_nil_r.
  eapply reads_bind; [by apply reads_vals|]. apply reads_ret.
Qed.

Lemma writes_signed_integer `{HM : Malloc} s val1 vals :
  (∀ z, malloc_ok z = true) → 0 <= s <= 1 → 0 <= val1 < 32 → bytes vals → zlen vals <= 3 →
  writes (TRY Stream_EnsureRemainingCapacity (zlen vals + 1);
          Stream_Write_UINT8 (first_byte (mkSI (zlen vals) s (val1 :: vals)) val1);;
          write_vals vals)
    (zlen vals * 64 + s * 32 + val1 :: vals) 132 (Some tt).
Proof.
  intros Hm Hs Hv Hb Hl. pose proof (zlen_nonneg vals).
  apply (writes_weaken _ (zlen vals + 1 + 128)); [lia|]. apply writes_ensure; [done|lia|].
  change (first_byte (mkSI (zlen vals) s (val1 :: vals)) val1)
    with (first_byte (mkSI (zlen vals) s []) val1).
  rewrite first_byte_spec by lia. apply puts_UINT8; [lia| |].
  { by apply first_byte_fields. }
  apply puts_vals; [done|lia].
Qed.

(** * Properties *)

(** The signed integers: [freerdp_write_four_byte_signed_integer] accepts
    exactly the values of magnitude up to 0x1FFFFFFF, and
    [freerdp_read_four_byte_signed_integer] reads them back, sign included;
    any other value is refused and nothing is written. *)
Theorem four_byte_integer_roundtrip `{HM : Malloc} v :
  (∀ z, malloc_ok z = true) →
  if (FREERDP_FOUR_BYTE_SIGNED_INT_MIN <=? v) && (v <=? FREERDP_FOUR_BYTE_SIGNED_INT_MAX)
  then roundtrip 132 (freerdp_write_four_byte_signed_integer v)
         freerdp_read_four_byte_signed_integer v
  else ∀ s, freerdp_write_four_byte_signed_integer v s = Ret (None, s).
Proof.
  intros Hm. unfold FREERDP_FOUR_BYTE_SIGNED_INT_MIN, FREERDP_FOUR_BYTE_SIGNED_INT_MAX.
  unfold freerdp_write_four_byte_signed_integer, FREERDP_FOUR_BYTE_SIGNED_INT_MIN,
    FREERDP_FOUR_BYTE_SIGNED_INT_MAX.
  destruct (Z.leb_spec (-536870911) v), (Z.leb_spec v 536870911); cbn [andb].
  2: by replace (v >? 536870911) with true by lia.
  2,3: replace (v <? -536870911) with true by lia; by destruct (v >? 536870911).
  replace (v >? 536870911) with false by lia. replace (v <? -536870911) with false by lia.
  set (sv := if v <? 0 then (1, - v) else (0, v)).
  assert (0 <= sv.1 <= 1 ∧ 0 <= sv.2 <= 0x1FFFFFFF ∧ (if sv.1 =? 1 then - sv.2 else sv.2) = v)
    as (Hs & Hv & Hval) by (unfold sv; destruct (Z.ltb_spec v 0); cbn; lia).
  destruct sv as [s m]. cbn [fst snd] in *.
  destruct (split_value_spec s m Hv) as (val1 & vals & -> & H1 & Hb & Hl & Hn).
  cbn [si_c si_vals]. eapply roundtrip_intro; [by apply writes_signed_integer|].
  rewrite <- Hval, <- Hn. by apply reads_signed_integer.
Qed.

(** On any input the readers neither abort nor leave the data; an integer
    they return is one the writer accepts, and a fraction has a sign of one
    bit, at most 26 bits of digits and at most seven decimals. *)
Theorem four_byte_readers_safe :
  safe 0 freerdp_read_four_byte_signed_integer
    (on_some (λ v, FREERDP_FOUR_BYTE_SIGNED_INT_MIN <= v <= FREERDP_FOUR_BYTE_SIGNED_INT_MAX)) ∧
  safe 0 freerdp_read_four_byte_float_exp
    (on_some (λ '(s, base, e), 0 <= s <= 1 ∧ 0 <= base <= 0x3FFFFFF ∧ 0 <= e <= 7)).
Proof.
  unfold FREERDP_FOUR_BYTE_SIGNED_INT_MIN, FREERDP_FOUR_BYTE_SIGNED_INT_MAX.
  split; unfold freerdp_read_four_byte_signed_integer, freerdp_read_four_byte_float_exp.
  all: safe_step; [by safe_step|]; safe_step.
  all: match goal with H : is_byte ?b |- _ => destruct (byte_fields b H) as (F1 & F2 & F3 & F4 & F5);
    cbv zeta; rewrite ?F1, ?F2, ?F3, ?F4, ?F5; clear F1 F2 F3 F4 F5;
    unfold is_byte in H; assert (0 <= b / 64 <= 3) as Hc by div_mod_lia;
    pose proof (Z.pow_pos_nonneg 256 (b / 64) ltac:(lia) ltac:(lia));
    pose proof (Z.pow_le_mono_r 256 (b / 64) 3 ltac:(lia) ltac:(lia)) as Hp;
    change (256 ^ 3) with 16777216 in Hp end.
  all: safe_step; [by safe_step|].
  all: eapply safe_bind; [eapply safe_weaken; [|by apply safe_vals]; lia|].
  all: intros [w|] Hw; [|by apply safe_ret]; cbn [on_some] in Hw; apply safe_ret; cbn [on_some].
  - assert (0 <= v mod 32 < 32) by div_mod_lia. destruct (_ =? 1); nia.
  - assert (0 <= v mod 4 < 4) by div_mod_lia. split_and!; try div_mod_lia; nia.
Qed.

(** * Witnesses *)

Lemma four_byte_integer_roundtrip_witness :
  let HM : Malloc := λ _, true in
  roundtrip 132 (freerdp_write_four_byte_signed_integer (-70000))
    freerdp_read_four_byte_signed_integer (-70000).
Proof. intros HM. by apply (four_byte_integer_roundtrip (-70000)). Defined.
