(* ===== verification/Ring.v ===== *)
(** Circular arrays: what a ring of the WinPR queue and of the FreeRDP ring
    buffer holds, and how it changes when data is appended at its tail (in one
    piece or wrapped around the end of the array) and taken from its head. *)

From S2P Require Import Prelude.
From stdpp Require Import prelude list numbers.
From Stdlib Require Import ZArith Lia.

#[local] Open Scope Z_scope.

(** * Memory *)

(** [memcpy] into and out of an object: outside it the program aborts. *)
Definition mem_write {A} (p : Z) (src l : list A) : outcome (list A) :=
  if (0 <=? p) && (p + zlen src <=? zlen l) then Ret (zblit p src l) else Abort.
Definition mem_read {A} (p n : Z) (l : list A) : outcome (list A) :=
  if (0 <=? p) && (0 <=? n) && (p + n <=? zlen l) then Ret (zslice p n l) else Abort.

Section ring.
Context {A : Type}.
Implicit Types (l x y z d : list A).

Lemma mem_write_ok p src l :
  0 <= p → p + zlen src <= zlen l → mem_write p src l = Ret (zblit p src l).
Proof. intros. unfold mem_write. by replace (_ && _) with true by lia. Qed.
Lemma mem_read_ok p n l :
  0 <= p → 0 <= n → p + n <= zlen l → mem_read p n l = Ret (zslice p n l).
Proof. intros. unfold mem_read. by replace (_ && _) with true by lia. Qed.

(** * Rings *)

(** The [n] elements from index [h] on, around the end. *)
Definition ring (h n : Z) l : list A := ztake n (zdrop h l ++ ztake h l).

Lemma ring_linear x y z h n : h = zlen x → n = zlen y → ring h n (x ++ y ++ z) = y.
Proof.
  intros -> ->. unfold ring. rewrite zdrop_app_ge, zdrop_nonpos by lia.
  rewrite <- app_assoc, ztake_app_le by lia. apply ztake_all. lia.
Qed.
Lemma ring_wrapped x y z h n :
  h = zlen x + zlen y → n = zlen z + zlen x → ring h n (x ++ y ++ z) = z ++ x.
Proof.
  intros -> ->. unfold ring. rewrite (app_assoc x y z), zdrop_app_ge by (rewrite zlen_app; lia).
  rewrite zdrop_nonpos by (rewrite zlen_app; lia).
  rewrite (ztake_app_le _ (x ++ y) z), (ztake_all _ (x ++ y)) by (rewrite zlen_app; lia).
  rewrite ztake_app_ge by zlia. f_equal.
  rewrite ztake_app_le by lia. apply ztake_all. lia.
Qed.
Lemma zlen_ring h n l : 0 <= h <= zlen l → 0 <= n <= zlen l → zlen (ring h n l) = n.
Proof. intros. unfold ring. rewrite zlen_ztake, zlen_app, zlen_zdrop, zlen_ztake. lia. Qed.
Lemma ring_0 h l : ring h 0 l = [].
Proof. unfold ring. by apply ztake_nonpos. Qed.
Lemma ring_take h n k l : 0 <= k <= n → ztake k (ring h n l) = ring h k l.
Proof. intros. unfold ring. by apply ztake_ztake. Qed.

(** The two shapes of a ring. *)
Lemma ring_cases h n l :
  0 <= h <= zlen l → 0 <= n <= zlen l →
  (h + n < zlen l ∧ ∃ x y z, l = x ++ y ++ z ∧ zlen x = h ∧ zlen y = n) ∨
  (zlen l <= h + n ∧ ∃ x y z, l = x ++ y ++ z ∧ zlen x = h + n - zlen l ∧ zlen x + zlen y = h).
Proof.
  intros Hh Hn. destruct (Z.lt_ge_cases (h + n) (zlen l)); [left|right]; (split; [lia|]).
  - destruct (split_at h l) as (x & y & -> & Hx & Hy); [lia|].
    destruct (split_at n y) as (y1 & y2 & -> & Hy1 & Hy2); [lia|]. by exists x, y1, y2.
  - destruct (split_at h l) as (x & y & Hl & Hx & Hy); [lia|]. rewrite Hl in *.
    destruct (split_at (h + n - zlen (x ++ y)) x) as (x1 & x2 & -> & Hx1 & Hx2); [lia|].
    exists x1, x2, y. split; [by rewrite app_assoc|]. rewrite !zlen_app in *. lia.
Qed.

(** Appending [d] at the tail. *)
Definition ring_put (t : Z) d l : list A :=
  if t + zlen d <=? zlen l then zblit t d l
  else zblit 0 (zdrop (zlen l - t) d) (zblit t (ztake (zlen l - t) d) l).

Lemma ring_put_linear x y d l h n t :
  l = x ++ y → zlen x = h + n → t = h + n → 0 <= h → 0 <= n → n + zlen d <= zlen l →
  h <= zlen l → ring h (n + zlen d) (ring_put t d l) = ring h n l ++ d ∧
  zlen (ring_put t d l) = zlen l.
Proof.
  intros -> Hx -> Hh Hn Hd Hl. rewrite zlen_app in *. unfold ring_put. rewrite zlen_app.
  destruct (split_at h x) as (a & b & -> & Ha & Hb); [lia|]. rewrite zlen_app in *.
  pose proof (zlen_nonneg d). pose proof (zlen_nonneg y).
  rewrite <- app_assoc, (ring_linear a b y) by lia.
  destruct (Z.leb_spec (h + n + zlen d) (zlen a + zlen b + zlen y)).
  - destruct (split_at (zlen d) y) as (y1 & y2 & -> & Hy1 & Hy2); [lia|].
    rewrite (app_assoc a b), (zblit_mid (a ++ b) y1 y2) by (rewrite ?zlen_app; lia).
    rewrite <- app_assoc, (app_assoc b d), ring_linear by (rewrite ?zlen_app; lia).
    split; [done|]. rewrite !zlen_app in *. lia.
  - destruct (split_at (zlen y) d) as (d1 & d2 & -> & Hd1 & Hd2); [lia|].
    rewrite zlen_app in *. replace (zlen a + zlen b + zlen y - (h + n)) with (zlen d1) by lia.
    rewrite ztake_app_le, ztake_all, zdrop_app_ge, zdrop_nonpos by lia.
    rewrite (app_assoc a b y), zblit_end by (rewrite ?zlen_app; lia).
    destruct (split_at (zlen d2) a) as (a1 & a2 & -> & Ha1 & Ha2); [zlia|].
    rewrite zlen_app in *. rewrite <- !app_assoc, zblit_front by lia.
    rewrite (ring_wrapped d2 a2 (b ++ d1)) by (rewrite ?zlen_app; lia).
    rewrite <- !app_assoc. split; [done|]. rewrite !zlen_app. lia.
Qed.

Lemma ring_push h n t d l :
  0 <= h < zlen l → 0 <= n → n + zlen d <= zlen l → t = (h + n) mod zlen l →
  ring h (n + zlen d) (ring_put t d l) = ring h n l ++ d ∧ zlen (ring_put t d l) = zlen l.
Proof.
  intros Hh Hn Hd Ht. pose proof (zlen_nonneg d).
  destruct (Z.le_gt_cases (zlen l) (h + n)) as [Hw|Hw].
  2:{ rewrite Z.mod_small in Ht by lia. destruct (split_at (h + n) l) as (x & y & Hl & Hx & _); [lia|].
      apply (ring_put_linear x y); done || lia. }
  assert (t = h + n - zlen l) as -> by (rewrite Ht; symmetry; apply (Z.mod_unique_pos _ _ 1); lia).
  destruct (ring_cases h n l) as [[? _]|[_ (x & y & z & -> & Hx & Hy)]]; [lia..|].
  rewrite !zlen_app in *. unfold ring_put. rewrite !zlen_app.
  replace (_ <=? _) with true by zlia.
  destruct (split_at (zlen d) y) as (y1 & y2 & -> & Hy1 & Hy2); [lia|]. rewrite zlen_app in *.
  rewrite (ring_wrapped x (y1 ++ y2) z) by (rewrite ?zlen_app; lia).
  rewrite <- app_assoc, (zblit_mid x y1 (y2 ++ z)) by lia.
  rewrite (app_assoc x d), (ring_wrapped (x ++ d) y2 z) by (rewrite ?zlen_app; lia).
  rewrite !zlen_app, app_assoc. split; [done|lia].
Qed.

(** Taking [k] elements from the head. *)
Lemma ring_pop h n k l :
  0 <= h < zlen l → 0 <= k <= n → n <= zlen l →
  zdrop k (ring h n l) = ring ((h + k) mod zlen l) (n - k) l.
Proof.
  intros Hh Hk Hn.
  destruct (ring_cases h n l) as [[Hw (x & y & z & -> & Hx & Hy)]|[Hw (x & y & z & -> & Hx & Hy)]];
    [lia..| |]; rewrite !zlen_app in *.
  - destruct (split_at k y) as (y1 & y2 & -> & Hy1 & Hy2); [lia|]. rewrite !zlen_app in *.
    rewrite (ring_linear x (y1 ++ y2) z) by (rewrite ?zlen_app; lia).
    rewrite zdrop_app_ge, zdrop_nonpos, Z.mod_small by zlia.
    rewrite <- app_assoc, (app_assoc x y1), ring_linear by (rewrite ?zlen_app; lia). done.
  - rewrite (ring_wrapped x y z) by lia. destruct (Z.lt_ge_cases k (zlen z)) as [Hz|Hz].
    + destruct (split_at k z) as (z1 & z2 & -> & Hz1 & Hz2); [lia|]. rewrite !zlen_app in *.
      rewrite <- app_assoc, zdrop_app_ge, zdrop_nonpos, Z.mod_small by zlia.
      rewrite (app_assoc y z1), ring_wrapped by (rewrite ?zlen_app; lia). done.
    + destruct (split_at (k - zlen z) x) as (x1 & x2 & -> & Hx1 & Hx2); [lia|].
      rewrite !zlen_app in *. rewrite zdrop_app_ge by lia. rewrite zdrop_app_ge, zdrop_nonpos by lia.
      replace ((h + k) mod _) with (zlen x1).
      { by rewrite <- app_assoc, (ring_linear x1 x2) by lia. }
      pose proof (zlen_nonneg y). pose proof (zlen_nonneg z).
      apply (Z.mod_unique_pos _ _ 1); zlia.
Qed.

(** The elements at the head, of which any may be overwritten once they are
    taken. *)
Lemma ring_front x y z h n :
  h = zlen x → zlen y <= n → ring h n (x ++ y ++ z) = y ++ ztake (n - zlen y) (z ++ x).
Proof.
  intros -> Hn. unfold ring. rewrite zdrop_app_ge, zdrop_nonpos by lia.
  rewrite (ztake_app_le (zlen x) x), (ztake_all (zlen x) x) by lia.
  by rewrite <- app_assoc, ztake_app_ge by lia.
Qed.
Lemma ring_pop_over h n d l :
  0 <= h < zlen l → zlen d <= n <= zlen l → h + zlen d <= zlen l →
  ring ((h + zlen d) mod zlen l) (n - zlen d) (zblit h d l) = zdrop (zlen d) (ring h n l).
Proof.
  intros Hh Hn Hl. pose proof (zlen_nonneg d).
  destruct (split_at h l) as (x & y & -> & Hx & Hy); [lia|].
  destruct (split_at (zlen d) y) as (y1 & y2 & -> & Hy1 & Hy2); [lia|].
  rewrite zblit_mid by lia.
  assert (zlen (x ++ y1 ++ y2) = zlen (x ++ d ++ y2)) as Hz by (rewrite !zlen_app; lia).
  rewrite Hz in *. rewrite <- ring_pop by lia. rewrite !ring_front by lia.
  rewrite Hy1, !zdrop_app_ge by lia. by rewrite Hy1.
Qed.
Lemma ring_first h n l :
  0 <= h < zlen l → 0 < n <= zlen l → ∃ a c, ring h n l = a :: c ∧ zslice h 1 l = [a].
Proof.
  intros Hh Hn. destruct (split_at h l) as (x & y & -> & Hx & Hy); [lia|].
  destruct (split_at 1 y) as (y1 & y2 & -> & Hy1 & Hy2); [lia|].
  rewrite ring_front, zslice_mid by lia.
  destruct y1 as [|a [|b y1]]; [done| |rewrite !zlen_cons in Hy1; zlia]. by eexists _, _.
Qed.
End ring.
