(* ===== verification/Queue.v ===== *)
(** The queue of WinPR (winpr/libwinpr/utils/collections/Queue.c): a circular
    array of pointers that grows when it is full.  The operations are modelled
    as the code between [Queue_Lock] and [Queue_Unlock].  A pointer is a
    number, 0 the null pointer; the event is a flag, set when there is
    something in the queue. *)

From S2P Require Import Prelude Ring.
From stdpp Require Import prelude list numbers.
From Stdlib Require Import ZArith Lia.

#[local] Open Scope Z_scope.

Record wQueue : Type := mkQueue {
  q_capacity : Z;
  q_growthFactor : Z;
  q_head : Z;
  q_tail : Z;
  q_size : Z;
  q_array : list Z;
  q_event : bool;
}.

(** The callbacks of [wObject]: [fnObjectNew] makes the pointer to store,
    [fnObjectEquals] compares, and [hasFree] says whether [fnObjectFree] is
    set; what it is called with is a result of the operation. *)
Section queue.
Context {HM : Malloc}.
Context (fnObjectNew : option (Z → Z)) (fnObjectEquals : Z → Z → bool) (hasFree : bool).

Definition Queue_Count (queue : wQueue) : Z := q_size queue.
Definition Queue_Capacity (queue : wQueue) : Z := q_capacity queue.

(** The entries in front of a wrapped head go behind the old end, as many as
    there are new slots, and the others move down: the array and the tail. *)
Definition rearrange (old_capacity new_capacity head tail : Z) (array : list Z)
    : outcome (list Z * Z) :=
  if tail <=? head then
    let tocopy := tail in
    let slots := new_capacity - old_capacity in
    let batch := if tocopy <? slots then tocopy else slots in
    src ← mem_read 0 batch array;
    array ← mem_write old_capacity src array;
    if tocopy <? slots then
      array ← mem_write 0 (zeros batch) array;
      Ret (array, tail + old_capacity)
    else
      let remain := tail - batch in
      src ← mem_read batch remain array;
      array ← mem_write 0 src array;
      array ← mem_write remain (zeros (tail - remain)) array;
      Ret (array, tail - batch)
  else Ret (array, tail).

Definition Queue_EnsureCapacity (queue : wQueue) (count : Z) : outcome (bool * wQueue) :=
  let blocksize := 32 in
  if q_growthFactor queue >? SIZE_MAX / blocksize then Ret (false, queue)
  else
    let increment := blocksize * q_growthFactor queue in
    if q_size queue >? SIZE_MAX - count then Ret (false, queue)
    else
      let required := q_size queue + count in
      if required >? q_capacity queue then
        let old_capacity := q_capacity queue in
        if required >? SIZE_MAX - increment then Ret (false, queue)
        else
          let new_capacity := required + increment - required mod increment in
          if new_capacity >? SIZE_MAX / 8 then Ret (false, queue)
          else if negb (malloc_ok (8 * new_capacity)) then Ret (false, queue)
          else
            '(array, tail) ← rearrange old_capacity new_capacity (q_head queue) (q_tail queue)
                               (q_array queue ++ zeros (new_capacity - old_capacity));
            Ret (true, mkQueue new_capacity (q_growthFactor queue) (q_head queue) tail
                         (q_size queue) array (q_event queue))
      else Ret (true, queue).

(** [BOOL ret] is [TRUE] on every path. *)
Definition Queue_Enqueue (queue : wQueue) (obj : Z) : outcome (bool * wQueue) :=
  '(ok, queue) ← Queue_EnsureCapacity queue 1;
  if negb ok then Ret (true, queue)
  else
    let entry := match fnObjectNew with Some new => new obj | None => obj end in
    array ← mem_write (q_tail queue) [entry] (q_array queue);
    let tail := (q_tail queue + 1) mod q_capacity queue in
    let signalSet := q_size queue =? 0 in
    Ret (true, mkQueue (q_capacity queue) (q_growthFactor queue) (q_head queue) tail
                 (q_size queue + 1) array (signalSet || q_event queue)).

Definition Queue_Dequeue (queue : wQueue) : outcome (Z * wQueue) :=
  if q_size queue >? 0 then
    obj ← mem_read (q_head queue) 1 (q_array queue);
    array ← mem_write (q_head queue) [0] (q_array queue);
    let head := (q_head queue + 1) mod q_capacity queue in
    let size := q_size queue - 1 in
    Ret (zget obj 0, mkQueue (q_capacity queue) (q_growthFactor queue) head (q_tail queue)
                       size array (if size <? 1 then false else q_event queue))
  else
    Ret (0, mkQueue (q_capacity queue) (q_growthFactor queue) (q_head queue) (q_tail queue)
              (q_size queue) (q_array queue) (if q_size queue <? 1 then false else q_event queue)).

Definition Queue_Peek (queue : wQueue) : outcome Z :=
  if q_size queue >? 0 then
    obj ← mem_read (q_head queue) 1 (q_array queue);
    Ret (zget obj 0)
  else Ret 0.

(** The object freed. *)
Definition Queue_Discard (queue : wQueue) : outcome (list Z * wQueue) :=
  '(obj, queue) ← Queue_Dequeue queue;
  Ret (if hasFree then [obj] else [], queue).

(** [for (index = head; index != tail; index = (index + 1) % capacity)] *)
Fixpoint clear_loop (fuel : nat) (index tail capacity : Z) (array freed : list Z)
    : outcome (list Z * list Z) :=
  if index =? tail then Ret (array, freed)
  else
    match fuel with
    | O => Abort
    | S fuel =>
        obj ← mem_read index 1 array;
        array ← mem_write index [0] array;
        clear_loop fuel ((index + 1) mod capacity) tail capacity array
          (freed ++ (if hasFree then obj else []))
    end.

(** The objects freed.  The loop ends after [capacity] steps at most. *)
Definition Queue_Clear (queue : wQueue) : outcome (list Z * wQueue) :=
  '(array, freed) ← clear_loop (Z.to_nat (q_capacity queue)) (q_head queue) (q_tail queue)
                      (q_capacity queue) (q_array queue) [];
  Ret (freed, mkQueue (q_capacity queue) (q_growthFactor queue) 0 0 0 array false).

(** [for (index = 0; index < tail; index++)] *)
Definition Queue_Contains (queue : wQueue) (obj : Z) : outcome bool :=
  entries ← mem_read 0 (q_tail queue) (q_array queue);
  Ret (existsb (λ ptr, fnObjectEquals ptr obj) entries).

(** The lock and the event are there. *)
Definition Queue_New (capacity growthFactor : Z) : outcome (option wQueue) :=
  let gf := if growthFactor >? 0 then growthFactor else 2 in
  let capacity := if capacity <=? 0 then 32 else capacity in
  '(ok, queue) ← Queue_EnsureCapacity (mkQueue 0 gf 0 0 0 [] false) capacity;
  Ret (if ok : bool then Some queue else None).

(** * The abstract queue *)

(** The entries, first in first. *)
Definition contents (queue : wQueue) : list Z :=
  ring (q_head queue) (q_size queue) (q_array queue).

Record queue_ok (queue : wQueue) : Prop := {
  qo_array : zlen (q_array queue) = q_capacity queue;
  qo_head : 0 <= q_head queue < q_capacity queue;
  qo_size : 0 <= q_size queue <= q_capacity queue;
  qo_tail : q_tail queue = (q_head queue + q_size queue) mod q_capacity queue;
  qo_growth : 0 < q_growthFactor queue <= SIZE_MAX / 32;
  qo_capacity : q_capacity queue <= SIZE_MAX / 8;
  qo_event : q_event queue = negb (q_size queue =? 0);
}.

(** The operations but [Queue_Contains], which looks at the array and not at the queue.  What an
    operation returns, and what it hands to [fnObjectFree]. *)
Inductive op : Type := Enqueue (obj : Z) | Dequeue | Peek | Discard | Count | Clear.

Definition exec (o : op) (queue : wQueue) : outcome (list Z * list Z * wQueue) :=
  match o with
  | Enqueue obj => '(ok, queue) ← Queue_Enqueue queue obj; Ret ([Z.b2z ok], [], queue)
  | Dequeue => '(obj, queue) ← Queue_Dequeue queue; Ret ([obj], [], queue)
  | Peek => obj ← Queue_Peek queue; Ret ([obj], [], queue)
  | Discard => '(freed, queue) ← Queue_Discard queue; Ret ([], freed, queue)
  | Count => Ret ([Queue_Count queue], [], queue)
  | Clear => '(freed, queue) ← Queue_Clear queue; Ret ([], freed, queue)
  end.
Fixpoint exec_all (ops : list op) (queue : wQueue) : outcome (list (list Z * list Z) * wQueue) :=
  match ops with
  | [] => Ret ([], queue)
  | o :: ops =>
      '(out, freed, queue) ← exec o queue;
      '(outs, queue) ← exec_all ops queue;
      Ret ((out, freed) :: outs, queue)
  end.

Definition stored (obj : Z) : Z := match fnObjectNew with Some new => new obj | None => obj end.

(** The specification: a list that is extended at its end and shortened at its front. *)
Definition fifo (o : op) (l : list Z) : list Z * list Z :=
  match o with
  | Enqueue obj => ([1], l ++ [stored obj])
  | Dequeue => ([hd 0 l], tl l)
  | Peek => ([hd 0 l], l)
  | Discard => ([], tl l)
  | Count => ([zlen l], l)
  | Clear => ([], [])
  end.
Fixpoint fifo_all (ops : list op) (l : list Z) : list (list Z) * list Z :=
  match ops with
  | [] => ([], l)
  | o :: ops =>
      let '(out, l) := fifo o l in
      let '(outs, l) := fifo_all ops l in
      (out :: outs, l)
  end.

(** The same with a bound: a full list grows if there is memory, and an object for which there is
    none is dropped without a word; a full list is cleared without its objects being freed. *)
Definition next_capacity (growthFactor required : Z) : option Z :=
  let increment := 32 * growthFactor in
  let new_capacity := required + increment - required mod increment in
  if (required >? SIZE_MAX - increment) || (new_capacity >? SIZE_MAX / 8) || negb (malloc_ok (8 * new_capacity))
  then None else Some new_capacity.
Definition bounded (growthFactor : Z) (o : op) (b : list Z * Z) : list Z * list Z * (list Z * Z) :=
  let '(l, capacity) := b in
  match o with
  | Enqueue obj =>
      if zlen l <? capacity then ([1], [], (l ++ [stored obj], capacity))
      else match next_capacity growthFactor (zlen l + 1) with
           | Some capacity => ([1], [], (l ++ [stored obj], capacity))
           | None => ([1], [], (l, capacity))
           end
  | Discard => ([], if hasFree then [hd 0 l] else [], (tl l, capacity))
  | Clear => ([], if hasFree && (zlen l <? capacity) then l else [], ([], capacity))
  | _ => let '(out, l) := fifo o l in (out, [], (l, capacity))
  end.
Fixpoint bounded_all (growthFactor : Z) (ops : list op) (b : list Z * Z) : list (list Z * list Z) * (list Z * Z) :=
  match ops with
  | [] => ([], b)
  | o :: ops =>
      let '(out, freed, b) := bounded growthFactor o b in
      let '(outs, b) := bounded_all growthFactor ops b in
      ((out, freed) :: outs, b)
  end.
End queue.

(** * Lemmas *)

Lemma zeros_app n m : 0 <= n → 0 <= m → zeros (n + m) = zeros n ++ zeros m.
Proof. intros. unfold zeros. rewrite Z2Nat.inj_add by lia. apply replicate_add. Qed.

Lemma rearrange_short a b slots :
  zlen a < slots →
  rearrange (zlen a + zlen b) (zlen a + zlen b + slots) (zlen a) (zlen a) ((a ++ b) ++ zeros slots)
    = Ret (zeros (zlen a) ++ (b ++ a) ++ zeros (slots - zlen a), zlen a + (zlen a + zlen b)).
Proof.
  intros Hs. pose proof (zlen_nonneg a). pose proof (zlen_nonneg b).
  assert (∃ k, slots = zlen a + k ∧ 0 < k) as (k & -> & Hk) by (exists (slots - zlen a); lia).
  replace (zlen a + k - zlen a) with k by lia.
  assert (zlen (zeros (zlen a)) = zlen a) as Hz by (apply zlen_zeros; lia).
  unfold rearrange. rewrite Z.leb_refl.
  replace (zlen a + zlen b + (zlen a + k) - (zlen a + zlen b)) with (zlen a + k) by lia.
  replace (zlen a <? zlen a + k) with true by lia.
  rewrite mem_read_ok by (rewrite ?zlen_app, ?zlen_zeros; lia). cbn [mbind outcome_bind].
  rewrite <- app_assoc, zslice_front by done.
  rewrite zeros_app by lia.
  rewrite mem_write_ok by (rewrite ?zlen_app, ?zlen_zeros; lia). cbn [mbind outcome_bind].
  rewrite (app_assoc a b), zblit_mid by (rewrite ?zlen_app; lia).
  rewrite mem_write_ok by (rewrite ?zlen_app; zlia). cbn [mbind outcome_bind].
  rewrite <- !app_assoc, zblit_front by lia. done.
Qed.

Lemma rearrange_long a1 a2 b :
  let t := zlen a1 + zlen a2 in let slots := zlen a1 in
  rearrange (t + zlen b) (t + zlen b + slots) t t (((a1 ++ a2) ++ b) ++ zeros slots)
    = Ret (a2 ++ zeros slots ++ (b ++ a1), t - slots).
Proof.
  intros t slots. pose proof (zlen_nonneg a1). pose proof (zlen_nonneg a2). pose proof (zlen_nonneg b).
  assert (zlen (zeros slots) = slots) as Hz by (apply zlen_zeros; lia).
  unfold rearrange. rewrite Z.leb_refl. replace (t + zlen b + slots - (t + zlen b)) with slots by lia.
  replace (t <? slots) with false by lia.
  rewrite mem_read_ok by (rewrite ?zlen_app; lia). cbn [mbind outcome_bind].
  rewrite <- !app_assoc, zslice_front by done.
  rewrite mem_write_ok by (rewrite ?zlen_app; lia). cbn [mbind outcome_bind].
  replace (a1 ++ a2 ++ b ++ zeros slots) with ((a1 ++ a2 ++ b) ++ zeros slots)
    by by rewrite <- !app_assoc.
  rewrite zblit_end by (rewrite ?zlen_app; lia). rewrite <- !app_assoc.
  rewrite mem_read_ok by (rewrite ?zlen_app; lia). cbn [mbind outcome_bind].
  rewrite zslice_mid by lia.
  rewrite mem_write_ok by (rewrite ?zlen_app; lia). cbn [mbind outcome_bind].
  (* the first half, moved down over itself *)
  destruct (split_at (zlen a2) (a1 ++ a2)) as (u & w & Hu & Hu1 & Hw); [rewrite zlen_app; lia|].
  rewrite zlen_app in Hw. rewrite (app_assoc a1 a2), Hu, <- app_assoc, zblit_front by lia.
  rewrite mem_write_ok by (rewrite ?zlen_app, ?zlen_zeros; lia). cbn [mbind outcome_bind].
  replace (t - (t - slots)) with slots by lia.
  rewrite zblit_mid by lia. done.
Qed.

Lemma rearrange_full arr t new :
  0 <= t < zlen arr → zlen arr < new →
  ∃ arr' t', rearrange (zlen arr) new t t (arr ++ zeros (new - zlen arr)) = Ret (arr', t') ∧
    zlen arr' = new ∧ t' = (t + zlen arr) mod new ∧ ring t (zlen arr) arr' = ring t (zlen arr) arr.
Proof.
  intros Ht Hn. destruct (split_at t arr) as (a & b & Harr & Ha & Hb); [lia|].
  assert (ring t (zlen arr) arr = b ++ a) as Hring.
  { rewrite Harr at 2. apply (ring_wrapped a [] b); rewrite ?zlen_nil; lia. }
  rewrite Hring. pose proof (zlen_nonneg b).
  destruct (Z.lt_ge_cases t (new - zlen arr)) as [Hs|Hs].
  - eexists _, _. split_and!.
    + pose proof (rearrange_short a b (new - zlen arr) ltac:(lia)) as R.
      rewrite <- Harr, Ha in R. replace (t + zlen b) with (zlen arr) in R by lia.
      replace (zlen arr + (new - zlen arr)) with new in R by lia. exact R.
    + rewrite !zlen_app, !zlen_zeros by lia. lia.
    + rewrite Z.mod_small by lia. done.
    + apply ring_linear; rewrite ?zlen_app, ?zlen_zeros; lia.
  - destruct (split_at (new - zlen arr) a) as (a1 & a2 & -> & Ha1 & Ha2); [lia|].
    rewrite zlen_app in *. eexists _, _. split_and!.
    + pose proof (rearrange_long a1 a2 b) as R. cbv zeta in R. rewrite <- Harr, Ha, Ha1 in R.
      replace (t + zlen b) with (zlen arr) in R by lia.
      replace (zlen arr + (new - zlen arr)) with new in R by lia. exact R.
    + rewrite !zlen_app, zlen_zeros by lia. lia.
    + apply (Z.mod_unique_pos _ _ 1); lia.
    + rewrite ring_wrapped by (rewrite ?zlen_app, ?zlen_zeros; lia). by rewrite app_assoc.
Qed.

(** Room to grow to hold [n] more entries. *)
Definition can_grow (queue : wQueue) (n : Z) : Prop :=
  32 * q_growthFactor queue + q_size queue + n <= SIZE_MAX / 8.

Section ops_spec.
Context {HM : Malloc}.

(** The capacity grows, or the queue is left alone. *)
Lemma ensure_capacity_spec queue :
  queue_ok queue →
  ∃ ok queue', Queue_EnsureCapacity queue 1 = Ret (ok, queue') ∧ queue_ok queue' ∧
    contents queue' = contents queue ∧ q_size queue' = q_size queue ∧
    q_growthFactor queue' = q_growthFactor queue ∧ q_capacity queue <= q_capacity queue' ∧
    (ok = false → queue' = queue) ∧ (ok = true → q_size queue' < q_capacity queue') ∧
    (if q_size queue <? q_capacity queue then ok = true ∧ q_capacity queue' = q_capacity queue
     else match next_capacity (q_growthFactor queue) (q_size queue + 1) with
          | Some capacity => ok = true ∧ q_capacity queue' = capacity
          | None => ok = false
          end).
Proof.
  intros Hq. pose proof Hq as [Harr Hhead Hsize Htail Hg Hcap Hev].
  unfold Queue_EnsureCapacity, next_capacity.
  change (SIZE_MAX / 32) with 576460752303423487 in *.
  change (SIZE_MAX / 8) with 2305843009213693951 in *.
  replace (q_growthFactor queue >? _) with false by lia.
  replace (q_size queue >? _) with false by (unfold SIZE_MAX; lia).
  destruct (Z.gtb_spec (q_size queue + 1) (q_capacity queue)) as [Hfull|Hroom]; cycle 1.
  { replace (q_size queue <? q_capacity queue) with true by lia. exists true, queue. split_and!; done || lia. }
  replace (q_size queue <? q_capacity queue) with false by lia.
  set (inc := 32 * q_growthFactor queue).
  destruct (Z.gtb_spec (q_size queue + 1) (SIZE_MAX - inc)); cbn [orb].
  { exists false, queue. split_and!; done || lia. }
  pose proof (Z.mod_pos_bound (q_size queue + 1) inc ltac:(lia)).
  set (new := q_size queue + 1 + inc - (q_size queue + 1) mod inc) in *.
  assert (q_size queue + 1 < new <= q_size queue + 1 + inc) as Hnew by lia. clearbody new.
  destruct (Z.gtb_spec new 2305843009213693951); cbn [orb].
  { exists false, queue. split_and!; done || lia. }
  destruct (malloc_ok (8 * new)) eqn:Hm; cbn [negb]; cycle 1.
  { exists false, queue. split_and!; done || lia. }
  assert (q_size queue = q_capacity queue) as Hsc by lia.
  assert (q_tail queue = q_head queue) as Hth.
  { rewrite Htail, Hsc. symmetry. apply (Z.mod_unique_pos _ _ 1); lia. }
  destruct (rearrange_full (q_array queue) (q_head queue) new) as (arr' & t' & R & Hl & Ht & Hr);
    [lia|lia|]. rewrite Harr in *. rewrite Hth, R. cbn [mbind outcome_bind].
  eexists true, _. split; [done|]. unfold contents. cbn. rewrite Hsc in *. split_and!; try done; try lia.
  split; cbn; done || lia.
Qed.

Lemma zget_single (a : Z) : zget [a] 0 = a.
Proof. done. Qed.

Lemma contents_length queue : queue_ok queue → zlen (contents queue) = q_size queue.
Proof. intros []. unfold contents. apply zlen_ring; lia. Qed.

(** What is stored. *)
Lemma enqueue_spec fnObjectNew hasFree queue obj :
  queue_ok queue →
  let '(_, _, (l, capacity)) := bounded fnObjectNew hasFree (q_growthFactor queue) (Enqueue obj) (contents queue, q_capacity queue) in
  ∃ queue', Queue_Enqueue fnObjectNew queue obj = Ret (true, queue') ∧ queue_ok queue' ∧
    contents queue' = l ∧ q_capacity queue' = capacity ∧ q_growthFactor queue' = q_growthFactor queue.
Proof.
  intros Hq. unfold Queue_Enqueue. cbn [bounded]. rewrite contents_length by done.
  destruct (ensure_capacity_spec queue Hq) as (ok & q & -> & Hq' & Hc & Hs & Hgf & _ & Hno & Hroom & Hok).
  cbn [mbind outcome_bind]. fold (stored fnObjectNew obj).
  assert (ok = true → ∃ queue',
    (array ← mem_write (q_tail q) [stored fnObjectNew obj] (q_array q);
     let tail := (q_tail q + 1) mod q_capacity q in
     let signalSet := q_size q =? 0 in
     Ret (true, mkQueue (q_capacity q) (q_growthFactor q) (q_head q) tail (q_size q + 1) array (signalSet || q_event q))) =
      Ret (true, queue') ∧ queue_ok queue' ∧
    contents queue' = contents queue ++ [stored fnObjectNew obj] ∧ q_capacity queue' = q_capacity q ∧
    q_growthFactor queue' = q_growthFactor queue) as Hyes.
  { intros Htrue. specialize (Hroom Htrue). pose proof Hq' as [Harr Hhead Hsize Htail Hg' Hcap Hev].
    set (e := stored fnObjectNew obj).
    pose proof (Z.mod_pos_bound (q_head q + q_size q) (q_capacity q) ltac:(lia)) as Hb.
    rewrite <- Htail in Hb.
    rewrite mem_write_ok by (rewrite ?Harr; change (zlen [e]) with 1; lia). cbn [mbind outcome_bind].
    destruct (ring_push (q_head q) (q_size q) (q_tail q) [e] (q_array q)) as [Hring Hlen];
      [lia|lia|change (zlen [e]) with 1; lia|by rewrite Harr|].
    unfold ring_put in *. change (zlen [e]) with 1 in *.
    replace (_ <=? _) with true in * by lia.
    eexists. split; [done|]. unfold contents in *. cbn. rewrite <- Hc, Hring.
    split_and!; try done. split; cbn; try done; try lia.
    - rewrite Htail. rewrite Zplus_mod_idemp_l. f_equal. lia.
    - rewrite Hev. by replace (q_size q + 1 =? 0) with false by lia; destruct (q_size q =? 0). }
  destruct (q_size queue <? q_capacity queue).
  { destruct Hok as [-> <-]. cbn [negb]. by apply Hyes. }
  destruct (next_capacity _ _) as [capacity|].
  - destruct Hok as [-> <-]. cbn [negb]. by apply Hyes.
  - rewrite Hok in *. cbn [negb]. rewrite Hno by done. by exists queue.
Qed.

Lemma dequeue_spec queue :
  queue_ok queue →
  ∃ queue', Queue_Dequeue queue = Ret (hd 0 (contents queue), queue') ∧ queue_ok queue' ∧
    contents queue' = tl (contents queue) ∧ q_capacity queue' = q_capacity queue ∧
    q_growthFactor queue' = q_growthFactor queue.
Proof.
  intros Hq. pose proof Hq as [Harr Hhead Hsize Htail Hg Hcap Hev].
  unfold Queue_Dequeue. destruct (Z.gtb_spec (q_size queue) 0).
  - rewrite mem_read_ok by lia. cbn [mbind outcome_bind].
    rewrite mem_write_ok by (change (zlen [0]) with 1; lia). cbn [mbind outcome_bind].
    destruct (ring_first (q_head queue) (q_size queue) (q_array queue)) as (a & c & Hr & ->); [lia..|].
    rewrite zget_single. fold (contents queue) in Hr. rewrite Hr. cbn [hd tl].
    pose proof (ring_pop_over (q_head queue) (q_size queue) [0] (q_array queue)) as Hp.
    change (zlen [0]) with 1 in Hp. fold (contents queue) in Hp. rewrite Hr in Hp.
    change (zdrop 1 (a :: c)) with c in Hp. rewrite Harr in Hp.
    eexists. split; [done|]. split_and!; [|apply Hp; lia|done|done].
    pose proof (Z.mod_pos_bound (q_head queue + 1) (q_capacity queue) ltac:(lia)).
    split; cbn; try done; try lia.
    + rewrite zlen_zblit; [done|lia|change (zlen [0]) with 1; lia].
    + rewrite Htail, Zplus_mod_idemp_l. f_equal. lia.
    + rewrite Hev. destruct (Z.ltb_spec (q_size queue - 1) 1), (Z.eqb_spec (q_size queue - 1) 0),
        (Z.eqb_spec (q_size queue) 0); done || lia.
  - replace (q_size queue <? 1) with true by lia.
    assert (contents queue = []) as ->.
    { unfold contents. replace (q_size queue) with 0 by lia. apply ring_0. }
    eexists. split; [done|]. unfold contents. cbn.
    split_and!; [split; cbn; try done; by replace (q_size queue =? 0) with true by lia| |done|done].
    replace (q_size queue) with 0 by lia. apply ring_0.
Qed.

Lemma peek_spec queue : queue_ok queue → Queue_Peek queue = Ret (hd 0 (contents queue)).
Proof.
  intros [Harr Hhead Hsize _ _ _ _]. unfold Queue_Peek, contents. destruct (Z.gtb_spec (q_size queue) 0).
  - rewrite mem_read_ok by lia. cbn [mbind outcome_bind].
    destruct (ring_first (q_head queue) (q_size queue) (q_array queue)) as (a & c & Hr & ->); [lia..|].
    by rewrite Hr.
  - replace (q_size queue) with 0 by lia. by rewrite ring_0.
Qed.
End ops_spec.

Section refinement.
Context {HM : Malloc} (fnObjectNew : option (Z → Z)) (hasFree : bool).

(** The loop of [Queue_Clear] over [n] entries, fewer than the capacity. *)
Lemma clear_loop_spec (n fuel : nat) h cap arr freed :
  zlen arr = cap → 0 <= h < cap → Z.of_nat n < cap → (n <= fuel)%nat →
  ∃ arr', clear_loop hasFree fuel h ((h + Z.of_nat n) mod cap) cap arr freed =
      Ret (arr', freed ++ (if hasFree then ring h (Z.of_nat n) arr else [])) ∧ zlen arr' = cap.
Proof.
  revert fuel h arr freed. induction n as [|n IH]; intros fuel h arr freed Hl Hh Hn Hf.
  { exists arr. rewrite Z.add_0_r, Z.mod_small by lia. destruct fuel; cbn [clear_loop];
      rewrite Z.eqb_refl, ring_0; by destruct hasFree; rewrite app_nil_r. }
  destruct fuel as [|fuel]; [lia|]. cbn [clear_loop].
  replace (h =? _) with false.
  2:{ symmetry. apply Z.eqb_neq. intros E.
      assert ((h + Z.of_nat (S n)) mod cap = h) as E' by done.
      destruct (Z.lt_ge_cases (h + Z.of_nat (S n)) cap).
      - rewrite Z.mod_small in E' by lia. lia.
      - rewrite <- (Z.mod_unique_pos _ cap 1 (h + Z.of_nat (S n) - cap)) in E' by lia. lia. }
  rewrite mem_read_ok by lia. cbn [mbind outcome_bind].
  rewrite mem_write_ok by (change (zlen [0]) with 1; lia). cbn [mbind outcome_bind].
  destruct (ring_first h (Z.of_nat (S n)) arr) as (a & c & Hr & ->); [lia..|].
  pose proof (ring_pop_over h (Z.of_nat (S n)) [0] arr) as Hp. change (zlen [0]) with 1 in Hp.
  rewrite Hr, Hl in Hp. change (zdrop 1 (a :: c)) with c in Hp.
  pose proof (Z.mod_pos_bound (h + 1) cap ltac:(lia)).
  destruct (IH fuel ((h + 1) mod cap) (zblit h [0] arr) (freed ++ (if hasFree then [a] else [])))
    as (arr' & R & Hl'); [rewrite zlen_zblit; [done|lia|change (zlen [0]) with 1; lia]|lia..|].
  rewrite Zplus_mod_idemp_l in R.
  replace (h + 1 + Z.of_nat n) with (h + Z.of_nat (S n)) in R by lia.
  exists arr'. split; [|done]. rewrite R. do 2 f_equal. rewrite <- app_assoc. f_equal.
  destruct hasFree; [|done]. rewrite Hr. cbn [app]. f_equal.
  replace (Z.of_nat n) with (Z.of_nat (S n) - 1) by lia. apply Hp; lia.
Qed.

Lemma clear_spec queue :
  queue_ok queue →
  ∃ queue', Queue_Clear hasFree queue =
      Ret (if hasFree && (q_size queue <? q_capacity queue) then contents queue else [], queue') ∧
    queue_ok queue' ∧ contents queue' = [] ∧ q_capacity queue' = q_capacity queue ∧ q_growthFactor queue' = q_growthFactor queue.
Proof.
  intros [Harr Hhead Hsize Htail Hg Hcap Hev]. unfold Queue_Clear.
  destruct (Z.ltb_spec (q_size queue) (q_capacity queue)).
  - destruct (clear_loop_spec (Z.to_nat (q_size queue)) (Z.to_nat (q_capacity queue))
      (q_head queue) (q_capacity queue) (q_array queue) []) as (arr' & R & Hl); [done|lia..|].
    rewrite Z2Nat.id in R by lia. rewrite <- Htail in R. rewrite R. cbn [mbind outcome_bind].
    eexists. rewrite andb_true_r. split; [done|]. split; [split; cbn; done || lia|split; [apply ring_0|done]].
  - assert (q_tail queue = q_head queue) as ->.
    { rewrite Htail. symmetry. apply (Z.mod_unique_pos _ _ 1); lia. }
    destruct (Z.to_nat (q_capacity queue)); cbn [clear_loop]; rewrite Z.eqb_refl;
      cbn [mbind outcome_bind]; rewrite andb_false_r; eexists; (split; [done|]);
      (split; [split; cbn; done || lia|split; [apply ring_0|done]]).
Qed.


Lemma exec_refines queue o :
  queue_ok queue →
  let '(out, freed, (l, capacity)) := bounded fnObjectNew hasFree (q_growthFactor queue) o (contents queue, q_capacity queue) in
  ∃ queue', exec fnObjectNew hasFree o queue = Ret (out, freed, queue') ∧
    queue_ok queue' ∧ contents queue' = l ∧ q_capacity queue' = capacity ∧ q_growthFactor queue' = q_growthFactor queue.
Proof.
  intros Hq. destruct o; cbn [exec].
  - pose proof (enqueue_spec fnObjectNew hasFree queue obj Hq) as He. cbn [bounded] in *.
    destruct (_ <? _); [|destruct (next_capacity _ _)]; destruct He as (q & -> & H); by exists q.
  - destruct (dequeue_spec queue Hq) as (q & -> & H). by exists q.
  - rewrite peek_spec by done. by exists queue.
  - destruct (dequeue_spec queue Hq) as (q & Hd & H). unfold Queue_Discard. rewrite Hd. by exists q.
  - cbn [bounded fifo]. exists queue. unfold Queue_Count. by rewrite contents_length.
  - destruct (clear_spec queue Hq) as (q & -> & H). cbn [bounded]. rewrite contents_length by done. by exists q.
Qed.

Lemma exec_all_refines ops queue :
  queue_ok queue →
  let '(outs, (l, capacity)) := bounded_all fnObjectNew hasFree (q_growthFactor queue) ops (contents queue, q_capacity queue) in
  ∃ queue', exec_all fnObjectNew hasFree ops queue = Ret (outs, queue') ∧
    queue_ok queue' ∧ contents queue' = l ∧ q_capacity queue' = capacity.
Proof.
  revert queue. induction ops as [|o ops IH]; intros queue Hq; [by exists queue|]. cbn [bounded_all exec_all].
  pose proof (exec_refines queue o Hq) as He.
  destruct (bounded _ _ _ o _) as [[out freed] [l capacity]]. destruct He as (q & -> & Hq' & <- & <- & Hg). cbn [mbind outcome_bind].
  specialize (IH q Hq'). rewrite Hg in IH. destruct (bounded_all _ _ _ ops _) as [outs [l' cap']].
  destruct IH as (q2 & -> & H2). by exists q2.
Qed.

(** While there is memory, the bound does not show. *)
Lemma bounded_is_fifo gf ops l capacity :
  (∀ z, malloc_ok z = true) → 0 < gf → 32 * gf + zlen l + Z.of_nat (length ops) <= SIZE_MAX / 8 →
  let '(outs, (l', _)) := bounded_all fnObjectNew hasFree gf ops (l, capacity) in
  (map fst outs, l') = fifo_all fnObjectNew ops l.
Proof.
  intros Hm Hg. revert l capacity. induction ops as [|o ops IH]; intros l capacity Hz; [done|]. cbn [bounded_all fifo_all length] in *.
  pose proof (zlen_nonneg l). assert (zlen (tl l) <= zlen l) as Htl.
  { destruct l as [|a l]; [done|]. cbn [tl]. rewrite zlen_cons. lia. }
  assert (∃ freed capacity', bounded fnObjectNew hasFree gf o (l, capacity) = ((fifo fnObjectNew o l).1, freed, ((fifo fnObjectNew o l).2, capacity')) ∧
    zlen (fifo fnObjectNew o l).2 <= zlen l + 1) as (freed & cap' & -> & Hl').
  { destruct o; cbn [bounded fifo fst snd]; [|by do 2 eexists; split; [done|lia]..|do 2 eexists; split; [done|change (zlen (@nil Z)) with 0; lia]].
    rewrite zlen_app. change (zlen [stored fnObjectNew obj]) with 1. destruct (_ <? _); [by do 2 eexists; split; [done|lia]|].
    unfold next_capacity. pose proof (Z.mod_pos_bound (zlen l + 1) (32 * gf) ltac:(lia)).
    change (SIZE_MAX / 8) with 2305843009213693951 in *.
    replace (_ >? SIZE_MAX - _) with false by (unfold SIZE_MAX; lia).
    replace (_ >? 2305843009213693951) with false by lia. rewrite Hm. cbn [orb negb]. by do 2 eexists; split; [done|lia]. }
  destruct (fifo fnObjectNew o l) as [out l2]. cbn [fst snd] in *. specialize (IH l2 cap' ltac:(lia)).
  destruct (bounded_all _ _ _ ops _) as [outs [l3 c3]]. cbn [map fst]. by rewrite <- IH.
Qed.
End refinement.

(** * Properties *)

(** C29. The queue is a FIFO: from any consistent queue, any sequence of [Queue_Enqueue],
    [Queue_Dequeue], [Queue_Peek], [Queue_Discard], [Queue_Count] and [Queue_Clear] returns
    and frees what the bounded list of [bounded] says and ends with its contents and its capacity, through
    every growth and wrap-around of the circular array and whatever the allocator does; no access leaves the
    array.  In the bounded list an object for which a full queue cannot grow is dropped although
    [Queue_Enqueue] returns [TRUE], and a full queue is cleared without its objects being freed.
    While allocation does not fail and the queue stays below the largest array none of that shows in what
    is returned and kept: they are those of a list that is extended at its end and shortened at
    its front. *)
Theorem queue_refines_fifo `{HM : Malloc} fnObjectNew hasFree ops queue :
  queue_ok queue →
  let '(outs, (l, capacity)) := bounded_all fnObjectNew hasFree (q_growthFactor queue) ops (contents queue, q_capacity queue) in
  (∃ queue', exec_all fnObjectNew hasFree ops queue = Ret (outs, queue') ∧
     queue_ok queue' ∧ contents queue' = l ∧ q_capacity queue' = capacity) ∧
  ((∀ z, malloc_ok z = true) → can_grow queue (Z.of_nat (length ops)) →
   (map fst outs, l) = fifo_all fnObjectNew ops (contents queue)).
Proof.
  intros Hq. pose proof (exec_all_refines fnObjectNew hasFree ops queue Hq) as Hx.
  pose proof (bounded_is_fifo fnObjectNew hasFree (q_growthFactor queue) ops (contents queue) (q_capacity queue)) as Hf.
  destruct (bounded_all _ _ _ ops _) as [outs [l capacity]]. split; [done|]. intros Hm Hg. apply Hf; [done|apply Hq|].
  rewrite contents_length by done. unfold can_grow in Hg. lia.
Qed.

(** A new queue is empty and consistent, whatever capacity and growth factor
    (up to a million) it is asked for. *)
Theorem queue_new_ok `{HM : Malloc} capacity growthFactor :
  (∀ z, malloc_ok z = true) → capacity <= 2 ^ 32 → growthFactor <= 1000000 →
  ∃ queue, Queue_New capacity growthFactor = Ret (Some queue) ∧ queue_ok queue ∧
    contents queue = [] ∧ capacity <= q_capacity queue.
Proof.
  intros Hm Hc Hg. unfold Queue_New, Queue_EnsureCapacity. cbn [q_growthFactor q_size q_capacity].
  set (gf := if growthFactor >? 0 then growthFactor else 2).
  set (cap := if capacity <=? 0 then 32 else capacity).
  assert (0 < gf <= 1000000) as Hgf by (unfold gf; destruct (Z.gtb_spec growthFactor 0); lia).
  assert (0 < cap <= 2 ^ 32 ∧ capacity <= cap) as [Hcap Hcc]
    by (unfold cap; destruct (Z.leb_spec capacity 0); lia).
  clearbody gf cap. change (SIZE_MAX / 32) with 576460752303423487.
  change (SIZE_MAX / 8) with 2305843009213693951.
  replace (gf >? _) with false by lia. replace (0 >? _) with false by (unfold SIZE_MAX; lia).
  replace (0 + cap >? 0) with true by lia.
  replace (0 + cap >? _) with false by (unfold SIZE_MAX; lia).
  pose proof (Z.mod_pos_bound (0 + cap) (32 * gf) ltac:(lia)).
  set (new := 0 + cap + 32 * gf - (0 + cap) mod (32 * gf)) in *.
  assert (cap < new <= cap + 32 * gf) as Hnew by lia. clearbody new.
  replace (new >? _) with false by lia. rewrite Hm. cbn [negb q_array q_head q_tail q_event].
  pose proof (rearrange_short [] [] (new - 0) ltac:(change (zlen []) with 0; lia)) as R.
  change (zlen []) with 0 in R. change (zeros 0) with (@nil Z) in R. cbn [app] in R.
  change (0 + 0) with 0 in R.
  replace (0 + (new - 0)) with new in R by lia. cbn [app]. rewrite R. cbn [mbind outcome_bind].
  eexists. split; [done|]. unfold contents. cbn [q_head q_size q_array q_capacity].
  split_and!; [|apply ring_0|lia].
  split; cbn [q_capacity q_growthFactor q_head q_tail q_size q_array q_event]; try done; try lia.
  - rewrite zlen_zeros; lia.
  - change (SIZE_MAX / 32) with 576460752303423487. lia.
  - change (SIZE_MAX / 8) with 2305843009213693951. lia.
Qed.

(** [Queue_Clear] empties the queue.  It hands every entry to [fnObjectFree],
    in order, unless the queue is full: then the head meets the tail at once
    and no entry is freed. *)
Theorem queue_clear_frees hasFree queue :
  queue_ok queue →
  ∃ queue', Queue_Clear hasFree queue =
      Ret (if hasFree && (q_size queue <? q_capacity queue) then contents queue else [], queue') ∧
    queue_ok queue' ∧ contents queue' = [].
Proof. intros Hq. destruct (clear_spec hasFree queue Hq) as (q & -> & Hq' & Hc & _). by exists q. Qed.

(** [Queue_Contains] looks at the array from its start up to the tail, not at
    the queue: in a queue filled to its capacity from an aligned head it finds
    nothing, whatever the entries. *)
Theorem queue_contains_full fnObjectEquals queue obj :
  queue_ok queue → q_head queue = 0 → q_size queue = q_capacity queue →
  Queue_Contains fnObjectEquals queue obj = Ret false.
Proof.
  intros [Harr Hhead Hsize Htail _ _ _] Hh Hs. unfold Queue_Contains.
  rewrite Htail, Hh, Hs. replace (0 + _) with (q_capacity queue) by lia.
  rewrite Z_mod_same_full, mem_read_ok by lia. done.
Qed.

(** [Queue_Enqueue] reports success even when the array cannot be grown: a
    full queue and an allocator that fails give [TRUE] and an unchanged queue,
    the object is lost. *)
Theorem queue_enqueue_lost `{HM : Malloc} fnObjectNew queue obj :
  queue_ok queue → q_size queue = q_capacity queue → (∀ z, malloc_ok z = false) →
  Queue_Enqueue fnObjectNew queue obj = Ret (true, queue).
Proof.
  intros Hq Hs Hm. unfold Queue_Enqueue, Queue_EnsureCapacity. pose proof Hq as [].
  replace (q_size queue + 1 >? q_capacity queue) with true by lia. rewrite Hm. cbn [negb].
  repeat case_match; done.
Qed.

(** * Witnesses *)

(** A full queue whose entries wrap around. *)
Definition full_queue : wQueue := mkQueue 3 1 1 1 3 [30; 10; 20] true.

Lemma full_queue_ok : queue_ok full_queue.
Proof. split; by vm_compute. Qed.

Lemma queue_refines_fifo_witness :
  let HM : Malloc := λ _, true in
  let ops := [Peek; Enqueue 40; Dequeue; Discard; Count; Clear; Count; Enqueue 50] in
  (∃ queue', exec_all None true ops full_queue =
      Ret ([([10], []); ([1], []); ([10], []); ([], [20]); ([2], []); ([], [30; 40]); ([0], []); ([1], [])], queue') ∧
    queue_ok queue' ∧ contents queue' = [50] ∧ q_capacity queue' = 32) ∧
  ((∀ z, malloc_ok z = true) → can_grow full_queue 8 →
   ([[10]; [1]; [10]; []; [2]; []; [0]; [1]], [50]) = fifo_all None ops (contents full_queue)).
Proof.
  apply (queue_refines_fifo (HM := λ _, true) None true
    [Peek; Enqueue 40; Dequeue; Discard; Count; Clear; Count; Enqueue 50] full_queue), full_queue_ok.
Defined.

Lemma queue_new_ok_witness :
  let HM : Malloc := λ _, true in
  ∃ queue, Queue_New (-1) 0 = Ret (Some queue) ∧ queue_ok queue ∧
    contents queue = [] ∧ -1 <= q_capacity queue.
Proof. by apply (queue_new_ok (HM := λ _, true) (-1) 0). Defined.

Lemma queue_clear_frees_witness :
  ∃ queue', Queue_Clear true full_queue = Ret ([], queue') ∧ queue_ok queue' ∧ contents queue' = [].
Proof. apply (queue_clear_frees true full_queue), full_queue_ok. Defined.

Lemma queue_contains_full_witness :
  Queue_Contains Z.eqb (mkQueue 2 1 0 0 2 [7; 8] true) 7 = Ret false.
Proof. apply queue_contains_full; [split; by vm_compute|done|done]. Defined.

Lemma queue_enqueue_lost_witness :
  let HM : Malloc := λ _, false in
  Queue_Enqueue None full_queue 40 = Ret (true, full_queue).
Proof. intros HM. by apply (queue_enqueue_lost None full_queue 40 full_queue_ok). Defined.
