(* ===== verification/RingBuffer.v ===== *)
(** The ring buffer of bytes (libfreerdp/utils/ringbuffer.c) that the buffered
    transport writes its output to: it grows when it fills up and shrinks back
    when it drains. *)

From S2P Require Import Prelude Ring.
From stdpp Require Import prelude list numbers.
From Stdlib Require Import ZArith Lia.

#[local] Open Scope Z_scope.

Record RingBuffer : Type := mkRB {
  rb_initialSize : Z;
  rb_freeSize : Z;
  rb_size : Z;
  rb_readPtr : Z;
  rb_writePtr : Z;
  rb_buffer : list Z;
}.

(** [a % b] *)
Definition c_mod (a b : Z) : outcome Z := if b =? 0 then Abort else Ret (a mod b).

Section ringbuffer.
(** [uninit i] is the byte at offset [i] of memory [malloc] or [realloc] just
    gave. *)
Context {HM : Malloc} (uninit : Z → Z).

Definition fresh (n : Z) : list Z := map (λ i, uninit (Z.of_nat i)) (List.seq 0 (Z.to_nat n)).
Definition realloc (size : Z) (l : list Z) : list Z := ztake size l ++ fresh (size - zlen l).

Definition ringbuffer_init (initialSize : Z) : option RingBuffer :=
  if malloc_ok initialSize
  then Some (mkRB initialSize initialSize initialSize 0 0 (fresh initialSize))
  else None.

Definition ringbuffer_used (rb : RingBuffer) : Z := rb_size rb - rb_freeSize rb.
Definition ringbuffer_capacity (rb : RingBuffer) : Z := rb_size rb.

(** The heads and the buffer; the sizes follow. *)
Definition resized (rb : RingBuffer) (targetSize readPtr writePtr : Z) (buffer : list Z)
    : RingBuffer :=
  mkRB (rb_initialSize rb) (u64 (rb_freeSize rb + (targetSize - rb_size rb))) targetSize
    readPtr writePtr buffer.

Definition ringbuffer_realloc (rb : RingBuffer) (targetSize : Z) : outcome (bool * RingBuffer) :=
  let r := rb_readPtr rb in
  let w := rb_writePtr rb in
  if negb (malloc_ok targetSize) then Ret (false, rb)
  else if w =? r then Ret (true, resized rb targetSize 0 0 (realloc targetSize (rb_buffer rb)))
  else if (w >=? r) && (w <? targetSize) then
    Ret (true, resized rb targetSize r w (realloc targetSize (rb_buffer rb)))
  else
    newData ←
      (if r <? w then
         src ← mem_read r (ringbuffer_used rb) (rb_buffer rb);
         mem_write 0 src (fresh targetSize)
       else
         src ← mem_read r (rb_size rb - r) (rb_buffer rb);
         dst ← mem_write 0 src (fresh targetSize);
         if negb (w =? 0) then
           src ← mem_read 0 w (rb_buffer rb);
           mem_write (rb_size rb - r) src dst
         else Ret dst);
    Ret (true, resized rb targetSize 0 (rb_size rb - rb_freeSize rb) newData).

(** [if (n) memcpy(...)] *)
Definition copy_some (p : Z) (src l : list Z) : outcome (list Z) :=
  if zlen src =? 0 then Ret l else mem_write p src l.

Definition ringbuffer_write (rb : RingBuffer) (ptr : list Z) : outcome (bool * RingBuffer) :=
  let sz := zlen ptr in
  '(ok, rb) ← (if rb_freeSize rb <=? sz then ringbuffer_realloc rb (u64 (rb_size rb + sz))
               else Ret (true, rb));
  if negb ok then Ret (false, rb)
  else
    let toWrite := if rb_size rb - rb_writePtr rb <? sz then rb_size rb - rb_writePtr rb else sz in
    buffer ← copy_some (rb_writePtr rb) (ztake toWrite ptr) (rb_buffer rb);
    buffer ← copy_some 0 (zdrop toWrite ptr) buffer;
    writePtr ← c_mod (rb_writePtr rb + sz) (rb_size rb);
    Ret (true, mkRB (rb_initialSize rb) (rb_freeSize rb - sz) (rb_size rb) (rb_readPtr rb)
                 writePtr buffer).

(** The offset of the write head. *)
Definition ringbuffer_ensure_linear_write (rb : RingBuffer) (sz : Z)
    : outcome (option Z * RingBuffer) :=
  '(ok, rb) ← (if rb_freeSize rb <? sz
               then ringbuffer_realloc rb (u64 (rb_size rb + sz - rb_freeSize rb + 32))
               else Ret (true, rb));
  if negb ok then Ret (None, rb)
  else
    let '(r, w) := if rb_writePtr rb =? rb_readPtr rb then (0, 0)
                   else (rb_readPtr rb, rb_writePtr rb) in
    if w + sz <? rb_size rb then
      Ret (Some w, mkRB (rb_initialSize rb) (rb_freeSize rb) (rb_size rb) r w (rb_buffer rb))
    else
      src ← mem_read r (u64 (w - r)) (rb_buffer rb);
      buffer ← mem_write 0 src (rb_buffer rb);
      let w := rb_size rb - rb_freeSize rb in
      Ret (Some w, mkRB (rb_initialSize rb) (rb_freeSize rb) (rb_size rb) 0 w buffer).

(** What the caller stores through the pointer. *)
Definition store (p : Z) (data : list Z) (rb : RingBuffer) : outcome RingBuffer :=
  buffer ← mem_write p data (rb_buffer rb);
  Ret (mkRB (rb_initialSize rb) (rb_freeSize rb) (rb_size rb) (rb_readPtr rb) (rb_writePtr rb) buffer).

Definition ringbuffer_commit_written_bytes (rb : RingBuffer) (sz : Z) : outcome (bool * RingBuffer) :=
  if sz <? 1 then Ret (true, rb)
  else if rb_writePtr rb + sz >? rb_size rb then Ret (false, rb)
  else
    writePtr ← c_mod (rb_writePtr rb + sz) (rb_size rb);
    Ret (true, mkRB (rb_initialSize rb) (rb_freeSize rb - sz) (rb_size rb) (rb_readPtr rb)
                 writePtr (rb_buffer rb)).

(** The chunks, none, one or two. *)
Definition ringbuffer_peek (rb : RingBuffer) (sz : Z) : outcome (list (list Z)) :=
  if sz <? 1 then Ret []
  else
    let remaining := if rb_size rb - rb_freeSize rb <? sz then rb_size rb - rb_freeSize rb else sz in
    let toRead := if rb_readPtr rb + remaining >? rb_size rb then rb_size rb - rb_readPtr rb
                  else remaining in
    first ← (if negb (toRead =? 0) then
               data ← mem_read (rb_readPtr rb) toRead (rb_buffer rb); Ret [data]
             else Ret []);
    second ← (if negb (remaining - toRead =? 0) then
                data ← mem_read 0 (remaining - toRead) (rb_buffer rb); Ret [data]
              else Ret []);
    Ret (first ++ second).

Definition ringbuffer_commit_read_bytes (rb : RingBuffer) (sz : Z) : outcome RingBuffer :=
  if sz <? 1 then Ret rb
  else if rb_size rb - rb_freeSize rb <? sz then Abort
  else
    readPtr ← c_mod (rb_readPtr rb + sz) (rb_size rb);
    let rb := mkRB (rb_initialSize rb) (rb_freeSize rb + sz) (rb_size rb) readPtr
                (rb_writePtr rb) (rb_buffer rb) in
    if negb (rb_size rb =? rb_initialSize rb) && (ringbuffer_used rb <? rb_initialSize rb / 2) then
      '(_, rb) ← ringbuffer_realloc rb (rb_initialSize rb);
      Ret rb
    else Ret rb.

(** * The abstract buffer *)

Definition contents (rb : RingBuffer) : list Z :=
  ring (rb_readPtr rb) (ringbuffer_used rb) (rb_buffer rb).

(** Consistent, and not full. *)
Record rb_ok (rb : RingBuffer) : Prop := {
  ro_buffer : zlen (rb_buffer rb) = rb_size rb;
  ro_free : 0 < rb_freeSize rb <= rb_size rb;
  ro_read : 0 <= rb_readPtr rb < rb_size rb;
  ro_write : rb_writePtr rb = (rb_readPtr rb + ringbuffer_used rb) mod rb_size rb;
  ro_initial : 0 < rb_initialSize rb <= SIZE_MAX;
  ro_size : rb_size rb <= SIZE_MAX;
}.

(** * Lemmas *)

Lemma zlen_fresh n : 0 <= n → zlen (fresh n) = n.
Proof. intros. unfold fresh, zlen. rewrite length_map, length_seq. lia. Qed.
Lemma zlen_realloc n l : 0 <= n → zlen (realloc n l) = n.
Proof.
  intros. unfold realloc. rewrite zlen_app, zlen_ztake. pose proof (zlen_nonneg l).
  destruct (Z.le_gt_cases n (zlen l)).
  - replace (fresh (n - zlen l)) with (@nil Z); [change (zlen []) with 0; lia|].
    unfold fresh. by replace (Z.to_nat (n - zlen l)) with 0%nat by lia.
  - rewrite zlen_fresh by lia. lia.
Qed.

(** A ring that does not wrap lies in one piece of the buffer, and stays there
    when the buffer is cut behind it. *)
Lemma ring_realloc h n l size :
  0 <= h → 0 <= n → h + n <= zlen l → h + n <= size →
  ring h n (realloc size l) = ring h n l.
Proof.
  intros Hh Hn Hl Hs. destruct (split_at h l) as (x & y & -> & Hx & Hy); [lia|].
  destruct (split_at n y) as (y1 & y2 & -> & Hy1 & Hy2); [lia|].
  rewrite (ring_linear x y1 y2) by lia. unfold realloc.
  rewrite (app_assoc x y1 y2), ztake_app_ge by (rewrite zlen_app; lia).
  rewrite <- !app_assoc. apply ring_linear; lia.
Qed.

Lemma pointers_equal rb : rb_ok rb → rb_writePtr rb = rb_readPtr rb → ringbuffer_used rb = 0.
Proof.
  intros [] He. rewrite He in ro_write0. unfold ringbuffer_used in *.
  destruct (Z.lt_ge_cases (rb_readPtr rb + (rb_size rb - rb_freeSize rb)) (rb_size rb)).
  - rewrite Z.mod_small in ro_write0 by lia. lia.
  - rewrite <- (Z.mod_unique_pos _ (rb_size rb) 1
      (rb_readPtr rb + (rb_size rb - rb_freeSize rb) - rb_size rb)) in ro_write0 by lia. lia.
Qed.
Lemma write_range rb : rb_ok rb → 0 <= rb_writePtr rb < rb_size rb.
Proof. intros []. rewrite ro_write0. apply Z.mod_pos_bound. lia. Qed.
(** The two shapes. *)
Lemma pointers_order rb :
  rb_ok rb →
  if rb_readPtr rb <=? rb_writePtr rb
  then rb_writePtr rb = rb_readPtr rb + ringbuffer_used rb
  else rb_writePtr rb = rb_readPtr rb + ringbuffer_used rb - rb_size rb.
Proof.
  intros []. unfold ringbuffer_used in *.
  destruct (Z.lt_ge_cases (rb_readPtr rb + (rb_size rb - rb_freeSize rb)) (rb_size rb)).
  - rewrite Z.mod_small in ro_write0 by lia. by replace (_ <=? _) with true by lia.
  - rewrite <- (Z.mod_unique_pos _ (rb_size rb) 1
      (rb_readPtr rb + (rb_size rb - rb_freeSize rb) - rb_size rb)) in ro_write0 by lia.
    by replace (_ <=? _) with false by lia.
Qed.
End ringbuffer.

Section specs.
Context {HM : Malloc} (uninit : Z → Z).

(** A copy into a fresh buffer. *)
Lemma copy_to_fresh src target :
  zlen src <= target →
  ∃ rest, mem_write 0 src (fresh uninit target) = Ret (src ++ rest) ∧ zlen rest = target - zlen src.
Proof.
  intros Hs. pose proof (zlen_nonneg src). pose proof (zlen_fresh uninit target ltac:(lia)) as Hf.
  destruct (split_at (zlen src) (fresh uninit target)) as (a & b & Hab & Ha & Hb); [lia|].
  exists b. rewrite mem_write_ok by lia. rewrite Hab, zblit_front by lia. split; [done|lia].
Qed.

(** The new buffer of the copying branch holds the data at its front. *)
Lemma realloc_copy rb target :
  rb_ok rb → ringbuffer_used rb < target → rb_writePtr rb ≠ rb_readPtr rb →
  ∃ rest,
    (if rb_readPtr rb <? rb_writePtr rb then
       src ← mem_read (rb_readPtr rb) (ringbuffer_used rb) (rb_buffer rb);
       mem_write 0 src (fresh uninit target)
     else
       src ← mem_read (rb_readPtr rb) (rb_size rb - rb_readPtr rb) (rb_buffer rb);
       dst ← mem_write 0 src (fresh uninit target);
       if negb (rb_writePtr rb =? 0) then
         src ← mem_read 0 (rb_writePtr rb) (rb_buffer rb);
         mem_write (rb_size rb - rb_readPtr rb) src dst
       else Ret dst) = Ret (contents rb ++ rest) ∧
    zlen rest = target - ringbuffer_used rb.
Proof.
  intros Hok Ht Hne. pose proof (pointers_order rb Hok) as Ho.
  pose proof Hok as [Hbuf Hfree Hread _ _ _]. unfold contents.
  pose proof (write_range rb Hok) as Hwr.
  assert (0 <= ringbuffer_used rb) by (unfold ringbuffer_used; lia).
  destruct (Z.leb_spec (rb_readPtr rb) (rb_writePtr rb)).
  - replace (rb_readPtr rb <? rb_writePtr rb) with true by lia.
    assert (rb_readPtr rb + ringbuffer_used rb < rb_size rb) as Hlin by lia.
    destruct (split_at (rb_readPtr rb) (rb_buffer rb)) as (x & y & Hl & Hx & Hy); [lia|].
    destruct (split_at (ringbuffer_used rb) y) as (y1 & y2 & -> & Hy1 & Hy2); [lia|].
    rewrite Hl in *.
    rewrite mem_read_ok by lia. cbn [mbind outcome_bind].
    rewrite zslice_mid, (ring_linear x y1 y2) by lia.
    destruct (copy_to_fresh y1 target) as (rest & -> & Hr); [lia|]. exists rest. split; [done|lia].
  - replace (rb_readPtr rb <? rb_writePtr rb) with false by lia.
    destruct (ring_cases (rb_readPtr rb) (ringbuffer_used rb) (rb_buffer rb))
      as [[? _]|[_ (x & y & z & Hl & Hx & Hy)]]; [lia|lia|exfalso; unfold ringbuffer_used in *; lia|].
    assert (zlen z = rb_size rb - rb_readPtr rb) as Hz.
    { rewrite Hl, !zlen_app in Hbuf. lia. }
    rewrite Hl, (ring_wrapped x y z) by lia. pose proof (zlen_nonneg x).
    rewrite (mem_read_ok (rb_readPtr rb)) by (rewrite ?zlen_app; lia). cbn [mbind outcome_bind].
    rewrite (app_assoc x y z), zslice_end by (rewrite ?zlen_app; lia).
    destruct (copy_to_fresh z target) as (rest & -> & Hr); [lia|]. cbn [mbind outcome_bind].
    destruct (Z.eqb_spec (rb_writePtr rb) 0); cbn [negb].
    { rewrite (zlen_nil_inv x) by lia. exists rest. rewrite app_nil_r. split; [done|lia]. }
    rewrite mem_read_ok by (rewrite ?zlen_app; lia). cbn [mbind outcome_bind].
    rewrite <- app_assoc, zslice_front by lia.
    destruct (split_at (zlen x) rest) as (r1 & r2 & -> & Hr1 & Hr2); [lia|].
    rewrite mem_write_ok by (rewrite ?zlen_app; lia).
    rewrite zblit_mid by lia. exists r2. rewrite app_assoc. split; [done|lia].
Qed.

(** [ringbuffer_realloc] to a size that holds the data. *)
Lemma realloc_spec rb target :
  rb_ok rb → ringbuffer_used rb < target <= SIZE_MAX →
  ∃ ok rb', ringbuffer_realloc uninit rb target = Ret (ok, rb') ∧ rb_ok rb' ∧
    contents rb' = contents rb ∧ ok = malloc_ok target ∧
    (ok = false → rb' = rb) ∧
    (ok = true → rb_size rb' = target ∧ rb_freeSize rb' = target - ringbuffer_used rb ∧
       rb_initialSize rb' = rb_initialSize rb).
Proof.
  intros Hok Ht. unfold ringbuffer_realloc.
  destruct (malloc_ok target) eqn:Hm; cbn [negb]; [|by exists false, rb].
  pose proof Hok as [Hbuf Hfree Hread Hwrite Hinit Hsize].
  assert (u64 (rb_freeSize rb + (target - rb_size rb)) = target - ringbuffer_used rb) as Hu.
  { unfold u64, ringbuffer_used, SIZE_MAX in *. rewrite Z.mod_small; lia. }
  assert (0 <= ringbuffer_used rb) by (unfold ringbuffer_used; lia).
  assert (∀ r w buf, zlen buf = target → 0 <= r < target →
    w = (r + ringbuffer_used rb) mod target → ring r (ringbuffer_used rb) buf = contents rb →
    rb_ok (resized rb target r w buf) ∧ contents (resized rb target r w buf) = contents rb) as Hres.
  { intros r w buf Hb Hr Hw Hc.
    assert (ringbuffer_used (resized rb target r w buf) = ringbuffer_used rb) as Hus.
    { unfold resized, ringbuffer_used at 1. cbn [rb_size rb_freeSize]. lia. }
    split; [|unfold contents; by rewrite Hus]. split; rewrite ?Hus; unfold resized;
      cbn [rb_buffer rb_freeSize rb_size rb_readPtr rb_writePtr rb_initialSize];
      rewrite ?Hu; done || lia. }
  destruct (Z.eqb_spec (rb_writePtr rb) (rb_readPtr rb)) as [He|Hne].
  { pose proof (pointers_equal rb Hok He) as H0.
    destruct (Hres 0 0 (realloc uninit target (rb_buffer rb))) as [R1 R2].
    - apply zlen_realloc. lia.
    - lia.
    - by rewrite H0, Z.mod_small by lia.
    - unfold contents. rewrite H0. by rewrite !ring_0.
    - eexists true, _. split; [done|]. split_and!; done. }
  pose proof (pointers_order rb Hok) as Ho.
  destruct ((rb_writePtr rb >=? rb_readPtr rb) && (rb_writePtr rb <? target)) eqn:Hc.
  { replace (rb_readPtr rb <=? rb_writePtr rb) with true in Ho by lia.
    assert (rb_readPtr rb + ringbuffer_used rb < rb_size rb) as Hlin.
    { pose proof (write_range rb Hok). lia. }
    destruct (Hres (rb_readPtr rb) (rb_writePtr rb) (realloc uninit target (rb_buffer rb)))
      as [R1 R2]; [apply zlen_realloc; lia|lia|rewrite Z.mod_small; lia|
        unfold contents; apply ring_realloc; lia|].
    eexists true, _. split; [done|]. split_and!; done. }
  destruct (realloc_copy rb target Hok) as (rest & -> & Hr); [lia|done|]. cbn [mbind outcome_bind].
  assert (zlen (contents rb) = ringbuffer_used rb) as Hlen.
  { unfold contents. apply zlen_ring; [lia|]. unfold ringbuffer_used. lia. }
  destruct (Hres 0 (rb_size rb - rb_freeSize rb) (contents rb ++ rest)) as [R1 R2].
  - rewrite zlen_app. lia.
  - lia.
  - unfold ringbuffer_used in *. rewrite Z.mod_small; lia.
  - apply (ring_linear [] (contents rb) rest); [done|lia].
  - eexists true, _. split; [done|]. split_and!; done.
Qed.

Lemma copy_some_ok p src l :
  0 <= p → p + zlen src <= zlen l → copy_some p src l = Ret (zblit p src l).
Proof.
  intros. unfold copy_some. destruct (Z.eqb_spec (zlen src) 0) as [Hz|Hz]; [|by apply mem_write_ok].
  rewrite (zlen_nil_inv src Hz) in *. unfold zblit. cbn [app]. change (zlen []) with 0 in *.
  by rewrite Z.add_0_r, ztake_zdrop.
Qed.

(** The two copies of a write. *)
Lemma copies_put w sz ptr buf :
  sz = zlen ptr → 0 <= w <= zlen buf → sz <= zlen buf →
  let toWrite := if zlen buf - w <? sz then zlen buf - w else sz in
  (buffer ← copy_some w (ztake toWrite ptr) buf; copy_some 0 (zdrop toWrite ptr) buffer)
    = Ret (ring_put w ptr buf).
Proof.
  intros -> Hw Hs toWrite. pose proof (zlen_nonneg ptr). unfold ring_put, toWrite.
  destruct (Z.ltb_spec (zlen buf - w) (zlen ptr)).
  - replace (w + zlen ptr <=? zlen buf) with false by lia.
    rewrite copy_some_ok by (rewrite ?zlen_ztake; lia). cbn [mbind outcome_bind].
    rewrite copy_some_ok; [done|lia|]. rewrite zlen_zblit by (rewrite ?zlen_ztake; lia).
    rewrite zlen_zdrop. lia.
  - replace (w + zlen ptr <=? zlen buf) with true by lia.
    rewrite ztake_all, zdrop_all by lia. rewrite copy_some_ok by lia. done.
Qed.

Lemma write_room rb ptr :
  rb_ok rb → zlen ptr < rb_freeSize rb →
  ∃ rb', ringbuffer_write uninit rb ptr = Ret (true, rb') ∧ rb_ok rb' ∧
    contents rb' = contents rb ++ ptr ∧ rb_size rb' = rb_size rb ∧
    rb_initialSize rb' = rb_initialSize rb.
Proof.
  intros Hok Hf. pose proof (zlen_nonneg ptr). pose proof (write_range rb Hok) as Hw.
  pose proof Hok as [Hbuf Hfree Hread Hwrite Hinit Hsize]. unfold ringbuffer_write.
  replace (rb_freeSize rb <=? zlen ptr) with false by lia. cbn [mbind outcome_bind negb].
  pose proof (copies_put (rb_writePtr rb) (zlen ptr) ptr (rb_buffer rb) eq_refl) as Hc.
  rewrite Hbuf in Hc. specialize (Hc ltac:(lia) ltac:(lia)). cbv zeta in Hc.
  destruct (copy_some (rb_writePtr rb) _ (rb_buffer rb)) as [b1|]; cbn [mbind outcome_bind] in Hc |- *;
    [|done]. rewrite Hc. cbn [mbind outcome_bind].
  unfold c_mod. replace (rb_size rb =? 0) with false by lia. cbn [mbind outcome_bind].
  destruct (ring_push (rb_readPtr rb) (ringbuffer_used rb) (rb_writePtr rb) ptr (rb_buffer rb))
    as [Hr Hl]; [lia|unfold ringbuffer_used; lia|unfold ringbuffer_used; lia|by rewrite Hbuf|].
  eexists. split; [done|]. unfold contents, ringbuffer_used in *.
  cbn [rb_buffer rb_freeSize rb_size rb_readPtr rb_writePtr rb_initialSize] in *.
  replace (rb_size rb - (rb_freeSize rb - zlen ptr)) with
    (rb_size rb - rb_freeSize rb + zlen ptr) by lia.
  split_and!; try done. split; unfold ringbuffer_used;
    cbn [rb_buffer rb_freeSize rb_size rb_readPtr rb_writePtr rb_initialSize]; try done; try lia.
  rewrite Hwrite, Zplus_mod_idemp_l. f_equal. lia.
Qed.

Lemma write_spec rb ptr :
  rb_ok rb → rb_size rb + zlen ptr <= SIZE_MAX →
  ∃ ok rb', ringbuffer_write uninit rb ptr = Ret (ok, rb') ∧ rb_ok rb' ∧
    (ok = true → contents rb' = contents rb ++ ptr ∧ rb_size rb' <= rb_size rb + zlen ptr ∧
       rb_initialSize rb' = rb_initialSize rb) ∧
    (ok = false → rb' = rb) ∧ ((∀ z, malloc_ok z = true) → ok = true).
Proof.
  intros Hok Hmax. pose proof (zlen_nonneg ptr).
  destruct (Z.le_gt_cases (rb_freeSize rb) (zlen ptr)) as [Hle|Hgt].
  2:{ destruct (write_room rb ptr Hok) as (rb' & -> & Hok' & Hc & Hs & Hi); [lia|].
      exists true, rb'. split_and!; try done. intros _. split_and!; done || lia. }
  pose proof Hok as [_ Hfree _ _ _ _].
  assert (u64 (rb_size rb + zlen ptr) = rb_size rb + zlen ptr) as Hu.
  { unfold u64, SIZE_MAX in *. rewrite Z.mod_small; lia. }
  destruct (realloc_spec rb (rb_size rb + zlen ptr) Hok) as (ok & rb1 & R & Hok1 & Hc1 & Hm & HN & HS).
  { unfold ringbuffer_used. lia. }
  destruct ok.
  - destruct (HS eq_refl) as (Hs1 & Hf1 & Hi1). unfold ringbuffer_used in Hf1.
    destruct (write_room rb1 ptr Hok1) as (rb' & W & Hok' & Hc & Hs & Hi); [lia|].
    exists true, rb'. split_and!; try done; [|by intros _; rewrite Hc, Hc1; split_and!; lia||congruence].
    revert W. unfold ringbuffer_write. replace (rb_freeSize rb <=? zlen ptr) with true by lia.
    rewrite Hu, R. replace (rb_freeSize rb1 <=? zlen ptr) with false by lia. done.
  - exists false, rb1. split_and!; try done; [|by intros Hmm; rewrite Hmm in Hm].
    unfold ringbuffer_write. replace (rb_freeSize rb <=? zlen ptr) with true by lia.
    rewrite Hu, R. done.
Qed.

Lemma used_contents rb : rb_ok rb → zlen (contents rb) = ringbuffer_used rb.
Proof. intros []. unfold contents. apply zlen_ring; unfold ringbuffer_used; lia. Qed.

Lemma rb_peek_spec rb sz :
  rb_ok rb → 0 <= sz →
  ∃ chunks, ringbuffer_peek rb sz = Ret chunks ∧ concat chunks = ztake sz (contents rb) ∧
    (length chunks <= 2)%nat ∧ Forall (λ c, c ≠ []) chunks.
Proof.
  intros Hok Hsz. pose proof (used_contents rb Hok) as Hu. pose proof Hok as [Hbuf Hfree Hread _ _ _].
  unfold ringbuffer_peek. destruct (Z.ltb_spec sz 1).
  { exists []. rewrite ztake_nonpos by lia. split_and!; done || (cbn; lia). }
  fold (ringbuffer_used rb).
  set (n := if ringbuffer_used rb <? sz then ringbuffer_used rb else sz).
  assert (0 <= n <= ringbuffer_used rb) as Hn
    by (unfold n, ringbuffer_used; destruct (Z.ltb_spec (rb_size rb - rb_freeSize rb) sz); lia).
  assert (ztake sz (contents rb) = ring (rb_readPtr rb) n (rb_buffer rb)) as ->.
  { unfold n. destruct (Z.ltb_spec (ringbuffer_used rb) sz).
    - by rewrite ztake_all by lia.
    - unfold contents. apply ring_take. lia. }
  clearbody n. assert (n < rb_size rb) by (unfold ringbuffer_used in Hn; lia).
  destruct (ring_cases (rb_readPtr rb) n (rb_buffer rb))
    as [[Hw (x & y & z & Hl & Hx & Hy)]|[Hw (x & y & z & Hl & Hx & Hy)]]; [lia..| |].
  - replace (rb_readPtr rb + n >? rb_size rb) with false by lia. rewrite Z.sub_diag.
    rewrite Hl in *. rewrite (ring_linear x y z) by lia. destruct (Z.eqb_spec n 0) as [->|Hn0]; cbn.
    { exists []. rewrite (zlen_nil_inv y) by lia. split_and!; done || (cbn; lia). }
    rewrite mem_read_ok by lia. cbn [mbind outcome_bind]. rewrite zslice_mid by lia.
    exists [y]. cbn. rewrite app_nil_r. split_and!; [done..|lia|]. apply Forall_cons_2; [|done].
    intros ->. by change (zlen []) with 0 in Hy.
  - assert (zlen z = rb_size rb - rb_readPtr rb) as Hz by (rewrite Hl, !zlen_app in Hbuf; lia).
    set (toRead := if _ >? _ then _ else _).
    assert (toRead = zlen z) as -> by
      (unfold toRead; destruct (Z.gtb_spec (rb_readPtr rb + n) (rb_size rb)); lia).
    rewrite Hl in *. replace (zlen z =? 0) with false by lia. cbn [negb].
    rewrite (mem_read_ok (rb_readPtr rb)) by lia. cbn [mbind outcome_bind].
    rewrite (app_assoc x y z), zslice_end by (rewrite ?zlen_app; lia).
    rewrite <- app_assoc, (ring_wrapped x y z) by lia.
    assert (z ≠ []) as Hz0 by (intros ->; by change (zlen []) with 0 in Hz; lia).
    destruct (Z.eqb_spec (n - zlen z) 0) as [Hn0|Hn0]; cbn [negb].
    { exists [z]. rewrite (zlen_nil_inv x) by lia. cbn. split_and!; [done..|lia|by apply Forall_cons_2]. }
    rewrite mem_read_ok by lia. cbn [mbind outcome_bind]. rewrite zslice_front by lia.
    exists [z; x]. cbn. rewrite app_nil_r. split_and!; [done..|lia|].
    apply Forall_cons_2; [done|]. apply Forall_cons_2; [|done].
    intros ->. change (zlen []) with 0 in Hx. lia.
Qed.

Lemma commit_read_spec rb sz :
  rb_ok rb → 0 <= sz <= ringbuffer_used rb →
  ∃ rb', ringbuffer_commit_read_bytes uninit rb sz = Ret rb' ∧ rb_ok rb' ∧
    contents rb' = zdrop sz (contents rb) ∧
    rb_size rb' <= Z.max (rb_size rb) (rb_initialSize rb) ∧ rb_initialSize rb' = rb_initialSize rb.
Proof.
  intros Hok Hsz. pose proof Hok as [Hbuf Hfree Hread Hwrite Hinit Hsize].
  unfold ringbuffer_commit_read_bytes. destruct (Z.ltb_spec sz 1).
  { exists rb. rewrite zdrop_nonpos by lia. split_and!; done || lia. }
  fold (ringbuffer_used rb). replace (ringbuffer_used rb <? sz) with false by lia.
  unfold c_mod. replace (rb_size rb =? 0) with false by lia. cbn [mbind outcome_bind].
  set (rb1 := mkRB _ _ _ _ _ _).
  assert (ringbuffer_used rb1 = ringbuffer_used rb - sz) as Hu1
    by (unfold rb1, ringbuffer_used; cbn; lia).
  assert (contents rb1 = zdrop sz (contents rb)) as Hc1.
  { unfold contents. rewrite ring_pop, Hu1, Hbuf by (unfold ringbuffer_used in *; lia). done. }
  assert (rb_ok rb1) as Hok1.
  { split; rewrite ?Hu1; unfold rb1;
      cbn [rb_buffer rb_freeSize rb_size rb_readPtr rb_writePtr rb_initialSize]; try done.
    - unfold ringbuffer_used in *. lia.
    - apply Z.mod_pos_bound. lia.
    - rewrite Hwrite, Zplus_mod_idemp_l. f_equal. lia. }
  assert (rb_initialSize rb1 = rb_initialSize rb ∧ rb_size rb1 = rb_size rb) as [Hi1 Hs1] by done.
  rewrite Hi1, Hs1. clearbody rb1.
  destruct (negb _ && _) eqn:Hs; [|by exists rb1; split_and!; try done; lia].
  apply andb_true_iff in Hs as [_ Hs]. apply Z.ltb_lt in Hs.
  destruct (realloc_spec rb1 (rb_initialSize rb) Hok1) as (ok & rb2 & -> & Hok2 & Hc2 & _ & HN & HS).
  { pose proof (Z.div_lt (rb_initialSize rb) 2). lia. }
  cbn [mbind outcome_bind]. exists rb2. rewrite Hc2, Hc1. destruct ok.
  - destruct (HS eq_refl) as (-> & _ & Hi). split_and!; [done..|lia|congruence].
  - rewrite HN by done. split_and!; try done. lia.
Qed.

(** The write head of [ringbuffer_ensure_linear_write]. *)
Lemma linear_spec rb sz :
  rb_ok rb → 0 <= sz → rb_size rb + sz + 32 <= SIZE_MAX → (∀ z, malloc_ok z = true) →
  ∃ p rb', ringbuffer_ensure_linear_write uninit rb sz = Ret (Some p, rb') ∧ rb_ok rb' ∧
    contents rb' = contents rb ∧ p = rb_writePtr rb' ∧ p + sz <= rb_size rb' ∧
    sz <= rb_freeSize rb' ∧ (sz ≠ rb_freeSize rb → sz < rb_freeSize rb').
Proof.
  intros Hok Hsz Hmax Hm. unfold ringbuffer_ensure_linear_write.
  assert (∃ rb1, (if rb_freeSize rb <? sz
      then ringbuffer_realloc uninit rb (u64 (rb_size rb + sz - rb_freeSize rb + 32))
      else Ret (true, rb)) = Ret (true, rb1) ∧ rb_ok rb1 ∧ contents rb1 = contents rb ∧
    sz <= rb_freeSize rb1 ∧ (sz ≠ rb_freeSize rb → sz < rb_freeSize rb1))
    as (rb1 & -> & Hok1 & Hc1 & Hf1 & Hg1).
  { destruct (Z.ltb_spec (rb_freeSize rb) sz); [|by exists rb; split_and!; try lia].
    pose proof Hok as [_ Hfree _ _ _ _]. unfold u64.
    rewrite Z.mod_small by (unfold SIZE_MAX in *; lia).
    destruct (realloc_spec rb (rb_size rb + sz - rb_freeSize rb + 32) Hok)
      as (ok & rb1 & R & Hok1 & Hc1 & Hmm & _ & HS); [unfold ringbuffer_used; lia|].
    rewrite Hm in Hmm. subst ok. destruct (HS eq_refl) as (_ & Hf & _).
    unfold ringbuffer_used in Hf. exists rb1. split_and!; try done; lia. }
  cbn [mbind outcome_bind negb]. pose proof (write_range rb1 Hok1) as Hw.
  pose proof (pointers_order rb1 Hok1) as Ho. pose proof (used_contents rb1 Hok1) as Hlen.
  pose proof Hok1 as [Hbuf Hfree Hread Hwrite Hinit Hsize].
  assert (∀ r w buf, zlen buf = rb_size rb1 → 0 <= r < rb_size rb1 →
    w = (r + ringbuffer_used rb1) mod rb_size rb1 →
    ring r (ringbuffer_used rb1) buf = contents rb1 →
    let rb' := mkRB (rb_initialSize rb1) (rb_freeSize rb1) (rb_size rb1) r w buf in
    rb_ok rb' ∧ contents rb' = contents rb) as Hres.
  { intros r w buf ????. cbn zeta. unfold contents, ringbuffer_used in *.
    cbn [rb_buffer rb_freeSize rb_size rb_readPtr rb_writePtr rb_initialSize].
    split; [by split|]. congruence. }
  destruct (Z.eqb_spec (rb_writePtr rb1) (rb_readPtr rb1)) as [He|Hne].
  - pose proof (pointers_equal rb1 Hok1 He) as H0.
    destruct (Hres 0 0 (rb_buffer rb1)) as [R1 R2]; [done|lia|by rewrite H0|
      by unfold contents; rewrite H0, !ring_0|].
    destruct (Z.ltb_spec (0 + sz) (rb_size rb1)).
    + eexists _, _. split; [done|]. split_and!; try done; cbn; lia.
    + change (u64 (0 - 0)) with 0. rewrite mem_read_ok by lia. cbn [mbind outcome_bind].
      replace (zslice 0 0 (rb_buffer rb1)) with (@nil Z) by done.
      rewrite mem_write_ok by (change (zlen []) with 0; lia). cbn [mbind outcome_bind].
      unfold zblit. cbn [app]. change (0 + zlen []) with 0. rewrite ztake_zdrop.
      fold (ringbuffer_used rb1). rewrite H0.
      eexists _, _. split; [done|]. split_and!; try done; cbn; unfold ringbuffer_used in *; lia.
  - destruct (Z.ltb_spec (rb_writePtr rb1 + sz) (rb_size rb1)).
    { destruct (Hres (rb_readPtr rb1) (rb_writePtr rb1) (rb_buffer rb1)) as [R1 R2]; [done..|].
      eexists _, _. split; [done|]. split_and!; try done; cbn; lia. }
    destruct (Z.leb_spec (rb_readPtr rb1) (rb_writePtr rb1));
      [|exfalso; unfold ringbuffer_used in *; lia].
    replace (u64 (rb_writePtr rb1 - rb_readPtr rb1)) with (ringbuffer_used rb1)
      by (unfold u64; rewrite Z.mod_small; unfold SIZE_MAX in *; lia).
    destruct (split_at (rb_readPtr rb1) (rb_buffer rb1)) as (x & y & Hl & Hx & Hy); [lia|].
    destruct (split_at (ringbuffer_used rb1) y) as (y1 & y2 & -> & Hy1 & Hy2); [lia|].
    assert (contents rb1 = y1) as Hc by (unfold contents; rewrite Hl; apply ring_linear; lia).
    rewrite Hl in *. rewrite mem_read_ok by lia. cbn [mbind outcome_bind]. rewrite zslice_mid by lia.
    rewrite mem_write_ok by lia. cbn [mbind outcome_bind]. fold (ringbuffer_used rb1).
    destruct (Hres 0 (ringbuffer_used rb1) (zblit 0 y1 (x ++ y1 ++ y2))) as [R1 R2].
    + rewrite zlen_zblit by lia. done.
    + lia.
    + rewrite Z.mod_small; lia.
    + rewrite Hc. destruct (split_at (zlen y1) (x ++ y1 ++ y2)) as (u & v & -> & Hu & Hv); [lia|].
      rewrite zblit_front by lia. apply (ring_linear [] y1 v); [done|lia].
    + eexists _, _. split; [done|]. split_and!; try done; cbn; unfold ringbuffer_used in *; lia.
Qed.
End specs.

(** * Use of the buffer *)

Inductive rbop : Type := Write (data : list Z) | Peek (sz : Z) | Consume (sz : Z).

Section runs.
Context {HM : Malloc} (uninit : Z → Z).

(** The bytes an operation gives. *)
Definition exec (o : rbop) (rb : RingBuffer) : outcome (list Z * RingBuffer) :=
  match o with
  | Write data => '(_, rb) ← ringbuffer_write uninit rb data; Ret ([], rb)
  | Peek sz => chunks ← ringbuffer_peek rb sz; Ret (concat chunks, rb)
  | Consume sz => rb ← ringbuffer_commit_read_bytes uninit rb sz; Ret ([], rb)
  end.
Fixpoint exec_all (ops : list rbop) (rb : RingBuffer) : outcome (list (list Z) * RingBuffer) :=
  match ops with
  | [] => Ret ([], rb)
  | o :: ops =>
      '(out, rb) ← exec o rb;
      '(outs, rb) ← exec_all ops rb;
      Ret (out :: outs, rb)
  end.

(** A linear write: the head, the bytes stored through it, the commit. *)
Definition linear_write (rb : RingBuffer) (sz : Z) (data : list Z) : outcome (bool * RingBuffer) :=
  '(p, rb) ← ringbuffer_ensure_linear_write uninit rb sz;
  match p with
  | None => Ret (false, rb)
  | Some p => rb ← store p data rb; ringbuffer_commit_written_bytes rb (zlen data)
  end.
End runs.

(** The same on a list of bytes; a [Consume] must not ask for more than there
    is. *)
Definition bytes_op (o : rbop) (l : list Z) : option (list Z * list Z) :=
  match o with
  | Write data => Some ([], l ++ data)
  | Peek sz => if 0 <=? sz then Some (ztake sz l, l) else None
  | Consume sz => if (0 <=? sz) && (sz <=? zlen l) then Some ([], zdrop sz l) else None
  end.
Fixpoint bytes_all (ops : list rbop) (l : list Z) : option (list (list Z) * list Z) :=
  match ops with
  | [] => Some ([], l)
  | o :: ops =>
      match bytes_op o l with
      | None => None
      | Some (out, l) =>
          match bytes_all ops l with
          | None => None
          | Some (outs, l) => Some (out :: outs, l)
          end
      end
  end.
Definition bytes_written (ops : list rbop) : Z :=
  foldr (λ o n, match o with Write data => zlen data + n | _ => n end) 0 ops.

(** The buffer can grow by [n] bytes. *)
Definition can_grow (rb : RingBuffer) (n : Z) : Prop :=
  Z.max (rb_size rb) (rb_initialSize rb) + n <= SIZE_MAX.

Section refinement.
Context {HM : Malloc} (uninit : Z → Z) (Hmalloc : ∀ z, malloc_ok z = true).

Lemma bytes_written_nonneg ops : 0 <= bytes_written ops.
Proof.
  induction ops as [|[data|sz|sz] ops IH]; [done|pose proof (zlen_nonneg data)|..];
    cbn [bytes_written foldr]; fold (bytes_written ops); lia.
Qed.

Lemma rb_exec_refines rb o out l n :
  rb_ok rb → 0 <= n → can_grow rb (bytes_written [o] + n) →
  bytes_op o (contents rb) = Some (out, l) →
  ∃ rb', exec uninit o rb = Ret (out, rb') ∧ rb_ok rb' ∧ contents rb' = l ∧ can_grow rb' n.
Proof.
  intros Hok Hn Hg Hop. unfold can_grow in *. pose proof (zlen_nonneg out).
  destruct o; cbn [exec bytes_op bytes_written foldr] in *; simplify_eq.
  - destruct (write_spec uninit rb data Hok) as (ok & rb' & -> & Hok' & HS & _ & Hm); [zlia|].
    destruct (HS (Hm Hmalloc)) as (Hc & Hs & Hi). exists rb'. cbn [mbind outcome_bind].
    split_and!; try done. pose proof (zlen_nonneg data). lia.
  - destruct (Z.leb_spec 0 sz); simplify_eq.
    destruct (rb_peek_spec rb sz Hok) as (chunks & -> & Hc & _); [done|]. exists rb.
    cbn [mbind outcome_bind]. rewrite Hc. split_and!; done || lia.
  - destruct (_ && _) eqn:Hc; simplify_eq. pose proof (used_contents rb Hok) as Hu.
    destruct (commit_read_spec uninit rb sz Hok) as (rb' & -> & Hok' & Hd & Hs & Hi); [lia|].
    exists rb'. cbn [mbind outcome_bind]. split_and!; done || lia.
Qed.

Lemma rb_exec_all_refines ops rb outs l :
  rb_ok rb → can_grow rb (bytes_written ops) → bytes_all ops (contents rb) = Some (outs, l) →
  ∃ rb', exec_all uninit ops rb = Ret (outs, rb') ∧ rb_ok rb' ∧ contents rb' = l.
Proof.
  revert rb outs. induction ops as [|o ops IH]; intros rb outs Hok Hg Hops.
  { cbn in Hops. simplify_eq. by exists rb. }
  cbn [bytes_all] in Hops. destruct (bytes_op o (contents rb)) as [[out l1]|] eqn:Hop; [|done].
  destruct (bytes_all ops l1) as [[outs1 l2]|] eqn:Hall; [|done]. simplify_eq.
  destruct (rb_exec_refines rb o out l1 (bytes_written ops) Hok) as (rb1 & He & Hok1 & Hc1 & Hg1);
    [apply bytes_written_nonneg| |done|].
  { unfold can_grow in *. destruct o; cbn [bytes_written foldr] in *; fold (bytes_written ops) in *; lia. }
  destruct (IH rb1 outs1 Hok1 Hg1) as (rb2 & He2 & Hok2 & Hc2); [by rewrite Hc1|].
  exists rb2. cbn [exec_all]. rewrite He. cbn [mbind outcome_bind]. rewrite He2. done.
Qed.
End refinement.

Section linear.
Context {HM : Malloc} (uninit : Z → Z).

(** The bytes stored at the write head, then committed; the buffer may end up
    full. *)
Lemma commit_written_spec rb data :
  rb_ok rb → zlen data <= rb_freeSize rb → rb_writePtr rb + zlen data <= rb_size rb →
  ∃ rb', (rb1 ← store (rb_writePtr rb) data rb; ringbuffer_commit_written_bytes rb1 (zlen data))
      = Ret (true, rb') ∧ contents rb' = contents rb ++ data ∧
    (zlen data < rb_freeSize rb → rb_ok rb').
Proof.
  intros Hok Hf Hp. pose proof (write_range rb Hok) as Hw. pose proof (zlen_nonneg data).
  pose proof Hok as [Hbuf Hfree Hread Hwrite Hinit Hsize].
  unfold store. rewrite mem_write_ok by lia. cbn [mbind outcome_bind].
  unfold ringbuffer_commit_written_bytes.
  cbn [rb_buffer rb_freeSize rb_size rb_readPtr rb_writePtr rb_initialSize].
  assert (0 <= ringbuffer_used rb) as Hu by (unfold ringbuffer_used; lia).
  destruct (ring_push (rb_readPtr rb) (ringbuffer_used rb) (rb_writePtr rb) data (rb_buffer rb))
    as [Hring Hlen]; [lia|lia|unfold ringbuffer_used; lia|by rewrite Hbuf|].
  unfold ring_put in Hring, Hlen. replace (_ <=? _) with true in Hring, Hlen by lia.
  destruct (Z.ltb_spec (zlen data) 1).
  { assert (data = []) as -> by (apply zlen_nil_inv; lia). eexists. split; [done|].
    change (zlen []) with 0 in *. rewrite Z.add_0_r in Hring. split; [done|intros _].
    by split; cbn [rb_buffer rb_freeSize rb_size rb_readPtr rb_writePtr rb_initialSize];
      rewrite ?Hlen. }
  rewrite Z.gtb_ltb. replace (rb_size rb <? _) with false by lia.
  unfold c_mod. replace (rb_size rb =? 0) with false by lia. cbn [mbind outcome_bind].
  eexists. split; [done|]. unfold contents, ringbuffer_used in *.
  cbn [rb_buffer rb_freeSize rb_size rb_readPtr rb_writePtr rb_initialSize].
  split; [by rewrite <- Hring; f_equal; lia|]. intros Hlt.
  split; unfold ringbuffer_used;
    cbn [rb_buffer rb_freeSize rb_size rb_readPtr rb_writePtr rb_initialSize]; try done; try lia.
  rewrite Hwrite, Zplus_mod_idemp_l. f_equal. lia.
Qed.

(** Equal heads: a fresh buffer filled by one linear write, its front peeked at,
    and a write to it. *)
Lemma fill_fresh n data :
  0 < n → zlen data = n →
  linear_write uninit (mkRB n n n 0 0 (fresh uninit n)) n data = Ret (true, mkRB n 0 n 0 0 data).
Proof.
  intros Hn Hd. unfold linear_write, ringbuffer_ensure_linear_write.
  cbn [rb_buffer rb_freeSize rb_size rb_readPtr rb_writePtr rb_initialSize].
  pose proof (zlen_fresh uninit n ltac:(lia)) as Hf.
  rewrite Z.ltb_irrefl. cbn [mbind outcome_bind negb].
  cbn [rb_buffer rb_freeSize rb_size rb_readPtr rb_writePtr rb_initialSize Z.eqb].
  replace (0 + n <? n) with false by lia. change (u64 (0 - 0)) with 0.
  rewrite mem_read_ok by lia. cbn [mbind outcome_bind].
  replace (zslice 0 0 (fresh uninit n)) with (@nil Z) by done.
  rewrite mem_write_ok by (change (zlen []) with 0; lia). cbn [mbind outcome_bind].
  replace (zblit 0 [] (fresh uninit n)) with (fresh uninit n) by done.
  rewrite Z.sub_diag. unfold store. cbn [rb_buffer]. rewrite mem_write_ok by lia.
  cbn [mbind outcome_bind]. rewrite (zblit_end [] (fresh uninit n)) by (done || lia).
  unfold ringbuffer_commit_written_bytes.
  cbn [app rb_buffer rb_freeSize rb_size rb_readPtr rb_writePtr rb_initialSize].
  rewrite Hd, Z.gtb_ltb. replace (n <? 1) with false by lia. replace (n <? 0 + n) with false by lia.
  unfold c_mod. replace (n =? 0) with false by lia. cbn [mbind outcome_bind].
  by rewrite Z.add_0_l, Z_mod_same_full, Z.sub_diag.
Qed.
Lemma peek_front init free size w buf n :
  0 < n <= size - free → free = 0 → zlen buf = size →
  ringbuffer_peek (mkRB init free size 0 w buf) n = Ret [ztake n buf].
Proof.
  intros Hn -> Hb. unfold ringbuffer_peek.
  cbn [rb_buffer rb_freeSize rb_size rb_readPtr rb_writePtr rb_initialSize].
  replace (n <? 1) with false by lia. replace (size - 0 <? n) with false by lia.
  rewrite Z.gtb_ltb. replace (size <? 0 + n) with false by lia.
  replace (n =? 0) with false by lia. replace (n - n =? 0) with true by lia.
  cbn [negb]. by rewrite mem_read_ok by lia.
Qed.
Lemma overwrite_full n a b second :
  (∀ z, malloc_ok z = true) → 0 < n → zlen (a ++ b) = n → zlen second = zlen a → 0 < zlen a < n →
  2 * n <= SIZE_MAX →
  ringbuffer_write uninit (mkRB n 0 n 0 0 (a ++ b)) second =
  Ret (true, mkRB n 0 (n + zlen second) 0 (zlen second) (second ++ b ++ fresh uninit (zlen second))).
Proof.
  intros Hm Hn Hab Hs Ha Hmax. unfold ringbuffer_write, ringbuffer_realloc.
  cbn [rb_buffer rb_freeSize rb_size rb_readPtr rb_writePtr rb_initialSize].
  assert (∀ x, 0 <= x <= SIZE_MAX → u64 x = x) as Hu by
    (intros; unfold u64; apply Z.mod_small; unfold SIZE_MAX in *; lia).
  rewrite Hu by lia. replace (0 <=? zlen second) with true by lia. rewrite Hm.
  cbn [negb Z.eqb mbind outcome_bind]. unfold resized, realloc.
  cbn [rb_buffer rb_freeSize rb_size rb_readPtr rb_writePtr rb_initialSize].
  rewrite Hu, (ztake_all (n + zlen second)), Hab by lia.
  replace (n + zlen second - n) with (zlen second) by lia. rewrite Z.sub_0_r, !Z.add_0_l.
  replace (n + zlen second <? zlen second) with false by lia.
  rewrite ztake_all, zdrop_all by lia. unfold copy_some. change (zlen [] =? 0) with true.
  replace (zlen second =? 0) with false by lia.
  rewrite mem_write_ok by (rewrite ?zlen_app in *; pose proof (zlen_nonneg (fresh uninit (zlen second))); lia).
  cbn [mbind outcome_bind]. rewrite <- app_assoc, zblit_front by lia.
  unfold c_mod. replace (n + zlen second =? 0) with false by lia. cbn [mbind outcome_bind].
  by rewrite Z.mod_small, Z.sub_diag by lia.
Qed.
End linear.

(** * Properties *)

(** C30. The ring buffer is a byte FIFO: any sequence of writes, peeks and
    consumes on a consistent buffer gives, in one or two chunks, the bytes a
    list gives that is appended to and consumed from the front, through every
    wrap-around, growth and shrinking of the buffer; no copy leaves a buffer,
    and whatever fresh memory holds is never seen. *)
Theorem ringbuffer_refines_bytes `{HM : Malloc} uninit ops rb outs l :
  (∀ z, malloc_ok z = true) → rb_ok rb → can_grow rb (bytes_written ops) →
  bytes_all ops (contents rb) = Some (outs, l) →
  ∃ rb', exec_all uninit ops rb = Ret (outs, rb') ∧ rb_ok rb' ∧ contents rb' = l.
Proof. intros. by apply rb_exec_all_refines. Qed.

(** When memory runs out, [ringbuffer_write] returns [FALSE] and leaves the
    buffer as it was; [ringbuffer_commit_read_bytes] drops what was consumed
    even if it cannot shrink the buffer. *)
Theorem ringbuffer_out_of_memory `{HM : Malloc} uninit rb data sz :
  (∀ z, malloc_ok z = false) → rb_ok rb → rb_size rb + zlen data <= SIZE_MAX →
  rb_freeSize rb <= zlen data → 0 <= sz <= ringbuffer_used rb →
  ringbuffer_write uninit rb data = Ret (false, rb) ∧
  ∃ rb', ringbuffer_commit_read_bytes uninit rb sz = Ret rb' ∧ rb_ok rb' ∧
    contents rb' = zdrop sz (contents rb).
Proof.
  intros Hm Hok Hmax Hf Hsz. split.
  - unfold ringbuffer_write, ringbuffer_realloc. replace (rb_freeSize rb <=? zlen data) with true by lia.
    by rewrite Hm.
  - destruct (commit_read_spec uninit rb sz Hok Hsz) as (rb' & ? & ? & ? & _). by exists rb'.
Qed.

(** Linear writes: bytes stored through the head that
    [ringbuffer_ensure_linear_write] returns and then committed are appended,
    if there were more or fewer bytes free than it was asked for. *)
Theorem ringbuffer_linear_write `{HM : Malloc} uninit rb sz data :
  (∀ z, malloc_ok z = true) → rb_ok rb → rb_size rb + sz + 32 <= SIZE_MAX →
  zlen data <= sz → sz ≠ rb_freeSize rb →
  ∃ rb', linear_write uninit rb sz data = Ret (true, rb') ∧ rb_ok rb' ∧
    contents rb' = contents rb ++ data.
Proof.
  intros Hm Hok Hmax Hd Hne. pose proof (zlen_nonneg data). unfold linear_write.
  destruct (linear_spec uninit rb sz Hok ltac:(lia) Hmax Hm)
    as (p & rb1 & -> & Hok1 & Hc1 & Hp & Hroom & Hf & Hg).
  cbn [mbind outcome_bind]. subst p. rewrite <- Hc1.
  destruct (commit_written_spec rb1 data Hok1) as (rb' & -> & Hc & Hok'); [lia..|].
  exists rb'. split_and!; [done| |done]. apply Hok'. lia.
Qed.

(** Finding: a linear write that is given exactly the free space and fills it
    makes the two heads equal with no byte free. The bytes are then still there
    to be peeked at, but the next [ringbuffer_write] has to grow the buffer, takes
    equal heads for an empty buffer and puts its bytes over the old ones: what
    was committed is gone. *)
Theorem ringbuffer_full_overwritten `{HM : Malloc} uninit n first second :
  (∀ z, malloc_ok z = true) → 0 < n → zlen first = n → 0 < zlen second < n → 2 * n <= SIZE_MAX →
  ∃ rb0 rb1 rb2,
    ringbuffer_init uninit n = Some rb0 ∧ rb_ok rb0 ∧
    linear_write uninit rb0 n first = Ret (true, rb1) ∧
    ringbuffer_peek rb1 n = Ret [first] ∧
    ringbuffer_write uninit rb1 second = Ret (true, rb2) ∧
    ringbuffer_used rb2 = n + zlen second ∧
    ringbuffer_peek rb2 n = Ret [second ++ zdrop (zlen second) first].
Proof.
  intros Hm Hn Hf Hs Hmax. exists (mkRB n n n 0 0 (fresh uninit n)), (mkRB n 0 n 0 0 first).
  destruct (split_at (zlen second) first) as (a & b & -> & Ha & Hb); [lia|].
  eexists. split_and!; [by unfold ringbuffer_init; rewrite Hm| |by apply fill_fresh| | | |].
  - split; unfold ringbuffer_used;
      cbn [rb_buffer rb_freeSize rb_size rb_readPtr rb_writePtr rb_initialSize];
      rewrite ?zlen_fresh, ?Z.mod_small; lia.
  - rewrite peek_front by lia. by rewrite ztake_all by lia.
  - apply overwrite_full; done || lia.
  - unfold ringbuffer_used. cbn [rb_size rb_freeSize]. lia.
  - pose proof (zlen_fresh uninit (zlen second) ltac:(lia)).
    rewrite peek_front, zdrop_app_ge, zdrop_nonpos by (rewrite ?zlen_app in *; lia).
    rewrite app_assoc, ztake_app_le, ztake_all by (rewrite ?zlen_app in *; lia). done.
Qed.

(** * Witnesses *)

(** Memory that is always there, or never. *)
Definition always : Malloc := λ _, true.
Definition never : Malloc := λ _, false.
(** Four bytes of garbage, of which the last and the first are in use. *)
Definition sample : RingBuffer := mkRB 4 2 4 3 1 [2; 99; 99; 1].
Lemma sample_ok : rb_ok sample.
Proof. by split; vm_compute. Qed.

Lemma ringbuffer_refines_bytes_witness :
  ∃ rb', exec_all (HM := always) (λ _, 77)
    [Write [3]; Peek 5; Write [4; 5; 6]; Consume 2; Peek 3; Consume 3; Peek 9] sample =
    Ret ([[]; [1; 2; 3]; []; []; [3; 4; 5]; []; [6]], rb') ∧ rb_ok rb' ∧ contents rb' = [6].
Proof.
  apply (ringbuffer_refines_bytes (HM := always)); [done|apply sample_ok|by vm_compute|].
  vm_compute. reflexivity.
Defined.

Lemma ringbuffer_out_of_memory_witness :
  ringbuffer_write (HM := never) (λ _, 77) sample [3; 4] = Ret (false, sample) ∧
  ∃ rb', ringbuffer_commit_read_bytes (HM := never) (λ _, 77) sample 1 = Ret rb' ∧ rb_ok rb' ∧
    contents rb' = zdrop 1 (contents sample).
Proof.
  apply (ringbuffer_out_of_memory (HM := never)); [done|apply sample_ok|by vm_compute..|].
  split; by vm_compute.
Defined.

Lemma ringbuffer_linear_write_witness :
  ∃ rb', linear_write (HM := always) (λ _, 77) sample 5 [3; 4; 5] = Ret (true, rb') ∧ rb_ok rb' ∧
    contents rb' = contents sample ++ [3; 4; 5].
Proof.
  apply (ringbuffer_linear_write (HM := always)); [done|apply sample_ok|by vm_compute..].
Defined.

Lemma ringbuffer_full_overwritten_witness :
  ∃ rb0 rb1 rb2,
    ringbuffer_init (HM := always) (λ _, 77) 4 = Some rb0 ∧ rb_ok rb0 ∧
    linear_write (HM := always) (λ _, 77) rb0 4 [1; 2; 3; 4] = Ret (true, rb1) ∧
    ringbuffer_peek rb1 4 = Ret [[1; 2; 3; 4]] ∧
    ringbuffer_write (HM := always) (λ _, 77) rb1 [5; 6] = Ret (true, rb2) ∧
    ringbuffer_used rb2 = 4 + zlen [5; 6] ∧
    ringbuffer_peek rb2 4 = Ret [[5; 6] ++ zdrop (zlen [5; 6]) [1; 2; 3; 4]].
Proof.
  apply (ringbuffer_full_overwritten (HM := always)); [done|by vm_compute..|split; by vm_compute|
    by vm_compute].
Defined.
