(* ===== verification/HashTable.v ===== *)
(** The hash table of WinPR (winpr/libwinpr/utils/collections/HashTable.c):
    chained buckets that are rehashed as the table grows, and an iteration during
    which entries may be removed.  A table refines a finite map. *)

From S2P Require Import Prelude.
From stdpp Require Import prelude list numbers gmap.
From Stdlib Require Import ZArith Lia SpecFloat.

#[local] Open Scope Z_scope.

(** * Data *)

(** Keys and values are pointers, 0 is the null pointer.  The [next] pointers of
    the pairs of a bucket are its list. *)
Record wKeyValuePair : Type := mkPair {
  pair_key : Z;
  pair_value : Z;
  pair_marked : bool;
}.

(** [disposed] collects what was passed to [fnObjectFree]. *)
Record wHashTable : Type := mkTable {
  numOfBuckets : Z;
  numOfElements : Z;
  idealRatio : spec_float;
  lowerRehashThreshold : spec_float;
  upperRehashThreshold : spec_float;
  bucketArray : list (list wKeyValuePair);
  foreachRecursionLevel : Z;
  pendingRemoves : Z;
  disposed : list Z;
}.

Record wObject : Type := mkObject {
  fnObjectNew : option (Z → Z);
  fnObjectEquals : Z → Z → bool;
  fnObjectFree : bool;
}.

Definition set_buckets (buckets : list (list wKeyValuePair)) (t : wHashTable) : wHashTable :=
  mkTable (numOfBuckets t) (numOfElements t) (idealRatio t) (lowerRehashThreshold t)
    (upperRehashThreshold t) buckets (foreachRecursionLevel t) (pendingRemoves t) (disposed t).
Definition set_counts (elements pending : Z) (t : wHashTable) : wHashTable :=
  mkTable (numOfBuckets t) elements (idealRatio t) (lowerRehashThreshold t)
    (upperRehashThreshold t) (bucketArray t) (foreachRecursionLevel t) pending (disposed t).
Definition set_level (level : Z) (t : wHashTable) : wHashTable :=
  mkTable (numOfBuckets t) (numOfElements t) (idealRatio t) (lowerRehashThreshold t)
    (upperRehashThreshold t) (bucketArray t) level (pendingRemoves t) (disposed t).
Definition dispose (l : list Z) (t : wHashTable) : wHashTable :=
  mkTable (numOfBuckets t) (numOfElements t) (idealRatio t) (lowerRehashThreshold t)
    (upperRehashThreshold t) (bucketArray t) (foreachRecursionLevel t) (pendingRemoves t)
    (disposed t ++ l).

(** * Hashes and sizes *)

Definition HashTable_PointerCompare (pointer1 pointer2 : Z) : bool := pointer1 =? pointer2.
Definition HashTable_PointerHash (pointer : Z) : Z := Z.shiftr (u32 pointer) 4.
(** On the bytes of the string. *)
Definition HashTable_StringHash (str : list Z) : Z :=
  fold_left (λ hash c, u32 (u32 (hash * 33) + c)) str 5381.

(** [float] is binary32. *)
Definition to_float (n : Z) : spec_float := binary_normalize 24 128 n 0 false.
Definition float_div : spec_float → spec_float → spec_float := SFdiv 24 128.
(** [(size_t)tmp], towards zero. *)
Definition to_size (f : spec_float) : Z :=
  match f with
  | S754_finite false m e => u64 (Z.shiftl (Zpos m) e)
  | _ => 0
  end.

(** [for (size_t i = 3; i < 51; i += 2)] *)
Fixpoint probable_prime (fuel : nat) (i oddNumber : Z) : bool :=
  match fuel with
  | O => true
  | S fuel =>
      if i <? 51 then
        if oddNumber =? i then true
        else if oddNumber mod i =? 0 then false
        else probable_prime fuel (i + 2) oddNumber
      else true
  end.
Definition HashTable_IsProbablePrime (oddNumber : Z) : bool := probable_prime 24 3 oddNumber.

(** [while (!IsProbablePrime(n)) n += 2;] for at most [2 ^ k] rounds: the number
    found, or where the search stands. *)
Fixpoint search_prime (k : nat) (n : Z) : Z + Z :=
  match k with
  | O => if HashTable_IsProbablePrime n then inl n else inr (u64 (n + 2))
  | S k =>
      match search_prime k n with
      | inl p => inl p
      | inr n => search_prime k n
      end
  end.

Definition HashTable_CalculateIdealNumOfBuckets (t : wHashTable) : outcome Z :=
  let tmp := float_div (to_float (numOfElements t)) (idealRatio t) in
  let ideal := to_size tmp in
  let ideal := if ideal <? 5 then 5 else Z.lor ideal 1 in
  match search_prime 60 ideal with
  | inl p => Ret p
  | inr _ => Abort
  end.

Section table.
Context {HM : Malloc} (hash : Z → Z) (keyObject valueObject : wObject).

(** * Rehashing *)

Definition bucket_index (key n : Z) : outcome nat :=
  if n =? 0 then Abort else Ret (Z.to_nat (hash key mod n)).

(** A pair in front of the bucket of its key. *)
Definition push_pair (n : Z) (p : wKeyValuePair) (buckets : list (list wKeyValuePair))
    : list (list wKeyValuePair) :=
  alter (cons p) (Z.to_nat (hash (pair_key p) mod n)) buckets.

(** [numOfBuckets] 0 asks for the ideal number. *)
Definition HashTable_Rehash (t : wHashTable) (n : Z) : outcome wHashTable :=
  n ← (if n =? 0 then HashTable_CalculateIdealNumOfBuckets t else Ret n);
  if n =? numOfBuckets t then Ret t
  else if negb (malloc_ok (8 * n)) then Ret t
  else
    let buckets := fold_left (λ buckets p, push_pair n p buckets) (concat (bucketArray t))
                     (replicate (Z.to_nat n) []) in
    Ret (mkTable n (numOfElements t) (idealRatio t) (lowerRehashThreshold t)
           (upperRehashThreshold t) buckets (foreachRecursionLevel t) (pendingRemoves t) (disposed t)).

(** * Lookup *)

Definition HashTable_Equals (p : wKeyValuePair) (key : Z) : bool :=
  fnObjectEquals keyObject key (pair_key p).

(** The pairs in front of the first one with the key, it, and those behind. *)
Fixpoint split_pair (key : Z) (l : list wKeyValuePair)
    : option (list wKeyValuePair * wKeyValuePair * list wKeyValuePair) :=
  match l with
  | [] => None
  | p :: l =>
      if HashTable_Equals p key then Some ([], p, l)
      else
        match split_pair key l with
        | Some (l1, q, l2) => Some (p :: l1, q, l2)
        | None => None
        end
  end.

(** The index of the bucket of a key, and the bucket. *)
Definition bucket_of (t : wHashTable) (key : Z) : outcome (nat * list wKeyValuePair) :=
  i ← bucket_index key (numOfBuckets t);
  match bucketArray t !! i with
  | Some l => Ret (i, l)
  | None => Abort
  end.

Definition HashTable_Get (t : wHashTable) (key : Z) : outcome (option wKeyValuePair) :=
  if key =? 0 then Ret None
  else
    '(_, l) ← bucket_of t key;
    Ret (match split_pair key l with Some (_, p, _) => Some p | None => None end).

(** * Pairs *)

Definition disposeKey (key : Z) (t : wHashTable) : wHashTable :=
  if fnObjectFree keyObject then dispose [key] t else t.
Definition disposeValue (value : Z) (t : wHashTable) : wHashTable :=
  if fnObjectFree valueObject then dispose [value] t else t.
Definition disposePair (p : wKeyValuePair) (t : wHashTable) : wHashTable :=
  disposeValue (pair_value p) (disposeKey (pair_key p) t).

Definition new_object (o : wObject) (v : Z) : Z :=
  match fnObjectNew o with Some f => f v | None => v end.
Definition setKey (p : wKeyValuePair) (key : Z) (t : wHashTable) : wKeyValuePair * wHashTable :=
  (mkPair (new_object keyObject key) (pair_value p) (pair_marked p), disposeKey (pair_key p) t).
Definition setValue (p : wKeyValuePair) (value : Z) (t : wHashTable) : wKeyValuePair * wHashTable :=
  (mkPair (pair_key p) (new_object valueObject value) (pair_marked p), disposeValue (pair_value p) t).

(** * Operations *)

Definition HashTable_Count (t : wHashTable) : Z := numOfElements t.

Definition ratio (t : wHashTable) : spec_float :=
  float_div (to_float (numOfElements t)) (to_float (numOfBuckets t)).

(** The key is there: the pair is recycled if it was to be removed. *)
Definition update_pair (key value : Z) (p : wKeyValuePair) (t : wHashTable)
    : wKeyValuePair * wHashTable :=
  let '(p, t) :=
    if pair_marked p
    then (mkPair (pair_key p) (pair_value p) false,
          set_counts (u64 (numOfElements t + 1)) (u32 (pendingRemoves t - 1)) t)
    else (p, t) in
  let '(p, t) := if negb (pair_key p =? key) then setKey p key t else (p, t) in
  if negb (pair_value p =? value) then setValue p value t else (p, t).

Definition HashTable_Insert (t : wHashTable) (key value : Z) : outcome (bool * wHashTable) :=
  if (key =? 0) || (value =? 0) then Ret (false, t)
  else
    '(i, l) ← bucket_of t key;
    match split_pair key l with
    | Some (l1, p, l2) =>
        let '(p, t) := update_pair key value p t in
        Ret (true, set_buckets (<[i := l1 ++ p :: l2]> (bucketArray t)) t)
    | None =>
        if negb (malloc_ok 32) then Ret (false, t)
        else
          let '(p, t) := setKey (mkPair 0 0 false) key t in
          let '(p, t) := setValue p value t in
          let t := set_buckets (<[i := p :: l]> (bucketArray t)) t in
          let t := set_counts (u64 (numOfElements t + 1)) (pendingRemoves t) t in
          if (foreachRecursionLevel t =? 0) && SFltb (idealRatio t) (upperRehashThreshold t)
             && SFltb (upperRehashThreshold t) (ratio t)
          then t ← HashTable_Rehash t 0; Ret (true, t)
          else Ret (true, t)
    end.

(** Deprecated form of the insertion. *)
Definition HashTable_Add (t : wHashTable) (key value : Z) : outcome (Z * wHashTable) :=
  '(ok, t) ← HashTable_Insert t key value;
  if negb ok then Ret (-1, t) else Ret (0, t).

Definition HashTable_Remove (t : wHashTable) (key : Z) : outcome (bool * wHashTable) :=
  if key =? 0 then Ret (false, t)
  else
    '(i, l) ← bucket_of t key;
    match split_pair key l with
    | None => Ret (false, t)
    | Some (l1, p, l2) =>
        if negb (foreachRecursionLevel t =? 0) then
          let p := mkPair (pair_key p) (pair_value p) true in
          let t := set_buckets (<[i := l1 ++ p :: l2]> (bucketArray t)) t in
          Ret (true, set_counts (u64 (numOfElements t - 1)) (u32 (pendingRemoves t + 1)) t)
        else
          let t := set_buckets (<[i := l1 ++ l2]> (bucketArray t)) t in
          let t := disposePair p t in
          let t := set_counts (u64 (numOfElements t - 1)) (pendingRemoves t) t in
          if SFltb (S754_zero false) (lowerRehashThreshold t) && SFltb (ratio t) (lowerRehashThreshold t)
          then t ← HashTable_Rehash t 0; Ret (true, t)
          else Ret (true, t)
    end.

Definition HashTable_GetItemValue (t : wHashTable) (key : Z) : outcome Z :=
  if key =? 0 then Ret 0
  else
    p ← HashTable_Get t key;
    Ret (match p with Some p => if pair_marked p then 0 else pair_value p | None => 0 end).

Definition HashTable_SetItemValue (t : wHashTable) (key value : Z) : outcome (bool * wHashTable) :=
  if key =? 0 then Ret (false, t)
  else
    '(i, l) ← bucket_of t key;
    match split_pair key l with
    | Some (l1, p, l2) =>
        if pair_marked p then Ret (false, t)
        else
          let '(p, t) := setValue p value t in
          Ret (true, set_buckets (<[i := l1 ++ p :: l2]> (bucketArray t)) t)
    | None => Ret (false, t)
    end.

Definition HashTable_Contains (t : wHashTable) (key : Z) : outcome bool :=
  if key =? 0 then Ret false
  else
    p ← HashTable_Get t key;
    Ret (match p with Some p => negb (pair_marked p) | None => false end).
Definition HashTable_ContainsKey : wHashTable → Z → outcome bool := HashTable_Contains.

(** The value is compared with the keys. *)
Definition HashTable_ContainsValue (t : wHashTable) (value : Z) : bool :=
  if value =? 0 then false
  else existsb (λ p, negb (pair_marked p) && HashTable_Equals p value) (concat (bucketArray t)).

(** The keys, as many as there are elements. *)
Definition HashTable_GetKeys (t : wHashTable) : outcome (option (list Z)) :=
  let count := numOfElements t in
  if count <? 1 then Ret (Some [])
  else if negb (malloc_ok (8 * count)) then Ret None
  else
    let keys := map pair_key (filter (λ p, pair_marked p = false) (concat (bucketArray t))) in
    if zlen keys <=? count then Ret (Some (keys ++ zeros (count - zlen keys))) else Abort.

(** * Clearing *)

(** [while (pair)]: outside an iteration the pairs are disposed of; inside one
    [pair] does not advance.  Out of fuel is an [Abort]. *)
Fixpoint clear_bucket (fuel : nat) (l : list wKeyValuePair) (t : wHashTable) : outcome wHashTable :=
  match l with
  | [] => Ret t
  | p :: l' =>
      match fuel with
      | O => Abort
      | S fuel =>
          if negb (foreachRecursionLevel t =? 0) then
            clear_bucket fuel (mkPair (pair_key p) (pair_value p) true :: l')
              (set_counts (numOfElements t) (u32 (pendingRemoves t + 1)) t)
          else clear_bucket fuel l' (disposePair p t)
      end
  end.
Fixpoint clear_buckets (fuel : nat) (buckets : list (list wKeyValuePair)) (t : wHashTable)
    : outcome wHashTable :=
  match buckets with
  | [] => Ret t
  | l :: buckets => t ← clear_bucket fuel l t; clear_buckets fuel buckets t
  end.
Definition HashTable_Clear (fuel : nat) (t : wHashTable) : outcome wHashTable :=
  t' ← clear_buckets fuel (bucketArray t) t;
  let t := set_buckets (replicate (length (bucketArray t)) []) t' in
  let t := set_counts 0 (pendingRemoves t) t in
  if foreachRecursionLevel t =? 0 then HashTable_Rehash t 5 else Ret t.

(** * Iteration *)

(** [fn] may use the table.  While it runs pairs are only added in front of the
    buckets and never taken out of them, so that the pair with [n] pairs behind
    it stays that. *)
Section foreach.
Context {St : Type} (fn : Z → Z → wHashTable → St → outcome (bool * wHashTable * St)).

(** The last [n] pairs of bucket [i]. *)
Fixpoint foreach_bucket (i n : nat) (t : wHashTable) (st : St) : outcome (bool * wHashTable * St) :=
  match n with
  | O => Ret (true, t, st)
  | S n =>
      match bucketArray t !! i with
      | None => Abort
      | Some l =>
          match l !! (length l - S n)%nat with
          | None => Abort
          | Some p =>
              '(ok, t, st) ← (if pair_marked p then Ret (true, t, st)
                              else fn (pair_key p) (pair_value p) t st);
              if negb ok then Ret (false, t, st) else foreach_bucket i n t st
          end
      end
  end.
(** The buckets from [i] on. *)
Fixpoint foreach_buckets (n i : nat) (t : wHashTable) (st : St) : outcome (bool * wHashTable * St) :=
  match n with
  | O => Ret (true, t, st)
  | S n =>
      match bucketArray t !! i with
      | None => Abort
      | Some l =>
          '(ok, t, st) ← foreach_bucket i (length l) t st;
          if negb ok then Ret (false, t, st) else foreach_buckets n (S i) t st
      end
  end.

(** The pairs to be removed are disposed of. *)
Definition cleanup (t : wHashTable) : wHashTable :=
  let removed := filter (λ p, pair_marked p = true) (concat (bucketArray t)) in
  let t := fold_left (λ t p, disposePair p t) removed t in
  set_counts (numOfElements t) 0
    (set_buckets (map (filter (λ p, pair_marked p = false)) (bucketArray t)) t).

(** A callback that returns [FALSE] leaves the iteration at once. *)
Definition HashTable_Foreach (t : wHashTable) (st : St) : outcome (bool * wHashTable * St) :=
  let t := set_level (u32 (foreachRecursionLevel t + 1)) t in
  '(ok, t, st) ← foreach_buckets (Z.to_nat (numOfBuckets t)) 0 t st;
  if negb ok then Ret (false, t, st)
  else
    let t := set_level (u32 (foreachRecursionLevel t - 1)) t in
    if (foreachRecursionLevel t =? 0) && negb (pendingRemoves t =? 0)
    then Ret (true, cleanup t, st)
    else Ret (true, t, st).
End foreach.

(** What is passed to [fnObjectFree] when the table goes. *)
Definition HashTable_Free (t : wHashTable) : list Z :=
  disposed (fold_left (λ t p, disposePair p t) (concat (bucketArray t)) t).

Definition HashTable_New : outcome (option wHashTable) :=
  if negb (malloc_ok 400) then Ret None
  else if negb (malloc_ok 512) then Ret None
  else Ret (Some (mkTable 64 0 (to_float 3) (to_float 0) (to_float 15) (replicate 64 []) 0 0 [])).
End table.
