(* ===== verification/HashTableCorrect.v ===== *)
(** The hash table refines a finite map: its invariant, what each operation does
    to the map it represents, and the iteration. *)

From S2P Require Import Prelude HashTable.
From stdpp Require Import prelude list numbers gmap.
From Stdlib Require Import ZArith Lia SpecFloat.

#[local] Open Scope Z_scope.

(** * What the table relies on *)

(** Equal keys have the same canonical key, which [fnObjectNew] keeps and the hash
    depends on; for strings it is their contents, for pointers the pointer. *)
Class TableLaws (hash : Z → Z) (keyObject valueObject : wObject) (canon vcanon : Z → Z) : Prop := {
  law_equals k k' : fnObjectEquals keyObject k k' = bool_decide (canon k = canon k');
  law_hash k k' : canon k = canon k' → hash k = hash k';
  law_hash_range k : 0 <= hash k;
  law_key_new k : canon (new_object keyObject k) = canon k;
  law_value_new v : vcanon (new_object valueObject v) = vcanon v;
  law_key_null k : canon k = canon 0 → k = 0;
  law_value_null : vcanon 0 = 0;
}.

(** The default objects: pointers. *)
Definition pointerObject : wObject := mkObject None HashTable_PointerCompare false.
#[export] Instance pointer_laws :
  TableLaws HashTable_PointerHash pointerObject pointerObject id id.
Proof.
  split; try done.
  - intros. cbn. unfold HashTable_PointerCompare. destruct (Z.eqb_spec k k'); by case_bool_decide.
  - intros k k' Hk. cbn in Hk. by subst.
  - intros. unfold HashTable_PointerHash. apply Z.shiftr_nonneg. apply Z.mod_pos_bound. lia.
Qed.

(** * The search for a prime *)

(** The primes among the trial divisors. *)
Definition divisors : Z := 3 * 5 * 7 * 11 * 13 * 17 * 19 * 23 * 29 * 31 * 37 * 41 * 43 * 47.

Lemma trial_divisors i : 3 <= i < 51 → Z.odd i = true → 1 < Z.gcd i divisors.
Proof.
  intros Hi Ho.
  assert (forallb (λ i, implb (Z.odd i) (1 <? Z.gcd i divisors)) (map Z.of_nat (List.seq 3 48)) = true) as H
    by by vm_compute.
  rewrite forallb_forall in H. specialize (H i). rewrite Ho in H. cbn [implb] in H.
  apply Z.ltb_lt, H. apply in_map_iff. exists (Z.to_nat i). split; [lia|]. apply in_seq. lia.
Qed.
(** A number that is one modulo all of them passes. *)
Lemma coprime_passes n : n mod divisors = 1 → HashTable_IsProbablePrime n = true.
Proof.
  intros Hn. unfold HashTable_IsProbablePrime.
  assert (∀ fuel i, 3 <= i → Z.odd i = true → probable_prime fuel i n = true) as H; [|by apply H].
  induction fuel as [|fuel IH]; intros i Hi Ho; [done|]. cbn [probable_prime].
  destruct (Z.ltb_spec i 51); [|done]. destruct (n =? i); [done|].
  destruct (Z.eqb_spec (n mod i) 0) as [Hd|].
  2:{ apply IH; [lia|]. replace (i + 2) with (i + 2 * 1) by lia. by rewrite Z.odd_add_mul_2. }
  exfalso. pose proof (trial_divisors i ltac:(lia) Ho) as Hg.
  assert ((Z.gcd i divisors | Z.gcd n divisors)) as Hdiv.
  { apply Z.gcd_greatest; [|apply Z.gcd_divide_r].
    transitivity i; [apply Z.gcd_divide_l|]. apply Z.mod_divide; lia. }
  rewrite (Z.gcd_comm n), <- (Z.gcd_mod n divisors), Hn in Hdiv by done.
  rewrite Z.gcd_1_l in Hdiv. apply Z.divide_1_r in Hdiv. pose proof (Z.gcd_nonneg i divisors). lia.
Qed.

Lemma search_prime_spec k n :
  match search_prime k n with
  | inl p => ∃ t, 0 <= t < 2 ^ Z.of_nat k ∧ p = (if t =? 0 then n else u64 (n + 2 * t)) ∧
      HashTable_IsProbablePrime p = true
  | inr m => m = u64 (n + 2 * 2 ^ Z.of_nat k) ∧
      ∀ t, 0 <= t < 2 ^ Z.of_nat k →
        HashTable_IsProbablePrime (if t =? 0 then n else u64 (n + 2 * t)) = false
  end.
Proof.
  revert n. induction k as [|k IH]; intros n; cbn [search_prime].
  { destruct (HashTable_IsProbablePrime n) eqn:Hp.
    - exists 0. change (2 ^ Z.of_nat 0) with 1. split_and!; done || lia.
    - split; [done|]. change (2 ^ Z.of_nat 0) with 1. intros t Ht. by replace t with 0 by lia. }
  rewrite Nat2Z.inj_succ, Z.pow_succ_r by lia. set (N := 2 ^ Z.of_nat k) in *.
  assert (0 < N) as HN by (apply Z.pow_pos_nonneg; lia).
  pose proof (IH n) as H1. destruct (search_prime k n) as [p|m].
  { destruct H1 as (t & Ht & Hp & Hpp). exists t. split_and!; [lia..|done]. }
  destruct H1 as [-> H1]. pose proof (IH (u64 (n + 2 * N))) as H2.
  assert (∀ t, 0 <= t → (if t =? 0 then u64 (n + 2 * N) else u64 (u64 (n + 2 * N) + 2 * t)) =
    (if N + t =? 0 then n else u64 (n + 2 * (N + t)))) as Hstep.
  { intros t Ht. replace (N + t =? 0) with false by lia.
    destruct (Z.eqb_spec t 0) as [->|]; [by rewrite Z.add_0_r|].
    unfold u64. rewrite Zplus_mod_idemp_l. f_equal. lia. }
  destruct (search_prime k (u64 (n + 2 * N))) as [p|m].
  - destruct H2 as (t & Ht & Hp & Hpp). exists (N + t). split_and!; [lia..| |done].
    rewrite Hp. apply Hstep; lia.
  - destruct H2 as [-> H2]. split.
    + unfold u64. rewrite Zplus_mod_idemp_l. f_equal. lia.
    + intros t Ht. destruct (Z.lt_ge_cases t N); [by apply H1; lia|].
      replace t with (N + (t - N)) by lia. rewrite <- Hstep by lia. apply H2. lia.
Qed.

(** Some number on the way passes: one that is one modulo the divisors, or one
    itself, after the wrap-around. *)
Lemma search_prime_found n :
  0 <= n < 2 ^ 64 → Z.odd n = true → ∃ p, search_prime 60 n = inl p ∧ 0 < p.
Proof.
  intros Hn Ho. pose proof (search_prime_spec 60 n) as H.
  assert (∀ t, 0 < t → Z.odd (u64 (n + 2 * t)) = true) as Hodd.
  { intros t Ht. unfold u64. rewrite Z.mod_eq by done.
    replace (n + 2 * t - _) with (n + 2 * (t - 9223372036854775808 * ((n + 2 * t) / 18446744073709551616))) by lia.
    by rewrite Z.odd_add_mul_2. }
  destruct (search_prime 60 n) as [p|m].
  { destruct H as (t & Ht & -> & _). eexists. split; [done|].
    destruct (Z.eqb_spec t 0).
    - destruct (decide (n = 0)) as [->|]; [done|lia].
    - specialize (Hodd t ltac:(lia)). pose proof (Z.mod_pos_bound (n + 2 * t) (2 ^ 64) ltac:(lia)) as Hb.
      unfold u64 in *. change (2 ^ 64) with 18446744073709551616 in *.
      destruct (decide ((n + 2 * t) mod 18446744073709551616 = 0)) as [Hz|]; [by rewrite Hz in Hodd|lia]. }
  exfalso. destruct H as [_ H].
  set (t := ((1 - n) * ((divisors + 1) / 2)) mod divisors).
  assert (0 <= t < divisors) as Ht by by apply Z.mod_pos_bound.
  assert ((n + 2 * t) mod divisors = 1) as Hm.
  { unfold t. rewrite <- Zplus_mod_idemp_r, Zmult_mod_idemp_r, Zplus_mod_idemp_r.
    replace (n + 2 * ((1 - n) * ((divisors + 1) / 2))) with (1 + (1 - n) * divisors).
    - by rewrite Z_mod_plus_full.
    - replace ((divisors + 1) / 2) with 153722445647122853 by done.
      replace divisors with 307444891294245705 by done. ring. }
  assert (divisors < 2 ^ Z.of_nat 60) as Hd by done.
  destruct (Z.lt_ge_cases (n + 2 * t) (2 ^ 64)).
  - specialize (H t ltac:(lia)). rewrite coprime_passes in H; [done|].
    destruct (Z.eqb_spec t 0) as [Ht0|]; [by rewrite <- Hm, Ht0, Z.add_0_r|].
    unfold u64. by rewrite (Z.mod_small _ 18446744073709551616) by lia.
  - pose proof (Z.odd_spec n) as [Hs _]. destruct (Hs Ho) as [m' Hm'].
    specialize (H (9223372036854775808 - m') ltac:(lia)).
    replace (_ =? 0) with false in H by lia.
    replace (u64 (n + 2 * (9223372036854775808 - m'))) with 1 in H; [done|].
    unfold u64. rewrite Hm'. replace (2 * m' + 1 + _) with (1 + 1 * 18446744073709551616) by lia.
    by rewrite Z_mod_plus_full.
Qed.

(** [x | 1] is the odd one of [x] and [x + 1]. *)
Lemma lor_1 x : Z.lor x 1 = 2 * Z.div2 x + 1.
Proof.
  apply Z.bits_inj'. intros i Hi. rewrite Z.lor_spec.
  destruct (decide (i = 0)) as [-> |]; [rewrite Z.testbit_odd_0; apply orb_true_r|].
  rewrite (Z.bits_above_log2 1 i), orb_false_r by (cbn; lia).
  replace i with (Z.succ (Z.pred i)) at 2 by lia.
  rewrite Z.testbit_odd_succ, Z.div2_spec, Z.shiftr_spec by lia. f_equal. lia.
Qed.

Lemma ideal_buckets t : ∃ n, HashTable_CalculateIdealNumOfBuckets t = Ret n ∧ 0 < n.
Proof.
  unfold HashTable_CalculateIdealNumOfBuckets. set (x := to_size _).
  assert (0 <= x < 2 ^ 64) as Hx.
  { unfold x, to_size. destruct (float_div _ _) as [| | |[]]; try (by split); apply Z.mod_pos_bound; lia. }
  clearbody x. cbv zeta.
  destruct (search_prime_found (if x <? 5 then 5 else Z.lor x 1)) as (p & -> & Hp); [| |eauto].
  - destruct (Z.ltb_spec x 5); [lia|]. rewrite lor_1, Z.div2_div.
    pose proof (Z.div_mod x 2 ltac:(lia)). pose proof (Z.mod_pos_bound x 2 ltac:(lia)). lia.
  - destruct (x <? 5); [done|]. rewrite lor_1, Z.add_comm. by rewrite Z.odd_add_mul_2.
Qed.

(** * The pairs of the buckets *)

(** A bucket replaced among the others. *)
Lemma concat_insert {A} (bs : list (list A)) (i : nat) (l : list A) :
  bs !! i = Some l → ∃ rest, concat bs ≡ₚ l ++ rest ∧ (∀ l', concat (<[i := l']> bs) ≡ₚ l' ++ rest) ∧
    ∀ x, x ∈ rest → ∃ j m, j ≠ i ∧ bs !! j = Some m ∧ x ∈ m.
Proof.
  intros Hl. exists (concat (take i bs) ++ concat (drop (S i) bs)).
  pose proof (lookup_lt_Some _ _ _ Hl) as Hi. split_and!.
  - rewrite <- (take_drop_middle bs i l Hl) at 1. rewrite concat_app. cbn [concat].
    rewrite Permutation_app_swap_app. done.
  - intros l'. rewrite insert_take_drop by done. rewrite concat_app. cbn [concat].
    rewrite Permutation_app_swap_app. done.
  - intros x [Hx|Hx]%elem_of_app; rewrite list_elem_of_In in Hx;
      apply in_concat in Hx as (m & Hm & Hx); rewrite <- !list_elem_of_In in *;
      apply list_elem_of_lookup in Hm as [j Hj].
    + apply lookup_take_Some in Hj as [Hj ?]. exists j, m. split_and!; [lia|done..].
    + rewrite lookup_drop in Hj. exists (S i + j)%nat, m. split_and!; [lia|done..].
Qed.

Lemma list_alter_insert {A} (f : A → A) (l : list A) (i : nat) (x : A) :
  l !! i = Some x → alter f i l = <[i := f x]> l.
Proof.
  intros Hx. pose proof (lookup_lt_Some _ _ _ Hx). apply list_eq. intros j.
  rewrite list_lookup_alter. case_decide; subst.
  - by rewrite list_lookup_insert_eq, Hx.
  - by rewrite list_lookup_insert_ne.
Qed.

Section correct.
Context {HM : Malloc} (hash : Z → Z) (keyObject valueObject : wObject) (canon vcanon : Z → Z)
  {HL : TableLaws hash keyObject valueObject canon vcanon}.
Implicit Types (t : wHashTable) (p : wKeyValuePair) (l : list wKeyValuePair) (key value : Z).

Abbreviation live := (λ p, pair_marked p = false).

Definition pairs t : list wKeyValuePair := concat (bucketArray t).
Definition pair_keys l : list Z := map (λ p, canon (pair_key p)) l.
(** The map a list of pairs stands for. *)
Definition entry p : Z * Z := (canon (pair_key p), vcanon (pair_value p)).
Definition entries_of l : gmap Z Z := list_to_map (map entry (filter live l)).
Definition entries t : gmap Z Z := entries_of (pairs t).
Definition live_count l : Z := zlen (filter live l).
Definition marked_count l : Z := zlen (filter (λ p, pair_marked p = true) l).

(** Every pair is in the bucket of its key. *)
Definition placed (n : Z) (buckets : list (list wKeyValuePair)) : Prop :=
  ∀ i l p, buckets !! i = Some l → p ∈ l → Z.to_nat (hash (pair_key p) mod n) = i.

(** The counters are those of the pairs, at their width. *)
Record table_ok t : Prop := {
  ok_size : numOfBuckets t = zlen (bucketArray t);
  ok_pos : 0 < numOfBuckets t;
  ok_placed : placed (numOfBuckets t) (bucketArray t);
  ok_keys : NoDup (pair_keys (pairs t));
  ok_nonnull : canon 0 ∉ pair_keys (pairs t);
  ok_elements : numOfElements t = u64 (live_count (pairs t));
  ok_pending : pendingRemoves t = u32 (marked_count (pairs t));
}.

(** ** Lists of pairs *)

#[global] Instance pair_keys_perm : Proper ((≡ₚ) ==> (≡ₚ)) pair_keys.
Proof. intros l l' Hl. unfold pair_keys. by rewrite Hl. Qed.
#[global] Instance live_count_perm : Proper ((≡ₚ) ==> (=)) live_count.
Proof. intros l l' Hl. unfold live_count, zlen. by rewrite Hl. Qed.
#[global] Instance marked_count_perm : Proper ((≡ₚ) ==> (=)) marked_count.
Proof. intros l l' Hl. unfold marked_count, zlen. by rewrite Hl. Qed.

Lemma live_count_cons p l :
  live_count (p :: l) = (if pair_marked p then 0 else 1) + live_count l.
Proof.
  unfold live_count. rewrite filter_cons. destruct (pair_marked p) eqn:Hp.
  - by rewrite decide_False.
  - by rewrite decide_True, zlen_cons.
Qed.
Lemma marked_count_cons p l :
  marked_count (p :: l) = (if pair_marked p then 1 else 0) + marked_count l.
Proof.
  unfold marked_count. rewrite filter_cons. destruct (pair_marked p) eqn:Hp.
  - by rewrite decide_True, zlen_cons.
  - by rewrite decide_False.
Qed.
Lemma entries_of_cons p l :
  entries_of (p :: l) =
    if pair_marked p then entries_of l
    else <[canon (pair_key p) := vcanon (pair_value p)]> (entries_of l).
Proof.
  unfold entries_of. rewrite filter_cons. destruct (pair_marked p) eqn:Hp.
  - by rewrite decide_False.
  - by rewrite decide_True.
Qed.
Lemma entries_of_none k l : k ∉ pair_keys l → entries_of l !! k = None.
Proof.
  intros Hk. apply not_elem_of_list_to_map_1. contradict Hk. unfold pair_keys.
  rewrite <- list_fmap_compose in Hk. apply list_elem_of_fmap in Hk as (p & -> & Hp).
  apply list_elem_of_filter in Hp as [_ Hp]. apply list_elem_of_fmap. by exists p.
Qed.
Lemma live_keys_nodup l : NoDup (pair_keys l) → NoDup (map entry (filter live l)).*1.
Proof.
  unfold pair_keys. rewrite <- list_fmap_compose. induction l as [|p l IH]; [constructor|].
  cbn [map]. intros [Hp Hl]%NoDup_cons. rewrite filter_cons. destruct (decide _); [|by apply IH].
  cbn. apply NoDup_cons. split; [|by apply IH]. contradict Hp.
  apply list_elem_of_fmap in Hp as (q & Hq & Hin). apply list_elem_of_filter in Hin as [_ Hin].
  apply list_elem_of_fmap. exists q. by split.
Qed.
Lemma entries_of_perm l l' : NoDup (pair_keys l) → l ≡ₚ l' → entries_of l = entries_of l'.
Proof.
  intros Hl Hp. apply list_to_map_proper; [by apply live_keys_nodup|]. by rewrite Hp.
Qed.
Lemma entries_of_size l : NoDup (pair_keys l) → Z.of_nat (size (entries_of l)) = live_count l.
Proof.
  intros Hl. unfold entries_of, live_count, zlen. rewrite map_size_list_to_map by by apply live_keys_nodup.
  by rewrite length_map.
Qed.

(** ** Finding the pair of a key *)

Lemma split_pair_some key l l1 p l2 :
  split_pair keyObject key l = Some (l1, p, l2) → l = l1 ++ p :: l2 ∧ canon key = canon (pair_key p).
Proof.
  revert l1. induction l as [|q l IH]; intros l1; cbn [split_pair]; [done|].
  unfold HashTable_Equals. rewrite law_equals. case_bool_decide.
  - intros [= <- <- <-]. done.
  - destruct (split_pair _ key l) as [[[l1' q'] l2']|]; [|done]. intros [= <- -> ->].
    by destruct (IH l1') as [-> ?].
Qed.
Lemma split_pair_none key l : split_pair keyObject key l = None → canon key ∉ pair_keys l.
Proof.
  induction l as [|q l IH]; cbn [split_pair]; [intros _ H; inversion H|].
  unfold HashTable_Equals. rewrite law_equals. case_bool_decide as Hc; [done|].
  destruct (split_pair _ key l) as [[[]]|]; [done|]. intros _. cbn. apply not_elem_of_cons. auto.
Qed.

(** The bucket of a key, and the pairs of the other buckets, which have other keys. *)
Lemma bucket_of_ok t key :
  table_ok t → ∃ i l rest, bucket_of hash t key = Ret (i, l) ∧ bucketArray t !! i = Some l ∧
    i = Z.to_nat (hash key mod numOfBuckets t) ∧ pairs t ≡ₚ l ++ rest ∧
    (∀ l', concat (<[i := l']> (bucketArray t)) ≡ₚ l' ++ rest) ∧ canon key ∉ pair_keys rest.
Proof.
  intros Hok. pose proof (ok_pos _ Hok) as Hn. pose proof (ok_size _ Hok) as Hs.
  unfold bucket_of, bucket_index. replace (numOfBuckets t =? 0) with false by lia. cbn [mbind outcome_bind].
  set (i := Z.to_nat _).
  assert (i < length (bucketArray t))%nat as Hi.
  { pose proof (Z.mod_pos_bound (hash key) (numOfBuckets t) Hn). unfold i, zlen in *. lia. }
  destruct (lookup_lt_is_Some_2 _ _ Hi) as [l Hl]. rewrite Hl.
  destruct (concat_insert _ _ _ Hl) as (rest & Hp & Hi' & Hrest). exists i, l, rest. split_and!; try done.
  intros (p & Hk & Hin)%list_elem_of_fmap. destruct (Hrest _ Hin) as (j & m & Hj & Hm & Hpm).
  apply Hj. rewrite <- (ok_placed _ Hok j m p Hm Hpm). unfold i.
  by rewrite (law_hash (hash := hash) key (pair_key p)).
Qed.

(** The pair with the key, or none: what is shared by all operations. *)
Inductive lookup_view t key : Prop :=
| view_found i l1 p l2 rest :
    bucket_of hash t key = Ret (i, l1 ++ p :: l2) →
    split_pair keyObject key (l1 ++ p :: l2) = Some (l1, p, l2) →
    bucketArray t !! i = Some (l1 ++ p :: l2) →
    canon key = canon (pair_key p) → pairs t ≡ₚ p :: rest →
    canon key ∉ pair_keys rest →
    (∀ l', concat (<[i := l1 ++ l' ++ l2]> (bucketArray t)) ≡ₚ l' ++ rest) →
    lookup_view t key
| view_absent i l :
    bucket_of hash t key = Ret (i, l) → split_pair keyObject key l = None →
    bucketArray t !! i = Some l → i = Z.to_nat (hash key mod numOfBuckets t) →
    canon key ∉ pair_keys (pairs t) →
    (∀ l', concat (<[i := l' ++ l]> (bucketArray t)) ≡ₚ l' ++ pairs t) →
    lookup_view t key.

Lemma lookup_ok t key : table_ok t → lookup_view t key.
Proof.
  intros Hok. destruct (bucket_of_ok t key Hok) as (i & l & rest & Hb & Hl & Hi & Hp & Hins & Hrest).
  destruct (split_pair keyObject key l) as [[[l1 p] l2]|] eqn:Hsp.
  - pose proof (split_pair_some _ _ _ _ _ Hsp) as [-> Hk].
    pose proof (ok_keys _ Hok) as Hnd. rewrite Hp, <- app_assoc in Hnd. cbn [app] in Hnd.
    apply (view_found _ _ i l1 p l2 (l1 ++ l2 ++ rest)); try done.
    + rewrite Hp, <- app_assoc. cbn [app]. by rewrite <- Permutation_middle.
    + rewrite <- Permutation_middle in Hnd. apply NoDup_cons in Hnd as [Hnd _].
      by rewrite Hk.
    + intros l'. rewrite Hins, <- !app_assoc. apply Permutation_app_swap_app.
  - apply (view_absent _ _ i l); try done.
    + rewrite Hp. unfold pair_keys. rewrite map_app. apply not_elem_of_app.
      split; [by apply split_pair_none|done].
    + intros l'. rewrite Hins, Hp. by rewrite app_assoc.
Qed.

(** Replacing pairs in the bucket of a key keeps the buckets in place. *)
Lemma placed_insert n buckets i l' :
  placed n buckets → (∀ p, p ∈ l' → Z.to_nat (hash (pair_key p) mod n) = i) →
  placed n (<[i := l']> buckets).
Proof.
  intros Hpl Hl' j l p Hj Hp. destruct (decide (i = j)) as [-> |].
  - destruct (decide (j < length buckets)%nat).
    + rewrite list_lookup_insert_eq in Hj by done. injection Hj as <-. auto.
    + rewrite list_insert_ge in Hj by lia. eauto.
  - rewrite list_lookup_insert_ne in Hj by done. eauto.
Qed.

Lemma ok_update t t' i l' ps :
  table_ok t → bucketArray t' = <[i := l']> (bucketArray t) → numOfBuckets t' = numOfBuckets t →
  (∀ p, p ∈ l' → Z.to_nat (hash (pair_key p) mod numOfBuckets t) = i) →
  concat (<[i := l']> (bucketArray t)) ≡ₚ ps → NoDup (pair_keys ps) → canon 0 ∉ pair_keys ps →
  numOfElements t' = u64 (live_count ps) → pendingRemoves t' = u32 (marked_count ps) →
  table_ok t' ∧ entries t' = entries_of ps.
Proof.
  intros Hok Hb Hn Hl' Hps Hnd H0 He Hr. rewrite <- Hb in Hps.
  change (concat (bucketArray t')) with (pairs t') in Hps.
  assert (NoDup (pair_keys (pairs t'))) as Hnd' by by rewrite Hps. split.
  - split; try done.
    + rewrite Hn, (ok_size _ Hok), Hb. unfold zlen. by rewrite length_insert.
    + rewrite Hn. apply Hok.
    + rewrite Hn, Hb. apply placed_insert; [apply Hok|done].
    + by rewrite Hps.
    + by rewrite Hps.
    + by rewrite Hps.
  - by apply entries_of_perm.
Qed.

(** ** Rehashing *)

(** The pairs are the same ones, in other buckets. *)
Record rehashed t t' : Prop := {
  rehashed_ok : table_ok t';
  rehashed_pairs : pairs t' ≡ₚ pairs t;
  rehashed_level : foreachRecursionLevel t' = foreachRecursionLevel t;
  rehashed_disposed : disposed t' = disposed t;
}.
Lemma rehashed_refl t : table_ok t → rehashed t t.
Proof. by split. Qed.
Lemma rehashed_entries t t' : rehashed t t' → entries t' = entries t.
Proof. intros H. apply entries_of_perm; [apply H|]. apply H. Qed.

Lemma push_pairs_ok n l buckets :
  0 < n → zlen buckets = n → placed n buckets →
  let buckets' := fold_left (λ buckets p, push_pair hash n p buckets) l buckets in
  zlen buckets' = n ∧ placed n buckets' ∧ concat buckets' ≡ₚ l ++ concat buckets.
Proof.
  intros Hn. revert buckets. induction l as [|p l IH]; intros buckets Hz Hpl; [done|].
  cbn [fold_left]. unfold push_pair. set (i := Z.to_nat (hash (pair_key p) mod n)).
  assert (i < length buckets)%nat as Hi.
  { pose proof (Z.mod_pos_bound (hash (pair_key p)) n Hn). unfold i, zlen in *. lia. }
  destruct (lookup_lt_is_Some_2 _ _ Hi) as [m Hm].
  rewrite (list_alter_insert (cons p) _ _ _ Hm).
  destruct (concat_insert _ _ _ Hm) as (rest & Hr & Hins & _).
  destruct (IH (<[i := p :: m]> buckets)) as (H1 & H2 & H3).
  - unfold zlen in *. by rewrite length_insert.
  - apply placed_insert; [done|]. intros q [-> |Hq]%elem_of_cons; [done|]. eauto.
  - split_and!; [done..|]. rewrite H3, Hins, Hr. cbn [app]. symmetry. apply Permutation_middle.
Qed.

Lemma rehash_ok t n :
  0 <= n → table_ok t → ∃ t', HashTable_Rehash hash t n = Ret t' ∧ rehashed t t'.
Proof.
  intros Hn0 Hok. unfold HashTable_Rehash.
  assert (∃ m, (if n =? 0 then HashTable_CalculateIdealNumOfBuckets t else Ret n) = Ret m ∧ 0 < m)
    as (m & -> & Hm).
  { destruct (Z.eqb_spec n 0); [apply ideal_buckets|]. exists n. split; [done|lia]. }
  cbn [mbind outcome_bind].
  destruct (m =? _); [exists t; split; [done|by apply rehashed_refl]|].
  destruct (negb _); [exists t; split; [done|by apply rehashed_refl]|].
  destruct (push_pairs_ok m (pairs t) (replicate (Z.to_nat m) [])) as (H1 & H2 & H3); [done|..].
  - unfold zlen. rewrite length_replicate. lia.
  - intros i l p [-> _]%lookup_replicate H. inversion H.
  - assert (concat (replicate (Z.to_nat m) []) = @nil wKeyValuePair) as Hc
      by (clear; induction (Z.to_nat m); [done|by cbn]).
    rewrite Hc, app_nil_r in H3. eexists. split; [done|].
    split; [|exact H3|done..]. split; try done; unfold pairs; cbn [bucketArray numOfElements pendingRemoves].
    all: rewrite H3; apply Hok.
Qed.

(** ** Operations *)

(** A pair changed or dropped where it was found. *)
Lemma found_placed t i l1 p l2 l' key :
  table_ok t → bucketArray t !! i = Some (l1 ++ p :: l2) → canon key = canon (pair_key p) →
  (∀ q, q ∈ l' → canon (pair_key q) = canon key) →
  ∀ q, q ∈ l1 ++ l' ++ l2 → Z.to_nat (hash (pair_key q) mod numOfBuckets t) = i.
Proof.
  intros Hok Hl Hk Hl' q Hq.
  assert (∀ q, q ∈ l1 ++ p :: l2 → Z.to_nat (hash (pair_key q) mod numOfBuckets t) = i) as Hin
    by (intros; eapply ok_placed; eauto).
  rewrite !elem_of_app in Hq. destruct Hq as [Hq|[Hq|Hq]].
  - apply Hin. set_solver.
  - rewrite (law_hash (hash := hash) (pair_key q) (pair_key p)) by by rewrite Hl'.
    apply Hin. set_solver.
  - apply Hin. set_solver.
Qed.

(** What an operation leaves alone. *)
Definition same_level t t' : Prop :=
  foreachRecursionLevel t' = foreachRecursionLevel t ∧ numOfBuckets t' = numOfBuckets t ∧
  bucketArray t' = bucketArray t.

Lemma disposeKey_same v t : same_level t (disposeKey keyObject v t).
Proof. unfold disposeKey. by destruct (fnObjectFree keyObject). Qed.
Lemma disposeValue_same v t : same_level t (disposeValue valueObject v t).
Proof. unfold disposeValue. by destruct (fnObjectFree valueObject). Qed.

Lemma update_pair_ok key value p t :
  canon key = canon (pair_key p) →
  ∃ p' t', update_pair keyObject valueObject key value p t = (p', t') ∧
    entry p' = (canon key, vcanon value) ∧ pair_marked p' = false ∧ same_level t t' ∧
    numOfElements t' = (if pair_marked p then u64 (numOfElements t + 1) else numOfElements t) ∧
    pendingRemoves t' = (if pair_marked p then u32 (pendingRemoves t - 1) else pendingRemoves t).
Proof.
  intros Hk. destruct p as [k v m]. cbn in Hk.
  unfold update_pair, setKey, setValue, disposeKey, disposeValue, entry, same_level. cbn.
  destruct m; cbn; (destruct (Z.eqb_spec k key) as [-> |]; cbn;
    (destruct (Z.eqb_spec v value) as [-> |]; cbn));
    (eexists _, _; split; [reflexivity|]; cbn; rewrite ?law_key_new, ?law_value_new, <- ?Hk;
     destruct (fnObjectFree keyObject), (fnObjectFree valueObject); done).
Qed.

(** Replacing the pair that was found by one with the same key. *)
Lemma replace_pair_ok t key i l1 p l2 rest p' t' :
  table_ok t → bucketArray t !! i = Some (l1 ++ p :: l2) → canon key = canon (pair_key p) →
  pairs t ≡ₚ p :: rest → canon key ∉ pair_keys rest →
  (∀ l', concat (<[i := l1 ++ l' ++ l2]> (bucketArray t)) ≡ₚ l' ++ rest) →
  bucketArray t' = <[i := l1 ++ p' :: l2]> (bucketArray t) → numOfBuckets t' = numOfBuckets t →
  canon (pair_key p') = canon key →
  numOfElements t' = u64 (live_count (p' :: rest)) →
  pendingRemoves t' = u32 (marked_count (p' :: rest)) →
  table_ok t' ∧ entries t' = entries_of (p' :: rest).
Proof.
  intros Hok Hl Hk Hp Hrest Hins Hb Hn Hk' He Hr. specialize (Hins [p']).
  apply (ok_update t t' i (l1 ++ [p'] ++ l2)); try done.
  - eapply found_placed; try done. intros q ->%list_elem_of_singleton. done.
  - pose proof (ok_keys _ Hok) as Hnd. rewrite Hp in Hnd. cbn in *.
    apply NoDup_cons in Hnd as [_ Hnd]. apply NoDup_cons. by rewrite Hk'.
  - pose proof (ok_nonnull _ Hok) as H0. rewrite Hp in H0. cbn in *. by rewrite Hk', Hk.
Qed.

Lemma u64_succ n : u64 (u64 n + 1) = u64 (1 + n).
Proof. unfold u64. by rewrite Zplus_mod_idemp_l, Z.add_comm. Qed.
Lemma u64_pred n : u64 (u64 (1 + n) - 1) = u64 n.
Proof. unfold u64. rewrite Zminus_mod_idemp_l. f_equal. lia. Qed.
Lemma u32_succ n : u32 (u32 n + 1) = u32 (1 + n).
Proof. unfold u32. by rewrite Zplus_mod_idemp_l, Z.add_comm. Qed.
Lemma u32_pred n : u32 (u32 (1 + n) - 1) = u32 n.
Proof. unfold u32. rewrite Zminus_mod_idemp_l. f_equal. lia. Qed.

(** The pair found for a key is its entry in the map, unless it is to be removed. *)
Lemma found_entry t key p rest :
  table_ok t → canon key = canon (pair_key p) → pairs t ≡ₚ p :: rest → canon key ∉ pair_keys rest →
  entries t !! canon key = (if pair_marked p then None else Some (vcanon (pair_value p))) ∧
  ∀ v, <[canon key := v]> (entries_of rest) = <[canon key := v]> (entries t).
Proof.
  intros Hok Hk Hp Hrest. unfold entries.
  rewrite (entries_of_perm _ _ (ok_keys _ Hok) Hp), entries_of_cons, <- Hk.
  destruct (pair_marked p).
  - split; [by apply entries_of_none|done].
  - split; [by rewrite lookup_insert_eq|]. intros v. by rewrite insert_insert_eq.
Qed.
Lemma found_counts t p rest :
  table_ok t → pairs t ≡ₚ p :: rest →
  numOfElements t = u64 ((if pair_marked p then 0 else 1) + live_count rest) ∧
  pendingRemoves t = u32 ((if pair_marked p then 1 else 0) + marked_count rest).
Proof.
  intros Hok Hp. rewrite (ok_elements _ Hok), (ok_pending _ Hok), Hp.
  by rewrite live_count_cons, marked_count_cons.
Qed.

(** The pair of a new key goes in front of its bucket. *)
Lemma insert_new_ok t key value i l :
  table_ok t → key ≠ 0 → bucketArray t !! i = Some l → i = Z.to_nat (hash key mod numOfBuckets t) →
  canon key ∉ pair_keys (pairs t) →
  (∀ l', concat (<[i := l' ++ l]> (bucketArray t)) ≡ₚ l' ++ pairs t) →
  let '(p, t1) := setKey keyObject (mkPair 0 0 false) key t in
  let '(p, t1) := setValue valueObject p value t1 in
  let t1 := set_buckets (<[i := p :: l]> (bucketArray t1)) t1 in
  let t1 := set_counts (u64 (numOfElements t1 + 1)) (pendingRemoves t1) t1 in
  table_ok t1 ∧ entries t1 = <[canon key := vcanon value]> (entries t) ∧
  foreachRecursionLevel t1 = foreachRecursionLevel t ∧
  marked_count (pairs t1) = marked_count (pairs t).
Proof.
  intros Hok H0 Hl Hi Habs Hins. unfold setKey, setValue. cbn [pair_key pair_value pair_marked].
  set (t1 := disposeKey _ _ _). set (t2 := disposeValue _ _ _). cbv zeta.
  assert (numOfBuckets t2 = numOfBuckets t ∧ numOfElements t2 = numOfElements t ∧
    pendingRemoves t2 = pendingRemoves t ∧ bucketArray t2 = bucketArray t ∧
    foreachRecursionLevel t2 = foreachRecursionLevel t) as (H1 & H2 & H3 & H4 & H5).
  { unfold t2, t1, disposeValue, disposeKey.
    by destruct (fnObjectFree keyObject), (fnObjectFree valueObject). }
  clearbody t2. clear t1. set (p := mkPair _ _ _). set (t3 := set_counts _ _ _).
  assert (canon (pair_key p) = canon key) as Hp by apply law_key_new.
  specialize (Hins [p]).
  assert (pairs t3 ≡ₚ p :: pairs t) as Hpairs by (unfold pairs, t3; cbn; by rewrite H4).
  destruct (ok_update t t3 i (p :: l) (p :: pairs t)) as [Hok3 Hent]; try done.
  - unfold t3. cbn. by rewrite H4.
  - intros q [-> |Hq]%elem_of_cons; [|by eapply ok_placed; eauto].
    by rewrite (law_hash (hash := hash) _ key).
  - apply NoDup_cons. split; [by rewrite <- Hp in Habs|apply Hok].
  - apply not_elem_of_cons. split; [|apply Hok].
    intros He. apply H0, (law_key_null (canon := canon)). by rewrite <- Hp.
  - unfold t3. cbn [numOfElements set_counts set_buckets]. rewrite H2, (ok_elements _ Hok), live_count_cons.
    apply u64_succ.
  - unfold t3. cbn [pendingRemoves set_counts set_buckets].
    rewrite H3, (ok_pending _ Hok), marked_count_cons. done.
  - split_and!; [done| |by unfold t3; cbn|by rewrite Hpairs, marked_count_cons].
    rewrite Hent, entries_of_cons, Hp. cbn [pair_marked p]. f_equal. apply law_value_new.
Qed.

Lemma maybe_rehash (b : bool) t :
  table_ok t → ∃ t', (if b then t ← HashTable_Rehash hash t 0; Ret (true, t) else Ret (true, t)) = Ret (true, t') ∧
    rehashed t t'.
Proof.
  intros Hok. destruct b.
  - destruct (rehash_ok t 0 ltac:(lia) Hok) as (t' & -> & Hre). by exists t'.
  - exists t. split; [done|by apply rehashed_refl].
Qed.

(** [HashTable_Insert] at any level: only a new pair needs memory. *)
Lemma insert_ok t key value :
  table_ok t → key ≠ 0 → value ≠ 0 →
  ∃ ok t', HashTable_Insert hash keyObject valueObject t key value = Ret (ok, t') ∧ table_ok t' ∧
    foreachRecursionLevel t' = foreachRecursionLevel t ∧ marked_count (pairs t') <= marked_count (pairs t) ∧
    if ok then entries t' = <[canon key := vcanon value]> (entries t) ∧
      (entries t !! canon key = None → marked_count (pairs t) = 0 → malloc_ok 32 = true)
    else t' = t ∧ malloc_ok 32 = false ∧ entries t !! canon key = None.
Proof.
  intros Hok Hk Hv. unfold HashTable_Insert.
  replace ((key =? 0) || (value =? 0)) with false by lia.
  destruct (lookup_ok t key Hok)
    as [i l1 p l2 rest Hb Hsp Hl Hkp Hp Hrest Hins|i l Hb Hsp Hl Hi Habs Hins];
    rewrite Hb; cbn [mbind outcome_bind]; rewrite Hsp.
  - destruct (update_pair_ok key value p t Hkp) as (p' & t1 & -> & Hep & Hm' & (Hlv & Hn & Hba) & He & Hr).
    injection Hep as Hk' Hv'. destruct (found_counts _ _ _ Hok Hp) as [He0 Hr0].
    destruct (replace_pair_ok t key i l1 p l2 rest p'
      (set_buckets (<[i:=l1 ++ p' :: l2]> (bucketArray t1)) t1)) as [Hok' Hent]; try done.
    + cbn. by rewrite Hba.
    + cbn [numOfElements set_buckets]. rewrite He, He0, live_count_cons, Hm'.
      destruct (pair_marked p); [apply u64_succ|done].
    + cbn [pendingRemoves set_buckets]. rewrite Hr, Hr0, marked_count_cons, Hm'.
      destruct (pair_marked p); [apply u32_pred|done].
    + destruct (found_entry t key p rest) as [Hf Hi]; try done.
      eexists true, _. split; [reflexivity|]. split_and!; [done..| | |].
      * unfold pairs. cbn [bucketArray set_buckets]. rewrite Hba.
        change (p' :: l2) with ([p'] ++ l2). rewrite (Hins [p']), Hp. cbn [app].
        rewrite !marked_count_cons, Hm'. destruct (pair_marked p); lia.
      * rewrite Hent, entries_of_cons, Hm', Hk', Hv'. apply Hi.
      * rewrite Hf, Hp, marked_count_cons. assert (0 <= marked_count rest) by apply zlen_nonneg.
        destruct (pair_marked p); [lia|done].
  - destruct (malloc_ok 32) eqn:Hmal; cbn [negb].
    2:{ exists false, t. split_and!; try done. by apply entries_of_none. }
    pose proof (insert_new_ok t key value i l Hok Hk Hl Hi Habs Hins) as Hnew. revert Hnew. cbv zeta.
    destruct (setKey _ _ _ _) as [p1 t1]. destruct (setValue _ _ _ _) as [p2 t2].
    set (t3 := set_counts _ _ _). intros (Hok3 & Hent & Hlv & Hm).
    match goal with |- context [if ?b then _ else _] => destruct (maybe_rehash b t3 Hok3) as (t' & -> & Hre) end.
    exists true, t'. split_and!; [done|apply Hre|..].
    + by rewrite (rehashed_level _ _ Hre).
    + by rewrite (rehashed_pairs _ _ Hre), Hm.
    + by rewrite (rehashed_entries _ _ Hre).
    + done.
Qed.

(** Outside an iteration the pair is disposed of. *)
Lemma remove_ok t key :
  table_ok t → key ≠ 0 → foreachRecursionLevel t = 0 → marked_count (pairs t) = 0 →
  ∃ t', HashTable_Remove hash keyObject valueObject t key =
      Ret (bool_decide (is_Some (entries t !! canon key)), t') ∧ table_ok t' ∧
    foreachRecursionLevel t' = 0 ∧ marked_count (pairs t') = 0 ∧
    entries t' = delete (canon key) (entries t).
Proof.
  intros Hok Hk Hlv Hm. unfold HashTable_Remove. replace (key =? 0) with false by lia.
  destruct (lookup_ok t key Hok)
    as [i l1 p l2 rest Hb Hsp Hl Hkp Hp Hrest Hins|i l Hb Hsp Hl Hi Habs Hins];
    rewrite Hb; cbn [mbind outcome_bind]; rewrite Hsp.
  2:{ exists t. rewrite (entries_of_none _ _ Habs : entries t !! _ = None).
      split_and!; try done. symmetry. by apply delete_id, entries_of_none. }
  rewrite Hlv. cbn [Z.eqb negb]. rewrite Hp, marked_count_cons in Hm.
  assert (0 <= marked_count rest) as Hm0 by apply zlen_nonneg.
  assert (pair_marked p = false) as Hpm by (destruct (pair_marked p); [lia|done]).
  rewrite Hpm in Hm. destruct (found_counts _ _ _ Hok Hp) as [He Hr]. rewrite Hpm in He, Hr.
  destruct (found_entry t key p rest) as [Hf _]; try done. rewrite Hpm in Hf. rewrite Hf, bool_decide_eq_true_2 by done.
  set (t1 := disposePair _ _ _ _). set (t2 := set_counts _ _ _).
  assert (numOfBuckets t1 = numOfBuckets t ∧ numOfElements t1 = numOfElements t ∧
    pendingRemoves t1 = pendingRemoves t ∧ bucketArray t1 = <[i := l1 ++ l2]> (bucketArray t) ∧
    foreachRecursionLevel t1 = foreachRecursionLevel t) as (H1 & H2 & H3 & H4 & H5).
  { unfold t1, disposePair, disposeValue, disposeKey.
    by destruct (fnObjectFree keyObject), (fnObjectFree valueObject). }
  clearbody t1. specialize (Hins []).
  destruct (ok_update t t2 i (l1 ++ [] ++ l2) rest) as [Hok2 Hent]; try done.
  - eapply found_placed; try done. intros q Hq. inversion Hq.
  - pose proof (ok_keys _ Hok) as Hnd. rewrite Hp in Hnd. by apply NoDup_cons in Hnd as [_ Hnd].
  - pose proof (ok_nonnull _ Hok) as H0. rewrite Hp in H0. by apply not_elem_of_cons in H0 as [_ H0].
  - unfold t2. cbn [numOfElements set_counts]. rewrite H2, He. apply u64_pred.
  - unfold t2. cbn [pendingRemoves set_counts]. by rewrite H3, Hr.
  - match goal with |- context [if ?b then _ else _] => destruct (maybe_rehash b t2 Hok2) as (t' & -> & Hre) end.
    exists t'. split_and!; [done|apply Hre|..].
    + rewrite (rehashed_level _ _ Hre). cbn. by rewrite H5.
    + rewrite (rehashed_pairs _ _ Hre). unfold pairs, t2. cbn. rewrite H4. cbn [app] in Hins. rewrite Hins. cbn. lia.
    + rewrite (rehashed_entries _ _ Hre), Hent. unfold entries.
      rewrite (entries_of_perm _ _ (ok_keys _ Hok) Hp), entries_of_cons, Hpm, <- Hkp.
      symmetry. apply delete_insert_id. by apply entries_of_none.
Qed.
End correct.
