(* ===== verification/HashTableMap.v ===== *)
(** The hash table as a finite map: a sequence of operations has the effect and
    the results of the operations on the map it stands for, the entries are
    visited once each by an iteration that may remove them, and where the code
    departs from this. *)

From S2P Require Import Prelude HashTable HashTableCorrect.
From stdpp Require Import prelude list numbers gmap.
From Stdlib Require Import ZArith Lia.

#[local] Open Scope Z_scope.

Section table.
Context {HM : Malloc} (hash : Z → Z) (keyObject valueObject : wObject) (canon vcanon : Z → Z)
  {HL : TableLaws hash keyObject valueObject canon vcanon}.
Implicit Types (t : wHashTable) (p : wKeyValuePair) (l : list wKeyValuePair) (key value : Z).

Abbreviation ok := (table_ok hash canon).
Abbreviation map_of := (entries canon vcanon).
Abbreviation marked t := (marked_count (pairs t)).

(** No iteration is under way. *)
Definition idle t : Prop := ok t ∧ foreachRecursionLevel t = 0 ∧ marked t = 0.

(** * Lookups *)

Lemma get_ok t key :
  ok t → key ≠ 0 →
  ∃ o, HashTable_Get hash keyObject t key = Ret o ∧
    map_of t !! canon key =
      match o with
      | Some p => if pair_marked p then None else Some (vcanon (pair_value p))
      | None => None
      end.
Proof.
  intros Hok Hk. unfold HashTable_Get. replace (key =? 0) with false by lia.
  destruct (lookup_ok hash keyObject valueObject canon vcanon t key Hok)
    as [i l1 p l2 rest Hb Hsp Hl Hkp Hp Hrest Hins|i l Hb Hsp Hl Hi Habs Hins];
    rewrite Hb; cbn [mbind outcome_bind]; rewrite Hsp; eexists; split; [done| |done|].
  - by eapply found_entry.
  - by apply entries_of_none.
Qed.
Lemma get_value_ok t key :
  ok t → key ≠ 0 →
  ∃ v, HashTable_GetItemValue hash keyObject t key = Ret v ∧
    vcanon v = default 0 (map_of t !! canon key).
Proof.
  intros Hok Hk. unfold HashTable_GetItemValue. replace (key =? 0) with false by lia.
  destruct (get_ok t key Hok Hk) as (o & -> & ->). cbn [mbind outcome_bind].
  destruct o as [p|]; [destruct (pair_marked p)|]; (eexists; split; [done|]); cbn; try done;
    apply law_value_null.
Qed.
Lemma contains_ok t key :
  ok t → key ≠ 0 →
  HashTable_Contains hash keyObject t key = Ret (bool_decide (is_Some (map_of t !! canon key))).
Proof.
  intros Hok Hk. unfold HashTable_Contains. replace (key =? 0) with false by lia.
  destruct (get_ok t key Hok Hk) as (o & -> & ->). cbn [mbind outcome_bind].
  destruct o as [p|]; [destruct (pair_marked p)|]; f_equal; cbn;
    (rewrite bool_decide_eq_true_2 || rewrite bool_decide_eq_false_2); eauto using is_Some_None.
Qed.

(** * Setting a value *)

Lemma set_value_ok t key value :
  ok t → key ≠ 0 →
  ∃ t', HashTable_SetItemValue hash keyObject valueObject t key value =
      Ret (bool_decide (is_Some (map_of t !! canon key)), t') ∧ ok t' ∧
    foreachRecursionLevel t' = foreachRecursionLevel t ∧ marked t' = marked t ∧
    map_of t' =
      match map_of t !! canon key with
      | Some _ => <[canon key := vcanon value]> (map_of t)
      | None => map_of t
      end.
Proof.
  intros Hok Hk. unfold HashTable_SetItemValue. replace (key =? 0) with false by lia.
  destruct (lookup_ok hash keyObject valueObject canon vcanon t key Hok)
    as [i l1 p l2 rest Hb Hsp Hl Hkp Hp Hrest Hins|i l Hb Hsp Hl Hi Habs Hins];
    rewrite Hb; cbn [mbind outcome_bind]; rewrite Hsp.
  2:{ exists t. rewrite (entries_of_none canon vcanon _ _ Habs : map_of t !! _ = None). split_and!; done. }
  destruct (found_entry hash canon vcanon t key p rest) as [Hf Hi]; try done. rewrite Hf.
  destruct (pair_marked p) eqn:Hpm; [by exists t; split_and!|].
  unfold setValue. cbv zeta. set (t1 := disposeValue _ _ _).
  assert (numOfBuckets t1 = numOfBuckets t ∧ numOfElements t1 = numOfElements t ∧
    pendingRemoves t1 = pendingRemoves t ∧ bucketArray t1 = bucketArray t ∧
    foreachRecursionLevel t1 = foreachRecursionLevel t) as (H1 & H2 & H3 & H4 & H5).
  { unfold t1, disposeValue. by destruct (fnObjectFree valueObject). }
  clearbody t1. set (p' := mkPair _ _ _). set (t2 := set_buckets _ _).
  destruct (found_counts hash canon t p rest Hok Hp) as [He Hr].
  destruct (replace_pair_ok hash keyObject valueObject canon vcanon t key i l1 p l2 rest p' t2) as [Hok' Hent]; try done.
  - unfold t2. cbn. by rewrite H4.
  - unfold t2. cbn [numOfElements set_buckets]. by rewrite H2, He, live_count_cons.
  - unfold t2. cbn [pendingRemoves set_buckets]. by rewrite H3, Hr, marked_count_cons.
  - exists t2. split_and!; [done..| |].
    + unfold t2, pairs. cbn [bucketArray set_buckets]. rewrite H4.
      change (p' :: l2) with ([p'] ++ l2). rewrite (Hins [p']). fold (pairs t). rewrite Hp. cbn [app].
      by rewrite !marked_count_cons.
    + rewrite Hent, entries_of_cons. cbn [p' pair_marked pair_key pair_value]. rewrite Hpm, <- Hkp, law_value_new.
      apply Hi.
Qed.

(** * Clearing *)

(** Everything but the pairs that were disposed of. *)
Definition same_table t t' : Prop :=
  numOfBuckets t' = numOfBuckets t ∧ numOfElements t' = numOfElements t ∧
  bucketArray t' = bucketArray t ∧ foreachRecursionLevel t' = foreachRecursionLevel t ∧
  pendingRemoves t' = pendingRemoves t.

Lemma disposePair_same p t : same_table t (disposePair keyObject valueObject p t).
Proof.
  unfold disposePair, disposeValue, disposeKey.
  by destruct (fnObjectFree keyObject), (fnObjectFree valueObject).
Qed.
Lemma same_table_trans t1 t2 t3 : same_table t1 t2 → same_table t2 t3 → same_table t1 t3.
Proof. unfold same_table. intuition congruence. Qed.

Lemma clear_bucket_ok fuel l t :
  foreachRecursionLevel t = 0 → (length l <= fuel)%nat →
  ∃ t', clear_bucket keyObject valueObject fuel l t = Ret t' ∧ same_table t t'.
Proof.
  revert fuel t. induction l as [|p l IH]; intros fuel t Hlv Hf; destruct fuel; cbn in Hf |- *; try lia;
    try by eexists.
  rewrite Hlv. cbn [Z.eqb negb]. pose proof (disposePair_same p t) as Hs.
  destruct (IH fuel (disposePair keyObject valueObject p t)) as (t' & -> & Hs'); [|lia|].
  - destruct Hs as (_ & _ & _ & -> & _). done.
  - exists t'. split; [done|]. by eapply same_table_trans.
Qed.
Lemma clear_buckets_ok fuel buckets t :
  foreachRecursionLevel t = 0 → (length (concat buckets) <= fuel)%nat →
  ∃ t', clear_buckets keyObject valueObject fuel buckets t = Ret t' ∧ same_table t t'.
Proof.
  revert t. induction buckets as [|l buckets IH]; intros t Hlv Hf; cbn; [by eexists|].
  cbn in Hf. rewrite length_app in Hf.
  destruct (clear_bucket_ok fuel l t) as (t1 & -> & Hs1); [done|lia|]. cbn [mbind outcome_bind].
  destruct (IH t1) as (t2 & -> & Hs2); [|lia|].
  - destruct Hs1 as (_ & _ & _ & -> & _). done.
  - exists t2. split; [done|]. by eapply same_table_trans.
Qed.

Lemma concat_replicate_nil {A} n : concat (replicate n []) = @nil A.
Proof. induction n; [done|by cbn]. Qed.

Lemma clear_ok fuel t :
  ok t → foreachRecursionLevel t = 0 → marked t = 0 → (length (pairs t) <= fuel)%nat →
  ∃ t', HashTable_Clear hash keyObject valueObject fuel t = Ret t' ∧ idle t' ∧ map_of t' = ∅.
Proof.
  intros Hok Hlv Hm Hf. unfold HashTable_Clear.
  destruct (clear_buckets_ok fuel (bucketArray t) t Hlv Hf) as (t1 & -> & H1 & H2 & H3 & H4 & H5).
  cbn [mbind outcome_bind]. set (t2 := set_counts _ _ _).
  assert (pairs t2 = []) as Hp by (unfold pairs, t2; cbn; apply concat_replicate_nil).
  assert (ok t2) as Hok2.
  { split; rewrite ?Hp; try done; unfold t2; cbn.
    - rewrite H1, (ok_size _ _ _ Hok). unfold zlen. by rewrite length_replicate.
    - rewrite H1. apply Hok.
    - intros i l p [-> _]%lookup_replicate Hin. inversion Hin.
    - constructor.
    - intros H. inversion H.
    - rewrite H5, (ok_pending _ _ _ Hok), Hm. done. }
  replace (foreachRecursionLevel t2) with 0 by (unfold t2; cbn; congruence). cbn [Z.eqb].
  destruct (rehash_ok hash canon t2 5 ltac:(lia) Hok2) as (t' & -> & Hre).
  assert (pairs t' = []) as Hp' by (apply Permutation_nil; rewrite <- Hp; symmetry; apply Hre).
  exists t'. split_and!; [done| |unfold entries; by rewrite Hp'].
  split_and!; [apply Hre| |by rewrite Hp'].
  rewrite (rehashed_level _ _ _ _ Hre). unfold t2. cbn. congruence.
Qed.

(** * Sequences of operations *)

Inductive table_op : Type :=
| OpInsert (key value : Z)
| OpRemove (key : Z)
| OpSetItemValue (key value : Z)
| OpGetItemValue (key : Z)
| OpContains (key : Z)
| OpCount
| OpClear.

(** A truth value or a number; the values are compared as the table's objects are. *)
Inductive op_result : Type := RBool (b : bool) | RNum (n : Z).

(** The table; it has fuel for one visit of each pair. *)
Definition run_op (op : table_op) t : outcome (op_result * wHashTable) :=
  match op with
  | OpInsert key value => '(b, t) ← HashTable_Insert hash keyObject valueObject t key value; Ret (RBool b, t)
  | OpRemove key => '(b, t) ← HashTable_Remove hash keyObject valueObject t key; Ret (RBool b, t)
  | OpSetItemValue key value =>
      '(b, t) ← HashTable_SetItemValue hash keyObject valueObject t key value; Ret (RBool b, t)
  | OpGetItemValue key => v ← HashTable_GetItemValue hash keyObject t key; Ret (RNum (vcanon v), t)
  | OpContains key => b ← HashTable_Contains hash keyObject t key; Ret (RBool b, t)
  | OpCount => Ret (RNum (HashTable_Count t), t)
  | OpClear => t ← HashTable_Clear hash keyObject valueObject (length (pairs t)) t; Ret (RBool true, t)
  end.
Fixpoint run_ops (ops : list table_op) t : outcome (list op_result * wHashTable) :=
  match ops with
  | [] => Ret ([], t)
  | op :: ops => '(r, t) ← run_op op t; '(rs, t) ← run_ops ops t; Ret (r :: rs, t)
  end.

(** The map: null keys are refused, and a new entry needs memory for its pair. *)
Definition map_op (op : table_op) (m : gmap Z Z) : op_result * gmap Z Z :=
  match op with
  | OpInsert key value =>
      if (key =? 0) || (value =? 0) then (RBool false, m)
      else
        match m !! canon key with
        | Some _ => (RBool true, <[canon key := vcanon value]> m)
        | None => if malloc_ok 32 then (RBool true, <[canon key := vcanon value]> m) else (RBool false, m)
        end
  | OpRemove key =>
      if key =? 0 then (RBool false, m)
      else (RBool (bool_decide (is_Some (m !! canon key))), delete (canon key) m)
  | OpSetItemValue key value =>
      if key =? 0 then (RBool false, m)
      else
        match m !! canon key with
        | Some _ => (RBool true, <[canon key := vcanon value]> m)
        | None => (RBool false, m)
        end
  | OpGetItemValue key => (RNum (if key =? 0 then 0 else default 0 (m !! canon key)), m)
  | OpContains key => (RBool (negb (key =? 0) && bool_decide (is_Some (m !! canon key))), m)
  | OpCount => (RNum (u64 (Z.of_nat (size m))), m)
  | OpClear => (RBool true, ∅)
  end.
Fixpoint map_ops (ops : list table_op) (m : gmap Z Z) : list op_result * gmap Z Z :=
  match ops with
  | [] => ([], m)
  | op :: ops => let '(r, m) := map_op op m in let '(rs, m) := map_ops ops m in (r :: rs, m)
  end.

Lemma op_refines op t :
  idle t → ∃ t', run_op op t = Ret ((map_op op (map_of t)).1, t') ∧ idle t' ∧
    map_of t' = (map_op op (map_of t)).2.
Proof.
  intros (Hok & Hlv & Hm). destruct op as [key value|key|key value|key|key| |]; cbn [run_op map_op].
  - destruct ((key =? 0) || (value =? 0)) eqn:Hz.
    { exists t. unfold HashTable_Insert. rewrite Hz. by split_and!. }
    destruct (insert_ok hash keyObject valueObject canon vcanon t key value) as (b & t' & -> & Hok' & Hlv' & Hm' & Hb);
      [done|lia..|]. cbn [mbind outcome_bind]. exists t'.
    assert (0 <= marked t') as H0 by apply zlen_nonneg.
    assert (idle t') as Hid by (split_and!; [done|lia..]). destruct b.
    + destruct Hb as [Hent Hmal]. destruct (map_of t !! canon key); [by split_and!|].
      rewrite Hmal by done. by split_and!.
    + destruct Hb as (-> & -> & ->). by split_and!.
  - destruct (Z.eqb_spec key 0) as [-> |]; [by exists t|].
    destruct (remove_ok hash keyObject valueObject canon vcanon t key) as (t' & -> & Hok' & Hlv' & Hm' & Hent); try done.
    exists t'. by split_and!.
  - destruct (Z.eqb_spec key 0) as [-> |]; [by exists t|].
    destruct (set_value_ok t key value) as (t' & -> & Hok' & Hlv' & Hm' & Hent); try done.
    exists t'. cbn [mbind outcome_bind]. rewrite Hent.
    assert (idle t') as Hid by (split_and!; [done|congruence..]).
    destruct (map_of t !! canon key);
      (rewrite bool_decide_eq_true_2 by done) || (rewrite bool_decide_eq_false_2 by apply is_Some_None);
      by split_and!.
  - destruct (Z.eqb_spec key 0) as [-> |].
    { exists t. cbn. rewrite (law_value_null (vcanon := vcanon)). by split_and!. }
    destruct (get_value_ok t key) as (v & -> & Hv); try done.
    exists t. cbn [mbind outcome_bind]. rewrite Hv. by split_and!.
  - destruct (Z.eqb_spec key 0) as [-> |]; [by exists t|].
    rewrite (contains_ok t key) by done. exists t. by split_and!.
  - exists t. split_and!; try done. unfold HashTable_Count. cbn [fst].
    rewrite (ok_elements _ _ _ Hok). unfold entries. by rewrite entries_of_size by apply Hok.
  - destruct (clear_ok (length (pairs t)) t) as (t' & -> & Hid & Hent); try done. by exists t'.
Qed.

Lemma ops_refine ops t :
  idle t → ∃ t', run_ops ops t = Ret ((map_ops ops (map_of t)).1, t') ∧ idle t' ∧
    map_of t' = (map_ops ops (map_of t)).2.
Proof.
  revert t. induction ops as [|op ops IH]; intros t Hid; [by exists t|]. cbn [run_ops map_ops].
  destruct (op_refines op t Hid) as (t1 & -> & Hid1 & Hm1). cbn [mbind outcome_bind].
  destruct (IH t1 Hid1) as (t2 & -> & Hid2 & Hm2). cbn [mbind outcome_bind]. exists t2.
  rewrite Hm1 in *. destruct (map_op op (map_of t)) as [r m]. cbn [fst snd] in *.
  by destruct (map_ops ops m) as [rs m'].
Qed.

Lemma new_idle t : HashTable_New = Ret (Some t) → idle t ∧ map_of t = ∅.
Proof.
  unfold HashTable_New. destruct (negb _); [done|]. destruct (negb _); [done|]. intros [= <-].
  assert (pairs (mkTable 64 0 (to_float 3) (to_float 0) (to_float 15) (replicate 64 []) 0 0 []) = []) as Hp by done.
  split; [|done]. split_and!; [|done..]. split; try done.
  - intros i l p [-> _]%(lookup_replicate 64) Hin. inversion Hin.
  - constructor.
  - intros H. inversion H.
Qed.

(** * Iteration *)

(** The bucket of a pair is that of its key. *)
Lemma bucket_of_pair t i l p :
  ok t → bucketArray t !! i = Some l → p ∈ l → bucket_of hash t (pair_key p) = Ret (i, l).
Proof.
  intros Hok Hl Hp. unfold bucket_of, bucket_index.
  pose proof (ok_pos _ _ _ Hok). replace (numOfBuckets t =? 0) with false by lia.
  cbn [mbind outcome_bind]. by rewrite (ok_placed _ _ _ Hok i l p Hl Hp), Hl.
Qed.
Lemma split_pair_middle key l1 p l2 :
  canon key ∉ pair_keys canon l1 → canon key = canon (pair_key p) →
  split_pair keyObject key (l1 ++ p :: l2) = Some (l1, p, l2).
Proof.
  intros Hl1 Hk. induction l1 as [|q l1 IH]; cbn; unfold HashTable_Equals; rewrite law_equals.
  - by rewrite bool_decide_eq_true_2.
  - apply not_elem_of_cons in Hl1 as [Hq Hl1]. rewrite bool_decide_eq_false_2 by done. by rewrite IH.
Qed.

(** During an iteration a pair is only marked. *)
Lemma mark_ok t i l1 p l2 :
  ok t → foreachRecursionLevel t ≠ 0 → bucketArray t !! i = Some (l1 ++ p :: l2) → pair_marked p = false →
  ∃ t', HashTable_Remove hash keyObject valueObject t (pair_key p) = Ret (true, t') ∧ ok t' ∧
    numOfBuckets t' = numOfBuckets t ∧ foreachRecursionLevel t' = foreachRecursionLevel t ∧
    bucketArray t' = <[i := l1 ++ mkPair (pair_key p) (pair_value p) true :: l2]> (bucketArray t).
Proof.
  intros Hok Hlv Hl Hpm. destruct (concat_insert _ _ _ Hl) as (rest & Hp & Hins & _).
  assert (pairs t ≡ₚ p :: l1 ++ l2 ++ rest) as Hps.
  { unfold pairs. rewrite Hp, <- app_assoc. cbn [app]. by rewrite <- Permutation_middle. }
  pose proof (ok_keys _ _ _ Hok) as Hnd. rewrite Hps in Hnd. cbn in Hnd. apply NoDup_cons in Hnd as [Hnd _].
  assert (pair_key p ≠ 0) as Hk.
  { intros Hk. apply (ok_nonnull _ _ _ Hok). rewrite Hps, <- Hk. apply elem_of_cons. by left. }
  unfold HashTable_Remove. replace (pair_key p =? 0) with false by lia.
  rewrite (bucket_of_pair t i _ p Hok Hl) by set_solver. cbn [mbind outcome_bind].
  assert (canon (pair_key p) ∉ pair_keys canon l1) as Hl1.
  { unfold pair_keys in Hnd. rewrite map_app in Hnd. by apply not_elem_of_app in Hnd as [? _]. }
  rewrite split_pair_middle by done.
  replace (foreachRecursionLevel t =? 0) with false by lia. cbn [negb]. set (p' := mkPair _ _ _).
  eexists. split; [reflexivity|]. destruct (found_counts hash canon t p _ Hok Hps) as [He Hr]. rewrite Hpm in He, Hr.
  split; [|done].
  eapply (replace_pair_ok hash keyObject valueObject canon vcanon t (pair_key p) i l1 p l2 (l1 ++ l2 ++ rest) p'); try done.
  - intros l'. rewrite Hins, <- !app_assoc. apply Permutation_app_swap_app.
  - cbn [numOfElements set_counts set_buckets]. rewrite He, live_count_cons. apply u64_pred.
  - cbn [pendingRemoves set_counts set_buckets]. rewrite Hr, marked_count_cons. apply u32_succ.
Qed.

(** A callback that removes the entries that satisfy [P] and records its visits. *)
Section purge.
Context (P : Z → Z → bool).

Definition purge (key value : Z) t (visited : list (Z * Z)) : outcome (bool * wHashTable * list (Z * Z)) :=
  let visited := visited ++ [(canon key, vcanon value)] in
  if P (canon key) (vcanon value) then
    '(_, t) ← HashTable_Remove hash keyObject valueObject t key; Ret (true, t, visited)
  else Ret (true, t, visited).

(** A pair once it was visited. *)
Definition purged p : wKeyValuePair :=
  if pair_marked p then p
  else mkPair (pair_key p) (pair_value p) (P (canon (pair_key p)) (vcanon (pair_value p))).
Definition visits l : list (Z * Z) := map (entry canon vcanon) (filter (λ p, pair_marked p = false) l).

(** The iteration so far: the buckets hold these pairs. *)
Definition iterated t t' (buckets : list (list wKeyValuePair)) : Prop :=
  ok t' ∧ numOfBuckets t' = numOfBuckets t ∧ foreachRecursionLevel t' = foreachRecursionLevel t ∧
  bucketArray t' = buckets.

Lemma iterated_trans t t' t'' buckets buckets' :
  iterated t t' buckets → iterated t' t'' buckets' → iterated t t'' buckets'.
Proof. unfold iterated. intuition congruence. Qed.

Lemma foreach_bucket_ok i l1 l2 t visited :
  ok t → foreachRecursionLevel t ≠ 0 → bucketArray t !! i = Some (l1 ++ l2) →
  ∃ t', foreach_bucket purge i (length l2) t visited = Ret (true, t', visited ++ visits l2) ∧
    iterated t t' (<[i := l1 ++ map purged l2]> (bucketArray t)).
Proof.
  revert l1 t visited. induction l2 as [|p l2 IH]; intros l1 t visited Hok Hlv Hl.
  { exists t. cbn. rewrite app_nil_r. split_and!; try done. by rewrite list_insert_id. }
  cbn [length foreach_bucket]. rewrite Hl, length_app. cbn [length].
  replace (length l1 + S (length l2) - S (length l2))%nat with (length l1) by lia.
  rewrite list_lookup_middle by done.
  assert (∃ t1, (if pair_marked p then Ret (true, t, visited) else purge (pair_key p) (pair_value p) t visited) =
      Ret (true, t1, visited ++ visits [p]) ∧ iterated t t1 (<[i := (l1 ++ [purged p]) ++ l2]> (bucketArray t)))
    as (t1 & -> & Hi1).
  { rewrite <- app_assoc. cbn [app]. unfold visits. rewrite filter_cons, filter_nil.
    destruct (pair_marked p) eqn:Hpm.
    - rewrite decide_False by done. exists t. cbn [map]. rewrite app_nil_r. split; [done|].
      split_and!; try done. unfold purged. by rewrite Hpm, list_insert_id.
    - rewrite decide_True by done. unfold purge, purged. rewrite Hpm. cbv zeta.
      destruct (P _ _).
      + destruct (mark_ok t i l1 p l2) as (t1 & -> & ? & ? & ? & ?); try done.
        exists t1. split; [done|]. by split_and!.
      + exists t. split; [done|]. split_and!; try done.
        rewrite list_insert_id; [done|]. rewrite Hl. by destruct p; cbn in Hpm; subst. }
  cbn [mbind outcome_bind negb].
  destruct Hi1 as (Hok1 & Hn1 & Hlv1 & Hb1).
  destruct (IH (l1 ++ [purged p]) t1 (visited ++ visits [p])) as (t' & -> & Hi2); [done|congruence|..].
  { rewrite Hb1, list_lookup_insert_eq; [done|]. by eapply lookup_lt_Some. }
  exists t'. split.
  - rewrite <- app_assoc. repeat f_equal. unfold visits. rewrite <- map_app, <- filter_app. done.
  - destruct Hi2 as (? & ? & ? & Hb2). split_and!; try done; try congruence.
    rewrite Hb2, Hb1, list_insert_insert_eq, <- app_assoc. done.
Qed.

Lemma foreach_buckets_ok n i t visited :
  ok t → foreachRecursionLevel t ≠ 0 → (i + n = length (bucketArray t))%nat →
  ∃ t', foreach_buckets purge n i t visited = Ret (true, t', visited ++ visits (concat (drop i (bucketArray t)))) ∧
    iterated t t' (take i (bucketArray t) ++ map (map purged) (drop i (bucketArray t))).
Proof.
  revert i t visited. induction n as [|n IH]; intros i t visited Hok Hlv Hn; cbn [foreach_buckets].
  { rewrite drop_ge, take_ge by lia. exists t. cbn. rewrite !app_nil_r. by split_and!. }
  destruct (lookup_lt_is_Some_2 (bucketArray t) i ltac:(lia)) as [l Hl]. rewrite Hl.
  destruct (foreach_bucket_ok i [] l t visited Hok Hlv Hl) as (t1 & -> & Hi1).
  cbn [mbind outcome_bind negb]. destruct Hi1 as (Hok1 & Hn1 & Hlv1 & Hb1). cbn [app] in Hb1.
  destruct (IH (S i) t1 (visited ++ visits l)) as (t' & -> & Hi2); [done|congruence|rewrite Hb1, length_insert; lia|].
  rewrite Hb1, drop_insert_lt in * by lia.
  rewrite (drop_S _ _ _ Hl). exists t'. split.
  - cbn [concat]. unfold visits. rewrite filter_app, map_app, <- app_assoc. done.
  - destruct Hi2 as (? & ? & ? & Hb2). split_and!; try done; try congruence.
    rewrite Hb2. cbn [map].
    rewrite (take_S_r _ _ (map purged l)) by (apply list_lookup_insert_eq; lia).
    rewrite take_insert_ge, <- app_assoc by lia. done.
Qed.

Lemma entries_purged l :
  NoDup (pair_keys canon l) →
  entries_of canon vcanon (map purged l) =
    filter (λ '(k, v), P k v = false) (entries_of canon vcanon l).
Proof.
  induction l as [|p l IH]; [intros _; symmetry; apply map_filter_empty|].
  intros [Hp Hl]%NoDup_cons. cbn [map]. rewrite !entries_of_cons, (IH Hl). unfold purged.
  destruct (pair_marked p) eqn:Hpm; [by rewrite Hpm|]. cbn [pair_marked pair_key pair_value].
  assert (entries_of canon vcanon l !! canon (pair_key p) = None) as Hn by by apply entries_of_none.
  destruct (P _ _) eqn:HP.
  - rewrite map_filter_insert_False by congruence. by rewrite delete_id.
  - by rewrite map_filter_insert_True.
Qed.

Lemma marked_purged l : marked_count l = 0 → marked_count (map purged l) <= live_count l.
Proof.
  induction l as [|p l IH]; [done|]. cbn [map]. rewrite !marked_count_cons, live_count_cons.
  assert (0 <= marked_count l) by apply zlen_nonneg. unfold purged at 1.
  destruct (pair_marked p) eqn:Hpm; [lia|]. cbn [pair_marked]. intros Hm.
  specialize (IH ltac:(lia)). destruct (P _ _); lia.
Qed.
End purge.

(** Once the outermost iteration is over the marked pairs go. *)
Lemma cleanup_pairs t : pairs (cleanup keyObject valueObject t) = filter (λ p, pair_marked p = false) (pairs t).
Proof.
  unfold cleanup, pairs. cbn [bucketArray set_counts set_buckets].
  assert (∀ l t, bucketArray (fold_left (λ t p, disposePair keyObject valueObject p t) l t) = bucketArray t) as ->.
  { clear. induction l as [|p l IH]; intros t; [done|]. cbn. rewrite IH.
    by destruct (disposePair_same p t) as (_ & _ & -> & _). }
  induction (bucketArray t) as [|l bs IH]; [done|]. cbn. by rewrite filter_app, IH.
Qed.
Lemma cleanup_fields t :
  let t' := cleanup keyObject valueObject t in
  numOfBuckets t' = numOfBuckets t ∧ numOfElements t' = numOfElements t ∧
  foreachRecursionLevel t' = foreachRecursionLevel t ∧ pendingRemoves t' = 0 ∧
  bucketArray t' = map (filter (λ p, pair_marked p = false)) (bucketArray t).
Proof.
  unfold cleanup. cbv zeta. set (l := filter _ _). set (t1 := fold_left _ _ _).
  assert (same_table t t1) as (H1 & H2 & H3 & H4 & _).
  { unfold t1. clearbody l. clear t1. revert t.
    induction l as [|p l IH]; intros t; [done|]. cbn. eapply same_table_trans; [apply (disposePair_same p)|apply IH]. }
  cbn. by rewrite H3.
Qed.
Lemma live_pairs_idem l :
  filter (λ p, pair_marked p = false) (filter (λ p, pair_marked p = false) l) = filter (λ p, pair_marked p = false) l.
Proof. rewrite list_filter_filter. apply list_filter_iff. tauto. Qed.

Lemma cleanup_ok t :
  ok t → foreachRecursionLevel t = 0 →
  idle (cleanup keyObject valueObject t) ∧ map_of (cleanup keyObject valueObject t) = map_of t.
Proof.
  intros Hok Hlv. pose proof (cleanup_pairs t) as Hp. pose proof (cleanup_fields t) as Hf. cbv zeta in Hf.
  set (t' := cleanup _ _ t) in *. destruct Hf as (H1 & H2 & H3 & H4 & H5). clearbody t'.
  assert (marked t' = 0) as Hm.
  { rewrite Hp. unfold marked_count. destruct (filter _ (filter _ _)) as [|p l] eqn:He; [done|].
    assert (p ∈ p :: l) as Hin by (apply elem_of_cons; by left).
    rewrite <- He, !list_elem_of_filter in Hin. destruct Hin as (? & ? & _). congruence. }
  split.
  - split_and!; [|congruence|done]. split.
    + rewrite H1, (ok_size _ _ _ Hok), H5. unfold zlen. by rewrite length_map.
    + rewrite H1. apply Hok.
    + rewrite H1, H5. intros i l p Hl Hpl. apply list_lookup_fmap_Some in Hl as (m & -> & Hm').
      apply list_elem_of_filter in Hpl as [_ Hpl]. eapply ok_placed; eauto.
    + rewrite Hp. pose proof (live_keys_nodup canon vcanon _ (ok_keys _ _ _ Hok)) as Hnd.
      by rewrite <- list_fmap_compose in Hnd.
    + rewrite Hp. intros (p & Hk & [_ Hin]%list_elem_of_filter)%list_elem_of_fmap.
      apply (ok_nonnull _ _ _ Hok), list_elem_of_fmap. by exists p.
    + rewrite H2, (ok_elements _ _ _ Hok), Hp. unfold live_count. by rewrite live_pairs_idem.
    + by rewrite H4, Hm.
  - unfold entries, entries_of. by rewrite Hp, live_pairs_idem.
Qed.

Lemma level_ok n t : ok t → ok (set_level n t).
Proof. intros []. by split. Qed.

Lemma live_all l : marked_count l = 0 → live_count l = zlen l.
Proof.
  induction l as [|p l IH]; [done|]. rewrite marked_count_cons, live_count_cons, zlen_cons.
  assert (0 <= marked_count l) by apply zlen_nonneg. destruct (pair_marked p); [lia|].
  intros Hm. rewrite IH; lia.
Qed.

Lemma foreach_purges P t :
  idle t → Z.of_nat (size (map_of t)) < 2 ^ 32 →
  ∃ t' visited, HashTable_Foreach keyObject valueObject (purge P) t [] = Ret (true, t', visited) ∧
    visited ≡ₚ map_to_list (map_of t) ∧ idle t' ∧
    map_of t' = filter (λ '(k, v), P k v = false) (map_of t).
Proof.
  intros (Hok & Hlv & Hm) Hsize. unfold HashTable_Foreach. rewrite Hlv. change (u32 (0 + 1)) with 1.
  pose proof (level_ok 1 t Hok) as Hok1. cbn [numOfBuckets set_level].
  destruct (foreach_buckets_ok P (Z.to_nat (numOfBuckets t)) 0 (set_level 1 t) [])
    as (t1 & -> & Hok2 & Hn2 & Hlv2 & Hb2); [done..|cbn; rewrite (ok_size _ _ _ Hok); unfold zlen; lia|].
  cbn [mbind outcome_bind negb]. rewrite Hlv2. cbn [foreachRecursionLevel set_level].
  change (u32 (1 - 1)) with 0. cbn [Z.eqb andb pendingRemoves set_level].
  rewrite drop_0, take_0 in *. cbn [app] in *. cbn [bucketArray set_level] in *. fold (pairs t).
  assert (pairs t1 = map (purged P) (pairs t)) as Hp1 by (unfold pairs; by rewrite Hb2, concat_map).
  assert (map_of t1 = filter (λ '(k, v), P k v = false) (map_of t)) as Hent
    by (unfold entries; rewrite Hp1; apply entries_purged, Hok).
  assert (visits (pairs t) ≡ₚ map_to_list (map_of t)) as Hvis.
  { symmetry. apply map_to_list_to_map. apply live_keys_nodup, Hok. }
  pose proof (level_ok 0 t1 Hok2) as Hok3.
  destruct (Z.eqb_spec (pendingRemoves t1) 0) as [Hz|]; cbn [negb].
  - exists (set_level 0 t1), (visits (pairs t)). split_and!; try done. split_and!; try done.
    change (marked t1 = 0). rewrite (ok_pending _ _ _ Hok2) in Hz.
    unfold entries in Hsize. rewrite entries_of_size in Hsize by apply Hok.
    pose proof (marked_purged P _ Hm) as Hle. rewrite <- Hp1 in Hle.
    assert (0 <= marked t1) by apply zlen_nonneg.
    unfold u32 in Hz. rewrite Z.mod_small in Hz; lia.
  - destruct (cleanup_ok (set_level 0 t1) Hok3 eq_refl) as [Hid Hm'].
    eexists _, _. split; [done|]. split_and!; try done. rewrite Hm'. done.
Qed.

(** [HashTable_GetKeys] *)
Lemma get_keys_ok t :
  ok t → Z.of_nat (size (map_of t)) < 2 ^ 64 →
  (size (map_of t) ≠ 0%nat → malloc_ok (8 * Z.of_nat (size (map_of t))) = true) →
  ∃ keys, HashTable_GetKeys t = Ret (Some keys) ∧ map canon keys ≡ₚ (map_to_list (map_of t)).*1.
Proof.
  intros Hok Hsize Hmal. unfold HashTable_GetKeys. rewrite (ok_elements _ _ _ Hok).
  assert (Z.of_nat (size (map_of t)) = live_count (pairs t)) as Hs by (apply entries_of_size; apply Hok).
  replace (u64 (live_count (pairs t))) with (live_count (pairs t)) by (unfold u64; rewrite Z.mod_small; lia).
  set (keys := map pair_key (filter _ _)).
  assert (zlen keys = live_count (pairs t)) as Hl by (unfold zlen, keys; by rewrite length_map).
  assert (map canon keys ≡ₚ (map_to_list (map_of t)).*1) as Hk.
  { unfold keys. rewrite map_map. unfold entries, entries_of.
    rewrite (map_to_list_to_map _ (live_keys_nodup canon vcanon _ (ok_keys _ _ _ Hok))).
    unfold entry. by rewrite <- list_fmap_compose. }
  destruct (Z.ltb_spec (live_count (pairs t)) 1).
  - exists []. split; [done|]. rewrite <- Hk. destruct keys; [done|]. rewrite zlen_cons in Hl.
    pose proof (zlen_nonneg keys). lia.
  - rewrite <- Hs, Hmal by lia. cbn [negb]. rewrite Hl, Hs, Z.leb_refl, Z.sub_diag. cbn.
    exists keys. by rewrite app_nil_r.
Qed.

(** * Where the code departs from the map *)

(** During an iteration a removal marks the pair, marked or not. *)
Lemma remove_marks t key i l1 p l2 :
  key ≠ 0 → foreachRecursionLevel t ≠ 0 → bucket_of hash t key = Ret (i, l1 ++ p :: l2) →
  split_pair keyObject key (l1 ++ p :: l2) = Some (l1, p, l2) →
  HashTable_Remove hash keyObject valueObject t key =
    Ret (true, set_counts (u64 (numOfElements t - 1)) (u32 (pendingRemoves t + 1))
      (set_buckets (<[i := l1 ++ mkPair (pair_key p) (pair_value p) true :: l2]> (bucketArray t)) t)).
Proof.
  intros Hk Hlv Hb Hsp. unfold HashTable_Remove. replace (key =? 0) with false by lia.
  rewrite Hb. cbn [mbind outcome_bind]. rewrite Hsp. replace (foreachRecursionLevel t =? 0) with false by lia. done.
Qed.
Lemma split_pair_replace key l1 p p' l2 :
  pair_key p' = pair_key p → split_pair keyObject key (l1 ++ p :: l2) = Some (l1, p, l2) →
  split_pair keyObject key (l1 ++ p' :: l2) = Some (l1, p', l2).
Proof.
  intros Hp. induction l1 as [|q l1 IH]; cbn; unfold HashTable_Equals in *.
  - rewrite Hp. destruct (fnObjectEquals _ _ _); [done|]. by destruct (split_pair _ _ l2) as [[[]]|].
  - destruct (fnObjectEquals keyObject key (pair_key q)); [done|].
    destruct (split_pair keyObject key (l1 ++ p :: l2)) as [[[a b] c]|] eqn:Hs; [|done].
    intros [= -> -> ->]. by rewrite IH.
Qed.
Lemma bucket_of_set t key i l l' e r :
  bucket_of hash t key = Ret (i, l) → bucketArray t !! i = Some l →
  bucket_of hash (set_counts e r (set_buckets (<[i := l']> (bucketArray t)) t)) key = Ret (i, l').
Proof.
  intros Hb Hl. unfold bucket_of, bucket_index in *. cbn [numOfBuckets set_counts set_buckets bucketArray] in *.
  destruct (numOfBuckets t =? 0); [done|]. cbn [mbind outcome_bind] in *.
  destruct (bucketArray t !! _) as [m|] eqn:Hm in Hb; [|done]. injection Hb as -> ->.
  rewrite list_lookup_insert_eq; [done|]. by eapply lookup_lt_Some.
Qed.

Lemma remove_twice t key :
  ok t → foreachRecursionLevel t ≠ 0 → key ≠ 0 → is_Some (map_of t !! canon key) →
  ∃ t1 t2, HashTable_Remove hash keyObject valueObject t key = Ret (true, t1) ∧
    HashTable_Remove hash keyObject valueObject t1 key = Ret (true, t2) ∧
    map_of t1 = delete (canon key) (map_of t) ∧ map_of t2 = map_of t1 ∧
    HashTable_Count t2 = u64 (Z.of_nat (size (map_of t)) - 2).
Proof.
  intros Hok Hlv Hk [v Hin].
  destruct (lookup_ok hash keyObject valueObject canon vcanon t key Hok)
    as [i l1 p l2 rest Hb Hsp Hl Hkp Hp Hrest Hins|i l Hb Hsp Hl Hi Habs Hins].
  2:{ unfold entries in Hin. by rewrite entries_of_none in Hin. }
  destruct (found_entry hash canon vcanon t key p rest) as [Hf _]; try done.
  destruct (pair_marked p) eqn:Hpm; [congruence|].
  set (p' := mkPair (pair_key p) (pair_value p) true).
  eexists _, _. split; [by apply (remove_marks t key i l1 p l2)|]. fold p'. set (t1 := set_counts _ _ _).
  split; [apply (remove_marks t1 key i l1 p' l2); [done..|by eapply bucket_of_set|by apply (split_pair_replace key l1 p p' l2)]|].
  change (mkPair (pair_key p') (pair_value p') true) with p'.
  destruct (found_counts hash canon t p rest Hok Hp) as [He Hr]. rewrite Hpm in He, Hr.
  destruct (replace_pair_ok hash keyObject valueObject canon vcanon t key i l1 p l2 rest p' t1) as [Hok1 Hent]; try done.
  { unfold t1. cbn [numOfElements set_counts set_buckets]. rewrite He, live_count_cons. apply u64_pred. }
  { unfold t1. cbn [pendingRemoves set_counts set_buckets]. rewrite Hr, marked_count_cons. apply u32_succ. }
  rewrite entries_of_cons in Hent. cbn [pair_marked p'] in Hent.
  assert (map_of t = <[canon key := vcanon (pair_value p)]> (entries_of canon vcanon rest)) as Hm.
  { unfold entries. by rewrite (entries_of_perm _ _ _ _ (ok_keys _ _ _ Hok) Hp), entries_of_cons, Hpm, <- Hkp. }
  assert (entries_of canon vcanon rest !! canon key = None) as Hn by by apply entries_of_none.
  split_and!.
  - rewrite Hent, Hm. by rewrite delete_insert_id.
  - unfold entries, pairs, t1. cbn [bucketArray set_counts set_buckets]. by rewrite list_insert_insert_eq.
  - unfold HashTable_Count. cbn [numOfElements set_counts set_buckets t1]. unfold t1.
    cbn [numOfElements set_counts set_buckets]. rewrite He.
    unfold entries. rewrite entries_of_size by apply Hok.
    rewrite Hp, live_count_cons, Hpm. rewrite u64_pred. unfold u64. rewrite Zminus_mod_idemp_l. f_equal. lia.
Qed.

(** A callback that stops at the first entry. *)
Definition stop (key value : Z) t (st : unit) : outcome (bool * wHashTable * unit) := Ret (false, t, st).

Lemma stop_bucket i l1 l2 t st :
  bucketArray t !! i = Some (l1 ++ l2) →
  foreach_bucket stop i (length l2) t st = Ret (forallb pair_marked l2, t, st).
Proof.
  revert l1. induction l2 as [|p l2 IH]; intros l1 Hl; [done|].
  cbn [length foreach_bucket forallb]. rewrite Hl, length_app. cbn [length].
  replace (length l1 + S (length l2) - S (length l2))%nat with (length l1) by lia.
  rewrite list_lookup_middle by done. destruct (pair_marked p); [|done]. cbn.
  apply (IH (l1 ++ [p])). by rewrite <- app_assoc.
Qed.
Lemma stop_buckets n i t st :
  (i + n = length (bucketArray t))%nat →
  foreach_buckets stop n i t st = Ret (forallb pair_marked (concat (drop i (bucketArray t))), t, st).
Proof.
  revert i. induction n as [|n IH]; intros i Hn; cbn [foreach_buckets].
  { by rewrite drop_ge by lia. }
  destruct (lookup_lt_is_Some_2 (bucketArray t) i ltac:(lia)) as [l Hl]. rewrite Hl.
  rewrite (stop_bucket i [] l t st Hl). cbn [mbind outcome_bind].
  rewrite (drop_S _ _ _ Hl). cbn [concat]. rewrite forallb_app.
  destruct (forallb pair_marked l); [|done]. cbn [negb andb]. apply IH. lia.
Qed.

Lemma foreach_stopped t :
  idle t → map_of t ≠ ∅ → HashTable_Foreach keyObject valueObject stop t () = Ret (false, set_level 1 t, ()).
Proof.
  intros (Hok & Hlv & Hm) Hne. unfold HashTable_Foreach. rewrite Hlv. change (u32 (0 + 1)) with 1.
  rewrite stop_buckets by (cbn; rewrite (ok_size _ _ _ Hok); unfold zlen; lia).
  cbn [bucketArray set_level]. rewrite drop_0. fold (pairs t).
  destruct (forallb pair_marked (pairs t)) eqn:Hf; [|done]. contradict Hne. unfold entries.
  revert Hf. generalize (pairs t). clear. induction l as [|p l IH]; [done|]. cbn [forallb].
  intros [Hp Hl]%andb_true_iff. by rewrite entries_of_cons, Hp, IH.
Qed.

Lemma clear_stuck fuel t :
  foreachRecursionLevel t ≠ 0 → pairs t ≠ [] → HashTable_Clear hash keyObject valueObject fuel t = Abort.
Proof.
  intros Hlv Hne. unfold HashTable_Clear, pairs in *.
  assert (∀ p l t, foreachRecursionLevel t ≠ 0 → clear_bucket keyObject valueObject fuel (p :: l) t = Abort) as Hb.
  { clear. induction fuel as [|fuel IH]; intros p l t Hlv; cbn; [done|].
    replace (foreachRecursionLevel t =? 0) with false by lia. cbn [negb]. by apply IH. }
  assert (clear_buckets keyObject valueObject fuel (bucketArray t) t = Abort) as ->; [|done].
  revert Hne. induction (bucketArray t) as [|l bs IH]; [done|]. cbn [concat clear_buckets].
  destruct l as [|p l]; [|intros _; by rewrite Hb]. cbn [app]. intros Hne.
  destruct fuel; cbn; by apply IH.
Qed.

Lemma contains_value_keys t value :
  HashTable_ContainsValue keyObject t value =
    negb (value =? 0) && bool_decide (is_Some (map_of t !! canon value)).
Proof.
  unfold HashTable_ContainsValue. destruct (value =? 0); [done|]. cbn [negb andb].
  unfold entries. fold (pairs t). induction (pairs t) as [|p l IH]; [done|]. cbn [existsb].
  rewrite IH, entries_of_cons. unfold HashTable_Equals. rewrite law_equals.
  destruct (pair_marked p); [done|]. cbn [negb andb].
  destruct (decide (canon value = canon (pair_key p))) as [He|Hne].
  - rewrite bool_decide_eq_true_2 by done. cbn [orb]. rewrite He, lookup_insert_eq. by rewrite bool_decide_eq_true_2 by done.
  - rewrite bool_decide_eq_false_2 by done. by rewrite lookup_insert_ne by congruence.
Qed.
End table.

(** * Properties *)

(** The callbacks of the examples use a table of pointers whose allocations succeed. *)
Definition example_table : wHashTable :=
  mkTable 64 2 (to_float 3) (to_float 0) (to_float 15)
    (<[1%nat := [mkPair 16 7 false]]> (<[2%nat := [mkPair 32 9 false]]> (replicate 64 []))) 0 0 [].

Lemma example_idle : idle HashTable_PointerHash id example_table.
Proof.
  split_and!; [|done..]. split; try done.
  - intros i l p Hl Hp. destruct i as [|[|[|i]]]; [injection Hl as <-..|].
    + inversion Hp.
    + apply list_elem_of_singleton in Hp as ->. done.
    + apply list_elem_of_singleton in Hp as ->. done.
    + change (replicate 61 [] !! i = Some l) in Hl. apply lookup_replicate in Hl as [-> _]. inversion Hp.
  - change (NoDup [16; 32]). apply NoDup_cons. split; [|apply NoDup_singleton].
    by rewrite list_elem_of_singleton.
  - change (0 ∉ [16; 32]). rewrite !not_elem_of_cons. split_and!; [done..|apply not_elem_of_nil].
Qed.

(** C27. A hash table implements a finite map: from a new table, any sequence of
    insertions, removals, assignments, lookups, membership tests, counts and
    clearings runs to its end, with whatever rehashing it triggers, gives the results of
    the same operations on a map that is empty at first, and leaves a table
    that represents the resulting map. *)
Theorem hashtable_refines_map `{HM : Malloc} hash keyObject valueObject canon vcanon
    (HL : TableLaws hash keyObject valueObject canon vcanon) t ops :
  HashTable_New = Ret (Some t) →
  ∃ t', run_ops hash keyObject valueObject vcanon ops t = Ret ((map_ops canon vcanon ops ∅).1, t') ∧
    table_ok hash canon t' ∧ entries canon vcanon t' = (map_ops canon vcanon ops ∅).2.
Proof.
  intros Hnew. destruct (new_idle hash canon vcanon t Hnew) as [Hid Hm].
  destruct (ops_refine hash keyObject valueObject canon vcanon ops t Hid) as (t' & Hrun & [Hok _] & Hent).
  rewrite Hm in *. eauto.
Qed.
Lemma hashtable_refines_map_witness :
  let HM : Malloc := λ _, true in
  ∃ t t', HashTable_New = Ret (Some t) ∧
    run_ops HashTable_PointerHash pointerObject pointerObject id
      [OpInsert 16 7; OpInsert 32 8; OpInsert 16 9; OpCount; OpRemove 32; OpContains 32; OpGetItemValue 16] t =
    Ret ([RBool true; RBool true; RBool true; RNum 2; RBool true; RBool false; RNum 9], t').
Proof.
  intros HM. eexists.
  destruct (hashtable_refines_map (HM := HM) HashTable_PointerHash pointerObject pointerObject id id pointer_laws
    (mkTable 64 0 (to_float 3) (to_float 0) (to_float 15) (replicate 64 []) 0 0 [])
    [OpInsert 16 7; OpInsert 32 8; OpInsert 16 9; OpCount; OpRemove 32; OpContains 32; OpGetItemValue 16]
    eq_refl) as (t' & Hrun & _).
  exists t'. split; [reflexivity|]. exact Hrun.
Defined.

(** C28. An iteration whose callback removes the entries it likes visits every
    entry of the map exactly once, and afterwards exactly the entries that were not removed are
    left, the counters agree with them, and no pair waits to be removed. *)
Theorem hashtable_foreach_purges `{HM : Malloc} hash keyObject valueObject canon vcanon
    (HL : TableLaws hash keyObject valueObject canon vcanon) (P : Z → Z → bool) t :
  table_ok hash canon t → foreachRecursionLevel t = 0 → marked_count (pairs t) = 0 →
  Z.of_nat (size (entries canon vcanon t)) < 2 ^ 32 →
  ∃ t' visited,
    HashTable_Foreach keyObject valueObject (purge hash keyObject valueObject canon vcanon P) t [] =
      Ret (true, t', visited) ∧
    visited ≡ₚ map_to_list (entries canon vcanon t) ∧
    entries canon vcanon t' = filter (λ '(k, v), P k v = false) (entries canon vcanon t) ∧
    table_ok hash canon t' ∧ foreachRecursionLevel t' = 0 ∧ marked_count (pairs t') = 0.
Proof.
  intros Hok Hlv Hm Hs.
  destruct (foreach_purges hash keyObject valueObject canon vcanon P t) as (t' & visited & ? & ? & (? & ? & ?) & ?);
    [by split_and!|done|].
  exists t', visited. by split_and!.
Qed.
Lemma hashtable_foreach_purges_witness :
  let HM : Malloc := λ _, true in
  ∃ t' visited,
    HashTable_Foreach pointerObject pointerObject
      (purge HashTable_PointerHash pointerObject pointerObject id id (λ _ v, v =? 7)) example_table [] =
      Ret (true, t', visited) ∧ entries id id t' = {[32 := 9]}.
Proof.
  intros HM. destruct example_idle as (Hok & Hlv & Hm).
  destruct (hashtable_foreach_purges (HM := HM) HashTable_PointerHash pointerObject pointerObject id id pointer_laws
    (λ _ v, v =? 7) example_table Hok Hlv Hm) as (t' & visited & H1 & _ & H2 & _); [by vm_compute|].
  exists t', visited. split; [exact H1|]. rewrite H2. by vm_compute.
Defined.

(** [HashTable_GetKeys] returns the key of every entry once, also during an
    iteration. *)
Theorem hashtable_keys `{HM : Malloc} hash keyObject valueObject canon vcanon
    (HL : TableLaws hash keyObject valueObject canon vcanon) t :
  table_ok hash canon t → Z.of_nat (size (entries canon vcanon t)) < 2 ^ 64 →
  malloc_ok (8 * Z.of_nat (size (entries canon vcanon t))) = true →
  ∃ keys, HashTable_GetKeys t = Ret (Some keys) ∧
    map canon keys ≡ₚ (map_to_list (entries canon vcanon t)).*1.
Proof. intros Hok Hs Hmal. by apply (get_keys_ok hash canon vcanon). Qed.
Lemma hashtable_keys_witness :
  let HM : Malloc := λ _, true in
  ∃ keys, HashTable_GetKeys example_table = Ret (Some keys) ∧ map id keys ≡ₚ [16; 32].
Proof.
  intros HM. destruct example_idle as (Hok & _).
  destruct (hashtable_keys (HM := HM) HashTable_PointerHash pointerObject pointerObject id id pointer_laws example_table Hok)
    as (keys & H1 & H2); [by vm_compute|done|].
  exists keys. split; [exact H1|]. rewrite H2. vm_compute. constructor.
Defined.

(** A callback that returns [FALSE] leaves the table as if the iteration went on
    forever: a later removal neither frees the pair nor takes it out of
    its bucket, and nothing does it after that. *)
Theorem hashtable_foreach_stopped `{HM : Malloc} hash keyObject valueObject canon vcanon
    (HL : TableLaws hash keyObject valueObject canon vcanon) t key :
  table_ok hash canon t → foreachRecursionLevel t = 0 → marked_count (pairs t) = 0 →
  key ≠ 0 → is_Some (entries canon vcanon t !! canon key) →
  ∃ t1 t2, HashTable_Foreach keyObject valueObject stop t () = Ret (false, t1, ()) ∧
    HashTable_Remove hash keyObject valueObject t1 key = Ret (true, t2) ∧
    foreachRecursionLevel t2 = 1 ∧ disposed t2 = disposed t ∧ length (pairs t2) = length (pairs t).
Proof.
  intros Hok Hlv Hm Hk [v Hin]. exists (set_level 1 t).
  pose proof (level_ok hash canon 1 t Hok) as Hok1.
  destruct (lookup_ok hash keyObject valueObject canon vcanon (set_level 1 t) key Hok1)
    as [i l1 p l2 rest Hb Hsp Hl Hkp Hp Hrest Hins|i l Hb Hsp Hl Hi Habs Hins].
  2:{ unfold entries in Hin. by rewrite entries_of_none in Hin. }
  eexists. split_and!.
  - apply (foreach_stopped hash keyObject valueObject canon vcanon); [by split_and!|]. intros He. by rewrite He in Hin.
  - by apply (remove_marks hash keyObject valueObject _ _ i l1 p l2).
  - done.
  - done.
  - unfold pairs at 1. cbn [bucketArray set_counts set_buckets].
    change (pairs t) with (pairs (set_level 1 t)). rewrite Hp.
    etrans; [apply Permutation_length, (Hins [_])|done].
Qed.
Lemma hashtable_foreach_stopped_witness :
  let HM : Malloc := λ _, true in
  ∃ t1 t2, HashTable_Foreach pointerObject pointerObject stop example_table () = Ret (false, t1, ()) ∧
    HashTable_Remove HashTable_PointerHash pointerObject pointerObject t1 16 = Ret (true, t2) ∧
    foreachRecursionLevel t2 = 1.
Proof.
  intros HM. destruct example_idle as (Hok & Hlv & Hm).
  destruct (hashtable_foreach_stopped (HM := HM) HashTable_PointerHash pointerObject pointerObject id id pointer_laws
    example_table 16 Hok Hlv Hm) as (t1 & t2 & H1 & H2 & H3 & _); [done|by vm_compute; eexists|].
  exists t1, t2. by split_and!.
Defined.

(** Removing an entry twice during an iteration succeeds both times and counts it
    twice: [HashTable_Count] is one less than the number of entries. *)
Theorem hashtable_remove_twice `{HM : Malloc} hash keyObject valueObject canon vcanon
    (HL : TableLaws hash keyObject valueObject canon vcanon) t key :
  table_ok hash canon t → foreachRecursionLevel t ≠ 0 → key ≠ 0 →
  is_Some (entries canon vcanon t !! canon key) →
  ∃ t1 t2, HashTable_Remove hash keyObject valueObject t key = Ret (true, t1) ∧
    HashTable_Remove hash keyObject valueObject t1 key = Ret (true, t2) ∧
    entries canon vcanon t1 = delete (canon key) (entries canon vcanon t) ∧
    entries canon vcanon t2 = entries canon vcanon t1 ∧
    HashTable_Count t2 = u64 (Z.of_nat (size (entries canon vcanon t)) - 2).
Proof. apply remove_twice; apply _. Qed.
Lemma hashtable_remove_twice_witness :
  let HM : Malloc := λ _, true in
  ∃ t1 t2, HashTable_Remove HashTable_PointerHash pointerObject pointerObject (set_level 1 example_table) 16 =
      Ret (true, t1) ∧
    HashTable_Remove HashTable_PointerHash pointerObject pointerObject t1 16 = Ret (true, t2) ∧
    HashTable_Count t2 = 0.
Proof.
  intros HM. destruct example_idle as (Hok & _).
  destruct (hashtable_remove_twice (HM := HM) HashTable_PointerHash pointerObject pointerObject id id pointer_laws
    (set_level 1 example_table) 16 (level_ok _ _ _ _ Hok)) as (t1 & t2 & H1 & H2 & _ & _ & H3);
    [done..|by vm_compute; eexists|].
  exists t1, t2. split_and!; [exact H1|exact H2|]. rewrite H3. by vm_compute.
Defined.

(** [HashTable_Clear] of a table with entries during an iteration does not
    return: no number of rounds of its loop is enough. *)
Theorem hashtable_clear_diverges hash keyObject valueObject `{HM : Malloc} fuel t :
  foreachRecursionLevel t ≠ 0 → pairs t ≠ [] →
  HashTable_Clear hash keyObject valueObject fuel t = Abort.
Proof. apply clear_stuck. Qed.
Lemma hashtable_clear_diverges_witness :
  let HM : Malloc := λ _, true in
  HashTable_Clear HashTable_PointerHash pointerObject pointerObject 1000 (set_level 1 example_table) = Abort.
Proof. intros HM. by apply hashtable_clear_diverges. Defined.

(** [HashTable_ContainsValue] tells whether the value is a key. *)
Theorem hashtable_contains_value hash keyObject valueObject canon vcanon
    (HL : TableLaws hash keyObject valueObject canon vcanon) t value :
  HashTable_ContainsValue keyObject t value =
    negb (value =? 0) && bool_decide (is_Some (entries canon vcanon t !! canon value)).
Proof. by apply (contains_value_keys hash keyObject valueObject). Qed.
Lemma hashtable_contains_value_witness :
  HashTable_ContainsValue pointerObject example_table 7 = false ∧
  HashTable_ContainsValue pointerObject example_table 16 = true.
Proof.
  rewrite !(hashtable_contains_value HashTable_PointerHash pointerObject pointerObject id id pointer_laws).
  by vm_compute.
Defined.
